(* ===== verification/_CoqProject ===== *)
-Q . S2P
Prelude.v
CString.v
Match.v
Hash.v
Printf.v
PrintfSpec.v
Array.v
Checks.v
Lists.v
Messages.v
Ipaddr.v
Io.v
IoSpec.v
World.v
ClientCore.v
ConnFunc.v
ConnSpec.v
ChannelCore.v
State.v
ClientSpec.v
IrcWrite.v
Channel.v
ChannelSpec.v
Quit.v
Client.v
Class.v
Conn.v
Servers.v
Parse.v
Reader.v
ReaderSpec.v
System.v
Irc.v
IrcOp.v
IrcInfo.v
IrcChannel.v
IrcMode.v
Predef.v
Login.v
IrcLogin.v
IrcOper.v
IrcServer.v
Commands.v
Startup.v
Accept.v
Link.v
EventLoop.v
FrameTables.v
Dangling.v
Frame.v
FrameState.v
FrameConn.v
FrameHandlers.v
FrameRun.v
FrameCalm.v
FrameAccept.v
FrameLoop.v
LoopSpec.v
MessageSpec.v
ModeSpec.v
ChanModeSpec.v
OperSpec.v
PredefSpec.v
ConfVars.v
ConfFile.v
ConfSpec.v
Rehash.v
ConfPrint.v
Process.v
Host.v
HostSpec.v
ServerApp.v
LifeSpec.v
Sample.v
SampleConf.v
SampleLoop.v
SampleLife.v
