(* ===== verification/Prelude.v ===== *)
(** * Verification of the ngIRCd server

    ngIRCd is an IRC server in C.  One process keeps all state in global tables
    and serves every connection from one event loop, so that a command of a
    client is handled from beginning to end before anything else happens.  The
    interesting part of the program is what such a handler does to the tables
    and whom it tells about it; the dangers are the usual ones of C: linked
    lists whose elements are freed while somebody walks over them, buffers of
    fixed size, and writes that fail half way and tear down the connection the
    handler is working for.

    This development translates the program, from the command line to the exit code and from
    the callback of a socket to the tables and back, into Rocq functions and proves what
    they do.

    ** The program and the files of the development

    Paths are relative to src/src/ (those under include/ to src/).  server/platform/ngircd.c loads the modules, with the help of
    app/host/host.c, reads the options, and starts and stops the server by the functions of
    app/server_app/server_app.c, which use those of net/transport/net_transport.c.
    Then a line of input takes this way through the program:

    - state/connection/io.c waits for descriptors that are ready and calls the
      functions that conn.c has registered for them;
    - state/connection/conn.c accepts connections and makes those to other servers; it reads
      bytes, divides them into lines, and calls
    - server/proto/irc/parse.c, which splits the line, checks who may have sent it
      and calls the handler of the command;
    - the handlers (server/proto/irc/irc*.c, server/core/misc/numeric.c) ask the
      decision functions in server/proto/{join,message,nick,user,login} what to do,
      and a new client goes through state/login/login.c;
    - they change the tables by the functions of state/client/client.c and
      state/channel/channel.c, which use the mask lists of
      server/core/misc/lists.c, the matcher match.c and the hash values hash.c;
    - they send messages by the functions of server/proto/irc/irc-write.c, which
      use the buffered output of conn.c and the flags of conn-func.c.  A failing
      write closes the connection, which destroys its client in client.c, which
      leaves its channels in channel.c, which sends messages again.

    The files, in dependency order:

    - [Prelude]: notations, tactics, generic lemmas.
    - [CString]: support/tool/tool.c, support/portab/{strlcpy,strtok_r,strndup}.c,
      and the functions of the C library that the source uses (printf among them).
    - [Match]: server/core/misc/match.c, against the relation [glob].
    - [Hash]: server/core/misc/hash.c, against a definition of lookup3 on words.
    - [Printf], [PrintfSpec]: support/portab/vsnprintf.c, against what the C standard says.
    - [Array]: server/core/misc/array.c, with an allocator that may fail.
    - [Checks]: the decision functions of the handlers.
    - [Lists]: server/core/misc/lists.c.
    - [Messages]: the formats of server/core/misc/messages.h that are used.
    - [Ipaddr]: support/ipaddr/ng_ipaddr.c and its header.
    - [Io]: state/connection/io.c with the backend for select(2), and proc.h; [IoSpec]: against a map of
      descriptors.
    - [World]: the tables (client.h, channel.h, conn.h, conf.h, parse.h), the
      command monad [M], the interface [ConnIO] and the rules of [wp].
    - [ClientCore], [ChannelCore], [ConnFunc]: the operations of client.c,
      channel.c and conn-func.c that send nothing.
    - [ConnSpec]: the class [ConnIOSpec], what writing to a connection promises.
    - [State]: the invariant [state_ok].
    - [ClientSpec]: contracts of [ClientCore].
    - [IrcWrite]: irc-write.c and its contracts.
    - [Channel]: the rest of channel.c and the log messages of log.c that go to
      clients; [ChannelSpec], [Quit]: their contracts.
    - [Client]: the rest of client.c, and the look-ups of conf.c.
    - [Conn]: output and closing of conn.c; [conn_io] implements [ConnIO], and
      [conn_io_spec] proves that it keeps the promise of [ConnIOSpec].
    - [Class]: server/core/misc/class.c, the G-lines and K-lines.
    - [Servers]: the functions of conf.c that change the configured servers.
    - [Parse]: parse.c, with the command handlers as arguments.
    - [Reader]: reading, dividing into lines, accounting and time-outs of conn.c;
      [ReaderSpec]: its contracts.
    - [System]: what the system answers to conn.c, and
      platform/windows/src/{win32_proc,win32_resolve}.c.
    - The command handlers, a file each: [Irc] (irc.c, op.c, the macros of
      irc-macros.h), [IrcOp], [IrcInfo], [IrcChannel], [IrcMode], [IrcLogin]
      (irc-login.c, irc-cap.c, irc-metadata.c), [IrcOper] (also the signal handler
      of platform/windows/src/win32_sighandlers.c), [IrcServer] (irc-server.c and
      numeric.c); [Login] has login.c.
    - [Predef]: the predefined channels of channel.c, whose modes are MODE requests;
      [PredefSpec]: creating them again.
    - [Commands]: the functions in the command table, and with them the server as
      a whole: [handle_line], [handle_input].
    - [Accept], [Link], [EventLoop]: the rest of conn.c: listening and accepting, connections to
      other servers, the callbacks, and [Conn_Handler], the loop around everything.
    - [FrameTables]: the invariant [tables_ok] of the tables, kept by every operation whatever it
      finds; [Dangling]: the case in which members are left behind that are gone.
    - [Frame], [FrameState], [FrameConn], [FrameHandlers], [FrameRun]: the invariant
      of the connections and their descriptors, and that every operation keeps both
      invariants; [FrameCalm], [FrameAccept], [FrameLoop]: the callbacks and the loop;
      [LoopSpec]: what follows for the server that has been started.
    - [MessageSpec], [ModeSpec], [ChanModeSpec], [OperSpec]: contracts of PRIVMSG and
      NOTICE, of MODE for users and for channels, and of OPER, DIE, RESTART, REHASH.
    - [ConfVars], [ConfFile]: the variables that the configuration file sets, and the
      rest of server/core/config/conf.c: reading, validating and printing them;
      [ConfSpec], [ConfPrint]: its contracts.
    - [Rehash]: reading the configuration while the server runs
      (state/process/sighandlers.c), and testing it.
    - [Startup]: how client.c, channel.c and the signals begin and end.
    - [Process]: what surrounds the tables: the global variables of ngircd.h, the ways in which a
      process ends (the monad [Proc]), and net/transport/net_transport.c.
    - [Host]: app/host/host.c and the tables of functions of include/; what the managed
      modules app/config/Config.cs and app/logging/Logging.cs put into theirs; [HostSpec]:
      the contract of the loader.
    - [ServerApp]: server_app.c, ngircd.c, legacy_impl/server_runtime/ngircd_daemon.c,
      platform/windows/src/win32_main.c; [LifeSpec]: the program from main on.
    - [Sample], [SampleConf]: a small network and a configuration that satisfy all
      hypotheses, and the theorems applied to them; [SampleLoop]: a server that is started, to
      which a client connects and logs in; [SampleLife]: the whole program with that
      configuration, its options and its restart.

    ** How the C program is represented

    The global variables are the record [World]: [Tables] (clients, channels,
    memberships, history, configured servers, command table) and [Net]
    (connections and counters).  A command is a function from a world to a
    result and a world, or a crash with its reason: [M A].  Definitions follow
    the C functions statement by statement, with their assertions and in their
    order of evaluation; local buffers are strings that are cut where the C code
    cuts them ([strlcpy], [snprintf], [strlcat]).

    A pointer to a client or a channel is an address; addresses are not reused
    after free, so that following a dangling pointer is a visible fault
    ([UseAfterFree]) and not a read of something else.  [NULL] is [None].  A linked
    list is the list of the addresses of its elements; a membership has no
    identity beyond its position, and a pointer to one is the rest of the list.
    The output of a connection is what send(2) has accepted and what waits in the
    write buffer, together its [stream].  What send(2) answers is a function in
    the state of the network, [n_send].

    Integers are unbounded where the values are small counters; hash values
    wrap at 32 bits, sizes at 64 bits ([Array]), times that are printed as int are
    cut ([to_int]).

    Three conventions of the handlers (and one of MODE: an empty parameter that is read
    as a mode string is the text behind the request in the read buffer, [mode_text]): a walk over the memberships of a channel or
    a client that only sends messages goes over the list as it was at the
    beginning, so that it does not show what happens when a failing write frees
    the next element; a parameter that MODE uses as an argument is not
    overwritten, since it is not read again; and a signal is handled where it is
    raised.

    The mutual recursion between writing, closing and destroying is broken by
    the class [ConnIO].  [conn_io rand n] implements it for chains of at most [n]
    nested closings; beyond that it crashes with [OutOfFuel].  Loops over a
    list that changes meanwhile carry a fuel of the length of the list; loops of
    other kinds carry a bound that is proved to be enough ([gen_token], [hop],
    [tokens]).  A theorem about such a function always states the result, never
    only what a result would be.

    ** What is proved

    The contracts of stateful operations have the form: in a state that
    satisfies [state_ok] (and [channels_ok] for the channel table) the operation
    does not crash, ends in this result and these tables, appends exactly these
    lines to the streams of exactly these connections ([delivered]), and the
    invariant holds again.  [state_ok] includes that the network accepts what is
    sent ([accepts]); only the theorem on [Handle_Write] speaks of failing and
    partial writes.

    - The server as a whole, whatever clients send and whatever the system answers: from the
      start on, after any number of rounds of the event loop, every connection has a
      slot, a descriptor that is watched and at most one resolver, the numbers of connections
      are right, and no assertion about descriptors fails; and the tables are
      consistent: what is linked exists, once, with the right hash value, texts fit their
      fields, members are on channels that exist, names of channels are unique ([LoopSpec]).
      The same holds for the program from main on, with any command line, any configuration and
      any libraries that the loader accepts for the other modules ([LifeSpec]).
      These theorems allow other faults (they are the subject of those below).  They need
      no [state_ok].  One thing is not consistent, the
      client of a membership may be gone ([Dangling]).
    - Start and end: which modules the host loads, where it stops, and what it reports then
      ([HostSpec]); RESTART ends the program instead of starting the server again, because
      its PID file still exists ([LifeSpec]).
    - The descriptors: registering, changing and closing them implements a map from
      descriptors to events ([IoSpec]), and one dispatch calls the callbacks of
      the ready descriptors in ascending order ([LoopSpec]).
    - Channels: joining creates a missing channel and adds one membership;
      parting and kicking remove one and tell every local member and every
      server behind which there are members once; a kick happens only with the
      privileges that are required, and otherwise the one error that fits is
      sent; quitting leaves all channels and tells the members that are connected to this
      server; empty channels disappear; who may speak
      in a channel ([ChannelSpec], [Quit]).
    - Messages: who gets a message to a channel or to the servers, and with which
      prefix ([IrcWrite]); lines end in CR LF within 512 bytes and are appended
      to one stream ([Conn]); a partial write loses nothing.
    - Requests: printing and parsing are inverse; a prefix is accepted exactly
      from the direction of its client; a handler is called exactly if its command,
      the client's type and the number of parameters allow it ([Parse]).
    - Reading: a read buffer is divided into the lines that the concatenated input
      consists of, whatever the portions in which it arrives, empty lines count
      nothing, and r rounds with room for n lines handle the first r * n lines in
      order ([ReaderSpec]).
    - PRIVMSG and NOTICE: the exact lines that a list of targets causes; the only reply to a
      NOTICE is that there are too many targets; a NOTICE without text crashes the server ([MessageSpec]).
    - Modes and privileges: MODE of a user ends, changes only the own modes (the first +x
      is left out: it stores the cloaked host name), and only by steps that are allowed; without privileges in a channel MODE
      changes nothing there; behind an empty parameter MODE reads on in the read buffer ([ModeSpec],
      [ChanModeSpec]).  OPER needs name, password and host mask; DIE, RESTART and
      REHASH need the operator mode, and REHASH stops the server ([OperSpec]).
    - Configuration: whatever the files contain, reading them keeps the bounds of all
      variables, and ends the process only in the cases that are listed; which default modes
      fail an assertion; where mode lines are written behind an array ([ConfSpec]); the
      operators that are printed are read back ([ConfPrint]).  Reading the configuration
      again reads freed mode lines if a predefined channel has disappeared
      ([PredefSpec]), and loses the name of the server if the new configuration is not valid
      ([Rehash]).
    - Searches by hash value find the entry that a comparison of names finds;
      tokens are fresh; routes end; mode strings are sets; nicknames and channel
      names follow their grammars ([ClientSpec], [ChannelSpec]).
    - The matcher accepts only texts that the pattern stands for, and all of them
      for patterns outside of a class where it is known to fail; where it fails
      ([Match]).
    - Formatting: the state machine of vsnprintf.c ends and prints what the C standard says, for the
      conversions that are listed; examples show where it does something else.  The function
      [sprintf] that all other files use for printing is the same ([PrintfSpec]).
    - The string, array, hash and list modules, and the decision functions, on all
      branches ([CString], [Array], [Lists], [Checks]); the hash function is
      lookup3 on every key ([Hash]).

    ** Assumptions and limits

    The configuration is the one of platform/windows/include/config.h: IRCPLUS,
    without STRICT_RFC, zlib, SSL, iconv, PAM, ident, syslog and sniffer; SIGHUP is
    SIGBREAK (win32compat.h).  malloc and strdup succeed, except in
    [Array] and [Lists], where this is a parameter.  The clock does not advance
    during a handler.  LogDebug is represented only by the calls of [Client_ID]
    among its arguments, whose assertion can fail; Log only by the notices it
    sends to clients.  The random number in Conf_UnsetServer is a parameter of
    [conn_io].  Static result buffers are values: no caller in the modelled code
    keeps one across a second call.

    What the program reads from outside is an argument: what send(2) answers and
    the bytes that have arrived are part of the state, the lines of a key file are
    the function [read_lines], the contents of configuration files and directories are
    functions of their names, random numbers are arguments, local times are
    printed by [strftime_local].

    The system: socket, accept and dup never return a descriptor that is
    registered in io.c ([new_fd]); the clock advances only while the server waits in select(2); select
    reports descriptors it was asked about.  These are the arguments and laws of [System].
    [Printf] is for an int of 32 bits and a long of 64.

    The loop [Conn_Handler] runs for a number of rounds that is an argument; theorems are about
    every number.  A program that is in this loop after so many rounds has the outcome
    [Running].  In the same way [main] is given the number of lives after which it crashes
    with [OutOfFuel].

    The modules that the host loads are an argument, with the tables they offer: the table of
    the transport module of this program is [NetTransportApi], those of the managed modules
    are [managed_config] and [managed_logging].  The theorem on the whole program says which it needs.
    What the system answers while the program starts (the name of the host, chdir, fork, users,
    random numbers) is the class [OS]; of files, the state has only which exist.
    Listening sockets come from the configuration and not from a service manager.

    ** Not modelled

    - TLS (conn-ssl.c), PAM (pam.c), character sets (conn-encoding.c) and compression
      (conn-zip.c): they are not compiled in this configuration, and consist of
      calls of libraries.
    - The backends of io.c for other systems than the one of the configuration.
    - Users, groups and the rest of becoming a daemon on Unix, the registration of signal
      handlers, proc.c and resolve.c of Unix: calls of the system in a row, with no
      state that the rest of the program uses.
    - net/resolver/resolver.c, core/runtime/core_runtime.c, server/core/module/module_iface.c and
      the modules that only describe themselves (protocol/, state/client_state,
      state/channel_state): the server does not call them, or only to pass on log messages.
    - In vsnprintf.c, floating-point numbers (the arithmetic of the C
      implementation, and no message uses them) and pointers; ansi2knr.c is a tool of the
      build.
    - Output that nobody reads back: syslog, debug dumps, the texts of --help and --version, the terminal of
      Conf_Test.

    The settings reach the rest of the program as the class [Conf], which [conf_of] takes from the
    configuration that has been read. *)

(** ** Shared prelude *)

From Stdlib Require Export ZArith Ascii String Lia.
From stdpp Require Export base gmap strings list fin_maps option numbers.

#[global] Set Default Goal Selector "!".

Declare Scope ngircd_scope.
Delimit Scope ngircd_scope with ng.
Open Scope string_scope.
Open Scope list_scope.
Open Scope Z_scope.
Open Scope ngircd_scope.

(** The automation databases of the development: [cstr] rewrites string
    operations, [wp] resolves specifications of stateful operations. *)
Create Rewrite HintDb cstr.
Create HintDb wp.

(** ** Characters *)

(** The byte 0, the terminator of C strings. *)
Definition NUL : ascii := Ascii.zero.

(** Equality of characters as a boolean test. *)
Notation "a =c b" := (Ascii.eqb a b) (at level 70, no associativity) : ngircd_scope.

(** Case analysis over all 256 characters. *)
Ltac all_chars c := destruct c as [[] [] [] [] [] [] [] []]; try reflexivity.

(** Splits boolean connectives in hypotheses and turns character tests into
    equations. *)
Ltac bool_simp :=
  repeat match goal with
  | H : (_ && _)%bool = true |- _ => apply andb_prop in H as [? ?]
  | H : (_ || _)%bool = false |- _ => apply orb_false_elim in H as [? ?]
  | H : negb _ = true |- _ => apply negb_true_iff in H
  | H : negb _ = false |- _ => apply negb_false_iff in H
  | H : (_ =c _) = true |- _ => apply Ascii.eqb_eq in H
  | H : (_ =c _) = false |- _ => apply Ascii.eqb_neq in H
  | H : String.eqb _ _ = true |- _ => apply String.eqb_eq in H
  | H : String.eqb _ _ = false |- _ => apply String.eqb_neq in H
  | H : (_ =? _)%Z = true |- _ => apply Z.eqb_eq in H
  | H : (_ =? _)%Z = false |- _ => apply Z.eqb_neq in H
  | H : (_ <? _)%Z = true |- _ => apply Z.ltb_lt in H
  | H : (_ <? _)%Z = false |- _ => apply Z.ltb_ge in H
  | H : (_ <=? _)%Z = true |- _ => apply Z.leb_le in H
  | H : (_ <=? _)%Z = false |- _ => apply Z.leb_gt in H
  end.

(** Two lookups at the same place give the same value. *)
Ltac same_some :=
  repeat match goal with
  | H1 : ?a = Some ?x, H2 : ?a = Some ?y |- _ =>
      assert (x = y) by congruence; clear H2; first [subst y|subst x]
  | H : Some ?x = Some ?y |- _ =>
      assert (x = y) by congruence; clear H; first [subst y|subst x]
  end.

(** ** Strings as sequences of characters *)

Abbreviation slen := String.length.

#[global] Arguments String.append !_ _ /.

Fixpoint str_take (n : nat) (s : string) : string :=
  match n, s with
  | S n', String c s' => String c (str_take n' s')
  | _, _ => ""
  end.

Fixpoint str_drop (n : nat) (s : string) : string :=
  match n, s with
  | S n', String _ s' => str_drop n' s'
  | O, _ => s
  | _, "" => ""
  end.

(** [s[0]] of a C string: the first character, or the terminator. *)
Definition hd0 (s : string) : ascii :=
  match s with "" => NUL | String c _ => c end.

Fixpoint str_map (f : ascii -> ascii) (s : string) : string :=
  match s with "" => "" | String c s' => String (f c) (str_map f s') end.

Fixpoint str_mem (c : ascii) (s : string) : bool :=
  match s with "" => false | String a s' => (a =c c) || str_mem c s' end.

Fixpoint str_forall (P : ascii -> bool) (s : string) : bool :=
  match s with "" => true | String a s' => P a && str_forall P s' end.

Fixpoint str_nodup (s : string) : bool :=
  match s with "" => true | String a s' => negb (str_mem a s') && str_nodup s' end.

(** Text with double quotes, written as backquotes in string literals. *)
Definition dq (s : string) : string :=
  str_map (fun c => if c =c "`"%char then "034"%char else c) s.

Lemma str_app_nil_r s : s +:+ "" = s.
Proof. induction s as [|c s IH]; simpl; congruence. Qed.

Lemma str_app_assoc s1 s2 s3 : s1 +:+ (s2 +:+ s3) = (s1 +:+ s2) +:+ s3.
Proof. induction s1 as [|c s IH]; simpl; congruence. Qed.

Lemma slen_app s1 s2 : slen (s1 +:+ s2) = (slen s1 + slen s2)%nat.
Proof. induction s1 as [|c s IH]; simpl; congruence. Qed.

Lemma slen_take n s : slen (str_take n s) = Nat.min n (slen s).
Proof. revert n; induction s as [|c s IH]; intros [|n]; simpl; auto. Qed.

Lemma slen_map f s : slen (str_map f s) = slen s.
Proof. induction s as [|c s IH]; simpl; congruence. Qed.

Lemma str_take_all n s : (slen s <= n)%nat -> str_take n s = s.
Proof.
  revert n; induction s as [|c s IH]; intros [|n] Hn; simpl in *; try lia; auto.
  f_equal. apply IH. lia.
Qed.

Lemma str_take_drop n s : str_take n s +:+ str_drop n s = s.
Proof. revert n; induction s as [|c s IH]; intros [|n]; simpl; congruence. Qed.

Lemma slen_drop n s : slen (str_drop n s) = (slen s - n)%nat.
Proof. revert n; induction s as [|c s IH]; intros [|n]; simpl; auto. Qed.

Lemma str_take_map f n s : str_take n (str_map f s) = str_map f (str_take n s).
Proof. revert n; induction s as [|c s IH]; intros [|n]; simpl; congruence. Qed.

Lemma str_take_take n m s : (n <= m)%nat -> str_take n (str_take m s) = str_take n s.
Proof.
  revert n m. induction s as [|c s IH]; intros [|n] [|m] H; simpl; try done; [lia|].
  f_equal. apply IH. lia.
Qed.

Lemma str_take_app_le n s1 s2 : (n <= slen s1)%nat -> str_take n (s1 +:+ s2) = str_take n s1.
Proof.
  revert n; induction s1 as [|c s IH]; intros [|n] Hn; simpl in *; try lia; auto.
  f_equal. apply IH. lia.
Qed.

Lemma str_mem_app c s1 s2 : str_mem c (s1 +:+ s2) = str_mem c s1 || str_mem c s2.
Proof. induction s1 as [|a s IH]; simpl; [done|]. rewrite IH. by rewrite orb_assoc. Qed.

Lemma str_forall_app P s1 s2 : str_forall P (s1 +:+ s2) = str_forall P s1 && str_forall P s2.
Proof. induction s1 as [|a s IH]; simpl; [done|]. rewrite IH. by rewrite andb_assoc. Qed.

Lemma str_mem_take c n s : str_mem c (str_take n s) = true -> str_mem c s = true.
Proof.
  revert n; induction s as [|a s IH]; intros [|n]; simpl; try done.
  intros [H|H]%orb_prop; [by rewrite H|]. rewrite (IH n H). by rewrite orb_true_r.
Qed.

Lemma str_mem_drop c n s : str_mem c (str_drop n s) = true -> str_mem c s = true.
Proof.
  revert n; induction s as [|a s IH]; intros [|n]; simpl; try done.
  intros H. rewrite (IH n H). by rewrite orb_true_r.
Qed.

Lemma str_forall_mem P c s : str_forall P s = true -> str_mem c s = true -> P c = true.
Proof.
  induction s as [|a s IH]; simpl; [done|].
  intros [Ha Hs]%andb_prop [H|H]%orb_prop; [|auto].
  apply Ascii.eqb_eq in H. congruence.
Qed.

Lemma str_nodup_app s1 s2 :
  str_nodup (s1 +:+ s2) = true <->
  str_nodup s1 = true /\ str_nodup s2 = true /\
  (forall c, str_mem c s1 = true -> str_mem c s2 = false).
Proof.
  induction s1 as [|a s IH]; simpl.
  - split; [intros H; repeat split; auto; done|intros (?&?&?); auto].
  - rewrite !andb_true_iff, IH, !negb_true_iff, str_mem_app. split.
    + intros [[H1 H2]%orb_false_elim (H3 & H4 & H5)]. repeat split; auto.
      intros c [Hc%Ascii.eqb_eq|Hc]%orb_prop; subst; auto.
    + intros ((H1 & H2) & H3 & H4). repeat split; auto.
      * rewrite H1. simpl. apply H4. by rewrite Ascii.eqb_refl.
      * intros c Hc. apply H4. rewrite Hc. apply orb_true_r.
Qed.

#[export] Hint Rewrite str_app_nil_r slen_app slen_take slen_map slen_drop
  str_mem_app str_forall_app : cstr.

(** ** Options and lists *)

Definition from_opt {A} (d : A) (o : option A) : A :=
  match o with Some a => a | None => d end.

(** The first element that satisfies a boolean test. *)
Fixpoint lfind {A} (f : A -> bool) (l : list A) : option A :=
  match l with [] => None | x :: l' => if f x then Some x else lfind f l' end.

Lemma lfind_Some {A} (f : A -> bool) l x :
  lfind f l = Some x -> x ∈ l /\ f x = true.
Proof.
  induction l as [|y l IH]; simpl; [done|].
  destruct (f y) eqn:Hy.
  - intros [= ->]. split; [left|done].
  - intros H. destruct (IH H). split; [by right|done].
Qed.

Lemma lfind_None {A} (f : A -> bool) l :
  lfind f l = None <-> forall x, x ∈ l -> f x = false.
Proof.
  induction l as [|y l IH]; simpl.
  - split; [intros _ x Hx; by apply elem_of_nil in Hx|done].
  - destruct (f y) eqn:Hy.
    + split; [done|]. intros H. rewrite H in Hy by left. done.
    + rewrite IH. split.
      * intros H x [->|Hx]%elem_of_cons; auto.
      * intros H x Hx. apply H. by right.
Qed.

Lemma lfind_ext {A} (f g : A -> bool) l :
  (forall x, x ∈ l -> f x = g x) -> lfind f l = lfind g l.
Proof.
  induction l as [|y l IH]; intros H; simpl; [done|].
  rewrite (H y) by left. destruct (g y); [done|].
  apply IH. intros x Hx. apply H. by right.
Qed.

(** Number of elements that satisfy a boolean test. *)
Fixpoint count_if {A} (f : A -> bool) (l : list A) : Z :=
  match l with [] => 0 | x :: l' => (if f x then 1 else 0) + count_if f l' end.

Lemma count_if_nonneg {A} (f : A -> bool) l : 0 <= count_if f l.
Proof. induction l as [|x l IH]; simpl; [lia|]. destruct (f x); lia. Qed.

Lemma count_if_app {A} (f : A -> bool) l1 l2 :
  count_if f (l1 ++ l2) = count_if f l1 + count_if f l2.
Proof. induction l1 as [|x l IH]; simpl; [lia|]. rewrite IH. lia. Qed.

Lemma count_if_zero {A} (f : A -> bool) l :
  count_if f l = 0 <-> forall x, x ∈ l -> f x = false.
Proof.
  induction l as [|y l IH]; simpl.
  - split; [intros _ x Hx; by apply elem_of_nil in Hx|done].
  - pose proof (count_if_nonneg f l). destruct (f y) eqn:Hy.
    + split; [lia|]. intros H'. rewrite H' in Hy by left. done.
    + rewrite Z.add_0_l, IH. split.
      * intros Hl x [->|Hx]%elem_of_cons; auto.
      * intros Hl x Hx. apply Hl. by right.
Qed.

(** Removal of the first element that satisfies a test: the effect of
    unlinking one cell of a singly linked list. *)
Fixpoint remove_first {A} (f : A -> bool) (l : list A) : list A :=
  match l with [] => [] | x :: l' => if f x then l' else x :: remove_first f l' end.

Lemma remove_first_subset {A} (f : A -> bool) l x : x ∈ remove_first f l -> x ∈ l.
Proof.
  induction l as [|y l IH]; simpl; [done|].
  destruct (f y); [by right|]. intros [->|H]%elem_of_cons; [left|right; auto].
Qed.

Lemma remove_first_keep {A} (f : A -> bool) l x :
  f x = false -> x ∈ l -> x ∈ remove_first f l.
Proof.
  intros Hf. induction l as [|y l IH]; simpl; [done|].
  intros [->|H]%elem_of_cons.
  - rewrite Hf. left.
  - destruct (f y); [done|right; auto].
Qed.

Lemma remove_first_sublist {A} (f : A -> bool) (l : list A) :
  sublist (remove_first f l) l.
Proof.
  induction l as [|y l IH]; simpl; [done|].
  destruct (f y); [by apply sublist_cons|by apply sublist_skip].
Qed.

Lemma Forall_sublist {A} (P : A -> Prop) l1 l2 : sublist l1 l2 -> Forall P l2 -> Forall P l1.
Proof. induction 1; intros HP; [constructor| |]; inversion HP; subst; auto. Qed.
