(* ===== verification/CString.v ===== *)
(** * C strings: the string functions of ngIRCd

    The string handling that every component uses: the functions of
    [src/support/tool/tool.c], the replacements [strlcpy], [strlcat],
    [strtok_r] and [strndup] of [src/support/portab], and the functions of the
    C library the source calls ([strchr], [strcasecmp], [strspn], [tolower],
    [atoi], [printf]).

    A C string is the [string] of the bytes before its terminator; a pointer
    into a string is the suffix it points at; a pointer that may be NULL is an
    [option].  A function that rewrites a buffer in place returns the new
    content of the buffer. *)

From S2P Require Import Prelude.

(** ** The C library *)

Section ctype.
(** The "C" locale: only the ASCII letters have a case. *)
Definition is_upper (c : ascii) : bool :=
  (65 <=? Z.of_N (N_of_ascii c)) && (Z.of_N (N_of_ascii c) <=? 90).
Definition is_lower (c : ascii) : bool :=
  (97 <=? Z.of_N (N_of_ascii c)) && (Z.of_N (N_of_ascii c) <=? 122).
Definition is_digit (c : ascii) : bool :=
  (48 <=? Z.of_N (N_of_ascii c)) && (Z.of_N (N_of_ascii c) <=? 57).
Definition tolower (c : ascii) : ascii :=
  if is_upper c then ascii_of_N (N_of_ascii c + 32) else c.
Definition toupper (c : ascii) : ascii :=
  if is_lower c then ascii_of_N (N_of_ascii c - 32) else c.
End ctype.

Definition strlen (s : string) : Z := Z.of_nat (slen s).

(** [strchr(s, c)]; the terminator is part of the string. *)
Fixpoint strchr (s : string) (c : ascii) : option string :=
  match s with
  | "" => if c =c NUL then Some "" else None
  | String a s' => if a =c c then Some s else strchr s' c
  end.

(** [strrchr(s, c)] *)
Fixpoint strrchr (s : string) (c : ascii) : option string :=
  match s with
  | "" => if c =c NUL then Some "" else None
  | String a s' =>
      match strrchr s' c with
      | Some p => Some p
      | None => if a =c c then Some s else None
      end
  end.

(** The part of a string before the first occurrence of [c]: what is left in
    a buffer after [if ((p = strchr(s, c))) *p = '\0']. *)
Fixpoint before (c : ascii) (s : string) : string :=
  match s with
  | "" => ""
  | String a s' => if a =c c then "" else String a (before c s')
  end.

(** The part after the first occurrence of [c], if there is one. *)
Definition after (c : ascii) (s : string) : option string :=
  match strchr s c with Some (String _ s') => Some s' | _ => None end.

Definition is_some {A} (o : option A) : bool :=
  match o with Some _ => true | None => false end.

(** [strchr(s, c) != NULL] *)
Definition has_chr (s : string) (c : ascii) : bool := is_some (strchr s c).

Fixpoint strspn (s accept : string) : nat :=
  match s with
  | "" => 0%nat
  | String a s' => if str_mem a accept then S (strspn s' accept) else 0%nat
  end.

Fixpoint strcspn (s reject : string) : nat :=
  match s with
  | "" => 0%nat
  | String a s' => if str_mem a reject then 0%nat else S (strcspn s' reject)
  end.

Definition lower (s : string) : string := str_map tolower s.

(** [strcasecmp(a, b) == 0] *)
Definition strcaseeq (a b : string) : bool := String.eqb (lower a) (lower b).

(** [strncmp(a, b, n) == 0] *)
Definition strneq (a b : string) (n : nat) : bool :=
  String.eqb (str_take n a) (str_take n b).

(** Decimal digits of [atoi] and [atol]. *)
Fixpoint digits (s : string) (acc : Z) : Z :=
  match s with
  | "" => acc
  | String c s' =>
      if is_digit c then digits s' (10 * acc + (Z.of_N (N_of_ascii c) - 48)) else acc
  end.

Definition is_space (c : ascii) : bool :=
  (c =c " "%char) || ((9 <=? Z.of_N (N_of_ascii c)) && (Z.of_N (N_of_ascii c) <=? 13)).

Fixpoint skip_space (s : string) : string :=
  match s with
  | String c s' => if is_space c then skip_space s' else s
  | "" => ""
  end.

(** [atol(s)] and [atoi(s)], for numbers in the range of the result type. *)
Definition atol (s : string) : Z :=
  match skip_space s with
  | String c s' =>
      if c =c "-"%char then - digits s' 0
      else if c =c "+"%char then digits s' 0
      else digits (String c s') 0
  | "" => 0
  end.

(** *** Formatted output *)

Definition digit_chr (d : Z) : ascii :=
  ascii_of_N (Z.to_N (if d <? 10 then 48 + d else 87 + d)).

Fixpoint print_nat_aux (base : Z) (fuel : nat) (n : Z) (acc : string) : string :=
  match fuel with
  | O => acc
  | S fuel' =>
      let acc' := String (digit_chr (n mod base)) acc in
      if n <? base then acc' else print_nat_aux base fuel' (n / base) acc'
  end.

(** Digits of [n] in the given base; [Z.log2 n + 1] steps are enough. *)
Definition print_base (base n : Z) : string :=
  if n <? 0 then String "-" (print_nat_aux base (S (Z.to_nat (Z.log2 (- n)))) (- n) "")
  else print_nat_aux base (S (Z.to_nat (Z.log2 n))) n "".

(** Arguments of a variadic call. *)
Inductive farg := FS (s : string) | FZ (z : Z) | FC (c : ascii).

Definition fmt_arg (conv : ascii) (a : farg) : string :=
  match a with
  | FS s => s
  | FZ z => print_base (if conv =c "x"%char then 16 else 10) z
  | FC c => String c ""
  end.

(** The conversion [%02u] pads a digit. *)
Definition pad2 (s : string) : string := if (slen s <? 2)%nat then "0" +:+ s else s.

(** [sprintf]: the conversions that the messages of the source use, [%s],
    [%c], [%d], [%u], [%x], their [l] forms, [%02u] and [%%]. *)
Fixpoint sprintf (f : string) (args : list farg) : string :=
  match f with
  | "" => ""
  | String p f' =>
      if p =c "%"%char then
        match f' with
        | "" => ""
        | String "%" f'' => String "%" (sprintf f'' args)
        | String "0" (String "2" (String k f'')) =>
            match args with
            | a :: args' => pad2 (fmt_arg k a) +:+ sprintf f'' args'
            | [] => sprintf f'' []
            end
        | String "l" (String k f'') =>
            match args with
            | a :: args' => fmt_arg k a +:+ sprintf f'' args'
            | [] => sprintf f'' []
            end
        | String k f'' =>
            match args with
            | a :: args' => fmt_arg k a +:+ sprintf f'' args'
            | [] => sprintf f'' []
            end
        end
      else String p (sprintf f' args)
  end.

(** [vsnprintf(buffer, size, ...)]: the content of the buffer. *)
Definition snprintf (size : nat) (f : string) (args : list farg) : string :=
  str_take (size - 1) (sprintf f args).

(** ** src/support/portab *)

(** [strlcpy(dst, src, size)] for [size > 0]: the new content of [dst]. *)
Definition strlcpy (src : string) (size : nat) : string := str_take (size - 1) src.

(** [strlcat(dst, src, size)]: the new content of [dst]. *)
Definition strlcat (dst src : string) (size : nat) : string :=
  let len1 := slen dst in
  let len2 := slen src in
  if (negb (size =? 0)%nat && (len1 <? size - 1)%nat)%bool then
    let len2' := if (size - len1 <=? len2)%nat then (size - len1 - 1)%nat else len2 in
    dst +:+ str_take len2' src
  else dst.

(** [strtok_r(str, delim, &saveptr)]: the token and the saved rest. *)
Definition strtok_r (str delim : string) : option (string * string) :=
  let str := str_drop (strspn str delim) str in
  match str with
  | "" => None
  | _ =>
      let n := strcspn str delim in
      let tmp := str_drop n str in
      Some (str_take n str, match tmp with "" => "" | String _ t => t end)
  end.

(** [strndup(s, maxlen)] *)
Definition strndup (s : string) (maxlen : nat) : string :=
  let len := if (maxlen <? slen s)%nat then maxlen else slen s in
  strlcpy s (S len).

(** The tokens that successive calls of [strtok] or [strtok_r] produce. *)
Fixpoint strtok_fuel (fuel : nat) (str delim : string) : list string :=
  match fuel with
  | O => []
  | S fuel' =>
      match strtok_r str delim with
      | None => []
      | Some (tok, rest) => tok :: strtok_fuel fuel' rest delim
      end
  end.

Definition tokens (str delim : string) : list string :=
  strtok_fuel (S (slen str)) str delim.

(** ** src/support/tool/tool.c *)

Definition is_ws (c : ascii) : bool :=
  (c =c " "%char) || (c =c "009"%char) || (c =c "010"%char) || (c =c "013"%char).

Fixpoint trim_start (s : string) : string :=
  match s with
  | String c s' => if is_ws c then trim_start s' else s
  | "" => ""
  end.

(** The loop that moves [end] back over trailing white space. *)
Fixpoint trim_end (s : string) : string :=
  match s with
  | "" => ""
  | String c s' =>
      match trim_end s' with
      | "" => if is_ws c then "" else String c ""
      | r => String c r
      end
  end.

Definition ngt_TrimStr (s : string) : string :=
  let start := trim_start s in
  match start with "" => "" | _ => trim_end start end.

Definition ngt_UpperStr (s : string) : string := str_map toupper s.

Definition ngt_LowerStr (s : string) : string := str_map tolower s.

Definition ngt_TrimLastChr (s : string) (Chr : ascii) : string :=
  let len := slen s in
  if (len =? 0)%nat then s
  else match String.get (len - 1) s with
       | Some c => if c =c Chr then str_take (len - 1) s else s
       | None => s
       end.

(** ** Facts about characters and case *)

Lemma tolower_idemp c : tolower (tolower c) = tolower c.
Proof. all_chars c. Qed.

Lemma tolower_NUL c : tolower c = NUL <-> c = NUL.
Proof. split; [all_chars c; discriminate|intros ->; reflexivity]. Qed.

Lemma lower_idemp s : lower (lower s) = lower s.
Proof.
  induction s as [|c s IH]; [done|]. cbn. fold (lower s).
  rewrite tolower_idemp. f_equal. exact IH.
Qed.

Lemma slen_lower s : slen (lower s) = slen s.
Proof. apply slen_map. Qed.

(** Case-insensitive equality is an equivalence; names, nicknames and masks
    are compared modulo this relation. *)
Definition case_eq (a b : string) : Prop := lower a = lower b.

#[export] Instance case_eq_equiv : Equivalence case_eq.
Proof.
  split; unfold case_eq.
  - intros a. reflexivity.
  - intros a b H. by symmetry.
  - intros a b c H1 H2. congruence.
Qed.

Lemma strcaseeq_spec a b : strcaseeq a b = true <-> case_eq a b.
Proof. apply String.eqb_eq. Qed.

Lemma strcaseeq_refl a : strcaseeq a a = true.
Proof. by apply strcaseeq_spec. Qed.

Lemma strcaseeq_sym a b : strcaseeq a b = strcaseeq b a.
Proof. apply String.eqb_sym. Qed.

#[export] Instance strcaseeq_proper : Proper (case_eq ==> case_eq ==> eq) strcaseeq.
Proof. intros a a' Ha b b' Hb. unfold strcaseeq. by rewrite Ha, Hb. Qed.

Lemma strcaseeq_left a b c : strcaseeq a b = true -> strcaseeq a c = strcaseeq b c.
Proof. intros H%strcaseeq_spec. by rewrite H. Qed.

#[export] Instance slen_case_proper : Proper (case_eq ==> eq) slen.
Proof. intros a b H. rewrite <- slen_lower, <- (slen_lower b). by f_equal. Qed.

(** ** Facts about [strchr] *)

Lemma strchr_mem s c : c <> NUL -> has_chr s c = str_mem c s.
Proof.
  intros Hc. unfold has_chr. induction s as [|a s IH]; simpl.
  - destruct (c =c NUL) eqn:E; [by apply Ascii.eqb_eq in E|done].
  - destruct (a =c c); [done|exact IH].
Qed.

Lemma has_chr_NUL s : has_chr s NUL = true.
Proof. unfold has_chr. induction s as [|a s IH]; simpl; [done|]. by destruct (a =c NUL). Qed.

Lemma before_nomem c s : str_mem c s = false -> before c s = s.
Proof.
  induction s as [|a s IH]; simpl; [done|].
  intros [-> H]%orb_false_elim. f_equal. auto.
Qed.

Lemma before_not_mem c s : str_mem c (before c s) = false.
Proof. induction s as [|a s IH]; simpl; [done|]. destruct (a =c c) eqn:E; simpl; [done|by rewrite E]. Qed.

Lemma before_after c s r : after c s = Some r -> s = before c s +:+ String c r.
Proof.
  unfold after. revert r. induction s as [|a s IH]; intros r; simpl.
  - by destruct (c =c NUL).
  - destruct (a =c c) eqn:E.
    + apply Ascii.eqb_eq in E as ->. by intros [= ->].
    + intros H. simpl. f_equal. auto.
Qed.

(** ** Buffer bounds *)

Lemma strlcpy_bound s n : (0 < n)%nat -> (slen (strlcpy s n) < n)%nat.
Proof. intros Hn. unfold strlcpy. rewrite slen_take. lia. Qed.

Lemma strlcpy_fits s n : (slen s < n)%nat -> strlcpy s n = s.
Proof. intros H. apply str_take_all. lia. Qed.

Lemma strlcpy_lower s n : lower (strlcpy s n) = strlcpy (lower s) n.
Proof. symmetry. apply str_take_map. Qed.

#[export] Instance strlcpy_case_proper : Proper (case_eq ==> eq ==> case_eq) strlcpy.
Proof. intros a b H n _ <-. unfold case_eq. rewrite !strlcpy_lower. by rewrite H. Qed.

Lemma strlcat_take dst src n :
  (slen dst < n)%nat -> strlcat dst src n = str_take (n - 1) (dst +:+ src).
Proof.
  intros Hn. unfold strlcat.
  destruct (Nat.eqb_spec n 0); [lia|]; simpl.
  destruct (Nat.ltb_spec (slen dst) (n - 1)) as [H|H].
  - assert (Happ : forall k, (slen dst <= k)%nat ->
      str_take k (dst +:+ src) = dst +:+ str_take (k - slen dst) src).
    { clear. induction dst as [|c d IH]; intros k Hk; simpl in *.
      - by rewrite Nat.sub_0_r.
      - destruct k; [lia|]. simpl. f_equal. apply IH. lia. }
    rewrite Happ by lia. f_equal.
    destruct (Nat.leb_spec (n - slen dst) (slen src)).
    + f_equal. lia.
    + rewrite !str_take_all by lia. done.
  - rewrite str_take_app_le by lia. by rewrite str_take_all by lia.
Qed.

Lemma strndup_bound s n : (slen (strndup s n) <= n)%nat.
Proof.
  unfold strndup, strlcpy. rewrite slen_take. destruct (Nat.ltb_spec n (slen s)); lia.
Qed.

Lemma snprintf_bound n f args : (0 < n)%nat -> (slen (snprintf n f args) < n)%nat.
Proof. intros Hn. unfold snprintf. rewrite slen_take. lia. Qed.

Lemma strlcat_bound dst src n : (slen dst < n)%nat -> (slen (strlcat dst src n) < n)%nat.
Proof. intros Hn. rewrite strlcat_take, slen_take by done. lia. Qed.

(** ** Tokens *)

Fixpoint str_filter (P : ascii -> bool) (s : string) : string :=
  match s with
  | "" => ""
  | String c s' => if P c then String c (str_filter P s') else str_filter P s'
  end.

Lemma str_filter_app P s1 s2 : str_filter P (s1 +:+ s2) = str_filter P s1 +:+ str_filter P s2.
Proof. induction s1 as [|c s IH]; simpl; [done|]. destruct (P c); simpl; congruence. Qed.

Lemma str_filter_all P s : str_forall P s = true -> str_filter P s = s.
Proof. induction s as [|c s IH]; simpl; [done|]. intros [-> H]%andb_prop. f_equal. auto. Qed.

Lemma strspn_filter d s :
  str_filter (fun c => negb (str_mem c d)) (str_drop (strspn s d) s) =
  str_filter (fun c => negb (str_mem c d)) s.
Proof.
  induction s as [|c s IH]; simpl; [done|].
  destruct (str_mem c d) eqn:E; simpl; [done|]. by rewrite E.
Qed.

Lemma strcspn_take d s :
  str_forall (fun c => negb (str_mem c d)) (str_take (strcspn s d) s) = true.
Proof.
  induction s as [|c s IH]; simpl; [done|].
  destruct (str_mem c d) eqn:E; simpl; [done|]. by rewrite E, IH.
Qed.

Lemma strspn_head d s c s' :
  str_drop (strspn s d) s = String c s' -> str_mem c d = false.
Proof.
  induction s as [|a s IH]; simpl; [done|].
  destruct (str_mem a d) eqn:E; simpl; [exact IH|]. intros [= <- _]. exact E.
Qed.

Lemma strcspn_stop d s c s' :
  str_drop (strcspn s d) s = String c s' -> str_mem c d = true.
Proof.
  induction s as [|a s IH]; simpl; [done|].
  destruct (str_mem a d) eqn:E; simpl; [intros [= <- _]; exact E|exact IH].
Qed.

(** One call of [strtok_r]: the token is not empty, has no delimiter, and the
    rest is shorter. *)
Lemma strtok_r_Some s d tok rest :
  strtok_r s d = Some (tok, rest) ->
  tok <> "" /\ str_forall (fun c => negb (str_mem c d)) tok = true /\
  (slen rest < slen s)%nat /\
  str_filter (fun c => negb (str_mem c d)) s =
    tok +:+ str_filter (fun c => negb (str_mem c d)) rest.
Proof.
  unfold strtok_r. intros H.
  destruct (str_drop (strspn s d) s) as [|c s1] eqn:E; [done|].
  rewrite <- strspn_filter, E.
  assert (Hlen : (slen (String c s1) <= slen s)%nat) by (rewrite <- E, slen_drop; lia).
  revert H Hlen. pose proof (strspn_head d s c s1 E) as Hc.
  pose proof (strcspn_take d (String c s1)) as Htok.
  pose proof (str_take_drop (strcspn (String c s1) d) (String c s1)) as Hsplit.
  pose proof (strcspn_stop d (String c s1)) as Hstop.
  assert (Hpos : (0 < strcspn (String c s1) d)%nat) by (simpl; rewrite Hc; lia).
  revert Htok Hsplit Hstop Hpos. generalize (String c s1) as s2. intros s2 Htok Hsplit Hstop Hpos.
  assert (Hne : slen s2 <> 0%nat) by (intros Hz; destruct s2; [by apply Nat.lt_irrefl in Hpos|done]).
  intros [= <- <-] Hlen. repeat split.
  - intros H0. apply (f_equal slen) in H0. rewrite slen_take in H0.
    simpl in H0. lia.
  - exact Htok.
  - pose proof (slen_drop (strcspn s2 d) s2) as Hd.
    destruct (str_drop (strcspn s2 d) s2); simpl in *; lia.
  - rewrite <- Hsplit at 1. rewrite str_filter_app. f_equal.
    + by apply str_filter_all.
    + destruct (str_drop (strcspn s2 d) s2) as [|a r]; [done|].
      simpl. by rewrite (Hstop a r eq_refl).
Qed.

Lemma strtok_r_None s d :
  strtok_r s d = None -> str_filter (fun c => negb (str_mem c d)) s = "".
Proof.
  unfold strtok_r. rewrite <- strspn_filter.
  by destruct (str_drop (strspn s d) s).
Qed.

(** The concatenation of a list of strings. *)
Definition str_concat (l : list string) : string := fold_right String.append "" l.

Lemma strtok_fuel_spec n s d :
  (slen s < n)%nat ->
  str_concat (strtok_fuel n s d) = str_filter (fun c => negb (str_mem c d)) s /\
  Forall (fun t => t <> "" /\ str_forall (fun c => negb (str_mem c d)) t = true)
    (strtok_fuel n s d).
Proof.
  revert s; induction n as [|n IH]; intros s Hn; [lia|].
  simpl. destruct (strtok_r s d) as [[tok rest]|] eqn:E.
  - apply strtok_r_Some in E as (H1 & H2 & H3 & H4).
    destruct (IH rest) as [IH1 IH2]; [lia|].
    split; [|by constructor]. unfold str_concat in *. simpl. by rewrite IH1, H4.
  - apply strtok_r_None in E. split; [by rewrite E|constructor].
Qed.

Lemma strtok_fuel_enough n m s d :
  (slen s < n)%nat -> (slen s < m)%nat -> strtok_fuel n s d = strtok_fuel m s d.
Proof.
  revert m s; induction n as [|n IH]; intros [|m] s Hn Hm; try lia. simpl.
  destruct (strtok_r s d) as [[tok rest]|] eqn:E; [|done].
  apply strtok_r_Some in E as (_ & _ & H & _). f_equal. apply IH; lia.
Qed.

(** ** Trimming *)

Lemma trim_start_spec s :
  exists l, s = l +:+ trim_start s /\ str_forall is_ws l = true /\
    (trim_start s = "" \/ is_ws (hd0 (trim_start s)) = false).
Proof.
  induction s as [|c s (l & H1 & H2 & H3)]; simpl.
  - exists "". auto.
  - destruct (is_ws c) eqn:E.
    + exists (String c l). simpl. rewrite E, H2. repeat split; [congruence|auto].
    + exists "". simpl. auto.
Qed.

Lemma trim_end_spec s :
  exists r, s = trim_end s +:+ r /\ str_forall is_ws r = true.
Proof.
  induction s as [|c s (r & H1 & H2)]; simpl.
  - exists "". auto.
  - destruct (trim_end s) as [|a t] eqn:E.
    + simpl in H1. subst r. destruct (is_ws c) eqn:Ec.
      * exists (String c s). simpl. by rewrite Ec.
      * exists s. simpl. auto.
    + exists r. simpl in *. split; [congruence|done].
Qed.

(** The last character, or the terminator. *)
Fixpoint last0 (s : string) : ascii :=
  match s with "" => NUL | String c "" => c | String _ s' => last0 s' end.

Lemma trim_end_last s : trim_end s = "" \/ is_ws (last0 (trim_end s)) = false.
Proof.
  induction s as [|c s [IH|IH]]; simpl; [auto| |].
  - rewrite IH. destruct (is_ws c) eqn:E; simpl; auto.
  - destruct (trim_end s) as [|a t] eqn:E.
    + destruct (is_ws c) eqn:Ec; simpl; auto.
    + right. exact IH.
Qed.

Lemma trim_end_head s : trim_end s <> "" -> hd0 (trim_end s) = hd0 s.
Proof.
  destruct s as [|c s]; simpl; [done|].
  destruct (trim_end s); simpl; [by destruct (is_ws c)|done].
Qed.

Lemma ngt_TrimStr_unfold s : ngt_TrimStr s = trim_end (trim_start s).
Proof. unfold ngt_TrimStr. by destruct (trim_start s). Qed.

(** ** Properties *)

(** Appending to a bounded buffer.  [strlcat] leaves the longest prefix of
    the concatenation that fits a buffer of [n] bytes with its terminator, so
    the buffer is never overrun. *)
Theorem strlcat_spec dst src n :
  (slen dst < n)%nat ->
  strlcat dst src n = str_take (n - 1) (dst +:+ src) /\ (slen (strlcat dst src n) < n)%nat.
Proof. intros H. rewrite strlcat_take by done. split; [done|]. rewrite slen_take. lia. Qed.

Lemma strlcat_spec_witness : (slen "nick" < 8)%nat /\ strlcat "nick" "!*@*" 8 = "nick!*@".
Proof.
  assert (slen "nick" < 8)%nat as H by (simpl; lia). split; [exact H|].
  exact (proj1 (strlcat_spec "nick" "!*@*" 8 H)).
Defined.

(** splitting a line.  The tokens that [strtok_r] yields until it returns
    NULL are not empty, contain no delimiter, and put together are the text
    without its delimiters; the number of calls is bounded by the length. *)
Theorem tokens_spec s d :
  str_concat (tokens s d) = str_filter (fun c => negb (str_mem c d)) s /\
  Forall (fun t => t <> "" /\ str_forall (fun c => negb (str_mem c d)) t = true) (tokens s d) /\
  (forall n, (slen s < n)%nat -> strtok_fuel n s d = tokens s d).
Proof.
  destruct (strtok_fuel_spec (S (slen s)) s d) as [H1 H2]; [lia|].
  repeat split; [exact H1|exact H2|]. intros n Hn. apply strtok_fuel_enough; lia.
Qed.

(** Trimming.  [ngt_TrimStr] removes white space at both ends only: the
    text is white space, the result and white space again, and the result
    neither starts nor ends with white space. *)
Theorem ngt_TrimStr_spec s :
  exists l r, s = l +:+ ngt_TrimStr s +:+ r /\
    str_forall is_ws l = true /\ str_forall is_ws r = true /\
    (ngt_TrimStr s = "" \/
     is_ws (hd0 (ngt_TrimStr s)) = false /\ is_ws (last0 (ngt_TrimStr s)) = false).
Proof.
  rewrite ngt_TrimStr_unfold.
  destruct (trim_start_spec s) as (l & H1 & H2 & H3).
  destruct (trim_end_spec (trim_start s)) as (r & H4 & H5).
  exists l, r. repeat split; [congruence|done|done|].
  destruct (trim_end_last (trim_start s)) as [H|H]; [by left|].
  destruct (String.eqb_spec (trim_end (trim_start s)) "") as [E|E]; [by left|right].
  rewrite trim_end_head by done. split; [|done].
  destruct H3 as [H3|H3]; [|done]. by rewrite H3 in E.
Qed.
