(* ===== verification/Match.v ===== *)
(** * Wildcard matching (src/server/core/misc/match.c)

    [Matche] and [Matche_After_Star] are the two mutually recursive functions
    of the source; the second one takes the first as an argument, which it
    only calls on the rest of the pattern after the star, so the recursion is
    structural in the pattern and both functions are total.

    The specification is the relation [glob]: [?] stands for one character,
    [*] for any number of characters and every other character for itself. *)

From S2P Require Import Prelude CString.

(** Results of the matching functions; [MATCH_NONE] is the initial value 0 of
    the local variable [match]. *)
Inductive match_result :=
  | MATCH_NONE | MATCH_VALID | MATCH_END | MATCH_ABORT | MATCH_RANGE
  | MATCH_LITERAL | MATCH_PATTERN.

#[export] Instance match_result_eq_dec : EqDecision match_result.
Proof. solve_decision. Defined.

Section After_Star.
Variable matche : string -> match_result.

(** The loop of [Matche_After_Star] over the text; the loop ends when the
    text ends or a definite result is seen. *)
Fixpoint scan (nextp : ascii) (t : string) (m : match_result) : match_result :=
  let m := if (nextp =c hd0 t) || (nextp =c "["%char) then matche t else m in
  match t with
  | "" => MATCH_ABORT
  | String _ t' =>
      match m with
      | MATCH_VALID | MATCH_ABORT | MATCH_PATTERN => m
      | _ => scan nextp t' m
      end
  end.
End After_Star.

Section Matche_After_Star.
Variable matche : string -> string -> match_result.

Fixpoint Matche_After_Star (p t : string) : match_result :=
  match p with
  | "" => MATCH_VALID
  | String c p' =>
      if c =c "?"%char then
        match t with
        | "" => MATCH_ABORT
        | String _ t' => Matche_After_Star p' t'
        end
      else if c =c "*"%char then Matche_After_Star p' t
      else
        let nextp := if c =c "\"%char then hd0 p' else c in
        if (c =c "\"%char) && (nextp =c NUL) then MATCH_PATTERN
        else scan (matche p) nextp t MATCH_NONE
  end.
End Matche_After_Star.

Fixpoint Matche (p t : string) {struct p} : match_result :=
  match p with
  | "" => match t with "" => MATCH_VALID | _ => MATCH_END end
  | String c p' =>
      match t with
      | "" =>
          if (c =c "*"%char) && String.eqb p' "" then MATCH_VALID else MATCH_ABORT
      | String a t' =>
          if c =c "?"%char then Matche p' t'
          else if c =c "*"%char then Matche_After_Star Matche p' t
          else if c =c a then Matche p' t' else MATCH_LITERAL
      end
  end.

Definition Match (Pattern s : string) : bool :=
  match Matche Pattern s with MATCH_VALID => true | _ => false end.

Definition COMMAND_LEN : nat := 513.

Definition MatchCaseInsensitive (Pattern s : string) : bool :=
  let needle := strlcpy Pattern COMMAND_LEN in
  let haystack := strlcpy s COMMAND_LEN in
  Match (ngt_LowerStr needle) (ngt_LowerStr haystack).

Definition MatchCaseInsensitiveList (Pattern s Separator : string) : bool :=
  let tmp_pattern := strlcpy Pattern COMMAND_LEN in
  existsb (fun ptr => MatchCaseInsensitive (ngt_TrimStr ptr) s)
    (tokens tmp_pattern Separator).

(** ** Specification *)

Inductive glob : string -> string -> Prop :=
  | glob_nil : glob "" ""
  | glob_any c p t : glob p t -> glob (String "?" p) (String c t)
  | glob_star p t : glob p t -> glob (String "*" p) t
  | glob_star_more c p t : glob (String "*" p) t -> glob (String "*" p) (String c t)
  | glob_lit c p t : c <> "?"%char -> c <> "*"%char -> glob p t -> glob (String c p) (String c t).

(** Patterns without a backslash and without two adjacent stars. *)
Fixpoint plain_pattern (p : string) : bool :=
  match p with
  | "" => true
  | String c p' =>
      negb (c =c "\"%char) && negb ((c =c "*"%char) && (hd0 p' =c "*"%char)) &&
      plain_pattern p'
  end.

Lemma glob_star_suffix p t u : glob p t -> glob (String "*" p) (u +:+ t).
Proof.
  intros H. induction u as [|c u IH]; [by apply glob_star|]. by apply glob_star_more.
Qed.

Lemma glob_star_inv q t : glob (String "*" q) t -> exists u t', t = u +:+ t' /\ glob q t'.
Proof.
  intros H. remember (String "*" q) as p eqn:E.
  induction H as [| |p t H _|c p t H IH|]; inversion E; subst.
  - exists "", t. auto.
  - destruct (IH eq_refl) as (u & t' & -> & ?). exists (String c u), t'. auto.
  - done.
Qed.

Lemma glob_any_inv q t :
  glob (String "?" q) t -> exists c t', t = String c t' /\ glob q t'.
Proof. inversion 1; subst; [eauto|done]. Qed.

Lemma glob_lit_inv c q t :
  c <> "?"%char -> c <> "*"%char -> glob (String c q) t ->
  exists t', t = String c t' /\ glob q t'.
Proof. intros H1 H2. inversion 1; subst; try done. eauto. Qed.

(** A star in front of [?] can be moved behind it. *)
Lemma glob_star_any q a t :
  glob (String "*" q) t -> glob (String "*" (String "?" q)) (String a t).
Proof.
  intros (u & t' & -> & H)%glob_star_inv.
  assert (exists v c, String a (u +:+ t') = v +:+ String c t') as (v & c & ->).
  { clear H. revert a. induction u as [|b u IH]; intros a; simpl.
    - by exists "", a.
    - destruct (IH b) as (v & c & E). exists (String a v), c. simpl. by rewrite E. }
  apply glob_star_suffix. by constructor.
Qed.

Lemma glob_star_any_inv q t :
  glob (String "*" (String "?" q)) t ->
  exists a t', t = String a t' /\ glob (String "*" q) t'.
Proof.
  intros (u & t' & -> & (c & t'' & -> & H)%glob_any_inv)%glob_star_inv.
  destruct u as [|b u]; simpl.
  - exists c, t''. split; [done|by constructor].
  - exists b, (u +:+ String c t''). split; [done|].
    change (String c t'') with (String c "" +:+ t''). rewrite str_app_assoc.
    by apply glob_star_suffix.
Qed.

Lemma glob_star_star q t : glob (String "*" q) t <-> glob (String "*" (String "*" q)) t.
Proof.
  split.
  - intros H. by constructor.
  - intros (u & t' & -> & (v & t'' & -> & H)%glob_star_inv)%glob_star_inv.
    rewrite str_app_assoc. by apply glob_star_suffix.
Qed.

(** ** Soundness: a valid match is a match of the specification *)

Lemma scan_valid matche nextp t m :
  m <> MATCH_VALID ->
  scan matche nextp t m = MATCH_VALID -> exists u t', t = u +:+ t' /\ matche t' = MATCH_VALID.
Proof.
  revert m. induction t as [|a t IH]; intros m Hm; simpl; [done|].
  set (m' := if (nextp =c a) || (nextp =c "["%char) then matche (String a t) else m). intros H.
  assert (m' = MATCH_VALID \/ m' <> MATCH_VALID /\ scan matche nextp t m' = MATCH_VALID) as [E|[E Hs]].
  { destruct m'; auto; right; split; congruence. }
  - exists "", (String a t). split; [done|]. unfold m' in E.
    by destruct ((nextp =c a) || (nextp =c "["%char)).
  - destruct (IH _ E Hs) as (u & t' & -> & ?). exists (String a u), t'. auto.
Qed.

Lemma After_Star_sound matche p t :
  (forall q t : string, q <> "" -> (slen q <= slen p)%nat -> matche q t = MATCH_VALID -> glob q t) ->
  Matche_After_Star matche p t = MATCH_VALID -> glob (String "*" p) t.
Proof.
  revert t. induction p as [|c p IH]; intros t Hm; simpl.
  - intros _. rewrite <- (str_app_nil_r t). apply glob_star_suffix. constructor.
  - assert (Hm' : forall q t : string, q <> "" -> (slen q <= slen p)%nat ->
      matche q t = MATCH_VALID -> glob q t) by (intros; apply Hm; simpl; auto; lia).
    destruct (c =c "?"%char) eqn:E1; [apply Ascii.eqb_eq in E1 as ->|].
    { destruct t as [|a t]; [done|]. intros H. apply glob_star_any. by apply IH. }
    destruct (c =c "*"%char) eqn:E2; [apply Ascii.eqb_eq in E2 as ->|].
    { intros H. apply glob_star. by apply IH. }
    destruct (_ && _); [done|]. intros (u & t' & -> & H)%scan_valid; [|done].
    apply glob_star_suffix. apply Hm; auto.
Qed.

Lemma Matche_sound p t : Matche p t = MATCH_VALID -> glob p t.
Proof.
  remember (slen p) as n eqn:En. revert p t En.
  induction n as [n IH] using lt_wf_ind; intros p t En.
  destruct p as [|c p]; simpl in *.
  - destruct t; [constructor|done].
  - destruct t as [|a t].
    + destruct (c =c "*"%char) eqn:E; simpl; [|done].
      destruct (String.eqb_spec p ""); [|done]. intros _.
      apply Ascii.eqb_eq in E as ->. subst p. repeat constructor.
    + destruct (c =c "?"%char) eqn:E1; [apply Ascii.eqb_eq in E1 as ->|].
      { intros H. constructor. eapply IH; eauto. lia. }
      destruct (c =c "*"%char) eqn:E2; [apply Ascii.eqb_eq in E2 as ->|].
      { intros H. eapply After_Star_sound; [|exact H].
        intros q t' _ Hq Hm. eapply (IH (slen q)); eauto. lia. }
      destruct (c =c a) eqn:E3; [|done]. intros H. bool_simp. subst a.
      apply glob_lit; auto. eapply IH; eauto. lia.
Qed.

(** ** Completeness on plain patterns *)

Definition suffix_of (t2 t : string) : Prop := exists u, t = u +:+ t2.

Lemma suffix_of_refl t : suffix_of t t.
Proof. by exists "". Qed.

Lemma suffix_of_tail t2 a t : suffix_of t2 t -> suffix_of t2 (String a t).
Proof. intros [u ->]. by exists (String a u). Qed.

Lemma suffix_of_cons_inv c t2 a t : suffix_of (String c t2) (String a t) -> suffix_of t2 t.
Proof.
  intros [[|b u] E]; simpl in E; injection E as -> ->.
  - apply suffix_of_refl.
  - exists (u +:+ String c ""). by rewrite <- str_app_assoc.
Qed.

Lemma suffix_of_empty t : suffix_of t "" -> t = "".
Proof. by intros [[|b u] E]. Qed.

Lemma glob_star_of_suffix q t2 t : suffix_of t2 t -> glob (String "*" q) t2 -> glob (String "*" q) t.
Proof.
  intros [u ->] (v & t' & -> & H)%glob_star_inv.
  rewrite str_app_assoc. by apply glob_star_suffix.
Qed.

(** A pattern that starts with a character other than a star needs text. *)
Lemma glob_needs_text c q : c <> "*"%char -> ~ glob (String c q) "".
Proof. intros Hc. by inversion 1. Qed.

(** What a result of [Matche] tells, for one pattern [q]: a match of the
    specification is found, the pattern is never "bad", and an abort excludes
    every suffix of the text, so that the search may stop. *)
Definition complete_at (q : string) : Prop :=
  forall t, (glob q t -> Matche q t = MATCH_VALID) /\
            Matche q t <> MATCH_PATTERN /\ Matche q t <> MATCH_NONE /\
            (Matche q t = MATCH_ABORT -> forall t2, suffix_of t2 t -> ~ glob q t2).

Lemma scan_complete q c q' t m :
  q = String c q' -> c <> "?"%char -> c <> "*"%char -> complete_at q ->
  m <> MATCH_VALID -> m <> MATCH_ABORT -> m <> MATCH_PATTERN ->
  (scan (Matche q) c t m = MATCH_VALID \/ scan (Matche q) c t m = MATCH_ABORT) /\
  (glob (String "*" q) t -> scan (Matche q) c t m = MATCH_VALID).
Proof.
  intros Hq H1 H2 Hc. revert m. induction t as [|a t IH]; intros m Hm1 Hm2 Hm3.
  - simpl. split; [by right|].
    intros (u & t' & E & H)%glob_star_inv. destruct u, t'; try discriminate.
    subst q. by apply glob_needs_text in H.
  - simpl. set (m' := if (c =c a) || (c =c "["%char) then Matche q (String a t) else m).
    destruct (Hc (String a t)) as (HV & HP & HN & HA).
    assert (Hcase : m' <> MATCH_PATTERN /\
      (m' = MATCH_ABORT -> forall t2, suffix_of t2 (String a t) -> ~ glob q t2)).
    { unfold m'. destruct (_ || _); [by split|]. by split. }
    assert (Hgo : glob (String "*" q) (String a t) -> m' <> MATCH_VALID ->
      glob (String "*" q) t).
    { intros (u & t' & E & H)%glob_star_inv Hne. destruct u as [|b u]; simpl in E.
      - subst t'. exfalso. apply Hne. unfold m'.
        subst q. destruct (glob_lit_inv _ _ _ H1 H2 H) as (t' & [= -> ->] & _).
        rewrite Ascii.eqb_refl. simpl. by apply HV.
      - injection E as -> ->. by apply glob_star_suffix. }
    destruct Hcase as [HcP HcA].
    destruct m' eqn:Em'; try done;
      try (destruct (IH m') as [IH1 IH2]; rewrite ?Em'; try done;
           rewrite Em' in IH1, IH2; split; [exact IH1|];
           intros Hg; apply IH2, Hgo; [done|discriminate]).
    + split; [by left|done].
    + split; [by right|]. intros (u & t' & E & H)%glob_star_inv.
      exfalso. apply (HcA eq_refl t'); [by exists u|done].
Qed.

Lemma After_Star_complete q t :
  plain_pattern q = true ->
  (forall q', (slen q' <= slen q)%nat -> q' <> "" -> plain_pattern q' = true -> complete_at q') ->
  (Matche_After_Star Matche q t = MATCH_VALID \/ Matche_After_Star Matche q t = MATCH_ABORT) /\
  (glob (String "*" q) t -> Matche_After_Star Matche q t = MATCH_VALID).
Proof.
  revert t. induction q as [|c q IH]; intros t Hp Hc; [simpl; auto|].
  cbn [Matche_After_Star]. pose proof Hp as Hp'. simpl in Hp'.
  apply andb_prop in Hp' as [[Hb _]%andb_prop Hq]. apply negb_true_iff in Hb.
  assert (Hc' : forall q', (slen q' <= slen q)%nat -> q' <> "" ->
    plain_pattern q' = true -> complete_at q') by (intros; apply Hc; simpl; auto; lia).
  destruct (c =c "?"%char) eqn:E1; [apply Ascii.eqb_eq in E1 as ->|].
  { destruct t as [|a t].
    - split; [by right|]. by intros (a & t' & ? & _)%glob_star_any_inv.
    - destruct (IH t Hq Hc') as [IH1 IH2]. split; [done|].
      intros (a' & t' & [= <- <-] & H)%glob_star_any_inv. auto. }
  destruct (c =c "*"%char) eqn:E2; [apply Ascii.eqb_eq in E2 as ->|].
  { destruct (IH t Hq Hc') as [IH1 IH2]. split; [done|].
    intros H. apply IH2. by apply glob_star_star. }
  rewrite Hb. cbn [andb]. apply Ascii.eqb_neq in E1, E2.
  apply (scan_complete (String c q) c q); auto; discriminate.
Qed.

Lemma Matche_complete p : plain_pattern p = true -> complete_at p.
Proof.
  remember (slen p) as n eqn:En. revert p En.
  induction n as [n IH] using lt_wf_ind; intros p En Hp.
  destruct p as [|c p]; intros t.
  { simpl. destruct t as [|a t]; repeat split; try done; inversion 1. }
  assert (Hplain : plain_pattern p = true) by (simpl in Hp; by apply andb_prop in Hp as [_ ?]).
  assert (Hp_c : complete_at p) by (apply (IH (slen p)); auto; simpl in En; lia).
  simpl. destruct t as [|a t].
  - destruct (c =c "*"%char) eqn:E; simpl.
    + apply Ascii.eqb_eq in E as ->. destruct (String.eqb_spec p "") as [->|Hne].
      { repeat split; done. }
      assert (Hno : ~ glob (String "*" p) "").
      { intros (u & t' & Eu & H)%glob_star_inv. destruct u, t'; try discriminate.
        destruct p as [|d p]; [done|]. simpl in Hp. destruct (Ascii.eqb_spec d "*"); [done|].
        by apply glob_needs_text in H. }
      repeat split; try done. by intros _ t2 ->%suffix_of_empty.
    + apply Ascii.eqb_neq in E. pose proof (glob_needs_text c p E).
      repeat split; try done. by intros _ t2 ->%suffix_of_empty.
  - destruct (c =c "?"%char) eqn:E1; [apply Ascii.eqb_eq in E1 as ->|].
    { destruct (Hp_c t) as (HV & HP & HN & HA). repeat split; auto.
      - intros (a' & t' & [= <- <-] & H)%glob_any_inv. auto.
      - intros Hab t2 Hs (a' & t' & -> & H)%glob_any_inv.
        apply (HA Hab t'); [by eapply suffix_of_cons_inv|done]. }
    destruct (c =c "*"%char) eqn:E2; [apply Ascii.eqb_eq in E2 as ->|].
    { destruct (After_Star_complete p (String a t)) as [Hr Hg]; [done| |].
      - intros q' Hq' _ Hpl. apply (IH (slen q')); auto. simpl in En. lia.
      - repeat split.
        + intros Hs. by apply Hg.
        + by destruct Hr as [-> | ->].
        + by destruct Hr as [-> | ->].
        + intros Hab t2 Hs Hg2. rewrite Hg in Hab; [done|].
          by apply (glob_star_of_suffix p t2). }
    apply Ascii.eqb_neq in E1, E2. destruct (c =c a) eqn:E3.
    + apply Ascii.eqb_eq in E3 as <-.
      destruct (Hp_c t) as (HV & HP & HN & HA). repeat split; auto.
      * intros (t' & [= <-] & H)%glob_lit_inv; auto.
      * intros Hab t2 Hs (t' & -> & H)%glob_lit_inv; auto.
        apply (HA Hab t'); [by eapply suffix_of_cons_inv|done].
    + repeat split; try done. intros (t' & [= <- <-] & H)%glob_lit_inv; auto.
      by rewrite Ascii.eqb_refl in E3.
Qed.

(** ** Properties *)

(** C36: a pattern matches only text that the wildcard specification accepts,
    whatever the pattern contains. *)
Theorem Match_sound p t : Match p t = true -> glob p t.
Proof.
  unfold Match. destruct (Matche p t) eqn:E; try discriminate.
  intros _. by apply Matche_sound.
Qed.

Lemma Match_sound_witness : Match "n*ck!?" "nick!a" = true /\ glob "n*ck!?" "nick!a".
Proof.
  assert (Match "n*ck!?" "nick!a" = true) as H by reflexivity.
  split; [exact H|exact (Match_sound "n*ck!?" "nick!a" H)].
Defined.

(** C37: on patterns without a backslash and without adjacent stars, [Match]
    decides the wildcard specification. *)
Theorem Match_iff_glob p t : plain_pattern p = true -> (Match p t = true <-> glob p t).
Proof.
  intros Hp. split; [intros Hm; unfold Match in Hm; destruct (Matche p t) eqn:E; try discriminate; by apply Matche_sound|].
  intros H. unfold Match. destruct (Matche_complete p Hp t) as [HV _]. by rewrite HV.
Qed.

Lemma Match_iff_glob_witness :
  plain_pattern "*!*@host" = true /\ (Match "*!*@host" "a!b@hose" = true <-> glob "*!*@host" "a!b@hose").
Proof.
  assert (plain_pattern "*!*@host" = true) as H by reflexivity.
  split; [exact H|exact (Match_iff_glob "*!*@host" "a!b@hose" H)].
Defined.

(** A search whose candidate positions all fail finds nothing. *)
Lemma scan_not_valid f c s m :
  c <> "["%char -> (forall t, hd0 t = c -> f t <> MATCH_VALID) -> m <> MATCH_VALID ->
  scan f c s m <> MATCH_VALID.
Proof.
  intros Hc Hf. revert m. induction s as [|a s IH]; intros m Hm; simpl; [done|].
  set (m' := if (c =c a) || (c =c "["%char) then f (String a s) else m).
  assert (m' <> MATCH_VALID).
  { unfold m'. destruct (Ascii.eqb_spec c "["); [done|]. rewrite orb_false_r.
    destruct (Ascii.eqb_spec c a) as [->|]; [by apply Hf|done]. }
  destruct m'; try done; by apply IH.
Qed.

(** what the restriction to plain patterns leaves out.  Adjacent stars at
    the end of the text fail although [**] accepts the empty rest, and a
    pattern with a backslash behind a star never matches: the look-ahead of
    [Matche_After_Star] treats the backslash as an escape, [Matche] does not. *)
Theorem Match_gaps :
  (Match "a**" "a" = false /\ glob "a**" "a") /\
  (forall t, Match "*\x" t = false).
Proof.
  split.
  - split; [reflexivity|]. apply glob_lit; try discriminate. repeat constructor.
  - intros t. unfold Match. destruct t as [|a t]; [reflexivity|].
    assert (scan (Matche "\x") "x" (String a t) MATCH_NONE <> MATCH_VALID) as Hs.
    { apply scan_not_valid; try discriminate. intros [|b u]; [done|].
      cbn [hd0]. intros ->. discriminate. }
    change (Matche "*\x" (String a t)) with (scan (Matche "\x") "x" (String a t) MATCH_NONE).
    by destruct (scan _ _ _ _).
Qed.
