(* ===== verification/Hash.v ===== *)
(** * Hash values of names (src/server/core/misc/hash.c)

    [Hash] lowers a copy of its argument, at most [COMMAND_LEN - 1] characters
    long, and applies Bob Jenkins' lookup3 function with initial value 42.
    A [UINT32] is a [Z] in the range from 0 to 2^32 - 1; every operation
    of the source wraps around. *)

From S2P Require Import Prelude CString Match.

Definition u32 (x : Z) : Z := x mod 2 ^ 32.

Definition rot (x k : Z) : Z := Z.lor (u32 (Z.shiftl x k)) (Z.shiftr x (32 - k)).

(** The state [(a, b, c)] of the macros [mix] and [final]. *)
Record jstate := JState { ja : Z; jb : Z; jc : Z }.

Definition mix (s : jstate) : jstate :=
  let 'JState a b c := s in
  let a := u32 (a - c) in let a := Z.lxor a (rot c 4) in let c := u32 (c + b) in
  let b := u32 (b - a) in let b := Z.lxor b (rot a 6) in let a := u32 (a + c) in
  let c := u32 (c - b) in let c := Z.lxor c (rot b 8) in let b := u32 (b + a) in
  let a := u32 (a - c) in let a := Z.lxor a (rot c 16) in let c := u32 (c + b) in
  let b := u32 (b - a) in let b := Z.lxor b (rot a 19) in let a := u32 (a + c) in
  let c := u32 (c - b) in let c := Z.lxor c (rot b 4) in let b := u32 (b + a) in
  JState a b c.

Definition final (s : jstate) : jstate :=
  let 'JState a b c := s in
  let c := Z.lxor c b in let c := u32 (c - rot b 14) in
  let a := Z.lxor a c in let a := u32 (a - rot c 11) in
  let b := Z.lxor b a in let b := u32 (b - rot a 25) in
  let c := Z.lxor c b in let c := u32 (c - rot b 16) in
  let a := Z.lxor a c in let a := u32 (a - rot c 4) in
  let b := Z.lxor b a in let b := u32 (b - rot a 14) in
  let c := Z.lxor c b in let c := u32 (c - rot b 24) in
  JState a b c.

(** Four bytes as a little-endian word; missing bytes count as 0. *)
Definition word (k : list Z) : Z :=
  match k with
  | [] => 0
  | [k0] => k0
  | [k0; k1] => k0 + Z.shiftl k1 8
  | [k0; k1; k2] => k0 + Z.shiftl k1 8 + Z.shiftl k2 16
  | k0 :: k1 :: k2 :: k3 :: _ =>
      k0 + Z.shiftl k1 8 + Z.shiftl k2 16 + Z.shiftl k3 24
  end.

(** Adds those of the bytes with the numbers [l] that are present, each at its place
    in a word. *)
Definition add_bytes (k : list Z) (l : list nat) (x : Z) : Z :=
  fold_left (fun x i => match k !! i with
                        | Some b => u32 (x + Z.shiftl b (8 * Z.of_nat (i mod 4)))
                        | None => x
                        end) l x.

(** The switch over the last block: it starts with the last byte, and all cases
    fall through. *)
Definition last_block (k : list Z) (s : jstate) : Z :=
  let 'JState a b c := s in
  match k with
  | [] => c
  | _ =>
      let c := add_bytes k [11; 10; 9; 8]%nat c in
      let b := add_bytes k [7; 6; 5; 4]%nat b in
      let a := add_bytes k [3; 2; 1; 0]%nat a in
      jc (final (JState a b c))
  end.

(** The loop over the blocks of 12 bytes, while more than 12 are left; every
    round consumes 12 bytes, so that [length k] rounds are enough. *)
Fixpoint jenkins_loop (fuel : nat) (k : list Z) (s : jstate) : Z :=
  match fuel with
  | O => last_block k s
  | S fuel' =>
      if (12 <? List.length k)%nat then
        let 'JState a b c := s in
        let a := u32 (a + word (take 4 k)) in
        let b := u32 (b + word (take 4 (drop 4 k))) in
        let c := u32 (c + word (take 4 (drop 8 k))) in
        jenkins_loop fuel' (drop 12 k) (mix (JState a b c))
      else last_block k s
  end.

Definition jenkins_hash (k : list Z) (initval : Z) : Z :=
  let i := u32 (0xdeadbeef + Z.of_nat (List.length k) + initval) in
  jenkins_loop (List.length k) k (JState i i i).

Fixpoint bytes_of (s : string) : list Z :=
  match s with
  | "" => []
  | String c s' => Z.of_N (N_of_ascii c) :: bytes_of s'
  end.

Definition Hash (s : string) : Z :=
  let buffer := strlcpy s COMMAND_LEN in
  jenkins_hash (bytes_of (ngt_LowerStr buffer)) 42.

(** ** Facts *)

Lemma u32_range x : 0 <= u32 x < 2 ^ 32.
Proof. apply Z.mod_pos_bound. reflexivity. Qed.

Lemma final_range s : 0 <= jc (final s) < 2 ^ 32.
Proof.
  destruct s as [a b c]. unfold final. cbv beta iota delta [jc]. apply u32_range.
Qed.

Lemma last_block_range k s : k <> [] -> 0 <= last_block k s < 2 ^ 32.
Proof.
  destruct s as [a b c]. unfold last_block. destruct k; [done|].
  intros _. apply final_range.
Qed.

Lemma jenkins_loop_range n k s : k <> [] -> 0 <= jenkins_loop n k s < 2 ^ 32.
Proof.
  revert k s. induction n as [|n IH]; intros k [a b c] Hk; cbn [jenkins_loop];
    [by apply last_block_range|].
  destruct (Nat.ltb_spec 12 (List.length k)); [|by apply last_block_range].
  apply IH. intros E. apply (f_equal List.length) in E.
  rewrite length_drop in E. simpl in E. lia.
Qed.

(** The number of rounds given to the loop does not matter once it is the
    length of the key. *)
Lemma jenkins_loop_enough n m k s :
  (List.length k <= n)%nat -> (List.length k <= m)%nat ->
  jenkins_loop n k s = jenkins_loop m k s.
Proof.
  revert m k s. induction n as [|n IH]; intros [|m] k [a b c] Hn Hm; cbn [jenkins_loop]; [done| | |].
  - by rewrite (proj2 (Nat.ltb_ge 12 (List.length k))) by lia.
  - by rewrite (proj2 (Nat.ltb_ge 12 (List.length k))) by lia.
  - destruct (Nat.ltb_spec 12 (List.length k)); [|done].
    apply IH; rewrite length_drop; lia.
Qed.

(** A hash value fits the 32 bits of its type. *)
Lemma Hash_range s : 0 <= Hash s < 2 ^ 32.
Proof.
  unfold Hash, jenkins_hash. destruct (bytes_of _) eqn:E; [by vm_compute|].
  by apply jenkins_loop_range.
Qed.

(** Names that differ in the case of letters only have the same hash value:
    a search may compare hash values before it compares the names. *)
#[export] Instance Hash_proper : Proper (case_eq ==> eq) Hash.
Proof.
  intros a b H. unfold Hash.
  assert (ngt_LowerStr (strlcpy a COMMAND_LEN) = ngt_LowerStr (strlcpy b COMMAND_LEN)) as ->;
    [|reflexivity].
  exact (strlcpy_case_proper a b H COMMAND_LEN _ eq_refl).
Qed.

(** ** lookup3 on words *)

(** The function hashword() of lookup3.c, over unsigned words of 32 bits: three
    words at a time, each round of the mixing with the roles of the three words
    exchanged. *)
Definition rotl (x k : Z) : Z := u32 (x * 2 ^ k) + x / 2 ^ (32 - k).

Definition mix_round (rot : Z -> Z -> Z) (s : Z * Z * Z) (k : Z) : Z * Z * Z :=
  let '(a, b, c) := s in (b, u32 (c + b), Z.lxor (u32 (a - c)) (rot c k)).

Definition final_round (rot : Z -> Z -> Z) (s : Z * Z * Z) (k : Z) : Z * Z * Z :=
  let '(x, y, z) := s in (z, u32 (Z.lxor x y - rot y k), y).

Definition mix_shifts : list Z := [4; 6; 8; 16; 19; 4].
Definition final_shifts : list Z := [14; 11; 25; 16; 4; 14; 24].

Definition lookup3_final (s : Z * Z * Z) : Z :=
  let '(a, b, c) := s in (fold_left (final_round rotl) final_shifts (c, b, a)).1.2.

Definition add_words (x y z : Z) (s : Z * Z * Z) : Z * Z * Z :=
  let '(a, b, c) := s in (u32 (a + x), u32 (b + y), u32 (c + z)).

Fixpoint hash_words (ws : list Z) (s : Z * Z * Z) : Z :=
  match ws with
  | [] => s.2
  | [x] => lookup3_final (add_words x 0 0 s)
  | [x; y] => lookup3_final (add_words x y 0 s)
  | [x; y; z] => lookup3_final (add_words x y z s)
  | x :: y :: z :: rest => hash_words rest (fold_left (mix_round rotl) mix_shifts (add_words x y z s))
  end.

(** The bytes as little-endian words, the last one filled up with zeros. *)
Definition le_word (k : list Z) : Z := fold_right (fun b acc => b + 256 * acc) 0 k.

Fixpoint words (k : list Z) : list Z :=
  match k with
  | k0 :: k1 :: k2 :: k3 :: k' => le_word [k0; k1; k2; k3] :: words k'
  | [] => []
  | _ => [le_word k]
  end.

Definition lookup3 (k : list Z) (initval : Z) : Z :=
  let i := u32 (0xdeadbeef + Z.of_nat (length k) + initval) in hash_words (words k) (i, i, i).

(** *** Rotations *)

Definition in_u32 (x : Z) : Prop := 0 <= x < 2 ^ 32.
Definition in_u32s (s : Z * Z * Z) : Prop := in_u32 s.1.1 /\ in_u32 s.1.2 /\ in_u32 s.2.

Lemma in_u32_u32 x : in_u32 (u32 x).
Proof. apply u32_range. Qed.

Lemma u32_same x : in_u32 x -> u32 x = x.
Proof. apply Z.mod_small. Qed.

Lemma u32_add x y : u32 (u32 x + y) = u32 (x + y).
Proof. apply Zplus_mod_idemp_l. Qed.

Lemma u32_bits_high x i : 32 <= i -> Z.testbit (u32 x) i = false.
Proof. intros Hi. by apply Z.mod_pow2_bits_high. Qed.

Lemma rot_rotl x k : in_u32 x -> 0 < k < 32 -> rot x k = rotl x k.
Proof.
  intros Hx Hk. unfold rot, rotl. rewrite <- Z.shiftl_mul_pow2, <- Z.shiftr_div_pow2 by lia.
  rewrite <- Z.add_lor_land. replace (Z.land _ _) with 0; [by rewrite Z.add_0_r|]. symmetry. apply Z.bits_inj'. intros i Hi.
  rewrite Z.land_spec, Z.bits_0, Z.shiftr_spec by lia. destruct (Z.le_gt_cases k i).
  - rewrite <- (u32_same x Hx) at 2. rewrite (u32_bits_high x) by lia. apply andb_false_r.
  - unfold u32. rewrite Z.mod_pow2_bits_low, Z.shiftl_spec_low by lia. done.
Qed.

Lemma in_u32_bits x : 0 <= x -> (forall i, 32 <= i -> Z.testbit x i = false) -> in_u32 x.
Proof.
  intros Hx Hb. replace x with (u32 x); [apply in_u32_u32|]. apply Z.bits_inj'. intros i Hi.
  destruct (Z.lt_ge_cases i 32); [by apply Z.mod_pow2_bits_low|]. by rewrite u32_bits_high, Hb.
Qed.

Lemma in_u32_lxor x y : in_u32 x -> in_u32 y -> in_u32 (Z.lxor x y).
Proof.
  intros Hx Hy. apply in_u32_bits; [apply Z.lxor_nonneg; unfold in_u32 in *; lia|]. intros i Hi.
  by rewrite Z.lxor_spec, <- (u32_same x Hx), <- (u32_same y Hy), !u32_bits_high.
Qed.

Lemma in_u32_rot x k : in_u32 x -> 0 < k < 32 -> in_u32 (rot x k).
Proof.
  intros Hx Hk. unfold rot. apply in_u32_bits.
  - apply Z.lor_nonneg. split; [apply u32_range|]. apply Z.shiftr_nonneg. apply Hx.
  - intros i Hi. rewrite Z.lor_spec, u32_bits_high, Z.shiftr_spec by lia.
    rewrite <- (u32_same x Hx), u32_bits_high by lia. done.
Qed.

(** *** The rounds *)

Lemma mix_rounds a b c :
  mix (JState a b c) = let '(a, b, c) := fold_left (mix_round rot) mix_shifts (a, b, c) in JState a b c.
Proof. reflexivity. Qed.

Lemma final_rounds a b c :
  jc (final (JState a b c)) = (fold_left (final_round rot) final_shifts (c, b, a)).1.2.
Proof. reflexivity. Qed.

Lemma rounds_rotl (round : (Z -> Z -> Z) -> Z * Z * Z -> Z -> Z * Z * Z) shifts s :
  (forall s k, in_u32s s -> 0 < k < 32 -> round rot s k = round rotl s k /\ in_u32s (round rot s k)) ->
  Forall (fun k => 0 < k < 32) shifts -> in_u32s s ->
  fold_left (round rot) shifts s = fold_left (round rotl) shifts s /\ in_u32s (fold_left (round rot) shifts s).
Proof.
  intros Hr. revert s. induction shifts as [|k l IH]; intros s Hl Hs; [done|]. apply Forall_cons_1 in Hl as [Hk Hl].
  cbn [fold_left]. destruct (Hr s k Hs Hk) as [<- Hs']. by apply IH.
Qed.

Lemma mix_round_rotl s k :
  in_u32s s -> 0 < k < 32 -> mix_round rot s k = mix_round rotl s k /\ in_u32s (mix_round rot s k).
Proof.
  destruct s as [[a b] c]. intros (Ha & Hb & Hc) Hk. cbn in *. split; [by rewrite rot_rotl|].
  split; [done|]. split; [apply in_u32_u32|]. apply in_u32_lxor; [apply in_u32_u32|by apply in_u32_rot].
Qed.

Lemma final_round_rotl s k :
  in_u32s s -> 0 < k < 32 -> final_round rot s k = final_round rotl s k /\ in_u32s (final_round rot s k).
Proof.
  destruct s as [[x y] z]. intros (Hx & Hy & Hz) Hk. cbn in *. split; [by rewrite rot_rotl|].
  split; [done|]. split; [apply in_u32_u32|done].
Qed.

Lemma mix_lookup3 a b c :
  in_u32s (a, b, c) ->
  exists s, fold_left (mix_round rotl) mix_shifts (a, b, c) = s /\ in_u32s s /\ mix (JState a b c) = JState s.1.1 s.1.2 s.2.
Proof.
  intros Hs. rewrite mix_rounds.
  destruct (rounds_rotl mix_round mix_shifts (a, b, c) mix_round_rotl) as [<- Hr]; [by repeat constructor|done|].
  eexists. split; [done|]. split; [done|]. by destruct (fold_left _ _ _) as [[x y] z].
Qed.

Lemma final_lookup3 a b c : in_u32s (a, b, c) -> jc (final (JState a b c)) = lookup3_final (a, b, c).
Proof.
  intros (Ha & Hb & Hc). rewrite final_rounds. unfold lookup3_final.
  by destruct (rounds_rotl final_round final_shifts (c, b, a) final_round_rotl) as [-> _]; [repeat constructor|split_and!|].
Qed.

(** *** The blocks *)

Lemma word_le k : (length k <= 4)%nat -> word k = le_word k.
Proof.
  destruct k as [|k0 [|k1 [|k2 [|k3 [|]]]]]; cbn [length]; try lia; intros _;
    unfold le_word; cbn [word fold_right]; rewrite ?Z.shiftl_mul_pow2 by lia; lia.
Qed.

Lemma triple_eq {A B C} (a a' : A) (b b' : B) (c c' : C) : a = a' -> b = b' -> c = c' -> (a, b, c) = (a', b', c').
Proof. by intros -> -> ->. Qed.

(** The bytes that are missing count as zeros. *)
Lemma last_block_lookup3 k a b c :
  (length k <= 12)%nat -> in_u32s (a, b, c) -> last_block k (JState a b c) = hash_words (words k) (a, b, c).
Proof.
  intros Hk (Ha & Hb & Hc). cbn [fst snd] in *. unfold last_block.
  destruct k as [|k0 [|k1 [|k2 [|k3 [|k4 [|k5 [|k6 [|k7 [|k8 [|k9 [|k10 [|k11 [|]]]]]]]]]]]]];
    cbn [length] in Hk; try lia; [done|..]; cbn [words hash_words]; unfold add_words, add_bytes;
    cbn [fold_left lookup Nat.modulo Nat.divmod Nat.sub snd list_lookup]; rewrite ?Z.shiftl_mul_pow2 by lia;
    (rewrite final_lookup3; [|split_and!; first [apply in_u32_u32|done]]); apply f_equal, triple_eq;
    unfold le_word; cbn [fold_right]; try by rewrite Z.add_0_r, u32_same.
  all: repeat (rewrite <- ?Z.add_assoc; rewrite u32_add); f_equal; lia.
Qed.

Lemma hash_words_more x y z ws s :
  ws <> [] ->
  hash_words (x :: y :: z :: ws) s = hash_words ws (fold_left (mix_round rotl) mix_shifts (add_words x y z s)).
Proof. by destruct ws. Qed.

Lemma words_nonempty x k : words (x :: k) <> [].
Proof. by destruct k as [|x1 [|x2 [|x3 k]]]. Qed.

Lemma jenkins_loop_lookup3 n k a b c :
  (length k <= n)%nat -> in_u32s (a, b, c) -> jenkins_loop n k (JState a b c) = hash_words (words k) (a, b, c).
Proof.
  revert k a b c. induction n as [|n IH]; intros k a b c Hk Hs; cbn [jenkins_loop]; [by apply last_block_lookup3; [lia|]|].
  destruct (Nat.ltb_spec 12 (length k)); [|by apply last_block_lookup3; [lia|]].
  destruct k as [|k0 [|k1 [|k2 [|k3 [|k4 [|k5 [|k6 [|k7 [|k8 [|k9 [|k10 [|k11 [|x k]]]]]]]]]]]]]; cbn [length] in *; try lia.
  cbn [take drop]. rewrite !word_le by done.
  destruct (mix_lookup3 (u32 (a + le_word [k0; k1; k2; k3])) (u32 (b + le_word [k4; k5; k6; k7]))
    (u32 (c + le_word [k8; k9; k10; k11]))) as (s & Es & Hs' & ->); [split_and!; apply in_u32_u32|].
  rewrite IH; [|cbn [length]; lia|done]. cbn [words].
  replace (s.1.1, s.1.2, s.2) with s by (by destruct s as [[? ?] ?]). rewrite <- Es.
  symmetry. apply hash_words_more, words_nonempty.
Qed.

(** C38: the hash function.  For every sequence of bytes and every initial value
    [jenkins_hash] computes Bob Jenkins' lookup3, given as the function on 32-bit words: the
    bytes are taken as little-endian words, the last one filled up with zeros; three
    words at a time are added to the state, which is mixed between them and
    finalized after the last three, whatever the length of the rest; no bytes give the
    initial state.  The self test of lookup3.c anchors the reference: the values
    for its test sentence come out. *)
Theorem jenkins_hash_lookup3 k initval :
  jenkins_hash k initval = lookup3 k initval /\
  lookup3 (bytes_of "Four score and seven years ago") 0 = 0x17770551 /\
  lookup3 (bytes_of "Four score and seven years ago") 1 = 0xcd628161.
Proof.
  split; [|by vm_compute]. unfold jenkins_hash, lookup3. apply jenkins_loop_lookup3; [done|].
  split_and!; apply in_u32_u32.
Qed.
