(* ===== verification/Printf.v ===== *)
(** * Formatted output (src/support/portab/vsnprintf.c)

    The replacement of [vsnprintf] for systems without one: the state machine that
    reads the format, and the conversions.  Integers are those of a system
    with an [int] of 32 bits and a [long] and [long long] of 64.  There are no arguments
    of floating-point or pointer types (the program has none in its messages), so that a conversion
    that asks for one is undefined here. *)

From S2P Require Import Prelude CString.

(** ** The buffer *)

(** The memory behind [buffer], and [currlen]. *)
Record sink := Sink { sk_buffer : list ascii; sk_currlen : nat }.

Definition dopr_outch (maxlen : nat) (c : ascii) (o : sink) : sink :=
  Sink (if (sk_currlen o <? maxlen)%nat then <[sk_currlen o := c]> (sk_buffer o) else sk_buffer o) (S (sk_currlen o)).

(** A loop that writes [n] times the same character. *)
Fixpoint outch_times (maxlen n : nat) (c : ascii) (o : sink) : sink :=
  match n with O => o | S n' => outch_times maxlen n' c (dopr_outch maxlen c o) end.

(** ** Numbers *)

Definition signed (w z : Z) : Z := (z + 2 ^ (w - 1)) mod 2 ^ w - 2 ^ (w - 1).
Definition unsigned (w z : Z) : Z := z mod 2 ^ w.

Definition DP_F_MINUS : Z := 1.
Definition DP_F_PLUS : Z := 2.
Definition DP_F_SPACE : Z := 4.
Definition DP_F_NUM : Z := 8.
Definition DP_F_ZERO : Z := 16.
Definition DP_F_UP : Z := 32.
Definition DP_F_UNSIGNED : Z := 64.

Definition flag_set (flags f : Z) : bool := negb (Z.land flags f =? 0).

Definition digit_up (d : Z) : ascii := ascii_of_N (Z.to_N (if d <? 10 then 48 + d else 55 + d)).

(** The digits, the last one first; at most [n] of them. *)
Fixpoint convert_loop (n : nat) (caps : bool) (base uvalue : Z) : list ascii :=
  match n with
  | O => []
  | S n' =>
      (if caps then digit_up else digit_chr) (uvalue mod base) ::
      (if uvalue / base =? 0 then [] else convert_loop n' caps base (uvalue / base))
  end.

(** The array [convert] has 20 elements, the last one for the terminator. *)
Definition convert (caps : bool) (base uvalue : Z) : list ascii := take 19 (convert_loop 20 caps base uvalue).

Fixpoint outch_all (maxlen : nat) (l : list ascii) (o : sink) : sink :=
  match l with [] => o | c :: l' => outch_all maxlen l' (dopr_outch maxlen c o) end.

(** The sign and the absolute value.  The negation of the smallest value is undefined. *)
Definition sign_of (value flags : Z) : option (option ascii * Z) :=
  if flag_set flags DP_F_UNSIGNED then Some (None, unsigned 64 value)
  else if value <? 0 then (if value =? - 2 ^ 63 then None else Some (Some "-"%char, - value))
  else Some (if flag_set flags DP_F_PLUS then Some "+"%char
             else if flag_set flags DP_F_SPACE then Some " "%char else None, value).

Definition fmtint (maxlen : nat) (value base min max flags : Z) (o : sink) : option sink :=
  let max := if max <? 0 then 0 else max in
  sv ← sign_of value flags;
  let digits := convert (flag_set flags DP_F_UP) base sv.2 in
  let place := Z.of_nat (length digits) in
  let zpadlen := Z.max 0 (max - place) in
  let spadlen := Z.max 0 (min - Z.max max place - (if is_some sv.1 then 1 else 0)) in
  let '(zpadlen, spadlen) := if flag_set flags DP_F_ZERO then (Z.max zpadlen spadlen, 0) else (zpadlen, spadlen) in
  let left := flag_set flags DP_F_MINUS in
  let o := if left then o else outch_times maxlen (Z.to_nat spadlen) " " o in
  let o := match sv.1 with Some c => dopr_outch maxlen c o | None => o end in
  let o := outch_times maxlen (Z.to_nat zpadlen) "0" o in
  let o := outch_all maxlen (rev digits) o in
  Some (if left then outch_times maxlen (Z.to_nat spadlen) " " o else o).

(** ** Strings *)

(** The loops of [fmtstr] count what they write in [cnt]. *)
Fixpoint pad_loop (maxlen n : nat) (cnt max : Z) (o : sink) : sink * Z :=
  match n with
  | O => (o, cnt)
  | S n' => if cnt <? max then pad_loop maxlen n' (cnt + 1) max (dopr_outch maxlen " " o) else (o, cnt)
  end.

Fixpoint copy_loop (maxlen : nat) (value : string) (cnt max : Z) (o : sink) : sink * Z :=
  match value with
  | "" => (o, cnt)
  | String c value' => if cnt <? max then copy_loop maxlen value' (cnt + 1) max (dopr_outch maxlen c o) else (o, cnt)
  end.

Definition fmtstr (maxlen : nat) (value : string) (flags min max : Z) (o : sink) : sink :=
  let padlen := Z.max 0 (min - Z.of_nat (slen value)) in
  let left := flag_set flags DP_F_MINUS in
  let '(o, cnt) := if left then (o, 0) else pad_loop maxlen (Z.to_nat padlen) 0 max o in
  let '(o, cnt) := copy_loop maxlen value cnt max o in
  if left then fst (pad_loop maxlen (Z.to_nat padlen) cnt max o) else o.

(** ** Arguments *)

Definition char_value (c : ascii) : Z := signed 8 (Z.of_N (N_of_ascii c)).

(** [va_arg] with an integer type of [w] bits; a character is passed as an int. *)
Definition va_arg (is_signed : bool) (w : Z) (args : list farg) : option (Z * list farg) :=
  match args with
  | FZ z :: args' => Some ((if is_signed then signed w z else unsigned w z), args')
  | FC c :: args' => if w =? 32 then Some ((if is_signed then char_value c else unsigned w (char_value c)), args') else None
  | _ => None
  end.

Definition va_string (args : list farg) : option (string * list farg) :=
  match args with FS s :: args' => Some (s, args') | _ => None end.

(** ** The state machine *)

Inductive dp_state := DP_S_DEFAULT | DP_S_FLAGS | DP_S_MIN | DP_S_DOT | DP_S_MAX | DP_S_MOD | DP_S_CONV | DP_S_DONE.
Inductive dp_length := DP_C_NONE | DP_C_SHORT | DP_C_LONG | DP_C_LDOUBLE | DP_C_LLONG.

(** What has not been read of the format: [None] behind its terminator. *)
Record DP := Dp {
  dp_format : option string; dp_ch : ascii; dp_st : dp_state;
  dp_flags : Z; dp_cflags : dp_length; dp_min : Z; dp_max : Z;
  dp_args : list farg; dp_out : sink }.

(** [ch = *format++] *)
Definition advance_ch (d : DP) : option DP :=
  match dp_format d with
  | Some (String c f) => Some (Dp (Some f) c (dp_st d) (dp_flags d) (dp_cflags d) (dp_min d) (dp_max d) (dp_args d) (dp_out d))
  | Some "" => Some (Dp None NUL (dp_st d) (dp_flags d) (dp_cflags d) (dp_min d) (dp_max d) (dp_args d) (dp_out d))
  | None => None
  end.

Definition goto (s : dp_state) (d : DP) : DP :=
  Dp (dp_format d) (dp_ch d) s (dp_flags d) (dp_cflags d) (dp_min d) (dp_max d) (dp_args d) (dp_out d).
Definition set_flag (f : Z) (d : DP) : DP :=
  Dp (dp_format d) (dp_ch d) (dp_st d) (Z.lor (dp_flags d) f) (dp_cflags d) (dp_min d) (dp_max d) (dp_args d) (dp_out d).
Definition set_length (c : dp_length) (d : DP) : DP :=
  Dp (dp_format d) (dp_ch d) (dp_st d) (dp_flags d) c (dp_min d) (dp_max d) (dp_args d) (dp_out d).
Definition set_min (z : Z) (args : list farg) (d : DP) : DP :=
  Dp (dp_format d) (dp_ch d) (dp_st d) (dp_flags d) (dp_cflags d) z (dp_max d) args (dp_out d).
Definition set_max (z : Z) (args : list farg) (d : DP) : DP :=
  Dp (dp_format d) (dp_ch d) (dp_st d) (dp_flags d) (dp_cflags d) (dp_min d) z args (dp_out d).
Definition put (args : list farg) (o : sink) (d : DP) : DP :=
  Dp (dp_format d) (dp_ch d) (dp_st d) (dp_flags d) (dp_cflags d) (dp_min d) (dp_max d) args o.
(** Ready for the next conversion. *)
Definition clear (d : DP) : DP :=
  Dp (dp_format d) (dp_ch d) DP_S_DEFAULT 0 DP_C_NONE 0 (-1) (dp_args d) (dp_out d).

Definition flag_of (ch : ascii) : option Z :=
  match ch with
  | "-" => Some DP_F_MINUS
  | "+" => Some DP_F_PLUS
  | " " => Some DP_F_SPACE
  | "#" => Some DP_F_NUM
  | "0" => Some DP_F_ZERO
  | _ => None
  end%char.

(** [10 * n + char_to_int(ch)], which must not overflow. *)
Definition next_digit (n : Z) (ch : ascii) : option Z :=
  let n := 10 * n + (Z.of_N (N_of_ascii ch) - 48) in if n <? 2 ^ 31 then Some n else None.

Section Dopr.
Context (maxlen : nat).

(** An integer conversion; [is_signed] tells the type of the argument. *)
Definition conv_int (is_signed : bool) (base flag : Z) (d : DP) : option DP :=
  let d := set_flag flag d in
  a ← va_arg is_signed (match dp_cflags d with DP_C_LONG | DP_C_LLONG => 64 | _ => 32 end) (dp_args d);
  o ← fmtint maxlen (signed 64 a.1) base (dp_min d) (dp_max d) (dp_flags d) (dp_out d);
  Some (put a.2 o d).

Definition conv_str (d : DP) : option DP :=
  a ← va_string (dp_args d);
  let max := if dp_max d =? -1 then Z.of_nat (slen a.1) else dp_max d in
  let max := if (0 <? dp_min d) && (0 <=? max) && (max <? dp_min d) then dp_min d else max in
  Some (put a.2 (fmtstr maxlen a.1 (dp_flags d) (dp_min d) max (dp_out d)) d).

Definition conv_chr (d : DP) : option DP :=
  a ← va_arg true 32 (dp_args d);
  Some (put a.2 (dopr_outch maxlen (ascii_of_N (Z.to_N (unsigned 8 a.1))) (dp_out d)) d).

(** The character of the conversion. *)
Definition convert_arg (d : DP) : option DP :=
  match dp_ch d with
  | "d" | "i" => conv_int true 10 0 d
  | "o" => conv_int false 8 DP_F_UNSIGNED d
  | "u" => conv_int false 10 DP_F_UNSIGNED d
  | "X" => conv_int false 16 (Z.lor DP_F_UP DP_F_UNSIGNED) d
  | "x" => conv_int false 16 DP_F_UNSIGNED d
  | "f" | "E" | "e" | "G" | "g" | "p" | "n" => None
  | "c" => conv_chr d
  | "s" => conv_str d
  | "%" => Some (put (dp_args d) (dopr_outch maxlen (dp_ch d) (dp_out d)) d)
  | "w" => advance_ch d
  | _ => Some d
  end%char.

(** The modifier, if there is one; [ll] is one, too. *)
Definition read_length (d : DP) : option DP :=
  match dp_ch d with
  | "h" => advance_ch (set_length DP_C_SHORT d)
  | "l" =>
      d ← advance_ch (set_length DP_C_LONG d);
      if dp_ch d =c "l" then advance_ch (set_length DP_C_LLONG d) else Some d
  | "L" => advance_ch (set_length DP_C_LDOUBLE d)
  | _ => Some d
  end%char.

(** One round of the loop. *)
Definition dopr_step (d : DP) : option DP :=
  let d := if dp_ch d =c NUL then goto DP_S_DONE d else d in
  let ch := dp_ch d in
  match dp_st d with
  | DP_S_DEFAULT =>
      advance_ch (if ch =c "%" then goto DP_S_FLAGS d else put (dp_args d) (dopr_outch maxlen ch (dp_out d)) d)
  | DP_S_FLAGS =>
      match flag_of ch with
      | Some f => advance_ch (set_flag f d)
      | None => Some (goto DP_S_MIN d)
      end
  | DP_S_MIN =>
      if is_digit ch then n ← next_digit (dp_min d) ch; advance_ch (set_min n (dp_args d) d)
      else if ch =c "*" then a ← va_arg true 32 (dp_args d); goto DP_S_DOT <$> advance_ch (set_min a.1 a.2 d)
      else Some (goto DP_S_DOT d)
  | DP_S_DOT => if ch =c "." then advance_ch (goto DP_S_MAX d) else Some (goto DP_S_MOD d)
  | DP_S_MAX =>
      if is_digit ch then
        n ← next_digit (if dp_max d <? 0 then 0 else dp_max d) ch; advance_ch (set_max n (dp_args d) d)
      else if ch =c "*" then a ← va_arg true 32 (dp_args d); goto DP_S_MOD <$> advance_ch (set_max a.1 a.2 d)
      else Some (goto DP_S_MOD d)
  | DP_S_MOD => goto DP_S_CONV <$> read_length d
  | DP_S_CONV => d ← convert_arg d; clear <$> advance_ch d
  | DP_S_DONE => Some d
  end.

(** The end of the loop, undefined behaviour, or too many rounds. *)
Inductive printed := Finished (o : sink) | Undefined | TooLong.

Fixpoint dopr_loop (fuel : nat) (d : DP) : printed :=
  match dp_st d with
  | DP_S_DONE => Finished (dp_out d)
  | _ =>
      match fuel with
      | O => TooLong
      | S fuel' => match dopr_step d with Some d' => dopr_loop fuel' d' | None => Undefined end
      end
  end.

(** The format from a text on. *)
Definition at_text (f : string) (st : dp_state) (flags : Z) (cflags : dp_length) (min max : Z) (args : list farg) (o : sink) : DP :=
  match f with
  | "" => Dp None NUL st flags cflags min max args o
  | String c f' => Dp (Some f') c st flags cflags min max args o
  end.

(** The terminator. *)
Definition terminate (o : sink) : list ascii :=
  if (maxlen =? 0)%nat then sk_buffer o
  else if (sk_currlen o <? maxlen - 1)%nat then <[sk_currlen o := NUL]> (sk_buffer o)
  else <[(maxlen - 1)%nat := NUL]> (sk_buffer o).

(** Eight rounds for each character are enough.  The result is the content of the
    buffer and the length. *)
Definition dopr (buffer : list ascii) (format : string) (args : list farg) : option (list ascii * nat) :=
  match dopr_loop (8 * (slen format + 2)) (at_text format DP_S_DEFAULT 0 DP_C_NONE 0 (-1) args (Sink buffer 0)) with
  | Finished o => Some (terminate o, sk_currlen o)
  | _ => None
  end.

End Dopr.

(** The content of the buffer and the result. *)
Definition vsnprintf (str : list ascii) (count : nat) (fmt : string) (args : list farg) : option (list ascii * Z) :=
  (fun r => (r.1, signed 32 (Z.of_nat r.2))) <$> dopr count str fmt args.
