(* ===== verification/PrintfSpec.v ===== *)
(** * Formatted output: what it promises

    What the C standard says about a conversion (ISO C 7.19.6.1), and that
    [vsnprintf] of vsnprintf.c does it for all conversions but those listed at
    [accepted]: there it deviates from the standard. *)

From S2P Require Import Prelude CString Printf.

(** ** The standard *)

Fixpoint str_repeat (n : nat) (c : ascii) : string :=
  match n with O => "" | S n' => String c (str_repeat n' c) end.

(** A conversion specification, in its parts. *)
Record directive := Directive {
  di_flags : string; di_width : string; di_prec : option string; di_length : string; di_conv : ascii }.

Definition directive_text (d : directive) : string :=
  "%" +:+ di_flags d +:+ di_width d +:+ match di_prec d with Some p => "." +:+ p | None => "" end +:+
  di_length d +:+ String (di_conv d) "".

Definition has_flag (d : directive) (c : ascii) : bool := str_mem c (di_flags d).
Definition field_width (d : directive) : nat := Z.to_nat (digits (di_width d) 0).
Definition precision (d : directive) : option nat := (fun p => Z.to_nat (digits p 0)) <$> di_prec d.

(** Blanks up to the field width, on the left or on the right. *)
Definition fill (d : directive) (s : string) : string :=
  let blanks := str_repeat (field_width d - slen s) " " in
  if has_flag d "-" then s +:+ blanks else blanks +:+ s.

Definition sign_text (d : directive) (z : Z) : string :=
  if z <? 0 then "-" else if has_flag d "+" then "+" else if has_flag d " " then " " else "".

(** At least as many digits as the precision says. *)
Definition digits_text (d : directive) (base n : Z) : string :=
  let s := (if di_conv d =c "X" then str_map toupper else id) (print_base base n) in
  match precision d with
  | Some p => if (p =? 0)%nat && (n =? 0) then "" else str_repeat (p - slen s) "0" +:+ s
  | None => s
  end.

(** The flag 0 counts only without - and without a precision. *)
Definition number_text (d : directive) (sign : string) (base n : Z) : string :=
  let s := digits_text d base n in
  if has_flag d "0" && negb (has_flag d "-") && negb (is_some (precision d)) then
    sign +:+ str_repeat (field_width d - slen sign - slen s) "0" +:+ s
  else fill d (sign +:+ s).

Definition conversion_text (d : directive) (a : farg) : string :=
  match a with
  | FZ z =>
      match di_conv d with
      | "d" | "i" => number_text d (sign_text d z) 10 (Z.abs z)
      | "o" => number_text d "" 8 z
      | "u" => number_text d "" 10 z
      | _ => number_text d "" 16 z
      end%char
  | FC c => fill d (String c "")
  | FS s => fill d (match precision d with Some p => str_take p s | None => s end)
  end.

(** ** Where the code agrees *)

(** The parts of a conversion are in the form that the standard describes; widths and
    precisions have at most nine digits. *)
Definition well_formed (d : directive) : bool :=
  str_forall (fun c => str_mem c "-+ #0") (di_flags d) &&
  str_forall is_digit (di_width d) && negb (hd0 (di_width d) =c "0") && (slen (di_width d) <=? 9)%nat &&
  match di_prec d with
  | Some p => str_forall is_digit p && (1 <=? slen p)%nat && (slen p <=? 9)%nat
  | None => true
  end.

Definition length_ok (s : string) : bool := String.eqb s "" || String.eqb s "l" || String.eqb s "ll".

(** The values of the type of the argument, but for the least of 64 bits. *)
Definition in_type (is_signed : bool) (length : string) (z : Z) : bool :=
  length_ok length &&
  let w := if String.eqb length "" then 32 else 64 in
  if is_signed then (- 2 ^ (w - 1) <=? z) && (z <? 2 ^ (w - 1)) && negb (z =? - 2 ^ 63) else (0 <=? z) && (z <? 2 ^ w).

Definition plain_number (d : directive) (z : Z) : bool :=
  negb (has_flag d "#") && negb (has_flag d "0" && (has_flag d "-" || is_some (precision d))) &&
  negb (bool_decide (precision d = Some 0%nat) && (z =? 0)).

(** Not here: the flag #; the flag 0 with - or with a precision, which is not ignored;
    the precision 0 of the number 0, which prints nothing in the standard; numbers with 20
    digits, which lose the first one; a width for characters, which is ignored; and strings
    that are cut to less than the field width. *)
Definition accepted_value (d : directive) (a : farg) : bool :=
  match di_conv d, a with
  | "d"%char, FZ z | "i"%char, FZ z => in_type true (di_length d) z && plain_number d z
  | "u"%char, FZ z => in_type false (di_length d) z && plain_number d z && (z <? 10 ^ 19)
  | "o"%char, FZ z => in_type false (di_length d) z && plain_number d z && (z <? 8 ^ 19)
  | "x"%char, FZ z | "X"%char, FZ z => in_type false (di_length d) z && plain_number d z
  | "c"%char, FC c => negb (c =c NUL) && String.eqb (di_flags d) "" && String.eqb (di_width d) "" &&
                 negb (is_some (di_prec d)) && String.eqb (di_length d) ""
  | "s"%char, FS s => negb (str_mem NUL s) && negb (has_flag d "#") && negb (has_flag d "0") && String.eqb (di_length d) "" &&
                 match precision d with Some p => (field_width d <=? p)%nat || (slen s <=? p)%nat | None => true end
  | _, _ => false
  end.

Definition accepted (d : directive) (a : farg) : bool := well_formed d && accepted_value d a.

(** The pieces of a format with the arguments that belong to them. *)
Inductive piece := Text (s : string) | Percent | Conversion (d : directive) (a : farg).

Definition piece_ok (p : piece) : bool :=
  match p with
  | Text s => negb (str_mem NUL s) && negb (str_mem "%" s)
  | Percent => true
  | Conversion d a => accepted d a
  end.

Fixpoint format_of (l : list piece) : string :=
  match l with
  | [] => ""
  | Text s :: l' => s +:+ format_of l'
  | Percent :: l' => "%%" +:+ format_of l'
  | Conversion d _ :: l' => directive_text d +:+ format_of l'
  end.

Fixpoint args_of (l : list piece) : list farg :=
  match l with
  | [] => []
  | Conversion _ a :: l' => a :: args_of l'
  | _ :: l' => args_of l'
  end.

Fixpoint output_of (l : list piece) : string :=
  match l with
  | [] => ""
  | Text s :: l' => s +:+ output_of l'
  | Percent :: l' => "%" +:+ output_of l'
  | Conversion d a :: l' => conversion_text d a +:+ output_of l'
  end.

(** ** Writing to the buffer *)

Notation chars := list_ascii_of_string.

Lemma chars_app s t : chars (s +:+ t) = chars s ++ chars t.
Proof. induction s as [|c s IH]; [done|]. change (c :: chars (s +:+ t) = c :: (chars s ++ chars t)). by rewrite IH. Qed.

Lemma chars_length s : length (chars s) = slen s.
Proof. induction s; cbn; congruence. Qed.

Lemma chars_take n s : chars (str_take n s) = take n (chars s).
Proof. revert n. induction s as [|c s IH]; intros [|n]; cbn; congruence. Qed.

Lemma chars_repeat n c : chars (str_repeat n c) = replicate n c.
Proof. induction n; cbn; congruence. Qed.

Lemma slen_repeat n c : slen (str_repeat n c) = n.
Proof. by rewrite <- chars_length, chars_repeat, length_replicate. Qed.

Lemma chars_map f s : chars (str_map f s) = map f (chars s).
Proof. induction s; cbn; congruence. Qed.

Section Sink.
Context (maxlen : nat).

Notation all := (outch_all maxlen).

Lemma all_app l1 l2 o : all (l1 ++ l2) o = all l2 (all l1 o).
Proof. revert o. induction l1 as [|c l1 IH]; intros o; cbn; [done|apply IH]. Qed.

Lemma all_times n c o : outch_times maxlen n c o = all (replicate n c) o.
Proof. revert o. induction n as [|n IH]; intros o; cbn; [done|apply IH]. Qed.

Lemma all_pad n cnt max o :
  pad_loop maxlen n cnt max o =
    (all (replicate (Nat.min n (Z.to_nat (max - cnt))) " "%char) o, cnt + Z.of_nat (Nat.min n (Z.to_nat (max - cnt)))).
Proof.
  revert cnt o. induction n as [|n IH]; intros cnt o; cbn [pad_loop Nat.min]; [f_equal; cbn; lia|].
  destruct (Z.ltb_spec cnt max).
  - rewrite IH. replace (Z.to_nat (max - cnt)) with (S (Z.to_nat (max - (cnt + 1)))) by lia. cbn [Nat.min replicate outch_all].
    f_equal. lia.
  - replace (Z.to_nat (max - cnt)) with 0%nat by lia. cbn. f_equal. lia.
Qed.

Lemma all_copy s cnt max o :
  copy_loop maxlen s cnt max o =
    (all (take (Z.to_nat (max - cnt)) (chars s)) o, cnt + Z.of_nat (Nat.min (slen s) (Z.to_nat (max - cnt)))).
Proof.
  revert cnt o. induction s as [|c s IH]; intros cnt o; cbn [copy_loop]; [cbn; rewrite take_nil; cbn; f_equal; lia|].
  destruct (Z.ltb_spec cnt max).
  - rewrite IH. replace (Z.to_nat (max - cnt)) with (S (Z.to_nat (max - (cnt + 1)))) by lia. cbn [list_ascii_of_string take outch_all slen Nat.min].
    f_equal. lia.
  - replace (Z.to_nat (max - cnt)) with 0%nat by lia. cbn. f_equal. lia.
Qed.

(** The content of the buffer after the output [l]. *)
Lemma all_written buf l :
  (maxlen <= length buf)%nat ->
  all l (Sink buf 0) = Sink (take maxlen l ++ drop (Nat.min maxlen (length l)) buf) (length l).
Proof.
  intros Hb. induction l as [|c l IH] using rev_ind; [cbn; by rewrite take_nil, Nat.min_0_r|].
  rewrite all_app, IH. cbn [outch_all]. unfold dopr_outch. cbn [sk_buffer sk_currlen]. rewrite length_app. cbn [length].
  f_equal; [|lia]. destruct (Nat.ltb_spec (length l) maxlen).
  - rewrite !take_ge by (rewrite ?length_app; cbn; lia). rewrite !Nat.min_r by lia.
    rewrite insert_app_r_alt by lia. rewrite Nat.sub_diag, <- app_assoc. f_equal.
    destruct (lookup_lt_is_Some_2 buf (length l)) as [x Hx]; [lia|]. rewrite (drop_S _ _ _ Hx). cbn. do 2 f_equal. lia.
  - rewrite take_app_le by lia. by rewrite !Nat.min_l by lia.
Qed.

End Sink.

(** ** Numbers *)

Lemma signed_small w z : 0 < w -> - 2 ^ (w - 1) <= z < 2 ^ (w - 1) -> signed w z = z.
Proof.
  intros Hw Hz. unfold signed. replace w with (Z.succ (w - 1)) at 2 by lia. rewrite Z.pow_succ_r by lia.
  rewrite Z.mod_small by lia. lia.
Qed.

Lemma unsigned_signed z : 0 <= z < 2 ^ 64 -> unsigned 64 (signed 64 z) = z.
Proof.
  intros Hz. unfold signed, unsigned. rewrite Zminus_mod_idemp_l.
  replace (z + 2 ^ (64 - 1) - 2 ^ (64 - 1)) with z by lia. by apply Z.mod_small.
Qed.

Section Digits.
Context (base : Z) (Hbase : 1 < base <= 16).

Lemma small_step n k : 0 <= n < base ^ Z.of_nat (S k) -> base <= n -> 0 <= n / base < base ^ Z.of_nat k.
Proof.
  intros [H0 Hn] Hb. split; [by apply Z.div_pos; lia|]. apply Z.div_lt_upper_bound; [lia|].
  rewrite Nat2Z.inj_succ, Z.pow_succ_r in Hn by lia. lia.
Qed.

Lemma one_digit n : 0 <= n -> (n / base =? 0) = (n <? base).
Proof.
  intros Hn. destruct (Z.ltb_spec n base); [by rewrite Z.div_small|].
  apply Z.eqb_neq. pose proof (Z.div_str_pos n base). lia.
Qed.

Lemma print_aux_step k n acc :
  print_nat_aux base (S k) n acc =
    if n <? base then String (digit_chr (n mod base)) acc
    else print_nat_aux base k (n / base) (String (digit_chr (n mod base)) acc).
Proof. done. Qed.

Lemma convert_step k caps n :
  0 <= n -> convert_loop (S k) caps base n =
    (if caps then digit_up else digit_chr) (n mod base) :: (if n <? base then [] else convert_loop k caps base (n / base)).
Proof. intros Hn. cbn [convert_loop]. by rewrite one_digit. Qed.

(** The two ways to compute the digits; both have fuel enough. *)
Lemma aux_convert k m n acc :
  0 <= n < base ^ Z.of_nat (S k) -> n < base ^ Z.of_nat (S m) ->
  chars (print_nat_aux base (S k) n acc) = rev (convert_loop (S m) false base n) ++ chars acc.
Proof.
  revert m n acc. induction k as [|k IH]; intros m n acc Hk Hm; rewrite print_aux_step, convert_step by lia;
    cbn [rev]; rewrite <- app_assoc; cbn [app].
  - change (base ^ Z.of_nat 1) with (base ^ 1) in Hk. rewrite Z.pow_1_r in Hk. rewrite (proj2 (Z.ltb_lt _ _)) by lia. done.
  - destruct (Z.ltb_spec n base); [done|]. destruct m as [|m].
    { change (base ^ Z.of_nat 1) with (base ^ 1) in Hm. rewrite Z.pow_1_r in Hm. lia. }
    rewrite (IH m); [done| |]; apply small_step; lia.
Qed.

Lemma convert_length m k caps n : 0 <= n < base ^ Z.of_nat (S k) -> (length (convert_loop m caps base n) <= S k)%nat.
Proof.
  revert k n. induction m as [|m IH]; intros k n Hk; cbn [convert_loop length]; [lia|]. rewrite one_digit by lia.
  destruct (Z.ltb_spec n base); cbn [length]; [lia|]. destruct k as [|k].
  { change (base ^ Z.of_nat 1) with (base ^ 1) in Hk. rewrite Z.pow_1_r in Hk. lia. }
  specialize (IH k (n / base)). pose proof (small_step n (S k) Hk). lia.
Qed.

Lemma digit_upper d : 0 <= d < 16 -> digit_up d = toupper (digit_chr d).
Proof.
  intros Hd. assert (d = 0 \/ d = 1 \/ d = 2 \/ d = 3 \/ d = 4 \/ d = 5 \/ d = 6 \/ d = 7 \/ d = 8 \/ d = 9 \/ d = 10 \/
    d = 11 \/ d = 12 \/ d = 13 \/ d = 14 \/ d = 15) as Hcases by lia. by repeat destruct Hcases as [->|Hcases]; subst.
Qed.

Lemma convert_upper m n : convert_loop m true base n = map toupper (convert_loop m false base n).
Proof.
  revert n. induction m as [|m IH]; intros n; cbn [convert_loop map]; [done|].
  rewrite digit_upper by (pose proof (Z.mod_pos_bound n base); lia). f_equal. destruct (_ =? _); [done|apply IH].
Qed.

Lemma print_base_convert m n :
  0 <= n < base ^ Z.of_nat (S m) -> chars (print_base base n) = rev (convert_loop (S m) false base n).
Proof.
  intros [H0 Hn]. unfold print_base. rewrite (proj2 (Z.ltb_ge _ _)) by done.
  rewrite (aux_convert _ m); [by rewrite app_nil_r| |done]. split; [done|]. rewrite Nat2Z.inj_succ, Z2Nat.id by apply Z.log2_nonneg.
  destruct (Z.eq_dec n 0) as [->|]; [apply Z.pow_pos_nonneg; [lia|cbn; lia]|].
  apply Z.lt_le_trans with (2 ^ Z.succ (Z.log2 n)); [apply Z.log2_spec; lia|]. apply Z.pow_le_mono_l. lia.
Qed.

(** The digits in the array are those of the number. *)
Lemma convert_print caps n :
  0 <= n < base ^ 19 -> rev (convert caps base n) = chars ((if caps then str_map toupper else id) (print_base base n)).
Proof.
  intros Hn. change 19 with (Z.of_nat 19) in Hn. assert (0 <= n < base ^ Z.of_nat 20) as Hn2.
  { split; [lia|]. apply Z.lt_le_trans with (base ^ Z.of_nat 19); [lia|]. apply Z.pow_le_mono_r; lia. }
  unfold convert. rewrite take_ge by (by apply convert_length).
  destruct caps; [|unfold id; by rewrite (print_base_convert 19)].
  by rewrite chars_map, convert_upper, (print_base_convert 19), map_rev.
Qed.

End Digits.

(** The negative numbers are printed by their absolute value. *)
Lemma print_base_abs base z : z < 0 -> print_base base z = "-" +:+ print_base base (Z.abs z).
Proof.
  intros Hz. unfold print_base. rewrite (proj2 (Z.ltb_lt _ _) Hz), (proj2 (Z.ltb_ge _ _)) by lia.
  by rewrite Z.abs_neq by lia.
Qed.

(** ** One conversion *)

Definition sign_string (sg : option ascii) : string := match sg with Some c => String c "" | None => "" end.

(** The flags as bits. *)
Record flag_bits (d : directive) (is_unsigned : bool) (fl : Z) : Prop := {
  fb_minus : flag_set fl DP_F_MINUS = has_flag d "-";
  fb_plus : flag_set fl DP_F_PLUS = has_flag d "+";
  fb_space : flag_set fl DP_F_SPACE = has_flag d " ";
  fb_zero : flag_set fl DP_F_ZERO = has_flag d "0";
  fb_up : flag_set fl DP_F_UP = (di_conv d =c "X"%char);
  fb_unsigned : flag_set fl DP_F_UNSIGNED = is_unsigned }.

Definition max_of (d : directive) : Z := match precision d with Some p => Z.of_nat p | None => -1 end.

Lemma digits_padded d base n :
  (bool_decide (precision d = Some 0%nat) && (n =? 0)) = false ->
  let s := (if di_conv d =c "X" then str_map toupper else id) (print_base base n) in
  digits_text d base n = str_repeat (Z.to_nat (max_of d) - slen s) "0" +:+ s.
Proof.
  intros Hp s. unfold digits_text, max_of. fold s. destruct (precision d) as [p|]; [|done]. rewrite Nat2Z.id.
  destruct (Nat.eqb_spec p 0) as [->|]; [|done]. rewrite bool_decide_eq_true_2 in Hp by done. cbn [andb] in *. by rewrite Hp.
Qed.

Section Conversion.
Context (maxlen : nat).

Lemma fmtint_text d is_unsigned fl value base sg n o :
  1 < base <= 16 -> flag_bits d is_unsigned fl -> sign_of value fl = Some (sg, n) -> 0 <= n < base ^ 19 ->
  (has_flag d "0" && (has_flag d "-" || is_some (precision d))) = false ->
  (bool_decide (precision d = Some 0%nat) && (n =? 0)) = false ->
  fmtint maxlen value base (Z.of_nat (field_width d)) (max_of d) fl o =
    Some (outch_all maxlen (chars (number_text d (sign_string sg) base n)) o).
Proof.
  intros Hb [Fm _ _ Fz Fu _] Hsg Hn H0 Hp. unfold fmtint, number_text. rewrite Hsg. cbn [mbind option_bind option_map fst snd].
  rewrite (digits_padded _ _ _ Hp), Fm, Fz, Fu. pose proof (convert_print base Hb (di_conv d =c "X"%char) n Hn) as Hd.
  set (s := (if di_conv d =c "X"%char then str_map toupper else id) (print_base base n)) in *.
  assert (length (convert (di_conv d =c "X"%char) base n) = slen s) as Hlen.
  { rewrite <- (length_rev (convert _ _ _)), Hd. apply chars_length. }
  rewrite Hd, Hlen.
  assert ((if max_of d <? 0 then 0 else max_of d) = Z.of_nat (Z.to_nat (max_of d))) as -> by (destruct (Z.ltb_spec (max_of d) 0); lia).
  assert ((if is_some sg then 1 else 0) = Z.of_nat (slen (sign_string sg))) as -> by (by destruct sg).
  assert (forall o', (match sg with Some c => dopr_outch maxlen c o' | None => o' end) =
    outch_all maxlen (chars (sign_string sg)) o') as Hsign by (intros o'; by destruct sg).
  destruct (has_flag d "0"); cbn [andb negb].
  - apply orb_false_iff in H0 as [H1 H2]. rewrite H1, H2. cbn [negb andb]. f_equal. rewrite Hsign, !all_times, <- !all_app.
    f_equal. assert (max_of d = -1) as -> by (unfold max_of; by destruct (precision d)).
    rewrite !chars_app, !chars_repeat, app_assoc. cbn [Z.to_nat Nat.sub replicate app]. f_equal. f_equal. f_equal. rewrite slen_app, slen_repeat. lia.
  - unfold fill. rewrite Hsign, !all_times, <- !all_app. destruct (has_flag d "-"); cbn [negb andb]; rewrite ?all_times, <- ?all_app; f_equal.
    + f_equal. rewrite !chars_app, !chars_repeat, !slen_app, !slen_repeat, <- !app_assoc.
      repeat (f_equal; try lia).
    + f_equal. rewrite !chars_app, !chars_repeat, !slen_app, !slen_repeat, <- ?app_assoc.
      repeat (f_equal; try lia).
Qed.

Lemma fmtstr_text d fl s o :
  flag_set fl DP_F_MINUS = has_flag d "-" ->
  match precision d with Some p => (field_width d <=? p)%nat || (slen s <=? p)%nat | None => true end = true ->
  let max := if max_of d =? -1 then Z.of_nat (slen s) else max_of d in
  let max := if (0 <? Z.of_nat (field_width d)) && (0 <=? max) && (max <? Z.of_nat (field_width d)) then Z.of_nat (field_width d) else max in
  fmtstr maxlen s fl (Z.of_nat (field_width d)) max o = outch_all maxlen (chars (conversion_text d (FS s))) o.
Proof.
  intros Hm Hp. cbv zeta. unfold fmtstr, conversion_text, fill. rewrite Hm.
  set (w := field_width d) in *.
  set (m := match precision d with Some p => Nat.min p (slen s) | None => slen s end).
  assert ((match precision d with Some p => str_take p s | None => s end) = str_take m s) as ->.
  { unfold m. destruct (precision d) as [p|]; [|symmetry; apply str_take_all; lia].
    destruct (Nat.min_spec p (slen s)) as [[_ ->]|[? ->]]; [done|]. rewrite !str_take_all by lia. done. }
  set (mx := if _ && _ && _ then _ else _).
  assert (mx = Z.of_nat (Nat.max w (match precision d with Some p => p | None => slen s end))) as ->.
  { unfold mx, max_of. destruct (precision d) as [p|].
    - destruct (Z.eqb_spec (Z.of_nat p) (-1)); [lia|]. destruct (Z.ltb_spec 0 (Z.of_nat w)), (Z.leb_spec 0 (Z.of_nat p)),
        (Z.ltb_spec (Z.of_nat p) (Z.of_nat w)); cbn [andb]; lia.
    - change (-1 =? -1) with true. cbv iota. destruct (Z.ltb_spec 0 (Z.of_nat w)), (Z.leb_spec 0 (Z.of_nat (slen s))),
        (Z.ltb_spec (Z.of_nat (slen s)) (Z.of_nat w)); cbn [andb]; lia. }
  set (P := match precision d with Some p => p | None => slen s end) in *.
  assert (m = Nat.min P (slen s)) as Em by (unfold m, P; destruct (precision d); lia).
  assert (slen (str_take m s) = m) as Hlen by (rewrite slen_take; lia).
  assert ((w <= P)%nat \/ (slen s <= P)%nat) as Hcase.
  { unfold P. destruct (precision d) as [p|]; [|by right].
    apply orb_prop in Hp as [Hp%Nat.leb_le|Hp%Nat.leb_le]; [by left|by right]. }
  assert (forall k, (k = P \/ slen s <= k /\ slen s <= P)%nat -> take k (chars s) = take m (chars s)) as Htake.
  { intros k Hk. rewrite Em. destruct (Nat.min_spec P (slen s)) as [[? ->]|[? ->]].
    - destruct Hk as [->|[? ?]]; [done|lia].
    - rewrite !take_ge; [done|..]; rewrite chars_length; lia. }
  destruct (has_flag d "-").
  - rewrite all_copy. cbn [fst snd]. rewrite all_pad. cbn [fst]. rewrite <- all_app. f_equal.
    rewrite chars_app, chars_repeat, chars_take, Hlen. f_equal; [apply Htake; lia|]. f_equal. lia.
  - rewrite all_pad. cbn [fst snd]. rewrite all_copy. cbn [fst snd]. rewrite <- all_app. f_equal.
    rewrite chars_app, chars_repeat, chars_take, Hlen. f_equal; [f_equal; lia|]. apply Htake. lia.
Qed.

End Conversion.

(** ** The state machine *)

Section Machine.
Context (maxlen : nat).

(** One round that is not the last one. *)
Definition round (d d' : DP) : Prop := dopr_step maxlen d = Some d' /\ dp_st d <> DP_S_DONE.

(** *** Every round makes progress *)

Definition rank (s : dp_state) : nat :=
  match s with
  | DP_S_DEFAULT => 0 | DP_S_FLAGS => 1 | DP_S_MIN => 2 | DP_S_DOT => 3 | DP_S_MAX => 4 | DP_S_MOD => 5 | DP_S_CONV => 6
  | DP_S_DONE => 7
  end.

Definition unread (f : option string) : nat := match f with Some s => S (slen s) | None => 0%nat end.

Definition weight (d : DP) : nat := (8 * unread (dp_format d) + (7 - rank (dp_st d)))%nat.

Lemma advance_unread d d' :
  advance_ch d = Some d' -> S (unread (dp_format d')) = unread (dp_format d) /\ dp_st d' = dp_st d.
Proof. unfold advance_ch. by destruct (dp_format d) as [[|c f]|]; [intros [= <-]|intros [= <-]|]. Qed.

Lemma convert_unread d d' : convert_arg maxlen d = Some d' -> (unread (dp_format d') <= unread (dp_format d))%nat.
Proof.
  assert (forall b base fl x, conv_int maxlen b base fl d = Some x -> dp_format x = dp_format d) as Hint.
  { intros b base fl x. unfold conv_int. destruct (va_arg _ _ _) as [a|]; [|done]. cbn [mbind option_bind].
    destruct (fmtint _ _ _ _ _ _ _) as [o|]; [|done]. by intros [= <-]. }
  unfold convert_arg, conv_chr, conv_str. intros E.
  destruct (dp_ch d) as [[] [] [] [] [] [] [] []]; try discriminate E; try (injection E as <-; reflexivity);
    try (apply Hint in E as ->; reflexivity); try (apply advance_unread in E; lia).
  all: match type of E with context [?x ≫= _] => destruct x as [a|]; [|discriminate E] end.
  all: by injection E as <-.
Qed.

Lemma length_unread d d' : read_length d = Some d' -> (unread (dp_format d') <= unread (dp_format d))%nat.
Proof.
  unfold read_length. intros E.
  destruct (dp_ch d) as [[] [] [] [] [] [] [] []]; try discriminate E; try (injection E as <-; reflexivity);
    try (apply advance_unread in E; cbn in E; lia).
  destruct (advance_ch _) as [x|] eqn:E1; [|done]. cbn [mbind option_bind] in E. apply advance_unread in E1. cbn in E1.
  destruct (_ =c _); [apply advance_unread in E; cbn in E; lia|injection E as <-; lia].
Qed.

Lemma round_weight d d' : round d d' -> (weight d' < weight d)%nat.
Proof.
  intros [E Hd]. unfold dopr_step in E. set (d1 := if dp_ch d =c NUL then goto DP_S_DONE d else d) in E.
  assert (dp_format d1 = dp_format d) as Hf by (unfold d1; by destruct (_ =c _)).
  assert (d1 = d \/ dp_st d1 = DP_S_DONE) as Hd1 by (unfold d1; destruct (_ =c _); [by right|by left]).
  clearbody d1. unfold weight. rewrite <- Hf. destruct Hd1 as [->|H1].
  2: { rewrite H1 in E. injection E as <-. rewrite H1. destruct (dp_st d); cbn [rank] in *; try lia. done. }
  clear Hf. destruct (dp_st d) eqn:Es; cbn [rank].
  - apply advance_unread in E as [E1 E2]. destruct (_ =c _); cbn in E1; lia.
  - destruct (flag_of _); [apply advance_unread in E as [E1 E2]; cbn in E1, E2; rewrite E2, Es; cbn; lia|].
    injection E as <-. cbn. lia.
  - destruct (is_digit _); [|destruct (_ =c _); [|injection E as <-; cbn; lia]].
    + destruct (next_digit _ _) as [n|]; [|done]. cbn [mbind option_bind] in E. apply advance_unread in E as [E1 E2].
      cbn in E1, E2. rewrite E2, Es. cbn. lia.
    + destruct (va_arg _ _ _) as [a|]; [|done]. cbn [mbind option_bind] in E.
      destruct (advance_ch _) as [x|] eqn:E1; [|done]. injection E as <-. apply advance_unread in E1 as [E1 _]. cbn in *. lia.
  - destruct (_ =c _); [|injection E as <-; cbn; lia]. apply advance_unread in E as [E1 E2]. cbn in E1, E2. rewrite E2. cbn. lia.
  - destruct (is_digit _); [|destruct (_ =c _); [|injection E as <-; cbn; lia]].
    + destruct (next_digit _ _) as [n|]; [|done]. cbn [mbind option_bind] in E. apply advance_unread in E as [E1 E2].
      cbn in E1, E2. rewrite E2, Es. cbn. lia.
    + destruct (va_arg _ _ _) as [a|]; [|done]. cbn [mbind option_bind] in E.
      destruct (advance_ch _) as [x|] eqn:E1; [|done]. injection E as <-. apply advance_unread in E1 as [E1 _]. cbn in *. lia.
  - destruct (read_length d) as [x|] eqn:E1; [|done]. injection E as <-. apply length_unread in E1. cbn. lia.
  - destruct (convert_arg maxlen d) as [x|] eqn:E1; [|done]. cbn [mbind option_bind] in E.
    destruct (advance_ch x) as [y|] eqn:E2; [|done]. injection E as <-. apply convert_unread in E1.
    apply advance_unread in E2 as [E2 _]. cbn. lia.
  - done.
Qed.

(** The loop ends. *)
Lemma loop_ends fuel d : (weight d <= fuel)%nat -> dopr_loop maxlen fuel d <> TooLong.
Proof.
  revert d. induction fuel as [|fuel IH]; intros d Hw.
  - destruct (dp_st d) eqn:Es; unfold weight in Hw; rewrite Es in Hw; cbn in Hw; try lia. cbn. by rewrite Es.
  - cbn [dopr_loop]. destruct (dp_st d) eqn:Es; try done.
    all: destruct (dopr_step maxlen d) as [d'|] eqn:E; [|done]; apply IH.
    all: assert (round d d') as Hr by (split; [done|by rewrite Es]).
    all: apply round_weight in Hr; lia.
Qed.

Lemma loop_rounds fuel d d' :
  rtc round d d' -> dp_st d' = DP_S_DONE -> (weight d <= fuel)%nat -> dopr_loop maxlen fuel d = Finished (dp_out d').
Proof.
  intros Hr Hd Hw. assert (dopr_loop maxlen fuel d <> TooLong) as Hends by (by apply loop_ends). clear Hw.
  revert fuel Hends. induction Hr as [d|d d1 d2 [E Hne] _ IH]; intros fuel Hends.
  - destruct fuel; cbn [dopr_loop]; by rewrite Hd.
  - destruct fuel as [|fuel]; cbn [dopr_loop] in *; destruct (dp_st d) eqn:Es; try done; rewrite E in *; by apply IH.
Qed.

End Machine.

(** *** Reading a conversion *)

Section Reading.
Context (maxlen : nat).

Notation runs := (rtc (round maxlen)).
Notation start f a o := (at_text f DP_S_DEFAULT 0 DP_C_NONE 0 (-1) a o).

Lemma advance_text c f st fl cf mn mx a o :
  advance_ch (at_text (String c f) st fl cf mn mx a o) = Some (at_text f st fl cf mn mx a o).
Proof. by destruct f. Qed.

(** A round at a character. *)
Lemma round_at c f st fl cf mn mx a o d' :
  c <> NUL -> st <> DP_S_DONE ->
  (let d := at_text (String c f) st fl cf mn mx a o in
   match st with
   | DP_S_DEFAULT =>
       advance_ch (if c =c "%" then goto DP_S_FLAGS d else put a (dopr_outch maxlen c o) d)
   | DP_S_FLAGS => match flag_of c with Some f => advance_ch (set_flag f d) | None => Some (goto DP_S_MIN d) end
   | DP_S_MIN =>
       if is_digit c then n ← next_digit mn c; advance_ch (set_min n a d)
       else if c =c "*" then x ← va_arg true 32 a; goto DP_S_DOT <$> advance_ch (set_min x.1 x.2 d)
       else Some (goto DP_S_DOT d)
   | DP_S_DOT => if c =c "." then advance_ch (goto DP_S_MAX d) else Some (goto DP_S_MOD d)
   | DP_S_MAX =>
       if is_digit c then n ← next_digit (if mx <? 0 then 0 else mx) c; advance_ch (set_max n a d)
       else if c =c "*" then x ← va_arg true 32 a; goto DP_S_MOD <$> advance_ch (set_max x.1 x.2 d)
       else Some (goto DP_S_MOD d)
   | DP_S_MOD => goto DP_S_CONV <$> read_length d
   | DP_S_CONV => d ← convert_arg maxlen d; clear <$> advance_ch d
   | DP_S_DONE => Some d
   end) = Some d' ->
  round maxlen (at_text (String c f) st fl cf mn mx a o) d'.
Proof.
  intros Hc Hst E. split; [|done]. unfold dopr_step. cbn [at_text dp_ch]. rewrite (proj2 (Ascii.eqb_neq c NUL) Hc).
  cbn [dp_st dp_ch dp_args dp_out dp_min dp_max]. destruct st; exact E.
Qed.

Lemma run_text s f a o :
  str_mem NUL s = false -> str_mem "%" s = false -> runs (start (s +:+ f) a o) (start f a (outch_all maxlen (chars s) o)).
Proof.
  revert o. induction s as [|c s IH]; intros o H0 H1; [done|]. cbn [str_mem] in *. bool_simp.
  change (String c s +:+ f) with (String c (s +:+ f)). eapply rtc_l; [|by apply (IH (dopr_outch maxlen c o))]. apply round_at; [done|done|]. cbv beta zeta match.
  match goal with H : c <> "%"%char |- _ => rewrite (proj2 (Ascii.eqb_neq _ _) H) end. by destruct (s +:+ f).
Qed.

Lemma run_percent f a o : runs (start ("%%" +:+ f) a o) (start f a (dopr_outch maxlen "%" o)).
Proof.
  eapply rtc_l; [apply round_at; [done|done|apply advance_text]|].
  do 4 (eapply rtc_l; [apply round_at; [done|done|reflexivity]|]).
  apply rtc_once, round_at; [done|done|]. by destruct f.
Qed.

Fixpoint add_flags (s : string) (fl : Z) : Z :=
  match s with "" => fl | String c s' => add_flags s' (Z.lor fl (from_opt 0 (flag_of c))) end.

Lemma flag_chars c : str_mem c "-+ #0" = true -> exists k, flag_of c = Some k.
Proof. all_chars c; intros H; try discriminate H; by eexists. Qed.

Lemma run_flags s f fl cf mn mx a o :
  str_forall (fun c => str_mem c "-+ #0") s = true ->
  runs (at_text (s +:+ f) DP_S_FLAGS fl cf mn mx a o) (at_text f DP_S_FLAGS (add_flags s fl) cf mn mx a o).
Proof.
  revert fl. induction s as [|c s IH]; intros fl Hs; [done|]. cbn [str_forall] in Hs. apply andb_prop in Hs as [Hc Hs].
  destruct (flag_chars c Hc) as [k Hk]. change (String c s +:+ f) with (String c (s +:+ f)).
  eapply rtc_l; [|cbn [add_flags]; rewrite Hk; by apply IH].
  apply round_at; [by intros ->|done|]. cbv beta zeta match. rewrite Hk. by destruct (s +:+ f).
Qed.

Lemma digits_bound s n : str_forall is_digit s = true -> 0 <= n -> n <= digits s n < (n + 1) * 10 ^ Z.of_nat (slen s).
Proof.
  revert n. induction s as [|c s IH]; intros n Hs Hn; cbn [digits slen]; [lia|]. cbn [str_forall] in Hs.
  apply andb_prop in Hs as [Hc Hs]. rewrite Hc. unfold is_digit in Hc. bool_simp.
  rewrite Nat2Z.inj_succ, Z.pow_succ_r by lia. specialize (IH (10 * n + (Z.of_N (N_of_ascii c) - 48)) Hs). nia.
Qed.

Lemma next_digit_small n c s :
  str_forall is_digit (String c s) = true -> 0 <= n -> (n + 1) * 10 ^ Z.of_nat (slen (String c s)) <= 10 ^ 9 ->
  exists n', next_digit n c = Some n' /\ digits (String c s) n = digits s n' /\ 0 <= n' /\
    (n' + 1) * 10 ^ Z.of_nat (slen s) <= 10 ^ 9.
Proof.
  intros Hs Hn Hb. cbn [str_forall slen] in *. apply andb_prop in Hs as [Hc Hs]. cbn [digits]. rewrite Hc.
  unfold is_digit in Hc. bool_simp. rewrite Nat2Z.inj_succ, Z.pow_succ_r in Hb by lia. unfold next_digit.
  pose proof (Z.pow_pos_nonneg 10 (Z.of_nat (slen s))). eexists. split_and!; [|done|lia|nia].
  rewrite (proj2 (Z.ltb_lt _ _)); [done|]. nia.
Qed.

Lemma digit_not_NUL c : is_digit c = true -> c <> NUL.
Proof. by intros H ->. Qed.

Lemma run_width s f fl cf mn mx a o :
  str_forall is_digit s = true -> 0 <= mn -> (mn + 1) * 10 ^ Z.of_nat (slen s) <= 10 ^ 9 ->
  runs (at_text (s +:+ f) DP_S_MIN fl cf mn mx a o) (at_text f DP_S_MIN fl cf (digits s mn) mx a o).
Proof.
  revert mn. induction s as [|c s IH]; intros mn Hs Hn Hb; [done|].
  destruct (next_digit_small mn c s Hs Hn Hb) as (n & E & -> & Hn' & Hb'). cbn [str_forall] in Hs. apply andb_prop in Hs as [Hc Hs].
  change (String c s +:+ f) with (String c (s +:+ f)).
  eapply rtc_l; [|by apply IH]. apply round_at; [by apply digit_not_NUL|done|]. cbv beta zeta match.
  rewrite Hc, E. cbn [mbind option_bind]. by destruct (s +:+ f).
Qed.

Lemma run_precision s f fl cf mn mx a o :
  str_forall is_digit s = true -> s <> "" -> (Z.max 0 mx + 1) * 10 ^ Z.of_nat (slen s) <= 10 ^ 9 ->
  runs (at_text (s +:+ f) DP_S_MAX fl cf mn mx a o) (at_text f DP_S_MAX fl cf mn (digits s (Z.max 0 mx)) a o).
Proof.
  revert mx. induction s as [|c s IH]; intros mx Hs Hne Hb; [done|].
  destruct (next_digit_small (Z.max 0 mx) c s Hs ltac:(lia) Hb) as (n & E & -> & Hn' & Hb'). cbn [str_forall] in Hs.
  apply andb_prop in Hs as [Hc Hs]. change (String c s +:+ f) with (String c (s +:+ f)). eapply rtc_l.
  - apply round_at; [by apply digit_not_NUL|done|]. cbv beta zeta match. rewrite Hc.
    replace (if mx <? 0 then 0 else mx) with (Z.max 0 mx) by (destruct (Z.ltb_spec mx 0); lia).
    rewrite E. cbn [mbind option_bind]. apply advance_text.
  - destruct (decide (s = "")) as [->|Hne']; [done|].
    replace (digits s n) with (digits s (Z.max 0 n)) by (f_equal; lia). apply IH; [done|done|]. by rewrite Z.max_r by lia.
Qed.

End Reading.

(** *** The parts of a conversion *)

Definition length_of (s : string) : dp_length :=
  if String.eqb s "ll" then DP_C_LLONG else if String.eqb s "l" then DP_C_LONG else DP_C_NONE.

Definition conversion_chr (c : ascii) : bool := str_mem c "diouxXcs".

Lemma conversion_chrs c : conversion_chr c = true -> c ∈ ["d"; "i"; "o"; "u"; "x"; "X"; "c"; "s"]%char.
Proof. all_chars c; intros H; try discriminate H; repeat first [by left|right]. Qed.

(** What can begin the rest of a conversion behind the flags, the width and the
    precision. *)
Definition no_flag (c : ascii) : Prop := c <> NUL /\ flag_of c = None.
Definition no_width (c : ascii) : Prop := no_flag c /\ is_digit c = false /\ (c =c "*"%char) = false.
Definition no_precision (c : ascii) : Prop := no_width c /\ (c =c "."%char) = false.

Lemma tail_starts len conv f :
  length_ok len = true -> conversion_chr conv = true ->
  exists c r, len +:+ String conv f = String c r /\ no_precision c.
Proof.
  intros [[Hl%String.eqb_eq|Hl%String.eqb_eq]%orb_prop|Hl%String.eqb_eq]%orb_prop Hc%conversion_chrs; rewrite Hl; cbn.
  - eexists _, _. split; [done|]. repeat (apply elem_of_cons in Hc as [->|Hc]; [done|]). by apply elem_of_nil in Hc.
  - by eexists _, _.
  - by eexists _, _.
Qed.

Lemma nonzero_digit c : is_digit c = true -> (c =c "0"%char) = false -> no_flag c.
Proof. all_chars c; intros H H0; try discriminate H; by try discriminate H0. Qed.

Section Conversions.
Context (maxlen : nat).

Notation runs := (rtc (round maxlen)).
Notation start f a o := (at_text f DP_S_DEFAULT 0 DP_C_NONE 0 (-1) a o).

Lemma leave_flags c r fl cf mn mx a o :
  no_flag c -> round maxlen (at_text (String c r) DP_S_FLAGS fl cf mn mx a o) (at_text (String c r) DP_S_MIN fl cf mn mx a o).
Proof. intros [H0 Hf]. apply round_at; [done|done|]. cbv beta zeta match. by rewrite Hf. Qed.

Lemma leave_width c r fl cf mn mx a o :
  no_width c -> round maxlen (at_text (String c r) DP_S_MIN fl cf mn mx a o) (at_text (String c r) DP_S_DOT fl cf mn mx a o).
Proof. intros ([H0 _] & Hd & Hs). apply round_at; [done|done|]. cbv beta zeta match. by rewrite Hd, Hs. Qed.

Lemma no_dot c r fl cf mn mx a o :
  no_precision c -> round maxlen (at_text (String c r) DP_S_DOT fl cf mn mx a o) (at_text (String c r) DP_S_MOD fl cf mn mx a o).
Proof. intros [([H0 _] & _ & _) Hp]. apply round_at; [done|done|]. cbv beta zeta match. by rewrite Hp. Qed.

Lemma leave_precision c r fl cf mn mx a o :
  no_precision c -> round maxlen (at_text (String c r) DP_S_MAX fl cf mn mx a o) (at_text (String c r) DP_S_MOD fl cf mn mx a o).
Proof. intros [([H0 _] & Hd & Hs) _]. apply round_at; [done|done|]. cbv beta zeta match. by rewrite Hd, Hs. Qed.

Lemma run_length len conv f fl mn mx a o :
  length_ok len = true -> conversion_chr conv = true ->
  runs (at_text (len +:+ String conv f) DP_S_MOD fl DP_C_NONE mn mx a o)
    (at_text (String conv f) DP_S_CONV fl (length_of len) mn mx a o).
Proof.
  intros [[Hl%String.eqb_eq|Hl%String.eqb_eq]%orb_prop|Hl%String.eqb_eq]%orb_prop Hc%conversion_chrs; rewrite Hl;
    apply rtc_once.
  - change ("" +:+ String conv f) with (String conv f).
    repeat (apply elem_of_cons in Hc as [->|Hc]; [by apply round_at|]). by apply elem_of_nil in Hc.
  - change ("l" +:+ String conv f) with (String "l" (String conv f)).
    repeat (apply elem_of_cons in Hc as [->|Hc]; [by apply round_at|]). by apply elem_of_nil in Hc.
  - by apply round_at.
Qed.

Lemma run_width_and_precision d f fl a o :
  well_formed d = true -> length_ok (di_length d) = true -> conversion_chr (di_conv d) = true ->
  runs (at_text (di_width d +:+ match di_prec d with Some p => "." +:+ p | None => "" end +:+
                 di_length d +:+ String (di_conv d) f) DP_S_MIN fl DP_C_NONE 0 (-1) a o)
    (at_text (String (di_conv d) f) DP_S_CONV fl (length_of (di_length d)) (Z.of_nat (field_width d)) (max_of d) a o).
Proof.
  unfold well_formed. intros [[[[_ Hw]%andb_prop _]%andb_prop Hwl%Nat.leb_le]%andb_prop Hp]%andb_prop Hl Hc.
  destruct (tail_starts _ _ f Hl Hc) as (k & r & Et & Hk).
  pose proof (digits_bound _ 0 Hw ltac:(lia)) as Hb.
  assert ((0 + 1) * 10 ^ Z.of_nat (slen (di_width d)) <= 10 ^ 9) as Hb9.
  { rewrite Z.mul_1_l. apply Z.pow_le_mono_r; lia. }
  etransitivity; [apply run_width; [done|lia|done]|].
  unfold field_width. rewrite Z2Nat.id by lia. unfold max_of, precision. destruct (di_prec d) as [p|]; cbn [fmap option_fmap option_map].
  - apply andb_prop in Hp as [[Hp Hp1%Nat.leb_le]%andb_prop Hpl%Nat.leb_le].
    pose proof (digits_bound _ 0 Hp ltac:(lia)) as Hpb. rewrite Z2Nat.id by lia.
    change (("." +:+ p) +:+ di_length d +:+ String (di_conv d) f) with (String "." (p +:+ (di_length d +:+ String (di_conv d) f))).
    eapply rtc_l; [by apply leave_width|]. eapply rtc_l; [apply round_at; [done|done|apply advance_text]|].
    etransitivity; [apply run_precision; [done|by intros ->; cbn in Hp1; lia|]|].
    { cbn [dp_max at_text]. change (Z.max 0 (-1)) with 0. rewrite Z.mul_1_l. apply Z.pow_le_mono_r; lia. }
    etransitivity; [|by apply run_length]. rewrite Et. apply rtc_once, leave_precision, Hk.
  - change ("" +:+ di_length d +:+ String (di_conv d) f) with (di_length d +:+ String (di_conv d) f).
    etransitivity; [|by apply run_length]. rewrite Et. eapply rtc_l; [apply leave_width, Hk|]. apply rtc_once, no_dot, Hk.
Qed.

Lemma run_directive d f a o :
  well_formed d = true -> length_ok (di_length d) = true -> conversion_chr (di_conv d) = true ->
  runs (start (directive_text d +:+ f) a o)
    (at_text (String (di_conv d) f) DP_S_CONV (add_flags (di_flags d) 0) (length_of (di_length d))
      (Z.of_nat (field_width d)) (max_of d) a o).
Proof.
  intros Hwf Hl Hc. pose proof Hwf as Hwf'. unfold well_formed in Hwf.
  apply andb_prop in Hwf as [[[[Hf Hw]%andb_prop H0%negb_true_iff]%andb_prop _]%andb_prop _].
  unfold directive_text. rewrite <- !str_app_assoc.
  set (rest := di_width d +:+ match di_prec d with Some p => "." +:+ p | None => "" end +:+ di_length d +:+ String (di_conv d) f).
  change ("%" +:+ di_flags d +:+ _) with (String "%" (di_flags d +:+ rest)).
  eapply rtc_l; [apply round_at; [done|done|apply advance_text]|].
  etransitivity; [by apply run_flags|].
  etransitivity; [|by apply run_width_and_precision]. fold rest.
  assert (exists c r, rest = String c r /\ no_flag c) as (c & r & -> & Hn); [|by apply rtc_once, leave_flags].
  unfold rest. destruct (di_width d) as [|c w].
  - destruct (tail_starts _ _ f Hl Hc) as (k & r & Et & Hk). cbn. destruct (di_prec d) as [p|]; cbn; [by eexists _, _|].
    rewrite Et. eexists _, _. split; [done|apply Hk].
  - cbn. eexists _, _. split; [done|]. cbn [str_forall hd0] in *. apply andb_prop in Hw as [Hw _]. by apply nonzero_digit.
Qed.

End Conversions.

(** *** Conversions *)

Lemma flag_set_lor a b k : flag_set (Z.lor a b) k = flag_set a k || flag_set b k.
Proof.
  unfold flag_set. rewrite Z.land_lor_distr_l. destruct (Z.eqb_spec (Z.land a k) 0) as [->|Ha]; [by rewrite Z.lor_0_l|].
  apply negb_true_iff, Z.eqb_neq. intros [? _]%Z.lor_eq_0_iff. done.
Qed.

Lemma add_flags_bit s fl k c :
  str_forall (fun c => str_mem c "-+ #0") s = true -> 
  (forall x, str_mem x "-+ #0" = true -> flag_set (from_opt 0 (flag_of x)) k = (x =c c)) ->
  flag_set (add_flags s fl) k = flag_set fl k || str_mem c s.
Proof.
  intros Hs Hk. revert fl. induction s as [|x s IH]; intros fl; [by rewrite orb_false_r|]. cbn [str_forall] in Hs.
  apply andb_prop in Hs as [Hx Hs]. cbn [add_flags str_mem]. rewrite (IH Hs), flag_set_lor, (Hk x Hx). by rewrite orb_assoc.
Qed.

Lemma add_flags_none s k :
  str_forall (fun c => str_mem c "-+ #0") s = true -> 
  (forall x, str_mem x "-+ #0" = true -> flag_set (from_opt 0 (flag_of x)) k = false) ->
  forall fl, flag_set (add_flags s fl) k = flag_set fl k.
Proof.
  intros Hs Hk. induction s as [|x s IH]; intros fl; [done|]. cbn [str_forall] in Hs.
  apply andb_prop in Hs as [Hx Hs]. cbn [add_flags]. by rewrite (IH Hs), flag_set_lor, (Hk x Hx), orb_false_r.
Qed.

Ltac flag_cases := let x := fresh "x" in intros x; all_chars x; intros ?; discriminate.

Lemma flags_read d flag :
  str_forall (fun c => str_mem c "-+ #0") (di_flags d) = true ->
  Z.land flag 31 = 0 -> flag_set flag DP_F_UP = (di_conv d =c "X"%char) ->
  flag_bits d (flag_set flag DP_F_UNSIGNED) (Z.lor (add_flags (di_flags d) 0) flag).
Proof.
  intros Hs Hlow Hup.
  assert (forall k, Z.land 31 k = k -> flag_set flag k = false) as Hno.
  { intros k Hk. unfold flag_set. by rewrite <- Hk, Z.land_assoc, Hlow, Z.land_0_l. }
  split; rewrite flag_set_lor; rewrite ?Hno by done; rewrite ?orb_false_r.
  - rewrite (add_flags_bit _ _ _ "-"); [done|done|flag_cases].
  - rewrite (add_flags_bit _ _ _ "+"); [done|done|flag_cases].
  - rewrite (add_flags_bit _ _ _ " "); [done|done|flag_cases].
  - rewrite (add_flags_bit _ _ _ "0"); [done|done|flag_cases].
  - rewrite add_flags_none; [exact Hup|done|flag_cases].
  - rewrite add_flags_none; [done|done|flag_cases].
Qed.

(** The value that arrives. *)
Lemma value_read is_signed len z rest :
  in_type is_signed len z = true ->
  exists v, va_arg is_signed (match length_of len with DP_C_LONG | DP_C_LLONG => 64 | _ => 32 end) (FZ z :: rest) = Some (v, rest) /\
    (if is_signed then signed 64 v = z /\ - 2 ^ 63 < z < 2 ^ 63 else unsigned 64 (signed 64 v) = z /\ 0 <= z < 2 ^ 64).
Proof.
  unfold in_type. intros [Hl Hz]%andb_prop. eexists. split; [reflexivity|].
  assert (length_of len = DP_C_NONE /\ String.eqb len "" = true \/
    (length_of len = DP_C_LONG \/ length_of len = DP_C_LLONG) /\ String.eqb len "" = false) as Hcase.
  { apply orb_prop in Hl as [[Hl%String.eqb_eq|Hl%String.eqb_eq]%orb_prop|Hl%String.eqb_eq]; subst len; cbn; tauto. }
  destruct is_signed.
  - destruct Hcase as [[-> E]|[Hlen E]]; rewrite E in Hz; cbv zeta match in Hz; bool_simp.
    + rewrite (signed_small 32 z), (signed_small 64 z) by lia. lia.
    + assert (signed 64 (signed 64 z) = z) as Hv by (by rewrite !(signed_small 64 z) by lia). destruct Hlen as [-> | ->]; (split; [done|lia]).
  - destruct Hcase as [[-> E]|[Hlen E]]; rewrite E in Hz; cbv zeta match in Hz; bool_simp.
    + unfold unsigned at 2. rewrite (Z.mod_small z) by lia. rewrite unsigned_signed by lia. lia.
    + assert (unsigned 64 (signed 64 (unsigned 64 z)) = z) as Hv.
      { unfold unsigned at 2. rewrite Z.mod_small by lia. by apply unsigned_signed. }
      destruct Hlen as [-> | ->]; (split; [done|lia]).
Qed.

Section Convert.
Context (maxlen : nat).

Notation conv d f a o :=
  (at_text (String (di_conv d) f) DP_S_CONV (add_flags (di_flags d) 0) (length_of (di_length d))
     (Z.of_nat (field_width d)) (max_of d) a o).

Lemma conv_int_text d is_signed base flag z f rest o :
  well_formed d = true -> in_type is_signed (di_length d) z = true -> plain_number d z = true ->
  1 < base <= 16 -> Z.abs z < base ^ 19 ->
  Z.land flag 31 = 0 -> flag_set flag DP_F_UP = (di_conv d =c "X"%char) -> flag_set flag DP_F_UNSIGNED = negb is_signed ->
  exists d', conv_int maxlen is_signed base flag (conv d f (FZ z :: rest) o) = Some d' /\
    dp_format d' = Some f /\ dp_args d' = rest /\
    dp_out d' = outch_all maxlen (chars (number_text d (if is_signed then sign_text d z else "") base (Z.abs z))) o.
Proof.
  intros Hwf Hin Hplain Hb Hz Hlow Hup Hun. unfold well_formed in Hwf. apply andb_prop in Hwf as [[[[Hf _]%andb_prop _]%andb_prop _]%andb_prop _].
  pose proof (flags_read d flag Hf Hlow Hup) as Hbits. rewrite Hun in Hbits.
  destruct (value_read is_signed (di_length d) z rest Hin) as (v & Ev & Hv).
  unfold plain_number in Hplain. apply andb_prop in Hplain as [[_ H0%negb_true_iff]%andb_prop Hp%negb_true_iff].
  assert (exists sg, sign_of (signed 64 v) (Z.lor (add_flags (di_flags d) 0) flag) = Some (sg, Z.abs z) /\
    sign_string sg = if is_signed then sign_text d z else "") as (sg & Esg & Hsg).
  { unfold sign_of. rewrite (fb_unsigned _ _ _ Hbits), (fb_plus _ _ _ Hbits), (fb_space _ _ _ Hbits).
    destruct is_signed; cbn [negb]; destruct Hv as [-> Hr].
    - unfold sign_text. destruct (Z.ltb_spec z 0).
      + rewrite (proj2 (Z.eqb_neq _ _)) by lia. eexists. split; [by rewrite Z.abs_neq by lia|done].
      + eexists. split; [by rewrite Z.abs_eq by lia|]. by destruct (has_flag d "+"), (has_flag d " ").
    - eexists. split; [by rewrite Z.abs_eq by lia|done]. }
  unfold conv_int. cbn [at_text set_flag dp_cflags dp_args dp_flags dp_min dp_max dp_out]. rewrite Ev. cbn [mbind option_bind fst snd].
  rewrite (fmtint_text maxlen d (negb is_signed) _ _ _ sg (Z.abs z)); [|done..|lia|done|].
  2: { destruct (bool_decide _); [|done]. cbn [andb] in *. apply Z.eqb_neq in Hp. apply Z.eqb_neq. lia. }
  eexists. split; [reflexivity|]. cbn. by rewrite Hsg.
Qed.

(** The conversions, one by one. *)
Lemma accepted_parts d x :
  accepted_value d x = true -> length_ok (di_length d) = true /\ conversion_chr (di_conv d) = true.
Proof.
  unfold accepted_value. intros Hx.
  assert (forall b z, in_type b (di_length d) z = true -> length_ok (di_length d) = true) as Hin.
  { unfold in_type. by intros b z [? _]%andb_prop. }
  assert (di_length d = "" -> length_ok (di_length d) = true) as Hno by by intros ->.
  destruct (di_conv d) as [[] [] [] [] [] [] [] []], x; try discriminate Hx; (split; [|reflexivity]);
    bool_simp; first [by eapply Hin|by apply Hno].
Qed.

Lemma char_back c : ascii_of_N (Z.to_N (unsigned 8 (char_value c))) = c.
Proof. all_chars c. Qed.

Lemma in_type_unsigned len z : in_type false len z = true -> 0 <= z < 2 ^ 64.
Proof.
  unfold in_type. intros [_ [H1 H2]%andb_prop]%andb_prop. bool_simp. destruct (String.eqb len ""); lia.
Qed.

Lemma in_type_signed len z : in_type true len z = true -> - 2 ^ 63 < z < 2 ^ 63.
Proof.
  unfold in_type. intros [_ [[H1 H2]%andb_prop H3]%andb_prop]%andb_prop. bool_simp. destruct (String.eqb len ""); lia.
Qed.

Lemma convert_int_text d is_signed base flag z f rest o :
  convert_arg maxlen (conv d f (FZ z :: rest) o) = conv_int maxlen is_signed base flag (conv d f (FZ z :: rest) o) ->
  conversion_text d (FZ z) = number_text d (if is_signed then sign_text d z else "") base (Z.abs z) ->
  well_formed d = true -> in_type is_signed (di_length d) z = true -> plain_number d z = true ->
  1 < base <= 16 -> Z.abs z < base ^ 19 ->
  Z.land flag 31 = 0 -> flag_set flag DP_F_UP = (di_conv d =c "X"%char) -> flag_set flag DP_F_UNSIGNED = negb is_signed ->
  exists d', convert_arg maxlen (conv d f (FZ z :: rest) o) = Some d' /\ dp_format d' = Some f /\ dp_args d' = rest /\
    dp_out d' = outch_all maxlen (chars (conversion_text d (FZ z))) o.
Proof. intros -> ->. apply conv_int_text. Qed.

Lemma convert_str_text d s f rest o :
  di_conv d = "s"%char -> well_formed d = true -> accepted_value d (FS s) = true ->
  exists d', convert_arg maxlen (conv d f (FS s :: rest) o) = Some d' /\ dp_format d' = Some f /\ dp_args d' = rest /\
    dp_out d' = outch_all maxlen (chars (conversion_text d (FS s))) o.
Proof.
  unfold accepted_value. intros E Hwf Hx. rewrite E in Hx. apply andb_prop in Hx as [_ Hp].
  unfold well_formed in Hwf. apply andb_prop in Hwf as [[[[Hf _]%andb_prop _]%andb_prop _]%andb_prop _].
  assert (flag_set (add_flags (di_flags d) 0) DP_F_MINUS = has_flag d "-") as Hm.
  { rewrite (add_flags_bit _ _ _ "-"); [done|done|flag_cases]. }
  assert (convert_arg maxlen (conv d f (FS s :: rest) o) = conv_str maxlen (conv d f (FS s :: rest) o)) as ->.
  { unfold convert_arg. cbn [at_text dp_ch]. by rewrite E. }
  eexists. split; [reflexivity|]. split_and!; [done..|]. apply (fmtstr_text maxlen d _ s o Hm Hp).
Qed.

Lemma convert_chr_text d c f rest o :
  di_conv d = "c"%char -> accepted_value d (FC c) = true ->
  exists d', convert_arg maxlen (conv d f (FC c :: rest) o) = Some d' /\ dp_format d' = Some f /\ dp_args d' = rest /\
    dp_out d' = outch_all maxlen (chars (conversion_text d (FC c))) o.
Proof.
  unfold accepted_value. intros E Hx. rewrite E in Hx. bool_simp.
  assert (convert_arg maxlen (conv d f (FC c :: rest) o) = conv_chr maxlen (conv d f (FC c :: rest) o)) as ->.
  { unfold convert_arg. cbn [at_text dp_ch]. by rewrite E. }
  eexists. split; [reflexivity|]. split_and!; [done..|]. cbn [put dp_out at_text fst]. rewrite char_back.
  unfold conversion_text, fill, has_flag, field_width. by rewrite H2, H3.
Qed.

Lemma convert_arg_text d x f rest o :
  well_formed d = true -> accepted_value d x = true ->
  exists d', convert_arg maxlen (conv d f (x :: rest) o) = Some d' /\ dp_format d' = Some f /\ dp_args d' = rest /\
    dp_out d' = outch_all maxlen (chars (conversion_text d x)) o.
Proof.
  intros Hwf Hx. pose proof Hx as Hacc. unfold accepted_value in Hx.
  destruct (accepted_parts d x Hacc) as [_ Hc%conversion_chrs].
  assert (forall z base, in_type false (di_length d) z = true ->
    number_text d "" base z = number_text d "" base (Z.abs z)) as Habs.
  { intros z base Hz%in_type_unsigned. by rewrite Z.abs_eq by lia. }
  repeat (apply elem_of_cons in Hc as [E|Hc]); [..|by apply elem_of_nil in Hc]; rewrite E in Hx; destruct x as [s|z|c];
    try discriminate Hx; [..|by apply convert_chr_text|by apply convert_str_text].
  all: repeat match type of Hx with (_ && _) = true => let H := fresh in apply andb_prop in Hx as [Hx H] end.
  all: pose proof Hx as Hr; first [apply in_type_signed in Hr|apply in_type_unsigned in Hr].
  - apply (convert_int_text d true 10 0); rewrite ?E; try done; [unfold conversion_text|lia]. by rewrite E.
  - apply (convert_int_text d true 10 0); rewrite ?E; try done; [unfold conversion_text|lia]. by rewrite E.
  - apply (convert_int_text d false 8 DP_F_UNSIGNED); rewrite ?E; try done; [|bool_simp; lia].
    unfold conversion_text. rewrite E. by apply Habs.
  - apply (convert_int_text d false 10 DP_F_UNSIGNED); rewrite ?E; try done; [|bool_simp; lia].
    unfold conversion_text. rewrite E. by apply Habs.
  - apply (convert_int_text d false 16 DP_F_UNSIGNED); rewrite ?E; try done; [|lia].
    unfold conversion_text. rewrite E. by apply Habs.
  - apply (convert_int_text d false 16 (Z.lor DP_F_UP DP_F_UNSIGNED)); rewrite ?E; try done; [|lia].
    unfold conversion_text. rewrite E. by apply Habs.
Qed.

(** The round that converts the argument. *)
Lemma run_conversion d x f rest o :
  accepted d x = true ->
  round maxlen (conv d f (x :: rest) o)
    (at_text f DP_S_DEFAULT 0 DP_C_NONE 0 (-1) rest (outch_all maxlen (chars (conversion_text d x)) o)).
Proof.
  unfold accepted. intros [Hwf Hx]%andb_prop.
  destruct (accepted_parts d x Hx) as [_ Hc].
  assert (di_conv d <> NUL) as H0 by (by intros E; rewrite E in Hc).
  apply round_at; [done|done|]. cbv beta zeta match.
  assert (forall d', dp_format d' = Some f -> dp_args d' = rest ->
    dp_out d' = outch_all maxlen (chars (conversion_text d x)) o ->
    clear <$> advance_ch d' =
      Some (at_text f DP_S_DEFAULT 0 DP_C_NONE 0 (-1) rest (outch_all maxlen (chars (conversion_text d x)) o))) as Hend.
  { intros d' Hf Ha Ho. unfold advance_ch. rewrite Hf. destruct f as [|c f]; cbn; by rewrite Ha, Ho. }
  destruct (convert_arg_text d x f rest o Hwf Hx) as (d' & -> & H1 & H2 & H3). by apply Hend.
Qed.

(** A format that consists of the pieces [l]. *)
Lemma run_pieces l rest o :
  forallb piece_ok l = true ->
  rtc (round maxlen) (at_text (format_of l) DP_S_DEFAULT 0 DP_C_NONE 0 (-1) (args_of l ++ rest) o)
    (at_text "" DP_S_DEFAULT 0 DP_C_NONE 0 (-1) rest (outch_all maxlen (chars (output_of l)) o)).
Proof.
  revert o. induction l as [|p l IH]; intros o Hl; [done|]. cbn [forallb] in Hl. apply andb_prop in Hl as [Hp Hl].
  destruct p as [s| |d a]; cbn [format_of args_of output_of piece_ok] in *.
  - apply andb_prop in Hp as [H1%negb_true_iff H2%negb_true_iff]. etransitivity; [by apply run_text|].
    rewrite chars_app, all_app. by apply IH.
  - etransitivity; [apply run_percent|]. change (chars ("%" +:+ output_of l)) with ("%"%char :: chars (output_of l)). by apply IH.
  - assert (accepted d a = true) as Ha by done. unfold accepted in Hp. apply andb_prop in Hp as [Hwf Hx].
    destruct (accepted_parts d a Hx) as [Hlen Hc].
    etransitivity; [by apply run_directive|]. eapply rtc_l; [by apply run_conversion|].
    rewrite chars_app, all_app. by apply IH.
Qed.

End Convert.

(** ** The promise *)

(** The place of the terminator. *)
Lemma terminated count (l buf : list ascii) :
  (0 < count)%nat -> (count <= length buf)%nat ->
  let pos := Nat.min (length l) (count - 1) in
  <[pos := NUL]> (take count l ++ drop (Nat.min count (length l)) buf) = take (count - 1) l ++ NUL :: drop (S pos) buf.
Proof.
  intros H0 Hb pos. rewrite insert_take_drop by (rewrite length_app, length_take, length_drop; lia). f_equal; [|f_equal].
  - unfold pos. destruct (Nat.min_spec (length l) (count - 1)) as [[Hl ->]|[Hl ->]].
    + rewrite (take_ge l count) by lia. rewrite take_app_le by lia. rewrite !take_ge by lia. done.
    + rewrite take_app_le by (rewrite length_take; lia). rewrite take_take. f_equal. lia.
  - unfold pos. destruct (Nat.min_spec (length l) (count - 1)) as [[Hl ->]|[Hl ->]].
    + rewrite (take_ge l count) by lia. rewrite drop_app_ge by lia. rewrite drop_drop. f_equal. lia.
    + destruct (decide (length l = count - 1)%nat) as [El|].
      * rewrite (take_ge l count) by lia. rewrite drop_app_ge by lia. rewrite drop_drop. f_equal. lia.
      * rewrite drop_app_ge by (rewrite length_take; lia). rewrite drop_drop, length_take. f_equal. lia.
Qed.

(** C34: formatted output.  For a format that consists of text, %% and conversions with the
    arguments that belong to them, [vsnprintf] writes what the standard says: the first
    [count - 1] characters of the output and a terminator, and nothing behind the
    first [count] elements of the buffer; with [count = 0] it writes nothing.  The result
    is the length of the whole output, whether it fits or not.  The loop over
    the format ends, reads nothing behind its terminator and takes no argument
    too many.  The conversions are those of [accepted]: d, i, u, o, x and X with the
    length modifiers none, l and ll and a value of that type, with flags, field width
    and precision; c alone; s with flags, field width and precision.  Not covered, and mostly different in
    the code, are: the flag #; the flag 0 together with - or a precision; the precision 0 of the
    number 0; numbers of 20 decimal (from 10^19) or more than 19 octal digits; the least
    number of 64 bits; everything but a plain %c for characters; strings with
    the flag 0, or cut by the precision to less than the field width; widths and precisions of more
    than nine digits or given as *; other length modifiers; and the conversions
    p, n and those of floating point numbers. *)
Theorem vsnprintf_standard buf count l rest :
  forallb piece_ok l = true -> (count <= length buf)%nat -> Z.of_nat (slen (output_of l)) < 2 ^ 31 ->
  exists buf', vsnprintf buf count (format_of l) (args_of l ++ rest) = Some (buf', Z.of_nat (slen (output_of l))) /\
    length buf' = length buf /\ drop count buf' = drop count buf /\
    ((0 < count)%nat -> exists more, buf' = chars (str_take (count - 1) (output_of l)) ++ NUL :: more).
Proof.
  intros Hl Hb Hlen. pose proof (run_pieces count l rest (Sink buf 0) Hl) as Hrun.
  set (d0 := at_text _ _ _ _ _ _ _ _) in Hrun at 1.
  assert (rtc (round count) d0 (goto DP_S_DONE (at_text "" DP_S_DEFAULT 0 DP_C_NONE 0 (-1) rest
    (outch_all count (chars (output_of l)) (Sink buf 0))))) as Hrun'.
  { eapply rtc_r; [exact Hrun|]. by split. }
  unfold vsnprintf, dopr. rewrite (loop_rounds _ _ _ _ Hrun'); [|done|].
  2: { unfold weight, d0. destruct (format_of l); cbn; lia. }
  cbn [goto dp_out at_text]. rewrite all_written by done. set (t := output_of l) in *. rewrite chars_length.
  cbn [fmap option_fmap option_map fst snd sk_currlen]. rewrite signed_small by lia.
  eexists. split; [reflexivity|]. unfold terminate. cbn [sk_currlen sk_buffer].
  destruct (Nat.eqb_spec count 0) as [->|Hc].
  { cbn. rewrite drop_0. split_and!; [done|done|lia]. }
  assert ((if (slen t <? count - 1)%nat then <[slen t := NUL]> (take count (chars t) ++ drop (Nat.min count (slen t)) buf)
    else <[(count - 1)%nat := NUL]> (take count (chars t) ++ drop (Nat.min count (slen t)) buf)) =
    take (count - 1) (chars t) ++ NUL :: drop (S (Nat.min (slen t) (count - 1))) buf) as ->.
  { rewrite <- chars_length, <- terminated by lia.
    destruct (Nat.ltb_spec (length (chars t)) (count - 1)); do 2 f_equal; lia. }
  split_and!.
  - rewrite length_app. cbn [length]. rewrite length_take, length_drop, chars_length. lia.
  - rewrite drop_app_ge by (rewrite length_take, chars_length; lia). rewrite length_take, chars_length.
    destruct (count - Nat.min (count - 1) (slen t))%nat as [|k] eqn:Ek; [lia|]. cbn [drop]. rewrite drop_drop. f_equal. lia.
  - intros _. eexists. by rewrite chars_take.
Qed.

(** ** The messages of the program *)

(** The conversions that the messages use: without flags, width and precision, and [%02u] of
    numbers that are not negative. *)
Definition message_piece (p : piece) : bool :=
  match p with
  | Text s => negb (str_mem "%" s)
  | Percent => true
  | Conversion d a =>
      negb (is_some (di_prec d)) &&
      match a with
      | FS _ => (di_conv d =c "s"%char) && String.eqb (di_flags d) "" && String.eqb (di_width d) "" && String.eqb (di_length d) ""
      | FC _ => (di_conv d =c "c"%char) && String.eqb (di_flags d) "" && String.eqb (di_width d) "" && String.eqb (di_length d) ""
      | FZ z =>
          if di_conv d =c "d"%char then
            String.eqb (di_flags d) "" && String.eqb (di_width d) "" && (String.eqb (di_length d) "" || String.eqb (di_length d) "l")
          else
            (0 <=? z) &&
            (((di_conv d =c "u"%char) || (di_conv d =c "x"%char)) && String.eqb (di_flags d) "" && String.eqb (di_width d) "" &&
               (String.eqb (di_length d) "" || String.eqb (di_length d) "l") ||
             (di_conv d =c "u"%char) && String.eqb (di_flags d) "0" && String.eqb (di_width d) "2" && String.eqb (di_length d) "")
      end
  end.

Lemma fill_none d s : di_flags d = "" -> di_width d = "" -> fill d s = s.
Proof. intros Hf Hw. unfold fill, has_flag, field_width. by rewrite Hf, Hw. Qed.

Lemma plain_number_text d sign base n :
  di_flags d = "" -> di_width d = "" -> di_prec d = None -> (di_conv d =c "X"%char) = false ->
  number_text d sign base n = sign +:+ print_base base n.
Proof.
  intros Hf Hw Hp Hc. unfold number_text, digits_text, precision, has_flag. rewrite Hp, Hf, Hc. cbn [str_mem andb]. by apply fill_none.
Qed.

Lemma print_base_length n : 0 <= n -> (1 <= slen (print_base 10 n))%nat.
Proof.
  intros Hn. unfold print_base. rewrite (proj2 (Z.ltb_ge _ _)) by done.
  assert (forall k m acc, (slen acc <= slen (print_nat_aux 10 k m acc))%nat) as Hgrow.
  { induction k as [|k IH]; intros m acc; cbn [print_nat_aux]; [done|]. destruct (m <? 10); [cbn; lia|].
    etransitivity; [|apply IH]. cbn. lia. }
  cbn [print_nat_aux]. destruct (n <? 10); [cbn; lia|]. etransitivity; [|apply Hgrow]. cbn. lia.
Qed.

Lemma sprintf_conv k f a args :
  k ∈ ["s"; "d"; "u"; "x"; "c"]%char -> sprintf (String "%" (String k f)) (a :: args) = fmt_arg k a +:+ sprintf f args.
Proof. intros Hk. repeat (apply elem_of_cons in Hk as [->|Hk]; [done|]). by apply elem_of_nil in Hk. Qed.

Lemma sprintf_long k f a args : sprintf (String "%" (String "l" (String k f))) (a :: args) = fmt_arg k a +:+ sprintf f args.
Proof. done. Qed.

Lemma sprintf_two f a args :
  sprintf (String "%" (String "0" (String "2" (String "u" f)))) (a :: args) = pad2 (fmt_arg "u" a) +:+ sprintf f args.
Proof. done. Qed.

Lemma sprintf_length k len f z args :
  k ∈ ["d"; "u"; "x"]%char -> len = "" \/ len = "l" ->
  sprintf (directive_text (Directive "" "" None len k) +:+ f) (FZ z :: args) =
    print_base (if k =c "x"%char then 16 else 10) z +:+ sprintf f args.
Proof.
  intros Hk [-> | ->].
  - change (directive_text _ +:+ f) with (String "%" (String k f)). apply sprintf_conv. set_solver.
  - change (directive_text _ +:+ f) with (String "%" (String "l" (String k f))). apply sprintf_long.
Qed.

(** Numbers in messages. *)
Lemma sprintf_number d z f args :
  message_piece (Conversion d (FZ z)) = true ->
  sprintf (directive_text d +:+ f) (FZ z :: args) = conversion_text d (FZ z) +:+ sprintf f args.
Proof.
  destruct d as [fl w pr len k]. cbn [message_piece di_prec di_flags di_width di_length di_conv]. intros [Hpr Hp]%andb_prop.
  assert (pr = None) as -> by (by destruct pr). destruct (k =c "d"%char) eqn:Ek.
  - bool_simp. subst. assert (len = "" \/ len = "l") as Hl by (by apply orb_prop in H0 as [?%String.eqb_eq|?%String.eqb_eq]; [left|right]).
    rewrite sprintf_length by (done || set_solver). f_equal. unfold conversion_text. cbn [di_conv].
    rewrite plain_number_text by done. unfold sign_text, has_flag. cbn [di_flags str_mem].
    destruct (Z.ltb_spec z 0); [by apply print_base_abs|]. by rewrite Z.abs_eq by lia.
  - apply andb_prop in Hp as [Hz%Z.leb_le [Hp|Hp]%orb_prop].
    + apply andb_prop in Hp as [[[Hk Hf%String.eqb_eq]%andb_prop Hw%String.eqb_eq]%andb_prop Hl]. subst fl w.
      assert (len = "" \/ len = "l") as Hl' by (by apply orb_prop in Hl as [?%String.eqb_eq|?%String.eqb_eq]; [left|right]).
      apply orb_prop in Hk as [Hk%Ascii.eqb_eq|Hk%Ascii.eqb_eq]; subst k; rewrite sprintf_length by (done || set_solver);
        f_equal; unfold conversion_text; cbn [di_conv]; by rewrite plain_number_text.
    + bool_simp. subst. change (directive_text _ +:+ f) with (String "%" (String "0" (String "2" (String "u" f)))).
      rewrite sprintf_two. f_equal. unfold conversion_text, number_text, digits_text, precision, has_flag, field_width.
      cbn [di_conv di_flags di_width di_prec fmap option_fmap option_map is_some str_mem andb orb negb slen].
      change (if "u"%char =c "X"%char then str_map toupper else id) with (@id string). unfold id.
      change (Z.to_nat (digits "2" 0)) with 2%nat. pose proof (print_base_length z Hz).
      unfold pad2, fmt_arg. change (if "u"%char =c "x"%char then 16 else 10) with 10.
      destruct (Nat.ltb_spec (slen (print_base 10 z)) 2).
      * replace (2 - 0 - slen (print_base 10 z))%nat with 1%nat by lia. done.
      * replace (2 - 0 - slen (print_base 10 z))%nat with 0%nat by lia. done.
Qed.

(** [sprintf] of the model is that of the standard. *)
Lemma sprintf_standard l :
  forallb message_piece l = true -> sprintf (format_of l) (args_of l) = output_of l.
Proof.
  induction l as [|p l IH]; [done|]. cbn [forallb]. intros [Hp Hl]%andb_prop. specialize (IH Hl).
  destruct p as [s| |d a]; cbn [format_of args_of output_of].
  - cbn [message_piece] in Hp. apply negb_true_iff in Hp. induction s as [|c s IHs]; [exact IH|].
    cbn [str_mem] in Hp. apply orb_false_elim in Hp as [Hc Hp].
    change (String c s +:+ format_of l) with (String c (s +:+ format_of l)). cbn [sprintf]. by rewrite Hc, (IHs Hp).
  - change (String "%" (sprintf (format_of l) (args_of l)) = "%" +:+ output_of l). by rewrite IH.
  - destruct a as [s|z|c]; [|by rewrite sprintf_number, IH|]; destruct d as [fl w pr len k];
      cbn [message_piece di_prec di_flags di_width di_length di_conv] in Hp; apply andb_prop in Hp as [Hpr Hp];
      (assert (pr = None) as -> by (by destruct pr)); clear Hpr; bool_simp; subst.
    + change (directive_text _ +:+ format_of l) with (String "%" (String "s" (format_of l))).
      rewrite sprintf_conv by set_solver. rewrite IH. unfold conversion_text. by rewrite fill_none.
    + change (directive_text _ +:+ format_of l) with (String "%" (String "c" (format_of l))).
      rewrite sprintf_conv by set_solver. rewrite IH. unfold conversion_text. by rewrite fill_none.
Qed.

(** ** Examples *)

Definition printed_text (size : nat) (f : string) (args : list farg) : option (string * Z) :=
  (fun r => (before NUL (string_of_list_ascii r.1), r.2)) <$> vsnprintf (replicate size "."%char) size f args.

Example two_fields : printed_text 20 "%-6s|%+05d" [FS "abc"; FZ 42] = Some ("abc   |+0042", 12).
Proof. reflexivity. Qed.

(** Where the code deviates: 18446744073709551615, "   ab" and "7   ". *)
Example twenty_digits : printed_text 30 "%lu" [FZ (2 ^ 64 - 1)] = Some ("8446744073709551615", 19).
Proof. reflexivity. Qed.
Example width_before_precision : printed_text 30 "%5.2s" [FS "abcdef"] = Some ("abcde", 5).
Proof. reflexivity. Qed.
Example zeros_behind : printed_text 30 "%-04d" [FZ 7] = Some ("0007", 4).
Proof. reflexivity. Qed.

(** The character behind the terminator is read. *)
Example behind_the_format : printed_text 30 "%w" [] = None.
Proof. reflexivity. Qed.

(** A message about a ban that does not fit. *)
Definition sample_pieces : list piece :=
  [Text "Ban "; Conversion (Directive "-" "4" (Some "6") "" "s") (FS "*!*@host"); Text ", ";
   Conversion (Directive "0" "3" None "l" "d") (FZ (-7)); Percent; Conversion (Directive "" "" None "" "c") (FC "!")].

Lemma vsnprintf_standard_witness :
  output_of sample_pieces = "Ban *!*@ho, -07%!" /\
  exists buf' more, vsnprintf (replicate 12 "."%char) 12 "Ban %-4.6s, %03ld%%%c" [FS "*!*@host"; FZ (-7); FC "!"] = Some (buf', 17) /\
    buf' = chars "Ban *!*@ho," ++ NUL :: more.
Proof.
  split; [reflexivity|].
  destruct (vsnprintf_standard (replicate 12 "."%char) 12 sample_pieces []) as (buf' & E & _ & _ & Hm); [reflexivity|cbn; lia|reflexivity|].
  destruct (Hm ltac:(lia)) as [more Hmore]. exists buf', more. split; [exact E|exact Hmore].
Defined.
