(* ===== verification/Array.v ===== *)
(** * Dynamic byte arrays (src/server/core/misc/array.c)

    The buffers of the connections, the topics and the connection pool are
    [array]s: a heap block of [allocated] bytes of which [used] are counted.
    A [size_t] is a [Z] modulo 2^64.  The allocator may fail; whether it grants
    a request for [n] bytes is the parameter [realloc_ok].  A pointer into the
    block is its offset; a NULL result is [None]. *)

From S2P Require Import Prelude.

Record array := Array { mem : option (list Z); allocated : Z; used : Z }.

Definition INIT_ARRAY : array := Array None 0 0.

Definition size_t (x : Z) : Z := x mod 2 ^ 64.

Definition block (a : array) : list Z := from_opt [] (mem a).

(** [array_UNUSABLE(a)] *)
Definition array_UNUSABLE (a : array) : bool :=
  match mem a with None => true | Some _ => false end.

Definition array_bytes (a : array) : Z := used a.

(** Multiplication of two [size_t]; [None] if the product wraps around. *)
Definition safemult_sizet (a b : Z) : option Z :=
  let tmp := size_t (a * b) in
  if negb (b =? 0) && negb (tmp / b =? a) then None else Some tmp.

Definition array_init : array := Array None 0 0.

Definition array_free (a : array) : array := Array None 0 0.

Definition array_start (a : array) : option (list Z) := mem a.

Definition array_trunc (a : array) : array := Array (mem a) (allocated a) 0.

(** [array_length], for an allocated array. *)
Definition array_length (a : array) (membersize : Z) : Z :=
  if array_UNUSABLE a then 0
  else if membersize =? 0 then 0 else used a / membersize.

Definition zeros (n : Z) : list Z := replicate (Z.to_nat n) 0.

Section allocator.
Context (realloc_ok : Z -> bool).

(** [array_alloc]: the offset of element [pos] and the array. *)
Definition array_alloc (a : array) (size pos : Z) : option Z * array :=
  let pos_plus1 := size_t (pos + 1) in
  if pos_plus1 =? 0 then (None, a)
  else match safemult_sizet size pos_plus1 with
       | None => (None, a)
       | Some alloc =>
           if allocated a <? alloc then
             if realloc_ok alloc then
               (Some (pos * size),
                Array (Some (take (Z.to_nat (used a)) (block a) ++ zeros (alloc - used a)))
                      alloc alloc)
             else (None, a)
           else (Some (pos * size), a)
       end.

(** [memcpy(mem + at, src, len)] *)
Definition overwrite (m : list Z) (at_ : Z) (src : list Z) : list Z :=
  take (Z.to_nat at_) m ++ src ++ drop (Z.to_nat at_ + length src) m.

Definition array_catb (dest : array) (src : list Z) : bool * array :=
  let len := Z.of_nat (length src) in
  if len =? 0 then (true, dest)
  else
    let used0 := used dest in
    let tmp := size_t (used0 + len) in
    if (tmp <? used0) || (tmp <? len) then (false, dest)
    else match array_alloc dest 1 tmp with
         | (None, dest') => (false, dest')
         | (Some _, dest') =>
             (true, Array (Some (overwrite (block dest') used0 src)) (allocated dest') tmp)
         end.

Definition array_copyb (dest : array) (src : list Z) : bool * array :=
  array_catb (array_trunc dest) src.

Definition array_copy (dest src : array) : bool * array :=
  if array_UNUSABLE src then (false, dest)
  else array_copyb dest (take (Z.to_nat (used src)) (block src)).

Definition array_cat (dest src : array) : bool * array :=
  if array_UNUSABLE src then (false, dest)
  else array_catb dest (take (Z.to_nat (used src)) (block src)).

Definition array_cat0 (a : array) : bool * array := array_catb a [0].

Definition array_cat0_temporary (a : array) : bool * array :=
  match array_alloc a 1 (array_bytes a) with
  | (None, a') => (false, a')
  | (Some endpos, a') =>
      (true, Array (Some (overwrite (block a') endpos [0])) (allocated a') (used a'))
  end.

(** [array_get]: the offset of an element. *)
Definition array_get (a : array) (membersize pos : Z) : option Z :=
  let posplus1 := size_t (pos + 1) in
  if (posplus1 =? 0) || array_UNUSABLE a then None
  else match safemult_sizet posplus1 membersize with
       | None => None
       | Some totalsize =>
           if allocated a <? totalsize then None else Some (size_t (pos * membersize))
       end.

Definition array_truncate (a : array) (membersize len : Z) : array :=
  match safemult_sizet membersize len with
  | None => a
  | Some newlen => if newlen <=? allocated a then Array (mem a) (allocated a) newlen else a
  end.

Definition array_moveleft (a : array) (membersize pos : Z) : array :=
  match safemult_sizet membersize pos with
  | None => array_trunc a
  | Some bytepos =>
      if bytepos =? 0 then a
      else if used a <=? bytepos then array_trunc a
      else
        let used' := used a - bytepos in
        Array (Some (overwrite (block a) 0
                 (take (Z.to_nat used') (drop (Z.to_nat bytepos) (block a)))))
              (allocated a) used'
  end.
End allocator.

(** ** Well-formed arrays and their content *)

(** The invariant that array.h states: an array is either unallocated, or its
    block has [allocated > 0] bytes of which at most all are used. *)
Definition array_wf (a : array) : Prop :=
  0 <= used a <= allocated a /\ allocated a < 2 ^ 64 /\
  Z.of_nat (length (block a)) = allocated a /\
  (mem a = None <-> allocated a = 0).

(** The bytes an array stands for. *)
Definition content (a : array) : list Z := take (Z.to_nat (used a)) (block a).

Lemma size_t_small x : 0 <= x < 2 ^ 64 -> size_t x = x.
Proof. apply Z.mod_small. Qed.

Lemma safemult_sizet_spec a b :
  0 <= a < 2 ^ 64 -> 0 <= b < 2 ^ 64 ->
  safemult_sizet a b = if a * b <? 2 ^ 64 then Some (a * b) else None.
Proof.
  intros Ha Hb. unfold safemult_sizet, size_t.
  destruct (Z.ltb_spec (a * b) (2 ^ 64)) as [H|H].
  - rewrite Z.mod_small by nia. destruct (Z.eqb_spec b 0); [done|].
    rewrite Z.div_mul by done. by rewrite Z.eqb_refl.
  - destruct (Z.eqb_spec b 0) as [->|Hb0]; [lia|]. simpl.
    destruct (Z.eqb_spec ((a * b) mod 2 ^ 64 / b) a) as [E|]; [|done]. exfalso.
    pose proof (Z.mod_pos_bound (a * b) (2 ^ 64) ltac:(lia)).
    pose proof (Z.mul_div_le ((a * b) mod 2 ^ 64) b ltac:(lia)). nia.
Qed.

Lemma length_content a : array_wf a -> Z.of_nat (length (content a)) = used a.
Proof. intros (H1 & _ & H3 & _). unfold content. rewrite length_take. lia. Qed.

Lemma overwrite_tail m n src :
  (n + length src <= length m)%nat ->
  take (n + length src) (overwrite m (Z.of_nat n) src) = take n m ++ src.
Proof.
  intros H. unfold overwrite. rewrite Nat2Z.id, app_assoc.
  rewrite take_app_le by (rewrite length_app, length_take; lia).
  apply take_ge. rewrite length_app, length_take. lia.
Qed.

Lemma length_overwrite m n src :
  0 <= n -> (Z.to_nat n + length src <= length m)%nat ->
  length (overwrite m n src) = length m.
Proof.
  intros Hn H. unfold overwrite. rewrite !length_app, length_take, length_drop. lia.
Qed.

Section facts.
Context (realloc_ok : Z -> bool).

(** The effect of [array_alloc] with element size 1. *)
Lemma array_alloc_bytes a pos :
  array_wf a -> 0 <= pos < 2 ^ 64 - 1 ->
  array_alloc realloc_ok a 1 pos =
    if allocated a <? pos + 1 then
      if realloc_ok (pos + 1) then
        (Some pos, Array (Some (content a ++ zeros (pos + 1 - used a))) (pos + 1) (pos + 1))
      else (None, a)
    else (Some pos, a).
Proof.
  intros Hwf Hpos. unfold array_alloc. rewrite size_t_small by lia.
  destruct (Z.eqb_spec (pos + 1) 0); [lia|].
  rewrite safemult_sizet_spec by lia. rewrite Z.mul_1_l, Z.mul_1_r.
  by destruct (Z.ltb_spec (pos + 1) (2 ^ 64)); [|lia].
Qed.

(** Appending: the result on success and on failure. *)
Lemma array_catb_cases a src :
  array_wf a -> used a + Z.of_nat (length src) < 2 ^ 64 - 1 ->
  match array_catb realloc_ok a src with
  | (true, a') => array_wf a' /\ content a' = content a ++ src
  | (false, a') => a' = a /\
      allocated a <= used a + Z.of_nat (length src) /\
      realloc_ok (used a + Z.of_nat (length src) + 1) = false
  end.
Proof.
  intros Hwf Hlen. pose proof Hwf as (H1 & H2 & H3 & H4). unfold array_catb.
  destruct (Z.eqb_spec (Z.of_nat (length src)) 0) as [E|E].
  { split; [done|]. destruct src; [by rewrite app_nil_r|simpl in E; lia]. }
  set (len := Z.of_nat (length src)) in *. rewrite size_t_small by lia.
  destruct (Z.ltb_spec (used a + len) (used a)); [lia|].
  destruct (Z.ltb_spec (used a + len) len); [lia|]. simpl.
  rewrite array_alloc_bytes by (done || lia).
  assert (Hcl : Z.of_nat (length (content a)) = used a) by by apply length_content.
  destruct (Z.ltb_spec (allocated a) (used a + len + 1)) as [Hlt|Hge].
  - destruct (realloc_ok (used a + len + 1)) eqn:Eok; [|split; [done|split; [lia|done]]].
    unfold block; cbn [mem allocated used from_opt].
    set (m := content a ++ zeros (used a + len + 1 - used a)).
    assert (Hm : length m = Z.to_nat (used a + len + 1)).
    { unfold m, zeros. rewrite length_app, length_replicate. lia. }
    split.
    + split; [cbn; lia|]. split; [cbn; lia|]. cbn [allocated]. split.
      * unfold block; cbn [mem from_opt]. rewrite length_overwrite by lia. lia.
      * split; [discriminate|lia].
    + unfold content at 1, block; cbn [mem used from_opt].
      replace (used a) with (Z.of_nat (Z.to_nat (used a))) at 2 by lia.
      replace (Z.to_nat (used a + len)) with (Z.to_nat (used a) + length src)%nat by lia.
      rewrite overwrite_tail by lia. f_equal. unfold m.
      rewrite take_app_le by lia. apply take_ge. lia.
  - destruct (mem a) as [m|] eqn:Em; [|exfalso; destruct H4 as [H4 _]; specialize (H4 eq_refl); lia].
    unfold block in *; rewrite Em in *; cbn [mem allocated used from_opt] in *. split.
    + split; [cbn; lia|]. split; [cbn; lia|]. cbn [allocated]. split.
      * unfold block; cbn [mem from_opt]. rewrite length_overwrite by lia. lia.
      * split; [discriminate|lia].
    + unfold content, block; cbn [mem used from_opt]. rewrite Em; cbn [from_opt].
      replace (used a) with (Z.of_nat (Z.to_nat (used a))) at 2 by lia.
      replace (Z.to_nat (used a + len)) with (Z.to_nat (used a) + length src)%nat by lia.
      apply overwrite_tail. lia.
Qed.
End facts.

(** ** Properties *)

Lemma array_init_wf : array_wf array_init.
Proof. unfold array_wf. repeat split; try (cbn; lia); done. Qed.

Lemma content_trunc a : content (array_trunc a) = [].
Proof. done. Qed.

Lemma array_trunc_wf a : array_wf a -> array_wf (array_trunc a).
Proof. intros (H1 & H2 & H3 & H4). repeat split; cbn; try lia; try done; apply H4. Qed.

(** Appending to a buffer.  Whatever the allocator does, [array_catb]
    either appends exactly the given bytes and keeps the buffer well formed,
    or reports failure, leaves the buffer as it was, and does so only because
    the allocator refused to enlarge a block that was too small. *)
Theorem array_catb_spec realloc_ok a src :
  array_wf a -> used a + Z.of_nat (length src) < 2 ^ 64 - 1 ->
  match array_catb realloc_ok a src with
  | (true, a') => array_wf a' /\ content a' = content a ++ src
  | (false, a') => a' = a /\ allocated a <= used a + Z.of_nat (length src) /\
      realloc_ok (used a + Z.of_nat (length src) + 1) = false
  end.
Proof. apply array_catb_cases. Qed.

(** Consuming a buffer from the left, as [Handle_Write] does with the bytes
    that send(2) accepted: [array_moveleft] drops exactly the first
    [membersize * pos] bytes, and all of them if there are fewer; a product
    that does not fit a size_t empties the buffer. *)
Theorem array_moveleft_spec a membersize pos :
  array_wf a -> 0 <= membersize < 2 ^ 64 -> 0 <= pos < 2 ^ 64 ->
  let a' := array_moveleft a membersize pos in
  array_wf a' /\ content a' = drop (Z.to_nat (membersize * pos)) (content a).
Proof.
  intros Hwf Hm Hp a'. pose proof Hwf as (H1 & H2 & H3 & H4).
  pose proof (length_content a Hwf) as Hc.
  unfold a', array_moveleft. rewrite safemult_sizet_spec by lia.
  assert (Hall : used a <= membersize * pos ->
    array_wf (array_trunc a) /\
    content (array_trunc a) = drop (Z.to_nat (membersize * pos)) (content a)).
  { intros H. split; [by apply array_trunc_wf|]. rewrite content_trunc.
    symmetry. apply drop_ge. lia. }
  destruct (Z.ltb_spec (membersize * pos) (2 ^ 64)); [|apply Hall; lia].
  set (n := membersize * pos) in *. destruct (Z.eqb_spec n 0) as [->|Hn].
  { split; [done|]. by rewrite drop_0. }
  destruct (Z.leb_spec (used a) n) as [Hle|Hgt]; [by apply Hall|]. clear Hall.
  assert (Hn0 : 0 < n) by (unfold n in *; nia).
  set (src := take (Z.to_nat (used a - n)) (drop (Z.to_nat n) (block a))).
  assert (Hsrc : length src = Z.to_nat (used a - n)).
  { unfold src. rewrite length_take, length_drop. lia. }
  assert (Hov : length (overwrite (block a) 0 src) = length (block a)).
  { apply length_overwrite; simpl; lia. }
  split.
  - split; [cbn; lia|]. split; [cbn; lia|]. cbn [allocated]. split.
    + unfold block at 1; cbn [mem from_opt]. by rewrite Hov.
    + split; [discriminate|lia].
  - pose proof (overwrite_tail (block a) 0 src) as Ht. change (Z.of_nat 0) with 0 in Ht.
    rewrite Hsrc in Ht. simpl in Ht.
    transitivity src; [apply Ht; lia|]. unfold src, content.
    rewrite skipn_firstn_comm. f_equal. lia.
Qed.

Lemma array_moveleft_spec_witness :
  let a := Array (Some [1; 2; 3; 4]) 4 3 in
  array_wf a /\ content (array_moveleft a 1 2) = [3].
Proof.
  intros a.
  assert (array_wf a) as H by (unfold a, array_wf; repeat split; cbn; try lia; done).
  split; [exact H|].
  assert (0 <= 1 < 2 ^ 64) as H1 by lia. assert (0 <= 2 < 2 ^ 64) as H2 by lia.
  exact (proj2 (array_moveleft_spec a 1 2 H H1 H2)).
Defined.

(** Replacing the content of a buffer.  [array_copyb] stores the given bytes
    on success; when the allocator refuses, it reports failure with the buffer
    emptied, although array.h promises that the destination is unchanged. *)
Theorem array_copyb_spec realloc_ok a src :
  array_wf a -> Z.of_nat (length src) < 2 ^ 64 - 1 ->
  match array_copyb realloc_ok a src with
  | (true, a') => array_wf a' /\ content a' = src
  | (false, a') => a' = array_trunc a /\ content a' = [] /\
      allocated a <= Z.of_nat (length src) /\
      realloc_ok (Z.of_nat (length src) + 1) = false
  end.
Proof.
  intros Hwf Hlen. unfold array_copyb.
  pose proof (array_catb_cases realloc_ok (array_trunc a) src (array_trunc_wf a Hwf) Hlen) as H.
  destruct (array_catb realloc_ok (array_trunc a) src) as [[] a'].
  - destruct H as [H1 H2]. split; [done|]. by rewrite H2, content_trunc.
  - destruct H as (-> & H2 & H3). repeat split; done.
Qed.
