(* ===== verification/Checks.v ===== *)
(** * Decisions of the command handlers

    The side-effect-free functions that decide what a handler does with a
    command: src/server/proto/join (access to a channel), message (parameters of
    PRIVMSG, NOTICE and JOIN), nick, user and login (the registration
    handshake), and src/state/login_state.  Client types are the bit values of
    client.h; a parsed command is a [REQUEST]. *)

From S2P Require Import Prelude CString.

(** ** Client types (client.h) *)

Definition CLIENT_UNKNOWN : Z := 0x0001.
Definition CLIENT_GOTPASS : Z := 0x0002.
Definition CLIENT_GOTNICK : Z := 0x0004.
Definition CLIENT_GOTUSER : Z := 0x0008.
Definition CLIENT_USER : Z := 0x0010.
Definition CLIENT_SERVER : Z := 0x0020.
Definition CLIENT_SERVICE : Z := 0x0040.
Definition CLIENT_UNKNOWNSERVER : Z := 0x0080.
Definition CLIENT_GOTPASS_2813 : Z := 0x0100.
Definition CLIENT_WAITAUTHPING : Z := 0x0200.
Definition CLIENT_WAITCAPEND : Z := 0x0400.

(** The types that a client can have. *)
Definition client_types : list Z :=
  [CLIENT_UNKNOWN; CLIENT_GOTPASS; CLIENT_GOTNICK; CLIENT_GOTUSER; CLIENT_USER;
   CLIENT_SERVER; CLIENT_SERVICE; CLIENT_UNKNOWNSERVER; CLIENT_GOTPASS_2813;
   CLIENT_WAITAUTHPING; CLIENT_WAITCAPEND].

(** ** A parsed command (parse.h)

    [argv] holds the arguments that are present; an argument behind them is a
    NULL pointer. *)

Record REQUEST := Request {
  rq_prefix : option string;
  rq_command : string;
  rq_argv : list string }.

Definition argc (r : REQUEST) : Z := Z.of_nat (length (rq_argv r)).

Definition argv (r : REQUEST) (i : nat) : option string := rq_argv r !! i.

(** ** Joining a channel (join_check.c, join_error.c) *)

Inductive JOIN_CHECK_RESULT :=
  | JOIN_CHECK_OK | JOIN_CHECK_BANNED | JOIN_CHECK_INVITEONLY | JOIN_CHECK_BADKEY
  | JOIN_CHECK_FULL | JOIN_CHECK_SECUREONLY | JOIN_CHECK_OPONLY | JOIN_CHECK_REGONLY.

Inductive JOIN_ERROR :=
  | JOIN_ERROR_NONE | JOIN_ERROR_BANNED | JOIN_ERROR_INVITEONLY | JOIN_ERROR_BADKEY
  | JOIN_ERROR_FULL | JOIN_ERROR_SECUREONLY | JOIN_ERROR_OPONLY | JOIN_ERROR_REGONLY.

#[export] Instance JOIN_CHECK_RESULT_eq_dec : EqDecision JOIN_CHECK_RESULT.
Proof. solve_decision. Defined.

#[export] Instance JOIN_ERROR_eq_dec : EqDecision JOIN_ERROR.
Proof. solve_decision. Defined.

Definition Join_Check_Access (is_operator is_banned is_invited is_exception key_ok
    is_full secure_required has_ssl oper_only reg_only is_registered : bool)
    : JOIN_CHECK_RESULT :=
  if is_operator then JOIN_CHECK_OK
  else if is_banned && negb is_invited && negb is_exception then JOIN_CHECK_BANNED
  else if negb key_ok then JOIN_CHECK_BADKEY
  else if is_full then JOIN_CHECK_FULL
  else if secure_required && negb has_ssl then JOIN_CHECK_SECUREONLY
  else if oper_only && negb is_operator then JOIN_CHECK_OPONLY
  else if reg_only && negb is_registered then JOIN_CHECK_REGONLY
  else JOIN_CHECK_OK.

Definition Join_Error_FromCheck (Result : JOIN_CHECK_RESULT) : JOIN_ERROR :=
  match Result with
  | JOIN_CHECK_BANNED => JOIN_ERROR_BANNED
  | JOIN_CHECK_INVITEONLY => JOIN_ERROR_INVITEONLY
  | JOIN_CHECK_BADKEY => JOIN_ERROR_BADKEY
  | JOIN_CHECK_FULL => JOIN_ERROR_FULL
  | JOIN_CHECK_SECUREONLY => JOIN_ERROR_SECUREONLY
  | JOIN_CHECK_OPONLY => JOIN_ERROR_OPONLY
  | JOIN_CHECK_REGONLY => JOIN_ERROR_REGONLY
  | JOIN_CHECK_OK => JOIN_ERROR_NONE
  end.

(** ** Sending a message (message_check.c) *)

Inductive MESSAGE_CHECK_RESULT :=
  | MESSAGE_CHECK_OK | MESSAGE_CHECK_NO_RECIPIENT | MESSAGE_CHECK_NO_TEXT
  | MESSAGE_CHECK_NEED_MORE_PARAMS | MESSAGE_CHECK_INVALID_CHANNEL.

#[export] Instance MESSAGE_CHECK_RESULT_eq_dec : EqDecision MESSAGE_CHECK_RESULT.
Proof. solve_decision. Defined.

(** A pointer that is NULL or points to the empty string. *)
Definition null_or_empty (p : option string) : bool :=
  match p with None => true | Some s => hd0 s =c NUL end.

Definition Message_Check_Send (Req : REQUEST) (SendErrors : bool) : MESSAGE_CHECK_RESULT :=
  if argc Req =? 0 then
    (if SendErrors then MESSAGE_CHECK_NO_RECIPIENT else MESSAGE_CHECK_OK)
  else if argc Req =? 1 then
    (if SendErrors then MESSAGE_CHECK_NO_TEXT else MESSAGE_CHECK_OK)
  else if 2 <? argc Req then
    (if SendErrors then MESSAGE_CHECK_NEED_MORE_PARAMS else MESSAGE_CHECK_OK)
  else if null_or_empty (argv Req 1) then
    (if SendErrors then MESSAGE_CHECK_NO_TEXT else MESSAGE_CHECK_OK)
  else MESSAGE_CHECK_OK.

Definition Message_Check_Join (Req : REQUEST) : MESSAGE_CHECK_RESULT :=
  if (argc Req =? 0) || null_or_empty (argv Req 0) then MESSAGE_CHECK_NEED_MORE_PARAMS
  else MESSAGE_CHECK_OK.

(** ** NICK and USER (nick_check.c, user_check.c) *)

Inductive NICK_CHECK_RESULT :=
  | NICK_CHECK_USER_OR_CHANGE | NICK_CHECK_SERVER_INTRODUCE | NICK_CHECK_ALREADY_REGISTERED.

#[export] Instance NICK_CHECK_RESULT_eq_dec : EqDecision NICK_CHECK_RESULT.
Proof. solve_decision. Defined.

Definition Nick_Check_Context (client_type argc : Z) : NICK_CHECK_RESULT :=
  if (client_type =? CLIENT_SERVER) && (argc =? 1) then NICK_CHECK_USER_OR_CHANGE
  else if (client_type =? CLIENT_SERVER) || (client_type =? CLIENT_SERVICE) then
    (if (argc =? 2) || (argc =? 7) then NICK_CHECK_SERVER_INTRODUCE
     else NICK_CHECK_ALREADY_REGISTERED)
  else if (client_type =? CLIENT_UNKNOWN) || (client_type =? CLIENT_GOTPASS)
       || (client_type =? CLIENT_GOTNICK) || (client_type =? CLIENT_GOTUSER)
       || (client_type =? CLIENT_USER) || (client_type =? CLIENT_SERVICE)
  then NICK_CHECK_USER_OR_CHANGE
  else NICK_CHECK_ALREADY_REGISTERED.

Inductive USER_CHECK_RESULT :=
  | USER_CHECK_NEW_CONNECTION | USER_CHECK_SERVER_UPDATE
  | USER_CHECK_ALREADY_REGISTERED | USER_CHECK_NOT_REGISTERED.

#[export] Instance USER_CHECK_RESULT_eq_dec : EqDecision USER_CHECK_RESULT.
Proof. solve_decision. Defined.

Definition User_Check_Context (client_type : Z) : USER_CHECK_RESULT :=
  if (client_type =? CLIENT_GOTNICK) || (client_type =? CLIENT_UNKNOWN)
     || (client_type =? CLIENT_GOTPASS) then USER_CHECK_NEW_CONNECTION
  else if (client_type =? CLIENT_SERVER) || (client_type =? CLIENT_SERVICE) then
    USER_CHECK_SERVER_UPDATE
  else if client_type =? CLIENT_USER then USER_CHECK_ALREADY_REGISTERED
  else USER_CHECK_NOT_REGISTERED.

(** ** PASS and the end of the handshake (login_check.c, login_flow.c, login_state.c) *)

Inductive LOGIN_CHECK_RESULT :=
  | LOGIN_CHECK_OK | LOGIN_CHECK_UNKNOWNCOMMAND | LOGIN_CHECK_NEEDMOREPARAMS
  | LOGIN_CHECK_ALREADYREGISTERED | LOGIN_CHECK_ALLOWED.

#[export] Instance LOGIN_CHECK_RESULT_eq_dec : EqDecision LOGIN_CHECK_RESULT.
Proof. solve_decision. Defined.

Definition Login_Check_Pass (client_type argc : Z) : LOGIN_CHECK_RESULT :=
  if negb (client_type =? CLIENT_UNKNOWN) && negb (client_type =? CLIENT_UNKNOWNSERVER)
  then LOGIN_CHECK_ALREADYREGISTERED
  else if (client_type =? CLIENT_UNKNOWN) && (argc =? 1) then LOGIN_CHECK_ALLOWED
  else if ((client_type =? CLIENT_UNKNOWN) || (client_type =? CLIENT_UNKNOWNSERVER))
          && ((argc =? 3) || (argc =? 4)) then LOGIN_CHECK_ALLOWED
  else LOGIN_CHECK_NEEDMOREPARAMS.

Inductive LOGIN_FLOW_RESULT :=
  | LOGIN_FLOW_KEEP_STATE | LOGIN_FLOW_SET_GOTNICK | LOGIN_FLOW_SET_GOTUSER
  | LOGIN_FLOW_LOGIN_NOW.

#[export] Instance LOGIN_FLOW_RESULT_eq_dec : EqDecision LOGIN_FLOW_RESULT.
Proof. solve_decision. Defined.

Definition login_flow_decide (primary_received cap_pending auth_ping_pending
    registration_allowed : bool) (set_state_result : LOGIN_FLOW_RESULT) : LOGIN_FLOW_RESULT :=
  if negb registration_allowed then set_state_result
  else if auth_ping_pending || cap_pending then set_state_result
  else if primary_received then LOGIN_FLOW_LOGIN_NOW
  else set_state_result.

Definition Login_Flow_OnNick (client_type : Z) (user_already_received cap_pending
    auth_ping_pending registration_allowed : bool) : LOGIN_FLOW_RESULT :=
  if (client_type =? CLIENT_UNKNOWN) || (client_type =? CLIENT_GOTPASS)
     || (client_type =? CLIENT_GOTNICK) || (client_type =? CLIENT_GOTUSER)
     || (client_type =? CLIENT_USER) || (client_type =? CLIENT_SERVICE)
  then login_flow_decide user_already_received cap_pending auth_ping_pending
         registration_allowed LOGIN_FLOW_SET_GOTNICK
  else LOGIN_FLOW_KEEP_STATE.

Definition Login_Flow_OnUser (client_type : Z) (nick_already_received cap_pending
    auth_ping_pending registration_allowed : bool) : LOGIN_FLOW_RESULT :=
  if (client_type =? CLIENT_GOTNICK) || (client_type =? CLIENT_UNKNOWN)
     || (client_type =? CLIENT_GOTPASS)
  then login_flow_decide nick_already_received cap_pending auth_ping_pending
         registration_allowed LOGIN_FLOW_SET_GOTUSER
  else LOGIN_FLOW_KEEP_STATE.

Inductive LOGIN_ACTION :=
  | LOGIN_ACTION_NONE | LOGIN_ACTION_REGISTER | LOGIN_ACTION_WAIT | LOGIN_ACTION_REJECT.

#[export] Instance LOGIN_ACTION_eq_dec : EqDecision LOGIN_ACTION.
Proof. solve_decision. Defined.

Record LOGIN_STATE := LoginState {
  cap_pending : bool;
  auth_ping_pending : bool;
  has_nick : bool;
  has_user : bool;
  is_registered : bool }.

Definition Login_State_Resolve (State : option LOGIN_STATE) : LOGIN_ACTION :=
  match State with
  | None => LOGIN_ACTION_REJECT
  | Some s =>
      if is_registered s then LOGIN_ACTION_NONE
      else if auth_ping_pending s then LOGIN_ACTION_WAIT
      else if has_nick s && has_user s then LOGIN_ACTION_REGISTER
      else if cap_pending s then LOGIN_ACTION_WAIT
      else LOGIN_ACTION_NONE
  end.

Definition Login_State_ShouldLoginNow (client_type : Z)
    (got_nick got_user cap_pending auth_ping_pending : bool) : bool :=
  if auth_ping_pending then false
  else if cap_pending then false
  else got_nick && got_user.

(** ** Properties *)

(** who may enter a channel.  Somebody who is not an IRC operator is let in
    exactly if no ban applies (or an invitation or exception lifts it), the key
    is right, the channel is not full and the modes "secure only", "operators
    only" and "registered only" admit them; an operator always is.  The answer
    is never "invite only", whatever the modes of the channel: the function is
    not told about mode i. *)
Theorem Join_Check_Access_spec is_operator is_banned is_invited is_exception key_ok
    is_full secure_required has_ssl oper_only reg_only is_registered :
  let r := Join_Check_Access is_operator is_banned is_invited is_exception key_ok
             is_full secure_required has_ssl oper_only reg_only is_registered in
  (Join_Error_FromCheck r = JOIN_ERROR_NONE <->
   is_operator = true \/
   (is_banned = true -> is_invited = true \/ is_exception = true) /\
   key_ok = true /\ is_full = false /\ (secure_required = true -> has_ssl = true) /\
   oper_only = false /\ (reg_only = true -> is_registered = true)) /\
  r <> JOIN_CHECK_INVITEONLY.
Proof.
  intros r. unfold r, Join_Check_Access.
  destruct is_operator, is_banned, is_invited, is_exception, key_ok, is_full,
    secure_required, has_ssl, oper_only, reg_only, is_registered;
    cbn [negb andb Join_Error_FromCheck]; (split; [|discriminate]); intuition discriminate.
Qed.

(** The parameters of PRIVMSG and NOTICE.  With error replies enabled a
    command is accepted exactly if it has two arguments and a text that is not
    empty; without them every command is accepted, also one without a text. *)
Theorem Message_Check_Send_spec r :
  (Message_Check_Send r true = MESSAGE_CHECK_OK <->
   exists target text, rq_argv r = [target; text] /\ hd0 text <> NUL) /\
  Message_Check_Send r false = MESSAGE_CHECK_OK.
Proof.
  unfold Message_Check_Send, argc, argv. destruct r as [p c l]; cbn [rq_argv].
  destruct l as [|a [|b [|d l]]]; cbn [length lookup list_lookup null_or_empty];
    try (rewrite ?(proj2 (Z.eqb_neq _ _)), ?(proj2 (Z.ltb_lt _ _)) by (cbn; lia));
    simpl; try (split; [split; [discriminate|intros (?&?&[=]&_)]|done]).
  destruct (Ascii.eqb_spec (hd0 b) NUL) as [E|E]; (split; [|done]); split.
  - discriminate.
  - intros (t & x & [= <- <-] & H). done.
  - intros _. by exists a, b.
  - done.
Qed.

(** The two implementations of the end of the handshake agree: NICK and
    USER log a client in exactly if registration is allowed, the type of the
    client admits the command and [Login_State_ShouldLoginNow] holds with the
    command's own part received; and a state that logs in now is one that
    [Login_State_Resolve] registers. *)
Theorem Login_Flow_agrees ty received cap ping allowed :
  (Login_Flow_OnNick ty received cap ping allowed = LOGIN_FLOW_LOGIN_NOW <->
   allowed = true /\
   ty ∈ [CLIENT_UNKNOWN; CLIENT_GOTPASS; CLIENT_GOTNICK; CLIENT_GOTUSER; CLIENT_USER;
         CLIENT_SERVICE] /\
   Login_State_ShouldLoginNow ty true received cap ping = true) /\
  (Login_Flow_OnUser ty received cap ping allowed = LOGIN_FLOW_LOGIN_NOW <->
   allowed = true /\ ty ∈ [CLIENT_GOTNICK; CLIENT_UNKNOWN; CLIENT_GOTPASS] /\
   Login_State_ShouldLoginNow ty received true cap ping = true) /\
  (forall nick user, Login_State_ShouldLoginNow ty nick user cap ping = true ->
   Login_State_Resolve (Some (LoginState cap ping nick user false)) = LOGIN_ACTION_REGISTER).
Proof.
  unfold Login_Flow_OnNick, Login_Flow_OnUser, login_flow_decide, Login_State_ShouldLoginNow.
  assert (Hor : forall a b, (a || b) = true <-> a = true \/ b = true) by apply orb_true_iff.
  repeat split.
  - destruct (_ || _) eqn:E; [|discriminate]. by destruct allowed.
  - destruct (_ || _) eqn:E; [|discriminate].
    rewrite !Hor, !Z.eqb_eq in E.
    rewrite !elem_of_cons, elem_of_nil. tauto.
  - destruct (_ || _) eqn:E; [|discriminate]. by destruct allowed, ping, cap, received.
  - intros (-> & H & Hs). destruct (_ || _) eqn:E.
    + by destruct ping, cap, received.
    + exfalso. apply not_true_iff_false in E. apply E. rewrite !Hor, !Z.eqb_eq.
      rewrite !elem_of_cons, elem_of_nil in H. tauto.
  - destruct (_ || _) eqn:E; [|discriminate]. by destruct allowed.
  - destruct (_ || _) eqn:E; [|discriminate].
    rewrite !Hor, !Z.eqb_eq in E.
    rewrite !elem_of_cons, elem_of_nil. tauto.
  - destruct (_ || _) eqn:E; [|discriminate]. by destruct allowed, ping, cap, received.
  - intros (-> & H & Hs). destruct (_ || _) eqn:E.
    + by destruct ping, cap, received.
    + exfalso. apply not_true_iff_false in E. apply E. rewrite !Hor, !Z.eqb_eq.
      rewrite !elem_of_cons, elem_of_nil in H. tauto.
  - intros nick user H. by destruct ping, cap, nick, user.
Qed.

(** The state machine of the registration commands over the client types:
    NICK, USER and PASS are accepted from a new connection exactly in the
    states listed here, and a registered user is refused USER and PASS. *)
Theorem registration_contexts ty n :
  ty ∈ client_types ->
  (Nick_Check_Context ty n = NICK_CHECK_SERVER_INTRODUCE <->
   (ty = CLIENT_SERVER \/ ty = CLIENT_SERVICE) /\ (n = 2 \/ n = 7)) /\
  (Nick_Check_Context ty n = NICK_CHECK_USER_OR_CHANGE <->
   (ty = CLIENT_SERVER /\ n = 1) \/
   ty ∈ [CLIENT_UNKNOWN; CLIENT_GOTPASS; CLIENT_GOTNICK; CLIENT_GOTUSER; CLIENT_USER]) /\
  (User_Check_Context ty = USER_CHECK_NEW_CONNECTION <->
   ty ∈ [CLIENT_UNKNOWN; CLIENT_GOTPASS; CLIENT_GOTNICK]) /\
  (Login_Check_Pass ty n = LOGIN_CHECK_ALLOWED <->
   (ty = CLIENT_UNKNOWN /\ (n = 1 \/ n = 3 \/ n = 4)) \/
   (ty = CLIENT_UNKNOWNSERVER /\ (n = 3 \/ n = 4))) /\
  (ty = CLIENT_USER -> User_Check_Context ty = USER_CHECK_ALREADY_REGISTERED /\
   Login_Check_Pass ty n = LOGIN_CHECK_ALREADYREGISTERED).
Proof.
  intros Hty. unfold Nick_Check_Context, User_Check_Context, Login_Check_Pass.
  unfold client_types in Hty. rewrite !elem_of_cons, elem_of_nil in Hty.
  rewrite !elem_of_cons, !elem_of_nil.
  destruct (Z.eqb_spec n 1), (Z.eqb_spec n 2), (Z.eqb_spec n 3), (Z.eqb_spec n 4),
    (Z.eqb_spec n 7); try lia;
  destruct_or! Hty; try done; subst ty;
    cbn -[Z.eq]; unfold CLIENT_UNKNOWN, CLIENT_GOTPASS, CLIENT_GOTNICK, CLIENT_GOTUSER,
      CLIENT_USER, CLIENT_SERVER, CLIENT_SERVICE, CLIENT_UNKNOWNSERVER, CLIENT_GOTPASS_2813,
      CLIENT_WAITAUTHPING, CLIENT_WAITCAPEND in *;
    (repeat split; intros); try discriminate; try (exfalso; lia); try lia; try reflexivity.
Qed.

Lemma registration_contexts_witness :
  CLIENT_UNKNOWN ∈ client_types /\
  (Login_Check_Pass CLIENT_UNKNOWN 3 = LOGIN_CHECK_ALLOWED <->
   (CLIENT_UNKNOWN = CLIENT_UNKNOWN /\ (3 = 1 \/ 3 = 3 \/ 3 = 4)) \/
   (CLIENT_UNKNOWN = CLIENT_UNKNOWNSERVER /\ (3 = 3 \/ 3 = 4))).
Proof.
  assert (CLIENT_UNKNOWN ∈ client_types) as H by left.
  split; [exact H|]. exact (proj1 (proj2 (proj2 (proj2 (registration_contexts CLIENT_UNKNOWN 3 H))))).
Defined.
