(* ===== verification/Lists.v ===== *)
(** * Lists of masks (src/server/core/misc/lists.c)

    Ban, exception and invite lists of channels and the class lists of the
    server.  A list is the sequence of its elements from [first] on; the
    newest element comes first.  Whether malloc and strdup succeed are
    arguments of [Lists_Add].  The messages that [Lists_Expire] logs are part
    of its result, in their order. *)

From S2P Require Import Prelude CString Match Checks.

Definition CLIENT_HOST_LEN : nat := 64.
Definition MASK_LEN : nat := 2 * CLIENT_HOST_LEN.

Record list_elem := ListElem {
  le_mask : string;
  le_reason : option string;
  le_valid_until : Z;
  le_onlyonce : bool }.

Notation list_head := (list list_elem) (only parsing).

Definition Lists_GetMask (e : list_elem) : string := le_mask e.
Definition Lists_GetReason (e : list_elem) : string := from_opt "" (le_reason e).
Definition Lists_GetValidity (e : list_elem) : Z := le_valid_until e.
Definition Lists_GetOnlyOnce (e : list_elem) : bool := le_onlyonce e.
Definition Lists_GetFirst (h : list_head) : option list_elem := head h.

Fixpoint Lists_CheckDupeMask (h : list_head) (Mask : string) : option list_elem :=
  match h with
  | [] => None
  | e :: h' => if strcaseeq (le_mask e) Mask then Some e else Lists_CheckDupeMask h' Mask
  end.

(** Rewrites the first element with the given mask in place. *)
Fixpoint update_mask (h : list_head) (Mask : string) (f : list_elem -> list_elem) : list_head :=
  match h with
  | [] => []
  | e :: h' => if strcaseeq (le_mask e) Mask then f e :: h' else e :: update_mask h' Mask f
  end.

Definition Lists_Add (malloc_ok strdup_ok : bool) (h : list_head) (Mask : string)
    (ValidUntil : Z) (Reason : option string) (OnlyOnce : bool) : bool * list_head :=
  let strdup (s : string) := if strdup_ok then Some s else None in
  match Lists_CheckDupeMask h Mask with
  | Some _ =>
      (true, update_mask h Mask (fun e =>
         ListElem (le_mask e)
           (match Reason with Some r => strdup r | None => le_reason e end)
           ValidUntil (le_onlyonce e)))
  | None =>
      if malloc_ok then
        (true, ListElem (strlcpy Mask MASK_LEN)
                 (match Reason with Some r => strdup r | None => None end)
                 ValidUntil OnlyOnce :: h)
      else (false, h)
  end.

Fixpoint Lists_Del (h : list_head) (Mask : string) : list_head :=
  match h with
  | [] => []
  | e :: h' => if strcaseeq (le_mask e) Mask then Lists_Del h' Mask else e :: Lists_Del h' Mask
  end.

Definition Lists_Free (h : list_head) : list_head := [].

(** [strchr] as the offset of the character; the comparison of the pointers
    [at] and [excl] is the comparison of the offsets, and false for NULL. *)
Definition offset_of (s : string) (c : ascii) : option nat :=
  match strchr s c with Some p => Some (slen s - slen p)%nat | None => None end.

Definition Lists_MakeMask (Pattern : string) (len : nat) : string :=
  let excl := offset_of Pattern "!" in
  let at_ := offset_of Pattern "@" in
  let excl := match at_, excl with
              | Some a, Some e => if (a <? e)%nat then None else excl
              | _, _ => excl
              end in
  match at_, excl with
  | None, None => strlcat (strlcpy Pattern (len - 5)) "!*@*" len
  | None, Some _ => strlcat (strlcpy Pattern (len - 3)) "@*" len
  | Some a, None =>
      let nick := str_take a Pattern in
      let host := str_drop (S a) Pattern in
      strlcat (strlcat (strlcpy nick (len - 5)) "!*@" len) host len
  | Some _, Some _ => strlcpy Pattern len
  end.

Section CheckReason.
(** The two masks of the client: [Client_MaskCloaked] and [Client_Mask]. *)
Variables mask_cloaked mask : string.

Definition elem_matches (e : list_elem) : bool :=
  MatchCaseInsensitive (le_mask e) mask_cloaked || MatchCaseInsensitive (le_mask e) mask.

(** The element found, the list afterwards. *)
Fixpoint Lists_find (h : list_head) : option list_elem * list_head :=
  match h with
  | [] => (None, [])
  | e :: h' =>
      if elem_matches e then (Some e, if le_onlyonce e then h' else h)
      else let '(r, h'') := Lists_find h' in (r, e :: h'')
  end.

(** Result, content of the buffer [reason], list afterwards. *)
Definition Lists_CheckReason (h : list_head) (reason : string) (len : nat)
    : bool * string * list_head :=
  match Lists_find h with
  | (None, h') => (false, reason, h')
  | (Some e, h') =>
      (true,
       match le_reason e with
       | Some r => if (len =? 0)%nat then reason else strlcpy r len
       | None => reason
       end, h')
  end.

Definition Lists_Check (h : list_head) : bool * list_head :=
  let '(r, _, h') := Lists_CheckReason h "" 0 in (r, h').
End CheckReason.

Definition expired (now : Z) (e : list_elem) : bool :=
  (0 <? le_valid_until e) && (le_valid_until e <? now).

Definition expire_message (ListName : string) (e : list_elem) : string :=
  match le_reason e with
  | Some r => sprintf (dq "Deleted `%s` (`%s`) from %s list (expired).")
                [FS (le_mask e); FS r; FS ListName]
  | None => sprintf (dq "Deleted `%s` from %s list (expired).") [FS (le_mask e); FS ListName]
  end.

Fixpoint Lists_Expire (now : Z) (ListName : string) (h : list_head) : list string * list_head :=
  match h with
  | [] => ([], [])
  | e :: h' =>
      let '(log, h'') := Lists_Expire now ListName h' in
      if expired now e then (expire_message ListName e :: log, h'') else (log, e :: h'')
  end.

Fixpoint Lists_Count (h : list_head) : Z :=
  match h with [] => 0 | _ :: h' => 1 + Lists_Count h' end.

(** ** The list as a map from masks to entries

    No two elements have the same mask modulo case. *)

Fixpoint lists_wf (h : list_head) : bool :=
  match h with
  | [] => true
  | e :: h' =>
      (slen (le_mask e) <? MASK_LEN)%nat &&
      negb (is_some (Lists_CheckDupeMask h' (le_mask e))) && lists_wf h'
  end.

#[export] Instance CheckDupeMask_proper h : Proper (case_eq ==> eq) (Lists_CheckDupeMask h).
Proof.
  intros a b Hab. induction h as [|e h IH]; simpl; [done|]. by rewrite Hab, IH.
Qed.

Lemma CheckDupeMask_lfind h m :
  Lists_CheckDupeMask h m = lfind (fun e => strcaseeq (le_mask e) m) h.
Proof. induction h as [|e h IH]; simpl; [done|]. by rewrite IH. Qed.

Lemma CheckDupeMask_update h m f m' :
  (forall e, le_mask (f e) = le_mask e) ->
  Lists_CheckDupeMask (update_mask h m f) m' =
    if strcaseeq m m' then f <$> Lists_CheckDupeMask h m' else Lists_CheckDupeMask h m'.
Proof.
  intros Hf. induction h as [|e h IH]; simpl; [by destruct (strcaseeq m m')|].
  destruct (strcaseeq (le_mask e) m) eqn:E; simpl.
  - rewrite Hf, (strcaseeq_left _ _ m' E). by destruct (strcaseeq m m').
  - rewrite IH. destruct (strcaseeq m m') eqn:Em; [|done].
    apply strcaseeq_spec in Em. destruct (strcaseeq (le_mask e) m') eqn:E'; [|done].
    rewrite <- Em in E'. congruence.
Qed.

Lemma lists_wf_update h m f :
  (forall e, le_mask (f e) = le_mask e) -> lists_wf (update_mask h m f) = lists_wf h.
Proof.
  intros Hf. induction h as [|e h IH]; simpl; [done|].
  destruct (strcaseeq (le_mask e) m) eqn:E; simpl; [by rewrite Hf|].
  rewrite CheckDupeMask_update, IH by done. rewrite strcaseeq_sym, E. done.
Qed.

Lemma CheckDupeMask_Del h m m' :
  Lists_CheckDupeMask (Lists_Del h m) m' =
    if strcaseeq m m' then None else Lists_CheckDupeMask h m'.
Proof.
  induction h as [|e h IH]; simpl; [by destruct (strcaseeq m m')|].
  destruct (strcaseeq (le_mask e) m) eqn:E.
  - rewrite IH, (strcaseeq_left _ _ m' E). by destruct (strcaseeq m m').
  - simpl. rewrite IH. destruct (strcaseeq m m') eqn:Em; [|done].
    apply strcaseeq_spec in Em. rewrite <- Em, E. done.
Qed.

Lemma lists_wf_Del h m : lists_wf h = true -> lists_wf (Lists_Del h m) = true.
Proof.
  induction h as [|e h IH]; simpl; [done|]. intros [[H1 H2]%andb_prop H3]%andb_prop.
  destruct (strcaseeq (le_mask e) m) eqn:E; [auto|]. simpl.
  by rewrite CheckDupeMask_Del, (strcaseeq_sym m), E, H1, H2, IH.
Qed.

Lemma Lists_find_spec m1 m2 h :
  match Lists_find m1 m2 h with
  | (None, h') => h' = h /\ Forall (fun e => elem_matches m1 m2 e = false) h
  | (Some e, h') => exists l r, h = l ++ e :: r /\ elem_matches m1 m2 e = true /\
      Forall (fun x => elem_matches m1 m2 x = false) l /\
      h' = if le_onlyonce e then l ++ r else h
  end.
Proof.
  induction h as [|e h IH]; simpl; [by split|].
  destruct (elem_matches m1 m2 e) eqn:E.
  - exists [], h. simpl. by destruct (le_onlyonce e).
  - destruct (Lists_find m1 m2 h) as [[x|] h'].
    + destruct IH as (l & r & -> & H1 & H2 & ->). exists (e :: l), r.
      repeat split; [done|by constructor|]. by destruct (le_onlyonce x).
    + destruct IH as [-> H]. split; [done|by constructor].
Qed.

Lemma offset_of_Some s c n :
  c <> NUL -> offset_of s c = Some n ->
  (n < slen s)%nat /\ s = str_take n s +:+ String c (str_drop (S n) s) /\
  str_mem c (str_take n s) = false.
Proof.
  intros Hc. unfold offset_of. revert n.
  induction s as [|a s IH]; intros n; cbn [strchr].
  - by destruct (Ascii.eqb_spec c NUL).
  - destruct (Ascii.eqb_spec a c) as [->|Hac].
    + rewrite Nat.sub_diag. intros [= <-]. cbn. repeat split. lia.
    + destruct (strchr s c) as [p|] eqn:E; [|done]. intros [= <-].
      destruct (IH (slen s - slen p)%nat eq_refl) as (H1 & H2 & H3).
      assert (slen p <= slen s)%nat.
      { clear -E. revert E. induction s as [|b s IH]; simpl.
        - destruct (c =c NUL); [by intros [= <-]|done].
        - destruct (b =c c); [by intros [= <-]|]. intros H. specialize (IH H). lia. }
      cbn [slen]. rewrite Nat.sub_succ_l by lia. cbn [str_take str_drop str_mem].
      repeat split; [lia|exact (f_equal (String a) H2)|]. rewrite H3.
      by rewrite (proj2 (Ascii.eqb_neq a c)).
Qed.

Lemma str_mem_split c s : str_mem c s = true -> exists u h, s = u +:+ String c h.
Proof.
  induction s as [|a s IH]; simpl; [done|]. intros [H|H]%orb_prop.
  - apply Ascii.eqb_eq in H as ->. by exists "", s.
  - destruct (IH H) as (u & h & ->). by exists (String a u), h.
Qed.

(** The first [d] is before the first [c]. *)
Lemma offset_of_two s c d a e :
  c <> d -> c <> NUL -> d <> NUL -> offset_of s c = Some a -> offset_of s d = Some e ->
  (e <= a)%nat ->
  exists n u h, s = n +:+ String d "" +:+ u +:+ String c "" +:+ h.
Proof.
  intros Hcd Hc Hd Ha He Hle.
  destruct (offset_of_Some _ _ _ Hc Ha) as (_ & H1 & H2).
  destruct (offset_of_Some _ _ _ Hd He) as (_ & H3 & _).
  assert (str_mem c (str_take e s) = false) as H4.
  { apply not_true_iff_false. intros H. rewrite <- (str_take_take e a) in H by done.
    apply str_mem_take in H. congruence. }
  assert (str_mem c s = true) as H5.
  { rewrite H1, str_mem_app. simpl. rewrite Ascii.eqb_refl. apply orb_true_r. }
  rewrite H3, str_mem_app, H4 in H5. cbn [orb str_mem] in H5.
  rewrite (proj2 (Ascii.eqb_neq d c)) in H5 by done.
  destruct (str_mem_split _ _ H5) as (u & h & E).
  exists (str_take e s), u, h. rewrite H3 at 1. by rewrite E.
Qed.

Lemma offset_of_None s c : c <> NUL -> offset_of s c = None -> str_mem c s = false.
Proof.
  intros Hc H. rewrite <- strchr_mem by done. unfold offset_of, has_chr in *.
  by destruct (strchr s c).
Qed.

Lemma strlcat_fits dst src n :
  (slen dst + slen src < n)%nat -> strlcat dst src n = dst +:+ src.
Proof.
  intros H. rewrite strlcat_take by lia. apply str_take_all. rewrite slen_app. lia.
Qed.

(** ** Properties *)

(** Adding a mask.  On a list without duplicates and for a mask that fits
    its field, [Lists_Add] succeeds if memory is available; afterwards the mask
    is bound to the new validity and, if one is given, the new reason, every
    other mask is bound as before, and the list has no duplicates.  Without
    memory for a new element the list is unchanged. *)
Theorem Lists_Add_spec malloc_ok h Mask valid reason once m :
  lists_wf h = true -> (slen Mask < MASK_LEN)%nat ->
  let old := Lists_CheckDupeMask h Mask in
  let '(ok, h') := Lists_Add malloc_ok true h Mask valid reason once in
  ok = is_some old || malloc_ok /\ lists_wf h' = true /\
  Lists_CheckDupeMask h' m =
    if negb (strcaseeq Mask m) then Lists_CheckDupeMask h m
    else match old with
         | Some e => Some (ListElem (le_mask e)
                             (match reason with Some r => Some r | None => le_reason e end)
                             valid (le_onlyonce e))
         | None => if malloc_ok then Some (ListElem Mask reason valid once) else None
         end.
Proof.
  intros Hwf Hlen old. unfold Lists_Add. fold old.
  destruct old as [e|] eqn:Eold; unfold old in Eold.
  - split; [done|]. split; [by rewrite lists_wf_update|].
    rewrite CheckDupeMask_update by done.
    destruct (strcaseeq Mask m) eqn:Em; simpl; [|done].
    apply strcaseeq_spec in Em. rewrite <- Em, Eold. done.
  - assert (Hnone : forall b, b = strcaseeq Mask m ->
      Lists_CheckDupeMask h m = if negb b then Lists_CheckDupeMask h m else None).
    { intros [] Hb; simpl; [|done]. symmetry in Hb. apply strcaseeq_spec in Hb.
      by rewrite <- Hb. }
    destruct malloc_ok; simpl.
    + rewrite strlcpy_fits by done. rewrite Eold, Hwf.
      rewrite (proj2 (Nat.ltb_lt _ _) Hlen). repeat split.
      destruct (strcaseeq Mask m); simpl; [by destruct reason|done].
    + repeat split; [done|]. by apply Hnone.
Qed.

Lemma Lists_Add_spec_witness :
  (lists_wf [] = true /\ (slen "a!*@*" < MASK_LEN)%nat) /\
  lists_wf (snd (Lists_Add true true [] "a!*@*" 0 None false)) = true.
Proof.
  assert (lists_wf [] = true) as H1 by reflexivity.
  assert (slen "a!*@*" < MASK_LEN)%nat as H2 by (apply Nat.ltb_lt; reflexivity).
  split; [by split|].
  exact (proj1 (proj2 (Lists_Add_spec true [] "a!*@*" 0 None false "A!*@*" H1 H2))).
Defined.

(** Deleting a mask.  [Lists_Del] removes every element whose mask equals
    the given one modulo case, keeps all others in their order, and keeps the
    list free of duplicates. *)
Theorem Lists_Del_spec h Mask m :
  Lists_Del h Mask = List.filter (fun e => negb (strcaseeq (le_mask e) Mask)) h /\
  Lists_CheckDupeMask (Lists_Del h Mask) m =
    (if strcaseeq Mask m then None else Lists_CheckDupeMask h m) /\
  (lists_wf h = true -> lists_wf (Lists_Del h Mask) = true).
Proof.
  repeat split.
  - induction h as [|e h IH]; simpl; [done|]. destruct (strcaseeq (le_mask e) Mask); simpl; congruence.
  - apply CheckDupeMask_Del.
  - apply lists_wf_Del.
Qed.

(** Making a mask.  Every result fits the buffer; a pattern that is short
    enough gives a mask of the form nick!user@host that starts with the
    pattern's nickname, and missing parts become stars. *)
Theorem Lists_MakeMask_spec p len :
  (6 <= len)%nat ->
  (slen (Lists_MakeMask p len) < len)%nat /\
  ((slen p + 5 < len)%nat ->
   exists n u h, Lists_MakeMask p len = n +:+ "!" +:+ u +:+ "@" +:+ h /\
     (p = n \/ (p = n +:+ "!" +:+ u) \/ p = n +:+ "@" +:+ h \/ p = n +:+ "!" +:+ u +:+ "@" +:+ h)).
Proof.
  intros Hlen. unfold Lists_MakeMask.
  assert (Hb : forall s k, (0 < k)%nat -> (slen (strlcpy s k) < k)%nat) by apply strlcpy_bound.
  assert (Hc : forall d s, (slen d < len)%nat -> (slen (strlcat d s len) < len)%nat).
  { intros d s Hd. rewrite strlcat_take by done. rewrite slen_take. lia. }
  assert (Hb' : forall s k, (0 < k)%nat -> (k <= len)%nat -> (slen (strlcpy s k) < len)%nat).
  { intros s k H1 H2. specialize (Hb s k H1). lia. }
  assert (Hat : "@"%char <> NUL) by discriminate.
  assert (Hex : "!"%char <> NUL) by discriminate.
  destruct (offset_of p "@") as [a|] eqn:Ea; destruct (offset_of p "!") as [e|] eqn:Ee.
  - destruct (Nat.ltb_spec a e).
    + split; [apply Hc, Hc, Hb'; lia|]. intros Hp.
      destruct (offset_of_Some _ _ _ Hat Ea) as (H1 & H2 & _).
      exists (str_take a p), "*", (str_drop (S a) p).
      rewrite strlcpy_fits by (rewrite slen_take; lia).
      rewrite (strlcat_fits _ "!*@") by (rewrite slen_take; cbn; lia).
      rewrite strlcat_fits by (rewrite slen_app, slen_take, slen_drop; cbn; lia).
      split; [by rewrite <- str_app_assoc|]. auto.
    + split; [apply Hb'; lia|]. intros Hp. rewrite strlcpy_fits by lia.
      destruct (offset_of_two p "@" "!" a e) as (n & u & h & E); [done..|].
      exists n, u, h. auto.
  - split; [apply Hc, Hc, Hb'; lia|]. intros Hp.
    destruct (offset_of_Some _ _ _ Hat Ea) as (H1 & H2 & _).
    exists (str_take a p), "*", (str_drop (S a) p).
    rewrite strlcpy_fits by (rewrite slen_take; lia).
    rewrite (strlcat_fits _ "!*@") by (rewrite slen_take; cbn; lia).
    rewrite strlcat_fits by (rewrite slen_app, slen_take, slen_drop; cbn; lia).
    split; [by rewrite <- str_app_assoc|]. auto.
  - split; [apply Hc, Hb'; lia|]. intros Hp.
    destruct (offset_of_Some _ _ _ Hex Ee) as (H1 & H2 & _).
    exists (str_take e p), (str_drop (S e) p), "*".
    rewrite strlcpy_fits by lia. rewrite strlcat_fits by (cbn; lia).
    split; [by rewrite H2 at 1; rewrite <- str_app_assoc|]. auto.
  - split; [apply Hc, Hb'; lia|]. intros Hp. exists p, "*", "*".
    rewrite strlcpy_fits by lia. rewrite strlcat_fits by (cbn; lia). auto.
Qed.

Lemma Lists_MakeMask_spec_witness :
  (6 <= MASK_LEN)%nat /\ (slen (Lists_MakeMask "nick@host" MASK_LEN) < MASK_LEN)%nat.
Proof.
  assert (6 <= MASK_LEN)%nat as H by (apply Nat.leb_le; reflexivity).
  split; [exact H|]. exact (proj1 (Lists_MakeMask_spec "nick@host" MASK_LEN H)).
Defined.

(** Searching for a client.  [Lists_CheckReason] succeeds exactly if an
    element matches the real or the cloaked mask of the client; the first such
    element gives the reason and, if it is valid only once, is removed; nothing
    else changes. *)
Theorem Lists_CheckReason_spec m1 m2 h reason len :
  let '(found, reason', h') := Lists_CheckReason m1 m2 h reason len in
  (found = false -> reason' = reason /\ h' = h /\
     Forall (fun e => elem_matches m1 m2 e = false) h) /\
  (found = true -> exists l e r, h = l ++ e :: r /\ elem_matches m1 m2 e = true /\
     Forall (fun x => elem_matches m1 m2 x = false) l /\
     h' = (if le_onlyonce e then l ++ r else h) /\
     reason' = (match le_reason e with
                | Some t => if (len =? 0)%nat then reason else strlcpy t len
                | None => reason end)).
Proof.
  unfold Lists_CheckReason. pose proof (Lists_find_spec m1 m2 h) as H.
  destruct (Lists_find m1 m2 h) as [[e|] h'].
  - destruct H as (l & r & H1 & H2 & H3 & H4). split; [discriminate|]. intros _.
    exists l, e, r. auto.
  - destruct H as [H1 H2]. split; [auto|discriminate].
Qed.

(** Expiry.  [Lists_Expire] removes exactly the elements whose time is over,
    keeps the order of the others, and logs one message for each removed
    element; entries without a time limit stay. *)
Theorem Lists_Expire_spec now name h :
  let '(log, h') := Lists_Expire now name h in
  h' = List.filter (fun e => negb (expired now e)) h /\
  log = map (expire_message name) (List.filter (expired now) h) /\
  Lists_Count h = Lists_Count h' + Z.of_nat (length log).
Proof.
  induction h as [|e h IH]; cbn [Lists_Expire List.filter]; [done|].
  destruct (Lists_Expire now name h) as [log h']. destruct IH as (-> & -> & IH).
  destruct (expired now e); cbn [negb map Lists_Count length]; repeat split; lia.
Qed.
