(* ===== verification/Messages.v ===== *)
(** * Message formats (src/server/core/misc/messages.h)

    The replies and errors that the modelled commands send, as format strings of
    [sprintf]; double quotes are written as backquotes, see [dq]. *)

From S2P Require Import Prelude.

Definition RPL_WELCOME_MSG : string :=
  "001 %s :Welcome to the Internet Relay Network %s".
Definition RPL_YOURHOST_MSG : string :=
  "002 %s :Your host is %s, running version ngircd-%s (%s/%s/%s)".
Definition RPL_CREATED_MSG : string :=
  "003 %s :This server has been started %s".
Definition RPL_MYINFO_MSG : string :=
  "004 %s %s ngircd-%s %s %s".
Definition RPL_ISUPPORTNET_MSG : string :=
  "005 %s NETWORK=%s :is my network name".
Definition RPL_ISUPPORT1_MSG : string :=
  "005 %s RFC2812 IRCD=ngIRCd CHARSET=UTF-8 CASEMAPPING=ascii PREFIX=(qaohv)~&@%%+ CHANTYPES=%s CHANMODES=beI,k,l,imMnOPQRstVz CHANLIMIT=%s:%d :are supported on this server".
Definition RPL_ISUPPORT2_MSG : string :=
  "005 %s CHANNELLEN=%d NICKLEN=%d TOPICLEN=%d AWAYLEN=%d KICKLEN=%d MODES=%d MAXLIST=beI:%d EXCEPTS=e INVEX=I PENALTY FNC :are supported on this server".
Definition RPL_TRACELINK_MSG : string :=
  "200 %s Link %s-%s %s %s V%s %ld %d %d".
Definition RPL_TRACEOPERATOR_MSG : string :=
  "204 %s Oper 2 :%s".
Definition RPL_TRACESERVER_MSG : string :=
  "206 %s Serv 1 0S 0C %s[%s@%s] *!*@%s :V%s".
Definition RPL_STATSLINKINFO_MSG : string :=
  "211 %s %s %d %ld %ld %ld %ld :%ld".
Definition RPL_STATSCOMMANDS_MSG : string :=
  "212 %s %s %ld %ld %ld".
Definition RPL_STATSXLINE_MSG : string :=
  "216 %s %c %s %ld :%s".
Definition RPL_ENDOFSTATS_MSG : string :=
  "219 %s %c :End of STATS report".
Definition RPL_UMODEIS_MSG : string :=
  "221 %s +%s".
Definition RPL_SERVLIST_MSG : string :=
  "234 %s %s %s %s %d %d :%s".
Definition RPL_SERVLISTEND_MSG : string :=
  "235 %s %s %s :End of service listing".
Definition RPL_STATSUPTIME : string :=
  "242 %s :Server Up %u days %u:%02u:%02u".
Definition RPL_LUSERCLIENT_MSG : string :=
  "251 %s :There are %ld users and %ld services on %ld servers".
Definition RPL_LUSEROP_MSG : string :=
  "252 %s %lu :operator(s) online".
Definition RPL_LUSERUNKNOWN_MSG : string :=
  "253 %s %lu :unknown connection(s)".
Definition RPL_LUSERCHANNELS_MSG : string :=
  "254 %s %lu :channels formed".
Definition RPL_LUSERME_MSG : string :=
  "255 %s :I have %lu users, %lu services and %lu servers".
Definition RPL_ADMINME_MSG : string :=
  "256 %s %s :Administrative info".
Definition RPL_ADMINLOC1_MSG : string :=
  "257 %s :%s".
Definition RPL_ADMINLOC2_MSG : string :=
  "258 %s :%s".
Definition RPL_ADMINEMAIL_MSG : string :=
  "259 %s :%s".
Definition RPL_TRACEEND_MSG : string :=
  "262 %s %s %s-%s.%s :End of TRACE".
Definition RPL_LOCALUSERS_MSG : string :=
  "265 %s %lu %lu :Current local users: %lu, Max: %lu".
Definition RPL_NETUSERS_MSG : string :=
  "266 %s %lu %lu :Current global users: %lu, Max: %lu".
Definition RPL_STATSCONN_MSG : string :=
  "250 %s :Highest connection count: %lu (%lu connections received)".
Definition RPL_AWAY_MSG : string :=
  "301 %s %s :%s".
Definition RPL_USERHOST_MSG : string :=
  "302 %s :".
Definition RPL_ISON_MSG : string :=
  "303 %s :".
Definition RPL_UNAWAY_MSG : string :=
  "305 %s :You are no longer marked as being away".
Definition RPL_NOWAWAY_MSG : string :=
  "306 %s :You have been marked as being away".
Definition RPL_WHOISREGNICK_MSG : string :=
  "307 %s %s :is a registered nick".
Definition RPL_WHOISSERVICE_MSG : string :=
  "310 %s %s :is an IRC service".
Definition RPL_WHOISUSER_MSG : string :=
  "311 %s %s %s %s * :%s".
Definition RPL_WHOISSERVER_MSG : string :=
  "312 %s %s %s :%s".
Definition RPL_WHOISOPERATOR_MSG : string :=
  "313 %s %s :is an IRC operator".
Definition RPL_WHOWASUSER_MSG : string :=
  "314 %s %s %s %s * :%s".
Definition RPL_ENDOFWHO_MSG : string :=
  "315 %s %s :End of WHO list".
Definition RPL_WHOISIDLE_MSG : string :=
  "317 %s %s %lu %lu :seconds idle, signon time".
Definition RPL_ENDOFWHOIS_MSG : string :=
  "318 %s %s :End of WHOIS list".
Definition RPL_WHOISCHANNELS_MSG : string :=
  "319 %s %s :".
Definition RPL_LISTSTART_MSG : string :=
  "321 %s Channel :Users  Name".
Definition RPL_LIST_MSG : string :=
  "322 %s %s %ld :%s".
Definition RPL_LISTEND_MSG : string :=
  "323 %s :End of LIST".
Definition RPL_CHANNELMODEIS_MSG : string :=
  "324 %s %s +%s".
Definition RPL_CREATIONTIME_MSG : string :=
  "329 %s %s %ld".
Definition RPL_WHOISLOGGEDIN_MSG : string :=
  "330 %s %s %s :is logged in as".
Definition RPL_NOTOPIC_MSG : string :=
  "331 %s %s :No topic is set".
Definition RPL_TOPIC_MSG : string :=
  "332 %s %s :%s".
Definition RPL_TOPICSETBY_MSG : string :=
  "333 %s %s %s %u".
Definition RPL_WHOISBOT_MSG : string :=
  "335 %s %s :is an IRC Bot".
Definition RPL_INVITING_MSG : string :=
  "341 %s %s %s%s".
Definition RPL_INVITELIST_MSG : string :=
  "346 %s %s %s %s %d".
Definition RPL_ENDOFINVITELIST_MSG : string :=
  "347 %s %s :End of channel invite list".
Definition RPL_EXCEPTLIST_MSG : string :=
  "348 %s %s %s %s %d".
Definition RPL_ENDOFEXCEPTLIST_MSG : string :=
  "349 %s %s :End of channel exception list".
Definition RPL_VERSION_MSG : string :=
  "351 %s %s-%s.%s %s :%s".
Definition RPL_WHOREPLY_MSG : string :=
  "352 %s %s %s %s %s %s %s :%d %s".
Definition RPL_NAMREPLY_MSG : string :=
  "353 %s %c %s :".
Definition RPL_LINKS_MSG : string :=
  "364 %s %s %s :%d %s".
Definition RPL_ENDOFLINKS_MSG : string :=
  "365 %s %s :End of LINKS list".
Definition RPL_ENDOFNAMES_MSG : string :=
  "366 %s %s :End of NAMES list".
Definition RPL_BANLIST_MSG : string :=
  "367 %s %s %s %s %d".
Definition RPL_ENDOFBANLIST_MSG : string :=
  "368 %s %s :End of channel ban list".
Definition RPL_ENDOFWHOWAS_MSG : string :=
  "369 %s %s :End of WHOWAS list".
Definition RPL_INFO_MSG : string :=
  "371 %s :%s".
Definition RPL_ENDOFINFO_MSG : string :=
  "374 %s :End of INFO list".
Definition RPL_MOTD_MSG : string :=
  "372 %s :- %s".
Definition RPL_MOTDSTART_MSG : string :=
  "375 %s :- %s message of the day".
Definition RPL_ENDOFMOTD_MSG : string :=
  "376 %s :End of MOTD command".
Definition RPL_WHOISHOST_MSG : string :=
  "378 %s %s :is connecting from *@%s %s".
Definition RPL_WHOISMODES_MSG : string :=
  "379 %s %s :is using modes +%s".
Definition RPL_YOUREOPER_MSG : string :=
  "381 %s :You are now an IRC Operator".
Definition RPL_REHASHING_MSG : string :=
  "382 %s :Rehashing".
Definition RPL_TIME_MSG : string :=
  "391 %s %s :%s".
Definition RPL_HOSTHIDDEN_MSG : string :=
  "396 %s %s :is your displayed hostname now".
Definition ERR_NOSUCHNICK_MSG : string :=
  "401 %s %s :No such nick or channel name".
Definition ERR_NOSUCHSERVER_MSG : string :=
  "402 %s %s :No such server".
Definition ERR_NOSUCHCHANNEL_MSG : string :=
  "403 %s %s :No such channel".
Definition ERR_CANNOTSENDTOCHAN_MSG : string :=
  "404 %s %s :Cannot send to channel".
Definition ERR_TOOMANYCHANNELS_MSG : string :=
  "405 %s %s :You have joined too many channels".
Definition ERR_WASNOSUCHNICK_MSG : string :=
  "406 %s %s :There was no such nickname".
Definition ERR_TOOMANYTARGETS_MSG : string :=
  "407 %s :Too many recipients".
Definition ERR_NOORIGIN_MSG : string :=
  "409 %s :No origin specified".
Definition ERR_INVALIDCAP_MSG : string :=
  "410 %s %s :Invalid CAP subcommand".
Definition ERR_NORECIPIENT_MSG : string :=
  "411 %s :No recipient given (%s)".
Definition ERR_NOTEXTTOSEND_MSG : string :=
  "412 %s :No text to send".
Definition ERR_WILDTOPLEVEL_MSG : string :=
  "414 %s :Wildcard in toplevel domain".
Definition ERR_UNKNOWNCOMMAND_MSG : string :=
  "421 %s %s :Unknown command".
Definition ERR_NOMOTD_MSG : string :=
  "422 %s :MOTD file is missing".
Definition ERR_NONICKNAMEGIVEN_MSG : string :=
  "431 %s :No nickname given".
Definition ERR_ERRONEUSNICKNAME_MSG : string :=
  "432 %s %s :Erroneous nickname".
Definition ERR_NICKNAMETOOLONG_MSG : string :=
  "432 %s %s :Nickname too long, max. %u characters".
Definition ERR_FORBIDDENNICKNAME_MSG : string :=
  "432 %s %s :Nickname is forbidden/blocked".
Definition ERR_NICKNAMEINUSE_MSG : string :=
  "433 %s %s :Nickname already in use".
Definition ERR_USERNOTINCHANNEL_MSG : string :=
  "441 %s %s %s :They aren't on that channel".
Definition ERR_NOTONCHANNEL_MSG : string :=
  "442 %s %s :You are not on that channel".
Definition ERR_USERONCHANNEL_MSG : string :=
  "443 %s %s %s :is already on channel".
Definition ERR_SUMMONDISABLED_MSG : string :=
  "445 %s :SUMMON has been disabled".
Definition ERR_USERSDISABLED_MSG : string :=
  "446 %s :USERS has been disabled".
Definition ERR_NONICKCHANGE_MSG : string :=
  "447 %s :Cannot change nickname while on %s(+N)".
Definition ERR_NOTREGISTERED_MSG : string :=
  "451 %s :Connection not registered".
Definition ERR_NOTREGISTEREDSERVER_MSG : string :=
  "451 %s :Connection not registered as server link".
Definition ERR_NEEDMOREPARAMS_MSG : string :=
  "461 %s %s :Syntax error".
Definition ERR_ALREADYREGISTRED_MSG : string :=
  "462 %s :Connection already registered".
Definition ERR_PASSWDMISMATCH_MSG : string :=
  "464 %s :Invalid password".
Definition ERR_CHANNELISFULL_MSG : string :=
  "471 %s %s :Cannot join channel (+l) -- Channel is full, try later".
Definition ERR_SECURECHANNEL_MSG : string :=
  "471 %s %s :Cannot join channel (+z) -- SSL connections only".
Definition ERR_OPONLYCHANNEL_MSG : string :=
  "471 %s %s :Cannot join channel (+O) -- IRC opers only".
Definition ERR_REGONLYCHANNEL_MSG : string :=
  "471 %s %s :Cannot join channel (+R) -- Registered users only".
Definition ERR_UNKNOWNMODE_MSG : string :=
  "472 %s %c :is unknown mode char for %s".
Definition ERR_INVITEONLYCHAN_MSG : string :=
  "473 %s %s :Cannot join channel (+i) -- Invited users only".
Definition ERR_BANNEDFROMCHAN_MSG : string :=
  "474 %s %s :Cannot join channel (+b) -- You are banned".
Definition ERR_BADCHANNELKEY_MSG : string :=
  "475 %s %s :Cannot join channel (+k) -- Wrong channel key".
Definition ERR_NOCHANMODES_MSG : string :=
  "477 %s %s :Channel doesn't support modes".
Definition ERR_NEEDREGGEDNICK_MSG : string :=
  "477 %s %s :Cannot send to channel (+M) -- You need to be identified to a registered account to message this channel".
Definition ERR_LISTFULL_MSG : string :=
  "478 %s %s %s :Channel list is full (%d)".
Definition ERR_NOPRIVILEGES_MSG : string :=
  "481 %s :Permission denied".
Definition ERR_CHANOPRIVSNEEDED_MSG : string :=
  "482 %s %s :You are not channel operator".
Definition ERR_CHANOPPRIVTOOLOW_MSG : string :=
  "482 %s %s :Your privileges are too low".
Definition ERR_KICKDENY_MSG : string :=
  "482 %s %s :Cannot kick, %s is protected".
Definition ERR_CANTKILLSERVER_MSG : string :=
  "483 %s :You can't kill a server!".
Definition ERR_RESTRICTED_MSG : string :=
  "484 %s :Your connection is restricted".
Definition ERR_NICKREGISTER_MSG : string :=
  "484 %s :Cannot modify user mode (+R) -- Use IRC services".
Definition ERR_NONONREG_MSG : string :=
  "486 %s :Cannot send to user (+b) -- You must identify to a registered nick to private message %s".
Definition ERR_NOTONSAMECHANNEL_MSG : string :=
  "493 %s :You must share a common channel with %s".
Definition ERR_UMODEUNKNOWNFLAG_MSG : string :=
  "501 %s :Unknown mode".
Definition ERR_UMODEUNKNOWNFLAG2_MSG : string :=
  dq "501 %s :Unknown mode `%c%c`".
Definition ERR_USERSDONTMATCH_MSG : string :=
  "502 %s :Can't set/get mode for other users".
Definition ERR_USERNOTONSERV_MSG : string :=
  "504 %s %s :User is not on this server".
Definition ERR_NOINVITE_MSG : string :=
  "518 %s :Cannot invite to %s (+V)".
Definition ERR_INVALIDMODEPARAM_MSG : string :=
  "696 %s %s %c * :Invalid mode parameter".
