(* ===== verification/Ipaddr.v ===== *)
(** * Internet addresses (src/support/ipaddr/ng_ipaddr.c, ng_ipaddr.h)

    The union of the address structures, with IPv6; ports are in host order.  An
    object that has been cleared is of no family.  [getaddrinfo], for numeric
    addresses only, and [getnameinfo] are functions of the system. *)

From S2P Require Import Prelude CString.

Inductive ng_ipaddr_t :=
  | AF_UNSPEC
  | AF_INET (addr port : Z)
  | AF_INET6 (addr port : Z).

#[export] Instance ng_ipaddr_eq_dec : EqDecision ng_ipaddr_t.
Proof. solve_decision. Defined.

(** An assertion of the family fails with [None]. *)
Definition ng_ipaddr_getport (a : ng_ipaddr_t) : option Z :=
  match a with AF_INET _ p | AF_INET6 _ p => Some p | AF_UNSPEC => None end.

Definition ng_ipaddr_setport (a : ng_ipaddr_t) (port : Z) : option ng_ipaddr_t :=
  match a with
  | AF_INET x _ => Some (AF_INET x port)
  | AF_INET6 x _ => Some (AF_INET6 x port)
  | AF_UNSPEC => None
  end.

(** For two objects of no family the lengths are asked for, which fails. *)
Definition ng_ipaddr_ipequal (a b : ng_ipaddr_t) : option bool :=
  match a, b with
  | AF_INET x _, AF_INET y _ | AF_INET6 x _, AF_INET6 y _ => Some (x =? y)
  | AF_UNSPEC, AF_UNSPEC => None
  | _, _ => Some false
  end.

Definition NG_INET_ADDRSTRLEN : nat := 65.

Section system.
Context (getaddrinfo : string -> string -> option ng_ipaddr_t).
Context (getnameinfo : ng_ipaddr_t -> nat -> option string).

Definition ng_ipaddr_init (ip_str : string) (port : Z) : option ng_ipaddr_t :=
  getaddrinfo ip_str (snprintf 64 "%u" [FZ port]).

(** The text of an address, which does not begin with a colon; [None] is the
    failure of an assertion. *)
Definition ng_ipaddr_tostr_r (addr : ng_ipaddr_t) : option string :=
  match addr with
  | AF_UNSPEC => None
  | _ =>
      let first := getnameinfo addr NG_INET_ADDRSTRLEN in
      match first with
      | Some (String ":" _) => (fun s => strlcpy ("0" +:+ s) NG_INET_ADDRSTRLEN) <$> getnameinfo addr (NG_INET_ADDRSTRLEN - 1)
      | _ => first
      end
  end.

End system.
