(* ===== verification/Io.v ===== *)
(** * Waiting for input and output (src/state/connection/io.c, proc.h)

    The registered file descriptors with their callbacks, as the backend for
    select(2) keeps them: an array of events, the two sets that are given to
    select, and the largest descriptor.  The operations are functions of this
    state; [None] is the failure of an assertion.  What close(2) returns is only
    logged by the callers of [io_close]. *)

From S2P Require Import Prelude.

(** ** State *)

(** The functions that are registered as callbacks. *)
Inductive callback :=
  | CbListen               (* cb_listen *)
  | CbConnServer           (* cb_connserver *)
  | CbClientServer         (* cb_clientserver *)
  | CbConnectToServer      (* cb_Connect_to_Server *)
  | CbReadResolverResult.  (* cb_Read_Resolver_Result *)

Definition IO_WANTREAD : Z := 1.
Definition IO_WANTWRITE : Z := 2.
Definition IO_ERROR : Z := 4.
Definition FD_SETSIZE : Z := 1024.

Record io_event := IoEvent { ev_callback : option callback; ev_what : Z }.

(** An element of the array that has not been used. *)
Definition no_event : io_event := IoEvent None 0.

Record IO := MkIO {
  io_events : list io_event;
  io_readers : gset Z;
  io_writers : gset Z;
  io_select_maxfd : Z;
  io_initialized : bool }.

(** The status of a sub-process (proc.h). *)
Record PROC_STAT := ProcStat { pr_pid : Z; pr_pipe_fd : Z }.

Definition Proc_InitStruct : PROC_STAT := ProcStat 0 (-1).
Definition Proc_InProgress (p : PROC_STAT) : bool := negb (pr_pid p =? 0).
Definition Proc_GetPipeFd (p : PROC_STAT) : Z := pr_pipe_fd p.

(** ** Operations *)

Definition has_bit (what bit : Z) : bool := negb (Z.land what bit =? 0).

Definition io_event_get (fd : Z) (io : IO) : option io_event :=
  if fd <? 0 then None else io_events io !! Z.to_nat fd.

Definition io_fd_valid (fd : Z) : bool := 0 <=? fd.

Definition put_event (fd : Z) (e : io_event) (io : IO) : IO :=
  MkIO (<[Z.to_nat fd := e]> (io_events io)) (io_readers io) (io_writers io) (io_select_maxfd io) (io_initialized io).

Definition put_sets (readers writers : gset Z) (maxfd : Z) (io : IO) : IO :=
  MkIO (io_events io) readers writers maxfd (io_initialized io).

Definition io_library_init (eventsize : Z) (MaxConnections : Z) (io : IO) : IO * Z :=
  if io_initialized io then (io, MaxConnections)
  else
    let events := if 0 <? eventsize then
                    io_events io ++ replicate (S (Z.to_nat eventsize) - length (io_events io)) no_event
                  else io_events io in
    (MkIO events ∅ ∅ (io_select_maxfd io) true,
     if FD_SETSIZE <=? MaxConnections then FD_SETSIZE - 1 else MaxConnections).

Definition io_library_shutdown (io : IO) : IO :=
  MkIO (io_events io) ∅ ∅ (io_select_maxfd io) false.

Definition io_event_setcb (fd : Z) (cb : callback) (io : IO) : option (bool * IO) :=
  match io_event_get fd io with
  | None => None
  | Some i => Some (true, put_event fd (IoEvent (Some cb) (ev_what i)) io)
  end.

Definition io_event_add (fd what : Z) (io : IO) : option (bool * IO) :=
  match io_event_get fd io with
  | None => None
  | Some i =>
      if negb (io_fd_valid fd) then Some (false, io)
      else if Z.land (ev_what i) what =? what then Some (true, io)
      else
        let io := put_event fd (IoEvent (ev_callback i) (Z.lor (ev_what i) what)) io in
        let maxfd := if io_select_maxfd io <? fd then fd else io_select_maxfd io in
        let readers := if has_bit what IO_WANTREAD then {[fd]} ∪ io_readers io else io_readers io in
        let writers := if has_bit what IO_WANTWRITE then {[fd]} ∪ io_writers io else io_writers io in
        Some (true, put_sets readers writers maxfd io)
  end.

Definition backend_create_ev (fd what : Z) (io : IO) : option (bool * IO) := io_event_add fd what io.

(** [array_alloc] makes the array long enough. *)
Definition alloc_event (fd : Z) (io : IO) : IO :=
  MkIO (io_events io ++ replicate (S (Z.to_nat fd) - length (io_events io)) no_event)
    (io_readers io) (io_writers io) (io_select_maxfd io) (io_initialized io).

Definition io_event_create (fd what : Z) (cb : callback) (io : IO) : option (bool * IO) :=
  if fd <? 0 then None
  else if negb (io_fd_valid fd) then Some (false, io)
  else if FD_SETSIZE <=? fd then Some (false, io)
  else
    match backend_create_ev fd what (put_event fd (IoEvent (Some cb) 0) (alloc_event fd io)) with
    | None => None
    | Some (ret, io) =>
        Some (ret, if ret then put_event fd (IoEvent (Some cb) what) io else io)
    end.

Definition io_event_del (fd what : Z) (io : IO) : option (bool * IO) :=
  match io_event_get fd io with
  | None => None
  | Some i =>
      if negb (has_bit (ev_what i) what) then Some (true, io)
      else
        let io := put_event fd (IoEvent (ev_callback i) (Z.land (ev_what i) (Z.lnot what))) io in
        let writers := if has_bit what IO_WANTWRITE then io_writers io ∖ {[fd]} else io_writers io in
        let readers := if has_bit what IO_WANTREAD then io_readers io ∖ {[fd]} else io_readers io in
        Some (true, put_sets readers writers (io_select_maxfd io) io)
  end.

(** The largest descriptor below [n] that has a callback, or 0. *)
Fixpoint find_largest (n : nat) (io : IO) : option Z :=
  match n with
  | O => Some 0
  | S n' =>
      match io_event_get (Z.of_nat n') io with
      | None => None
      | Some i => if ev_callback i then Some (Z.of_nat n') else find_largest n' io
      end
  end.

Definition io_close_select (fd : Z) (io : IO) : option IO :=
  if negb (io_fd_valid fd) then Some io
  else
    let io := put_sets (io_readers io ∖ {[fd]}) (io_writers io ∖ {[fd]}) (io_select_maxfd io) io in
    match io_event_get fd io with
    | None => None
    | Some _ =>
        if fd =? io_select_maxfd io then
          match (if 0 <? io_select_maxfd io then find_largest (Z.to_nat (io_select_maxfd io)) io
                 else Some (io_select_maxfd io)) with
          | None => None
          | Some maxfd => Some (put_sets (io_readers io) (io_writers io) maxfd io)
          end
        else Some io
    end.

Definition io_close (fd : Z) (io : IO) : option IO :=
  match io_event_get fd io with
  | None => None
  | Some _ => put_event fd no_event <$> io_close_select fd io
  end.
