(* ===== verification/IoSpec.v ===== *)
(** * The registered descriptors as a map

    The state of [Io] represents a map from descriptors to a callback and the
    events that are waited for.  Every operation acts on this map in the obvious
    way, and the sets and the bound that select(2) is called with are always
    those of the map. *)

From S2P Require Import Prelude Io.

(** What is registered. *)
Notation registry := (gmap Z (callback * Z)).

(** The events of a descriptor: reading, writing, or both. *)
Definition some_events (what : Z) : Prop := what = 1 \/ what = 2 \/ what = 3.

Definition waits_for (m : registry) (bit fd : Z) : Prop :=
  exists cb what, m !! fd = Some (cb, what) /\ has_bit what bit = true.

Record io_abs (io : IO) (m : registry) : Prop := {
  ia_map : forall fd cb what,
    m !! fd = Some (cb, what) <-> 0 <= fd /\ io_events io !! Z.to_nat fd = Some (IoEvent (Some cb) what);
  ia_free : forall i e, io_events io !! i = Some e -> ev_callback e = None -> ev_what e = 0;
  ia_bits : forall fd cb what, m !! fd = Some (cb, what) -> what = 0 \/ some_events what;
  ia_readers : forall fd, fd ∈ io_readers io <-> waits_for m IO_WANTREAD fd;
  ia_writers : forall fd, fd ∈ io_writers io <-> waits_for m IO_WANTWRITE fd;
  ia_max : forall fd x, m !! fd = Some x -> fd <= io_select_maxfd io;
  ia_range : 0 <= io_select_maxfd io < FD_SETSIZE;
  ia_length : io_select_maxfd io = 0 \/ io_select_maxfd io < Z.of_nat (length (io_events io)) }.

(** ** Operations on the map *)

Inductive io_cmd :=
  | Create (fd what : Z) (cb : callback)
  | Add (fd what : Z)
  | Del (fd what : Z)
  | SetCb (fd : Z) (cb : callback)
  | CloseFd (fd : Z).

Definition run_cmd (c : io_cmd) (io : IO) : option IO :=
  match c with
  | Create fd what cb => snd <$> io_event_create fd what cb io
  | Add fd what => snd <$> io_event_add fd what io
  | Del fd what => snd <$> io_event_del fd what io
  | SetCb fd cb => snd <$> io_event_setcb fd cb io
  | CloseFd fd => io_close fd io
  end.

Definition spec_cmd (c : io_cmd) (m : registry) : registry :=
  match c with
  | Create fd what cb => <[fd := (cb, what)]> m
  | Add fd what => alter (fun x => (x.1, Z.lor x.2 what)) fd m
  | Del fd what => alter (fun x => (x.1, Z.land x.2 (Z.lnot what))) fd m
  | SetCb fd cb => alter (fun x => (cb, x.2)) fd m
  | CloseFd fd => delete fd m
  end.

(** A descriptor is registered once, and the other operations are for registered ones. *)
Definition allowed (c : io_cmd) (m : registry) : Prop :=
  match c with
  | Create fd what _ => m !! fd = None /\ 0 <= fd < FD_SETSIZE /\ some_events what
  | Add fd what | Del fd what => is_Some (m !! fd) /\ some_events what
  | SetCb fd _ | CloseFd fd => is_Some (m !! fd)
  end.

(** ** Bits *)

Ltac bits_cases H := destruct H as [?|[?|[?|?]]]; subst.

Lemma some_events_cases what : some_events what -> what = 0 \/ some_events what.
Proof. by right. Qed.

Lemma add_bits old what :
  old = 0 \/ some_events old -> some_events what ->
  some_events (Z.lor old what) /\
  (forall b, b = IO_WANTREAD \/ b = IO_WANTWRITE ->
    has_bit (Z.lor old what) b = has_bit old b || has_bit what b) /\
  ((Z.land old what =? what) = true -> Z.lor old what = old).
Proof.
  unfold some_events. intros H1 H2. bits_cases H1; destruct H2 as [?|[?|?]]; subst;
    (split; [vm_compute; tauto|]; split; [by intros b [->| ->]|vm_compute; congruence]).
Qed.

Lemma del_bits old what :
  old = 0 \/ some_events old -> some_events what ->
  (Z.land old (Z.lnot what) = 0 \/ some_events (Z.land old (Z.lnot what))) /\
  (forall b, b = IO_WANTREAD \/ b = IO_WANTWRITE ->
    has_bit (Z.land old (Z.lnot what)) b = has_bit old b && negb (has_bit what b)) /\
  (has_bit old what = false -> Z.land old (Z.lnot what) = old).
Proof.
  unfold some_events. intros H1 H2. bits_cases H1; destruct H2 as [?|[?|?]]; subst;
    (split; [vm_compute; tauto|]; split; [by intros b [->| ->]|vm_compute; congruence]).
Qed.

(** ** Slots *)

(** An element of the array is enough for [io_event_del] not to fail. *)
Lemma del_length fd what io :
  0 <= fd -> (Z.to_nat fd < length (io_events io))%nat ->
  exists io', io_event_del fd what io = Some (true, io') /\ length (io_events io') = length (io_events io).
Proof.
  intros H0 Hlt. unfold io_event_del, io_event_get. rewrite (proj2 (Z.ltb_ge _ _)) by done.
  destruct (lookup_lt_is_Some_2 _ _ Hlt) as [i ->]. destruct (has_bit _ _); cbn [negb].
  - eexists. split; [reflexivity|]. apply length_insert.
  - by exists io.
Qed.

Section abs.
Context (io : IO) (m : registry) (Ha : io_abs io m).

Lemma abs_get fd cb what : m !! fd = Some (cb, what) -> io_event_get fd io = Some (IoEvent (Some cb) what).
Proof using Ha.
  intros Hm. apply (ia_map _ _ Ha) in Hm as [H0 He]. unfold io_event_get.
  by rewrite (proj2 (Z.ltb_ge _ _) H0).
Qed.

Lemma abs_pos fd x : m !! fd = Some x -> 0 <= fd.
Proof using Ha. destruct x as [cb what]. intros Hm. by apply (ia_map _ _ Ha) in Hm as [? _]. Qed.

Lemma abs_slot fd x : m !! fd = Some x -> (Z.to_nat fd < length (io_events io))%nat.
Proof using Ha.
  destruct x as [cb what]. intros Hm. apply (ia_map _ _ Ha) in Hm as [_ He]. by eapply lookup_lt_Some.
Qed.

(** Replacing the entry of one descriptor. *)
Lemma abs_update (events : list io_event) readers writers maxfd fd cb what :
  0 <= fd < FD_SETSIZE -> what = 0 \/ some_events what ->
  (length (io_events io) <= length events)%nat ->
  events !! Z.to_nat fd = Some (IoEvent (Some cb) what) ->
  (forall i e, events !! i = Some e -> i <> Z.to_nat fd -> io_events io !! i = Some e \/ e = no_event) ->
  (forall i e, io_events io !! i = Some e -> i <> Z.to_nat fd -> events !! i = Some e) ->
  (forall b, (b ∈ readers <-> if decide (b = fd) then has_bit what IO_WANTREAD = true else b ∈ io_readers io)) ->
  (forall b, (b ∈ writers <-> if decide (b = fd) then has_bit what IO_WANTWRITE = true else b ∈ io_writers io)) ->
  fd <= maxfd < FD_SETSIZE -> io_select_maxfd io <= maxfd -> maxfd = io_select_maxfd io \/ maxfd = fd ->
  io_abs (MkIO events readers writers maxfd (io_initialized io)) (<[fd := (cb, what)]> m).
Proof using Ha.
  intros Hfd Hw Hlen He Hback Hforth Hr Hwr Hmax Hgrow Hwhich.
  assert (forall bit f, waits_for (<[fd := (cb, what)]> m) bit f <->
    if decide (f = fd) then has_bit what bit = true else waits_for m bit f) as Hwait.
  { intros bit f. unfold waits_for. destruct (decide (f = fd)) as [->|Hne].
    - rewrite lookup_insert_eq. split; [by intros (? & ? & [= <- <-] & ?)|intros ?; by exists cb, what].
    - by rewrite lookup_insert_ne. }
  split; cbn [io_events io_readers io_writers io_select_maxfd].
  - intros f cb' what'. destruct (decide (f = fd)) as [->|Hne].
    + rewrite lookup_insert_eq, He. split; [intros [= -> ->]; split; [lia|done]|by intros [_ [= -> ->]]].
    + rewrite lookup_insert_ne by done. rewrite (ia_map _ _ Ha). split; intros [H0 H1]; (split; [done|]).
      * apply Hforth; [done|lia].
      * apply Hback in H1 as [H1|H1]; [done|done|lia].
  - intros i e Hi Hc. destruct (decide (i = Z.to_nat fd)) as [->|Hne].
    + rewrite He in Hi. injection Hi as <-. done.
    + apply Hback in Hi as [Hi| ->]; [by eapply (ia_free _ _ Ha)|done|done].
  - intros f cb' what' Hf. destruct (decide (f = fd)) as [->|Hne].
    + rewrite lookup_insert_eq in Hf. by injection Hf as <- <-.
    + rewrite lookup_insert_ne in Hf by done. by eapply (ia_bits _ _ Ha).
  - intros f. rewrite Hwait, Hr. case_decide; [done|]. apply (ia_readers _ _ Ha).
  - intros f. rewrite Hwait, Hwr. case_decide; [done|]. apply (ia_writers _ _ Ha).
  - intros f x Hf. destruct (decide (f = fd)) as [->|Hne]; [lia|].
    rewrite lookup_insert_ne in Hf by done. apply (ia_max _ _ Ha) in Hf. lia.
  - pose proof (ia_range _ _ Ha). lia.
  - apply lookup_lt_Some in He. destruct (ia_length _ _ Ha); lia.
Qed.

(** The same, for an entry of the array that is there. *)
Lemma abs_put readers writers maxfd fd x cb what :
  m !! fd = Some x -> what = 0 \/ some_events what ->
  (forall f, (f ∈ readers <-> if decide (f = fd) then has_bit what IO_WANTREAD = true else f ∈ io_readers io)) ->
  (forall f, (f ∈ writers <-> if decide (f = fd) then has_bit what IO_WANTWRITE = true else f ∈ io_writers io)) ->
  maxfd = io_select_maxfd io ->
  io_abs (put_sets readers writers maxfd (put_event fd (IoEvent (Some cb) what) io)) (<[fd := (cb, what)]> m).
Proof using Ha.
  intros Hm Hw Hr Hwr ->. pose proof (abs_pos _ _ Hm). pose proof (ia_max _ _ Ha _ _ Hm). pose proof (ia_range _ _ Ha).
  pose proof (abs_slot _ _ Hm) as Hs. unfold put_sets, put_event. cbn [io_events io_initialized].
  apply abs_update; try done; try lia.
  - by rewrite length_insert.
  - by rewrite list_lookup_insert_eq.
  - intros i e Hi Hne. rewrite list_lookup_insert_ne in Hi by done. by left.
  - intros i e Hi Hne. by rewrite list_lookup_insert_ne.
Qed.

Lemma abs_reader fd x : m !! fd = Some x -> (fd ∈ io_readers io <-> has_bit x.2 IO_WANTREAD = true).
Proof using Ha.
  intros Hm. rewrite (ia_readers _ _ Ha). unfold waits_for. rewrite Hm. destruct x as [cb what].
  split; [by intros (? & ? & [= <- <-] & ?)|intros ?; by exists cb, what].
Qed.

Lemma abs_writer fd x : m !! fd = Some x -> (fd ∈ io_writers io <-> has_bit x.2 IO_WANTWRITE = true).
Proof using Ha.
  intros Hm. rewrite (ia_writers _ _ Ha). unfold waits_for. rewrite Hm. destruct x as [cb what].
  split; [by intros (? & ? & [= <- <-] & ?)|intros ?; by exists cb, what].
Qed.

(** *** Changing the events of a descriptor *)

Lemma add_ok fd x what :
  m !! fd = Some x -> some_events what ->
  exists io', io_event_add fd what io = Some (true, io') /\ io_abs io' (<[fd := (x.1, Z.lor x.2 what)]> m).
Proof using Ha.
  destruct x as [cb old]. cbn [fst snd]. intros Hm Hw. pose proof (abs_pos _ _ Hm) as H0.
  destruct (add_bits old what (ia_bits _ _ Ha _ _ _ Hm) Hw) as (Hn & Hbit & Hsame).
  unfold io_event_add. rewrite (abs_get _ _ _ Hm). cbn [ev_what ev_callback].
  unfold io_fd_valid. rewrite (proj2 (Z.leb_le _ _) H0). cbn [negb].
  destruct (Z.land old what =? what) eqn:Ed.
  { exists io. split; [done|]. rewrite Hsame by done. by rewrite insert_id. }
  eexists. split; [reflexivity|]. cbn [put_event io_readers io_writers io_select_maxfd].
  pose proof (ia_max _ _ Ha _ _ Hm) as Hmax. rewrite (proj2 (Z.ltb_ge _ _)) by done.
  apply abs_put with (x := (cb, old)); [done|by right| | |done]; intros f.
  - rewrite (Hbit IO_WANTREAD) by tauto. pose proof (abs_reader fd _ Hm) as Hrd. cbn [snd] in Hrd.
    destruct (has_bit what IO_WANTREAD), (decide (f = fd)) as [->|]; rewrite ?orb_true_r, ?orb_false_r; set_solver.
  - rewrite (Hbit IO_WANTWRITE) by tauto. pose proof (abs_writer fd _ Hm) as Hwr. cbn [snd] in Hwr.
    destruct (has_bit what IO_WANTWRITE), (decide (f = fd)) as [->|]; rewrite ?orb_true_r, ?orb_false_r; set_solver.
Qed.

Lemma del_ok fd x what :
  m !! fd = Some x -> some_events what ->
  exists io', io_event_del fd what io = Some (true, io') /\
    io_abs io' (<[fd := (x.1, Z.land x.2 (Z.lnot what))]> m).
Proof using Ha.
  destruct x as [cb old]. cbn [fst snd]. intros Hm Hw.
  destruct (del_bits old what (ia_bits _ _ Ha _ _ _ Hm) Hw) as (Hn & Hbit & Hsame).
  unfold io_event_del. rewrite (abs_get _ _ _ Hm). cbn [ev_what ev_callback].
  destruct (has_bit old what) eqn:Eb; cbn [negb].
  2: { exists io. split; [done|]. rewrite Hsame by done. by rewrite insert_id. }
  eexists. split; [reflexivity|]. cbn [put_event io_readers io_writers io_select_maxfd].
  apply abs_put with (x := (cb, old)); [done|done| | |done]; intros f.
  - rewrite (Hbit IO_WANTREAD) by tauto. pose proof (abs_reader fd _ Hm) as Hrd. cbn [snd] in Hrd.
    destruct (has_bit what IO_WANTREAD), (decide (f = fd)) as [->|];
      rewrite ?andb_true_r, ?andb_false_r; set_solver.
  - rewrite (Hbit IO_WANTWRITE) by tauto. pose proof (abs_writer fd _ Hm) as Hwr. cbn [snd] in Hwr.
    destruct (has_bit what IO_WANTWRITE), (decide (f = fd)) as [->|];
      rewrite ?andb_true_r, ?andb_false_r; set_solver.
Qed.

Lemma setcb_ok fd x cb :
  m !! fd = Some x ->
  exists io', io_event_setcb fd cb io = Some (true, io') /\ io_abs io' (<[fd := (cb, x.2)]> m).
Proof using Ha.
  destruct x as [old what]. intros Hm. unfold io_event_setcb. rewrite (abs_get _ _ _ Hm). eexists.
  split; [reflexivity|]. cbn [snd ev_what].
  replace (put_event fd (IoEvent (Some cb) what) io) with
    (put_sets (io_readers io) (io_writers io) (io_select_maxfd io) (put_event fd (IoEvent (Some cb) what) io))
    by by destruct io.
  apply abs_put with (x := (old, what)); [done|by eapply (ia_bits _ _ Ha)| | |done]; intros f;
    case_decide as Hf; [subst f|done|subst f|done];
    [apply (abs_reader _ _ Hm)|apply (abs_writer _ _ Hm)].
Qed.

End abs.

(** *** New descriptors *)

Lemma no_event_padding (l : list io_event) k i e :
  (l ++ replicate k no_event) !! i = Some e -> l !! i = Some e \/ e = no_event.
Proof.
  intros Hi. apply lookup_app_Some in Hi as [Hi|[_ Hi]]; [by left|].
  right. by apply lookup_replicate in Hi as [-> _].
Qed.

Lemma create_ok io m fd what cb :
  io_abs io m -> m !! fd = None -> 0 <= fd < FD_SETSIZE -> some_events what ->
  exists io', io_event_create fd what cb io = Some (true, io') /\ io_abs io' (<[fd := (cb, what)]> m).
Proof.
  intros Ha Hm Hfd Hw. unfold io_event_create, io_fd_valid.
  rewrite (proj2 (Z.ltb_ge _ _)), (proj2 (Z.leb_le _ _)), (proj2 (Z.leb_gt _ _)) by lia. cbn [negb].
  set (events := io_events io ++ replicate (S (Z.to_nat fd) - length (io_events io)) no_event).
  assert (Z.to_nat fd < length events)%nat as Hlt.
  { unfold events. rewrite length_app, length_replicate. lia. }
  unfold backend_create_ev, io_event_add, io_event_get. cbn [put_event alloc_event io_events].
  rewrite (proj2 (Z.ltb_ge _ _)) by lia. fold events. rewrite list_lookup_insert_eq by done.
  cbn [ev_what ev_callback]. unfold io_fd_valid. rewrite (proj2 (Z.leb_le _ _)) by lia. cbn [negb].
  assert (Z.land 0 what =? what = false) as -> by (destruct Hw as [->|[->| ->]]; done).
  change (Z.lor 0 what) with what. eexists. split; [reflexivity|]. unfold put_event, put_sets.
  cbn [io_events io_readers io_writers io_select_maxfd io_initialized alloc_event].
  fold events. rewrite !list_insert_insert_eq.
  assert (forall bit, ~ waits_for m bit fd) as Hno by (intros bit (? & ? & H & _); congruence).
  assert (fd ∉ io_readers io) as Hr by (rewrite (ia_readers _ _ Ha); apply Hno).
  assert (fd ∉ io_writers io) as Hwr by (rewrite (ia_writers _ _ Ha); apply Hno).
  apply abs_update; try done; try by right.
  - rewrite length_insert. unfold events. rewrite length_app. lia.
  - by rewrite list_lookup_insert_eq.
  - intros i e Hi Hne. rewrite list_lookup_insert_ne in Hi by done. by eapply no_event_padding.
  - intros i e Hi Hne. rewrite list_lookup_insert_ne by done. by apply lookup_app_l_Some.
  - intros f. destruct (has_bit what IO_WANTREAD), (decide (f = fd)) as [->|]; set_solver.
  - intros f. destruct (has_bit what IO_WANTWRITE), (decide (f = fd)) as [->|]; set_solver.
  - pose proof (ia_range _ _ Ha). destruct (Z.ltb_spec (io_select_maxfd io) fd); lia.
  - destruct (Z.ltb_spec (io_select_maxfd io) fd); lia.
  - destruct (Z.ltb_spec (io_select_maxfd io) fd); tauto.
Qed.

Lemma create_length fd what cb io b io' :
  io_event_create fd what cb io = Some (b, io') -> (length (io_events io) <= length (io_events io'))%nat.
Proof.
  unfold io_event_create. destruct (_ <? _); [done|]. destruct (negb _); [by intros [= _ <-]|].
  destruct (_ <=? _); [by intros [= _ <-]|]. destruct (backend_create_ev _ _ _) as [[r io1]|] eqn:E; [|done].
  assert (length (io_events io) <= length (io_events io1))%nat as Hlen.
  { unfold backend_create_ev, io_event_add in E. destruct (io_event_get _ _); [|done].
    destruct (negb _); [injection E as _ <-|destruct (_ =? _); injection E as _ <-];
      cbn; rewrite ?length_insert, length_app; lia. }
  intros [= _ <-]. destruct r; [|done]. cbn. by rewrite length_insert.
Qed.

(** *** Closing *)

(** The search for the largest descriptor finds it. *)
Lemma find_largest_ok io n :
  (n <= length (io_events io))%nat ->
  exists r, find_largest n io = Some r /\ 0 <= r /\ (r = 0 \/ r < Z.of_nat n) /\
    forall i e, (i < n)%nat -> io_events io !! i = Some e -> is_Some (ev_callback e) -> Z.of_nat i <= r.
Proof.
  induction n as [|n IH]; intros Hn.
  { exists 0. cbn. split_and!; [done|lia|by left|lia]. }
  destruct IH as (r & Hr & H0 & Hlt & Hmax); [lia|]. cbn [find_largest].
  unfold io_event_get. rewrite (proj2 (Z.ltb_ge _ _)) by lia. rewrite Nat2Z.id.
  destruct (lookup_lt_is_Some_2 (io_events io) n) as [e He]; [lia|]. rewrite He.
  destruct (ev_callback e) as [cb|] eqn:Ec.
  - exists (Z.of_nat n). split_and!; [done|lia|right; lia|]. intros i e' Hi _ _. lia.
  - exists r. split_and!; [done|done|lia|]. intros i e' Hi He' Hcb.
    destruct (decide (i = n)) as [->|Hne]; [|by apply (Hmax i e'); [lia|..]].
    rewrite He in He'. injection He' as <-. rewrite Ec in Hcb. by destruct Hcb.
Qed.

Lemma close_select_ok io m fd x :
  io_abs io m -> m !! fd = Some x ->
  exists maxfd, io_close_select fd io = Some (put_sets (io_readers io ∖ {[fd]}) (io_writers io ∖ {[fd]}) maxfd io) /\
    0 <= maxfd <= io_select_maxfd io /\ (maxfd = 0 \/ maxfd < Z.of_nat (length (io_events io))) /\
    forall f y, m !! f = Some y -> f <> fd -> f <= maxfd.
Proof.
  destruct x as [cb what]. intros Ha Hm. pose proof (abs_pos _ _ Ha _ _ Hm) as H0.
  pose proof (ia_max _ _ Ha _ _ Hm) as Hle. pose proof (abs_slot _ _ Ha _ _ Hm) as Hslot. pose proof (ia_range _ _ Ha).
  unfold io_close_select, io_fd_valid. rewrite (proj2 (Z.leb_le _ _)) by done. cbn [negb].
  unfold put_sets. cbn [io_events io_readers io_writers io_select_maxfd io_initialized].
  set (io1 := MkIO (io_events io) (io_readers io ∖ {[fd]}) (io_writers io ∖ {[fd]}) (io_select_maxfd io) (io_initialized io)).
  assert (io_event_get fd io1 = Some (IoEvent (Some cb) what)) as -> by apply (abs_get _ _ Ha _ _ _ Hm).
  destruct (Z.eqb_spec fd (io_select_maxfd io)) as [->|Hne].
  2: { exists (io_select_maxfd io). split_and!; [done|lia..|apply (ia_length _ _ Ha)|].
       intros f y Hf _. by apply (ia_max _ _ Ha) in Hf. }
  destruct (Z.ltb_spec 0 (io_select_maxfd io)) as [Hpos|Hz].
  - destruct (find_largest_ok io1 (Z.to_nat (io_select_maxfd io))) as (r & -> & Hr0 & Hr & Hrmax);
      [cbn [io1 io_events]; lia|].
    exists r. split_and!; [done|lia..|]. intros f [cb' what'] Hf Hne.
    pose proof (ia_max _ _ Ha _ _ Hf). apply (ia_map _ _ Ha) in Hf as [Hf0 Hf].
    specialize (Hrmax (Z.to_nat f) _ ltac:(lia) Hf). cbn in Hrmax.
    rewrite Z2Nat.id in Hrmax by done. apply Hrmax. by eexists.
  - exists (io_select_maxfd io). split_and!; [done|lia..|].
    intros f y Hf Hne. pose proof (ia_max _ _ Ha _ _ Hf). pose proof (abs_pos _ _ Ha _ _ Hf). lia.
Qed.

Lemma close_ok io m fd :
  io_abs io m -> is_Some (m !! fd) ->
  exists io', io_close fd io = Some io' /\ io_abs io' (delete fd m).
Proof.
  intros Ha [[cb what] Hm]. pose proof (abs_slot _ _ Ha _ _ Hm) as Hslot. pose proof (ia_range _ _ Ha).
  pose proof (abs_pos _ _ Ha _ _ Hm) as H0. unfold io_close. rewrite (abs_get _ _ Ha _ _ _ Hm).
  destruct (close_select_ok io m fd _ Ha Hm) as (maxfd & -> & Hmax & Hl & Hb).
  cbn [fmap option_fmap option_map]. eexists. split; [reflexivity|].
  assert (forall bit f, waits_for (delete fd m) bit f <-> f <> fd /\ waits_for m bit f) as Hwait.
  { intros bit f. unfold waits_for. destruct (decide (f = fd)) as [->|Hne].
    - rewrite lookup_delete_eq. split; [by intros (? & ? & ? & _)|tauto].
    - rewrite lookup_delete_ne by done. tauto. }
  split; unfold put_event, put_sets; cbn [io_events io_readers io_writers io_select_maxfd].
  - intros f cb' what'. rewrite lookup_delete_Some, (ia_map _ _ Ha). destruct (decide (f = fd)) as [->|Hne].
    + rewrite list_lookup_insert_eq by done. split; [tauto|by intros [_ [=]]].
    + split; intros.
      * rewrite list_lookup_insert_ne by lia. tauto.
      * split; [done|]. destruct H. rewrite list_lookup_insert_ne in H1 by lia. done.
  - intros i e Hi Hc. destruct (decide (i = Z.to_nat fd)) as [->|Hne].
    + rewrite list_lookup_insert_eq in Hi by done. by injection Hi as <-.
    + rewrite list_lookup_insert_ne in Hi by done. by eapply (ia_free _ _ Ha).
  - intros f cb' what' Hf. apply lookup_delete_Some in Hf as [_ Hf]. by eapply (ia_bits _ _ Ha).
  - intros f. rewrite Hwait, <- (ia_readers _ _ Ha). set_solver.
  - intros f. rewrite Hwait, <- (ia_writers _ _ Ha). set_solver.
  - intros f x Hf. apply lookup_delete_Some in Hf as [Hne Hf]. by eapply Hb.
  - lia.
  - by rewrite length_insert.
Qed.

(** ** The beginning *)

Lemma nothing_registered n b : io_abs (MkIO (replicate n no_event) ∅ ∅ 0 b) ∅.
Proof.
  assert (forall bit fd, ~ waits_for ∅ bit fd) as Hno by (intros bit fd (cb & what & H & _); by rewrite lookup_empty in H).
  split; cbn [io_events io_readers io_writers io_select_maxfd].
  - intros fd cb what. rewrite lookup_empty. split; [done|]. by intros [_ [E _]%lookup_replicate].
  - by intros i e [-> _]%lookup_replicate.
  - intros fd cb what. by rewrite lookup_empty.
  - intros fd. split; [set_solver|]. by intros H%Hno.
  - intros fd. split; [set_solver|]. by intros H%Hno.
  - intros fd x. by rewrite lookup_empty.
  - unfold FD_SETSIZE. lia.
  - by left.
Qed.

(** ** Refinement *)

Lemma alter_at (f : callback * Z -> callback * Z) (m : registry) fd x :
  m !! fd = Some x -> alter f fd m = <[fd := f x]> m.
Proof.
  intros Hx. apply map_eq. intros i. destruct (decide (i = fd)) as [->|Hne].
  - by rewrite lookup_alter_eq, lookup_insert_eq, Hx.
  - by rewrite lookup_alter_ne, lookup_insert_ne.
Qed.

(** C4: the registered descriptors.  The state of the I/O module represents a map
    from descriptors to callbacks and events.  Used as the program uses it, creating
    an event for an unregistered descriptor below FD_SETSIZE, and adding events, removing events,
    changing the callback or closing for a registered one, the module never fails an assertion and acts
    on the map; the sets for select(2) hold exactly the descriptors that wait, and its
    bound is not below any of them and below FD_SETSIZE. *)
Theorem io_refines io m c :
  io_abs io m -> allowed c m ->
  exists io', run_cmd c io = Some io' /\ io_abs io' (spec_cmd c m) /\
    (forall fd, fd ∈ io_readers io' <-> waits_for (spec_cmd c m) IO_WANTREAD fd) /\
    (forall fd, fd ∈ io_writers io' <-> waits_for (spec_cmd c m) IO_WANTWRITE fd) /\
    (forall fd, fd ∈ io_readers io' ∪ io_writers io' -> 0 <= fd <= io_select_maxfd io' /\ io_select_maxfd io' < FD_SETSIZE).
Proof.
  intros Ha Hc.
  assert (exists io', run_cmd c io = Some io' /\ io_abs io' (spec_cmd c m)) as (io' & Hrun & Ha').
  { destruct c as [fd what cb|fd what|fd what|fd cb|fd]; cbn [run_cmd spec_cmd allowed] in *.
    - destruct Hc as (H1 & H2 & H3). destruct (create_ok io m fd what cb Ha H1 H2 H3) as (io' & -> & ?). by exists io'.
    - destruct Hc as [[x Hx] Hw]. destruct (add_ok io m Ha fd x what Hx Hw) as (io' & -> & ?).
      exists io'. split; [done|]. by rewrite (alter_at _ _ _ x).
    - destruct Hc as [[x Hx] Hw]. destruct (del_ok io m Ha fd x what Hx Hw) as (io' & -> & ?).
      exists io'. split; [done|]. by rewrite (alter_at _ _ _ x).
    - destruct Hc as [x Hx]. destruct (setcb_ok io m Ha fd x cb Hx) as (io' & -> & ?).
      exists io'. split; [done|]. by rewrite (alter_at _ _ _ x).
    - by apply close_ok. }
  exists io'. split_and!; [done..|apply Ha'|apply Ha'|]. intros fd Hfd.
  assert (exists x, spec_cmd c m !! fd = Some x) as [x Hx].
  { apply elem_of_union in Hfd as [Hfd|Hfd]; [apply (ia_readers _ _ Ha') in Hfd|apply (ia_writers _ _ Ha') in Hfd];
      destruct Hfd as (cb & what & Hx & _); by eexists. }
  pose proof (abs_pos _ _ Ha' _ _ Hx). pose proof (ia_max _ _ Ha' _ _ Hx). pose proof (ia_range _ _ Ha'). lia.
Qed.
