(* ===== verification/World.v ===== *)
(** * The state of the server and the command monad

    The data of the server: clients (client.h), channels and memberships
    (channel.h), connections (conn.h), the configured servers (conf.h), and the
    monad in which the operations on them are written.

    A pointer to a client or channel is an address; NULL is [None].  Freed
    addresses are not used again, so that following a dangling pointer is seen
    as the fault [UseAfterFree].  Linked lists are lists of addresses, first
    element first; a pointer to a membership (CL2CHAN) is the part of the list
    that starts at it.  Memory is always available to malloc and strdup.

    An operation that the C program would not survive ends in [Crash] with the
    reason: a failed assertion, a NULL or dangling pointer, or an index out of
    bounds. *)

From S2P Require Import Prelude CString Match Hash Checks Lists Ipaddr Io.

(** ** Configuration (conf.h)

    The settings that the modelled code reads; [Conf_Helptext] and [Conf_Motd] as
    the lists of their lines, and the names that the build configuration and the
    compiler define ([__DATE__] and [__TIME__]); [strftime_local] is
    [strftime(..., localtime(&t))], which depends on the time zone. *)

Definition ptr := option nat.

Notation NULL := (@None nat) (only parsing).

Definition NONE : Z := -1.

(** A channel of the configuration file. *)
Record CONF_CHANNEL := ConfChannel {
  cc_name : string;
  cc_modes_lines : list string;
  cc_key : string;
  cc_topic : string;
  cc_keyfile : string;
  cc_autojoin : bool;
  cc_maxusers : Z }.

(** An operator of the configuration file. *)
Record CONF_OPER := ConfOper {
  co_name : string;
  co_pwd : string;
  co_mask : option string }.

Class Conf := {
  Conf_ServerName : string;
  Conf_ServerInfo : string;
  Conf_MaxNickLength : nat;
  Conf_MorePrivacy : bool;
  Conf_OperCanMode : bool;
  Conf_CloakHost : string;
  Conf_CloakHostModeX : string;
  Conf_CloakHostSalt : string;
  Conf_CloakUserToNick : bool;
  Conf_MaxPenaltyTime : Z;
  Conf_ConnectRetry : Z;
  Conf_MaxJoins : Z;
  Conf_OperServerMode : bool;
  Conf_AllowedChannelTypes : string;
  NGIRCd_Passive : bool;
  Conf_ScrubCTCP : bool;
  Conf_AllowRemoteOper : bool;
  Conf_Helptext : list string;
  PACKAGE_NAME : string;
  PACKAGE_VERSION : string;
  NGIRCd_DebugLevel : string;
  NGIRCd_ProtoID : string;
  Conf_PingTimeout : Z;
  Conf_PongTimeout : Z;
  Conf_DNS : bool;
  Conf_NoticeBeforeRegistration : bool;
  Conf_ServerAdmin1 : string;
  Conf_ServerAdmin2 : string;
  Conf_ServerAdminMail : string;
  Conf_Motd : list string;
  Conf_Network : string;
  Conf_MaxListSize : Z;
  Conf_OperChanPAutoOp : bool;
  Conf_DefaultChannelModes : string;
  NGIRCd_Version : string;
  NGIRCd_VersionAddition : string;
  NGIRCd_Start : Z;
  NGIRCd_StartStr : string;
  BUILD_DATE : string;
  BUILD_TIME : string;
  strftime_local : string -> Z -> string;
  Conf_AuthPing : bool;
  Conf_ServerPwd : string;
  Conf_DefaultUserModes : string;
  Conf_WebircPwd : string;
  Conf_Channels : list CONF_CHANNEL;
  Conf_Opers : list CONF_OPER;
  HOST_CPU : string;
  HOST_VENDOR : string;
  HOST_OS : string;
  Conf_MaxConnections : Z;
  Conf_MaxConnectionsIP : Z;
  Conf_IdleTimeout : Z;
  Conf_ListenAddress : option string;
  Conf_ListenPorts : list Z;
  getnameinfo : ng_ipaddr_t -> nat -> option string }.

(** ** Data *)

(** A client: a user, a service, a server or a connection that has not registered yet. *)
Record CLIENT := Client {
  cl_starttime : Z;
  cl_id : string;
  cl_hash : Z;
  cl_type : Z;
  cl_conn_id : Z;
  cl_introducer : ptr;
  cl_topserver : ptr;
  cl_host : string;
  cl_cloaked : option string;
  cl_ipa_text : option string;
  cl_user : string;
  cl_info : string;
  cl_modes : string;
  cl_hops : Z;
  cl_token : Z;
  cl_mytoken : Z;
  cl_away : option string;
  cl_flags : string;
  cl_account_name : option string;
  cl_capabilities : Z }.

Definition set_cl_starttime (v : Z) (x : CLIENT) : CLIENT :=
  Client v (cl_id x) (cl_hash x) (cl_type x) (cl_conn_id x) (cl_introducer x) (cl_topserver x)
    (cl_host x) (cl_cloaked x) (cl_ipa_text x) (cl_user x) (cl_info x) (cl_modes x) (cl_hops x)
    (cl_token x) (cl_mytoken x) (cl_away x) (cl_flags x) (cl_account_name x) (cl_capabilities
    x).
Definition set_cl_id (v : string) (x : CLIENT) : CLIENT :=
  Client (cl_starttime x) v (cl_hash x) (cl_type x) (cl_conn_id x) (cl_introducer x)
    (cl_topserver x) (cl_host x) (cl_cloaked x) (cl_ipa_text x) (cl_user x) (cl_info x)
    (cl_modes x) (cl_hops x) (cl_token x) (cl_mytoken x) (cl_away x) (cl_flags x)
    (cl_account_name x) (cl_capabilities x).
Definition set_cl_hash (v : Z) (x : CLIENT) : CLIENT :=
  Client (cl_starttime x) (cl_id x) v (cl_type x) (cl_conn_id x) (cl_introducer x)
    (cl_topserver x) (cl_host x) (cl_cloaked x) (cl_ipa_text x) (cl_user x) (cl_info x)
    (cl_modes x) (cl_hops x) (cl_token x) (cl_mytoken x) (cl_away x) (cl_flags x)
    (cl_account_name x) (cl_capabilities x).
Definition set_cl_type (v : Z) (x : CLIENT) : CLIENT :=
  Client (cl_starttime x) (cl_id x) (cl_hash x) v (cl_conn_id x) (cl_introducer x)
    (cl_topserver x) (cl_host x) (cl_cloaked x) (cl_ipa_text x) (cl_user x) (cl_info x)
    (cl_modes x) (cl_hops x) (cl_token x) (cl_mytoken x) (cl_away x) (cl_flags x)
    (cl_account_name x) (cl_capabilities x).
Definition set_cl_conn_id (v : Z) (x : CLIENT) : CLIENT :=
  Client (cl_starttime x) (cl_id x) (cl_hash x) (cl_type x) v (cl_introducer x) (cl_topserver
    x) (cl_host x) (cl_cloaked x) (cl_ipa_text x) (cl_user x) (cl_info x) (cl_modes x) (cl_hops
    x) (cl_token x) (cl_mytoken x) (cl_away x) (cl_flags x) (cl_account_name x)
    (cl_capabilities x).
Definition set_cl_introducer (v : ptr) (x : CLIENT) : CLIENT :=
  Client (cl_starttime x) (cl_id x) (cl_hash x) (cl_type x) (cl_conn_id x) v (cl_topserver x)
    (cl_host x) (cl_cloaked x) (cl_ipa_text x) (cl_user x) (cl_info x) (cl_modes x) (cl_hops x)
    (cl_token x) (cl_mytoken x) (cl_away x) (cl_flags x) (cl_account_name x) (cl_capabilities
    x).
Definition set_cl_topserver (v : ptr) (x : CLIENT) : CLIENT :=
  Client (cl_starttime x) (cl_id x) (cl_hash x) (cl_type x) (cl_conn_id x) (cl_introducer x) v
    (cl_host x) (cl_cloaked x) (cl_ipa_text x) (cl_user x) (cl_info x) (cl_modes x) (cl_hops x)
    (cl_token x) (cl_mytoken x) (cl_away x) (cl_flags x) (cl_account_name x) (cl_capabilities
    x).
Definition set_cl_host (v : string) (x : CLIENT) : CLIENT :=
  Client (cl_starttime x) (cl_id x) (cl_hash x) (cl_type x) (cl_conn_id x) (cl_introducer x)
    (cl_topserver x) v (cl_cloaked x) (cl_ipa_text x) (cl_user x) (cl_info x) (cl_modes x)
    (cl_hops x) (cl_token x) (cl_mytoken x) (cl_away x) (cl_flags x) (cl_account_name x)
    (cl_capabilities x).
Definition set_cl_cloaked (v : option string) (x : CLIENT) : CLIENT :=
  Client (cl_starttime x) (cl_id x) (cl_hash x) (cl_type x) (cl_conn_id x) (cl_introducer x)
    (cl_topserver x) (cl_host x) v (cl_ipa_text x) (cl_user x) (cl_info x) (cl_modes x)
    (cl_hops x) (cl_token x) (cl_mytoken x) (cl_away x) (cl_flags x) (cl_account_name x)
    (cl_capabilities x).
Definition set_cl_ipa_text (v : option string) (x : CLIENT) : CLIENT :=
  Client (cl_starttime x) (cl_id x) (cl_hash x) (cl_type x) (cl_conn_id x) (cl_introducer x)
    (cl_topserver x) (cl_host x) (cl_cloaked x) v (cl_user x) (cl_info x) (cl_modes x) (cl_hops
    x) (cl_token x) (cl_mytoken x) (cl_away x) (cl_flags x) (cl_account_name x)
    (cl_capabilities x).
Definition set_cl_user (v : string) (x : CLIENT) : CLIENT :=
  Client (cl_starttime x) (cl_id x) (cl_hash x) (cl_type x) (cl_conn_id x) (cl_introducer x)
    (cl_topserver x) (cl_host x) (cl_cloaked x) (cl_ipa_text x) v (cl_info x) (cl_modes x)
    (cl_hops x) (cl_token x) (cl_mytoken x) (cl_away x) (cl_flags x) (cl_account_name x)
    (cl_capabilities x).
Definition set_cl_info (v : string) (x : CLIENT) : CLIENT :=
  Client (cl_starttime x) (cl_id x) (cl_hash x) (cl_type x) (cl_conn_id x) (cl_introducer x)
    (cl_topserver x) (cl_host x) (cl_cloaked x) (cl_ipa_text x) (cl_user x) v (cl_modes x)
    (cl_hops x) (cl_token x) (cl_mytoken x) (cl_away x) (cl_flags x) (cl_account_name x)
    (cl_capabilities x).
Definition set_cl_modes (v : string) (x : CLIENT) : CLIENT :=
  Client (cl_starttime x) (cl_id x) (cl_hash x) (cl_type x) (cl_conn_id x) (cl_introducer x)
    (cl_topserver x) (cl_host x) (cl_cloaked x) (cl_ipa_text x) (cl_user x) (cl_info x) v
    (cl_hops x) (cl_token x) (cl_mytoken x) (cl_away x) (cl_flags x) (cl_account_name x)
    (cl_capabilities x).
Definition set_cl_hops (v : Z) (x : CLIENT) : CLIENT :=
  Client (cl_starttime x) (cl_id x) (cl_hash x) (cl_type x) (cl_conn_id x) (cl_introducer x)
    (cl_topserver x) (cl_host x) (cl_cloaked x) (cl_ipa_text x) (cl_user x) (cl_info x)
    (cl_modes x) v (cl_token x) (cl_mytoken x) (cl_away x) (cl_flags x) (cl_account_name x)
    (cl_capabilities x).
Definition set_cl_token (v : Z) (x : CLIENT) : CLIENT :=
  Client (cl_starttime x) (cl_id x) (cl_hash x) (cl_type x) (cl_conn_id x) (cl_introducer x)
    (cl_topserver x) (cl_host x) (cl_cloaked x) (cl_ipa_text x) (cl_user x) (cl_info x)
    (cl_modes x) (cl_hops x) v (cl_mytoken x) (cl_away x) (cl_flags x) (cl_account_name x)
    (cl_capabilities x).
Definition set_cl_mytoken (v : Z) (x : CLIENT) : CLIENT :=
  Client (cl_starttime x) (cl_id x) (cl_hash x) (cl_type x) (cl_conn_id x) (cl_introducer x)
    (cl_topserver x) (cl_host x) (cl_cloaked x) (cl_ipa_text x) (cl_user x) (cl_info x)
    (cl_modes x) (cl_hops x) (cl_token x) v (cl_away x) (cl_flags x) (cl_account_name x)
    (cl_capabilities x).
Definition set_cl_away (v : option string) (x : CLIENT) : CLIENT :=
  Client (cl_starttime x) (cl_id x) (cl_hash x) (cl_type x) (cl_conn_id x) (cl_introducer x)
    (cl_topserver x) (cl_host x) (cl_cloaked x) (cl_ipa_text x) (cl_user x) (cl_info x)
    (cl_modes x) (cl_hops x) (cl_token x) (cl_mytoken x) v (cl_flags x) (cl_account_name x)
    (cl_capabilities x).
Definition set_cl_flags (v : string) (x : CLIENT) : CLIENT :=
  Client (cl_starttime x) (cl_id x) (cl_hash x) (cl_type x) (cl_conn_id x) (cl_introducer x)
    (cl_topserver x) (cl_host x) (cl_cloaked x) (cl_ipa_text x) (cl_user x) (cl_info x)
    (cl_modes x) (cl_hops x) (cl_token x) (cl_mytoken x) (cl_away x) v (cl_account_name x)
    (cl_capabilities x).
Definition set_cl_account_name (v : option string) (x : CLIENT) : CLIENT :=
  Client (cl_starttime x) (cl_id x) (cl_hash x) (cl_type x) (cl_conn_id x) (cl_introducer x)
    (cl_topserver x) (cl_host x) (cl_cloaked x) (cl_ipa_text x) (cl_user x) (cl_info x)
    (cl_modes x) (cl_hops x) (cl_token x) (cl_mytoken x) (cl_away x) (cl_flags x) v
    (cl_capabilities x).
Definition set_cl_capabilities (v : Z) (x : CLIENT) : CLIENT :=
  Client (cl_starttime x) (cl_id x) (cl_hash x) (cl_type x) (cl_conn_id x) (cl_introducer x)
    (cl_topserver x) (cl_host x) (cl_cloaked x) (cl_ipa_text x) (cl_user x) (cl_info x)
    (cl_modes x) (cl_hops x) (cl_token x) (cl_mytoken x) (cl_away x) (cl_flags x)
    (cl_account_name x) v.

(** A channel; [ch_topic] and [ch_keyfile] are the texts of their arrays, without
    the terminator, and [None] if nothing is allocated. *)
Record CHANNEL := Channel {
  ch_name : string;
  ch_hash : Z;
  ch_modes : string;
  ch_topic : option string;
  ch_creation_time : Z;
  ch_topic_time : Z;
  ch_topic_who : string;
  ch_key : string;
  ch_maxusers : Z;
  ch_bans : list list_elem;
  ch_excepts : list list_elem;
  ch_invites : list list_elem;
  ch_keyfile : option string }.

Definition set_ch_name (v : string) (x : CHANNEL) : CHANNEL :=
  Channel v (ch_hash x) (ch_modes x) (ch_topic x) (ch_creation_time x) (ch_topic_time x)
    (ch_topic_who x) (ch_key x) (ch_maxusers x) (ch_bans x) (ch_excepts x) (ch_invites x)
    (ch_keyfile x).
Definition set_ch_hash (v : Z) (x : CHANNEL) : CHANNEL :=
  Channel (ch_name x) v (ch_modes x) (ch_topic x) (ch_creation_time x) (ch_topic_time x)
    (ch_topic_who x) (ch_key x) (ch_maxusers x) (ch_bans x) (ch_excepts x) (ch_invites x)
    (ch_keyfile x).
Definition set_ch_modes (v : string) (x : CHANNEL) : CHANNEL :=
  Channel (ch_name x) (ch_hash x) v (ch_topic x) (ch_creation_time x) (ch_topic_time x)
    (ch_topic_who x) (ch_key x) (ch_maxusers x) (ch_bans x) (ch_excepts x) (ch_invites x)
    (ch_keyfile x).
Definition set_ch_topic (v : option string) (x : CHANNEL) : CHANNEL :=
  Channel (ch_name x) (ch_hash x) (ch_modes x) v (ch_creation_time x) (ch_topic_time x)
    (ch_topic_who x) (ch_key x) (ch_maxusers x) (ch_bans x) (ch_excepts x) (ch_invites x)
    (ch_keyfile x).
Definition set_ch_creation_time (v : Z) (x : CHANNEL) : CHANNEL :=
  Channel (ch_name x) (ch_hash x) (ch_modes x) (ch_topic x) v (ch_topic_time x) (ch_topic_who
    x) (ch_key x) (ch_maxusers x) (ch_bans x) (ch_excepts x) (ch_invites x) (ch_keyfile x).
Definition set_ch_topic_time (v : Z) (x : CHANNEL) : CHANNEL :=
  Channel (ch_name x) (ch_hash x) (ch_modes x) (ch_topic x) (ch_creation_time x) v
    (ch_topic_who x) (ch_key x) (ch_maxusers x) (ch_bans x) (ch_excepts x) (ch_invites x)
    (ch_keyfile x).
Definition set_ch_topic_who (v : string) (x : CHANNEL) : CHANNEL :=
  Channel (ch_name x) (ch_hash x) (ch_modes x) (ch_topic x) (ch_creation_time x) (ch_topic_time
    x) v (ch_key x) (ch_maxusers x) (ch_bans x) (ch_excepts x) (ch_invites x) (ch_keyfile x).
Definition set_ch_key (v : string) (x : CHANNEL) : CHANNEL :=
  Channel (ch_name x) (ch_hash x) (ch_modes x) (ch_topic x) (ch_creation_time x) (ch_topic_time
    x) (ch_topic_who x) v (ch_maxusers x) (ch_bans x) (ch_excepts x) (ch_invites x) (ch_keyfile
    x).
Definition set_ch_maxusers (v : Z) (x : CHANNEL) : CHANNEL :=
  Channel (ch_name x) (ch_hash x) (ch_modes x) (ch_topic x) (ch_creation_time x) (ch_topic_time
    x) (ch_topic_who x) (ch_key x) v (ch_bans x) (ch_excepts x) (ch_invites x) (ch_keyfile x).
Definition set_ch_bans (v : list list_elem) (x : CHANNEL) : CHANNEL :=
  Channel (ch_name x) (ch_hash x) (ch_modes x) (ch_topic x) (ch_creation_time x) (ch_topic_time
    x) (ch_topic_who x) (ch_key x) (ch_maxusers x) v (ch_excepts x) (ch_invites x) (ch_keyfile
    x).
Definition set_ch_excepts (v : list list_elem) (x : CHANNEL) : CHANNEL :=
  Channel (ch_name x) (ch_hash x) (ch_modes x) (ch_topic x) (ch_creation_time x) (ch_topic_time
    x) (ch_topic_who x) (ch_key x) (ch_maxusers x) (ch_bans x) v (ch_invites x) (ch_keyfile x).
Definition set_ch_invites (v : list list_elem) (x : CHANNEL) : CHANNEL :=
  Channel (ch_name x) (ch_hash x) (ch_modes x) (ch_topic x) (ch_creation_time x) (ch_topic_time
    x) (ch_topic_who x) (ch_key x) (ch_maxusers x) (ch_bans x) (ch_excepts x) v (ch_keyfile x).
Definition set_ch_keyfile (v : option string) (x : CHANNEL) : CHANNEL :=
  Channel (ch_name x) (ch_hash x) (ch_modes x) (ch_topic x) (ch_creation_time x) (ch_topic_time
    x) (ch_topic_who x) (ch_key x) (ch_maxusers x) (ch_bans x) (ch_excepts x) (ch_invites x) v.

(** Membership of a client in a channel. *)
Record CL2CHAN := Cl2Chan {
  cc_client : nat;
  cc_channel : nat;
  cc_modes : string }.

Definition set_cc_client (v : nat) (x : CL2CHAN) : CL2CHAN :=
  Cl2Chan v (cc_channel x) (cc_modes x).
Definition set_cc_channel (v : nat) (x : CL2CHAN) : CL2CHAN :=
  Cl2Chan (cc_client x) v (cc_modes x).
Definition set_cc_modes (v : string) (x : CL2CHAN) : CL2CHAN :=
  Cl2Chan (cc_client x) (cc_channel x) v.

(** An entry of the WHOWAS history. *)
Record WHOWAS := Whowas {
  ww_time : Z;
  ww_id : string;
  ww_host : string;
  ww_user : string;
  ww_info : string;
  ww_server : string }.

(** A connection.  [cn_wbuf] and [cn_rbuf] are the contents of its buffers (see
    [Array.content]); [cn_sent] is what send(2) has accepted so far. *)
Record CONNECTION := Connection {
  cn_sock : Z;
  cn_addr : ng_ipaddr_t;
  cn_proc_stat : PROC_STAT;
  cn_host : string;
  cn_pwd : option string;
  cn_rbuf : string;
  cn_wbuf : string;
  cn_signon : Z;
  cn_lastdata : Z;
  cn_lastping : Z;
  cn_lastprivmsg : Z;
  cn_delaytime : Z;
  cn_bytes_in : Z;
  cn_bytes_out : Z;
  cn_msg_in : Z;
  cn_msg_out : Z;
  cn_flag : Z;
  cn_options : Z;
  cn_bps : Z;
  cn_client : ptr;
  cn_auth_ping : Z;
  cn_sent : string }.

Definition set_cn_sock (v : Z) (x : CONNECTION) : CONNECTION :=
  Connection v (cn_addr x) (cn_proc_stat x) (cn_host x) (cn_pwd x) (cn_rbuf x) (cn_wbuf x)
    (cn_signon x) (cn_lastdata x) (cn_lastping x) (cn_lastprivmsg x) (cn_delaytime x)
    (cn_bytes_in x) (cn_bytes_out x) (cn_msg_in x) (cn_msg_out x) (cn_flag x) (cn_options x)
    (cn_bps x) (cn_client x) (cn_auth_ping x) (cn_sent x).
Definition set_cn_addr (v : ng_ipaddr_t) (x : CONNECTION) : CONNECTION :=
  Connection (cn_sock x) v (cn_proc_stat x) (cn_host x) (cn_pwd x) (cn_rbuf x) (cn_wbuf x)
    (cn_signon x) (cn_lastdata x) (cn_lastping x) (cn_lastprivmsg x) (cn_delaytime x)
    (cn_bytes_in x) (cn_bytes_out x) (cn_msg_in x) (cn_msg_out x) (cn_flag x) (cn_options x)
    (cn_bps x) (cn_client x) (cn_auth_ping x) (cn_sent x).
Definition set_cn_proc_stat (v : PROC_STAT) (x : CONNECTION) : CONNECTION :=
  Connection (cn_sock x) (cn_addr x) v (cn_host x) (cn_pwd x) (cn_rbuf x) (cn_wbuf x)
    (cn_signon x) (cn_lastdata x) (cn_lastping x) (cn_lastprivmsg x) (cn_delaytime x)
    (cn_bytes_in x) (cn_bytes_out x) (cn_msg_in x) (cn_msg_out x) (cn_flag x) (cn_options x)
    (cn_bps x) (cn_client x) (cn_auth_ping x) (cn_sent x).
Definition set_cn_host (v : string) (x : CONNECTION) : CONNECTION :=
  Connection (cn_sock x) (cn_addr x) (cn_proc_stat x) v (cn_pwd x) (cn_rbuf x) (cn_wbuf x)
    (cn_signon x) (cn_lastdata x) (cn_lastping x) (cn_lastprivmsg x) (cn_delaytime x)
    (cn_bytes_in x) (cn_bytes_out x) (cn_msg_in x) (cn_msg_out x) (cn_flag x) (cn_options x)
    (cn_bps x) (cn_client x) (cn_auth_ping x) (cn_sent x).
Definition set_cn_pwd (v : option string) (x : CONNECTION) : CONNECTION :=
  Connection (cn_sock x) (cn_addr x) (cn_proc_stat x) (cn_host x) v (cn_rbuf x) (cn_wbuf x)
    (cn_signon x) (cn_lastdata x) (cn_lastping x) (cn_lastprivmsg x) (cn_delaytime x)
    (cn_bytes_in x) (cn_bytes_out x) (cn_msg_in x) (cn_msg_out x) (cn_flag x) (cn_options x)
    (cn_bps x) (cn_client x) (cn_auth_ping x) (cn_sent x).
Definition set_cn_rbuf (v : string) (x : CONNECTION) : CONNECTION :=
  Connection (cn_sock x) (cn_addr x) (cn_proc_stat x) (cn_host x) (cn_pwd x) v (cn_wbuf x)
    (cn_signon x) (cn_lastdata x) (cn_lastping x) (cn_lastprivmsg x) (cn_delaytime x)
    (cn_bytes_in x) (cn_bytes_out x) (cn_msg_in x) (cn_msg_out x) (cn_flag x) (cn_options x)
    (cn_bps x) (cn_client x) (cn_auth_ping x) (cn_sent x).
Definition set_cn_wbuf (v : string) (x : CONNECTION) : CONNECTION :=
  Connection (cn_sock x) (cn_addr x) (cn_proc_stat x) (cn_host x) (cn_pwd x) (cn_rbuf x) v
    (cn_signon x) (cn_lastdata x) (cn_lastping x) (cn_lastprivmsg x) (cn_delaytime x)
    (cn_bytes_in x) (cn_bytes_out x) (cn_msg_in x) (cn_msg_out x) (cn_flag x) (cn_options x)
    (cn_bps x) (cn_client x) (cn_auth_ping x) (cn_sent x).
Definition set_cn_signon (v : Z) (x : CONNECTION) : CONNECTION :=
  Connection (cn_sock x) (cn_addr x) (cn_proc_stat x) (cn_host x) (cn_pwd x) (cn_rbuf x)
    (cn_wbuf x) v (cn_lastdata x) (cn_lastping x) (cn_lastprivmsg x) (cn_delaytime x)
    (cn_bytes_in x) (cn_bytes_out x) (cn_msg_in x) (cn_msg_out x) (cn_flag x) (cn_options x)
    (cn_bps x) (cn_client x) (cn_auth_ping x) (cn_sent x).
Definition set_cn_lastdata (v : Z) (x : CONNECTION) : CONNECTION :=
  Connection (cn_sock x) (cn_addr x) (cn_proc_stat x) (cn_host x) (cn_pwd x) (cn_rbuf x)
    (cn_wbuf x) (cn_signon x) v (cn_lastping x) (cn_lastprivmsg x) (cn_delaytime x)
    (cn_bytes_in x) (cn_bytes_out x) (cn_msg_in x) (cn_msg_out x) (cn_flag x) (cn_options x)
    (cn_bps x) (cn_client x) (cn_auth_ping x) (cn_sent x).
Definition set_cn_lastping (v : Z) (x : CONNECTION) : CONNECTION :=
  Connection (cn_sock x) (cn_addr x) (cn_proc_stat x) (cn_host x) (cn_pwd x) (cn_rbuf x)
    (cn_wbuf x) (cn_signon x) (cn_lastdata x) v (cn_lastprivmsg x) (cn_delaytime x)
    (cn_bytes_in x) (cn_bytes_out x) (cn_msg_in x) (cn_msg_out x) (cn_flag x) (cn_options x)
    (cn_bps x) (cn_client x) (cn_auth_ping x) (cn_sent x).
Definition set_cn_lastprivmsg (v : Z) (x : CONNECTION) : CONNECTION :=
  Connection (cn_sock x) (cn_addr x) (cn_proc_stat x) (cn_host x) (cn_pwd x) (cn_rbuf x)
    (cn_wbuf x) (cn_signon x) (cn_lastdata x) (cn_lastping x) v (cn_delaytime x)
    (cn_bytes_in x) (cn_bytes_out x) (cn_msg_in x) (cn_msg_out x) (cn_flag x) (cn_options x)
    (cn_bps x) (cn_client x) (cn_auth_ping x) (cn_sent x).
Definition set_cn_delaytime (v : Z) (x : CONNECTION) : CONNECTION :=
  Connection (cn_sock x) (cn_addr x) (cn_proc_stat x) (cn_host x) (cn_pwd x) (cn_rbuf x)
    (cn_wbuf x) (cn_signon x) (cn_lastdata x) (cn_lastping x) (cn_lastprivmsg x) v
    (cn_bytes_in x) (cn_bytes_out x) (cn_msg_in x) (cn_msg_out x) (cn_flag x) (cn_options x)
    (cn_bps x) (cn_client x) (cn_auth_ping x) (cn_sent x).
Definition set_cn_bytes_in (v : Z) (x : CONNECTION) : CONNECTION :=
  Connection (cn_sock x) (cn_addr x) (cn_proc_stat x) (cn_host x) (cn_pwd x) (cn_rbuf x)
    (cn_wbuf x) (cn_signon x) (cn_lastdata x) (cn_lastping x) (cn_lastprivmsg x)
    (cn_delaytime x) v (cn_bytes_out x) (cn_msg_in x) (cn_msg_out x) (cn_flag x) (cn_options
    x) (cn_bps x) (cn_client x) (cn_auth_ping x) (cn_sent x).
Definition set_cn_bytes_out (v : Z) (x : CONNECTION) : CONNECTION :=
  Connection (cn_sock x) (cn_addr x) (cn_proc_stat x) (cn_host x) (cn_pwd x) (cn_rbuf x)
    (cn_wbuf x) (cn_signon x) (cn_lastdata x) (cn_lastping x) (cn_lastprivmsg x)
    (cn_delaytime x) (cn_bytes_in x) v (cn_msg_in x) (cn_msg_out x) (cn_flag x) (cn_options
    x) (cn_bps x) (cn_client x) (cn_auth_ping x) (cn_sent x).
Definition set_cn_msg_in (v : Z) (x : CONNECTION) : CONNECTION :=
  Connection (cn_sock x) (cn_addr x) (cn_proc_stat x) (cn_host x) (cn_pwd x) (cn_rbuf x)
    (cn_wbuf x) (cn_signon x) (cn_lastdata x) (cn_lastping x) (cn_lastprivmsg x)
    (cn_delaytime x) (cn_bytes_in x) (cn_bytes_out x) v (cn_msg_out x) (cn_flag x)
    (cn_options x) (cn_bps x) (cn_client x) (cn_auth_ping x) (cn_sent x).
Definition set_cn_msg_out (v : Z) (x : CONNECTION) : CONNECTION :=
  Connection (cn_sock x) (cn_addr x) (cn_proc_stat x) (cn_host x) (cn_pwd x) (cn_rbuf x)
    (cn_wbuf x) (cn_signon x) (cn_lastdata x) (cn_lastping x) (cn_lastprivmsg x)
    (cn_delaytime x) (cn_bytes_in x) (cn_bytes_out x) (cn_msg_in x) v (cn_flag x)
    (cn_options x) (cn_bps x) (cn_client x) (cn_auth_ping x) (cn_sent x).
Definition set_cn_flag (v : Z) (x : CONNECTION) : CONNECTION :=
  Connection (cn_sock x) (cn_addr x) (cn_proc_stat x) (cn_host x) (cn_pwd x) (cn_rbuf x)
    (cn_wbuf x) (cn_signon x) (cn_lastdata x) (cn_lastping x) (cn_lastprivmsg x)
    (cn_delaytime x) (cn_bytes_in x) (cn_bytes_out x) (cn_msg_in x) (cn_msg_out x) v
    (cn_options x) (cn_bps x) (cn_client x) (cn_auth_ping x) (cn_sent x).
Definition set_cn_options (v : Z) (x : CONNECTION) : CONNECTION :=
  Connection (cn_sock x) (cn_addr x) (cn_proc_stat x) (cn_host x) (cn_pwd x) (cn_rbuf x)
    (cn_wbuf x) (cn_signon x) (cn_lastdata x) (cn_lastping x) (cn_lastprivmsg x)
    (cn_delaytime x) (cn_bytes_in x) (cn_bytes_out x) (cn_msg_in x) (cn_msg_out x) (cn_flag
    x) v (cn_bps x) (cn_client x) (cn_auth_ping x) (cn_sent x).
Definition set_cn_bps (v : Z) (x : CONNECTION) : CONNECTION :=
  Connection (cn_sock x) (cn_addr x) (cn_proc_stat x) (cn_host x) (cn_pwd x) (cn_rbuf x)
    (cn_wbuf x) (cn_signon x) (cn_lastdata x) (cn_lastping x) (cn_lastprivmsg x)
    (cn_delaytime x) (cn_bytes_in x) (cn_bytes_out x) (cn_msg_in x) (cn_msg_out x) (cn_flag
    x) (cn_options x) v (cn_client x) (cn_auth_ping x) (cn_sent x).
Definition set_cn_client (v : ptr) (x : CONNECTION) : CONNECTION :=
  Connection (cn_sock x) (cn_addr x) (cn_proc_stat x) (cn_host x) (cn_pwd x) (cn_rbuf x)
    (cn_wbuf x) (cn_signon x) (cn_lastdata x) (cn_lastping x) (cn_lastprivmsg x)
    (cn_delaytime x) (cn_bytes_in x) (cn_bytes_out x) (cn_msg_in x) (cn_msg_out x) (cn_flag
    x) (cn_options x) (cn_bps x) v (cn_auth_ping x) (cn_sent x).
Definition set_cn_auth_ping (v : Z) (x : CONNECTION) : CONNECTION :=
  Connection (cn_sock x) (cn_addr x) (cn_proc_stat x) (cn_host x) (cn_pwd x) (cn_rbuf x)
    (cn_wbuf x) (cn_signon x) (cn_lastdata x) (cn_lastping x) (cn_lastprivmsg x)
    (cn_delaytime x) (cn_bytes_in x) (cn_bytes_out x) (cn_msg_in x) (cn_msg_out x) (cn_flag
    x) (cn_options x) (cn_bps x) (cn_client x) v (cn_sent x).
Definition set_cn_sent (v : string) (x : CONNECTION) : CONNECTION :=
  Connection (cn_sock x) (cn_addr x) (cn_proc_stat x) (cn_host x) (cn_pwd x) (cn_rbuf x)
    (cn_wbuf x) (cn_signon x) (cn_lastdata x) (cn_lastping x) (cn_lastprivmsg x)
    (cn_delaytime x) (cn_bytes_in x) (cn_bytes_out x) (cn_msg_in x) (cn_msg_out x) (cn_flag
    x) (cn_options x) (cn_bps x) (cn_client x) (cn_auth_ping x) v.

(** A configured server link. *)
Record CONF_SERVER := ConfServer {
  sv_name : string;
  sv_group : Z;
  sv_lasttry : Z;
  sv_flags : Z;
  sv_conn_id : Z;
  sv_svs_mask : string;
  sv_host : string;
  sv_port : Z;
  sv_pwd_in : string;
  sv_pwd_out : string;
  sv_bind_addr : ng_ipaddr_t;
  sv_dst_addr : ng_ipaddr_t * ng_ipaddr_t;
  sv_res_stat : PROC_STAT }.

Definition set_sv_name (v : string) (x : CONF_SERVER) : CONF_SERVER :=
  ConfServer v (sv_group x) (sv_lasttry x) (sv_flags x) (sv_conn_id x) (sv_svs_mask x)
    (sv_host x) (sv_port x) (sv_pwd_in x) (sv_pwd_out x) (sv_bind_addr x) (sv_dst_addr x)
    (sv_res_stat x).
Definition set_sv_group (v : Z) (x : CONF_SERVER) : CONF_SERVER :=
  ConfServer (sv_name x) v (sv_lasttry x) (sv_flags x) (sv_conn_id x) (sv_svs_mask x)
    (sv_host x) (sv_port x) (sv_pwd_in x) (sv_pwd_out x) (sv_bind_addr x) (sv_dst_addr x)
    (sv_res_stat x).
Definition set_sv_lasttry (v : Z) (x : CONF_SERVER) : CONF_SERVER :=
  ConfServer (sv_name x) (sv_group x) v (sv_flags x) (sv_conn_id x) (sv_svs_mask x) (sv_host
    x) (sv_port x) (sv_pwd_in x) (sv_pwd_out x) (sv_bind_addr x) (sv_dst_addr x)
    (sv_res_stat x).
Definition set_sv_flags (v : Z) (x : CONF_SERVER) : CONF_SERVER :=
  ConfServer (sv_name x) (sv_group x) (sv_lasttry x) v (sv_conn_id x) (sv_svs_mask x)
    (sv_host x) (sv_port x) (sv_pwd_in x) (sv_pwd_out x) (sv_bind_addr x) (sv_dst_addr x)
    (sv_res_stat x).
Definition set_sv_conn_id (v : Z) (x : CONF_SERVER) : CONF_SERVER :=
  ConfServer (sv_name x) (sv_group x) (sv_lasttry x) (sv_flags x) v (sv_svs_mask x) (sv_host
    x) (sv_port x) (sv_pwd_in x) (sv_pwd_out x) (sv_bind_addr x) (sv_dst_addr x)
    (sv_res_stat x).
Definition set_sv_svs_mask (v : string) (x : CONF_SERVER) : CONF_SERVER :=
  ConfServer (sv_name x) (sv_group x) (sv_lasttry x) (sv_flags x) (sv_conn_id x) v (sv_host
    x) (sv_port x) (sv_pwd_in x) (sv_pwd_out x) (sv_bind_addr x) (sv_dst_addr x)
    (sv_res_stat x).
Definition set_sv_host (v : string) (x : CONF_SERVER) : CONF_SERVER :=
  ConfServer (sv_name x) (sv_group x) (sv_lasttry x) (sv_flags x) (sv_conn_id x)
    (sv_svs_mask x) v (sv_port x) (sv_pwd_in x) (sv_pwd_out x) (sv_bind_addr x) (sv_dst_addr
    x) (sv_res_stat x).
Definition set_sv_port (v : Z) (x : CONF_SERVER) : CONF_SERVER :=
  ConfServer (sv_name x) (sv_group x) (sv_lasttry x) (sv_flags x) (sv_conn_id x)
    (sv_svs_mask x) (sv_host x) v (sv_pwd_in x) (sv_pwd_out x) (sv_bind_addr x) (sv_dst_addr
    x) (sv_res_stat x).
Definition set_sv_pwd_in (v : string) (x : CONF_SERVER) : CONF_SERVER :=
  ConfServer (sv_name x) (sv_group x) (sv_lasttry x) (sv_flags x) (sv_conn_id x)
    (sv_svs_mask x) (sv_host x) (sv_port x) v (sv_pwd_out x) (sv_bind_addr x) (sv_dst_addr
    x) (sv_res_stat x).
Definition set_sv_pwd_out (v : string) (x : CONF_SERVER) : CONF_SERVER :=
  ConfServer (sv_name x) (sv_group x) (sv_lasttry x) (sv_flags x) (sv_conn_id x)
    (sv_svs_mask x) (sv_host x) (sv_port x) (sv_pwd_in x) v (sv_bind_addr x) (sv_dst_addr x)
    (sv_res_stat x).
Definition set_sv_bind_addr (v : ng_ipaddr_t) (x : CONF_SERVER) : CONF_SERVER :=
  ConfServer (sv_name x) (sv_group x) (sv_lasttry x) (sv_flags x) (sv_conn_id x)
    (sv_svs_mask x) (sv_host x) (sv_port x) (sv_pwd_in x) (sv_pwd_out x) v (sv_dst_addr x)
    (sv_res_stat x).
Definition set_sv_dst_addr (v : ng_ipaddr_t * ng_ipaddr_t) (x : CONF_SERVER) : CONF_SERVER :=
  ConfServer (sv_name x) (sv_group x) (sv_lasttry x) (sv_flags x) (sv_conn_id x)
    (sv_svs_mask x) (sv_host x) (sv_port x) (sv_pwd_in x) (sv_pwd_out x) (sv_bind_addr x) v
    (sv_res_stat x).
Definition set_sv_res_stat (v : PROC_STAT) (x : CONF_SERVER) : CONF_SERVER :=
  ConfServer (sv_name x) (sv_group x) (sv_lasttry x) (sv_flags x) (sv_conn_id x)
    (sv_svs_mask x) (sv_host x) (sv_port x) (sv_pwd_in x) (sv_pwd_out x) (sv_bind_addr x)
    (sv_dst_addr x) v.

(** An entry of the command table (parse.h); the function it points to is found by
    the name. *)
Record COMMAND := Command {
  cmd_name : string;
  cmd_type : Z;
  cmd_min_argc : Z;
  cmd_max_argc : Z;
  cmd_penalty : Z;
  cmd_lcount : Z;
  cmd_rcount : Z;
  cmd_bytes : Z }.

(** The static variables of client.c, channel.c, class.c, conf.c and parse.c, and the
    requests to the main loop: [t_SignalQuit] and [t_SignalRestart] are
    [NGIRCd_SignalQuit] and [NGIRCd_SignalRestart] (ngircd.h). *)
Record Tables := MkTables {
  t_clients : gmap nat CLIENT;
  t_My_Clients : list nat;
  t_This_Server : nat;
  t_channels : gmap nat CHANNEL;
  t_My_Channels : list nat;
  t_My_Cl2Chan : list CL2CHAN;
  t_fresh : nat;
  t_My_Whowas : list WHOWAS;
  t_Last_Whowas : Z;
  t_Max_Users : Z;
  t_My_Max_Users : Z;
  t_Conf_Server : list CONF_SERVER;
  t_My_Classes : list (list list_elem);
  t_now : Z;
  t_My_Commands : list COMMAND;
  t_SignalQuit : bool;
  t_SignalRestart : bool }.

Definition set_t_clients (v : gmap nat CLIENT) (x : Tables) : Tables :=
  MkTables v (t_My_Clients x) (t_This_Server x) (t_channels x) (t_My_Channels x)
    (t_My_Cl2Chan x) (t_fresh x) (t_My_Whowas x) (t_Last_Whowas x) (t_Max_Users x)
    (t_My_Max_Users x) (t_Conf_Server x) (t_My_Classes x) (t_now x) (t_My_Commands x)
    (t_SignalQuit x) (t_SignalRestart x).
Definition set_t_My_Clients (v : list nat) (x : Tables) : Tables :=
  MkTables (t_clients x) v (t_This_Server x) (t_channels x) (t_My_Channels x) (t_My_Cl2Chan
    x) (t_fresh x) (t_My_Whowas x) (t_Last_Whowas x) (t_Max_Users x) (t_My_Max_Users x)
    (t_Conf_Server x) (t_My_Classes x) (t_now x) (t_My_Commands x) (t_SignalQuit x)
    (t_SignalRestart x).
Definition set_t_This_Server (v : nat) (x : Tables) : Tables :=
  MkTables (t_clients x) (t_My_Clients x) v (t_channels x) (t_My_Channels x) (t_My_Cl2Chan
    x) (t_fresh x) (t_My_Whowas x) (t_Last_Whowas x) (t_Max_Users x) (t_My_Max_Users x)
    (t_Conf_Server x) (t_My_Classes x) (t_now x) (t_My_Commands x) (t_SignalQuit x)
    (t_SignalRestart x).
Definition set_t_channels (v : gmap nat CHANNEL) (x : Tables) : Tables :=
  MkTables (t_clients x) (t_My_Clients x) (t_This_Server x) v (t_My_Channels x)
    (t_My_Cl2Chan x) (t_fresh x) (t_My_Whowas x) (t_Last_Whowas x) (t_Max_Users x)
    (t_My_Max_Users x) (t_Conf_Server x) (t_My_Classes x) (t_now x) (t_My_Commands x)
    (t_SignalQuit x) (t_SignalRestart x).
Definition set_t_My_Channels (v : list nat) (x : Tables) : Tables :=
  MkTables (t_clients x) (t_My_Clients x) (t_This_Server x) (t_channels x) v (t_My_Cl2Chan
    x) (t_fresh x) (t_My_Whowas x) (t_Last_Whowas x) (t_Max_Users x) (t_My_Max_Users x)
    (t_Conf_Server x) (t_My_Classes x) (t_now x) (t_My_Commands x) (t_SignalQuit x)
    (t_SignalRestart x).
Definition set_t_My_Cl2Chan (v : list CL2CHAN) (x : Tables) : Tables :=
  MkTables (t_clients x) (t_My_Clients x) (t_This_Server x) (t_channels x) (t_My_Channels x)
    v (t_fresh x) (t_My_Whowas x) (t_Last_Whowas x) (t_Max_Users x) (t_My_Max_Users x)
    (t_Conf_Server x) (t_My_Classes x) (t_now x) (t_My_Commands x) (t_SignalQuit x)
    (t_SignalRestart x).
Definition set_t_fresh (v : nat) (x : Tables) : Tables :=
  MkTables (t_clients x) (t_My_Clients x) (t_This_Server x) (t_channels x) (t_My_Channels x)
    (t_My_Cl2Chan x) v (t_My_Whowas x) (t_Last_Whowas x) (t_Max_Users x) (t_My_Max_Users x)
    (t_Conf_Server x) (t_My_Classes x) (t_now x) (t_My_Commands x) (t_SignalQuit x)
    (t_SignalRestart x).
Definition set_t_My_Whowas (v : list WHOWAS) (x : Tables) : Tables :=
  MkTables (t_clients x) (t_My_Clients x) (t_This_Server x) (t_channels x) (t_My_Channels x)
    (t_My_Cl2Chan x) (t_fresh x) v (t_Last_Whowas x) (t_Max_Users x) (t_My_Max_Users x)
    (t_Conf_Server x) (t_My_Classes x) (t_now x) (t_My_Commands x) (t_SignalQuit x)
    (t_SignalRestart x).
Definition set_t_Last_Whowas (v : Z) (x : Tables) : Tables :=
  MkTables (t_clients x) (t_My_Clients x) (t_This_Server x) (t_channels x) (t_My_Channels x)
    (t_My_Cl2Chan x) (t_fresh x) (t_My_Whowas x) v (t_Max_Users x) (t_My_Max_Users x)
    (t_Conf_Server x) (t_My_Classes x) (t_now x) (t_My_Commands x) (t_SignalQuit x)
    (t_SignalRestart x).
Definition set_t_Max_Users (v : Z) (x : Tables) : Tables :=
  MkTables (t_clients x) (t_My_Clients x) (t_This_Server x) (t_channels x) (t_My_Channels x)
    (t_My_Cl2Chan x) (t_fresh x) (t_My_Whowas x) (t_Last_Whowas x) v (t_My_Max_Users x)
    (t_Conf_Server x) (t_My_Classes x) (t_now x) (t_My_Commands x) (t_SignalQuit x)
    (t_SignalRestart x).
Definition set_t_My_Max_Users (v : Z) (x : Tables) : Tables :=
  MkTables (t_clients x) (t_My_Clients x) (t_This_Server x) (t_channels x) (t_My_Channels x)
    (t_My_Cl2Chan x) (t_fresh x) (t_My_Whowas x) (t_Last_Whowas x) (t_Max_Users x) v
    (t_Conf_Server x) (t_My_Classes x) (t_now x) (t_My_Commands x) (t_SignalQuit x)
    (t_SignalRestart x).
Definition set_t_Conf_Server (v : list CONF_SERVER) (x : Tables) : Tables :=
  MkTables (t_clients x) (t_My_Clients x) (t_This_Server x) (t_channels x) (t_My_Channels x)
    (t_My_Cl2Chan x) (t_fresh x) (t_My_Whowas x) (t_Last_Whowas x) (t_Max_Users x)
    (t_My_Max_Users x) v (t_My_Classes x) (t_now x) (t_My_Commands x) (t_SignalQuit x)
    (t_SignalRestart x).
Definition set_t_My_Classes (v : list (list list_elem)) (x : Tables) : Tables :=
  MkTables (t_clients x) (t_My_Clients x) (t_This_Server x) (t_channels x) (t_My_Channels x)
    (t_My_Cl2Chan x) (t_fresh x) (t_My_Whowas x) (t_Last_Whowas x) (t_Max_Users x)
    (t_My_Max_Users x) (t_Conf_Server x) v (t_now x) (t_My_Commands x) (t_SignalQuit x)
    (t_SignalRestart x).
Definition set_t_now (v : Z) (x : Tables) : Tables :=
  MkTables (t_clients x) (t_My_Clients x) (t_This_Server x) (t_channels x) (t_My_Channels x)
    (t_My_Cl2Chan x) (t_fresh x) (t_My_Whowas x) (t_Last_Whowas x) (t_Max_Users x)
    (t_My_Max_Users x) (t_Conf_Server x) (t_My_Classes x) v (t_My_Commands x) (t_SignalQuit
    x) (t_SignalRestart x).
Definition set_t_My_Commands (v : list COMMAND) (x : Tables) : Tables :=
  MkTables (t_clients x) (t_My_Clients x) (t_This_Server x) (t_channels x) (t_My_Channels x)
    (t_My_Cl2Chan x) (t_fresh x) (t_My_Whowas x) (t_Last_Whowas x) (t_Max_Users x)
    (t_My_Max_Users x) (t_Conf_Server x) (t_My_Classes x) (t_now x) v (t_SignalQuit x)
    (t_SignalRestart x).
Definition set_t_SignalQuit (v : bool) (x : Tables) : Tables :=
  MkTables (t_clients x) (t_My_Clients x) (t_This_Server x) (t_channels x) (t_My_Channels x)
    (t_My_Cl2Chan x) (t_fresh x) (t_My_Whowas x) (t_Last_Whowas x) (t_Max_Users x)
    (t_My_Max_Users x) (t_Conf_Server x) (t_My_Classes x) (t_now x) (t_My_Commands x) v
    (t_SignalRestart x).
Definition set_t_SignalRestart (v : bool) (x : Tables) : Tables :=
  MkTables (t_clients x) (t_My_Clients x) (t_This_Server x) (t_channels x) (t_My_Channels x)
    (t_My_Cl2Chan x) (t_fresh x) (t_My_Whowas x) (t_Last_Whowas x) (t_Max_Users x)
    (t_My_Max_Users x) (t_Conf_Server x) (t_My_Classes x) (t_now x) (t_My_Commands x)
    (t_SignalQuit x) v.

(** What send(2) does with a buffer: it accepts [n] bytes, asks to try again
    (EAGAIN, EINTR), or fails. *)
Inductive send_result := Sent (n : Z) | Again | Failed.

(** System calls outside of the connection pool: a message written to a socket that has
    no slot, and a descriptor that is closed. *)
Inductive sys_output := SysWrite (fd : Z) (data : string) | SysClose (fd : Z).

(** The connection pool; [n_send k] is the answer to the k-th system call if it is
    send(2).  [n_io] is the state of io.c, [n_sys] the record of other output. *)
Record Net := MkNet {
  n_conns : list CONNECTION;
  n_NumConnections : Z;
  n_WCounter : Z;
  n_idle_t : Z;
  n_send : nat -> string -> send_result;
  n_calls : nat;
  n_NumConnectionsMax : Z;
  n_NumConnectionsAccepted : Z;
  n_io : IO;
  n_My_Listeners : list Z;
  n_sys : list sys_output }.

Definition set_n_conns (v : list CONNECTION) (x : Net) : Net :=
  MkNet v (n_NumConnections x) (n_WCounter x) (n_idle_t x) (n_send x) (n_calls x)
    (n_NumConnectionsMax x) (n_NumConnectionsAccepted x) (n_io x) (n_My_Listeners x) (n_sys
    x).
Definition set_n_NumConnections (v : Z) (x : Net) : Net :=
  MkNet (n_conns x) v (n_WCounter x) (n_idle_t x) (n_send x) (n_calls x)
    (n_NumConnectionsMax x) (n_NumConnectionsAccepted x) (n_io x) (n_My_Listeners x) (n_sys
    x).
Definition set_n_WCounter (v : Z) (x : Net) : Net :=
  MkNet (n_conns x) (n_NumConnections x) v (n_idle_t x) (n_send x) (n_calls x)
    (n_NumConnectionsMax x) (n_NumConnectionsAccepted x) (n_io x) (n_My_Listeners x) (n_sys
    x).
Definition set_n_idle_t (v : Z) (x : Net) : Net :=
  MkNet (n_conns x) (n_NumConnections x) (n_WCounter x) v (n_send x) (n_calls x)
    (n_NumConnectionsMax x) (n_NumConnectionsAccepted x) (n_io x) (n_My_Listeners x) (n_sys
    x).
Definition set_n_send (v : nat -> string -> send_result) (x : Net) : Net :=
  MkNet (n_conns x) (n_NumConnections x) (n_WCounter x) (n_idle_t x) v (n_calls x)
    (n_NumConnectionsMax x) (n_NumConnectionsAccepted x) (n_io x) (n_My_Listeners x) (n_sys
    x).
Definition set_n_calls (v : nat) (x : Net) : Net :=
  MkNet (n_conns x) (n_NumConnections x) (n_WCounter x) (n_idle_t x) (n_send x) v
    (n_NumConnectionsMax x) (n_NumConnectionsAccepted x) (n_io x) (n_My_Listeners x) (n_sys
    x).
Definition set_n_NumConnectionsMax (v : Z) (x : Net) : Net :=
  MkNet (n_conns x) (n_NumConnections x) (n_WCounter x) (n_idle_t x) (n_send x) (n_calls x)
    v (n_NumConnectionsAccepted x) (n_io x) (n_My_Listeners x) (n_sys x).
Definition set_n_NumConnectionsAccepted (v : Z) (x : Net) : Net :=
  MkNet (n_conns x) (n_NumConnections x) (n_WCounter x) (n_idle_t x) (n_send x) (n_calls x)
    (n_NumConnectionsMax x) v (n_io x) (n_My_Listeners x) (n_sys x).
Definition set_n_io (v : IO) (x : Net) : Net :=
  MkNet (n_conns x) (n_NumConnections x) (n_WCounter x) (n_idle_t x) (n_send x) (n_calls x)
    (n_NumConnectionsMax x) (n_NumConnectionsAccepted x) v (n_My_Listeners x) (n_sys x).
Definition set_n_My_Listeners (v : list Z) (x : Net) : Net :=
  MkNet (n_conns x) (n_NumConnections x) (n_WCounter x) (n_idle_t x) (n_send x) (n_calls x)
    (n_NumConnectionsMax x) (n_NumConnectionsAccepted x) (n_io x) v (n_sys x).
Definition set_n_sys (v : list sys_output) (x : Net) : Net :=
  MkNet (n_conns x) (n_NumConnections x) (n_WCounter x) (n_idle_t x) (n_send x) (n_calls x)
    (n_NumConnectionsMax x) (n_NumConnectionsAccepted x) (n_io x) (n_My_Listeners x) v.

(** The state of the server. *)
Record World := MkWorld {
  w_tab : Tables;
  w_net : Net }.

Definition set_w_tab (v : Tables) (x : World) : World :=
  MkWorld v (w_net x).
Definition set_w_net (v : Net) (x : World) : World :=
  MkWorld (w_tab x) v.

(** ** The command monad *)

(** [Exited]: exit(3) has been called. *)
Inductive fault := AssertFailed | NullDeref | UseAfterFree | OutOfBounds | NoEvent | OutOfFuel | Exited.

#[export] Instance fault_eq_dec : EqDecision fault.
Proof. solve_decision. Defined.

Inductive outcome (A : Type) :=
  | Done (a : A) (w : World)
  | Crash (f : fault).
Arguments Done {A} a w.
Arguments Crash {A} f.

Definition M (A : Type) : Type := World -> outcome A.

#[export] Instance M_ret : MRet M := fun A a w => Done a w.

#[export] Instance M_bind : MBind M := fun A B k m w =>
  match m w with Done a w' => k a w' | Crash f => Crash f end.

Definition crash {A} (f : fault) : M A := fun _ => Crash f.

Definition assert_ (b : bool) : M unit := if b then mret tt else crash AssertFailed.

(** [a || b] and [a && b] of C: the second operand is evaluated on demand. *)
Definition or_else (m1 m2 : M bool) : M bool := b ← m1; if (b : bool) then mret true else m2.
Definition and_then (m1 m2 : M bool) : M bool := b ← m1; if (b : bool) then m2 else mret false.

Notation "m1 <||> m2" := (or_else m1 m2) (at level 60, right associativity) : ngircd_scope.
Notation "m1 <&&> m2" := (and_then m1 m2) (at level 59, right associativity) : ngircd_scope.

Definition not_ (m : M bool) : M bool := b ← m; mret (negb b).

Definition get_tab {A} (f : Tables -> A) : M A := fun w => Done (f (w_tab w)) w.
Definition get_net {A} (f : Net -> A) : M A := fun w => Done (f (w_net w)) w.
Definition mod_tab (f : Tables -> Tables) : M unit := fun w => Done tt (set_w_tab (f (w_tab w)) w).
Definition mod_net (f : Net -> Net) : M unit := fun w => Done tt (set_w_net (f (w_net w)) w).

(** A function whose assertions may fail. *)
Definition asserting {A} (o : option A) : M A :=
  match o with Some a => mret a | None => crash AssertFailed end.

(** An operation of io.c, for a descriptor that needs an element in the array of events. *)
Definition io_op {A} (f : IO -> option (A * IO)) : M A := fun w =>
  match f (n_io (w_net w)) with
  | Some (a, io) => Done a (set_w_net (set_n_io io (w_net w)) w)
  | None => Crash NoEvent
  end.

(** close(2), and [io_close]. *)
Definition sys_close (fd : Z) : M unit := mod_net (fun n => set_n_sys (n_sys n ++ [SysClose fd]) n).
Definition close_event (fd : Z) : M unit := io_op (fun io => pair tt <$> io_close fd io);; sys_close fd.

(** [time(NULL)] *)
Definition time : M Z := get_tab t_now.

Definition is_null (p : ptr) : bool := match p with None => true | Some _ => false end.

(** Equality of pointers. *)
Definition ptr_eqb (p q : ptr) : bool := bool_decide (p = q).

(** [malloc]: a fresh address. *)
Definition malloc : M nat := fun w =>
  Done (t_fresh (w_tab w)) (set_w_tab (set_t_fresh (S (t_fresh (w_tab w))) (w_tab w)) w).

(** *** Clients *)

(** [*p], where [e] is the fault if [p] is NULL. *)
Definition load_client (e : fault) (p : ptr) : M CLIENT :=
  match p with
  | None => crash e
  | Some a => fun w =>
      match t_clients (w_tab w) !! a with
      | Some c => Done c w
      | None => Crash UseAfterFree
      end
  end.

(** After [assert(p != NULL)], and without it. *)
Notation the_client := (load_client AssertFailed).
Notation deref_client := (load_client NullDeref).

Definition store_client (p : ptr) (c : CLIENT) : M unit :=
  match p with
  | None => crash NullDeref
  | Some a => mod_tab (fun t => set_t_clients (<[a := c]> (t_clients t)) t)
  end.

(** [p->field = ...], after [assert(p != NULL)]. *)
Definition upd_client (p : ptr) (f : CLIENT -> CLIENT) : M unit :=
  c ← the_client p; store_client p (f c).

(** The loop [c = My_Clients; while (c) { if (test) return c; c = c->next; }]. *)
Fixpoint scan_clients (test : ptr -> CLIENT -> bool) (l : list nat) : M ptr :=
  match l with
  | [] => mret NULL
  | a :: l' =>
      c ← deref_client (Some a);
      if test (Some a) c then mret (Some a) else scan_clients test l'
  end.

(** The loop that counts the clients that pass a test. *)
Fixpoint count_clients (test : CLIENT -> bool) (l : list nat) : M Z :=
  match l with
  | [] => mret 0
  | a :: l' =>
      c ← deref_client (Some a);
      n ← count_clients test l';
      mret ((if test c then 1 else 0) + n)
  end.

(** The element behind [a] in a linked list; [None] if [a] is not linked. *)
Fixpoint next_in (a : nat) (l : list nat) : option ptr :=
  match l with
  | [] => None
  | x :: l' => if (x =? a)%nat then Some (head l') else next_in a l'
  end.

(** *** Channels *)

Definition load_channel (e : fault) (p : ptr) : M CHANNEL :=
  match p with
  | None => crash e
  | Some a => fun w =>
      match t_channels (w_tab w) !! a with
      | Some c => Done c w
      | None => Crash UseAfterFree
      end
  end.

Notation the_channel := (load_channel AssertFailed).
Notation deref_channel := (load_channel NullDeref).

Definition store_channel (p : ptr) (c : CHANNEL) : M unit :=
  match p with
  | None => crash NullDeref
  | Some a => mod_tab (fun t => set_t_channels (<[a := c]> (t_channels t)) t)
  end.

Definition upd_channel (p : ptr) (f : CHANNEL -> CHANNEL) : M unit :=
  c ← the_channel p; store_channel p (f c).

Fixpoint scan_channels (test : CHANNEL -> bool) (l : list nat) : M ptr :=
  match l with
  | [] => mret NULL
  | a :: l' =>
      c ← deref_channel (Some a);
      if test c then mret (Some a) else scan_channels test l'
  end.

(** *** Connections *)

(** [My_Connections[Idx]], after [assert(Idx > NONE)]. *)
Definition the_conn (Idx : Z) : M CONNECTION := fun w =>
  if Idx <=? NONE then Crash AssertFailed
  else match n_conns (w_net w) !! Z.to_nat Idx with
       | Some c => Done c w
       | None => Crash OutOfBounds
       end.

Definition store_conn (Idx : Z) (c : CONNECTION) : M unit :=
  mod_net (fun n => set_n_conns (<[Z.to_nat Idx := c]> (n_conns n)) n).

Definition upd_conn (Idx : Z) (f : CONNECTION -> CONNECTION) : M unit :=
  c ← the_conn Idx; store_conn Idx (f c).

(** ** The interface to the connection layer

    The operations of conn.c and client.c that the message routines call and
    that may call them again: a write can fail and close the connection, which
    destroys the client and sends messages to others; a mask can be asked for
    before the cloaked host name exists, which is then announced. *)

Class ConnIO := {
  Conn_WriteStr : Z -> string -> list farg -> M bool;
  Conn_Close : Z -> option string -> option string -> bool -> M unit;
  Client_UpdateCloakedHostname : ptr -> ptr -> option string -> M unit }.

(** ** Total correctness

    [wp m Q w]: run in [w], the command [m] does not crash and ends with a
    result and a state in [Q]. *)

Definition wp {A} (m : M A) (Q : A -> World -> Prop) (w : World) : Prop :=
  match m w with Done a w' => Q a w' | Crash _ => False end.

Section wp_rules.
Context {A B : Type}.

Lemma wp_ret (a : A) (Q : A -> World -> Prop) w : Q a w -> wp (mret a) Q w.
Proof. done. Qed.

Lemma wp_bind (m : M A) (k : A -> M B) Q w :
  wp m (fun a => wp (k a) Q) w -> wp (m ≫= k) Q w.
Proof. unfold wp, mbind, M_bind. by destruct (m w). Qed.

Lemma bind_done (m : M A) (k : A -> M B) w a w' : m w = Done a w' -> (m ≫= k) w = k a w'.
Proof. unfold mbind, M_bind. by intros ->. Qed.

Lemma wp_mono (m : M A) (Q1 Q2 : A -> World -> Prop) w :
  wp m Q1 w -> (forall a w', Q1 a w' -> Q2 a w') -> wp m Q2 w.
Proof. unfold wp. destruct (m w); auto. Qed.

Lemma wp_done (m : M A) Q w : wp m Q w <-> exists a w', m w = Done a w' /\ Q a w'.
Proof.
  unfold wp. destruct (m w) as [a w'|f]; split; try done.
  - intros H. by exists a, w'.
  - intros (a' & w'' & [= -> ->] & H). done.
  - by intros (a' & w'' & ? & _).
Qed.

(** A fault behind an operation that ends. *)
Lemma bind_crash (m : M A) (k : A -> M B) f w :
  wp m (fun a w' => k a w' = Crash f) w -> (m ≫= k) w = Crash f.
Proof. unfold wp, mbind, M_bind. by destruct (m w). Qed.

Lemma wp_get_tab (f : Tables -> A) Q w : Q (f (w_tab w)) w -> wp (get_tab f) Q w.
Proof. done. Qed.

Lemma wp_get_net (f : Net -> A) Q w : Q (f (w_net w)) w -> wp (get_net f) Q w.
Proof. done. Qed.

End wp_rules.

Lemma wp_mod_tab f (Q : unit -> World -> Prop) w : Q tt (set_w_tab (f (w_tab w)) w) -> wp (mod_tab f) Q w.
Proof. done. Qed.

Lemma wp_mod_net f (Q : unit -> World -> Prop) w : Q tt (set_w_net (f (w_net w)) w) -> wp (mod_net f) Q w.
Proof. done. Qed.

Lemma wp_assert b (Q : unit -> World -> Prop) w : b = true -> Q tt w -> wp (assert_ b) Q w.
Proof. by intros ->. Qed.

Lemma wp_time (Q : Z -> World -> Prop) w : Q (t_now (w_tab w)) w -> wp time Q w.
Proof. done. Qed.

Lemma wp_malloc (Q : nat -> World -> Prop) w :
  Q (t_fresh (w_tab w)) (set_w_tab (set_t_fresh (S (t_fresh (w_tab w))) (w_tab w)) w) ->
  wp malloc Q w.
Proof. done. Qed.

Lemma wp_or m1 m2 (Q : bool -> World -> Prop) w :
  wp m1 (fun b w' => if b : bool then Q true w' else wp m2 Q w') w -> wp (m1 <||> m2) Q w.
Proof.
  intros H. unfold or_else. apply wp_bind. eapply wp_mono; [exact H|].
  intros [] w'; done.
Qed.

Lemma wp_and m1 m2 (Q : bool -> World -> Prop) w :
  wp m1 (fun b w' => if b : bool then wp m2 Q w' else Q false w') w -> wp (m1 <&&> m2) Q w.
Proof.
  intros H. unfold and_then. apply wp_bind. eapply wp_mono; [exact H|].
  intros [] w'; done.
Qed.

Lemma wp_not m (Q : bool -> World -> Prop) w :
  wp m (fun b => Q (negb b)) w -> wp (not_ m) Q w.
Proof. intros H. unfold not_. apply wp_bind. eapply wp_mono; [exact H|done]. Qed.

Lemma wp_load_client e a c (Q : CLIENT -> World -> Prop) w :
  t_clients (w_tab w) !! a = Some c -> Q c w -> wp (load_client e (Some a)) Q w.
Proof. unfold wp, load_client. by intros ->. Qed.

Lemma wp_load_channel e a c (Q : CHANNEL -> World -> Prop) w :
  t_channels (w_tab w) !! a = Some c -> Q c w -> wp (load_channel e (Some a)) Q w.
Proof. unfold wp, load_channel. by intros ->. Qed.

Lemma wp_upd_client a c f (Q : unit -> World -> Prop) w :
  t_clients (w_tab w) !! a = Some c ->
  Q tt (set_w_tab (set_t_clients (<[a := f c]> (t_clients (w_tab w))) (w_tab w)) w) ->
  wp (upd_client (Some a) f) Q w.
Proof. intros Hc H. apply wp_bind, (wp_load_client _ _ c); done. Qed.

Lemma wp_upd_channel a c f (Q : unit -> World -> Prop) w :
  t_channels (w_tab w) !! a = Some c ->
  Q tt (set_w_tab (set_t_channels (<[a := f c]> (t_channels (w_tab w))) (w_tab w)) w) ->
  wp (upd_channel (Some a) f) Q w.
Proof. intros Hc H. apply wp_bind, (wp_load_channel _ _ c); done. Qed.

Lemma wp_the_conn Idx c (Q : CONNECTION -> World -> Prop) w :
  0 <= Idx -> n_conns (w_net w) !! Z.to_nat Idx = Some c -> Q c w -> wp (the_conn Idx) Q w.
Proof.
  intros H Hc HQ. unfold wp, the_conn, NONE. destruct (Z.leb_spec Idx (-1)); [lia|]. by rewrite Hc.
Qed.

Lemma wp_upd_conn Idx c f (Q : unit -> World -> Prop) w :
  0 <= Idx -> n_conns (w_net w) !! Z.to_nat Idx = Some c ->
  Q tt (set_w_net (set_n_conns (<[Z.to_nat Idx := f c]> (n_conns (w_net w))) (w_net w)) w) ->
  wp (upd_conn Idx f) Q w.
Proof. intros H Hc HQ. apply wp_bind, (wp_the_conn _ c); done. Qed.

#[export] Hint Resolve wp_ret wp_get_tab wp_get_net wp_mod_tab wp_mod_net wp_time wp_malloc : wp.

(** One symbolic step of a command. *)
Ltac wp_step :=
  cbv beta;
  lazymatch goal with
  | |- wp (mbind _ _) _ _ => apply wp_bind
  | |- wp (mret _) _ _ => apply wp_ret
  | |- wp (get_tab _) _ _ => apply wp_get_tab
  | |- wp (get_net _) _ _ => apply wp_get_net
  | |- wp (mod_tab _) _ _ => apply wp_mod_tab
  | |- wp (mod_net _) _ _ => apply wp_mod_net
  | |- wp time _ _ => apply wp_time
  | |- wp malloc _ _ => apply wp_malloc
  | |- wp (_ <||> _) _ _ => apply wp_or
  | |- wp (_ <&&> _) _ _ => apply wp_and
  | |- wp (not_ _) _ _ => apply wp_not
  | |- wp (assert_ _) _ _ => apply wp_assert; [try done|]
  | |- wp (load_client _ (Some _)) _ _ => eapply wp_load_client; [eassumption|]
  | |- wp (load_channel _ (Some _)) _ _ => eapply wp_load_channel; [eassumption|]
  | |- wp (upd_client (Some _) _) _ _ => eapply wp_upd_client; [eassumption|]
  | |- wp (upd_channel (Some _) _) _ _ => eapply wp_upd_channel; [eassumption|]
  end.

Ltac wp_steps := repeat (wp_step; cbn [w_tab w_net set_w_tab set_w_net]).
