(* ===== verification/ClientCore.v ===== *)
(** * Clients: fields, searches and counters (src/state/client/client.c)

    The operations of client.c that neither create nor destroy clients: the
    accessors and setters, the searches over the client list, masks, modes,
    tokens, counters, nicknames and the WHOWAS history; the capabilities of
    client-cap.c.  A call of [LogDebug] is only modelled by the call of
    [Client_ID] among its arguments, which can fail. *)

From S2P Require Import Prelude CString Match Hash Checks Lists Ipaddr World.

Definition CLIENT_ID_LEN : nat := 64.
Definition CLIENT_NICK_LEN : nat := 32.
Definition CLIENT_USER_LEN : nat := 20.
Definition CLIENT_MODE_LEN : nat := 21.
Definition CLIENT_INFO_LEN : nat := 128.
Definition CLIENT_AWAY_LEN : nat := 128.
Definition CLIENT_FLAGS_LEN : nat := 16.
Definition MAX_WHOWAS : Z := 64.
Definition GETID_LEN : nat :=
  (CLIENT_NICK_LEN - 1) + 1 + (CLIENT_USER_LEN - 1) + 1 + (CLIENT_HOST_LEN - 1) + 1.

(** ** Modes as strings

    The strings of modes of clients, channels and memberships are changed by
    the same code: [strchr] and [strlcat] to add, and a loop that moves the
    rest of the string to the left to delete. *)

Definition mode_add (modes : string) (Mode : ascii) (size : nat) : bool * string :=
  if has_chr modes Mode then (false, modes)
  else (true, strlcat modes (String Mode "") size).

(** The loop that moves the rest of the string to the left, from the first
    [Mode] on. *)
Fixpoint mode_del (modes : string) (Mode : ascii) : bool * string :=
  match modes with
  | "" => (false, "")
  | String a s =>
      if a =c Mode then (true, s)
      else let '(b, s') := mode_del s Mode in (b, String a s')
  end.

Section ClientCore.
Context `{Conf} `{ConnIO}.

(** ** Fields *)

Definition Client_ThisServer : M ptr := a ← get_tab t_This_Server; mret (Some a).

Definition Client_ID (Client : ptr) : M string :=
  c ← the_client Client;
  assert_ (negb (cl_type c =? CLIENT_USER) || (slen (cl_id c) <? Conf_MaxNickLength)%nat);;
  mret (match cl_id c with "" => "*" | id => id end).

Definition Client_Type (Client : ptr) : M Z := c ← the_client Client; mret (cl_type c).
Definition Client_Conn (Client : ptr) : M Z := c ← the_client Client; mret (cl_conn_id c).
Definition Client_Info (Client : ptr) : M string := c ← the_client Client; mret (cl_info c).

Definition Client_User (Client : ptr) : M string :=
  c ← the_client Client; mret (match cl_user c with "" => "~" | u => u end).

Definition Client_Hostname (Client : ptr) : M string := c ← the_client Client; mret (cl_host c).

Definition Client_HostnameCloaked (Client : ptr) : M (option string) :=
  c ← the_client Client; mret (cl_cloaked c).

Definition Client_Modes (Client : ptr) : M string := c ← the_client Client; mret (cl_modes c).
Definition Client_Flags (Client : ptr) : M string := c ← the_client Client; mret (cl_flags c).
Definition Client_Hops (Client : ptr) : M Z := c ← the_client Client; mret (cl_hops c).
Definition Client_Token (Client : ptr) : M Z := c ← the_client Client; mret (cl_token c).
Definition Client_MyToken (Client : ptr) : M Z := c ← the_client Client; mret (cl_mytoken c).
Definition Client_Introducer (Client : ptr) : M ptr := c ← the_client Client; mret (cl_introducer c).
Definition Client_TopServer (Client : ptr) : M ptr := c ← the_client Client; mret (cl_topserver c).
Definition Client_Away (Client : ptr) : M (option string) := c ← the_client Client; mret (cl_away c).

Definition Client_AccountName (Client : ptr) : M (option string) :=
  c ← the_client Client; mret (cl_account_name c).

Definition Client_StartTime (Client : ptr) : M Z := c ← the_client Client; mret (cl_starttime c).

Definition Client_HasMode (Client : ptr) (Mode : ascii) : M bool :=
  c ← the_client Client; mret (has_chr (cl_modes c) Mode).

Definition Client_HasFlag (Client : ptr) (Flag : ascii) : M bool :=
  c ← the_client Client; mret (has_chr (cl_flags c) Flag).

Definition Client_TypeText (Client : ptr) : M string :=
  t ← Client_Type Client;
  mret (if t =? CLIENT_USER then "User"
        else if t =? CLIENT_SERVICE then "Service"
        else if t =? CLIENT_SERVER then "Server"
        else "Client").

Definition Client_First : M ptr := l ← get_tab t_My_Clients; mret (head l).

Definition Client_Next (c : ptr) : M ptr :=
  match c with
  | None => crash AssertFailed
  | Some a =>
      _ ← the_client c;
      l ← get_tab t_My_Clients;
      match next_in a l with Some p => mret p | None => crash UseAfterFree end
  end.

(** ** Masks *)

Definition mask_of (id user host : string) : string :=
  snprintf GETID_LEN "%s!%s@%s" [FS id; FS user; FS host].

Definition Client_Mask (Client : ptr) : M string :=
  c ← the_client Client;
  mret (if cl_type c =? CLIENT_SERVER then cl_id c
        else mask_of (cl_id c) (cl_user c) (cl_host c)).

Definition Client_HostnameDisplayed (Client : ptr) : M (option string) :=
  x ← Client_HasMode Client "x"%char;
  if negb (x : bool) then h ← Client_Hostname Client; mret (Some h)
  else
    c ← the_client Client;
    match cl_cloaked c with
    | Some h => mret (Some h)
    | None => Client_UpdateCloakedHostname Client NULL None;; Client_HostnameCloaked Client
    end.

Definition Client_MaskCloaked (Client : ptr) : M string :=
  x ← Client_HasMode Client "x"%char;
  if negb (x : bool) then Client_Mask Client
  else
    c ← the_client Client;
    h ← Client_HostnameDisplayed Client;
    mret (mask_of (cl_id c) (cl_user c) (from_opt "(null)" h)).

(** The two masks that [Lists_Check] compares, for a client. *)
Definition Client_masks (Client : ptr) : M (string * string) :=
  m1 ← Client_MaskCloaked Client; m2 ← Client_Mask Client; mret (m1, m2).

Definition Client_IPAText (Client : ptr) : M string :=
  c ← the_client Client;
  if cl_conn_id c <=? NONE then mret "0.0.0.0"
  else match cl_ipa_text c with
       | None => n ← the_conn (cl_conn_id c); asserting (ng_ipaddr_tostr_r getnameinfo (cn_addr n))
       | Some s => mret s
       end.

(** ** Setters *)

Definition Client_SetHostname (Client : ptr) (Hostname : string) : M unit :=
  c ← the_client Client;
  if negb (hd0 Conf_CloakHost =c NUL) &&
     ((hd0 (cl_host c) =c NUL) || has_chr (cl_host c) "." || has_chr (cl_host c) ":")
  then
    let cloak := strlcat (strlcpy Hostname GETID_LEN) Conf_CloakHostSalt GETID_LEN in
    let cloak := snprintf GETID_LEN Conf_CloakHost [FZ (Hash cloak)] in
    _ ← Client_ID Client;
    upd_client Client (set_cl_host (strlcpy cloak CLIENT_HOST_LEN))
  else
    _ ← Client_ID Client;
    upd_client Client (set_cl_host (strlcpy Hostname CLIENT_HOST_LEN)).

Definition Client_SetIPAText (Client : ptr) (IPAText : string) : M unit :=
  upd_client Client
    (set_cl_ipa_text (if hd0 IPAText =c NUL then None
                      else Some (strndup IPAText (CLIENT_HOST_LEN - 1)))).

(** The effect of [Client_SetID] on the structure. *)
Definition set_id (ID : string) (c : CLIENT) : CLIENT :=
  let c := set_cl_id (strlcpy ID CLIENT_ID_LEN) c in
  let c := if Conf_CloakUserToNick
           then set_cl_info (strlcpy ID CLIENT_INFO_LEN)
                  (set_cl_user (strlcpy ID CLIENT_USER_LEN) c)
           else c in
  set_cl_hash (Hash (cl_id c)) c.

Definition Client_SetID (Client : ptr) (ID : string) : M unit := upd_client Client (set_id ID).

Definition Client_SetUser (Client : ptr) (User : string) (Idented : bool) : M unit :=
  upd_client Client (fun c =>
    set_cl_user
      (if Conf_CloakUserToNick then strlcpy (cl_id c) CLIENT_USER_LEN
       else if Idented then strlcpy User CLIENT_USER_LEN
       else String "~" (strlcpy User (CLIENT_USER_LEN - 1))) c).

(** Without PAM the original user name is not stored. *)
Definition Client_SetOrigUser (Client : ptr) (User : string) : M unit :=
  assert_ (negb (is_null Client)).

Definition Client_SetInfo (Client : ptr) (Info : string) : M unit :=
  upd_client Client (fun c =>
    set_cl_info (strlcpy (if Conf_CloakUserToNick then cl_id c else Info) CLIENT_INFO_LEN) c).

Definition Client_SetModes (Client : ptr) (Modes : string) : M unit :=
  upd_client Client (set_cl_modes (strlcpy Modes CLIENT_MODE_LEN)).

Definition Client_SetFlags (Client : ptr) (Flags : string) : M unit :=
  upd_client Client (set_cl_flags (strlcpy Flags CLIENT_FLAGS_LEN)).

Definition Client_SetAccountName (Client : ptr) (AccountName : string) : M unit :=
  upd_client Client
    (set_cl_account_name (if hd0 AccountName =c NUL then None
                          else Some (strndup AccountName (CLIENT_NICK_LEN - 1)))).

Definition Client_SetAway (Client : ptr) (Txt : string) : M unit :=
  upd_client Client (set_cl_away (Some (strndup Txt (CLIENT_AWAY_LEN - 1)))).

Definition Client_SetHops (Client : ptr) (Hops : Z) : M unit := upd_client Client (set_cl_hops Hops).
Definition Client_SetToken (Client : ptr) (Token : Z) : M unit := upd_client Client (set_cl_token Token).

Definition Client_SetIntroducer (Client Introducer : ptr) : M unit :=
  assert_ (negb (is_null Introducer));; upd_client Client (set_cl_introducer Introducer).

Definition Client_ModeAdd (Client : ptr) (Mode : ascii) : M bool :=
  c ← the_client Client;
  let '(r, modes) := mode_add (cl_modes c) Mode CLIENT_MODE_LEN in
  store_client Client (set_cl_modes modes c);; mret r.

(** [strchr] also finds the terminator, so that the mode 0 is "deleted". *)
Definition Client_ModeDel (Client : ptr) (Mode : ascii) : M bool :=
  c ← the_client Client;
  let '(r, modes) := mode_del (cl_modes c) Mode in
  store_client Client (set_cl_modes modes c);; mret (r || (Mode =c NUL)).

(** *** Capabilities (client-cap.c) *)

Definition CLIENT_CAP_PENDING : Z := 1.
Definition CLIENT_CAP_SUPPORTED : Z := 2.
Definition CLIENT_CAP_MULTI_PREFIX : Z := 4.

Definition Client_Cap (Client : ptr) : M Z := c ← the_client Client; mret (cl_capabilities c).

Definition Client_CapSet (Client : ptr) (Cap : Z) : M unit :=
  assert_ (0 <=? Cap);; upd_client Client (set_cl_capabilities Cap);; _ ← Client_ID Client; mret tt.

Definition Client_CapAdd (Client : ptr) (Cap : Z) : M unit :=
  assert_ (0 <? Cap);;
  upd_client Client (fun c => set_cl_capabilities (Z.lor (cl_capabilities c) Cap) c);;
  _ ← Client_ID Client; mret tt.

Definition Client_CapDel (Client : ptr) (Cap : Z) : M unit :=
  assert_ (0 <? Cap);;
  upd_client Client (fun c => set_cl_capabilities (Z.ldiff (cl_capabilities c) Cap) c);;
  _ ← Client_ID Client; mret tt.

(** ** Searches *)

Definition Client_Search (Nick : string) : M ptr :=
  let search_id := before "!" (strlcpy Nick CLIENT_ID_LEN) in
  let search_hash := Hash search_id in
  l ← get_tab t_My_Clients;
  scan_clients (fun _ c => (cl_hash c =? search_hash) && strcaseeq (cl_id c) search_id) l.

Definition Client_SearchServer (Mask : string) : M ptr :=
  this ← Client_ThisServer;
  id ← Client_ID this;
  if MatchCaseInsensitive Mask id then mret this
  else
    l ← get_tab t_My_Clients;
    scan_clients (fun _ c => (cl_type c =? CLIENT_SERVER) && MatchCaseInsensitive Mask (cl_id c)) l.

Definition Client_GetFromToken (Client : ptr) (Token : Z) : M ptr :=
  assert_ (negb (is_null Client));;
  if Token =? 0 then mret NULL
  else
    l ← get_tab t_My_Clients;
    scan_clients (fun _ c => (cl_type c =? CLIENT_SERVER) && ptr_eqb (cl_introducer c) Client
                             && (cl_token c =? Token)) l.

(** The loop of [Client_NextHop]; a chain of introducers without a cycle is
    shorter than the number of clients. *)
Fixpoint next_hop (fuel : nat) (c : ptr) : M ptr :=
  match fuel with
  | O => crash OutOfFuel
  | S fuel' =>
      x ← deref_client c;
      this ← Client_ThisServer;
      if negb (is_null (cl_introducer x)) && negb (ptr_eqb (cl_introducer x) c)
         && negb (ptr_eqb (cl_introducer x) this)
      then next_hop fuel' (cl_introducer x)
      else mret c
  end.

Definition Client_NextHop (Client : ptr) : M ptr :=
  assert_ (negb (is_null Client));;
  n ← get_tab (fun t => S (size (t_clients t)));
  next_hop n Client.

(** ** Counters *)

Definition Count (Type_ : Z) : M Z :=
  l ← get_tab t_My_Clients; count_clients (fun c => cl_type c =? Type_) l.

Definition MyCount (Type_ : Z) : M Z :=
  l ← get_tab t_My_Clients;
  this ← Client_ThisServer;
  count_clients (fun c => ptr_eqb (cl_introducer c) this && (cl_type c =? Type_)) l.

Definition Client_UserCount : M Z := Count CLIENT_USER.
Definition Client_ServiceCount : M Z := Count CLIENT_SERVICE.
Definition Client_ServerCount : M Z := Count CLIENT_SERVER.
Definition Client_MyUserCount : M Z := MyCount CLIENT_USER.
Definition Client_MyServiceCount : M Z := MyCount CLIENT_SERVICE.

Definition Client_MyServerCount : M Z :=
  l ← get_tab t_My_Clients;
  count_clients (fun c => (cl_type c =? CLIENT_SERVER) && (cl_hops c =? 1)) l.

Definition Client_OperCount : M Z :=
  l ← get_tab t_My_Clients;
  count_clients (fun c => (cl_type c =? CLIENT_USER) && has_chr (cl_modes c) "o") l.

Definition Client_UnknownCount : M Z :=
  l ← get_tab t_My_Clients;
  count_clients (fun c => negb (cl_type c =? CLIENT_USER) && negb (cl_type c =? CLIENT_SERVICE)
                          && negb (cl_type c =? CLIENT_SERVER)) l.

Definition Client_MaxUserCount : M Z := get_tab t_Max_Users.
Definition Client_MyMaxUserCount : M Z := get_tab t_My_Max_Users.

Definition Adjust_Counters (Client : ptr) : M unit :=
  c ← the_client Client;
  if negb (cl_type c =? CLIENT_USER) then mret tt
  else
    (if negb (cl_conn_id c =? NONE) then
       count ← Client_MyUserCount;
       mod_tab (fun t => if t_My_Max_Users t <? count then set_t_My_Max_Users count t else t)
     else mret tt);;
    count ← Client_UserCount;
    mod_tab (fun t => if t_Max_Users t <? count then set_t_Max_Users count t else t).

(** ** Server tokens *)

(** The search starts again from the first client with the next number when a
    token is in use; every restart passes the token of another client. *)
Fixpoint gen_token (fuel : nat) (token : Z) (l : list nat) : M Z :=
  match fuel with
  | O => crash OutOfFuel
  | S fuel' =>
      c ← scan_clients (fun _ c => cl_mytoken c =? token) l;
      if is_null c then mret token else gen_token fuel' (token + 1) l
  end.

Definition Generate_MyToken (Client : ptr) : M unit :=
  l ← get_tab t_My_Clients;
  token ← gen_token (S (length l)) 2 l;
  c ← deref_client Client; store_client Client (set_cl_mytoken token c).

Definition Client_SetType (Client : ptr) (Type_ : Z) : M unit :=
  upd_client Client (set_cl_type Type_);;
  (if Type_ =? CLIENT_SERVER then Generate_MyToken Client else mret tt);;
  Adjust_Counters Client.

(** ** Nicknames *)

(** The value of a [char], which is signed. *)
Definition char_val (c : ascii) : Z :=
  let n := Z.of_N (N_of_ascii c) in if n <? 128 then n else n - 256.

Definition goodchars : string := ";0123456789-".

Definition nick_char_ok (c : ascii) : bool :=
  negb ((char_val c <? 65) && negb (has_chr goodchars c)) && negb (125 <? char_val c).

Definition Client_IsValidNick (Nick : string) : bool :=
  if has_chr goodchars (hd0 Nick) then false
  else if (Conf_MaxNickLength <=? slen Nick)%nat then false
  else str_forall nick_char_ok Nick.

(** ** WHOWAS *)

Definition Client_GetWhowas : M (list WHOWAS) := get_tab t_My_Whowas.
Definition Client_GetLastWhowasIndex : M Z := get_tab t_Last_Whowas.

Definition Client_RegisterWhowas (Client : ptr) : M unit :=
  assert_ (negb (is_null Client));;
  if Conf_MorePrivacy then mret tt
  else
    now ← time;
    c ← the_client Client;
    if now - cl_starttime c <? 30 then mret tt
    else
      last ← get_tab t_Last_Whowas;
      let slot := last + 1 in
      let slot := if (MAX_WHOWAS <=? slot) || (slot <? 0) then 0 else slot in
      id ← Client_ID Client;
      user ← Client_User Client;
      host ← Client_HostnameDisplayed Client;
      info ← Client_Info Client;
      intro ← Client_Introducer Client;
      server ← Client_ID intro;
      host ← (match host with Some h => mret h | None => crash NullDeref end);
      mod_tab (fun t =>
        set_t_Last_Whowas slot
          (set_t_My_Whowas
             (<[Z.to_nat slot :=
                  Whowas now (strlcpy id CLIENT_NICK_LEN) (strlcpy host CLIENT_HOST_LEN)
                    (strlcpy user CLIENT_USER_LEN) (strlcpy info CLIENT_INFO_LEN)
                    (strlcpy server CLIENT_HOST_LEN)]> (t_My_Whowas t)) t)).

(** ** Creation *)

Definition New_Client_Struct : M nat :=
  a ← malloc;
  store_client (Some a)
    (Client 0 "" 0 CLIENT_UNKNOWN NONE NULL NULL "" None None "" "" "" (-1) (-1) (-1)
            None "" None 0);;
  mret a.

(** Calls [f] with an argument that may be NULL. *)
Definition when_some (o : option string) (f : string -> M unit) : M unit :=
  match o with Some s => f s | None => mret tt end.

Definition Init_New_Client (Idx : Z) (Introducer TopServer : ptr) (Type_ : Z)
    (ID User Hostname Info : option string) (Hops Token : Z) (Modes : option string)
    (Idented : bool) : M ptr :=
  assert_ (NONE <=? Idx);;
  assert_ (negb (is_null Introducer));;
  a ← New_Client_Struct;
  let client := Some a in
  now ← time;
  upd_client client (fun c =>
    set_cl_type Type_ (set_cl_topserver TopServer (set_cl_introducer Introducer
      (set_cl_conn_id Idx (set_cl_starttime now c)))));;
  when_some ID (Client_SetID client);;
  when_some User (fun u => Client_SetUser client u Idented;; Client_SetOrigUser client u);;
  when_some Hostname (Client_SetHostname client);;
  when_some Info (Client_SetInfo client);;
  upd_client client (fun c => set_cl_token Token (set_cl_hops Hops c));;
  when_some Modes (Client_SetModes client);;
  (if Type_ =? CLIENT_SERVER then Generate_MyToken client else mret tt);;
  away ← Client_HasMode client "a";
  (if away : bool then upd_client client (set_cl_away (Some "Away")) else mret tt);;
  mod_tab (fun t => set_t_My_Clients (a :: t_My_Clients t) t);;
  Adjust_Counters client;;
  mret client.

Definition Client_NewLocal (Idx : Z) (Hostname : option string) (Type_ : Z) (Idented : bool) : M ptr :=
  this ← Client_ThisServer;
  Init_New_Client Idx this NULL Type_ None None Hostname None 0 0 None Idented.

Definition Client_NewRemoteServer (Introducer : ptr) (Hostname : string) (TopServer : ptr)
    (Hops Token : Z) (Info : option string) (Idented : bool) : M ptr :=
  Init_New_Client NONE Introducer TopServer CLIENT_SERVER (Some Hostname) None (Some Hostname)
    Info Hops Token None Idented.

Definition Client_NewRemoteUser (Introducer : ptr) (Nick : string) (Hops : Z)
    (User Hostname : option string) (Token : Z) (Modes Info : option string) (Idented : bool) : M ptr :=
  Init_New_Client NONE Introducer NULL CLIENT_USER (Some Nick) User Hostname Info Hops Token
    Modes Idented.

Definition Free_Client (Client : ptr) : M unit :=
  match Client with
  | None => crash AssertFailed
  | Some a =>
      _ ← the_client Client;
      mod_tab (fun t => set_t_clients (delete a (t_clients t)) t)
  end.

End ClientCore.
