(* ===== verification/ConnFunc.v ===== *)
(** * Connection properties (src/state/connection/conn-func.c)

    Time stamps, penalties, flags, options and counters of connections, the
    iteration over open connections, and [Conn_GetClient] and [Conn_Password] of
    conn.c.  [Pool_Size] is the length of [My_Connections]. *)

From S2P Require Import Prelude CString Checks Ipaddr World ClientCore.

Definition CONN_ISCLOSING : Z := 1.
Definition CONN_ISCONNECTING : Z := 2.
Definition CONN_RFC1459 : Z := 4.

Definition Pool_Size : M Z := get_net (fun n => Z.of_nat (length (n_conns n))).

Definition Conn_GetClient (Idx : Z) : M ptr :=
  c ← (if Idx <? 0 then crash AssertFailed
       else l ← get_net n_conns;
            match l !! Z.to_nat Idx with Some c => mret c | None => crash AssertFailed end);
  mret (cn_client c).

Definition Conn_UpdateIdle (Idx : Z) : M unit :=
  now ← time; upd_conn Idx (set_cn_lastprivmsg now).

Definition Conn_UpdatePing (Idx TimeStamp : Z) : M unit := upd_conn Idx (set_cn_lastping TimeStamp).

Definition Conn_GetSignon (Idx : Z) : M Z := c ← the_conn Idx; mret (cn_signon c).

Definition Conn_GetIdle (Idx : Z) : M Z :=
  now ← time; c ← the_conn Idx; mret (now - cn_lastprivmsg c).

Definition Conn_LastPing (Idx : Z) : M Z := c ← the_conn Idx; mret (cn_lastping c).

Section penalty.
Context `{Conf}.

Definition Conn_SetPenalty (Idx Seconds : Z) : M unit :=
  assert_ (NONE <? Idx);;
  assert_ (0 <=? Seconds);;
  let Seconds := if (0 <=? Conf_MaxPenaltyTime) && (Conf_MaxPenaltyTime <? Seconds) && (Seconds <? 10)
                 then Conf_MaxPenaltyTime else Seconds in
  t ← time;
  c ← the_conn Idx;
  (if cn_delaytime c <? t then upd_conn Idx (set_cn_delaytime t) else mret tt);;
  upd_conn Idx (fun c => set_cn_delaytime (cn_delaytime c + Seconds) c).

End penalty.

Definition Conn_ClearFlags : M unit :=
  mod_net (fun n => set_n_conns (map (set_cn_flag 0) (n_conns n)) n).

Definition Conn_Flag (Idx : Z) : M Z := c ← the_conn Idx; mret (cn_flag c).
Definition Conn_SetFlag (Idx Flag : Z) : M unit := upd_conn Idx (set_cn_flag Flag).

(** The first open connection from index [i] on. *)
Fixpoint open_from (i : Z) (l : list CONNECTION) : Z :=
  match l with
  | [] => NONE
  | c :: l' => if negb (cn_sock c =? NONE) then i else open_from (i + 1) l'
  end.

Definition Conn_First : M Z := get_net (fun n => open_from 0 (n_conns n)).

Definition Conn_Next (Idx : Z) : M Z :=
  assert_ (NONE <? Idx);;
  get_net (fun n => open_from (Idx + 1) (drop (Z.to_nat (Idx + 1)) (n_conns n))).

Definition Conn_Options (Idx : Z) : M Z := c ← the_conn Idx; mret (cn_options c).

Definition Conn_OPTION_ISSET (c : CONNECTION) (opt : Z) : bool :=
  negb (Z.land (cn_options c) opt =? 0).

Definition Conn_SetOption (Idx Option_ : Z) : M unit :=
  upd_conn Idx (fun c => set_cn_options (Z.lor (cn_options c) Option_) c).

Definition Conn_StartTime (Idx : Z) : M Z :=
  assert_ (NONE <? Idx);;
  c ← Conn_GetClient Idx;
  if negb (is_null c) then Client_StartTime c else mret 0.

Definition Conn_SendQ (Idx : Z) : M Z := c ← the_conn Idx; mret (strlen (cn_wbuf c)).
Definition Conn_SendMsg (Idx : Z) : M Z := c ← the_conn Idx; mret (cn_msg_out c).
Definition Conn_SendBytes (Idx : Z) : M Z := c ← the_conn Idx; mret (cn_bytes_out c).
Definition Conn_RecvQ (Idx : Z) : M Z := c ← the_conn Idx; mret (strlen (cn_rbuf c)).
Definition Conn_RecvMsg (Idx : Z) : M Z := c ← the_conn Idx; mret (cn_msg_in c).
Definition Conn_RecvBytes (Idx : Z) : M Z := c ← the_conn Idx; mret (cn_bytes_in c).
Definition Conn_IPA `{Conf} (Idx : Z) : M string := c ← the_conn Idx; asserting (ng_ipaddr_tostr_r getnameinfo (cn_addr c)).
Definition Conn_ResetWCounter : M unit := mod_net (set_n_WCounter 0).
Definition Conn_WCounter : M Z := get_net n_WCounter.

Definition Conn_Password (Idx : Z) : M string := c ← the_conn Idx; mret (from_opt "" (cn_pwd c)).
Definition Conn_SetPassword (Idx : Z) (Pwd : string) : M unit := upd_conn Idx (set_cn_pwd (Some Pwd)).
Definition Conn_GetAuthPing (Idx : Z) : M Z := c ← the_conn Idx; mret (cn_auth_ping c).
Definition Conn_SetAuthPing (Idx ID : Z) : M unit := upd_conn Idx (set_cn_auth_ping ID).
