(* ===== verification/ConnSpec.v ===== *)
(** * What writing to a connection promises

    The lines of the protocol as they go over the wire, the stream of a
    connection (what send(2) has accepted and what waits in the buffer), and the
    law of the interface [ConnIO] that the message routines rely on: while the
    network accepts what is sent, [Conn_WriteStr] appends exactly one line to the
    stream of its connection and changes nothing else. *)

From S2P Require Import Prelude CString Match Checks Io World ClientCore ConnFunc.

Definition CUT_TXTSUFFIX : string := "[CUT]".

Definition CRLF : string := String "013"%char (String "010"%char "").

(** The line that [Conn_WriteStr] sends: the text, shortened if it is too long,
    and CR LF. *)
Definition wire_line (Format : string) (args : list farg) : string :=
  let text := sprintf Format args in
  let buffer := str_take (COMMAND_LEN - 2 - 1) text in
  let buffer := if (COMMAND_LEN - 2 <=? slen text)%nat
                then str_take (COMMAND_LEN - slen CUT_TXTSUFFIX - 2 - 1) buffer +:+ CUT_TXTSUFFIX
                else buffer in
  strlcat buffer CRLF COMMAND_LEN.

(** ** Streams *)

Definition stream (c : CONNECTION) : string := cn_sent c +:+ cn_wbuf c.

(** A connection without its output (streams and output counters), the scratch
    flag of irc-write.c and the time stamps of penalties and idling. *)
Definition erase (c : CONNECTION) : CONNECTION :=
  set_cn_wbuf "" (set_cn_sent "" (set_cn_bytes_out 0 (set_cn_msg_out 0
    (set_cn_flag 0 (set_cn_delaytime 0 (set_cn_lastprivmsg 0 c)))))).

(** The lines for connection [i] in a sequence of addressed lines. *)
Definition lines_for (i : Z) (l : list (Z * string)) : string :=
  str_concat (map snd (List.filter (fun x => x.1 =? i) l)).

(** [w'] is [w] with the lines [l] appended to the streams they are addressed
    to, and nothing else changed. *)
Record delivered (l : list (Z * string)) (w w' : World) : Prop := {
  dl_tab : w_tab w' = w_tab w;
  dl_send : n_send (w_net w') = n_send (w_net w);
  dl_count : n_NumConnections (w_net w') = n_NumConnections (w_net w);
  dl_len : length (n_conns (w_net w')) = length (n_conns (w_net w));
  dl_io : length (io_events (n_io (w_net w'))) = length (io_events (n_io (w_net w)));
  dl_conns : forall i c c', n_conns (w_net w) !! i = Some c -> n_conns (w_net w') !! i = Some c' ->
    erase c' = erase c /\ stream c' = stream c +:+ lines_for (Z.of_nat i) l }.

(** The network accepts everything. *)
Definition accepts (w : World) : Prop :=
  forall k s, n_send (w_net w) k s = Sent (strlen s).

(** The clients of the connections exist. *)
Definition conn_ok (t : Tables) (i : nat) (c : CONNECTION) : Prop :=
  match cn_client c with Some p => is_Some (t_clients t !! p) | None => True end.

Definition conns_ok (w : World) : Prop :=
  forall i c, n_conns (w_net w) !! i = Some c -> conn_ok (w_tab w) i c.

(** The array of events has an element for a descriptor. *)
Definition has_event (w : World) (fd : Z) : Prop :=
  (Z.to_nat fd < length (io_events (n_io (w_net w))))%nat.

(** Connection [idx] is open. *)
Definition conn_open (w : World) (idx : Z) : Prop :=
  0 <= idx /\ exists c, n_conns (w_net w) !! Z.to_nat idx = Some c /\ cn_sock c = idx /\ has_event w idx.

(** The scratch flags of the connections. *)
Definition flags (w : World) : list Z := map cn_flag (n_conns (w_net w)).

(** The law of the interface. *)
Class ConnIOSpec (io : ConnIO) : Prop := {
  Conn_WriteStr_ok : forall w idx Format args,
    accepts w -> conns_ok w -> conn_open w idx ->
    wp (Conn_WriteStr idx Format args)
      (fun r w' => r = true /\ delivered [(idx, wire_line Format args)] w w' /\ flags w' = flags w) w }.

(** ** Facts about delivery *)

Lemma lines_for_app i l1 l2 : lines_for i (l1 ++ l2) = lines_for i l1 +:+ lines_for i l2.
Proof.
  unfold lines_for. rewrite List.filter_app, map_app.
  induction (map snd (List.filter (fun x => x.1 =? i) l1)) as [|s l IH]; [done|].
  change (str_concat ((s :: l) ++ map snd (List.filter (fun x => x.1 =? i) l2)))
    with (s +:+ str_concat (l ++ map snd (List.filter (fun x => x.1 =? i) l2))).
  rewrite IH. apply str_app_assoc.
Qed.

Lemma lines_for_nil i : lines_for i [] = "".
Proof. done. Qed.

Lemma lines_for_one i j s : lines_for i [(j, s)] = if j =? i then s else "".
Proof. unfold lines_for. simpl. destruct (j =? i); simpl; [apply str_app_nil_r|done]. Qed.

Lemma delivered_refl w : delivered [] w w.
Proof.
  split; try done. intros i c c' Hc Hc'. rewrite lines_for_nil, str_app_nil_r.
  by simplify_eq.
Qed.

Lemma delivered_trans l1 l2 w1 w2 w3 :
  delivered l1 w1 w2 -> delivered l2 w2 w3 -> delivered (l1 ++ l2) w1 w3.
Proof.
  intros [A1 A2 A3 A4 A6 A5] [B1 B2 B3 B4 B6 B5]. split; try congruence.
  intros i c c' Hc Hc'. destruct (lookup_lt_is_Some_2 (n_conns (w_net w2)) i) as [c2 Hc2].
  { rewrite A4. by eapply lookup_lt_Some. }
  destruct (A5 i c c2 Hc Hc2) as [E1 S1]. destruct (B5 i c2 c' Hc2 Hc') as [E2 S2].
  split; [congruence|]. by rewrite S2, S1, lines_for_app, str_app_assoc.
Qed.

Section preserved.
Context (l : list (Z * string)) (w w' : World) (D : delivered l w w').

Lemma delivered_accepts : accepts w -> accepts w'.
Proof using D. unfold accepts. by rewrite (dl_send _ _ _ D). Qed.

Lemma delivered_conn i c' :
  n_conns (w_net w') !! i = Some c' ->
  exists c, n_conns (w_net w) !! i = Some c /\ erase c' = erase c.
Proof using D.
  intros Hc'. destruct (lookup_lt_is_Some_2 (n_conns (w_net w)) i) as [c Hc].
  { rewrite <- (dl_len _ _ _ D). by eapply lookup_lt_Some. }
  exists c. split; [done|]. by apply (dl_conns _ _ _ D i c c').
Qed.

Lemma delivered_conn_fwd i c :
  n_conns (w_net w) !! i = Some c ->
  exists c', n_conns (w_net w') !! i = Some c' /\ erase c' = erase c.
Proof using D.
  intros Hc. destruct (lookup_lt_is_Some_2 (n_conns (w_net w')) i) as [c' Hc'].
  { rewrite (dl_len _ _ _ D). by eapply lookup_lt_Some. }
  exists c'. split; [done|]. by apply (dl_conns _ _ _ D i c c').
Qed.

Lemma delivered_conns_ok : conns_ok w -> conns_ok w'.
Proof using D.
  intros Hok i c' Hc'. destruct (delivered_conn i c' Hc') as (c & Hc & E).
  specialize (Hok i c Hc). unfold conn_ok in *. rewrite (dl_tab _ _ _ D).
  by rewrite (f_equal cn_client E : cn_client c' = cn_client c).
Qed.

Lemma delivered_open idx : conn_open w idx -> conn_open w' idx.
Proof using D.
  intros (Hi & c & Hc & Hs & He). split; [done|].
  destruct (delivered_conn_fwd _ c Hc) as (c' & Hc' & E). exists c'. split; [done|].
  unfold has_event in *. by rewrite (f_equal cn_sock E : cn_sock c' = cn_sock c), (dl_io _ _ _ D).
Qed.

End preserved.

(** Changing connections in ways that [erase] and [stream] do not see. *)
Lemma delivered_conns l w cs :
  length cs = length (n_conns (w_net w)) ->
  (forall i c c', n_conns (w_net w) !! i = Some c -> cs !! i = Some c' ->
     erase c' = erase c /\ stream c' = stream c +:+ lines_for (Z.of_nat i) l) ->
  delivered l w (set_w_net (set_n_conns cs (w_net w)) w).
Proof. intros Hlen Hc. split; try done. Qed.

(** Every line ends in CR LF and fits the limit of the protocol. *)
Lemma wire_line_shape Format args :
  exists text, wire_line Format args = text +:+ CRLF /\ (slen text <= 510)%nat /\
    text = if (slen (sprintf Format args) <=? 510)%nat then sprintf Format args
           else str_take 505 (sprintf Format args) +:+ CUT_TXTSUFFIX.
Proof.
  unfold wire_line; cbv zeta. change (COMMAND_LEN - 2)%nat with 511%nat.
  change (511 - 1)%nat with 510%nat. change (COMMAND_LEN - slen CUT_TXTSUFFIX - 2 - 1)%nat with 505%nat.
  match goal with |- context [strlcat ?x CRLF _] => set (b := x) end.
  assert (slen b <= 510)%nat as Hb.
  { unfold b. destruct (Nat.leb_spec 511 (slen (sprintf Format args)));
      rewrite ?slen_app, ?slen_take; change (slen CUT_TXTSUFFIX) with 5%nat; lia. }
  exists b. split; [|split; [done|]].
  - rewrite strlcat_take by (unfold COMMAND_LEN; lia). apply str_take_all.
    rewrite slen_app. change (slen CRLF) with 2%nat. unfold COMMAND_LEN. lia.
  - unfold b. destruct (Nat.leb_spec 511 (slen (sprintf Format args))).
    + rewrite (proj2 (Nat.leb_gt _ _)) by lia. by rewrite str_take_take by lia.
    + rewrite (proj2 (Nat.leb_le _ _)) by lia. apply str_take_all. lia.
Qed.

Lemma wire_line_length Format args : (2 <= slen (wire_line Format args) <= 512)%nat.
Proof.
  destruct (wire_line_shape Format args) as (text & -> & H & _).
  rewrite slen_app. change (slen CRLF) with 2%nat. lia.
Qed.

(** Changing one connection. *)
Lemma delivered_insert w idx c c' s :
  0 <= idx -> n_conns (w_net w) !! Z.to_nat idx = Some c ->
  erase c' = erase c -> stream c' = stream c +:+ s ->
  delivered [(idx, s)] w
    (set_w_net (set_n_conns (<[Z.to_nat idx := c']> (n_conns (w_net w))) (w_net w)) w).
Proof.
  intros Hi Hc He Hs. apply delivered_conns; [apply length_insert|].
  intros i x x' Hx Hx'. rewrite lines_for_one. destruct (decide (Z.to_nat idx = i)) as [<-|Hne].
  - rewrite list_lookup_insert_eq in Hx' by (eapply lookup_lt_Some; exact Hc). same_some.
    rewrite Z2Nat.id by done. by rewrite Z.eqb_refl.
  - rewrite list_lookup_insert_ne in Hx' by done. same_some.
    rewrite (proj2 (Z.eqb_neq _ _)) by lia. by rewrite str_app_nil_r.
Qed.

Lemma delivered_insert_same w idx c c' :
  0 <= idx -> n_conns (w_net w) !! Z.to_nat idx = Some c ->
  erase c' = erase c -> stream c' = stream c ->
  delivered [] w
    (set_w_net (set_n_conns (<[Z.to_nat idx := c']> (n_conns (w_net w))) (w_net w)) w).
Proof.
  intros Hi Hc He Hs. apply delivered_conns; [apply length_insert|].
  intros i x x' Hx Hx'. rewrite lines_for_nil, str_app_nil_r.
  destruct (decide (Z.to_nat idx = i)) as [<-|Hne].
  - rewrite list_lookup_insert_eq in Hx' by (eapply lookup_lt_Some; exact Hc). by same_some.
  - rewrite list_lookup_insert_ne in Hx' by done. by same_some.
Qed.

(** Changing the counters of the network. *)
Lemma delivered_net w n' :
  n_conns n' = n_conns (w_net w) -> n_send n' = n_send (w_net w) ->
  n_NumConnections n' = n_NumConnections (w_net w) ->
  length (io_events (n_io n')) = length (io_events (n_io (w_net w))) ->
  delivered [] w (set_w_net n' w).
Proof.
  intros H1 H2 H3 H4. split; try (cbn; congruence).
  intros i c c' Hc Hc'. rewrite lines_for_nil, str_app_nil_r. cbn in Hc'. rewrite H1 in Hc'.
  by same_some.
Qed.

Lemma flags_insert w idx c c' :
  n_conns (w_net w) !! idx = Some c -> cn_flag c' = cn_flag c ->
  flags (set_w_net (set_n_conns (<[idx := c']> (n_conns (w_net w))) (w_net w)) w) = flags w.
Proof.
  intros Hc Hf. unfold flags; cbn. rewrite list_fmap_insert, Hf. apply list_insert_id.
  by rewrite list_lookup_fmap, Hc.
Qed.
