(* ===== verification/ChannelCore.v ===== *)
(** * Channels: fields, searches and memberships (src/state/channel/channel.c)

    The operations of channel.c that do not send messages.  The membership
    table is the list [My_Cl2Chan], newest entry first. *)

From S2P Require Import Prelude CString Match Hash Checks Lists World ClientCore.

Definition CHANNEL_NAME_LEN : nat := 51.
Definition CHANNEL_MODE_LEN : nat := 21.
Definition CLIENT_PASS_LEN : nat := 65.

Section ChannelCore.
Context `{Conf} `{ConnIO}.

Definition Channel_Init : M unit :=
  mod_tab (fun t => set_t_My_Cl2Chan [] (set_t_My_Channels [] t)).

(** ** Fields *)

Definition Channel_GetListBans (c : ptr) : M (list list_elem) := x ← the_channel c; mret (ch_bans x).
Definition Channel_GetListExcepts (c : ptr) : M (list list_elem) := x ← the_channel c; mret (ch_excepts x).
Definition Channel_GetListInvites (c : ptr) : M (list list_elem) := x ← the_channel c; mret (ch_invites x).
Definition Channel_Name (Chan : ptr) : M string := c ← the_channel Chan; mret (ch_name c).
Definition Channel_Modes (Chan : ptr) : M string := c ← the_channel Chan; mret (ch_modes c).
Definition Channel_Key (Chan : ptr) : M string := c ← the_channel Chan; mret (ch_key c).
Definition Channel_MaxUsers (Chan : ptr) : M Z := c ← the_channel Chan; mret (ch_maxusers c).
Definition Channel_Topic (Chan : ptr) : M string := c ← the_channel Chan; mret (from_opt "" (ch_topic c)).
Definition Channel_TopicTime (Chan : ptr) : M Z := c ← the_channel Chan; mret (u32 (ch_topic_time c)).
Definition Channel_TopicWho (Chan : ptr) : M string := c ← the_channel Chan; mret (ch_topic_who c).
Definition Channel_CreationTime (Chan : ptr) : M Z := c ← the_channel Chan; mret (u32 (ch_creation_time c)).

Definition Channel_HasMode (Chan : ptr) (Mode : ascii) : M bool :=
  c ← the_channel Chan; mret (has_chr (ch_modes c) Mode).

Definition Channel_IsLocal (Chan : ptr) : M bool :=
  n ← Channel_Name Chan; mret (hd0 n =c "&"%char).

Definition Channel_IsModeless (Chan : ptr) : M bool :=
  n ← Channel_Name Chan; mret (hd0 n =c "+"%char).

Definition Channel_First : M ptr := l ← get_tab t_My_Channels; mret (head l).

Definition Channel_Next (c : ptr) : M ptr :=
  match c with
  | None => crash AssertFailed
  | Some a =>
      _ ← the_channel c;
      l ← get_tab t_My_Channels;
      match next_in a l with Some p => mret p | None => crash UseAfterFree end
  end.

Definition Channel_Search (Name : string) : M ptr :=
  let search_hash := Hash Name in
  l ← get_tab t_My_Channels;
  scan_channels (fun c => (search_hash =? ch_hash c) && strcaseeq Name (ch_name c)) l.

(** The first character is also found if it is the terminator. *)
Definition Channel_IsValidName (Name : string) : bool :=
  if negb (has_chr "#&+" (hd0 Name)) then false
  else if (CHANNEL_NAME_LEN <=? slen Name)%nat then false
  else (strcspn Name (" ,:" +:+ String "007"%char "") =? slen Name)%nat.

(** ** Modes, topic, key and limit *)

Definition Channel_ModeAdd (Chan : ptr) (Mode : ascii) : M bool :=
  c ← the_channel Chan;
  let '(r, modes) := mode_add (ch_modes c) Mode CHANNEL_MODE_LEN in
  store_channel Chan (set_ch_modes modes c);; mret r.

Definition Channel_ModeDel (Chan : ptr) (Mode : ascii) : M bool :=
  c ← the_channel Chan;
  let '(r, modes) := mode_del (ch_modes c) Mode in
  store_channel Chan (set_ch_modes modes c);; mret (r || (Mode =c NUL)).

(** The topic is stored with its terminator, in [strlen(Topic) + 1] bytes. *)
Definition Channel_SetTopic (Chan Client : ptr) (Topic : string) : M unit :=
  c ← the_channel Chan;
  let len := slen Topic in
  let bytes := match ch_topic c with None => 0%nat | Some t => S (slen t) end in
  (if (len <? bytes)%nat then upd_channel Chan (set_ch_topic None) else mret tt);;
  (if (COMMAND_LEN <=? len)%nat then mret tt
   else upd_channel Chan (set_ch_topic (Some Topic)));;
  now ← time;
  upd_channel Chan (set_ch_topic_time now);;
  who ← (if is_null Client then mret None
         else ty ← Client_Type Client;
              if negb (ty =? CLIENT_SERVER) then id ← Client_ID Client; mret (Some id)
              else mret None);
  upd_channel Chan (set_ch_topic_who (strlcpy (from_opt "-Server-" who) CLIENT_NICK_LEN)).

Definition Channel_SetModes (Chan : ptr) (Modes : string) : M unit :=
  upd_channel Chan (set_ch_modes (strlcpy Modes CHANNEL_MODE_LEN)).

Definition Channel_SetKey (Chan : ptr) (Key : string) : M unit :=
  upd_channel Chan (set_ch_key (strlcpy Key CLIENT_PASS_LEN)).

Definition Channel_SetMaxUsers (Chan : ptr) (Count : Z) : M unit :=
  upd_channel Chan (set_ch_maxusers Count).

Definition Channel_AddBan (c : ptr) (mask who : string) : M bool :=
  h ← Channel_GetListBans c;
  now ← time;
  let '(r, h') := Lists_Add true true h mask now (Some who) false in
  upd_channel c (set_ch_bans h');; mret r.

Definition Channel_AddExcept (c : ptr) (mask who : string) : M bool :=
  h ← Channel_GetListExcepts c;
  now ← time;
  let '(r, h') := Lists_Add true true h mask now (Some who) false in
  upd_channel c (set_ch_excepts h');; mret r.

Definition Channel_AddInvite (c : ptr) (mask : string) (onlyonce : bool) (who : string) : M bool :=
  h ← Channel_GetListInvites c;
  now ← time;
  let '(r, h') := Lists_Add true true h mask now (Some who) onlyonce in
  upd_channel c (set_ch_invites h');; mret r.

(** ** Memberships *)

(** [cl2chan->client == Client], [cl2chan->channel == Channel] *)
Definition is_client (p : ptr) (m : CL2CHAN) : bool := ptr_eqb (Some (cc_client m)) p.
Definition is_channel (p : ptr) (m : CL2CHAN) : bool := ptr_eqb (Some (cc_channel m)) p.

Definition is_member (Chan Client : ptr) (m : CL2CHAN) : bool :=
  is_channel Chan m && is_client Client m.

Definition Get_Cl2Chan (Chan Client : ptr) : M (option CL2CHAN) :=
  assert_ (negb (is_null Chan));;
  assert_ (negb (is_null Client));;
  l ← get_tab t_My_Cl2Chan;
  mret (lfind (is_member Chan Client) l).

(** The rest of the list from the first matching entry on. *)
Fixpoint next_cl2chan (Client Channel : ptr) (l : list CL2CHAN) : list CL2CHAN :=
  match l with
  | [] => []
  | m :: l' =>
      if negb (is_null Client) && is_client Client m then l
      else if negb (is_null Channel) && is_channel Channel m then l
      else next_cl2chan Client Channel l'
  end.

Definition Get_Next_Cl2Chan (Start : list CL2CHAN) (Client Channel : ptr) : M (list CL2CHAN) :=
  assert_ (negb (is_null Client) || negb (is_null Channel));;
  mret (next_cl2chan Client Channel Start).

Definition Get_First_Cl2Chan (Client Chan : ptr) : M (list CL2CHAN) :=
  l ← get_tab t_My_Cl2Chan; Get_Next_Cl2Chan l Client Chan.

Definition Channel_FirstMember (Chan : ptr) : M (list CL2CHAN) :=
  assert_ (negb (is_null Chan));; Get_First_Cl2Chan NULL Chan.

Definition Channel_NextMember (Chan : ptr) (Cl2Chan : list CL2CHAN) : M (list CL2CHAN) :=
  assert_ (negb (is_null Chan));;
  match Cl2Chan with [] => crash AssertFailed | _ :: l => Get_Next_Cl2Chan l NULL Chan end.

Definition Channel_FirstChannelOf (Client : ptr) : M (list CL2CHAN) :=
  assert_ (negb (is_null Client));; Get_First_Cl2Chan Client NULL.

Definition Channel_NextChannelOf (Client : ptr) (Cl2Chan : list CL2CHAN) : M (list CL2CHAN) :=
  assert_ (negb (is_null Client));;
  match Cl2Chan with [] => crash AssertFailed | _ :: l => Get_Next_Cl2Chan l Client NULL end.

Definition Channel_GetClient (Cl2Chan : list CL2CHAN) : M ptr :=
  match Cl2Chan with [] => crash AssertFailed | m :: _ => mret (Some (cc_client m)) end.

Definition Channel_GetChannel (Cl2Chan : list CL2CHAN) : M ptr :=
  match Cl2Chan with [] => crash AssertFailed | m :: _ => mret (Some (cc_channel m)) end.

Definition Channel_IsMemberOf (Chan Client : ptr) : M bool :=
  m ← Get_Cl2Chan Chan Client; mret (is_some m).

Definition Channel_UserModes (Chan Client : ptr) : M string :=
  m ← Get_Cl2Chan Chan Client;
  match m with None => crash AssertFailed | Some m => mret (cc_modes m) end.

Definition Channel_UserHasMode (Chan Client : ptr) (Mode : ascii) : M bool :=
  assert_ (0 <? char_val Mode);;
  modes ← Channel_UserModes Chan Client;
  mret (match modes with "" => false | _ => has_chr modes Mode end).

(** Changes the first entry for a channel and a client. *)
Fixpoint update_member (Chan Client : ptr) (f : CL2CHAN -> CL2CHAN) (l : list CL2CHAN) : list CL2CHAN :=
  match l with
  | [] => []
  | m :: l' => if is_member Chan Client m then f m :: l' else m :: update_member Chan Client f l'
  end.

Definition Channel_UserModeAdd (Chan Client : ptr) (Mode : ascii) : M bool :=
  m ← Get_Cl2Chan Chan Client;
  match m with
  | None => crash AssertFailed
  | Some m =>
      let '(r, modes) := mode_add (cc_modes m) Mode CHANNEL_MODE_LEN in
      mod_tab (fun t => set_t_My_Cl2Chan
                 (update_member Chan Client (set_cc_modes modes) (t_My_Cl2Chan t)) t);;
      mret r
  end.

Definition Channel_UserModeDel (Chan Client : ptr) (Mode : ascii) : M bool :=
  m ← Get_Cl2Chan Chan Client;
  match m with
  | None => crash AssertFailed
  | Some m =>
      let '(r, modes) := mode_del (cc_modes m) Mode in
      mod_tab (fun t => set_t_My_Cl2Chan
                 (update_member Chan Client (set_cc_modes modes) (t_My_Cl2Chan t)) t);;
      mret (r || (Mode =c NUL))
  end.

Definition Add_Client (Chan Client : ptr) : M bool :=
  match Chan, Client with
  | Some ch, Some cl =>
      mod_tab (fun t => set_t_My_Cl2Chan (Cl2Chan cl ch "" :: t_My_Cl2Chan t) t);;
      _ ← Client_Mask Client;
      mret true
  | _, _ => crash AssertFailed
  end.

Definition Channel_MemberCount (Chan : ptr) : M Z :=
  assert_ (negb (is_null Chan));;
  l ← get_tab t_My_Cl2Chan; mret (count_if (is_channel Chan) l).

Definition Channel_CountForUser (Client : ptr) : M Z :=
  assert_ (negb (is_null Client));;
  l ← get_tab t_My_Cl2Chan; mret (count_if (is_client Client) l).

Fixpoint count_visible (Client : ptr) (l : list nat) : M Z :=
  match l with
  | [] => mret 0
  | a :: l' =>
      v ← (if negb (is_null Client) then
             (not_ (Channel_HasMode (Some a) "s") <||> Channel_IsMemberOf (Some a) Client)
           else mret true);
      n ← count_visible Client l';
      mret ((if v : bool then 1 else 0) + n)
  end.

Definition Channel_CountVisible (Client : ptr) : M Z :=
  l ← get_tab t_My_Channels; count_visible Client l.

(** ** Creation and removal *)

Definition Channel_Create (Name : string) : M ptr :=
  a ← malloc;
  now ← time;
  let name := strlcpy Name CHANNEL_NAME_LEN in
  store_channel (Some a) (Channel name (Hash name) "" None now 0 "" "" 0 [] [] [] None);;
  mod_tab (fun t => set_t_My_Channels (a :: t_My_Channels t) t);;
  mret (Some a).

Definition Free_Channel (chan : ptr) : M unit :=
  match chan with
  | None => crash NullDeref
  | Some a => _ ← deref_channel chan; mod_tab (fun t => set_t_channels (delete a (t_channels t)) t)
  end.

Definition Delete_Channel (Chan : ptr) : M unit :=
  l ← get_tab t_My_Channels;
  assert_ (existsb (fun a => ptr_eqb (Some a) Chan) l);;
  mod_tab (fun t => set_t_My_Channels
             (remove_first (fun a => ptr_eqb (Some a) Chan) (t_My_Channels t)) t);;
  Free_Channel Chan.

End ChannelCore.
