(* ===== verification/State.v ===== *)
(** * Well-formed states

    The invariant of the client, channel and connection tables on which the
    theorems about stateful operations rest, the next hop of a client as a
    function of the tables, and the rules that evaluate the accessors of client.c
    in a well-formed state. *)

From S2P Require Import Prelude CString Match Hash Checks Lists World ClientCore ConnFunc.
From S2P Require Import ConnSpec ChannelCore.

(** ** Reading the tables *)

(** The results of [Client_ID], [Client_Mask] and [Client_MaskCloaked]. *)
Definition id_of (c : CLIENT) : string := match cl_id c with "" => "*" | id => id end.

Definition mask (c : CLIENT) : string :=
  if cl_type c =? CLIENT_SERVER then cl_id c else mask_of (cl_id c) (cl_user c) (cl_host c).

Definition mask_cloaked (c : CLIENT) : string :=
  if has_chr (cl_modes c) "x" then mask_of (cl_id c) (cl_user c) (from_opt "(null)" (cl_cloaked c))
  else mask c.

(** The next hop: the client of the connection over which a client is reached. *)
Fixpoint hop_of (fuel : nat) (t : Tables) (a : nat) : option nat :=
  match fuel with
  | O => None
  | S fuel' =>
      x ← t_clients t !! a;
      match cl_introducer x with
      | None => Some a
      | Some i => if decide (i = a \/ i = t_This_Server t) then Some a else hop_of fuel' t i
      end
  end.

Definition hop (t : Tables) (a : nat) : option nat := hop_of (S (size (t_clients t))) t a.

Section State.
Context `{Conf}.

(** A user's nickname fits the configured length, and a client with mode x has
    its cloaked host name. *)
Definition client_ok (c : CLIENT) : bool :=
  (negb (cl_type c =? CLIENT_USER) || (slen (cl_id c) <? Conf_MaxNickLength)%nat) &&
  (negb (has_chr (cl_modes c) "x") || is_some (cl_cloaked c)).

(** A local client: its connection is open, belongs to it, and is its hop. *)
Definition local_ok (w : World) (a : nat) (c : CLIENT) : Prop :=
  cl_conn_id c = NONE \/
  (conn_open w (cl_conn_id c) /\ hop (w_tab w) a = Some a /\
   (cn_client <$> n_conns (w_net w) !! Z.to_nat (cl_conn_id c)) = Some (Some a)).

(** A client that can be reached: its hop has an open connection. *)
Definition routed (w : World) (a : nat) : Prop :=
  exists h x, hop (w_tab w) a = Some h /\ t_clients (w_tab w) !! h = Some x /\
    NONE < cl_conn_id x.

(** A membership: the client is a reachable client other than this server, the
    channel exists. *)
Definition member_ok (w : World) (m : CL2CHAN) : Prop :=
  routed w (cc_client m) /\ cc_channel m ∈ t_My_Channels (w_tab w).

Record state_ok (w : World) : Prop := {
  so_accepts : accepts w;
  so_conns : conns_ok w;
  so_socks : forall i c, n_conns (w_net w) !! i = Some c ->
    cn_sock c = NONE \/ (cn_sock c = Z.of_nat i /\ has_event w (Z.of_nat i));
  so_owner : forall i c h, n_conns (w_net w) !! i = Some c -> cn_client c = Some h ->
    cl_conn_id <$> t_clients (w_tab w) !! h = Some (Z.of_nat i);
  so_clients : forall a c, t_clients (w_tab w) !! a = Some c -> client_ok c = true;
  so_local : forall a c, t_clients (w_tab w) !! a = Some c -> local_ok w a c;
  so_nodup : NoDup (t_My_Clients (w_tab w));
  so_listed : Forall (fun a => is_Some (t_clients (w_tab w) !! a)) (t_My_Clients (w_tab w));
  so_this : is_Some (t_clients (w_tab w) !! t_This_Server (w_tab w));
  so_this_hop : hop (w_tab w) (t_This_Server (w_tab w)) = Some (t_This_Server (w_tab w));
  so_channels : Forall (fun a => is_Some (t_channels (w_tab w) !! a)) (t_My_Channels (w_tab w));
  so_chan_nodup : NoDup (t_My_Channels (w_tab w));
  so_members : Forall (member_ok w) (t_My_Cl2Chan (w_tab w));
  so_memb_nodup : NoDup (map (fun m => (cc_client m, cc_channel m)) (t_My_Cl2Chan (w_tab w))) }.

End State.

(** ** Evaluating accessors *)

Lemma next_hop_of fuel t a h w (Q : ptr -> World -> Prop) :
  w_tab w = t -> hop_of fuel t a = Some h -> Q (Some h) w -> wp (next_hop fuel (Some a)) Q w.
Proof.
  intros Ht. revert a. induction fuel as [|n IH]; intros a Hh HQ; [done|].
  cbn [hop_of next_hop] in *. destruct (t_clients t !! a) as [x|] eqn:Ex; [|done].
  change (Some x ≫= ?f) with (f x) in Hh. cbv beta in Hh. rewrite <- Ht in Ex.
  wp_step. eapply wp_load_client; [exact Ex|]. unfold Client_ThisServer. wp_steps.
  destruct (cl_introducer x) as [i|]; cbn [is_null negb andb].
  - unfold ptr_eqb. rewrite Ht. destruct (decide (i = a \/ i = t_This_Server t)) as [Hi|Hi].
    + injection Hh as <-.
      destruct Hi as [->| ->]; rewrite (bool_decide_eq_true_2 _ eq_refl); cbn [negb andb];
        rewrite ?andb_false_r; by wp_step.
    + rewrite !bool_decide_eq_false_2 by naive_solver. simpl. by apply IH.
  - injection Hh as <-. by wp_step.
Qed.

Section accessors.
Context `{Conf} `{ConnIO}.
Context (t : Tables) (w : World) (Ht : w_tab w = t).

Lemma wp_NextHop a h (Q : ptr -> World -> Prop) :
  hop t a = Some h -> Q (Some h) w -> wp (Client_NextHop (Some a)) Q w.
Proof using Ht.
  intros Hh HQ. unfold Client_NextHop. wp_steps. rewrite Ht. by eapply next_hop_of.
Qed.

Lemma wp_client e a c (Q : CLIENT -> World -> Prop) :
  t_clients t !! a = Some c -> Q c w -> wp (load_client e (Some a)) Q w.
Proof using Ht. rewrite <- Ht. apply wp_load_client. Qed.

Lemma wp_channel e a c (Q : CHANNEL -> World -> Prop) :
  t_channels t !! a = Some c -> Q c w -> wp (load_channel e (Some a)) Q w.
Proof using Ht. rewrite <- Ht. apply wp_load_channel. Qed.

Lemma wp_Client_Type a c (Q : Z -> World -> Prop) :
  t_clients t !! a = Some c -> Q (cl_type c) w -> wp (Client_Type (Some a)) Q w.
Proof using Ht. intros Hc HQ. apply wp_bind. by eapply wp_client. Qed.

Lemma wp_Client_Conn a c (Q : Z -> World -> Prop) :
  t_clients t !! a = Some c -> Q (cl_conn_id c) w -> wp (Client_Conn (Some a)) Q w.
Proof using Ht. intros Hc HQ. apply wp_bind. by eapply wp_client. Qed.

Lemma wp_Client_HasMode a c m (Q : bool -> World -> Prop) :
  t_clients t !! a = Some c -> Q (has_chr (cl_modes c) m) w -> wp (Client_HasMode (Some a) m) Q w.
Proof using Ht. intros Hc HQ. apply wp_bind. by eapply wp_client. Qed.

Lemma wp_Client_HasFlag a c f (Q : bool -> World -> Prop) :
  t_clients t !! a = Some c -> Q (has_chr (cl_flags c) f) w -> wp (Client_HasFlag (Some a) f) Q w.
Proof using Ht. intros Hc HQ. apply wp_bind. by eapply wp_client. Qed.

Lemma wp_Client_ID a c (Q : string -> World -> Prop) :
  t_clients t !! a = Some c -> client_ok c = true -> Q (id_of c) w -> wp (Client_ID (Some a)) Q w.
Proof using Ht.
  intros Hc Hok HQ. apply wp_bind. eapply wp_client; [done|]. wp_step. wp_step; [|by wp_step].
  unfold client_ok in Hok. by apply andb_prop in Hok as [? _].
Qed.

Lemma wp_Client_Mask a c (Q : string -> World -> Prop) :
  t_clients t !! a = Some c -> Q (mask c) w -> wp (Client_Mask (Some a)) Q w.
Proof using Ht. intros Hc HQ. apply wp_bind. by eapply wp_client. Qed.

Lemma wp_Client_MaskCloaked a c (Q : string -> World -> Prop) :
  t_clients t !! a = Some c -> client_ok c = true -> Q (mask_cloaked c) w ->
  wp (Client_MaskCloaked (Some a)) Q w.
Proof using Ht.
  intros Hc Hok HQ. unfold Client_MaskCloaked. wp_step. eapply wp_Client_HasMode; [done|].
  unfold mask_cloaked in HQ. unfold client_ok in Hok. apply andb_prop in Hok as [_ Hx].
  destruct (has_chr (cl_modes c) "x") eqn:Ex; cbn [negb] in *.
  - wp_step. eapply wp_client; [done|]. wp_step. unfold Client_HostnameDisplayed.
    wp_step. eapply wp_Client_HasMode; [done|]. rewrite Ex; cbn [negb].
    wp_step. eapply wp_client; [done|]. destruct (cl_cloaked c); [|done]. by wp_steps.
  - by eapply wp_Client_Mask.
Qed.

Lemma wp_ThisServer (Q : ptr -> World -> Prop) :
  Q (Some (t_This_Server t)) w -> wp Client_ThisServer Q w.
Proof using Ht. unfold Client_ThisServer. intros HQ. wp_steps. by rewrite Ht. Qed.

Lemma wp_get_tables {A} (f : Tables -> A) (Q : A -> World -> Prop) :
  Q (f t) w -> wp (get_tab f) Q w.
Proof using Ht. rewrite <- Ht. done. Qed.

Lemma wp_Channel_Name a c (Q : string -> World -> Prop) :
  t_channels t !! a = Some c -> Q (ch_name c) w -> wp (Channel_Name (Some a)) Q w.
Proof using Ht. intros Hc HQ. apply wp_bind. by eapply wp_channel. Qed.

Lemma wp_Channel_HasMode a c m (Q : bool -> World -> Prop) :
  t_channels t !! a = Some c -> Q (has_chr (ch_modes c) m) w -> wp (Channel_HasMode (Some a) m) Q w.
Proof using Ht. intros Hc HQ. apply wp_bind. by eapply wp_channel. Qed.

End accessors.

(** One step of a command whose tables are known by an equation
    [w_tab w = t]. *)
Ltac rd :=
  cbv beta;
  lazymatch goal with
  | |- wp (Client_Type _) _ _ => eapply wp_Client_Type; [eassumption|eassumption|]
  | |- wp (Client_Conn _) _ _ => eapply wp_Client_Conn; [eassumption|eassumption|]
  | |- wp (Client_HasMode _ _) _ _ => eapply wp_Client_HasMode; [eassumption|eassumption|]
  | |- wp (Client_HasFlag _ _) _ _ => eapply wp_Client_HasFlag; [eassumption|eassumption|]
  | |- wp (Client_ID _) _ _ => eapply wp_Client_ID; [eassumption|eassumption|eassumption|]
  | |- wp (Client_Mask _) _ _ => eapply wp_Client_Mask; [eassumption|eassumption|]
  | |- wp (Client_MaskCloaked _) _ _ =>
      eapply wp_Client_MaskCloaked; [eassumption|eassumption|eassumption|]
  | |- wp (Client_NextHop _) _ _ => eapply wp_NextHop; [eassumption|eassumption|]
  | |- wp Client_ThisServer _ _ => eapply wp_ThisServer; [eassumption|]
  | |- wp (load_client _ _) _ _ => eapply wp_client; [eassumption|eassumption|]
  | |- wp (Channel_Name _) _ _ => eapply wp_Channel_Name; [eassumption|eassumption|]
  | |- wp (Channel_HasMode _ _) _ _ => eapply wp_Channel_HasMode; [eassumption|eassumption|]
  | |- wp (load_channel _ _) _ _ => eapply wp_channel; [eassumption|eassumption|]
  end.

(** Delivery preserves well-formed states. *)
Lemma delivered_state_ok `{Conf} l w w' : delivered l w w' -> state_ok w -> state_ok w'.
Proof.
  intros D [A B C1 C0 C2 C3 C4 C5 C6 C6' C7 C8 C9 C10]. pose proof (dl_tab _ _ _ D) as Ht.
  assert (Hl : forall a c, local_ok w a c -> local_ok w' a c).
  { intros a c [Hn|(Ho & Hh & Hc)]; [by left|right].
    split; [by eapply delivered_open|]. rewrite Ht. split; [done|].
    destruct (n_conns (w_net w) !! Z.to_nat (cl_conn_id c)) as [cn|] eqn:E; [|done].
    destruct (delivered_conn_fwd _ _ _ D _ _ E) as (cn' & -> & E').
    cbn in *. by rewrite (f_equal cn_client E' : cn_client cn' = cn_client cn). }
  split; rewrite ?Ht; try done.
  - by eapply delivered_accepts.
  - by eapply delivered_conns_ok.
  - intros i c' Hc'. destruct (delivered_conn _ _ _ D _ _ Hc') as (c & Hc & E).
    rewrite (f_equal cn_sock E : cn_sock c' = cn_sock c). unfold has_event in *. rewrite (dl_io _ _ _ D). by eapply C1.
  - intros i c' h Hc' Hh. destruct (delivered_conn _ _ _ D _ _ Hc') as (c & Hc & E).
    apply (C0 i c h Hc). by rewrite <- (f_equal cn_client E : cn_client c' = cn_client c).
  - intros a c Hc. by apply Hl, C3.
  - eapply Forall_impl; [|exact C9]. intros m [(h & x & Hh & Hx & Ho) Hch].
    split; [|by rewrite Ht]. exists h, x. by rewrite Ht.
Qed.

(** ** Searching by name *)

Lemma scan_clients_ok test l w :
  Forall (fun a => is_Some (t_clients (w_tab w) !! a)) l ->
  scan_clients test l w =
    Done (lfind (fun a => match t_clients (w_tab w) !! a with
                          | Some c => test (Some a) c | None => false end) l) w.
Proof.
  induction l as [|a l IH]; intros Hl; [done|]. destruct (Forall_cons_1 _ _ _ Hl) as [[c Hc] Hl'].
  cbn [scan_clients lfind]. unfold mbind, M_bind, load_client. rewrite Hc.
  destruct (test (Some a) c); [done|]. by apply IH.
Qed.

Lemma scan_channels_ok test l w :
  Forall (fun a => is_Some (t_channels (w_tab w) !! a)) l ->
  scan_channels test l w =
    Done (lfind (fun a => match t_channels (w_tab w) !! a with
                          | Some c => test c | None => false end) l) w.
Proof.
  induction l as [|a l IH]; intros Hl; [done|]. destruct (Forall_cons_1 _ _ _ Hl) as [[c Hc] Hl'].
  cbn [scan_channels lfind]. unfold mbind, M_bind, load_channel. rewrite Hc.
  destruct (test c); [done|]. by apply IH.
Qed.

(** The channel with a given name, modulo case. *)
Definition find_channel (t : Tables) (Name : string) : option nat :=
  lfind (fun a => match t_channels t !! a with
                  | Some c => strcaseeq Name (ch_name c) | None => false end) (t_My_Channels t).

(** The client with a given ID, modulo case. *)
Definition find_client (t : Tables) (ID : string) : option nat :=
  lfind (fun a => match t_clients t !! a with
                  | Some c => strcaseeq (cl_id c) ID | None => false end) (t_My_Clients t).

(** The channel table: hash values belong to the names, names are unique modulo
    case, no channel is empty unless it is predefined, and addresses are in use
    before the next fresh one. *)
Record channels_ok (t : Tables) : Prop := {
  ck_hash : forall a c, t_channels t !! a = Some c -> ch_hash c = Hash (ch_name c);
  ck_unique : forall a b c d, a ∈ t_My_Channels t -> b ∈ t_My_Channels t ->
    t_channels t !! a = Some c -> t_channels t !! b = Some d ->
    case_eq (ch_name c) (ch_name d) -> a = b;
  ck_used : forall a c, a ∈ t_My_Channels t -> t_channels t !! a = Some c ->
    has_chr (ch_modes c) "P" = true \/ existsb (is_channel (Some a)) (t_My_Cl2Chan t) = true;
  ck_fresh : forall a, is_Some (t_channels t !! a) -> (a < t_fresh t)%nat }.

(** The client table: hash values belong to the IDs. *)
Definition ids_hashed (t : Tables) : Prop :=
  forall a c, t_clients t !! a = Some c -> cl_id c <> "" -> cl_hash c = Hash (cl_id c).

Lemma Channel_Search_ok w Name :
  Forall (fun a => is_Some (t_channels (w_tab w) !! a)) (t_My_Channels (w_tab w)) ->
  channels_ok (w_tab w) ->
  Channel_Search Name w = Done (find_channel (w_tab w) Name) w.
Proof.
  intros Hl Hok. unfold Channel_Search, mbind, M_bind, get_tab.
  rewrite scan_channels_ok by done. f_equal. unfold find_channel. apply lfind_ext.
  intros a _. destruct (t_channels (w_tab w) !! a) as [c|] eqn:E; [|done].
  rewrite (ck_hash _ Hok a c E). destruct (strcaseeq Name (ch_name c)) eqn:Es.
  - apply strcaseeq_spec in Es. by rewrite (Hash_proper _ _ Es), Z.eqb_refl.
  - apply andb_false_r.
Qed.

Lemma find_channel_Some t Name a :
  find_channel t Name = Some a ->
  a ∈ t_My_Channels t /\ exists c, t_channels t !! a = Some c /\ case_eq Name (ch_name c).
Proof.
  intros Hf. apply lfind_Some in Hf as [Ha Hc]. split; [done|].
  destruct (t_channels t !! a) as [c|]; [|done]. exists c. split; [done|]. by apply strcaseeq_spec.
Qed.

Lemma find_channel_None t Name a c :
  find_channel t Name = None -> a ∈ t_My_Channels t -> t_channels t !! a = Some c ->
  ~ case_eq Name (ch_name c).
Proof.
  intros Hf Ha Hc He. unfold find_channel in Hf. rewrite lfind_None in Hf.
  specialize (Hf a Ha). rewrite Hc in Hf. apply strcaseeq_spec in He. congruence.
Qed.

Lemma Client_Search_ok `{Conf} w Nick :
  Forall (fun a => is_Some (t_clients (w_tab w) !! a)) (t_My_Clients (w_tab w)) ->
  ids_hashed (w_tab w) ->
  let id := before "!" (strlcpy Nick CLIENT_ID_LEN) in
  id <> "" -> Client_Search Nick w = Done (find_client (w_tab w) id) w.
Proof.
  intros Hl Hh id Hid. unfold Client_Search, mbind, M_bind, get_tab.
  rewrite scan_clients_ok by done. f_equal. unfold find_client. apply lfind_ext. fold id.
  intros a _. destruct (t_clients (w_tab w) !! a) as [c|] eqn:E; [|done].
  destruct (strcaseeq (cl_id c) id) eqn:Es; [|apply andb_false_r].
  apply strcaseeq_spec in Es. rewrite (Hh a c E).
  - by rewrite (Hash_proper _ _ Es), Z.eqb_refl.
  - intros E0. rewrite E0 in Es. apply (f_equal slen) in Es. rewrite !slen_lower in Es.
    revert Hid Es. clearbody id. by destruct id.
Qed.

(** ** Properties *)

(** C39: searching a channel.  [Channel_Search], which compares hash values first,
    finds exactly the channel whose name equals the given one modulo case, for
    every spelling of the name, and NULL if there is none. *)
Theorem Channel_Search_spec w Name :
  Forall (fun a => is_Some (t_channels (w_tab w) !! a)) (t_My_Channels (w_tab w)) ->
  channels_ok (w_tab w) ->
  exists r, Channel_Search Name w = Done r w /\
    (forall a, r = Some a <-> a ∈ t_My_Channels (w_tab w) /\
       exists c, t_channels (w_tab w) !! a = Some c /\ case_eq Name (ch_name c)).
Proof.
  intros Hl Hok. exists (find_channel (w_tab w) Name). split; [by apply Channel_Search_ok|].
  intros a. split; [apply find_channel_Some|]. intros (Ha & c & Hc & He).
  destruct (find_channel (w_tab w) Name) as [b|] eqn:E.
  - apply find_channel_Some in E as (Hb & d & Hd & He'). f_equal.
    apply (ck_unique _ Hok b a d c Hb Ha Hd Hc). congruence.
  - by destruct (find_channel_None _ _ _ _ E Ha Hc).
Qed.

(** Searching a client.  [Client_Search] ignores a host mask behind the
    nickname and finds, with the help of the hash values, the first client whose
    ID equals the nickname modulo case; unregistered clients have no ID and are
    never found. *)
Theorem Client_Search_spec `{Conf} w Nick :
  Forall (fun a => is_Some (t_clients (w_tab w) !! a)) (t_My_Clients (w_tab w)) ->
  ids_hashed (w_tab w) ->
  let id := before "!" (strlcpy Nick CLIENT_ID_LEN) in
  id <> "" -> Client_Search Nick w = Done (find_client (w_tab w) id) w.
Proof. apply Client_Search_ok. Qed.
