(* ===== verification/ClientSpec.v ===== *)
(** * Clients: modes, names, tokens and routes

    The contracts of the operations of [ClientCore] and [ChannelCore] that only
    read and change the tables: mode strings are sets of characters, the
    grammars of nicknames and channel names, server tokens are fresh, the next
    hop of a client is found. *)

From S2P Require Import Prelude CString Match Hash Checks Lists World ClientCore ConnFunc.
From S2P Require Import ConnSpec ChannelCore State.

(** ** Mode strings are sets *)

Lemma mode_add_new modes m size :
  has_chr modes m = false -> (slen modes + 1 < size)%nat ->
  mode_add modes m size = (true, modes +:+ String m "").
Proof.
  intros Hm Hl. unfold mode_add. rewrite Hm. f_equal.
  rewrite strlcat_take by lia. apply str_take_all. rewrite slen_app. simpl. lia.
Qed.

Lemma mode_del_app modes m s :
  str_mem m modes = false -> mode_del (modes +:+ String m s) m = (true, modes +:+ s).
Proof.
  induction modes as [|a l IH]; cbn; intros Hm; [by rewrite Ascii.eqb_refl|].
  apply orb_false_elim in Hm as [H1 H2]. by rewrite H1, IH.
Qed.

Lemma mode_del_spec modes m :
  str_nodup modes = true ->
  let '(r, modes') := mode_del modes m in
  r = str_mem m modes /\ str_nodup modes' = true /\
  forall x, str_mem x modes' = str_mem x modes && negb (x =c m).
Proof.
  induction modes as [|a l IH]; cbn; [done|]. intros [Ha Hl]%andb_prop. apply negb_true_iff in Ha.
  destruct (a =c m) eqn:E.
  - apply Ascii.eqb_eq in E as <-. split; [done|]. split; [done|]. intros x.
    rewrite (Ascii.eqb_sym a x). destruct (x =c a) eqn:Ex; cbn; [|by rewrite andb_true_r].
    apply Ascii.eqb_eq in Ex as ->. done.
  - specialize (IH Hl). destruct (mode_del l m) as [r l']. destruct IH as (-> & H1 & H2).
    split; [done|]. cbn. split.
    + by rewrite H2, Ha, H1.
    + intros x. rewrite H2. destruct (a =c x) eqn:Ex; cbn; [|done].
      apply Ascii.eqb_eq in Ex as <-. by rewrite E.
Qed.

(** The world in which a client has other modes. *)
Definition with_modes (w : World) (a : nat) (c : CLIENT) (modes : string) : World :=
  set_w_tab (set_t_clients (<[a := set_cl_modes modes c]> (t_clients (w_tab w))) (w_tab w)) w.

(** The modes of a client are a set.  While there is room, [Client_ModeAdd]
    adds exactly the given mode and reports whether it was missing, without
    making duplicates; [Client_ModeDel] then removes exactly that mode, and gives
    back the string as it was if the mode was new. *)
Theorem Client_Mode_spec w a c m :
  t_clients (w_tab w) !! a = Some c -> m <> NUL -> str_nodup (cl_modes c) = true ->
  (slen (cl_modes c) + 1 < CLIENT_MODE_LEN)%nat ->
  exists added deleted,
    Client_ModeAdd (Some a) m w = Done (negb (has_chr (cl_modes c) m)) (with_modes w a c added) /\
    str_nodup added = true /\
    (forall x, str_mem x added = (x =c m) || str_mem x (cl_modes c)) /\
    Client_ModeDel (Some a) m (with_modes w a c added) = Done true (with_modes w a c deleted) /\
    str_nodup deleted = true /\
    (forall x, str_mem x deleted = negb (x =c m) && str_mem x (cl_modes c)) /\
    (has_chr (cl_modes c) m = false -> deleted = cl_modes c).
Proof.
  intros Hc Hm Hn Hl. pose proof (strchr_mem (cl_modes c) m Hm) as Hmem.
  assert (Hadd : forall b, mode_add (cl_modes c) m CLIENT_MODE_LEN = (negb (has_chr (cl_modes c) m), b) ->
    Client_ModeAdd (Some a) m w = Done (negb (has_chr (cl_modes c) m)) (with_modes w a c b)).
  { intros b Hb. unfold Client_ModeAdd, mbind, M_bind, load_client. rewrite Hc. by rewrite Hb. }
  assert (Hdel : forall b d, mode_del b m = (true, d) ->
    Client_ModeDel (Some a) m (with_modes w a c b) = Done true (with_modes w a c d)).
  { intros b d Hb. unfold Client_ModeDel, mbind, M_bind, load_client, with_modes. cbn.
    rewrite lookup_insert_eq. cbn. rewrite Hb. cbn. by rewrite insert_insert_eq. }
  pose proof (mode_del_spec (cl_modes c) m Hn) as Hd.
  destruct (has_chr (cl_modes c) m) eqn:Em; rewrite <- Hmem in Hd.
  - destruct (mode_del (cl_modes c) m) as [r d] eqn:Ed. destruct Hd as (-> & Hd1 & Hd2).
    exists (cl_modes c), d. split; [apply Hadd; unfold mode_add; by rewrite Em|]. split; [done|].
    split; [|split; [by apply Hdel|]].
    + intros x. destruct (x =c m) eqn:Ex; [|done]. apply Ascii.eqb_eq in Ex as ->. by rewrite <- Hmem.
    + split; [done|]. split; [|done]. intros x. by rewrite Hd2, andb_comm.
  - exists (cl_modes c +:+ String m ""), (cl_modes c). symmetry in Hmem.
    split; [apply Hadd; by apply mode_add_new|]. split; [|split; [|split; [|split; [done|]]]].
    + apply str_nodup_app. split; [done|]. split; [done|]. intros x Hx. cbn.
      destruct (m =c x) eqn:Ex; [|done]. apply Ascii.eqb_eq in Ex as ->. congruence.
    + intros x. rewrite str_mem_app. cbn. rewrite orb_false_r, (Ascii.eqb_sym m x). apply orb_comm.
    + apply Hdel. rewrite mode_del_app by done. by rewrite str_app_nil_r.
    + split; [|done]. intros x. destruct (x =c m) eqn:Ex; [|done]. by apply Ascii.eqb_eq in Ex as ->.
Qed.

(** ** Names *)

(** The characters of nicknames. *)
Definition letters : string := "ABCDEFGHIJKLMNOPQRSTUVWXYZabcdefghijklmnopqrstuvwxyz".
Definition specials : string := "[\]^_`{|}".

Lemma nick_char_spec c : c <> NUL ->
  nick_char_ok c = str_mem c letters || str_mem c specials || str_mem c goodchars.
Proof. intros Hc. all_chars c. by destruct Hc. Qed.

Lemma not_good_first c : has_chr goodchars c = false -> c <> NUL /\ str_mem c goodchars = false.
Proof.
  intros Hg. assert (Hc : c <> NUL) by (intros ->; by rewrite has_chr_NUL in Hg).
  split; [done|]. by rewrite <- strchr_mem.
Qed.

Fixpoint no_nul (s : string) : bool :=
  match s with "" => true | String c s' => negb (c =c NUL) && no_nul s' end.

Lemma nick_chars_spec s : no_nul s = true ->
  (str_forall nick_char_ok s = true <->
   forall c, str_mem c s = true -> str_mem c letters || str_mem c specials || str_mem c goodchars = true).
Proof.
  induction s as [|a s IH]; cbn [no_nul str_forall str_mem]; [done|].
  intros [Ha Hs]%andb_prop. apply negb_true_iff, Ascii.eqb_neq in Ha.
  rewrite andb_true_iff, IH, (nick_char_spec a Ha) by done. split.
  - intros [H1 H2] c [E|E]%orb_prop; [|auto]. by apply Ascii.eqb_eq in E as <-.
  - intros Hc. split; [apply Hc; by rewrite Ascii.eqb_refl|]. intros c E. apply Hc. by rewrite E, orb_true_r.
Qed.

(** Valid nicknames.  [Client_IsValidNick] accepts exactly the names that
    start with a letter or one of the special characters, contain only letters,
    digits, special characters, minus signs and semicolons, and are shorter than
    the configured length; in particular no empty name. *)
Theorem Client_IsValidNick_spec `{Conf} Nick :
  no_nul Nick = true ->
  (Client_IsValidNick Nick = true <->
   (slen Nick < Conf_MaxNickLength)%nat /\
   (str_mem (hd0 Nick) letters || str_mem (hd0 Nick) specials = true) /\
   (forall c, str_mem c Nick = true ->
      str_mem c letters || str_mem c specials || str_mem c goodchars = true)).
Proof.
  intros Hn. unfold Client_IsValidNick. rewrite <- nick_chars_spec by done.
  destruct Nick as [|a s].
  { cbn [hd0]. rewrite has_chr_NUL. split; [done|]. intros (_ & Hx & _). done. }
  cbn [hd0]. assert (Ha : a <> NUL).
  { cbn in Hn. apply andb_prop in Hn as [Hn _]. by apply negb_true_iff, Ascii.eqb_neq in Hn. }
  rewrite strchr_mem by done.
  destruct (Nat.leb_spec Conf_MaxNickLength (slen (String a s))) as [Hl|Hl].
  { destruct (str_mem a goodchars); (split; [done|lia]). }
  destruct (str_mem a goodchars) eqn:Eg.
  - split; [done|]. intros (_ & Hx & _). exfalso. clear -Eg Hx. by all_chars a.
  - split; [|tauto]. intros Hx. split; [done|]. split; [|done].
    cbn [str_forall] in Hx. apply andb_prop in Hx as [Hx _].
    by rewrite nick_char_spec, Eg, orb_false_r in Hx.
Qed.

Lemma strcspn_all s set :
  (strcspn s set =? slen s)%nat = true <-> forall c, str_mem c s = true -> str_mem c set = false.
Proof.
  rewrite Nat.eqb_eq. induction s as [|a s IH]; cbn [strcspn str_mem slen String.length]; [done|].
  destruct (str_mem a set) eqn:E.
  - split; [done|]. intros Hc. by rewrite (Hc a) in E by by rewrite Ascii.eqb_refl.
  - split.
    + intros [= Hs] c [Ec|Ec]%orb_prop; [by apply Ascii.eqb_eq in Ec as <-|by apply IH].
    + intros Hc. f_equal. apply IH. intros c Hs. apply Hc. by rewrite Hs, orb_true_r.
Qed.

(** valid channel names.  [Channel_IsValidName] accepts the names of at most
    50 characters that start with a channel prefix and contain no blank, comma,
    colon or bell; and it also accepts the empty name, because its search for the
    first character among the prefixes finds the terminator. *)
Theorem Channel_IsValidName_spec Name :
  no_nul Name = true ->
  (Channel_IsValidName Name = true <->
   Name = "" \/
   (str_mem (hd0 Name) "#&+" = true /\ (slen Name <= 50)%nat /\
    forall c, str_mem c Name = true -> str_mem c (" ,:" +:+ String "007"%char "") = false)).
Proof.
  intros Hn. unfold Channel_IsValidName. destruct Name as [|a s]; [by vm_compute; tauto|].
  cbn [no_nul] in Hn. apply andb_prop in Hn as [Hn _]. apply negb_true_iff, Ascii.eqb_neq in Hn.
  cbn [hd0]. rewrite strchr_mem by done. destruct (str_mem a "#&+") eqn:Ea; cbn [negb].
  2: { split; [done|]. intros [?|(? & _)]; congruence. }
  destruct (Nat.leb_spec CHANNEL_NAME_LEN (slen (String a s))) as [Hl|Hl]; unfold CHANNEL_NAME_LEN in Hl.
  { split; [done|]. intros [?|(_ & ? & _)]; [done|lia]. }
  rewrite strcspn_all. split; [|intros [?|(_ & _ & Hc)]; done].
  intros Hc. right. split; [done|]. split; [lia|done].
Qed.

(** ** Server tokens *)

Definition token_used (t : Tables) (token : Z) : Prop :=
  exists a c, a ∈ t_My_Clients t /\ t_clients t !! a = Some c /\ cl_mytoken c = token.

(** The tokens in use. *)
Definition tokens_of (t : Tables) (l : list nat) : list Z :=
  flat_map (fun a => match t_clients t !! a with Some c => [cl_mytoken c] | None => [] end) l.

Lemma tokens_of_spec t l token :
  token ∈ tokens_of t l <-> exists a c, a ∈ l /\ t_clients t !! a = Some c /\ cl_mytoken c = token.
Proof.
  unfold tokens_of. rewrite list_elem_of_In, in_flat_map. split.
  - intros (a & Ha & Hx). apply list_elem_of_In in Ha. destruct (t_clients t !! a) as [c|] eqn:E; [|done].
    destruct Hx as [<-|[]]. by exists a, c.
  - intros (a & c & Ha & Hc & <-). exists a. split; [by apply list_elem_of_In|]. rewrite Hc. by left.
Qed.

Lemma length_tokens t l : (length (tokens_of t l) <= length l)%nat.
Proof.
  induction l as [|a l IH]; [done|].
  change (tokens_of t (a :: l)) with ((match t_clients t !! a with Some c => [cl_mytoken c] | None => [] end) ++ tokens_of t l).
  rewrite length_app. destruct (t_clients t !! a); cbn [length]; lia.
Qed.

(** The loop passes over used tokens only, so that it must end. *)
Lemma gen_token_ok w l fuel k :
  Forall (fun a => is_Some (t_clients (w_tab w) !! a)) l ->
  (forall i, 0 <= i < k -> 2 + i ∈ tokens_of (w_tab w) l) -> 0 <= k ->
  (length l < fuel + Z.to_nat k)%nat ->
  exists token, gen_token fuel (2 + k) l w = Done token w /\ 2 + k <= token /\
    token ∉ tokens_of (w_tab w) l /\
    (forall i, 2 <= i < token -> i ∈ tokens_of (w_tab w) l).
Proof.
  intros Hl. revert k. induction fuel as [|fuel IH]; intros k Hused Hk Hf.
  - exfalso. pose proof (length_tokens (w_tab w) l) as Hle.
    assert (Hincl : incl (map (fun i => 2 + Z.of_nat i) (seq 0 (Z.to_nat k))) (tokens_of (w_tab w) l)).
    { intros x Hx. apply in_map_iff in Hx as (i & <- & Hi). apply in_seq in Hi.
      apply list_elem_of_In, Hused. lia. }
    apply List.NoDup_incl_length in Hincl.
    + rewrite length_map, length_seq in Hincl. lia.
    + apply Finite.Injective_map_NoDup; [intros i j; lia|apply List.seq_NoDup].
  - cbn [gen_token]. unfold mbind, M_bind. rewrite scan_clients_ok by done.
    destruct (lfind _ l) as [a|] eqn:E; cbn [is_null].
    + apply lfind_Some in E as [Ha Hc].
      replace (2 + k + 1) with (2 + (k + 1)) by lia.
      destruct (IH (k + 1)) as (token & Ht & Hle & Hrest); [|lia|lia|].
      * intros i Hi. destruct (Z.eq_dec i k) as [->|]; [|apply Hused; lia].
        apply tokens_of_spec. destruct (t_clients (w_tab w) !! a) as [c|] eqn:Ec; [|done].
        exists a, c. split; [done|]. split; [done|]. by apply Z.eqb_eq.
      * exists token. split; [done|]. split; [lia|done].
    + exists (2 + k). rewrite lfind_None in E. split; [done|]. split; [lia|]. split.
      * rewrite tokens_of_spec. intros (a & c & Ha & Hc & Ht). specialize (E a Ha). rewrite Hc in E.
        apply Z.eqb_neq in E. lia.
      * intros i Hi. replace i with (2 + (i - 2)) by lia. apply Hused. lia.
Qed.

(** server tokens.  [Generate_MyToken] ends and gives the client the least
    number from 2 on that no linked client uses as its token; nothing else
    changes. *)
Theorem Generate_MyToken_spec w a c :
  Forall (fun x => is_Some (t_clients (w_tab w) !! x)) (t_My_Clients (w_tab w)) ->
  t_clients (w_tab w) !! a = Some c ->
  exists token, Generate_MyToken (Some a) w = Done tt
      (set_w_tab (set_t_clients (<[a := set_cl_mytoken token c]> (t_clients (w_tab w))) (w_tab w)) w) /\
    2 <= token /\ ~ token_used (w_tab w) token /\
    (forall i, 2 <= i < token -> token_used (w_tab w) i).
Proof.
  intros Hl Hc.
  destruct (gen_token_ok w (t_My_Clients (w_tab w)) (S (length (t_My_Clients (w_tab w)))) 0)
    as (token & Ht & Hle & Hnew & Hleast); [done|lia|lia|lia|].
  exists token. split; [|split; [lia|]].
  - unfold Generate_MyToken, mbind, M_bind, get_tab. change 2 with (2 + 0). rewrite Ht.
    unfold load_client. by rewrite Hc.
  - unfold token_used. setoid_rewrite <- tokens_of_spec. done.
Qed.

(** ** Routes *)

(** [a] is reached over [h]: the chain of introducers from [a] ends at [h],
    which has no introducer, is its own introducer or was introduced by this
    server. *)
Inductive reached_over (t : Tables) : nat -> nat -> Prop :=
  | reached_here a x :
      t_clients t !! a = Some x ->
      (cl_introducer x = None \/ cl_introducer x = Some a \/ cl_introducer x = Some (t_This_Server t)) ->
      reached_over t a a
  | reached_behind a x i h :
      t_clients t !! a = Some x -> cl_introducer x = Some i -> i <> a -> i <> t_This_Server t ->
      reached_over t i h -> reached_over t a h.

Lemma hop_of_S t n a :
  hop_of (S n) t a = match t_clients t !! a with
    | Some x => match cl_introducer x with
                | None => Some a
                | Some i => if decide (i = a \/ i = t_This_Server t) then Some a else hop_of n t i
                end
    | None => None
    end.
Proof. cbn [hop_of]. by destruct (t_clients t !! a). Qed.

Lemma hop_of_mono t n m a h : hop_of n t a = Some h -> (n <= m)%nat -> hop_of m t a = Some h.
Proof.
  revert m a. induction n as [|n IH]; intros m a; [done|]. destruct m as [|m]; [lia|].
  rewrite !hop_of_S. intros Hh Hle. destruct (t_clients t !! a) as [x|]; [|done].
  destruct (cl_introducer x) as [i|]; [|done]. destruct (decide _); [done|]. apply IH; [done|lia].
Qed.

Lemma reached_over_hop_of t a h : reached_over t a h -> exists n, hop_of n t a = Some h.
Proof.
  induction 1 as [a x Hx Hi|a x i h Hx Hi Hna Hns _ [n IH]].
  - exists 1%nat. rewrite hop_of_S, Hx. destruct Hi as [->|[->| ->]]; [done| |];
      (rewrite decide_True; [done|auto]).
  - exists (S n). rewrite hop_of_S, Hx, Hi, decide_False; [done|tauto].
Qed.

(** A chain without repetitions. *)
Lemma hop_of_short t n a h :
  hop_of n t a = Some h ->
  exists l, NoDup (a :: l) /\ (forall x, x ∈ a :: l -> is_Some (t_clients t !! x)) /\
    (forall l1 x l2, a :: l = l1 ++ x :: l2 -> hop_of (S (length l2)) t x = Some h).
Proof.
  revert a. induction n as [|n IH]; intros a; [done|]. rewrite hop_of_S.
  destruct (t_clients t !! a) as [x|] eqn:Ex; [|done].
  assert (Hone : (match cl_introducer x with
      | None => Some a
      | Some i => if decide (i = a \/ i = t_This_Server t) then Some a else None end) = Some h ->
    exists l, NoDup (a :: l) /\ (forall x, x ∈ a :: l -> is_Some (t_clients t !! x)) /\
      (forall l1 x l2, a :: l = l1 ++ x :: l2 -> hop_of (S (length l2)) t x = Some h)).
  { intros Hh. exists []. split; [by apply NoDup_singleton|]. split.
    - intros y Hy. apply list_elem_of_singleton in Hy as ->. by eexists.
    - intros [|b l1] y l2 E; [|by destruct l1]. injection E as <- <-.
      rewrite hop_of_S, Ex. destruct (cl_introducer x) as [i|]; [|done]. by destruct (decide _). }
  destruct (cl_introducer x) as [i|] eqn:Ei; [|done]. destruct (decide _) as [Hd|Hd]; [done|].
  intros Hh. destruct (IH i Hh) as (l & Hnd & Hin & Hsuf). clear Hone.
  destruct (decide (a ∈ i :: l)) as [Ha|Ha].
  - apply list_elem_of_split in Ha as (l1 & l2 & E). exists l2. rewrite E in Hnd. split.
    + by apply list.NoDup_app in Hnd as (_ & _ & Hnd).
    + split.
      * intros y Hy. apply Hin. rewrite E. apply elem_of_app. by right.
      * intros l3 y l4 E'. apply (Hsuf (l1 ++ l3)). rewrite E, E'. by rewrite <- app_assoc.
  - exists (i :: l). split; [by apply list.NoDup_cons|]. split.
    + intros y [->|Hy]%elem_of_cons; [by eexists|by apply Hin].
    + intros [|b l1] y l2 E; [|injection E as _ E; by eapply Hsuf].
      injection E as <- <-. rewrite hop_of_S, Ex, Ei, decide_False by done. by apply (Hsuf []).
Qed.

Lemma hop_of_size t n a h : hop_of n t a = Some h -> hop t a = Some h.
Proof.
  intros Hh. destruct (hop_of_short t n a h Hh) as (l & Hnd & Hin & Hsuf).
  unfold hop. apply (hop_of_mono t (S (length l))); [by apply (Hsuf [])|].
  assert (Hle : (length (a :: l) <= size (t_clients t))%nat).
  { rewrite <- (size_dom (D := gset nat) (t_clients t)).
    rewrite <- (size_list_to_set (C := gset nat)) by done.
    apply subseteq_size. intros y Hy. apply elem_of_list_to_set in Hy. by apply elem_of_dom, Hin. }
  cbn [length] in Hle. lia.
Qed.

(** C40: routing.  Whenever the chain of introducers of a client ends,
    [Client_NextHop] ends with the client at its end, whatever the length of the
    chain, and changes nothing. *)
Theorem Client_NextHop_spec w a h :
  reached_over (w_tab w) a h -> Client_NextHop (Some a) w = Done (Some h) w.
Proof.
  intros Hr. apply reached_over_hop_of in Hr as [n Hn]. apply hop_of_size in Hn.
  assert (wp (Client_NextHop (Some a)) (fun r w' => r = Some h /\ w' = w) w) as Hw.
  { by eapply wp_NextHop. }
  apply wp_done in Hw as (r & w' & -> & -> & ->). done.
Qed.
