(* ===== verification/IrcWrite.v ===== *)
(** * Sending messages (src/server/proto/irc/irc-write.c)

    Messages to one client, to the members of a channel, to the servers and to
    the clients that share a channel with somebody.  A message is formatted into
    a buffer of 1000 bytes; the loops over the clients follow the list as it is
    when they take the next step, so that a client destroyed by a failing write
    is seen. *)

From S2P Require Import Prelude CString Match Hash Checks Lists World ClientCore ConnFunc.
From S2P Require Import ConnSpec ChannelCore State.

Definition SEND_TO_USER : Z := 1.
Definition SEND_TO_SERVER : Z := 2.

(** The size of the message buffers. *)
Definition BUFFER_LEN : nat := 1000.

Section IrcWrite.
Context `{Conf} `{ConnIO}.

Definition IRC_SetPenalty (Client : ptr) (Seconds : Z) : M unit :=
  assert_ (negb (is_null Client));;
  assert_ (0 <? Seconds);;
  ty ← Client_Type Client;
  if ty =? CLIENT_SERVER then mret tt
  else
    c ← Client_Conn Client;
    if c <=? NONE then mret tt else Conn_SetPenalty c Seconds.

Definition Get_Prefix (Target Client : ptr) : M string :=
  ty ← Client_Type Target;
  if ty =? CLIENT_SERVER then Client_ID Client else Client_MaskCloaked Client.

Definition IRC_WriteStrClientPrefix (Client Prefix : ptr) (Format : string) (args : list farg) : M bool :=
  assert_ (negb (is_null Client));;
  assert_ (negb (is_null Prefix));;
  let buffer := snprintf BUFFER_LEN Format args in
  hop ← Client_NextHop Client;
  conn ← Client_Conn hop;
  prefix ← Get_Prefix hop Prefix;
  Conn_WriteStr conn ":%s %s" [FS prefix; FS buffer].

Definition IRC_WriteStrClient (Client : ptr) (Format : string) (args : list farg) : M bool :=
  assert_ (negb (is_null Client));;
  let buffer := snprintf BUFFER_LEN Format args in
  this ← Client_ThisServer;
  IRC_WriteStrClientPrefix Client this "%s" [FS buffer].

Definition IRC_WriteErrClient (Client : ptr) (Format : string) (args : list farg) : M bool :=
  assert_ (negb (is_null Client));;
  let buffer := snprintf BUFFER_LEN Format args in
  IRC_SetPenalty Client 2;;
  this ← Client_ThisServer;
  IRC_WriteStrClientPrefix Client this "%s" [FS buffer].

(** One round of the loop of [Send_Marked_Connections]. *)
Definition send_marked (Prefix : ptr) (Buffer : string) (conn : Z) : M unit :=
  flag ← Conn_Flag conn;
  if flag =? SEND_TO_SERVER then
    id ← Client_ID Prefix;
    _ ← Conn_WriteStr conn ":%s %s" [FS id; FS Buffer]; mret tt
  else if flag =? SEND_TO_USER then
    mask ← Client_MaskCloaked Prefix;
    _ ← Conn_WriteStr conn ":%s %s" [FS mask; FS Buffer]; mret tt
  else mret tt.

(** The index grows with every round, so that [Pool_Size] rounds are enough. *)
Fixpoint send_marked_loop (fuel : nat) (Prefix : ptr) (Buffer : string) (conn : Z) : M unit :=
  if conn =? NONE then mret tt
  else match fuel with
       | O => crash OutOfFuel
       | S fuel' =>
           send_marked Prefix Buffer conn;;
           next ← Conn_Next conn;
           send_marked_loop fuel' Prefix Buffer next
       end.

Definition Send_Marked_Connections (Prefix : ptr) (Buffer : string) : M unit :=
  assert_ (negb (is_null Prefix));;
  conn ← Conn_First;
  n ← Pool_Size;
  send_marked_loop (Z.to_nat n) Prefix Buffer conn.

(** Marks the connection on the way to a member, unless it is the sender's. *)
Definition mark_member (Client : ptr) (Remote : bool) (c : ptr) : M unit :=
  c ← (if negb Remote then
         conn ← Client_Conn c;
         if conn <=? NONE then mret NULL
         else ty ← Client_Type c; mret (if ty =? CLIENT_SERVER then NULL else c)
       else mret c);
  c ← (if negb (is_null c) then Client_NextHop c else mret c);
  if negb (is_null c) && negb (ptr_eqb c Client) then
    conn ← Client_Conn c;
    ty ← Client_Type c;
    Conn_SetFlag conn (if ty =? CLIENT_SERVER then SEND_TO_SERVER else SEND_TO_USER)
  else mret tt.

(** The loop over the members of a channel, from a member on; nothing in it
    changes the membership table. *)
Fixpoint mark_members (Chan Client : ptr) (Remote : bool) (l : list CL2CHAN) : M unit :=
  match l with
  | [] => mret tt
  | m :: l' =>
      (if is_channel Chan m then mark_member Client Remote (Some (cc_client m)) else mret tt);;
      mark_members Chan Client Remote l'
  end.

Definition IRC_WriteStrChannelPrefix (Client Chan Prefix : ptr) (Remote : bool)
    (Format : string) (args : list farg) : M unit :=
  assert_ (negb (is_null Client));;
  assert_ (negb (is_null Chan));;
  assert_ (negb (is_null Prefix));;
  let buffer := snprintf BUFFER_LEN Format args in
  Conn_ClearFlags;;
  cl2chan ← Channel_FirstMember Chan;
  mark_members Chan Client Remote cl2chan;;
  Send_Marked_Connections Prefix buffer.

Definition IRC_WriteStrChannel (Client Chan : ptr) (Remote : bool) (Format : string)
    (args : list farg) : M unit :=
  assert_ (negb (is_null Client));;
  let buffer := snprintf BUFFER_LEN Format args in
  this ← Client_ThisServer;
  IRC_WriteStrChannelPrefix Client Chan this Remote "%s" [FS buffer].

(** One round of the loops over all clients calls [body], then takes the next
    element; the number of clients bounds the number of rounds. *)
Fixpoint client_loop (fuel : nat) (body : ptr -> M unit) (c : ptr) : M unit :=
  if is_null c then mret tt
  else match fuel with
       | O => crash OutOfFuel
       | S fuel' => body c;; next ← Client_Next c; client_loop fuel' body next
       end.

Definition for_each_client (body : ptr -> M unit) : M unit :=
  c ← Client_First;
  n ← get_tab (fun t => length (t_My_Clients t));
  client_loop n body c.

Definition IRC_WriteStrServersPrefixFlag_CB (ExceptOf Prefix : ptr) (Flag : ascii)
    (callback : ptr -> ptr -> M unit) : M unit :=
  for_each_client (fun c =>
    ty ← Client_Type c;
    conn ← Client_Conn c;
    this ← Client_ThisServer;
    if (ty =? CLIENT_SERVER) && (NONE <? conn) && negb (ptr_eqb c this) && negb (ptr_eqb c ExceptOf)
    then
      b ← (if Flag =c NUL then mret true else Client_HasFlag c Flag);
      if (b : bool) then callback c Prefix else mret tt
    else mret tt).

Definition cb_writeStrServersPrefixFlag (Buffer : string) (Client Prefix : ptr) : M unit :=
  _ ← IRC_WriteStrClientPrefix Client Prefix "%s" [FS Buffer]; mret tt.

Definition IRC_WriteStrServersPrefixFlag (ExceptOf Prefix : ptr) (Flag : ascii)
    (Format : string) (args : list farg) : M unit :=
  assert_ (negb (is_null Prefix));;
  let buffer := snprintf BUFFER_LEN Format args in
  IRC_WriteStrServersPrefixFlag_CB ExceptOf Prefix Flag (cb_writeStrServersPrefixFlag buffer).

Definition IRC_WriteStrServersPrefix (ExceptOf Prefix : ptr) (Format : string)
    (args : list farg) : M unit :=
  assert_ (negb (is_null Prefix));;
  let buffer := snprintf BUFFER_LEN Format args in
  IRC_WriteStrServersPrefixFlag ExceptOf Prefix NUL "%s" [FS buffer].

Definition IRC_WriteStrServers (ExceptOf : ptr) (Format : string) (args : list farg) : M unit :=
  let buffer := snprintf BUFFER_LEN Format args in
  this ← Client_ThisServer;
  IRC_WriteStrServersPrefix ExceptOf this "%s" [FS buffer].

(** The loop over the channels of a client. *)
Fixpoint mark_related (Client : ptr) (Remote : bool) (l : list CL2CHAN) : M unit :=
  match l with
  | [] => mret tt
  | m :: l' =>
      (if is_client Client m then
         let chan := Some (cc_channel m) in
         cl2chan ← Channel_FirstMember chan;
         mark_members chan Client Remote cl2chan
       else mret tt);;
      mark_related Client Remote l'
  end.

Definition IRC_WriteStrRelatedPrefix (Client Prefix : ptr) (Remote : bool)
    (Format : string) (args : list farg) : M unit :=
  assert_ (negb (is_null Client));;
  assert_ (negb (is_null Prefix));;
  let buffer := snprintf BUFFER_LEN Format args in
  Conn_ClearFlags;;
  chan_cl2chan ← Channel_FirstChannelOf Client;
  mark_related Client Remote chan_cl2chan;;
  Send_Marked_Connections Prefix buffer.

Definition IRC_SendWallops (Client From : ptr) (Format : string) (args : list farg) : M unit :=
  let msg := snprintf BUFFER_LEN Format args in
  for_each_client (fun to =>
    conn ← Client_Conn to;
    if conn =? NONE then mret tt
    else
      ty ← Client_Type to;
      if ty =? CLIENT_USER then
        w ← Client_HasMode to "w";
        if (w : bool) then
          _ ← IRC_WriteStrClientPrefix to From "WALLOPS :%s" [FS msg]; mret tt
        else mret tt
      else if ty =? CLIENT_SERVER then
        if negb (ptr_eqb to Client) then
          _ ← IRC_WriteStrClientPrefix to From "WALLOPS :%s" [FS msg]; mret tt
        else mret tt
      else mret tt).

End IrcWrite.

(** ** Messages to one client *)

(** What [Get_Prefix] shows of a sender to a target. *)
Definition prefix_for (target from : CLIENT) : string :=
  if cl_type target =? CLIENT_SERVER then id_of from else mask_cloaked from.

(** The line that carries a message of [from] to the connection of [target]. *)
Definition message_line (target from : CLIENT) (buffer : string) : string :=
  wire_line ":%s %s" [FS (prefix_for target from); FS buffer].

Lemma routed_open `{Conf} w a h x :
  state_ok w -> hop (w_tab w) a = Some h -> t_clients (w_tab w) !! h = Some x ->
  NONE < cl_conn_id x -> conn_open w (cl_conn_id x).
Proof.
  intros Hok Hh Hx Hc. destruct (so_local _ Hok h x Hx) as [E|(Ho & _)]; [lia|done].
Qed.

Section one_client.
Context `{Conf} `{IO : ConnIO} `{!ConnIOSpec IO}.

Lemma wp_WriteStr w idx Format args (Q : bool -> World -> Prop) :
  state_ok w -> conn_open w idx ->
  (forall w', delivered [(idx, wire_line Format args)] w w' -> flags w' = flags w -> Q true w') ->
  wp (Conn_WriteStr idx Format args) Q w.
Proof using Type*.
  intros Hok Ho HQ. eapply wp_mono.
  - apply Conn_WriteStr_ok; [apply Hok|apply Hok|done].
  - intros r w' (-> & D & F). by apply HQ.
Qed.

Lemma wp_Get_Prefix w h x p cp (Q : string -> World -> Prop) :
  state_ok w -> t_clients (w_tab w) !! h = Some x -> t_clients (w_tab w) !! p = Some cp ->
  Q (prefix_for x cp) w -> wp (Get_Prefix (Some h) (Some p)) Q w.
Proof.
  intros Hok Hx Hcp HQ. pose proof (so_clients _ Hok p cp Hcp) as Hc.
  assert (Ht : w_tab w = w_tab w) by done.
  unfold Get_Prefix. wp_step. rd. unfold prefix_for in HQ.
  destruct (cl_type x =? CLIENT_SERVER); rd; done.
Qed.

(** A message to a client goes to the connection of its next hop, once. *)
Lemma wp_WriteStrClientPrefix w a h x p cp Format args (Q : bool -> World -> Prop) :
  state_ok w -> hop (w_tab w) a = Some h -> t_clients (w_tab w) !! h = Some x ->
  NONE < cl_conn_id x -> t_clients (w_tab w) !! p = Some cp ->
  (forall w', delivered [(cl_conn_id x, message_line x cp (snprintf BUFFER_LEN Format args))] w w' ->
     flags w' = flags w -> Q true w') ->
  wp (IRC_WriteStrClientPrefix (Some a) (Some p) Format args) Q w.
Proof using Type*.
  intros Hok Hh Hx Hc Hcp HQ. assert (Ht : w_tab w = w_tab w) by done.
  unfold IRC_WriteStrClientPrefix. wp_steps. rd. wp_step. rd. wp_step.
  eapply wp_Get_Prefix; [done..|]. apply wp_WriteStr; [done|by eapply routed_open|exact HQ].
Qed.

Lemma wp_WriteStrClient w a h x s cs Format args (Q : bool -> World -> Prop) :
  state_ok w -> hop (w_tab w) a = Some h -> t_clients (w_tab w) !! h = Some x ->
  NONE < cl_conn_id x -> t_This_Server (w_tab w) = s -> t_clients (w_tab w) !! s = Some cs ->
  (forall w', delivered [(cl_conn_id x, message_line x cs
       (snprintf BUFFER_LEN "%s" [FS (snprintf BUFFER_LEN Format args)]))] w w' ->
     flags w' = flags w -> Q true w') ->
  wp (IRC_WriteStrClient (Some a) Format args) Q w.
Proof using Type*.
  intros Hok Hh Hx Hc Hs Hcs HQ. assert (Ht : w_tab w = w_tab w) by done.
  unfold IRC_WriteStrClient. wp_steps. rd. rewrite Hs. by eapply wp_WriteStrClientPrefix.
Qed.

Lemma wp_Conn_SetPenalty w idx n (Q : unit -> World -> Prop) :
  conn_open w idx -> 0 <= n -> (forall w', delivered [] w w' -> Q tt w') -> wp (Conn_SetPenalty idx n) Q w.
Proof.
  intros (Hi & cn & Hcn & _) Hn HQ.
  unfold Conn_SetPenalty. wp_steps; [apply Z.ltb_lt; unfold NONE; lia|by apply Z.leb_le|].
  eapply wp_the_conn; [done..|]. wp_step.
  set (w1 := set_w_net (set_n_conns (<[Z.to_nat idx :=
     set_cn_delaytime (t_now (w_tab w)) cn]> (n_conns (w_net w))) (w_net w)) w).
  assert (delivered [] w w1) as D1 by by eapply delivered_insert_same.
  destruct (cn_delaytime cn <? t_now (w_tab w)).
  - eapply wp_upd_conn; [done..|]. fold w1.
    destruct (delivered_conn_fwd _ _ _ D1 _ _ Hcn) as (cn1 & Hcn1 & _).
    eapply wp_upd_conn; [done..|]. apply HQ. apply (delivered_trans [] [] _ _ _ D1).
    by eapply delivered_insert_same.
  - wp_step. eapply wp_upd_conn; [done..|]. apply HQ. by eapply delivered_insert_same.
Qed.

Lemma wp_SetPenalty w a c n (Q : unit -> World -> Prop) :
  state_ok w -> t_clients (w_tab w) !! a = Some c -> 0 < n ->
  (forall w', delivered [] w w' -> Q tt w') ->
  wp (IRC_SetPenalty (Some a) n) Q w.
Proof.
  intros Hok Hc Hn HQ. assert (Ht : w_tab w = w_tab w) by done.
  unfold IRC_SetPenalty. wp_steps. { by apply Z.ltb_lt. }
  rd. destruct (cl_type c =? CLIENT_SERVER); [wp_step; apply HQ, delivered_refl|].
  wp_step. rd. destruct (Z.leb_spec (cl_conn_id c) NONE); [wp_step; apply HQ, delivered_refl|].
  destruct (so_local _ Hok a c Hc) as [?|(Ho & _)]; [lia|]. apply wp_Conn_SetPenalty; [done|lia|done].
Qed.

Lemma wp_WriteErrClient w a h x s cs Format args (Q : bool -> World -> Prop) :
  state_ok w -> hop (w_tab w) a = Some h -> t_clients (w_tab w) !! h = Some x ->
  NONE < cl_conn_id x -> is_Some (t_clients (w_tab w) !! a) ->
  t_This_Server (w_tab w) = s -> t_clients (w_tab w) !! s = Some cs ->
  (forall w', delivered [(cl_conn_id x, message_line x cs
       (snprintf BUFFER_LEN "%s" [FS (snprintf BUFFER_LEN Format args)]))] w w' -> Q true w') ->
  wp (IRC_WriteErrClient (Some a) Format args) Q w.
Proof using Type*.
  intros Hok Hh Hx Hc [c Ha] Hs Hcs HQ. unfold IRC_WriteErrClient. wp_steps.
  eapply wp_SetPenalty; [done|done|lia|]. intros w1 D1. pose proof (dl_tab _ _ _ D1) as Ht.
  pose proof (delivered_state_ok _ _ _ D1 Hok) as Hok1.
  wp_step. rd. rewrite Hs.
  eapply wp_WriteStrClientPrefix; rewrite ?Ht; try done. intros w' D _. apply HQ.
  by apply (delivered_trans [] _ _ _ _ D1).
Qed.

End one_client.

(** ** Messages to marked connections *)

(** The sockets and flags of the connections. *)
Definition sockflags (w : World) : list (Z * Z) :=
  map (fun c => (cn_sock c, cn_flag c)) (n_conns (w_net w)).

(** The line for a connection with flag [f], from [cp]. *)
Definition flag_line (cp : CLIENT) (buffer : string) (f : Z) : option string :=
  if f =? SEND_TO_SERVER then Some (wire_line ":%s %s" [FS (id_of cp); FS buffer])
  else if f =? SEND_TO_USER then Some (wire_line ":%s %s" [FS (mask_cloaked cp); FS buffer])
  else None.

Fixpoint marked_lines (cp : CLIENT) (buffer : string) (i : Z) (l : list (Z * Z)) : list (Z * string) :=
  match l with
  | [] => []
  | (s, f) :: l' =>
      match (if s =? NONE then None else flag_line cp buffer f) with
      | Some line => (i, line) :: marked_lines cp buffer (i + 1) l'
      | None => marked_lines cp buffer (i + 1) l'
      end
  end.

Lemma sockflags_delivered l w w' :
  delivered l w w' -> flags w' = flags w -> sockflags w' = sockflags w.
Proof.
  intros D F. apply list_eq. intros i. unfold sockflags. rewrite !list_lookup_fmap.
  pose proof (f_equal (fun l => l !! i) F) as Fi. unfold flags in Fi.
  rewrite !list_lookup_fmap in Fi.
  destruct (n_conns (w_net w) !! i) as [c|] eqn:E.
  - destruct (delivered_conn_fwd _ _ _ D _ _ E) as (c' & E' & Ee). rewrite E' in *.
    cbn in *. rewrite (f_equal cn_sock Ee : cn_sock c' = cn_sock c). congruence.
  - destruct (n_conns (w_net w') !! i) as [c'|] eqn:E'; [|done].
    destruct (delivered_conn _ _ _ D _ _ E') as (c & ? & _). congruence.
Qed.

Section marked.
Context `{Conf} `{IO : ConnIO} `{!ConnIOSpec IO}.

Lemma send_marked_ok w p cp buffer i c (Q : unit -> World -> Prop) :
  state_ok w -> t_clients (w_tab w) !! p = Some cp ->
  0 <= i -> n_conns (w_net w) !! Z.to_nat i = Some c -> cn_sock c <> NONE ->
  (forall w', delivered (match flag_line cp buffer (cn_flag c) with
                         | Some line => [(i, line)] | None => [] end) w w' ->
     flags w' = flags w -> Q tt w') ->
  wp (send_marked (Some p) buffer i) Q w.
Proof using Type*.
  intros Hok Hcp Hi Hc Hs HQ. pose proof (so_clients _ Hok p cp Hcp) as Hcpok.
  assert (Ht : w_tab w = w_tab w) by done.
  assert (Ho : conn_open w i).
  { split; [done|]. exists c. split; [done|].
    destruct (so_socks _ Hok _ _ Hc) as [?|[E He]]; [done|]. rewrite Z2Nat.id in * by done. by split. }
  unfold send_marked, Conn_Flag. wp_steps. eapply wp_the_conn; [done..|]. wp_steps.
  unfold flag_line in HQ. destruct (cn_flag c =? SEND_TO_SERVER).
  { wp_step. rd. wp_step. apply wp_WriteStr; [done..|]. intros w' D F. wp_step. by apply HQ. }
  destruct (cn_flag c =? SEND_TO_USER).
  { wp_step. rd. wp_step. apply wp_WriteStr; [done..|]. intros w' D F. wp_step. by apply HQ. }
  wp_step. apply HQ; [apply delivered_refl|done].
Qed.

Lemma send_marked_loop_ok p cp buffer n fuel i w (Q : unit -> World -> Prop) :
  state_ok w -> t_clients (w_tab w) !! p = Some cp -> 0 <= i ->
  n = (length (n_conns (w_net w)) - Z.to_nat i)%nat -> (n <= fuel)%nat ->
  (forall w', delivered (marked_lines cp buffer i (drop (Z.to_nat i) (sockflags w))) w w' -> Q tt w') ->
  wp (send_marked_loop fuel (Some p) buffer (open_from i (drop (Z.to_nat i) (n_conns (w_net w))))) Q w.
Proof using Type*.
  revert fuel i w. induction n as [|n IH]; intros fuel i w Hok Hcp Hi Hn Hf HQ.
  - rewrite drop_ge by lia. cbn [open_from].
    rewrite drop_ge in HQ by (unfold sockflags; rewrite length_map; lia).
    destruct fuel; cbn [send_marked_loop]; rewrite Z.eqb_refl; wp_step; apply HQ, delivered_refl.
  - destruct (lookup_lt_is_Some_2 (n_conns (w_net w)) (Z.to_nat i)) as [c Hc]; [lia|].
    rewrite (drop_S _ _ _ Hc). cbn [open_from].
    assert (Hsf : sockflags w !! Z.to_nat i = Some (cn_sock c, cn_flag c)).
    { unfold sockflags. by rewrite list_lookup_fmap, Hc. }
    rewrite (drop_S _ _ _ Hsf) in HQ. cbn [marked_lines] in HQ.
    assert (Hi1 : S (Z.to_nat i) = Z.to_nat (i + 1)) by lia. rewrite Hi1 in *.
    destruct (Z.eqb_spec (cn_sock c) NONE) as [Es|Es]; cbn [negb].
    + apply (IH fuel (i + 1) w); try done; lia.
    + destruct fuel as [|fuel]; [lia|]. cbn [send_marked_loop].
      destruct (Z.eqb_spec i NONE); [unfold NONE in *; lia|].
      wp_step. eapply send_marked_ok; [done..|]. intros w1 D F.
      unfold Conn_Next. wp_step. wp_step. wp_step; [unfold NONE; apply Z.ltb_lt; lia|]. wp_step.
      pose proof (dl_tab _ _ _ D) as Ht.
      apply (IH fuel (i + 1) w1); rewrite ?Ht; try done.
      * by eapply delivered_state_ok.
      * lia.
      * rewrite (dl_len _ _ _ D). lia.
      * lia.
      * intros w2 D2. rewrite (sockflags_delivered _ _ _ D F) in D2. apply HQ.
        destruct (flag_line cp buffer (cn_flag c)).
        -- by apply (delivered_trans [_] _ _ _ _ D).
        -- by apply (delivered_trans [] _ _ _ _ D).
Qed.

Lemma Send_Marked_Connections_ok p cp buffer w (Q : unit -> World -> Prop) :
  state_ok w -> t_clients (w_tab w) !! p = Some cp ->
  (forall w', delivered (marked_lines cp buffer 0 (sockflags w)) w w' -> Q tt w') ->
  wp (Send_Marked_Connections (Some p) buffer) Q w.
Proof using Type*.
  intros Hok Hcp HQ. unfold Send_Marked_Connections, Conn_First, Pool_Size. wp_steps.
  apply (send_marked_loop_ok p cp buffer (length (n_conns (w_net w))) _ 0 w); try done; lia.
Qed.

End marked.

(** ** Messages to the members of a channel *)

(** The hop that the message to a member is sent to: [None] for the hop of the
    sender, and, if only local users are asked for, for remote members. *)
Definition target (t : Tables) (Client : ptr) (Remote : bool) (m : CL2CHAN) : option nat :=
  c ← t_clients t !! cc_client m;
  if negb Remote && ((cl_conn_id c <=? NONE) || (cl_type c =? CLIENT_SERVER)) then None
  else h ← hop t (cc_client m); if ptr_eqb (Some h) Client then None else Some h.

Definition send_kind (x : CLIENT) : Z :=
  if cl_type x =? CLIENT_SERVER then SEND_TO_SERVER else SEND_TO_USER.

(** The flags after marking a target. *)
Definition mark (t : Tables) (h : option nat) (fl : list Z) : list Z :=
  match h ≫= (fun h => t_clients t !! h) with
  | Some x => <[Z.to_nat (cl_conn_id x) := send_kind x]> fl
  | None => fl
  end.

Definition marks (t : Tables) (Client : ptr) (Remote : bool) (l : list CL2CHAN) (fl : list Z) : list Z :=
  fold_left (fun fl m => mark t (target t Client Remote m) fl) l fl.

Lemma Conn_ClearFlags_ok w (Q : unit -> World -> Prop) :
  (forall w', delivered [] w w' -> flags w' = map (fun _ => 0) (n_conns (w_net w)) -> Q tt w') ->
  wp Conn_ClearFlags Q w.
Proof.
  intros HQ. unfold Conn_ClearFlags. wp_step. apply HQ.
  - apply delivered_conns; [apply length_map|]. intros i c c' Hc Hc'.
    rewrite list_lookup_fmap, Hc in Hc'. cbn in Hc'. same_some.
    by rewrite lines_for_nil, str_app_nil_r.
  - unfold flags; cbn. by rewrite map_map.
Qed.

Section channel.
Context `{Conf} `{IO : ConnIO} `{!ConnIOSpec IO}.

Lemma mark_member_ok w Client Remote m (Q : unit -> World -> Prop) :
  state_ok w -> member_ok w m ->
  (forall w', delivered [] w w' ->
     flags w' = mark (w_tab w) (target (w_tab w) Client Remote m) (flags w) -> Q tt w') ->
  wp (mark_member Client Remote (Some (cc_client m))) Q w.
Proof.
  intros Hok [(h & x & Hh & Hx & Hc) _] HQ. assert (Ht : w_tab w = w_tab w) by done.
  destruct (t_clients (w_tab w) !! cc_client m) as [c|] eqn:Em.
  2: { exfalso. unfold hop in Hh. cbn [hop_of] in Hh. rewrite Em in Hh. done. }
  unfold target, mark in HQ. rewrite Em in HQ. change (Some c ≫= ?f) with (f c) in HQ.
  cbv beta in HQ. rewrite Hh in HQ. change (Some h ≫= ?f) with (f h) in HQ. cbv beta in HQ.
  assert (Hnop : forall Q' : unit -> World -> Prop,
    (forall w', delivered [] w w' -> flags w' = flags w -> Q' tt w') -> wp (mret tt) Q' w).
  { intros Q' H'. wp_step. by apply H'; [apply delivered_refl|]. }
  assert (Hhop : forall Q' : unit -> World -> Prop,
    (forall w', delivered [] w w' ->
       flags w' = match (if ptr_eqb (Some h) Client then None else Some h) ≫=
                    (fun h => t_clients (w_tab w) !! h) with
                  | Some x => <[Z.to_nat (cl_conn_id x) := send_kind x]> (flags w)
                  | None => flags w end -> Q' tt w') ->
    wp (c ← Client_NextHop (Some (cc_client m));
        if negb (is_null c) && negb (ptr_eqb c Client) then
          conn ← Client_Conn c; ty ← Client_Type c;
          Conn_SetFlag conn (if ty =? CLIENT_SERVER then SEND_TO_SERVER else SEND_TO_USER)
        else mret tt) Q' w).
  { intros Q' H'. wp_step. rd. cbn [is_null negb andb].
    destruct (ptr_eqb (Some h) Client); cbn [negb].
    - apply Hnop. intros w' D F. apply H'; done.
    - wp_step. rd. wp_step. rd. unfold Conn_SetFlag.
      destruct (routed_open w _ h x Hok Hh Hx Hc) as (Hi & cn & Hcn & Hs).
      eapply wp_upd_conn; [done..|]. apply H'; [by eapply delivered_insert_same|].
      change (Some h ≫= ?f) with (f h). cbv beta. rewrite Hx. unfold flags; cbn.
      by rewrite list_fmap_insert. }
  unfold mark_member. destruct Remote; cbn [negb andb] in *.
  - wp_step. wp_step. cbn [is_null negb]. apply Hhop. exact HQ.
  - wp_step. wp_step. rd. destruct (Z.leb_spec (cl_conn_id c) NONE) as [Hn|Hn]; cbn [orb] in HQ.
    { wp_steps. cbn [is_null negb]. wp_steps. cbn [is_null negb andb]. apply Hnop. exact HQ. }
    wp_step. rd. wp_step. destruct (cl_type c =? CLIENT_SERVER); cbn [is_null negb].
    + wp_steps. cbn [is_null negb andb]. apply Hnop. exact HQ.
    + apply Hhop. exact HQ.
Qed.

Lemma mark_members_ok w Chan Client Remote l (Q : unit -> World -> Prop) :
  state_ok w -> Forall (member_ok w) l ->
  (forall w', delivered [] w w' ->
     flags w' = marks (w_tab w) Client Remote (List.filter (is_channel Chan) l) (flags w) -> Q tt w') ->
  wp (mark_members Chan Client Remote l) Q w.
Proof.
  revert w. induction l as [|m l IH]; intros w Hok Hl HQ; cbn [mark_members].
  - wp_step. apply HQ; [apply delivered_refl|done].
  - destruct (Forall_cons_1 _ _ _ Hl) as [Hm Hl1]. cbn [List.filter] in HQ. wp_step.
    destruct (is_channel Chan m).
    + apply mark_member_ok; [done..|]. intros w1 D F. pose proof (dl_tab _ _ _ D) as Ht.
      apply IH; [by eapply delivered_state_ok| |].
      * eapply Forall_impl; [|exact Hl1]. intros x. unfold member_ok, routed. by rewrite Ht.
      * intros w2 D2 F2. rewrite Ht, F in F2. apply HQ; [|exact F2].
        by apply (delivered_trans [] [] _ _ _ D).
    + wp_step. by apply IH.
Qed.

Lemma next_cl2chan_members Chan l :
  Chan <> NULL ->
  List.filter (is_channel Chan) (next_cl2chan NULL Chan l) = List.filter (is_channel Chan) l /\
  sublist (next_cl2chan NULL Chan l) l.
Proof.
  intros Hc. induction l as [|m l [IH1 IH2]]; [by split|]. cbn [next_cl2chan].
  destruct Chan as [a|]; [|done]. cbn [is_null negb andb].
  destruct (is_channel (Some a) m) eqn:E; [by split|].
  cbn [List.filter]. rewrite E. split; [done|by apply sublist_cons].
Qed.

(** The lines that are sent to the members in a list. *)
Definition member_lines (w : World) (l : list CL2CHAN) (Client : ptr) (Remote : bool) (cp : CLIENT)
    (buffer : string) : list (Z * string) :=
  marked_lines cp buffer 0
    (zip (map cn_sock (n_conns (w_net w)))
         (marks (w_tab w) Client Remote l (map (fun _ => 0) (n_conns (w_net w))))).

(** The lines that [IRC_WriteStrChannelPrefix] sends. *)
Definition channel_lines (w : World) (Chan Client : ptr) (Remote : bool) (cp : CLIENT)
    (buffer : string) : list (Z * string) :=
  member_lines w (List.filter (is_channel Chan) (t_My_Cl2Chan (w_tab w))) Client Remote cp buffer.

Lemma sockflags_zip w : sockflags w = zip (map cn_sock (n_conns (w_net w))) (flags w).
Proof. unfold sockflags, flags. induction (n_conns (w_net w)); cbn; congruence. Qed.

Lemma socks_delivered l w w' :
  delivered l w w' -> map cn_sock (n_conns (w_net w')) = map cn_sock (n_conns (w_net w)).
Proof.
  intros D. apply list_eq. intros i. rewrite !list_lookup_fmap.
  destruct (n_conns (w_net w) !! i) as [c|] eqn:E.
  - destruct (delivered_conn_fwd _ _ _ D _ _ E) as (c' & E' & Ee). rewrite E'. cbn. f_equal.
    exact (f_equal cn_sock Ee).
  - destruct (n_conns (w_net w') !! i) as [c'|] eqn:E'; [|done].
    destruct (delivered_conn _ _ _ D _ _ E') as (c & ? & _). congruence.
Qed.

Lemma wp_WriteStrChannelPrefix w Client Chan p cp Remote Format args (Q : unit -> World -> Prop) :
  state_ok w -> Client <> NULL -> Chan <> NULL -> t_clients (w_tab w) !! p = Some cp ->
  (forall w', delivered (channel_lines w Chan Client Remote cp (snprintf BUFFER_LEN Format args)) w w' ->
     Q tt w') ->
  wp (IRC_WriteStrChannelPrefix Client Chan (Some p) Remote Format args) Q w.
Proof using Type*.
  intros Hok Hcl Hch Hcp HQ. unfold IRC_WriteStrChannelPrefix.
  wp_step. wp_step; [by destruct Client|]. wp_step. wp_step; [by destruct Chan|]. wp_steps.
  apply Conn_ClearFlags_ok. intros w1 D1 F1. pose proof (dl_tab _ _ _ D1) as Ht1.
  wp_step. unfold Channel_FirstMember, Get_First_Cl2Chan, Get_Next_Cl2Chan.
  wp_step. wp_step; [by destruct Chan|]. wp_steps; [by destruct Chan|]. wp_steps.
  destruct (next_cl2chan_members Chan (t_My_Cl2Chan (w_tab w1)) Hch) as [Hf Hsub].
  pose proof (delivered_state_ok _ _ _ D1 Hok) as Hok1.
  apply mark_members_ok; [done| |].
  { apply (Forall_sublist _ _ _ Hsub), Hok1. }
  intros w2 D2 F2. rewrite Hf, F1, Ht1 in F2. pose proof (dl_tab _ _ _ D2) as Ht2.
  apply (Send_Marked_Connections_ok p cp).
  { by eapply delivered_state_ok. }
  { by rewrite Ht2, Ht1. }
  intros w3 D3. apply HQ. unfold channel_lines, member_lines.
  rewrite sockflags_zip, F2, (socks_delivered _ _ _ D2), (socks_delivered _ _ _ D1) in D3.
  apply (delivered_trans [] _ _ _ _ (delivered_trans [] [] _ _ _ D1 D2) D3).
Qed.

End channel.

(** ** Who gets a message to a channel *)

Lemma lines_for_marked_before cp buffer i k l :
  i < k -> lines_for i (marked_lines cp buffer k l) = "".
Proof.
  revert k. induction l as [|[s f] l IH]; intros k Hk; cbn [marked_lines]; [done|].
  destruct (if s =? NONE then None else flag_line cp buffer f) as [line|]; [|apply IH; lia].
  change ((k, line) :: ?l) with ([(k, line)] ++ l).
  rewrite lines_for_app, lines_for_one, IH by lia. by rewrite (proj2 (Z.eqb_neq k i)) by lia.
Qed.

Lemma lines_for_marked cp buffer k l j :
  lines_for (k + Z.of_nat j) (marked_lines cp buffer k l) =
    match l !! j with
    | Some (s, f) => if s =? NONE then "" else from_opt "" (flag_line cp buffer f)
    | None => ""
    end.
Proof.
  revert k j. induction l as [|[s f] l IH]; intros k j; cbn [marked_lines]; [done|].
  assert (Hrest : lines_for (k + Z.of_nat j) (marked_lines cp buffer (k + 1) l) =
    match j with O => "" | S j' => match l !! j' with
      | Some (s, f) => if s =? NONE then "" else from_opt "" (flag_line cp buffer f)
      | None => "" end end).
  { destruct j as [|j]; [apply lines_for_marked_before; lia|].
    replace (k + Z.of_nat (S j)) with (k + 1 + Z.of_nat j) by lia. apply IH. }
  destruct (if s =? NONE then None else flag_line cp buffer f) as [line|] eqn:E.
  - change ((k, line) :: ?l) with ([(k, line)] ++ l).
    rewrite lines_for_app, lines_for_one, Hrest. destruct j as [|j]; cbn [lookup list_lookup].
    + rewrite Z.add_0_r, Z.eqb_refl, str_app_nil_r. destruct (s =? NONE); [done|]. by rewrite E.
    + rewrite (proj2 (Z.eqb_neq _ _)) by lia. done.
  - rewrite Hrest. destruct j as [|j]; cbn [lookup list_lookup]; [|done].
    destruct (s =? NONE); [done|]. by rewrite E.
Qed.

Lemma length_marks t Client Remote l fl : length (marks t Client Remote l fl) = length fl.
Proof.
  unfold marks. revert fl. induction l as [|m l IH]; intros fl; cbn; [done|].
  rewrite IH. unfold mark. destruct (_ ≫= _); [apply length_insert|done].
Qed.

Section recipients.
Context `{Conf}.

(** Some member is reached over [h]. *)
Definition recipient (t : Tables) (Client : ptr) (Remote : bool) (l : list CL2CHAN) (h : nat) : bool :=
  existsb (fun m => bool_decide (target t Client Remote m = Some h)) l.

(** What a connection gets of a message from [cp] to the members [l]. *)
Definition expected_line (t : Tables) (Client : ptr) (Remote : bool) (l : list CL2CHAN)
    (cp : CLIENT) (buffer : string) (c : CONNECTION) : string :=
  match cn_client c with
  | Some h =>
      match t_clients t !! h with
      | Some x => if recipient t Client Remote l h then message_line x cp buffer else ""
      | None => ""
      end
  | None => ""
  end.

Lemma target_routed w Client Remote m h :
  state_ok w -> member_ok w m -> target (w_tab w) Client Remote m = Some h ->
  exists x cn, t_clients (w_tab w) !! h = Some x /\ NONE < cl_conn_id x /\
    n_conns (w_net w) !! Z.to_nat (cl_conn_id x) = Some cn /\ cn_client cn = Some h /\
    cn_sock cn = cl_conn_id x.
Proof.
  intros Hok [(h' & x & Hh & Hx & Hc) _] Ht. unfold target in Ht.
  destruct (t_clients (w_tab w) !! cc_client m) as [c|]; [|done].
  change (Some c ≫= ?f) with (f c) in Ht. cbv beta in Ht.
  destruct (negb Remote && _); [done|]. rewrite Hh in Ht.
  change (Some h' ≫= ?f) with (f h') in Ht. cbv beta in Ht.
  destruct (ptr_eqb (Some h') Client); [done|]. injection Ht as ->.
  destruct (so_local _ Hok h x Hx) as [?|((Hi & cn & Hcn & Hs & _) & _ & Hcl)]; [lia|].
  exists x, cn. rewrite Hcn in Hcl. cbn in Hcl. repeat split; try done; congruence.
Qed.

Lemma marks_lookup w Client Remote l fl i c :
  state_ok w -> Forall (member_ok w) l -> n_conns (w_net w) !! i = Some c ->
  (i < length fl)%nat ->
  marks (w_tab w) Client Remote l fl !! i =
    match cn_client c with
    | Some h =>
        if recipient (w_tab w) Client Remote l h
        then send_kind <$> t_clients (w_tab w) !! h else fl !! i
    | None => fl !! i
    end.
Proof.
  intros Hok Hl Hc Hi. induction l as [|m l IH] using rev_ind.
  - cbn. by destruct (cn_client c).
  - apply List.Forall_app in Hl as [Hl Hm]. specialize (IH Hl).
    destruct (Forall_cons_1 _ _ _ Hm) as [Hm1 _]. clear Hm.
    unfold marks at 1. rewrite fold_left_app; cbn [fold_left].
    fold (marks (w_tab w) Client Remote l fl).
    pose proof (length_marks (w_tab w) Client Remote l fl) as Hlen.
    set (fl' := marks (w_tab w) Client Remote l fl) in *.
    assert (Hrec : forall h, recipient (w_tab w) Client Remote (l ++ [m]) h =
      recipient (w_tab w) Client Remote l h || bool_decide (target (w_tab w) Client Remote m = Some h)).
    { intros h. unfold recipient. rewrite existsb_app. cbn. by rewrite orb_false_r. }
    unfold mark. destruct (target (w_tab w) Client Remote m) as [h|] eqn:Et.
    + destruct (target_routed w Client Remote m h Hok Hm1 Et) as (x & cn & Hx & Hcx & Hcn & Hcl & Hs).
      change (Some h ≫= ?f) with (f h). cbv beta. rewrite Hx.
      destruct (decide (Z.to_nat (cl_conn_id x) = i)) as [E|E].
      * rewrite E in *. same_some. rewrite Hcl, Hrec, (bool_decide_eq_true_2 _ eq_refl), orb_true_r.
        rewrite list_lookup_insert_eq by (by rewrite Hlen).
        by rewrite Hx.
      * rewrite list_lookup_insert_ne by done. rewrite IH.
        destruct (cn_client c) as [h'|] eqn:Ec; [|done]. rewrite Hrec.
        rewrite (bool_decide_eq_false_2 (Some h = Some h')); [by rewrite orb_false_r|].
        intros [= ->]. pose proof (so_owner _ Hok i c h' Hc Ec) as Ho. rewrite Hx in Ho.
        cbn in Ho. injection Ho as Ho. lia.
    + cbn [mbind option_bind]. rewrite IH. destruct (cn_client c) as [h'|]; [|done]. rewrite Hrec.
      by rewrite (bool_decide_eq_false_2 (None = Some h')), orb_false_r by done.
Qed.

Lemma flag_line_kind cp buffer x : flag_line cp buffer (send_kind x) = Some (message_line x cp buffer).
Proof.
  unfold flag_line, send_kind, message_line, prefix_for. by destruct (cl_type x =? CLIENT_SERVER).
Qed.

(** What the lines to some members add to the stream of a connection. *)
Lemma member_lines_for w l Client Remote cp buffer i c :
  state_ok w -> Forall (member_ok w) l -> n_conns (w_net w) !! i = Some c ->
  lines_for (Z.of_nat i) (member_lines w l Client Remote cp buffer) =
    expected_line (w_tab w) Client Remote l cp buffer c.
Proof.
  intros Hok Hl Hc. unfold member_lines.
  rewrite <- (Z.add_0_l (Z.of_nat i)), lines_for_marked, lookup_zip_with.
  rewrite list_lookup_fmap, Hc. cbn [fmap option_fmap option_map].
  assert (Hi : (i < length (map (fun _ => 0%Z) (n_conns (w_net w))))%nat).
  { rewrite length_map. by eapply lookup_lt_Some. }
  pose proof (marks_lookup w Client Remote l (map (fun _ => 0) (n_conns (w_net w))) i c Hok Hl Hc Hi) as Hm.
  assert (H0 : map (fun _ : CONNECTION => 0) (n_conns (w_net w)) !! i = Some 0) by by rewrite list_lookup_fmap, Hc.
  rewrite H0 in Hm. unfold expected_line. cbn [mbind option_bind].
  destruct (cn_client c) as [h|] eqn:Ec.
  - destruct (recipient (w_tab w) Client Remote l h) eqn:Er.
    + unfold recipient in Er. apply existsb_exists in Er as (m & Hin & Ht%bool_decide_eq_true_1).
      rewrite Forall_forall in Hl. specialize (Hl m Hin).
      destruct (target_routed w Client Remote m h Hok Hl Ht) as (x & cn & Hx & Hcx & Hcn & _ & Hs).
      pose proof (so_owner _ Hok i c h Hc Ec) as Ho. rewrite Hx in Ho. cbn in Ho.
      injection Ho as Ho. rewrite Ho, Nat2Z.id in Hcn. same_some.
      rewrite Hx in Hm. cbn in Hm. rewrite Hm, Hx. cbn. rewrite Hs.
      destruct (Z.eqb_spec (cl_conn_id x) NONE); [lia|]. by rewrite flag_line_kind.
    + rewrite Hm. cbn. destruct (cn_sock c =? NONE), (t_clients (w_tab w) !! h); done.
  - rewrite Hm. cbn. by destruct (cn_sock c =? NONE).
Qed.

Lemma channel_members_ok w Chan :
  state_ok w -> Forall (member_ok w) (List.filter (is_channel Chan) (t_My_Cl2Chan (w_tab w))).
Proof.
  intros Hok. apply Forall_forall. intros m Hm. apply List.filter_In in Hm as [Hm _].
  pose proof (so_members _ Hok) as Hall. rewrite Forall_forall in Hall. by apply Hall.
Qed.

Lemma channel_lines_for w Chan Client Remote cp buffer i c :
  state_ok w -> n_conns (w_net w) !! i = Some c ->
  lines_for (Z.of_nat i) (channel_lines w Chan Client Remote cp buffer) =
    expected_line (w_tab w) Client Remote (List.filter (is_channel Chan) (t_My_Cl2Chan (w_tab w)))
      cp buffer c.
Proof. intros Hok Hc. apply member_lines_for; [done|by apply channel_members_ok|done]. Qed.

End recipients.

(** ** Messages to the servers *)

Lemma next_in_app pre a l : NoDup (pre ++ a :: l) -> next_in a (pre ++ a :: l) = Some (head l).
Proof.
  induction pre as [|x pre IH]; intros Hnd; cbn [next_in app].
  - by rewrite Nat.eqb_refl.
  - apply list.NoDup_cons in Hnd as [Hx Hnd]. rewrite (proj2 (Nat.eqb_neq x a)); [by apply IH|].
    intros ->. apply Hx. rewrite elem_of_app, elem_of_cons. auto.
Qed.

Section for_each.
Context `{Conf}.

(** A loop over the clients whose body only sends: its lines, in the order of
    the client list. *)
Lemma client_loop_ok t body (f : nat -> list (Z * string)) pre l fuel w
    (Q : unit -> World -> Prop) :
  (forall a w, state_ok w -> w_tab w = t -> a ∈ t_My_Clients t ->
     wp (body (Some a)) (fun _ w' => delivered (f a) w w') w) ->
  state_ok w -> w_tab w = t -> t_My_Clients t = pre ++ l -> (length l <= fuel)%nat ->
  (forall w', delivered (concat (map f l)) w w' -> Q tt w') ->
  wp (client_loop fuel body (head l)) Q w.
Proof.
  intros Hbody. revert pre fuel w Q. induction l as [|a l IH]; intros pre fuel w Q Hok Ht Hl Hf HQ.
  - destruct fuel; cbn [client_loop head is_null]; wp_step; apply HQ, delivered_refl.
  - destruct fuel as [|fuel]; [cbn in Hf; lia|]. cbn [client_loop head is_null]. wp_step.
    eapply wp_mono.
    { apply Hbody; try done. rewrite Hl, elem_of_app, elem_of_cons. auto. }
    intros u w1 D. cbv beta in D |- *. clear u. pose proof (dl_tab _ _ _ D) as Ht1.
    pose proof (delivered_state_ok _ _ _ D Hok) as Hok1.
    assert (Ha : is_Some (t_clients (w_tab w1) !! a)).
    { pose proof (so_listed _ Hok1) as Hli. rewrite Forall_forall in Hli. apply Hli.
      rewrite Ht1, Ht, Hl. apply in_or_app. right. by left. }
    destruct Ha as [c Hc]. wp_step. unfold Client_Next. wp_step.
    eapply wp_load_client; [exact Hc|]. wp_step. wp_step.
    rewrite Ht1, Ht, Hl, next_in_app by (rewrite <- Hl, <- Ht; apply Hok). wp_step.
    apply (IH (pre ++ [a])); try done.
    + by rewrite Ht1.
    + by rewrite <- app_assoc.
    + cbn in Hf. lia.
    + intros w2 D2. apply HQ. by apply (delivered_trans _ _ _ _ _ D).
Qed.

Lemma for_each_client_ok body (f : nat -> list (Z * string)) w (Q : unit -> World -> Prop) :
  (forall a w', state_ok w' -> w_tab w' = w_tab w -> a ∈ t_My_Clients (w_tab w) ->
     wp (body (Some a)) (fun _ w'' => delivered (f a) w' w'') w') ->
  state_ok w ->
  (forall w', delivered (concat (map f (t_My_Clients (w_tab w)))) w w' -> Q tt w') ->
  wp (for_each_client body) Q w.
Proof.
  intros Hbody Hok HQ. unfold for_each_client, Client_First. wp_steps.
  by apply (client_loop_ok (w_tab w) body f []).
Qed.

Lemma listed_lookup w a :
  state_ok w -> a ∈ t_My_Clients (w_tab w) -> exists c, t_clients (w_tab w) !! a = Some c.
Proof.
  intros Hok Ha. pose proof (so_listed _ Hok) as Hl. rewrite Forall_forall in Hl.
  apply Hl. by apply list_elem_of_In.
Qed.

End for_each.

(** Formatting a formatted message again changes nothing. *)
Lemma snprintf_s n s args : snprintf n "%s" [FS (snprintf n s args)] = snprintf n s args.
Proof.
  unfold snprintf. cbn. rewrite str_app_nil_r. apply str_take_all. rewrite slen_take. lia.
Qed.

Section servers.
Context `{Conf} `{IO : ConnIO} `{!ConnIOSpec IO}.

(** The line for one client of a message to the servers. *)
Definition server_line (t : Tables) (ExceptOf : ptr) (Flag : ascii) (cp : CLIENT) (buffer : string)
    (a : nat) : list (Z * string) :=
  match t_clients t !! a with
  | Some c =>
      if (cl_type c =? CLIENT_SERVER) && (NONE <? cl_conn_id c)
         && negb (a =? t_This_Server t)%nat && negb (ptr_eqb (Some a) ExceptOf)
         && ((Flag =c NUL) || has_chr (cl_flags c) Flag)
      then [(cl_conn_id c, message_line c cp buffer)] else []
  | None => []
  end.

Definition server_lines (t : Tables) (ExceptOf : ptr) (Flag : ascii) (cp : CLIENT) (buffer : string)
    : list (Z * string) :=
  concat (map (server_line t ExceptOf Flag cp buffer) (t_My_Clients t)).

Lemma wp_WriteStrServersPrefixFlag w ExceptOf p cp Flag Format args (Q : unit -> World -> Prop) :
  state_ok w -> t_clients (w_tab w) !! p = Some cp ->
  (forall w', delivered (server_lines (w_tab w) ExceptOf Flag cp (snprintf BUFFER_LEN Format args)) w w' ->
     Q tt w') ->
  wp (IRC_WriteStrServersPrefixFlag ExceptOf (Some p) Flag Format args) Q w.
Proof using Type*.
  intros Hok Hcp HQ. unfold IRC_WriteStrServersPrefixFlag, IRC_WriteStrServersPrefixFlag_CB.
  wp_step. wp_step. set (buffer := snprintf BUFFER_LEN Format args) in *.
  eapply (for_each_client_ok _ (server_line (w_tab w) ExceptOf Flag cp buffer)); [|done|exact HQ].
  intros a w1 Hok1 Ht Ha. destruct (listed_lookup w a Hok Ha) as [c Hc].
  wp_step. rd. wp_step. rd. wp_step. rd.
  unfold server_line. rewrite Hc. unfold ptr_eqb at 1.
  replace (bool_decide (Some a = Some (t_This_Server (w_tab w)))) with (a =? t_This_Server (w_tab w))%nat.
  2: { destruct (Nat.eqb_spec a (t_This_Server (w_tab w))) as [->|]; symmetry;
       [by apply bool_decide_eq_true_2|apply bool_decide_eq_false_2; congruence]. }
  destruct ((cl_type c =? CLIENT_SERVER) && (NONE <? cl_conn_id c)
            && negb (a =? t_This_Server (w_tab w))%nat && negb (ptr_eqb (Some a) ExceptOf)) eqn:E;
    cbn [andb]; [|wp_step; apply delivered_refl].
  apply andb_prop in E as [E _]. apply andb_prop in E as [E _]. apply andb_prop in E as [_ E].
  apply Z.ltb_lt in E. wp_step.
  assert (Hflag : forall Q' : bool -> World -> Prop, Q' ((Flag =c NUL) || has_chr (cl_flags c) Flag) w1 ->
    wp (if Flag =c NUL then mret true else Client_HasFlag (Some a) Flag) Q' w1).
  { intros Q' HQ'. destruct (Flag =c NUL); [by wp_step|]. by rd. }
  apply Hflag. destruct ((Flag =c NUL) || has_chr (cl_flags c) Flag); [|wp_step; apply delivered_refl].
  unfold cb_writeStrServersPrefixFlag. wp_step.
  destruct (so_local _ Hok a c Hc) as [?|(_ & Hh & _)]; [lia|].
  eapply (wp_WriteStrClientPrefix _ _ _ c _ cp); rewrite ?Ht; try done.
  unfold buffer. rewrite snprintf_s. intros w2 D _. wp_step. exact D.
Qed.

Lemma wp_WriteStrServersPrefix w ExceptOf p cp Format args (Q : unit -> World -> Prop) :
  state_ok w -> t_clients (w_tab w) !! p = Some cp ->
  (forall w', delivered (server_lines (w_tab w) ExceptOf NUL cp (snprintf BUFFER_LEN Format args)) w w' ->
     Q tt w') ->
  wp (IRC_WriteStrServersPrefix ExceptOf (Some p) Format args) Q w.
Proof using Type*.
  intros Hok Hcp HQ. unfold IRC_WriteStrServersPrefix. wp_step. wp_step.
  eapply wp_WriteStrServersPrefixFlag; [done..|]. by rewrite snprintf_s.
Qed.

End servers.

(** ** Properties *)

(** C7: delivery of channel messages.  In a well-formed state a message to a
    channel is sent without a fault; every open connection over which some
    member is reached gets the message exactly once, however many members are
    behind it, with a prefix that suits the receiver (the full mask for users,
    the nickname for servers); the connection of the sender and, for local
    messages, remote members get nothing; and the tables stay as they are. *)
Theorem IRC_WriteStrChannelPrefix_spec `{Conf} `{IO : ConnIO} `{!ConnIOSpec IO}
    w Client Chan p cp Remote Format args :
  state_ok w -> Client <> NULL -> Chan <> NULL -> t_clients (w_tab w) !! p = Some cp ->
  wp (IRC_WriteStrChannelPrefix Client Chan (Some p) Remote Format args)
    (fun _ w' => w_tab w' = w_tab w /\ state_ok w' /\
       forall i c c', n_conns (w_net w) !! i = Some c -> n_conns (w_net w') !! i = Some c' ->
         erase c' = erase c /\
         stream c' = stream c +:+
           expected_line (w_tab w) Client Remote
             (List.filter (is_channel Chan) (t_My_Cl2Chan (w_tab w)))
             cp (snprintf BUFFER_LEN Format args) c) w.
Proof.
  intros Hok Hcl Hch Hcp. eapply wp_WriteStrChannelPrefix; [done..|]. intros w' D.
  split; [apply D|]. split; [by eapply delivered_state_ok|]. intros i c c' Hc Hc'.
  destruct (dl_conns _ _ _ D i c c' Hc Hc') as [E S]. split; [done|].
  by rewrite S, (channel_lines_for _ _ _ _ _ _ _ _ Hok Hc).
Qed.

(** Delivery to the network.  In a well-formed state a message to the
    servers reaches every directly connected server except this one and the
    excluded one that has the flag asked for, once per server and in the order
    of the client list, and nobody else. *)
Theorem IRC_WriteStrServersPrefixFlag_spec `{Conf} `{IO : ConnIO} `{!ConnIOSpec IO}
    w ExceptOf p cp Flag Format args :
  state_ok w -> t_clients (w_tab w) !! p = Some cp ->
  wp (IRC_WriteStrServersPrefixFlag ExceptOf (Some p) Flag Format args)
    (fun _ w' => state_ok w' /\
       delivered (server_lines (w_tab w) ExceptOf Flag cp (snprintf BUFFER_LEN Format args)) w w') w.
Proof.
  intros Hok Hcp. eapply wp_WriteStrServersPrefixFlag; [done..|]. intros w' D.
  split; [by eapply delivered_state_ok|done].
Qed.
