(* ===== verification/Channel.v ===== *)
(** * Channels: joining, leaving and writing (src/state/channel/channel.c)

    The operations of channel.c that send messages, and the functions of log.c
    that send log messages to clients.  [Log] without the flag LOG_snotice only
    writes to the system log, which is not modelled. *)

From S2P Require Import Prelude CString Match Hash Checks Lists Messages World ClientCore.
From S2P Require Import ConnFunc ConnSpec ChannelCore State IrcWrite.

Definition REMOVE_PART : Z := 0.
Definition REMOVE_QUIT : Z := 1.
Definition REMOVE_KICK : Z := 2.

Definition MAX_LOG_MSG_LEN : nat := 1024.

(** A long as the [int] that [%d] prints. *)
Definition to_int (x : Z) : Z := (x + 2 ^ 31) mod 2 ^ 32 - 2 ^ 31.

Section Channel.
Context `{Conf} `{ConnIO}.

(** ** Removing a client from a channel *)

Definition notify_kick (Chan Client Origin : ptr) (Reason : string) (InformServer : bool) : M unit :=
  (if InformServer then
     hop ← Client_NextHop Origin;
     c ← deref_channel Chan;
     id ← Client_ID Client;
     IRC_WriteStrServersPrefix hop Origin "KICK %s %s :%s" [FS (ch_name c); FS id; FS Reason]
   else mret tt);;
  c ← deref_channel Chan;
  id ← Client_ID Client;
  IRC_WriteStrChannelPrefix Client Chan Origin false "KICK %s %s :%s"
    [FS (ch_name c); FS id; FS Reason];;
  conn ← Client_Conn Client;
  ty ← Client_Type Client;
  (if (NONE <? conn) && (ty =? CLIENT_USER) then
     c ← deref_channel Chan;
     id ← Client_ID Client;
     _ ← IRC_WriteStrClientPrefix Client Origin "KICK %s %s :%s"
           [FS (ch_name c); FS id; FS Reason]; mret tt
   else mret tt);;
  _ ← Client_Mask Client; _ ← Client_ID Origin; mret tt.

Definition notify_part (Chan Client Origin : ptr) (Reason : string) (InformServer : bool) : M unit :=
  let Reason := if Conf_MorePrivacy then "" else Reason in
  (if InformServer then
     c ← deref_channel Chan;
     IRC_WriteStrServersPrefix Origin Client "PART %s :%s" [FS (ch_name c); FS Reason]
   else mret tt);;
  c ← deref_channel Chan;
  IRC_WriteStrChannelPrefix Origin Chan Client false "PART %s :%s" [FS (ch_name c); FS Reason];;
  conn ← Client_Conn Origin;
  ty ← Client_Type Origin;
  (if (NONE <? conn) && (ty =? CLIENT_USER) then
     c ← deref_channel Chan;
     _ ← IRC_WriteStrClientPrefix Origin Client "PART %s :%s" [FS (ch_name c); FS Reason];
     _ ← Client_Mask Client; mret tt
   else mret tt).

Definition Remove_Client (Type_ : Z) (Chan Client Origin : ptr) (Reason : string)
    (InformServer : bool) : M bool :=
  assert_ (negb (is_null Chan));;
  assert_ (negb (is_null Client));;
  assert_ (negb (is_null Origin));;
  InformServer ← (if InformServer then not_ (Channel_IsLocal Chan) else mret false);
  l ← get_tab t_My_Cl2Chan;
  if negb (existsb (is_member Chan Client) l) then mret false
  else
    mod_tab (fun t => set_t_My_Cl2Chan (remove_first (is_member Chan Client) (t_My_Cl2Chan t)) t);;
    (if Type_ =? REMOVE_QUIT then
       assert_ (negb InformServer);; _ ← Client_Mask Client; mret tt
     else if Type_ =? REMOVE_KICK then notify_kick Chan Client Origin Reason InformServer
     else notify_part Chan Client Origin Reason InformServer);;
    p ← Channel_HasMode Chan "P";
    (if negb (p : bool) then
       first ← Get_First_Cl2Chan NULL Chan;
       match first with [] => Delete_Channel Chan | _ => mret tt end
     else mret tt);;
    mret true.

(** ** Joining and leaving *)

Definition Channel_Join (Client : ptr) (Name : string) : M bool :=
  assert_ (negb (is_null Client));;
  if negb (Channel_IsValidName Name) then
    id ← Client_ID Client;
    _ ← IRC_WriteErrClient Client ERR_NOSUCHCHANNEL_MSG [FS id; FS Name]; mret false
  else
    chan ← Channel_Search Name;
    if negb (is_null chan) then
      m ← Get_Cl2Chan chan Client;
      if is_some m then mret false else Add_Client chan Client
    else
      chan ← Channel_Create Name;
      Add_Client chan Client.

Definition Channel_Part (Client Origin : ptr) (Name Reason : string) : M bool :=
  assert_ (negb (is_null Client));;
  chan ← Channel_Search Name;
  if is_null chan then
    id ← Client_ID Client;
    _ ← IRC_WriteErrClient Client ERR_NOSUCHCHANNEL_MSG [FS id; FS Name]; mret false
  else
    m ← Get_Cl2Chan chan Client;
    if negb (is_some m) then
      id ← Client_ID Client;
      _ ← IRC_WriteErrClient Client ERR_NOTONCHANNEL_MSG [FS id; FS Name]; mret false
    else
      let Reason := if Conf_MorePrivacy then "" else Reason in
      Remove_Client REMOVE_PART chan Client Origin Reason true.

(** The privileges of [Channel_Kick]; the conditions are tested in this order
    until one decides. *)
Definition kick_allowed (chan Peer Target Origin : ptr) : M bool :=
  Channel_UserHasMode chan Peer "q"
  <||> (Channel_UserHasMode chan Peer "a" <&&> not_ (Channel_UserHasMode chan Target "q"))
  <||> (Channel_UserHasMode chan Peer "o" <&&> not_ (Channel_UserHasMode chan Target "q")
        <&&> not_ (Channel_UserHasMode chan Target "a"))
  <||> (Channel_UserHasMode chan Peer "h" <&&> not_ (Channel_UserHasMode chan Target "q")
        <&&> not_ (Channel_UserHasMode chan Target "a")
        <&&> not_ (Channel_UserHasMode chan Target "o"))
  <||> (Client_HasMode Origin "o" <&&> mret Conf_OperCanMode).

(** Channel mode Q, user mode q and services: only IRC operators may kick. *)
Definition kick_protected (chan Target Origin : ptr) : M bool :=
  (Channel_HasMode chan "Q" <||> Client_HasMode Target "q"
   <||> (ty ← Client_Type Target; mret (ty =? CLIENT_SERVICE)))
  <&&> not_ (Client_HasMode Origin "o").

Definition Channel_Kick (Peer Target Origin : ptr) (Name Reason : string) : M unit :=
  assert_ (negb (is_null Peer));;
  assert_ (negb (is_null Target));;
  assert_ (negb (is_null Origin));;
  let error (fmt : string) (args : list farg) : M unit :=
    id ← Client_ID Origin; _ ← IRC_WriteErrClient Origin fmt (FS id :: args); mret tt in
  chan ← Channel_Search Name;
  if is_null chan then error ERR_NOSUCHCHANNEL_MSG [FS Name]
  else
    peer_type ← Client_Type Peer;
    origin_type ← Client_Type Origin;
    on ← (if negb (peer_type =? CLIENT_SERVER) && negb (origin_type =? CLIENT_SERVICE)
          then Channel_IsMemberOf chan Origin else mret true);
    if negb (on : bool) then error ERR_NOTONCHANNEL_MSG [FS Name]
    else
      there ← Channel_IsMemberOf chan Target;
      if negb (there : bool) then
        tid ← Client_ID Target; error ERR_USERNOTINCHANNEL_MSG [FS tid; FS Name]
      else
        verdict ← (if peer_type =? CLIENT_USER then
                     p ← kick_protected chan Target Origin;
                     if (p : bool) then mret (Some true)
                     else a ← kick_allowed chan Peer Target Origin;
                          mret (if (a : bool) then None else Some false)
                   else mret None);
        match verdict with
        | Some true => tid ← Client_ID Target; error ERR_KICKDENY_MSG [FS Name; FS tid]
        | Some false => error ERR_CHANOPPRIVTOOLOW_MSG [FS Name]
        | None => _ ← Remove_Client REMOVE_KICK chan Target Origin Reason true; mret tt
        end.

(** The loop of [Channel_Quit]: the next channel is taken before the client is
    removed, which may free the current one. *)
Fixpoint quit_loop (fuel : nat) (Client : ptr) (Reason : string) (c : ptr) : M unit :=
  if is_null c then mret tt
  else match fuel with
       | O => crash OutOfFuel
       | S fuel' =>
           next_c ← Channel_Next c;
           _ ← Remove_Client REMOVE_QUIT c Client Client Reason false;
           quit_loop fuel' Client Reason next_c
       end.

Definition Channel_Quit (Client : ptr) (Reason : string) : M unit :=
  assert_ (negb (is_null Client));;
  let Reason := if Conf_MorePrivacy then "" else Reason in
  IRC_WriteStrRelatedPrefix Client Client false "QUIT :%s" [FS Reason];;
  c ← Channel_First;
  n ← get_tab (fun t => length (t_My_Channels t));
  quit_loop n Client Reason c.

(** ** Writing *)

(** [Lists_Check] on a list of a channel: the masks of the client are needed
    if the list has an element. *)
Definition check_list (get : CHANNEL -> list list_elem) (set : list list_elem -> CHANNEL -> CHANNEL)
    (Chan Client : ptr) : M bool :=
  c ← the_channel Chan;
  match get c with
  | [] => mret false
  | _ =>
      masks ← Client_masks Client;
      c ← the_channel Chan;
      let '(r, h') := Lists_Check masks.1 masks.2 (get c) in
      store_channel Chan (set h' c);; mret r
  end.

(** The channel modes of a member that lift the restrictions. *)
Definition member_privileged (Chan From : ptr) : M bool :=
  has_voice ← Channel_UserHasMode Chan From "v";
  is_halfop ← Channel_UserHasMode Chan From "h";
  is_op ← Channel_UserHasMode Chan From "o";
  is_chanadmin ← Channel_UserHasMode Chan From "a";
  is_owner ← Channel_UserHasMode Chan From "q";
  mret (has_voice || is_halfop || is_op || is_chanadmin || is_owner).

(** The last checks: moderated channels, and the lists. *)
Definition unprivileged_can_send (Chan From : ptr) : M bool :=
  moderated ← Channel_HasMode Chan "m";
  if (moderated : bool) then mret false
  else
    except ← check_list ch_excepts set_ch_excepts Chan From;
    if (except : bool) then mret true
    else not_ (check_list ch_bans set_ch_bans Chan From).

Definition Can_Send_To_Channel (Chan From : ptr) : M bool :=
  this ← Client_ThisServer;
  if ptr_eqb this From then mret true
  else
    is_member ← Channel_IsMemberOf Chan From;
    privileged ← (if (is_member : bool) then member_privileged Chan From else mret false);
    n ← (Channel_HasMode Chan "n" <&&> mret (negb is_member));
    if (n : bool) then mret false
    else
      m ← (Channel_HasMode Chan "M" <&&> not_ (Client_HasMode From "R")
           <&&> not_ (Client_HasMode From "o"));
      if (m : bool) then mret false
      else if (privileged : bool) then mret true
      else unprivileged_can_send Chan From.

Definition Channel_Write (Chan From Client : ptr) (Command : string) (SendErrors : bool)
    (Text : string) : M bool :=
  ok ← Can_Send_To_Channel Chan From;
  if negb (ok : bool) then
    if negb SendErrors then mret true
    else
      m ← Channel_HasMode Chan "M";
      id ← Client_ID From;
      name ← Channel_Name Chan;
      IRC_WriteErrClient From
        (if (m : bool) then ERR_NEEDREGGEDNICK_MSG else ERR_CANNOTSENDTOCHAN_MSG) [FS id; FS name]
  else
    conn ← Client_Conn From;
    (if NONE <? conn then Conn_UpdateIdle conn else mret tt);;
    name ← Channel_Name Chan;
    IRC_WriteStrChannelPrefix Client Chan From true "%s %s :%s" [FS Command; FS name; FS Text];;
    mret true.

(** ** Showing lists *)

Fixpoint show_elems (Client Channel : ptr) (msg : string) (l : list list_elem) : M bool :=
  match l with
  | [] => mret true
  | e :: l' =>
      id ← Client_ID Client;
      name ← Channel_Name Channel;
      ok ← IRC_WriteStrClient Client msg
             [FS id; FS name; FS (Lists_GetMask e); FS (Lists_GetReason e);
              FZ (to_int (Lists_GetValidity e))];
      if negb (ok : bool) then mret false else show_elems Client Channel msg l'
  end.

Definition ShowChannelList (head : list list_elem) (Client Channel : ptr) (msg msg_end : string) : M bool :=
  assert_ (negb (is_null Client));;
  assert_ (negb (is_null Channel));;
  ok ← show_elems Client Channel msg head;
  if negb (ok : bool) then mret false
  else
    id ← Client_ID Client;
    name ← Channel_Name Channel;
    IRC_WriteStrClient Client msg_end [FS id; FS name].

Definition Channel_ShowBans (Client Channel : ptr) : M bool :=
  h ← Channel_GetListBans Channel;
  ShowChannelList h Client Channel RPL_BANLIST_MSG RPL_ENDOFBANLIST_MSG.

Definition Channel_ShowExcepts (Client Channel : ptr) : M bool :=
  h ← Channel_GetListExcepts Channel;
  ShowChannelList h Client Channel RPL_EXCEPTLIST_MSG RPL_ENDOFEXCEPTLIST_MSG.

Definition Channel_ShowInvites (Client Channel : ptr) : M bool :=
  h ← Channel_GetListInvites Channel;
  ShowChannelList h Client Channel RPL_INVITELIST_MSG RPL_ENDOFINVITELIST_MSG.

(** ** Log messages for clients (channel.c and log.c) *)

Definition Channel_LogServer (msg : string) : M unit :=
  sc ← Channel_Search "&SERVER";
  if is_null sc then mret tt
  else
    c ← Client_ThisServer;
    _ ← Channel_Write sc c c "PRIVMSG" false msg; mret tt.

Definition Log_ServerNotice (UserMode : ascii) (Format : string) (args : list farg) : M unit :=
  let msg := snprintf MAX_LOG_MSG_LEN Format args in
  for_each_client (fun c =>
    conn ← Client_Conn c;
    m ← (mret (NONE <? conn) <&&> Client_HasMode c UserMode);
    if (m : bool) then
      id ← Client_ID c;
      _ ← IRC_WriteStrClient c "NOTICE %s :%s%s" [FS id; FS ""; FS msg]; mret tt
    else mret tt).

(** [Log(level, ...)]; [snotice] is the flag LOG_snotice of the level. *)
Definition Log (snotice : bool) (Format : string) (args : list farg) : M unit :=
  let msg := snprintf MAX_LOG_MSG_LEN Format args in
  if snotice then
    Log_ServerNotice "s" "%s" [FS msg];;
    Channel_LogServer msg
  else mret tt.

Definition Set_KeyFile (Chan : ptr) (KeyFile : string) : M unit :=
  c ← the_channel Chan;
  let len := slen KeyFile in
  let bytes := match ch_keyfile c with None => 0%nat | Some t => S (slen t) end in
  (if (len <? bytes)%nat then upd_channel Chan (set_ch_keyfile None) else mret tt);;
  if (len <? 1)%nat then mret tt
  else
    upd_channel Chan (set_ch_keyfile (Some KeyFile));;
    c ← deref_channel Chan;
    Log true (dq "New local channel key file `%s` for %s activated.") [FS KeyFile; FS (ch_name c)].

(** ** Channel keys *)

(** The lines that [fgets] reads from a file; [None] if it cannot be opened. *)
Context (read_lines : string -> option (list string)).

Fixpoint check_key_lines (User ID Key : string) (lines : list string) : bool :=
  match lines with
  | [] => false
  | line :: rest =>
      let line := ngt_TrimStr line in
      match after ":" line with
      | None => check_key_lines User ID Key rest
      | Some nick =>
          if negb (Match (before ":" line) User) then check_key_lines User ID Key rest
          else match after ":" nick with
               | None => check_key_lines User ID Key rest
               | Some pass =>
                   if negb (Match (before ":" nick) ID) then check_key_lines User ID Key rest
                   else if negb (String.eqb Key pass) then check_key_lines User ID Key rest
                   else true
               end
      end
  end.

Definition Channel_CheckKey (Chan Client : ptr) (Key : string) : M bool :=
  assert_ (negb (is_null Client));;
  k ← Channel_HasMode Chan "k";
  if negb (k : bool) then mret true
  else if hd0 Key =c NUL then mret false
  else
    c ← the_channel Chan;
    if String.eqb (ch_key c) Key then mret true
    else match ch_keyfile c with
         | None => mret false
         | Some file_name =>
             match read_lines file_name with
             | None => mret false
             | Some lines =>
                 user ← Client_User Client;
                 id ← Client_ID Client;
                 mret (check_key_lines user id Key lines)
             end
         end.

End Channel.

(** ** Changes of the membership table *)

Lemma hop_ext t t' a :
  t_clients t' = t_clients t -> t_This_Server t' = t_This_Server t -> hop t' a = hop t a.
Proof.
  intros Hc Hs. unfold hop. rewrite Hc. generalize (S (size (t_clients t))). intros n.
  revert a. induction n as [|n IH]; intros a; cbn [hop_of]; [done|]. rewrite Hc, Hs.
  destruct (t_clients t !! a) as [x|]; [|done]. change (Some x ≫= ?f) with (f x). cbv beta.
  destruct (cl_introducer x) as [i|]; [|done]. by destruct (decide _).
Qed.

(** A change of the channel tables keeps a state well formed. *)
Lemma state_ok_channels `{Conf} w t' :
  state_ok w -> t_clients t' = t_clients (w_tab w) -> t_My_Clients t' = t_My_Clients (w_tab w) ->
  t_This_Server t' = t_This_Server (w_tab w) ->
  Forall (fun a => is_Some (t_channels t' !! a)) (t_My_Channels t') -> NoDup (t_My_Channels t') ->
  Forall (fun m => routed w (cc_client m) /\ cc_channel m ∈ t_My_Channels t') (t_My_Cl2Chan t') ->
  NoDup (map (fun m => (cc_client m, cc_channel m)) (t_My_Cl2Chan t')) ->
  state_ok (set_w_tab t' w).
Proof.
  intros [A B C1 C0 C2 C3 C4 C5 C6 C6' C7 C8 C9 C10] Hc Hm Hs H1 H2 H3 H4.
  assert (Hh : forall a, hop t' a = hop (w_tab w) a) by (intros; by apply hop_ext).
  split; cbn [w_tab w_net set_w_tab]; rewrite ?Hc, ?Hm, ?Hs, ?Hh; try done.
  - intros i c Hi. specialize (B i c Hi). unfold conn_ok in *. cbn [w_tab set_w_tab]. by rewrite Hc.
  - intros a c Ha. destruct (C3 a c Ha) as [E|(E1 & E2 & E3)]; [by left|right].
    split; [done|]. cbn [w_tab set_w_tab]. by rewrite Hh.
  - eapply Forall_impl; [|exact H3]. intros m [(h & x & Hx1 & Hx2 & Hx3) Hm2]. split; [|done].
    exists h, x. cbn [w_tab set_w_tab]. rewrite Hh. split; [done|]. split; [by rewrite Hc|done].
Qed.

Lemma is_member_spec ch cl m :
  is_member (Some ch) (Some cl) m = true <-> cc_channel m = ch /\ cc_client m = cl.
Proof.
  unfold is_member, is_channel, is_client, ptr_eqb. rewrite andb_true_iff, !bool_decide_eq_true.
  naive_solver.
Qed.

Lemma is_channel_spec ch m : is_channel (Some ch) m = true <-> cc_channel m = ch.
Proof. unfold is_channel, ptr_eqb. rewrite bool_decide_eq_true. naive_solver. Qed.

(** The tables without a membership; an empty channel that is not predefined
    goes with its last member. *)
Definition remove_tables (t : Tables) (ch cl : nat) : Tables :=
  let l := remove_first (is_member (Some ch) (Some cl)) (t_My_Cl2Chan t) in
  let t1 := set_t_My_Cl2Chan l t in
  match t_channels t !! ch with
  | Some c =>
      if negb (has_chr (ch_modes c) "P") && negb (existsb (is_channel (Some ch)) l)
      then set_t_channels (delete ch (t_channels t))
             (set_t_My_Channels (remove_first (fun a => ptr_eqb (Some a) (Some ch)) (t_My_Channels t)) t1)
      else t1
  | None => t1
  end.

Lemma sublist_map {A B} (f : A -> B) l1 l2 : sublist l1 l2 -> sublist (map f l1) (map f l2).
Proof. induction 1; cbn; by constructor. Qed.

Lemma NoDup_sublist {A} (l1 l2 : list A) : sublist l1 l2 -> NoDup l2 -> NoDup l1.
Proof.
  induction 1 as [|x l1 l2 Hs IH|x l1 l2 Hs IH]; [done| |];
    rewrite ?list.NoDup_cons; intros [H1 H2]; [|auto].
  split; [|auto]. intros H3. apply H1. by eapply elem_of_sublist.
Qed.

Lemma remove_first_other {A} (f : A -> bool) l x : NoDup l -> (forall y, f y = true <-> y = x) ->
  forall y, y ∈ remove_first f l <-> y ∈ l /\ y <> x.
Proof.
  intros Hn Hf y. induction l as [|z l IH]; cbn.
  - rewrite elem_of_nil. naive_solver.
  - apply list.NoDup_cons in Hn as [Hz Hn]. destruct (f z) eqn:E.
    + apply Hf in E as ->. rewrite elem_of_cons. naive_solver.
    + rewrite !elem_of_cons, IH by done. assert (z <> x) by (intros ->; rewrite (proj2 (Hf x) eq_refl) in E; done).
      naive_solver.
Qed.

Lemma existsb_false {A} (f : A -> bool) l : existsb f l = false <-> forall x, x ∈ l -> f x = false.
Proof.
  induction l as [|a l IH]; cbn.
  - split; [intros _ x Hx; by apply elem_of_nil in Hx|done].
  - rewrite orb_false_iff, IH. split.
    + intros [H1 H2] x [->|Hx]%elem_of_cons; auto.
    + intros H. split; [apply H; left|intros x Hx; apply H; by right].
Qed.

Lemma existsb_true {A} (f : A -> bool) l : existsb f l = true <-> exists x, x ∈ l /\ f x = true.
Proof.
  rewrite existsb_exists. split; intros (x & Hx & Hf); exists x; split; try done; by apply list_elem_of_In.
Qed.

Lemma remove_tables_state_ok `{Conf} w ch cl :
  state_ok w -> state_ok (set_w_tab (remove_tables (w_tab w) ch cl) w).
Proof.
  intros Hok. pose proof (so_channels _ Hok) as Hl. pose proof (so_members _ Hok) as Hm.
  pose proof (remove_first_sublist (is_member (Some ch) (Some cl)) (t_My_Cl2Chan (w_tab w))) as Hs.
  pose proof (Forall_sublist _ _ _ Hs Hm) as Hm'.
  unfold remove_tables. set (l := remove_first (is_member (Some ch) (Some cl)) _) in *.
  assert (Hnd : NoDup (map (fun m => (cc_client m, cc_channel m)) l)).
  { eapply NoDup_sublist; [by apply sublist_map|apply Hok]. }
  destruct (t_channels (w_tab w) !! ch) as [c|]; [|by apply state_ok_channels; try done; apply Hok].
  destruct (negb (has_chr (ch_modes c) "P") && negb (existsb (is_channel (Some ch)) l)) eqn:E;
    [|by apply state_ok_channels; try done; apply Hok].
  apply andb_prop in E as [_ E]. apply negb_true_iff in E. rewrite existsb_false in E.
  assert (Hrm : forall a, a ∈ remove_first (fun a => ptr_eqb (Some a) (Some ch)) (t_My_Channels (w_tab w))
    <-> a ∈ t_My_Channels (w_tab w) /\ a <> ch).
  { apply remove_first_other; [apply Hok|]. intros y. unfold ptr_eqb.
    rewrite bool_decide_eq_true. naive_solver. }
  apply state_ok_channels; try done; cbn.
  - rewrite list.Forall_forall in *. intros a Ha. apply Hrm in Ha as [Ha Hne].
    rewrite lookup_delete_ne by done. by apply Hl.
  - eapply NoDup_sublist; [apply remove_first_sublist|apply Hok].
  - rewrite list.Forall_forall in *. intros m Hin. destruct (Hm' m Hin) as [Hr Hc].
    split; [done|]. apply Hrm. split; [done|]. intros He. apply is_channel_spec in He.
    by rewrite (E m Hin) in He.
Qed.

(** A channel is used by somebody else after the removal, predefined, or gone. *)
Lemma remove_tables_channels_ok t ch cl :
  NoDup (t_My_Channels t) -> channels_ok t -> channels_ok (remove_tables t ch cl).
Proof.
  intros Hnd [K1 K2 K3 K4]. unfold remove_tables.
  set (l := remove_first (is_member (Some ch) (Some cl)) (t_My_Cl2Chan t)).
  assert (Hother : forall a, a <> ch -> existsb (is_channel (Some a)) (t_My_Cl2Chan t) = true ->
    existsb (is_channel (Some a)) l = true).
  { intros a Hne. rewrite !existsb_true. intros (m & Hm & Hc). exists m. split; [|done].
    apply remove_first_keep; [|done]. apply not_true_iff_false. intros Hx.
    apply is_member_spec in Hx as [Hx _]. apply is_channel_spec in Hc. congruence. }
  destruct (t_channels t !! ch) as [c|] eqn:Ec.
  2: { split; cbn; try done. intros a x Ha Hx. destruct (K3 a x Ha Hx); [by left|right].
       apply Hother; [congruence|done]. }
  destruct (has_chr (ch_modes c) "P") eqn:EP; cbn [negb andb].
  { split; cbn; try done. intros a x Ha Hx. destruct (decide (a = ch)) as [->|Hne].
    - left. congruence.
    - destruct (K3 a x Ha Hx); [by left|right; by apply Hother]. }
  destruct (existsb (is_channel (Some ch)) l) eqn:Ee; cbn [negb].
  { split; cbn; try done. intros a x Ha Hx. destruct (decide (a = ch)) as [->|Hne]; [by right|].
    destruct (K3 a x Ha Hx); [by left|right; by apply Hother]. }
  assert (Hrm : forall a, a ∈ remove_first (fun a => ptr_eqb (Some a) (Some ch)) (t_My_Channels t)
    <-> a ∈ t_My_Channels t /\ a <> ch).
  { apply remove_first_other; [done|]. intros y. unfold ptr_eqb. rewrite bool_decide_eq_true. naive_solver. }
  split; cbn.
  - intros a x [_ Hx]%lookup_delete_Some. by apply K1 in Hx.
  - intros a b x y [Ha Hna]%Hrm [Hb Hnb]%Hrm. rewrite !lookup_delete_ne by done. by apply K2.
  - intros a x [Ha Hna]%Hrm. rewrite lookup_delete_ne by done. intros Hx.
    destruct (K3 a x Ha Hx); [by left|right; by apply Hother].
  - intros a [x [_ Hx]%lookup_delete_Some]. apply K4. by exists x.
Qed.

(** ** The messages of PART and KICK *)

Lemma const_map_delivered l w w' :
  delivered l w w' ->
  map (fun _ => 0) (n_conns (w_net w')) = map (fun _ => 0) (n_conns (w_net w)).
Proof.
  intros D. pose proof (dl_len _ _ _ D) as Hl. revert Hl. generalize (n_conns (w_net w)).
  induction (n_conns (w_net w')) as [|c l1 IH]; intros [|d l2]; cbn; try done.
  intros [= Hl]. f_equal. by apply IH.
Qed.

Lemma member_lines_delivered l w w' ms Client Remote cp buffer :
  delivered l w w' ->
  member_lines w' ms Client Remote cp buffer = member_lines w ms Client Remote cp buffer.
Proof.
  intros D. unfold member_lines.
  by rewrite (dl_tab _ _ _ D), (socks_delivered _ _ _ D), (const_map_delivered _ _ _ D).
Qed.

Lemma channel_lines_delivered l w w' Chan Client Remote cp buffer :
  delivered l w w' ->
  channel_lines w' Chan Client Remote cp buffer = channel_lines w Chan Client Remote cp buffer.
Proof.
  intros D. unfold channel_lines. rewrite (dl_tab _ _ _ D). by eapply member_lines_delivered.
Qed.

(** A message to one client if it is a local user. *)
Definition own_line (to from : CLIENT) (buffer : string) : list (Z * string) :=
  if (NONE <? cl_conn_id to) && (cl_type to =? CLIENT_USER)
  then [(cl_conn_id to, message_line to from buffer)] else [].

Definition part_msg (c : CHANNEL) (Reason : string) : string :=
  snprintf BUFFER_LEN "PART %s :%s" [FS (ch_name c); FS Reason].

Definition kick_msg (c : CHANNEL) (target : CLIENT) (Reason : string) : string :=
  snprintf BUFFER_LEN "KICK %s %s :%s" [FS (ch_name c); FS (id_of target); FS Reason].

Definition part_lines (w : World) (ch : nat) (c : CHANNEL) (ccl : CLIENT) (o : nat) (co : CLIENT)
    (Reason : string) (inform : bool) : list (Z * string) :=
  (if inform then server_lines (w_tab w) (Some o) NUL ccl (part_msg c Reason) else []) ++
  channel_lines w (Some ch) (Some o) false ccl (part_msg c Reason) ++
  own_line co ccl (part_msg c Reason).

Definition kick_lines (w : World) (ch : nat) (c : CHANNEL) (cl : nat) (ccl : CLIENT) (ho : nat)
    (co : CLIENT) (Reason : string) (inform : bool) : list (Z * string) :=
  (if inform then server_lines (w_tab w) (Some ho) NUL co (kick_msg c ccl Reason) else []) ++
  channel_lines w (Some ch) (Some cl) false co (kick_msg c ccl Reason) ++
  own_line ccl co (kick_msg c ccl Reason).

Section notify.
Context `{Conf} `{IO : ConnIO} `{!ConnIOSpec IO}.

Lemma notify_part_ok w ch c cl ccl o co Reason inform (Q : unit -> World -> Prop) :
  state_ok w -> t_channels (w_tab w) !! ch = Some c ->
  t_clients (w_tab w) !! cl = Some ccl -> t_clients (w_tab w) !! o = Some co ->
  (forall w', delivered (part_lines w ch c ccl o co (if Conf_MorePrivacy then "" else Reason) inform) w w' ->
     Q tt w') ->
  wp (notify_part (Some ch) (Some cl) (Some o) Reason inform) Q w.
Proof using Type*.
  intros Hok Hch Hcl Ho HQ. unfold notify_part. set (R := if Conf_MorePrivacy then "" else Reason) in *.
  unfold part_lines in HQ. fold (part_msg c R).
  assert (Hinf : forall Q' : unit -> World -> Prop,
    (forall w1, delivered (if inform then server_lines (w_tab w) (Some o) NUL ccl (part_msg c R) else []) w w1 ->
       Q' tt w1) ->
    wp (if inform then c ← deref_channel (Some ch);
          IRC_WriteStrServersPrefix (Some o) (Some cl) "PART %s :%s" [FS (ch_name c); FS R]
        else mret tt) Q' w).
  { intros Q' H'. destruct inform; [|wp_step; apply H', delivered_refl].
    wp_steps. by eapply wp_WriteStrServersPrefix. }
  wp_step. apply Hinf. intros w1 D1. pose proof (dl_tab _ _ _ D1) as Ht1.
  pose proof (delivered_state_ok _ _ _ D1 Hok) as Hok1.
  wp_step. rd. wp_step. eapply wp_WriteStrChannelPrefix; rewrite ?Ht1; try done.
  rewrite (channel_lines_delivered _ _ _ _ _ _ _ _ D1). intros w2 D2.
  pose proof (dl_tab _ _ _ D2) as Ht2. rewrite Ht1 in Ht2.
  pose proof (delivered_state_ok _ _ _ D2 Hok1) as Hok2.
  wp_step. rd. wp_step. rd. rewrite <- Ht2 in Hch, Hcl, Ho.
  assert (Hgoal : forall w3, delivered (own_line co ccl (part_msg c R)) w2 w3 -> Q tt w3).
  { intros w3 D3. apply HQ. eapply delivered_trans; [exact D1|]. by eapply delivered_trans. }
  unfold own_line in Hgoal.
  destruct ((NONE <? cl_conn_id co) && (cl_type co =? CLIENT_USER)) eqn:E.
  - apply andb_prop in E as [E _]. apply Z.ltb_lt in E. wp_steps.
    destruct (so_local _ Hok2 o co Ho) as [?|(_ & Hh & _)]; [lia|].
    eapply wp_WriteStrClientPrefix; [done..|]. intros w3 D3 _.
    pose proof (dl_tab _ _ _ D3) as Ht3. wp_step. rd. wp_step. by apply Hgoal.
  - wp_step. apply Hgoal, delivered_refl.
Qed.

Lemma notify_kick_ok w ch c cl ccl o ho co Reason inform (Q : unit -> World -> Prop) :
  state_ok w -> t_channels (w_tab w) !! ch = Some c ->
  t_clients (w_tab w) !! cl = Some ccl -> t_clients (w_tab w) !! o = Some co ->
  hop (w_tab w) o = Some ho ->
  (forall w', delivered (kick_lines w ch c cl ccl ho co Reason inform) w w' -> Q tt w') ->
  wp (notify_kick (Some ch) (Some cl) (Some o) Reason inform) Q w.
Proof using Type*.
  intros Hok Hch Hcl Ho Hh HQ. unfold notify_kick, kick_lines in *.
  pose proof (so_clients _ Hok cl ccl Hcl) as Hclok. pose proof (so_clients _ Hok o co Ho) as Hook.
  assert (Ht : w_tab w = w_tab w) by done.
  assert (Hinf : forall Q' : unit -> World -> Prop,
    (forall w1, delivered (if inform then server_lines (w_tab w) (Some ho) NUL co (kick_msg c ccl Reason) else []) w w1 ->
       Q' tt w1) ->
    wp (if inform then hop ← Client_NextHop (Some o); c ← deref_channel (Some ch);
          id ← Client_ID (Some cl);
          IRC_WriteStrServersPrefix hop (Some o) "KICK %s %s :%s" [FS (ch_name c); FS id; FS Reason]
        else mret tt) Q' w).
  { intros Q' H'. destruct inform; [|wp_step; apply H', delivered_refl].
    wp_step. rd. wp_step. rd. wp_step. rd. by eapply wp_WriteStrServersPrefix. }
  wp_step. apply Hinf. intros w1 D1. pose proof (dl_tab _ _ _ D1) as Ht1.
  pose proof (delivered_state_ok _ _ _ D1 Hok) as Hok1.
  wp_step. rd. wp_step. rd. wp_step. eapply wp_WriteStrChannelPrefix; rewrite ?Ht1; try done.
  rewrite (channel_lines_delivered _ _ _ _ _ _ _ _ D1). intros w2 D2.
  pose proof (dl_tab _ _ _ D2) as Ht2. rewrite Ht1 in Ht2.
  pose proof (delivered_state_ok _ _ _ D2 Hok1) as Hok2.
  wp_step. rd. wp_step. rd.
  assert (Hgoal : forall w3, delivered (own_line ccl co (kick_msg c ccl Reason)) w2 w3 -> Q tt w3).
  { intros w3 D3. apply HQ. eapply delivered_trans; [exact D1|]. by eapply delivered_trans. }
  unfold own_line in Hgoal.
  assert (Hend : forall w3, w_tab w3 = w_tab w -> Q tt w3 ->
    wp (_ ← Client_Mask (Some cl); _ ← Client_ID (Some o); mret tt) Q w3).
  { intros w3 Ht3 H3. wp_step. rd. wp_step. rd. by wp_step. }
  wp_step. destruct ((NONE <? cl_conn_id ccl) && (cl_type ccl =? CLIENT_USER)) eqn:E.
  - apply andb_prop in E as [E _]. apply Z.ltb_lt in E. wp_step. rd. wp_step. rd. wp_step.
    assert (Hcl2 : t_clients (w_tab w2) !! cl = Some ccl) by by rewrite Ht2.
    destruct (so_local _ Hok2 cl ccl Hcl2) as [?|(_ & Hh2 & _)]; [lia|].
    assert (Ho2 : t_clients (w_tab w2) !! o = Some co) by by rewrite Ht2.
    apply (wp_WriteStrClientPrefix w2 cl cl ccl o co); [done..|].
    intros w3 D3 _. wp_step. apply Hend; [by rewrite (dl_tab _ _ _ D3)|]. by apply Hgoal.
  - wp_step. apply Hend; [done|]. apply Hgoal, delivered_refl.
Qed.

End notify.
