(* ===== verification/ChannelSpec.v ===== *)
(** * Joining, leaving and kicking: the contracts

    What the operations of [Channel] do to the tables and to the streams of the
    connections, in a well-formed state whose network accepts what is sent: the
    membership table is changed as asked for, empty channels disappear, every
    local member and every server behind which there are members is told once, and
    the state stays well formed.  Also the privileges of KICK and the conditions
    for speaking in a channel, as functions of the tables. *)

From S2P Require Import Prelude CString Match Hash Checks Lists Messages World ClientCore.
From S2P Require Import ConnFunc ConnSpec ChannelCore State IrcWrite Channel.

(** The tables after the membership alone has been removed. *)
Definition unlink_tables (t : Tables) (ch cl : nat) : Tables :=
  set_t_My_Cl2Chan (remove_first (is_member (Some ch) (Some cl)) (t_My_Cl2Chan t)) t.

Section Remove.
Context `{Conf}.

(** The messages of [Remove_Client], sent when the membership is gone. *)
Definition remove_lines (w : World) (Type_ : Z) (ch : nat) (c : CHANNEL) (cl : nat) (ccl : CLIENT)
    (o : nat) (co : CLIENT) (Reason : string) (inform : bool) : list (Z * string) :=
  if Type_ =? REMOVE_QUIT then []
  else if Type_ =? REMOVE_KICK
  then kick_lines w ch c cl ccl (from_opt o (hop (w_tab w) o)) co Reason inform
  else part_lines w ch c ccl o co (if Conf_MorePrivacy then "" else Reason) inform.

Lemma unlink_tables_state_ok w ch cl :
  state_ok w -> state_ok (set_w_tab (unlink_tables (w_tab w) ch cl) w).
Proof.
  intros Hok. pose proof (remove_first_sublist (is_member (Some ch) (Some cl)) (t_My_Cl2Chan (w_tab w))) as Hs.
  apply state_ok_channels; try done; try apply Hok.
  - apply (Forall_sublist _ _ _ Hs), Hok.
  - eapply NoDup_sublist; [by apply sublist_map|apply Hok].
Qed.

Lemma next_cl2chan_empty Chan l :
  Chan <> NULL -> (next_cl2chan NULL Chan l = [] <-> existsb (is_channel Chan) l = false).
Proof.
  intros Hc. induction l as [|m l IH]; [done|]. cbn [next_cl2chan existsb].
  destruct Chan as [a|]; [|done]. cbn [is_null negb andb].
  by destruct (is_channel (Some a) m).
Qed.

Lemma remove_tables_unlink t ch cl c :
  t_channels t !! ch = Some c ->
  remove_tables t ch cl =
    if negb (has_chr (ch_modes c) "P") && negb (existsb (is_channel (Some ch)) (t_My_Cl2Chan (unlink_tables t ch cl)))
    then set_t_channels (delete ch (t_channels t))
           (set_t_My_Channels (remove_first (fun a => ptr_eqb (Some a) (Some ch)) (t_My_Channels t))
              (unlink_tables t ch cl))
    else unlink_tables t ch cl.
Proof. intros Hc. unfold remove_tables. by rewrite Hc. Qed.

Context `{IO : ConnIO}.

(** A channel without members is deleted, unless it is predefined. *)
Lemma wp_drop_channel w t ch cl c (Q : bool -> World -> Prop) :
  t_channels t !! ch = Some c -> ch ∈ t_My_Channels t ->
  w_tab w = unlink_tables t ch cl ->
  Q true (set_w_tab (remove_tables t ch cl) w) ->
  wp (p ← Channel_HasMode (Some ch) "P";
      (if negb (p : bool) then
         first ← Get_First_Cl2Chan NULL (Some ch);
         match first with [] => Delete_Channel (Some ch) | _ => mret tt end
       else mret tt);;
      mret true) Q w.
Proof.
  intros Hc Hin Ht HQ. rewrite (remove_tables_unlink _ _ _ _ Hc) in HQ.
  assert (Hw : set_w_tab (unlink_tables t ch cl) w = w) by (rewrite <- Ht; by destruct w).
  assert (Hc1 : t_channels (unlink_tables t ch cl) !! ch = Some c) by done.
  wp_step. rd. destruct (has_chr (ch_modes c) "P"); cbn [negb andb] in *.
  { do 3 wp_step. by rewrite Hw in HQ. }
  wp_step. wp_step. unfold Get_First_Cl2Chan, Get_Next_Cl2Chan. do 5 wp_step. rewrite Ht.
  destruct (existsb (is_channel (Some ch)) (t_My_Cl2Chan (unlink_tables t ch cl))) eqn:E; cbn [negb] in HQ.
  - destruct (next_cl2chan NULL (Some ch) (t_My_Cl2Chan (unlink_tables t ch cl))) eqn:En.
    + apply next_cl2chan_empty in En; [|done]. congruence.
    + do 2 wp_step. by rewrite Hw in HQ.
  - apply next_cl2chan_empty in E; [|done]. rewrite E. unfold Delete_Channel, Free_Channel.
    wp_step. wp_step. wp_step. wp_step.
    { rewrite Ht. apply existsb_true. exists ch. split; [done|].
      unfold ptr_eqb. by apply bool_decide_eq_true. }
    wp_step. wp_step. wp_step. eapply wp_load_channel; [cbn; rewrite Ht; exact Hc1|].
    wp_step. wp_step. rewrite Ht. exact HQ.
Qed.

Context `{!ConnIOSpec IO}.

Lemma wp_Remove_Client w Type_ ch c cl ccl o co Reason inform (Q : bool -> World -> Prop) :
  state_ok w -> t_channels (w_tab w) !! ch = Some c ->
  t_clients (w_tab w) !! cl = Some ccl -> t_clients (w_tab w) !! o = Some co ->
  existsb (is_member (Some ch) (Some cl)) (t_My_Cl2Chan (w_tab w)) = true ->
  (Type_ = REMOVE_QUIT -> inform = false) ->
  (Type_ = REMOVE_KICK -> is_Some (hop (w_tab w) o)) ->
  (forall w1 w2, w1 = set_w_tab (unlink_tables (w_tab w) ch cl) w ->
     delivered (remove_lines w1 Type_ ch c cl ccl o co Reason
                  (inform && negb (hd0 (ch_name c) =c "&"%char))) w1 w2 ->
     Q true (set_w_tab (remove_tables (w_tab w) ch cl) w2)) ->
  wp (Remove_Client Type_ (Some ch) (Some cl) (Some o) Reason inform) Q w.
Proof using Type*.
  intros Hok Hch Hcl Ho Hm Hq Hk HQ. unfold Remove_Client. do 6 wp_step. wp_step.
  assert (Ht : w_tab w = w_tab w) by done.
  assert (Hinf : forall Q' : bool -> World -> Prop,
    Q' (inform && negb (hd0 (ch_name c) =c "&"%char)) w ->
    wp (if inform then not_ (Channel_IsLocal (Some ch)) else mret false) Q' w).
  { intros Q' H'. destruct inform; [|by wp_step]. wp_step. unfold Channel_IsLocal.
    wp_step. rd. by wp_step. }
  apply Hinf. wp_step. wp_step. rewrite Hm. cbn [negb].
  set (inf := inform && _) in *. wp_step. wp_step. wp_step.
  set (w1 := set_w_tab _ w) in *. change w1 with (set_w_tab (unlink_tables (w_tab w) ch cl) w) in w1.
  pose proof (unlink_tables_state_ok w ch cl Hok) as Hok1. fold w1 in Hok1.
  assert (Hin : ch ∈ t_My_Channels (w_tab w)).
  { apply existsb_true in Hm as (m & Hm & Hx). apply is_member_spec in Hx as [<- _].
    pose proof (so_members _ Hok) as Hall. rewrite list.Forall_forall in Hall. by apply (Hall m). }
  assert (Hend : forall w2, delivered (remove_lines w1 Type_ ch c cl ccl o co Reason inf) w1 w2 ->
    wp (p ← Channel_HasMode (Some ch) "P";
      (if negb (p : bool) then
         first ← Get_First_Cl2Chan NULL (Some ch);
         match first with [] => Delete_Channel (Some ch) | _ => mret tt end
       else mret tt);;
      mret true) Q w2).
  { intros w2 D. apply (wp_drop_channel w2 (w_tab w) ch cl c); [done|done|apply (dl_tab _ _ _ D)|].
    by apply (HQ w1). }
  clear HQ. unfold remove_lines in Hend. destruct (Z.eqb_spec Type_ REMOVE_QUIT) as [E|E].
  - assert (inf = false) as -> by (unfold inf; by rewrite Hq). wp_step. wp_step. wp_step.
    assert (Ht1 : w_tab w1 = w_tab w1) by done. rd. wp_step. apply Hend, delivered_refl.
  - destruct (Z.eqb_spec Type_ REMOVE_KICK) as [E2|E2].
    + destruct (Hk E2) as [ho Hho].
      assert (Hho1 : hop (w_tab w1) o = Some ho) by (rewrite <- Hho; by apply hop_ext).
      rewrite Hho1 in Hend. by eapply notify_kick_ok.
    + by eapply notify_part_ok.
Qed.
End Remove.

(** ** Joining *)

(** A channel as [Channel_Create] makes it. *)
Definition new_channel (Name : string) (now : Z) : CHANNEL :=
  Channel Name (Hash Name) "" None now 0 "" "" 0 [] [] [] None.

Definition add_tables (t : Tables) (ch cl : nat) : Tables :=
  set_t_My_Cl2Chan (Cl2Chan cl ch "" :: t_My_Cl2Chan t) t.

Definition create_tables (t : Tables) (Name : string) : Tables :=
  set_t_My_Channels (t_fresh t :: t_My_Channels t)
    (set_t_channels (<[t_fresh t := new_channel Name (t_now t)]> (t_channels t))
       (set_t_fresh (S (t_fresh t)) t)).

(** The tables after [Channel_Join]. *)
Definition join_tables (t : Tables) (cl : nat) (Name : string) : Tables :=
  match find_channel t Name with
  | Some ch => if existsb (is_member (Some ch) (Some cl)) (t_My_Cl2Chan t) then t
               else add_tables t ch cl
  | None => add_tables (create_tables t Name) (t_fresh t) cl
  end.

Lemma Get_Cl2Chan_ok w ch cl (Q : option CL2CHAN -> World -> Prop) :
  Q (lfind (is_member (Some ch) (Some cl)) (t_My_Cl2Chan (w_tab w))) w ->
  wp (Get_Cl2Chan (Some ch) (Some cl)) Q w.
Proof. intros HQ. unfold Get_Cl2Chan. by wp_steps. Qed.

Lemma is_some_lfind {A} (f : A -> bool) l : is_some (lfind f l) = existsb f l.
Proof. induction l as [|a l IH]; cbn; [done|]. by destruct (f a). Qed.

Lemma find_channel_ok w Name (Q : ptr -> World -> Prop) :
  Forall (fun a => is_Some (t_channels (w_tab w) !! a)) (t_My_Channels (w_tab w)) ->
  channels_ok (w_tab w) -> Q (find_channel (w_tab w) Name) w -> wp (Channel_Search Name) Q w.
Proof. intros Hl Hok HQ. unfold wp. by rewrite Channel_Search_ok. Qed.

Section Join.
Context `{Conf} `{IO : ConnIO}.

Lemma valid_name_fits Name : Channel_IsValidName Name = true -> strlcpy Name CHANNEL_NAME_LEN = Name.
Proof.
  unfold Channel_IsValidName. intros Hv. destruct (negb _); [done|].
  destruct (Nat.leb_spec CHANNEL_NAME_LEN (slen Name)); [done|]. by apply strlcpy_fits.
Qed.

Lemma Channel_Create_ok w Name (Q : ptr -> World -> Prop) :
  Channel_IsValidName Name = true ->
  Q (Some (t_fresh (w_tab w))) (set_w_tab (create_tables (w_tab w) Name) w) ->
  wp (Channel_Create Name) Q w.
Proof.
  intros Hv HQ. unfold Channel_Create, store_channel. rewrite (valid_name_fits _ Hv).
  wp_steps. exact HQ.
Qed.

Lemma Channel_Join_tables w cl c Name (Q : bool -> World -> Prop) :
  state_ok w -> channels_ok (w_tab w) -> t_clients (w_tab w) !! cl = Some c ->
  Channel_IsValidName Name = true ->
  Q (match find_channel (w_tab w) Name with
     | Some ch => negb (existsb (is_member (Some ch) (Some cl)) (t_My_Cl2Chan (w_tab w)))
     | None => true end) (set_w_tab (join_tables (w_tab w) cl Name) w) ->
  wp (Channel_Join (Some cl) Name) Q w.
Proof.
  intros Hok Hch Hc Hv HQ. unfold Channel_Join. wp_step. wp_step. rewrite Hv. cbn [negb].
  wp_step. apply find_channel_ok; [apply Hok|done|]. unfold join_tables in HQ.
  assert (Hmask : forall w' (Q' : string -> World -> Prop), t_clients (w_tab w') !! cl = Some c ->
    Q' (mask c) w' -> wp (Client_Mask (Some cl)) Q' w').
  { intros w' Q' Hc' HQ'. by eapply wp_Client_Mask. }
  destruct (find_channel (w_tab w) Name) as [ch|] eqn:Ef; cbn [is_null negb].
  - wp_step. apply Get_Cl2Chan_ok. rewrite is_some_lfind.
    destruct (existsb _ _); cbn [negb] in HQ; [wp_step; by destruct w|].
    unfold Add_Client. wp_steps. apply Hmask; [done|]. by wp_steps.
  - wp_step. apply Channel_Create_ok; [done|]. unfold Add_Client. wp_steps.
    apply Hmask; [done|]. wp_steps. exact HQ.
Qed.

Lemma not_member l ch cl :
  existsb (is_member (Some ch) (Some cl)) l = false ->
  (cl, ch) ∉ map (fun m => (cc_client m, cc_channel m)) l.
Proof.
  intros He Hin. apply list_elem_of_fmap in Hin as (m & [= -> ->] & Hm).
  rewrite existsb_false in He. specialize (He m Hm).
  by rewrite (proj2 (is_member_spec _ _ _) (conj eq_refl eq_refl)) in He.
Qed.

Lemma add_tables_state_ok w ch cl :
  state_ok w -> routed w cl -> ch ∈ t_My_Channels (w_tab w) ->
  existsb (is_member (Some ch) (Some cl)) (t_My_Cl2Chan (w_tab w)) = false ->
  state_ok (set_w_tab (add_tables (w_tab w) ch cl) w).
Proof.
  intros Hok Hr Hin He. apply state_ok_channels; try done; try apply Hok; cbn.
  - constructor; [done|]. apply Hok.
  - apply list.NoDup_cons. split; [by apply not_member|apply Hok].
Qed.

Lemma fresh_channel w : state_ok w -> channels_ok (w_tab w) ->
  t_channels (w_tab w) !! t_fresh (w_tab w) = None /\
  t_fresh (w_tab w) ∉ t_My_Channels (w_tab w) /\
  forall cl, existsb (is_member (Some (t_fresh (w_tab w))) (Some cl)) (t_My_Cl2Chan (w_tab w)) = false.
Proof.
  intros Hok Hch.
  assert (Hn : t_channels (w_tab w) !! t_fresh (w_tab w) = None).
  { destruct (t_channels (w_tab w) !! _) eqn:E; [|done].
    pose proof (ck_fresh _ Hch _ (mk_is_Some _ _ E)). lia. }
  assert (Hnin : t_fresh (w_tab w) ∉ t_My_Channels (w_tab w)).
  { intros Hin. pose proof (so_channels _ Hok) as Hall. rewrite list.Forall_forall in Hall.
    destruct (Hall _ Hin). congruence. }
  split; [done|]. split; [done|]. intros cl. apply existsb_false. intros m Hm.
  apply not_true_iff_false. intros [Hc _]%is_member_spec.
  pose proof (so_members _ Hok) as Hall. rewrite list.Forall_forall in Hall.
  destruct (Hall m Hm) as [_ Hm2]. by rewrite Hc in Hm2.
Qed.

Lemma create_tables_state_ok w Name :
  state_ok w -> channels_ok (w_tab w) -> state_ok (set_w_tab (create_tables (w_tab w) Name) w).
Proof.
  intros Hok Hch. destruct (fresh_channel w Hok Hch) as (Hn & Hnin & _).
  apply state_ok_channels; try done; cbn.
  - constructor; [by rewrite lookup_insert_eq|].
    eapply Forall_impl; [|apply Hok]. intros a [x Hx]. cbn. rewrite lookup_insert_ne; [by eexists|].
    congruence.
  - apply list.NoDup_cons. split; [done|apply Hok].
  - eapply Forall_impl; [|apply Hok]. intros m [Hr Hm]. split; [done|by right].
  - apply Hok.
Qed.

Lemma find_create_tables w Name :
  state_ok w -> channels_ok (w_tab w) ->
  find_channel (create_tables (w_tab w) Name) Name = Some (t_fresh (w_tab w)).
Proof.
  intros Hok Hch. unfold find_channel; cbn. rewrite lookup_insert_eq. cbn. by rewrite strcaseeq_refl.
Qed.

Lemma routed_ext w w' a :
  t_clients (w_tab w') = t_clients (w_tab w) -> t_This_Server (w_tab w') = t_This_Server (w_tab w) ->
  routed w a -> routed w' a.
Proof.
  intros Hc Hs (h & x & H1 & H2 & H3). exists h, x. rewrite Hc. by rewrite (hop_ext _ _ a Hc Hs).
Qed.

Lemma join_tables_state_ok w cl Name :
  state_ok w -> channels_ok (w_tab w) -> routed w cl ->
  state_ok (set_w_tab (join_tables (w_tab w) cl Name) w).
Proof.
  intros Hok Hch Hr. unfold join_tables. destruct (find_channel (w_tab w) Name) as [ch|] eqn:Ef.
  - destruct (existsb _ _) eqn:E; [by destruct w|].
    apply add_tables_state_ok; try done. by apply find_channel_Some in Ef as [? _].
  - apply (add_tables_state_ok (set_w_tab (create_tables (w_tab w) Name) w)).
    + by apply create_tables_state_ok.
    + by apply (routed_ext w).
    + left.
    + apply (fresh_channel w Hok Hch).
Qed.

Lemma join_tables_channels_ok w cl Name :
  state_ok w -> channels_ok (w_tab w) -> channels_ok (join_tables (w_tab w) cl Name).
Proof.
  intros Hok Hch. pose proof Hch as [K1 K2 K3 K4]. unfold join_tables.
  destruct (find_channel (w_tab w) Name) as [ch|] eqn:Ef.
  { destruct (existsb _ _) eqn:E; [done|]. split; cbn; try done.
    intros a x Ha Hx. destruct (K3 a x Ha Hx) as [?|He]; [by left|right]. rewrite He. apply orb_true_r. }
  destruct (fresh_channel w Hok Hch) as (Hn & Hnin & _).
  set (fr := t_fresh (w_tab w)) in *. set (new := new_channel Name (t_now (w_tab w))).
  assert (Hne : forall a, a ∈ t_My_Channels (w_tab w) -> fr <> a) by (intros a Ha ->; done).
  assert (Hnew : forall a x, a ∈ t_My_Channels (w_tab w) -> t_channels (w_tab w) !! a = Some x ->
    ~ case_eq Name (ch_name x)).
  { intros a x Ha Hx. by eapply find_channel_None. }
  split; cbn; fold fr new.
  - intros a x [[<- <-]|[_ Hx]]%lookup_insert_Some; [done|by apply K1 in Hx].
  - intros a b x y [->|Ha]%elem_of_cons [->|Hb]%elem_of_cons; [done| | |].
    + rewrite lookup_insert_eq, lookup_insert_ne by auto. intros [= <-] Hy He. by destruct (Hnew b y).
    + rewrite lookup_insert_eq, lookup_insert_ne by auto. intros Hx [= <-] He. by destruct (Hnew a x).
    + rewrite !lookup_insert_ne by auto. by apply K2.
  - intros a x [->|Ha]%elem_of_cons.
    + intros _. right. unfold is_channel at 1, ptr_eqb. by rewrite bool_decide_eq_true_2.
    + rewrite lookup_insert_ne by auto. intros Hx.
      destruct (K3 a x Ha Hx) as [?|He]; [by left|right]. rewrite He. apply orb_true_r.
  - intros a [x [[<- _]|[_ Hx]]%lookup_insert_Some]; [lia|].
    pose proof (K4 a (mk_is_Some _ _ Hx)). unfold fr. lia.
Qed.

End Join.

Lemma delivered_set_tab l t w1 w2 :
  delivered l w1 w2 -> delivered l (set_w_tab t w1) (set_w_tab t w2).
Proof. intros [A B C D E]. split; done. Qed.

Lemma removed_not_member l ch cl :
  NoDup (map (fun m => (cc_client m, cc_channel m)) l) ->
  existsb (is_member (Some ch) (Some cl)) (remove_first (is_member (Some ch) (Some cl)) l) = false.
Proof.
  induction l as [|m l IH]; cbn; [done|]. intros [Hn Hd]%list.NoDup_cons.
  destruct (is_member (Some ch) (Some cl) m) eqn:E.
  - apply is_member_spec in E as [<- <-]. apply not_true_iff_false. intros (m' & Hm' & Hx)%existsb_true.
    apply is_member_spec in Hx as [E1 E2]. apply Hn. apply list_elem_of_fmap. exists m'. by rewrite E1, E2.
  - cbn. rewrite E. by apply IH.
Qed.

Lemma remove_tables_members t ch cl :
  t_My_Cl2Chan (remove_tables t ch cl) = remove_first (is_member (Some ch) (Some cl)) (t_My_Cl2Chan t).
Proof.
  unfold remove_tables. destruct (t_channels t !! ch) as [c|]; [|done]. by destruct (_ && _).
Qed.

(** The state after a removal and its messages. *)
Lemma removed_ok `{Conf} l w w1 w2 ch cl :
  state_ok w -> channels_ok (w_tab w) ->
  w1 = set_w_tab (unlink_tables (w_tab w) ch cl) w -> delivered l w1 w2 ->
  let w' := set_w_tab (remove_tables (w_tab w) ch cl) w2 in
  state_ok w' /\ channels_ok (w_tab w') /\
  existsb (is_member (Some ch) (Some cl)) (t_My_Cl2Chan (w_tab w')) = false.
Proof.
  intros Hok Hch -> D w'. split; [|split].
  - pose proof (remove_tables_state_ok w ch cl Hok) as Hok'.
    apply (delivered_set_tab _ (remove_tables (w_tab w) ch cl)) in D.
    exact (delivered_state_ok _ _ _ D Hok').
  - apply remove_tables_channels_ok; [apply Hok|done].
  - cbn. rewrite remove_tables_members. apply removed_not_member, Hok.
Qed.

(** C8: joining a channel.  A reachable client that joins with a valid name
    becomes a member of the one channel with that name, in any spelling: the
    channel is created if there is none (with the name as given, no modes, no
    topic, no key and empty lists), the new membership has no channel modes, a
    second JOIN is refused and changes nothing, nothing is sent, and the
    invariants of the tables hold again. *)
Theorem Channel_Join_spec `{Conf} `{ConnIO} w cl Name :
  state_ok w -> channels_ok (w_tab w) -> routed w cl ->
  Channel_IsValidName Name = true ->
  exists r ch w', Channel_Join (Some cl) Name w = Done r w' /\
    state_ok w' /\ channels_ok (w_tab w') /\ w_net w' = w_net w /\
    find_channel (w_tab w') Name = Some ch /\
    r = negb (existsb (is_member (Some ch) (Some cl)) (t_My_Cl2Chan (w_tab w))) /\
    t_My_Cl2Chan (w_tab w') =
      (if r then [Cl2Chan cl ch ""] else []) ++ t_My_Cl2Chan (w_tab w) /\
    (forall a, a <> ch -> t_channels (w_tab w') !! a = t_channels (w_tab w) !! a) /\
    t_channels (w_tab w') !! ch =
      (if find_channel (w_tab w) Name then t_channels (w_tab w) !! ch
       else Some (new_channel Name (t_now (w_tab w)))).
Proof.
  intros Hok Hch Hr Hv. pose proof Hr as (h & x & Hh & _).
  destruct (t_clients (w_tab w) !! cl) as [c|] eqn:Ec.
  2: { unfold hop in Hh. cbn [hop_of] in Hh. by rewrite Ec in Hh. }
  pose proof (join_tables_state_ok w cl Name Hok Hch Hr) as Hok'.
  pose proof (join_tables_channels_ok w cl Name Hok Hch) as Hch'.
  pose proof (Channel_Join_tables w cl c Name (fun r w' => r =
    match find_channel (w_tab w) Name with
     | Some ch => negb (existsb (is_member (Some ch) (Some cl)) (t_My_Cl2Chan (w_tab w)))
     | None => true end /\ w' = set_w_tab (join_tables (w_tab w) cl Name) w) Hok Hch Ec Hv (conj eq_refl eq_refl)) as Hw.
  apply wp_done in Hw as (r & w' & Hw & -> & ->).
  destruct (find_channel (w_tab w) Name) as [ch|] eqn:Ef.
  - exists (negb (existsb (is_member (Some ch) (Some cl)) (t_My_Cl2Chan (w_tab w)))), ch, (set_w_tab (join_tables (w_tab w) cl Name) w).
    do 4 (split; [done|]). unfold join_tables. cbn [w_tab set_w_tab]. rewrite Ef.
    destruct (existsb _ _); cbn; repeat split; done.
  - destruct (fresh_channel w Hok Hch) as (Hn & Hnin & Hm).
    exists true, (t_fresh (w_tab w)),
      (set_w_tab (join_tables (w_tab w) cl Name) w).
    do 4 (split; [done|]). unfold join_tables. cbn [w_tab set_w_tab]. rewrite ?Ef. repeat split.
    + by apply find_create_tables.
    + by rewrite Hm.
    + intros a Ha. cbn. by rewrite lookup_insert_ne.
    + cbn. by rewrite lookup_insert_eq.
Qed.

(** C30: leaving a channel.  A member that leaves a channel (PART) is removed
    from it and from nowhere else; the channel disappears with its last member
    unless it is predefined; the other local members, the leaving user's
    connection and, for channels that are not local to this server, the servers
    are told; and the invariants of the tables hold again. *)
Theorem Channel_Part_spec `{Conf} `{IO : ConnIO} `{!ConnIOSpec IO} w cl ccl o co ch c Name Reason :
  state_ok w -> channels_ok (w_tab w) ->
  t_clients (w_tab w) !! cl = Some ccl -> t_clients (w_tab w) !! o = Some co ->
  find_channel (w_tab w) Name = Some ch -> t_channels (w_tab w) !! ch = Some c ->
  existsb (is_member (Some ch) (Some cl)) (t_My_Cl2Chan (w_tab w)) = true ->
  exists w1 w2 w', Channel_Part (Some cl) (Some o) Name Reason w = Done true w' /\
    w1 = set_w_tab (unlink_tables (w_tab w) ch cl) w /\
    delivered (part_lines w1 ch c ccl o co (if Conf_MorePrivacy then "" else Reason)
                 (negb (hd0 (ch_name c) =c "&"%char))) w1 w2 /\
    w' = set_w_tab (remove_tables (w_tab w) ch cl) w2 /\
    state_ok w' /\ channels_ok (w_tab w') /\
    existsb (is_member (Some ch) (Some cl)) (t_My_Cl2Chan (w_tab w')) = false.
Proof.
  intros Hok Hch Hcl Ho Hf Hc Hm.
  assert (wp (Channel_Part (Some cl) (Some o) Name Reason) (fun r w' => r = true /\ exists w1 w2,
    w1 = set_w_tab (unlink_tables (w_tab w) ch cl) w /\
    delivered (part_lines w1 ch c ccl o co (if Conf_MorePrivacy then "" else Reason)
                 (negb (hd0 (ch_name c) =c "&"%char))) w1 w2 /\
    w' = set_w_tab (remove_tables (w_tab w) ch cl) w2) w) as Hw.
  { unfold Channel_Part. wp_steps. apply find_channel_ok; [apply Hok|done|]. rewrite Hf.
    cbn [is_null]. wp_step. apply Get_Cl2Chan_ok. rewrite is_some_lfind, Hm. cbn [negb].
    eapply wp_Remove_Client; [done..|]. intros w1 w2 E D. split; [done|]. exists w1, w2.
    split; [done|]. split; [|done]. revert D. unfold remove_lines. cbn. by destruct Conf_MorePrivacy. }
  apply wp_done in Hw as (r & w' & Hw & -> & w1 & w2 & E1 & D & ->).
  exists w1, w2, (set_w_tab (remove_tables (w_tab w) ch cl) w2). do 4 (split; [done|]).
  by eapply removed_ok.
Qed.

(** ** Kicking *)

(** The rank that the modes of a membership give: owner, admin, operator,
    half-operator, others. *)
Definition rank (modes : string) : Z :=
  if has_chr modes "q" then 4 else if has_chr modes "a" then 3
  else if has_chr modes "o" then 2 else if has_chr modes "h" then 1 else 0.

Definition outranks (peer target : string) : bool := (0 <? rank peer) && (rank target <=? rank peer).

Lemma outranks_cases p t :
  outranks p t =
    has_chr p "q" || has_chr p "a" && negb (has_chr t "q")
    || has_chr p "o" && negb (has_chr t "q") && negb (has_chr t "a")
    || has_chr p "h" && negb (has_chr t "q") && negb (has_chr t "a") && negb (has_chr t "o").
Proof.
  unfold outranks, rank.
  destruct (has_chr p "q"), (has_chr p "a"), (has_chr p "o"), (has_chr p "h"),
    (has_chr t "q"), (has_chr t "a"), (has_chr t "o"), (has_chr t "h"); reflexivity.
Qed.

Definition member_modes (t : Tables) (ch cl : nat) : string :=
  from_opt "" (cc_modes <$> lfind (is_member (Some ch) (Some cl)) (t_My_Cl2Chan t)).

(** The error messages of this server for a local client. *)
Definition error_to (this c : CLIENT) (Format : string) (args : list farg) : list (Z * string) :=
  [(cl_conn_id c, message_line c this (snprintf BUFFER_LEN Format (FS (id_of c) :: args)))].

Section Members.
Context `{Conf} `{IO : ConnIO}.

Lemma wp_UserHasMode w t ch cl m (Q : bool -> World -> Prop) :
  w_tab w = t -> existsb (is_member (Some ch) (Some cl)) (t_My_Cl2Chan t) = true ->
  0 < char_val m -> Q (has_chr (member_modes t ch cl) m) w ->
  wp (Channel_UserHasMode (Some ch) (Some cl) m) Q w.
Proof.
  intros Ht Hm Hv HQ. unfold Channel_UserHasMode, Channel_UserModes. wp_step.
  wp_step; [by apply Z.ltb_lt|]. wp_step. wp_step. apply Get_Cl2Chan_ok. rewrite Ht.
  unfold member_modes in HQ. rewrite <- is_some_lfind in Hm.
  destruct (lfind _ _) as [x|]; [|done]. cbn [fmap option_fmap option_map from_opt] in HQ. do 2 wp_step.
  assert (m <> NUL) by (intros ->; done).
  destruct (cc_modes x) eqn:E; [|exact HQ]. by rewrite strchr_mem in HQ.
Qed.

Lemma wp_IsMemberOf w t ch cl (Q : bool -> World -> Prop) :
  w_tab w = t -> Q (existsb (is_member (Some ch) (Some cl)) (t_My_Cl2Chan t)) w ->
  wp (Channel_IsMemberOf (Some ch) (Some cl)) Q w.
Proof.
  intros <- HQ. unfold Channel_IsMemberOf. wp_step. apply Get_Cl2Chan_ok. wp_step.
  by rewrite is_some_lfind.
Qed.

End Members.

Ltac user_mode := eapply wp_UserHasMode; [reflexivity|assumption|reflexivity|].

Section Kick.
Context `{Conf}.

(** The target is protected from this origin. *)
Definition protected (c : CHANNEL) (target origin : CLIENT) : bool :=
  (has_chr (ch_modes c) "Q" || has_chr (cl_modes target) "q" || (cl_type target =? CLIENT_SERVICE))
  && negb (has_chr (cl_modes origin) "o").

(** The privileges of the peer suffice. *)
Definition privileged (t : Tables) (ch peer target : nat) (origin : CLIENT) : bool :=
  outranks (member_modes t ch peer) (member_modes t ch target)
  || (has_chr (cl_modes origin) "o" && Conf_OperCanMode).

Context `{IO : ConnIO}.

Lemma wp_kick_allowed w ch peer target o co (Q : bool -> World -> Prop) :
  t_clients (w_tab w) !! o = Some co ->
  existsb (is_member (Some ch) (Some peer)) (t_My_Cl2Chan (w_tab w)) = true ->
  existsb (is_member (Some ch) (Some target)) (t_My_Cl2Chan (w_tab w)) = true ->
  Q (privileged (w_tab w) ch peer target co) w ->
  wp (kick_allowed (Some ch) (Some peer) (Some target) (Some o)) Q w.
Proof.
  intros Ho Hp Ht HQ. unfold privileged in HQ.
  assert (Hoper : Q (has_chr (cl_modes co) "o" && Conf_OperCanMode) w ->
    wp (Client_HasMode (Some o) "o" <&&> mret Conf_OperCanMode) Q w).
  { intros H'. assert (Ht' : w_tab w = w_tab w) by done. wp_step. rd.
    destruct (has_chr (cl_modes co) "o"); [|done]. by wp_step. }
  rewrite outranks_cases in HQ. unfold kick_allowed.
  repeat first
    [ progress cbn [negb andb orb] in *
    | user_mode
    | exact HQ
    | by apply Hoper
    | discriminate
    | wp_step
    | match goal with
      | |- context [has_chr (member_modes ?t ?c ?p) ?m] =>
          destruct (has_chr (member_modes t c p) m) eqn:?
      end
    | match goal with
      | E : has_chr (member_modes _ _ _) _ = _ |- _ => rewrite ?E; rewrite E in HQ
      end ].
Qed.

Lemma wp_kick_protected w ch c target ct o co (Q : bool -> World -> Prop) :
  t_channels (w_tab w) !! ch = Some c -> t_clients (w_tab w) !! target = Some ct ->
  t_clients (w_tab w) !! o = Some co ->
  Q (protected c ct co) w -> wp (kick_protected (Some ch) (Some target) (Some o)) Q w.
Proof.
  intros Hc Ht Ho HQ. unfold protected in HQ. unfold kick_protected.
  assert (E : w_tab w = w_tab w) by done.
  wp_step. wp_step. rd. destruct (has_chr (ch_modes c) "Q"); cbn [orb andb] in HQ.
  { wp_step. by rd. }
  wp_step. rd. destruct (has_chr (cl_modes ct) "q"); cbn [orb andb] in HQ.
  { wp_step. by rd. }
  wp_step. rd. wp_step. destruct (cl_type ct =? CLIENT_SERVICE); [|done]. wp_step. by rd.
Qed.

Context `{!ConnIOSpec IO}.

Lemma wp_error_to w a c cs Format args (Q : bool -> World -> Prop) :
  state_ok w -> t_clients (w_tab w) !! a = Some c -> NONE < cl_conn_id c ->
  t_clients (w_tab w) !! t_This_Server (w_tab w) = Some cs ->
  (forall w', delivered (error_to cs c Format args) w w' -> Q true w') ->
  wp (IRC_WriteErrClient (Some a) Format (FS (id_of c) :: args)) Q w.
Proof using Type*.
  intros Hok Hc Hl Hs HQ. destruct (so_local _ Hok a c Hc) as [?|(_ & Hh & _)]; [lia|].
  eapply wp_WriteErrClient; [done..|by eexists|reflexivity|done|].
  intros w'. rewrite snprintf_s. apply HQ.
Qed.

End Kick.

(** The reply that refuses a KICK, if it is refused. *)
Definition kick_reply `{Conf} (t : Tables) (p tgt : nat) (cp ct : CLIENT) (Name : string) :
    option (string * list farg) :=
  match find_channel t Name with
  | None => Some (ERR_NOSUCHCHANNEL_MSG, [FS Name])
  | Some ch =>
      if negb (existsb (is_member (Some ch) (Some p)) (t_My_Cl2Chan t))
      then Some (ERR_NOTONCHANNEL_MSG, [FS Name])
      else if negb (existsb (is_member (Some ch) (Some tgt)) (t_My_Cl2Chan t))
      then Some (ERR_USERNOTINCHANNEL_MSG, [FS (id_of ct); FS Name])
      else if from_opt false ((fun c => protected c ct cp) <$> t_channels t !! ch)
      then Some (ERR_KICKDENY_MSG, [FS Name; FS (id_of ct)])
      else if privileged t ch p tgt cp then None
      else Some (ERR_CHANOPPRIVTOOLOW_MSG, [FS Name])
  end.

(** C6: kicking.  A local user removes another member from a channel exactly if
    the channel and the target are not protected from the user (channel mode Q,
    user mode q, services; IRC operators pass) and the user's rank in the
    channel is at least half-operator and not below the target's, or the user is
    an IRC operator and those may set modes.  Then the target is removed and the
    members and servers are told; otherwise the user gets the one error that
    fits and nothing else changes. *)
Theorem Channel_Kick_spec `{Conf} `{IO : ConnIO} `{!ConnIOSpec IO} w p cp tgt ct cs Name Reason :
  state_ok w -> channels_ok (w_tab w) ->
  t_clients (w_tab w) !! p = Some cp -> cl_type cp = CLIENT_USER -> NONE < cl_conn_id cp ->
  t_clients (w_tab w) !! tgt = Some ct ->
  t_clients (w_tab w) !! t_This_Server (w_tab w) = Some cs ->
  wp (Channel_Kick (Some p) (Some tgt) (Some p) Name Reason) (fun _ w' =>
    match kick_reply (w_tab w) p tgt cp ct Name with
    | Some (fmt, args) => delivered (error_to cs cp fmt args) w w'
    | None => exists ch c w1 w2,
        find_channel (w_tab w) Name = Some ch /\ t_channels (w_tab w) !! ch = Some c /\
        w1 = set_w_tab (unlink_tables (w_tab w) ch tgt) w /\
        delivered (kick_lines w1 ch c tgt ct p cp Reason (negb (hd0 (ch_name c) =c "&"%char))) w1 w2 /\
        w' = set_w_tab (remove_tables (w_tab w) ch tgt) w2 /\
        state_ok w' /\ channels_ok (w_tab w') /\
        existsb (is_member (Some ch) (Some tgt)) (t_My_Cl2Chan (w_tab w')) = false
    end) w.
Proof.
  intros Hok Hch Hp Hty Hl Ht Hs. assert (E : w_tab w = w_tab w) by done.
  pose proof (so_clients _ Hok p cp Hp) as Hpok. pose proof (so_clients _ Hok tgt ct Ht) as Htok.
  unfold kick_reply.
  assert (Herr : forall (Q : unit -> World -> Prop) fmt args, (forall w', delivered (error_to cs cp fmt args) w w' -> Q tt w') ->
    wp (id ← Client_ID (Some p); _ ← IRC_WriteErrClient (Some p) fmt (FS id :: args); mret tt) Q w).
  { intros Q fmt args HQ. wp_step. rd. wp_step. eapply wp_error_to; [done..|]. intros w' D.
    wp_step. by apply HQ. }
  unfold Channel_Kick. wp_steps. apply find_channel_ok; [apply Hok|done|].
  destruct (find_channel (w_tab w) Name) as [ch|] eqn:Ef; cbn [is_null]; [|by apply Herr].
  apply find_channel_Some in Ef as Ef2. destruct Ef2 as (_ & c & Hc & _). rewrite Hc. cbn [fmap option_fmap option_map from_opt].
  wp_step. rd. wp_step. rd. rewrite Hty. change (CLIENT_USER =? CLIENT_SERVER) with false.
  change (CLIENT_USER =? CLIENT_SERVICE) with false. change (CLIENT_USER =? CLIENT_USER) with true. cbn [negb andb].
  wp_step. eapply wp_IsMemberOf; [done|].
  destruct (existsb (is_member (Some ch) (Some p)) _) eqn:Emp; cbn [negb]; [|by apply Herr].
  wp_step. eapply wp_IsMemberOf; [done|].
  destruct (existsb (is_member (Some ch) (Some tgt)) _) eqn:Emt; cbn [negb]; [|wp_step; rd; by apply Herr].
  wp_step. wp_step. eapply wp_kick_protected; [done..|].
  destruct (protected c ct cp); [wp_step; wp_step; rd; by apply Herr|].
  wp_step. apply (wp_kick_allowed _ _ _ _ _ cp); [done..|]. wp_step.
  destruct (privileged _ _ _ _ _); [|by apply Herr].
  destruct (so_local _ Hok p cp Hp) as [?|(_ & Hh & _)]; [lia|].
  wp_step. eapply wp_Remove_Client; [done..|by eexists|]. intros w1 w2 E1 D. wp_step.
  exists ch, c, w1, w2. do 3 (split; [done|]).
  assert (Hh1 : hop (w_tab w1) p = Some p) by (rewrite E1, <- Hh; by apply hop_ext).
  unfold remove_lines in D. rewrite Hh1 in D. split; [exact D|]. split; [done|].
  by eapply removed_ok.
Qed.


(** ** Speaking *)

Definition listed (cf : CLIENT) (h : list list_elem) : bool :=
  existsb (elem_matches (mask_cloaked cf) (mask cf)) h.

Definition permanent (h : list list_elem) : Prop := Forall (fun e => le_onlyonce e = false) h.

(** A membership with any channel mode of a speaker. *)
Definition voiced (modes : string) : bool := (0 <? rank modes) || has_chr modes "v".

(** Who may speak in a channel. *)
Definition can_send (t : Tables) (ch : nat) (c : CHANNEL) (from : nat) (cf : CLIENT) : bool :=
  let member := existsb (is_member (Some ch) (Some from)) (t_My_Cl2Chan t) in
  let mode := has_chr (ch_modes c) in
  let user := has_chr (cl_modes cf) in
  bool_decide (from = t_This_Server t)
  || (member || negb (mode "n"%char))
     && (negb (mode "M"%char) || user "R"%char || user "o"%char)
     && (member && voiced (member_modes t ch from)
         || negb (mode "m"%char) && (listed cf (ch_excepts c) || negb (listed cf (ch_bans c)))).

Lemma Lists_Check_permanent m1 m2 h :
  permanent h -> Lists_Check m1 m2 h = (existsb (elem_matches m1 m2) h, h).
Proof.
  intros Hp. unfold Lists_Check, Lists_CheckReason. pose proof (Lists_find_spec m1 m2 h) as Hf.
  destruct (Lists_find m1 m2 h) as [[e|] h'].
  - destruct Hf as (l & r & -> & He & _ & ->).
    assert (le_onlyonce e = false) as ->.
    { eapply list.Forall_forall in Hp; [exact Hp|]. apply elem_of_app. right. left. }
    f_equal. symmetry. apply existsb_true. exists e. split; [|done].
    apply elem_of_app. right. left.
  - destruct Hf as [-> Hn]. f_equal. symmetry. apply existsb_false. by apply list.Forall_forall.
Qed.

Section Speak.
Context `{Conf} `{IO : ConnIO}.

Lemma wp_check_list w ch c from cf get set (Q : bool -> World -> Prop) :
  t_channels (w_tab w) !! ch = Some c -> t_clients (w_tab w) !! from = Some cf ->
  client_ok cf = true -> permanent (get c) -> set (get c) c = c ->
  Q (listed cf (get c)) w -> wp (check_list get set (Some ch) (Some from)) Q w.
Proof.
  intros Hc Hf Hok Hp Hset HQ. assert (Ht : w_tab w = w_tab w) by done.
  unfold check_list. wp_step. rd. unfold listed in HQ. destruct (get c) as [|e l] eqn:E; [by wp_step|].
  wp_step. unfold Client_masks. wp_step. rd. wp_step. rd. wp_step. wp_step. rd. rewrite E.
  cbn [fst snd]. rewrite Lists_Check_permanent by done. wp_step. unfold store_channel. wp_step. wp_step.
  rewrite Hset, insert_id by done. by destruct w as [[] ?].
Qed.

Lemma wp_member_privileged w ch from (Q : bool -> World -> Prop) :
  existsb (is_member (Some ch) (Some from)) (t_My_Cl2Chan (w_tab w)) = true ->
  Q (voiced (member_modes (w_tab w) ch from)) w -> wp (member_privileged (Some ch) (Some from)) Q w.
Proof.
  intros Hm HQ. unfold member_privileged. do 5 (wp_step; user_mode). wp_step.
  unfold voiced, rank in HQ. revert HQ.
  generalize (has_chr (member_modes (w_tab w) ch from)). intros f.
  by destruct (f "v"%char), (f "h"%char), (f "o"%char), (f "a"%char), (f "q"%char).
Qed.

Lemma wp_unprivileged w ch c from cf (Q : bool -> World -> Prop) :
  t_channels (w_tab w) !! ch = Some c -> t_clients (w_tab w) !! from = Some cf ->
  client_ok cf = true -> permanent (ch_bans c) -> permanent (ch_excepts c) ->
  Q (negb (has_chr (ch_modes c) "m") && (listed cf (ch_excepts c) || negb (listed cf (ch_bans c)))) w ->
  wp (unprivileged_can_send (Some ch) (Some from)) Q w.
Proof.
  intros Hc Hf Hok Hb He HQ. assert (Ht : w_tab w = w_tab w) by done.
  unfold unprivileged_can_send. wp_step. rd.
  destruct (has_chr (ch_modes c) "m"); [by wp_step|]. cbn [negb andb] in HQ. wp_step.
  eapply wp_check_list; [done..|by destruct c|]. destruct (listed cf (ch_excepts c)); [by wp_step|].
  wp_step. eapply wp_check_list; [done..|by destruct c|]. exact HQ.
Qed.

Lemma wp_Can_Send w ch c from cf (Q : bool -> World -> Prop) :
  t_channels (w_tab w) !! ch = Some c -> t_clients (w_tab w) !! from = Some cf ->
  client_ok cf = true -> permanent (ch_bans c) -> permanent (ch_excepts c) ->
  Q (can_send (w_tab w) ch c from cf) w -> wp (Can_Send_To_Channel (Some ch) (Some from)) Q w.
Proof.
  intros Hc Hf Hok Hb He HQ. assert (Ht : w_tab w = w_tab w) by done. unfold can_send in HQ.
  unfold Can_Send_To_Channel. wp_step. rd. unfold ptr_eqb.
  rewrite (bool_decide_ext (Some (t_This_Server (w_tab w)) = Some from) (from = t_This_Server (w_tab w))) by naive_solver.
  destruct (bool_decide _); cbn [orb] in HQ; [by wp_step|].
  wp_step. eapply wp_IsMemberOf; [done|].
  set (mm := existsb _ _) in *.
  assert (Hp : forall Q' : bool -> World -> Prop, Q' (mm && voiced (member_modes (w_tab w) ch from)) w ->
    wp (if mm then member_privileged (Some ch) (Some from) else mret false) Q' w).
  { intros Q' H'. destruct mm eqn:Emm; [by apply wp_member_privileged|by wp_step]. }
  wp_step. apply Hp. clear Hp. set (p := mm && voiced _) in *.
  assert (Hend : Q (p || negb (has_chr (ch_modes c) "m") &&
       (listed cf (ch_excepts c) || negb (listed cf (ch_bans c)))) w ->
    wp (if p then mret true else unprivileged_can_send (Some ch) (Some from)) Q w).
  { intros H'. destruct p; [by wp_step|]. by eapply wp_unprivileged. }
  clearbody p mm. wp_step.
  repeat first
    [ progress cbn [negb andb orb] in *
    | by apply Hend
    | exact HQ
    | rd
    | wp_step
    | match goal with |- context [has_chr ?a ?b] =>
        destruct (has_chr a b) eqn:E; rewrite ?E in HQ; clear E end
    | destruct mm ].
Qed.
End Speak.

(** Speaking in a channel.  The permission to send to a channel is a function
    of the tables and the question changes nothing: this server may always send;
    others need to be members if the channel has mode n, to be identified or IRC
    operators if it has mode M, and must have a speaker's channel mode unless the
    channel is not moderated and they match an exception or no ban, by their real
    or their cloaked mask. *)
Theorem Can_Send_To_Channel_spec `{Conf} `{ConnIO} w ch c from cf :
  t_channels (w_tab w) !! ch = Some c -> t_clients (w_tab w) !! from = Some cf ->
  client_ok cf = true -> permanent (ch_bans c) -> permanent (ch_excepts c) ->
  Can_Send_To_Channel (Some ch) (Some from) w = Done (can_send (w_tab w) ch c from cf) w.
Proof.
  intros Hc Hf Hok Hb He.
  assert (wp (Can_Send_To_Channel (Some ch) (Some from))
            (fun r w' => r = can_send (w_tab w) ch c from cf /\ w' = w) w) as Hw.
  { by eapply wp_Can_Send. }
  apply wp_done in Hw as (r & w' & -> & -> & ->). done.
Qed.

(** The answer to a client that may not speak in a channel. *)
Definition no_send_msg (c : CHANNEL) : string :=
  if has_chr (ch_modes c) "M" then ERR_NEEDREGGEDNICK_MSG else ERR_CANNOTSENDTOCHAN_MSG.

(** The lines that a message to a channel causes. *)
Definition write_lines (w : World) (ch : nat) (c : CHANNEL) (from : nat) (cf cs : CLIENT)
    (Command : string) (errors : bool) (Text : string) : list (Z * string) :=
  if can_send (w_tab w) ch c from cf
  then channel_lines w (Some ch) (Some from) true cf
         (snprintf BUFFER_LEN "%s %s :%s" [FS Command; FS (ch_name c); FS Text])
  else if errors then error_to cs cf (no_send_msg c) [FS (ch_name c)] else [].

Lemma wp_Channel_Write `{Conf} `{IO : ConnIO} `{!ConnIOSpec IO}
    w ch c from cf cs Command errors Text (Q : bool -> World -> Prop) :
  state_ok w -> t_channels (w_tab w) !! ch = Some c ->
  t_clients (w_tab w) !! from = Some cf -> NONE < cl_conn_id cf ->
  t_clients (w_tab w) !! t_This_Server (w_tab w) = Some cs ->
  permanent (ch_bans c) -> permanent (ch_excepts c) ->
  (forall w', delivered (write_lines w ch c from cf cs Command errors Text) w w' -> Q true w') ->
  wp (Channel_Write (Some ch) (Some from) (Some from) Command errors Text) Q w.
Proof.
  intros Hok Hc Hf Hl Hs Hb He HQ. assert (Ht : w_tab w = w_tab w) by done. unfold write_lines in HQ.
  pose proof (so_clients _ Hok from cf Hf) as Hfok.
  unfold Channel_Write. wp_step. eapply wp_Can_Send; [done..|].
  destruct (can_send _ _ _ _ _); cbn [negb].
  - wp_step. rd. destruct (Z.ltb_spec NONE (cl_conn_id cf)); [|lia].
    destruct (so_local _ Hok from cf Hf) as [?|((Hi & cn & Hcn & _) & _)]; [lia|].
    wp_step. unfold Conn_UpdateIdle. wp_steps. eapply wp_upd_conn; [done..|].
    match goal with |- wp _ _ ?w => set (w1 := w) end.
    assert (delivered [] w w1) as D1 by by eapply delivered_insert_same.
    pose proof (delivered_state_ok _ _ _ D1 Hok) as Hok1.
    wp_step. eapply (wp_Channel_Name (w_tab w)); [done..|]. wp_step.
    eapply wp_WriteStrChannelPrefix; [done..|]. intros w2 D2. wp_step. apply HQ.
    rewrite (channel_lines_delivered _ _ _ _ _ _ _ _ D1) in D2.
    by apply (delivered_trans [] _ _ _ _ D1).
  - destruct errors; cbn [negb]; [|wp_step; apply HQ, delivered_refl].
    wp_step. rd. wp_step. rd. wp_step. rd. eapply wp_error_to; [done..|]. exact HQ.
Qed.

(** C31: writing to a channel.  A message of a local user to a channel is
    delivered to every other member once per connection if the user may send to
    the channel; otherwise the channel gets nothing and the user gets the error
    that fits, or nothing at all if errors are not wanted (NOTICE). *)
Theorem Channel_Write_spec `{Conf} `{IO : ConnIO} `{!ConnIOSpec IO}
    w ch c from cf cs Command errors Text :
  state_ok w -> t_channels (w_tab w) !! ch = Some c ->
  t_clients (w_tab w) !! from = Some cf -> NONE < cl_conn_id cf ->
  t_clients (w_tab w) !! t_This_Server (w_tab w) = Some cs ->
  permanent (ch_bans c) -> permanent (ch_excepts c) ->
  exists w', Channel_Write (Some ch) (Some from) (Some from) Command errors Text w = Done true w' /\
    delivered (write_lines w ch c from cf cs Command errors Text) w w'.
Proof.
  intros Hok Hc Hf Hl Hs Hb He.
  assert (wp (Channel_Write (Some ch) (Some from) (Some from) Command errors Text)
    (fun r w' => r = true /\ delivered (write_lines w ch c from cf cs Command errors Text) w w') w) as Hw.
  { eapply wp_Channel_Write; [done..|]. by intros w' D. }
  apply wp_done in Hw as (r & w' & -> & -> & D). by exists w'.
Qed.
