(* ===== verification/Quit.v ===== *)
(** * Quitting

    [IRC_WriteStrRelatedPrefix], the message to everybody who shares a channel
    with a client, and [Channel_Quit], which takes a client out of all channels:
    their effects on streams and tables. *)

From S2P Require Import Prelude CString Match Hash Checks Lists Messages World ClientCore ConnFunc.
From S2P Require Import ConnSpec ChannelCore State IrcWrite Channel ChannelSpec.

(** ** Related clients *)

(** The members of the channels of a client. *)
Definition members_of_channels (t : Tables) (l : list CL2CHAN) : list CL2CHAN :=
  flat_map (fun m => List.filter (is_channel (Some (cc_channel m))) (t_My_Cl2Chan t)) l.

Definition related_members (t : Tables) (cl : nat) : list CL2CHAN :=
  members_of_channels t (List.filter (is_client (Some cl)) (t_My_Cl2Chan t)).

Lemma marks_app t Client Remote l1 l2 fl :
  marks t Client Remote (l1 ++ l2) fl = marks t Client Remote l2 (marks t Client Remote l1 fl).
Proof. apply fold_left_app. Qed.

Lemma next_cl2chan_client Client l :
  Client <> NULL ->
  List.filter (is_client Client) (next_cl2chan Client NULL l) = List.filter (is_client Client) l.
Proof.
  intros Hc. induction l as [|m l IH]; [done|]. cbn [next_cl2chan].
  destruct Client as [a|]; [|done]. cbn [is_null negb andb].
  destruct (is_client (Some a) m) eqn:E; [done|]. cbn [List.filter]. by rewrite E.
Qed.

Section Related.
Context `{Conf} `{IO : ConnIO} `{!ConnIOSpec IO}.

Lemma mark_related_ok w cl Remote l (Q : unit -> World -> Prop) :
  state_ok w ->
  (forall w', delivered [] w w' ->
     flags w' = marks (w_tab w) (Some cl) Remote
       (members_of_channels (w_tab w) (List.filter (is_client (Some cl)) l)) (flags w) -> Q tt w') ->
  wp (mark_related (Some cl) Remote l) Q w.
Proof.
  revert w. induction l as [|m l IH]; intros w Hok HQ; cbn [mark_related].
  - wp_step. apply HQ; [apply delivered_refl|done].
  - cbn [List.filter] in HQ. wp_step. destruct (is_client (Some cl) m).
    + wp_step. unfold Channel_FirstMember, Get_First_Cl2Chan, Get_Next_Cl2Chan. wp_steps.
      destruct (next_cl2chan_members (Some (cc_channel m)) (t_My_Cl2Chan (w_tab w))) as [Hf Hsub]; [done|].
      apply mark_members_ok; [done|apply (Forall_sublist _ _ _ Hsub), Hok|].
      intros w1 D1 F1. rewrite Hf in F1. pose proof (dl_tab _ _ _ D1) as Ht1.
      apply IH; [by eapply delivered_state_ok|]. intros w2 D2 F2. rewrite Ht1, F1 in F2.
      apply HQ; [by apply (delivered_trans [] [] _ _ _ D1)|].
      unfold members_of_channels in *. cbn [flat_map]. by rewrite marks_app.
    + wp_step. by apply IH.
Qed.

(** A message to the members of all channels of a client, once per connection. *)
Lemma wp_WriteStrRelatedPrefix w cl p cp Remote Format args (Q : unit -> World -> Prop) :
  state_ok w -> t_clients (w_tab w) !! p = Some cp ->
  (forall w', delivered (member_lines w (related_members (w_tab w) cl) (Some cl) Remote cp
     (snprintf BUFFER_LEN Format args)) w w' -> Q tt w') ->
  wp (IRC_WriteStrRelatedPrefix (Some cl) (Some p) Remote Format args) Q w.
Proof using Type*.
  intros Hok Hcp HQ. unfold IRC_WriteStrRelatedPrefix. wp_steps.
  apply Conn_ClearFlags_ok. intros w1 D1 F1. pose proof (dl_tab _ _ _ D1) as Ht1.
  pose proof (delivered_state_ok _ _ _ D1 Hok) as Hok1.
  wp_step. unfold Channel_FirstChannelOf, Get_First_Cl2Chan, Get_Next_Cl2Chan. wp_steps.
  apply mark_related_ok; [done|]. rewrite next_cl2chan_client by done. intros w2 D2 F2.
  rewrite F1, Ht1 in F2. pose proof (dl_tab _ _ _ D2) as Ht2.
  apply (Send_Marked_Connections_ok p cp); [by eapply delivered_state_ok|by rewrite Ht2, Ht1|].
  intros w3 D3. apply HQ. unfold member_lines, related_members.
  rewrite sockflags_zip, F2, (socks_delivered _ _ _ D2), (socks_delivered _ _ _ D1) in D3.
  apply (delivered_trans [] _ _ _ _ (delivered_trans [] [] _ _ _ D1 D2) D3).
Qed.

End Related.

(** ** Leaving all channels *)

Definition quit_tables (cl : nat) (t : Tables) (l : list nat) : Tables :=
  fold_left (fun t ch => if existsb (is_member (Some ch) (Some cl)) (t_My_Cl2Chan t)
                         then remove_tables t ch cl else t) l t.

Lemma remove_tables_clients t ch cl :
  t_clients (remove_tables t ch cl) = t_clients t /\ t_This_Server (remove_tables t ch cl) = t_This_Server t.
Proof. unfold remove_tables. destruct (t_channels t !! ch) as [c|]; [|done]. by destruct (_ && _). Qed.

Lemma remove_first_app pre a l : NoDup (pre ++ a :: l) ->
  remove_first (fun x => ptr_eqb (Some x) (Some a)) (pre ++ a :: l) = pre ++ l.
Proof.
  induction pre as [|x pre IH]; cbn; intros Hnd.
  - unfold ptr_eqb. by rewrite bool_decide_eq_true_2.
  - apply list.NoDup_cons in Hnd as [Hx Hnd]. unfold ptr_eqb at 1. rewrite bool_decide_eq_false_2.
    + by rewrite IH.
    + intros [= ->]. apply Hx. rewrite elem_of_app, elem_of_cons. auto.
Qed.

Lemma remove_tables_channels t ch cl pre l :
  NoDup (t_My_Channels t) -> t_My_Channels t = pre ++ ch :: l ->
  exists pre', t_My_Channels (remove_tables t ch cl) = pre' ++ l.
Proof.
  intros Hnd Ht. assert (Hsame : t_My_Channels t = (pre ++ [ch]) ++ l) by by rewrite <- app_assoc.
  unfold remove_tables. destruct (t_channels t !! ch) as [c|]; [|by exists (pre ++ [ch])].
  destruct (_ && _); [|by exists (pre ++ [ch])].
  exists pre. cbn. rewrite Ht. apply remove_first_app. by rewrite <- Ht.
Qed.

Section Quit.
Context `{Conf} `{IO : ConnIO} `{!ConnIOSpec IO}.

Lemma Remove_Client_no_member w Type_ ch cl o Reason (Q : bool -> World -> Prop) :
  existsb (is_member (Some ch) (Some cl)) (t_My_Cl2Chan (w_tab w)) = false ->
  Q false w -> wp (Remove_Client Type_ (Some ch) (Some cl) (Some o) Reason false) Q w.
Proof. intros Hm HQ. unfold Remove_Client. wp_steps. rewrite Hm. by wp_steps. Qed.

Lemma quit_loop_ok cl ccl Reason l pre fuel w :
  state_ok w -> channels_ok (w_tab w) -> t_clients (w_tab w) !! cl = Some ccl ->
  t_My_Channels (w_tab w) = pre ++ l -> (length l <= fuel)%nat ->
  wp (quit_loop fuel (Some cl) Reason (head l)) (fun _ w' =>
    w_tab w' = quit_tables cl (w_tab w) l /\ delivered [] (set_w_tab (w_tab w') w) w' /\
    state_ok w' /\ channels_ok (w_tab w')) w.
Proof.
  revert pre fuel w. induction l as [|a l IH]; intros pre fuel w Hok Hch Hcl Hl Hf.
  { destruct fuel; cbn [quit_loop head is_null]; wp_step;
      (split; [done|]; split; [by destruct w; apply delivered_refl|done]). }
  destruct fuel as [|fuel]; [cbn in Hf; lia|]. cbn [quit_loop head is_null].
  assert (Ha : is_Some (t_channels (w_tab w) !! a)).
  { pose proof (so_channels _ Hok) as Hall. rewrite Hl, Forall_app in Hall. destruct Hall as [_ Hall].
    by apply Forall_cons_1 in Hall as [? _]. }
  destruct Ha as [c Hc]. unfold Channel_Next. wp_steps.
  rewrite Hl, next_in_app by (rewrite <- Hl; apply Hok). wp_steps.
  cbn in Hf. unfold quit_tables. cbn [fold_left]. fold (quit_tables cl).
  destruct (existsb (is_member (Some a) (Some cl)) (t_My_Cl2Chan (w_tab w))) eqn:E.
  - eapply wp_Remove_Client; [done..|]. intros w1 w2 E1 D. cbn in D.
    destruct (remove_tables_channels (w_tab w) a cl pre l) as [pre' Hpre']; [apply Hok|done|].
    destruct (removed_ok _ w w1 w2 a cl Hok Hch E1 D) as (Hok' & Hch' & _).
    eapply wp_mono; [apply (IH pre'); try done|].
    + cbn. by rewrite (proj1 (remove_tables_clients _ _ _)).
    + lia.
    + intros u w3 (Ht3 & D3 & Hok3 & Hch3). cbv beta in *. split; [done|]. split; [|done].
      apply (delivered_trans [] [] _ (set_w_tab (w_tab w3) w2)); [|done].
      subst w1. exact (delivered_set_tab _ (w_tab w3) _ _ D).
  - apply Remove_Client_no_member; [done|]. apply (IH (pre ++ [a])); try done; [|lia].
    by rewrite <- app_assoc.
Qed.

End Quit.

(** The memberships that are left. *)
Lemma remove_first_filter (l : list CL2CHAN) ch cl :
  NoDup (map (fun m => (cc_client m, cc_channel m)) l) ->
  remove_first (is_member (Some ch) (Some cl)) l = List.filter (fun m => negb (is_member (Some ch) (Some cl) m)) l.
Proof.
  induction l as [|m l IH]; cbn; [done|]. intros [Hn Hd]%list.NoDup_cons.
  destruct (is_member (Some ch) (Some cl) m) eqn:E; cbn; [|by rewrite IH].
  symmetry. apply is_member_spec in E as [<- <-].
  clear IH Hd. induction l as [|x l IH]; cbn; [done|].
  cbn in Hn. rewrite elem_of_cons in Hn.
  destruct (is_member _ _ x) eqn:E; cbn; [|rewrite IH by tauto; done].
  apply is_member_spec in E as [E1 E2]. exfalso. apply Hn. left. by rewrite E1, E2.
Qed.

Definition leaves (cl : nat) (l : list nat) (m : CL2CHAN) : bool :=
  is_client (Some cl) m && existsb (fun ch => is_channel (Some ch) m) l.

Lemma filter_all {A} (p : A -> bool) l : (forall a, a ∈ l -> p a = true) -> List.filter p l = l.
Proof.
  induction l as [|a l IH]; cbn; [done|]. intros Hp. rewrite Hp by by left.
  f_equal. apply IH. intros x Hx. apply Hp. by right.
Qed.

Lemma filter_map_nodup {A B} (f : A -> B) (p : A -> bool) l : NoDup (map f l) -> NoDup (map f (List.filter p l)).
Proof.
  induction l as [|a l IH]; cbn; [done|]. intros [Hn Hd]%list.NoDup_cons.
  destruct (p a); cbn; [|by apply IH]. apply list.NoDup_cons. split; [|by apply IH].
  rewrite !list_elem_of_In, !in_map_iff in *. intros (x & Hx & Hin). apply Hn. exists x.
  by apply filter_In in Hin as [Hin _].
Qed.

Lemma filter_filter {A} (p q : A -> bool) l :
  List.filter p (List.filter q l) = List.filter (fun a => q a && p a) l.
Proof. induction l as [|a l IH]; cbn; [done|]. destruct (q a); cbn; by rewrite IH. Qed.

Lemma quit_tables_members cl l t :
  NoDup (map (fun m => (cc_client m, cc_channel m)) (t_My_Cl2Chan t)) ->
  t_My_Cl2Chan (quit_tables cl t l) = List.filter (fun m => negb (leaves cl l m)) (t_My_Cl2Chan t) /\
  t_clients (quit_tables cl t l) = t_clients t.
Proof.
  revert t. induction l as [|a l IH]; intros t Hnd.
  - split; [|done]. cbn. symmetry. apply filter_all. intros m _.
    unfold leaves. cbn [existsb]. by rewrite andb_false_r.
  - set (t1 := if existsb (is_member (Some a) (Some cl)) (t_My_Cl2Chan t) then remove_tables t a cl else t).
    change (quit_tables cl t (a :: l)) with (quit_tables cl t1 l).
    assert (t_My_Cl2Chan t1 = List.filter (fun m => negb (is_member (Some a) (Some cl) m)) (t_My_Cl2Chan t)
                  /\ t_clients t1 = t_clients t) as [Hm Hc].
    { unfold t1. destruct (existsb _ _) eqn:E.
      - rewrite remove_tables_members, remove_first_filter by done.
        split; [done|apply remove_tables_clients].
      - split; [|done]. symmetry. apply filter_all. intros m Hin.
        destruct (is_member (Some a) (Some cl) m) eqn:Em; [|done].
        apply not_true_iff_false in E. destruct E. apply existsb_true. by exists m. }
    destruct (IH t1) as [IHm IHc]; [rewrite Hm; by apply filter_map_nodup|].
    split; [|by rewrite IHc]. rewrite IHm, Hm, filter_filter. apply List.filter_ext. intros m.
    unfold leaves, is_member. cbn [existsb].
    by destruct (is_channel (Some a) m), (is_client (Some cl) m), (existsb _ l).
Qed.

(** ** Property *)

Definition quit_lines (w : World) (cl : nat) (c : CLIENT) (Reason : string) : list (Z * string) :=
  member_lines w (related_members (w_tab w) cl) (Some cl) false c
    (snprintf BUFFER_LEN "QUIT :%s" [FS Reason]).

(** C29: leaving all channels.  In a well-formed state, where the network accepts
    what is sent, [Channel_Quit] succeeds: every client other than a server that is connected to
    this server and a member of one of the client's channels gets the QUIT message once, except the
    client itself; nothing is sent to servers, so that members behind them are not told
    here (the caller does that).  Afterwards the channels have been left one after the other:
    the client has no memberships, those of everybody else are what they were, the
    clients are untouched, channels that became empty are gone unless they are
    persistent, and the state is well formed. *)
Theorem Channel_Quit_spec `{Conf} `{IO : ConnIO} `{!ConnIOSpec IO} w cl c Reason :
  state_ok w -> channels_ok (w_tab w) -> t_clients (w_tab w) !! cl = Some c ->
  exists w', Channel_Quit (Some cl) Reason w = Done tt w' /\
    w_tab w' = quit_tables cl (w_tab w) (t_My_Channels (w_tab w)) /\
    state_ok w' /\ channels_ok (w_tab w') /\
    delivered (quit_lines w cl c (if Conf_MorePrivacy then "" else Reason)) (set_w_tab (w_tab w') w) w' /\
    t_clients (w_tab w') = t_clients (w_tab w) /\
    t_My_Cl2Chan (w_tab w') = List.filter (fun m => negb (is_client (Some cl) m)) (t_My_Cl2Chan (w_tab w)).
Proof.
  intros Hok Hch Hcl.
  assert (wp (Channel_Quit (Some cl) Reason) (fun _ w' =>
    w_tab w' = quit_tables cl (w_tab w) (t_My_Channels (w_tab w)) /\
    delivered (quit_lines w cl c (if Conf_MorePrivacy then "" else Reason)) (set_w_tab (w_tab w') w) w' /\
    state_ok w' /\ channels_ok (w_tab w')) w) as Hw.
  { unfold Channel_Quit. cbn [is_null negb]. wp_step. wp_step. wp_step.
    eapply wp_WriteStrRelatedPrefix; [done..|]. intros w1 D1. pose proof (dl_tab _ _ _ D1) as Ht1.
    unfold Channel_First. wp_steps. rewrite Ht1.
    eapply wp_mono; [apply (quit_loop_ok cl c _ (t_My_Channels (w_tab w)) [])|];
      rewrite ?Ht1; try done; [by eapply delivered_state_ok|].
    intros u w2 (Ht2 & D2 & Hok2 & Hch2). split; [done|]. split; [|done].
    rewrite <- (app_nil_r (quit_lines _ _ _ _)). eapply delivered_trans; [|exact D2].
    by apply delivered_set_tab. }
  apply wp_done in Hw as ([] & w' & Hw & Ht & D & Hok' & Hch').
  exists w'. do 5 (split; [done|]). rewrite Ht.
  destruct (quit_tables_members cl (t_My_Channels (w_tab w)) (w_tab w) (so_memb_nodup _ Hok)) as [Hm Hc].
  split; [done|]. rewrite Hm. apply filter_ext_in. intros m Hin. unfold leaves. f_equal.
  destruct (is_client (Some cl) m); [|done]. apply existsb_true. exists (cc_channel m).
  pose proof (so_members _ Hok) as Hall. rewrite list.Forall_forall in Hall.
  split; [|unfold is_channel, ptr_eqb; by rewrite bool_decide_eq_true_2].
  apply (Hall m). by apply list_elem_of_In.
Qed.
