(* ===== verification/Client.v ===== *)
(** * Clients: creation, removal and announcement (src/state/client/client.c)

    The operations of client.c that send messages: the removal of clients, of a
    server with everything behind it, the introduction and announcement of
    users to other servers, the checks of new names, cloaked host names; and
    the functions of conf.c that find server configurations. *)

From S2P Require Import Prelude CString Match Hash Checks Lists Messages World ClientCore.
From S2P Require Import ConnFunc ChannelCore IrcWrite Channel.

Definition MAX_SERVERS : Z := 64.
Definition CONF_SFLAG_ONCE : Z := 1.
Definition CONF_SFLAG_DISABLED : Z := 2.
Definition RECONNECT_DELAY : Z := 3.

Section Client.
Context `{Conf} `{ConnIO}.

(** ** Configured servers (conf.c) *)

(** The index of the first entry that passes a test, or NONE. *)
Fixpoint index_of (test : CONF_SERVER -> bool) (i : Z) (l : list CONF_SERVER) : Z :=
  match l with
  | [] => NONE
  | s :: l' => if test s then i else index_of test (i + 1) l'
  end.

Definition Conf_GetServer (Idx : Z) : M Z :=
  assert_ (NONE <? Idx);;
  get_tab (fun t => index_of (fun s => sv_conn_id s =? Idx) 0 (t_Conf_Server t)).

Definition Conf_NickIsService (ConfServer : Z) (Nick : string) : M bool :=
  assert_ (0 <=? ConfServer);;
  assert_ (ConfServer <? MAX_SERVERS);;
  l ← get_tab t_Conf_Server;
  match l !! Z.to_nat ConfServer with
  | Some s => mret (MatchCaseInsensitiveList (sv_svs_mask s) Nick ",")
  | None => crash OutOfBounds
  end.

Definition Conf_NickIsBlocked (Nick : string) : M bool :=
  get_tab (fun t => existsb (fun s => negb (hd0 (sv_name s) =c NUL) &&
                                      MatchCaseInsensitiveList (sv_svs_mask s) Nick ",")
                      (t_Conf_Server t)).

(** ** Cloaked host names *)

Definition UpdateCloakedHostname (Client Origin : ptr) (Hostname : option string) : M unit :=
  c ← the_client Client;
  this ← Client_ThisServer;
  let Origin := if is_null Origin then this else Origin in
  name ← match Hostname with
         | Some h => mret (strlcpy h CLIENT_HOST_LEN)
         | None =>
             if negb (hd0 Conf_CloakHostModeX =c NUL) then
               let Cloak_Buffer := strlcat (strlcpy (cl_host c) CLIENT_HOST_LEN)
                                     Conf_CloakHostSalt CLIENT_HOST_LEN in
               mret (snprintf CLIENT_HOST_LEN Conf_CloakHostModeX [FZ (Hash Cloak_Buffer)])
             else
               id ← Client_ID (cl_introducer c); mret (strlcpy id CLIENT_HOST_LEN)
         end;
  upd_client Client (set_cl_cloaked (Some name));;
  hop ← Client_NextHop Origin;
  id ← Client_ID Client;
  IRC_WriteStrServersPrefixFlag hop Origin "M" "METADATA %s cloakhost :%s" [FS id; FS name].

(** ** Removing clients *)

Definition Destroy_UserOrService (Client : ptr) (Txt : string) (FwdMsg : option string)
    (SendQuit : bool) : M unit :=
  c ← the_client Client;
  let quit (ExceptOf : ptr) : M unit :=
    match FwdMsg with
    | Some m => IRC_WriteStrServersPrefix ExceptOf Client "QUIT :%s" [FS m]
    | None => IRC_WriteStrServersPrefix ExceptOf Client "QUIT :" []
    end in
  (if negb (cl_conn_id c =? NONE) then
     text ← Client_TypeText Client;
     mask ← Client_Mask Client;
     Log false (dq "%s `%s` unregistered (connection %d): %s.")
       [FS text; FS mask; FZ (cl_conn_id c); FS Txt];;
     id ← Client_ID Client;
     user ← Client_User Client;
     host ← Client_Hostname Client;
     Log_ServerNotice "c" "Client exiting: %s (%s@%s) [%s]" [FS id; FS user; FS host; FS Txt];;
     (if SendQuit then quit NULL else mret tt)
   else
     _ ← Client_Mask Client;
     (if SendQuit then hop ← Client_NextHop Client; quit hop else mret tt));;
  c ← the_client Client;
  Channel_Quit Client (from_opt (cl_id c) FwdMsg);;
  Client_RegisterWhowas Client.

(** The part of [Client_Destroy] that runs when the client has been found and
    unlinked. *)
Definition destroy_found (c : ptr) (txt : string) (FwdMsg : option string) (SendQuit : bool) : M unit :=
  x ← deref_client c;
  this ← Client_ThisServer;
  (if (cl_type x =? CLIENT_USER) || (cl_type x =? CLIENT_SERVICE) then
     Destroy_UserOrService c txt FwdMsg SendQuit
   else if cl_type x =? CLIENT_SERVER then
     (if negb (ptr_eqb c this) then
        if negb (cl_conn_id x =? NONE) then
          Log true (dq "Server `%s` unregistered (connection %d): %s.")
            [FS (cl_id x); FZ (cl_conn_id x); FS txt]
        else Log true (dq "Server `%s` unregistered: %s.") [FS (cl_id x); FS txt]
      else mret tt);;
     going_down ← get_tab t_SignalQuit;
     (if negb going_down then
        hop ← Client_NextHop c;
        match FwdMsg with
        | Some m => IRC_WriteStrServersPrefix hop c "SQUIT %s :%s" [FS (cl_id x); FS m]
        | None => IRC_WriteStrServersPrefix hop c "SQUIT %s :" [FS (cl_id x)]
        end
      else mret tt)
   else mret tt);;
  Free_Client c.

(** The message for the clients behind a server. *)
Definition netsplit_msg (this client : CLIENT) : string :=
  strlcat (strlcat (strlcpy (cl_id this) COMMAND_LEN) " " COMMAND_LEN) (cl_id client) COMMAND_LEN.

(** [Client_Destroy] of [Client], with its loop at [c].  A client behind the
    server to be removed is removed first, by a recursive call; the loop then
    starts again. *)
Fixpoint destroy_loop (fuel : nat) (Client : ptr) (txt : string) (FwdMsg : option string)
    (SendQuit : bool) (c : ptr) : M unit :=
  if is_null c then mret tt
  else match fuel with
       | O => crash OutOfFuel
       | S fuel' =>
           x ← deref_client Client;
           y ← deref_client c;
           if (cl_type x =? CLIENT_SERVER) && ptr_eqb (cl_introducer y) Client
              && negb (ptr_eqb c Client)
           then
             this ← Client_ThisServer;
             s ← deref_client this;
             let msg := netsplit_msg s x in
             first ← Client_First;
             destroy_loop fuel' c msg (Some msg) false first;;
             first ← Client_First;
             destroy_loop fuel' Client txt FwdMsg SendQuit first
           else if ptr_eqb c Client then
             mod_tab (fun t => set_t_My_Clients
                        (remove_first (fun a => ptr_eqb (Some a) c) (t_My_Clients t)) t);;
             destroy_found c txt FwdMsg SendQuit
           else
             next ← Client_Next c;
             destroy_loop fuel' Client txt FwdMsg SendQuit next
       end.

(** With [n] clients there are at most [n] removals, each after at most [n]
    steps, at a depth of at most [n]. *)
Definition Client_Destroy (Client : ptr) (LogMsg FwdMsg : option string) (SendQuit : bool) : M unit :=
  assert_ (negb (is_null Client));;
  let txt := match LogMsg with
             | Some m => m
             | None => from_opt "Reason unknown" FwdMsg
             end in
  first ← Client_First;
  n ← get_tab (fun t => S (length (t_My_Clients t)));
  destroy_loop (n * n * n) Client txt FwdMsg SendQuit first.

(** ** Rejecting and checking *)

Definition Client_Reject (Client : ptr) (Reason : string) (InformClient : bool) : M unit :=
  assert_ (negb (is_null Client));;
  let info := if InformClient then snprintf COMMAND_LEN "Access denied: %s" [FS Reason]
              else "Access denied: Bad password?" in
  mask ← Client_Mask Client;
  conn ← Client_Conn Client;
  Log false (dq "User `%s` rejected (connection %d): %s!") [FS mask; FZ conn; FS Reason];;
  Conn_Close conn (Some Reason) (Some info) true.

Definition Client_CheckNick (Client : ptr) (Nick : string) : M bool :=
  assert_ (negb (is_null Client));;
  let error (fmt : string) (args : list farg) : M bool :=
    id ← Client_ID Client; _ ← IRC_WriteErrClient Client fmt (FS id :: args); mret false in
  if negb (Client_IsValidNick Nick) then
    if (Conf_MaxNickLength <=? slen Nick)%nat then
      error ERR_NICKNAMETOOLONG_MSG [FS Nick; FZ (Z.of_nat Conf_MaxNickLength - 1)]
    else error ERR_ERRONEUSNICKNAME_MSG [FS Nick]
  else
    ty ← Client_Type Client;
    blocked ← (if negb (ty =? CLIENT_SERVER) && negb (ty =? CLIENT_SERVICE)
               then Conf_NickIsBlocked Nick else mret false);
    if (blocked : bool) then error ERR_FORBIDDENNICKNAME_MSG [FS Nick]
    else
      used ← Client_Search Nick;
      if negb (is_null used) then error ERR_NICKNAMEINUSE_MSG [FS Nick] else mret true.

Definition Client_CheckID (Client : ptr) (ID : string) : M bool :=
  c ← the_client Client;
  assert_ (NONE <? cl_conn_id c);;
  if (CLIENT_ID_LEN <? slen ID)%nat then
    id ← Client_ID Client;
    _ ← IRC_WriteErrClient Client ERR_ERRONEUSNICKNAME_MSG [FS id; FS ID]; mret false
  else
    l ← get_tab t_My_Clients;
    used ← scan_clients (fun _ c => strcaseeq (cl_id c) ID) l;
    if negb (is_null used) then
      let str := snprintf COMMAND_LEN (dq "ID `%s` already registered") [FS ID] in
      Conn_Close (cl_conn_id c) (Some str) (Some str) true;;
      mret false
    else mret true.

(** ** Introducing users *)

Definition write_ok (m : M bool) (k : M bool) : M bool :=
  ok ← m; if negb (ok : bool) then mret false else k.

Definition Client_Announce (Client Prefix User : ptr) : M bool :=
  modes ← Client_Modes User;
  user ← Client_User User;
  host ← Client_Hostname User;
  conn ← Client_Conn Client;
  options ← Conn_Options conn;
  id ← Client_ID User;
  hops ← Client_Hops User;
  write_ok
    (if negb (Z.land options CONN_RFC1459 =? 0) then
       write_ok (Conn_WriteStr conn "NICK %s :%d" [FS id; FZ (hops + 1)])
         (intro ← Client_Introducer User;
          iid ← Client_ID intro;
          info ← Client_Info User;
          write_ok (Conn_WriteStr conn ":%s USER %s %s %s :%s"
                      [FS id; FS user; FS host; FS iid; FS info])
            (if negb (hd0 modes =c NUL) then
               Conn_WriteStr conn ":%s MODE %s +%s" [FS id; FS id; FS modes]
             else mret true))
     else
       ty ← Client_Type User;
       s ← (mret (ty =? CLIENT_SERVICE) <&&> Client_HasFlag Client "S");
       intro ← Client_Introducer User;
       token ← Client_MyToken intro;
       info ← Client_Info User;
       if (s : bool) then
         mask ← Client_Mask User;
         IRC_WriteStrClientPrefix Client Prefix "SERVICE %s %d * +%s %d :%s"
           [FS mask; FZ token; FS modes; FZ (hops + 1); FS info]
       else
         IRC_WriteStrClientPrefix Client Prefix "NICK %s %d %s %s %d +%s :%s"
           [FS id; FZ (hops + 1); FS user; FS host; FZ token; FS modes; FS info])
    (m ← Client_HasFlag Client "M";
     if (m : bool) then
       cloaked ← Client_HostnameCloaked User;
       account ← Client_AccountName User;
       write_ok
         (match cloaked with
          | Some h => IRC_WriteStrClientPrefix Client Prefix "METADATA %s cloakhost :%s" [FS id; FS h]
          | None => mret true
          end)
         (match account with
          | Some a => IRC_WriteStrClientPrefix Client Prefix "METADATA %s accountname :%s" [FS id; FS a]
          | None => mret true
          end)
     else mret true).

Definition cb_introduceClient (c To Prefix : ptr) : M unit :=
  _ ← Client_Announce To Prefix c; mret tt.

Definition Client_Introduce (From Client : ptr) (Type_ : Z) : M unit :=
  Client_SetType Client Type_;;
  this ← Client_ThisServer;
  (if negb (is_null From) then
     conn ← Client_Conn From;
     server ← Conf_GetServer conn;
     service ← (if NONE <? server then id ← Client_ID Client; Conf_NickIsService server id
                else mret false);
     (if (service : bool) then Client_SetType Client CLIENT_SERVICE else mret tt);;
     _ ← Client_ID From;
     intro ← Client_Introducer Client;
     _ ← Client_ID intro; mret tt
   else
     text ← Client_TypeText Client;
     mask ← Client_Mask Client;
     conn ← Client_Conn Client;
     Log false (dq "%s `%s` registered (connection %d).") [FS text; FS mask; FZ conn];;
     id ← Client_ID Client;
     user ← Client_User Client;
     host ← Client_Hostname Client;
     ipa ← Conn_IPA conn;
     Log_ServerNotice "c" "Client connecting: %s (%s@%s) [%s] - %s"
       [FS id; FS user; FS host; FS ipa; FS text]);;
  IRC_WriteStrServersPrefixFlag_CB From (if negb (is_null From) then From else this) NUL
    (cb_introduceClient Client).

End Client.

(** Goes on as long as writing succeeds. *)
Notation "m ;! k" := (write_ok m k) (at level 100, k at level 200, right associativity) : ngircd_scope.
