(* ===== verification/Class.v ===== *)
(** * Server bans (src/server/core/misc/class.c)

    The two lists of masks that keep clients away from the server: K-lines of
    this server and G-lines of the network. *)

From S2P Require Import Prelude CString Match Hash Checks Lists Messages World ClientCore.
From S2P Require Import ConnFunc ConnSpec ChannelCore State IrcWrite Channel Client.

Definition CLASS_KLINE : nat := 0.
Definition CLASS_GLINE : nat := 1.
Definition CLASS_COUNT : nat := 2.

Section Class.
Context `{Conf} `{ConnIO}.

Definition Class_Init : M unit := mod_tab (set_t_My_Classes (replicate CLASS_COUNT [])).

Definition Class_Exit : M unit := mod_tab (fun t => set_t_My_Classes (map Lists_Free (t_My_Classes t)) t).

(** [My_Classes[Class]], after [assert(Class < CLASS_COUNT)]. *)
Definition Class_GetList (Class_ : nat) : M list_head :=
  assert_ (Class_ <? CLASS_COUNT)%nat;;
  l ← get_tab t_My_Classes;
  match l !! Class_ with Some h => mret h | None => crash OutOfBounds end.

Definition set_class (Class_ : nat) (h : list_head) : M unit :=
  mod_tab (fun t => set_t_My_Classes (<[Class_ := h]> (t_My_Classes t)) t).

(** The reason why a client is in a class, if it is. *)
Definition Class_GetMemberReason (Class_ : nat) (Client : ptr) (len : nat) : M (option string) :=
  h ← Class_GetList Class_;
  assert_ (negb (is_null Client));;
  match h with
  | [] => mret None
  | _ =>
      masks ← Client_masks Client;
      let '(r, str, h') := Lists_CheckReason masks.1 masks.2 h "listed" COMMAND_LEN in
      set_class Class_ h';;
      mret (if (r : bool) then
              Some (snprintf len (if (Class_ =? CLASS_GLINE)%nat then dq "`%s` (G-Line)"
                                  else if (Class_ =? CLASS_KLINE)%nat then dq "`%s` (K-Line)"
                                  else "%s") [FS str])
            else None)
  end.

Definition Class_HandleServerBans (Client : ptr) : M bool :=
  assert_ (negb (is_null Client));;
  g ← Class_GetMemberReason CLASS_GLINE Client COMMAND_LEN;
  reject ← match g with
           | Some _ => mret g
           | None => Class_GetMemberReason CLASS_KLINE Client COMMAND_LEN
           end;
  match reject with
  | Some reason => Client_Reject Client reason true;; mret false
  | None => mret true
  end.

Definition Class_AddMask (Class_ : nat) (Pattern : string) (ValidUntil : Z) (Reason : string) : M bool :=
  h ← Class_GetList Class_;
  let '(r, h') := Lists_Add true true h (Lists_MakeMask Pattern MASK_LEN) ValidUntil (Some Reason) false in
  set_class Class_ h';; mret r.

Definition Class_DeleteMask (Class_ : nat) (Pattern : string) : M unit :=
  h ← Class_GetList Class_;
  set_class Class_ (Lists_Del h (Lists_MakeMask Pattern MASK_LEN)).

(** Every deletion is announced. *)
Fixpoint log_all (l : list string) : M unit :=
  match l with [] => mret tt | msg :: l' => Log true "%s" [FS msg];; log_all l' end.

Definition expire_class (Class_ : nat) (ListName : string) : M unit :=
  h ← Class_GetList Class_;
  now ← time;
  let '(log, h') := Lists_Expire now ListName h in
  set_class Class_ h';; log_all log.

Definition Class_Expire : M unit :=
  expire_class CLASS_GLINE "G-Line";; expire_class CLASS_KLINE "K-Line".

End Class.
