(* ===== verification/Conn.v ===== *)
(** * Connections: writing and closing (src/state/connection/conn.c)

    Buffered output and the shutdown of connections.  Writing can close a
    connection, closing destroys its client, and that sends messages to others:
    the operations are mutually recursive.  They are written against the
    interface [ConnIO], and [conn_io n] is its implementation for call chains of
    at most [n] nested operations.

    The second half proves that the implementation keeps the promise of the
    interface, [ConnSpec.ConnIOSpec]. *)

From S2P Require Import Prelude CString Match Hash Checks Lists Messages World ClientCore Ipaddr Io IoSpec.
From S2P Require Import ConnFunc ConnSpec ChannelCore IrcWrite Channel Client.

Definition WRITEBUFFER_FLUSH_LEN : Z := 4096.
Definition WRITEBUFFER_MAX_LEN : Z := 32768.
Definition WRITEBUFFER_SLINK_LEN : Z := 65536.
Definition STARTUP_DELAY : Z := 1.

(** [%.1f] of [bytes / 1024]: the quotient has an exact representation, and
    printf rounds half to even. *)
Definition fmt_kb (bytes : Z) : string :=
  let q := (10 * bytes) / 1024 in
  let r := (10 * bytes) mod 1024 in
  let q := if (512 <? r) || ((r =? 512) && Z.odd q) then q + 1 else q in
  sprintf "%ld.%ld" [FZ (q / 10); FZ (q mod 10)].

(** [Init_Conn_Struct]: the content of a free slot. *)
Definition free_slot (now : Z) : CONNECTION :=
  Connection (-1) AF_UNSPEC Proc_InitStruct "" None "" "" now now 0 now 0 0 0 0 0 0 0 0 NULL 0 "".

Definition Init_Conn_Struct (Idx : Z) : M unit :=
  now ← time; upd_conn Idx (fun _ => free_slot now).

Section Conn.
Context `{Conf} (rand : Z) `{ConnIO}.

(** *** Conf_UnsetServer (conf.c); [rand] is the random delay *)

Definition server_struct (retry now : Z) : CONF_SERVER :=
  ConfServer "" NONE (now - retry + STARTUP_DELAY)
    (if NGIRCd_Passive then CONF_SFLAG_DISABLED else 0) NONE "" "" 0 "" "" AF_UNSPEC
    (AF_UNSPEC, AF_UNSPEC) Proc_InitStruct.

Definition Init_Server_Struct (now : Z) : CONF_SERVER := server_struct Conf_ConnectRetry now.

Definition unset_server (now Idx : Z) (s : CONF_SERVER) : CONF_SERVER :=
  if negb (sv_conn_id s =? Idx) then s
  else if negb (Z.land (sv_flags s) CONF_SFLAG_ONCE =? 0) then Init_Server_Struct now
  else
    set_sv_lasttry
      (if sv_lasttry s <? now - Conf_ConnectRetry then now - Conf_ConnectRetry + RECONNECT_DELAY
       else now + rand)
      (set_sv_conn_id NONE s).

Definition Conf_UnsetServer (Idx : Z) : M unit :=
  mod_tab (fun t => set_t_Conf_Server (map (unset_server (t_now t) Idx) (t_Conf_Server t)) t).

(** *** Output *)

Definition Handle_Write (Idx : Z) : M bool :=
  assert_ (NONE <? Idx);;
  n ← Pool_Size;
  if n <=? Idx then mret false
  else
    c ← the_conn Idx;
    if negb (cn_sock c =? Idx) then mret false
    else if cn_sock c <? 0 then mret false
    else
      let wdatalen := strlen (cn_wbuf c) in
      if wdatalen =? 0 then
        _ ← io_op (io_event_del (cn_sock c) IO_WANTWRITE); mret true
      else
        r ← get_net (fun n => n_send n (n_calls n) (cn_wbuf c));
        mod_net (fun n => set_n_calls (S (n_calls n)) n);;
        match r with
        | Again => mret true
        | Failed =>
            (if negb (Conn_OPTION_ISSET c CONN_ISCLOSING) then
               Conn_Close Idx (Some "Write error") None false
             else mret tt);;
            mret false
        | Sent len =>
            if wdatalen <? len then mret false
            else
              upd_conn Idx (fun c =>
                set_cn_wbuf (str_drop (Z.to_nat len) (cn_wbuf c))
                  (set_cn_sent (cn_sent c +:+ str_take (Z.to_nat len) (cn_wbuf c)) c));;
              mret true
        end.

Definition Conn_Write (Idx : Z) (Data : string) : M bool :=
  assert_ (NONE <? Idx);;
  assert_ (0 <? strlen Data);;
  let Len := strlen Data in
  conn ← the_conn Idx;
  if cn_sock conn <=? NONE then mret false
  else
    c ← Conn_GetClient Idx;
    limit ← (if negb (is_null c) then
               ty ← Client_Type c;
               mret (if ty =? CLIENT_SERVER then WRITEBUFFER_SLINK_LEN else WRITEBUFFER_MAX_LEN)
             else mret WRITEBUFFER_MAX_LEN);
    flushed ← (if WRITEBUFFER_FLUSH_LEN <=? strlen (cn_wbuf conn) + Len then Handle_Write Idx
               else mret true);
    if negb (flushed : bool) then mret false
    else
      conn ← the_conn Idx;
      if limit <=? strlen (cn_wbuf conn) + Len then
        Conn_Close Idx (Some "Write buffer space exhausted") None false;;
        mret false
      else
        upd_conn Idx (fun c =>
          set_cn_bytes_out (cn_bytes_out c + Len) (set_cn_wbuf (cn_wbuf c +:+ Data) c));;
        mod_net (fun n => set_n_WCounter (n_WCounter n + Len) n);;
        mret true.

Definition WriteStr (Idx : Z) (Format : string) (args : list farg) : M bool :=
  assert_ (NONE <? Idx);;
  ok ← Conn_Write Idx (wire_line Format args);
  upd_conn Idx (fun c => set_cn_msg_out (cn_msg_out c + 1) c);;
  mret ok.

(** *** Shutdown *)

Definition inform_client (Idx : Z) (c : ptr) (FwdMsg : option string) : M unit :=
  (if negb (is_null c) then
     ty ← Client_Type c;
     if ty =? CLIENT_USER then
       this ← Client_ThisServer;
       sid ← Client_ID this;
       id ← Client_ID c;
       conn ← the_conn Idx;
       _ ← Conn_WriteStr Idx
             ":%s NOTICE %s :%sConnection statistics: client %s kb, server %s kb."
             [FS sid; FS id; FS ""; FS (fmt_kb (cn_bytes_in conn)); FS (fmt_kb (cn_bytes_out conn))];
       mret tt
     else mret tt
   else mret tt);;
  if negb (is_null c) then
    id ← Client_ID c;
    user ← Client_User c;
    host ← Client_Hostname c;
    _ ← Conn_WriteStr Idx "ERROR :Closing connection: %s[%s@%s] (%s)"
          [FS id; FS user; FS host; FS (from_opt (dq "``") FwdMsg)];
    mret tt
  else _ ← Conn_WriteStr Idx "ERROR :Closing connection" []; mret tt.

Definition Close (Idx : Z) (LogMsg FwdMsg : option string) (InformClient : bool) : M unit :=
  assert_ (NONE <? Idx);;
  conn ← the_conn Idx;
  if Conn_OPTION_ISSET conn CONN_ISCLOSING then mret tt
  else
    assert_ (NONE <? cn_sock conn);;
    upd_conn Idx (fun c => set_cn_options (Z.lor (cn_options c) CONN_ISCLOSING) c);;
    _ ← asserting (ng_ipaddr_getport (cn_addr conn));
    c ← Conn_GetClient Idx;
    (if InformClient then inform_client Idx c FwdMsg else mret tt);;
    _ ← Handle_Write Idx;
    c ← Conn_GetClient Idx;
    conn ← the_conn Idx;
    close_event (cn_sock conn);;
    upd_conn Idx (set_cn_sock NONE);;
    (if negb (is_null c) then Client_Destroy c LogMsg FwdMsg true else mret tt);;
    Conf_UnsetServer Idx;;
    Init_Conn_Struct Idx;;
    count ← get_net n_NumConnections;
    assert_ (0 <? count);;
    now ← time;
    mod_net (fun n =>
      set_n_idle_t (if 0 <? count - 1 then 0 else now) (set_n_NumConnections (count - 1) n)).

End Conn.

(** ** Tying the knot *)

Fixpoint conn_io `{Conf} (rand : Z) (fuel : nat) : ConnIO :=
  match fuel with
  | O => {| Conn_WriteStr _ _ _ := crash OutOfFuel;
            Conn_Close _ _ _ _ := crash OutOfFuel;
            Client_UpdateCloakedHostname _ _ _ := crash OutOfFuel |}
  | S n =>
      let io := conn_io rand n in
      {| Conn_WriteStr := @WriteStr io; Conn_Close := @Close _ rand io;
         Client_UpdateCloakedHostname := @UpdateCloakedHostname _ io |}
  end.

(** ** The implementation keeps the promise of the interface *)

Section ConnFacts.
Context `{Conf} `{ConnIO}.

(** Flushing the buffer of an open connection. *)
Lemma Handle_Write_ok w idx :
  accepts w -> conn_open w idx ->
  wp (Handle_Write idx) (fun r w' => r = true /\ delivered [] w w' /\ flags w' = flags w /\
    exists c, n_conns (w_net w') !! Z.to_nat idx = Some c /\ cn_wbuf c = "" /\ cn_sock c = idx) w.
Proof.
  intros Ha (Hi & c & Hc & Hs & He). pose proof (lookup_lt_Some _ _ _ Hc) as Hlt.
  unfold Handle_Write, Pool_Size.
  wp_step. wp_step; [unfold NONE; apply Z.ltb_lt; lia|]. wp_step. wp_step.
  destruct (Z.leb_spec (Z.of_nat (length (n_conns (w_net w)))) idx); [lia|].
  wp_step. eapply wp_the_conn; [done..|]. rewrite Hs, Z.eqb_refl. cbn [negb].
  destruct (Z.ltb_spec idx 0); [lia|].
  destruct (Z.eqb_spec (strlen (cn_wbuf c)) 0) as [E|E].
  { wp_step. destruct (del_length idx IO_WANTWRITE _ Hi He) as (io' & Hdel & Hlen).
    unfold wp, io_op. rewrite Hdel. cbn. split; [done|]. split; [by apply delivered_net|]. split; [done|].
    exists c. repeat split; try done. unfold strlen in E. destruct (cn_wbuf c); [done|cbn in E; lia]. }
  wp_step. wp_step. wp_step. wp_step. rewrite Ha.
  destruct (Z.ltb_spec (strlen (cn_wbuf c)) (strlen (cn_wbuf c))); [lia|].
  wp_step. eapply wp_upd_conn; [done|exact Hc|]. wp_step. split; [done|].
  unfold strlen. rewrite Nat2Z.id.
  set (c' := set_cn_wbuf _ _). split.
  - apply (delivered_trans [] [] w (set_w_net (set_n_calls (S (n_calls (w_net w))) (w_net w)) w)).
    + by apply delivered_net.
    + apply (delivered_insert_same _ idx c c'); try done. unfold c', stream; cbn.
      rewrite (str_take_all (slen (cn_wbuf c))) by lia.
      assert (str_drop (slen (cn_wbuf c)) (cn_wbuf c) = "") as ->; [|by autorewrite with cstr].
      clear. by induction (cn_wbuf c).
  - split; [exact (flags_insert (set_w_net (set_n_calls (S (n_calls (w_net w))) (w_net w)) w)
                     _ c c' Hc eq_refl)|].
    exists c'. cbn. rewrite list_lookup_insert_eq by done. repeat split; try done.
    unfold c'; cbn. clear. by induction (cn_wbuf c).
Qed.

Lemma Conn_Write_ok w idx Data :
  accepts w -> conns_ok w -> conn_open w idx -> 0 < strlen Data <= 512 ->
  wp (Conn_Write idx Data) (fun r w' => r = true /\ delivered [(idx, Data)] w w' /\ flags w' = flags w) w.
Proof.
  intros Ha Hok Ho Hlen. pose proof Ho as (Hi & c & Hc & Hs & _). unfold Conn_Write.
  wp_step. wp_step; [unfold NONE; apply Z.ltb_lt; lia|].
  wp_step. wp_step; [apply Z.ltb_lt; lia|].
  wp_step. eapply wp_the_conn; [done..|]. rewrite Hs.
  destruct (Z.leb_spec idx NONE); [unfold NONE in *; lia|].
  wp_step. unfold Conn_GetClient. wp_step. destruct (Z.ltb_spec idx 0); [lia|].
  wp_step. wp_step. rewrite Hc. wp_step. wp_step. wp_step.
  assert (exists limit, WRITEBUFFER_MAX_LEN <= limit /\ forall Q : Z -> World -> Prop, Q limit w ->
    wp (if negb (is_null (cn_client c)) then
          ty ← Client_Type (cn_client c);
          mret (if ty =? CLIENT_SERVER then WRITEBUFFER_SLINK_LEN else WRITEBUFFER_MAX_LEN)
        else mret WRITEBUFFER_MAX_LEN) Q w) as (limit & Hlim & Hwp).
  { pose proof (Hok _ _ Hc) as Hcl. unfold conn_ok in Hcl.
    destruct (cn_client c) as [p|]; cbn [is_null negb].
    - destruct Hcl as [x Hx]. unfold Client_Type.
      exists (if cl_type x =? CLIENT_SERVER then WRITEBUFFER_SLINK_LEN else WRITEBUFFER_MAX_LEN).
      split; [destruct (_ =? _); vm_compute; discriminate|]. intros Q HQ. by wp_steps.
    - exists WRITEBUFFER_MAX_LEN. split; [done|]. intros Q HQ. by wp_steps. }
  apply Hwp. wp_step.
  assert (forall Q : bool -> World -> Prop,
    (forall w1 c1, delivered [] w w1 -> flags w1 = flags w -> n_conns (w_net w1) !! Z.to_nat idx = Some c1 ->
       strlen (cn_wbuf c1) + strlen Data < limit -> Q true w1) ->
    wp (if WRITEBUFFER_FLUSH_LEN <=? strlen (cn_wbuf c) + strlen Data then Handle_Write idx
        else mret true) Q w) as Hflush.
  { intros Q HQ. destruct (Z.leb_spec WRITEBUFFER_FLUSH_LEN (strlen (cn_wbuf c) + strlen Data)) as [Hf|Hf].
    - eapply wp_mono; [by apply Handle_Write_ok|]. intros r w1 (-> & D & F & c1 & Hc1 & E & _).
      apply (HQ w1 c1); try done. rewrite E. change (strlen "") with 0. unfold WRITEBUFFER_MAX_LEN in *. lia.
    - wp_step. apply (HQ w c); try done; [apply delivered_refl|].
      unfold WRITEBUFFER_MAX_LEN, WRITEBUFFER_FLUSH_LEN in *. lia. }
  apply Hflush. intros w1 c1 D F Hc1 Hsmall. cbn [negb]. wp_step.
  eapply wp_the_conn; [done..|].
  destruct (Z.leb_spec limit (strlen (cn_wbuf c1) + strlen Data)); [lia|].
  wp_step. eapply wp_upd_conn; [done..|]. wp_step. wp_step. wp_step. split; [done|].
  split; [|rewrite <- F; by apply (flags_insert _ _ c1)].
  apply (delivered_trans [] [(idx, Data)] _ _ _ D).
  apply (delivered_trans [(idx, Data)] [] w1
    (set_w_net (set_n_conns (<[Z.to_nat idx := set_cn_bytes_out (cn_bytes_out c1 + strlen Data)
       (set_cn_wbuf (cn_wbuf c1 +:+ Data) c1)]> (n_conns (w_net w1))) (w_net w1)) w1)).
  - apply (delivered_insert w1 idx c1); try done. unfold stream; cbn. apply str_app_assoc.
  - by apply delivered_net.
Qed.

Lemma WriteStr_ok w idx Format args :
  accepts w -> conns_ok w -> conn_open w idx ->
  wp (WriteStr idx Format args)
    (fun r w' => r = true /\ delivered [(idx, wire_line Format args)] w w' /\ flags w' = flags w) w.
Proof.
  intros Ha Hok Ho. pose proof Ho as (Hi & _). unfold WriteStr.
  wp_step. wp_step; [unfold NONE; apply Z.ltb_lt; lia|].
  wp_step. eapply wp_mono.
  { apply Conn_Write_ok; try done. pose proof (wire_line_length Format args). unfold strlen. lia. }
  intros r w1 (-> & D & F). destruct (delivered_open _ _ _ D idx Ho) as (_ & c1 & Hc1 & _).
  wp_step. eapply wp_upd_conn; [done..|]. wp_step. split; [done|].
  split; [|rewrite <- F; by apply (flags_insert _ _ c1)].
  apply (delivered_trans _ [] _ _ _ D). by apply (delivered_insert_same w1 idx c1).
Qed.
End ConnFacts.

(** The connection layer implements the interface, whatever the number of
    nested operations that are allowed. *)
#[export] Instance conn_io_spec `{Conf} rand n : ConnIOSpec (conn_io rand (S n)).
Proof. split. intros w idx Format args Ha Hok Ho. by apply WriteStr_ok. Qed.

(** ** Properties *)

(** C32: writing a line.  If every send(2) takes all it is given and the connections
    are well formed, [Conn_WriteStr] on an open connection succeeds and appends exactly
    one line to what has been sent and buffered for it, ended by CR LF and at
    most 512 bytes long; a text that fits is sent unchanged, a longer one is cut
    and marked with [CUT].  No table changes, no other connection sends anything or is closed,
    and of the connections at most the output buffers, output counters, delay times and idle times differ.  (What
    other answers of send(2) do is the subject of [Handle_Write]: an error closes the connection.) *)
Theorem Conn_WriteStr_spec `{Conf} rand n w idx Format args :
  accepts w -> conns_ok w -> conn_open w idx ->
  exists text w', @Conn_WriteStr (conn_io rand (S n)) idx Format args w = Done true w' /\
    delivered [(idx, text +:+ CRLF)] w w' /\ (slen text <= 510)%nat /\
    text = if (slen (sprintf Format args) <=? 510)%nat then sprintf Format args
           else str_take 505 (sprintf Format args) +:+ CUT_TXTSUFFIX.
Proof.
  intros Ha Hok Ho.
  assert (wp (@WriteStr (conn_io rand n) idx Format args)
    (fun r w' => r = true /\ delivered [(idx, wire_line Format args)] w w' /\ flags w' = flags w) w) as Hw
    by by apply WriteStr_ok.
  apply wp_done in Hw as (r & w' & Hw & -> & D & _).
  destruct (wire_line_shape Format args) as (text & E & Hlen & Hfit). rewrite E in D.
  by exists text, w'.
Qed.

(** C33: flushing never loses, duplicates or reorders output.  Whatever the
    network answers, as long as the connection does not break down,
    [Handle_Write] reports success, moves exactly the accepted bytes from the
    front of the buffer to what has been sent, and leaves everything else alone;
    if the network refuses, the connection is closed unless it is closing
    already. *)
Theorem Handle_Write_spec `{IO : ConnIO} w idx c :
  0 <= idx -> n_conns (w_net w) !! Z.to_nat idx = Some c -> cn_sock c = idx -> cn_wbuf c <> "" ->
  let after := set_w_net (set_n_calls (S (n_calls (w_net w))) (w_net w)) w in
  match n_send (w_net w) (n_calls (w_net w)) (cn_wbuf c) with
  | Sent len => 0 <= len <= strlen (cn_wbuf c) ->
      exists c', Handle_Write idx w = Done true
        (set_w_net (set_n_conns (<[Z.to_nat idx := c']> (n_conns (w_net after))) (w_net after)) after) /\
        erase c' = erase c /\ stream c' = stream c /\ slen (cn_wbuf c') = (slen (cn_wbuf c) - Z.to_nat len)%nat
  | Again => Handle_Write idx w = Done true after
  | Failed => forall w1, Conn_Close idx (Some "Write error") None false after = Done tt w1 ->
      Handle_Write idx w = Done false (if Conn_OPTION_ISSET c CONN_ISCLOSING then after else w1)
  end.
Proof.
  intros Hi Hc Hs Hne after. pose proof (lookup_lt_Some _ _ _ Hc) as Hlt.
  assert (Hstart : Handle_Write idx w = (r ← get_net (fun n => n_send n (n_calls n) (cn_wbuf c));
        mod_net (fun n => set_n_calls (S (n_calls n)) n);;
        match r with
        | Again => mret true
        | Failed =>
            (if negb (Conn_OPTION_ISSET c CONN_ISCLOSING) then
               Conn_Close idx (Some "Write error") None false
             else mret tt);;
            mret false
        | Sent len =>
            if strlen (cn_wbuf c) <? len then mret false
            else
              upd_conn idx (fun c =>
                set_cn_wbuf (str_drop (Z.to_nat len) (cn_wbuf c))
                  (set_cn_sent (cn_sent c +:+ str_take (Z.to_nat len) (cn_wbuf c)) c));;
              mret true
        end) w).
  { unfold Handle_Write, Pool_Size, mbind, M_bind, assert_, get_net, the_conn, mret, M_ret.
    rewrite (proj2 (Z.ltb_lt NONE idx)) by (unfold NONE; lia).
    rewrite (proj2 (Z.leb_gt _ _)) by lia. rewrite (proj2 (Z.leb_gt idx NONE)) by (unfold NONE; lia).
    rewrite Hc, Hs, Z.eqb_refl. cbn [negb]. rewrite (proj2 (Z.ltb_ge idx 0)) by lia.
    destruct (Z.eqb_spec (strlen (cn_wbuf c)) 0) as [E|E]; [|done].
    exfalso. apply Hne. unfold strlen in E. destruct (cn_wbuf c); [done|cbn in E; lia]. }
  rewrite Hstart. unfold mbind, M_bind, get_net, mod_net, mret, M_ret. fold after.
  destruct (n_send (w_net w) (n_calls (w_net w)) (cn_wbuf c)) as [len| |]; [|done|].
  - intros [H0 H1]. rewrite (proj2 (Z.ltb_ge _ _)) by lia. unfold upd_conn, mbind, M_bind, the_conn.
    rewrite (proj2 (Z.leb_gt idx NONE)) by (unfold NONE; lia). cbn [after w_net set_w_net n_conns set_n_calls].
    rewrite Hc. eexists. split; [reflexivity|]. split; [done|]. unfold stream; cbn. split.
    + by rewrite <- str_app_assoc, str_take_drop.
    + apply slen_drop.
  - intros w1 Hw1. destruct (Conn_OPTION_ISSET c CONN_ISCLOSING); cbn [negb]; [done|]. by rewrite Hw1.
Qed.
