(* ===== verification/Servers.v ===== *)
(** * Configured servers (src/server/core/config/conf.c)

    The table of the servers this one may be linked to: an entry is marked as
    used by a connection, enabled or disabled by an operator, or added at run
    time. *)

From S2P Require Import Prelude CString Match Hash Lists Messages World ClientCore.
From S2P Require Import ConnFunc ConnSpec ChannelCore State IrcWrite Channel Client Conn.

Definition HOST_LEN : nat := 256.

(** [(UINT16)n]. *)
Definition u16 (n : Z) : Z := n mod 2 ^ 16.

Section Servers.
Context `{Conf} `{ConnIO}.

(** The first entry that passes a test, if there is one. *)
Definition with_server (test : CONF_SERVER -> bool) (k : Z -> CONF_SERVER -> M bool) : M bool :=
  l ← get_tab t_Conf_Server;
  let i := index_of test 0 l in
  match (if i =? NONE then None else l !! Z.to_nat i) with
  | Some s => k i s
  | None => mret false
  end.

Definition put_server (i : Z) (s : CONF_SERVER) : M unit :=
  mod_tab (fun t => set_t_Conf_Server (<[Z.to_nat i := s]> (t_Conf_Server t)) t).

Definition the_server (i : Z) : M CONF_SERVER :=
  l ← get_tab t_Conf_Server;
  match (if i <? 0 then None else l !! Z.to_nat i) with
  | Some s => mret s
  | None => crash OutOfBounds
  end.

Definition Conf_SetServer (ConfServer Idx : Z) : M bool :=
  assert_ (NONE <? ConfServer);;
  assert_ (NONE <? Idx);;
  s ← the_server ConfServer;
  if (NONE <? sv_conn_id s) && negb (sv_conn_id s =? Idx) then
    Log false (dq "Connection %d: Server configuration of `%s` already in use by connection %d!")
      [FZ Idx; FS (sv_name s); FZ (sv_conn_id s)];;
    Conn_Close Idx None (Some "Server configuration already in use") true;;
    mret false
  else put_server ConfServer (set_sv_conn_id Idx s);; mret true.

Definition enabled (s : CONF_SERVER) : CONF_SERVER :=
  set_sv_flags (Z.land (sv_flags s) (Z.lnot CONF_SFLAG_DISABLED)) s.

Definition Conf_EnableServer (Name : string) (Port : Z) : M bool :=
  with_server (fun s => strcaseeq (sv_name s) Name) (fun i s =>
    put_server i (enabled (set_sv_port Port s));;
    mret (negb (Port =? 0) && negb (hd0 (sv_host s) =c NUL))).

Definition Conf_EnablePassiveServer (Name : string) : M bool :=
  with_server (fun s => strcaseeq (sv_name s) Name && (0 <? sv_port s)) (fun i s =>
    put_server i (set_sv_lasttry 0 (enabled s));; mret true).

Definition Conf_DisableServer (Name : string) : M bool :=
  with_server (fun s => strcaseeq (sv_name s) Name) (fun i s =>
    put_server i (set_sv_flags (Z.lor (sv_flags s) CONF_SFLAG_DISABLED) s);;
    (if NONE <? sv_conn_id s then
       Conn_Close (sv_conn_id s) None (Some "Server link terminated on operator request") true
     else mret tt);;
    mret true).

Definition Conf_AddServer (Name : string) (Port : Z) (Host MyPwd PeerPwd : string) : M bool :=
  with_server (fun s => hd0 (sv_name s) =c NUL) (fun i _ =>
    now ← time;
    put_server i
      (set_sv_flags CONF_SFLAG_ONCE
         (set_sv_port Port
            (set_sv_pwd_in (strlcpy PeerPwd CLIENT_PASS_LEN)
               (set_sv_pwd_out (strlcpy MyPwd CLIENT_PASS_LEN)
                  (set_sv_host (strlcpy Host HOST_LEN)
                     (set_sv_name (strlcpy Name CLIENT_ID_LEN) (Init_Server_Struct now)))))));;
    mret true).

End Servers.
