(* ===== verification/Parse.v ===== *)
(** * The request parser (src/server/proto/irc/parse.c)

    A line from a client is split into prefix, command and at most 15 parameters;
    the prefix is checked against the routing tables; the command is looked up in
    the command table, checked against the type of the client and the number of
    parameters, and called.  The functions that the table points to are
    arguments, selected by the name of the entry.

    The first part is the syntax, with a printer of requests to compare the
    parser with; the second part are the operations, the third the contracts. *)

From S2P Require Import Prelude CString Match Hash Checks Lists Messages World ClientCore ConnFunc.
From S2P Require Import ConnSpec ChannelCore State ClientSpec IrcWrite Channel ChannelSpec.

Definition CLIENT_ANY : Z := 0xFFFF.

(** ** Syntax *)

(** The character behind the first one on. *)
Definition tail (s : string) : string := str_drop 1 s.

Fixpoint skip_blanks (s : string) : string :=
  match s with
  | String c s' => if c =c " "%char then skip_blanks s' else s
  | "" => ""
  end.

(** The text up to the next blank, and what follows the blanks, if there is one. *)
Definition next_word (start : string) : string * option string :=
  match after " " start with
  | Some rest => (before " " start, Some (skip_blanks rest))
  | None => (start, None)
  end.

(** The loop over the parameters; [room] is the space left in [argv]. *)
Fixpoint parse_args (room : nat) (start : string) : list string :=
  match room with
  | O => []
  | S room' =>
      if hd0 start =c ":"%char then [tail start]
      else let '(word, rest) := next_word start in
           word :: match rest with Some start' => parse_args room' start' | None => [] end
  end.

(** The command and its parameters. *)
Definition parse_command (prefix : option string) (start : string) : REQUEST :=
  let '(command, rest) := next_word start in
  Request prefix command (match rest with Some start' => parse_args 15 start' | None => [] end).

(** A line without white space at its ends; [None] for a prefix without a command. *)
Definition parse_line (line : string) : option REQUEST :=
  if hd0 line =c ":"%char then
    match next_word line with
    | (_, None) => None
    | (word, Some start) => Some (parse_command (Some (tail word)) start)
    end
  else Some (parse_command None line).

(** CTCP requests other than ACTION are dropped if that is configured. *)
Definition ScrubCTCP (line : string) : bool :=
  let s := if hd0 line =c ":"%char then tail line else line in
  match after ":" s with
  | Some text =>
      (hd0 text =c "001"%char) && negb (strneq (tail text) "ACTION " 7)
  | None => false
  end.

(** ** The command table *)

Definition CMD (name : string) (type min max penalty : Z) : COMMAND :=
  Command name type min max penalty 0 0 0.

Definition My_Commands : list COMMAND :=
  [CMD "ADMIN" (CLIENT_USER + CLIENT_SERVER) 0 1 1;
   CMD "AWAY" CLIENT_USER 0 1 0;
   CMD "CAP" CLIENT_ANY 1 2 0;
   CMD "CONNECT" (CLIENT_USER + CLIENT_SERVER) 0 (-1) 0;
   CMD "DIE" CLIENT_USER 0 1 0;
   CMD "DISCONNECT" CLIENT_USER 1 1 0;
   CMD "ERROR" CLIENT_ANY 0 (-1) 0;
   CMD "GLINE" (CLIENT_USER + CLIENT_SERVER) 0 (-1) 0;
   CMD "HELP" CLIENT_USER 0 1 2;
   CMD "INFO" (CLIENT_USER + CLIENT_SERVER) 0 1 2;
   CMD "INVITE" (CLIENT_USER + CLIENT_SERVER) 2 2 1;
   CMD "ISON" CLIENT_USER 1 (-1) 0;
   CMD "JOIN" (CLIENT_USER + CLIENT_SERVER) 1 2 0;
   CMD "KICK" (CLIENT_USER + CLIENT_SERVER) 2 3 0;
   CMD "KILL" (CLIENT_USER + CLIENT_SERVER) 2 2 0;
   CMD "KLINE" (CLIENT_USER + CLIENT_SERVER) 0 (-1) 0;
   CMD "LINKS" (CLIENT_USER + CLIENT_SERVER) 0 2 1;
   CMD "LIST" (CLIENT_USER + CLIENT_SERVER) 0 2 2;
   CMD "LUSERS" (CLIENT_USER + CLIENT_SERVER) 0 2 1;
   CMD "METADATA" CLIENT_SERVER 3 3 0;
   CMD "MODE" (CLIENT_USER + CLIENT_SERVER) 1 (-1) 1;
   CMD "MOTD" (CLIENT_USER + CLIENT_SERVER) 0 1 3;
   CMD "NAMES" (CLIENT_USER + CLIENT_SERVER) 0 2 1;
   CMD "NICK" CLIENT_ANY 0 (-1) 0;
   CMD "NJOIN" CLIENT_SERVER 2 2 0;
   CMD "NOTICE" CLIENT_ANY 0 (-1) 0;
   CMD "OPER" CLIENT_USER 2 2 0;
   CMD "PART" (CLIENT_USER + CLIENT_SERVER) 1 2 0;
   CMD "PASS" CLIENT_ANY 0 (-1) 0;
   CMD "PING" (CLIENT_USER + CLIENT_SERVER) 0 (-1) 0;
   CMD "PONG" CLIENT_ANY 0 (-1) 0;
   CMD "PRIVMSG" (CLIENT_USER + CLIENT_SERVER) 0 2 0;
   CMD "QUIT" CLIENT_ANY 0 1 0;
   CMD "REHASH" CLIENT_USER 0 0 0;
   CMD "RESTART" CLIENT_USER 0 0 0;
   CMD "SERVER" CLIENT_ANY 0 (-1) 0;
   CMD "SERVICE" CLIENT_ANY 6 6 0;
   CMD "SERVLIST" CLIENT_USER 0 2 1;
   CMD "SQUERY" (CLIENT_USER + CLIENT_SERVER) 0 2 0;
   CMD "SQUIT" (CLIENT_USER + CLIENT_SERVER) 2 2 0;
   CMD "STATS" (CLIENT_USER + CLIENT_SERVER) 0 2 2;
   CMD "SVSNICK" CLIENT_SERVER 2 2 0;
   CMD "SUMMON" (CLIENT_USER + CLIENT_SERVER) 0 (-1) 0;
   CMD "TIME" (CLIENT_USER + CLIENT_SERVER) 0 1 1;
   CMD "TOPIC" (CLIENT_USER + CLIENT_SERVER) 1 2 1;
   CMD "TRACE" (CLIENT_USER + CLIENT_SERVER) 0 1 3;
   CMD "USER" CLIENT_ANY 0 (-1) 0;
   CMD "USERHOST" CLIENT_USER 1 (-1) 1;
   CMD "USERS" (CLIENT_USER + CLIENT_SERVER) 0 (-1) 0;
   CMD "VERSION" (CLIENT_USER + CLIENT_SERVER) 0 1 1;
   CMD "WALLOPS" (CLIENT_USER + CLIENT_SERVER) 1 1 0;
   CMD "WEBIRC" CLIENT_UNKNOWN 4 5 0;
   CMD "WHO" CLIENT_USER 0 2 1;
   CMD "WHOIS" (CLIENT_USER + CLIENT_SERVER) 0 (-1) 1;
   CMD "WHOWAS" (CLIENT_USER + CLIENT_SERVER) 0 (-1) 0;
   CMD "CHANINFO" CLIENT_SERVER 0 (-1) 0;
   CMD "GET" CLIENT_UNKNOWN 0 (-1) 0;
   CMD "POST" CLIENT_UNKNOWN 0 (-1) 0].

Fixpoint find_command (name : string) (l : list COMMAND) : option COMMAND :=
  match l with
  | [] => None
  | cmd :: l' => if strcaseeq name (cmd_name cmd) then Some cmd else find_command name l'
  end.

(** Counting a call. *)
Fixpoint count_command (name : string) (client_type bytes : Z) (l : list COMMAND) : list COMMAND :=
  match l with
  | [] => []
  | Command n t a b p lc rc by_ :: l' =>
      if strcaseeq name n then
        (if negb (client_type =? CLIENT_SERVER) then Command n t a b p (lc + 1) rc (by_ + bytes)
         else Command n t a b p lc (rc + 1) (by_ + bytes)) :: l'
      else Command n t a b p lc rc by_ :: count_command name client_type bytes l'
  end.

Definition Parse_GetCommandStruct : M (list COMMAND) := get_tab t_My_Commands.

(** ** Operations *)

Section Parse.
Context `{Conf} `{ConnIO}.

(** The functions of the command table, by name, and those for status codes. *)
Context (command : string -> ptr -> REQUEST -> M bool) (numeric : Z -> ptr -> REQUEST -> M bool).

(** The checks of the prefix of a registered client: known, and from the
    expected direction. *)
Definition check_origin (Idx : Z) (Req : REQUEST) (client : ptr) (ty : Z) (prefix : string)
    : M (REQUEST * bool * bool) :=
  c ← Client_Search prefix;
  if is_null c then
    _ ← Client_ID client;
    if negb (ty =? CLIENT_SERVER) then
      ok ← Conn_WriteStr Idx (dq "ERROR :Invalid prefix `%s`") [FS prefix];
      IRC_SetPenalty client 2;; mret (Req, false, negb ok)
    else mret (Req, false, false)
  else
    hop ← Client_NextHop c;
    if negb (ptr_eqb hop client) then
      _ ← Client_ID client;
      if negb (ty =? CLIENT_SERVER) then
        Conn_Close Idx None (Some "Spoofed prefix") true;; mret (Req, false, true)
      else mret (Req, false, false)
    else mret (Req, true, false).

(** The request afterwards, the result and the flag [Closed]. *)
Definition Validate_Prefix (Idx : Z) (Req : REQUEST) : M (REQUEST * bool * bool) :=
  client ← Conn_GetClient Idx;
  assert_ (negb (is_null client));;
  ty ← Client_Type client;
  options ← Conn_Options Idx;
  match rq_prefix Req with
  | None =>
      if (ty =? CLIENT_SERVER) && (Z.land options CONN_RFC1459 =? 0)
         && negb (strcaseeq (rq_command Req) "ERROR") && negb (strcaseeq (rq_command Req) "PING")
      then ok ← Conn_WriteStr Idx "ERROR :Prefix missing" []; mret (Req, false, negb ok)
      else mret (Req, true, false)
  | Some prefix =>
      if negb (ty =? CLIENT_USER) && negb (ty =? CLIENT_SERVER) && negb (ty =? CLIENT_SERVICE)
      then mret (Request None (rq_command Req) (rq_argv Req), true, false)
      else check_origin Idx Req client ty prefix
  end.

(** Without STRICT_RFC these checks accept everything. *)
Definition Validate_Command (Idx : Z) (Req : REQUEST) : M (REQUEST * bool * bool) :=
  assert_ (0 <=? Idx);; mret (Req, true, false).

Definition Validate_Args (Idx : Z) (Req : REQUEST) : M (REQUEST * bool * bool) :=
  mret (Req, true, false).

(** The text of a status code that is passed on. *)
Fixpoint numeric_text (str : string) (args : list string) : string :=
  match args with
  | [] => str
  | [a] => strlcat (strlcat str " :" COMMAND_LEN) a COMMAND_LEN
  | a :: args' => numeric_text (strlcat (strlcat str " " COMMAND_LEN) a COMMAND_LEN) args'
  end.

Definition Handle_Numeric (client : ptr) (Req : REQUEST) : M bool :=
  this ← Client_ThisServer;
  target ← match rq_argv Req with
           | a :: _ => if negb (String.eqb a "*") then Client_Search a else mret this
           | [] => mret NULL
           end;
  if is_null target then mret true
  else if ptr_eqb target this then
    let num := atol (rq_command Req) in
    if num =? 20 then mret true
    else if (num =? 5) || (num =? 376) then numeric num client Req
    else _ ← Client_ID client; mret true
  else match rq_prefix Req with
       | None => _ ← Client_ID client; mret true
       | Some p =>
           prefix ← Client_Search p;
           if is_null prefix then mret true
           else IRC_WriteStrClientPrefix target prefix "%s"
                  [FS (numeric_text (strlcpy (rq_command Req) COMMAND_LEN) (rq_argv Req))]
       end.

(** The call of the function of an entry. *)
Definition run_command (client : ptr) (client_type : Z) (cmd : COMMAND) (Req : REQUEST) : M bool :=
  Conn_ResetWCounter;;
  result ← command (cmd_name cmd) client Req;
  bytes ← Conn_WCounter;
  mod_tab (fun t => set_t_My_Commands
             (count_command (cmd_name cmd) client_type bytes (t_My_Commands t)) t);;
  mret result.

(** A request for an entry of the table: the checks, then the call. *)
Definition dispatch (client : ptr) (client_type : Z) (cmd : COMMAND) (Req : REQUEST) : M bool :=
  if Z.land client_type (cmd_type cmd) =? 0 then
    id ← Client_ID client;
    IRC_WriteErrClient client
      (if (client_type =? CLIENT_USER) && negb (Z.land (cmd_type cmd) CLIENT_SERVER =? 0)
       then ERR_NOTREGISTEREDSERVER_MSG else ERR_NOTREGISTERED_MSG) [FS id]
  else
    (if negb (cmd_penalty cmd =? 0) then IRC_SetPenalty client (cmd_penalty cmd) else mret tt);;
    if (argc Req <? cmd_min_argc cmd) ||
       (negb (cmd_max_argc cmd =? -1) && (cmd_max_argc cmd <? argc Req))
    then id ← Client_ID client;
         IRC_WriteErrClient client ERR_NEEDMOREPARAMS_MSG [FS id; FS (rq_command Req)]
    else run_command client client_type cmd Req.

Definition Handle_Request (Idx : Z) (Req : REQUEST) : M bool :=
  assert_ (0 <=? Idx);;
  client ← Conn_GetClient Idx;
  assert_ (negb (is_null client));;
  client_type ← Client_Type client;
  if ((client_type =? CLIENT_SERVER) || (client_type =? CLIENT_UNKNOWNSERVER))
     && (slen (rq_command Req) =? 3)%nat && (1 <? atol (rq_command Req))
  then Handle_Numeric client Req
  else
    l ← Parse_GetCommandStruct;
    match find_command (rq_command Req) l with
    | Some cmd => dispatch client client_type cmd Req
    | None =>
        _ ← Client_Conn client;
        if negb (client_type =? CLIENT_SERVER) then
          id ← Client_ID client;
          IRC_WriteErrClient client ERR_UNKNOWNCOMMAND_MSG [FS id; FS (rq_command Req)]
        else mret true
    end.

Definition Parse_Request (Idx : Z) (line : string) : M bool :=
  assert_ (0 <=? Idx);;
  let line := ngt_TrimStr line in
  if hd0 line =c NUL then mret true
  else if Conf_ScrubCTCP && ScrubCTCP line then mret true
  else match parse_line line with
       | None => Conn_WriteStr Idx "ERROR :Prefix without command" []
       | Some req =>
           p ← Validate_Prefix Idx req;
           let '(req, valid, closed) := p in
           if negb valid then mret (negb closed)
           else
             p ← Validate_Command Idx req;
             let '(req, valid, closed) := p in
             if negb valid then mret (negb closed)
             else
               p ← Validate_Args Idx req;
               let '(req, valid, closed) := p in
               if negb valid then mret (negb closed)
               else Handle_Request Idx req
       end.

End Parse.

(** ** The grammar *)

Fixpoint print_args (l : list string) : string :=
  match l with
  | [] => ""
  | [a] => " :" +:+ a
  | a :: l' => " " +:+ a +:+ print_args l'
  end.

Definition print_request (r : REQUEST) : string :=
  match rq_prefix r with Some p => ":" +:+ p +:+ " " | None => "" end
  +:+ rq_command r +:+ print_args (rq_argv r).

(** Text without blanks; a parameter that can stand in front of others. *)
Definition word (s : string) : bool := negb (str_mem " "%char s).
Definition middle (s : string) : bool :=
  negb (String.eqb s "") && word s && negb (hd0 s =c ":"%char).

Fixpoint args_ok (l : list string) : bool :=
  match l with [] | [_] => true | a :: l' => middle a && args_ok l' end.

Definition request_wf (r : REQUEST) : bool :=
  match rq_prefix r with
  | Some p => word p && (negb (String.eqb (rq_command r) "") || match rq_argv r with [] => true | _ => false end)
  | None => negb (String.eqb (rq_command r) "") && negb (hd0 (rq_command r) =c ":"%char)
  end
  && word (rq_command r) && args_ok (rq_argv r) && (length (rq_argv r) <=? 15)%nat.

Lemma after_app c w s : str_mem c w = false -> after c (w +:+ String c s) = Some s.
Proof.
  unfold after. induction w as [|a w IH]; simpl.
  - by rewrite Ascii.eqb_refl.
  - by intros [-> Hw%IH]%orb_false_elim.
Qed.

Lemma before_app c w s : str_mem c w = false -> before c (w +:+ String c s) = w.
Proof.
  induction w as [|a w IH]; simpl; [by rewrite Ascii.eqb_refl|].
  intros [-> Hw%IH]%orb_false_elim. by rewrite Hw.
Qed.

Lemma after_nomem c s : c <> NUL -> str_mem c s = false -> after c s = None.
Proof.
  intros Hc Hs. unfold after. rewrite <- strchr_mem in Hs by done. unfold has_chr in Hs.
  by destruct (strchr s c).
Qed.

Lemma next_word_app w s : word w = true -> next_word (w +:+ String " " s) = (w, Some (skip_blanks s)).
Proof. intros Hw%negb_true_iff. unfold next_word. by rewrite after_app, before_app. Qed.

Lemma next_word_end w : word w = true -> next_word w = (w, None).
Proof. intros Hw%negb_true_iff. unfold next_word. by rewrite after_nomem. Qed.

Lemma skip_blanks_head s : hd0 s <> " "%char -> skip_blanks s = s.
Proof. destruct s as [|c s]; simpl; [done|]. intros Hc. by apply Ascii.eqb_neq in Hc as ->. Qed.

Lemma skip_blanks_not_blank s : hd0 (skip_blanks s) <> " "%char.
Proof.
  induction s as [|c s IH]; simpl; [done|]. destruct (c =c " "%char) eqn:E; [done|].
  by apply Ascii.eqb_neq in E.
Qed.

Lemma next_word_spec s :
  let '(w, rest) := next_word s in
  word w = true /\
  match rest with
  | Some r => hd0 r <> " "%char /\ (hd0 s <> " "%char -> w <> "" /\ hd0 w = hd0 s)
  | None => w = s
  end.
Proof.
  unfold next_word. destruct (after " " s) as [r|] eqn:E.
  - split; [unfold word; by rewrite before_not_mem|]. split; [apply skip_blanks_not_blank|].
    pose proof (before_after _ _ _ E) as Hs. intros Hh.
    destruct (before " " s) as [|a b]; [by rewrite Hs in Hh|]. split; [done|]. by rewrite Hs.
  - split; [|done]. unfold word. apply negb_true_iff. unfold after in E.
    rewrite <- (strchr_mem s " ") by done. unfold has_chr.
    destruct (strchr s " ") as [t|] eqn:Et; [|done]. destruct t as [|c t]; [|done].
    exfalso. clear E. induction s as [|a s IH]; simpl in Et; [done|].
    destruct (a =c " "%char); [done|]. by apply IH.
Qed.

(** The middle parameter is not empty and starts with neither blank nor colon. *)
Lemma middle_head a : middle a = true -> word a = true /\ hd0 a <> " "%char /\ hd0 a <> ":"%char /\
  forall s, hd0 (a +:+ s) = hd0 a.
Proof.
  unfold middle, word. intros [[Ha Hw]%andb_prop Hc]%andb_prop. bool_simp. split; [by rewrite Hw|].
  destruct a as [|c a]; [done|]. cbn in *. apply orb_false_elim in Hw as [Hb _].
  apply Ascii.eqb_neq in Hb. done.
Qed.

Lemma parse_args_print args room :
  args <> [] -> args_ok args = true -> (length args <= room)%nat ->
  exists rest, print_args args = String " " rest /\ hd0 rest <> " "%char /\ parse_args room rest = args.
Proof.
  revert room. induction args as [|a [|b l] IH]; intros room Hne Hok Hlen; [done| |].
  - exists (":" +:+ a). split; [done|]. split; [done|]. destruct room; [cbn in Hlen; lia|]. done.
  - cbn [args_ok] in Hok. apply andb_prop in Hok as [Ha Hok].
    destruct room as [|room]; [cbn in Hlen; lia|].
    destruct (IH room) as (rest & Hp & Hh & Hr); [done|done|cbn in *; lia|].
    destruct (middle_head a Ha) as (Hw & Hb & Hc & Hhd).
    exists (a +:+ print_args (b :: l)). split; [done|]. rewrite Hp, Hhd. split; [done|].
    cbn [parse_args]. rewrite Hhd. apply Ascii.eqb_neq in Hc as ->.
    rewrite next_word_app, skip_blanks_head by done. by rewrite Hr.
Qed.

Lemma parse_args_ok room start :
  hd0 start <> " "%char -> args_ok (parse_args room start) = true /\ (length (parse_args room start) <= room)%nat.
Proof.
  revert start. induction room as [|room IH]; intros start Hs; cbn [parse_args]; [by split|].
  destruct (hd0 start =c ":"%char) eqn:Ec; [cbn; split; [done|lia]|].
  pose proof (next_word_spec start) as Hn. destruct (next_word start) as [w [r|]]; [|cbn; split; [done|lia]].
  destruct Hn as (Hw & Hr & Hh). destruct (Hh Hs) as [Hne Hhd]. destruct (IH r Hr) as [Hok Hlen].
  split; [|cbn; lia]. destruct (parse_args room r) as [|b l] eqn:E; [done|].
  change (args_ok (w :: b :: l)) with (middle w && args_ok (b :: l)). rewrite Hok, andb_true_r. unfold middle. rewrite Hw, Hhd, Ec.
  destruct (String.eqb_spec w ""); done.
Qed.

Lemma parse_command_print prefix cmd args rest :
  word cmd = true -> args_ok args = true -> (length args <= 15)%nat ->
  rest = cmd +:+ print_args args ->
  parse_command prefix rest = Request prefix cmd args.
Proof.
  intros Hc Ha Hl ->. unfold parse_command. destruct args as [|a l].
  - cbn [print_args]. rewrite str_app_nil_r, next_word_end by done. done.
  - destruct (parse_args_print (a :: l) 15) as (rest & -> & Hh & Hr); [done|done|done|].
    rewrite next_word_app, skip_blanks_head by done. by rewrite Hr.
Qed.

Lemma word_head s t : word s = true -> s <> "" -> hd0 (s +:+ t) = hd0 s /\ hd0 s <> " "%char.
Proof.
  destruct s as [|c s]; [done|]. intros Hw _. split; [done|]. unfold word in Hw. cbn in *.
  apply negb_true_iff, orb_false_elim in Hw as [Hb _]. by apply Ascii.eqb_neq in Hb.
Qed.

Lemma parse_print r : request_wf r = true -> parse_line (print_request r) = Some r.
Proof.
  destruct r as [[p|] cmd args]; unfold request_wf, print_request; cbn [rq_prefix rq_command rq_argv].
  - intros [[[[Hp He]%andb_prop Hc]%andb_prop Ha]%andb_prop Hl%Nat.leb_le]%andb_prop.
    set (rest := cmd +:+ print_args args).
    assert (Hrest : hd0 rest <> " "%char).
    { unfold rest. destruct (String.eqb_spec cmd "") as [->|Hne]; cbn [negb orb] in He.
      - by destruct args.
      - destruct (word_head cmd (print_args args) Hc Hne) as [-> ?]. done. }
    replace ((":" +:+ p +:+ " ") +:+ rest) with (String ":" p +:+ String " " rest)
      by (cbn; by rewrite <- str_app_assoc).
    unfold parse_line. change (hd0 (String ":" p +:+ String " " rest)) with ":"%char.
    rewrite Ascii.eqb_refl, next_word_app, skip_blanks_head by done.
    f_equal. change (tail (String ":" p)) with p. by apply parse_command_print.
  - intros [[[[Hne Hcol]%andb_prop Hc]%andb_prop Ha]%andb_prop Hl%Nat.leb_le]%andb_prop.
    apply negb_true_iff, String.eqb_neq in Hne. apply negb_true_iff in Hcol.
    unfold parse_line. destruct (word_head cmd (print_args args) Hc Hne) as [Hh _].
    change ("" +:+ cmd +:+ print_args args) with (cmd +:+ print_args args). rewrite Hh, Hcol.
    f_equal. by apply parse_command_print.
Qed.

Lemma parse_command_wf prefix start :
  hd0 start <> " "%char ->
  let r := parse_command prefix start in
  rq_prefix r = prefix /\ word (rq_command r) = true /\ args_ok (rq_argv r) = true /\
  (length (rq_argv r) <= 15)%nat /\
  (rq_command r = "" -> rq_argv r = [] /\ start = "") /\
  (rq_command r <> "" -> hd0 (rq_command r) = hd0 start).
Proof.
  intros Hs. unfold parse_command. pose proof (next_word_spec start) as Hn.
  destruct (next_word start) as [w [r|]]; cbn.
  - destruct Hn as (Hw & Hr & Hh). destruct (Hh Hs) as [Hne Hhd]. destruct (parse_args_ok 15 r Hr).
    repeat split; done.
  - destruct Hn as [Hw ->]. repeat split; [done|lia|done].
Qed.

Lemma parse_line_wf line r :
  line <> "" -> hd0 line <> " "%char -> parse_line line = Some r -> request_wf r = true.
Proof.
  intros Hne Hb. unfold parse_line. destruct (hd0 line =c ":"%char) eqn:Ec.
  - pose proof (next_word_spec line) as Hn. destruct (next_word line) as [w [start|]]; [|done].
    destruct Hn as (Hw & Hst & Hh). intros [= <-]. destruct (Hh Hb) as [Hwne Hwhd].
    destruct (parse_command_wf (Some (tail w)) start Hst) as (E1 & E2 & E3 & E4%Nat.leb_le & E5 & _).
    unfold request_wf. rewrite E1, E2, E3, E4, !andb_true_r. apply andb_true_intro. split.
    + destruct w as [|c w]; [done|]. unfold word in *. cbn in *. rewrite negb_orb in Hw.
      apply andb_prop in Hw as [_ Hw]. done.
    + destruct (String.eqb_spec (rq_command (parse_command (Some (tail w)) start)) "") as [E|E]; [|done].
      by destruct (E5 E) as [-> _].
  - intros [= <-]. destruct (parse_command_wf None line Hb) as (E1 & E2 & E3 & E4%Nat.leb_le & E5 & E6).
    unfold request_wf. rewrite E1, E2, E3, E4, !andb_true_r.
    destruct (String.eqb_spec (rq_command (parse_command None line)) "") as [E|E].
    + by destruct (E5 E) as [_ ?].
    + by rewrite (E6 E), Ec.
Qed.

(** The fifteenth parameter is not the rest of the line. *)
Lemma parse_fifteenth w s : word w = true -> hd0 (w +:+ String " " s) <> ":"%char ->
  parse_args 1 (w +:+ String " " s) = [w].
Proof.
  intros Hw Hc. cbn [parse_args]. apply Ascii.eqb_neq in Hc as ->. by rewrite next_word_app.
Qed.

(** ** Evaluating the first steps of a handler *)

Lemma Conn_GetClient_done w idx cn a :
  0 <= idx -> n_conns (w_net w) !! Z.to_nat idx = Some cn -> cn_client cn = Some a ->
  Conn_GetClient idx w = Done (Some a) w.
Proof.
  intros Hi Hcn Hcl. unfold Conn_GetClient. rewrite (proj2 (Z.ltb_ge idx 0)) by lia.
  rewrite (bind_done _ _ w cn w); [by rewrite Hcl|].
  rewrite (bind_done _ _ w (n_conns (w_net w)) w) by done. by rewrite Hcn.
Qed.

Lemma Client_Type_done w a c : t_clients (w_tab w) !! a = Some c -> Client_Type (Some a) w = Done (cl_type c) w.
Proof.
  intros Hc. unfold Client_Type. rewrite (bind_done _ _ w c w); [done|]. unfold load_client. by rewrite Hc.
Qed.

Lemma Conn_Options_done w idx cn :
  0 <= idx -> n_conns (w_net w) !! Z.to_nat idx = Some cn -> Conn_Options idx w = Done (cn_options cn) w.
Proof.
  intros Hi Hcn. unfold Conn_Options, the_conn, mbind, M_bind.
  rewrite (proj2 (Z.leb_gt idx NONE)) by (unfold NONE; lia). by rewrite Hcn.
Qed.

Lemma assert_nonneg_done w idx : 0 <= idx -> assert_ (0 <=? idx) w = Done tt w.
Proof. intros Hi. by rewrite (proj2 (Z.leb_le 0 idx)). Qed.

(** Commands are found by their name modulo case. *)
Lemma find_command_case n1 n2 l : case_eq n1 n2 -> find_command n1 l = find_command n2 l.
Proof. intros E. induction l as [|x l IH]; simpl; [done|]. unfold strcaseeq. by rewrite E, IH. Qed.

(** ** Properties *)

(** C35: parsing and printing requests.  Every request in the protocol's form is
    read back from its text unchanged; conversely what the parser makes of a
    line that starts with neither nothing nor a blank is in that form (prefix,
    command and all parameters but the last are words, only the last may be
    empty, contain blanks or start with a colon), has at most the 15 parameters
    for which there is room, and is a fixed point of printing and parsing. *)
Theorem parse_line_roundtrip :
  (forall r, request_wf r = true -> parse_line (print_request r) = Some r) /\
  (forall line r, line <> "" -> hd0 line <> " "%char -> parse_line line = Some r ->
     request_wf r = true /\ (length (rq_argv r) <= 15)%nat /\ parse_line (print_request r) = Some r) /\
  (forall w s, word w = true -> hd0 (w +:+ String " " s) <> ":"%char ->
     parse_args 1 (w +:+ String " " s) = [w]).
Proof.
  split; [apply parse_print|]. split; [|apply parse_fifteenth]. intros line r Hne Hb Hp. pose proof (parse_line_wf _ _ Hne Hb Hp) as Hwf.
  split; [done|]. split; [|by apply parse_print].
  unfold request_wf in Hwf. apply andb_prop in Hwf as [_ Hl]. by apply Nat.leb_le.
Qed.

Definition registered (c : CLIENT) : Prop :=
  cl_type c = CLIENT_USER \/ cl_type c = CLIENT_SERVER \/ cl_type c = CLIENT_SERVICE.

(** C19: no spoofing.  A prefix from a registered client is accepted exactly if
    it names a client that is reached over the connection it comes from.
    Otherwise the request is rejected: from a server silently, from anybody else
    with an error for unknown names and by closing the connection for known
    ones. *)
Theorem Validate_Prefix_spec `{Conf} `{IO : ConnIO} `{!ConnIOSpec IO} w idx cn a c Req p :
  state_ok w -> ids_hashed (w_tab w) ->
  (forall x, x ∈ t_My_Clients (w_tab w) -> is_Some (hop (w_tab w) x)) ->
  0 <= idx -> n_conns (w_net w) !! Z.to_nat idx = Some cn -> cn_sock cn = idx ->
  cn_client cn = Some a -> t_clients (w_tab w) !! a = Some c -> registered c ->
  rq_prefix Req = Some p ->
  let id := before "!" (strlcpy p CLIENT_ID_LEN) in id <> "" ->
  match find_client (w_tab w) id with
  | Some x =>
      if bool_decide (hop (w_tab w) x = Some a) then Validate_Prefix idx Req w = Done (Req, true, false) w
      else if cl_type c =? CLIENT_SERVER then Validate_Prefix idx Req w = Done (Req, false, false) w
      else forall w1, Conn_Close idx None (Some "Spoofed prefix") true w = Done tt w1 ->
             Validate_Prefix idx Req w = Done (Req, false, true) w1
  | None =>
      if cl_type c =? CLIENT_SERVER then Validate_Prefix idx Req w = Done (Req, false, false) w
      else exists w1, Validate_Prefix idx Req w = Done (Req, false, false) w1 /\
             delivered [(idx, wire_line (dq "ERROR :Invalid prefix `%s`") [FS p])] w w1
  end.
Proof.
  intros Hok Hids Hhop Hi Hcn Hs Hcl Hc Hreg Hp id Hid.
  assert (Ht : w_tab w = w_tab w) by done. pose proof (so_clients _ Hok a c Hc) as Hcok.
  assert (Hstart : Validate_Prefix idx Req w = check_origin idx Req (Some a) (cl_type c) p w).
  { unfold Validate_Prefix, Conn_GetClient, Conn_Options, Client_Type, mbind, M_bind, get_net,
      the_conn, load_client, assert_, mret, M_ret.
    rewrite (proj2 (Z.ltb_ge idx 0)), (proj2 (Z.leb_gt idx NONE)) by (unfold NONE; lia).
    rewrite Hcn, Hcl. cbn [is_null negb]. rewrite Hc, Hcn, Hp.
    by destruct Hreg as [->|[->| ->]]. }
  rewrite Hstart. unfold check_origin.
  assert (Hsearch : forall k : ptr -> M (REQUEST * bool * bool),
    (Client_Search p ≫= k) w = k (find_client (w_tab w) id) w).
  { intros k. unfold mbind, M_bind. by rewrite Client_Search_ok by (done || apply Hok). }
  assert (Hid' : forall k : string -> M (REQUEST * bool * bool),
    (Client_ID (Some a) ≫= k) w = k (id_of c) w).
  { intros k. unfold mbind, M_bind.
    assert (wp (Client_ID (Some a)) (fun r w' => r = id_of c /\ w' = w) w) as Hw by by rd.
    by apply wp_done in Hw as (r & w' & -> & -> & ->). }
  rewrite Hsearch. destruct (find_client (w_tab w) id) as [x|] eqn:Ex; cbn [is_null].
  - destruct (Hhop x) as [h Hh].
    { unfold find_client in Ex. by apply lfind_Some in Ex as [Hx _]. }
    assert (Hnext : forall k : ptr -> M (REQUEST * bool * bool),
      (Client_NextHop (Some x) ≫= k) w = k (Some h) w).
    { intros k. unfold mbind, M_bind.
      assert (wp (Client_NextHop (Some x)) (fun r w' => r = Some h /\ w' = w) w) as Hw by by rd.
      by apply wp_done in Hw as (r & w' & -> & -> & ->). }
    rewrite Hnext, Hh. unfold ptr_eqb.
    destruct (decide (Some h = Some a)) as [E|E];
      [by rewrite !bool_decide_eq_true_2 by done|rewrite !bool_decide_eq_false_2 by done]; cbn [negb].
    rewrite Hid'. destruct (cl_type c =? CLIENT_SERVER); cbn [negb]; [done|].
    intros w1 Hw1. unfold mbind, M_bind. by rewrite Hw1.
  - rewrite Hid'. destruct (cl_type c =? CLIENT_SERVER); cbn [negb]; [done|].
    assert (Ho : conn_open w idx).
    { split; [done|]. exists cn. destruct (so_socks _ Hok _ _ Hcn) as [?|[? ?]]; [unfold NONE in *; lia|].
      by rewrite Z2Nat.id in * by done. }
    match goal with |- exists w1, ?m w = _ /\ _ => assert (wp m (fun r w1 => r = (Req, false, false) /\
      delivered [(idx, wire_line (dq "ERROR :Invalid prefix `%s`") [FS p])] w w1) w) as Hw end.
    { wp_step. apply wp_WriteStr; [done..|]. intros w1 D1 _. pose proof (dl_tab _ _ _ D1) as Ht1.
      wp_step. eapply wp_SetPenalty; [by eapply delivered_state_ok|by rewrite Ht1|lia|].
      intros w2 D2. wp_step. split; [done|]. by apply (delivered_trans _ [] _ _ _ D1). }
    apply wp_done in Hw as (r & w1 & Hw & -> & D). by exists w1.
Qed.

(** The error that refuses a request, if it is refused. *)
Definition refusal (l : list COMMAND) (c : CLIENT) (Req : REQUEST) : option (string * list farg) :=
  match find_command (rq_command Req) l with
  | Some cmd =>
      if Z.land (cl_type c) (cmd_type cmd) =? 0 then
        Some (if (cl_type c =? CLIENT_USER) && negb (Z.land (cmd_type cmd) CLIENT_SERVER =? 0)
              then ERR_NOTREGISTEREDSERVER_MSG else ERR_NOTREGISTERED_MSG, [])
      else if (argc Req <? cmd_min_argc cmd) ||
              (negb (cmd_max_argc cmd =? -1) && (cmd_max_argc cmd <? argc Req))
      then Some (ERR_NEEDMOREPARAMS_MSG, [FS (rq_command Req)])
      else None
  | None => if cl_type c =? CLIENT_SERVER then None
            else Some (ERR_UNKNOWNCOMMAND_MSG, [FS (rq_command Req)])
  end.

Definition is_numeric (c : CLIENT) (Req : REQUEST) : bool :=
  ((cl_type c =? CLIENT_SERVER) || (cl_type c =? CLIENT_UNKNOWNSERVER))
  && (slen (rq_command Req) =? 3)%nat && (1 <? atol (rq_command Req)).

Lemma find_command_In name l cmd : find_command name l = Some cmd -> In cmd l.
Proof.
  induction l as [|x l IH]; simpl; [done|]. destruct (strcaseeq name (cmd_name x)); [|auto].
  intros [= ->]. by left.
Qed.

(** C20: dispatch.  A request that is not a status code reaches the function of
    the command table exactly if its command is in the table, the client's type
    is among those allowed and the number of parameters is in range; the function
    is then called once, with the tables as they were.  Otherwise no function is
    called: the client gets the one error that fits and keeps its connection;
    unknown commands of servers are ignored. *)
Theorem Handle_Request_spec `{Conf} `{IO : ConnIO} `{!ConnIOSpec IO} command numeric w idx cn a c cs Req :
  state_ok w -> Forall (fun cmd => 0 <= cmd_penalty cmd) (t_My_Commands (w_tab w)) ->
  0 <= idx -> n_conns (w_net w) !! Z.to_nat idx = Some cn -> cn_client cn = Some a ->
  t_clients (w_tab w) !! a = Some c -> NONE < cl_conn_id c ->
  t_clients (w_tab w) !! t_This_Server (w_tab w) = Some cs ->
  is_numeric c Req = false ->
  match refusal (t_My_Commands (w_tab w)) c Req with
  | Some (fmt, args) => exists w', Handle_Request command numeric idx Req w = Done true w' /\
      delivered (error_to cs c fmt args) w w'
  | None =>
      match find_command (rq_command Req) (t_My_Commands (w_tab w)) with
      | Some cmd => exists w1, delivered [] w w1 /\
          Handle_Request command numeric idx Req w = run_command command (Some a) (cl_type c) cmd Req w1
      | None => Handle_Request command numeric idx Req w = Done true w
      end
  end.
Proof.
  intros Hok Hpen Hi Hcn Hcl Hc Hl Hs Hnum.
  assert (Ht : w_tab w = w_tab w) by done. pose proof (so_clients _ Hok a c Hc) as Hcok.
  set (dunno := Client_Conn (Some a) ≫= fun _ =>
        if negb (cl_type c =? CLIENT_SERVER) then
          id ← Client_ID (Some a);
          IRC_WriteErrClient (Some a) ERR_UNKNOWNCOMMAND_MSG [FS id; FS (rq_command Req)]
        else mret true).
  assert (Hstart : Handle_Request command numeric idx Req w =
    match find_command (rq_command Req) (t_My_Commands (w_tab w)) with
    | Some cmd => dispatch command (Some a) (cl_type c) cmd Req w
    | None => dunno w
    end).
  { unfold Handle_Request.
    rewrite (bind_done _ _ _ _ _ (assert_nonneg_done w idx Hi)).
    rewrite (bind_done _ _ _ _ _ (Conn_GetClient_done w idx cn a Hi Hcn Hcl)).
    rewrite (bind_done _ _ w tt w) by done.
    rewrite (bind_done _ _ _ _ _ (Client_Type_done w a c Hc)).
    unfold is_numeric in Hnum. rewrite Hnum.
    rewrite (bind_done _ _ w (t_My_Commands (w_tab w)) w) by done. by destruct (find_command _ _). }
  rewrite Hstart. clear Hstart. unfold refusal.
  assert (Herr : forall w1 fmt args, delivered [] w w1 ->
    wp (id ← Client_ID (Some a); IRC_WriteErrClient (Some a) fmt (FS id :: args))
       (fun r w' => r = true /\ delivered (error_to cs c fmt args) w w') w1).
  { intros w1 fmt args D. pose proof (dl_tab _ _ _ D) as Ht1.
    wp_step. rd. eapply wp_error_to; [by eapply delivered_state_ok|by rewrite Ht1|done|by rewrite Ht1|].
    intros w' D'. split; [done|]. by apply (delivered_trans [] _ _ _ _ D). }
  assert (Hend : forall m fmt args,
    wp m (fun r w' => r = true /\ delivered (error_to cs c fmt args) w w') w ->
    exists w', m w = Done true w' /\ delivered (error_to cs c fmt args) w w').
  { intros m fmt args Hw. apply wp_done in Hw as (r & w' & Hw & -> & D). by exists w'. }
  destruct (find_command (rq_command Req) (t_My_Commands (w_tab w))) as [cmd|] eqn:Ef.
  2: { assert (wp dunno (fun r w' => r = true /\ if cl_type c =? CLIENT_SERVER then w' = w
         else delivered (error_to cs c ERR_UNKNOWNCOMMAND_MSG [FS (rq_command Req)]) w w') w) as Hw.
       { unfold dunno. wp_step. rd. destruct (cl_type c =? CLIENT_SERVER); cbn [negb]; [by wp_step|].
         apply Herr, delivered_refl. }
       apply wp_done in Hw as (r & w' & Hw & -> & D).
       destruct (cl_type c =? CLIENT_SERVER); [by subst w'|by exists w']. }
  unfold dispatch. destruct (Z.land (cl_type c) (cmd_type cmd) =? 0).
  { apply Hend, Herr, delivered_refl. }
  set (m := if negb (cmd_penalty cmd =? 0) then IRC_SetPenalty (Some a) (cmd_penalty cmd) else mret tt).
  assert (wp m (fun _ w1 => delivered [] w w1) w) as Hw.
  { unfold m. destruct (Z.eqb_spec (cmd_penalty cmd) 0) as [E|E]; cbn [negb]; [wp_step; apply delivered_refl|].
    eapply wp_SetPenalty; [done|done| |done]. rewrite Forall_forall in Hpen.
    specialize (Hpen cmd (find_command_In _ _ _ Ef)). lia. }
  apply wp_done in Hw as ([] & w1 & Hw & D1). rewrite (bind_done _ _ _ _ _ Hw).
  destruct ((argc Req <? cmd_min_argc cmd) || _); [|by exists w1].
  specialize (Herr w1 ERR_NEEDMOREPARAMS_MSG [FS (rq_command Req)] D1).
  apply wp_done in Herr as (r & w' & Hw' & -> & D'). by exists w'.
Qed.
