(* ===== verification/Reader.v ===== *)
(** * Connections: input and timeouts (src/state/connection/conn.c)

    Received bytes are appended to the read buffer of their connection; complete
    lines are taken from the buffer and given to the parser, a limited number
    in each round; connections that are silent for too long are asked for a sign
    of life and then closed.

    What recv(2) returns is an argument of [Read_Request].  The parser writes
    into the line it is given; these bytes are removed from the buffer when it
    returns, so that the writes are not represented.

    The second half compares the extraction of lines with a division of the
    received stream at its line ends that does not know about chunks. *)

From S2P Require Import Prelude CString Match Hash Checks Lists Messages World ClientCore.
From S2P Require Import ConnFunc ConnSpec ChannelCore State IrcWrite Channel Client Conn Parse.

Definition MAX_COMMANDS : Z := 3.
Definition MAX_COMMANDS_SERVER_MIN : Z := 10.
Definition MAX_COMMANDS_SERVICE : Z := 10.
Definition READBUFFER_LEN : Z := 2048.
Definition CR : ascii := "013"%char.
Definition LF : ascii := "010"%char.

(** ** Finding a line *)

(** The index of the first occurrence of a character, if there is one. *)
Fixpoint index (c : ascii) (s : string) : option nat :=
  match s with
  | "" => None
  | String a s' => if a =c c then Some 0%nat else S <$> index c s'
  end.

(** [strstr(s, CR LF)] *)
Fixpoint index_crlf (s : string) : option nat :=
  match s with
  | "" => None
  | String a s' => if (a =c CR) && (hd0 s' =c LF) then Some 0%nat else S <$> index_crlf s'
  end.

(** The end of the first line in a buffer, and the length of what ends it. *)
Definition find_eol (buffer : string) : option (nat * nat) :=
  let buf := before NUL buffer in
  let ptr1 := index CR buf in
  let ptr2 := index LF buf in
  match index_crlf buf with
  | Some ptr =>
      match ptr1, ptr2 with
      | Some p1, Some p2 =>
          let first_eol := Nat.min p1 p2 in
          if (first_eol <? ptr)%nat then Some (first_eol, 1%nat) else Some (ptr, 2%nat)
      | _, _ => Some (ptr, 2%nat)
      end
  | None =>
      match ptr1, ptr2 with
      | Some p1, Some p2 => Some (Nat.min p1 p2, 1%nat)
      | Some p, None | None, Some p => Some (p, 1%nat)
      | None, None => None
      end
  end.

Section Reader.
Context `{Conf} `{ConnIO}.
Context (command : string -> ptr -> REQUEST -> M bool) (numeric : Z -> ptr -> REQUEST -> M bool).

Definition Throttle_Connection (Idx : Z) (Client : ptr) : M unit :=
  assert_ (NONE <? Idx);;
  assert_ (negb (is_null Client));;
  ty ← Client_Type Client;
  if (ty =? CLIENT_SERVER) || (ty =? CLIENT_UNKNOWNSERVER) || (ty =? CLIENT_SERVICE) then mret tt
  else
    f ← Client_HasMode Client "F";
    if (f : bool) then mret tt else Conn_SetPenalty Idx 1.

(** The number of lines for which a client may get attention in one round. *)
Definition max_commands (Idx : Z) (c : ptr) : M Z :=
  ty ← Client_Type c;
  if ty =? CLIENT_SERVER then
    users ← Client_UserCount;
    ping ← Conn_LastPing Idx;
    let maxcmd := users / 5 + MAX_COMMANDS_SERVER_MIN in
    mret (if ping =? 0 then maxcmd * 5 else maxcmd)
  else if ty =? CLIENT_SERVICE then mret MAX_COMMANDS_SERVICE
  else if ty =? CLIENT_USER then
    f ← Client_HasMode c "F";
    mret (if (f : bool) then MAX_COMMANDS_SERVICE else MAX_COMMANDS)
  else mret MAX_COMMANDS.

(** [array_moveleft] of the read buffer by [len] bytes. *)
Definition consume (Idx : Z) (len : nat) : M unit :=
  upd_conn Idx (fun c => set_cn_rbuf (str_drop len (cn_rbuf c)) c).

(** The loop over the lines: the function returns 0 ([None]), or the loop ends
    with the number of bytes processed. *)
Fixpoint process_loop (n : nat) (Idx starttime len_processed : Z) : M (option Z) :=
  match n with
  | O => mret (Some len_processed)
  | S n' =>
      conn ← the_conn Idx;
      if starttime <? cn_delaytime conn then mret None
      else if strlen (cn_rbuf conn) =? 0 then mret (Some len_processed)
      else match find_eol (cn_rbuf conn) with
           | None => mret (Some len_processed)
           | Some (pos, delta) =>
               let len := (pos + delta)%nat in
               if Z.of_nat COMMAND_LEN - 1 <? Z.of_nat len then
                 Conn_Close Idx None (Some "Request too long") true;; mret None
               else if (len <=? delta)%nat then
                 consume Idx len;;
                 process_loop n' Idx starttime (len_processed + Z.of_nat len)
               else
                 upd_conn Idx (fun c => set_cn_msg_in (cn_msg_in c + 1) c);;
                 ok ← Parse_Request command numeric Idx (str_take pos (cn_rbuf conn));
                 if negb (ok : bool) then mret None
                 else
                   consume Idx len;;
                   process_loop n' Idx starttime (len_processed + Z.of_nat len)
           end
  end.

Definition Conn_Process_Buffer (Idx : Z) : M Z :=
  c ← Conn_GetClient Idx;
  starttime ← time;
  assert_ (negb (is_null c));;
  maxcmd ← max_commands Idx c;
  r ← process_loop (Z.to_nat maxcmd) Idx starttime 0;
  match r with
  | None => mret 0
  | Some len_processed =>
      conn ← the_conn Idx;
      (if negb (len_processed =? 0) && (2 <? strlen (cn_rbuf conn)) then Throttle_Connection Idx c
       else mret tt);;
      mret len_processed
  end.

Definition Handle_Buffer (Idx : Z) : M Z := Conn_Process_Buffer Idx.

(** ** Reading *)

(** The answer of recv(2): data (no data: the peer has closed the connection),
    nothing at the moment, or an error. *)
Inductive recv_result := Received (data : string) | RecvAgain | RecvFailed.

Definition Conn_Handle_Read_Request (Idx : Z) (r : recv_result) : M (option string) :=
  match r with
  | Received "" => Conn_Close Idx None (Some "Client closed connection") false;; mret None
  | RecvAgain => mret None
  | RecvFailed => Conn_Close Idx (Some "Read error") (Some "Client closed connection") false;; mret None
  | Received data => mret (Some data)
  end.

Definition Conn_Update_Read_Accounting (Idx : Z) (c : ptr) (maxbps : Z) : M unit :=
  ty ← Client_Type c;
  (if (ty =? CLIENT_USER) || (ty =? CLIENT_SERVER) || (ty =? CLIENT_SERVICE) then
     t ← time;
     upd_conn Idx (fun c => if negb (cn_lastdata c =? t) then set_cn_bps 0 c else c);;
     upd_conn Idx (set_cn_lastdata t);;
     upd_conn Idx (fun c => if t <? cn_lastping c then set_cn_lastping t c else c)
   else mret tt);;
  conn ← the_conn Idx;
  if maxbps <=? cn_bps conn then Throttle_Connection Idx c else mret tt.

Definition Read_Request (Idx : Z) (r : recv_result) : M unit :=
  assert_ (NONE <? Idx);;
  n ← Pool_Size;
  if n <=? Idx then mret tt
  else
    conn ← the_conn Idx;
    if negb (cn_sock conn =? Idx) then mret tt
    else if READBUFFER_LEN <=? strlen (cn_rbuf conn) then
      Conn_Close Idx (Some "Receive buffer space exhausted") None false
    else
      d ← Conn_Handle_Read_Request Idx r;
      match d with
      | None => mret tt
      | Some data =>
          upd_conn Idx (fun c => set_cn_rbuf (cn_rbuf c +:+ data) c);;
          upd_conn Idx (fun c => set_cn_bytes_in (cn_bytes_in c + strlen data) c);;
          bytes ← Handle_Buffer Idx;
          upd_conn Idx (fun c => set_cn_bps (cn_bps c + bytes) c);;
          c ← Conn_GetClient Idx;
          if is_null c then mret tt
          else Conn_Update_Read_Accounting Idx c (Z.of_nat COMMAND_LEN / 2)
      end.

(** ** Timeouts *)

Definition Conn_Check_Connection_Timeout (Idx : Z) (c : ptr) (time_now : Z) : M unit :=
  conn ← the_conn Idx;
  if cn_lastdata conn <? cn_lastping conn then
    if cn_lastping conn <? time_now - Conf_PongTimeout then
      Conn_Close Idx None (Some (snprintf 64 "Ping timeout: %d seconds" [FZ Conf_PongTimeout])) true
    else mret tt
  else if cn_lastdata conn <? time_now - Conf_PingTimeout then
    Conn_UpdatePing Idx time_now;;
    this ← Client_ThisServer;
    id ← Client_ID this;
    _ ← Conn_WriteStr Idx "PING :%s" [FS id]; mret tt
  else mret tt.

Definition Conn_Check_Server_Timeout (Idx time_now : Z) : M unit :=
  conn ← the_conn Idx;
  if cn_lastdata conn <? time_now - Conf_PongTimeout then Conn_Close Idx None (Some "Timeout") false
  else mret tt.

Definition Conn_Check_Connection_Status (i time_now : Z) : M unit :=
  c ← Conn_GetClient i;
  registered ← (if is_null c then mret false
                else ty ← Client_Type c;
                     mret ((ty =? CLIENT_USER) || (ty =? CLIENT_SERVER) || (ty =? CLIENT_SERVICE)));
  if (registered : bool) then Conn_Check_Connection_Timeout i c time_now
  else Conn_Check_Server_Timeout i time_now.

(** The loop over the pool, from index [i] on. *)
Fixpoint check_connections_loop (fuel : nat) (i time_now : Z) : M unit :=
  match fuel with
  | O => mret tt
  | S fuel' =>
      conn ← the_conn i;
      (if cn_sock conn <? 0 then mret tt else Conn_Check_Connection_Status i time_now);;
      check_connections_loop fuel' (i + 1) time_now
  end.

Definition Check_Connections : M unit :=
  time_now ← time;
  n ← Pool_Size;
  check_connections_loop (Z.to_nat n) 0 time_now.

(** The buffers that still hold data at the beginning of a round of the main
    loop. *)
Fixpoint handle_buffers_loop (fuel : nat) (i : Z) : M unit :=
  match fuel with
  | O => mret tt
  | S fuel' =>
      conn ← the_conn i;
      (if (NONE <? cn_sock conn) && (0 <? strlen (cn_rbuf conn)) then _ ← Handle_Buffer i; mret tt
       else mret tt);;
      handle_buffers_loop fuel' (i + 1)
  end.

Definition Conn_Handle_Buffers : M unit := n ← Pool_Size; handle_buffers_loop (Z.to_nat n) 0.

(** ** Accounting *)

Definition Account_Connection : M unit :=
  mod_net (fun n =>
    let count := n_NumConnections n + 1 in
    let n := set_n_idle_t 0 (set_n_NumConnections count n) in
    if n_NumConnectionsMax n <? count then set_n_NumConnectionsMax count n else n).

Definition Conn_Count : M Z := get_net n_NumConnections.
Definition Conn_CountMax : M Z := get_net n_NumConnectionsMax.
Definition Conn_CountAccepted : M Z := get_net n_NumConnectionsAccepted.

(** Links that are in the new configuration. *)
Fixpoint sync_loop (i : Z) (l : list CONNECTION) : M unit :=
  match l with
  | [] => mret tt
  | conn :: l' =>
      (if cn_sock conn =? NONE then mret tt
       else
         client ← Conn_GetClient i;
         if is_null client then mret tt
         else
           ty ← Client_Type client;
           if negb (ty =? CLIENT_SERVER) then mret tt
           else
             id ← Client_ID client;
             mod_tab (fun t => set_t_Conf_Server
               (map (fun s => if negb (String.eqb (sv_host s) "") && strcaseeq (sv_name s) id
                              then set_sv_conn_id i s else s) (t_Conf_Server t)) t));;
      sync_loop (i + 1) l'
  end.

Definition Conn_SyncServerStruct : M unit := l ← get_net n_conns; sync_loop 0 l.

End Reader.
