(* ===== verification/ReaderSpec.v ===== *)
(** * Connections: input: the contracts

    The lines that the reader takes from a buffer are those of the received
    stream, divided at its line ends, however the stream was cut into chunks. *)

From S2P Require Import Prelude CString Match Hash Checks Lists Messages World ClientCore.
From S2P Require Import ConnFunc ConnSpec ChannelCore State IrcWrite Channel Client Conn Parse.
From S2P Require Import Reader.

(** ** The division of a stream *)

Definition is_eol (a : ascii) : bool := (a =c CR) || (a =c LF).

(** The non-empty texts between line ends, and the text behind the last one;
    [cur] is the text in front of [s] that is not finished. *)
Fixpoint frames (cur s : string) : list string * string :=
  match s with
  | "" => ([], cur)
  | String a s' =>
      if is_eol a then
        let '(lines, rest) := frames "" s' in
        (if String.eqb cur "" then lines else cur :: lines, rest)
      else frames (cur +:+ String a "") s'
  end.

Lemma frames_app cur a b :
  frames cur (a +:+ b) =
    (let '(l1, r1) := frames cur a in let '(l2, r2) := frames r1 b in (l1 ++ l2, r2)).
Proof.
  revert cur. induction a as [|x a IH]; intros cur; cbn [frames String.append].
  - by destruct (frames cur b).
  - destruct (is_eol x); [|by rewrite IH]. rewrite IH. destruct (frames "" a) as [l1 r1].
    destruct (frames r1 b) as [l2 r2]. by destruct (String.eqb cur "").
Qed.

(** The first line end: where it starts, and whether it is a pair. *)
Fixpoint first_line (s : string) : option (nat * nat) :=
  match s with
  | "" => None
  | String a s' =>
      if is_eol a then Some (0%nat, if (a =c CR) && (hd0 s' =c LF) then 2%nat else 1%nat)
      else prod_map S id <$> first_line s'
  end.

Lemma index_crlf_Some s p : index_crlf s = Some p -> is_Some (index CR s) /\ is_Some (index LF s).
Proof.
  revert p. induction s as [|a s IH]; simpl; [done|]. intros p.
  destruct ((a =c CR) && (hd0 s =c LF)) eqn:E.
  - intros _. apply andb_prop in E as [-> E]. split; [by eexists|].
    destruct s as [|b s]; [done|]. simpl in *. rewrite E. destruct (a =c LF); by eexists.
  - destruct (index_crlf s) as [k|]; [|done]. intros _. destruct (IH k eq_refl) as [[x ->] [y ->]].
    destruct (a =c CR), (a =c LF); split; by eexists.
Qed.

Lemma find_eol_first s : str_mem NUL s = false -> find_eol s = first_line s.
Proof.
  unfold find_eol. intros Hn. rewrite before_nomem by done. clear Hn.
  induction s as [|a s IH]; [done|]. cbn [index index_crlf first_line]. unfold is_eol.
  pose proof (index_crlf_Some s) as Hc.
  destruct (Ascii.eqb_spec a CR) as [->|Ea]; cbn [orb andb].
  - change (CR =c LF) with false. cbn iota.
    destruct (hd0 s =c LF) eqn:Eh.
    + assert (is_Some (index LF s)) as [y ->]; [|done].
      destruct s as [|b s]; [done|]. simpl in *. rewrite Eh. by eexists.
    + destruct (index_crlf s) as [k|]; cbn; [|by destruct (index LF s)].
      destruct (Hc k eq_refl) as [_ [y ->]]. done.
  - destruct (Ascii.eqb_spec a LF) as [->|Eb]; cbn [orb andb].
    + destruct (index_crlf s) as [k|]; cbn; [|by destruct (index CR s)].
      destruct (Hc k eq_refl) as [[x ->] _]. done.
    + rewrite <- IH. destruct (index_crlf s) as [k|]; cbn.
      * destruct (Hc k eq_refl) as [[x ->] [y ->]]. cbn.
        by match goal with |- context [if ?b then _ else _] => destruct b end.
      * by destruct (index CR s), (index LF s).
Qed.

Lemma first_line_bounds s p d : first_line s = Some (p, d) -> (p + d <= slen s)%nat /\ (1 <= d)%nat.
Proof.
  revert p. induction s as [|a s IH]; simpl; [done|]. intros p.
  destruct (is_eol a).
  - intros [= <- <-]. destruct ((a =c CR) && _) eqn:E; [|lia].
    apply andb_prop in E as [_ E]. destruct s; [done|]. simpl. lia.
  - destruct (first_line s) as [[q e]|]; cbn; [|done]. intros [= <- <-].
    destruct (IH q eq_refl). lia.
Qed.

(** The lines of a buffer with the lengths of what they occupy. *)
Fixpoint segments (fuel : nat) (s : string) : list (string * nat) * string :=
  match fuel, first_line s with
  | S fuel', Some (p, d) =>
      let '(l, rest) := segments fuel' (str_drop (p + d) s) in ((str_take p s, (p + d)%nat) :: l, rest)
  | _, _ => ([], s)
  end.

Definition segs (s : string) : list (string * nat) * string := segments (slen s) s.

Lemma frames_cur cur s : frames cur s =
  match first_line s with
  | Some (p, d) =>
      let '(l, rest) := frames "" (str_drop (p + d) s) in
      (if String.eqb (cur +:+ str_take p s) "" then l else (cur +:+ str_take p s) :: l, rest)
  | None => ([], cur +:+ s)
  end.
Proof.
  revert cur. induction s as [|a s IH]; intros cur; cbn [frames first_line].
  - by rewrite str_app_nil_r.
  - destruct (is_eol a) eqn:E.
    + destruct ((a =c CR) && (hd0 s =c LF)) eqn:Ec; cbn [str_take str_drop Nat.add].
      * rewrite str_app_nil_r. destruct s as [|b s]; [by apply andb_prop in Ec as [_ ?]|].
        apply andb_prop in Ec as [_ Eb]. cbn [hd0] in Eb. cbn [str_drop frames].
        unfold is_eol. rewrite Eb, orb_true_r. cbn. by destruct (frames "" s).
      * rewrite str_app_nil_r. by destruct s.
    + rewrite IH. destruct (first_line s) as [[p d]|]; cbn; by rewrite <- str_app_assoc.
Qed.


Lemma segments_frames fuel s : (slen s <= fuel)%nat ->
  frames "" s = (List.filter (fun l => negb (String.eqb l "")) (map fst (segments fuel s).1), (segments fuel s).2).
Proof.
  revert s. induction fuel as [|fuel IH]; intros s Hs.
  - by destruct s; [|cbn in Hs; lia].
  - cbn [segments]. rewrite frames_cur. pose proof (first_line_bounds s) as Hb.
    destruct (first_line s) as [[p d]|]; [|done]. destruct (Hb p d eq_refl).
    rewrite IH by (rewrite slen_drop; lia).
    destruct (segments fuel (str_drop (p + d) s)) as [l rest]. cbn.
    by destruct (String.eqb (str_take p s) "").
Qed.

Lemma segments_fuel f1 f2 s : (slen s <= f1)%nat -> (slen s <= f2)%nat -> segments f1 s = segments f2 s.
Proof.
  revert f2 s. induction f1 as [|f1 IH]; intros f2 s H1 H2.
  - destruct s; [|cbn in H1; lia]. by destruct f2.
  - pose proof (first_line_bounds s) as Hb. destruct f2 as [|f2].
    + destruct s; [|cbn in H2; lia]. done.
    + cbn [segments]. destruct (first_line s) as [[p d]|]; [|done]. destruct (Hb p d eq_refl).
      by rewrite (IH f2) by (rewrite slen_drop; lia).
Qed.

Lemma segs_step s : segs s =
  match first_line s with
  | Some (p, d) =>
      let '(l, rest) := segs (str_drop (p + d) s) in ((str_take p s, (p + d)%nat) :: l, rest)
  | None => ([], s)
  end.
Proof.
  unfold segs. destruct s as [|a s]; [done|]. cbn [slen segments].
  pose proof (first_line_bounds (String a s)) as Hb.
  destruct (first_line (String a s)) as [[p d]|]; [|done]. destruct (Hb p d eq_refl) as [H1 H2].
  by rewrite (segments_fuel (slen s) (slen (str_drop (p + d) (String a s)))) by (rewrite slen_drop in *; cbn [slen] in *; lia).
Qed.

(** ** The loop *)

Section Reading.
Context `{Conf} `{IO : ConnIO}.
Context (command : string -> ptr -> REQUEST -> M bool) (numeric : Z -> ptr -> REQUEST -> M bool).

(** The same loop, for lines that are known beforehand. *)
Fixpoint feed (n : nat) (Idx starttime len_processed : Z) (l : list (string * nat)) : M (option Z) :=
  match n with
  | O => mret (Some len_processed)
  | S n' =>
      conn ← the_conn Idx;
      if starttime <? cn_delaytime conn then mret None
      else match l with
           | [] => mret (Some len_processed)
           | (line, len) :: l' =>
               if Z.of_nat COMMAND_LEN - 1 <? Z.of_nat len then
                 Conn_Close Idx None (Some "Request too long") true;; mret None
               else if String.eqb line "" then
                 consume Idx len;;
                 feed n' Idx starttime (len_processed + Z.of_nat len) l'
               else
                 upd_conn Idx (fun c => set_cn_msg_in (cn_msg_in c + 1) c);;
                 ok ← Parse_Request command numeric Idx line;
                 if negb (ok : bool) then mret None
                 else
                   consume Idx len;;
                   feed n' Idx starttime (len_processed + Z.of_nat len) l'
           end
  end.

(** The read buffer of a connection. *)
Definition rbuf_is (w : World) (idx : Z) (s : string) : Prop :=
  exists c, n_conns (w_net w) !! Z.to_nat idx = Some c /\ cn_rbuf c = s.

Lemma upd_conn_done w idx c f :
  0 <= idx -> n_conns (w_net w) !! Z.to_nat idx = Some c ->
  upd_conn idx f w =
    Done tt (set_w_net (set_n_conns (<[Z.to_nat idx := f c]> (n_conns (w_net w))) (w_net w)) w).
Proof.
  intros Hi Hc. unfold upd_conn. rewrite (bind_done _ _ w c w); [done|].
  unfold the_conn. rewrite (proj2 (Z.leb_gt idx NONE)) by (unfold NONE; lia). by rewrite Hc.
Qed.

Lemma rbuf_is_upd w idx s c f :
  n_conns (w_net w) !! Z.to_nat idx = Some c -> cn_rbuf (f c) = s ->
  rbuf_is (set_w_net (set_n_conns (<[Z.to_nat idx := f c]> (n_conns (w_net w))) (w_net w)) w) idx s.
Proof.
  intros Hc Hs. exists (f c). split; [|done]. cbn. apply list_lookup_insert_eq. by eapply lookup_lt_Some.
Qed.

(** The requests leave the read buffer of their connection alone, as long as they
    do not ask the caller to stop; [s] is the buffer, [l] its lines. *)
Fixpoint undisturbed (n : nat) (idx : Z) (l : list (string * nat)) (s : string) (w : World) : Prop :=
  match n, l with
  | S n', (line, len) :: l' =>
      let next := fun w1 => forall w2, consume idx len w1 = Done tt w2 ->
        undisturbed n' idx l' (str_drop len s) w2 in
      if String.eqb line "" then next w
      else forall w1,
        (upd_conn idx (fun c => set_cn_msg_in (cn_msg_in c + 1) c);;
         Parse_Request command numeric idx line) w = Done true w1 ->
        rbuf_is w1 idx s /\ next w1
  | _, _ => True
  end.

Lemma the_conn_done w idx c :
  0 <= idx -> n_conns (w_net w) !! Z.to_nat idx = Some c -> the_conn idx w = Done c w.
Proof.
  intros Hi Hc. unfold the_conn. rewrite (proj2 (Z.leb_gt idx NONE)) by (unfold NONE; lia). by rewrite Hc.
Qed.

Lemma consume_done w idx s len : 0 <= idx -> rbuf_is w idx s ->
  exists w1, consume idx len w = Done tt w1 /\ rbuf_is w1 idx (str_drop len s).
Proof.
  intros Hi (c & Hc & Hs). eexists. split; [by apply upd_conn_done|].
  apply rbuf_is_upd; [done|]. cbn. by rewrite Hs.
Qed.

Lemma NUL_free_drop n s : str_mem NUL s = false -> str_mem NUL (str_drop n s) = false.
Proof. intros Hn. apply not_true_iff_false. intros Hm. apply str_mem_drop in Hm. congruence. Qed.

Lemma process_loop_feed idx starttime n : 0 <= idx -> forall acc s w,
  rbuf_is w idx s -> str_mem NUL s = false -> undisturbed n idx (segs s).1 s w ->
  process_loop command numeric n idx starttime acc w = feed n idx starttime acc (segs s).1 w.
Proof.
  intros Hi. induction n as [|n IH]; intros acc s w Hr Hn Hu; [done|].
  pose proof Hr as (c & Hc & Hs). cbn [process_loop feed undisturbed] in *.
  rewrite !(bind_done _ _ _ _ _ (the_conn_done _ _ _ Hi Hc)).
  destruct (starttime <? cn_delaytime c); [done|].
  rewrite Hs, find_eol_first by done. rewrite segs_step in *.
  pose proof (first_line_bounds s) as Hb. destruct (first_line s) as [[p d]|] eqn:Ef.
  2: { by destruct (strlen s =? 0). }
  destruct (Hb p d eq_refl) as [H1 H2].
  destruct (Z.eqb_spec (strlen s) 0) as [E|E]; [unfold strlen in E; lia|].
  destruct (segs (str_drop (p + d) s)) as [l rest] eqn:El. cbn [fst] in *.
  destruct (Z.of_nat COMMAND_LEN - 1 <? Z.of_nat (p + d)); [done|].
  assert (Hrest : forall acc w1, rbuf_is w1 idx s ->
    (forall w2, consume idx (p + d) w1 = Done tt w2 -> undisturbed n idx l (str_drop (p + d) s) w2) ->
    (consume idx (p + d);; process_loop command numeric n idx starttime acc) w1 =
    (consume idx (p + d);; feed n idx starttime acc l) w1).
  { intros acc1 w1 Hr1 Hu1. destruct (consume_done w1 idx s (p + d) Hi Hr1) as (w2 & Hw2 & Hr2).
    rewrite !(bind_done _ _ _ _ _ Hw2).
    specialize (IH acc1 _ w2 Hr2 (NUL_free_drop _ _ Hn)). rewrite El in IH. by apply IH, Hu1. }
  assert (Hempty : (p + d <=? d)%nat = String.eqb (str_take p s) "").
  { destruct p as [|p]; cbn [str_take Nat.add].
    - by rewrite (proj2 (Nat.leb_le d d)).
    - rewrite (proj2 (Nat.leb_gt _ _)) by lia. destruct s; [cbn in H1; lia|done]. }
  rewrite Hempty. destruct (String.eqb (str_take p s) ""); [by apply Hrest|].
  rewrite (bind_done _ _ _ _ _ (upd_conn_done _ _ _ _ Hi Hc)) in Hu.
  rewrite !(bind_done _ _ _ _ _ (upd_conn_done _ _ _ _ Hi Hc)).
  match goal with |- (_ ≫= _) ?w' = _ => set (w1 := w') in * end.
  unfold mbind, M_bind. destruct (Parse_Request command numeric idx (str_take p s) w1) as [[] w2|f] eqn:Ep; [|done..].
  cbn [negb]. destruct (Hu w2 eq_refl) as [Hr2 Hn2]. by apply (Hrest _ w2).
Qed.

(** What a round leaves in the buffer. *)
Lemma feed_rest idx starttime n : 0 <= idx -> forall acc s w k w',
  rbuf_is w idx s -> str_mem NUL s = false -> undisturbed n idx (segs s).1 s w ->
  feed n idx starttime acc (segs s).1 w = Done (Some k) w' ->
  exists rest, rbuf_is w' idx rest /\ str_mem NUL rest = false /\ segs rest = (drop n (segs s).1, (segs s).2).
Proof.
  intros Hi. induction n as [|n IH]; intros acc s w k w' Hr Hn Hu Hf.
  { injection Hf as _ <-. exists s. split; [done|]. split; [done|]. by destruct (segs s). }
  pose proof Hr as (c & Hc & Hs). cbn [feed undisturbed] in *.
  rewrite (bind_done _ _ _ _ _ (the_conn_done _ _ _ Hi Hc)) in Hf.
  destruct (starttime <? cn_delaytime c); [done|].
  rewrite segs_step in *. destruct (first_line s) as [[p d]|] eqn:Ef.
  2: { injection Hf as _ <-. exists s. split; [done|]. split; [done|]. rewrite segs_step, Ef. done. }
  destruct (segs (str_drop (p + d) s)) as [l rest] eqn:El. cbn [fst snd drop] in *.
  destruct (Z.of_nat COMMAND_LEN - 1 <? Z.of_nat (p + d)).
  { unfold mbind, M_bind in Hf. by destruct (Conn_Close _ _ _ _ w). }
  assert (Hrest : forall acc w1, rbuf_is w1 idx s ->
    (forall w2, consume idx (p + d) w1 = Done tt w2 -> undisturbed n idx l (str_drop (p + d) s) w2) ->
    (consume idx (p + d);; feed n idx starttime acc l) w1 = Done (Some k) w' ->
    exists rest', rbuf_is w' idx rest' /\ str_mem NUL rest' = false /\ segs rest' = (drop n l, rest)).
  { intros acc1 w1 Hr1 Hu1. destruct (consume_done w1 idx s (p + d) Hi Hr1) as (w2 & Hw2 & Hr2).
    rewrite (bind_done _ _ _ _ _ Hw2).
    specialize (IH acc1 _ w2 k w' Hr2 (NUL_free_drop _ _ Hn)). rewrite El in IH. by apply IH, Hu1. }
  destruct (String.eqb (str_take p s) ""); [by eapply Hrest|].
  rewrite (bind_done _ _ _ _ _ (upd_conn_done _ _ _ _ Hi Hc)) in Hu.
  rewrite (bind_done _ _ _ _ _ (upd_conn_done _ _ _ _ Hi Hc)) in Hf.
  match type of Hf with (_ ≫= _) ?w' = _ => set (w1 := w') in * end.
  unfold mbind, M_bind in Hf. destruct (Parse_Request command numeric idx (str_take p s) w1) as [[] w2|f] eqn:Ep.
  2-3: discriminate Hf.
  destruct (Hu w2 eq_refl) as [Hr2 Hn2]. exact (Hrest _ w2 Hr2 Hn2 Hf).
Qed.

(** C10: However a stream arrives in chunks, the reader divides it into the same
    lines.  A round of the loop, for a buffer [s] without NUL whose requests
    leave the buffer alone, hands exactly the lines of [s] to the parser, in
    order, up to the limit of the round, the penalty time of the client and the
    maximal length; the non-empty lines are the texts between CR and LF
    characters, of which the last unfinished one stays; and the texts of two
    chunks are those of the first followed by those of its rest with the
    second. *)
Theorem reading_spec idx starttime n acc s a b w :
  0 <= idx -> rbuf_is w idx s -> str_mem NUL s = false -> undisturbed n idx (segs s).1 s w ->
  process_loop command numeric n idx starttime acc w = feed n idx starttime acc (segs s).1 w /\
  frames "" s = (List.filter (fun l => negb (String.eqb l "")) (map fst (segs s).1), (segs s).2) /\
  frames "" (a +:+ b) =
    ((frames "" a).1 ++ (frames (frames "" a).2 b).1, (frames (frames "" a).2 b).2).
Proof.
  intros Hi Hr Hn Hu. split; [by apply process_loop_feed|]. split; [by apply segments_frames|].
  rewrite frames_app. destruct (frames "" a) as [l1 r1]. cbn. by destruct (frames r1 b).
Qed.

(** [r] rounds of at most [n] lines each, one after the other, none of which is stopped by
    a penalty, an over-long line or a request that closes the connection.  The requests leave the
    read buffer alone, and so does what happens between the rounds. *)
Inductive rounds (idx : Z) (n : nat) : nat -> World -> World -> Prop :=
  | rounds_none w : rounds idx n 0 w w
  | rounds_more r starttime acc s k w w1 w2 w' :
      rbuf_is w idx s -> undisturbed n idx (segs s).1 s w ->
      process_loop command numeric n idx starttime acc w = Done (Some k) w1 ->
      (forall rest, rbuf_is w1 idx rest -> rbuf_is w2 idx rest) ->
      rounds idx n r w2 w' -> rounds idx n (S r) w w'.

(** The same rounds on a list of lines: every round hands the next [n] lines to
    the parser. *)
Inductive handled (idx : Z) (n : nat) : nat -> list (string * nat) -> World -> World -> Prop :=
  | handled_none lines w : handled idx n 0 lines w w
  | handled_more r starttime acc lines k w w1 w2 w' :
      feed n idx starttime acc lines w = Done (Some k) w1 ->
      (forall rest, rbuf_is w1 idx rest -> rbuf_is w2 idx rest) ->
      handled idx n r (drop n lines) w2 w' -> handled idx n (S r) lines w w'.

(** C18: every complete line is handled in the end.  Take any number [r] of rounds of the loop,
    one after the other, each with room for [n] lines, none of which is stopped by a
    penalty, an over-long line or a request that closes the connection, while the
    requests and what happens between the rounds leave the read buffer alone; the buffer
    has no NUL.  Then the rounds are the handling of the first [r * n] lines of the
    buffer, [n] of them in each round, in order; exactly these lines have been taken from
    the buffer, so that none is left if there were not more; the unfinished rest is
    kept unchanged for the next chunk. *)
Theorem reading_progress idx n r s w w' :
  0 <= idx -> rbuf_is w idx s -> str_mem NUL s = false -> rounds idx n r w w' ->
  handled idx n r (segs s).1 w w' /\
  exists rest, rbuf_is w' idx rest /\ segs rest = (drop (r * n) (segs s).1, (segs s).2) /\
    ((length (segs s).1 <= r * n)%nat -> (segs rest).1 = []).
Proof.
  intros Hi Hr Hn Hrounds. revert s Hr Hn.
  induction Hrounds as [w|r starttime acc s' k w w1 w2 w' Hr' Hu Hp Hkeep _ IH]; intros s Hr Hn.
  - split; [constructor|]. exists s. cbn [Nat.mul drop]. split; [done|]. split; [by destruct (segs s)|].
    intros Hl. destruct (segs s).1; [done|]. cbn in Hl. lia.
  - assert (s' = s) as -> by (destruct Hr as (c & Hc & <-), Hr' as (c' & Hc' & <-); congruence).
    rewrite (process_loop_feed _ _ _ Hi _ s) in Hp by done.
    destruct (feed_rest _ _ _ Hi _ _ _ _ _ Hr Hn Hu Hp) as (s1 & Hr1 & Hn1 & E1).
    destruct (IH s1) as (Hh & rest & Hrest & E & _); [by apply Hkeep|done|].
    rewrite E1 in E, Hh. cbn [fst snd] in E, Hh. rewrite drop_drop in E.
    split; [by eapply handled_more|]. exists rest. split; [done|]. split; [exact E|].
    intros Hl. rewrite E. cbn [fst]. apply drop_ge. cbn in Hl. lia.
Qed.

End Reading.
