(* ===== verification/System.v ===== *)
(** * System calls and sub-processes (conn.c, platform/windows/src/win32_proc.c, win32_resolve.c)

    What the system answers to the calls of the connection module, and the parts
    of the program that are little more than such calls: the options of sockets,
    messages to sockets without a slot, and the resolver of the Windows build,
    which looks nothing up but answers through a pair of sockets. *)

From S2P Require Import Prelude CString Match Hash Checks Lists Messages Ipaddr Io World ClientCore.
From S2P Require Import ConnFunc ConnSpec ChannelCore State IrcWrite Channel Client Conn Parse Reader.

(** The end of select(2): the number of ready descriptors and which they are, an
    interruption by a signal, or another error. *)
Inductive select_result :=
  | Ready (readers writers : gset Z)
  | Interrupted
  | SelectFailed.

(** The answers of the system; the first argument counts all calls.  A failing call
    is [None] or [false]. *)
Class System := {
  sys_accept : nat -> Z -> option (Z * ng_ipaddr_t);
  sys_socket : nat -> option Z;
  sys_setnonblock : nat -> Z -> bool;
  sys_bind : nat -> Z -> ng_ipaddr_t -> bool;
  sys_listen : nat -> Z -> bool;
  sys_connect : nat -> Z -> ng_ipaddr_t -> bool;    (* connected, or in progress *)
  sys_so_error : nat -> Z -> option Z;              (* getsockopt(SO_ERROR) *)
  sys_getsockname : nat -> Z -> option ng_ipaddr_t;
  sys_pipe_send : nat -> Z -> string -> bool;
  sys_recv : nat -> Z -> recv_result;
  sys_read_addrs : nat -> Z -> list ng_ipaddr_t;    (* from the pipe of a resolver *)
  sys_select : nat -> gset Z -> gset Z -> Z -> Z -> select_result;
  sys_clock : nat -> Z;
  sys_getaddrinfo : string -> string -> option ng_ipaddr_t;
  sys_getenv : string -> option string }.

Definition syscall {A} (f : nat -> A) : M A := fun w =>
  Done (f (n_calls (w_net w))) (set_w_net (set_n_calls (S (n_calls (w_net w))) (w_net w)) w).

(** A new descriptor.  The system never hands out one that is open: an answer with a
    descriptor that is still watched counts as a failure. *)
Definition fresh_fd (fd : Z) (n : Net) : bool :=
  (0 <? fd) && match io_event_get fd (n_io n) with Some e => negb (is_some (ev_callback e)) | None => true end.

Definition new_fd {A} (fd_of : A -> Z) (f : nat -> option A) : M (option A) :=
  r ← syscall f;
  match r with
  | None => mret None
  | Some a => ok ← get_net (fresh_fd (fd_of a)); mret (if (ok : bool) then Some a else None)
  end.

Section System.
Context `{Conf} `{System}.

(** ** Sockets *)

(** Setting the other options may fail without consequences. *)
Definition Init_Socket (Sock : Z) : M bool :=
  ok ← syscall (fun k => sys_setnonblock k Sock);
  if negb (ok : bool) then sys_close Sock;; mret false
  else mret true.

Definition Simple_Message (Sock : Z) (Msg : string) : M unit :=
  assert_ (NONE <? Sock);;
  let buf := strlcat (strlcpy Msg (COMMAND_LEN - 2)) CRLF COMMAND_LEN in
  mod_net (fun n => set_n_sys (n_sys n ++ [SysWrite Sock buf]) n).

(** ** Sub-processes *)

(** [htonl(INADDR_LOOPBACK)], port 0: the system chooses the port. *)
Definition loopback : ng_ipaddr_t := AF_INET 2130706433 0.

(** A listening socket on the loopback interface, and the address that it got. *)
Definition listen_loopback (listener : Z) : M (option ng_ipaddr_t) :=
  ok ← syscall (fun k => sys_bind k listener loopback);
  if negb (ok : bool) then mret None
  else
    ok ← syscall (fun k => sys_listen k listener);
    if negb (ok : bool) then mret None
    else syscall (fun k => sys_getsockname k listener).

(** The two ends of a connection over the loopback interface: the end to read from
    and the end to write to. *)
Definition make_loopback_socketpair : M (option (Z * Z)) :=
  l ← new_fd id sys_socket;
  match l with
  | None => mret None
  | Some listener =>
      a ← listen_loopback listener;
      match a with
      | None => sys_close listener;; mret None
      | Some addr =>
          c ← new_fd id sys_socket;
          match c with
          | None => sys_close listener;; mret None
          | Some connector =>
              ok ← syscall (fun k => sys_connect k connector addr);
              if negb (ok : bool) then sys_close connector;; sys_close listener;; mret None
              else
                r ← new_fd fst (fun k => sys_accept k listener);
                sys_close listener;;
                match r with
                | None => sys_close connector;; mret None
                | Some (accepted, _) => mret (Some (accepted, connector))
                end
          end
      end
  end.

(** The status that the caller stores in its structure. *)
Definition Resolve_Addr_Ident (Addr : ng_ipaddr_t) (cbfunc : callback) : M (option PROC_STAT) :=
  p ← make_loopback_socketpair;
  match p with
  | None => mret None
  | Some (rd, wr) =>
      sent ← syscall (fun k => sys_pipe_send k wr (String LF ""));
      if negb (sent : bool) then sys_close rd;; sys_close wr;; mret None
      else
        sys_close wr;;
        ok ← syscall (fun k => sys_setnonblock k rd);
        if negb (ok : bool) then sys_close rd;; mret None
        else
          ok ← io_op (io_event_create rd IO_WANTREAD cbfunc);
          if negb (ok : bool) then sys_close rd;; mret None
          else
            _ ← asserting (ng_ipaddr_tostr_r getnameinfo Addr);
            mret (Some (ProcStat 1 rd))
  end.

(** Not implemented for Windows. *)
Definition Resolve_Name (Host : string) : M bool := mret false.

(** The new status. *)
Definition Proc_Close (proc : PROC_STAT) : M PROC_STAT :=
  (if 0 <=? pr_pipe_fd proc then close_event (pr_pipe_fd proc) else mret tt);;
  mret Proc_InitStruct.

(** What has been read, at most [buflen] bytes, and the new status. *)
Definition Proc_Read (proc : PROC_STAT) (buflen : nat) : M (string * PROC_STAT) :=
  assert_ (0 <? buflen)%nat;;
  r ← syscall (fun k => sys_recv k (pr_pipe_fd proc));
  match r with
  | RecvAgain => mret ("", proc)
  | RecvFailed | Received "" => proc ← Proc_Close proc; mret ("", proc)
  | Received data => mret (str_take buflen data, proc)
  end.

End System.
