(* ===== verification/Irc.v ===== *)
(** * Messages, KILL, ERROR, TRACE and HELP (src/server/proto/irc/irc.c)

    The handlers of irc.c, the checks of operator privileges in op.c, and the
    macros of irc-macros.h with which handlers determine the sender and the
    target server of a request.

    A request to send a message names its targets in a list; every target is a
    nickname, a user and host in one of several forms, a channel, or a mask for
    operators. *)

From S2P Require Import Prelude CString Match Hash Checks Lists Messages World ClientCore.
From S2P Require Import ConnFunc ConnSpec ChannelCore State IrcWrite Channel Client Parse.

Definition MAX_HNDL_TARGETS : nat := 25.

Section Irc.
Context `{Conf} `{ConnIO}.

(** ** The macros of irc-macros.h *)

(** [Req->argv[i]], which must not be NULL. *)
Definition arg (Req : REQUEST) (i : nat) : M string :=
  match argv Req i with Some s => mret s | None => crash NullDeref end.

(** The error reply [fmt] with the client's ID in front of its arguments. *)
Definition reply_error (Client : ptr) (fmt : string) (args : list farg) : M bool :=
  id ← Client_ID Client; IRC_WriteErrClient Client fmt (FS id :: args).

Definition get_sender_or_return (Req : REQUEST) (Client : ptr) (k : ptr -> M bool) : M bool :=
  ty ← Client_Type Client;
  if ty =? CLIENT_SERVER then
    match rq_prefix Req with
    | None => reply_error Client ERR_NEEDMOREPARAMS_MSG [FS (rq_command Req)]
    | Some prefix =>
        Sender ← Client_Search prefix;
        if is_null Sender then reply_error Client ERR_NOSUCHNICK_MSG [FS prefix] else k Sender
    end
  else k Client.

Definition get_target_server_or_return (Req : REQUEST) (Argc : nat) (From : ptr)
    (k : ptr -> M bool) : M bool :=
  match argv Req Argc with
  | None => this ← Client_ThisServer; k this
  | Some name =>
      t ← Client_Search name;
      Target ← (if is_null t then Client_SearchServer name else mret t);
      if is_null Target then reply_error From ERR_NOSUCHSERVER_MSG [FS name]
      else
        ty ← Client_Type Target;
        if negb (ty =? CLIENT_SERVER) then intro ← Client_Introducer Target; k intro
        else k Target
  end.

(** ** Operator privileges (op.c) *)

Definition Op_NoPrivileges (Client : ptr) (Req : REQUEST) : M bool :=
  from ← match rq_prefix Req with Some p => Client_Search p | None => mret NULL end;
  mask ← Client_Mask Client;
  if negb (is_null from) then
    Log true (dq "No privileges: client `%s` (%s), command `%s`!")
      [FS (from_opt "" (rq_prefix Req)); FS mask; FS (rq_command Req)];;
    reply_error from ERR_NOPRIVILEGES_MSG []
  else
    Log true (dq "No privileges: client `%s`, command `%s`!") [FS mask; FS (rq_command Req)];;
    reply_error Client ERR_NOPRIVILEGES_MSG [].

Definition Op_Check (Client : ptr) (Req : REQUEST) : M ptr :=
  assert_ (negb (is_null Client));;
  ty ← Client_Type Client;
  c ← match rq_prefix Req with
      | Some p => if ty =? CLIENT_SERVER then Client_Search p else mret Client
      | None => mret Client
      end;
  if is_null c then mret NULL
  else
    ctype ← Client_Type c;
    if (ty =? CLIENT_SERVER) && (ctype =? CLIENT_SERVER) then mret c
    else
      o ← Client_HasMode c "o";
      if negb (o : bool) then mret NULL
      else
        conn ← Client_Conn c;
        if (conn <=? NONE) && negb Conf_AllowRemoteOper then mret NULL else mret c.

(** ** Small handlers *)

Definition IRC_CheckListTooBig (From : ptr) (Count Limit : Z) (Name : string) : M bool :=
  assert_ (negb (is_null From));;
  assert_ (0 <=? Count);;
  assert_ (0 <? Limit);;
  if Count <? Limit then mret false
  else
    id ← Client_ID From;
    _ ← IRC_WriteStrClient From "NOTICE %s :%s list limit (%d) reached!" [FS id; FS Name; FZ Limit];
    IRC_SetPenalty From 2;;
    mret true.

Definition IRC_ERROR (Client : ptr) (Req : REQUEST) : M bool :=
  assert_ (negb (is_null Client));;
  ty ← Client_Type Client;
  if negb (ty =? CLIENT_GOTPASS) && negb (ty =? CLIENT_GOTPASS_2813)
     && negb (ty =? CLIENT_UNKNOWNSERVER) && negb (ty =? CLIENT_SERVER)
     && negb (ty =? CLIENT_SERVICE)
  then _ ← Client_Mask Client; IRC_SetPenalty Client 2;; mret true
  else
    mask ← Client_Mask Client;
    msg ← match argv Req 0 with
          | None => Log false (dq "Got ERROR from `%s`!") [FS mask];; mret "Got ERROR command"
          | Some m => Log false (dq "Got ERROR from `%s`: `%s`!") [FS mask; FS m];; mret m
          end;
    conn ← Client_Conn Client;
    if negb (conn =? NONE) then Conn_Close conn None (Some msg) false;; mret false
    else mret true.

(** ** KILL *)

Definition IRC_KillClient (Client From : ptr) (Nick Reason : string) : M bool :=
  c ← Client_Search Nick;
  if is_null c then mret true
  else
    ty ← Client_Type c;
    this ← Client_ThisServer;
    let invalid := negb (ty =? CLIENT_USER) && negb (ty =? CLIENT_GOTNICK)
                   && negb (ty =? CLIENT_SERVICE) in
    if invalid && negb (ptr_eqb Client this) then
      reply_error Client (if ty =? CLIENT_SERVER then ERR_CANTKILLSERVER_MSG else ERR_NOPRIVILEGES_MSG) []
    else
      (if invalid then Log false (dq "Got KILL for invalid client type: %d, `%s`!") [FZ ty; FS Nick]
       else mret tt);;
      IRC_WriteStrServersPrefix (if is_null From then NULL else Client)
        (if is_null From then this else From) "KILL %s :%s" [FS Nick; FS Reason];;
      my_conn ← (if is_null Client then mret NONE else Client_Conn Client);
      conn ← Client_Conn c;
      (if NONE <? conn then Conn_Close conn None (Some Reason) true
       else Client_Destroy c None (Some Reason) false);;
      if NONE <? my_conn then cl ← Conn_GetClient my_conn; mret (negb (is_null cl))
      else mret false.

Definition IRC_KILL (Client : ptr) (Req : REQUEST) : M bool :=
  assert_ (negb (is_null Client));;
  ty ← Client_Type Client;
  op ← (if negb (ty =? CLIENT_SERVER) then Op_Check Client Req else mret Client);
  if is_null op then Op_NoPrivileges Client Req
  else
    this ← Client_ThisServer;
    p ← match rq_prefix Req with Some p => Client_Search p | None => mret Client end;
    prefix ← (if is_null p then
                Log false (dq "Got KILL with invalid prefix: `%s`!") [FS (from_opt "" (rq_prefix Req))];;
                mret this
              else mret p);
    nick ← arg Req 0;
    text ← arg Req 1;
    (if negb (ptr_eqb Client this) then
       mask ← Client_Mask prefix;
       Log true (dq "Got KILL command from `%s` for `%s`: `%s`.") [FS mask; FS nick; FS text]
     else mret tt);;
    ty ← Client_Type Client;
    reason ← (if ty =? CLIENT_USER then
                id ← Client_ID Client;
                mret (snprintf COMMAND_LEN "KILLed by %s: %s" [FS id; FS text])
              else mret (strlcpy text COMMAND_LEN));
    IRC_KillClient Client prefix nick reason.

(** ** TRACE and HELP *)

(** The loop over the clients, as long as writing succeeds. *)
Fixpoint trace_loop (fuel : nat) (from c : ptr) : M bool :=
  if is_null c then mret true
  else match fuel with
       | O => crash OutOfFuel
       | S fuel' =>
           conn ← Client_Conn c;
           ty ← Client_Type c;
           ok ← (if NONE <? conn then
                   if ty =? CLIENT_SERVER then
                     u ← Client_User c;
                     let user := strlcpy u CLIENT_USER_LEN in
                     let user := if hd0 user =c "~"%char then strlcpy "unknown" CLIENT_USER_LEN
                                 else user in
                     fid ← Client_ID from;
                     id ← Client_ID c;
                     host ← Client_Hostname c;
                     this ← Client_ThisServer;
                     mask ← Client_Mask this;
                     IRC_WriteStrClient from RPL_TRACESERVER_MSG
                       [FS fid; FS id; FS user; FS host; FS mask; FS ""]
                   else
                     o ← (mret (ty =? CLIENT_USER) <&&> Client_HasMode c "o");
                     if (o : bool) then
                       fid ← Client_ID from;
                       id ← Client_ID c;
                       IRC_WriteStrClient from RPL_TRACEOPERATOR_MSG [FS fid; FS id]
                     else mret true
                 else mret true);
           if negb (ok : bool) then mret false
           else next ← Client_Next c; trace_loop fuel' from next
       end.

Definition IRC_TRACE (Client : ptr) (Req : REQUEST) : M bool :=
  assert_ (negb (is_null Client));;
  get_sender_or_return Req Client (fun from =>
  get_target_server_or_return Req 0 from (fun target =>
    this ← Client_ThisServer;
    if negb (ptr_eqb target this) then
      idx ← Client_Conn Client;
      assert_ (NONE <? idx);;
      hop ← Client_NextHop target;
      idx2 ← Client_Conn hop;
      assert_ (NONE <? idx2);;
      fid ← Client_ID from;
      tid ← Client_ID target;
      hid ← Client_ID hop;
      now ← time;
      start ← Conn_StartTime idx2;
      q ← Conn_SendQ idx;
      q2 ← Conn_SendQ idx2;
      ok ← IRC_WriteStrClient from RPL_TRACELINK_MSG
             [FS fid; FS PACKAGE_NAME; FS PACKAGE_VERSION; FS tid; FS hid; FS "";
              FZ (now - start); FZ q; FZ q2];
      if negb (ok : bool) then mret false
      else
        a ← arg Req 0;
        _ ← IRC_WriteStrClientPrefix target from "TRACE %s" [FS a];
        mret true
    else
      c ← Client_First;
      n ← get_tab (fun t => length (t_My_Clients t));
      ok ← trace_loop n from c;
      if negb (ok : bool) then mret false
      else
        id ← Client_ID from;
        IRC_WriteStrClient from RPL_TRACEEND_MSG
          [FS id; FS Conf_ServerName; FS PACKAGE_NAME; FS PACKAGE_VERSION; FS NGIRCd_DebugLevel])).

(** The loop over the lines of the help text. *)
Fixpoint help_loop (Client : ptr) (Topic : string) (in_article : bool) (lines : nat)
    (l : list string) : M bool :=
  let not_found :=
    id ← Client_ID Client;
    ok ← IRC_WriteStrClient Client (dq "NOTICE %s :No help for `%s` found!") [FS id; FS Topic];
    mret (ok : bool) in
  match l with
  | [] => not_found
  | line :: l' =>
      if in_article then
        if negb (hd0 line =c "009"%char) then
          if (0 <? lines)%nat then mret true else not_found
        else
          let idx_start := if String.eqb (str_drop 1 line) "." then 2%nat else 1%nat in
          id ← Client_ID Client;
          ok ← IRC_WriteStrClient Client "NOTICE %s :%s" [FS id; FS (str_drop idx_start line)];
          if negb (ok : bool) then mret false else help_loop Client Topic true (S lines) l'
      else
        help_loop Client Topic
          (strneq line "- " 2 && strcaseeq (str_drop 2 line) Topic) lines l'
  end.

Definition Help (Client : ptr) (Topic : string) : M bool :=
  assert_ (negb (is_null Client));; help_loop Client Topic false 0 Conf_Helptext.

Fixpoint help_commands (Client : ptr) (l : list COMMAND) : M bool :=
  match l with
  | [] => mret true
  | cmd :: l' =>
      id ← Client_ID Client;
      ok ← IRC_WriteStrClient Client "NOTICE %s :%s" [FS id; FS (cmd_name cmd)];
      if negb (ok : bool) then mret false else help_commands Client l'
  end.

Definition IRC_HELP (Client : ptr) (Req : REQUEST) : M bool :=
  assert_ (negb (is_null Client));;
  let commands := cmd ← Parse_GetCommandStruct; help_commands Client cmd in
  match argv Req 0 with
  | None =>
      if (0 <? length Conf_Helptext)%nat then
        ok ← Help Client "Intro"; if negb (ok : bool) then mret false else mret true
      else commands
  | Some topic => if negb (strcaseeq topic "Commands") then Help Client topic else commands
  end.

(** ** PRIVMSG, NOTICE and SQUERY *)

(** Who a target of the form [user[%host]@server], [user%host] or
    [nick!user@host] names. *)
Record TARGET := Target {
  tg_nick : option string;
  tg_user : string;
  tg_host : option string;
  tg_server : option string }.

Definition split_target (currentTarget : string) : TARGET :=
  let target := strlcpy currentTarget COMMAND_LEN in
  let server := after "@" target in
  let target := before "@" target in
  let host := after "%" target in
  let target := before "%" target in
  match after "!" target with
  | Some user => Target (Some (before "!" target)) user server server
  | None => Target None target host server
  end.

Definition displayed_host (cl : ptr) : M string :=
  h ← Client_HostnameDisplayed cl;
  match h with Some s => mret s | None => crash NullDeref end.

Definition matches_target (t : TARGET) (cl : ptr) : M bool :=
  ty ← Client_Type cl;
  if negb (ty =? CLIENT_USER) && negb (ty =? CLIENT_SERVICE) then mret false
  else match tg_nick t, tg_host t with
       | Some nick, Some host =>
           (id ← Client_ID cl; mret (strcaseeq nick id))
           <&&> (u ← Client_User cl; mret (strcaseeq (tg_user t) u))
           <&&> (h ← displayed_host cl; mret (strcaseeq host h))
       | _, _ =>
           (u ← Client_User cl; mret (strcaseeq (tg_user t) u))
           <&&> match tg_host t with
                | Some host => h ← displayed_host cl; mret (strcaseeq host h)
                | None => mret true
                end
           <&&> match tg_server t with
                | Some server =>
                    intro ← Client_Introducer cl; id ← Client_ID intro; mret (strcaseeq server id)
                | None => mret true
                end
       end.

(** The first client from [c] on that passes a test. *)
Fixpoint client_find (fuel : nat) (test : ptr -> M bool) (c : ptr) : M ptr :=
  if is_null c then mret NULL
  else match fuel with
       | O => crash OutOfFuel
       | S fuel' =>
           b ← test c;
           if (b : bool) then mret c else next ← Client_Next c; client_find fuel' test next
       end.

Definition find_target (currentTarget : string) : M ptr :=
  cl ← (if negb (has_chr currentTarget "!") then Client_Search currentTarget else mret NULL);
  if is_null cl then
    first ← Client_First;
    n ← get_tab (fun t => length (t_My_Clients t));
    client_find n (matches_target (split_target currentTarget)) first
  else mret cl.

(** Whether a channel of [cl], from a membership on, has [from] as a member. *)
Fixpoint common_channel (cl from : ptr) (l : list CL2CHAN) : M bool :=
  match l with
  | [] => mret false
  | m :: l' =>
      if is_client cl m then
        b ← Channel_IsMemberOf (Some (cc_channel m)) from;
        if (b : bool) then mret true else common_channel cl from l'
      else common_channel cl from l'
  end.

(** What is done about a target: the handler returns, or goes on to the next
    target with this command. *)
Inductive target_result := Return (r : bool) | NextTarget (command : string).

(** An error about a target, if errors are wanted. *)
Definition refuse (SendErrors : bool) (command : string) (error : M bool) : M target_result :=
  if SendErrors then ok ← error; mret (if (ok : bool) then NextTarget command else Return false)
  else mret (NextTarget command).

Definition unprivileged (from : ptr) : M bool :=
  not_ (Client_HasMode from "o")
  <&&> (ty ← Client_Type from; mret (negb (ty =? CLIENT_SERVER)))
  <&&> (ty ← Client_Type from; mret (negb (ty =? CLIENT_SERVICE))).

Definition send_to_user (Client from cl : ptr) (ForceType : Z) (SendErrors : bool)
    (command currentTarget message : string) : M target_result :=
  ty ← Client_Type cl;
  if negb (ty =? ForceType) && negb ((ForceType =? CLIENT_USER) &&
                                     ((ty =? CLIENT_USER) || (ty =? CLIENT_SERVICE)))
  then refuse SendErrors command (reply_error from ERR_NOSUCHNICK_MSG [FS currentTarget])
  else
    command ← (if ForceType =? CLIENT_SERVICE then
                 hop ← Client_NextHop cl;
                 conn ← Client_Conn hop;
                 options ← Conn_Options conn;
                 mret (if negb (Z.land options CONN_RFC1459 =? 0) then "PRIVMSG" else command)
               else mret command);
    b ← (Client_HasMode cl "b" <&&> not_ (Client_HasMode from "R") <&&> unprivileged from);
    if (b : bool) then
      refuse SendErrors command (tid ← Client_ID cl; reply_error from ERR_NONONREG_MSG [FS tid])
    else
      apart ← (Client_HasMode cl "C" <&&> unprivileged from <&&>
               not_ (l ← Channel_FirstChannelOf cl; common_channel cl from l));
      if (apart : bool) then
        refuse SendErrors command
          (tid ← Client_ID cl; reply_error from ERR_NOTONSAMECHANNEL_MSG [FS tid])
      else
        away ← (mret SendErrors <&&> (ty ← Client_Type Client; mret (negb (ty =? CLIENT_SERVER)))
                <&&> Client_HasMode cl "a");
        ok ← (if (away : bool) then
                id ← Client_ID from;
                tid ← Client_ID cl;
                text ← Client_Away cl;
                IRC_WriteStrClient from RPL_AWAY_MSG [FS id; FS tid; FS (from_opt "(null)" text)]
              else mret true);
        if negb (ok : bool) then mret (Return false)
        else
          conn ← Client_Conn from;
          (if NONE <? conn then Conn_UpdateIdle conn else mret tt);;
          tid ← Client_ID cl;
          ok ← IRC_WriteStrClientPrefix cl from "%s %s :%s" [FS command; FS tid; FS message];
          mret (if (ok : bool) then NextTarget command else Return false).

(** The loop over the users that a mask stands for, as long as writing succeeds. *)
Fixpoint mask_loop (fuel : nat) (from : ptr) (command mask message : string)
    (name : ptr -> M string) (cl : ptr) : M bool :=
  if is_null cl then mret true
  else match fuel with
       | O => crash OutOfFuel
       | S fuel' =>
           ty ← Client_Type cl;
           client_match ← (if negb (ty =? CLIENT_USER) then mret false
                           else s ← name cl; mret (MatchCaseInsensitive mask s));
           ok ← (if (client_match : bool) then
                   id ← Client_ID cl;
                   IRC_WriteStrClientPrefix cl from "%s %s :%s" [FS command; FS id; FS message]
                 else mret true);
           if negb (ok : bool) then mret false
           else next ← Client_Next cl; mask_loop fuel' from command mask message name next
       end.

(** A dot, and no wildcards behind the last one. *)
Definition toplevel_ok (targetMask : string) : bool :=
  match strrchr targetMask "." with
  | Some check_wildcards => (slen check_wildcards <=? strcspn check_wildcards "*?")%nat
  | None => false
  end.

Definition Send_Message_Mask (from : ptr) (command targetMask message : string)
    (SendErrors : bool) : M bool :=
  o ← Client_HasMode from "o";
  if negb (o : bool) then
    if negb SendErrors then mret true else reply_error from ERR_NOPRIVILEGES_MSG []
  else if negb (toplevel_ok targetMask) then
    if negb SendErrors then mret true
    else IRC_WriteErrClient from ERR_WILDTOPLEVEL_MSG [FS targetMask]
  else
    let mask := str_drop 1 targetMask in
    let is_host := hd0 targetMask =c "#"%char in
    assert_ (is_host || (hd0 targetMask =c "$"%char));;
    cl ← Client_First;
    n ← get_tab (fun t => length (t_My_Clients t));
    mask_loop n from command mask message
      (if is_host then Client_Hostname
       else fun cl => intro ← Client_Introducer cl; Client_ID intro) cl.

Definition send_to_target (Client from : ptr) (ForceType : Z) (SendErrors : bool)
    (message command currentTarget : string) : M target_result :=
  let continue (ok : bool) : target_result := if ok then NextTarget command else Return false in
  cl ← find_target currentTarget;
  if negb (is_null cl) then
    send_to_user Client from cl ForceType SendErrors command currentTarget message
  else
    chan ← (if negb (ForceType =? CLIENT_SERVICE) then Channel_Search currentTarget else mret NULL);
    if negb (is_null chan) then
      ok ← Channel_Write chan from Client command SendErrors message; mret (continue ok)
    else if negb (ForceType =? CLIENT_SERVICE) && has_chr "$#" (hd0 currentTarget)
            && has_chr currentTarget "." then
      ok ← Send_Message_Mask from command currentTarget message SendErrors; mret (continue ok)
    else if negb SendErrors then mret (Return true)
    else ok ← reply_error from ERR_NOSUCHNICK_MSG [FS currentTarget]; mret (continue ok).

(** The loop over the targets; [seen] are those before [currentTarget]. *)
Fixpoint send_loop (Client from : ptr) (ForceType : Z) (SendErrors : bool) (message : string)
    (seen : list string) (command : string) (targets : list string) : M bool :=
  match targets with
  | [] => mret true
  | currentTarget :: rest =>
      r ← (if existsb (strcaseeq currentTarget) seen then mret (NextTarget command)
           else send_to_target Client from ForceType SendErrors message command currentTarget);
      match r with
      | Return b => mret b
      | NextTarget command =>
          match rest with
          | [] => mret true
          | next :: _ =>
              conn ← Client_Conn Client;
              Conn_SetPenalty conn 1;;
              let seen := currentTarget :: seen in
              if (MAX_HNDL_TARGETS <=? length seen)%nat then
                IRC_WriteErrClient Client ERR_TOOMANYTARGETS_MSG [FS next]
              else send_loop Client from ForceType SendErrors message seen command rest
          end
      end
  end.

Definition Send_Message (Client : ptr) (Req : REQUEST) (ForceType : Z) (SendErrors : bool) : M bool :=
  assert_ (negb (is_null Client));;
  match Message_Check_Send Req SendErrors with
  | MESSAGE_CHECK_NO_RECIPIENT => reply_error Client ERR_NORECIPIENT_MSG [FS (rq_command Req)]
  | MESSAGE_CHECK_NO_TEXT => reply_error Client ERR_NOTEXTTOSEND_MSG []
  | MESSAGE_CHECK_NEED_MORE_PARAMS => reply_error Client ERR_NEEDMOREPARAMS_MSG [FS (rq_command Req)]
  | _ =>
      ty ← Client_Type Client;
      from ← match rq_prefix Req with
             | Some p => if ty =? CLIENT_SERVER then Client_Search p else mret Client
             | None => mret Client
             end;
      if is_null from then reply_error Client ERR_NOSUCHNICK_MSG [FS (from_opt "" (rq_prefix Req))]
      else
        message ← arg Req 1;
        if hd0 message =c NUL then
          if negb SendErrors then mret true else reply_error Client ERR_NOTEXTTOSEND_MSG []
        else
          targets ← arg Req 0;
          send_loop Client from ForceType SendErrors message [] (ngt_UpperStr (rq_command Req))
            (tokens targets ",")
  end.

Definition IRC_NOTICE (Client : ptr) (Req : REQUEST) : M bool := Send_Message Client Req CLIENT_USER false.
Definition IRC_PRIVMSG (Client : ptr) (Req : REQUEST) : M bool := Send_Message Client Req CLIENT_USER true.
Definition IRC_SQUERY (Client : ptr) (Req : REQUEST) : M bool := Send_Message Client Req CLIENT_SERVICE true.

End Irc.
