(* ===== verification/IrcOp.v ===== *)
(** * KICK and INVITE (src/server/proto/irc/irc-op.c)

    KICK takes a list of nicknames and one channel, or as many channels as
    nicknames; the lists are divided at every comma, so that they may have
    empty items.  INVITE is a message to another user, which is remembered in
    the list of the channel if the channel would not let the user in. *)

From S2P Require Import Prelude CString Match Hash Checks Lists Messages World ClientCore.
From S2P Require Import ConnFunc ConnSpec ChannelCore State IrcWrite Channel Client Parse Irc.

(** The strings that are left in a buffer when every comma has become a terminator. *)
Fixpoint split_commas (s : string) : list string :=
  match s with
  | "" => [""]
  | String c s' =>
      if c =c ","%char then "" :: split_commas s'
      else match split_commas s' with
           | [] => [String c ""]
           | x :: l => String c x :: l
           end
  end.

Section IrcOp.
Context `{Conf} `{ConnIO}.

Definition try_kick (peer from : ptr) (nick channel reason : string) : M bool :=
  target ← Client_Search nick;
  if is_null target then reply_error from ERR_NOSUCHNICK_MSG [FS nick]
  else Channel_Kick peer target from channel reason;; mret true.

Fixpoint kick_loop (peer from : ptr) (reason : string) (l : list (string * string)) : M bool :=
  match l with
  | [] => mret true
  | (nick, channel) :: l' =>
      ok ← try_kick peer from nick channel reason;
      if negb (ok : bool) then mret false else kick_loop peer from reason l'
  end.

Definition IRC_KICK (Client : ptr) (Req : REQUEST) : M bool :=
  assert_ (negb (is_null Client));;
  get_sender_or_return Req Client (fun from =>
    a0 ← arg Req 0;
    let channels := split_commas a0 in
    a1 ← arg Req 1;
    let nicks := split_commas a1 in
    reason ← (if argc Req =? 3 then arg Req 2 else Client_ID from);
    match channels with
    | [channel] => kick_loop Client from reason (map (fun nick => (nick, channel)) nicks)
    | _ =>
        if (length channels =? length nicks)%nat then kick_loop Client from reason (zip nicks channels)
        else reply_error Client ERR_NEEDMOREPARAMS_MSG [FS (rq_command Req)]
    end).

(** What INVITE finds out about the channel: an error reply, or whether the
    invitation is to be remembered. *)
Definition invite_channel (Client from target : ptr) (nick name : string) : M (M bool + bool) :=
  chan ← Channel_Search name;
  if is_null chan then mret (inr false)
  else
    on ← Channel_IsMemberOf chan from;
    if negb (on : bool) then
      mret (inl (id ← Client_ID Client;
                 IRC_WriteErrClient from ERR_NOTONCHANNEL_MSG [FS id; FS name]))
    else
      v ← Channel_HasMode chan "V";
      if (v : bool) then mret (inl (n ← Channel_Name chan; reply_error from ERR_NOINVITE_MSG [FS n]))
      else
        i ← Channel_HasMode chan "i";
        op ← (if (i : bool) then
                Channel_UserHasMode chan from "q" <||> Channel_UserHasMode chan from "a"
                <||> Channel_UserHasMode chan from "o" <||> Channel_UserHasMode chan from "h"
              else mret true);
        if negb (op : bool) then
          mret (inl (n ← Channel_Name chan; reply_error from ERR_CHANOPRIVSNEEDED_MSG [FS n]))
        else
          there ← Channel_IsMemberOf chan target;
          if (there : bool) then mret (inl (reply_error from ERR_USERONCHANNEL_MSG [FS nick; FS name]))
          else
            banned ← check_list ch_bans set_ch_bans chan target;
            if (i || banned) then
              mask ← Client_MaskCloaked target;
              id ← Client_ID from;
              ok ← Channel_AddInvite chan mask true id;
              mret (if (ok : bool) then inr true else inl (mret true))
            else mret (inr false).

Definition IRC_INVITE (Client : ptr) (Req : REQUEST) : M bool :=
  assert_ (negb (is_null Client));;
  get_sender_or_return Req Client (fun from =>
    nick ← arg Req 0;
    target ← Client_Search nick;
    user ← (mret (negb (is_null target)) <&&> (ty ← Client_Type target; mret (ty =? CLIENT_USER)));
    if negb (user : bool) then
      id ← Client_ID Client; IRC_WriteErrClient from ERR_NOSUCHNICK_MSG [FS id; FS nick]
    else
      name ← arg Req 1;
      away ← (if hd0 name =c "&"%char then conn ← Client_Conn target; mret (conn =? NONE)
              else mret false);
      if (away : bool) then
        id ← Client_ID Client; IRC_WriteErrClient from ERR_USERNOTONSERV_MSG [FS id; FS nick]
      else
        r ← invite_channel Client from target nick name;
        match r with
        | inl reply => reply
        | inr _ =>
            _ ← Client_Mask from;
            let colon_if_necessary := if has_chr name " " then ":" else "" in
            _ ← IRC_WriteStrClientPrefix target from "INVITE %s %s%s"
                  [FS nick; FS colon_if_necessary; FS name];
            conn ← Client_Conn target;
            if NONE <? conn then
              ok ← (id ← Client_ID from;
                    IRC_WriteStrClient from RPL_INVITING_MSG
                      [FS id; FS nick; FS colon_if_necessary; FS name]);
              if negb (ok : bool) then mret false
              else
                a ← Client_HasMode target "a";
                if (a : bool) then
                  id ← Client_ID from;
                  tid ← Client_ID target;
                  text ← Client_Away target;
                  IRC_WriteStrClient from RPL_AWAY_MSG [FS id; FS tid; FS (from_opt "(null)" text)]
                else mret true
            else mret true
        end).

End IrcOp.
