(* ===== verification/IrcInfo.v ===== *)
(** * Information commands (src/server/proto/irc/irc-info.c)

    The replies about users, channels, servers and the server itself.  The
    handlers only read the tables; what they write is a sequence of lines that
    ends early when a write fails. *)

From S2P Require Import Prelude CString Match Hash Checks Lists Messages World ClientCore.
From S2P Require Import ConnFunc ConnSpec ChannelCore State IrcWrite Channel Client Class Conn Parse.
From S2P Require Import Reader Irc.

Definition MAX_RPL_WHO : Z := 25.
Definition MAX_RPL_WHOIS : Z := 10.
Definition DEF_RPL_WHOWAS : Z := 5.
Definition MAX_RPL_WHOWAS : Z := 25.
Definition MAX_HNDL_CHANNEL_LISTS : Z := 50.
Definition MAX_HNDL_MODES_ARG : Z := 5.
Definition CHANTYPES : string := "#&+".

(** ** Loops with local variables

    What the body of a loop does: it goes on with new values of the variables,
    breaks, or returns from the function. *)

Inductive flow (S : Type) := Go (s : S) | Stop (s : S) | Exit (r : bool).
Arguments Go {S} s.
Arguments Stop {S} s.
Arguments Exit {S} r.

Section Loops.
Context {S : Type}.

Fixpoint list_loop {A} (body : S -> A -> M (flow S)) (s : S) (l : list A) : M (S + bool) :=
  match l with
  | [] => mret (inl s)
  | a :: l' =>
      r ← body s a;
      match r with
      | Go s => list_loop body s l'
      | Stop s => mret (inl s)
      | Exit b => mret (inr b)
      end
  end.

(** A loop over a linked list; its elements are at most [fuel]. *)
Fixpoint ptr_loop (next : ptr -> M ptr) (fuel : nat) (body : S -> ptr -> M (flow S)) (s : S) (c : ptr)
    : M (S + bool) :=
  if is_null c then mret (inl s)
  else match fuel with
       | O => crash OutOfFuel
       | Datatypes.S fuel' =>
           r ← body s c;
           match r with
           | Go s => n ← next c; ptr_loop next fuel' body s n
           | Stop s => mret (inl s)
           | Exit b => mret (inr b)
           end
       end.

Definition for_clients (s : S) (body : S -> ptr -> M (flow S)) : M (S + bool) :=
  c ← Client_First;
  n ← get_tab (fun t => length (t_My_Clients t));
  ptr_loop Client_Next n body s c.

Definition for_channels (s : S) (body : S -> ptr -> M (flow S)) : M (S + bool) :=
  c ← Channel_First;
  n ← get_tab (fun t => length (t_My_Channels t));
  ptr_loop Channel_Next n body s c.

(** What follows the loop. *)
Definition then_ (m : M (S + bool)) (k : S -> M bool) : M bool :=
  r ← m; match r with inl s => k s | inr b => mret b end.

End Loops.

(** A write in the body of a loop. *)
Definition go_if {S} (s : S) (m : M bool) : M (flow S) := ok ← m; mret (if (ok : bool) then Go s else Exit false).

(** The members of a channel, and the channels of a client, that the walk along
    the list of memberships visits. *)
Definition channel_members (Chan : ptr) : M (list nat) :=
  l ← Channel_FirstMember Chan; mret (map cc_client (List.filter (is_channel Chan) l)).

Definition channels_of (Client : ptr) : M (list nat) :=
  l ← Channel_FirstChannelOf Client; mret (map cc_channel (List.filter (is_client Client) l)).

(** The next entry of the walk, and those after it. *)
Lemma members_walk ch l :
  List.filter (is_channel (Some ch)) l =
    match next_cl2chan NULL (Some ch) l with
    | [] => []
    | m :: l' => m :: List.filter (is_channel (Some ch)) l'
    end.
Proof. induction l as [|m l IH]; [done|]. cbn. by destruct (is_channel (Some ch) m). Qed.

Section IrcInfo.
Context `{Conf} `{ConnIO}.

(** A reply with the ID of a client in front of its arguments. *)
Definition reply (Client about : ptr) (fmt : string) (args : list farg) : M bool :=
  id ← Client_ID about; IRC_WriteStrClient Client fmt (FS id :: args).

(** ** WHO *)

Definition write_whoreply (Client c : ptr) (channelname flags : string) : M bool :=
  id ← Client_ID Client;
  user ← Client_User c;
  host ← Client_HostnameDisplayed c;
  intro ← Client_Introducer c;
  server ← Client_ID intro;
  cid ← Client_ID c;
  hops ← Client_Hops c;
  info ← Client_Info c;
  IRC_WriteStrClient Client RPL_WHOREPLY_MSG
    [FS id; FS channelname; FS user; FS (from_opt "(null)" host); FS server; FS cid; FS flags;
     FZ hops; FS info].

(** The user modes that have a prefix, in order. *)
Definition mode_prefixes : list (ascii * string) :=
  [("q"%char, "~"); ("a"%char, "&"); ("o"%char, "@"); ("h"%char, "%"); ("v"%char, "+")].

Definition who_flags_qualifier (Client : ptr) (chan_user_modes str : string) (len : nat) : M string :=
  cap ← Client_Cap Client;
  let held := List.filter (fun x => has_chr chan_user_modes x.1) mode_prefixes in
  let shown := if negb (Z.land cap CLIENT_CAP_MULTI_PREFIX =? 0) then held else take 1 held in
  mret (fold_left (fun s x => strlcat s x.2 len) shown str).

(** The first two flags of a user: away or here, operator. *)
Definition who_flags (c : ptr) : M string :=
  a ← Client_HasMode c "a";
  o ← Client_HasMode c "o";
  mret ((if (a : bool) then "G" else "H") +:+ (if (o : bool) then "*" else "")).

Definition IRC_WHO_Channel (Client Chan : ptr) (OnlyOps : bool) : M bool :=
  assert_ (negb (is_null Client));;
  assert_ (negb (is_null Chan));;
  is_member ← Channel_IsMemberOf Chan Client;
  is_oper ← Client_HasMode Client "o";
  secret ← (mret (negb is_member) <&&> mret (negb is_oper) <&&> Channel_HasMode Chan "s");
  let end_of_who := name ← Channel_Name Chan; reply Client Client RPL_ENDOFWHO_MSG [FS name] in
  if (secret : bool) then end_of_who
  else
    members ← channel_members Chan;
    then_ (list_loop (fun count a =>
        let c := Some a in
        is_ircop ← Client_HasMode c "o";
        if OnlyOps && negb is_ircop then mret (Go count)
        else
          i ← Client_HasMode c "i";
          if is_member || negb i || is_oper then
            flags ← who_flags c;
            modes ← Channel_UserModes Chan c;
            flags ← who_flags_qualifier Client modes flags 10;
            name ← Channel_Name Chan;
            go_if (count + 1) (write_whoreply Client c name flags)
          else mret (Go count)) 0 members) (fun count =>
      (if MAX_RPL_WHO <? count then IRC_SetPenalty Client 1 else mret tt);;
      end_of_who).

Definition who_match (Mask : string) (c : ptr) : M bool :=
  (s ← Client_Hostname c; mret (MatchCaseInsensitive Mask s))
  <||> (intro ← Client_Introducer c; s ← Client_ID intro; mret (MatchCaseInsensitive Mask s))
  <||> (s ← Client_Info c; mret (MatchCaseInsensitive Mask s))
  <||> (s ← Client_ID c; mret (MatchCaseInsensitive Mask s)).

(** Whether a user that is invisible can be seen: by its exact name, or on a
    channel of the client. *)
Fixpoint on_channel (c : ptr) (l : list nat) : M bool :=
  match l with
  | [] => mret false
  | chan :: l' => Channel_IsMemberOf (Some chan) c <||> on_channel c l'
  end.

Definition who_visible (Client c : ptr) (Mask : option string) : M bool :=
  not_ (Client_HasMode c "i")
  <||> match Mask with Some m => id ← Client_ID c; mret (strcaseeq id m) | None => mret false end
  <||> (l ← channels_of Client; on_channel c l).

Definition IRC_WHO_Mask (Client : ptr) (Mask : option string) (OnlyOps : bool) : M bool :=
  assert_ (negb (is_null Client));;
  let Mask := ngt_LowerStr <$> Mask in
  IRC_SetPenalty Client 3;;
  then_ (for_clients 0 (fun count c =>
      ty ← Client_Type c;
      if negb (ty =? CLIENT_USER) then mret (Go count)
      else
        skip ← (mret OnlyOps <&&> not_ (Client_HasMode c "o"));
        if (skip : bool) then mret (Go count)
        else
          m ← match Mask with Some m => who_match m c | None => mret true end;
          if negb (m : bool) then mret (Go count)
          else
            v ← who_visible Client c Mask;
            if negb (v : bool) then mret (Go count)
            else
              big ← IRC_CheckListTooBig Client count MAX_RPL_WHO "WHO";
              if (big : bool) then mret (Stop count)
              else flags ← who_flags c; go_if (count + 1) (write_whoreply Client c "*" flags)))
    (fun _ => reply Client Client RPL_ENDOFWHO_MSG [FS (from_opt "*" Mask)]).

Definition IRC_WHO (Client : ptr) (Req : REQUEST) : M bool :=
  assert_ (negb (is_null Client));;
  let only_ops := match rq_argv Req with [_; o] => String.eqb o "o" | _ => false end in
  match argv Req 0 with
  | None => IRC_WHO_Mask Client None only_ops
  | Some name =>
      chan ← Channel_Search name;
      if negb (is_null chan) then IRC_WHO_Channel Client chan only_ops
      else if negb (String.eqb name "0") then IRC_WHO_Mask Client (Some name) only_ops
      else IRC_WHO_Mask Client None only_ops
  end.
(** ** WHOIS *)

Definition last_chr (s : string) : ascii := default NUL (String.get (slen s - 1) s).

(** One channel of a WHOIS reply; the line that is being built is [str]. *)
Definition whois_channel (Client from c : ptr) (str : string) (a : nat) : M (flow string) :=
  let chan := Some a in
  secret ← (Channel_HasMode chan "s" <&&> not_ (Channel_IsMemberOf chan Client));
  if (secret : bool) then mret (Go str)
  else
    local ← ((ty ← Client_Type Client; mret (ty =? CLIENT_SERVER)) <&&> Channel_IsLocal chan);
    if (local : bool) then mret (Go str)
    else
      let str := if negb (last_chr str =c ":"%char) then strlcat str " " COMMAND_LEN else str in
      modes ← Channel_UserModes chan c;
      str ← who_flags_qualifier Client modes str COMMAND_LEN;
      name ← Channel_Name chan;
      let str := strlcat str name COMMAND_LEN in
      if (COMMAND_LEN - CHANNEL_NAME_LEN - 4 <? slen str)%nat then
        ok ← IRC_WriteStrClient Client "%s" [FS str];
        if negb (ok : bool) then mret (Exit false)
        else
          id ← Client_ID from;
          cid ← Client_ID c;
          mret (Go (snprintf COMMAND_LEN RPL_WHOISCHANNELS_MSG [FS id; FS cid]))
      else mret (Go str).

(** Sends the rest of a line that is being built behind a colon. *)
Definition send_rest (Client : ptr) (str : string) : M bool :=
  if negb (last_chr str =c ":"%char) then IRC_WriteStrClient Client "%s" [FS str] else mret true.

Definition whois_channels (Client from c : ptr) : M bool :=
  show ← (not_ (Client_HasMode c "I") <||> Client_HasMode from "o");
  if negb (show : bool) then mret true
  else
    id ← Client_ID from;
    cid ← Client_ID c;
    l ← channels_of c;
    then_ (list_loop (whois_channel Client from c)
             (snprintf COMMAND_LEN RPL_WHOISCHANNELS_MSG [FS id; FS cid]) l)
      (send_rest Client).

(** A line about [c], if a condition holds. *)
Definition whois_line (from c : ptr) (cond : M bool) (fmt : string) (args : M (list farg)) : M bool :=
  b ← cond;
  if (b : bool) then
    cid ← Client_ID c; rest ← args; reply from from fmt (FS cid :: rest)
  else mret true.

Definition IRC_WHOIS_SendReply (Client from c : ptr) : M bool :=
  assert_ (negb (is_null Client));;
  assert_ (negb (is_null from));;
  assert_ (negb (is_null c));;
  let is_service := ty ← Client_Type c; mret (ty =? CLIENT_SERVICE) in
  let local := conn ← Client_Conn c; mret (NONE <? conn) in
  let private := local <&&> (mret (ptr_eqb from c) <||> Client_HasMode from "o") in
  whois_line from c (mret true) RPL_WHOISUSER_MSG
    (user ← Client_User c; host ← Client_HostnameDisplayed c; info ← Client_Info c;
     mret [FS user; FS (from_opt "(null)" host); FS info]) ;!
  whois_line from c (mret true) RPL_WHOISSERVER_MSG
    (intro ← Client_Introducer c; id ← Client_ID intro; info ← Client_Info intro;
     mret [FS id; FS info]) ;!
  whois_channels Client from c ;!
  whois_line from c is_service RPL_WHOISSERVICE_MSG (mret []) ;!
  whois_line from c (not_ is_service <&&> Client_HasMode c "o") RPL_WHOISOPERATOR_MSG (mret []) ;!
  whois_line from c (Client_HasMode c "B") RPL_WHOISBOT_MSG (mret []) ;!
  whois_line from c (Client_HasMode c "R") RPL_WHOISREGNICK_MSG (mret []) ;!
  (account ← Client_AccountName c;
   whois_line from c (mret (is_some account)) RPL_WHOISLOGGEDIN_MSG (mret [FS (from_opt "" account)])) ;!
  (p ← private;
   whois_line from c (mret p) RPL_WHOISHOST_MSG
     (host ← Client_Hostname c; ip ← Client_IPAText c; mret [FS host; FS ip]) ;!
   whois_line from c (mret p) RPL_WHOISMODES_MSG (modes ← Client_Modes c; mret [FS modes])) ;!
  whois_line from c (mret (negb Conf_MorePrivacy) <&&> local) RPL_WHOISIDLE_MSG
    (conn ← Client_Conn c; idle ← Conn_GetIdle conn; signon ← Conn_GetSignon conn;
     mret [FZ idle; FZ signon]) ;!
  whois_line from c (Client_HasMode c "a") RPL_AWAY_MSG
    (text ← Client_Away c; mret [FS (from_opt "(null)" text)]).

(** The local variables of the loop over the queries. *)
Definition whois_state : Type := Z * bool.

Definition whois_exact (Client from : ptr) (query : string) : M bool :=
  c ← Client_Search query;
  known ← (mret (negb (is_null c)) <&&>
           (ty ← Client_Type c; mret ((ty =? CLIENT_USER) || (ty =? CLIENT_SERVICE))));
  if (known : bool) then IRC_WHOIS_SendReply Client from c
  else reply_error Client ERR_NOSUCHNICK_MSG [FS query].

Definition whois_wildcard (Client from : ptr) (query : string) (match_count : Z) : M (Z + bool) :=
  for_clients match_count (fun match_count c =>
    big ← IRC_CheckListTooBig Client match_count MAX_RPL_WHOIS "WHOIS";
    if (big : bool) then mret (Stop match_count)
    else
      found ← ((ty ← Client_Type c; mret (ty =? CLIENT_USER))
               <&&> not_ (Client_HasMode c "i")
               <&&> (id ← Client_ID c; mret (MatchCaseInsensitive query id)));
      if (found : bool) then go_if (match_count + 1) (IRC_WHOIS_SendReply Client from c)
      else mret (Go match_count)).

Definition whois_query (Client from : ptr) (last_arg : string) (is_remote : bool)
    (s : whois_state) (query : string) : M (flow whois_state) :=
  let '(match_count, got_wildcard) := s in
  let has_wildcards := (strcspn query "*?" <? slen query)%nat in
  if negb has_wildcards || is_remote then go_if s (whois_exact Client from query)
  else if got_wildcard then go_if s (reply_error Client ERR_NOSUCHNICK_MSG [FS query])
  else
    IRC_SetPenalty Client 3;;
    r ← whois_wildcard Client from query match_count;
    match r with
    | inr b => mret (Exit b)
    | inl match_count =>
        (if match_count =? 0 then _ ← reply_error Client ERR_NOSUCHNICK_MSG [FS last_arg]; mret tt
         else mret tt);;
        mret (Go (match_count, true))
    end.

(** The first [n] parameters at most. *)
Definition argc_le_or_return (Client : ptr) (Req : REQUEST) (n : Z) (k : M bool) : M bool :=
  if n <? argc Req then reply_error Client ERR_NEEDMOREPARAMS_MSG [FS (rq_command Req)] else k.

(** Requests for another server are forwarded to it. *)
Definition forward_or (target from : ptr) (fmt : string) (args : M (list farg)) (k : M bool) : M bool :=
  this ← Client_ThisServer;
  if negb (ptr_eqb target this) then
    l ← args; _ ← IRC_WriteStrClientPrefix target from fmt l; mret true
  else k.

Definition IRC_WHOIS (Client : ptr) (Req : REQUEST) : M bool :=
  assert_ (negb (is_null Client));;
  if argc Req <? 1 then reply_error Client ERR_NONICKNAMEGIVEN_MSG []
  else argc_le_or_return Client Req 2
    (get_sender_or_return Req Client (fun from =>
     let body (target : ptr) : M bool :=
       assert_ (negb (is_null target));;
       forward_or target from "WHOIS %s :%s"
         (a ← arg Req 0; b ← arg Req 1; mret [FS a; FS b])
         (conn ← Client_Conn from;
          last_arg ← arg Req (Z.to_nat (argc Req - 1));
          then_ (list_loop (whois_query Client from last_arg (conn <? 0)) (0, false)
                   (take 3 (tokens (ngt_LowerStr (strlcpy last_arg COMMAND_LEN)) ",")))
            (fun _ => reply from from RPL_ENDOFWHOIS_MSG [FS last_arg])) in
     if 1 <? argc Req then get_target_server_or_return Req 0 Client body
     else this ← Client_ThisServer; body this)).

(** ** WHOWAS *)

Definition WHOWAS_EntryWrite (prefix : ptr) (entry : WHOWAS) : M bool :=
  let t_str := strlcpy (strftime_local "%a %b %d %H:%M:%S %Y" (ww_time entry)) 60 in
  reply prefix prefix RPL_WHOWASUSER_MSG
    [FS (ww_id entry); FS (ww_user entry); FS (ww_host entry); FS (ww_info entry)] ;!
  reply prefix prefix RPL_WHOISSERVER_MSG [FS (ww_id entry); FS (ww_server entry); FS t_str].

(** The loop over the history, backwards from [i] until [last] is reached again
    or enough entries are shown: the new [i], the entries found for the nick
    and for all nicks. *)
Fixpoint whowas_scan (fuel : nat) (prefix : ptr) (nick : string) (max last i nc count : Z)
    : M (Z * Z * Z + bool) :=
  match fuel with
  | O => crash OutOfFuel
  | S fuel' =>
      l ← Client_GetWhowas;
      match l !! Z.to_nat i with
      | None => crash OutOfBounds
      | Some entry =>
          let found := (0 <? ww_time entry) && strcaseeq nick (ww_id entry) in
          ok ← (if found then WHOWAS_EntryWrite prefix entry else mret true);
          if negb (ok : bool) then mret (inr false)
          else
            let nc := if found then nc + 1 else nc in
            let count := if found then count + 1 else count in
            let i := if i - 1 <? 0 then MAX_WHOWAS - 1 else i - 1 in
            if negb (nc =? 0) && (max <=? count) then mret (inl (i, nc, count))
            else if negb (i =? last) then whowas_scan fuel' prefix nick max last i nc count
            else mret (inl (i, nc, count))
      end
  end.

(** The loop over the nicks; [i] and [count] go on from one to the next. *)
Definition whowas_nick (prefix : ptr) (max last : Z) (s : Z * Z) (nick : string) : M (flow (Z * Z)) :=
  r ← whowas_scan (Z.to_nat MAX_WHOWAS) prefix nick max last s.1 0 s.2;
  match r with
  | inr b => mret (Exit b)
  | inl (i, nc, count) =>
      if nc =? 0 then go_if (i, count) (reply_error prefix ERR_WASNOSUCHNICK_MSG [FS nick])
      else mret (Go (i, count))
  end.

Definition IRC_WHOWAS (Client : ptr) (Req : REQUEST) : M bool :=
  assert_ (negb (is_null Client));;
  if argc Req <? 1 then reply_error Client ERR_NONICKNAMEGIVEN_MSG []
  else argc_le_or_return Client Req 3
    (get_sender_or_return Req Client (fun prefix =>
     get_target_server_or_return Req 2 prefix (fun target =>
       if Conf_MorePrivacy then mret true
       else forward_or target prefix "WHOWAS %s %s %s"
         (a ← arg Req 0; b ← arg Req 1; id ← Client_ID target; mret [FS a; FS b; FS id])
         (last ← Client_GetLastWhowasIndex;
          let last := if last <? 0 then 0 else last in
          let max := match argv Req 1 with
                     | None => DEF_RPL_WHOWAS
                     | Some n => let n := to_int (atol n) in if n <? 1 then MAX_RPL_WHOWAS else n
                     end in
          nicks ← arg Req 0;
          then_ (list_loop (whowas_nick prefix max last) (last, 0)
                   (tokens (strlcpy nicks COMMAND_LEN) ","))
            (fun _ => reply prefix prefix RPL_ENDOFWHOWAS_MSG [FS nicks]))))).

(** ** NAMES *)

Definition IRC_Send_NAMES (Client Chan : ptr) : M bool :=
  assert_ (negb (is_null Client));;
  assert_ (negb (is_null Chan));;
  is_member ← Channel_IsMemberOf Chan Client;
  if Conf_MorePrivacy && negb is_member then mret true
  else
    secret_channel ← Channel_HasMode Chan "s";
    if negb is_member && secret_channel then mret true
    else
      let chan_symbol := if (secret_channel : bool) then "@"%char else "="%char in
      let start :=
        id ← Client_ID Client;
        name ← Channel_Name Chan;
        mret (snprintf COMMAND_LEN RPL_NAMREPLY_MSG [FS id; FC chan_symbol; FS name]) in
      str ← start;
      members ← channel_members Chan;
      then_ (list_loop (fun str a =>
          let cl := Some a in
          i ← Client_HasMode cl "i";
          if is_member || negb i then
            let str := if negb (last_chr str =c ":"%char) then strlcat str " " COMMAND_LEN else str in
            modes ← Channel_UserModes Chan cl;
            str ← who_flags_qualifier Client modes str COMMAND_LEN;
            id ← Client_ID cl;
            let str := strlcat str id COMMAND_LEN in
            if (COMMAND_LEN - CLIENT_NICK_LEN - 4 <? slen str)%nat then
              ok ← IRC_WriteStrClient Client "%s" [FS str];
              if negb (ok : bool) then mret (Exit false) else str ← start; mret (Go str)
            else mret (Go str)
          else mret (Go str)) str members)
        (send_rest Client).

(** Adds the users that are in no channel to the line. *)
Definition names_outside (from : ptr) (str : string) (c : ptr) : M (flow string) :=
  outside ← ((ty ← Client_Type c; mret (ty =? CLIENT_USER))
             <&&> (l ← Channel_FirstChannelOf c; mret (match l with [] => true | _ => false end))
             <&&> not_ (Client_HasMode c "i"));
  if (outside : bool) then
    let str := if negb (last_chr str =c ":"%char) then strlcat str " " COMMAND_LEN else str in
    id ← Client_ID c;
    let str := strlcat str id COMMAND_LEN in
    if (COMMAND_LEN - CLIENT_NICK_LEN - 4 <? slen str)%nat then
      ok ← IRC_WriteStrClient from "%s" [FS str];
      if negb (ok : bool) then mret (Exit false)
      else
        fid ← Client_ID from;
        mret (Go (snprintf COMMAND_LEN RPL_NAMREPLY_MSG [FS fid; FC "*"; FS "*"]))
    else mret (Go str)
  else mret (Go str).

Definition IRC_NAMES (Client : ptr) (Req : REQUEST) : M bool :=
  assert_ (negb (is_null Client));;
  get_sender_or_return Req Client (fun from =>
  get_target_server_or_return Req 1 from (fun target =>
    forward_or target from "NAMES %s :%s"
      (a ← arg Req 0; id ← Client_ID target; mret [FS a; FS id])
      match argv Req 0 with
      | Some names =>
          then_ (list_loop (fun _ name =>
              chan ← Channel_Search name;
              go_if tt ((if negb (is_null chan) then IRC_Send_NAMES from chan else mret true) ;!
                        reply from from RPL_ENDOFNAMES_MSG [FS name])) tt (tokens names ","))
            (fun _ => mret true)
      | None =>
          then_ (for_channels tt (fun _ chan => go_if tt (IRC_Send_NAMES from chan))) (fun _ =>
            fid ← Client_ID from;
            then_ (for_clients (snprintf COMMAND_LEN RPL_NAMREPLY_MSG [FS fid; FC "*"; FS "*"])
                     (names_outside from)) (fun str =>
              send_rest from str ;!
              reply from from RPL_ENDOFNAMES_MSG [FS "*"]))
      end)).

(** ** The server *)

Definition IRC_ADMIN (Client : ptr) (Req : REQUEST) : M bool :=
  assert_ (negb (is_null Client));;
  get_sender_or_return Req Client (fun prefix =>
  get_target_server_or_return Req 0 prefix (fun target =>
    forward_or target prefix "ADMIN %s" (id ← Client_ID target; mret [FS id])
      (reply Client prefix RPL_ADMINME_MSG [FS Conf_ServerName] ;!
       reply Client prefix RPL_ADMINLOC1_MSG [FS Conf_ServerAdmin1] ;!
       reply Client prefix RPL_ADMINLOC2_MSG [FS Conf_ServerAdmin2] ;!
       reply Client prefix RPL_ADMINEMAIL_MSG [FS Conf_ServerAdminMail] ;!
       mret true))).

Definition IRC_INFO (Client : ptr) (Req : REQUEST) : M bool :=
  assert_ (negb (is_null Client));;
  get_sender_or_return Req Client (fun prefix =>
  get_target_server_or_return Req 0 prefix (fun target =>
    forward_or target prefix "INFO %s" (id ← Client_ID target; mret [FS id])
      (reply Client prefix RPL_INFO_MSG [FS NGIRCd_Version] ;!
       reply Client prefix RPL_INFO_MSG
         [FS (snprintf 510 "Birth Date: %s at %s" [FS BUILD_DATE; FS BUILD_TIME])] ;!
       reply Client prefix RPL_INFO_MSG
         [FS (strlcat (strlcpy "On-line since " 510) NGIRCd_StartStr 510)] ;!
       reply Client prefix RPL_ENDOFINFO_MSG [] ;!
       mret true))).

Definition IRC_Send_ISUPPORT (Client : ptr) : M bool :=
  (if negb (hd0 Conf_Network =c NUL) then reply Client Client RPL_ISUPPORTNET_MSG [FS Conf_Network]
   else mret true) ;!
  reply Client Client RPL_ISUPPORT1_MSG [FS CHANTYPES; FS CHANTYPES; FZ Conf_MaxJoins] ;!
  reply Client Client RPL_ISUPPORT2_MSG
    [FZ (Z.of_nat CHANNEL_NAME_LEN - 1); FZ (Z.of_nat Conf_MaxNickLength - 1);
     FZ (Z.of_nat COMMAND_LEN - 23); FZ (Z.of_nat CLIENT_AWAY_LEN - 1);
     FZ (Z.of_nat COMMAND_LEN - 113); FZ MAX_HNDL_MODES_ARG; FZ MAX_HNDL_CHANNEL_LISTS].

Definition IRC_VERSION (Client : ptr) (Req : REQUEST) : M bool :=
  assert_ (negb (is_null Client));;
  get_sender_or_return Req Client (fun prefix =>
  get_target_server_or_return Req 0 prefix (fun target =>
    forward_or target prefix "VERSION %s" (id ← Client_ID target; mret [FS id])
      (reply Client prefix RPL_VERSION_MSG
         [FS PACKAGE_NAME; FS PACKAGE_VERSION; FS NGIRCd_DebugLevel; FS Conf_ServerName;
          FS NGIRCd_VersionAddition] ;!
       IRC_Send_ISUPPORT prefix ;!
       mret true))).

Definition IRC_TIME (Client : ptr) (Req : REQUEST) : M bool :=
  assert_ (negb (is_null Client));;
  get_sender_or_return Req Client (fun from =>
  get_target_server_or_return Req 0 from (fun target =>
    forward_or target from "TIME %s" (id ← Client_ID target; mret [FS id])
      (t ← time;
       this ← Client_ThisServer;
       id ← Client_ID this;
       reply from from RPL_TIME_MSG
         [FS id; FS (strlcpy (strftime_local "%A %B %d %Y -- %H:%M %Z" t) 60)]))).

(** Without SSL. *)
Definition Show_MOTD_SSLInfo (c : ptr) : M bool := mret true.

Definition Conn_UsesSSL (Idx : Z) : bool := false.

Definition IRC_Show_MOTD (Client : ptr) : M bool :=
  assert_ (negb (is_null Client));;
  no_motd ← match Conf_Motd with
            | [] => conn ← Client_Conn Client; mret (negb (Conn_UsesSSL conn))
            | _ => mret false
            end;
  if (no_motd : bool) then reply_error Client ERR_NOMOTD_MSG []
  else
    this ← Client_ThisServer;
    name ← Client_ID this;
    reply Client Client RPL_MOTDSTART_MSG [FS name] ;!
    then_ (list_loop (fun _ line => go_if tt (reply Client Client RPL_MOTD_MSG [FS line])) tt Conf_Motd)
      (fun _ =>
        Show_MOTD_SSLInfo Client ;!
        reply Client Client RPL_ENDOFMOTD_MSG [] ;!
        if negb (hd0 Conf_CloakHost =c NUL) then
          host ← Client_Hostname Client; reply Client Client RPL_HOSTHIDDEN_MSG [FS host]
        else mret true).

Definition IRC_MOTD (Client : ptr) (Req : REQUEST) : M bool :=
  assert_ (negb (is_null Client));;
  get_sender_or_return Req Client (fun from =>
  get_target_server_or_return Req 0 from (fun target =>
    forward_or target from "MOTD %s" (id ← Client_ID target; mret [FS id])
      (IRC_Show_MOTD from))).

(** ** Counters *)

Definition IRC_Send_LUSERS (Client : ptr) : M bool :=
  assert_ (negb (is_null Client));;
  (a ← Client_UserCount; b ← Client_ServiceCount; c ← Client_ServerCount;
   reply Client Client RPL_LUSERCLIENT_MSG [FZ a; FZ b; FZ c]) ;!
  (cnt ← Client_OperCount;
   if 0 <? cnt then reply Client Client RPL_LUSEROP_MSG [FZ cnt] else mret true) ;!
  (cnt ← Client_UnknownCount;
   if 0 <? cnt then reply Client Client RPL_LUSERUNKNOWN_MSG [FZ cnt] else mret true) ;!
  (cnt ← Channel_CountVisible Client; reply Client Client RPL_LUSERCHANNELS_MSG [FZ cnt]) ;!
  (a ← Client_MyUserCount; b ← Client_MyServiceCount; c ← Client_MyServerCount;
   reply Client Client RPL_LUSERME_MSG [FZ a; FZ b; FZ c]) ;!
  (cnt ← Client_MyUserCount; max ← Client_MyMaxUserCount;
   reply Client Client RPL_LOCALUSERS_MSG [FZ cnt; FZ max; FZ cnt; FZ max]) ;!
  (cnt ← Client_UserCount; max ← Client_MaxUserCount;
   reply Client Client RPL_NETUSERS_MSG [FZ cnt; FZ max; FZ cnt; FZ max]) ;!
  (a ← Conn_CountMax; b ← Conn_CountAccepted; reply Client Client RPL_STATSCONN_MSG [FZ a; FZ b]) ;!
  mret true.

Definition IRC_LUSERS (Client : ptr) (Req : REQUEST) : M bool :=
  assert_ (negb (is_null Client));;
  get_sender_or_return Req Client (fun from =>
  get_target_server_or_return Req 1 from (fun target =>
    forward_or target from "LUSERS %s %s"
      (a ← arg Req 0; id ← Client_ID target; mret [FS a; FS id])
      (IRC_Send_LUSERS from))).

Definition IRC_LINKS (Client : ptr) (Req : REQUEST) : M bool :=
  assert_ (negb (is_null Client));;
  get_sender_or_return Req Client (fun from =>
    let mask := from_opt "*" (argv Req (length (rq_argv Req) - 1)) in
    let show :=
      then_ (for_clients tt (fun _ c =>
          shown ← ((ty ← Client_Type c; mret (ty =? CLIENT_SERVER))
                   <&&> (id ← Client_ID c; mret (MatchCaseInsensitive mask id)));
          if (shown : bool) then
            id ← Client_ID c;
            top ← Client_TopServer c;
            top ← (if is_null top then Client_ThisServer else mret top);
            topid ← Client_ID top;
            hops ← Client_Hops c;
            info ← Client_Info c;
            go_if tt (reply from from RPL_LINKS_MSG [FS id; FS topid; FZ hops; FS info])
          else mret (Go tt)))
        (fun _ => reply from from RPL_ENDOFLINKS_MSG [FS mask]) in
    if argc Req =? 2 then
      get_target_server_or_return Req 0 from (fun target =>
        forward_or target from "LINKS %s %s"
          (id ← Client_ID target; b ← arg Req 1; mret [FS id; FS b]) show)
    else show).

Definition IRC_SERVLIST (Client : ptr) (Req : REQUEST) : M bool :=
  assert_ (negb (is_null Client));;
  let all := match argv Req 1 with Some s => String.eqb s "0" | None => true end in
  then_ (if all then
           for_clients tt (fun _ c =>
             ty ← Client_Type c;
             if negb (ty =? CLIENT_SERVICE) then mret (Go tt)
             else
               shown ← match argv Req 0 with
                       | Some mask => id ← Client_ID c; mret (MatchCaseInsensitive mask id)
                       | None => mret true
                       end;
               if negb (shown : bool) then mret (Go tt)
               else
                 mask ← Client_Mask c;
                 intro ← Client_Introducer c;
                 server ← Client_Mask intro;
                 hops ← Client_Hops c;
                 info ← Client_Info c;
                 go_if tt (reply Client Client RPL_SERVLIST_MSG
                             [FS mask; FS server; FS "*"; FZ 0; FZ hops; FS info]))
         else mret (inl tt))
    (fun _ => reply Client Client RPL_SERVLISTEND_MSG
                [FS (from_opt "*" (argv Req 0)); FS (from_opt "0" (argv Req 1))]).

(** ** STATS *)

(** [t_diff]: the quotient, and what remains. *)
Definition t_diff (t d : Z) : Z * Z := (u32 (Z.quot t d), t - Z.quot t d * d).
Definition uptime_days (now : Z) : Z * Z := t_diff now (60 * 60 * 24).
Definition uptime_hrs (now : Z) : Z * Z := t_diff now (60 * 60).
Definition uptime_mins (now : Z) : Z * Z := t_diff now 60.

(** The loop over the open connections from [con] on. *)
Fixpoint stats_links (fuel : nat) (Client from : ptr) (more_links : bool) (time_now con : Z) : M bool :=
  if con =? NONE then mret true
  else match fuel with
       | O => crash OutOfFuel
       | S fuel' =>
           cl ← Conn_GetClient con;
           shown ← (if is_null cl then mret false
                    else ty ← Client_Type cl;
                         mret ((ty =? CLIENT_SERVER) || ptr_eqb cl Client
                               || (more_links && (ty =? CLIENT_USER))));
           (if (shown : bool) then
              mask ← Client_Mask cl;
              q ← Conn_SendQ con;
              sm ← Conn_SendMsg con;
              sb ← Conn_SendBytes con;
              rm ← Conn_RecvMsg con;
              rb ← Conn_RecvBytes con;
              start ← Conn_StartTime con;
              reply from from RPL_STATSLINKINFO_MSG
                [FS mask; FZ q; FZ sm; FZ sb; FZ rm; FZ rb; FZ (time_now - start)]
            else mret true) ;!
           next ← Conn_Next con;
           stats_links fuel' Client from more_links time_now next
       end.

(** What is sent for a query that is allowed. *)
Definition stats_body (Client from : ptr) (query : ascii) : M bool :=
  if has_chr "gGkK" query then
    h ← Class_GetList (if has_chr "gG" query then CLASS_GLINE else CLASS_KLINE);
    then_ (list_loop (fun _ e =>
        go_if tt (reply from from RPL_STATSXLINE_MSG
          [FC query; FS (Lists_GetMask e); FZ (Lists_GetValidity e); FS (Lists_GetReason e)])) tt h)
      (fun _ => mret true)
  else if has_chr "Ll" query then
    time_now ← time;
    con ← Conn_First;
    n ← get_net (fun n => length (n_conns n));
    stats_links n Client from (query =c "L"%char) time_now con
  else if has_chr "mM" query then
    cmds ← Parse_GetCommandStruct;
    then_ (list_loop (fun _ cmd =>
        if (cmd_lcount cmd =? 0) && (cmd_rcount cmd =? 0) then mret (Go tt)
        else go_if tt (reply from from RPL_STATSCOMMANDS_MSG
               [FS (cmd_name cmd); FZ (cmd_lcount cmd); FZ (cmd_bytes cmd); FZ (cmd_rcount cmd)])) tt cmds)
      (fun _ => mret true)
  else if has_chr "uU" query then
    now ← time;
    let '(days, t) := uptime_days (now - NGIRCd_Start) in
    let '(hrs, t) := uptime_hrs t in
    let '(mins, t) := uptime_mins t in
    reply from from RPL_STATSUPTIME [FZ days; FZ hrs; FZ mins; FZ (u32 t)]
  else mret true.

Definition IRC_STATS (Client : ptr) (Req : REQUEST) : M bool :=
  assert_ (negb (is_null Client));;
  get_sender_or_return Req Client (fun from =>
  get_target_server_or_return Req 1 from (fun target =>
    forward_or target from "STATS %s %s"
      (a ← arg Req 0; id ← Client_ID target; mret [FS a; FS id])
      (let query := match argv Req 0 with
                    | Some a => if hd0 a =c NUL then "*"%char else hd0 a
                    | None => "*"%char
                    end in
       let answer :=
         stats_body Client from query ;!
         reply from from RPL_ENDOFSTATS_MSG [FC query] in
       if has_chr "gGkK" query then
         oper ← Client_HasMode from "o";
         if negb (oper : bool) then reply_error from ERR_NOPRIVILEGES_MSG [] else answer
       else if query =c "L"%char then
         op ← Op_Check from Req;
         if is_null op then Op_NoPrivileges from Req else answer
       else answer))).

(** ** Users *)

Definition IRC_ISON (Client : ptr) (Req : REQUEST) : M bool :=
  assert_ (negb (is_null Client));;
  let names := concat (map (fun a => tokens a " ") (rq_argv Req)) in
  then_ (list_loop (fun rpl p =>
      c ← Client_Search (ngt_TrimStr p);
      user ← (mret (negb (is_null c)) <&&> (ty ← Client_Type c; mret (ty =? CLIENT_USER)));
      if (user : bool) then
        id ← Client_ID c; mret (Go (strlcat (strlcat rpl id COMMAND_LEN) " " COMMAND_LEN))
      else mret (Go rpl)) (strlcpy RPL_ISON_MSG COMMAND_LEN) names)
    (fun rpl => id ← Client_ID Client; IRC_WriteStrClient Client (ngt_TrimLastChr rpl " ") [FS id]).

Definition IRC_USERHOST (Client : ptr) (Req : REQUEST) : M bool :=
  assert_ (negb (is_null Client));;
  then_ (list_loop (fun rpl nick =>
      c ← Client_Search nick;
      user ← (mret (negb (is_null c)) <&&> (ty ← Client_Type c; mret (ty =? CLIENT_USER)));
      if (user : bool) then
        id ← Client_ID c;
        o ← Client_HasMode c "o";
        a ← Client_HasMode c "a";
        user ← Client_User c;
        host ← displayed_host c;
        mret (Go (fold_left (fun s x => strlcat s x COMMAND_LEN)
          [id; if (o : bool) then "*" else ""; "="; if (a : bool) then "-" else "+"; user; "@"; host; " "] rpl))
      else mret (Go rpl)) (strlcpy RPL_USERHOST_MSG COMMAND_LEN) (take 5 (rq_argv Req)))
    (fun rpl => id ← Client_ID Client; IRC_WriteStrClient Client (ngt_TrimLastChr rpl " ") [FS id]).

Definition IRC_SUMMON (Client : ptr) (Req : REQUEST) : M bool :=
  assert_ (negb (is_null Client));; reply_error Client ERR_SUMMONDISABLED_MSG [].

Definition IRC_USERS (Client : ptr) (Req : REQUEST) : M bool :=
  assert_ (negb (is_null Client));; reply_error Client ERR_USERSDISABLED_MSG [].

End IrcInfo.
