(* ===== verification/IrcChannel.v ===== *)
(** * Channel commands (src/server/proto/irc/irc-channel.c)

    JOIN, PART, TOPIC, LIST and CHANINFO.  A JOIN of a local user is subject to
    the access rules of the channel; one that comes from another server is not,
    and can carry the user's modes behind a BEL character. *)

From S2P Require Import Prelude CString Match Hash Checks Lists Messages World ClientCore.
From S2P Require Import ConnFunc ConnSpec ChannelCore State IrcWrite Channel Client Class Conn Parse.
From S2P Require Import Reader Irc IrcInfo.

Definition BEL : ascii := "007"%char.

(** What is left in a buffer when [strtok] has taken the first token from it. *)
Definition strtok_buffer (str delim : string) : string :=
  match strtok_r str delim with
  | None => str
  | Some (tok, _) => str_take (strspn str delim) str +:+ tok
  end.

Section IrcChannel.
Context `{Conf} `{ConnIO}.
Context (read_lines : string -> option (list string)).

(** ** JOIN *)

(** The loop [while (cl2chan = Channel_FirstChannelOf(target))]; every round
    removes a membership. *)
Fixpoint part_all_loop (fuel : nat) (client target : ptr) : M bool :=
  cl2chan ← Channel_FirstChannelOf target;
  match cl2chan with
  | [] => mret true
  | _ =>
      match fuel with
      | O => crash OutOfFuel
      | S fuel' =>
          chan ← Channel_GetChannel cl2chan;
          name ← Channel_Name chan;
          id ← Client_ID target;
          _ ← Channel_Part target client name id;
          part_all_loop fuel' client target
      end
  end.

Definition part_from_all_channels (client target : ptr) : M bool :=
  n ← get_tab (fun t => length (t_My_Cl2Chan t)); part_all_loop n client target.

Definition join_error_msg (e : JOIN_ERROR) : option string :=
  match e with
  | JOIN_ERROR_BANNED => Some ERR_BANNEDFROMCHAN_MSG
  | JOIN_ERROR_INVITEONLY => Some ERR_INVITEONLYCHAN_MSG
  | JOIN_ERROR_BADKEY => Some ERR_BADCHANNELKEY_MSG
  | JOIN_ERROR_FULL => Some ERR_CHANNELISFULL_MSG
  | JOIN_ERROR_SECUREONLY => Some ERR_SECURECHANNEL_MSG
  | JOIN_ERROR_OPONLY => Some ERR_OPONLYCHANNEL_MSG
  | JOIN_ERROR_REGONLY => Some ERR_REGONLYCHANNEL_MSG
  | JOIN_ERROR_NONE => None
  end.

(** What the access rules say about a client. *)
Definition join_verdict (Client chan : ptr) (key : option string) : M JOIN_ERROR :=
  is_operator ← Client_HasMode Client "o";
  is_banned ← check_list ch_bans set_ch_bans chan Client;
  is_exception ← check_list ch_excepts set_ch_excepts chan Client;
  is_invited ← check_list ch_invites set_ch_invites chan Client;
  key_ok ← Channel_CheckKey read_lines chan Client (from_opt "" key);
  is_full ← (Channel_HasMode chan "l"
             <&&> (max ← Channel_MaxUsers chan; n ← Channel_MemberCount chan; mret (max <=? n)));
  conn ← Client_Conn Client;
  let has_ssl := Conn_UsesSSL conn in
  is_registered ← Client_HasMode Client "R";
  z ← Channel_HasMode chan "z";
  oper_only ← Channel_HasMode chan "O";
  reg_only ← Channel_HasMode chan "R";
  mret (Join_Error_FromCheck
    (Join_Check_Access is_operator is_banned is_invited is_exception key_ok is_full z has_ssl
       oper_only reg_only is_registered)).

Definition join_allowed (Client chan : ptr) (channame : string) (key : option string) : M bool :=
  e ← join_verdict Client chan key;
  match join_error_msg e with
  | Some msg => _ ← reply_error Client msg [FS channame]; mret false
  | None => mret true
  end.

Fixpoint add_modes (chan target : ptr) (flags : string) : M unit :=
  match flags with
  | "" => mret tt
  | String f flags' => _ ← Channel_UserModeAdd chan target f; add_modes chan target flags'
  end.

Definition join_set_channelmodes (chan target : ptr) (flags : option string) : M unit :=
  add_modes chan target (from_opt "" flags);;
  auto ← (Channel_HasMode chan "P" <&&> mret Conf_OperChanPAutoOp <&&> Client_HasMode target "o");
  if (auto : bool) then _ ← Channel_UserModeAdd chan target "o"; mret tt else mret tt.

Definition cb_join_forward (Data : string) (To Prefix : ptr) : M unit :=
  let str := strlcpy Data COMMAND_LEN in
  conn ← Client_Conn To;
  options ← Conn_Options conn;
  let rfc1459 := negb (Z.land options CONN_RFC1459 =? 0) in
  let p := if rfc1459 then after BEL str else None in
  let str := if rfc1459 then before BEL str else str in
  _ ← IRC_WriteStrClientPrefix To Prefix "JOIN %s" [FS str];
  match p with
  | Some modes =>
      if negb (hd0 modes =c NUL) then
        id ← Client_ID Prefix;
        _ ← IRC_WriteStrClientPrefix To Prefix "MODE %s +%s %s" [FS str; FS modes; FS id]; mret tt
      else mret tt
  | None => mret tt
  end.

Definition join_forward (Client target chan : ptr) (channame : string) : M unit :=
  m ← Channel_UserModes chan target;
  let m := strlcpy m (CHANNEL_MODE_LEN - 1) in
  let modes := if negb (hd0 m =c NUL) then String BEL m else "" in
  local ← Channel_IsLocal chan;
  (if negb (local : bool) then
     IRC_WriteStrServersPrefixFlag_CB Client target NUL
       (cb_join_forward (snprintf COMMAND_LEN "%s%s" [FS channame; FS modes]))
   else mret tt);;
  IRC_WriteStrChannelPrefix Client chan target false "JOIN :%s" [FS channame];;
  if negb (hd0 m =c NUL) then
    id ← Client_ID target;
    IRC_WriteStrChannelPrefix Client chan target false "MODE %s +%s %s" [FS channame; FS m; FS id]
  else mret tt.

Definition IRC_Send_Channel_Info (Client Chan : ptr) : M bool :=
  topic ← Channel_Topic Chan;
  (if negb (hd0 topic =c NUL) then
     (name ← Channel_Name Chan; reply Client Client RPL_TOPIC_MSG [FS name; FS topic]) ;!
     name ← Channel_Name Chan;
     who ← Channel_TopicWho Chan;
     t ← Channel_TopicTime Chan;
     reply Client Client RPL_TOPICSETBY_MSG [FS name; FS who; FZ t]
   else mret true) ;!
  IRC_Send_NAMES Client Chan ;!
  name ← Channel_Name Chan;
  reply Client Client RPL_ENDOFNAMES_MSG [FS name].

(** Whether a local user may go on to join, and the modes it gets; [inr] if the
    handler skips the channel, or returns. *)
Definition join_local (Client chan : ptr) (channame : string) (key : option string)
    (flags : option string) : M (option string + flow unit) :=
  member ← (if negb (is_null chan) then Channel_IsMemberOf chan Client else mret false);
  if (member : bool) then mret (inr (Go tt))
  else if is_null chan && negb (has_chr Conf_AllowedChannelTypes (hd0 channame)) then
    _ ← reply_error Client ERR_NOSUCHCHANNEL_MSG [FS channame]; mret (inr (Go tt))
  else
    full ← (mret (0 <? Conf_MaxJoins)
            <&&> (n ← Channel_CountForUser Client; mret (Conf_MaxJoins <=? n)));
    if (full : bool) then
      ok ← reply_error Client ERR_TOOMANYCHANNELS_MSG [FS channame];
      mret (inr (if (ok : bool) then Go tt else Exit false))
    else
      allowed ← (if negb (is_null chan) then join_allowed Client chan channame key else mret true);
      if negb (allowed : bool) then mret (inr (Go tt))
      else
        conn ← Client_Conn Client;
        Conn_UpdateIdle conn;;
        mret (inl (if is_null chan && negb (hd0 channame =c "+"%char) then Some "o" else flags)).

Fixpoint add_channel_modes (chan : ptr) (modes : string) : M unit :=
  match modes with
  | "" => mret tt
  | String p modes' => _ ← Channel_ModeAdd chan p; add_channel_modes chan modes'
  end.

(** The modes of a channel that has just been created. *)
Definition init_channel (chan : ptr) : M unit :=
  add_channel_modes chan Conf_DefaultChannelModes;;
  modeless ← Channel_IsModeless chan;
  if (modeless : bool) then _ ← Channel_ModeAdd chan "t"; _ ← Channel_ModeAdd chan "n"; mret tt
  else mret tt.

(** Joining, when it is allowed; a write error ends the loop over the channels. *)
Definition join_now (Client target chan : ptr) (channame : string) (flags : option string)
    : M (flow unit) :=
  joined ← Channel_Join target channame;
  if negb (joined : bool) then mret (Go tt)
  else
    chan ← (if is_null chan then
              chan ← Channel_Search channame;
              assert_ (negb (is_null chan));;
              init_channel chan;; mret chan
            else mret chan);
    join_set_channelmodes chan target flags;;
    join_forward Client target chan channame;;
    ty ← Client_Type Client;
    if ty =? CLIENT_USER then
      ok ← IRC_WriteStrClientPrefix Client target "JOIN :%s" [FS channame];
      if negb (ok : bool) then mret (Stop tt)
      else
        ok ← IRC_Send_Channel_Info Client chan;
        mret (if (ok : bool) then Go tt else Stop tt)
    else mret (Go tt).

(** One channel of the list. *)
Definition join_channel (Client target : ptr) (key : option string) (name : string) : M (flow unit) :=
  ty ← Client_Type Client;
  let flags := if ty =? CLIENT_SERVER then after BEL name else None in
  let channame := if ty =? CLIENT_SERVER then before BEL name else name in
  chan ← Channel_Search channame;
  if ty =? CLIENT_USER then
    r ← join_local Client chan channame key flags;
    match r with
    | inl flags => join_now Client target chan channame flags
    | inr f => mret f
    end
  else
    (if negb (is_null chan) then _ ← check_list ch_invites set_ch_invites chan target; mret tt
     else mret tt);;
    join_now Client target chan channame flags.

(** The loop over the channels, each with the next key as long as there are keys. *)
Definition join_loop (Client target : ptr) (keys channels : list string) : M bool :=
  then_ (list_loop (fun keys name =>
      r ← join_channel Client target (head keys) name;
      mret (match r with
            | Go _ => Go (drop 1 keys)
            | Stop _ => Stop keys
            | Exit b => Exit b
            end)) keys channels)
    (fun _ => mret true).

Definition IRC_JOIN (Client : ptr) (Req : REQUEST) : M bool :=
  assert_ (negb (is_null Client));;
  get_sender_or_return Req Client (fun target =>
    zero ← (if argc Req =? 1 then a ← arg Req 0; mret (strneq "0" a 2) else mret false);
    if (zero : bool) then part_from_all_channels Client target
    else
      let keys := match argv Req 1 with Some k => tokens k "," | None => [] end in
      a ← arg Req 0;
      match Message_Check_Join Req with
      | MESSAGE_CHECK_OK => join_loop Client target keys (tokens a ",")
      | _ => reply_error Client ERR_NEEDMOREPARAMS_MSG [FS (rq_command Req)]
      end).

(** ** PART *)

Fixpoint part_loop (target Client : ptr) (reason : string) (l : list string) : M unit :=
  match l with
  | [] => mret tt
  | chan :: l' => _ ← Channel_Part target Client chan reason; part_loop target Client reason l'
  end.

Definition IRC_PART (Client : ptr) (Req : REQUEST) : M bool :=
  assert_ (negb (is_null Client));;
  get_sender_or_return Req Client (fun target =>
    a ← arg Req 0;
    match tokens a "," with
    | [] => reply_error Client ERR_NEEDMOREPARAMS_MSG [FS (rq_command Req)]
    | l =>
        part_loop target Client (from_opt "" (argv Req 1)) l;;
        conn ← Client_Conn Client;
        (if NONE <? conn then Conn_UpdateIdle conn else mret tt);;
        mret true
    end).

(** ** TOPIC *)

Definition show_topic (Client from chan : ptr) : M bool :=
  topic ← Channel_Topic chan;
  name ← Channel_Name chan;
  if negb (hd0 topic =c NUL) then
    reply from Client RPL_TOPIC_MSG [FS name; FS topic] ;!
    who ← Channel_TopicWho chan;
    t ← Channel_TopicTime chan;
    reply from Client RPL_TOPICSETBY_MSG [FS name; FS who; FZ t]
  else reply from from RPL_NOTOPIC_MSG [FS name].

Definition set_topic (Client from chan : ptr) (name topic : string) : M bool :=
  _ ← Client_Mask from;
  from ← (if Conf_OperServerMode then Client_ThisServer else mret from);
  local ← Channel_IsLocal chan;
  (if negb (local : bool) then
     IRC_WriteStrServersPrefix Client from "TOPIC %s :%s" [FS name; FS topic]
   else mret tt);;
  old ← Channel_Topic chan;
  (if negb (String.eqb topic old) then
     IRC_WriteStrChannelPrefix Client chan from false "TOPIC %s :%s" [FS name; FS topic]
   else mret tt);;
  Channel_SetTopic chan from topic;;
  ty ← Client_Type Client;
  if ty =? CLIENT_USER then
    IRC_WriteStrClientPrefix Client Client "TOPIC %s :%s" [FS name; FS topic]
  else mret true.

Definition IRC_TOPIC (Client : ptr) (Req : REQUEST) : M bool :=
  assert_ (negb (is_null Client));;
  get_sender_or_return Req Client (fun from =>
    name ← arg Req 0;
    chan ← Channel_Search name;
    if is_null chan then reply_error from ERR_NOSUCHCHANNEL_MSG [FS name]
    else
      ty ← Client_Type Client;
      topic_power ← (if negb (ty =? CLIENT_SERVER) then Client_HasMode from "o" else mret true);
      outside ← (mret (negb (ty =? CLIENT_SERVER))
                 <&&> not_ (Channel_IsMemberOf chan from)
                 <&&> mret (negb (Conf_OperCanMode && topic_power)));
      if (outside : bool) then reply_error from ERR_NOTONCHANNEL_MSG [FS name]
      else if argc Req =? 1 then show_topic Client from chan
      else
        locked ← (Channel_HasMode chan "t"
                  <&&> mret (negb topic_power)
                  <&&> not_ (Channel_UserHasMode chan from "h")
                  <&&> not_ (Channel_UserHasMode chan from "o")
                  <&&> not_ (Channel_UserHasMode chan from "a")
                  <&&> not_ (Channel_UserHasMode chan from "q"));
        if (locked : bool) then
          n ← Channel_Name chan; reply_error from ERR_CHANOPRIVSNEEDED_MSG [FS n]
        else topic ← arg Req 1; set_topic Client from chan name topic).

(** ** LIST *)

(** One channel of the reply, which is not shown if it is secret. *)
Definition list_channel (from : ptr) (pattern : string) (count : Z) (chan : ptr) : M (flow Z) :=
  name ← Channel_Name chan;
  shown ← (mret (MatchCaseInsensitive pattern name)
           <&&> (not_ (Channel_HasMode chan "s") <||> Channel_IsMemberOf chan from
                 <||> Client_HasMode from "o"));
  if negb (shown : bool) then mret (Go count)
  else
    big ← (mret (0 <? Conf_MaxListSize) <&&> IRC_CheckListTooBig from count Conf_MaxListSize "LIST");
    if (big : bool) then mret (Stop count)
    else
      go_if (count + 1)
        (name ← Channel_Name chan;
         n ← Channel_MemberCount chan;
         topic ← Channel_Topic chan;
         reply from from RPL_LIST_MSG [FS name; FZ n; FS topic]).

Definition list_pattern (from : ptr) (count : Z) (pattern : string) : M (flow Z) :=
  r ← for_channels count (list_channel from pattern);
  mret (match r with inl count => Go count | inr b => Exit b end).

Definition IRC_LIST (Client : ptr) (Req : REQUEST) : M bool :=
  assert_ (negb (is_null Client));;
  get_sender_or_return Req Client (fun from =>
    let patterns := match argv Req 0 with
                    | Some a => map ngt_LowerStr (tokens a ",")
                    | None => ["*"]
                    end in
    let answer :=
      reply from from RPL_LISTSTART_MSG [] ;!
      then_ (list_loop (list_pattern from) 0 patterns) (fun _ => reply from from RPL_LISTEND_MSG []) in
    if argc Req =? 2 then
      a ← arg Req 0;
      name ← arg Req 1;
      target ← Client_Search name;
      server ← (mret (negb (is_null target)) <&&> (ty ← Client_Type target; mret (ty =? CLIENT_SERVER)));
      if negb (server : bool) then
        id ← Client_ID Client; IRC_WriteErrClient from ERR_NOSUCHSERVER_MSG [FS id; FS name]
      else
        this ← Client_ThisServer;
        if negb (ptr_eqb target this) then
          IRC_WriteStrClientPrefix target from "LIST %s :%s" [FS (strtok_buffer a ","); FS name]
        else answer
    else answer).

(** ** CHANINFO *)

(** The modes, key and limit of a channel that has no modes yet. *)
Definition chaninfo_modes (Client from chan : ptr) (Req : REQUEST) (name modes : string) : M unit :=
  Channel_SetModes chan (str_drop 1 modes);;
  (if argc Req =? 5 then
     k ← Channel_HasMode chan "k";
     (if (k : bool) then key ← arg Req 2; Channel_SetKey chan key else mret tt);;
     l ← Channel_HasMode chan "l";
     if (l : bool) then n ← arg Req 3; Channel_SetMaxUsers chan (atol n mod 2 ^ 64) else mret tt
   else
     _ ← Channel_ModeDel chan "l"; _ ← Channel_ModeDel chan "k"; mret tt);;
  l ← Channel_HasMode chan "l";
  modes_add ← (if (l : bool) then
                 max ← Channel_MaxUsers chan; mret (strlcat "" (snprintf 16 " %lu" [FZ max]) COMMAND_LEN)
               else mret "");
  k ← Channel_HasMode chan "k";
  modes_add ← (if (k : bool) then
                 key ← Channel_Key chan;
                 mret (strlcat (strlcat modes_add " " COMMAND_LEN) key COMMAND_LEN)
               else mret modes_add);
  m ← Channel_Modes chan;
  IRC_WriteStrChannelPrefix Client chan from false "MODE %s +%s%s" [FS name; FS m; FS modes_add].

Definition chaninfo_topic (Client from chan : ptr) (name topic : string) : M unit :=
  old ← Channel_Topic chan;
  if (hd0 old =c NUL) && negb (hd0 topic =c NUL) then
    Channel_SetTopic chan Client topic;;
    t ← Channel_Topic chan;
    IRC_WriteStrChannelPrefix Client chan from false "TOPIC %s :%s" [FS name; FS t]
  else mret tt.

Definition IRC_CHANINFO (Client : ptr) (Req : REQUEST) : M bool :=
  assert_ (negb (is_null Client));;
  if (argc Req <? 2) || (argc Req =? 4) || (5 <? argc Req) then
    reply_error Client ERR_NEEDMOREPARAMS_MSG [FS (rq_command Req)]
  else
    let arg_topic := if argc Req =? 5 then Some 4%nat else if argc Req =? 3 then Some 2%nat else None in
    get_sender_or_return Req Client (fun from =>
      name ← arg Req 0;
      modes ← arg Req 1;
      chan ← Channel_Search name;
      chan ← (if is_null chan then Channel_Create name else mret chan);
      (if hd0 modes =c "+"%char then
         m ← Channel_Modes chan;
         if hd0 m =c NUL then chaninfo_modes Client from chan Req name modes else mret tt
       else Log false "CHANINFO: invalid MODE format ignored!" []);;
      match arg_topic with
      | Some i => topic ← arg Req i; chaninfo_topic Client from chan name topic
      | None => mret tt
      end;;
      match rq_argv Req with
      | [a0; a1; a2; a3; a4] =>
          IRC_WriteStrServersPrefixFlag Client from "C" "CHANINFO %s %s %s %s :%s"
            [FS a0; FS a1; FS a2; FS a3; FS a4]
      | [a0; a1; a2] =>
          IRC_WriteStrServersPrefixFlag Client from "C" "CHANINFO %s %s :%s" [FS a0; FS a1; FS a2]
      | _ =>
          IRC_WriteStrServersPrefixFlag Client from "C" "CHANINFO %s %s" [FS name; FS modes]
      end;;
      mret true).

End IrcChannel.
