(* ===== verification/IrcMode.v ===== *)
(** * Mode commands (src/server/proto/irc/irc-mode.c)

    MODE for clients and channels, and AWAY.

    A mode string is a sequence of mode characters and of the signs + and -; when
    it ends, the next parameter that is not used as an argument is taken as
    another mode string.  A pointer into a parameter is the rest of it.  The
    parameters lie in the read buffer of the connection, where they have been divided by
    terminators, and only the last one can be empty.  When an empty parameter is
    taken as a mode string, its terminator is the first character, and the pointer is
    then moved past it, to what follows in the buffer: so this string is a NUL
    and the text behind the request ([mode_text]).  Parameters that are used as
    arguments are not read again, so that it is not represented that they are
    overwritten. *)

From S2P Require Import Prelude CString Match Hash Checks Lists Messages World ClientCore.
From S2P Require Import ConnFunc ConnSpec ChannelCore State IrcWrite Channel Client Class Conn Parse.
From S2P Require Import Reader Irc IrcInfo.

Definition DEFAULT_AWAY_MSG : string := "Away".

Definition is_sign (c : ascii) : bool := (c =c "+"%char) || (c =c "-"%char).

Definition sign (set : bool) : ascii := if set then "+"%char else "-"%char.

(** A sign in a mode string: the new result string and the new action. *)
Definition set_action (the_modes : string) (set : bool) (m : ascii) : string * bool :=
  if Bool.eqb set (m =c "+"%char) then (the_modes, set)
  else
    (if is_sign (last_chr the_modes)
     then str_take (slen the_modes - 1) the_modes +:+ String m ""
     else strlcat the_modes (String m "") COMMAND_LEN,
     m =c "+"%char).

(** Removes a sign at the end of the result string. *)
Definition clean_modes (the_modes : string) : string :=
  if is_sign (last_chr the_modes) then str_take (slen the_modes - 1) the_modes else the_modes.

(** [++mode_ptr] (and [argv[5] + 1] in IRC_NICK of irc-login.c).  The pointer is in front of a
    character: an empty mode string is read as the text behind it ([mode_text] below),
    whose first character is the terminator, and the parameter of IRC_NICK is not the
    last one, so that it is not empty.  A step from the end of a known text does not occur
    in the mode loops, which the theorems about MODE include. *)
Definition advance (p : string) : M string :=
  match p with "" => crash OutOfBounds | String _ p' => mret p' end.

(** ** The text behind a request *)

Definition nul_at (i : nat) (s : string) : string := str_take i s +:+ String NUL (str_drop (S i) s).

(** What a read buffer holds, up to the next terminator, behind that of its first line,
    when Conn_Process_Buffer has ended the line and ngt_TrimStr has moved it
    to the front of the buffer. *)
Definition text_behind (rbuf : string) : string :=
  match find_eol rbuf with
  | None => ""
  | Some (pos, _) =>
      let line := str_take pos rbuf in
      let len := slen (ngt_TrimStr line) in
      let trimmed := (pos - slen (trim_start line) + len)%nat in
      before NUL (str_drop (S len) (nul_at trimmed (nul_at pos rbuf)))
  end.

(** The same for a request of the client [p], which is the first line in the buffer of its
    connection.  The requests of this server itself have no empty parameters. *)
Definition rest_of (clients : gmap nat CLIENT) (conns : list CONNECTION) (p : ptr) : string :=
  default "" (
    a ← p;
    c ← clients !! a;
    if cl_conn_id c <? 0 then None
    else cn ← conns !! Z.to_nat (cl_conn_id c); Some (text_behind (cn_rbuf cn))).

Definition request_rest (Client : ptr) : M string :=
  clients ← get_tab t_clients; conns ← get_net n_conns; mret (rest_of clients conns Client).

(** A parameter that is read as a mode string. *)
Definition mode_text (behind s : string) : string :=
  match s with "" => String NUL behind | _ => s end.

Definition read_on (behind : string) (Req : REQUEST) : REQUEST :=
  Request (rq_prefix Req) (rq_command Req) (map (mode_text behind) (rq_argv Req)).

(** The number of characters and terminators in the parameters: a bound for the
    rounds of the loops below. *)
Definition mode_fuel (Req : REQUEST) : nat := list_sum (map (fun a => S (slen a)) (rq_argv Req)).

Section IrcMode.
Context `{Conf} `{ConnIO}.

Definition Mode_Limit_Reached (Client : ptr) (Count : Z) : M bool :=
  ty ← Client_Type Client;
  mret (if (ty =? CLIENT_SERVER) || (ty =? CLIENT_SERVICE) then false
        else negb (Count <? MAX_HNDL_MODES_ARG)).

(** ** Client modes *)

(** One mode character: whether the connection is still there, the mode that
    may be changed (or 0), and whether the host name changes. *)
Definition client_mode_char (Client Origin Target : ptr) (set : bool) (m : ascii) : M (bool * ascii * bool) :=
  ty ← Client_Type Client;
  let server := ty =? CLIENT_SERVER in
  let allow : M (bool * ascii * bool) := mret (true, m, false) in
  let deny (fmt : string) (args : list farg) : M (bool * ascii * bool) :=
    ok ← reply_error Origin fmt args; mret (ok, NUL, false) in
  if has_chr "bCiIsw" m && negb (m =c NUL) then allow
  else if m =c "a"%char then
    if server then Client_SetAway Origin DEFAULT_AWAY_MSG;; allow else deny ERR_NOPRIVILEGES_MSG []
  else if m =c "B"%char then
    r ← Client_HasMode Client "r"; if (r : bool) then deny ERR_RESTRICTED_MSG [] else allow
  else if (m =c "c"%char) || (m =c "q"%char) || (m =c "F"%char) then
    ok ← (mret (negb set || server) <||> Client_HasMode Origin "o");
    if (ok : bool) then allow else deny ERR_NOPRIVILEGES_MSG []
  else if m =c "o"%char then
    if negb set || server then allow else deny ERR_NOPRIVILEGES_MSG []
  else if m =c "r"%char then
    if set || server then allow else deny ERR_RESTRICTED_MSG []
  else if m =c "R"%char then
    if server then allow else deny ERR_NICKREGISTER_MSG []
  else if m =c "x"%char then
    r ← Client_HasMode Client "r";
    if (r : bool) then deny ERR_RESTRICTED_MSG []
    else
      ok ← (mret (negb set || negb (hd0 Conf_CloakHostModeX =c NUL) || server)
            <||> Client_HasMode Origin "o");
      if (ok : bool) then mret (true, m, true) else deny ERR_NOPRIVILEGES_MSG []
  else if negb server then deny ERR_UMODEUNKNOWNFLAG2_MSG [FC (sign set); FC m]
  else _ ← Client_ID Origin; _ ← Client_ID Target; allow.

(** The loop: [ok], the result string, and whether the host name changes.  The
    parameters of [Req] are mode texts. *)
Fixpoint client_mode_loop (fuel : nat) (Client Origin Target : ptr) (Req : REQUEST)
    (mode_arg : nat) (mode_ptr the_modes : string) (set hidden : bool) : M (bool * string * bool) :=
  match fuel with
  | O => crash OutOfFuel
  | S fuel' =>
      mode_ptr ← advance mode_ptr;
      let '(mode_arg, next) :=
        match mode_ptr with "" => (S mode_arg, argv Req (S mode_arg)) | _ => (mode_arg, Some mode_ptr) end in
      match next with
      | None => mret (true, the_modes, hidden)
      | Some mode_ptr =>
          let m := hd0 mode_ptr in
          if is_sign m then
            let '(the_modes, set) := set_action the_modes set m in
            client_mode_loop fuel' Client Origin Target Req mode_arg mode_ptr the_modes set hidden
          else
            r ← client_mode_char Client Origin Target set m;
            let '(ok, x, hide) := r in
            let hidden := hidden || hide in
            if negb ok then mret (false, the_modes, hidden)
            else if x =c NUL then
              client_mode_loop fuel' Client Origin Target Req mode_arg mode_ptr the_modes set hidden
            else
              changed ← (if (set : bool) then Client_ModeAdd Target x else Client_ModeDel Target x);
              let the_modes := if (changed : bool) then strlcat the_modes (String x "") COMMAND_LEN
                               else the_modes in
              client_mode_loop fuel' Client Origin Target Req mode_arg mode_ptr the_modes set hidden
      end
  end.

(** What is sent when modes have changed. *)
Definition announce_client_modes (Client Origin Target : ptr) (the_modes : string) (ok hidden : bool) : M bool :=
  ty ← Client_Type Client;
  tid ← Client_ID Target;
  ok ← (if ty =? CLIENT_SERVER then
          conn ← Client_Conn Target;
          (if negb (conn =? NONE) then
             _ ← IRC_WriteStrClientPrefix Target Origin "MODE %s :%s" [FS tid; FS the_modes]; mret tt
           else mret tt);;
          mret ok
        else IRC_WriteStrClientPrefix Client Origin "MODE %s :%s" [FS tid; FS the_modes]);
  tid ← Client_ID Target;
  IRC_WriteStrServersPrefix Client Origin "MODE %s :%s" [FS tid; FS the_modes];;
  local ← (mret hidden <&&> (conn ← Client_Conn Target; mret (NONE <? conn)));
  (if (local : bool) then
     tid ← Client_ID Target;
     host ← Client_HostnameDisplayed Target;
     _ ← IRC_WriteStrClientPrefix Target Origin RPL_HOSTHIDDEN_MSG [FS tid; FS (from_opt "(null)" host)];
     mret tt
   else mret tt);;
  mret ok.

Definition Client_Mode (Client : ptr) (Req : REQUEST) (Origin Target : ptr) : M bool :=
  ty ← Client_Type Client;
  if (ty =? CLIENT_USER) && negb (ptr_eqb Target Client) then
    reply_error Client ERR_USERSDONTMATCH_MSG []
  else match argv Req 1 with
       | None => modes ← Client_Modes Target; reply Origin Target RPL_UMODEIS_MSG [FS modes]
       | Some mode_ptr =>
           if negb (is_sign (hd0 mode_ptr)) then reply_error Origin ERR_UMODEUNKNOWNFLAG_MSG []
           else
             let set := hd0 mode_ptr =c "+"%char in
             r ← client_mode_loop (mode_fuel Req) Client Origin Target Req 1 mode_ptr
                   (String (sign set) "") set false;
             let '(ok, the_modes, hidden) := r in
             if (1 <? slen the_modes)%nat then
               announce_client_modes Client Origin Target (clean_modes the_modes) ok hidden
             else mret ok
       end.

(** ** Channel modes *)

(** The limit and the key, for members of the channel. *)
Fixpoint mode_args (Channel : ptr) (modes the_args : string) : M string :=
  match modes with
  | "" => mret the_args
  | String m modes' =>
      the_args ← (if m =c "l"%char then
                    n ← Channel_MaxUsers Channel;
                    mret (strlcat the_args (snprintf CLIENT_PASS_LEN " %lu" [FZ n]) COMMAND_LEN)
                  else if m =c "k"%char then
                    key ← Channel_Key Channel;
                    mret (strlcat (strlcat the_args " " COMMAND_LEN) key COMMAND_LEN)
                  else mret the_args);
      mode_args Channel modes' the_args
  end.

Definition Channel_Mode_Answer_Request (Origin Channel : ptr) : M bool :=
  member ← Channel_IsMemberOf Channel Origin;
  modes ← Channel_Modes Channel;
  name ← Channel_Name Channel;
  (if negb (member : bool) then reply Origin Origin RPL_CHANNELMODEIS_MSG [FS name; FS modes]
   else
     let the_modes := strlcpy modes COMMAND_LEN in
     the_args ← mode_args Channel the_modes "";
     let the_modes := if negb (hd0 the_args =c NUL) then strlcat the_modes the_args COMMAND_LEN
                      else the_modes in
     reply Origin Origin RPL_CHANNELMODEIS_MSG [FS name; FS the_modes]) ;!
  t ← Channel_CreationTime Channel;
  name ← Channel_Name Channel;
  reply Origin Origin RPL_CREATIONTIME_MSG [FS name; FZ t] ;!
  mret true.

(** The lists of a channel. *)
Definition list_of (what : ascii) : (CHANNEL -> list list_elem) * (list list_elem -> CHANNEL -> CHANNEL) :=
  if what =c "I"%char then (ch_invites, set_ch_invites)
  else if what =c "b"%char then (ch_bans, set_ch_bans)
  else (ch_excepts, set_ch_excepts).

Definition Send_ListChange (IsAdd : bool) (ModeChar : ascii) (Prefix Client Channel : ptr) (Mask : string)
    : M bool :=
  ty ← Client_Type Client;
  name ← Channel_Name Channel;
  let args := [FS name; FC (sign IsAdd); FC ModeChar; FS Mask] in
  ok ← (if ty =? CLIENT_USER then IRC_WriteStrClientPrefix Client Prefix "MODE %s %c%c %s" args
        else mret true);
  IRC_WriteStrServersPrefix Client Prefix "MODE %s %c%c %s" args;;
  IRC_WriteStrChannelPrefix Client Channel Prefix false "MODE %s %c%c %s" args;;
  mret ok.

Definition Add_To_List (what : ascii) (Prefix Client Channel : ptr) (Pattern : string) : M bool :=
  assert_ (negb (is_null Client));;
  assert_ (has_chr "Ibe" what && negb (what =c NUL));;
  let mask := Lists_MakeMask Pattern MASK_LEN in
  c ← the_channel Channel;
  let current_count := Lists_Count (ch_invites c) + Lists_Count (ch_excepts c) + Lists_Count (ch_bans c) in
  if is_some (Lists_CheckDupeMask ((list_of what).1 c) mask) then mret true
  else
    ty ← Client_Type Client;
    if (ty =? CLIENT_USER) && (MAX_HNDL_CHANNEL_LISTS <=? current_count) then
      name ← Channel_Name Channel;
      reply_error Client ERR_LISTFULL_MSG [FS name; FS mask; FZ MAX_HNDL_CHANNEL_LISTS]
    else
      id ← Client_ID Client;
      ok ← (if what =c "I"%char then Channel_AddInvite Channel mask false id
            else if what =c "b"%char then Channel_AddBan Channel mask id
            else Channel_AddExcept Channel mask id);
      if negb (ok : bool) then mret true else Send_ListChange true what Prefix Client Channel mask.

Definition Del_From_List (what : ascii) (Prefix Client Channel : ptr) (Pattern : string) : M bool :=
  assert_ (negb (is_null Client));;
  assert_ (has_chr "Ibe" what && negb (what =c NUL));;
  let mask := Lists_MakeMask Pattern MASK_LEN in
  c ← the_channel Channel;
  if negb (is_some (Lists_CheckDupeMask ((list_of what).1 c) mask)) then mret true
  else
    upd_channel Channel (fun c => (list_of what).2 (Lists_Del ((list_of what).1 c) mask) c);;
    Send_ListChange false what Prefix Client Channel mask.

(** What the originator may do. *)
Record PRIV := Priv {
  is_oper : bool;
  is_machine : bool;
  is_owner : bool;
  is_admin : bool;
  is_op : bool;
  is_halfop : bool }.

Definition powerful (p : PRIV) : bool := is_oper p || is_machine p.
Definition op_or_more (p : PRIV) : bool := powerful p || is_owner p || is_admin p || is_op p.
Definition halfop_or_more (p : PRIV) : bool := op_or_more p || is_halfop p.

(** The modes of the originator in the channel are looked up at every character. *)
Definition member_priv (Channel Client : ptr) (p : PRIV) : M PRIV :=
  if powerful p then mret p
  else
    q ← Channel_UserHasMode Channel Client "q";
    a ← Channel_UserHasMode Channel Client "a";
    o ← Channel_UserHasMode Channel Client "o";
    h ← Channel_UserHasMode Channel Client "h";
    mret (Priv (is_oper p) (is_machine p) (is_owner p || q) (is_admin p || a) (is_op p || o)
               (is_halfop p || h)).

(** The outcome of one mode character: whether the connection is still there and
    the loop goes on, the mode to change (or 0), the argument for the result,
    the member it is about, the position of the next argument ([None] is -1), and
    the number of modes that count for the limit. *)
Record mode_step := ModeStep {
  ms_connected : bool;
  ms_exit : bool;
  ms_x : ascii;
  ms_argadd : string;
  ms_client : ptr;
  ms_arg : option nat;
  ms_count : Z }.

Section channel_mode_char.
Context (Client Origin Channel : ptr) (Req : REQUEST) (p : PRIV) (set : bool) (m : ascii).
Context (arg_arg : option nat) (count : Z).

(** The ways a case of the switch ends. *)
Definition change (x : ascii) (argadd : string) (client : ptr) (arg_arg : option nat) (count : Z) : M mode_step :=
  mret (ModeStep true false x argadd client arg_arg count).

Definition fail_with (leave : bool) (error : M bool) (arg_arg : option nat) (count : Z) : M mode_step :=
  connected ← error; mret (ModeStep connected leave NUL "" NULL arg_arg count).

Definition chan_error (fmt : string) : M bool :=
  name ← Channel_Name Channel; reply_error Origin fmt [FS name].

Definition need_chanop : M bool := chan_error ERR_CHANOPRIVSNEEDED_MSG.

(** The messages about a missing or wrong argument; a server is not told. *)
Definition bad_argument (log : string) (error : M bool) (count : Z) : M mode_step :=
  if is_machine p then
    name ← Channel_Name Channel;
    id ← Client_ID Origin;
    Log false log [FS name; FS id];;
    mret (ModeStep true true NUL "" NULL arg_arg count)
  else fail_with true error arg_arg count.

Definition need_more_params : M bool := reply_error Origin ERR_NEEDMOREPARAMS_MSG [FS (rq_command Req)].

Definition invalid_param (c : ascii) : M bool :=
  name ← Channel_Name Channel; reply_error Origin ERR_INVALIDMODEPARAM_MSG [FS name; FC c].

Definition plain_mode : M mode_step :=
  if halfop_or_more p then change m "" NULL arg_arg count else fail_with false need_chanop arg_arg count.

Definition mode_key : M mode_step :=
  limit ← Mode_Limit_Reached Client count;
  let count := count + 1 in
  if (limit : bool) then mret (ModeStep true true NUL "" NULL arg_arg count)
  else if negb set then
    if halfop_or_more p then
      k ← Channel_HasMode Channel "k";
      change m (if (k : bool) then "*" else "") NULL (S <$> arg_arg) count
    else fail_with false need_chanop arg_arg count
  else match arg_arg with
       | None => bad_argument (dq "Got MODE +k without key for `%s` from `%s`! Ignored.") need_more_params count
       | Some i =>
           key ← arg Req i;
           if (hd0 key =c NUL) || has_chr key " " then bad_argument
             (dq "Got invalid key on MODE +k for `%s` from `%s`! Ignored.") (invalid_param "k") count
           else if halfop_or_more p then
             _ ← Channel_ModeDel Channel "k";
             Channel_SetKey Channel key;;
             k ← Channel_Key Channel;
             change m (strlcpy k CLIENT_PASS_LEN) NULL (Some (S i)) count
           else fail_with false need_chanop (Some (S i)) count
       end.

Definition mode_limit : M mode_step :=
  limit ← Mode_Limit_Reached Client count;
  let count := count + 1 in
  if (limit : bool) then mret (ModeStep true true NUL "" NULL arg_arg count)
  else if negb set then
    if halfop_or_more p then change m "" NULL arg_arg count
    else fail_with false need_chanop arg_arg count
  else match arg_arg with
       | None => bad_argument (dq "Got MODE +l without limit for `%s` from `%s`! Ignored.") need_more_params count
       | Some i =>
           text ← arg Req i;
           let l := atol text in
           if (l <=? 0) || (0xFFFF <=? l) then bad_argument
             (dq "Got MODE +l with invalid limit for `%s` from `%s`! Ignored.") (invalid_param "l") count
           else if halfop_or_more p then
             _ ← Channel_ModeDel Channel "l";
             Channel_SetMaxUsers Channel l;;
             change m (snprintf CLIENT_PASS_LEN "%ld" [FZ l]) NULL (Some (S i)) count
           else fail_with false need_chanop (Some (S i)) count
       end.

(** The modes O and P. *)
Definition mode_oper : M mode_step :=
  if set then
    if powerful p then change m "" NULL arg_arg count
    else fail_with false (reply_error Origin ERR_NOPRIVILEGES_MSG []) arg_arg count
  else if op_or_more p then change m "" NULL arg_arg count
  else fail_with false need_chanop arg_arg count.

(** The last check of the modes of members. *)
Definition mode_member : M mode_step :=
  match arg_arg with
  | None => mret (ModeStep true true NUL "" NULL arg_arg count)
  | Some i =>
      nick ← arg Req i;
      if halfop_or_more p then
        client ← Client_Search nick;
        if negb (is_null client) then change m "" client (Some (S i)) count
        else fail_with false (reply_error Origin ERR_NOSUCHNICK_MSG [FS nick]) (Some (S i)) count
      else fail_with false need_chanop (Some (S i)) count
  end.

Definition mode_list : M mode_step :=
  limit ← Mode_Limit_Reached Client count;
  let count := count + 1 in
  if (limit : bool) then mret (ModeStep true true NUL "" NULL arg_arg count)
  else match arg_arg with
       | Some i =>
           mask ← arg Req i;
           fail_with false
             (if halfop_or_more p then
                if set then Add_To_List m Origin Client Channel mask
                else Del_From_List m Origin Client Channel mask
              else need_chanop) (Some (S i)) count
       | None =>
           _ ← (if m =c "I"%char then Channel_ShowInvites Origin Channel
                else if m =c "b"%char then Channel_ShowBans Origin Channel
                else Channel_ShowExcepts Origin Channel);
           change NUL "" NULL arg_arg count
       end.

Definition unknown_mode : M mode_step :=
  ty ← Client_Type Client;
  if negb (ty =? CLIENT_SERVER) then
    name ← Channel_Name Channel;
    fail_with false (reply_error Origin ERR_UNKNOWNMODE_MSG [FC m; FS name]) arg_arg count
  else _ ← Client_ID Origin; change m "" NULL arg_arg count.

Definition channel_mode_char : M mode_step :=
  let one_of (s : string) : bool := has_chr s m && negb (m =c NUL) in
  if one_of "Rsz" && negb (op_or_more p) then fail_with true need_chanop arg_arg count
  else if one_of "RsziVMmnNQt" then plain_mode
  else if m =c "k"%char then mode_key
  else if m =c "l"%char then mode_limit
  else if one_of "OP" then mode_oper
  else if one_of "q" && negb (powerful p || is_owner p) then
    fail_with true (chan_error ERR_CHANOPPRIVTOOLOW_MSG) arg_arg count
  else if one_of "qa" && negb (powerful p || is_owner p || is_admin p) then
    fail_with true (chan_error ERR_CHANOPPRIVTOOLOW_MSG) arg_arg count
  else if one_of "qaoh" && negb (op_or_more p) then fail_with true need_chanop arg_arg count
  else if one_of "qaohv" then mode_member
  else if one_of "Ibe" then mode_list
  else unknown_mode.

End channel_mode_char.

(** The result strings of the loop. *)
Record mode_result := ModeResult {
  mr_set : bool;
  mr_modes : string;
  mr_args : string }.

(** Carries out a change; [None] if the loop ends since the error that the client
    is not a member could not be written. *)
Definition apply_mode (Origin Channel : ptr) (s : mode_step) (r : mode_result) : M (option mode_result) :=
  let client := ms_client s in
  let x := ms_x s in
  outsider ← (mret (negb (is_null client)) <&&> not_ (Channel_IsMemberOf Channel client));
  if (outsider : bool) then
    cid ← Client_ID client;
    name ← Channel_Name Channel;
    ok ← reply_error Origin ERR_USERNOTINCHANNEL_MSG [FS cid; FS name];
    mret (if (ok : bool) then Some r else None)
  else
    retval ← (if negb (is_null client) then
                (if mr_set r then Channel_UserModeAdd Channel client x
                 else Channel_UserModeDel Channel client x)
              else if mr_set r then Channel_ModeAdd Channel x else Channel_ModeDel Channel x);
    args ← (if retval && negb (is_null client) then
              cid ← Client_ID client;
              mret (strlcat (strlcat (mr_args r) " " COMMAND_LEN) cid COMMAND_LEN)
            else mret (mr_args r));
    let modes := if (retval : bool) then strlcat (mr_modes r) (String x "") COMMAND_LEN else mr_modes r in
    let args := if negb (hd0 (ms_argadd s) =c NUL)
                then strlcat (strlcat args " " COMMAND_LEN) (ms_argadd s) COMMAND_LEN else args in
    mret (Some (ModeResult (mr_set r) modes args)).

(** The position of an argument behind [mode_arg], if there is one. *)
Definition arg_behind (Req : REQUEST) (mode_arg : nat) : option nat :=
  if (S mode_arg <? length (rq_argv Req))%nat then Some (S mode_arg) else None.

(** The next mode string, when the current one has ended: its number, its
    text, and the position of the first argument behind it. *)
Definition next_mode_string (behind : string) (Req : REQUEST) (arg_arg : option nat) : option (nat * string * option nat) :=
  match arg_arg with
  | None => None
  | Some i => match argv Req i with
              | None => None
              | Some s => Some (i, mode_text behind s, arg_behind Req i)
              end
  end.

(** The loop: the connection status and the result strings. *)
Fixpoint channel_mode_loop (fuel : nat) (Client Origin Channel : ptr) (behind : string) (Req : REQUEST)
    (skiponce : bool) (mode_ptr : string) (arg_arg : option nat) (count : Z) (p : PRIV) (r : mode_result)
    : M (bool * mode_result) :=
  match fuel with
  | O => crash OutOfFuel
  | S fuel' =>
      mode_ptr ← (if skiponce then mret mode_ptr else advance mode_ptr);
      match match mode_ptr with
            | "" => (fun x => (x.1.2, x.2)) <$> next_mode_string behind Req arg_arg
            | _ => Some (mode_ptr, arg_arg)
            end with
      | None => mret (true, r)
      | Some (mode_ptr, arg_arg) =>
          let m := hd0 mode_ptr in
          if is_sign m then
            let '(the_modes, set) := set_action (mr_modes r) (mr_set r) m in
            channel_mode_loop fuel' Client Origin Channel behind Req false mode_ptr arg_arg count p
              (ModeResult set the_modes (mr_args r))
          else
            let arg_arg := match arg_arg with
                           | Some i => if (length (rq_argv Req) <=? i)%nat then None else Some i
                           | None => None
                           end in
            p ← member_priv Channel Client p;
            s ← channel_mode_char Client Origin Channel Req p (mr_set r) m arg_arg count;
            if ms_exit s || negb (ms_connected s) then mret (ms_connected s, r)
            else if ms_x s =c NUL then
              channel_mode_loop fuel' Client Origin Channel behind Req false mode_ptr (ms_arg s) (ms_count s) p r
            else
              r' ← apply_mode Origin Channel s r;
              match r' with
              | None => mret (true, r)
              | Some r =>
                  channel_mode_loop fuel' Client Origin Channel behind Req false mode_ptr (ms_arg s) (ms_count s) p r
              end
      end
  end.

Definition announce_channel_modes (Client Origin Channel : ptr) (connected : bool) (r : mode_result) : M bool :=
  ty ← Client_Type Client;
  this ← Client_ThisServer;
  local ← Channel_IsLocal Channel;
  name ← Channel_Name Channel;
  let args := [FS name; FS (clean_modes (mr_modes r)); FS (mr_args r)] in
  if ty =? CLIENT_SERVER then
    if local && negb (ptr_eqb Client this) then
      Log false "Got remote MODE command for local channel!? Ignored." [];; mret true
    else
      IRC_WriteStrServersPrefix Client Origin "MODE %s %s%s" args;;
      IRC_WriteStrChannelPrefix Client Channel Origin false "MODE %s %s%s" args;;
      mret connected
  else
    let Origin := if Conf_OperServerMode then this else Origin in
    connected ← IRC_WriteStrClientPrefix Client Origin "MODE %s %s%s" args;
    (if negb (local : bool) then IRC_WriteStrServersPrefix Client Origin "MODE %s %s%s" args else mret tt);;
    IRC_WriteStrChannelPrefix Client Channel Origin false "MODE %s %s%s" args;;
    mret connected.

Definition Channel_Mode (Client : ptr) (behind : string) (Req : REQUEST) (Origin Channel : ptr) : M bool :=
  modeless ← Channel_IsModeless Channel;
  if (modeless : bool) then name ← Channel_Name Channel; reply_error Client ERR_NOCHANMODES_MSG [FS name]
  else match argv Req 1 with
       | None => Channel_Mode_Answer_Request Origin Channel
       | Some mode_ptr =>
           oper ← (Client_HasMode Client "o" <&&> mret Conf_OperCanMode);
           ty ← Client_Type Client;
           let machine := (ty =? CLIENT_SERVER) || (ty =? CLIENT_SERVICE) in
           member ← Channel_IsMemberOf Channel Client;
           if negb member && negb oper && negb machine then
             chan_error Origin Channel ERR_NOTONCHANNEL_MSG
           else
             let set := negb (hd0 mode_ptr =c "-"%char) in
             r ← channel_mode_loop (mode_fuel (read_on behind Req)) Client Origin Channel behind Req (negb (is_sign (hd0 mode_ptr)))
                   mode_ptr (arg_behind Req 1) 0 (Priv oper machine false false false false)
                   (ModeResult set (String (sign set) "") "");
             let '(connected, r) := r in
             if (1 <? slen (mr_modes r))%nat then announce_channel_modes Client Origin Channel connected r
             else mret connected
       end.

(** ** The handlers *)

Definition IRC_MODE (Client : ptr) (Req : REQUEST) : M bool :=
  assert_ (negb (is_null Client));;
  behind ← request_rest Client;
  get_sender_or_return Req Client (fun origin =>
    this ← Client_ThisServer;
    fake ← match rq_prefix Req with
           | Some prefix => c ← Client_Search prefix; mret (ptr_eqb c this)
           | None => mret false
           end;
    let Client := if (fake : bool) then this else Client in
    name ← arg Req 0;
    let is_valid_nick := Client_IsValidNick name in
    cl ← (if is_valid_nick then Client_Search name else mret NULL);
    chan ← (if Channel_IsValidName name then Channel_Search name else mret NULL);
    if negb (is_null cl) then Client_Mode Client (read_on behind Req) origin cl
    else if negb (is_null chan) then Channel_Mode Client behind Req origin chan
    else reply_error Client (if is_valid_nick then ERR_NOSUCHNICK_MSG else ERR_NOSUCHCHANNEL_MSG) [FS name]).

Definition IRC_AWAY (Client : ptr) (Req : REQUEST) : M bool :=
  assert_ (negb (is_null Client));;
  match rq_argv Req with
  | [String c text] =>
      Client_SetAway Client (String c text);;
      _ ← Client_ModeAdd Client "a";
      id ← Client_ID Client;
      IRC_WriteStrServersPrefix Client Client "MODE %s :+a" [FS id];;
      reply Client Client RPL_NOWAWAY_MSG []
  | _ =>
      _ ← Client_ModeDel Client "a";
      id ← Client_ID Client;
      IRC_WriteStrServersPrefix Client Client "MODE %s :-a" [FS id];;
      reply Client Client RPL_UNAWAY_MSG []
  end.

End IrcMode.
