(* ===== verification/Predef.v ===== *)
(** * Predefined channels (src/state/channel/channel.c)

    The channels of the configuration are created when the server starts, and
    again when it has read its configuration again; their modes are set by MODE
    requests that the server makes up.  The array of configured channels is never
    emptied, but the mode lines are freed when they have been evaluated. *)

From S2P Require Import Prelude CString Match Hash Checks Lists Messages World ClientCore.
From S2P Require Import ConnFunc ConnSpec ChannelCore State IrcWrite Channel Client Conn.
From S2P Require Import Irc IrcChannel IrcMode.

(** A configured channel; [pd_freed]: its mode lines have been freed. *)
Record PREDEF := Predef { pd_chan : CONF_CHANNEL; pd_freed : bool }.

Section Predef.
Context `{Conf} `{ConnIO}.

(** The parameters of MODE for a line: at most 14 words behind the name. *)
Definition mode_argv (name line : string) : list string :=
  strlcpy name CHANNEL_NAME_LEN :: take 14 (tokens (strlcpy line COMMAND_LEN) " ").

(** One line.  Key and limit are set from their own settings. *)
Definition predef_mode (new_chan : ptr) (conf_chan : CONF_CHANNEL) (prefix line : string) : M unit :=
  let argv := mode_argv (cc_name conf_chan) line in
  match argv with
  | _ :: arg :: _ =>
      (if has_chr arg "k" then
         Channel_SetKey new_chan (cc_key conf_chan);; _ ← Channel_ModeAdd new_chan "k"; mret tt
       else mret tt);;
      (if has_chr arg "l" then
         Channel_SetMaxUsers new_chan (cc_maxusers conf_chan);; _ ← Channel_ModeAdd new_chan "l"; mret tt
       else mret tt);;
      this ← Client_ThisServer;
      _ ← IRC_MODE this (Request (Some prefix) "MODE" argv); mret tt
  | _ => mret tt
  end.

Fixpoint predef_modes (new_chan : ptr) (conf_chan : CONF_CHANNEL) (prefix : string) (lines : list string) : M unit :=
  match lines with
  | [] => mret tt
  | line :: rest => predef_mode new_chan conf_chan prefix line;; predef_modes new_chan conf_chan prefix rest
  end.

(** The mode lines of a channel that has been created. *)
Definition eval_modes (new_chan : ptr) (p : PREDEF) : M unit :=
  match cc_modes_lines (pd_chan p) with
  | [] => mret tt
  | lines =>
      this ← Client_ThisServer;
      prefix ← Client_ID this;
      if pd_freed p then crash UseAfterFree
      else predef_modes new_chan (pd_chan p) prefix lines
  end.

(** One channel; the result tells whether the lines are freed now. *)
Definition init_predefined (p : PREDEF) : M PREDEF :=
  let conf_chan := pd_chan p in
  let name := cc_name conf_chan in
  if hd0 name =c NUL then mret p
  else if negb (Channel_IsValidName name) then
    Log false (dq "Can't create pre-defined channel: invalid name: `%s`") [FS name];; mret p
  else
    new_chan ← Channel_Search name;
    if negb (is_null new_chan) then
      Log false (dq "Can't create pre-defined channel `%s`: name already in use.") [FS name];;
      Set_KeyFile new_chan (cc_keyfile conf_chan);; mret p
    else
      new_chan ← Channel_Create name;
      _ ← Channel_ModeAdd new_chan "P";
      (if negb (hd0 (cc_topic conf_chan) =c NUL) then Channel_SetTopic new_chan NULL (cc_topic conf_chan)
       else mret tt);;
      eval_modes new_chan p;;
      Set_KeyFile new_chan (cc_keyfile conf_chan);;
      c ← deref_channel new_chan;
      Log false (dq "Created pre-defined channel `%s`, mode `%s` (%s, user limit %d).")
        [FS (ch_name c); FS (ch_modes c);
         FS (if negb (hd0 (ch_key c) =c NUL) then "channel key set" else "no channel key");
         FZ (to_int (ch_maxusers c))];;
      mret (Predef conf_chan true).

Fixpoint init_all_predefined (l : list PREDEF) : M (list PREDEF) :=
  match l with
  | [] => mret []
  | p :: l' => p ← init_predefined p; l' ← init_all_predefined l'; mret (p :: l')
  end.

(** The channel for messages of the server. *)
Definition init_server_channel : M unit :=
  c ← Channel_Search "&SERVER";
  if is_null c then
    new_chan ← Channel_Create "&SERVER";
    Channel_SetModes new_chan "mnPt";;
    this ← Client_ThisServer;
    Channel_SetTopic new_chan this "Server Messages"
  else mret tt.

Definition Channel_InitPredefined (l : list PREDEF) : M (list PREDEF) :=
  l ← init_all_predefined l; init_server_channel;; mret l.

End Predef.
