(* ===== verification/Login.v ===== *)
(** * The end of the registration (src/state/login/login.c)

    A client that has sent everything is checked against the server password
    and the server bans, introduced to the network, greeted, and joined to the
    channels of the configuration.  The handlers of MODE and JOIN are called
    with requests that the server makes up.  Without PAM. *)

From S2P Require Import Prelude CString Match Hash Checks Lists Messages World ClientCore.
From S2P Require Import ConnFunc ConnSpec ChannelCore State IrcWrite Channel Client Class Conn Parse.
From S2P Require Import Reader Irc IrcInfo IrcChannel IrcMode.

Definition USERMODES : string := "abBcCFiIoqrRswx".
Definition CHANMODES : string := "abehiIklmMnoOPqQrRstvVz".

Section Login.
Context `{Conf} `{ConnIO}.
Context (read_lines : string -> option (list string)).

Fixpoint autojoin_loop (Client : ptr) (l : list CONF_CHANNEL) : M unit :=
  match l with
  | [] => mret tt
  | conf_chan :: l' =>
      (if negb (cc_autojoin conf_chan) then mret tt
       else
         chan ← Channel_Search (cc_name conf_chan);
         if is_null chan then mret tt
         else
           this ← Client_ThisServer;
           id ← Client_ID this;
           _ ← IRC_JOIN read_lines Client (Request (Some id) "JOIN" [cc_name conf_chan]);
           mret tt);;
      autojoin_loop Client l'
  end.

Definition Login_Autojoin (Client : ptr) : M unit := autojoin_loop Client Conf_Channels.

Definition set_default_modes (Client : ptr) : M unit :=
  if negb (hd0 Conf_DefaultUserModes =c NUL) then
    let modes := snprintf (CLIENT_MODE_LEN + 1) "+%s" [FS Conf_DefaultUserModes] in
    this ← Client_ThisServer;
    prefix ← Client_ID this;
    id ← Client_ID Client;
    _ ← IRC_MODE Client (Request (Some prefix) "MODE" [id; modes]); mret tt
  else IRC_SetPenalty Client 1.

Definition Login_User_PostAuth (Client : ptr) : M bool :=
  assert_ (negb (is_null Client));;
  Class_HandleServerBans Client ;!
  Client_Introduce NULL Client CLIENT_USER;;
  (mask ← Client_Mask Client; reply Client Client RPL_WELCOME_MSG [FS mask]) ;!
  (this ← Client_ThisServer;
   sid ← Client_ID this;
   reply Client Client RPL_YOURHOST_MSG
     [FS sid; FS PACKAGE_VERSION; FS HOST_CPU; FS HOST_VENDOR; FS HOST_OS]) ;!
  reply Client Client RPL_CREATED_MSG [FS NGIRCd_StartStr] ;!
  (this ← Client_ThisServer;
   sid ← Client_ID this;
   reply Client Client RPL_MYINFO_MSG [FS sid; FS PACKAGE_VERSION; FS USERMODES; FS CHANMODES]) ;!
  IRC_Send_ISUPPORT Client ;!
  IRC_Send_LUSERS Client ;!
  IRC_Show_MOTD Client ;!
  set_default_modes Client;;
  Login_Autojoin Client;;
  mret true.

Definition Login_User (Client : ptr) : M bool :=
  assert_ (negb (is_null Client));;
  conn ← Client_Conn Client;
  waiting ← (mret Conf_AuthPing <&&> (ping ← Conn_GetAuthPing conn; mret (negb (ping =? 0))));
  if (waiting : bool) then Client_SetType Client CLIENT_WAITAUTHPING;; mret true
  else
    cap ← Client_Cap Client;
    (if negb (Z.land cap CLIENT_CAP_PENDING =? 0) then Client_CapDel Client CLIENT_CAP_PENDING
     else mret tt);;
    bad ← (mret (negb (hd0 Conf_ServerPwd =c NUL))
           <&&> (pwd ← Conn_Password conn; mret (negb (String.eqb pwd Conf_ServerPwd))));
    if (bad : bool) then Client_Reject Client "Bad server password" false;; mret false
    else Login_User_PostAuth Client.

End Login.
