(* ===== verification/IrcLogin.v ===== *)
(** * Registration commands (src/server/proto/irc/irc-login.c, irc-cap.c, irc-metadata.c)

    PASS, NICK, USER, SERVICE, QUIT, PING and PONG, with the way from a new
    connection to a registered user; the negotiation of capabilities (CAP), and
    the METADATA command between servers.  [rand] is the number that rand(3)
    returns for an authentication PING. *)

From S2P Require Import Prelude CString Match Hash Checks Lists Messages World ClientCore.
From S2P Require Import ConnFunc ConnSpec ChannelCore State IrcWrite Channel Client Class Conn Parse.
From S2P Require Import Reader Irc IrcInfo IrcChannel IrcMode Login.

Definition PROTOIRCPLUS : string := "-IRC+".

(** [atoi] *)
Definition atoi (s : string) : Z := to_int (atol s).

(** [isalnum], in the C locale. *)
Definition is_alnum (c : ascii) : bool := is_upper c || is_lower c || is_digit c.

Section IrcLogin.
Context `{Conf} `{ConnIO}.
Context (read_lines : string -> option (list string)) (rand : Z).

(** *** More macros of irc-macros.h *)

Definition argc_eq_or_return (Client : ptr) (Req : REQUEST) (n : Z) (k : M bool) : M bool :=
  if negb (argc Req =? n) then reply_error Client ERR_NEEDMOREPARAMS_MSG [FS (rq_command Req)] else k.

Definition require_prefix_or_return (Client : ptr) (Req : REQUEST) (k : string -> M bool) : M bool :=
  match rq_prefix Req with
  | None => reply_error Client ERR_NEEDMOREPARAMS_MSG [FS (rq_command Req)]
  | Some prefix => k prefix
  end.

(** ** PASS *)

(** The flags that the third and fourth parameter announce. *)
Definition pass_flags (type : option string) (impl orig_flags : string) : string :=
  match type with
  | Some t =>
      if String.eqb t PROTOIRCPLUS then
        match after "|" impl with
        | Some serverver => from_opt "" (after ":" serverver)
        | None => from_opt "" (after ":" impl)
        end
      else if has_chr orig_flags "Z" then "Z" else ""
  | None => if has_chr orig_flags "Z" then "Z" else ""
  end.

Definition IRC_PASS (Client : ptr) (Req : REQUEST) : M bool :=
  assert_ (negb (is_null Client));;
  ty ← Client_Type Client;
  match Login_Check_Pass ty (argc Req) with
  | LOGIN_CHECK_ALLOWED =>
      conn ← Client_Conn Client;
      pwd ← arg Req 0;
      Conn_SetPassword conn pwd;;
      let version := from_opt "" (argv Req 1) in
      Client_SetType Client
        (if (4 <=? slen version)%nat then CLIENT_GOTPASS_2813 else CLIENT_GOTPASS);;
      let type := if (4 <? slen version)%nat then Some (str_drop 4 version) else None in
      match argv Req 2 with
      | None => mret true
      | Some impl =>
          Client_SetFlags Client (pass_flags type impl (from_opt "" (argv Req 3)));; mret true
      end
  | LOGIN_CHECK_NEEDMOREPARAMS => reply_error Client ERR_NEEDMOREPARAMS_MSG [FS (rq_command Req)]
  | LOGIN_CHECK_ALREADYREGISTERED => reply_error Client ERR_ALREADYREGISTRED_MSG []
  | _ => reply_error Client ERR_UNKNOWNCOMMAND_MSG [FS (rq_command Req)]
  end.

(** ** NICK *)

Definition Change_Nick (Origin Target : ptr) (NewNick : string) (InformClient : bool) : M unit :=
  conn ← Client_Conn Target;
  (if NONE <? conn then
     mask ← Client_Mask Target;
     id ← Client_ID Target;
     tt_ ← Client_TypeText Target;
     Log false (dq "%s `%s` changed nick (connection %d): `%s` -> `%s`.")
       [FS tt_; FS mask; FZ conn; FS id; FS NewNick];;
     Conn_UpdateIdle conn
   else _ ← Client_ID Target; mret tt);;
  (if InformClient then
     _ ← IRC_WriteStrClientPrefix Target Target "NICK :%s" [FS NewNick];
     IRC_WriteStrServersPrefix NULL Target "NICK :%s" [FS NewNick]
   else IRC_WriteStrServersPrefix Origin Target "NICK :%s" [FS NewNick]);;
  IRC_WriteStrRelatedPrefix Target Target false "NICK :%s" [FS NewNick];;
  Client_RegisterWhowas Target;;
  Client_SetID Target NewNick.

(** A nickname of a client that is not registered yet. *)
Definition new_nick (Client target : ptr) (nick : string) : M bool :=
  Client_SetID target nick;;
  conn ← Client_Conn Client;
  (if Conf_AuthPing then
     Conn_SetAuthPing conn rand;;
     ping ← Conn_GetAuthPing conn;
     _ ← Conn_WriteStr conn "PING :%ld" [FZ ping]; mret tt
   else mret tt);;
  ty ← Client_Type Client;
  cap ← Client_Cap Client;
  ping ← Conn_GetAuthPing conn;
  match Login_Flow_OnNick ty (ty =? CLIENT_GOTUSER) (negb (Z.land cap CLIENT_CAP_PENDING =? 0))
          (negb (ping =? 0)) true with
  | LOGIN_FLOW_LOGIN_NOW => Login_User read_lines Client
  | LOGIN_FLOW_SET_GOTNICK => Client_SetType Client CLIENT_GOTNICK;; mret true
  | _ => mret true
  end.

(** A change of the nickname; not while the user is on a channel with mode N. *)
Definition change_nick (Client target : ptr) (nick : string) : M bool :=
  ty ← Client_Type Client;
  bound ← (mret (ty =? CLIENT_USER) <&&> not_ (Client_HasMode Client "o"));
  then_ (if (bound : bool) then
           for_channels tt (fun _ chan =>
             n ← (Channel_HasMode chan "N" <&&> Channel_IsMemberOf chan Client);
             if (n : bool) then
               name ← Channel_Name chan;
               r ← reply_error Client ERR_NONICKCHANGE_MSG [FS name]; mret (Exit r)
             else mret (Go tt))
         else mret (inl tt))
    (fun _ =>
      ty ← Client_Type Client;
      Change_Nick Client target nick (ty =? CLIENT_USER);;
      IRC_SetPenalty target 2;;
      mret true).

Definition nick_user_or_change (Client : ptr) (Req : REQUEST) : M bool :=
  argc_eq_or_return Client Req 1
    (nick ← arg Req 0;
     ty ← Client_Type Client;
     let go_on (target : ptr) : M bool :=
       id ← Client_ID target;
       if String.eqb id nick then mret true
       else
         ok ← (if negb (strcaseeq id nick) then Client_CheckNick target nick else mret true);
         if negb (ok : bool) then mret true
         else
           tty ← Client_Type target;
           if negb (tty =? CLIENT_USER) && negb (tty =? CLIENT_SERVICE) && negb (tty =? CLIENT_SERVER)
           then new_nick Client target nick
           else change_nick Client target nick in
     if ty =? CLIENT_SERVER then
       require_prefix_or_return Client Req (fun prefix =>
         target ← Client_Search prefix;
         if is_null target then reply_error Client ERR_NOSUCHNICK_MSG [FS nick] else go_on target)
     else
       r ← Client_HasMode Client "r";
       if (r : bool) then reply_error Client ERR_RESTRICTED_MSG [] else go_on Client).

(** What a server says about a user: nick, hops, user, host, token, modes, info. *)
Definition nick_args (Client : ptr) (Req : REQUEST) : M (string * Z * string * string * Z * string * string) :=
  match rq_argv Req with
  | nick :: hops :: user :: hostname :: token :: modes :: info :: _ =>
      modes ← advance modes; mret (nick, atoi hops, user, hostname, atoi token, modes, info)
  | nick :: token :: _ =>
      hostname ← Client_ID Client; mret (nick, 1, nick, hostname, atoi token, "", nick)
  | _ => crash NullDeref
  end.

Definition nick_introduce (Client : ptr) (Req : REQUEST) : M bool :=
  if negb (argc Req =? 2) && negb (argc Req =? 7) then
    reply_error Client ERR_NEEDMOREPARAMS_MSG [FS (rq_command Req)]
  else
    args ← nick_args Client Req;
    let '(nick, hops, user, hostname, token, modes, info) := args in
    c ← Client_Search nick;
    if negb (is_null c) then
      id ← Client_ID Client;
      Log false (dq "Server %s introduces already registered nick `%s`!") [FS id; FS nick];;
      IRC_KillClient Client NULL nick "Nick collision"
    else
      intr_c ← Client_GetFromToken Client token;
      if is_null intr_c then
        id ← Client_ID Client;
        Log false (dq "Server %s introduces nick `%s` on unknown server!?") [FS id; FS nick];;
        IRC_KillClient Client NULL nick "Unknown server"
      else
        c ← Client_NewRemoteUser intr_c nick hops (Some user) (Some hostname) token (Some modes)
              (Some info) true;
        (if argc Req <? 7 then Client_SetType c CLIENT_GOTNICK else Client_Introduce Client c CLIENT_USER);;
        mret true.

Definition IRC_NICK (Client : ptr) (Req : REQUEST) : M bool :=
  assert_ (negb (is_null Client));;
  ty ← Client_Type Client;
  match Nick_Check_Context ty (argc Req) with
  | NICK_CHECK_USER_OR_CHANGE => nick_user_or_change Client Req
  | NICK_CHECK_SERVER_INTRODUCE => nick_introduce Client Req
  | NICK_CHECK_ALREADY_REGISTERED => reply_error Client ERR_ALREADYREGISTRED_MSG []
  end.

Definition IRC_SVSNICK (Client : ptr) (Req : REQUEST) : M bool :=
  assert_ (negb (is_null Client));;
  require_prefix_or_return Client Req (fun prefix =>
    from ← Client_Search prefix;
    let from := if is_null from then Client else from in
    old ← arg Req 0;
    target ← Client_Search old;
    user ← (mret (negb (is_null target)) <&&> (ty ← Client_Type target; mret (ty =? CLIENT_USER)));
    if negb (user : bool) then reply_error Client ERR_NOSUCHNICK_MSG [FS old]
    else
      nick ← arg Req 1;
      conn ← Client_Conn target;
      if conn <=? NONE then
        hop ← Client_NextHop target;
        IRC_WriteStrClientPrefix hop from "SVSNICK %s %s" [FS old; FS nick]
      else
        ok ← Client_CheckNick from nick;
        if negb (ok : bool) then mret true else Change_Nick from target nick true;; mret true).

(** ** USER *)

Definition user_name_ok (s : string) : bool :=
  str_forall (fun c => is_alnum c || (has_chr "+-@._" c && negb (c =c NUL))) s.

Definition user_new (Client : ptr) (Req : REQUEST) : M bool :=
  argc_eq_or_return Client Req 4
    (user ← arg Req 0;
     conn ← Client_Conn Client;
     if negb (user_name_ok user) then
       Conn_Close conn None (Some "Invalid user name") true;; mret false
     else
       Client_SetOrigUser Client user;;
       Client_SetUser Client (before "@" user) false;;
       info ← arg Req 3;
       Client_SetInfo Client (if negb (hd0 info =c NUL) then info else "-");;
       ty ← Client_Type Client;
       cap ← Client_Cap Client;
       ping ← Conn_GetAuthPing conn;
       match Login_Flow_OnUser ty (ty =? CLIENT_GOTNICK) (negb (Z.land cap CLIENT_CAP_PENDING =? 0))
               (negb (ping =? 0)) true with
       | LOGIN_FLOW_LOGIN_NOW => Login_User read_lines Client
       | LOGIN_FLOW_SET_GOTUSER => Client_SetType Client CLIENT_GOTUSER;; mret true
       | _ => mret true
       end).

Definition user_update (Client : ptr) (Req : REQUEST) : M bool :=
  argc_eq_or_return Client Req 4
    (require_prefix_or_return Client Req (fun prefix =>
       c ← Client_Search prefix;
       if is_null c then reply_error Client ERR_NOSUCHNICK_MSG [FS prefix]
       else
         user ← arg Req 0;
         host ← arg Req 1;
         info ← arg Req 3;
         Client_SetUser c user true;;
         Client_SetOrigUser c user;;
         Client_SetHostname c host;;
         Client_SetInfo c info;;
         ty ← Client_Type c;
         (if ty =? CLIENT_GOTNICK then Client_Introduce Client c CLIENT_USER else mret tt);;
         mret true)).

Definition IRC_USER (Client : ptr) (Req : REQUEST) : M bool :=
  assert_ (negb (is_null Client));;
  ty ← Client_Type Client;
  match User_Check_Context ty with
  | USER_CHECK_NEW_CONNECTION => user_new Client Req
  | USER_CHECK_SERVER_UPDATE => user_update Client Req
  | USER_CHECK_ALREADY_REGISTERED => reply_error Client ERR_ALREADYREGISTRED_MSG []
  | USER_CHECK_NOT_REGISTERED => reply_error Client ERR_NOTREGISTERED_MSG []
  end.

(** ** SERVICE *)

Definition IRC_SERVICE (Client : ptr) (Req : REQUEST) : M bool :=
  assert_ (negb (is_null Client));;
  ty ← Client_Type Client;
  if negb (ty =? CLIENT_GOTPASS) && negb (ty =? CLIENT_SERVER) then
    reply_error Client ERR_ALREADYREGISTRED_MSG []
  else
    nick ← arg Req 0;
    if negb (ty =? CLIENT_SERVER) then reply_error Client ERR_ERRONEUSNICKNAME_MSG [FS nick]
    else
      token ← arg Req 1;
      type ← arg Req 3;
      hops ← arg Req 4;
      info ← arg Req 5;
      c ← Client_Search nick;
      if negb (is_null c) then
        id ← Client_ID Client;
        Log false (dq "Server %s introduces already registered service `%s`!") [FS id; FS nick];;
        IRC_KillClient Client NULL nick "Nick collision"
      else
        intr_c ← Client_GetFromToken Client (atoi token);
        if is_null intr_c then
          id ← Client_ID Client;
          Log false (dq "Server %s introduces service `%s` on unknown server!?") [FS id; FS nick];;
          IRC_KillClient Client NULL nick "Unknown server"
        else
          host ← match after "@" nick with
                 | Some h => mret h
                 | None => Client_Hostname intr_c
                 end;
          let nick := before "@" nick in
          let user := from_opt (before "!" nick) (after "!" nick) in
          let nick := before "!" nick in
          let modes := if hd0 type =c "+"%char then str_drop 1 type else "" in
          c ← Client_NewRemoteUser intr_c nick (atoi hops) (Some user) (Some host) (atoi token)
                (Some modes) (Some info) true;
          Client_Introduce Client c CLIENT_SERVICE;;
          mret true.

Definition IRC_WEBIRC (Client : ptr) (Req : REQUEST) : M bool :=
  pwd ← arg Req 0;
  if (hd0 Conf_WebircPwd =c NUL) || negb (String.eqb pwd Conf_WebircPwd) then
    reply_error Client ERR_PASSWDMISMATCH_MSG []
  else
    user ← arg Req 1;
    host ← arg Req 2;
    ip ← arg Req 3;
    Client_SetUser Client user true;;
    Client_SetOrigUser Client user;;
    Client_SetHostname Client (if Conf_DNS then host else ip);;
    Client_SetIPAText Client ip;;
    mret true.

(** ** QUIT *)

Definition IRC_QUIT (Client : ptr) (Req : REQUEST) : M bool :=
  assert_ (negb (is_null Client));;
  let given := match rq_argv Req with [a] => Some a | _ => None end in
  let quitmsg := (fun a => strlcpy a COMMAND_LEN) <$> given in
  ty ← Client_Type Client;
  conn ← Client_Conn Client;
  if ty =? CLIENT_SERVER then
    require_prefix_or_return Client Req (fun prefix =>
      target ← Client_Search prefix;
      if is_null target then
        id ← Client_ID Client;
        Log false "Got QUIT from %s for unknown client!?" [FS id];; mret true
      else if negb (ptr_eqb target Client) then
        Client_Destroy target (Some "Got QUIT command") quitmsg true;; mret true
      else
        Conn_Close conn (Some "Got QUIT command") quitmsg true;; mret false)
  else
    let quitmsg :=
      match given, quitmsg with
      | Some a, Some msg =>
          if negb (hd0 msg =c "034"%char) then
            Some (strlcat (strlcat (strlcpy (dq "`") COMMAND_LEN) a (COMMAND_LEN - 1)) (dq "`") COMMAND_LEN)
          else quitmsg
      | _, _ => quitmsg
      end in
    Conn_Close conn (Some "Got QUIT command") quitmsg true;;
    mret false.

Definition IRC_QUIT_HTTP (Client : ptr) (Req : REQUEST) : M bool :=
  IRC_QUIT Client (Request (rq_prefix Req) (rq_command Req)
    ["Oops, HTTP request received? This is IRC!"]).

(** ** PING and PONG *)

(** The answer to a PING for this server. *)
Definition ping_answer (Client : ptr) (Req : REQUEST) (text : string) : M bool :=
  ty ← Client_Type Client;
  from ← (if ty =? CLIENT_SERVER then
            match rq_prefix Req with Some p => Client_Search p | None => mret Client end
          else Client_ThisServer);
  if is_null from then reply_error Client ERR_NOSUCHSERVER_MSG [FS (from_opt "(null)" (rq_prefix Req))]
  else id ← Client_ID from; IRC_WriteStrClient Client "PONG %s :%s" [FS id; FS text].

Definition IRC_PING (Client : ptr) (Req : REQUEST) : M bool :=
  assert_ (negb (is_null Client));;
  match argv Req 0 with
  | None => reply_error Client ERR_NOORIGIN_MSG []
  | Some text =>
      match argv Req 1 with
      | None => ping_answer Client Req text
      | Some name =>
          target ← Client_Search name;
          server ← (mret (negb (is_null target))
                    <&&> (ty ← Client_Type target; mret (ty =? CLIENT_SERVER)));
          if negb (server : bool) then reply_error Client ERR_NOSUCHSERVER_MSG [FS name]
          else
            this ← Client_ThisServer;
            if ptr_eqb target this then ping_answer Client Req text
            else
              let forward (from : ptr) : M bool :=
                if is_null from then
                  reply_error Client ERR_NOSUCHSERVER_MSG [FS (from_opt "(null)" (rq_prefix Req))]
                else IRC_WriteStrClientPrefix target from "PING %s :%s" [FS text; FS name] in
              ty ← Client_Type Client;
              if ty =? CLIENT_SERVER then
                require_prefix_or_return Client Req (fun prefix => from ← Client_Search prefix; forward from)
              else forward Client
      end
  end.

(** A PONG that is for this server. *)
Definition pong_here (Client : ptr) (token : string) : M bool :=
  conn ← Client_Conn Client;
  auth_ping ← Conn_GetAuthPing conn;
  ok ← (if negb (auth_ping =? 0) then
          if auth_ping =? atol token then
            Conn_SetAuthPing conn 0;;
            ty ← Client_Type Client;
            (if ty =? CLIENT_WAITAUTHPING then _ ← Login_User read_lines Client; mret tt else mret tt);;
            mret true
          else
            id ← Client_ID Client;
            IRC_WriteStrClient Client "NOTICE %s :To connect, type /QUOTE PONG %ld" [FS id; FZ auth_ping]
        else mret true);
  if negb (ok : bool) then mret false
  else
    ty ← Client_Type Client;
    (if ty =? CLIENT_SERVER then
       ping ← Conn_LastPing conn;
       if ping =? 0 then
         id ← Client_ID Client;
         now ← time;
         signon ← Conn_GetSignon conn;
         users ← Client_UserCount;
         channels ← Channel_CountVisible NULL;
         Log false (dq "Synchronization with `%s` done (connection %d): %ld second%s [%ld users, %ld channels].")
           [FS id; FZ conn; FZ (now - signon); FS (if now - signon =? 1 then "" else "s"); FZ users; FZ channels]
       else mret tt
     else mret tt);;
    Conn_UpdatePing conn 1;;
    mret true.

Definition IRC_PONG (Client : ptr) (Req : REQUEST) : M bool :=
  assert_ (negb (is_null Client));;
  ty ← Client_Type Client;
  match argv Req 0 with
  | None => if ty =? CLIENT_USER then reply_error Client ERR_NOORIGIN_MSG [] else mret true
  | Some a =>
      if (ty =? CLIENT_USER) && (2 <? argc Req) then
        reply_error Client ERR_NEEDMOREPARAMS_MSG [FS (rq_command Req)]
      else if (argc Req =? 2) && (ty =? CLIENT_SERVER) then
        require_prefix_or_return Client Req (fun prefix =>
          target ← Client_Search a;
          if is_null target then reply_error Client ERR_NOSUCHSERVER_MSG [FS a]
          else
            from ← Client_Search prefix;
            this ← Client_ThisServer;
            if negb (ptr_eqb target this) && negb (ptr_eqb target from) then
              if is_null from then reply_error Client ERR_NOSUCHSERVER_MSG [FS prefix]
              else
                b ← arg Req 1;
                hop ← Client_NextHop target;
                hty ← Client_Type hop;
                s ← (if negb (hty =? CLIENT_SERVER) then Client_ID from else mret a);
                IRC_WriteStrClientPrefix target from "PONG %s :%s" [FS s; FS b]
            else pong_here Client a)
      else pong_here Client a
  end.

(** ** CAP (irc-cap.c) *)

Definition Set_CAP_Negotiation (Client : ptr) : M unit :=
  ty ← Client_Type Client;
  (if negb (ty =? CLIENT_USER) then Client_CapAdd Client CLIENT_CAP_PENDING else mret tt);;
  Client_CapAdd Client CLIENT_CAP_SUPPORTED.

(** The loop of [Parse_CAP]; [None] is -1. *)
Fixpoint parse_caps (Capabilities : Z) (l : list string) : option Z :=
  match l with
  | [] => Some Capabilities
  | p :: l' =>
      let drop := hd0 p =c "-"%char in
      if negb (String.eqb (if drop then str_drop 1 p else p) "multi-prefix") then None
      else if drop then parse_caps (Z.ldiff Capabilities CLIENT_CAP_MULTI_PREFIX) l'
      else parse_caps (Z.lor Capabilities CLIENT_CAP_MULTI_PREFIX) l'
  end.

Definition Parse_CAP (Capabilities : Z) (Args : string) : option Z :=
  parse_caps Capabilities (tokens (strlcpy Args COMMAND_LEN) " ").

Definition Get_CAP_String (Capabilities : Z) : string :=
  if negb (Z.land Capabilities CLIENT_CAP_MULTI_PREFIX =? 0) then "multi-prefix " else "".

Definition Handle_CAP_LS (Client : ptr) : M bool :=
  assert_ (negb (is_null Client));;
  Set_CAP_Negotiation Client;;
  id ← Client_ID Client;
  IRC_WriteStrClient Client "CAP %s LS :multi-prefix" [FS id].

Definition Handle_CAP_LIST (Client : ptr) : M bool :=
  assert_ (negb (is_null Client));;
  id ← Client_ID Client;
  cap ← Client_Cap Client;
  IRC_WriteStrClient Client "CAP %s LIST :%s" [FS id; FS (Get_CAP_String cap)].

Definition Handle_CAP_REQ (Client : ptr) (Arg : string) : M bool :=
  assert_ (negb (is_null Client));;
  Set_CAP_Negotiation Client;;
  cap ← Client_Cap Client;
  match Parse_CAP cap Arg with
  | None => id ← Client_ID Client; IRC_WriteStrClient Client "CAP %s NAK :%s" [FS id; FS Arg]
  | Some new_cap =>
      if new_cap <? 0 then id ← Client_ID Client; IRC_WriteStrClient Client "CAP %s NAK :%s" [FS id; FS Arg]
      else
        Client_CapSet Client new_cap;;
        id ← Client_ID Client;
        IRC_WriteStrClient Client "CAP %s ACK :%s" [FS id; FS Arg]
  end.

Definition Handle_CAP_ACK (Client : ptr) (Arg : string) : M bool :=
  assert_ (negb (is_null Client));; mret true.

Definition Handle_CAP_CLEAR (Client : ptr) : M bool :=
  assert_ (negb (is_null Client));;
  cap_old ← Client_Cap Client;
  (if negb (Z.land cap_old CLIENT_CAP_MULTI_PREFIX =? 0) then Client_CapDel Client CLIENT_CAP_MULTI_PREFIX
   else mret tt);;
  id ← Client_ID Client;
  IRC_WriteStrClient Client "CAP %s ACK :%s" [FS id; FS (Get_CAP_String cap_old)].

Definition Handle_CAP_END (Client : ptr) : M bool :=
  assert_ (negb (is_null Client));;
  ty ← Client_Type Client;
  if negb (ty =? CLIENT_USER) then
    Client_CapDel Client CLIENT_CAP_PENDING;;
    id ← Client_ID Client;
    if negb (hd0 id =c "*"%char) then Login_User read_lines Client else mret true
  else mret true.

Definition IRC_CAP (Client : ptr) (Req : REQUEST) : M bool :=
  assert_ (negb (is_null Client));;
  _ ← Client_ID Client;
  sub ← arg Req 0;
  if (argc Req =? 1) && strcaseeq sub "CLEAR" then Handle_CAP_CLEAR Client
  else if (argc Req =? 1) && strcaseeq sub "END" then Handle_CAP_END Client
  else if (argc Req <=? 2) && strcaseeq sub "LS" then Handle_CAP_LS Client
  else if (argc Req <=? 2) && strcaseeq sub "LIST" then Handle_CAP_LIST Client
  else if (argc Req =? 2) && strcaseeq sub "REQ" then a ← arg Req 1; Handle_CAP_REQ Client a
  else if (argc Req =? 2) && strcaseeq sub "ACK" then a ← arg Req 1; Handle_CAP_ACK Client a
  else reply_error Client ERR_INVALIDCAP_MSG [FS sub].

(** ** METADATA (irc-metadata.c) *)

(** A user is told about its new host name. *)
Definition host_hidden (target prefix : ptr) (cond : M bool) : M unit :=
  b ← ((conn ← Client_Conn target; mret (NONE <? conn)) <&&> cond);
  if (b : bool) then
    id ← Client_ID target;
    host ← Client_HostnameDisplayed target;
    _ ← IRC_WriteStrClientPrefix target prefix RPL_HOSTHIDDEN_MSG [FS id; FS (from_opt "(null)" host)];
    mret tt
  else mret tt.

Definition IRC_METADATA (Client : ptr) (Req : REQUEST) : M bool :=
  assert_ (negb (is_null Client));;
  require_prefix_or_return Client Req (fun p =>
    prefix ← Client_Search p;
    if is_null prefix then reply_error Client ERR_NOSUCHNICK_MSG [FS p]
    else
      name ← arg Req 0;
      target ← Client_Search name;
      if is_null target then reply_error Client ERR_NOSUCHNICK_MSG [FS name]
      else
        key ← arg Req 1;
        value ← arg Req 2;
        _ ← Client_ID prefix;
        _ ← Client_ID target;
        m ← Client_HasFlag target "M";
        (if negb (m : bool) then
           flags ← Client_Flags target;
           Client_SetFlags target (snprintf COMMAND_LEN "%sM" [FS flags])
         else mret tt);;
        let given := negb (hd0 value =c NUL) in
        if strcaseeq key "cloakhost" then
          Client_UpdateCloakedHostname target prefix (if given then Some value else None);;
          host_hidden target prefix (Client_HasMode target "x");;
          mret true
        else
          (if given && strcaseeq key "host" then
             Client_SetHostname target value;;
             host_hidden target prefix (not_ (Client_HasMode target "x"))
           else if strcaseeq key "info" then Client_SetInfo target value
           else if given && strcaseeq key "user" then Client_SetUser target value true
           else if strcaseeq key "accountname" then Client_SetAccountName target value
           else if given && strcaseeq key "certfp" then _ ← Client_Conn target; mret tt
           else
             id ← Client_ID Client;
             tid ← Client_ID target;
             Log false (dq "Ignored metadata update from `%s` for client `%s`: `%s=%s` - unknown key!")
               [FS id; FS tid; FS key; FS value]);;
          id ← Client_ID target;
          IRC_WriteStrServersPrefixFlag Client prefix "M" "METADATA %s %s :%s" [FS id; FS key; FS value];;
          mret true).

End IrcLogin.
