(* ===== verification/IrcOper.v ===== *)
(** * Commands of operators (src/server/proto/irc/irc-oper.c)

    OPER, the commands that stop or reconfigure the server, links on request,
    WALLOPS, and the bans GLINE and KLINE.  A signal that REHASH raises is
    handled at once, by the handler of win32_sighandlers.c. *)

From S2P Require Import Prelude CString Match Hash Checks Lists Messages World ClientCore.
From S2P Require Import ConnFunc ConnSpec ChannelCore State IrcWrite Channel Client Class Conn Servers Parse.
From S2P Require Import Irc IrcInfo IrcLogin.

(** The signals of the C library of Windows; SIGHUP is defined as SIGBREAK
    (win32compat.h). *)
Definition SIGINT : Z := 2.
Definition SIGTERM : Z := 15.
Definition SIGBREAK : Z := 21.
Definition SIGHUP : Z := SIGBREAK.

Section IrcOper.
Context `{Conf} `{ConnIO}.

Definition Signal_Handler (Signal : Z) : M unit :=
  if (Signal =? SIGTERM) || (Signal =? SIGINT) || (Signal =? SIGBREAK)
  then mod_tab (set_t_SignalQuit true) else mret tt.

(** ** OPER *)

Definition Bad_OperPass (Client : ptr) (errtoken errmsg : string) : M bool :=
  mask ← Client_Mask Client;
  Log true (dq "Got invalid OPER from `%s`: `%s` -- %s!") [FS mask; FS errtoken; FS errmsg];;
  IRC_SetPenalty Client 10;;
  reply Client Client ERR_PASSWDMISMATCH_MSG [].

(** The mask check of an operator: what it fails with. *)
Definition oper_mask (Client : ptr) (op : CONF_OPER) : M (option string) :=
  match co_mask op with
  | None => mret None
  | Some m => mask ← Client_Mask Client; mret (if Match m mask then None else Some m)
  end.

Definition IRC_OPER (Client : ptr) (Req : REQUEST) : M bool :=
  assert_ (negb (is_null Client));;
  name ← arg Req 0;
  match lfind (fun op => String.eqb (co_name op) name) Conf_Opers with
  | None => Bad_OperPass Client name "not configured"
  | Some op =>
      pwd ← arg Req 1;
      if negb (String.eqb (co_pwd op) pwd) then Bad_OperPass Client (co_name op) "bad password"
      else
        bad ← oper_mask Client op;
        match bad with
        | Some m => Bad_OperPass Client m "hostmask check failed"
        | None =>
            o ← Client_HasMode Client "o";
            (if (o : bool) then mret true
             else
               _ ← Client_ModeAdd Client "o";
               reply Client Client "MODE %s :+o" [] ;!
               id ← Client_ID Client;
               IRC_WriteStrServersPrefix NULL Client "MODE %s :+o" [FS id];;
               mret true) ;!
            mask ← Client_Mask Client;
            Log true (dq "Got valid OPER for `%s` from `%s`, user is an IRC operator now.")
              [FS name; FS mask];;
            reply Client Client RPL_YOUREOPER_MSG []
        end
  end.

(** ** Stopping and restarting *)

(** What only operators may do. *)
Definition operator_only (Client : ptr) (Req : REQUEST) (k : ptr -> M bool) : M bool :=
  op ← Op_Check Client Req;
  if is_null op then Op_NoPrivileges Client Req else k op.

(** The loop over the open connections from [c] on, with a message for the users. *)
Fixpoint die_loop (fuel : nat) (text : string) (c : Z) : M unit :=
  if c =? NONE then mret tt
  else match fuel with
       | O => crash OutOfFuel
       | S fuel' =>
           cl ← Conn_GetClient c;
           ty ← Client_Type cl;
           (if ty =? CLIENT_USER then _ ← reply cl cl "NOTICE %s :%s" [FS text]; mret tt
            else mret tt);;
           next ← Conn_Next c;
           die_loop fuel' text next
       end.

Definition IRC_DIE (Client : ptr) (Req : REQUEST) : M bool :=
  operator_only Client Req (fun _ =>
    match argv Req 0 with
    | Some text =>
        c ← Conn_First;
        n ← get_net (fun n => length (n_conns n));
        die_loop n text c
    | None => mret tt
    end;;
    mask ← Client_Mask Client;
    Log true (dq "Got DIE command from `%s` ...") [FS mask];;
    mod_tab (set_t_SignalQuit true);;
    mret true).

Definition IRC_REHASH (Client : ptr) (Req : REQUEST) : M bool :=
  operator_only Client Req (fun _ =>
    mask ← Client_Mask Client;
    Log true (dq "Got REHASH command from `%s` ...") [FS mask];;
    _ ← reply Client Client RPL_REHASHING_MSG [];
    Signal_Handler SIGHUP;;
    mret true).

Definition IRC_RESTART (Client : ptr) (Req : REQUEST) : M bool :=
  operator_only Client Req (fun _ =>
    mask ← Client_Mask Client;
    Log true (dq "Got RESTART command from `%s` ...") [FS mask];;
    mod_tab (set_t_SignalRestart true);;
    mret true).

(** ** Links *)

(** The entry for the link that CONNECT asks for, by the number of parameters. *)
Definition connect_server (Req : REQUEST) : M bool :=
  name ← arg Req 0;
  if argc Req =? 1 then Conf_EnablePassiveServer name
  else
    port ← arg Req 1;
    if (argc Req =? 2) || (argc Req =? 3) then Conf_EnableServer name (u16 (atoi port))
    else
      host ← arg Req 2; my ← arg Req 3; peer ← arg Req 4;
      Conf_AddServer name (u16 (atoi port)) host my peer.

Definition connect_here (Client from : ptr) (Req : REQUEST) : M bool :=
  op ← Op_Check from Req;
  if is_null op then Op_NoPrivileges Client Req
  else
    ok ← connect_server Req;
    name ← arg Req 0;
    if negb (ok : bool) then reply_error from ERR_NOSUCHSERVER_MSG [FS name]
    else
      mask ← Client_Mask from;
      Log true (dq "Got CONNECT command from `%s` for `%s`.") [FS mask; FS name];;
      this ← Client_ThisServer;
      id ← Client_ID from;
      IRC_SendWallops this this "Received CONNECT %s from %s" [FS name; FS id];;
      mret true.

(** All parameters as arguments of a format. *)
Definition all_args (Req : REQUEST) : list farg := map FS (rq_argv Req).

Definition IRC_CONNECT (Client : ptr) (Req : REQUEST) : M bool :=
  assert_ (negb (is_null Client));;
  let n := argc Req in
  let few := reply_error Client ERR_NEEDMOREPARAMS_MSG [FS (rq_command Req)] in
  if negb ((n =? 1) || (n =? 2) || (n =? 3) || (n =? 5) || (n =? 6)) then few
  else
    port ← (if 1 <? n then arg Req 1 else mret "1");
    if atoi port <? 1 then few
    else
      ty ← Client_Type Client;
      op ← (if ty =? CLIENT_SERVER then mret true else Client_HasMode Client "o");
      if negb (op : bool) then Op_NoPrivileges Client Req
      else
        this ← Client_ThisServer;
        if (n =? 3) || (n =? 6) then
          from ← match rq_prefix Req with
                 | Some p => if ty =? CLIENT_SERVER then Client_Search p else mret Client
                 | None => mret Client
                 end;
          if is_null from then
            reply_error Client ERR_NOSUCHNICK_MSG [FS (from_opt "" (rq_prefix Req))]
          else
            name ← arg Req (if n =? 3 then 2%nat else 5%nat);
            target ← Client_Search name;
            server ← (mret (negb (is_null target))
                      <&&> (tty ← Client_Type target; mret (tty =? CLIENT_SERVER)));
            if negb (server : bool) then
              a ← arg Req 0; reply_error from ERR_NOSUCHSERVER_MSG [FS a]
            else if negb (ptr_eqb target this) then
              _ ← IRC_WriteStrClientPrefix target from
                    (if n =? 3 then "CONNECT %s %s :%s" else "CONNECT %s %s %s %s %s :%s")
                    (all_args Req);
              mret true
            else connect_here Client from Req
        else connect_here Client Client Req.

Definition IRC_DISCONNECT (Client : ptr) (Req : REQUEST) : M bool :=
  operator_only Client Req (fun _ =>
    this ← Client_ThisServer;
    name ← arg Req 0;
    id ← Client_ID Client;
    IRC_SendWallops this this "Received DISCONNECT %s from %s" [FS name; FS id];;
    mask ← Client_Mask Client;
    Log true (dq "Got DISCONNECT command from `%s` for `%s`.") [FS mask; FS name];;
    my_conn ← Client_Conn Client;
    ok ← Conf_DisableServer name;
    if negb (ok : bool) then reply_error Client ERR_NOSUCHSERVER_MSG [FS name]
    else cl ← Conn_GetClient my_conn; mret (negb (is_null cl))).

Definition IRC_WALLOPS (Client : ptr) (Req : REQUEST) : M bool :=
  assert_ (negb (is_null Client));;
  let send (from : ptr) : M bool :=
    if is_null from then reply_error Client ERR_NOSUCHNICK_MSG [FS (from_opt "" (rq_prefix Req))]
    else text ← arg Req 0; IRC_SendWallops Client from "%s" [FS text];; mret true in
  ty ← Client_Type Client;
  if ty =? CLIENT_USER then operator_only Client Req (fun _ => send Client)
  else if ty =? CLIENT_SERVER then
    require_prefix_or_return Client Req (fun prefix => from ← Client_Search prefix; send from)
  else mret true.

(** ** GLINE and KLINE *)

(** [Lists_Check] on the list of a class. *)
Definition class_check (class : nat) (c : ptr) : M bool :=
  h ← Class_GetList class;
  match h with
  | [] => mret false
  | _ =>
      masks ← Client_masks c;
      let '(r, h') := Lists_Check masks.1 masks.2 h in
      set_class class h';; mret r
  end.

(** The clients that are connected and match: the successor is read first. *)
Fixpoint kill_matching (fuel : nat) (Client : ptr) (class : nat) (reason : string) (c : ptr) : M unit :=
  if is_null c then mret tt
  else match fuel with
       | O => crash OutOfFuel
       | S fuel' =>
           c_next ← Client_Next c;
           banned ← ((if (class =? CLASS_GLINE)%nat then mret true
                      else conn ← Client_Conn c; mret (NONE <? conn)) <&&> class_check class c);
           (if (banned : bool) then id ← Client_ID c; _ ← IRC_KillClient Client NULL id reason; mret tt
            else mret tt);;
           kill_matching fuel' Client class reason c_next
       end.

Definition del_line (Client from : ptr) (Req : REQUEST) (class : nat) (class_c : ascii) : M unit :=
  pattern ← arg Req 0;
  Class_DeleteMask class pattern;;
  mask ← Client_Mask from;
  Log true (dq "`%s` deleted `%s` from %c-Line list.") [FS mask; FS pattern; FC class_c];;
  if (class =? CLASS_GLINE)%nat then
    IRC_WriteStrServersPrefix Client from "%s %s" [FS (rq_command Req); FS pattern]
  else mret tt.

Definition add_line (Client from : ptr) (Req : REQUEST) (class : nat) (class_c : ascii) : M unit :=
  pattern ← arg Req 0;
  secs ← arg Req 1;
  text ← arg Req 2;
  now ← time;
  let timeout := atol secs in
  let timeout := if 0 <? timeout then timeout + now else timeout in
  added ← Class_AddMask class pattern timeout text;
  if negb (added : bool) then mret tt
  else
    fty ← Client_Type from;
    (if negb (fty =? CLIENT_SERVER) then
       mask ← Client_Mask from;
       Log true (dq "`%s` added `%s` to %c-Line list: `%s` (%ld seconds).")
         [FS mask; FS pattern; FC class_c; FS text; FZ (atol secs)]
     else mret tt);;
    (if (class =? CLASS_GLINE)%nat then
       IRC_WriteStrServersPrefix Client from "%s %s %s :%s"
         [FS (rq_command Req); FS pattern; FS secs; FS text]
     else mret tt);;
    id ← Client_ID from;
    let reason := snprintf COMMAND_LEN (dq "%c-Line by `%s`: `%s`") [FC class_c; FS id; FS text] in
    _ ← Class_GetList class;
    first ← Client_First;
    n ← get_tab (fun t => length (t_My_Clients t));
    kill_matching n Client class reason first.

Definition IRC_xLINE (Client : ptr) (Req : REQUEST) : M bool :=
  assert_ (negb (is_null Client));;
  if negb (argc Req =? 1) && negb (argc Req =? 3) then
    reply_error Client ERR_NEEDMOREPARAMS_MSG [FS (rq_command Req)]
  else
    ty ← Client_Type Client;
    from ← (if negb Conf_AllowRemoteOper && (ty =? CLIENT_SERVER) then mret NULL
            else Op_Check Client Req);
    if is_null from then Op_NoPrivileges Client Req
    else
      let run (class : nat) (class_c : ascii) : M bool :=
        (if argc Req =? 1 then del_line Client from Req class class_c
         else add_line Client from Req class class_c);; mret true in
      let c := hd0 (rq_command Req) in
      if (c =c "g"%char) || (c =c "G"%char) then run CLASS_GLINE "G"%char
      else if (c =c "k"%char) || (c =c "K"%char) then run CLASS_KLINE "K"%char
      else Log false "IRC_xLINE() called for unknown line: %c!? Ignored." [FC c];; mret true.

End IrcOper.
