(* ===== verification/IrcServer.v ===== *)
(** * Server links (src/server/proto/irc/irc-server.c, src/server/core/misc/numeric.c)

    SERVER registers a peer or a server behind a peer; once a link is up, the
    peer is told about the servers, clients and channels that are known here.
    NJOIN joins remote clients to a channel, SQUIT takes a server off the
    network. *)

From S2P Require Import Prelude CString Match Hash Checks Lists Messages World ClientCore.
From S2P Require Import ConnFunc ConnSpec ChannelCore State IrcWrite Channel Client Class Conn Servers Parse.
From S2P Require Import Irc IrcInfo IrcChannel IrcLogin.

Definition TOKEN_OUTBOUND : Z := -2.
Definition CLIENT_NICK_LEN_DEFAULT : nat := 10.

Section IrcServer.
Context `{Conf} `{ConnIO}.

(** ** What a new peer is told (numeric.c) *)

(** The prefixes of a member in NJOIN; those behind [xop] only for peers that know them. *)
Definition njoin_prefixes (xop : bool) (Chan cl : ptr) : M string :=
  let mode (test : bool) (m : ascii) (s : string) : M string :=
    if test then h ← Channel_UserHasMode Chan cl m; mret (if (h : bool) then s else "") else mret "" in
  q ← mode xop "q"%char "~";
  a ← mode xop "a"%char "&";
  o ← mode true "o"%char "@";
  h ← mode xop "h"%char "%";
  v ← mode true "v"%char "+";
  mret (q +:+ a +:+ o +:+ h +:+ v).

Definition cat (str s : string) : string := strlcat str s COMMAND_LEN.

(** RFC 2813: the member is added to the line, which is sent when it is nearly full. *)
Definition announce_njoin (xop : bool) (Client Chan : ptr) (str : string) (a : nat) : M (flow string) :=
  let cl : ptr := Some a in
  prefixes ← njoin_prefixes xop Chan cl;
  id ← Client_ID cl;
  let str := if last_chr str =c ":"%char then str else cat str "," in
  let str := cat (cat str prefixes) id in
  if (COMMAND_LEN - CLIENT_NICK_LEN - 8 <? slen str)%nat then
    ok ← IRC_WriteStrClient Client "%s" [FS str];
    if negb (ok : bool) then mret (Exit false)
    else name ← Channel_Name Chan; mret (Go (snprintf COMMAND_LEN "NJOIN %s :" [FS name]))
  else mret (Go str).

Fixpoint announce_modes (Client Chan cl : ptr) (modes : string) : M bool :=
  match modes with
  | "" => mret true
  | String m modes' =>
      (name ← Channel_Name Chan;
       id ← Client_ID cl;
       IRC_WriteStrClientPrefix Client cl "MODE %s +%c %s" [FS name; FC m; FS id]) ;!
      announce_modes Client Chan cl modes'
  end.

(** RFC 1459: JOIN and MODE for each member. *)
Definition announce_join (Client Chan : ptr) (str : string) (a : nat) : M (flow string) :=
  let cl : ptr := Some a in
  go_if str
    ((name ← Channel_Name Chan; IRC_WriteStrClientPrefix Client cl "JOIN %s" [FS name]) ;!
     modes ← Channel_UserModes Chan cl;
     announce_modes Client Chan cl modes).

Definition Announce_Channel (Client Chan : ptr) : M bool :=
  conn ← Client_Conn Client;
  options ← Conn_Options conn;
  let njoin := Z.land options CONN_RFC1459 =? 0 in
  xop ← Client_HasFlag Client "X";
  members ← channel_members Chan;
  name ← Channel_Name Chan;
  then_ (list_loop (if njoin then announce_njoin xop Client Chan else announce_join Client Chan)
           (snprintf COMMAND_LEN "NJOIN %s :" [FS name]) members)
    (fun str => (if last_chr str =c ":"%char then mret true
                 else IRC_WriteStrClient Client "%s" [FS str]) ;! mret true).

(** [Announce_Server]: [Client] is the new server, [Server] one that is known already. *)
Definition Announce_Server (Client Server : ptr) : M bool :=
  conn ← Client_Conn Server;
  (if NONE <? conn then
     id ← Client_ID Client;
     hops ← Client_Hops Client;
     token ← Client_MyToken Client;
     info ← Client_Info Client;
     IRC_WriteStrClient Server "SERVER %s %d %d :%s" [FS id; FZ (hops + 1); FZ token; FS info]
   else mret true) ;!
  shops ← Client_Hops Server;
  c ← (if shops =? 1 then Client_ThisServer else Client_TopServer Server);
  id ← Client_ID Server;
  token ← Client_MyToken Server;
  info ← Client_Info Server;
  IRC_WriteStrClientPrefix Client c "SERVER %s %d %d :%s" [FS id; FZ (shops + 1); FZ token; FS info].

Fixpoint Send_List (Client Chan : ptr) (Type_ : ascii) (Head : list list_elem) : M bool :=
  match Head with
  | [] => mret true
  | elem :: l =>
      (name ← Channel_Name Chan;
       IRC_WriteStrClient Client "MODE %s +%c %s" [FS name; FC Type_; FS (Lists_GetMask elem)]) ;!
      Send_List Client Chan Type_ l
  end.

Fixpoint send_glines (Client : ptr) (l : list list_elem) : M bool :=
  match l with
  | [] => mret true
  | elem :: l' =>
      now ← time;
      let t := Lists_GetValidity elem - now in
      IRC_WriteStrClient Client "GLINE %s %ld :%s"
        [FS (Lists_GetMask elem); FZ (if 0 <? t then t else 0); FS (Lists_GetReason elem)] ;!
      send_glines Client l'
  end.

Definition send_lists (Client c : ptr) : M bool :=
  x ← the_channel c;
  Send_List Client c "e"%char (ch_excepts x) ;!
  x ← the_channel c;
  Send_List Client c "b"%char (ch_bans x) ;!
  x ← the_channel c;
  Send_List Client c "I"%char (ch_invites x).

Definition Synchronize_Lists (Client : ptr) : M bool :=
  assert_ (negb (is_null Client));;
  head ← Class_GetList CLASS_GLINE;
  send_glines Client head ;!
  then_ (for_channels tt (fun _ c => go_if tt (send_lists Client c))) (fun _ => mret true).

Definition Send_CHANINFO (Client Chan : ptr) : M bool :=
  name ← Channel_Name Chan;
  modes ← Channel_Modes Chan;
  topic ← Channel_Topic Chan;
  if (hd0 modes =c NUL) && (hd0 topic =c NUL) then mret true
  else
    has_k ← Channel_HasMode Chan "k";
    has_l ← Channel_HasMode Chan "l";
    if negb has_k && negb has_l then
      if hd0 topic =c NUL then IRC_WriteStrClient Client "CHANINFO %s +%s" [FS name; FS modes]
      else IRC_WriteStrClient Client "CHANINFO %s +%s :%s" [FS name; FS modes; FS topic]
    else
      key ← Channel_Key Chan;
      limit ← Channel_MaxUsers Chan;
      IRC_WriteStrClient Client "CHANINFO %s +%s %s %lu :%s"
        [FS name; FS modes; FS (if has_k && negb (hd0 key =c NUL) then key else "*");
         FZ (if (has_l : bool) then limit else 0); FS topic].

(** The highest hop count. *)
Definition max_hops : M (Z + bool) :=
  for_clients 0 (fun max c => hops ← Client_Hops c; mret (Go (Z.max max hops))).

(** The servers with [i] hops are announced to the new one. *)
Definition announce_level (Client : ptr) (i : Z) : M (flow unit) :=
  r ← for_clients tt (fun _ c =>
    ty ← Client_Type c;
    hops ← Client_Hops c;
    this ← Client_ThisServer;
    if negb (ty =? CLIENT_SERVER) || negb (hops =? i) || ptr_eqb c Client || ptr_eqb c this
    then mret (Go tt)
    else go_if tt (Announce_Server Client c));
  mret (match r with inl _ => Go tt | inr b => Exit b end).

Definition announce_client (Client c : ptr) : M (flow unit) :=
  ty ← Client_Type c;
  if (ty =? CLIENT_USER) || (ty =? CLIENT_SERVICE) then
    this ← Client_ThisServer; go_if tt (Client_Announce Client this c)
  else mret (Go tt).

Definition announce_channel (Client chan : ptr) : M (flow unit) :=
  local ← Channel_IsLocal chan;
  if (local : bool) then mret (Go tt)
  else
    go_if tt
      ((c ← Client_HasFlag Client "C"; if (c : bool) then Send_CHANINFO Client chan else mret true) ;!
       Announce_Channel Client chan).

Definition IRC_Num_ENDOFMOTD (Client : ptr) (Req : REQUEST) : M bool :=
  Client_SetType Client CLIENT_SERVER;;
  id ← Client_ID Client;
  conn ← Client_Conn Client;
  Log true (dq "Server `%s` registered (connection %d, 1 hop - direct link).") [FS id; FZ conn];;
  then_ max_hops (fun max =>
  then_ (list_loop (fun _ i => announce_level Client i) tt (map Z.of_nat (seq 0 (Z.to_nat (max + 1)))))
    (fun _ =>
  then_ (for_clients tt (fun _ c => announce_client Client c)) (fun _ =>
  then_ (for_channels tt (fun _ chan => announce_channel Client chan)) (fun _ =>
    (l ← Client_HasFlag Client "L"; if (l : bool) then Synchronize_Lists Client else mret true) ;!
    (this ← Client_ThisServer; reply Client this "PING :%s" []) ;!
    mret true)))).

(** The parameters of ISUPPORT are those behind the first one and before the last. *)
Fixpoint isupport_loop (Client : ptr) (l : list string) : M bool :=
  match l with
  | [] => mret true
  | p :: l' =>
      let key := before "=" p in
      let value := from_opt "" (after "=" p) in
      if String.eqb "NICKLEN" key && negb (u32 (atol value) =? Z.of_nat Conf_MaxNickLength - 1) then
        Log false "Peer uses incompatible nickname length (%d/%d)! Disconnecting ..."
          [FZ (Z.of_nat Conf_MaxNickLength - 1); FZ (atoi value)];;
        conn ← Client_Conn Client;
        Conn_Close conn (Some "Incompatible nickname length") None false;;
        mret false
      else isupport_loop Client l'
  end.

Definition IRC_Num_ISUPPORT (Client : ptr) (Req : REQUEST) : M bool :=
  isupport_loop Client (firstn (length (rq_argv Req) - 2) (drop 1 (rq_argv Req))).

(** ** SERVER *)

(** A peer that has sent its password registers as a server. *)
Definition server_register (Client : ptr) (Req : REQUEST) (name : string) : M bool :=
  conn ← Client_Conn Client;
  let hang_up (reason : string) : M bool :=
    conn ← Client_Conn Client; Conn_Close conn None (Some reason) true;; mret false in
  i ← get_tab (fun t => index_of (fun s => strcaseeq name (sv_name s)) 0 (t_Conf_Server t));
  if i =? NONE then
    Log false (dq "Connection %d: Server `%s` not configured here!") [FZ conn; FS name];;
    hang_up "Server not configured here"
  else
    s ← the_server i;
    pwd ← Conn_Password conn;
    if negb (String.eqb pwd (sv_pwd_in s)) then
      Log false (dq "Connection %d: Got bad password from server `%s`!") [FZ conn; FS name];;
      hang_up "Bad password"
    else
      free ← Client_CheckID Client name;
      if negb (free : bool) then mret false
      else
        conn ← Client_Conn Client;
        ok ← Conf_SetServer i conn;
        if negb (ok : bool) then mret false
        else
          Client_SetID Client name;;
          Client_SetHops Client 1;;
          info ← arg Req (length (rq_argv Req) - 1);
          Client_SetInfo Client info;;
          token ← Client_Token Client;
          ok ← (if negb (token =? TOKEN_OUTBOUND) then
                  s ← the_server i;
                  sent ← (IRC_WriteStrClient Client "PASS %s %s" [FS (sv_pwd_out s); FS NGIRCd_ProtoID] ;!
                          IRC_WriteStrClient Client "SERVER %s 1 :%s"
                            [FS Conf_ServerName; FS Conf_ServerInfo]);
                  if negb (sent : bool) then
                    conn ← Client_Conn Client;
                    Conn_Close conn (Some "Unexpected server behavior!") None false;;
                    mret false
                  else Client_SetIntroducer Client Client;; Client_SetToken Client 1;; mret true
                else
                  a ← arg Req 1; Client_SetToken Client (atoi a);; mret true);
          if negb (ok : bool) then mret false
          else
            ty ← Client_Type Client;
            (if ty =? CLIENT_GOTPASS then conn ← Client_Conn Client; Conn_SetOption conn CONN_RFC1459
             else mret tt);;
            Client_SetType Client CLIENT_UNKNOWNSERVER;;
            h ← Client_HasFlag Client "H";
            if (h : bool) then IRC_Send_ISUPPORT Client ;! reply Client Client RPL_ENDOFMOTD_MSG []
            else
              (if negb (Conf_MaxNickLength =? CLIENT_NICK_LEN_DEFAULT)%nat then
                 Log false "Attention: this server uses a non-standard nick length, but the peer doesn't support the IRC+ extended server handshake!" []
               else mret tt);;
              IRC_Num_ENDOFMOTD Client Req.

(** A registered server introduces one behind it. *)
Definition server_introduce (Client : ptr) (Req : REQUEST) (name : string) : M bool :=
  if negb (argc Req =? 4) then reply_error Client ERR_NEEDMOREPARAMS_MSG [FS (rq_command Req)]
  else
    free ← Client_CheckID Client name;
    if negb (free : bool) then mret false
    else
      conn ← Client_Conn Client;
      match rq_prefix Req with
      | None =>
          Log false "Got SERVER command without prefix! (on connection %d)" [FZ conn];;
          Conn_Close conn None (Some "SERVER command without prefix") true;; mret false
      | Some prefix =>
          from ← Client_Search prefix;
          if is_null from then
            Log false (dq "Unknown ID in prefix of SERVER: `%s`! (on connection %d)")
              [FS prefix; FZ conn];;
            Conn_Close conn None (Some "Unknown ID in prefix of SERVER") true;; mret false
          else
            hops ← arg Req 1;
            token ← arg Req 2;
            info ← arg Req 3;
            c ← Client_NewRemoteServer Client name from (atoi hops) (atoi token) (Some info) true;
            if is_null c then
              Log false "Can't create client structure for server! (on connection %d)" [FZ conn];;
              Conn_Close conn None (Some "Can't allocate client structure for remote server") true;;
              mret false
            else
              chops ← Client_Hops c;
              fid ← Client_ID from;
              let str := if (1 <? chops) && negb (hd0 prefix =c NUL)
                         then snprintf 100 "connected to %s, " [FS fid] else "" in
              cid ← Client_ID c;
              id ← Client_ID Client;
              Log true (dq "Server `%s` registered (via %s, %s%d hop%s).")
                [FS cid; FS id; FS str; FZ chops; FS (if 1 <? chops then "s" else "")];;
              cid ← Client_ID c;
              chops ← Client_Hops c;
              mytoken ← Client_MyToken c;
              cinfo ← Client_Info c;
              IRC_WriteStrServersPrefix Client from "SERVER %s %d %d :%s"
                [FS cid; FZ (chops + 1); FZ mytoken; FS cinfo];;
              mret true
      end.

Definition IRC_SERVER (Client : ptr) (Req : REQUEST) : M bool :=
  assert_ (negb (is_null Client));;
  conn ← Client_Conn Client;
  if conn <=? NONE then reply_error Client ERR_UNKNOWNCOMMAND_MSG [FS (rq_command Req)]
  else
    let few := reply_error Client ERR_NEEDMOREPARAMS_MSG [FS (rq_command Req)] in
    ty ← Client_Type Client;
    if (ty =? CLIENT_GOTPASS) || (ty =? CLIENT_GOTPASS_2813) then
      if negb (argc Req =? 2) && negb (argc Req =? 3) then few
      else name ← arg Req 0; server_register Client Req name
    else if ty =? CLIENT_SERVER then
      name ← (if argc Req =? 4 then arg Req 0 else mret ""); server_introduce Client Req name
    else few.

(** ** NJOIN *)

(** The prefixes of a nickname, each once, in the order in which they are sent on. *)
Fixpoint nick_prefixes (s : string) : string * string :=
  match s with
  | String c s' =>
      if has_chr "~&@%+" c && negb (c =c NUL) then
        let '(p, nick) := nick_prefixes s' in (String c p, nick)
      else ("", s)
  | "" => ("", "")
  end.

Definition prefix_modes : list (ascii * ascii) :=
  [("~", "q"); ("&", "a"); ("@", "o"); ("%", "h"); ("+", "v")]%char.

Fixpoint add_prefix_modes (chan c : ptr) (prefixes : string) (l : list (ascii * ascii)) : M unit :=
  match l with
  | [] => mret tt
  | (p, m) :: l' =>
      (if str_mem p prefixes then _ ← Channel_UserModeAdd chan c m; mret tt else mret tt);;
      add_prefix_modes chan c prefixes l'
  end.

(** One nickname: the list that is sent on. *)
Definition njoin_nick (Client : ptr) (channame nick_out item : string) : M string :=
  let '(prefixes, nick) := nick_prefixes item in
  c ← Client_Search nick;
  if is_null c then
    Log false (dq "Got NJOIN for unknown nick `%s` for channel `%s`!") [FS nick; FS channame];;
    mret nick_out
  else
    joined ← Channel_Join c channame;
    if negb (joined : bool) then
      Log false (dq "Failed to join client `%s` to channel `%s` (NJOIN): killing it!")
        [FS nick; FS channame];;
      _ ← IRC_KillClient NULL NULL nick "Internal NJOIN error!";
      mret nick_out
    else
      chan ← Channel_Search channame;
      assert_ (negb (is_null chan));;
      add_prefix_modes chan c prefixes prefix_modes;;
      IRC_WriteStrChannelPrefix Client chan c false "JOIN :%s" [FS channame];;
      conn ← Client_Conn c;
      (if negb (conn =? NONE) then _ ← IRC_Send_Channel_Info c chan; mret tt else mret tt);;
      m ← Channel_UserModes chan c;
      let modes := strlcpy m 8 in
      (if negb (hd0 modes =c NUL) then
         id ← Client_ID c;
         IRC_WriteStrChannelPrefix Client chan Client false "MODE %s +%s %s" [FS channame; FS modes; FS id]
       else mret tt);;
      let nick_out := if hd0 nick_out =c NUL then nick_out else cat nick_out "," in
      mret (cat (fold_left (fun s (pm : ascii * ascii) =>
                   if str_mem pm.1 prefixes then cat s (String pm.1 "") else s) prefix_modes nick_out)
                nick).

Fixpoint njoin_loop (Client : ptr) (channame nick_out : string) (l : list string) : M string :=
  match l with
  | [] => mret nick_out
  | item :: l' => s ← njoin_nick Client channame nick_out item; njoin_loop Client channame s l'
  end.

Definition IRC_NJOIN (Client : ptr) (Req : REQUEST) : M bool :=
  assert_ (negb (is_null Client));;
  channame ← arg Req 0;
  nicks ← arg Req 1;
  nick_out ← njoin_loop Client channame "" (tokens (strlcpy nicks COMMAND_LEN) ",");
  (if negb (hd0 nick_out =c NUL) then
     this ← Client_ThisServer;
     IRC_WriteStrServersPrefix Client this "NJOIN %s :%s" [FS channame; FS nick_out]
   else mret tt);;
  mret true.

(** ** SQUIT *)

(** The message of SQUIT for a target that is connected over [con]. *)
Definition squit_msg (Client from : ptr) (con : Z) (text : string) : M string :=
  id ← Client_ID from;
  if negb (hd0 text =c NUL) then
    hop ← Client_NextHop from;
    if negb (ptr_eqb hop Client) || (NONE <? con) then
      mret (snprintf COMMAND_LEN (dq "`%s` (SQUIT from %s)") [FS text; FS id])
    else mret (strlcpy text COMMAND_LEN)
  else mret (snprintf COMMAND_LEN "Got SQUIT from %s" [FS id]).

(** A server that is not directly connected: the request is sent on, or the
    server is removed from the network. *)
Definition squit_remote (from target : ptr) (name text msg : string) : M bool :=
  fty ← Client_Type from;
  (if negb (fty =? CLIENT_SERVER) then
     hop ← Client_NextHop target;
     _ ← IRC_WriteStrClientPrefix hop from "SQUIT %s :%s" [FS name; FS text]; mret tt
   else
     id ← Client_ID from;
     let logmsg := if has_chr msg "(" then "" else
                     snprintf COMMAND_LEN (dq "`%s` (SQUIT from %s)") [FS text; FS id] in
     Client_Destroy target (Some (if hd0 logmsg =c NUL then msg else logmsg)) (Some msg) false);;
  mret true.

Definition squit (Client from : ptr) (Req : REQUEST) (name text : string) : M bool :=
  ty ← Client_Type Client;
  id ← Client_ID from;
  Log (ty =? CLIENT_USER) (dq "Got SQUIT from %s for `%s`: `%s` ...") [FS id; FS name; FS text];;
  target ← Client_Search name;
  ty ← Client_Type Client;
  this ← Client_ThisServer;
  if negb (ty =? CLIENT_SERVER) && ptr_eqb target this then Op_NoPrivileges Client Req
  else if is_null target then
    id ← Client_ID Client;
    Log false (dq "Got SQUIT from %s for unknown server `%s`!?") [FS id; FS name];;
    mret true
  else
    client_con ← Client_Conn Client;
    con ← Client_Conn target;
    msg ← squit_msg Client from con text;
    if NONE <? con then
      id ← Client_ID from;
      IRC_SendWallops this this "Received SQUIT %s from %s: %s"
        [FS name; FS id; FS (if hd0 text =c NUL then "-" else text)];;
      Conn_Close con None (Some msg) true;;
      mret (negb (con =? client_con))
    else squit_remote from target name text msg.

Definition IRC_SQUIT (Client : ptr) (Req : REQUEST) : M bool :=
  assert_ (negb (is_null Client));;
  ty ← Client_Type Client;
  allowed ← (if ty =? CLIENT_SERVER then mret true else Client_HasMode Client "o");
  if negb (allowed : bool) then Op_NoPrivileges Client Req
  else
    r ← match rq_prefix Req with
        | Some prefix =>
            if ty =? CLIENT_SERVER then
              from ← Client_Search prefix;
              fty ← Client_Type from;
              ok ← (if fty =? CLIENT_SERVER then mret true
                    else op ← Op_Check Client Req; mret (negb (is_null op)));
              mret (if (ok : bool) then Some from else None)
            else mret (Some Client)
        | None => mret (Some Client)
        end;
    match r with
    | None => Op_NoPrivileges Client Req
    | Some from =>
        if is_null from then reply_error Client ERR_NOSUCHNICK_MSG [FS (from_opt "" (rq_prefix Req))]
        else name ← arg Req 0; text ← arg Req 1; squit Client from Req name text
    end.

End IrcServer.
