(* ===== verification/Commands.v ===== *)
(** * The command table (src/server/proto/irc/parse.c)

    The functions that the command table and the table of status codes point to,
    and with them the server as a whole: what it does with a line and with the
    bytes in a read buffer. *)

From S2P Require Import Prelude CString Match Hash Checks Lists Messages World ClientCore.
From S2P Require Import ConnFunc ConnSpec ChannelCore State IrcWrite Channel Client Class Conn Servers Parse Reader.
From S2P Require Import Irc IrcOp IrcInfo IrcChannel IrcMode Login IrcLogin IrcOper IrcServer.

Section Commands.
Context `{Conf} `{ConnIO}.
Context (read_lines : string -> option (list string)) (rand : Z).

(** The column [function] of the table [My_Commands]. *)
Definition My_Functions : list (string * (ptr -> REQUEST -> M bool)) :=
  [("ADMIN", IRC_ADMIN); ("AWAY", IRC_AWAY); ("CAP", IRC_CAP read_lines); ("CONNECT", IRC_CONNECT);
   ("DIE", IRC_DIE); ("DISCONNECT", IRC_DISCONNECT); ("ERROR", IRC_ERROR); ("GLINE", IRC_xLINE);
   ("HELP", IRC_HELP); ("INFO", IRC_INFO); ("INVITE", IRC_INVITE); ("ISON", IRC_ISON);
   ("JOIN", IRC_JOIN read_lines); ("KICK", IRC_KICK); ("KILL", IRC_KILL); ("KLINE", IRC_xLINE);
   ("LINKS", IRC_LINKS); ("LIST", IRC_LIST); ("LUSERS", IRC_LUSERS); ("METADATA", IRC_METADATA);
   ("MODE", IRC_MODE); ("MOTD", IRC_MOTD); ("NAMES", IRC_NAMES); ("NICK", IRC_NICK read_lines rand);
   ("NJOIN", IRC_NJOIN); ("NOTICE", IRC_NOTICE); ("OPER", IRC_OPER); ("PART", IRC_PART);
   ("PASS", IRC_PASS); ("PING", IRC_PING); ("PONG", IRC_PONG read_lines); ("PRIVMSG", IRC_PRIVMSG);
   ("QUIT", IRC_QUIT); ("REHASH", IRC_REHASH); ("RESTART", IRC_RESTART); ("SERVER", IRC_SERVER);
   ("SERVICE", IRC_SERVICE); ("SERVLIST", IRC_SERVLIST); ("SQUERY", IRC_SQUERY); ("SQUIT", IRC_SQUIT);
   ("STATS", IRC_STATS); ("SVSNICK", IRC_SVSNICK); ("SUMMON", IRC_SUMMON); ("TIME", IRC_TIME);
   ("TOPIC", IRC_TOPIC); ("TRACE", IRC_TRACE); ("USER", IRC_USER read_lines);
   ("USERHOST", IRC_USERHOST); ("USERS", IRC_USERS); ("VERSION", IRC_VERSION);
   ("WALLOPS", IRC_WALLOPS); ("WEBIRC", IRC_WEBIRC); ("WHO", IRC_WHO); ("WHOIS", IRC_WHOIS);
   ("WHOWAS", IRC_WHOWAS); ("CHANINFO", IRC_CHANINFO); ("GET", IRC_QUIT_HTTP); ("POST", IRC_QUIT_HTTP)].

Definition command (name : string) (Client : ptr) (Req : REQUEST) : M bool :=
  match lfind (fun f => String.eqb f.1 name) My_Functions with
  | Some f => f.2 Client Req
  | None => crash AssertFailed
  end.

(** The table [Numerics]. *)
Definition numeric (num : Z) (Client : ptr) (Req : REQUEST) : M bool :=
  if num =? 5 then IRC_Num_ISUPPORT Client Req
  else if num =? 376 then IRC_Num_ENDOFMOTD Client Req
  else crash AssertFailed.

(** The server: a line that has been received, and a read buffer. *)
Definition handle_line (idx : Z) (line : string) : M bool := Parse_Request command numeric idx line.

Definition handle_input (idx : Z) : M Z := Conn_Process_Buffer command numeric idx.

(** A dialogue: lines that arrive one after the other. *)
Fixpoint handle_lines (l : list (Z * string)) : M unit :=
  match l with
  | [] => mret tt
  | (idx, line) :: l' => _ ← handle_line idx line; handle_lines l'
  end.

End Commands.
