(* ===== verification/Startup.v ===== *)
(** * The begin and the end of the modules (src/state/client/client.c, src/state/channel/channel.c,
      platform/windows/src/win32_sighandlers.c)

    What is done once, when the server starts, and once, when it stops.  The name of the
    host and its canonical form are arguments. *)

From S2P Require Import Prelude CString Match Hash Checks Lists Messages Ipaddr Io World ClientCore.
From S2P Require Import ConnFunc ConnSpec ChannelCore IrcWrite Channel Client.

Definition no_whowas : WHOWAS := Whowas 0 "" "" "" "" "".

(** The handlers are registered; there is nothing else to do. *)
Definition Signals_Init : bool := true.

(** All channels are freed, and all memberships.  The heads of the lists are not
    reset: the one of the channels points to a freed channel until [Channel_Init]. *)
Fixpoint free_channels (l : list nat) : M unit :=
  match l with
  | [] => mret tt
  | a :: l' => Free_Channel (Some a);; free_channels l'
  end.

Definition Channel_Exit : M unit :=
  l ← get_tab t_My_Channels;
  free_channels l;;
  mod_tab (set_t_My_Cl2Chan []).

Section Startup.
Context `{Conf} `{ConnIO}.

Definition Client_Init (gethostname : string) (gethostbyname : string -> option string) : M unit :=
  a ← New_Client_Struct;
  mod_tab (set_t_This_Server a);;
  let This_Server := Some a in
  upd_client This_Server (fun c =>
    set_cl_hops 0 (set_cl_mytoken 1 (set_cl_introducer This_Server (set_cl_conn_id NONE (set_cl_type CLIENT_SERVER c)))));;
  upd_client This_Server (set_cl_host (strlcpy gethostname CLIENT_HOST_LEN));;
  (if Conf_DNS then
     c ← deref_client This_Server;
     match gethostbyname (cl_host c) with
     | Some h => upd_client This_Server (set_cl_host (strlcpy h CLIENT_HOST_LEN))
     | None => mret tt
     end
   else mret tt);;
  Client_SetID This_Server Conf_ServerName;;
  Client_SetInfo This_Server Conf_ServerInfo;;
  mod_tab (set_t_My_Clients [a]);;
  mod_tab (set_t_My_Whowas (replicate (Z.to_nat MAX_WHOWAS) no_whowas)).

Fixpoint free_clients (l : list nat) : M unit :=
  match l with
  | [] => mret tt
  | a :: l' => _ ← deref_client (Some a); Free_Client (Some a);; free_clients l'
  end.

Definition Client_Exit : M unit :=
  restart ← get_tab t_SignalRestart;
  this ← Client_ThisServer;
  Client_Destroy this (Some (if (restart : bool) then "Server going down (restarting)." else "Server going down.")) None false;;
  l ← get_tab t_My_Clients;
  free_clients l;;
  match l with
  | [] => mret tt
  | _ => let cnt := Z.of_nat (length l) in
         Log false "Freed %d client structure%s." [FZ cnt; FS (if cnt =? 1 then "" else "s")]
  end.

End Startup.
