(* ===== verification/Accept.v ===== *)
(** * Listening and accepting (src/state/connection/conn.c)

    The listening sockets, new connections, and the answer of the resolver that
    every new connection waits for. *)

From S2P Require Import Prelude CString Match Hash Checks Lists Messages Ipaddr Io World ClientCore.
From S2P Require Import ConnFunc ConnSpec ChannelCore State IrcWrite Channel Client Class Conn Servers Parse Reader System.
From S2P Require Import Login IrcLogin.

Definition CONNECTION_POOL : Z := 100.
Definition SD_LISTEN_FDS_START : Z := 3.

Section Accept.
Context `{Conf} `{ConnIO} `{System}.

(** ** The pool *)

Definition Conn_FromSocket (Sock : Z) : M Z :=
  if Sock <=? NONE then mret NONE
  else get_net (fun n => from_opt NONE
                  ((fun x => Z.of_nat x.1) <$> lfind (fun x => cn_sock x.2 =? Sock) (imap pair (n_conns n)))).

(** The pool grows to the index of the socket. *)
Definition Socket2Index (Sock : Z) : M Z :=
  assert_ (0 <? Sock);;
  n ← Pool_Size;
  if Sock <? n then mret Sock
  else
    now ← time;
    mod_net (fun s => set_n_conns
      (n_conns s ++ replicate (S (Z.to_nat Sock) - length (n_conns s)) (free_slot now)) s);;
    mret Sock.

Fixpoint count_loop (a : ng_ipaddr_t) (l : list CONNECTION) : M Z :=
  match l with
  | [] => mret 0
  | c :: l' =>
      one ← (if cn_sock c <=? NONE then mret 0
             else same ← asserting (ng_ipaddr_ipequal (cn_addr c) a); mret (if (same : bool) then 1 else 0));
      cnt ← count_loop a l'; mret (one + cnt)
  end.

Definition Count_Connections (a : ng_ipaddr_t) : M Z := l ← get_net n_conns; count_loop a l.

Definition Conn_GetProcStat (Idx : Z) : M PROC_STAT :=
  assert_ (0 <=? Idx);; o ← get_net (fun n => n_conns n !! Z.to_nat Idx);
  c ← asserting o; mret (cn_proc_stat c).

Definition Conn_GetFromProc (fd : Z) : M Z :=
  assert_ (0 <? fd);;
  get_net (fun n => from_opt NONE
    ((fun x => Z.of_nat x.1) <$>
       lfind (fun x => negb (cn_sock x.2 =? NONE) && (Proc_GetPipeFd (cn_proc_stat x.2) =? fd))
         (imap pair (n_conns n)))).

Definition Conn_Init : M unit :=
  mod_net (set_n_conns []);;
  idx ← Socket2Index (if 0 <? Conf_MaxConnections then Conf_MaxConnections else CONNECTION_POOL);
  if idx <=? NONE then crash Exited else mod_net (set_n_My_Listeners []).

Definition Conn_CloseAllSockets (ExceptOf : Z) : M unit :=
  mod_net (fun n => set_n_sys (n_sys n ++
    map (fun c => SysClose (cn_sock c))
      (List.filter (fun c => (NONE <? cn_sock c) && negb (cn_sock c =? ExceptOf)) (n_conns n))) n).

(** ** New connections *)

Definition Conn_StartLogin (Idx : Z) : M unit :=
  assert_ (0 <=? Idx);;
  ok ← (if Conf_NoticeBeforeRegistration then
          ok ← Conn_WriteStr Idx (if Conf_DNS then "NOTICE * :*** Looking up your hostname"
                                  else "NOTICE * :*** Processing your connection") [];
          if (ok : bool) then Handle_Write Idx else mret false
        else mret true);
  if negb (ok : bool) then mret tt
  else
    conn ← the_conn Idx;
    r ← Resolve_Addr_Ident (cn_addr conn) CbReadResolverResult;
    match r with
    | Some p => upd_conn Idx (set_cn_proc_stat p)
    | None => mret tt
    end.

(** A refused peer gets a message, and its socket is closed. *)
Definition refuse_peer (new_sock : Z) (Msg : string) : M Z :=
  Simple_Message new_sock Msg;; sys_close new_sock;; mret (-1).

Definition is_AF_INET (a : ng_ipaddr_t) : bool := match a with AF_INET _ _ => true | _ => false end.

(** The slot of an accepted connection. *)
Definition enter_connection (new_sock : Z) (new_addr : ng_ipaddr_t) (ip_str : string) (c : ptr) : M unit :=
  Init_Conn_Struct new_sock;;
  upd_conn new_sock (set_cn_sock new_sock);;
  upd_conn new_sock (set_cn_addr new_addr);;
  upd_conn new_sock (set_cn_client c);;
  upd_conn new_sock (set_cn_host
    (if negb (is_AF_INET new_addr) then snprintf HOST_LEN "[%s]" [FS ip_str] else strlcpy ip_str HOST_LEN));;
  conn ← the_conn new_sock;
  Client_SetHostname c (cn_host conn).

Definition New_Connection (Sock : Z) : M Z :=
  assert_ (NONE <? Sock);;
  r ← new_fd fst (fun k => sys_accept k Sock);
  match r with
  | None => Log false "Can't accept connection on socket %d: %s!" [FZ Sock; FS ""];; mret (-1)
  | Some (new_sock, new_addr) =>
      mod_net (fun n => set_n_NumConnectionsAccepted (n_NumConnectionsAccepted n + 1) n);;
      ip_str ← asserting (ng_ipaddr_tostr_r getnameinfo new_addr);
      ok ← Init_Socket new_sock;
      if negb (ok : bool) then mret (-1)
      else
        count ← get_net n_NumConnections;
        if (0 <? Conf_MaxConnections) && (Conf_MaxConnections <=? count) then
          refuse_peer new_sock "ERROR :Connection limit reached"
        else
          cnt ← Count_Connections new_addr;
          if (0 <? Conf_MaxConnectionsIP) && (Conf_MaxConnectionsIP <=? cnt) then
            refuse_peer new_sock "ERROR :Connection refused, too many connections from your IP address"
          else
            idx ← Socket2Index new_sock;
            if idx <=? NONE then refuse_peer new_sock "ERROR: Internal error"
            else
              ok ← io_op (io_event_create new_sock IO_WANTREAD CbClientServer);
              if negb (ok : bool) then refuse_peer new_sock "ERROR :Internal error"
              else
                c ← Client_NewLocal new_sock None CLIENT_UNKNOWN false;
                if is_null c then
                  Simple_Message new_sock "ERROR :Internal error";; close_event new_sock;; mret (-1)
                else
                  enter_connection new_sock new_addr ip_str c;;
                  _ ← asserting (ng_ipaddr_getport new_addr);
                  Account_Connection;;
                  Conn_StartLogin new_sock;;
                  mret new_sock
  end.

(** [irrelevant] is not used. *)
Definition cb_listen (sock irrelevant : Z) : M unit := _ ← New_Connection sock; mret tt.

(** ** The answer of the resolver *)

Definition set_proc (i : Z) (p : PROC_STAT) : M unit := upd_conn i (set_cn_proc_stat p).

(** The host name in an answer. *)
Definition resolved_host (i : Z) (c : ptr) (readbuf : string) : M unit :=
  if hd0 readbuf =c NUL then mret tt
  else
    upd_conn i (set_cn_host (strlcpy readbuf HOST_LEN));;
    Client_SetHostname c readbuf;;
    if Conf_NoticeBeforeRegistration then
      conn ← the_conn i;
      _ ← Conn_WriteStr i "NOTICE * :*** Found your hostname: %s" [FS (cn_host conn)]; mret tt
    else mret tt.

Definition cb_Read_Resolver_Result (r_fd events : Z) : M unit :=
  i ← Conn_GetFromProc r_fd;
  if i =? NONE then close_event r_fd
  else
    conn ← the_conn i;
    r ← Proc_Read (cn_proc_stat conn) HOST_LEN;
    set_proc i r.2;;
    p ← Proc_Close r.2;
    set_proc i p;;
    if strlen r.1 =? 0 then mret tt
    else
      match index LF (before NUL r.1) with
      | None => crash AssertFailed
      | Some pos =>
          let readbuf := str_take pos r.1 in
          conn ← the_conn i;
          assert_ (0 <=? cn_sock conn);;
          c ← Conn_GetClient i;
          assert_ (negb (is_null c));;
          ty ← Client_Type c;
          if ty =? CLIENT_UNKNOWN then
            resolved_host i c readbuf;;
            ok ← (if Conf_NoticeBeforeRegistration then Handle_Write i else mret true);
            if negb (ok : bool) then mret tt
            else _ ← Class_HandleServerBans c; mret tt
          else mret tt
      end.

(** ** Listening sockets *)

(** The socket, or -1. *)
Definition NewListener (listen_addr : string) (Port : Z) : M Z :=
  match ng_ipaddr_init sys_getaddrinfo listen_addr Port with
  | None =>
      Log false "Can't listen on [%s]:%u: Failed to parse IP address!" [FS listen_addr; FZ Port];; mret (-1)
  | Some addr =>
      r ← new_fd id sys_socket;
      match r with
      | None => mret (-1)
      | Some sock =>
          ok ← Init_Socket sock;
          if negb (ok : bool) then mret (-1)
          else
            ok ← syscall (fun k => sys_bind k sock addr);
            if negb (ok : bool) then
              _ ← asserting (ng_ipaddr_tostr_r getnameinfo addr); sys_close sock;; mret (-1)
            else
              ok ← syscall (fun k => sys_listen k sock);
              if negb (ok : bool) then sys_close sock;; mret (-1)
              else
                mod_net (fun n => set_n_My_Listeners (n_My_Listeners n ++ [sock]) n);;
                _ ← asserting (ng_ipaddr_tostr_r getnameinfo addr);
                mret sock
      end
  end.

Fixpoint Init_Listeners (a : list Z) (listen_addr : string) (func : callback) : M Z :=
  match a with
  | [] => mret 0
  | port :: a' =>
      fd ← NewListener listen_addr port;
      created ← (if fd <? 0 then mret 0
                 else
                   ok ← io_op (io_event_create fd IO_WANTREAD func);
                   if negb (ok : bool) then sys_close fd;; mret 0 else mret 1);
      rest ← Init_Listeners a' listen_addr func; mret (created + rest)
  end.

(** The number of sockets that systemd(8) hands over. *)
Definition my_sd_listen_fds : Z :=
  match sys_getenv "LISTEN_PID" with
  | None | Some "" => 0
  | Some _ =>
      match sys_getenv "LISTEN_FDS" with
      | None | Some "" => -1
      | Some e => atoi e
      end
  end.

Fixpoint sd_listeners (count : nat) (fd : Z) : M Z :=
  match count with
  | O => mret 0
  | S count' =>
      addr ← syscall (fun k => default AF_UNSPEC (sys_getsockname k fd));
      created ← match addr with
                | AF_UNSPEC => sys_close fd;; mret 0
                | _ =>
                    _ ← Init_Socket fd;
                    ok ← io_op (io_event_create fd IO_WANTREAD CbListen);
                    if negb (ok : bool) then mret 0
                    else
                      _ ← asserting (ng_ipaddr_tostr_r getnameinfo addr);
                      _ ← asserting (ng_ipaddr_getport addr); mret 1
                end;
      rest ← sd_listeners count' (fd + 1); mret (created + rest)
  end.

Fixpoint listen_on (addrs : list string) : M Z :=
  match addrs with
  | [] => mret 0
  | a :: addrs' =>
      let listen_addr := ngt_TrimStr a in
      created ← (if hd0 listen_addr =c NUL then mret 0
                 else Init_Listeners Conf_ListenPorts listen_addr CbListen);
      rest ← listen_on addrs'; mret (created + rest)
  end.

Definition Conn_InitListeners : M Z :=
  ListenAddress ← asserting Conf_ListenAddress;
  let count := my_sd_listen_fds in
  if count <? 0 then mret 0
  else if 0 <? count then sd_listeners (Z.to_nat count) SD_LISTEN_FDS_START
  else listen_on (tokens ListenAddress ",").

Fixpoint close_listeners (l : list Z) : M unit :=
  match l with
  | [] => mret tt
  | fd :: l' => assert_ (0 <=? fd);; close_event fd;; close_listeners l'
  end.

Definition Conn_ExitListeners : M unit :=
  l ← get_net n_My_Listeners;
  match l with
  | [] => mret tt
  | _ => close_listeners l;; mod_net (set_n_My_Listeners [])
  end.

(** ** The end *)

Fixpoint exit_loop (n : nat) (idx : Z) : M unit :=
  match n with
  | O => mret tt
  | S n' =>
      conn ← the_conn idx;
      (if NONE <? cn_sock conn then
         restart ← get_tab t_SignalRestart;
         Conn_Close idx None (Some (if (restart : bool) then "Server going down (restarting)" else "Server going down")) true
       else mret tt);;
      exit_loop n' (idx + 1)
  end.

Definition Conn_Exit : M unit :=
  Conn_ExitListeners;;
  n ← Pool_Size;
  exit_loop (Z.to_nat n) 0;;
  mod_net (set_n_conns []);;
  mod_net (fun n => set_n_io (io_library_shutdown (n_io n)) n).

End Accept.
