(* ===== verification/Link.v ===== *)
(** * Outgoing server links (src/state/connection/conn.c)

    Configured servers are looked up, connected to and logged in to. *)

From S2P Require Import Prelude CString Match Hash Checks Lists Messages Ipaddr Io World ClientCore.
From S2P Require Import ConnFunc ConnSpec ChannelCore State IrcWrite Channel Client Conn Servers Parse Reader System.
From S2P Require Import IrcServer Accept.

Definition SERVER_WAIT : Z := NONE - 1.

Section Link.
Context `{Conf} `{ConnIO} `{System}.

Definition upd_server (i : Z) (f : CONF_SERVER -> CONF_SERVER) : M unit :=
  s ← the_server i; put_server i (f s).

Definition ng_ipaddr_af (a : ng_ipaddr_t) : bool := match a with AF_UNSPEC => false | _ => true end.

(** ** Connecting *)

(** The preparation ends, and the server may be tried again. *)
Definition abandon_link (Server : Z) : M unit := upd_server Server (set_sv_conn_id NONE).

(** The new client and its slot. *)
Definition enter_server (Server new_sock : Z) (dest : ng_ipaddr_t) : M unit :=
  conn ← the_conn new_sock;
  assert_ (cn_sock conn <=? 0);;
  Init_Conn_Struct new_sock;;
  ip_str ← asserting (ng_ipaddr_tostr_r getnameinfo dest);
  c ← Client_NewLocal new_sock (Some ip_str) CLIENT_UNKNOWNSERVER false;
  if is_null c then close_event new_sock;; abandon_link Server
  else
    Account_Connection;;
    Client_SetIntroducer c c;;
    Client_SetToken c TOKEN_OUTBOUND;;
    ok ← Conf_SetServer Server new_sock;
    if negb (ok : bool) then mret tt
    else
      upd_conn new_sock (set_cn_sock new_sock);;
      upd_conn new_sock (set_cn_addr dest);;
      upd_conn new_sock (set_cn_client c);;
      s ← the_server Server;
      upd_conn new_sock (set_cn_host (strlcpy (sv_host s) HOST_LEN));;
      upd_conn new_sock (fun c => set_cn_options (Z.lor (cn_options c) CONN_ISCONNECTING) c).

Definition New_Server (Server : Z) (dest : ng_ipaddr_t) : M unit :=
  assert_ (NONE <? Server);;
  s ← the_server Server;
  if NONE <? sv_conn_id s then mret tt
  else
    _ ← asserting (ng_ipaddr_tostr_r getnameinfo dest);
    r ← new_fd id sys_socket;
    match r with
    | None => abandon_link Server
    | Some new_sock =>
        ok ← Init_Socket new_sock;
        if negb (ok : bool) then abandon_link Server
        else
          (if ng_ipaddr_af (sv_bind_addr s) then
             bound ← syscall (fun k => sys_bind k new_sock (sv_bind_addr s));
             if (bound : bool) then mret tt
             else _ ← asserting (ng_ipaddr_tostr_r getnameinfo (sv_bind_addr s)); mret tt
           else mret tt);;
          dest ← asserting (ng_ipaddr_setport dest (sv_port s));
          ok ← syscall (fun k => sys_connect k new_sock dest);
          if negb (ok : bool) then sys_close new_sock;; abandon_link Server
          else
            idx ← Socket2Index new_sock;
            if idx <=? NONE then sys_close new_sock;; abandon_link Server
            else
              ok ← io_op (io_event_create new_sock IO_WANTWRITE CbConnServer);
              if negb (ok : bool) then sys_close new_sock;; abandon_link Server
              else enter_server Server new_sock dest
    end.

(** The addresses of a server have been looked up: the first one is tried, two more
    are remembered. *)
Definition cb_Connect_to_Server (fd events : Z) : M unit :=
  i ← get_tab (fun t => index_of (fun s => Proc_GetPipeFd (sv_res_stat s) =? fd) 0 (t_Conf_Server t));
  if i <? 0 then close_event fd
  else
    addrs ← syscall (fun k => sys_read_addrs k fd);
    let dest_addrs := take 4 addrs in
    s ← the_server i;
    p ← Proc_Close (sv_res_stat s);
    upd_server i (set_sv_res_stat p);;
    match dest_addrs with
    | [] => abandon_link i
    | dest :: more =>
        let dst_addr := (from_opt AF_UNSPEC (more !! 0%nat), from_opt AF_UNSPEC (more !! 1%nat)) in
        upd_server i (set_sv_dst_addr dst_addr);;
        New_Server i dest
    end.

(** ** Logging in *)

Definition server_login (idx : Z) : M unit :=
  server ← Conf_GetServer idx;
  s ← the_server server;
  conn ← the_conn idx;
  _ ← io_op (io_event_setcb (cn_sock conn) CbClientServer);
  _ ← io_op (io_event_add (cn_sock conn) (Z.lor IO_WANTREAD IO_WANTWRITE));
  _ ← Conn_WriteStr idx "PASS %s %s" [FS (sv_pwd_out s); FS NGIRCd_ProtoID];
  _ ← Conn_WriteStr idx "SERVER %s :%s" [FS Conf_ServerName; FS Conf_ServerInfo];
  mret tt.

Definition cb_connserver (sock what : Z) : M unit :=
  idx ← Socket2Index sock;
  if idx <=? NONE then close_event sock
  else
    assert_ (has_bit what IO_WANTWRITE);;
    server ← Conf_GetServer idx;
    conn ← the_conn idx;
    if server <? 0 then
      Log false (dq "Connection on socket %d to `%s` aborted!") [FZ sock; FS (cn_host conn)];;
      Conn_Close idx (Some "Connection aborted") None false
    else
      err ← syscall (fun k => sys_so_error k (cn_sock conn));
      if negb (bool_decide (err = Some 0)) then
        Conn_Close idx (Some "Can't connect") None false;;
        s ← the_server server;
        if ng_ipaddr_af (fst (sv_dst_addr s)) then
          New_Server server (fst (sv_dst_addr s));;
          upd_server server (fun s => set_sv_dst_addr (snd (sv_dst_addr s), AF_UNSPEC) s)
        else mret tt
      else
        upd_server server (set_sv_dst_addr (AF_UNSPEC, AF_UNSPEC));;
        upd_conn idx (fun c => set_cn_options (Z.land (cn_options c) (Z.lnot CONN_ISCONNECTING)) c);;
        server_login idx.

(** ** Starting links *)

(** Another server of the group is connected. *)
Definition group_connected (i : nat) (group : Z) (l : list CONF_SERVER) : bool :=
  existsb (fun x => negb (x.1 =? i)%nat && negb (sv_conn_id x.2 =? NONE) && (sv_group x.2 =? group))
    (imap pair l).

Definition Conn_Maybe_Start_Server_Link (i time_now : Z) : M unit :=
  s ← the_server i;
  if negb (sv_conn_id s =? NONE) then mret tt
  else if (hd0 (sv_host s) =c NUL) || (sv_port s <=? 0) then mret tt
  else if negb (Z.land (sv_flags s) CONF_SFLAG_DISABLED =? 0) then mret tt
  else if time_now - Conf_ConnectRetry <? sv_lasttry s then mret tt
  else
    l ← get_tab t_Conf_Server;
    if (NONE <? sv_group s) && group_connected (Z.to_nat i) (sv_group s) l then mret tt
    else
      Log false (dq "Preparing to establish a new server link for `%s` ...") [FS (sv_name s)];;
      upd_server i (set_sv_lasttry time_now);;
      upd_server i (set_sv_conn_id SERVER_WAIT);;
      assert_ (Proc_GetPipeFd (sv_res_stat s) <? 0);;
      ok ← Resolve_Name (sv_host s);
      if (ok : bool) then mret tt else abandon_link i.

Fixpoint check_servers_loop (n : nat) (i time_now : Z) : M unit :=
  match n with
  | O => mret tt
  | S n' => Conn_Maybe_Start_Server_Link i time_now;; check_servers_loop n' (i + 1) time_now
  end.

Definition Check_Servers : M unit :=
  time_now ← time; check_servers_loop (Z.to_nat MAX_SERVERS) 0 time_now.

End Link.
