(* ===== verification/EventLoop.v ===== *)
(** * The event loop (src/state/connection/conn.c, io.c)

    What the server does for ever: it waits for descriptors that are ready,
    calls their callbacks, handles the lines in the read buffers, and looks after
    time-outs and links.  [Conn_Handler] runs at most a given number of rounds and
    tells whether the loop has ended. *)

From S2P Require Import Prelude CString Match Hash Checks Lists Messages Ipaddr Io World ClientCore.
From S2P Require Import ConnFunc ConnSpec ChannelCore State IrcWrite Channel Client Class Conn Servers Parse Reader System.
From S2P Require Import Commands Accept Link.

(** ** Dispatching events *)

Section Dispatch.
Context `{Conf} `{System}.
Context (run_callback : callback -> Z -> Z -> M unit).

Definition io_docallback (fd what : Z) : M unit :=
  e ← get_net (fun n => io_event_get fd (n_io n));
  match e with
  | None => crash NoEvent
  | Some i =>
      match ev_callback i with
      | Some cb => run_callback cb fd (if has_bit what IO_ERROR then ev_what i else what)
      | None => mret tt
      end
  end.

(** The events of a descriptor among those that are ready. *)
Definition ready_events (readers writers : gset Z) (fd : Z) : Z :=
  Z.lor (if bool_decide (fd ∈ readers) then IO_WANTREAD else 0)
        (if bool_decide (fd ∈ writers) then IO_WANTWRITE else 0).

Definition ready_count (readers writers : gset Z) (fd : Z) : Z :=
  (if bool_decide (fd ∈ readers) then 1 else 0) + (if bool_decide (fd ∈ writers) then 1 else 0).

(** The loop [for (i = 0; i <= select_maxfd; i++)]; [n] bounds the number of rounds. *)
Fixpoint dispatch_loop (n : nat) (i fds_ready : Z) (readers writers : gset Z) : M unit :=
  match n with
  | O => crash OutOfFuel
  | S n' =>
      maxfd ← get_net (fun n => io_select_maxfd (n_io n));
      if maxfd <? i then mret tt
      else
        let what := ready_events readers writers i in
        let fds_ready := fds_ready - ready_count readers writers i in
        (if negb (what =? 0) then io_docallback i what else mret tt);;
        if fds_ready <=? 0 then mret tt else dispatch_loop n' (i + 1) fds_ready readers writers
  end.

(** The number of ready descriptors, or -1, and whether [errno] is EINTR then. *)
Definition io_dispatch_select (tv_sec : Z) : M (Z * bool) :=
  io ← get_net n_io;
  r ← syscall (fun k => sys_select k (io_readers io) (io_writers io) (io_select_maxfd io + 1) tv_sec);
  t ← syscall sys_clock;
  mod_tab (set_t_now t);;
  match r with
  | Interrupted => mret (-1, true)
  | SelectFailed => mret (-1, false)
  | Ready r w =>
      let readers := r ∩ io_readers io in
      let writers := w ∩ io_writers io in
      let ret := Z.of_nat (size readers + size writers) in
      if ret <=? 0 then mret (ret, false)
      else
        dispatch_loop (S (Z.to_nat FD_SETSIZE)) 0 ret readers writers;;
        mret (ret, false)
  end.

End Dispatch.

Section Loop.
Context `{Conf} `{ConnIO} `{System}.
Context (read_lines : string -> option (list string)) (rand : Z).

Notation command := (Commands.command read_lines rand).

(** ** Callbacks *)

Definition cb_clientserver (sock what : Z) : M unit :=
  idx ← Conn_FromSocket sock;
  if idx =? NONE then close_event sock
  else
    (if has_bit what IO_WANTREAD then
       r ← syscall (fun k => sys_recv k sock); Read_Request command numeric idx r
     else mret tt);;
    if has_bit what IO_WANTWRITE then _ ← Handle_Write idx; mret tt else mret tt.

Definition run_callback (cb : callback) : Z -> Z -> M unit :=
  match cb with
  | CbListen => cb_listen
  | CbConnServer => cb_connserver
  | CbClientServer => cb_clientserver
  | CbConnectToServer => cb_Connect_to_Server
  | CbReadResolverResult => cb_Read_Resolver_Result
  end.

(** ** One round *)

Fixpoint write_interest_loop (l : list CONNECTION) : M unit :=
  match l with
  | [] => mret tt
  | c :: l' =>
      (if cn_sock c <=? NONE then mret tt
       else if 0 <? strlen (cn_wbuf c) then
         _ ← io_op (io_event_add (cn_sock c) IO_WANTWRITE); mret tt
       else mret tt);;
      write_interest_loop l'
  end.

Definition Conn_Update_Write_Interest : M unit := l ← get_net n_conns; write_interest_loop l.

Definition Conn_IsReadableClient (conn : CONNECTION) (t : Z) : bool :=
  negb (cn_sock conn <=? NONE) && negb (Proc_InProgress (cn_proc_stat conn)) &&
  negb (Conn_OPTION_ISSET conn CONN_ISCONNECTING) && negb (t <? cn_delaytime conn).

Fixpoint read_interest_loop (t : Z) (l : list CONNECTION) (command_available : bool) : M bool :=
  match l with
  | [] => mret command_available
  | c :: l' =>
      if negb (Conn_IsReadableClient c t) then read_interest_loop t l' command_available
      else if Z.of_nat COMMAND_LEN <=? strlen (cn_rbuf c) then
        _ ← io_op (io_event_del (cn_sock c) IO_WANTREAD);
        read_interest_loop t l' true
      else
        _ ← io_op (io_event_add (cn_sock c) IO_WANTREAD);
        read_interest_loop t l' command_available
  end.

Definition Conn_Update_Read_Interest (t : Z) : M bool :=
  l ← get_net n_conns; read_interest_loop t l false.

Definition Conn_Wait_For_Activity (command_available : bool) : M unit :=
  r ← io_dispatch_select run_callback (if command_available then 0 else 1);
  if (r.1 =? -1) && negb r.2 then crash Exited else mret tt.

Definition Conn_Check_IdleTimeout (t : Z) : M unit :=
  accepted ← get_net n_NumConnectionsAccepted;
  idle_t ← get_net n_idle_t;
  if (0 <? Conf_IdleTimeout) && (0 <? accepted) && (0 <? idle_t) && (Conf_IdleTimeout <=? t - idle_t) then
    mod_tab (set_t_SignalQuit true)
  else mret tt.

Definition one_round : M unit :=
  t ← time;
  Check_Servers;;
  Check_Connections;;
  Class_Expire;;
  Conn_Handle_Buffers command numeric;;
  Conn_Update_Write_Interest;;
  command_available ← Conn_Update_Read_Interest t;
  Conn_Wait_For_Activity command_available;;
  t ← time;
  Conn_Check_IdleTimeout t.

Definition stopping : M bool :=
  quit ← get_tab t_SignalQuit; restart ← get_tab t_SignalRestart; mret (quit || restart).

Fixpoint main_loop (rounds : nat) : M bool :=
  stop ← stopping;
  if (stop : bool) then
    quit ← get_tab t_SignalQuit;
    Log true (if (quit : bool) then "Server going down NOW!" else "Server restarting NOW!") [];;
    mret true
  else match rounds with
       | O => mret false
       | S rounds' => one_round;; main_loop rounds'
       end.

Definition Conn_Handler (rounds : nat) : M bool :=
  this ← Client_ThisServer;
  id ← Client_ID this;
  host ← Client_Hostname this;
  Log false (dq "Server `%s` (on `%s`) ready.") [FS id; FS host];;
  main_loop rounds.

End Loop.
