(* ===== verification/FrameTables.v ===== *)
(** * What every operation keeps: an invariant of the tables

    The lists of clients, channels and memberships: what is linked exists and is
    linked once, the hash values belong to the names, every text fits the field
    of its structure, members are on channels that exist, the names of channels
    are unique (except for those that have been cut off), and the tables of fixed
    size have it.

    [sound m] says that [m] preserves this, whatever it finds in the tables.  The
    operations that link and unlink elements are dealt with here; everything else
    follows by the structure of the program. *)

From S2P Require Import Prelude CString Match Hash Checks Lists Messages Ipaddr Io World ClientCore.
From S2P Require Import ConnFunc ChannelCore State IrcWrite Channel Client Class Conn Servers.

(** ** The invariant *)

Record client_wf (c : CLIENT) : Prop := {
  cw_hash : cl_hash c = Hash (cl_id c) \/ cl_id c = "";
  cw_id : (slen (cl_id c) < CLIENT_ID_LEN)%nat;
  cw_host : (slen (cl_host c) < CLIENT_HOST_LEN)%nat;
  cw_cloaked : forall s, cl_cloaked c = Some s -> (slen s < CLIENT_HOST_LEN)%nat;
  cw_ipa : forall s, cl_ipa_text c = Some s -> (slen s < CLIENT_HOST_LEN)%nat;
  cw_user : (slen (cl_user c) < CLIENT_USER_LEN)%nat;
  cw_info : (slen (cl_info c) < CLIENT_INFO_LEN)%nat;
  cw_modes : (slen (cl_modes c) < CLIENT_MODE_LEN)%nat;
  cw_away : forall s, cl_away c = Some s -> (slen s < CLIENT_AWAY_LEN)%nat;
  cw_flags : (slen (cl_flags c) < CLIENT_FLAGS_LEN)%nat;
  cw_account : forall s, cl_account_name c = Some s -> (slen s < CLIENT_NICK_LEN)%nat }.

(** The masks of invitations are those of clients, which may be cut off: only their
    length is bounded. *)
Definition masks_fit (h : list_head) : Prop := forall e, e ∈ h -> (slen (le_mask e) < MASK_LEN)%nat.

Record channel_wf (c : CHANNEL) : Prop := {
  hw_hash : ch_hash c = Hash (ch_name c);
  hw_name : (slen (ch_name c) < CHANNEL_NAME_LEN)%nat;
  hw_modes : (slen (ch_modes c) < CHANNEL_MODE_LEN)%nat;
  hw_topic : forall s, ch_topic c = Some s -> (slen s < COMMAND_LEN)%nat;
  hw_who : (slen (ch_topic_who c) < CLIENT_NICK_LEN)%nat;
  hw_key : (slen (ch_key c) < CLIENT_PASS_LEN)%nat;
  hw_bans : lists_wf (ch_bans c) = true;
  hw_excepts : lists_wf (ch_excepts c) = true;
  hw_invites : masks_fit (ch_invites c) }.

Definition whowas_wf (x : WHOWAS) : Prop :=
  (slen (ww_id x) < CLIENT_NICK_LEN)%nat /\ (slen (ww_host x) < CLIENT_HOST_LEN)%nat /\
  (slen (ww_user x) < CLIENT_USER_LEN)%nat /\ (slen (ww_info x) < CLIENT_INFO_LEN)%nat /\
  (slen (ww_server x) < CLIENT_HOST_LEN)%nat.

Definition member_key (m : CL2CHAN) : nat * nat := (cc_client m, cc_channel m).

(** Names with the greatest length may have been cut off. *)
Definition names_unique (t : Tables) : Prop :=
  forall a b c d, a ∈ t_My_Channels t -> b ∈ t_My_Channels t ->
    t_channels t !! a = Some c -> t_channels t !! b = Some d ->
    case_eq (ch_name c) (ch_name d) -> a = b \/ S (slen (ch_name c)) = CHANNEL_NAME_LEN.

Record tables_ok (t : Tables) : Prop := {
  tk_client : forall a c, t_clients t !! a = Some c -> client_wf c /\ (a < t_fresh t)%nat;
  tk_channel : forall a c, t_channels t !! a = Some c -> channel_wf c /\ (a < t_fresh t)%nat;
  tk_clients : NoDup (t_My_Clients t);
  tk_listed : forall a, a ∈ t_My_Clients t -> is_Some (t_clients t !! a);
  tk_channels : NoDup (t_My_Channels t);
  tk_chan_listed : forall a, a ∈ t_My_Channels t -> is_Some (t_channels t !! a);
  tk_members : forall m, m ∈ t_My_Cl2Chan t ->
    cc_channel m ∈ t_My_Channels t /\ (slen (cc_modes m) < CHANNEL_MODE_LEN)%nat;
  tk_once : NoDup (map member_key (t_My_Cl2Chan t));
  tk_names : names_unique t;
  tk_classes : length (t_My_Classes t) = CLASS_COUNT;
  tk_class : forall h, h ∈ t_My_Classes t -> lists_wf h = true;
  tk_whowas : length (t_My_Whowas t) = Z.to_nat MAX_WHOWAS;
  tk_past : forall x, x ∈ t_My_Whowas t -> whowas_wf x;
  tk_last : -1 <= t_Last_Whowas t < MAX_WHOWAS;
  tk_servers : length (t_Conf_Server t) = Z.to_nat MAX_SERVERS }.

(** A client that exists and is not linked stays so. *)
Record tstep (t t' : Tables) : Prop := {
  ts_fresh : (t_fresh t <= t_fresh t')%nat;
  ts_linked : forall a, (a < t_fresh t)%nat -> a ∈ t_My_Clients t' -> a ∈ t_My_Clients t }.

#[export] Instance tstep_refl : Reflexive tstep.
Proof. by split. Qed.

#[export] Instance tstep_trans : Transitive tstep.
Proof. intros t1 t2 t3 [A1 A2] [B1 B2]. split; [lia|]. intros a Ha Hl. apply A2; [done|]. apply B2; [lia|done]. Qed.

(** From the world [w] to the world [w']. *)
Definition advances (w w' : World) : Prop := tables_ok (w_tab w') /\ tstep (w_tab w) (w_tab w').

Class sound {A} (m : M A) : Prop :=
  sound_run : forall w a w', m w = Done a w' -> tables_ok (w_tab w) -> advances w w'.

Lemma advances_refl w : tables_ok (w_tab w) -> advances w w.
Proof. by split. Qed.

Lemma advances_trans w1 w2 w3 : advances w1 w2 -> advances w2 w3 -> advances w1 w3.
Proof. intros [A1 A2] [B1 B2]. split; [done|]. by transitivity (w_tab w2). Qed.

Lemma advances_same w w' : w_tab w' = w_tab w -> tables_ok (w_tab w) -> advances w w'.
Proof. intros E Ht. by split; rewrite E. Qed.

(** ** Runs *)

Lemma bind_inv {A B} (m : M A) (k : A -> M B) w b w' :
  (m ≫= k) w = Done b w' -> exists a w1, m w = Done a w1 /\ k a w1 = Done b w'.
Proof. unfold mbind, M_bind. destruct (m w) as [a w1|]; [|done]. intros H. by exists a, w1. Qed.

(** The first operations of a run together. *)
Lemma bind_three {A B C D} (m : M A) (f : A -> M B) (g : M C) (k : M D) w :
  (a ← m; f a;; g;; k) w = ((a ← m; f a;; g);; k) w.
Proof. unfold mbind, M_bind. destruct (m w) as [a w1|]; [|done]. by destruct (f a w1) as [b w2|]; [destruct (g w2)|]. Qed.

(** The first operation of the run [H], whose result and state get the names. *)
Tactic Notation "run" hyp(H) "as" ident(a) ident(w) ident(E) :=
  apply bind_inv in H as (a & w & E & H).

Lemma sound_bind {A B} (m : M A) (k : A -> M B) : sound m -> (forall a, sound (k a)) -> sound (m ≫= k).
Proof.
  intros Hm Hk w b w' (a & w1 & H1 & H2)%bind_inv Ht. pose proof (Hm _ _ _ H1 Ht) as Hst.
  apply (advances_trans _ w1); [done|]. apply (Hk a _ _ _ H2). apply Hst.
Qed.

(** An operation whose result the rest depends on. *)
Lemma sound_bind_yields {A B} (m : M A) (k : A -> M B) (P : A -> Prop) :
  sound m -> (forall w a w', m w = Done a w' -> P a) -> (forall a, P a -> sound (k a)) -> sound (m ≫= k).
Proof.
  intros Hm HP Hk w b w' (a & w1 & H1 & H2)%bind_inv Ht. pose proof (Hm _ _ _ H1 Ht) as Hst.
  apply (advances_trans _ w1); [done|]. apply (Hk a (HP _ _ _ H1) _ _ _ H2). apply Hst.
Qed.

(** An operation that does not change the tables. *)
Lemma sound_same {A} (m : M A) : (forall w a w', m w = Done a w' -> w_tab w' = w_tab w) -> sound m.
Proof. intros H w a w' E. apply advances_same. by apply (H w a w'). Qed.

#[export] Instance sound_ret {A} (a : A) : sound (mret a).
Proof. by apply sound_same; intros w b w' [= <- <-]. Qed.
#[export] Instance sound_crash {A} f : sound (crash f : M A).
Proof. by intros w a w'. Qed.
#[export] Instance sound_get_tab {A} (f : Tables -> A) : sound (get_tab f).
Proof. by apply sound_same; intros w b w' [= <- <-]. Qed.
#[export] Instance sound_get_net {A} (f : Net -> A) : sound (get_net f).
Proof. by apply sound_same; intros w b w' [= <- <-]. Qed.
#[export] Instance sound_mod_net f : sound (mod_net f).
Proof. by apply sound_same; intros w b w' [= <- <-]. Qed.
Lemma load_client_inv e p w c w' : load_client e p w = Done c w' ->
  w' = w /\ exists a, p = Some a /\ t_clients (w_tab w) !! a = Some c.
Proof.
  destruct p as [a|]; [|done]. cbn. destruct (t_clients _ !! a) as [x|] eqn:E; [|done].
  intros [= -> ->]. split; [done|]. by exists a.
Qed.
Lemma load_channel_inv e p w c w' : load_channel e p w = Done c w' ->
  w' = w /\ exists a, p = Some a /\ t_channels (w_tab w) !! a = Some c.
Proof.
  destruct p as [a|]; [|done]. cbn. destruct (t_channels _ !! a) as [x|] eqn:E; [|done].
  intros [= -> ->]. split; [done|]. by exists a.
Qed.
#[export] Instance sound_load_client e p : sound (load_client e p).
Proof. by apply sound_same; intros w c w' [-> _]%load_client_inv. Qed.
#[export] Instance sound_load_channel e p : sound (load_channel e p).
Proof. by apply sound_same; intros w c w' [-> _]%load_channel_inv. Qed.
#[export] Instance sound_the_conn Idx : sound (the_conn Idx).
Proof.
  apply sound_same. intros w c w'. unfold the_conn. destruct (_ <=? _); [done|].
  destruct (n_conns _ !! _); [|done]. by intros [= <- <-].
Qed.
#[export] Instance sound_asserting {A} (o : option A) : sound (asserting o).
Proof. destruct o; apply _. Qed.

#[export] Instance sound_io_op {A} (f : Io.IO -> option (A * Io.IO)) : sound (io_op f).
Proof. apply sound_same. intros w a w'. unfold io_op. destruct (f _) as [[b io]|]; [|done]. by intros [= <- <-]. Qed.
#[export] Instance sound_sys_close fd : sound (sys_close fd).
Proof. apply sound_mod_net. Qed.
#[export] Instance sound_close_event fd : sound (close_event fd).
Proof. apply sound_bind; apply _. Qed.
#[export] Instance sound_time : sound time.
Proof. apply sound_get_tab. Qed.

(** A change of the tables. *)
Lemma sound_mod_tab f :
  (forall t, tables_ok t -> tables_ok (f t) /\ tstep t (f t)) -> sound (mod_tab f).
Proof. intros Hf w a w' [= <- <-] Ht. by apply Hf. Qed.

(** ** Changes of one client or channel *)

(** The fields of tables that have been changed. *)
Ltac fields :=
  cbn [w_tab set_w_tab set_t_clients set_t_My_Clients set_t_channels set_t_My_Channels set_t_My_Cl2Chan set_t_fresh
    t_clients t_My_Clients t_channels t_My_Channels t_My_Cl2Chan t_fresh t_My_Classes t_My_Whowas t_Last_Whowas
    t_Conf_Server].

Lemma put_client_ok t a c c' :
  tables_ok t -> t_clients t !! a = Some c -> client_wf c' -> tables_ok (set_t_clients (<[a := c']> (t_clients t)) t).
Proof.
  intros [] Hc Hwf. split; fields; try done.
  - intros b d [[<- <-]|[_ Hd]]%lookup_insert_Some; [|by apply tk_client0].
    split; [done|]. by apply (tk_client0 a c).
  - intros b Hb. destruct (decide (a = b)) as [->|]; [rewrite lookup_insert_eq; by eexists|].
    rewrite lookup_insert_ne by done. by apply tk_listed0.
Qed.

Lemma put_channel_ok t a c c' :
  tables_ok t -> t_channels t !! a = Some c -> channel_wf c' -> ch_name c' = ch_name c ->
  tables_ok (set_t_channels (<[a := c']> (t_channels t)) t).
Proof.
  intros [] Hc Hwf Hn. split; fields; try done.
  - intros b d [[<- <-]|[_ Hd]]%lookup_insert_Some; [|by apply tk_channel0].
    split; [done|]. by apply (tk_channel0 a c).
  - intros b Hb. destruct (decide (a = b)) as [->|]; [rewrite lookup_insert_eq; by eexists|].
    rewrite lookup_insert_ne by done. by apply tk_chan_listed0.
  - assert (forall b d, <[a := c']> (t_channels t) !! b = Some d ->
      exists e, t_channels t !! b = Some e /\ ch_name d = ch_name e) as Hback.
    { intros b d [[<- <-]|[_ Hd]]%lookup_insert_Some; [by exists c|by exists d]. }
    intros x y d e Hx Hy (d0 & Hd & ->)%Hback (e0 & He & ->)%Hback Hde. by apply (tk_names0 x y d0 e0).
Qed.

Lemma advances_client w a c c' :
  tables_ok (w_tab w) -> t_clients (w_tab w) !! a = Some c -> client_wf c' ->
  advances w (set_w_tab (set_t_clients (<[a := c']> (t_clients (w_tab w))) (w_tab w)) w).
Proof. intros Ht Hc Hwf. split; [by eapply put_client_ok|by split]. Qed.

Lemma advances_channel w a c c' :
  tables_ok (w_tab w) -> t_channels (w_tab w) !! a = Some c -> channel_wf c' -> ch_name c' = ch_name c ->
  advances w (set_w_tab (set_t_channels (<[a := c']> (t_channels (w_tab w))) (w_tab w)) w).
Proof. intros Ht Hc Hwf Hn. split; [by eapply put_channel_ok|by split]. Qed.

(** A client or a channel is read and written. *)
Lemma sound_load_store e p f : (forall c, client_wf c -> client_wf (f c)) -> sound (c ← load_client e p; store_client p (f c)).
Proof.
  intros Hf w a w' H Ht. run H as c w1 E. apply load_client_inv in E as (-> & b & -> & Hc).
  injection H as <- <-. apply advances_client with c; [done..|]. by apply Hf, (tk_client _ Ht b).
Qed.

Lemma sound_upd_client p f : (forall c, client_wf c -> client_wf (f c)) -> sound (upd_client p f).
Proof. apply sound_load_store. Qed.

Lemma sound_upd_channel p f :
  (forall c, channel_wf c -> channel_wf (f c) /\ ch_name (f c) = ch_name c) -> sound (upd_channel p f).
Proof.
  intros Hf w a w' H Ht. run H as c w1 E. apply load_channel_inv in E as (-> & b & -> & Hc).
  injection H as <- <-. destruct (Hf c) as [H1 H2]; [by apply (tk_channel _ Ht b)|]. by apply advances_channel with c.
Qed.

(** *** Texts that fit *)

Create HintDb fits.

Lemma fits_strlcpy s n : (0 < n)%nat -> (slen (strlcpy s n) < n)%nat.
Proof. apply strlcpy_bound. Qed.
Lemma fits_strndup s n k : (n < k)%nat -> (slen (strndup s n) < k)%nat.
Proof. intros Hk. pose proof (strndup_bound s n). lia. Qed.
Lemma fits_tilde s n k : (n < k)%nat -> (0 < n)%nat -> (slen (String "~" (strlcpy s n)) < k)%nat.
Proof. intros Hk Hn. pose proof (strlcpy_bound s n Hn). cbn [slen]. lia. Qed.
Lemma fits_snprintf n f args : (0 < n)%nat -> (slen (snprintf n f args) < n)%nat.
Proof. apply snprintf_bound. Qed.
Lemma fits_mode_add modes m n : (slen modes < n)%nat -> (slen (mode_add modes m n).2 < n)%nat.
Proof. unfold mode_add. destruct (has_chr modes m); [done|apply strlcat_bound]. Qed.
Lemma fits_mode_del modes m n : (slen modes < n)%nat -> (slen (mode_del modes m).2 < n)%nat.
Proof.
  revert n. induction modes as [|a s IH]; intros n; cbn; [done|]. destruct (a =c m); cbn; [lia|].
  intros Hn. specialize (IH (n - 1)%nat). destruct (mode_del s m) as [b s']. cbn in *. lia.
Qed.
Lemma fits_MakeMask Pattern : (slen (Lists_MakeMask Pattern MASK_LEN) < MASK_LEN)%nat.
Proof. apply Lists_MakeMask_spec. unfold MASK_LEN, CLIENT_HOST_LEN. lia. Qed.

#[export] Hint Resolve fits_strlcpy fits_strndup fits_tilde fits_snprintf fits_mode_add fits_mode_del : fits.
#[export] Hint Extern 1 (_ < _)%nat => apply Nat.ltb_lt; reflexivity : fits.
#[export] Hint Extern 1 (_ < _)%nat => apply Nat.leb_gt; assumption : fits.

(** A change of some fields. *)
Ltac client_fits :=
  let c := fresh "c" in
  intros c []; split;
  cbn [set_cl_starttime set_cl_id set_cl_hash set_cl_type set_cl_conn_id set_cl_introducer
    set_cl_topserver set_cl_host set_cl_cloaked set_cl_ipa_text set_cl_user set_cl_info set_cl_modes set_cl_hops set_cl_token set_cl_mytoken
    set_cl_away set_cl_flags set_cl_account_name set_cl_capabilities
    cl_hash cl_id cl_host cl_cloaked cl_ipa_text cl_user cl_info cl_modes cl_away cl_flags cl_account_name];
  try done; repeat case_match; try (intros ? [= <-]); auto with fits.
Ltac channel_fits :=
  let c := fresh "c" in
  intros c []; split; [split;
  cbn [set_ch_name set_ch_hash set_ch_modes set_ch_topic set_ch_creation_time set_ch_topic_time
    set_ch_topic_who set_ch_key set_ch_maxusers set_ch_bans set_ch_excepts set_ch_invites set_ch_keyfile
    ch_hash ch_name ch_modes ch_topic ch_topic_who ch_key ch_bans ch_excepts ch_invites];
    try done; try (intros ? [= <-]); auto with fits|done].

(** *** Lists of masks *)

Lemma CheckDupeMask_sublist h h' m :
  sublist h' h -> Lists_CheckDupeMask h m = None -> Lists_CheckDupeMask h' m = None.
Proof.
  induction 1 as [|e l l' H IH|e l l' H IH]; cbn; [done|..]; destruct (strcaseeq _ _); try done; apply IH.
Qed.

Lemma lists_wf_sublist h h' : sublist h' h -> lists_wf h = true -> lists_wf h' = true.
Proof.
  induction 1 as [|e l l' H IH|e l l' H IH]; cbn; [done|..]; intros [[H1 H2]%andb_prop H3]%andb_prop; [|by apply IH].
  rewrite H1, (IH H3), andb_true_r. cbn [andb]. destruct (Lists_CheckDupeMask l' _) eqn:E; [done|].
  by rewrite (CheckDupeMask_sublist _ _ _ H E).
Qed.

Lemma masks_fit_sublist h h' : sublist h' h -> masks_fit h -> masks_fit h'.
Proof. intros Hs Hh e He. apply Hh. by eapply elem_of_sublist. Qed.

Lemma masks_fit_update h m f : (forall e, le_mask (f e) = le_mask e) -> masks_fit h -> masks_fit (update_mask h m f).
Proof.
  intros Hf. induction h as [|e h IH]; cbn; [done|]. intros Hh.
  destruct (strcaseeq (le_mask e) m); intros x [->|Hx]%elem_of_cons.
  - rewrite Hf. apply Hh. by left.
  - apply Hh. by right.
  - apply Hh. by left.
  - apply IH; [|done]. intros y Hy. apply Hh. by right.
Qed.

Lemma masks_fit_Add b1 b2 h Mask valid reason once : masks_fit h -> masks_fit (Lists_Add b1 b2 h Mask valid reason once).2.
Proof.
  intros Hh. unfold Lists_Add. destruct (Lists_CheckDupeMask h Mask) as [e|].
  - destruct reason; repeat case_match; cbn [snd]; try done; by apply masks_fit_update.
  - destruct b1; [|done]. intros x [->|Hx]%elem_of_cons; [|by apply Hh]. cbn [le_mask]. apply strlcpy_bound. by apply Nat.ltb_lt.
Qed.

Lemma lists_wf_Add h Mask valid reason once :
  lists_wf h = true -> (slen Mask < MASK_LEN)%nat -> lists_wf (Lists_Add true true h Mask valid reason once).2 = true.
Proof.
  intros Hh Hm. pose proof (Lists_Add_spec true h Mask valid reason once "" Hh Hm) as H.
  cbv zeta in H. destruct (Lists_Add _ _ _ _ _ _ _). apply H.
Qed.

Lemma Lists_find_sublist m1 m2 h : sublist (Lists_find m1 m2 h).2 h.
Proof.
  pose proof (Lists_find_spec m1 m2 h) as H. destruct (Lists_find m1 m2 h) as [[e|] h']; cbn.
  - destruct H as (l & r & -> & _ & _ & ->). destruct (le_onlyonce e); [|done].
    apply sublist_app; [done|]. by apply sublist_cons.
  - by destruct H as [-> _].
Qed.

Lemma Lists_CheckReason_sublist m1 m2 h reason len : sublist (Lists_CheckReason m1 m2 h reason len).2 h.
Proof.
  unfold Lists_CheckReason. pose proof (Lists_find_sublist m1 m2 h) as H. by destruct (Lists_find m1 m2 h) as [[e|] h'].
Qed.

Lemma Lists_Check_sublist m1 m2 h : sublist (Lists_Check m1 m2 h).2 h.
Proof.
  unfold Lists_Check. pose proof (Lists_CheckReason_sublist m1 m2 h "" 0) as H.
  by destruct (Lists_CheckReason m1 m2 h "" 0) as [[r s] h'].
Qed.

Lemma Lists_Expire_sublist now name h : sublist (Lists_Expire now name h).2 h.
Proof.
  induction h as [|e h IH]; cbn; [done|]. destruct (Lists_Expire now name h) as [log h']. cbn in *.
  destruct (expired now e); cbn; [by apply sublist_cons|by apply sublist_skip].
Qed.

Lemma Lists_Del_sublist h m : sublist (Lists_Del h m) h.
Proof.
  induction h as [|e h IH]; cbn; [done|]. destruct (strcaseeq _ _); [by apply sublist_cons|by apply sublist_skip].
Qed.

(** A list of a channel that may become shorter. *)
Class list_field (get : CHANNEL -> list_head) (set : list_head -> CHANNEL -> CHANNEL) : Prop :=
  list_field_shorter c h : channel_wf c -> sublist h (get c) -> channel_wf (set h c) /\ ch_name (set h c) = ch_name c.

#[export] Instance bans_field : list_field ch_bans set_ch_bans.
Proof. intros c h [] Hs. split; [|done]. split; cbn; try done. by eapply lists_wf_sublist. Qed.
#[export] Instance excepts_field : list_field ch_excepts set_ch_excepts.
Proof. intros c h [] Hs. split; [|done]. split; cbn; try done. by eapply lists_wf_sublist. Qed.
#[export] Instance invites_field : list_field ch_invites set_ch_invites.
Proof. intros c h [] Hs. split; [|done]. split; cbn; try done. by eapply masks_fit_sublist. Qed.

(** ** Operations on one structure *)

(** The first operation of the run [H] reads a client or a channel. *)
Ltac read_client H a c Hc :=
  let E := fresh in let w := fresh in
  run H as c w E; apply load_client_inv in E as (-> & a & -> & Hc).
Ltac read_channel H a c Hc :=
  let E := fresh in let w := fresh in
  run H as c w E; apply load_channel_inv in E as (-> & a & -> & Hc).

Lemma set_modes_wf c modes : client_wf c -> (slen modes < CLIENT_MODE_LEN)%nat -> client_wf (set_cl_modes modes c).
Proof. intros Hc Hm. revert c Hc. client_fits. Qed.

Lemma set_ch_modes_wf c modes :
  channel_wf c -> (slen modes < CHANNEL_MODE_LEN)%nat ->
  channel_wf (set_ch_modes modes c) /\ ch_name (set_ch_modes modes c) = ch_name c.
Proof. intros Hc Hm. revert c Hc. channel_fits. Qed.

Section Sound.
Context `{Conf}.

Lemma set_id_wf ID c : client_wf c -> client_wf (set_id ID c).
Proof.
  intros []. unfold set_id. destruct Conf_CloakUserToNick; split;
    cbn [set_cl_hash set_cl_id set_cl_info set_cl_user cl_hash cl_id cl_host cl_cloaked cl_ipa_text cl_user cl_info cl_modes
      cl_away cl_flags cl_account_name]; try done; auto with fits.
Qed.

#[export] Instance Client_ModeAdd_sound Client Mode : sound (Client_ModeAdd Client Mode).
Proof.
  intros w r w' H1 Ht. read_client H1 a c Hc. pose proof (tk_client _ Ht a c Hc) as [Hwf _].
  pose proof (fits_mode_add _ Mode _ (cw_modes _ Hwf)) as Hm.
  destruct (mode_add _ _ _) as [b modes]. injection H1 as <- <-. apply advances_client with c; [done..|].
  by apply set_modes_wf.
Qed.

#[export] Instance Client_ModeDel_sound Client Mode : sound (Client_ModeDel Client Mode).
Proof.
  intros w r w' H1 Ht. read_client H1 a c Hc. pose proof (tk_client _ Ht a c Hc) as [Hwf _].
  pose proof (fits_mode_del _ Mode _ (cw_modes _ Hwf)) as Hm.
  destruct (mode_del _ _) as [b modes]. injection H1 as <- <-. apply advances_client with c; [done..|].
  by apply set_modes_wf.
Qed.

#[export] Instance Channel_ModeAdd_sound Chan Mode : sound (Channel_ModeAdd Chan Mode).
Proof.
  intros w r w' H1 Ht. read_channel H1 a c Hc. pose proof (tk_channel _ Ht a c Hc) as [Hwf _].
  pose proof (fits_mode_add _ Mode _ (hw_modes _ Hwf)) as Hm.
  destruct (mode_add _ _ _) as [b modes]. injection H1 as <- <-.
  apply advances_channel with c; [done..| |]; by apply set_ch_modes_wf.
Qed.

#[export] Instance Channel_ModeDel_sound Chan Mode : sound (Channel_ModeDel Chan Mode).
Proof.
  intros w r w' H1 Ht. read_channel H1 a c Hc. pose proof (tk_channel _ Ht a c Hc) as [Hwf _].
  pose proof (fits_mode_del _ Mode _ (hw_modes _ Hwf)) as Hm.
  destruct (mode_del _ _) as [b modes]. injection H1 as <- <-.
  apply advances_channel with c; [done..| |]; by apply set_ch_modes_wf.
Qed.

(** The list that is written back is made from the one that was read. *)
Lemma sound_list_change {A} (get : CHANNEL -> list_head) (set : list_head -> CHANNEL -> CHANNEL) p (r : A) h :
  (forall c, channel_wf c -> channel_wf (set h c) /\ ch_name (set h c) = ch_name c) ->
  sound (upd_channel p (set h);; mret r).
Proof. intros Hset. apply sound_bind; [by apply sound_upd_channel|]. intros ?. apply sound_ret. Qed.

Lemma Channel_list_inv (get : CHANNEL -> list_head) p w h w' :
  (c ← the_channel p; mret (get c)) w = Done h w' ->
  w' = w /\ exists a c, p = Some a /\ t_channels (w_tab w) !! a = Some c /\ h = get c.
Proof. intros H1. read_channel H1 a c Hc. injection H1 as <- <-. split; [done|]. by exists a, c. Qed.

Lemma Channel_AddBan_sound c mask who : (slen mask < MASK_LEN)%nat -> sound (Channel_AddBan c mask who).
Proof.
  intros Hm w r w' H1 Ht. run H1 as h w1 E1. apply Channel_list_inv in E1 as (-> & a & x & -> & Hx & ->).
  run H1 as now w2 E2. injection E2 as _ <-.
  pose proof (lists_wf_Add _ _ now (Some who) false (hw_bans _ (proj1 (tk_channel _ Ht _ _ Hx))) Hm) as Hwf.
  destruct (Lists_Add _ _ _ _ _ _ _) as [b h']. revert H1 Ht. apply (sound_list_change ch_bans). channel_fits.
Qed.

Lemma Channel_AddExcept_sound c mask who : (slen mask < MASK_LEN)%nat -> sound (Channel_AddExcept c mask who).
Proof.
  intros Hm w r w' H1 Ht. run H1 as h w1 E1. apply Channel_list_inv in E1 as (-> & a & x & -> & Hx & ->).
  run H1 as now w2 E2. injection E2 as _ <-.
  pose proof (lists_wf_Add _ _ now (Some who) false (hw_excepts _ (proj1 (tk_channel _ Ht _ _ Hx))) Hm) as Hwf.
  destruct (Lists_Add _ _ _ _ _ _ _) as [b h']. revert H1 Ht. apply (sound_list_change ch_excepts). channel_fits.
Qed.

#[export] Instance Channel_AddInvite_sound c mask onlyonce who : sound (Channel_AddInvite c mask onlyonce who).
Proof.
  intros w r w' H1 Ht. run H1 as h w1 E1. apply Channel_list_inv in E1 as (-> & a & x & -> & Hx & ->).
  run H1 as now w2 E2. injection E2 as _ <-.
  pose proof (masks_fit_Add true true _ mask now (Some who) onlyonce (hw_invites _ (proj1 (tk_channel _ Ht _ _ Hx)))) as Hwf.
  destruct (Lists_Add _ _ _ _ _ _ _) as [b h']. revert H1 Ht. apply (sound_list_change ch_invites). channel_fits.
Qed.

Lemma sound_set_list get set Chan f :
  list_field get set -> (forall h, sublist (f h) h) -> sound (upd_channel Chan (fun c => set (f (get c)) c)).
Proof. intros Hls Hf. apply sound_upd_channel. intros c Hc. by apply list_field_shorter. Qed.

(** The end of [check_list]. *)
Lemma sound_check_store get set Chan m1 m2 : list_field get set ->
  sound (c ← the_channel Chan; let '(r, h') := Lists_Check m1 m2 (get c) in store_channel Chan (set h' c);; mret r).
Proof.
  intros Hls w r w' H1 Ht. read_channel H1 a c Hc. pose proof (Lists_Check_sublist m1 m2 (get c)) as Hs.
  destruct (Lists_Check _ _ _) as [b h']. injection H1 as <- <-.
  destruct (Hls c h') as [Hwf Hn]; [by apply (tk_channel _ Ht a)|done|]. by apply advances_channel with c.
Qed.

(** ** Memberships *)

Lemma members_ok t l :
  tables_ok t -> (forall m, m ∈ l -> cc_channel m ∈ t_My_Channels t /\ (slen (cc_modes m) < CHANNEL_MODE_LEN)%nat) ->
  NoDup (map member_key l) -> tables_ok (set_t_My_Cl2Chan l t).
Proof. by intros [] Hl Hd; split. Qed.

Lemma update_member_keys ch cl modes l :
  map member_key (update_member ch cl (set_cc_modes modes) l) = map member_key l.
Proof. induction l as [|m l IH]; cbn; [done|]. destruct (is_member ch cl m); cbn; [done|by rewrite IH]. Qed.

Lemma update_member_in ch cl modes l m : m ∈ update_member ch cl (set_cc_modes modes) l ->
  m ∈ l \/ exists m', m' ∈ l /\ m = set_cc_modes modes m'.
Proof.
  induction l as [|x l IH]; cbn; [by intros ?%elem_of_nil|]. destruct (is_member ch cl x).
  - intros [->|Hm]%elem_of_cons; [right; exists x; split; [by left|done]|left; by right].
  - intros [->|Hm]%elem_of_cons; [left; by left|]. destruct (IH Hm) as [?|(m' & ? & ->)]; [left; by right|].
    right. exists m'. split; [by right|done].
Qed.

Lemma sound_member_modes ch cl modes :
  (slen modes < CHANNEL_MODE_LEN)%nat ->
  sound (mod_tab (fun t => set_t_My_Cl2Chan (update_member ch cl (set_cc_modes modes) (t_My_Cl2Chan t)) t)).
Proof.
  intros Hm. apply sound_mod_tab. intros t Ht. split; [|by split]. apply members_ok; [done| |].
  - intros m [Hi|(m' & Hi & ->)]%update_member_in; [by apply (tk_members _ Ht)|]. split; [|done].
    exact (proj1 (tk_members _ Ht m' Hi)).
  - rewrite update_member_keys. apply Ht.
Qed.

Lemma Get_Cl2Chan_inv ch cl w r w' :
  Get_Cl2Chan ch cl w = Done r w' -> w' = w /\ r = lfind (is_member ch cl) (t_My_Cl2Chan (w_tab w)).
Proof.
  unfold Get_Cl2Chan. intros H1. run H1 as u w1 E1. run H1 as u2 w2 E2. run H1 as l w3 E3.
  destruct ch, cl; try done. injection E1 as <- <-. injection E2 as <- <-. injection E3 as <- <-. by injection H1 as <- <-.
Qed.

#[export] Instance Channel_UserModeAdd_sound Chan Client Mode : sound (Channel_UserModeAdd Chan Client Mode).
Proof.
  intros w r w' H1 Ht. run H1 as m w1 E1. apply Get_Cl2Chan_inv in E1 as [-> ->].
  destruct (lfind _ _) as [m|] eqn:E; [|done]. apply lfind_Some in E as [Hm _].
  pose proof (fits_mode_add _ Mode _ (proj2 (tk_members _ Ht m Hm))) as Hb.
  destruct (mode_add _ _ _) as [b modes]. revert w r w' H1 Ht Hm. intros w r w' H1 Ht _. revert H1 Ht.
  apply sound_bind; [by apply sound_member_modes|]. intros ?. apply sound_ret.
Qed.

#[export] Instance Channel_UserModeDel_sound Chan Client Mode : sound (Channel_UserModeDel Chan Client Mode).
Proof.
  intros w r w' H1 Ht. run H1 as m w1 E1. apply Get_Cl2Chan_inv in E1 as [-> ->].
  destruct (lfind _ _) as [m|] eqn:E; [|done]. apply lfind_Some in E as [Hm _].
  pose proof (fits_mode_del _ Mode _ (proj2 (tk_members _ Ht m Hm))) as Hb.
  destruct (mode_del _ _) as [b modes]. revert H1 Ht.
  apply sound_bind; [by apply sound_member_modes|]. intros ?. apply sound_ret.
Qed.

(** A member leaves. *)
#[export] Instance unlink_member_sound f :
  sound (mod_tab (fun t => set_t_My_Cl2Chan (remove_first f (t_My_Cl2Chan t)) t)).
Proof.
  apply sound_mod_tab. intros t Ht. split; [|by split]. pose proof (remove_first_sublist f (t_My_Cl2Chan t)) as Hs.
  apply members_ok; [done| |].
  - intros m Hm. apply (tk_members _ Ht). by eapply elem_of_sublist.
  - eapply NoDup_sublist; [by apply sublist_map|apply Ht].
Qed.

(** ** Channels *)

Lemma delete_channel_ok t a :
  tables_ok t -> (forall m, m ∈ t_My_Cl2Chan t -> cc_channel m <> a) ->
  let l := remove_first (fun x => ptr_eqb (Some x) (Some a)) (t_My_Channels t) in
  tables_ok (set_t_channels (delete a (t_channels t)) (set_t_My_Channels l t)).
Proof.
  intros Ht Hm l. assert (forall b, b ∈ l <-> b ∈ t_My_Channels t /\ b <> a) as Hl.
  { apply remove_first_other; [apply Ht|]. intros y. unfold ptr_eqb. rewrite bool_decide_eq_true. naive_solver. }
  destruct Ht. split; fields; try done.
  - intros b c [_ Hc]%lookup_delete_Some. by apply tk_channel0.
  - eapply NoDup_sublist; [apply remove_first_sublist|done].
  - intros b [Hb Hne]%Hl. rewrite lookup_delete_ne by done. by apply tk_chan_listed0.
  - intros m Hi. destruct (tk_members0 m Hi) as [H1 H2]. split; [|done]. apply Hl. split; [done|]. by apply Hm.
  - unfold names_unique. cbn [set_t_channels set_t_My_Channels t_channels t_My_Channels].
    intros x y c d [Hx _]%Hl [Hy _]%Hl [_ Hc]%lookup_delete_Some [_ Hd]%lookup_delete_Some. by apply tk_names0.
Qed.

Lemma no_members ch l : next_cl2chan NULL (Some ch) l = [] -> forall m, m ∈ l -> cc_channel m <> ch.
Proof.
  induction l as [|x l IH]; cbn; [by intros _ m ?%elem_of_nil|]. unfold is_channel, ptr_eqb.
  case_bool_decide as E; cbn; [done|]. intros Hl m [->|Hm]%elem_of_cons; [congruence|by apply IH].
Qed.

(** A channel without members is deleted. *)
Lemma delete_unused_sound Chan :
  sound (first ← Get_First_Cl2Chan NULL Chan; match first with [] => Delete_Channel Chan | _ => mret tt end).
Proof.
  intros w r w' H1 Ht. run H1 as l w1 E1. unfold Get_First_Cl2Chan in E1. run E1 as l0 w2 E2. injection E2 as <- <-.
  unfold Get_Next_Cl2Chan in E1. run E1 as u w3 E3. destruct Chan as [a|]; [|done]. injection E3 as <- <-.
  injection E1 as <- <-. destruct (next_cl2chan _ _ _) eqn:En; [|revert H1 Ht; apply sound_ret].
  pose proof (no_members _ _ En) as Hm. unfold Delete_Channel in H1. run H1 as l1 w4 E4. injection E4 as <- <-.
  run H1 as u1 w5 E5. destruct (existsb _ _); [|done]. injection E5 as <- <-. run H1 as u2 w6 E6. injection E6 as <- <-.
  unfold Free_Channel in H1. run H1 as c w7 E7. apply load_channel_inv in E7 as [-> _]. injection H1 as <- <-.
  split; [by apply delete_channel_ok|by split].
Qed.

(** No linked channel has this name. *)
Definition name_free (Name : string) (t : Tables) : Prop :=
  forall a c, a ∈ t_My_Channels t -> t_channels t !! a = Some c -> ~ case_eq (ch_name c) Name.

Lemma scan_channels_inv test l w p w' : scan_channels test l w = Done p w' ->
  w' = w /\ match p with
            | Some a => a ∈ l
            | None => forall a c, a ∈ l -> t_channels (w_tab w) !! a = Some c -> test c = false
            end.
Proof.
  induction l as [|a l IH]; cbn [scan_channels].
  - intros [= <- <-]. split; [done|]. intros a c Ha. by apply elem_of_nil in Ha.
  - intros H1. run H1 as c w1 E1. apply load_channel_inv in E1 as (-> & b & [= <-] & Hc). destruct (test c) eqn:Et.
    + injection H1 as <- <-. split; [done|by left].
    + destruct (IH H1) as [-> Hp]. split; [done|]. destruct p as [d|]; [by right|].
      intros d x [->|Hd]%elem_of_cons Hx; [congruence|by apply (Hp d)].
Qed.

Lemma Channel_Search_inv Name w p w' : Channel_Search Name w = Done p w' -> tables_ok (w_tab w) ->
  w' = w /\ match p with Some a => a ∈ t_My_Channels (w_tab w) | None => name_free Name (w_tab w) end.
Proof.
  unfold Channel_Search. intros H1 Ht. run H1 as l w1 E1. injection E1 as <- <-.
  apply scan_channels_inv in H1 as [-> Hp]. split; [done|]. destruct p as [a|]; [done|].
  intros a c Ha Hc Heq. specialize (Hp a c Ha Hc). apply andb_false_iff in Hp as [Hp|Hp].
  - rewrite (hw_hash _ (proj1 (tk_channel _ Ht _ _ Hc))), (Hash_proper _ _ Heq), Z.eqb_refl in Hp. done.
  - rewrite Heq in Hp. by rewrite (proj2 (strcaseeq_spec Name Name) eq_refl) in Hp.
Qed.

Lemma link_channel_ok t a c :
  tables_ok t -> a = t_fresh t -> channel_wf c ->
  (forall b d, b ∈ t_My_Channels t -> t_channels t !! b = Some d ->
     case_eq (ch_name c) (ch_name d) -> S (slen (ch_name c)) = CHANNEL_NAME_LEN) ->
  tables_ok (set_t_My_Channels (a :: t_My_Channels t) (set_t_channels (<[a := c]> (t_channels t)) (set_t_fresh (S a) t))).
Proof.
  intros Ht -> Hwf Hn. destruct Ht.
  assert (t_channels t !! t_fresh t = None) as Hfree.
  { destruct (t_channels t !! t_fresh t) eqn:E; [|done]. apply tk_channel0 in E as [_ E]. lia. }
  assert (t_fresh t ∉ t_My_Channels t) as Hnew.
  { intros Hi. apply tk_chan_listed0 in Hi as [x Hx]. congruence. }
  split; fields; try done.
  - intros b d Hd. split; [by eapply tk_client0|]. apply tk_client0 in Hd. lia.
  - intros b d [[<- <-]|[_ Hd]]%lookup_insert_Some; [split; [done|lia]|]. split; [by eapply tk_channel0|].
    apply tk_channel0 in Hd. lia.
  - by apply list.NoDup_cons.
  - intros b [->|Hb]%elem_of_cons; [rewrite lookup_insert_eq; by eexists|].
    rewrite lookup_insert_ne by (intros <-; done). by apply tk_chan_listed0.
  - intros m Hi. destruct (tk_members0 m Hi) as [H1 H2]. split; [by right|done].
  - assert (forall x d, x ∈ t_fresh t :: t_My_Channels t -> <[t_fresh t := c]> (t_channels t) !! x = Some d ->
      x = t_fresh t /\ d = c \/ x ∈ t_My_Channels t /\ t_channels t !! x = Some d) as Hcase.
    { intros x d [->|Hx]%elem_of_cons; [rewrite lookup_insert_eq; intros [= <-]; by left|].
      rewrite lookup_insert_ne by (intros <-; done). by right. }
    intros x y d e Hx Hy Hd He Heq. destruct (Hcase _ _ Hx Hd) as [[-> ->]|[Hx1 Hd1]], (Hcase _ _ Hy He) as [[-> ->]|[Hy1 He1]].
    + by left.
    + right. by apply (Hn y e).
    + right. rewrite Heq. by apply (Hn x d).
    + by apply (tk_names0 x y d e).
Qed.

Lemma Channel_Create_run Name w p w' :
  Channel_Create Name w = Done p w' -> tables_ok (w_tab w) -> name_free Name (w_tab w) ->
  advances w w' /\ exists a, p = Some a /\ a ∈ t_My_Channels (w_tab w') /\
    forall m, m ∈ t_My_Cl2Chan (w_tab w') -> cc_channel m <> a.
Proof.
  intros H1 Ht Hfree. unfold Channel_Create in H1. run H1 as a w1 E1. injection E1 as <- <-.
  run H1 as now w2 E2. injection E2 as _ <-. run H1 as u w3 E3. injection E3 as <- <-. run H1 as u w4 E4.
  injection E4 as <- <-. injection H1 as <- <-. cbn [w_tab set_w_tab]. split.
  - split; [|by split; cbn; [lia|]]. apply link_channel_ok; [done|done| |].
    + split; cbn [ch_hash ch_name ch_modes ch_topic ch_topic_who ch_key ch_bans ch_excepts ch_invites];
        try done; auto with fits. by intros e ?%elem_of_nil.
    + cbn [ch_name]. intros b d Hb Hd Heq. destruct (Nat.ltb_spec (slen Name) CHANNEL_NAME_LEN) as [Hl|Hl].
      * rewrite (strlcpy_fits Name) in Heq by done. by destruct (Hfree b d Hb Hd).
      * unfold strlcpy. rewrite slen_take. unfold CHANNEL_NAME_LEN in *. lia.
  - eexists. split; [done|]. split; [by left|]. intros m Hm. apply (tk_members _ Ht) in Hm as [Hm _].
    apply (tk_chan_listed _ Ht) in Hm as [c Hc]. apply (tk_channel _ Ht) in Hc as [_ Hlt]. intros E. rewrite E in Hlt. lia.
Qed.

(** A channel that is looked up first and created if there is none. *)
Lemma search_create_sound {A} Name (k : ptr -> M A) :
  (forall a, sound (k (Some a))) ->
  (forall w a w', k NULL w = Done a w' -> tables_ok (w_tab w) -> name_free Name (w_tab w) -> advances w w') ->
  sound (p ← Channel_Search Name; k p).
Proof.
  intros Hk Hnew w a w' H1 Ht. run H1 as p w1 E1. apply Channel_Search_inv in E1 as [-> Hp]; [|done].
  destruct p as [b|]; [by apply (Hk b _ _ _ H1)|by apply (Hnew _ _ _ H1)].
Qed.

Lemma create_sound {A} Name (k : ptr -> M A) w a w' :
  (forall b, sound (k (Some b))) -> (p ← Channel_Create Name; k p) w = Done a w' -> tables_ok (w_tab w) ->
  name_free Name (w_tab w) -> advances w w'.
Proof.
  intros Hk H1 Ht Hfree. run H1 as p w1 E1. apply Channel_Create_run in E1 as (Hst & b & -> & _); [|done..].
  apply (advances_trans _ w1); [done|]. apply (Hk b _ _ _ H1). apply Hst.
Qed.

#[export] Instance Client_Mask_sound Client : sound (Client_Mask Client).
Proof. apply sound_bind; [apply _|]. intros c. apply sound_ret. Qed.

Lemma Add_Client_run ch cl w r w' :
  Add_Client (Some ch) (Some cl) w = Done r w' -> tables_ok (w_tab w) -> ch ∈ t_My_Channels (w_tab w) ->
  (forall m, m ∈ t_My_Cl2Chan (w_tab w) -> member_key m <> (cl, ch)) -> advances w w'.
Proof.
  intros H1 Ht Hch Hno. unfold Add_Client in H1. run H1 as u w1 E1. injection E1 as <- <-.
  assert (tables_ok (set_t_My_Cl2Chan (Cl2Chan cl ch "" :: t_My_Cl2Chan (w_tab w)) (w_tab w))) as Hok.
  { apply members_ok; [done| |].
    - intros m [->|Hm]%elem_of_cons; [split; [done|cbn; by apply Nat.ltb_lt]|by apply (tk_members _ Ht)].
    - cbn [map]. apply list.NoDup_cons. split; [|apply Ht]. unfold member_key at 1. cbn [cc_client cc_channel].
      intros (m & E & Hm)%list_elem_of_In%in_map_iff. apply list_elem_of_In in Hm. by apply (Hno m Hm). }
  run H1 as s w2 E2. injection H1 as <- <-. apply (Client_Mask_sound _ _ _ _ E2) in Hok as [Ht2 Hst].
  split; [done|]. destruct Hst. by split.
Qed.

(** Who is not a member is added. *)
Lemma Channel_Join_tail Client Name w r w' :
  (chan ← Channel_Search Name;
   if negb (is_null chan) then m ← Get_Cl2Chan chan Client; (if is_some m then mret false else Add_Client chan Client)
   else chan ← Channel_Create Name; Add_Client chan Client) w = Done r w' ->
  tables_ok (w_tab w) -> advances w w'.
Proof.
  intros H1 Ht. run H1 as p w1 E1. apply Channel_Search_inv in E1 as [-> Hp]; [|done]. destruct p as [ch|]; cbn in H1.
  - run H1 as m w2 E2. apply Get_Cl2Chan_inv in E2 as [-> ->].
    destruct (lfind _ _) as [m|] eqn:E; [injection H1 as <- <-; by apply advances_refl|].
    destruct Client as [cl|]; [|done]. apply Add_Client_run in H1; [done..|]. intros m Hm Hk.
    apply (proj1 (lfind_None _ _) E) in Hm. injection Hk as E1 E2. unfold is_member, is_channel, is_client, ptr_eqb in Hm.
    by rewrite E1, E2, !bool_decide_eq_true_2 in Hm.
  - run H1 as p w2 E2. apply Channel_Create_run in E2 as ([Ht2 Hst] & ch & -> & Hch & Hno); [|done..].
    destruct Client as [cl|]; [|done]. apply (advances_trans _ w2); [done|]. apply (Add_Client_run _ _ _ _ _ H1); [done..|].
    intros m Hm [= _ E]. by apply (Hno m Hm).
Qed.

(** ** Clients *)

#[export] Instance malloc_sound : sound malloc.
Proof.
  intros w a w' [= <- <-] Ht. split; [|by split; cbn; [lia|]]. destruct Ht. split; try done; cbn.
  - intros a c Hc. destruct (tk_client0 a c Hc). split; [done|lia].
  - intros a c Hc. destruct (tk_channel0 a c Hc). split; [done|lia].
Qed.

(** An address that is taken and not linked. *)
Definition unlinked (a : nat) (t : Tables) : Prop := (a < t_fresh t)%nat /\ a ∉ t_My_Clients t.

Lemma unlinked_step a t t' : tstep t t' -> unlinked a t -> unlinked a t'.
Proof. intros [H1 H2] [Ha Hn]. split; [lia|]. intros Hl. by apply Hn, H2. Qed.

Lemma New_Client_Struct_run w a w' :
  New_Client_Struct w = Done a w' -> tables_ok (w_tab w) -> advances w w' /\ (t_fresh (w_tab w) <= a)%nat /\ unlinked a (w_tab w').
Proof.
  intros H1 Ht. unfold New_Client_Struct in H1. run H1 as b w1 E1. injection E1 as <- <-. run H1 as u w2 E2.
  injection E2 as <- <-. injection H1 as <- <-. cbn [w_tab set_w_tab].
  assert (t_fresh (w_tab w) ∉ t_My_Clients (w_tab w)) as Hnew.
  { intros Hi. apply (tk_listed _ Ht) in Hi as [c Hc]. apply (tk_client _ Ht) in Hc as [_ Hc]. lia. }
  split; [|by split; [|split; cbn; [lia|]]]. split; [|by split; cbn; [lia|]].
  destruct Ht. split; fields; try done.
  - intros b c [[<- <-]|[_ Hc]]%lookup_insert_Some.
    + split; [|lia]. split; cbn; try done; auto with fits.
    + destruct (tk_client0 _ _ Hc). split; [done|lia].
  - intros b c Hc. destruct (tk_channel0 _ _ Hc). split; [done|lia].
  - intros b Hb. rewrite lookup_insert_ne by (intros <-; done). by apply tk_listed0.
Qed.

Lemma link_client_ok t a :
  tables_ok t -> a ∉ t_My_Clients t -> is_Some (t_clients t !! a) -> tables_ok (set_t_My_Clients (a :: t_My_Clients t) t).
Proof.
  intros [] Hn Ha. split; fields; try done.
  - by apply list.NoDup_cons.
  - intros b [->|Hb]%elem_of_cons; [done|by apply tk_listed0].
Qed.

Lemma set_away_wf c s : client_wf c -> (slen s < CLIENT_AWAY_LEN)%nat -> client_wf (set_cl_away (Some s) c).
Proof. intros Hc Hs. revert c Hc. client_fits. Qed.

(** The end of the creation of a client. *)
Lemma link_client_run a w u w' :
  (away ← Client_HasMode (Some a) "a";
   (if away : bool then upd_client (Some a) (set_cl_away (Some "Away")) else mret tt);;
   mod_tab (fun t => set_t_My_Clients (a :: t_My_Clients t) t)) w = Done u w' ->
  tables_ok (w_tab w) -> a ∉ t_My_Clients (w_tab w) -> tables_ok (w_tab w') /\
    t_fresh (w_tab w') = t_fresh (w_tab w) /\ t_My_Clients (w_tab w') = a :: t_My_Clients (w_tab w).
Proof.
  intros H1 Ht Ha. run H1 as away w1 E1. unfold Client_HasMode in E1. run E1 as c w2 E2.
  apply load_client_inv in E2 as (-> & b & [= <-] & Hc). injection E1 as <- <-. run H1 as v w3 E3.
  assert (tables_ok (w_tab w3) /\ t_fresh (w_tab w3) = t_fresh (w_tab w) /\ t_My_Clients (w_tab w3) = t_My_Clients (w_tab w) /\
    is_Some (t_clients (w_tab w3) !! a)) as (Ht3 & Ef & El & Hs).
  { destruct (has_chr _ _); [|injection E3 as <- <-; split_and!; [done..|by exists c]].
    run E3 as d w4 E4. apply load_client_inv in E4 as (-> & b & [= <-] & Hd). injection E3 as <- <-. split_and!; [|done..|].
    - apply put_client_ok with d; [done..|]. apply set_away_wf; [by apply (tk_client _ Ht) in Hd as [Hd _]|by apply Nat.ltb_lt].
    - fields. rewrite lookup_insert_eq. by eexists. }
  injection H1 as <- <-. split_and!; [|done|cbn; congruence]. apply link_client_ok; [done|congruence|done].
Qed.

(** A client is taken out of the list. *)
Definition unlink_client (a : nat) (t : Tables) : Tables :=
  set_t_My_Clients (remove_first (fun x => ptr_eqb (Some x) (Some a)) (t_My_Clients t)) t.

Lemma unlink_client_ok t a : tables_ok t -> tables_ok (unlink_client a t) /\ tstep t (unlink_client a t) /\
  a ∉ t_My_Clients (unlink_client a t).
Proof.
  intros Ht. assert (forall b, b ∈ t_My_Clients (unlink_client a t) <-> b ∈ t_My_Clients t /\ b <> a) as Hl.
  { apply remove_first_other; [apply Ht|]. intros y. unfold ptr_eqb. rewrite bool_decide_eq_true. naive_solver. }
  split; [|split; [split; [done|intros b _ Hb; by apply Hl in Hb as [? _]]|by intros [_ ?]%Hl]].
  destruct Ht. split; try done.
  - eapply NoDup_sublist; [apply remove_first_sublist|done].
  - intros b [Hb _]%Hl. by apply tk_listed0.
Qed.

Lemma Free_Client_run a w u w' :
  Free_Client (Some a) w = Done u w' -> tables_ok (w_tab w) -> a ∉ t_My_Clients (w_tab w) -> advances w w'.
Proof.
  intros H1 Ht Hn. unfold Free_Client in H1. run H1 as c w1 E1. apply load_client_inv in E1 as [-> _].
  injection H1 as <- <-. split; [|by split]. destruct Ht. split; fields; try done.
  - intros b d [_ Hd]%lookup_delete_Some. by apply tk_client0.
  - intros b Hb. rewrite lookup_delete_ne by (intros <-; done). by apply tk_listed0.
Qed.

(** ** Tables of fixed size *)

Lemma class_ok t k h :
  tables_ok t -> lists_wf h = true -> tables_ok (set_t_My_Classes (<[k := h]> (t_My_Classes t)) t).
Proof.
  intros [] Hh. split; try done; cbn.
  - by rewrite length_insert.
  - intros x Hx. apply list_elem_of_lookup in Hx as [i Hi].
    apply list_lookup_insert_Some in Hi as [(_ & <- & _)|[_ Hi]]; [done|]. apply tk_class0. by eapply list_elem_of_lookup_2.
Qed.

Lemma sound_set_class k h : lists_wf h = true -> sound (set_class k h).
Proof. intros Hh. apply sound_mod_tab. intros t Ht. split; [by apply class_ok|by split]. Qed.

Lemma Class_GetList_inv k w h w' : Class_GetList k w = Done h w' -> tables_ok (w_tab w) -> w' = w /\ lists_wf h = true.
Proof.
  intros H1 Ht. unfold Class_GetList in H1. run H1 as u w1 E1. destruct (_ <? _)%nat; [|done]. injection E1 as <- <-.
  run H1 as l w2 E2. injection E2 as <- <-. destruct (_ !! k) as [x|] eqn:E; [|done]. injection H1 as <- <-.
  split; [done|]. apply (tk_class _ Ht). by eapply list_elem_of_lookup_2.
Qed.

Lemma sound_with_class {A} k (f : list_head -> M A) :
  (forall h, lists_wf h = true -> sound (f h)) -> sound (h ← Class_GetList k; f h).
Proof. intros Hf w a w' H1 Ht. run H1 as h w1 E1. apply Class_GetList_inv in E1 as [-> Hh]; [|done]. by apply (Hf h Hh _ _ _ H1). Qed.

Lemma sound_all_classes f :
  (forall l, length l = CLASS_COUNT -> length (f l) = CLASS_COUNT) -> (forall l h, h ∈ f l -> lists_wf h = true) ->
  sound (mod_tab (fun t => set_t_My_Classes (f (t_My_Classes t)) t)).
Proof.
  intros H1 H2. apply sound_mod_tab. intros t []. split; [|by split]. split; try done; cbn; [by apply H1|by apply H2].
Qed.

Lemma sound_servers g :
  (forall t, length (g t) = length (t_Conf_Server t)) -> sound (mod_tab (fun t => set_t_Conf_Server (g t) t)).
Proof.
  intros Hg. apply sound_mod_tab. intros t []. split; [|by split]. split; try done. cbn. by rewrite Hg.
Qed.

Lemma sound_whowas slot x :
  0 <= slot < MAX_WHOWAS -> whowas_wf x ->
  sound (mod_tab (fun t => set_t_Last_Whowas slot (set_t_My_Whowas (<[Z.to_nat slot := x]> (t_My_Whowas t)) t))).
Proof.
  intros Hs Hx. apply sound_mod_tab. intros t []. split; [|by split]. split; try done; cbn; try lia.
  - by rewrite length_insert.
  - intros y Hy. apply list_elem_of_lookup in Hy as [i Hi].
    apply list_lookup_insert_Some in Hi as [(_ & <- & _)|[_ Hi]]; [done|]. apply tk_past0. by eapply list_elem_of_lookup_2.
Qed.

#[export] Instance Channel_Init_sound : sound Channel_Init.
Proof.
  apply sound_mod_tab. intros t []. split; [|by split]. split; unfold names_unique; fields; try done.
  - by apply list.NoDup_nil.
  - by intros a ?%elem_of_nil.
  - by intros m ?%elem_of_nil.
  - by apply list.NoDup_nil.
  - by intros a b c d ?%elem_of_nil.
Qed.

(** A change of what the invariant does not look at. *)
Lemma sound_others f :
  (forall t, t_clients (f t) = t_clients t /\ t_My_Clients (f t) = t_My_Clients t /\ t_channels (f t) = t_channels t /\
    t_My_Channels (f t) = t_My_Channels t /\ t_My_Cl2Chan (f t) = t_My_Cl2Chan t /\ t_fresh (f t) = t_fresh t /\
    t_My_Classes (f t) = t_My_Classes t /\ t_My_Whowas (f t) = t_My_Whowas t /\ t_Last_Whowas (f t) = t_Last_Whowas t /\
    t_Conf_Server (f t) = t_Conf_Server t) -> sound (mod_tab f).
Proof.
  intros Hf. apply sound_mod_tab. intros t Ht. destruct (Hf t) as (E1 & E2 & E3 & E4 & E5 & E6 & E7 & E8 & E9 & E10).
  split; [|split; [lia|by rewrite E2]]. destruct Ht.
  split; unfold names_unique; rewrite ?E1, ?E2, ?E3, ?E4, ?E5, ?E6, ?E7, ?E8, ?E9, ?E10; done.
Qed.

End Sound.
