(* ===== verification/Dangling.v ===== *)
(** * Members that are gone

    A client that is neither a user nor a service nor a server is destroyed without
    leaving its channels (src/state/client/client.c, [Client_Destroy]).  A client that
    has sent only its nickname so far can be on a channel: NJOIN and JOIN from a server
    add whatever client has the nickname. *)

From S2P Require Import Prelude CString Match Hash Checks Lists Messages Ipaddr Io World ClientCore.
From S2P Require Import ConnFunc ChannelCore State IrcWrite Channel Client FrameTables.

(** A client whose removal is more than the removal of its structure. *)
Definition registered (c : CLIENT) : bool :=
  (cl_type c =? CLIENT_USER) || (cl_type c =? CLIENT_SERVICE) || (cl_type c =? CLIENT_SERVER).

Section Dangling.
Context `{Conf} `{ConnIO}.

Lemma load_run e a c w : t_clients (w_tab w) !! a = Some c -> load_client e (Some a) w = Done c w.
Proof. cbn. by intros ->. Qed.

(** ** Removing an unregistered client *)

(** The tables without the client. *)
Definition without_client (a : nat) (t : Tables) : Tables := set_t_clients (delete a (t_clients t)) (unlink_client a t).

Lemma Client_Next_listed w pre b l :
  tables_ok (w_tab w) -> t_My_Clients (w_tab w) = pre ++ b :: l -> Client_Next (Some b) w = Done (head l) w.
Proof.
  intros Ht Hl. destruct (tk_listed _ Ht b) as [c Hc]; [rewrite Hl; set_solver|].
  unfold Client_Next, mbind, M_bind, the_client, load_client, get_tab. rewrite Hc, Hl, next_in_app; [done|].
  rewrite <- Hl. apply Ht.
Qed.

Lemma destroy_found_unregistered a c w txt FwdMsg SendQuit :
  t_clients (w_tab w) !! a = Some c -> registered c = false ->
  destroy_found (Some a) txt FwdMsg SendQuit (set_w_tab (unlink_client a (w_tab w)) w) =
    Done tt (set_w_tab (without_client a (w_tab w)) w).
Proof.
  intros Hc [[H1 H2]%orb_false_iff H3]%orb_false_iff.
  set (w1 := set_w_tab _ w). assert (t_clients (w_tab w1) !! a = Some c) as Hc1 by done.
  unfold destroy_found. rewrite (bind_done _ _ _ _ _ (load_run _ _ _ _ Hc1)), (bind_done _ _ w1 (Some (t_This_Server (w_tab w1))) w1) by done.
  rewrite H1, H2, H3. cbn [orb]. rewrite (bind_done _ _ w1 tt w1) by done.
  unfold Free_Client. by rewrite (bind_done _ _ _ _ _ (load_run _ _ _ _ Hc1)).
Qed.

(** The loop finds the client. *)
Lemma destroy_loop_unregistered a c w txt FwdMsg SendQuit :
  tables_ok (w_tab w) -> t_clients (w_tab w) !! a = Some c -> registered c = false ->
  forall l pre n, t_My_Clients (w_tab w) = pre ++ l -> a ∈ l -> (length l <= n)%nat ->
  destroy_loop n (Some a) txt FwdMsg SendQuit (head l) w = Done tt (set_w_tab (without_client a (w_tab w)) w).
Proof.
  intros Ht Hc Hr. assert ((cl_type c =? CLIENT_SERVER) = false) as Hs by (by apply orb_false_iff in Hr as [_ ?]).
  induction l as [|b l IH]; intros pre n Hl Ha Hn; [by apply elem_of_nil in Ha|].
  destruct n as [|n]; [cbn in Hn; lia|]. destruct (tk_listed _ Ht b) as [d Hd]; [rewrite Hl; set_solver|].
  cbn [destroy_loop head is_null].
  rewrite (bind_done _ _ _ _ _ (load_run _ _ _ _ Hc)), (bind_done _ _ _ _ _ (load_run _ _ _ _ Hd)), Hs. cbn [andb].
  destruct (ptr_eqb (Some b) (Some a)) eqn:E.
  - unfold ptr_eqb in E. apply bool_decide_eq_true in E as [= ->]. by apply (destroy_found_unregistered a c).
  - assert (b <> a) as Hne by (intros ->; unfold ptr_eqb in E; by rewrite bool_decide_eq_true_2 in E).
    rewrite (bind_done _ _ _ _ _ (Client_Next_listed w pre b l Ht Hl)). apply (IH (pre ++ [b])).
    + by rewrite <- app_assoc.
    + by apply elem_of_cons in Ha as [->|?].
    + cbn in Hn. lia.
Qed.

Lemma Client_Destroy_unregistered a c w LogMsg FwdMsg SendQuit :
  tables_ok (w_tab w) -> a ∈ t_My_Clients (w_tab w) -> t_clients (w_tab w) !! a = Some c -> registered c = false ->
  Client_Destroy (Some a) LogMsg FwdMsg SendQuit w = Done tt (set_w_tab (without_client a (w_tab w)) w).
Proof.
  intros Ht Ha Hc Hr. unfold Client_Destroy. rewrite (bind_done _ _ w tt w), (bind_done _ _ w (head (t_My_Clients (w_tab w))) w) by done.
  rewrite (bind_done _ _ w (S (length (t_My_Clients (w_tab w)))) w) by done. cbv zeta.
  apply (destroy_loop_unregistered a c) with (pre := []); [done..|]. nia.
Qed.

(** ** Sending to a channel with a member that does not exist *)

(** The client [a] does not exist and will not after the operation. *)
Definition still_gone (a : nat) {A} (m : M A) : Prop :=
  forall w x w', t_clients (w_tab w) !! a = None -> m w = Done x w' -> t_clients (w_tab w') !! a = None.

Lemma gone_bind a {A B} (m : M A) (k : A -> M B) :
  still_gone a m -> (forall x, still_gone a (k x)) -> still_gone a (m ≫= k).
Proof. intros Hm Hk w x w' Ha (y & w1 & H1 & H2)%bind_inv. apply (Hk y w1 x w'); [|done]. by apply (Hm w y w1). Qed.

Lemma gone_same a {A} (m : M A) : (forall w x w', m w = Done x w' -> w_tab w' = w_tab w) -> still_gone a m.
Proof. intros Hm w x w' Ha E. by rewrite (Hm w x w' E). Qed.

Lemma gone_ret a {A} (x : A) : still_gone a (mret x).
Proof. apply gone_same. by intros w y w' [= <- <-]. Qed.
Lemma gone_crash a {A} f : still_gone a (crash f : M A).
Proof. by intros w y w'. Qed.
Lemma gone_get_tab a {A} (f : Tables -> A) : still_gone a (get_tab f).
Proof. apply gone_same. by intros w y w' [= <- <-]. Qed.
Lemma gone_mod_net a f : still_gone a (mod_net f).
Proof. apply gone_same. by intros w y w' [= <- <-]. Qed.
Lemma gone_load a e p : still_gone a (load_client e p).
Proof. apply gone_same. by intros w c w' [-> _]%load_client_inv. Qed.
Lemma gone_the_conn a Idx : still_gone a (the_conn Idx).
Proof.
  apply gone_same. intros w c w'. unfold the_conn. destruct (_ <=? _); [done|]. destruct (n_conns _ !! _); [|done].
  by intros [= <- <-].
Qed.

Ltac gone :=
  repeat match goal with
  | |- forall _, _ => intro
  | |- still_gone _ (mbind _ _) => apply gone_bind
  | |- still_gone _ (if ?b then _ else _) => destruct b
  | |- still_gone _ (mret _) => apply gone_ret
  | |- still_gone _ (crash _) => apply gone_crash
  | |- still_gone _ (get_tab _) => apply gone_get_tab
  | |- still_gone _ (mod_net _) => apply gone_mod_net
  | |- still_gone _ (load_client _ _) => apply gone_load
  | |- still_gone _ (the_conn _) => apply gone_the_conn
  | |- still_gone _ (assert_ ?b) => destruct b; [apply gone_ret|apply gone_crash]
  | H : forall _, still_gone _ (next_hop _ _) |- _ => apply H
  | H : forall _ _, still_gone _ (next_hop _ _) |- _ => apply H
  end.

Lemma gone_next_hop a n p : still_gone a (next_hop n p).
Proof. revert p. induction n as [|n IH]; intros p; cbn [next_hop]; unfold Client_ThisServer; gone. Qed.

Lemma gone_mark_member a Client Remote c : still_gone a (mark_member Client Remote c).
Proof.
  pose proof (gone_next_hop a).
  unfold mark_member, Client_Conn, Client_Type, Client_NextHop, Conn_SetFlag, upd_conn, store_conn. gone.
Qed.

(** The run stops with a fault in [F]. *)
Definition stops (F : fault -> Prop) {A} (m : M A) (w : World) : Prop := exists f, m w = Crash f /\ F f.

Lemma stops_here F {A B} (m : M A) (k : A -> M B) w : stops F m w -> stops F (m ≫= k) w.
Proof. intros (f & E & HF). exists f. unfold mbind, M_bind. by rewrite E. Qed.

Lemma stops_then F {A B} (m : M A) (k : A -> M B) w x w' : m w = Done x w' -> stops F (k x) w' -> stops F (m ≫= k) w.
Proof. intros E. unfold stops, mbind, M_bind. by rewrite E. Qed.

Lemma stops_later {A B} (m : M A) (k : A -> M B) w :
  (forall x w', m w = Done x w' -> stops (fun _ => True) (k x) w') -> stops (fun _ => True) (m ≫= k) w.
Proof. intros Hk. unfold stops, mbind, M_bind. destruct (m w) as [x w'|f]; [by apply Hk|by exists f]. Qed.

Lemma stops_weaken F {A} (m : M A) w : stops F m w -> stops (fun _ => True) m w.
Proof. intros (f & E & _). by exists f. Qed.

Lemma load_gone e a w : t_clients (w_tab w) !! a = None -> stops (eq UseAfterFree) (load_client e (Some a)) w.
Proof. intros Ha. exists UseAfterFree. cbn. by rewrite Ha. Qed.

Lemma mark_member_gone a Client Remote w :
  t_clients (w_tab w) !! a = None -> stops (eq UseAfterFree) (mark_member Client Remote (Some a)) w.
Proof.
  intros Ha. destruct Remote; [|by do 3 apply stops_here; apply load_gone].
  eapply stops_then; [done|]. apply stops_here. eapply stops_then; [done|]. eapply stops_then; [done|].
  by apply stops_here, load_gone.
Qed.

(** The first membership in the walk is that of the client. *)
Lemma mark_first_gone a m Chan Client Remote l w :
  t_clients (w_tab w) !! a = None -> cc_client m = a -> is_channel Chan m = true ->
  stops (eq UseAfterFree) (mark_members Chan Client Remote (m :: l)) w.
Proof. intros Ha <- Hch. cbn [mark_members]. rewrite Hch. by apply stops_here, mark_member_gone. Qed.

Lemma mark_members_gone a m Chan Client Remote l w :
  t_clients (w_tab w) !! a = None -> m ∈ l -> cc_client m = a -> is_channel Chan m = true ->
  stops (fun _ => True) (mark_members Chan Client Remote l) w.
Proof.
  intros Ha Hm Hma Hch. revert w Ha. induction l as [|x l IH]; intros w Ha; [by apply elem_of_nil in Hm|].
  apply elem_of_cons in Hm as [<-|Hm]; [by eapply stops_weaken, (mark_first_gone a)|]. cbn [mark_members].
  apply stops_later. intros [] w1 E. apply IH; [done|]. revert Ha E.
  destruct (is_channel Chan x); [apply gone_mark_member|apply gone_ret].
Qed.

(** The walk from the first membership of a channel on does not miss one, and begins with one. *)
Lemma next_cl2chan_in Chan m l : m ∈ l -> is_channel (Some Chan) m = true -> m ∈ next_cl2chan NULL (Some Chan) l.
Proof.
  intros Hm Hch. induction l as [|x l IH]; [done|]. cbn [next_cl2chan is_null negb andb].
  destruct (is_channel (Some Chan) x) eqn:E; [done|]. apply elem_of_cons in Hm as [->|Hm]; [congruence|by apply IH].
Qed.

Lemma next_cl2chan_head Chan l :
  match next_cl2chan NULL (Some Chan) l with [] => True | x :: _ => is_channel (Some Chan) x = true end.
Proof.
  induction l as [|x l IH]; [done|]. cbn [next_cl2chan is_null negb andb].
  by destruct (is_channel (Some Chan) x) eqn:E.
Qed.

(** What is sent to a channel by an existing sender. *)
Lemma write_to_channel F p q ch Remote Format args w :
  (forall w', w_tab w' = w_tab w ->
     stops F (mark_members (Some ch) (Some p) Remote (next_cl2chan NULL (Some ch) (t_My_Cl2Chan (w_tab w)))) w') ->
  stops F (IRC_WriteStrChannelPrefix (Some p) (Some ch) (Some q) Remote Format args) w.
Proof.
  intros Hm. unfold IRC_WriteStrChannelPrefix. do 3 (eapply stops_then; [done|]). eapply stops_then; [done|].
  eapply stops_then; [done|]. by apply stops_here, Hm.
Qed.

(** C16: members that are gone.  Removing a client that is neither a user, a service
    nor a server - one that has not finished its registration - takes it out of the
    list and frees it, and changes nothing else in the tables or the connections: its
    memberships stay.  From then on the server does not survive a message to such a channel:
    whoever the sender is (a client, not NULL), the walk over the members does not get past the
    membership and ends in a fault; it is the use of the freed client if the
    membership of the freed client is the first one of the channel in the list. *)
Theorem dangling_members a c w LogMsg FwdMsg SendQuit m :
  tables_ok (w_tab w) -> a ∈ t_My_Clients (w_tab w) -> t_clients (w_tab w) !! a = Some c -> registered c = false ->
  m ∈ t_My_Cl2Chan (w_tab w) -> cc_client m = a ->
  exists w', Client_Destroy (Some a) LogMsg FwdMsg SendQuit w = Done tt w' /\
    w' = set_w_tab (without_client a (w_tab w)) w /\ a ∉ t_My_Clients (w_tab w') /\
    forall (p q : nat) Remote Format args,
      stops (fun f => cc_client <$> head (next_cl2chan NULL (Some (cc_channel m)) (t_My_Cl2Chan (w_tab w))) = Some a ->
                      f = UseAfterFree)
        (IRC_WriteStrChannelPrefix (Some p) (Some (cc_channel m)) (Some q) Remote Format args) w'.
Proof.
  intros Ht Ha Hc Hr Hm Hma. eexists. split; [by apply (Client_Destroy_unregistered a c)|].
  split; [done|]. split; [by apply unlink_client_ok|]. intros p q Remote Format args.
  apply write_to_channel. intros w' Htab. cbn [w_tab set_w_tab] in *.
  assert (t_clients (w_tab w') !! a = None) as Hgone by (rewrite Htab; apply lookup_delete_eq).
  assert (is_channel (Some (cc_channel m)) m = true) as Hch by (by apply bool_decide_eq_true_2).
  change (t_My_Cl2Chan (without_client a (w_tab w))) with (t_My_Cl2Chan (w_tab w)).
  pose proof (next_cl2chan_in (cc_channel m) m _ Hm Hch) as Hin.
  pose proof (next_cl2chan_head (cc_channel m) (t_My_Cl2Chan (w_tab w))) as Hhead.
  destruct (next_cl2chan NULL (Some (cc_channel m)) (t_My_Cl2Chan (w_tab w))) as [|x l]; [by apply elem_of_nil in Hin|].
  destruct (decide (cc_client x = a)) as [Hx|Hne].
  - destruct (mark_first_gone a x (Some (cc_channel m)) (Some p) Remote l w' Hgone Hx Hhead) as (f & E & <-). by exists UseAfterFree.
  - destruct (mark_members_gone a m (Some (cc_channel m)) (Some p) Remote (x :: l) w' Hgone Hin Hma Hch) as (f & E & _).
    exists f. split; [done|]. by intros [= Hx].
Qed.

End Dangling.
