(* ===== verification/Frame.v ===== *)
(** * What every operation keeps

    An invariant of the connection pool and of the registered descriptors that
    holds at every moment between two statements that belong together: every open
    connection sits in the slot of its socket and is watched, the pipes of the
    resolvers are watched and belong to one connection each, no outgoing link is
    waited for, and the number of connections is right.

    [keeps m] says that [m] preserves the invariant, whatever the clients send and
    whatever the network answers, and likewise the invariant of the tables
    (FrameTables.v); [runs m] is the first half alone.  The tactic [keep] proves it for the operations
    that change the pool only by others for which it is known; their lemmas are
    instances.  The operations that open and close connections are dealt
    with by hand. *)

From S2P Require Import Prelude CString Match Hash Checks Lists Messages Ipaddr Io IoSpec World ClientCore.
From S2P Require Import ConnFunc ConnSpec ChannelCore State IrcWrite Channel Client Conn FrameTables.

(** ** The invariant *)

(** The callbacks for outgoing links. *)
Definition outgoing (cb : callback) : bool :=
  match cb with CbConnServer | CbConnectToServer => true | _ => false end.

Definition closing (c : CONNECTION) : bool := Conn_OPTION_ISSET c CONN_ISCLOSING.

(** A slot that counts: it is open, or it is being closed. *)
Definition busy (c : CONNECTION) : bool := (NONE <? cn_sock c) || closing c.

Definition pipe_of (c : CONNECTION) : Z := Proc_GetPipeFd (cn_proc_stat c).

Record watched (m : registry) (n : Net) : Prop := {
  wa_abs : io_abs (n_io n) m;
  wa_sock : forall i c, n_conns n !! i = Some c ->
    cn_sock c = NONE \/
    (cn_sock c = Z.of_nat i /\ exists what, m !! Z.of_nat i = Some (CbClientServer, what));
  wa_pipe : forall i c, n_conns n !! i = Some c -> cn_sock c <> NONE -> 0 <= pipe_of c ->
    exists what, m !! pipe_of c = Some (CbReadResolverResult, what);
  wa_owner : forall i j c d, n_conns n !! i = Some c -> n_conns n !! j = Some d ->
    cn_sock c <> NONE -> cn_sock d <> NONE -> 0 <= pipe_of c -> pipe_of c = pipe_of d -> i = j;
  wa_link : forall fd cb what, m !! fd = Some (cb, what) -> outgoing cb = false;
  wa_count : n_NumConnections n = Z.of_nat (length (List.filter busy (n_conns n))) }.

Definition net_ok (n : Net) : Prop := exists m, watched m n.

(** The socket of a slot that is being closed. *)
Definition closing_sock (n : Net) (i : nat) : option Z :=
  match n_conns n !! i with
  | Some c => if closing c then Some (cn_sock c) else None
  | None => None
  end.

(** The array of events does not shrink, there are not more connections, and every
    open slot was one before, with the same address. *)
Record bounds (n n' : Net) : Prop := {
  bd_events : (length (io_events (n_io n)) <= length (io_events (n_io n')))%nat;
  bd_count : n_NumConnections n' <= n_NumConnections n;
  bd_slots : forall i c', n_conns n' !! i = Some c' -> cn_sock c' <> NONE ->
    exists c, n_conns n !! i = Some c /\ cn_sock c <> NONE /\ cn_addr c = cn_addr c' }.

#[export] Instance bounds_refl : Reflexive bounds.
Proof. split; [done..|]. intros i c ? ?. by exists c. Qed.

#[export] Instance bounds_trans : Transitive bounds.
Proof.
  intros n1 n2 n3 [A1 A2 A3] [B1 B2 B3]. split; [lia..|]. intros i c3 H3 Hs3.
  destruct (B3 _ _ H3 Hs3) as (c2 & H2 & Hs2 & <-). by apply A3.
Qed.

Lemma bounds_io n io' : (length (io_events (n_io n)) <= length (io_events io'))%nat -> bounds n (set_n_io io' n).
Proof. intros Hl. split; [done|done|]. intros i c ? ?. by exists c. Qed.

(** The same slots but for one, whose connection is closed. *)
Lemma bounds_slot n n' i c :
  (length (io_events (n_io n)) <= length (io_events (n_io n')))%nat -> n_NumConnections n' <= n_NumConnections n ->
  n_conns n' = <[i := c]> (n_conns n) -> cn_sock c = NONE -> bounds n n'.
Proof.
  intros H1 H2 H3 Hc. split; [done..|]. intros j d Hd Hs. rewrite H3 in Hd.
  apply list_lookup_insert_Some in Hd as [(-> & -> & _)|[_ Hd]]; [done|]. by exists d.
Qed.

(** What an operation leaves alone: besides, the slots that are being closed are the
    same, with the same sockets. *)
Record step (n n' : Net) : Prop := {
  st_bounds : bounds n n';
  st_closing : forall i, closing_sock n' i = closing_sock n i }.

#[export] Instance step_refl : Reflexive step.
Proof. by split. Qed.

#[export] Instance step_trans : Transitive step.
Proof. intros n1 n2 n3 [A1 A2] [B1 B2]. split; [by transitivity n2|]. intros i. by rewrite B2. Qed.

(** What holds behind an operation.  It may stop with a fault, but not because a
    descriptor has no element in the array of events. *)
Definition wlp {A} (m : M A) (Q : A -> World -> Prop) (w : World) : Prop :=
  match m w with Done a w' => Q a w' | Crash f => f <> NoEvent end.

Class holds (tables : bool) {A} (m : M A) : Prop := Holds {
  holds_run : forall w, net_ok (w_net w) -> wlp m (fun _ w' => net_ok (w_net w') /\ step (w_net w) (w_net w')) w;
  holds_sound : tables = true -> sound m }.

(** Both invariants, and that of the network. *)
Notation keeps := (holds true).
Notation runs := (holds false).

#[export] Instance keeps_sound {A} (m : M A) : keeps m -> sound m | 10.
Proof. intros Hm. by apply (holds_sound (tables := true)). Qed.

Lemma keeps_holds {A} b (m : M A) : keeps m -> holds b m.
Proof. intros [H1 H2]. split; [done|]. intros _. by apply H2. Qed.

Lemma runs_keeps {A} (m : M A) : runs m -> sound m -> keeps m.
Proof. intros [H1 _] H2. by split. Qed.

(** ** Runs *)

Lemma wlp_bind {A B} (m : M A) (k : A -> M B) Q w : wlp m (fun a => wlp (k a) Q) w -> wlp (m ≫= k) Q w.
Proof. unfold wlp, mbind, M_bind. by destruct (m w). Qed.

Lemma wlp_unbind {A B} (m : M A) (k : A -> M B) Q w : wlp (m ≫= k) Q w -> wlp m (fun a => wlp (k a) Q) w.
Proof. unfold wlp, mbind, M_bind. by destruct (m w). Qed.

Lemma wlp_mono {A} (m : M A) (P Q : A -> World -> Prop) w :
  wlp m P w -> (forall a w', P a w' -> Q a w') -> wlp m Q w.
Proof. unfold wlp. destruct (m w); auto. Qed.

(** The facts that hold for every result are at hand. *)
Lemma wlp_done {A} (m : M A) (P Q : A -> World -> Prop) w :
  wlp m P w -> (forall a w', m w = Done a w' -> P a w' -> Q a w') -> wlp m Q w.
Proof. unfold wlp. destruct (m w); auto. Qed.

Lemma wlp_holds {A} b (m : M A) Q w :
  holds b m -> net_ok (w_net w) -> (forall a w', net_ok (w_net w') -> step (w_net w) (w_net w') -> Q a w') -> wlp m Q w.
Proof. intros Hm Hw HQ. apply (wlp_mono _ _ _ _ (holds_run (m := m) w Hw)). intros a w' [? ?]. by apply HQ. Qed.

Lemma wlp_keeps {A} (m : M A) Q w :
  keeps m -> net_ok (w_net w) -> (forall a w', net_ok (w_net w') -> step (w_net w) (w_net w') -> Q a w') -> wlp m Q w.
Proof. apply wlp_holds. Qed.

Lemma wlp_assert b (Q : unit -> World -> Prop) w : (b = true -> Q tt w) -> wlp (assert_ b) Q w.
Proof. intros HQ. destruct b; [by apply HQ|done]. Qed.

Lemma wlp_ret {A} (a : A) (Q : A -> World -> Prop) w : Q a w -> wlp (mret a) Q w.
Proof. done. Qed.
Lemma wlp_get_net {A} (f : Net -> A) Q w : Q (f (w_net w)) w -> wlp (get_net f) Q w.
Proof. done. Qed.
Lemma wlp_get_tab {A} (f : Tables -> A) Q w : Q (f (w_tab w)) w -> wlp (get_tab f) Q w.
Proof. done. Qed.
Lemma wlp_mod_net f Q w : Q tt (set_w_net (f (w_net w)) w) -> wlp (mod_net f) Q w.
Proof. done. Qed.
Lemma wlp_mod_tab f Q w : Q tt (set_w_tab (f (w_tab w)) w) -> wlp (mod_tab f) Q w.
Proof. done. Qed.

Lemma wlp_the_conn Idx Q w :
  (forall c, 0 <= Idx -> n_conns (w_net w) !! Z.to_nat Idx = Some c -> Q c w) -> wlp (the_conn Idx) Q w.
Proof.
  intros HQ. unfold wlp, the_conn. destruct (Z.leb_spec Idx NONE); [done|].
  destruct (n_conns _ !! _) as [d|]; [|done]. unfold NONE in *. apply HQ; [lia|done].
Qed.

Lemma wlp_upd_conn Idx f (Q : unit -> World -> Prop) w :
  (forall c, 0 <= Idx -> n_conns (w_net w) !! Z.to_nat Idx = Some c ->
     Q tt (set_w_net (set_n_conns (<[Z.to_nat Idx := f c]> (n_conns (w_net w))) (w_net w)) w)) ->
  wlp (upd_conn Idx f) Q w.
Proof. intros HQ. apply wlp_bind, wlp_the_conn. intros c. apply HQ. Qed.

(** ** Composition *)

#[export] Instance ret_keeps {A} b (a : A) : holds b (mret a).
Proof. split; [by intros w Hw|apply _]. Qed.

Lemma keeps_crash {A} b f : f <> NoEvent -> holds b (crash f : M A).
Proof. intros Hf. split; [by intros w Hw|apply _]. Qed.

Lemma bind_keeps {A B} b (m : M A) (k : A -> M B) : holds b m -> (forall a, holds b (k a)) -> holds b (m ≫= k).
Proof.
  intros Hm Hk. split.
  - intros w Hw. apply wlp_bind, (wlp_holds b); [done..|]. intros a w1 Hw1 Hs1.
    apply (wlp_holds b); [done..|]. intros c w2 Hw2 Hs2. split; [done|]. by transitivity (w_net w1).
  - intros Hb. apply sound_bind; [by apply (holds_sound (m := m))|]. intros a. by apply (holds_sound (m := k a)).
Qed.

(** An operation that does not change the network. *)
Lemma runs_same {A} (m : M A) :
  (forall w, match m w with Done _ w' => w_net w' = w_net w | Crash f => f <> NoEvent end) -> runs m.
Proof.
  intros H. split; [|done]. intros w Hw. specialize (H w). unfold wlp. destruct (m w) as [a w'|]; [|done]. by rewrite H.
Qed.

Lemma keeps_same {A} b (m : M A) :
  (forall w, match m w with Done _ w' => w_net w' = w_net w | Crash f => f <> NoEvent end) -> sound m -> holds b m.
Proof. intros H Hs. by apply keeps_holds, runs_keeps; [apply runs_same|]. Qed.

#[export] Instance keeps_get_tab {A} b (f : Tables -> A) : holds b (get_tab f).
Proof. by apply keeps_same; [|apply _]. Qed.
#[export] Instance keeps_get_net {A} b (f : Net -> A) : holds b (get_net f).
Proof. by apply keeps_same; [|apply _]. Qed.
#[export] Instance runs_mod_tab f : runs (mod_tab f).
Proof. by apply runs_same. Qed.
Lemma keeps_load_client b e p : e <> NoEvent -> holds b (load_client e p).
Proof.
  intros He. apply keeps_same; [|apply _]. intros w. destruct p as [a|]; [|done]. cbn. by destruct (t_clients _ !! a).
Qed.
Lemma keeps_load_channel b e p : e <> NoEvent -> holds b (load_channel e p).
Proof.
  intros He. apply keeps_same; [|apply _]. intros w. destruct p as [a|]; [|done]. cbn. by destruct (t_channels _ !! a).
Qed.
#[export] Instance keeps_the_conn b Idx : holds b (the_conn Idx).
Proof.
  apply keeps_same; [|apply _]. intros w. unfold the_conn. destruct (_ <=? _); [done|]. by destruct (n_conns _ !! _).
Qed.
#[export] Instance keeps_malloc b : holds b malloc.
Proof. by apply keeps_same; [|apply malloc_sound]. Qed.
#[export] Instance keeps_asserting {A} b (o : option A) : holds b (asserting o).
Proof. apply keeps_same; [|apply _]. intros w. by destruct o. Qed.

(** A change of the tables. *)
Lemma keeps_mod_tab b f : sound (mod_tab f) -> holds b (mod_tab f).
Proof. by apply keeps_same. Qed.
Lemma keeps_upd_client b p f : (forall c, client_wf c -> client_wf (f c)) -> holds b (upd_client p f).
Proof.
  intros Hf. apply keeps_same; [|by apply sound_upd_client]. intros w. destruct p as [a|]; [|done]. cbn.
  unfold mbind, M_bind. by destruct (t_clients _ !! a).
Qed.
Lemma keeps_upd_channel b p f :
  (forall c, channel_wf c -> channel_wf (f c) /\ ch_name (f c) = ch_name c) -> holds b (upd_channel p f).
Proof.
  intros Hf. apply keeps_same; [|by apply sound_upd_channel]. intros w. destruct p as [a|]; [|done]. cbn.
  unfold mbind, M_bind. by destruct (t_channels _ !! a).
Qed.

(** ** Changing the pool *)

(** The same socket and pipe, and counted alike. *)
Record same_slot (c c' : CONNECTION) : Prop := {
  ss_sock : cn_sock c' = cn_sock c;
  ss_pipe : pipe_of c' = pipe_of c;
  ss_addr : cn_addr c' = cn_addr c;
  ss_closing : closing c' = closing c }.

Lemma ss_busy c c' : same_slot c c' -> busy c' = busy c.
Proof. intros [H1 _ _ H3]. unfold busy. by rewrite H1, H3. Qed.

Lemma same_slots_filter l l' :
  Forall2 same_slot l l' -> length (List.filter busy l') = length (List.filter busy l).
Proof.
  induction 1 as [|c c' l l' H _ IH]; [done|]. cbn. rewrite (ss_busy _ _ H). destruct (busy c); cbn; congruence.
Qed.

(** What the invariant looks at. *)
Lemma watched_same m n n' :
  watched m n -> n_io n' = n_io n -> Forall2 same_slot (n_conns n) (n_conns n') ->
  n_NumConnections n' = n_NumConnections n -> watched m n'.
Proof.
  intros [H1 H2 H3 H4 H5 H6] Hio Hcs Hcount.
  assert (forall i c', n_conns n' !! i = Some c' -> exists c, n_conns n !! i = Some c /\ same_slot c c') as Hback.
  { intros i c' Hc'. destruct (Forall2_lookup_r _ _ _ _ _ Hcs Hc') as (c & ? & ?). by exists c. }
  split.
  - by rewrite Hio.
  - intros i c2 Hc2. destruct (Hback _ _ Hc2) as (c & Hc & Hs). rewrite (ss_sock _ _ Hs). by apply H2.
  - intros i c2 Hc2. destruct (Hback _ _ Hc2) as (c & Hc & Hs).
    rewrite (ss_sock _ _ Hs), (ss_pipe _ _ Hs). by apply (H3 i).
  - intros i j c2 d2 Hc2 Hd2. destruct (Hback _ _ Hc2) as (c & Hc & Hs), (Hback _ _ Hd2) as (d & Hd & Hs').
    rewrite (ss_sock _ _ Hs), (ss_pipe _ _ Hs), (ss_sock _ _ Hs'), (ss_pipe _ _ Hs'). by apply H4.
  - done.
  - by rewrite Hcount, H6, (same_slots_filter _ _ Hcs).
Qed.

Lemma step_same n n' :
  n_io n' = n_io n -> Forall2 same_slot (n_conns n) (n_conns n') -> n_NumConnections n' = n_NumConnections n -> step n n'.
Proof.
  intros Hio Hcs Hcount. split; [split; [by rewrite Hio|by rewrite Hcount|]|].
  { intros i c' Hc' Hs. destruct (Forall2_lookup_r _ _ _ _ _ Hcs Hc') as (c & Hc & [H1 _ H3 _]).
    exists c. split_and!; congruence. }
  intros i. unfold closing_sock.
  destruct (n_conns n !! i) as [c|] eqn:Hc.
  - destruct (Forall2_lookup_l _ _ _ _ _ Hcs Hc) as (c' & -> & [H1 _ _ H3]). by rewrite H1, H3.
  - apply lookup_ge_None in Hc. rewrite (Forall2_length Hcs) in Hc. by apply lookup_ge_None in Hc as ->.
Qed.

Lemma same_slot_refl c : same_slot c c.
Proof. by split. Qed.

Lemma same_slots_refl l : Forall2 same_slot l l.
Proof. induction l; constructor; [apply same_slot_refl|done]. Qed.

Lemma same_slots_insert l i c c' :
  l !! i = Some c -> same_slot c c' -> Forall2 same_slot l (<[i := c']> l).
Proof.
  revert i. induction l as [|d l IH]; intros [|i] Hc Hs; try done; cbn in *.
  - injection Hc as ->. constructor; [done|apply same_slots_refl].
  - constructor; [apply same_slot_refl|by apply IH].
Qed.

Lemma keeps_mod_net b f :
  (forall n, n_io (f n) = n_io n /\ Forall2 same_slot (n_conns n) (n_conns (f n)) /\
     n_NumConnections (f n) = n_NumConnections n) ->
  holds b (mod_net f).
Proof.
  intros Hf. split; [|intros _; apply _]. intros w [m Hm]. destruct (Hf (w_net w)) as (H1 & H2 & H3). cbn. split.
  - exists m. by eapply watched_same.
  - by apply step_same.
Qed.

#[export] Instance upd_conn_sound Idx f : sound (upd_conn Idx f).
Proof. apply sound_bind; [apply _|]. intros c. apply sound_mod_net. Qed.

Lemma keeps_upd_conn b Idx f : (forall c, same_slot c (f c)) -> holds b (upd_conn Idx f).
Proof.
  intros Hf. split; [|intros _; apply _]. intros w [m Hm]. apply wlp_upd_conn. intros c _ Hc. cbn [w_net set_w_net].
  pose proof (same_slots_insert _ _ _ _ Hc (Hf c)) as Hcs. split; [|by apply step_same].
  exists m. by apply (watched_same m (w_net w)).
Qed.

(** Options other than the one that marks a connection as closing. *)
Lemma same_slot_options c f :
  Z.land (f (cn_options c)) CONN_ISCLOSING = Z.land (cn_options c) CONN_ISCLOSING ->
  same_slot c (set_cn_options (f (cn_options c)) c).
Proof. intros H. split; [done..|]. unfold closing, Conn_OPTION_ISSET. cbn. by rewrite H. Qed.

Lemma lor_other o k : Z.land k CONN_ISCLOSING = 0 -> Z.land (Z.lor o k) CONN_ISCLOSING = Z.land o CONN_ISCLOSING.
Proof. intros H. by rewrite Z.land_lor_distr_l, H, Z.lor_0_r. Qed.

Lemma ldiff_other o k :
  Z.land k CONN_ISCLOSING = 0 -> Z.land (Z.land o (Z.lnot k)) CONN_ISCLOSING = Z.land o CONN_ISCLOSING.
Proof.
  intros H. rewrite <- Z.land_assoc, (Z.land_comm (Z.lnot k)), <- Z.ldiff_land.
  assert (Z.ldiff CONN_ISCLOSING k = CONN_ISCLOSING) as ->; [|done].
  apply Z.bits_inj'. intros n Hn. rewrite Z.ldiff_spec. apply (f_equal (fun x => Z.testbit x n)) in H.
  rewrite Z.land_spec, Z.bits_0 in H. destruct (Z.testbit k n), (Z.testbit CONN_ISCLOSING n); done.
Qed.

(** ** Automation *)

(** Operations with other operations as arguments: what is asked of the arguments. *)
Class rule {A} (m : M A) (P : Prop) : Prop := by_rule : P -> keeps m.
Ltac keep_rule := match goal with |- holds _ ?m => let R := constr:(by_rule (m := m)) in apply keeps_holds, R; split_and? end.

(** Proves [holds] by the structure of the operation. *)
Ltac keep_step :=
  match goal with
  | |- forall _, _ => intro
  | |- holds _ (mbind _ _) => apply bind_keeps
  | |- holds _ (crash _) => by apply keeps_crash
  | |- holds _ (load_client _ _) => by apply keeps_load_client
  | |- holds _ (load_channel _ _) => by apply keeps_load_channel
  | |- holds _ (if ?b then _ else _) => destruct b eqn:?
  | |- holds _ (match ?x with _ => _ end) => destruct x
  | |- holds _ ((if ?b then _ else _) _) => destruct b
  | |- holds _ ((if ?b then _ else _) _ _) => destruct b
  | |- holds _ (let _ := _ in _) => cbv zeta
  | |- holds _ (upd_conn _ _) => apply keeps_upd_conn; by split
  | |- holds _ (upd_conn _ _) => apply keeps_upd_conn; intros ?; case_match; by split
  | |- holds _ (mod_net _) => apply keeps_mod_net; intros ?; split_and!; [done|apply same_slots_refl|done]
  | |- holds _ (upd_client _ _) => apply keeps_upd_client; solve [client_fits]
  | |- holds _ (upd_channel _ _) => apply keeps_upd_channel; solve [channel_fits]
  | |- holds _ (mod_tab _) => apply keeps_mod_tab; solve [apply sound_others; intros; split_and!; repeat case_match; reflexivity]
  | |- holds _ (mod_tab _) => apply keeps_mod_tab, sound_servers; intros; by rewrite ?length_map, ?length_insert
  | |- holds true _ => solve [typeclasses eauto]
  | |- holds false _ => solve [typeclasses eauto]
  | |- holds false _ => apply keeps_holds; solve [typeclasses eauto]
  | |- holds _ _ => keep_rule
  | |- list_field _ _ => apply _
  | |- (slen (Lists_MakeMask _ _) < _)%nat => apply fits_MakeMask
  | |- _ = _ => reflexivity
  end.
Ltac keep := repeat keep_step.

(** Unfolds the operation first. *)
Ltac head_of m := match m with ?f _ => head_of f | ?f => f end.
Ltac unfold_keeps := match goal with |- holds _ ?m => let f := head_of m in unfold f end.
Ltac keep_def := intros; unfold_keeps; keep.

(** Operations that recurse over a list or a number. *)
Ltac keep_fix x := induction x; intros; match goal with |- holds _ ?m => let f := head_of m in cbn [f] end; keep.

(** The second half of the invariants is known already. *)
Ltac keep_tables := intros; apply runs_keeps; [keep_def|try apply _].

(** The second half, where the first one needs an argument of its own. *)
Ltac sound_step :=
  match goal with
  | |- forall _, _ => intro
  | |- sound (mbind _ _) => apply sound_bind
  | |- sound (if ?b then _ else _) => destruct b
  | |- sound (match ?x with _ => _ end) => destruct x
  | |- sound (let _ := _ in _) => cbv zeta
  | |- sound _ => solve [typeclasses eauto]
  | |- sound _ => apply keeps_sound; solve [keep]
  end.
Ltac head_sound := match goal with |- sound ?m => let f := head_of m in unfold f end.
Ltac sound_all := repeat sound_step.
Ltac sound_def := intros; head_sound; sound_all.

(** The first operation of the run [H], which is sound, continues the run of [Hst]. *)
Ltac pass H Hst :=
  let x := fresh "x" in let v := fresh "v" in let E := fresh "E" in let Hm := fresh in
  apply bind_inv in H as (x & v & E & H);
  match type of E with ?m _ = Done _ _ => assert (sound m) as Hm by sound_all end;
  let Hn := fresh in
  pose proof (advances_trans _ _ _ Hst (Hm _ _ _ E (proj1 Hst))) as Hn; clear Hm E Hst; rename Hn into Hst.

(** Stops where a channel is looked up. *)
Ltac keep_search :=
  repeat lazymatch goal with |- keeps (mbind _ (Channel_Search _)) => fail | _ => keep_step end.

(** *** Common operations *)

#[export] Instance or_else_keeps a b : rule (or_else a b) (keeps a /\ keeps b).
Proof. intros []. keep_def. Qed.
#[export] Instance and_then_keeps a b : rule (and_then a b) (keeps a /\ keeps b).
Proof. intros []. keep_def. Qed.
#[export] Instance not__keeps a : rule (not_ a) (keeps a).
Proof. intros ?. keep_def. Qed.

#[export] Instance assert_keeps b : keeps (assert_ b).
Proof. keep_def. Qed.

(** The interface of the connection layer. *)
Class ConnIOKeeps (io : ConnIO) : Prop := {
  Conn_WriteStr_keeps :: forall Idx Format args, keeps (Conn_WriteStr Idx Format args);
  Conn_Close_keeps :: forall Idx LogMsg FwdMsg InformClient, keeps (Conn_Close Idx LogMsg FwdMsg InformClient);
  Client_UpdateCloakedHostname_keeps :: forall Client Origin Hostname,
    keeps (Client_UpdateCloakedHostname Client Origin Hostname) }.
