(* ===== verification/FrameState.v ===== *)
(** * What every operation keeps: tables and messages

    [keeps] for the operations on clients and channels, and for those that send
    messages. *)

From S2P Require Import Prelude CString Match Hash Checks Lists Messages Ipaddr Io IoSpec World ClientCore.
From S2P Require Import ConnFunc ConnSpec ChannelCore State IrcWrite Channel Client Conn FrameTables Frame.

(** The search for instances does not unfold definitions. *)
#[local] Hint Constants Opaque : typeclass_instances.
#[local] Hint Transparent ptr : typeclass_instances.

Section Frame.
Context `{Conf} `{IO : ConnIO} `{!ConnIOKeeps IO}.

(** *** The monad and the tables *)

#[export] Instance sys_close_keeps fd : keeps (sys_close fd). Proof. keep_def. Qed.
#[export] Instance time_keeps : keeps time. Proof. keep_def. Qed.
#[export] Instance store_client_runs p c : runs (store_client p c). Proof. keep_def. Qed.
#[export] Instance upd_client_runs p f : runs (upd_client p f). Proof. keep_def. Qed.
#[export] Instance scan_clients_keeps l : forall test, keeps (scan_clients test l). Proof. keep_fix l. Qed.
#[export] Instance count_clients_keeps l : forall test, keeps (count_clients test l). Proof. keep_fix l. Qed.
#[export] Instance store_channel_runs p c : runs (store_channel p c). Proof. keep_def. Qed.
#[export] Instance upd_channel_runs p f : runs (upd_channel p f). Proof. keep_def. Qed.
#[export] Instance scan_channels_keeps l : forall test, keeps (scan_channels test l). Proof. keep_fix l. Qed.
(** *** client.c *)

#[export] Instance Client_ThisServer_keeps : keeps Client_ThisServer. Proof. keep_def. Qed.
#[export] Instance Client_ID_keeps Client : keeps (Client_ID Client). Proof. keep_def. Qed.
#[export] Instance Client_Type_keeps Client : keeps (Client_Type Client). Proof. keep_def. Qed.
#[export] Instance Client_Conn_keeps Client : keeps (Client_Conn Client). Proof. keep_def. Qed.
#[export] Instance Client_Info_keeps Client : keeps (Client_Info Client). Proof. keep_def. Qed.
#[export] Instance Client_User_keeps Client : keeps (Client_User Client). Proof. keep_def. Qed.
#[export] Instance Client_Hostname_keeps Client : keeps (Client_Hostname Client). Proof. keep_def. Qed.
#[export] Instance Client_HostnameCloaked_keeps Client : keeps (Client_HostnameCloaked Client). Proof. keep_def. Qed.
#[export] Instance Client_Modes_keeps Client : keeps (Client_Modes Client). Proof. keep_def. Qed.
#[export] Instance Client_Flags_keeps Client : keeps (Client_Flags Client). Proof. keep_def. Qed.
#[export] Instance Client_Hops_keeps Client : keeps (Client_Hops Client). Proof. keep_def. Qed.
#[export] Instance Client_Token_keeps Client : keeps (Client_Token Client). Proof. keep_def. Qed.
#[export] Instance Client_MyToken_keeps Client : keeps (Client_MyToken Client). Proof. keep_def. Qed.
#[export] Instance Client_Introducer_keeps Client : keeps (Client_Introducer Client). Proof. keep_def. Qed.
#[export] Instance Client_TopServer_keeps Client : keeps (Client_TopServer Client). Proof. keep_def. Qed.
#[export] Instance Client_Away_keeps Client : keeps (Client_Away Client). Proof. keep_def. Qed.
#[export] Instance Client_AccountName_keeps Client : keeps (Client_AccountName Client). Proof. keep_def. Qed.
#[export] Instance Client_StartTime_keeps Client : keeps (Client_StartTime Client). Proof. keep_def. Qed.
#[export] Instance Client_HasMode_keeps Client Mode : keeps (Client_HasMode Client Mode). Proof. keep_def. Qed.
#[export] Instance Client_HasFlag_keeps Client Flag : keeps (Client_HasFlag Client Flag). Proof. keep_def. Qed.
#[export] Instance Client_TypeText_keeps Client : keeps (Client_TypeText Client). Proof. keep_def. Qed.
#[export] Instance Client_First_keeps : keeps Client_First. Proof. keep_def. Qed.
#[export] Instance Client_Next_keeps c : keeps (Client_Next c). Proof. keep_def. Qed.
#[export] Instance Client_Mask_keeps Client : keeps (Client_Mask Client). Proof. keep_def. Qed.
#[export] Instance Client_HostnameDisplayed_keeps Client : keeps (Client_HostnameDisplayed Client). Proof. keep_def. Qed.
#[export] Instance Client_MaskCloaked_keeps Client : keeps (Client_MaskCloaked Client). Proof. keep_def. Qed.
#[export] Instance Client_masks_keeps Client : keeps (Client_masks Client). Proof. keep_def. Qed.
#[export] Instance Client_IPAText_keeps Client : keeps (Client_IPAText Client). Proof. keep_def. Qed.
#[export] Instance Client_SetHostname_keeps Client Hostname : keeps (Client_SetHostname Client Hostname). Proof. keep_def. Qed.
#[export] Instance Client_SetIPAText_keeps Client IPAText : keeps (Client_SetIPAText Client IPAText). Proof. keep_def. Qed.
#[export] Instance Client_SetID_keeps Client ID : keeps (Client_SetID Client ID).
Proof. apply keeps_upd_client. intros c Hc. by apply set_id_wf. Qed.
#[export] Instance Client_SetUser_keeps Client User Idented : keeps (Client_SetUser Client User Idented). Proof. keep_def. Qed.
#[export] Instance Client_SetOrigUser_keeps Client User : keeps (Client_SetOrigUser Client User). Proof. keep_def. Qed.
#[export] Instance Client_SetInfo_keeps Client Info : keeps (Client_SetInfo Client Info). Proof. keep_def. Qed.
#[export] Instance Client_SetModes_keeps Client Modes : keeps (Client_SetModes Client Modes). Proof. keep_def. Qed.
#[export] Instance Client_SetFlags_keeps Client Flags : keeps (Client_SetFlags Client Flags). Proof. keep_def. Qed.
#[export] Instance Client_SetAccountName_keeps Client AccountName : keeps (Client_SetAccountName Client AccountName). Proof. keep_def. Qed.
#[export] Instance Client_SetAway_keeps Client Txt : keeps (Client_SetAway Client Txt). Proof. keep_def. Qed.
#[export] Instance Client_SetHops_keeps Client Hops : keeps (Client_SetHops Client Hops). Proof. keep_def. Qed.
#[export] Instance Client_SetToken_keeps Client Token : keeps (Client_SetToken Client Token). Proof. keep_def. Qed.
#[export] Instance Client_SetIntroducer_keeps Client Introducer : keeps (Client_SetIntroducer Client Introducer). Proof. keep_def. Qed.
#[export] Instance Client_ModeAdd_keeps Client Mode : keeps (Client_ModeAdd Client Mode). Proof. keep_tables. Qed.
#[export] Instance Client_ModeDel_keeps Client Mode : keeps (Client_ModeDel Client Mode). Proof. keep_tables. Qed.
#[export] Instance Client_Cap_keeps Client : keeps (Client_Cap Client). Proof. keep_def. Qed.
#[export] Instance Client_CapSet_keeps Client Cap : keeps (Client_CapSet Client Cap). Proof. keep_def. Qed.
#[export] Instance Client_CapAdd_keeps Client Cap : keeps (Client_CapAdd Client Cap). Proof. keep_def. Qed.
#[export] Instance Client_CapDel_keeps Client Cap : keeps (Client_CapDel Client Cap). Proof. keep_def. Qed.
#[export] Instance Client_Search_keeps Nick : keeps (Client_Search Nick). Proof. keep_def. Qed.
#[export] Instance Client_SearchServer_keeps Mask : keeps (Client_SearchServer Mask). Proof. keep_def. Qed.
#[export] Instance Client_GetFromToken_keeps Client Token : keeps (Client_GetFromToken Client Token). Proof. keep_def. Qed.
#[export] Instance next_hop_keeps fuel : forall c, keeps (next_hop fuel c). Proof. keep_fix fuel. Qed.
#[export] Instance Client_NextHop_keeps Client : keeps (Client_NextHop Client). Proof. keep_def. Qed.
#[export] Instance Count_keeps Type_ : keeps (Count Type_). Proof. keep_def. Qed.
#[export] Instance MyCount_keeps Type_ : keeps (MyCount Type_). Proof. keep_def. Qed.
#[export] Instance Client_UserCount_keeps : keeps Client_UserCount. Proof. keep_def. Qed.
#[export] Instance Client_ServiceCount_keeps : keeps Client_ServiceCount. Proof. keep_def. Qed.
#[export] Instance Client_ServerCount_keeps : keeps Client_ServerCount. Proof. keep_def. Qed.
#[export] Instance Client_MyUserCount_keeps : keeps Client_MyUserCount. Proof. keep_def. Qed.
#[export] Instance Client_MyServiceCount_keeps : keeps Client_MyServiceCount. Proof. keep_def. Qed.
#[export] Instance Client_MyServerCount_keeps : keeps Client_MyServerCount. Proof. keep_def. Qed.
#[export] Instance Client_OperCount_keeps : keeps Client_OperCount. Proof. keep_def. Qed.
#[export] Instance Client_UnknownCount_keeps : keeps Client_UnknownCount. Proof. keep_def. Qed.
#[export] Instance Client_MaxUserCount_keeps : keeps Client_MaxUserCount. Proof. keep_def. Qed.
#[export] Instance Client_MyMaxUserCount_keeps : keeps Client_MyMaxUserCount. Proof. keep_def. Qed.
#[export] Instance Adjust_Counters_keeps Client : keeps (Adjust_Counters Client). Proof. keep_def. Qed.
#[export] Instance gen_token_keeps fuel : forall token l, keeps (gen_token fuel token l). Proof. keep_fix fuel. Qed.
#[export] Instance Generate_MyToken_keeps Client : keeps (Generate_MyToken Client).
Proof. keep_tables. unfold Generate_MyToken. do 2 (apply sound_bind; [apply _|intros ?]). apply sound_load_store. client_fits. Qed.
#[export] Instance Client_SetType_keeps Client Type_ : keeps (Client_SetType Client Type_). Proof. keep_def. Qed.
#[export] Instance Client_GetWhowas_keeps : keeps Client_GetWhowas. Proof. keep_def. Qed.
#[export] Instance Client_GetLastWhowasIndex_keeps : keeps Client_GetLastWhowasIndex. Proof. keep_def. Qed.
#[export] Instance Client_RegisterWhowas_keeps Client : keeps (Client_RegisterWhowas Client).
Proof.
  keep_def. apply keeps_mod_tab, sound_whowas.
  - destruct (orb _ _) eqn:E; [done|]. apply orb_false_iff in E as [E1%Z.leb_gt E2%Z.ltb_ge]. by split.
  - unfold whowas_wf. cbn [ww_id ww_host ww_user ww_info ww_server]. split_and!; auto with fits.
Qed.
#[export] Instance New_Client_Struct_keeps : keeps New_Client_Struct.
Proof. keep_tables. intros w a w' Hr Ht. by apply (New_Client_Struct_run _ _ _ Hr). Qed.
#[export] Instance when_some_keeps o f : rule (when_some o f) (forall s, keeps (f s)). Proof. intros ?. keep_def. Qed.
#[export] Instance Init_New_Client_keeps Idx Introducer TopServer Type_ ID User Hostname Info Hops Token Modes Idented :
  keeps (Init_New_Client Idx Introducer TopServer Type_ ID User Hostname Info Hops Token Modes Idented).
Proof.
  keep_tables. intros w r w' Hr Ht. unfold Init_New_Client in Hr. pose proof (advances_refl w Ht) as Hst0.
  do 2 pass Hr Hst0. run Hr as a w1 E. destruct (New_Client_Struct_run _ _ _ E (proj1 Hst0)) as (Hst1 & Hnew & Ha).
  pose proof (advances_refl w1 (proj1 Hst1)) as Hst. do 9 pass Hr Hst.
  rewrite bind_three in Hr. run Hr as u w2 E2. destruct (unlinked_step _ _ _ (proj2 Hst) Ha) as [Hlt Hno].
  apply link_client_run in E2 as (Ht2 & Ef & El); [|apply Hst|done].
  assert (advances v0 w2) as Hst2.
  { destruct Hst1 as [_ [Hf1 Hl1]], Hst as [_ [Hf Hl]]. split; [done|]. split; [lia|].
    intros b Hb. rewrite El. intros [->|Hi]%elem_of_cons; [lia|]. apply Hl1; [lia|]. apply Hl; [lia|done]. }
  pose proof (advances_trans _ _ _ Hst0 Hst2) as Hst3. pass Hr Hst3. by injection Hr as <- <-.
Qed.
#[export] Instance Client_NewLocal_keeps Idx Hostname Type_ Idented : keeps (Client_NewLocal Idx Hostname Type_ Idented). Proof. keep_def. Qed.
#[export] Instance Client_NewRemoteServer_keeps Introducer Hostname TopServer Hops Token Info Idented : keeps (Client_NewRemoteServer Introducer Hostname TopServer Hops Token Info Idented). Proof. keep_def. Qed.
#[export] Instance Client_NewRemoteUser_keeps Introducer Nick Hops User Hostname Token Modes Info Idented : keeps (Client_NewRemoteUser Introducer Nick Hops User Hostname Token Modes Info Idented). Proof. keep_def. Qed.
#[export] Instance Free_Client_runs Client : runs (Free_Client Client). Proof. keep_def. Qed.
(** *** conn-func.c *)

#[export] Instance Pool_Size_keeps : keeps Pool_Size. Proof. keep_def. Qed.
#[export] Instance Conn_GetClient_keeps Idx : keeps (Conn_GetClient Idx). Proof. keep_def. Qed.
#[export] Instance Conn_UpdateIdle_keeps Idx : keeps (Conn_UpdateIdle Idx). Proof. keep_def. Qed.
#[export] Instance Conn_UpdatePing_keeps Idx TimeStamp : keeps (Conn_UpdatePing Idx TimeStamp). Proof. keep_def. Qed.
#[export] Instance Conn_GetSignon_keeps Idx : keeps (Conn_GetSignon Idx). Proof. keep_def. Qed.
#[export] Instance Conn_GetIdle_keeps Idx : keeps (Conn_GetIdle Idx). Proof. keep_def. Qed.
#[export] Instance Conn_LastPing_keeps Idx : keeps (Conn_LastPing Idx). Proof. keep_def. Qed.
#[export] Instance Conn_SetPenalty_keeps Idx Seconds : keeps (Conn_SetPenalty Idx Seconds). Proof. keep_def. Qed.
#[export] Instance Conn_ClearFlags_keeps : keeps Conn_ClearFlags.
Proof.
  apply keeps_mod_net. intros n. split_and!; [done| |done]. cbn.
  induction (n_conns n); constructor; [by split|done].
Qed.
#[export] Instance Conn_Flag_keeps Idx : keeps (Conn_Flag Idx). Proof. keep_def. Qed.
#[export] Instance Conn_SetFlag_keeps Idx Flag : keeps (Conn_SetFlag Idx Flag). Proof. keep_def. Qed.
#[export] Instance Conn_First_keeps : keeps Conn_First. Proof. keep_def. Qed.
#[export] Instance Conn_Next_keeps Idx : keeps (Conn_Next Idx). Proof. keep_def. Qed.
#[export] Instance Conn_Options_keeps Idx : keeps (Conn_Options Idx). Proof. keep_def. Qed.
#[export] Instance Conn_SetOption_keeps Idx Option_ :
  rule (Conn_SetOption Idx Option_) (Z.land Option_ CONN_ISCLOSING = 0).
Proof.
  intros H1. apply keeps_upd_conn. intros c. apply same_slot_options with (f := fun o => Z.lor o Option_).
  by apply lor_other.
Qed.
#[export] Instance Conn_StartTime_keeps Idx : keeps (Conn_StartTime Idx). Proof. keep_def. Qed.
#[export] Instance Conn_SendQ_keeps Idx : keeps (Conn_SendQ Idx). Proof. keep_def. Qed.
#[export] Instance Conn_SendMsg_keeps Idx : keeps (Conn_SendMsg Idx). Proof. keep_def. Qed.
#[export] Instance Conn_SendBytes_keeps Idx : keeps (Conn_SendBytes Idx). Proof. keep_def. Qed.
#[export] Instance Conn_RecvQ_keeps Idx : keeps (Conn_RecvQ Idx). Proof. keep_def. Qed.
#[export] Instance Conn_RecvMsg_keeps Idx : keeps (Conn_RecvMsg Idx). Proof. keep_def. Qed.
#[export] Instance Conn_RecvBytes_keeps Idx : keeps (Conn_RecvBytes Idx). Proof. keep_def. Qed.
#[export] Instance Conn_IPA_keeps Idx : keeps (Conn_IPA Idx). Proof. keep_def. Qed.
#[export] Instance Conn_ResetWCounter_keeps : keeps Conn_ResetWCounter. Proof. keep_def. Qed.
#[export] Instance Conn_WCounter_keeps : keeps Conn_WCounter. Proof. keep_def. Qed.
#[export] Instance Conn_Password_keeps Idx : keeps (Conn_Password Idx). Proof. keep_def. Qed.
#[export] Instance Conn_SetPassword_keeps Idx Pwd : keeps (Conn_SetPassword Idx Pwd). Proof. keep_def. Qed.
#[export] Instance Conn_GetAuthPing_keeps Idx : keeps (Conn_GetAuthPing Idx). Proof. keep_def. Qed.
#[export] Instance Conn_SetAuthPing_keeps Idx ID : keeps (Conn_SetAuthPing Idx ID). Proof. keep_def. Qed.
(** *** channel.c, part one *)

#[export] Instance Channel_Init_keeps : keeps Channel_Init. Proof. keep_tables. Qed.
#[export] Instance Channel_GetListBans_keeps c : keeps (Channel_GetListBans c). Proof. keep_def. Qed.
#[export] Instance Channel_GetListExcepts_keeps c : keeps (Channel_GetListExcepts c). Proof. keep_def. Qed.
#[export] Instance Channel_GetListInvites_keeps c : keeps (Channel_GetListInvites c). Proof. keep_def. Qed.
#[export] Instance Channel_Name_keeps Chan : keeps (Channel_Name Chan). Proof. keep_def. Qed.
#[export] Instance Channel_Modes_keeps Chan : keeps (Channel_Modes Chan). Proof. keep_def. Qed.
#[export] Instance Channel_Key_keeps Chan : keeps (Channel_Key Chan). Proof. keep_def. Qed.
#[export] Instance Channel_MaxUsers_keeps Chan : keeps (Channel_MaxUsers Chan). Proof. keep_def. Qed.
#[export] Instance Channel_Topic_keeps Chan : keeps (Channel_Topic Chan). Proof. keep_def. Qed.
#[export] Instance Channel_TopicTime_keeps Chan : keeps (Channel_TopicTime Chan). Proof. keep_def. Qed.
#[export] Instance Channel_TopicWho_keeps Chan : keeps (Channel_TopicWho Chan). Proof. keep_def. Qed.
#[export] Instance Channel_CreationTime_keeps Chan : keeps (Channel_CreationTime Chan). Proof. keep_def. Qed.
#[export] Instance Channel_HasMode_keeps Chan Mode : keeps (Channel_HasMode Chan Mode). Proof. keep_def. Qed.
#[export] Instance Channel_IsLocal_keeps Chan : keeps (Channel_IsLocal Chan). Proof. keep_def. Qed.
#[export] Instance Channel_IsModeless_keeps Chan : keeps (Channel_IsModeless Chan). Proof. keep_def. Qed.
#[export] Instance Channel_First_keeps : keeps Channel_First. Proof. keep_def. Qed.
#[export] Instance Channel_Next_keeps c : keeps (Channel_Next c). Proof. keep_def. Qed.
#[export] Instance Channel_Search_keeps Name : keeps (Channel_Search Name). Proof. keep_def. Qed.
#[export] Instance Channel_ModeAdd_keeps Chan Mode : keeps (Channel_ModeAdd Chan Mode). Proof. keep_tables. Qed.
#[export] Instance Channel_ModeDel_keeps Chan Mode : keeps (Channel_ModeDel Chan Mode). Proof. keep_tables. Qed.
#[export] Instance Channel_SetTopic_keeps Chan Client Topic : keeps (Channel_SetTopic Chan Client Topic). Proof. keep_def. Qed.
#[export] Instance Channel_SetModes_keeps Chan Modes : keeps (Channel_SetModes Chan Modes). Proof. keep_def. Qed.
#[export] Instance Channel_SetKey_keeps Chan Key : keeps (Channel_SetKey Chan Key). Proof. keep_def. Qed.
#[export] Instance Channel_SetMaxUsers_keeps Chan Count : keeps (Channel_SetMaxUsers Chan Count). Proof. keep_def. Qed.
#[export] Instance Channel_AddBan_keeps c mask who : rule (Channel_AddBan c mask who) (slen mask < MASK_LEN)%nat.
Proof. intros Hm. keep_tables. by apply Channel_AddBan_sound. Qed.
#[export] Instance Channel_AddExcept_keeps c mask who : rule (Channel_AddExcept c mask who) (slen mask < MASK_LEN)%nat.
Proof. intros Hm. keep_tables. by apply Channel_AddExcept_sound. Qed.
#[export] Instance Channel_AddInvite_keeps c mask onlyonce who : keeps (Channel_AddInvite c mask onlyonce who). Proof. keep_tables. Qed.
#[export] Instance Get_Cl2Chan_keeps Chan Client : keeps (Get_Cl2Chan Chan Client). Proof. keep_def. Qed.
#[export] Instance Get_Next_Cl2Chan_keeps Start Client Channel : keeps (Get_Next_Cl2Chan Start Client Channel). Proof. keep_def. Qed.
#[export] Instance Get_First_Cl2Chan_keeps Client Chan : keeps (Get_First_Cl2Chan Client Chan). Proof. keep_def. Qed.
#[export] Instance Channel_FirstMember_keeps Chan : keeps (Channel_FirstMember Chan). Proof. keep_def. Qed.
#[export] Instance Channel_NextMember_keeps Chan Cl2Chan : keeps (Channel_NextMember Chan Cl2Chan). Proof. keep_def. Qed.
#[export] Instance Channel_FirstChannelOf_keeps Client : keeps (Channel_FirstChannelOf Client). Proof. keep_def. Qed.
#[export] Instance Channel_NextChannelOf_keeps Client Cl2Chan : keeps (Channel_NextChannelOf Client Cl2Chan). Proof. keep_def. Qed.
#[export] Instance Channel_GetClient_keeps Cl2Chan : keeps (Channel_GetClient Cl2Chan). Proof. keep_def. Qed.
#[export] Instance Channel_GetChannel_keeps Cl2Chan : keeps (Channel_GetChannel Cl2Chan). Proof. keep_def. Qed.
#[export] Instance Channel_IsMemberOf_keeps Chan Client : keeps (Channel_IsMemberOf Chan Client). Proof. keep_def. Qed.
#[export] Instance Channel_UserModes_keeps Chan Client : keeps (Channel_UserModes Chan Client). Proof. keep_def. Qed.
#[export] Instance Channel_UserHasMode_keeps Chan Client Mode : keeps (Channel_UserHasMode Chan Client Mode). Proof. keep_def. Qed.
#[export] Instance Channel_UserModeAdd_keeps Chan Client Mode : keeps (Channel_UserModeAdd Chan Client Mode). Proof. keep_tables. Qed.
#[export] Instance Channel_UserModeDel_keeps Chan Client Mode : keeps (Channel_UserModeDel Chan Client Mode). Proof. keep_tables. Qed.
#[export] Instance Add_Client_runs Chan Client : runs (Add_Client Chan Client). Proof. keep_def. Qed.
#[export] Instance Channel_MemberCount_keeps Chan : keeps (Channel_MemberCount Chan). Proof. keep_def. Qed.
#[export] Instance Channel_CountForUser_keeps Client : keeps (Channel_CountForUser Client). Proof. keep_def. Qed.
#[export] Instance count_visible_keeps l : forall Client, keeps (count_visible Client l). Proof. keep_fix l. Qed.
#[export] Instance Channel_CountVisible_keeps Client : keeps (Channel_CountVisible Client). Proof. keep_def. Qed.
#[export] Instance Channel_Create_runs Name : runs (Channel_Create Name). Proof. keep_def. Qed.
#[export] Instance Free_Channel_runs chan : runs (Free_Channel chan). Proof. keep_def. Qed.
#[export] Instance Delete_Channel_runs Chan : runs (Delete_Channel Chan). Proof. keep_def. Qed.
(** *** irc-write.c *)

#[export] Instance IRC_SetPenalty_keeps Client Seconds : keeps (IRC_SetPenalty Client Seconds). Proof. keep_def. Qed.
#[export] Instance Get_Prefix_keeps Target Client : keeps (Get_Prefix Target Client). Proof. keep_def. Qed.
#[export] Instance IRC_WriteStrClientPrefix_keeps Client Prefix Format args : keeps (IRC_WriteStrClientPrefix Client Prefix Format args). Proof. keep_def. Qed.
#[export] Instance IRC_WriteStrClient_keeps Client Format args : keeps (IRC_WriteStrClient Client Format args). Proof. keep_def. Qed.
#[export] Instance IRC_WriteErrClient_keeps Client Format args : keeps (IRC_WriteErrClient Client Format args). Proof. keep_def. Qed.
#[export] Instance send_marked_keeps Prefix Buffer conn : keeps (send_marked Prefix Buffer conn). Proof. keep_def. Qed.
#[export] Instance send_marked_loop_keeps fuel : forall Prefix Buffer conn, keeps (send_marked_loop fuel Prefix Buffer conn). Proof. keep_fix fuel. Qed.
#[export] Instance Send_Marked_Connections_keeps Prefix Buffer : keeps (Send_Marked_Connections Prefix Buffer). Proof. keep_def. Qed.
#[export] Instance mark_member_keeps Client Remote c : keeps (mark_member Client Remote c). Proof. keep_def. Qed.
#[export] Instance mark_members_keeps l : forall Chan Client Remote, keeps (mark_members Chan Client Remote l). Proof. keep_fix l. Qed.
#[export] Instance IRC_WriteStrChannelPrefix_keeps Client Chan Prefix Remote Format args : keeps (IRC_WriteStrChannelPrefix Client Chan Prefix Remote Format args). Proof. keep_def. Qed.
#[export] Instance IRC_WriteStrChannel_keeps Client Chan Remote Format args : keeps (IRC_WriteStrChannel Client Chan Remote Format args). Proof. keep_def. Qed.
#[export] Instance client_loop_keeps fuel body : forall c, rule (client_loop fuel body c) (forall p, keeps (body p)).
Proof. intros c Hb. revert c. keep_fix fuel. Qed.
#[export] Instance for_each_client_keeps body : rule (for_each_client body) (forall p, keeps (body p)).
Proof. intros Hb. keep_def. Qed.
#[export] Instance IRC_WriteStrServersPrefixFlag_CB_keeps ExceptOf Prefix Flag callback :
  rule (IRC_WriteStrServersPrefixFlag_CB ExceptOf Prefix Flag callback) (forall c p, keeps (callback c p)).
Proof. intros Hc. keep_def. Qed.
#[export] Instance cb_writeStrServersPrefixFlag_keeps Buffer Client Prefix : keeps (cb_writeStrServersPrefixFlag Buffer Client Prefix). Proof. keep_def. Qed.
#[export] Instance IRC_WriteStrServersPrefixFlag_keeps ExceptOf Prefix Flag Format args : keeps (IRC_WriteStrServersPrefixFlag ExceptOf Prefix Flag Format args). Proof. keep_def. Qed.
#[export] Instance IRC_WriteStrServersPrefix_keeps ExceptOf Prefix Format args : keeps (IRC_WriteStrServersPrefix ExceptOf Prefix Format args). Proof. keep_def. Qed.
#[export] Instance IRC_WriteStrServers_keeps ExceptOf Format args : keeps (IRC_WriteStrServers ExceptOf Format args). Proof. keep_def. Qed.
#[export] Instance mark_related_keeps l : forall Client Remote, keeps (mark_related Client Remote l). Proof. keep_fix l. Qed.
#[export] Instance IRC_WriteStrRelatedPrefix_keeps Client Prefix Remote Format args : keeps (IRC_WriteStrRelatedPrefix Client Prefix Remote Format args). Proof. keep_def. Qed.
#[export] Instance IRC_SendWallops_keeps Client From Format args : keeps (IRC_SendWallops Client From Format args). Proof. keep_def. Qed.
(** *** channel.c, part two *)

#[export] Instance notify_kick_keeps Chan Client Origin Reason InformServer : keeps (notify_kick Chan Client Origin Reason InformServer). Proof. keep_def. Qed.
#[export] Instance notify_part_keeps Chan Client Origin Reason InformServer : keeps (notify_part Chan Client Origin Reason InformServer). Proof. keep_def. Qed.
#[export] Instance Remove_Client_keeps Type_ Chan Client Origin Reason InformServer :
  keeps (Remove_Client Type_ Chan Client Origin Reason InformServer).
Proof. keep_tables. unfold Remove_Client. repeat first [apply delete_unused_sound|sound_step]. Qed.
#[export] Instance Channel_Join_keeps Client Name : keeps (Channel_Join Client Name).
Proof.
  keep_tables. unfold Channel_Join. apply sound_bind; [apply _|]. intros _. destruct (negb _); [sound_all|].
  intros w r w'. apply Channel_Join_tail.
Qed.
(** A channel is looked up and created if there is none. *)
Lemma keeps_search_create {A} Name (k : ptr -> M A) :
  (forall p, runs (k p)) -> (forall a, sound (k (Some a))) ->
  (forall w a w', k NULL w = Done a w' -> tables_ok (w_tab w) -> name_free Name (w_tab w) -> advances w w') ->
  keeps (p ← Channel_Search Name; k p).
Proof. intros H1 H2 H3. apply runs_keeps; [keep; apply H1|by apply search_create_sound]. Qed.

#[export] Instance Channel_Part_keeps Client Origin Name Reason : keeps (Channel_Part Client Origin Name Reason). Proof. keep_def. Qed.
#[export] Instance kick_allowed_keeps chan Peer Target Origin : keeps (kick_allowed chan Peer Target Origin). Proof. keep_def. Qed.
#[export] Instance kick_protected_keeps chan Target Origin : keeps (kick_protected chan Target Origin). Proof. keep_def. Qed.
#[export] Instance Channel_Kick_keeps Peer Target Origin Name Reason : keeps (Channel_Kick Peer Target Origin Name Reason). Proof. keep_def. Qed.
#[export] Instance quit_loop_keeps fuel : forall Client Reason c, keeps (quit_loop fuel Client Reason c). Proof. keep_fix fuel. Qed.
#[export] Instance Channel_Quit_keeps Client Reason : keeps (Channel_Quit Client Reason). Proof. keep_def. Qed.
#[export] Instance check_list_keeps get set Chan Client : rule (check_list get set Chan Client) (list_field get set).
Proof.
  intros Hls. keep_tables. unfold check_list. apply sound_bind; [apply _|]. intros c. destruct (get c); [apply _|].
  apply sound_bind; [apply _|]. intros masks. by apply sound_check_store.
Qed.
#[export] Instance member_privileged_keeps Chan From : keeps (member_privileged Chan From). Proof. keep_def. Qed.
#[export] Instance unprivileged_can_send_keeps Chan From : keeps (unprivileged_can_send Chan From). Proof. keep_def. Qed.
#[export] Instance Can_Send_To_Channel_keeps Chan From : keeps (Can_Send_To_Channel Chan From). Proof. keep_def. Qed.
#[export] Instance Channel_Write_keeps Chan From Client Command SendErrors Text : keeps (Channel_Write Chan From Client Command SendErrors Text). Proof. keep_def. Qed.
#[export] Instance show_elems_keeps l : forall Client Channel msg, keeps (show_elems Client Channel msg l). Proof. keep_fix l. Qed.
#[export] Instance ShowChannelList_keeps head Client Channel msg msg_end : keeps (ShowChannelList head Client Channel msg msg_end). Proof. keep_def. Qed.
#[export] Instance Channel_ShowBans_keeps Client Channel : keeps (Channel_ShowBans Client Channel). Proof. keep_def. Qed.
#[export] Instance Channel_ShowExcepts_keeps Client Channel : keeps (Channel_ShowExcepts Client Channel). Proof. keep_def. Qed.
#[export] Instance Channel_ShowInvites_keeps Client Channel : keeps (Channel_ShowInvites Client Channel). Proof. keep_def. Qed.
#[export] Instance Channel_LogServer_keeps msg : keeps (Channel_LogServer msg). Proof. keep_def. Qed.
#[export] Instance Log_ServerNotice_keeps UserMode Format args : keeps (Log_ServerNotice UserMode Format args). Proof. keep_def. Qed.
#[export] Instance Log_keeps snotice Format args : keeps (Log snotice Format args). Proof. keep_def. Qed.
#[export] Instance Set_KeyFile_keeps Chan KeyFile : keeps (Set_KeyFile Chan KeyFile). Proof. keep_def. Qed.
#[export] Instance Channel_CheckKey_keeps read_lines Chan Client Key : keeps (Channel_CheckKey read_lines Chan Client Key). Proof. keep_def. Qed.
(** *** client.c and conf.c *)

#[export] Instance Conf_GetServer_keeps Idx : keeps (Conf_GetServer Idx). Proof. keep_def. Qed.
#[export] Instance Conf_NickIsService_keeps ConfServer Nick : keeps (Conf_NickIsService ConfServer Nick). Proof. keep_def. Qed.
#[export] Instance Conf_NickIsBlocked_keeps Nick : keeps (Conf_NickIsBlocked Nick). Proof. keep_def. Qed.
#[export] Instance UpdateCloakedHostname_keeps Client Origin Hostname : keeps (UpdateCloakedHostname Client Origin Hostname).
Proof.
  keep_tables. unfold UpdateCloakedHostname. apply sound_bind; [apply _|]. intros c. apply sound_bind; [apply _|]. intros this.
  apply sound_bind_yields with (P := fun name => (slen name < CLIENT_HOST_LEN)%nat).
  - sound_all.
  - intros w name w' Hr. destruct Hostname; [injection Hr as <- _; auto with fits|]. destruct (negb _).
    + injection Hr as <- _. auto with fits.
    + run Hr as id w1 E. injection Hr as <- _. auto with fits.
  - intros name Hn. apply sound_bind; [apply keeps_sound, keeps_upd_client; client_fits|]. sound_all.
Qed.
#[export] Instance Destroy_UserOrService_keeps Client Txt FwdMsg SendQuit : keeps (Destroy_UserOrService Client Txt FwdMsg SendQuit). Proof. keep_def. Qed.
#[export] Instance destroy_found_runs c txt FwdMsg SendQuit : runs (destroy_found c txt FwdMsg SendQuit). Proof. keep_def. Qed.
(** A client that has been taken out of the list stays out of it until it is freed. *)
Lemma unlink_destroy_sound c txt FwdMsg SendQuit :
  sound (mod_tab (fun t => set_t_My_Clients (remove_first (fun a => ptr_eqb (Some a) c) (t_My_Clients t)) t);;
         destroy_found c txt FwdMsg SendQuit).
Proof.
  intros w r w' Hr Ht. run Hr as u w1 E. injection E as _ <-. destruct c as [a|]; [|done].
  destruct (unlink_client_ok _ a Ht) as (Ht1 & Hst1 & Hno). set (w1 := set_w_tab _ w) in *.
  assert (advances w w1) as Hst0 by (by split). unfold destroy_found in Hr. run Hr as x w2 E2.
  apply load_client_inv in E2 as (-> & b & [= <-] & Hx). assert (unlinked a (w_tab w1)) as Hu.
  { split; [|done]. by apply (tk_client _ Ht1) in Hx as [_ ?]. }
  pose proof (advances_refl w1 Ht1) as Hst. do 2 pass Hr Hst. apply (unlinked_step _ _ _ (proj2 Hst)) in Hu as [_ Hno'].
  apply (advances_trans _ _ _ Hst0), (advances_trans _ _ _ Hst). by apply (Free_Client_run _ _ _ _ Hr (proj1 Hst)).
Qed.

#[export] Instance destroy_loop_runs fuel : forall Client txt FwdMsg SendQuit c, runs (destroy_loop fuel Client txt FwdMsg SendQuit c).
Proof. keep_fix fuel. Qed.

#[export] Instance destroy_loop_sound fuel : forall Client txt FwdMsg SendQuit c, sound (destroy_loop fuel Client txt FwdMsg SendQuit c).
Proof. induction fuel; intros; cbn [destroy_loop]; repeat first [apply unlink_destroy_sound|sound_step]. Qed.

#[export] Instance destroy_loop_keeps fuel Client txt FwdMsg SendQuit c : keeps (destroy_loop fuel Client txt FwdMsg SendQuit c).
Proof. by apply runs_keeps; [|apply _]; apply destroy_loop_runs. Qed.
#[export] Instance Client_Destroy_keeps Client LogMsg FwdMsg SendQuit : keeps (Client_Destroy Client LogMsg FwdMsg SendQuit). Proof. keep_def. Qed.
#[export] Instance Client_Reject_keeps Client Reason InformClient : keeps (Client_Reject Client Reason InformClient). Proof. keep_def. Qed.
#[export] Instance Client_CheckNick_keeps Client Nick : keeps (Client_CheckNick Client Nick). Proof. keep_def. Qed.
#[export] Instance Client_CheckID_keeps Client ID : keeps (Client_CheckID Client ID). Proof. keep_def. Qed.
#[export] Instance write_ok_keeps m k : rule (write_ok m k) (keeps m /\ keeps k).
Proof. intros []. keep_def. Qed.
#[export] Instance Client_Announce_keeps Client Prefix User : keeps (Client_Announce Client Prefix User). Proof. keep_def. Qed.
#[export] Instance cb_introduceClient_keeps c To Prefix : keeps (cb_introduceClient c To Prefix). Proof. keep_def. Qed.
#[export] Instance Client_Introduce_keeps From Client Type_ : keeps (Client_Introduce From Client Type_). Proof. keep_def. Qed.

End Frame.
