(* ===== verification/FrameConn.v ===== *)
(** * What every operation keeps: connections

    [keeps] for the operations of conn.c, where connections are closed, and for the
    implementation of the interface [ConnIO]. *)

From S2P Require Import Prelude CString Match Hash Checks Lists Messages Ipaddr Io IoSpec World ClientCore.
From S2P Require Import ConnFunc ConnSpec ChannelCore State IrcWrite Channel Client Conn FrameTables Frame FrameState.

(** ** Changing registrations *)

(** The registrations of other descriptors stay, with their callbacks. *)
Lemma watched_io m m' n io' :
  watched m n -> io_abs io' m' ->
  (forall fd cb what, m !! fd = Some (cb, what) -> exists what', m' !! fd = Some (cb, what')) ->
  (forall fd cb what, m' !! fd = Some (cb, what) -> outgoing cb = false) ->
  watched m' (set_n_io io' n).
Proof.
  intros [H1 H2 H3 H4 H5 H6] Ha Hm Hl. split; try done.
  - intros i c Hc. destruct (H2 i c Hc) as [?|(Hs & what & Hi)]; [by left|right]. split; [done|].
    by apply Hm in Hi.
  - intros i c Hc Hs Hp. destruct (H3 i c Hc Hs Hp) as [what Hi]. by apply Hm in Hi.
Qed.

(** An update of the events of one descriptor. *)
Lemma watched_alter m n io' fd cb old what :
  watched m n -> m !! fd = Some (cb, old) -> io_abs io' (<[fd := (cb, what)]> m) -> watched (<[fd := (cb, what)]> m) (set_n_io io' n).
Proof.
  intros Hw Hfd Ha. eapply watched_io; [done..| |].
  - intros f cb' what' Hf. destruct (decide (f = fd)) as [->|Hne].
    + rewrite Hfd in Hf. injection Hf as <- <-. rewrite lookup_insert_eq. by eexists.
    + rewrite lookup_insert_ne by done. by eexists.
  - intros f cb' what' Hf. destruct (decide (f = fd)) as [->|Hne].
    + rewrite lookup_insert_eq in Hf. injection Hf as <- <-. by apply (wa_link _ _ Hw fd cb old).
    + rewrite lookup_insert_ne in Hf by done. by apply (wa_link _ _ Hw f cb' what').
Qed.

(** The socket of an open slot is registered; an event is removed from it. *)
Lemma wlp_del_socket i c what Q w :
  some_events what -> net_ok (w_net w) -> n_conns (w_net w) !! i = Some c -> 0 <= cn_sock c ->
  (forall b w', net_ok (w_net w') -> step (w_net w) (w_net w') -> Q b w') ->
  wlp (io_op (io_event_del (cn_sock c) what)) Q w.
Proof.
  intros Hwhat [m Hm] Hc Hs HQ.
  destruct (wa_sock _ _ Hm _ _ Hc) as [E|(E & old & Hfd)]; [unfold NONE in E; lia|].
  rewrite <- E in Hfd. destruct (del_ok _ _ (wa_abs _ _ Hm) _ _ what Hfd Hwhat) as (io' & Hdel & Habs).
  unfold wlp, io_op. rewrite Hdel. apply HQ; cbn.
  - eexists. by eapply watched_alter.
  - split; [apply bounds_io|done]. unfold io_event_del in Hdel. destruct (io_event_get _ _); [|done].
    destruct (negb _); injection Hdel as <-; cbn; [lia|by rewrite length_insert].
Qed.

(** ** Output *)

(** The first operation of a run, which keeps the invariant; the step is added to those
    before it. *)
Ltac follow Hok Hst :=
  apply wlp_bind, wlp_keeps; [keep|exact Hok|];
  let a := fresh "r" in let w := fresh "w" in let Hok' := fresh "Hok" in let Hst' := fresh "Hst" in
  intros a w Hok' Hst'; clear Hok; rename Hok' into Hok;
  let Hn := fresh in pose proof (step_trans _ _ _ Hst Hst') as Hn; clear Hst Hst'; rename Hn into Hst.

Section Output.
Context `{Conf} `{IO : ConnIO} `{!ConnIOKeeps IO}.
#[local] Hint Constants Opaque : typeclass_instances.
#[local] Hint Transparent ptr : typeclass_instances.

#[export] Instance Conf_UnsetServer_keeps rand Idx : keeps (Conf_UnsetServer rand Idx). Proof. keep_def. Qed.

#[export] Instance Handle_Write_keeps Idx : keeps (Handle_Write Idx).
Proof.
  unfold Handle_Write. apply bind_keeps; [keep|]. intros _. apply bind_keeps; [keep|]. intros n. case_match; [keep|].
  split; [|intros _; sound_all]. intros w Hw. apply wlp_bind, wlp_the_conn. intros c Hi Hc.
  case_match; [done|]. destruct (Z.ltb_spec (cn_sock c) 0); [done|]. cbv zeta.
  case_match.
  - apply wlp_bind. by eapply wlp_del_socket; [by right; left|done..|].
  - apply wlp_keeps; [keep|done..|by auto].
Qed.

#[export] Instance Conn_Write_keeps Idx Data : keeps (Conn_Write Idx Data). Proof. keep_def. Qed.
#[export] Instance WriteStr_keeps Idx Format args : keeps (WriteStr Idx Format args). Proof. keep_def. Qed.
#[export] Instance inform_client_keeps Idx c FwdMsg : keeps (inform_client Idx c FwdMsg). Proof. keep_def. Qed.

End Output.

(** An operation whose result the rest depends on. *)
Lemma keeps_bind_yields {A B} (m : M A) (k : A -> M B) (P : A -> Prop) :
  keeps m -> (forall w a w', m w = Done a w' -> P a) -> (forall a, P a -> keeps (k a)) -> keeps (m ≫= k).
Proof.
  intros Hm HP Hk. split.
  - intros w Hw. apply wlp_bind, (wlp_done _ _ _ _ (holds_run (m := m) w Hw)). intros a w1 Ha [Hw1 Hs1].
    apply wlp_keeps; [by eapply Hk, HP|done|]. intros b w2 Hw2 Hs2. split; [done|]. by transitivity (w_net w1).
  - intros _. apply sound_bind_yields with P; [by apply keeps_sound|done|]. intros a Ha. by apply keeps_sound, Hk.
Qed.

(** ** Opening and closing a slot *)

Lemma closing_sock_insert n i c j :
  (i < length (n_conns n))%nat ->
  closing_sock (set_n_conns (<[i := c]> (n_conns n)) n) j =
    if decide (j = i) then if closing c then Some (cn_sock c) else None else closing_sock n j.
Proof.
  intros Hi. unfold closing_sock. cbn. destruct (decide (j = i)) as [->|Hne].
  - by rewrite list_lookup_insert_eq.
  - by rewrite list_lookup_insert_ne.
Qed.

Lemma filter_insert {A} (f : A -> bool) l i c c' :
  l !! i = Some c ->
  Z.of_nat (length (List.filter f (<[i := c']> l))) =
    Z.of_nat (length (List.filter f l)) - (if f c then 1 else 0) + (if f c' then 1 else 0).
Proof.
  revert i. induction l as [|d l IH]; intros [|i] Hc; try done.
  - change (Some d = Some c) in Hc. injection Hc as ->. change (<[0%nat := c']> (c :: l)) with (c' :: l).
    cbn [List.filter]. destruct (f c), (f c'); cbn [length]; lia.
  - change (l !! i = Some c) in Hc. specialize (IH _ Hc).
    change (<[S i := c']> (d :: l)) with (d :: <[i := c']> l). cbn [List.filter].
    destruct (f d); cbn [length]; lia.
Qed.

Definition weight (c : CONNECTION) : Z := if busy c then 1 else 0.

(** A slot is replaced; the registry may lose the socket of the old connection. *)
Lemma watched_slot m n i c c' count :
  watched m n -> n_conns n !! i = Some c ->
  (cn_sock c' = NONE \/ (cn_sock c' = cn_sock c /\ pipe_of c' = pipe_of c)) ->
  count = n_NumConnections n - weight c + weight c' ->
  watched m (set_n_NumConnections count (set_n_conns (<[i := c']> (n_conns n)) n)).
Proof.
  intros [H1 H2 H3 H4 H5 H6] Hc Hs Hcount.
  assert (forall j d, <[i := c']> (n_conns n) !! j = Some d ->
    (j = i /\ d = c') \/ (j <> i /\ n_conns n !! j = Some d)) as Hcases.
  { intros j d Hd. destruct (decide (j = i)) as [->|Hne].
    - rewrite list_lookup_insert_eq in Hd by (by eapply lookup_lt_Some). injection Hd as <-. by left.
    - rewrite list_lookup_insert_ne in Hd by done. by right. }
  assert (forall j d, <[i := c']> (n_conns n) !! j = Some d -> cn_sock d <> NONE ->
    exists e, n_conns n !! j = Some e /\ cn_sock e = cn_sock d /\ pipe_of e = pipe_of d) as Hold.
  { intros j d Hd Hsock. destruct (Hcases j d Hd) as [[-> ->]|[_ Hj]]; [|by exists d].
    destruct Hs as [?|[Hs1 Hs2]]; [done|]. by exists c. }
  split; cbn; try done.
  - intros j d Hd. destruct (Hcases j d Hd) as [[-> ->]|[_ Hj]]; [|by apply H2].
    destruct Hs as [?|[Hs _]]; [by left|]. rewrite Hs. by apply H2.
  - intros j d Hd Hsock. destruct (Hold j d Hd Hsock) as (e & He & Es & Ep). rewrite <- Ep. apply (H3 j e He). by rewrite Es.
  - intros j k d e Hd He Hds Hes. destruct (Hold j d Hd Hds) as (d0 & Hd0 & Es & <-), (Hold k e He Hes) as (e0 & He0 & Es' & <-).
    apply (H4 j k); congruence.
  - rewrite Hcount, H6. symmetry. by apply filter_insert.
Qed.

(** A registration that no connection needs is removed. *)
Lemma watched_delete m n fd io' :
  watched m n -> io_abs io' (delete fd m) ->
  (forall i c, n_conns n !! i = Some c -> cn_sock c <> NONE -> cn_sock c <> fd /\ pipe_of c <> fd) ->
  watched (delete fd m) (set_n_io io' n).
Proof.
  intros [H1 H2 H3 H4 H5 H6] Ha Hfree. split; try done; cbn.
  - intros i c Hc. destruct (decide (cn_sock c = NONE)) as [?|Hs]; [by left|]. right.
    destruct (H2 i c Hc) as [?|(E & what & Hi)]; [done|]. split; [done|]. exists what.
    rewrite lookup_delete_ne; [done|]. destruct (Hfree i c Hc Hs). congruence.
  - intros i c Hc Hs Hp. destruct (H3 i c Hc Hs Hp) as [what Hi]. exists what.
    rewrite lookup_delete_ne; [done|]. destruct (Hfree i c Hc Hs). congruence.
  - intros f cb what. rewrite lookup_delete_Some. intros [_ Hf]. by apply (H5 f cb what).
Qed.

(** ** Closing *)

Lemma io_close_length fd io io' : io_close fd io = Some io' -> length (io_events io') = length (io_events io).
Proof.
  unfold io_close, io_close_select. destruct (io_event_get fd io); [|done].
  intros H. apply fmap_Some in H as (io1 & H & ->). cbn. rewrite length_insert.
  destruct (negb _); [by injection H as <-|]. destruct (io_event_get _ _); [|done].
  destruct (fd =? _); [|by injection H as <-]. destruct (if _ : bool then _ else _); [|done]. by injection H as <-.
Qed.

(** [io_close] of a registered descriptor, as far as the network is concerned. *)
Lemma wlp_close_event fd m Q w :
  io_abs (n_io (w_net w)) m -> is_Some (m !! fd) ->
  (forall io', io_abs io' (delete fd m) -> length (io_events io') = length (io_events (n_io (w_net w))) ->
     Q tt (set_w_net (set_n_sys (n_sys (w_net w) ++ [SysClose fd]) (set_n_io io' (w_net w))) w)) ->
  wlp (close_event fd) Q w.
Proof.
  intros Ha Hfd HQ. apply wlp_bind. unfold wlp at 1, io_op.
  destruct (close_ok _ _ _ Ha Hfd) as (io' & Hc & Ha'). rewrite Hc. cbn.
  apply (HQ io' Ha'). by eapply io_close_length.
Qed.

Lemma watched_sys m n l : watched m n -> watched m (set_n_sys l n).
Proof. by intros [H1 H2 H3 H4 H5 H6]. Qed.

(** The socket of a slot that is being closed is closed. *)
Lemma close_slot i conn (k : unit -> M unit) Q w1 :
  net_ok (w_net w1) -> n_conns (w_net w1) !! i = Some conn -> closing conn = true -> cn_sock conn = Z.of_nat i ->
  (forall w3, net_ok (w_net w3) -> bounds (w_net w1) (w_net w3) ->
     (forall j, closing_sock (w_net w3) j = if decide (j = i) then Some NONE else closing_sock (w_net w1) j) ->
     wlp (k tt) Q w3) ->
  wlp (close_event (cn_sock conn) ≫= fun _ => upd_conn (Z.of_nat i) (set_cn_sock NONE) ≫= k) Q w1.
Proof.
  intros [m Hm] Hi Hcl Hs HQ. pose proof (lookup_lt_Some _ _ _ Hi) as Hlt.
  destruct (wa_sock _ _ Hm i conn Hi) as [E|(_ & what & Hreg)]; [rewrite E in Hs; unfold NONE in Hs; lia|].
  rewrite Hs. apply wlp_bind, (wlp_close_event _ m); [apply Hm|done|]. intros io' Ha Hlen.
  apply wlp_bind, wlp_upd_conn. intros c _ Hc. rewrite Nat2Z.id in *. cbn in Hc.
  rewrite Hi in Hc. injection Hc as <-. apply HQ; cbn [w_net set_w_net].
  - exists (delete (Z.of_nat i) m).
    set (n1 := set_n_conns (<[i := set_cn_sock NONE conn]> (n_conns (w_net w1))) (w_net w1)).
    assert (watched m n1) as Hn1.
    { apply (watched_slot m _ i conn (set_cn_sock NONE conn) (n_NumConnections (w_net w1)) Hm Hi); [by left|].
      unfold weight, busy. change (closing (set_cn_sock NONE conn)) with (closing conn). rewrite Hcl, !orb_true_r. lia. }
    apply (watched_sys _ (set_n_io io' n1)). apply (watched_delete m n1); [done|done|].
    intros j d Hd Hds. cbn in Hd. destruct (decide (j = i)) as [->|Hne].
    { rewrite list_lookup_insert_eq in Hd by done. by injection Hd as <-. }
    split.
    + destruct (wa_sock _ _ Hn1 j d Hd) as [?|[-> _]]; [done|]. lia.
    + intros Hp. destruct (wa_pipe _ _ Hn1 j d Hd Hds) as [what' Hpipe]; [lia|].
      rewrite Hp, Hreg in Hpipe. by injection Hpipe.
  - by apply (bounds_slot _ _ i (set_cn_sock NONE conn)); cbn; [lia| | |].
  - intros j. unfold closing_sock. cbn. destruct (decide (j = i)) as [->|Hne].
    + rewrite list_lookup_insert_eq by done. change (closing (set_cn_sock NONE conn)) with (closing conn). by rewrite Hcl.
    + by rewrite list_lookup_insert_ne.
Qed.

(** The end: the slot is free again, and does not count any more. *)
Lemma free_closed i now w1 c w2 idle :
  net_ok (w_net w1) -> n_conns (w_net w1) !! i = Some c -> closing c = true ->
  w2 = set_w_net (set_n_idle_t idle (set_n_NumConnections (n_NumConnections (w_net w1) - 1)
         (set_n_conns (<[i := free_slot now]> (n_conns (w_net w1))) (w_net w1)))) w1 ->
  net_ok (w_net w2) /\ bounds (w_net w1) (w_net w2) /\
  forall j, closing_sock (w_net w2) j = if decide (j = i) then None else closing_sock (w_net w1) j.
Proof.
  intros [m Hm] Hi Hcl ->. pose proof (lookup_lt_Some _ _ _ Hi) as Hlt. split_and!.
  - exists m. eapply (watched_same m (set_n_NumConnections (n_NumConnections (w_net w1) - 1)
      (set_n_conns (<[i := free_slot now]> (n_conns (w_net w1))) (w_net w1)))); [|done|apply same_slots_refl|done].
    apply (watched_slot m _ i c _ _ Hm Hi); [by left|].
    unfold weight, busy. rewrite Hcl, orb_true_r. change (closing (free_slot now)) with false. cbn. lia.
  - by apply (bounds_slot _ _ i (free_slot now)); cbn; [|lia| |].
  - intros j. unfold closing_sock. cbn. destruct (decide (j = i)) as [->|Hne].
    + by rewrite list_lookup_insert_eq.
    + by rewrite list_lookup_insert_ne.
Qed.

(** A slot that is being closed stays so. *)
Lemma step_closing n n' i c :
  step n n' -> n_conns n !! i = Some c -> closing c = true ->
  exists c', n_conns n' !! i = Some c' /\ closing c' = true /\ cn_sock c' = cn_sock c.
Proof.
  intros [_ Hs] Hc Hcl. specialize (Hs i). unfold closing_sock in Hs. rewrite Hc, Hcl in Hs.
  destruct (n_conns n' !! i) as [c'|]; [|done]. exists c'. destruct (closing c') eqn:E; [|done].
  split_and!; [done..|congruence].
Qed.

(** Marking an open slot. *)
Lemma mark_closing i w c w' :
  net_ok (w_net w) -> n_conns (w_net w) !! i = Some c -> NONE < cn_sock c ->
  w' = set_w_net (set_n_conns (<[i := set_cn_options (Z.lor (cn_options c) CONN_ISCLOSING) c]> (n_conns (w_net w))) (w_net w)) w ->
  net_ok (w_net w') /\ closing (set_cn_options (Z.lor (cn_options c) CONN_ISCLOSING) c) = true /\ cn_sock c = Z.of_nat i.
Proof.
  intros [m Hm] Hi Hs ->. assert (closing (set_cn_options (Z.lor (cn_options c) CONN_ISCLOSING) c) = true) as Hcl.
  { unfold closing, Conn_OPTION_ISSET. cbn. apply negb_true_iff, Z.eqb_neq. intros E.
    apply (f_equal (fun x => Z.testbit x 0)) in E. rewrite Z.land_spec, Z.lor_spec, Z.bits_0 in E.
    change (Z.testbit CONN_ISCLOSING 0) with true in E. by rewrite orb_true_r in E. }
  split_and!; [|done|].
  - exists m. apply (watched_slot m _ i c _ (n_NumConnections (w_net w)) Hm Hi); [by right|].
    unfold weight, busy. rewrite Hcl. change (cn_sock (set_cn_options _ c)) with (cn_sock c).
    rewrite (proj2 (Z.ltb_lt _ _) Hs). cbn. lia.
  - destruct (wa_sock _ _ Hm i c Hi) as [E|[E _]]; [lia|done].
Qed.

Section Closing.
Context `{Conf} `{IO : ConnIO} `{!ConnIOKeeps IO}.

(** The second half of closing: the socket, the client, and the slot. *)
Definition shut_down (rand Idx : Z) (c : ptr) (LogMsg FwdMsg : option string) : M unit :=
  conn ← the_conn Idx;
  close_event (cn_sock conn);;
  upd_conn Idx (set_cn_sock NONE);;
  (if negb (is_null c) then Client_Destroy c LogMsg FwdMsg true else mret tt);;
  Conf_UnsetServer rand Idx;;
  Init_Conn_Struct Idx;;
  count ← get_net n_NumConnections;
  assert_ (0 <? count);;
  now ← time;
  mod_net (fun n => set_n_idle_t (if 0 <? count - 1 then 0 else now) (set_n_NumConnections (count - 1) n)).

Lemma shut_down_run rand i c LogMsg FwdMsg conn w :
  net_ok (w_net w) -> n_conns (w_net w) !! i = Some conn -> closing conn = true -> cn_sock conn = Z.of_nat i ->
  wlp (shut_down rand (Z.of_nat i) c LogMsg FwdMsg) (fun _ w' =>
    net_ok (w_net w') /\ bounds (w_net w) (w_net w') /\
    forall j, closing_sock (w_net w') j = if decide (j = i) then None else closing_sock (w_net w) j) w.
Proof using Type*.
  intros Hok Hc Hcl Hs. unfold shut_down. apply wlp_bind, wlp_the_conn. intros c0 _ Hc'. rewrite Nat2Z.id, Hc in Hc'.
  injection Hc' as <-. apply (close_slot i); [done..|]. intros w1 Hok1 Hle1 Hst1.
  assert (step (w_net w1) (w_net w1)) as Hst by reflexivity. do 2 follow Hok1 Hst.
  apply wlp_bind, wlp_bind, wlp_get_tab, wlp_upd_conn. intros c1 _ Hc1. rewrite Nat2Z.id in *.
  apply wlp_bind, wlp_get_net, wlp_bind, wlp_assert. intros _. apply wlp_bind, wlp_get_tab, wlp_mod_net.
  assert (closing c1 = true) as Hcl1.
  { pose proof (st_closing _ _ Hst i) as He. rewrite Hst1 in He. unfold closing_sock in He. rewrite Hc1 in He.
    rewrite decide_True in He by done. by destruct (closing c1). }
  edestruct (free_closed i) as (Hok2 & Hle2 & Hst2); [exact Hok1|exact Hc1|exact Hcl1|reflexivity|].
  split_and!; [exact Hok2| |].
  - etransitivity; [exact Hle1|]. etransitivity; [apply (st_bounds _ _ Hst)|exact Hle2].
  - intros j. etransitivity; [apply (Hst2 j)|]. case_decide; [done|]. rewrite (st_closing _ _ Hst), Hst1. by rewrite decide_False.
Qed.

#[export] Instance Init_Conn_Struct_sound Idx : sound (Init_Conn_Struct Idx). Proof. sound_def. Qed.

#[export] Instance Close_keeps rand Idx LogMsg FwdMsg InformClient : keeps (Close rand Idx LogMsg FwdMsg InformClient).
Proof.
  split; [|intros _; sound_def]. intros w Hw. unfold Close. apply wlp_bind, wlp_assert. intros _. apply wlp_bind, wlp_the_conn. intros c Hidx Hc.
  set (i := Z.to_nat Idx) in *. assert (Idx = Z.of_nat i) as Ei by (unfold i; lia).
  destruct (Conn_OPTION_ISSET c CONN_ISCLOSING) eqn:Hcl; [done|].
  apply wlp_bind, wlp_assert. intros Hopen. apply wlp_bind, wlp_upd_conn. fold i. intros c' _ Hc'.
  rewrite Hc in Hc'. injection Hc' as <-. pose proof (lookup_lt_Some _ _ _ Hc) as Hlt.
  destruct (mark_closing i w c _ Hw Hc ltac:(by apply Z.ltb_lt) eq_refl) as (Hw0 & Hcl0 & Hs0).
  set (r' := set_cn_options _ c) in *. set (w0 := set_w_net _ w) in *.
  assert (n_conns (w_net w0) !! i = Some r') as Hi0 by (by apply list_lookup_insert_eq).
  assert (step (w_net w0) (w_net w0)) as Hst by reflexivity. do 5 follow Hw0 Hst.
  destruct (step_closing _ _ _ _ Hst Hi0 Hcl0) as (c5 & Hc5 & Hcl5 & Hs5).
  rewrite Ei. eapply wlp_mono; [apply (shut_down_run _ _ _ _ _ c5); [exact Hw0|exact Hc5|exact Hcl5|by rewrite Hs5]|].
  intros u w' (Hok & Hle & Hend). split; [done|]. split.
  - etransitivity; [|exact Hle]. destruct (st_bounds _ _ Hst) as [? ? Hb]. split; [done..|].
    intros j d Hd Hds. destruct (Hb j d Hd Hds) as (e & He & Hes & Ha). unfold w0 in He. cbn in He.
    apply list_lookup_insert_Some in He as [(-> & <- & _)|[_ He]]; [by exists c|by exists e].
  - intros j. rewrite Hend, (st_closing _ _ Hst). unfold w0. cbn [w_net set_w_net]. rewrite closing_sock_insert by done.
    case_decide as Hj; [|done]. subst j. unfold closing_sock. rewrite Hc. unfold closing. by rewrite Hcl.
Qed.

End Closing.

(** ** The implementation of the interface *)

#[export] Instance conn_io_keeps `{Conf} rand n : ConnIOKeeps (conn_io rand n).
Proof.
  induction n as [|n IH]; split; intros; cbn; try by apply keeps_crash.
  - apply WriteStr_keeps.
  - apply Close_keeps.
  - apply UpdateCloakedHostname_keeps.
Qed.
