(* ===== verification/FrameHandlers.v ===== *)
(** * What every operation keeps: the handlers

    [keeps] for the handlers of commands, the parser and the reader.  A
    handler is followed statement by statement, so the lemmas need no more than
    the names of the operations. *)

From S2P Require Import Prelude CString Match Hash Checks Lists Messages Ipaddr Io IoSpec World ClientCore.
From S2P Require Import ConnFunc ConnSpec ChannelCore State IrcWrite Channel Client Class Conn Servers Parse Reader.
From S2P Require Import Irc IrcOp IrcInfo IrcChannel IrcMode Predef Login IrcLogin IrcOper IrcServer Commands.
From S2P Require Import FrameTables Frame FrameState FrameConn.

#[local] Hint Constants Opaque : typeclass_instances.
#[local] Hint Transparent ptr whois_state : typeclass_instances.

(** The list of a class is replaced by one that is made from it. *)
Ltac with_class := keep_tables; head_sound; apply sound_with_class; let h := fresh "h" in let Hh := fresh "Hh" in intros h Hh.

Section Tables.
Context `{Conf} `{IO : ConnIO} `{!ConnIOKeeps IO}.

(** *** class.c *)

#[export] Instance Class_Init_keeps : keeps Class_Init.
Proof.
  apply keeps_mod_tab, (sound_all_classes (fun _ => _)); [done|]. by intros _ h [-> _]%elem_of_replicate.
Qed.
#[export] Instance Class_Exit_keeps : keeps Class_Exit.
Proof.
  apply keeps_mod_tab, sound_all_classes; intros l; [by rewrite length_map|]. by intros h (x & -> & _)%list_elem_of_fmap.
Qed.
#[export] Instance Class_GetList_keeps Class_ : keeps (Class_GetList Class_). Proof. keep_def. Qed.
#[export] Instance set_class_runs Class_ h : runs (set_class Class_ h). Proof. keep_def. Qed.
#[export] Instance set_class_keeps Class_ h : rule (set_class Class_ h) (lists_wf h = true).
Proof. intros Hh. by apply keeps_mod_tab, sound_set_class. Qed.

#[export] Instance Class_GetMemberReason_keeps Class_ Client len : keeps (Class_GetMemberReason Class_ Client len).
Proof.
  with_class. apply sound_bind; [apply _|]. intros _. destruct h as [|e h]; [apply _|].
  apply sound_bind; [apply _|]. intros masks. pose proof (Lists_CheckReason_sublist masks.1 masks.2 (e :: h) "listed" COMMAND_LEN) as Hs.
  destruct (Lists_CheckReason _ _ _ _ _) as [[r str] h']. apply sound_bind; [|sound_all].
  apply sound_set_class, (lists_wf_sublist _ _ Hs Hh).
Qed.
#[export] Instance Class_HandleServerBans_keeps Client : keeps (Class_HandleServerBans Client). Proof. keep_def. Qed.
#[export] Instance Class_AddMask_keeps Class_ Pattern ValidUntil Reason : keeps (Class_AddMask Class_ Pattern ValidUntil Reason).
Proof.
  with_class. pose proof (lists_wf_Add h (Lists_MakeMask Pattern MASK_LEN) ValidUntil (Some Reason) false Hh (fits_MakeMask _)).
  destruct (Lists_Add _ _ _ _ _ _ _) as [r h']. apply sound_bind; [by apply sound_set_class|sound_all].
Qed.
#[export] Instance Class_DeleteMask_keeps Class_ Pattern : keeps (Class_DeleteMask Class_ Pattern).
Proof. with_class. by apply sound_set_class, lists_wf_Del. Qed.
#[export] Instance log_all_keeps l : keeps (log_all l). Proof. keep_fix l. Qed.
#[export] Instance expire_class_keeps Class_ ListName : keeps (expire_class Class_ ListName).
Proof.
  with_class. apply sound_bind; [apply _|]. intros now. pose proof (Lists_Expire_sublist now ListName h) as Hs.
  destruct (Lists_Expire now ListName h) as [log h']. apply sound_bind; [|sound_all].
  apply sound_set_class, (lists_wf_sublist _ _ Hs Hh).
Qed.
#[export] Instance Class_Expire_keeps : keeps Class_Expire. Proof. keep_def. Qed.

(** *** conf.c: servers *)

#[export] Instance with_server_keeps test k : rule (with_server test k) (forall i s, keeps (k i s)).
Proof. intros ?. keep_def. Qed.
#[export] Instance put_server_keeps i s : keeps (put_server i s). Proof. keep_def. Qed.
#[export] Instance the_server_keeps i : keeps (the_server i). Proof. keep_def. Qed.
#[export] Instance Conf_SetServer_keeps ConfServer Idx : keeps (Conf_SetServer ConfServer Idx). Proof. keep_def. Qed.
#[export] Instance Conf_EnableServer_keeps Name Port : keeps (Conf_EnableServer Name Port). Proof. keep_def. Qed.
#[export] Instance Conf_EnablePassiveServer_keeps Name : keeps (Conf_EnablePassiveServer Name). Proof. keep_def. Qed.
#[export] Instance Conf_DisableServer_keeps Name : keeps (Conf_DisableServer Name). Proof. keep_def. Qed.
#[export] Instance Conf_AddServer_keeps Name Port Host MyPwd PeerPwd : keeps (Conf_AddServer Name Port Host MyPwd PeerPwd). Proof. keep_def. Qed.

End Tables.


(** ** The parser and the reader, whatever the table of commands *)

Section Reading.
Context `{Conf} `{IO : ConnIO} `{!ConnIOKeeps IO}.
Context {commands : string -> ptr -> REQUEST -> M bool} {Hcommands : forall name c r, keeps (commands name c r)}.
Context {numerics : Z -> ptr -> REQUEST -> M bool} {Hnumerics : forall num c r, keeps (numerics num c r)}.

(** *** parse.c *)

#[export] Instance Parse_GetCommandStruct_keeps : keeps Parse_GetCommandStruct. Proof. keep_def. Qed.
#[export] Instance check_origin_keeps Idx Req client ty prefix : keeps (check_origin Idx Req client ty prefix). Proof. keep_def. Qed.
#[export] Instance Validate_Prefix_keeps Idx Req : keeps (Validate_Prefix Idx Req). Proof. keep_def. Qed.
#[export] Instance Validate_Command_keeps Idx Req : keeps (Validate_Command Idx Req). Proof. keep_def. Qed.
#[export] Instance Validate_Args_keeps Idx Req : keeps (Validate_Args Idx Req). Proof. keep_def. Qed.
#[export] Instance Handle_Numeric_keeps client Req : keeps (Handle_Numeric numerics client Req). Proof. keep_def. Qed.
#[export] Instance run_command_keeps client client_type cmd Req : keeps (run_command commands client client_type cmd Req). Proof. keep_def. Qed.
#[export] Instance dispatch_keeps client client_type cmd Req : keeps (dispatch commands client client_type cmd Req). Proof. keep_def. Qed.
#[export] Instance Handle_Request_keeps Idx Req : keeps (Handle_Request commands numerics Idx Req). Proof. keep_def. Qed.
#[export] Instance Parse_Request_keeps Idx line : keeps (Parse_Request commands numerics Idx line). Proof. keep_def. Qed.

(** *** conn.c: reading *)

#[export] Instance Throttle_Connection_keeps Idx Client : keeps (Throttle_Connection Idx Client). Proof. keep_def. Qed.
#[export] Instance max_commands_keeps Idx c : keeps (max_commands Idx c). Proof. keep_def. Qed.
#[export] Instance consume_keeps Idx len : keeps (consume Idx len). Proof. keep_def. Qed.
#[export] Instance process_loop_keeps n : forall Idx starttime len_processed, keeps (process_loop commands numerics n Idx starttime len_processed). Proof. keep_fix n. Qed.
#[export] Instance Conn_Process_Buffer_keeps Idx : keeps (Conn_Process_Buffer commands numerics Idx). Proof. keep_def. Qed.
#[export] Instance Handle_Buffer_keeps Idx : keeps (Handle_Buffer commands numerics Idx). Proof. keep_def. Qed.
#[export] Instance Conn_Handle_Read_Request_keeps Idx r : keeps (Conn_Handle_Read_Request Idx r). Proof. keep_def. Qed.
#[export] Instance Conn_Update_Read_Accounting_keeps Idx c maxbps : keeps (Conn_Update_Read_Accounting Idx c maxbps). Proof. keep_def. Qed.
#[export] Instance Read_Request_keeps Idx r : keeps (Read_Request commands numerics Idx r). Proof. keep_def. Qed.
#[export] Instance Conn_Check_Connection_Timeout_keeps Idx c time_now : keeps (Conn_Check_Connection_Timeout Idx c time_now). Proof. keep_def. Qed.
#[export] Instance Conn_Check_Server_Timeout_keeps Idx time_now : keeps (Conn_Check_Server_Timeout Idx time_now). Proof. keep_def. Qed.
#[export] Instance Conn_Check_Connection_Status_keeps i time_now : keeps (Conn_Check_Connection_Status i time_now). Proof. keep_def. Qed.
#[export] Instance check_connections_loop_keeps fuel : forall i time_now, keeps (check_connections_loop fuel i time_now). Proof. keep_fix fuel. Qed.
#[export] Instance Check_Connections_keeps : keeps Check_Connections. Proof. keep_def. Qed.
#[export] Instance handle_buffers_loop_keeps fuel : forall i, keeps (handle_buffers_loop commands numerics fuel i). Proof. keep_fix fuel. Qed.
#[export] Instance Conn_Handle_Buffers_keeps : keeps (Conn_Handle_Buffers commands numerics). Proof. keep_def. Qed.
#[export] Instance Conn_Count_keeps : keeps Conn_Count. Proof. keep_def. Qed.
#[export] Instance Conn_CountMax_keeps : keeps Conn_CountMax. Proof. keep_def. Qed.
#[export] Instance Conn_CountAccepted_keeps : keeps Conn_CountAccepted. Proof. keep_def. Qed.
#[export] Instance sync_loop_keeps l : forall i, keeps (sync_loop i l). Proof. keep_fix l. Qed.
#[export] Instance Conn_SyncServerStruct_keeps : keeps Conn_SyncServerStruct. Proof. keep_def. Qed.

End Reading.

(** ** The handlers *)

Section Handlers.
Context `{Conf} `{IO : ConnIO} `{!ConnIOKeeps IO}.

(** *** irc.c *)

#[export] Instance arg_keeps Req i : keeps (arg Req i). Proof. keep_def. Qed.
#[export] Instance reply_error_keeps Client fmt args : keeps (reply_error Client fmt args). Proof. keep_def. Qed.
#[export] Instance get_sender_or_return_keeps Req Client k : rule (get_sender_or_return Req Client k) (forall c, keeps (k c)).
Proof. intros ?. keep_def. Qed.
#[export] Instance get_target_server_or_return_keeps Req Argc From k : rule (get_target_server_or_return Req Argc From k) (forall c, keeps (k c)).
Proof. intros ?. keep_def. Qed.
#[export] Instance Op_NoPrivileges_keeps Client Req : keeps (Op_NoPrivileges Client Req). Proof. keep_def. Qed.
#[export] Instance Op_Check_keeps Client Req : keeps (Op_Check Client Req). Proof. keep_def. Qed.
#[export] Instance IRC_CheckListTooBig_keeps From Count Limit Name : keeps (IRC_CheckListTooBig From Count Limit Name). Proof. keep_def. Qed.
#[export] Instance IRC_ERROR_keeps Client Req : keeps (IRC_ERROR Client Req). Proof. keep_def. Qed.
#[export] Instance IRC_KillClient_keeps Client From Nick Reason : keeps (IRC_KillClient Client From Nick Reason). Proof. keep_def. Qed.
#[export] Instance IRC_KILL_keeps Client Req : keeps (IRC_KILL Client Req). Proof. keep_def. Qed.
#[export] Instance trace_loop_keeps fuel : forall from c, keeps (trace_loop fuel from c). Proof. keep_fix fuel. Qed.
#[export] Instance IRC_TRACE_keeps Client Req : keeps (IRC_TRACE Client Req). Proof. keep_def. Qed.
#[export] Instance help_loop_keeps l : forall Client Topic in_article lines, keeps (help_loop Client Topic in_article lines l). Proof. keep_fix l. Qed.
#[export] Instance Help_keeps Client Topic : keeps (Help Client Topic). Proof. keep_def. Qed.
#[export] Instance help_commands_keeps l : forall Client, keeps (help_commands Client l). Proof. keep_fix l. Qed.
#[export] Instance IRC_HELP_keeps Client Req : keeps (IRC_HELP Client Req). Proof. keep_def. Qed.
#[export] Instance displayed_host_keeps cl : keeps (displayed_host cl). Proof. keep_def. Qed.
#[export] Instance matches_target_keeps t cl : keeps (matches_target t cl). Proof. keep_def. Qed.
#[export] Instance client_find_keeps fuel test : forall c, rule (client_find fuel test c) (forall c, keeps (test c)).
Proof. intros c ?. revert c. keep_fix fuel. Qed.
#[export] Instance find_target_keeps currentTarget : keeps (find_target currentTarget). Proof. keep_def. Qed.
#[export] Instance common_channel_keeps l : forall cl from, keeps (common_channel cl from l). Proof. keep_fix l. Qed.
#[export] Instance refuse_keeps SendErrors command error : rule (refuse SendErrors command error) (keeps error).
Proof. intros ?. keep_def. Qed.
#[export] Instance unprivileged_keeps from : keeps (unprivileged from). Proof. keep_def. Qed.
#[export] Instance send_to_user_keeps Client from cl ForceType SendErrors command currentTarget message : keeps (send_to_user Client from cl ForceType SendErrors command currentTarget message). Proof. keep_def. Qed.
#[export] Instance mask_loop_keeps fuel from command mask message name : forall cl,
  rule (mask_loop fuel from command mask message name cl) (forall c, keeps (name c)).
Proof. intros cl ?. revert cl. keep_fix fuel. Qed.
#[export] Instance Send_Message_Mask_keeps from command targetMask message SendErrors : keeps (Send_Message_Mask from command targetMask message SendErrors). Proof. keep_def. Qed.
#[export] Instance send_to_target_keeps Client from ForceType SendErrors message command currentTarget : keeps (send_to_target Client from ForceType SendErrors message command currentTarget). Proof. keep_def. Qed.
#[export] Instance send_loop_keeps targets : forall Client from ForceType SendErrors message seen command, keeps (send_loop Client from ForceType SendErrors message seen command targets). Proof. keep_fix targets. Qed.
#[export] Instance Send_Message_keeps Client Req ForceType SendErrors : keeps (Send_Message Client Req ForceType SendErrors). Proof. keep_def. Qed.
#[export] Instance IRC_NOTICE_keeps Client Req : keeps (IRC_NOTICE Client Req). Proof. keep_def. Qed.
#[export] Instance IRC_PRIVMSG_keeps Client Req : keeps (IRC_PRIVMSG Client Req). Proof. keep_def. Qed.
#[export] Instance IRC_SQUERY_keeps Client Req : keeps (IRC_SQUERY Client Req). Proof. keep_def. Qed.

(** *** irc-op.c *)

#[export] Instance try_kick_keeps peer from nick channel reason : keeps (try_kick peer from nick channel reason). Proof. keep_def. Qed.
#[export] Instance kick_loop_keeps l : forall peer from reason, keeps (kick_loop peer from reason l). Proof. keep_fix l. Qed.
#[export] Instance IRC_KICK_keeps Client Req : keeps (IRC_KICK Client Req). Proof. keep_def. Qed.
#[export] Instance invite_channel_keeps Client from target nick name : keeps (invite_channel Client from target nick name). Proof. keep_def. Qed.

(** The replies that the channel asks for. *)
Lemma invite_channel_replies Client from target nick name w reply w' :
  invite_channel Client from target nick name w = Done (inl reply) w' -> keeps reply.
Proof.
  unfold invite_channel. intros Hr.
  repeat first [apply bind_inv in Hr as (? & ? & _ & Hr) | case_match | injection Hr as <- _; keep | done].
Qed.

#[export] Instance IRC_INVITE_keeps Client Req : keeps (IRC_INVITE Client Req).
Proof.
  unfold_keeps. repeat lazymatch goal with |- keeps (mbind _ (invite_channel _ _ _ _ _)) => fail | _ => keep_step end.
  all: apply keeps_bind_yields with (P := fun r => match r with inl reply => keeps reply | inr _ => True end);
    [keep|intros; by case_match; [eapply invite_channel_replies|]|intros [reply|]; keep].
Qed.


(** *** irc-info.c *)

#[export] Instance list_loop_keeps {S A} (body : S -> A -> M (flow S)) l : forall s, rule (list_loop body s l) (forall s a, keeps (body s a)).
Proof. intros s ?. revert s. keep_fix l. Qed.
#[export] Instance ptr_loop_keeps {S} next fuel (body : S -> ptr -> M (flow S)) : forall s c,
  rule (ptr_loop next fuel body s c) ((forall c, keeps (next c)) /\ forall s c, keeps (body s c)).
Proof. intros s c []. revert s c. keep_fix fuel. Qed.
#[export] Instance for_clients_keeps {S} (s : S) body : rule (for_clients s body) (forall s c, keeps (body s c)).
Proof. intros ?. keep_def. Qed.
#[export] Instance for_channels_keeps {S} (s : S) body : rule (for_channels s body) (forall s c, keeps (body s c)).
Proof. intros ?. keep_def. Qed.
#[export] Instance then__keeps {S} (m : M (S + bool)) k : rule (then_ m k) (keeps m /\ forall s, keeps (k s)).
Proof. intros []. keep_def. Qed.
#[export] Instance go_if_keeps {S} (s : S) m : rule (go_if s m) (keeps m).
Proof. intros ?. keep_def. Qed.
#[export] Instance channel_members_keeps Chan : keeps (channel_members Chan). Proof. keep_def. Qed.
#[export] Instance channels_of_keeps Client : keeps (channels_of Client). Proof. keep_def. Qed.
#[export] Instance reply_keeps Client about fmt args : keeps (reply Client about fmt args). Proof. keep_def. Qed.
#[export] Instance write_whoreply_keeps Client c channelname flags : keeps (write_whoreply Client c channelname flags). Proof. keep_def. Qed.
#[export] Instance who_flags_qualifier_keeps Client chan_user_modes str len : keeps (who_flags_qualifier Client chan_user_modes str len). Proof. keep_def. Qed.
#[export] Instance who_flags_keeps c : keeps (who_flags c). Proof. keep_def. Qed.
#[export] Instance IRC_WHO_Channel_keeps Client Chan OnlyOps : keeps (IRC_WHO_Channel Client Chan OnlyOps). Proof. keep_def. Qed.
#[export] Instance who_match_keeps Mask c : keeps (who_match Mask c). Proof. keep_def. Qed.
#[export] Instance on_channel_keeps l : forall c, keeps (on_channel c l). Proof. keep_fix l. Qed.
#[export] Instance who_visible_keeps Client c Mask : keeps (who_visible Client c Mask). Proof. keep_def. Qed.
#[export] Instance IRC_WHO_Mask_keeps Client Mask OnlyOps : keeps (IRC_WHO_Mask Client Mask OnlyOps). Proof. keep_def. Qed.
#[export] Instance IRC_WHO_keeps Client Req : keeps (IRC_WHO Client Req). Proof. keep_def. Qed.
#[export] Instance whois_channel_keeps Client from c str a : keeps (whois_channel Client from c str a). Proof. keep_def. Qed.
#[export] Instance send_rest_keeps Client str : keeps (send_rest Client str). Proof. keep_def. Qed.
#[export] Instance whois_channels_keeps Client from c : keeps (whois_channels Client from c). Proof. keep_def. Qed.
#[export] Instance whois_line_keeps from c cond fmt args : rule (whois_line from c cond fmt args) (keeps cond /\ keeps args).
Proof. intros []. keep_def. Qed.
#[export] Instance IRC_WHOIS_SendReply_keeps Client from c : keeps (IRC_WHOIS_SendReply Client from c). Proof. keep_def. Qed.
#[export] Instance whois_exact_keeps Client from query : keeps (whois_exact Client from query). Proof. keep_def. Qed.
#[export] Instance whois_wildcard_keeps Client from query match_count : keeps (whois_wildcard Client from query match_count). Proof. keep_def. Qed.
#[export] Instance whois_query_keeps Client from last_arg is_remote s query : keeps (whois_query Client from last_arg is_remote s query). Proof. keep_def. Qed.
#[export] Instance argc_le_or_return_keeps Client Req n k : rule (argc_le_or_return Client Req n k) (keeps k).
Proof. intros ?. keep_def. Qed.
#[export] Instance forward_or_keeps target from fmt args k : rule (forward_or target from fmt args k) (keeps args /\ keeps k).
Proof. intros []. keep_def. Qed.
#[export] Instance IRC_WHOIS_keeps Client Req : keeps (IRC_WHOIS Client Req). Proof. keep_def. Qed.
#[export] Instance WHOWAS_EntryWrite_keeps prefix entry : keeps (WHOWAS_EntryWrite prefix entry). Proof. keep_def. Qed.
#[export] Instance whowas_scan_keeps fuel : forall prefix nick max last i nc count, keeps (whowas_scan fuel prefix nick max last i nc count). Proof. keep_fix fuel. Qed.
#[export] Instance whowas_nick_keeps prefix max last s nick : keeps (whowas_nick prefix max last s nick). Proof. keep_def. Qed.
#[export] Instance IRC_WHOWAS_keeps Client Req : keeps (IRC_WHOWAS Client Req). Proof. keep_def. Qed.
#[export] Instance IRC_Send_NAMES_keeps Client Chan : keeps (IRC_Send_NAMES Client Chan). Proof. keep_def. Qed.
#[export] Instance names_outside_keeps from str c : keeps (names_outside from str c). Proof. keep_def. Qed.
#[export] Instance IRC_NAMES_keeps Client Req : keeps (IRC_NAMES Client Req). Proof. keep_def. Qed.
#[export] Instance IRC_ADMIN_keeps Client Req : keeps (IRC_ADMIN Client Req). Proof. keep_def. Qed.
#[export] Instance IRC_INFO_keeps Client Req : keeps (IRC_INFO Client Req). Proof. keep_def. Qed.
#[export] Instance IRC_Send_ISUPPORT_keeps Client : keeps (IRC_Send_ISUPPORT Client). Proof. keep_def. Qed.
#[export] Instance IRC_VERSION_keeps Client Req : keeps (IRC_VERSION Client Req). Proof. keep_def. Qed.
#[export] Instance IRC_TIME_keeps Client Req : keeps (IRC_TIME Client Req). Proof. keep_def. Qed.
#[export] Instance Show_MOTD_SSLInfo_keeps c : keeps (Show_MOTD_SSLInfo c). Proof. keep_def. Qed.
#[export] Instance IRC_Show_MOTD_keeps Client : keeps (IRC_Show_MOTD Client). Proof. keep_def. Qed.
#[export] Instance IRC_MOTD_keeps Client Req : keeps (IRC_MOTD Client Req). Proof. keep_def. Qed.
#[export] Instance IRC_Send_LUSERS_keeps Client : keeps (IRC_Send_LUSERS Client). Proof. keep_def. Qed.
#[export] Instance IRC_LUSERS_keeps Client Req : keeps (IRC_LUSERS Client Req). Proof. keep_def. Qed.
#[export] Instance IRC_LINKS_keeps Client Req : keeps (IRC_LINKS Client Req). Proof. keep_def. Qed.
#[export] Instance IRC_SERVLIST_keeps Client Req : keeps (IRC_SERVLIST Client Req). Proof. keep_def. Qed.
#[export] Instance stats_links_keeps fuel : forall Client from more_links time_now con, keeps (stats_links fuel Client from more_links time_now con). Proof. keep_fix fuel. Qed.
#[export] Instance stats_body_keeps Client from query : keeps (stats_body Client from query). Proof. keep_def. Qed.
#[export] Instance IRC_STATS_keeps Client Req : keeps (IRC_STATS Client Req). Proof. keep_def. Qed.
#[export] Instance IRC_ISON_keeps Client Req : keeps (IRC_ISON Client Req). Proof. keep_def. Qed.
#[export] Instance IRC_USERHOST_keeps Client Req : keeps (IRC_USERHOST Client Req). Proof. keep_def. Qed.
#[export] Instance IRC_SUMMON_keeps Client Req : keeps (IRC_SUMMON Client Req). Proof. keep_def. Qed.
#[export] Instance IRC_USERS_keeps Client Req : keeps (IRC_USERS Client Req). Proof. keep_def. Qed.

(** *** irc-channel.c *)

#[export] Instance part_all_loop_keeps fuel : forall client target, keeps (part_all_loop fuel client target). Proof. keep_fix fuel. Qed.
#[export] Instance part_from_all_channels_keeps client target : keeps (part_from_all_channels client target). Proof. keep_def. Qed.
#[export] Instance join_verdict_keeps read_lines Client chan key : keeps (join_verdict read_lines Client chan key). Proof. keep_def. Qed.
#[export] Instance join_allowed_keeps read_lines Client chan channame key : keeps (join_allowed read_lines Client chan channame key). Proof. keep_def. Qed.
#[export] Instance add_modes_keeps flags : forall chan target, keeps (add_modes chan target flags). Proof. keep_fix flags. Qed.
#[export] Instance join_set_channelmodes_keeps chan target flags : keeps (join_set_channelmodes chan target flags). Proof. keep_def. Qed.
#[export] Instance cb_join_forward_keeps Data To Prefix : keeps (cb_join_forward Data To Prefix). Proof. keep_def. Qed.
#[export] Instance join_forward_keeps Client target chan channame : keeps (join_forward Client target chan channame). Proof. keep_def. Qed.
#[export] Instance IRC_Send_Channel_Info_keeps Client Chan : keeps (IRC_Send_Channel_Info Client Chan). Proof. keep_def. Qed.
#[export] Instance join_local_keeps read_lines Client chan channame key flags : keeps (join_local read_lines Client chan channame key flags). Proof. keep_def. Qed.
#[export] Instance add_channel_modes_keeps modes : forall chan, keeps (add_channel_modes chan modes). Proof. keep_fix modes. Qed.
#[export] Instance init_channel_keeps chan : keeps (init_channel chan). Proof. keep_def. Qed.
#[export] Instance join_now_keeps Client target chan channame flags : keeps (join_now Client target chan channame flags). Proof. keep_def. Qed.
#[export] Instance join_channel_keeps read_lines Client target key name : keeps (join_channel read_lines Client target key name). Proof. keep_def. Qed.
#[export] Instance join_loop_keeps read_lines Client target keys channels : keeps (join_loop read_lines Client target keys channels). Proof. keep_def. Qed.
#[export] Instance IRC_JOIN_keeps read_lines Client Req : keeps (IRC_JOIN read_lines Client Req). Proof. keep_def. Qed.
#[export] Instance part_loop_keeps l : forall target Client reason, keeps (part_loop target Client reason l). Proof. keep_fix l. Qed.
#[export] Instance IRC_PART_keeps Client Req : keeps (IRC_PART Client Req). Proof. keep_def. Qed.
#[export] Instance show_topic_keeps Client from chan : keeps (show_topic Client from chan). Proof. keep_def. Qed.
#[export] Instance set_topic_keeps Client from chan name topic : keeps (set_topic Client from chan name topic). Proof. keep_def. Qed.
#[export] Instance IRC_TOPIC_keeps Client Req : keeps (IRC_TOPIC Client Req). Proof. keep_def. Qed.
#[export] Instance list_channel_keeps from pattern count chan : keeps (list_channel from pattern count chan). Proof. keep_def. Qed.
#[export] Instance list_pattern_keeps from count pattern : keeps (list_pattern from count pattern). Proof. keep_def. Qed.
#[export] Instance IRC_LIST_keeps Client Req : keeps (IRC_LIST Client Req). Proof. keep_def. Qed.
#[export] Instance chaninfo_modes_keeps Client from chan Req name modes : keeps (chaninfo_modes Client from chan Req name modes). Proof. keep_def. Qed.
#[export] Instance chaninfo_topic_keeps Client from chan name topic : keeps (chaninfo_topic Client from chan name topic). Proof. keep_def. Qed.
#[export] Instance IRC_CHANINFO_keeps Client Req : keeps (IRC_CHANINFO Client Req).
Proof.
  unfold_keeps. keep_search. all: apply keeps_search_create; cbn [is_null].
  all: try solve [keep|intros ?; sound_all].
  all: intros w b w'; apply create_sound; intros ?; sound_all.
Qed.

(** *** irc-mode.c *)

#[export] Instance request_rest_keeps Client : keeps (request_rest Client). Proof. keep_def. Qed.
#[export] Instance advance_keeps p : keeps (advance p). Proof. keep_def. Qed.
#[export] Instance Mode_Limit_Reached_keeps Client Count : keeps (Mode_Limit_Reached Client Count). Proof. keep_def. Qed.
#[export] Instance client_mode_char_keeps Client Origin Target set m : keeps (client_mode_char Client Origin Target set m). Proof. keep_def. Qed.
#[export] Instance client_mode_loop_keeps fuel : forall Client Origin Target Req mode_arg mode_ptr the_modes set hidden, keeps (client_mode_loop fuel Client Origin Target Req mode_arg mode_ptr the_modes set hidden). Proof. keep_fix fuel. Qed.
#[export] Instance announce_client_modes_keeps Client Origin Target the_modes ok hidden : keeps (announce_client_modes Client Origin Target the_modes ok hidden). Proof. keep_def. Qed.
#[export] Instance Client_Mode_keeps Client Req Origin Target : keeps (Client_Mode Client Req Origin Target). Proof. keep_def. Qed.
#[export] Instance mode_args_keeps modes : forall Channel the_args, keeps (mode_args Channel modes the_args). Proof. keep_fix modes. Qed.
#[export] Instance Channel_Mode_Answer_Request_keeps Origin Channel : keeps (Channel_Mode_Answer_Request Origin Channel). Proof. keep_def. Qed.
#[export] Instance Send_ListChange_keeps IsAdd ModeChar Prefix Client Channel Mask : keeps (Send_ListChange IsAdd ModeChar Prefix Client Channel Mask). Proof. keep_def. Qed.
#[export] Instance Add_To_List_keeps what Prefix Client Channel Pattern : keeps (Add_To_List what Prefix Client Channel Pattern). Proof. keep_def. Qed.
#[export] Instance list_of_field what : list_field (list_of what).1 (list_of what).2.
Proof. unfold list_of. repeat case_match; cbn [fst snd]; apply _. Qed.

#[export] Instance Del_From_List_keeps what Prefix Client Channel Pattern : keeps (Del_From_List what Prefix Client Channel Pattern).
Proof.
  keep_def. apply keeps_upd_channel. intros x Hx. apply list_field_shorter; [done|apply Lists_Del_sublist].
Qed.
#[export] Instance member_priv_keeps Channel Client p : keeps (member_priv Channel Client p). Proof. keep_def. Qed.
#[export] Instance change_keeps x argadd client arg_arg count : keeps (change x argadd client arg_arg count). Proof. keep_def. Qed.
#[export] Instance fail_with_keeps leave error arg_arg count : rule (fail_with leave error arg_arg count) (keeps error).
Proof. intros ?. keep_def. Qed.
#[export] Instance chan_error_keeps Origin Channel fmt : keeps (chan_error Origin Channel fmt). Proof. keep_def. Qed.
#[export] Instance need_chanop_keeps Origin Channel : keeps (need_chanop Origin Channel). Proof. keep_def. Qed.
#[export] Instance bad_argument_keeps p Origin Channel arg_arg log error count :
  rule (bad_argument p Origin Channel arg_arg log error count) (keeps error).
Proof. intros ?. keep_def. Qed.
#[export] Instance need_more_params_keeps Origin Req : keeps (need_more_params Origin Req). Proof. keep_def. Qed.
#[export] Instance invalid_param_keeps Origin Channel c : keeps (invalid_param Origin Channel c). Proof. keep_def. Qed.
#[export] Instance plain_mode_keeps Origin Channel p m arg_arg count : keeps (plain_mode Origin Channel p m arg_arg count). Proof. keep_def. Qed.
#[export] Instance mode_key_keeps Client Origin Channel Req p set m arg_arg count : keeps (mode_key Client Origin Channel Req p set m arg_arg count). Proof. keep_def. Qed.
#[export] Instance mode_limit_keeps Client Origin Channel Req p set m arg_arg count : keeps (mode_limit Client Origin Channel Req p set m arg_arg count). Proof. keep_def. Qed.
#[export] Instance mode_oper_keeps Origin Channel p set m arg_arg count : keeps (mode_oper Origin Channel p set m arg_arg count). Proof. keep_def. Qed.
#[export] Instance mode_member_keeps Origin Channel Req p m arg_arg count : keeps (mode_member Origin Channel Req p m arg_arg count). Proof. keep_def. Qed.
#[export] Instance mode_list_keeps Client Origin Channel Req p set m arg_arg count : keeps (mode_list Client Origin Channel Req p set m arg_arg count). Proof. keep_def. Qed.
#[export] Instance unknown_mode_keeps Client Origin Channel m arg_arg count : keeps (unknown_mode Client Origin Channel m arg_arg count). Proof. keep_def. Qed.
#[export] Instance channel_mode_char_keeps Client Origin Channel Req p set m arg_arg count : keeps (channel_mode_char Client Origin Channel Req p set m arg_arg count). Proof. keep_def. Qed.
#[export] Instance apply_mode_keeps Origin Channel s r : keeps (apply_mode Origin Channel s r). Proof. keep_def. Qed.
#[export] Instance channel_mode_loop_keeps fuel : forall Client Origin Channel behind Req skiponce mode_ptr arg_arg count p r, keeps (channel_mode_loop fuel Client Origin Channel behind Req skiponce mode_ptr arg_arg count p r). Proof. keep_fix fuel. Qed.
#[export] Instance announce_channel_modes_keeps Client Origin Channel connected r : keeps (announce_channel_modes Client Origin Channel connected r). Proof. keep_def. Qed.
#[export] Instance Channel_Mode_keeps Client behind Req Origin Channel : keeps (Channel_Mode Client behind Req Origin Channel). Proof. keep_def. Qed.
#[export] Instance IRC_MODE_keeps Client Req : keeps (IRC_MODE Client Req). Proof. keep_def. Qed.
#[export] Instance IRC_AWAY_keeps Client Req : keeps (IRC_AWAY Client Req). Proof. keep_def. Qed.

(** *** Predefined channels *)

#[export] Instance predef_mode_keeps new_chan conf_chan prefix line : keeps (predef_mode new_chan conf_chan prefix line). Proof. keep_def. Qed.
#[export] Instance predef_modes_keeps lines : forall new_chan conf_chan prefix, keeps (predef_modes new_chan conf_chan prefix lines). Proof. keep_fix lines. Qed.
#[export] Instance eval_modes_keeps new_chan p : keeps (eval_modes new_chan p). Proof. keep_def. Qed.
#[export] Instance init_predefined_keeps p : keeps (init_predefined p).
Proof.
  unfold_keeps. keep_search. all: apply keeps_search_create; cbn [is_null negb].
  all: try solve [keep|intros ?; sound_all].
  all: intros w b w'; apply create_sound; intros ?; sound_all.
Qed.
#[export] Instance init_all_predefined_keeps l : keeps (init_all_predefined l). Proof. keep_fix l. Qed.
#[export] Instance init_server_channel_keeps : keeps init_server_channel.
Proof.
  unfold_keeps. keep_search. all: apply keeps_search_create; cbn [is_null negb].
  all: try solve [keep|intros ?; sound_all].
  all: intros w b w'; apply create_sound; intros ?; sound_all.
Qed.
#[export] Instance Channel_InitPredefined_keeps l : keeps (Channel_InitPredefined l). Proof. keep_def. Qed.

(** *** login.c *)

#[export] Instance autojoin_loop_keeps l : forall read_lines Client, keeps (autojoin_loop read_lines Client l). Proof. keep_fix l. Qed.
#[export] Instance Login_Autojoin_keeps read_lines Client : keeps (Login_Autojoin read_lines Client). Proof. keep_def. Qed.
#[export] Instance set_default_modes_keeps Client : keeps (set_default_modes Client). Proof. keep_def. Qed.
#[export] Instance Login_User_PostAuth_keeps read_lines Client : keeps (Login_User_PostAuth read_lines Client). Proof. keep_def. Qed.
#[export] Instance Login_User_keeps read_lines Client : keeps (Login_User read_lines Client). Proof. keep_def. Qed.

(** *** irc-login.c *)

#[export] Instance argc_eq_or_return_keeps Client Req n k : rule (argc_eq_or_return Client Req n k) (keeps k).
Proof. intros ?. keep_def. Qed.
#[export] Instance require_prefix_or_return_keeps Client Req k : rule (require_prefix_or_return Client Req k) (forall p, keeps (k p)).
Proof. intros ?. keep_def. Qed.
#[export] Instance IRC_PASS_keeps Client Req : keeps (IRC_PASS Client Req). Proof. keep_def. Qed.
#[export] Instance Change_Nick_keeps Origin Target NewNick InformClient : keeps (Change_Nick Origin Target NewNick InformClient). Proof. keep_def. Qed.
#[export] Instance new_nick_keeps read_lines rand Client target nick : keeps (new_nick read_lines rand Client target nick). Proof. keep_def. Qed.
#[export] Instance change_nick_keeps Client target nick : keeps (change_nick Client target nick). Proof. keep_def. Qed.
#[export] Instance nick_user_or_change_keeps read_lines rand Client Req : keeps (nick_user_or_change read_lines rand Client Req). Proof. keep_def. Qed.
#[export] Instance nick_args_keeps Client Req : keeps (nick_args Client Req). Proof. keep_def. Qed.
#[export] Instance nick_introduce_keeps Client Req : keeps (nick_introduce Client Req). Proof. keep_def. Qed.
#[export] Instance IRC_NICK_keeps read_lines rand Client Req : keeps (IRC_NICK read_lines rand Client Req). Proof. keep_def. Qed.
#[export] Instance IRC_SVSNICK_keeps Client Req : keeps (IRC_SVSNICK Client Req). Proof. keep_def. Qed.
#[export] Instance user_new_keeps read_lines Client Req : keeps (user_new read_lines Client Req). Proof. keep_def. Qed.
#[export] Instance user_update_keeps Client Req : keeps (user_update Client Req). Proof. keep_def. Qed.
#[export] Instance IRC_USER_keeps read_lines Client Req : keeps (IRC_USER read_lines Client Req). Proof. keep_def. Qed.
#[export] Instance IRC_SERVICE_keeps Client Req : keeps (IRC_SERVICE Client Req). Proof. keep_def. Qed.
#[export] Instance IRC_WEBIRC_keeps Client Req : keeps (IRC_WEBIRC Client Req). Proof. keep_def. Qed.
#[export] Instance IRC_QUIT_keeps Client Req : keeps (IRC_QUIT Client Req). Proof. keep_def. Qed.
#[export] Instance IRC_QUIT_HTTP_keeps Client Req : keeps (IRC_QUIT_HTTP Client Req). Proof. keep_def. Qed.
#[export] Instance ping_answer_keeps Client Req text : keeps (ping_answer Client Req text). Proof. keep_def. Qed.
#[export] Instance IRC_PING_keeps Client Req : keeps (IRC_PING Client Req). Proof. keep_def. Qed.
#[export] Instance pong_here_keeps read_lines Client token : keeps (pong_here read_lines Client token). Proof. keep_def. Qed.
#[export] Instance IRC_PONG_keeps read_lines Client Req : keeps (IRC_PONG read_lines Client Req). Proof. keep_def. Qed.
#[export] Instance Set_CAP_Negotiation_keeps Client : keeps (Set_CAP_Negotiation Client). Proof. keep_def. Qed.
#[export] Instance Handle_CAP_LS_keeps Client : keeps (Handle_CAP_LS Client). Proof. keep_def. Qed.
#[export] Instance Handle_CAP_LIST_keeps Client : keeps (Handle_CAP_LIST Client). Proof. keep_def. Qed.
#[export] Instance Handle_CAP_REQ_keeps Client Arg : keeps (Handle_CAP_REQ Client Arg). Proof. keep_def. Qed.
#[export] Instance Handle_CAP_ACK_keeps Client Arg : keeps (Handle_CAP_ACK Client Arg). Proof. keep_def. Qed.
#[export] Instance Handle_CAP_CLEAR_keeps Client : keeps (Handle_CAP_CLEAR Client). Proof. keep_def. Qed.
#[export] Instance Handle_CAP_END_keeps read_lines Client : keeps (Handle_CAP_END read_lines Client). Proof. keep_def. Qed.
#[export] Instance IRC_CAP_keeps read_lines Client Req : keeps (IRC_CAP read_lines Client Req). Proof. keep_def. Qed.
#[export] Instance host_hidden_keeps target prefix cond : rule (host_hidden target prefix cond) (keeps cond).
Proof. intros ?. keep_def. Qed.
#[export] Instance IRC_METADATA_keeps Client Req : keeps (IRC_METADATA Client Req). Proof. keep_def. Qed.

(** *** irc-oper.c *)

#[export] Instance Signal_Handler_keeps Signal : keeps (Signal_Handler Signal). Proof. keep_def. Qed.
#[export] Instance Bad_OperPass_keeps Client errtoken errmsg : keeps (Bad_OperPass Client errtoken errmsg). Proof. keep_def. Qed.
#[export] Instance oper_mask_keeps Client op : keeps (oper_mask Client op). Proof. keep_def. Qed.
#[export] Instance IRC_OPER_keeps Client Req : keeps (IRC_OPER Client Req). Proof. keep_def. Qed.
#[export] Instance operator_only_keeps Client Req k : rule (operator_only Client Req k) (forall op, keeps (k op)).
Proof. intros ?. keep_def. Qed.
#[export] Instance die_loop_keeps fuel : forall text c, keeps (die_loop fuel text c). Proof. keep_fix fuel. Qed.
#[export] Instance IRC_DIE_keeps Client Req : keeps (IRC_DIE Client Req). Proof. keep_def. Qed.
#[export] Instance IRC_REHASH_keeps Client Req : keeps (IRC_REHASH Client Req). Proof. keep_def. Qed.
#[export] Instance IRC_RESTART_keeps Client Req : keeps (IRC_RESTART Client Req). Proof. keep_def. Qed.
#[export] Instance connect_server_keeps Req : keeps (connect_server Req). Proof. keep_def. Qed.
#[export] Instance connect_here_keeps Client from Req : keeps (connect_here Client from Req). Proof. keep_def. Qed.
#[export] Instance IRC_CONNECT_keeps Client Req : keeps (IRC_CONNECT Client Req). Proof. keep_def. Qed.
#[export] Instance IRC_DISCONNECT_keeps Client Req : keeps (IRC_DISCONNECT Client Req). Proof. keep_def. Qed.
#[export] Instance IRC_WALLOPS_keeps Client Req : keeps (IRC_WALLOPS Client Req). Proof. keep_def. Qed.
#[export] Instance class_check_keeps class c : keeps (class_check class c).
Proof.
  with_class. destruct h as [|e h]; [apply _|]. apply sound_bind; [apply _|]. intros masks.
  pose proof (Lists_Check_sublist masks.1 masks.2 (e :: h)) as Hs. destruct (Lists_Check _ _ _) as [r h'].
  apply sound_bind; [|sound_all]. apply sound_set_class, (lists_wf_sublist _ _ Hs Hh).
Qed.
#[export] Instance kill_matching_keeps fuel : forall Client class reason c, keeps (kill_matching fuel Client class reason c). Proof. keep_fix fuel. Qed.
#[export] Instance del_line_keeps Client from Req class class_c : keeps (del_line Client from Req class class_c). Proof. keep_def. Qed.
#[export] Instance add_line_keeps Client from Req class class_c : keeps (add_line Client from Req class class_c). Proof. keep_def. Qed.
#[export] Instance IRC_xLINE_keeps Client Req : keeps (IRC_xLINE Client Req). Proof. keep_def. Qed.

(** *** irc-server.c *)

#[export] Instance njoin_prefixes_keeps xop Chan cl : keeps (njoin_prefixes xop Chan cl). Proof. keep_def. Qed.
#[export] Instance announce_njoin_keeps xop Client Chan str a : keeps (announce_njoin xop Client Chan str a). Proof. keep_def. Qed.
#[export] Instance announce_modes_keeps modes : forall Client Chan cl, keeps (announce_modes Client Chan cl modes). Proof. keep_fix modes. Qed.
#[export] Instance announce_join_keeps Client Chan str a : keeps (announce_join Client Chan str a). Proof. keep_def. Qed.
#[export] Instance Announce_Channel_keeps Client Chan : keeps (Announce_Channel Client Chan). Proof. keep_def. Qed.
#[export] Instance Announce_Server_keeps Client Server : keeps (Announce_Server Client Server). Proof. keep_def. Qed.
#[export] Instance Send_List_keeps Head : forall Client Chan Type_, keeps (Send_List Client Chan Type_ Head). Proof. keep_fix Head. Qed.
#[export] Instance send_glines_keeps l : forall Client, keeps (send_glines Client l). Proof. keep_fix l. Qed.
#[export] Instance send_lists_keeps Client c : keeps (send_lists Client c). Proof. keep_def. Qed.
#[export] Instance Synchronize_Lists_keeps Client : keeps (Synchronize_Lists Client). Proof. keep_def. Qed.
#[export] Instance Send_CHANINFO_keeps Client Chan : keeps (Send_CHANINFO Client Chan). Proof. keep_def. Qed.
#[export] Instance max_hops_keeps : keeps max_hops. Proof. keep_def. Qed.
#[export] Instance announce_level_keeps Client i : keeps (announce_level Client i). Proof. keep_def. Qed.
#[export] Instance announce_client_keeps Client c : keeps (announce_client Client c). Proof. keep_def. Qed.
#[export] Instance announce_channel_keeps Client chan : keeps (announce_channel Client chan). Proof. keep_def. Qed.
#[export] Instance IRC_Num_ENDOFMOTD_keeps Client Req : keeps (IRC_Num_ENDOFMOTD Client Req). Proof. keep_def. Qed.
#[export] Instance isupport_loop_keeps l : forall Client, keeps (isupport_loop Client l). Proof. keep_fix l. Qed.
#[export] Instance IRC_Num_ISUPPORT_keeps Client Req : keeps (IRC_Num_ISUPPORT Client Req). Proof. keep_def. Qed.
#[export] Instance server_register_keeps Client Req name : keeps (server_register Client Req name). Proof. keep_def. Qed.
#[export] Instance server_introduce_keeps Client Req name : keeps (server_introduce Client Req name). Proof. keep_def. Qed.
#[export] Instance IRC_SERVER_keeps Client Req : keeps (IRC_SERVER Client Req). Proof. keep_def. Qed.
#[export] Instance add_prefix_modes_keeps l : forall chan c prefixes, keeps (add_prefix_modes chan c prefixes l). Proof. keep_fix l. Qed.
#[export] Instance njoin_nick_keeps Client channame nick_out item : keeps (njoin_nick Client channame nick_out item). Proof. keep_def. Qed.
#[export] Instance njoin_loop_keeps l : forall Client channame nick_out, keeps (njoin_loop Client channame nick_out l). Proof. keep_fix l. Qed.
#[export] Instance IRC_NJOIN_keeps Client Req : keeps (IRC_NJOIN Client Req). Proof. keep_def. Qed.
#[export] Instance squit_msg_keeps Client from con text : keeps (squit_msg Client from con text). Proof. keep_def. Qed.
#[export] Instance squit_remote_keeps from target name text msg : keeps (squit_remote from target name text msg). Proof. keep_def. Qed.
#[export] Instance squit_keeps Client from Req name text : keeps (squit Client from Req name text). Proof. keep_def. Qed.
#[export] Instance IRC_SQUIT_keeps Client Req : keeps (IRC_SQUIT Client Req). Proof. keep_def. Qed.

End Handlers.

(** ** The table of commands *)

Section Table.
Context `{Conf} `{IO : ConnIO} `{!ConnIOKeeps IO}.

#[export] Instance command_keeps read_lines rand name c r : keeps (Commands.command read_lines rand name c r).
Proof.
  unfold Commands.command. destruct (lfind _ _) as [f|] eqn:Hf; [|keep]. apply lfind_Some in Hf as [Hf _].
  assert (Forall (fun f => keeps (f.2 c r)) (My_Functions read_lines rand)) as Hall.
  { unfold My_Functions. repeat first [apply List.Forall_nil|apply List.Forall_cons]; cbn [snd]; keep. }
  by apply (proj1 (list.Forall_forall _ _) Hall).
Qed.

#[export] Instance numeric_keeps num c r : keeps (Commands.numeric num c r).
Proof. keep_def. Qed.

End Table.
