(* ===== verification/FrameRun.v ===== *)
(** * What every operation keeps: the event loop

    The operations that call the system, from the opening of sockets to the rounds
    of the loop, keep the invariant of the tables.  What they do to the network is
    dealt with in FrameCalm.v, FrameAccept.v and FrameLoop.v. *)

From S2P Require Import Prelude CString Match Hash Checks Lists Messages Ipaddr Io IoSpec World ClientCore.
From S2P Require Import ConnFunc ConnSpec ChannelCore State IrcWrite Channel Client Class Conn Servers Parse Reader System.
From S2P Require Import Login IrcLogin Commands Accept Link EventLoop FrameTables Frame FrameState FrameConn FrameHandlers.

#[local] Hint Constants Opaque : typeclass_instances.
#[local] Hint Transparent ptr : typeclass_instances.

(** The changes of the tables outside of the lists. *)
Ltac sound_tab := apply sound_others; intros; split_and!; reflexivity.
Ltac sound_fix x := induction x; intros; match goal with |- sound ?m => let f := head_of m in cbn [f] end; sound_all.

Section Run.
Context `{Conf} `{IO : ConnIO} `{!ConnIOKeeps IO} `{Sys : System}.

(** ** System calls *)

#[export] Instance syscall_sound {A} (f : nat -> A) : sound (syscall f).
Proof. by apply sound_same; intros w b w' [= <- <-]. Qed.
#[export] Instance new_fd_sound {A} fd_of (f : nat -> option A) : sound (new_fd fd_of f). Proof. sound_def. Qed.
#[export] Instance Init_Socket_sound Sock : sound (Init_Socket Sock). Proof. sound_def. Qed.
#[export] Instance Simple_Message_sound Sock Msg : sound (Simple_Message Sock Msg). Proof. sound_def. Qed.
#[export] Instance listen_loopback_sound l : sound (listen_loopback l). Proof. sound_def. Qed.
#[export] Instance make_loopback_socketpair_sound : sound make_loopback_socketpair. Proof. sound_def. Qed.
#[export] Instance Resolve_Addr_Ident_sound Addr cb : sound (Resolve_Addr_Ident Addr cb). Proof. sound_def. Qed.
#[export] Instance Resolve_Name_sound Host : sound (Resolve_Name Host). Proof. sound_def. Qed.
#[export] Instance Proc_Close_sound proc : sound (Proc_Close proc). Proof. sound_def. Qed.
#[export] Instance Proc_Read_sound proc buflen : sound (Proc_Read proc buflen). Proof. sound_def. Qed.

(** ** Accepting *)

#[export] Instance Conn_FromSocket_sound Sock : sound (Conn_FromSocket Sock). Proof. sound_def. Qed.
#[export] Instance Socket2Index_sound Sock : sound (Socket2Index Sock). Proof. sound_def. Qed.
#[export] Instance count_loop_sound a l : sound (count_loop a l). Proof. sound_fix l. Qed.
#[export] Instance Count_Connections_sound a : sound (Count_Connections a). Proof. sound_def. Qed.
#[export] Instance Conn_GetFromProc_sound fd : sound (Conn_GetFromProc fd). Proof. sound_def. Qed.
#[export] Instance Conn_StartLogin_sound Idx : sound (Conn_StartLogin Idx). Proof. sound_def. Qed.
#[export] Instance refuse_peer_sound sock Msg : sound (refuse_peer sock Msg). Proof. sound_def. Qed.
#[export] Instance Init_Conn_Struct_sound Idx : sound (Init_Conn_Struct Idx). Proof. sound_def. Qed.
#[export] Instance enter_connection_sound fd a s c : sound (enter_connection fd a s c). Proof. sound_def. Qed.
#[export] Instance Account_Connection_sound : sound Account_Connection. Proof. apply sound_mod_net. Qed.
#[export] Instance New_Connection_sound Sock : sound (New_Connection Sock). Proof. sound_def. Qed.
#[export] Instance cb_listen_sound sock irrelevant : sound (cb_listen sock irrelevant). Proof. sound_def. Qed.
#[export] Instance set_proc_sound i p : sound (set_proc i p). Proof. sound_def. Qed.
#[export] Instance resolved_host_sound i c buf : sound (resolved_host i c buf). Proof. sound_def. Qed.
#[export] Instance cb_Read_Resolver_Result_sound fd events : sound (cb_Read_Resolver_Result fd events).
Proof. sound_def. Qed.

(** ** Listening *)

#[export] Instance NewListener_sound a p : sound (NewListener a p). Proof. sound_def. Qed.
#[export] Instance Init_Listeners_sound l : forall a cb, sound (Init_Listeners l a cb). Proof. sound_fix l. Qed.
#[export] Instance sd_listeners_sound n : forall fd, sound (sd_listeners n fd). Proof. sound_fix n. Qed.
#[export] Instance listen_on_sound l : sound (listen_on l). Proof. sound_fix l. Qed.
#[export] Instance Conn_InitListeners_sound : sound Conn_InitListeners. Proof. sound_def. Qed.
#[export] Instance close_listeners_sound l : sound (close_listeners l). Proof. sound_fix l. Qed.
#[export] Instance Conn_ExitListeners_sound : sound Conn_ExitListeners. Proof. sound_def. Qed.
#[export] Instance Conn_Init_sound : sound Conn_Init. Proof. sound_def. Qed.
#[export] Instance exit_loop_sound n : forall idx, sound (exit_loop n idx). Proof. sound_fix n. Qed.
#[export] Instance Conn_Exit_sound : sound Conn_Exit. Proof. sound_def. Qed.

(** ** Outgoing links *)

#[export] Instance upd_server_keeps i f : keeps (upd_server i f). Proof. keep_def. Qed.
#[export] Instance abandon_link_keeps i : keeps (abandon_link i). Proof. keep_def. Qed.
#[export] Instance enter_server_sound i fd a : sound (enter_server i fd a). Proof. sound_def. Qed.
#[export] Instance New_Server_sound i a : sound (New_Server i a). Proof. sound_def. Qed.
#[export] Instance cb_Connect_to_Server_sound fd events : sound (cb_Connect_to_Server fd events). Proof. sound_def. Qed.
#[export] Instance server_login_sound idx : sound (server_login idx). Proof. sound_def. Qed.
#[export] Instance cb_connserver_sound sock what : sound (cb_connserver sock what). Proof. sound_def. Qed.
#[export] Instance Conn_Maybe_Start_Server_Link_sound i t : sound (Conn_Maybe_Start_Server_Link i t). Proof. sound_def. Qed.
#[export] Instance check_servers_loop_sound n : forall i t, sound (check_servers_loop n i t). Proof. sound_fix n. Qed.
#[export] Instance Check_Servers_sound : sound Check_Servers. Proof. sound_def. Qed.

(** ** The loop *)

Lemma dispatch_loop_sound run n : (forall cb fd what, sound (run cb fd what)) ->
  forall i ready readers writers, sound (dispatch_loop run n i ready readers writers).
Proof.
  intros Hrun. induction n as [|n IH]; intros; cbn [dispatch_loop]; unfold io_docallback; sound_all.
Qed.

Lemma io_dispatch_select_sound run tv : (forall cb fd what, sound (run cb fd what)) -> sound (io_dispatch_select run tv).
Proof.
  intros Hrun. pose proof (fun n => dispatch_loop_sound run n Hrun). unfold io_dispatch_select.
  assert (forall t, sound (mod_tab (set_t_now t))) by (intros t; sound_tab). sound_all.
Qed.

Context (read_lines : string -> option (list string)) (rand : Z).

#[export] Instance cb_clientserver_sound sock what : sound (cb_clientserver read_lines rand sock what).
Proof. sound_def. Qed.
#[export] Instance run_callback_sound cb fd what : sound (run_callback read_lines rand cb fd what).
Proof. destruct cb; cbn [run_callback]; apply _. Qed.
#[export] Instance write_interest_loop_sound l : sound (write_interest_loop l). Proof. sound_fix l. Qed.
#[export] Instance Conn_Update_Write_Interest_sound : sound Conn_Update_Write_Interest. Proof. sound_def. Qed.
#[export] Instance read_interest_loop_sound t l : forall b, sound (read_interest_loop t l b). Proof. sound_fix l. Qed.
#[export] Instance Conn_Update_Read_Interest_sound t : sound (Conn_Update_Read_Interest t). Proof. sound_def. Qed.
#[export] Instance Conn_Wait_For_Activity_sound b : sound (Conn_Wait_For_Activity read_lines rand b).
Proof.
  apply sound_bind; [apply io_dispatch_select_sound; apply _|]. intros r. sound_all.
Qed.
#[export] Instance Conn_Check_IdleTimeout_keeps t : keeps (Conn_Check_IdleTimeout t). Proof. keep_def. Qed.
#[export] Instance one_round_sound : sound (one_round read_lines rand). Proof. sound_def. Qed.
#[export] Instance stopping_keeps : keeps stopping. Proof. keep_def. Qed.
#[export] Instance main_loop_sound rounds : sound (main_loop read_lines rand rounds). Proof. sound_fix rounds. Qed.
#[export] Instance Conn_Handler_sound rounds : sound (Conn_Handler read_lines rand rounds). Proof. sound_def. Qed.

End Run.
