(* ===== verification/FrameCalm.v ===== *)
(** * Calm states

    Between two events the server is calm: the invariant of [Frame] holds, no
    connection is being closed, and the limits on connections are respected.
    Operations that keep the invariant lead to calm states, and operations that
    leave the pool and the events alone do so at any time. *)

From S2P Require Import Prelude CString Match Hash Checks Lists Messages Ipaddr Io IoSpec World ClientCore.
From S2P Require Import ConnFunc ConnSpec ChannelCore State IrcWrite Channel Client Class Conn Servers Parse Reader System.
From S2P Require Import Login IrcLogin Commands Accept Link EventLoop FrameTables Frame FrameState FrameConn FrameHandlers.

(** ** Calm states *)

(** The open connections from an address. *)
Definition same_ip (a b : ng_ipaddr_t) : bool := from_opt false (ng_ipaddr_ipequal a b).
Definition comes_from (a : ng_ipaddr_t) (c : CONNECTION) : bool :=
  negb (cn_sock c <=? NONE) && same_ip (cn_addr c) a.
Definition from_ip (a : ng_ipaddr_t) (n : Net) : Z := Z.of_nat (length (List.filter (comes_from a) (n_conns n))).

Record calm `{Conf} (n : Net) : Prop := {
  ca_ok : net_ok n;
  ca_closing : forall i, closing_sock n i = None;
  ca_limit : 0 < Conf_MaxConnections -> n_NumConnections n <= Conf_MaxConnections;
  ca_limit_ip : 0 < Conf_MaxConnectionsIP -> forall a, from_ip a n <= Conf_MaxConnectionsIP }.

Definition follows `{Conf} (n n' : Net) : Prop :=
  calm n' /\ (length (io_events (n_io n)) <= length (io_events (n_io n')))%nat.

Lemma filter_fewer {A} (f : A -> bool) (l l' : list A) :
  (forall i c', l' !! i = Some c' -> f c' = true -> exists c, l !! i = Some c /\ f c = true) ->
  (length (List.filter f l') <= length (List.filter f l))%nat.
Proof.
  revert l. induction l' as [|d l' IH]; intros l Hl; [cbn; lia|].
  assert (length (List.filter f l') <= length (List.filter f (drop 1 l)))%nat as Htl.
  { apply IH. intros i c' Hi Hf. destruct (Hl (S i) c' Hi Hf) as (c & Hc & ?). exists c. by rewrite lookup_drop. }
  cbn. destruct (f d) eqn:Hd.
  - destruct (Hl 0%nat d eq_refl Hd) as (c & Hc & Hf). destruct l as [|e l]; [done|].
    change (Some e = Some c) in Hc. injection Hc as ->. cbn in *. rewrite Hf. rewrite drop_0 in Htl. cbn. lia.
  - etransitivity; [exact Htl|]. destruct l as [|e l]; [done|]. cbn. rewrite drop_0. destruct (f e); cbn; lia.
Qed.

Lemma from_ip_fewer a n n' : bounds n n' -> (forall i c, n_conns n !! i = Some c -> 0 <= cn_sock c \/ cn_sock c = NONE) ->
  from_ip a n' <= from_ip a n.
Proof.
  intros Hb Hs. apply inj_le, filter_fewer. intros i c' Hc' Hf. unfold comes_from in *.
  apply andb_true_iff in Hf as [Hf1 Hf2]. apply negb_true_iff, Z.leb_gt in Hf1. unfold NONE in *.
  destruct (bd_slots _ _ Hb i c' Hc') as (c & Hc & Hne & Ha); [unfold NONE; lia|]. exists c. split; [done|].
  rewrite Ha, Hf2, andb_true_r. apply negb_true_iff, Z.leb_gt. destruct (Hs i c Hc); unfold NONE in *; lia.
Qed.

Lemma watched_sock m n i c : watched m n -> n_conns n !! i = Some c -> 0 <= cn_sock c \/ cn_sock c = NONE.
Proof. intros Hm Hc. destruct (wa_sock _ _ Hm i c Hc) as [?|[-> _]]; [by right|left; lia]. Qed.

Section Calm.
Context `{Conf}.

Lemma calm_step n n' : calm n -> net_ok n' -> step n n' -> follows n n'.
Proof.
  intros [[m Hm] Hc Hl Hip] Hok [Hb Hcl]. split; [|apply Hb]. split; [done| | |].
  - intros i. by rewrite Hcl.
  - intros Hpos. specialize (Hl Hpos). pose proof (bd_count _ _ Hb). lia.
  - intros Hpos a. etransitivity; [|by apply (Hip Hpos a)]. apply from_ip_fewer; [done|].
    intros i c. by apply watched_sock with (m := m).
Qed.

#[export] Instance follows_trans : Transitive follows.
Proof. intros n1 n2 n3 [? ?] [? ?]. split; [done|lia]. Qed.

Lemma follows_refl n : calm n -> follows n n.
Proof. by split. Qed.

Class stable {A} (m : M A) : Prop :=
  stable_run : forall w, calm (w_net w) -> wlp m (fun _ w' => follows (w_net w) (w_net w')) w.

Lemma wlp_stable {A} (m : M A) Q w :
  stable m -> calm (w_net w) -> (forall a w', calm (w_net w') -> follows (w_net w) (w_net w') -> Q a w') -> wlp m Q w.
Proof.
  intros Hm Hw HQ. apply (wlp_mono _ _ _ _ (Hm w Hw)). intros a w' Hl. apply HQ; [apply Hl|done].
Qed.

Lemma keeps_stable {A} (m : M A) : keeps m -> stable m.
Proof.
  intros Hm w Hw. apply wlp_keeps; [done|apply Hw|]. intros a w' Hok Hs. by apply calm_step.
Qed.

Lemma stable_bind {A B} (m : M A) (k : A -> M B) : stable m -> (forall a, stable (k a)) -> stable (m ≫= k).
Proof.
  intros Hm Hk w Hw. apply wlp_bind, wlp_stable; [done..|]. intros a w1 Hw1 Hl1.
  apply wlp_stable; [done..|]. intros b w2 Hw2 Hl2. by transitivity (w_net w1).
Qed.

End Calm.

(** ** Operations that leave the pool and the events alone *)

Record unchanged (n n' : Net) : Prop := {
  un_io : n_io n' = n_io n;
  un_conns : n_conns n' = n_conns n;
  un_count : n_NumConnections n' = n_NumConnections n }.

#[export] Instance unchanged_refl : Reflexive unchanged.
Proof. by split. Qed.
#[export] Instance unchanged_trans : Transitive unchanged.
Proof. intros n1 n2 n3 [] []. split; congruence. Qed.

Class quiet {A} (m : M A) : Prop := quiet_run : forall w, wlp m (fun _ w' => unchanged (w_net w) (w_net w')) w.

Lemma wlp_quiet {A} (m : M A) Q w : quiet m -> (forall a w', unchanged (w_net w) (w_net w') -> Q a w') -> wlp m Q w.
Proof. intros Hm HQ. apply (wlp_mono _ _ _ _ (Hm w)). apply HQ. Qed.

Lemma quiet_bind {A B} (m : M A) (k : A -> M B) : quiet m -> (forall a, quiet (k a)) -> quiet (m ≫= k).
Proof.
  intros Hm Hk w. apply wlp_bind, wlp_quiet; [done|]. intros a w1 H1. apply wlp_quiet; [done|].
  intros b w2 H2. by transitivity (w_net w1).
Qed.

#[export] Instance quiet_ret {A} (a : A) : quiet (mret a).
Proof. by intros w. Qed.
Lemma quiet_crash {A} f : f <> NoEvent -> quiet (crash f : M A).
Proof. by intros Hf w. Qed.
#[export] Instance quiet_get_tab {A} (f : Tables -> A) : quiet (get_tab f).
Proof. by intros w. Qed.
#[export] Instance quiet_get_net {A} (f : Net -> A) : quiet (get_net f).
Proof. by intros w. Qed.
#[export] Instance quiet_mod_tab f : quiet (mod_tab f).
Proof. by intros w. Qed.
Lemma quiet_mod_net f : (forall n, unchanged n (f n)) -> quiet (mod_net f).
Proof. by intros Hf w; apply Hf. Qed.
#[export] Instance quiet_malloc : quiet malloc.
Proof. by intros w. Qed.
Lemma quiet_load_client e p : e <> NoEvent -> quiet (load_client e p).
Proof. intros He w. unfold wlp. destruct p as [a|]; [|done]. cbn. by destruct (t_clients _ !! a). Qed.
#[export] Instance quiet_the_conn Idx : quiet (the_conn Idx).
Proof. intros w. by apply wlp_the_conn. Qed.
#[export] Instance quiet_asserting {A} (o : option A) : quiet (asserting o).
Proof. intros w. by destruct o. Qed.
#[export] Instance quiet_assert b : quiet (assert_ b).
Proof. intros w. by apply wlp_assert. Qed.
#[export] Instance quiet_syscall {A} (f : nat -> A) : quiet (syscall f).
Proof. by intros w. Qed.

Ltac quiet_step :=
  match goal with
  | |- forall _, _ => intro
  | |- quiet (mbind _ _) => apply quiet_bind
  | |- quiet (crash _) => by apply quiet_crash
  | |- quiet (load_client _ _) => by apply quiet_load_client
  | |- quiet (if ?b then _ else _) => destruct b
  | |- quiet (match ?x with _ => _ end) => destruct x
  | |- quiet (let _ := _ in _) => cbv zeta
  | |- quiet (mod_net _) => by apply quiet_mod_net
  | |- quiet _ => solve [typeclasses eauto]
  end.
Ltac quiet_all := repeat quiet_step.
Ltac unfold_quiet := match goal with |- quiet ?m => let f := head_of m in unfold f end.
Ltac quiet_def := intros; unfold_quiet; quiet_all.

Section Quiet.
Context `{Conf} `{System}.
#[local] Hint Constants Opaque : typeclass_instances.
#[local] Hint Transparent ptr : typeclass_instances.

#[export] Instance sys_close_quiet fd : quiet (sys_close fd). Proof. quiet_def. Qed.
#[export] Instance time_quiet : quiet time. Proof. quiet_def. Qed.
#[export] Instance new_fd_quiet {A} fd_of (f : nat -> option A) : quiet (new_fd fd_of f). Proof. quiet_def. Qed.
#[export] Instance Init_Socket_quiet Sock : quiet (Init_Socket Sock). Proof. quiet_def. Qed.
#[export] Instance Simple_Message_quiet Sock Msg : quiet (Simple_Message Sock Msg). Proof. quiet_def. Qed.
#[export] Instance listen_loopback_quiet s : quiet (listen_loopback s). Proof. quiet_def. Qed.
#[export] Instance make_loopback_socketpair_quiet : quiet make_loopback_socketpair. Proof. quiet_def. Qed.
#[export] Instance refuse_peer_quiet Sock Msg : quiet (refuse_peer Sock Msg). Proof. quiet_def. Qed.
#[export] Instance count_loop_quiet a l : quiet (count_loop a l). Proof. induction l; cbn [count_loop]; quiet_all. Qed.
#[export] Instance Count_Connections_quiet a : quiet (Count_Connections a). Proof. quiet_def. Qed.
#[export] Instance store_client_quiet p c : quiet (store_client p c). Proof. quiet_def. Qed.
#[export] Instance upd_client_quiet p f : quiet (upd_client p f). Proof. quiet_def. Qed.
#[export] Instance Client_ThisServer_quiet : quiet Client_ThisServer. Proof. quiet_def. Qed.
#[export] Instance Client_ID_quiet c : quiet (Client_ID c). Proof. quiet_def. Qed.
#[export] Instance Client_SetHostname_quiet c h : quiet (Client_SetHostname c h). Proof. quiet_def. Qed.
#[export] Instance New_Client_Struct_quiet : quiet New_Client_Struct. Proof. quiet_def. Qed.
#[export] Instance Client_HasMode_quiet c m : quiet (Client_HasMode c m). Proof. quiet_def. Qed.
#[export] Instance count_clients_quiet l : forall test, quiet (count_clients test l).
Proof. induction l; intros test; cbn [count_clients]; quiet_all. Qed.
#[export] Instance Count_quiet t : quiet (Count t). Proof. quiet_def. Qed.
#[export] Instance MyCount_quiet t : quiet (MyCount t). Proof. quiet_def. Qed.
#[export] Instance Client_UserCount_quiet : quiet Client_UserCount. Proof. quiet_def. Qed.
#[export] Instance Client_MyUserCount_quiet : quiet Client_MyUserCount. Proof. quiet_def. Qed.
#[export] Instance Adjust_Counters_quiet c : quiet (Adjust_Counters c). Proof. quiet_def. Qed.
#[export] Instance Client_NewLocal_quiet Idx : quiet (Client_NewLocal Idx None CLIENT_UNKNOWN false).
Proof. unfold Client_NewLocal, Init_New_Client. cbn [when_some]. change (CLIENT_UNKNOWN =? CLIENT_SERVER) with false. quiet_all. Qed.

End Quiet.

Lemma quiet_keeps {A} (m : M A) : quiet m -> sound m -> keeps m.
Proof.
  intros Hm Hs. apply runs_keeps; [|done]. split; [|done]. intros w [r Hr]. apply wlp_quiet; [done|]. intros a w' [H1 H2 H3]. split.
  - exists r. apply (watched_same r (w_net w)); [done|done|rewrite H2; apply same_slots_refl|done].
  - apply step_same; [done|rewrite H2; apply same_slots_refl|done].
Qed.

Lemma watched_unchanged m n n' : watched m n -> unchanged n n' -> watched m n'.
Proof.
  intros Hm [H1 H2 H3]. apply (watched_same m n); [done|done|rewrite H2; apply same_slots_refl|done].
Qed.

Lemma unchanged_step n n' : unchanged n n' -> step n n'.
Proof. intros [H1 H2 H3]. apply step_same; [done|rewrite H2; apply same_slots_refl|done]. Qed.

Lemma calm_unchanged `{Conf} n n' : calm n -> unchanged n n' -> follows n n'.
Proof.
  intros Hn Hu. destruct (ca_ok _ Hn) as [m Hm]. apply calm_step; [done| |by apply unchanged_step].
  exists m. by apply watched_unchanged with (n := n).
Qed.
