(* ===== verification/FrameAccept.v ===== *)
(** * Accepting connections in calm states

    A new connection gets a slot, an event and a resolver; the limits are
    checked before.  The callback of a listening socket and the callback of the
    resolver lead from calm states to calm states. *)

From S2P Require Import Prelude CString Match Hash Checks Lists Messages Ipaddr Io IoSpec World ClientCore.
From S2P Require Import ConnFunc ConnSpec ChannelCore State IrcWrite Channel Client Class Conn Servers Parse Reader System.
From S2P Require Import Login IrcLogin Commands Accept Link EventLoop FrameTables Frame FrameState FrameConn FrameHandlers FrameRun FrameCalm.

(** ** New descriptors *)

Definition fresh (fd : Z) (n : Net) : Prop := 0 < fd /\ forall m, io_abs (n_io n) m -> m !! fd = None.

Lemma fresh_same_io fd n n' : n_io n' = n_io n -> fresh fd n -> fresh fd n'.
Proof. unfold fresh. by intros ->. Qed.

Lemma fresh_fd_ok fd n : fresh_fd fd n = true -> fresh fd n.
Proof.
  unfold fresh_fd. intros [H1 H2]%andb_true_iff. apply Z.ltb_lt in H1. split; [done|]. intros m Hm.
  destruct (m !! fd) as [[cb what]|] eqn:Hfd; [|done]. exfalso. by rewrite (abs_get _ _ Hm _ _ _ Hfd) in H2.
Qed.

Lemma wlp_new_fd {A} fd_of (f : nat -> option A) Q w :
  (forall w', unchanged (w_net w) (w_net w') -> Q None w') ->
  (forall a w', unchanged (w_net w) (w_net w') -> fresh (fd_of a) (w_net w') -> Q (Some a) w') ->
  wlp (new_fd fd_of f) Q w.
Proof.
  intros HN HS. apply wlp_bind. unfold wlp, syscall. destruct (f _) as [a|]; [|by apply HN].
  apply wlp_bind, wlp_get_net. destruct (fresh_fd _ _) eqn:E; apply wlp_ret; [|by apply HN].
  apply HS; [done|by apply fresh_fd_ok].
Qed.

(** A new event; it fails if the descriptor is too large. *)
Lemma wlp_create fd what cb Q w :
  fresh fd (w_net w) -> some_events what -> outgoing cb = false -> net_ok (w_net w) ->
  Q false w ->
  (forall m io', watched m (w_net w) -> m !! fd = None -> watched (<[fd := (cb, what)]> m) (set_n_io io' (w_net w)) ->
     (length (io_events (n_io (w_net w))) <= length (io_events io'))%nat -> Q true (set_w_net (set_n_io io' (w_net w)) w)) ->
  wlp (io_op (io_event_create fd what cb)) Q w.
Proof.
  intros [Hpos Hf] Hwhat Hcb [m Hm] HN HS. specialize (Hf m (wa_abs _ _ Hm)). unfold wlp, io_op.
  destruct (decide (fd < FD_SETSIZE)) as [Hlt|Hge].
  - destruct (create_ok _ _ fd what cb (wa_abs _ _ Hm) Hf ltac:(lia) Hwhat) as (io' & E & Ha). rewrite E.
    apply (HS m io'); [done..| |].
    + eapply watched_io; [done..| |].
      * intros f cb' what' Hf'. rewrite lookup_insert_ne; [by eexists|congruence].
      * intros f cb' what' Hf'. apply lookup_insert_Some in Hf' as [[_ [= <- <-]]|[_ Hf']]; [done|].
        by apply (wa_link _ _ Hm f cb' what').
    + by eapply create_length.
  - unfold io_event_create. rewrite (proj2 (Z.ltb_ge _ _)) by lia. unfold io_fd_valid.
    rewrite (proj2 (Z.leb_le _ _)) by lia. cbn [negb]. rewrite (proj2 (Z.leb_le _ _)) by lia.
    by destruct w as [t []].
Qed.

(** ** The pool grows *)

Record grown (n n' : Net) : Prop := {
  gr_io : n_io n' = n_io n;
  gr_count : n_NumConnections n' = n_NumConnections n;
  gr_conns : exists k now, n_conns n' = n_conns n ++ replicate k (free_slot now) }.

Lemma grown_lookup n n' i c :
  grown n n' -> n_conns n' !! i = Some c -> n_conns n !! i = Some c \/ exists now, c = free_slot now.
Proof.
  intros [_ _ (k & now & ->)] [Hc|[_ Hc]]%lookup_app_Some; [by left|right].
  apply lookup_replicate in Hc as [-> _]. by exists now.
Qed.

Lemma grown_watched m n n' : watched m n -> grown n n' -> watched m n'.
Proof.
  intros [H1 H2 H3 H4 H5 H6] Hg.
  assert (forall i c, n_conns n' !! i = Some c -> cn_sock c <> NONE -> n_conns n !! i = Some c) as Hopen.
  { intros i c Hc Hs. by destruct (grown_lookup _ _ _ _ Hg Hc) as [?|[now ->]]. }
  split.
  - by rewrite (gr_io _ _ Hg).
  - intros i c Hc. destruct (decide (cn_sock c = NONE)); [by left|]. by apply H2, Hopen.
  - intros i c Hc Hs. by apply (H3 i), Hs; apply Hopen.
  - intros i j c d Hc Hd Hs Hs'. by apply H4; auto.
  - done.
  - rewrite (gr_count _ _ Hg), H6. destruct (gr_conns _ _ Hg) as (k & now & ->).
    rewrite List.filter_app, length_app. replace (List.filter busy (replicate k (free_slot now))) with (@nil CONNECTION);
      [cbn; lia|]. induction k; [done|]. by cbn.
Qed.

Lemma grown_step n n' : grown n n' -> step n n'.
Proof.
  intros Hg. split; [split|].
  - by rewrite (gr_io _ _ Hg).
  - by rewrite (gr_count _ _ Hg).
  - intros i c Hc Hs. destruct (grown_lookup _ _ _ _ Hg Hc) as [?|[now ->]]; [by exists c|done].
  - intros i. unfold closing_sock. destruct (n_conns n' !! i) as [c|] eqn:Hc.
    + destruct (grown_lookup _ _ _ _ Hg Hc) as [->|[now ->]]; [done|].
      destruct (n_conns n !! i) as [d|] eqn:Hd; [|done]. destruct (gr_conns _ _ Hg) as (k & now' & E).
      rewrite E, (lookup_app_l_Some _ _ _ _ Hd) in Hc. by injection Hc as ->.
    + destruct (n_conns n !! i) as [d|] eqn:Hd; [|done]. destruct (gr_conns _ _ Hg) as (k & now' & E).
      by rewrite E, (lookup_app_l_Some _ _ _ _ Hd) in Hc.
Qed.

Lemma wlp_Socket2Index Sock Q w :
  (forall w', grown (w_net w) (w_net w') -> 0 < Sock -> (Z.to_nat Sock < length (n_conns (w_net w')))%nat -> Q Sock w') ->
  wlp (Socket2Index Sock) Q w.
Proof.
  intros HQ. apply wlp_bind, wlp_assert. intros H0%Z.ltb_lt. apply wlp_bind, wlp_get_net.
  destruct (Z.ltb_spec Sock (Z.of_nat (length (n_conns (w_net w))))); apply HQ; [|done|lia| |done|].
  - split; [done..|]. exists 0%nat, 0. by rewrite app_nil_r.
  - split; [done..|]. by eexists _, _.
  - cbn. rewrite length_app, length_replicate. lia.
Qed.

(** ** A slot is filled *)

Record slot_is (i : nat) (c : CONNECTION) (n n' : Net) : Prop := {
  sl_io : n_io n' = n_io n;
  sl_count : n_NumConnections n' = n_NumConnections n;
  sl_conns : n_conns n' = <[i := c]> (n_conns n);
  sl_in : (i < length (n_conns n))%nat }.

Lemma wlp_fill fd c f (k : unit -> M unit) Q n w :
  slot_is (Z.to_nat fd) c n (w_net w) ->
  (forall w', slot_is (Z.to_nat fd) (f c) n (w_net w') -> wlp (k tt) Q w') ->
  wlp (upd_conn fd f ≫= k) Q w.
Proof.
  intros [H1 H2 H3 H4] HQ. apply wlp_bind, wlp_upd_conn. intros d _ Hd. rewrite H3, list_lookup_insert_eq in Hd by done.
  injection Hd as <-. apply HQ. split; cbn; [done..| |done]. by rewrite H3, list_insert_insert_eq.
Qed.

(** The first update finds the old slot. *)
Lemma slot_is_start i c n : n_conns n !! i = Some c -> slot_is i c n n.
Proof. intros Hc. split; [done..|by rewrite list_insert_id|by eapply lookup_lt_Some]. Qed.

Lemma slot_is_unchanged i c n n' n2 : slot_is i c n n' -> unchanged n' n2 -> slot_is i c n n2.
Proof. intros [H1 H2 H3 H4] [U1 U2 U3]. split; congruence. Qed.

(** The slot of a new connection. *)
Record new_slot (fd : Z) (addr : ng_ipaddr_t) (c : CONNECTION) : Prop := {
  ns_sock : cn_sock c = fd;
  ns_addr : cn_addr c = addr;
  ns_proc : cn_proc_stat c = Proc_InitStruct;
  ns_options : cn_options c = 0 }.

Section Enter.
Context `{Conf}.

Lemma wlp_enter_connection fd addr ip_str p (Q : unit -> World -> Prop) w :
  (Z.to_nat fd < length (n_conns (w_net w)))%nat ->
  (forall c w', slot_is (Z.to_nat fd) c (w_net w) (w_net w') -> new_slot fd addr c -> Q tt w') ->
  wlp (enter_connection fd addr ip_str p) Q w.
Proof.
  intros [c Hc]%lookup_lt_is_Some_2 HQ. pose proof (slot_is_start _ _ _ Hc) as H0. unfold enter_connection, Init_Conn_Struct.
  apply wlp_bind, wlp_bind, wlp_get_tab, wlp_upd_conn. intros d _ Hd. rewrite Hc in Hd. injection Hd as <-.
  assert (slot_is (Z.to_nat fd) (free_slot (t_now (w_tab w))) (w_net w)
    (set_n_conns (<[Z.to_nat fd := free_slot (t_now (w_tab w))]> (n_conns (w_net w))) (w_net w))) as H1.
  { split; [done..|]. by eapply lookup_lt_Some. }
  eapply wlp_fill; [exact H1|]. intros w2 H2. eapply wlp_fill; [exact H2|]. intros w3 H3.
  eapply wlp_fill; [exact H3|]. intros w4 H4. eapply wlp_fill; [exact H4|]. intros w5 H5.
  apply wlp_bind, wlp_the_conn. intros d _ _. apply wlp_quiet; [apply _|]. intros [] w6 H6.
  eapply HQ; [by eapply slot_is_unchanged|]. done.
Qed.

End Enter.

(** ** Connections from an address *)

Lemma same_ip_class a b c : same_ip a b = true -> same_ip c b = same_ip c a.
Proof. destruct a, b, c; cbn; try done; intros ->%Z.eqb_eq; done. Qed.

Lemma wlp_count_loop a l Q w :
  Q (Z.of_nat (length (List.filter (comes_from a) l))) w -> wlp (count_loop a l) Q w.
Proof.
  revert Q. induction l as [|c l IH]; intros Q HQ; [done|]. cbn [count_loop]. apply wlp_bind.
  unfold comes_from, same_ip in HQ. cbn [List.filter] in HQ. destruct (_ <=? _); cbn [negb andb] in HQ.
  - apply wlp_ret, wlp_bind, IH. exact HQ.
  - apply wlp_bind. destruct (ng_ipaddr_ipequal _ _) as [[]|]; [| |done]; cbn [from_opt] in HQ;
      apply wlp_ret, wlp_ret, wlp_bind, IH, wlp_ret; [|exact HQ].
    cbn [length] in HQ. by rewrite Nat2Z.inj_succ, <- Z.add_1_l in HQ.
Qed.

Lemma wlp_Count_Connections a Q w : Q (from_ip a (w_net w)) w -> wlp (Count_Connections a) Q w.
Proof. intros HQ. by apply wlp_bind, wlp_get_net, wlp_count_loop. Qed.

(** ** The new connection counts *)

(** The pool before and after. *)
Record entered (fd : Z) (addr : ng_ipaddr_t) (n n' : Net) : Prop := {
  en_io : n_io n' = n_io n;
  en_count : n_NumConnections n' = n_NumConnections n + 1;
  en_conns : exists c0 c, n_conns n !! Z.to_nat fd = Some c0 /\ n_conns n' = <[Z.to_nat fd := c]> (n_conns n) /\
    new_slot fd addr c }.

(** [Account_Connection] *)
Lemma account_entered fd addr c n n' :
  slot_is (Z.to_nat fd) c n n' -> new_slot fd addr c ->
  entered fd addr n
    (let count := n_NumConnections n' + 1 in
     let n' := set_n_idle_t 0 (set_n_NumConnections count n') in
     if n_NumConnectionsMax n' <? count then set_n_NumConnectionsMax count n' else n').
Proof.
  intros [H1 H2 H3 H4] Hc. destruct (lookup_lt_is_Some_2 _ _ H4) as [c0 Hc0]. cbv zeta.
  assert (forall n2, n_io n2 = n_io n' -> n_conns n2 = n_conns n' -> n_NumConnections n2 = n_NumConnections n' + 1 ->
    entered fd addr n n2) as Hany.
  { intros n2 E1 E2 E3. split; [congruence|congruence|]. exists c0, c. split_and!; [done|congruence|done]. }
  case_match; by apply Hany.
Qed.

Lemma entered_watched m n n' fd addr what :
  watched m n -> (forall i, closing_sock n i = None) -> 0 <= fd -> m !! fd = Some (CbClientServer, what) ->
  (forall c, n_conns n !! Z.to_nat fd = Some c -> cn_sock c = NONE) -> entered fd addr n n' ->
  watched m n'.
Proof.
  intros [H1 H2 H3 H4 H5 H6] Hcl Hfd Hreg Hfree [Hio Hcount (c0 & c & Hc0 & Hconns & [Hs Ha Hp Ho])].
  assert (pipe_of c = -1) as Hpipe by (unfold pipe_of; by rewrite Hp).
  assert (forall j d, n_conns n' !! j = Some d -> (j = Z.to_nat fd /\ d = c) \/ (j <> Z.to_nat fd /\ n_conns n !! j = Some d)) as Hcases.
  { intros j d Hd. rewrite Hconns in Hd. apply list_lookup_insert_Some in Hd as [(-> & -> & _)|[? ?]]; [by left|right; split; congruence]. }
  split.
  - by rewrite Hio.
  - intros j d Hd. destruct (Hcases j d Hd) as [[-> ->]|[_ Hj]]; [|by apply H2].
    right. rewrite Hs, Z2Nat.id by done. split; [done|]. by exists what.
  - intros j d Hd. destruct (Hcases j d Hd) as [[-> ->]|[_ Hj]]; [rewrite Hpipe; lia|by apply (H3 j)].
  - intros j k d e Hd He. destruct (Hcases j d Hd) as [[-> ->]|[_ Hj]]; [rewrite Hpipe; lia|].
    destruct (Hcases k e He) as [[-> ->]|[_ Hk]]; [rewrite Hpipe; intros; lia|by apply H4].
  - done.
  - rewrite Hcount, H6, Hconns, (filter_insert busy _ _ _ c Hc0). specialize (Hcl (Z.to_nat fd)).
    unfold closing_sock in Hcl. rewrite Hc0 in Hcl. unfold busy. rewrite (Hfree _ Hc0), Hs.
    destruct (closing c0); [done|]. rewrite (proj2 (Z.ltb_lt NONE fd)) by (unfold NONE; lia). cbn. lia.
Qed.

Lemma entered_calm `{Conf} m n n' fd addr what :
  watched m n -> calm n -> 0 <= fd -> m !! fd = Some (CbClientServer, what) ->
  (forall c, n_conns n !! Z.to_nat fd = Some c -> cn_sock c = NONE) -> entered fd addr n n' ->
  (0 < Conf_MaxConnections -> n_NumConnections n < Conf_MaxConnections) ->
  (0 < Conf_MaxConnectionsIP -> from_ip addr n < Conf_MaxConnectionsIP) -> calm n'.
Proof.
  intros Hm [_ Hcl Hl Hip] Hfd Hreg Hfree He Hmax Hmaxip.
  pose proof (entered_watched _ _ _ _ _ _ Hm Hcl Hfd Hreg Hfree He) as Hm'.
  destruct He as [Hio Hcount (c0 & c & Hc0 & Hconns & [Hs Ha Hp Ho])]. split.
  - by exists m.
  - intros i. unfold closing_sock. rewrite Hconns. destruct (decide (i = Z.to_nat fd)) as [->|Hne].
    + rewrite list_lookup_insert_eq by (by eapply lookup_lt_Some). unfold closing, Conn_OPTION_ISSET. by rewrite Ho.
    + rewrite list_lookup_insert_ne by done. apply Hcl.
  - intros Hpos. specialize (Hmax Hpos). lia.
  - intros Hpos a. specialize (Hmaxip Hpos). specialize (Hip Hpos a). unfold from_ip in *.
    rewrite Hconns, (filter_insert _ _ _ _ c Hc0). unfold comes_from at 2 3. rewrite (Hfree _ Hc0), Ha, Hs.
    change (NONE <=? NONE) with true. cbn [negb andb].
    destruct (same_ip addr a) eqn:E.
    + rewrite (proj2 (Z.leb_gt _ _)) by (unfold NONE; lia). cbn [negb andb].
      assert (List.filter (comes_from a) (n_conns n) = List.filter (comes_from addr) (n_conns n)) as ->.
      { apply List.filter_ext. intros d. unfold comes_from. by rewrite (same_ip_class _ _ _ E). }
      lia.
    + rewrite andb_false_r. cbn. lia.
Qed.

(** ** The resolver of a new connection *)

(** A watched pipe that no connection has. *)
Definition new_pipe (fd : Z) (n : Net) : Prop :=
  exists m what, watched m n /\ m !! fd = Some (CbReadResolverResult, what) /\
    forall i c, n_conns n !! i = Some c -> cn_sock c <> NONE -> 0 <= pipe_of c -> pipe_of c <> fd.

(** The first operations of a run, which leave the pool alone. *)
Ltac silent Hw Hf :=
  apply wlp_bind, wlp_quiet; [apply _|];
  let a := fresh "r" in let w := fresh "w" in let Hu := fresh "Hu" in let Hw' := fresh in let Hf' := fresh in
  intros a w Hu; pose proof (unchanged_trans _ _ _ Hw Hu) as Hw'; pose proof (fresh_same_io _ _ _ (un_io _ _ Hu) Hf) as Hf';
  clear Hw Hf Hu; rename Hw' into Hw; rename Hf' into Hf.

Lemma unchanged_ok n n' : net_ok n -> unchanged n n' -> net_ok n' /\ step n n'.
Proof.
  intros [m Hm] Hu. split; [|by apply unchanged_step]. exists m. by apply watched_unchanged with (n := n).
Qed.

Section Resolver.
Context `{Conf} `{IO : ConnIO} `{!ConnIOKeeps IO} `{System}.

Lemma wlp_make_loopback_socketpair Q w :
  (forall w', unchanged (w_net w) (w_net w') -> Q None w') ->
  (forall rd wr w', unchanged (w_net w) (w_net w') -> fresh rd (w_net w') -> Q (Some (rd, wr)) w') ->
  wlp make_loopback_socketpair Q w.
Proof using Type.
  intros HN HS. unfold make_loopback_socketpair.
  apply wlp_bind, wlp_new_fd; [done|]. intros l w1 H1 Hf. silent H1 Hf.
  destruct r; [|silent H1 Hf; by apply HN]. clear Hf.
  apply wlp_bind, wlp_new_fd.
  { intros w' H2. pose proof (unchanged_trans _ _ _ H1 H2) as H3. apply wlp_bind, wlp_quiet; [apply _|].
    intros _ w3 H4. apply HN. by transitivity (w_net w'). }
  intros c w2 H2 Hf. pose proof (unchanged_trans _ _ _ H1 H2) as Hu. silent Hu Hf. destruct r; cbn [negb].
  2: { silent Hu Hf. silent Hu Hf. by apply HN. }
  clear Hf. apply wlp_bind, wlp_new_fd.
  { intros w' H3. pose proof (unchanged_trans _ _ _ Hu H3) as H4. apply wlp_bind, wlp_quiet; [apply _|]. intros _ w4 H5.
    apply wlp_bind, wlp_quiet; [apply _|]. intros _ w5 H6. apply HN. transitivity (w_net w4); [|done]. by transitivity (w_net w'). }
  intros [rd addr] w4 H3 Hf. pose proof (unchanged_trans _ _ _ Hu H3) as H4. silent H4 Hf. by apply HS.
Qed.

Lemma wlp_Resolve_Addr_Ident Addr Q w :
  net_ok (w_net w) ->
  (forall w', net_ok (w_net w') -> step (w_net w) (w_net w') -> Q None w') ->
  (forall p w', step (w_net w) (w_net w') -> new_pipe (pr_pipe_fd p) (w_net w') -> Q (Some p) w') ->
  wlp (Resolve_Addr_Ident Addr CbReadResolverResult) Q w.
Proof using Type.
  intros Hok HN HS.
  assert (forall w', unchanged (w_net w) (w_net w') -> Q None w') as HU.
  { intros w' Hu. destruct (unchanged_ok _ _ Hok Hu). by apply HN. }
  unfold Resolve_Addr_Ident. apply wlp_bind, wlp_make_loopback_socketpair; [by intros w' ?; apply HU|].
  intros rd wr w1 Hu Hf. silent Hu Hf. destruct r; cbn [negb].
  2: { silent Hu Hf. silent Hu Hf. by apply HU. }
  silent Hu Hf. silent Hu Hf. destruct r0; cbn [negb].
  2: { silent Hu Hf. by apply HU. }
  destruct (unchanged_ok _ _ Hok Hu) as [Hok2 Hst2].
  apply wlp_bind, wlp_create; [done|by left|done|done| |].
  { silent Hu Hf. by apply HU. }
  intros m io' Hm Hfree Hm' Hlen. cbn [negb].
  apply wlp_bind. unfold asserting. destruct (ng_ipaddr_tostr_r _ _); [|done]. apply wlp_ret, HS.
  - transitivity (w_net w3); [done|]. split; [by apply bounds_io|done].
  - exists (<[rd := (CbReadResolverResult, IO_WANTREAD)]> m), IO_WANTREAD. split_and!; [done|by rewrite lookup_insert_eq|].
    intros i c Hc Hs Hp E. cbn in E. destruct (wa_pipe _ _ Hm i c Hc Hs Hp) as [what Hreg]. congruence.
Qed.

Lemma wlp_set_pipe Idx p w :
  new_pipe (pr_pipe_fd p) (w_net w) ->
  wlp (upd_conn Idx (set_cn_proc_stat p)) (fun _ w' => net_ok (w_net w') /\ step (w_net w) (w_net w')) w.
Proof using Type.
  intros (m & what & Hm & Hreg & Hfree). apply wlp_upd_conn. intros c _ Hc. cbn [w_net set_w_net].
  destruct Hm as [H1 H2 H3 H4 H5 H6]. pose proof (lookup_lt_Some _ _ _ Hc) as Hlt. split.
  - assert (forall j d, <[Z.to_nat Idx := set_cn_proc_stat p c]> (n_conns (w_net w)) !! j = Some d ->
      (j = Z.to_nat Idx /\ d = set_cn_proc_stat p c) \/ (j <> Z.to_nat Idx /\ n_conns (w_net w) !! j = Some d)) as Hcases.
    { intros j d Hd. apply list_lookup_insert_Some in Hd as [(-> & -> & _)|[? ?]]; [by left|right; split; congruence]. }
    exists m. split; cbn [set_n_conns n_conns n_io n_NumConnections]; try done.
    + intros j d Hd. destruct (Hcases j d Hd) as [[-> ->]|[_ Hj]]; [by apply (H2 _ c)|by apply H2].
    + intros j d Hd Hs Hp. destruct (Hcases j d Hd) as [[-> ->]|[_ Hj]]; [by exists what|by apply (H3 j)].
    + intros j k d e Hd He Hds Hes Hp Heq.
      destruct (Hcases j d Hd) as [[-> ->]|[_ Hj]], (Hcases k e He) as [[-> ->]|[_ Hk]]; [done| | |by apply (H4 j k d e)].
      * by destruct (Hfree k e Hk Hes); [rewrite <- Heq|].
      * by destruct (Hfree j d Hj Hds Hp).
    + rewrite H6. symmetry. etransitivity; [apply (filter_insert busy _ _ _ (set_cn_proc_stat p c) Hc)|].
      change (busy (set_cn_proc_stat p c)) with (busy c). destruct (busy c); lia.
  - split; [split; [done|done|]|].
    + intros j d Hd Hs. apply list_lookup_insert_Some in Hd as [(<- & <- & _)|[_ Hd]]; [by exists c|by exists d].
    + intros j. rewrite closing_sock_insert by done. case_decide; [|done]. subst j. unfold closing_sock. by rewrite Hc.
Qed.

#[export] Instance Conn_StartLogin_keeps Idx : keeps (Conn_StartLogin Idx).
Proof.
  unfold Conn_StartLogin. apply bind_keeps; [keep|]. intros _. apply bind_keeps; [keep|]. intros ok. case_match; [keep|].
  apply bind_keeps; [keep|]. intros c.
  split; [intros w Hw|intros _; sound_all]. apply wlp_bind, wlp_Resolve_Addr_Ident; [done|by intros w' ? ?; split|].
  intros p w' Hs Hp. eapply wlp_mono; [by apply wlp_set_pipe|]. intros [] w2 [? ?]. split; [done|]. by transitivity (w_net w').
Qed.

End Resolver.

(** ** New connections *)

(** A watched socket without a connection is closed. *)
Lemma watched_close m n fd what io' :
  watched m n -> m !! fd = Some (CbClientServer, what) ->
  (forall i c, n_conns n !! i = Some c -> cn_sock c <> NONE -> cn_sock c <> fd) ->
  io_abs io' (delete fd m) -> watched (delete fd m) (set_n_io io' n).
Proof.
  intros Hm Hreg Hno Ha. apply watched_delete; [done..|]. intros i c Hc Hs. split; [by apply (Hno i)|]. intros Hp.
  destruct (wa_pipe _ _ Hm i c Hc Hs) as [what' Hpipe].
  - rewrite Hp. by apply (abs_pos _ _ (wa_abs _ _ Hm) _ _ Hreg).
  - rewrite Hp, Hreg in Hpipe. by injection Hpipe.
Qed.

Lemma calm_close `{Conf} m n fd what io' l :
  watched m n -> m !! fd = Some (CbClientServer, what) -> calm n ->
  (forall i c, n_conns n !! i = Some c -> cn_sock c <> NONE -> cn_sock c <> fd) ->
  io_abs io' (delete fd m) -> length (io_events io') = length (io_events (n_io n)) ->
  follows n (set_n_sys l (set_n_io io' n)).
Proof.
  intros Hm Hreg Hn Hno Ha Hlen. apply calm_step; [done| |].
  - exists (delete fd m). by apply watched_sys, (watched_close _ _ _ what).
  - split; [|done]. destruct (bounds_io n io') as [? ? ?]; [by rewrite Hlen|]. by split.
Qed.

(** No open connection has a socket that is not watched. *)
Lemma unwatched_free m n fd : watched m n -> m !! fd = None -> 0 <= fd ->
  forall i c, n_conns n !! i = Some c -> cn_sock c <> NONE -> cn_sock c <> fd.
Proof.
  intros Hm Hfd H0 i c Hc Hs E. destruct (wa_sock _ _ Hm i c Hc) as [?|[E' [what Hw]]]; [done|].
  rewrite <- E', E, Hfd in Hw. done.
Qed.

Section New.
Context `{Conf} `{IO : ConnIO} `{!ConnIOKeeps IO} `{System}.

(** The rest of a run that starts in a calm state. *)
Lemma wlp_rest {A} (m : M A) n w :
  stable m -> follows n (w_net w) -> wlp m (fun _ w' => follows n (w_net w')) w.
Proof using Type.
  intros Hm Hl. apply wlp_stable; [done|apply Hl|]. intros a w' _ Hl'. by transitivity (w_net w).
Qed.

(** A connection within the limits gets a slot that was free. *)
Lemma wlp_admit fd addr ip_str n w :
  follows n (w_net w) -> fresh fd (w_net w) ->
  (0 < Conf_MaxConnections -> n_NumConnections (w_net w) < Conf_MaxConnections) ->
  (0 < Conf_MaxConnectionsIP -> from_ip addr (w_net w) < Conf_MaxConnectionsIP) ->
  wlp (idx ← Socket2Index fd;
       if idx <=? NONE then refuse_peer fd "ERROR: Internal error"
       else
         ok ← io_op (io_event_create fd IO_WANTREAD CbClientServer);
         if negb (ok : bool) then refuse_peer fd "ERROR :Internal error"
         else
           c ← Client_NewLocal fd None CLIENT_UNKNOWN false;
           if is_null c then Simple_Message fd "ERROR :Internal error";; close_event fd;; mret (-1)
           else
             enter_connection fd addr ip_str c;;
             _ ← asserting (ng_ipaddr_getport addr);
             Account_Connection;;
             Conn_StartLogin fd;;
             mret fd) (fun _ w' => follows n (w_net w')) w.
Proof using Type*.
  intros Hl Hf Hmax Hip. apply wlp_bind, wlp_Socket2Index. intros w1 Hg Hpos Hlt.
  rewrite (proj2 (Z.leb_gt _ _)) by (unfold NONE; lia).
  assert (follows n (w_net w1)) as Hl1.
  { transitivity (w_net w); [done|]. destruct (ca_ok _ (proj1 Hl)) as [m Hm]. apply calm_step; [apply Hl| |by apply grown_step].
    exists m. by apply grown_watched with (n := w_net w). }
  assert (from_ip addr (w_net w1) = from_ip addr (w_net w)) as Eip.
  { unfold from_ip. destruct (gr_conns _ _ Hg) as (k & now & ->). rewrite List.filter_app, length_app.
    replace (List.filter (comes_from addr) (replicate k (free_slot now))) with (@nil CONNECTION); [cbn; lia|].
    induction k; [done|]. by cbn. }
  pose proof (fresh_same_io _ _ _ (gr_io _ _ Hg) Hf) as Hf1.
  assert (forall w', unchanged (w_net w1) (w_net w') -> follows n (w_net w')) as HU.
  { intros w' Hu. transitivity (w_net w1); [done|]. apply calm_unchanged; [apply Hl1|done]. }
  apply wlp_bind, wlp_create; [done|by left|done|apply Hl1| |].
  { apply wlp_quiet; [apply _|]. intros a w' Hu. by apply HU. }
  intros m io' Hm Hfree Hm' Hlen. cbn [negb]. set (w2 := set_w_net _ w1).
  assert (follows n (w_net w2)) as Hl2.
  { transitivity (w_net w1); [done|]. apply calm_step; [apply Hl1|by eexists|]. split; [by apply bounds_io|done]. }
  apply wlp_bind, wlp_quiet; [apply _|]. intros c w3 Hu3.
  assert (follows n (w_net w3)) as Hl3 by (transitivity (w_net w2); [done|by apply calm_unchanged; [apply Hl2|]]).
  pose proof (watched_unchanged _ _ _ Hm' Hu3) as Hm3. destruct (is_null c) eqn:Hc.
  - apply wlp_bind, wlp_quiet; [apply _|]. intros _ w4 Hu4. pose proof (watched_unchanged _ _ _ Hm3 Hu4) as Hm4.
    apply wlp_bind, (wlp_close_event _ _ _ _ (wa_abs _ _ Hm4)); [by rewrite lookup_insert_eq|].
    intros io'' Ha Hlen''. apply wlp_ret. cbn [w_net set_w_net].
    assert (follows (w_net w3) (w_net w4)) as Hl4 by (by apply calm_unchanged; [apply Hl3|]).
    transitivity (w_net w3); [done|]. transitivity (w_net w4); [done|].
    eapply calm_close; [exact Hm4|by rewrite lookup_insert_eq|apply Hl4| |done|done].
    rewrite (un_conns _ _ Hu4), (un_conns _ _ Hu3). by apply (unwatched_free m (w_net w1)); [..|lia].
  - apply wlp_bind, wlp_enter_connection; [by rewrite (un_conns _ _ Hu3)|]. intros d w4 Hs4 Hd.
    apply wlp_bind, wlp_quiet; [apply _|]. intros _ w5 Hu5. pose proof (slot_is_unchanged _ _ _ _ _ Hs4 Hu5) as Hs5.
    apply wlp_bind, wlp_mod_net. set (w6 := set_w_net _ w5).
    assert (entered fd addr (w_net w3) (w_net w6)) as He by (by apply account_entered with (c := d)).
    assert (calm (w_net w6)) as Hc6.
    { apply (entered_calm _ _ _ _ _ IO_WANTREAD Hm3 (proj1 Hl3)) in He; [done|lia|by rewrite lookup_insert_eq| | |].
      - intros c0 Hc0. rewrite (un_conns _ _ Hu3) in Hc0. destruct (wa_sock _ _ Hm _ _ Hc0) as [?|[_ [what Hreg]]]; [done|].
        rewrite Z2Nat.id, Hfree in Hreg by lia. done.
      - rewrite (un_count _ _ Hu3). unfold w2. cbn. by rewrite (gr_count _ _ Hg).
      - unfold from_ip in *. rewrite (un_conns _ _ Hu3). unfold w2. cbn. by rewrite Eip. }
    assert (follows n (w_net w6)) as Hl6.
    { split; [done|]. rewrite (en_io _ _ _ _ He). apply Hl3. }
    apply wlp_rest; [|done]. apply stable_bind; [|intros []]; apply keeps_stable; keep.
Qed.

#[export] Instance New_Connection_stable Sock : stable (New_Connection Sock).
Proof.
  intros w Hw. unfold New_Connection. apply wlp_bind, wlp_assert. intros _.
  apply wlp_bind, wlp_new_fd.
  { intros w' Hu. apply wlp_rest; [apply keeps_stable; keep|by apply calm_unchanged]. }
  intros [fd addr] w1 Hu Hf. cbn [fst] in Hf.
  assert (quiet (mod_net (fun n => set_n_NumConnectionsAccepted (n_NumConnectionsAccepted n + 1) n))) as Hq.
  { by apply quiet_mod_net. }
  silent Hu Hf. silent Hu Hf. silent Hu Hf. destruct r1; cbn [negb]; [|by apply calm_unchanged].
  pose proof (calm_unchanged _ _ Hw Hu) as Hl.
  apply wlp_bind, wlp_get_net. destruct (_ && _) eqn:Emax.
  { apply wlp_rest; [apply keeps_stable, quiet_keeps; apply _|done]. }
  apply wlp_bind, wlp_Count_Connections. destruct ((0 <? Conf_MaxConnectionsIP) && _) eqn:Eip.
  { apply wlp_rest; [apply keeps_stable, quiet_keeps; apply _|done]. }
  apply wlp_admit; [done|done| |].
  - intros Hpos%Z.ltb_lt. rewrite Hpos in Emax. by apply Z.leb_gt.
  - intros Hpos%Z.ltb_lt. rewrite Hpos in Eip. by apply Z.leb_gt.
Qed.

#[export] Instance cb_listen_stable sock irrelevant : stable (cb_listen sock irrelevant).
Proof. apply stable_bind; [apply _|]. intros _. apply keeps_stable. keep. Qed.

End New.

(** ** The answer of the resolver *)

Section Answer.
Context `{Conf} `{IO : ConnIO} `{!ConnIOKeeps IO} `{System}.

Lemma resolved_host_keeps i c readbuf : keeps (resolved_host i c readbuf).
Proof using Type*. keep_def. Qed.

(** The slot that has a pipe, if there is one. *)
Lemma wlp_Conn_GetFromProc fd Q w :
  (0 < fd -> (forall i c, n_conns (w_net w) !! i = Some c -> cn_sock c <> NONE -> pipe_of c <> fd) -> Q NONE w) ->
  (forall i c, 0 < fd -> n_conns (w_net w) !! i = Some c -> cn_sock c <> NONE -> pipe_of c = fd -> Q (Z.of_nat i) w) ->
  wlp (Conn_GetFromProc fd) Q w.
Proof using Type.
  intros HN HS. apply wlp_bind, wlp_assert. intros Hfd%Z.ltb_lt. apply wlp_get_net.
  destruct (lfind _ _) as [[i c]|] eqn:E; cbn [fmap option_fmap option_map from_opt].
  - apply lfind_Some in E as [Hin [H1 H2]%andb_true_iff]. apply elem_of_lookup_imap in Hin as (j & d & [= <- <-] & Hj).
    apply (HS i c); [done|done|by apply Z.eqb_neq, negb_true_iff|by apply Z.eqb_eq].
  - apply HN; [done|]. intros i c Hc Hs Hp. apply (proj1 (lfind_None _ _)) with (x := (i, c)) in E.
    + cbn in E. unfold pipe_of in Hp. rewrite Hp, Z.eqb_refl, andb_true_r in E. by apply negb_false_iff, Z.eqb_eq in E.
    + apply elem_of_lookup_imap. by exists i, c.
Qed.

(** A pipe is forgotten. *)
Definition forget (c : CONNECTION) : CONNECTION := set_cn_proc_stat Proc_InitStruct c.

Lemma watched_forget m n i c :
  watched m n -> n_conns n !! i = Some c -> watched m (set_n_conns (<[i := forget c]> (n_conns n)) n).
Proof using Type.
  intros Hm Hi.
  assert (forall j e, <[i := forget c]> (n_conns n) !! j = Some e -> (j = i /\ e = forget c) \/ (j <> i /\ n_conns n !! j = Some e)) as Hcases.
  { intros j e He. apply list_lookup_insert_Some in He as [(-> & -> & _)|[? ?]]; [by left|right; split; congruence]. }
  destruct Hm as [H1 H2 H3 H4 H5 H6]. split; [done|..|done|].
  - intros j e He. destruct (Hcases j e He) as [[-> ->]|[_ Hj]]; [by apply (H2 i c)|by apply H2].
  - intros j e He. destruct (Hcases j e He) as [[-> ->]|[_ Hj]]; [by cbn|by apply (H3 j)].
  - intros j k e f He Hf. destruct (Hcases j e He) as [[-> ->]|[_ Hj]]; [by cbn|].
    destruct (Hcases k f Hf) as [[-> ->]|[_ Hk]]; [cbn; intros; lia|by apply H4].
  - transitivity (n_NumConnections n); [done|]. rewrite H6. symmetry.
    etransitivity; [apply (filter_insert busy _ _ _ (forget c) Hi)|]. change (busy (forget c)) with (busy c). destruct (busy c); lia.
Qed.

Lemma step_forget n i c :
  n_conns n !! i = Some c -> step n (set_n_conns (<[i := forget c]> (n_conns n)) n).
Proof using Type.
  intros Hi. split; [split; [done|done|]|].
  - intros j e He Hes. apply list_lookup_insert_Some in He as [(-> & <- & _)|[_ Hj]]; [by exists c|by exists e].
  - intros j. rewrite closing_sock_insert by (by eapply lookup_lt_Some). case_decide; [|done]. subst j.
    unfold closing_sock. by rewrite Hi.
Qed.

#[export] Instance forget_keeps i : keeps (set_proc i Proc_InitStruct).
Proof using Type.
  split; [|intros _; apply _]. intros w [m Hm]. apply wlp_upd_conn. intros c _ Hc. cbn [w_net set_w_net].
  split; [exists m; by apply watched_forget|by apply step_forget].
Qed.

(** The pipe of an open connection is closed and forgotten. *)
Lemma wlp_close_pipe i c Q w :
  net_ok (w_net w) -> n_conns (w_net w) !! i = Some c -> cn_sock c <> NONE -> 0 <= pipe_of c ->
  (forall w', net_ok (w_net w') -> step (w_net w) (w_net w') -> Q tt w') ->
  wlp (close_event (pipe_of c)) (fun _ => wlp (set_proc (Z.of_nat i) Proc_InitStruct) Q) w.
Proof using Type.
  intros [m Hm] Hi Hs Hp HQ. destruct (wa_pipe _ _ Hm i c Hi Hs Hp) as [what Hreg].
  apply (wlp_close_event _ m); [apply Hm|by eexists|]. intros io' Ha Hlen.
  apply wlp_upd_conn. rewrite Nat2Z.id. intros c' _ Hc'. cbn in Hc'. rewrite Hi in Hc'. injection Hc' as <-.
  pose proof (watched_forget _ _ _ _ Hm Hi) as Hn1. set (n1 := set_n_conns _ _) in Hn1.
  apply HQ; cbn [w_net set_w_net].
  - exists (delete (pipe_of c) m).
    apply (watched_sys _ (set_n_io io' n1)), (watched_delete m n1); [done|done|]. intros j e He Hes. split.
    + intros E. destruct (wa_sock _ _ Hn1 j e He) as [?|[E' [what' Hw]]]; [done|]. rewrite <- E', E, Hreg in Hw. done.
    + apply list_lookup_insert_Some in He as [(<- & <- & _)|[Hne Hj]]; [cbn; lia|]. intros E. apply Hne.
      by apply (wa_owner _ _ Hm i j c e Hi Hj Hs Hes).
  - transitivity (set_n_io io' (w_net w)); [split; [apply bounds_io; lia|done]|].
    destruct (step_forget (w_net w) i c Hi) as [[? ? ?] ?]. by split.
Qed.

(** What follows when the pipe has been read. *)
Definition use_answer (i : Z) (readbuf : string) : M unit :=
  if strlen readbuf =? 0 then mret tt
  else
    match index LF (before NUL readbuf) with
    | None => crash AssertFailed
    | Some pos =>
        let readbuf := str_take pos readbuf in
        conn ← the_conn i;
        assert_ (0 <=? cn_sock conn);;
        c ← Conn_GetClient i;
        assert_ (negb (is_null c));;
        ty ← Client_Type c;
        if ty =? CLIENT_UNKNOWN then
          resolved_host i c readbuf;;
          ok ← (if Conf_NoticeBeforeRegistration then Handle_Write i else mret true);
          if negb (ok : bool) then mret tt
          else _ ← Class_HandleServerBans c; mret tt
        else mret tt
    end.

#[export] Instance use_answer_keeps i readbuf : keeps (use_answer i readbuf).
Proof using Type*. pose proof resolved_host_keeps. keep_def. Qed.

(** The pipe is closed after the reading, or by it. *)
Lemma read_answer_keeps i c (k : string -> M unit) w :
  (forall s, keeps (k s)) -> net_ok (w_net w) -> n_conns (w_net w) !! i = Some c -> cn_sock c <> NONE -> 0 <= pipe_of c ->
  wlp (r ← Proc_Read (cn_proc_stat c) HOST_LEN;
       set_proc (Z.of_nat i) r.2;; p ← Proc_Close r.2; set_proc (Z.of_nat i) p;; k r.1)
    (fun _ w' => net_ok (w_net w') /\ step (w_net w) (w_net w')) w.
Proof using Type.
  intros Hk Hok Hi Hs Hp.
  assert (forall s w1, unchanged (w_net w) (w_net w1) ->
    wlp (set_proc (Z.of_nat i) (cn_proc_stat c);; p ← Proc_Close (cn_proc_stat c); set_proc (Z.of_nat i) p;; k s)
      (fun _ w' => net_ok (w_net w') /\ step (w_net w) (w_net w')) w1) as Hlater.
  { intros s w1 Hu. destruct (unchanged_ok _ _ Hok Hu) as [Hok1 Hst1].
    apply wlp_bind, wlp_upd_conn. rewrite Nat2Z.id. intros c' _ Hc'. rewrite (un_conns _ _ Hu), Hi in Hc'. injection Hc' as <-.
    replace (set_cn_proc_stat (cn_proc_stat c) c) with c by by destruct c.
    rewrite list_insert_id by (by rewrite (un_conns _ _ Hu)).
    replace (set_w_net _ w1) with w1 by by destruct w1 as [? []].
    unfold Proc_Close. change (pr_pipe_fd (cn_proc_stat c)) with (pipe_of c). rewrite (proj2 (Z.leb_le _ _) Hp).
    apply wlp_bind, wlp_bind. rewrite <- (un_conns _ _ Hu) in Hi.
    eapply wlp_mono; [apply (wlp_close_pipe i c (fun _ w' => net_ok (w_net w') /\ step (w_net w) (w_net w')));
      [done..|intros w2 Hok2 Hst2; split; [done|by transitivity (w_net w1)]]|].
    intros [] w2 Hw2. apply wlp_ret, wlp_bind. eapply wlp_mono; [exact Hw2|]. intros [] w3 [Hok3 Hst3].
    apply wlp_keeps; [apply Hk|done|]. intros a w4 Hok4 Hst4. split; [done|]. by transitivity (w_net w3). }
  assert (forall w1, unchanged (w_net w) (w_net w1) ->
    wlp (r ← (p ← Proc_Close (cn_proc_stat c); mret ("", p));
         set_proc (Z.of_nat i) r.2;; p ← Proc_Close r.2; set_proc (Z.of_nat i) p;; k r.1)
      (fun _ w' => net_ok (w_net w') /\ step (w_net w) (w_net w')) w1) as Hnow.
  { intros w1 Hu. destruct (unchanged_ok _ _ Hok Hu) as [Hok1 Hst1]. rewrite <- (un_conns _ _ Hu) in Hi.
    unfold Proc_Close. change (pr_pipe_fd (cn_proc_stat c)) with (pipe_of c). rewrite (proj2 (Z.leb_le _ _) Hp).
    apply wlp_bind, wlp_bind, wlp_bind.
    eapply wlp_mono; [apply (wlp_close_pipe i c (fun _ w' => net_ok (w_net w') /\ step (w_net w) (w_net w')));
      [done..|intros w2 Hok2 Hst2; split; [done|by transitivity (w_net w1)]]|].
    intros [] w2 Hw2. apply wlp_ret, wlp_ret, wlp_bind. eapply wlp_mono; [exact Hw2|]. intros [] w3 [Hok3 Hst3].
    change (wlp (set_proc (Z.of_nat i) Proc_InitStruct;; k "") (fun _ w' => net_ok (w_net w') /\ step (w_net w) (w_net w')) w3).
    apply wlp_keeps; [|done|intros a w4 Hok4 Hst4; split; [done|by transitivity (w_net w3)]].
    apply bind_keeps; [apply _|by intros []]. }
  apply wlp_bind. unfold Proc_Read. apply wlp_bind, wlp_assert. intros _.
  apply wlp_bind, wlp_quiet; [apply _|]. intros r w1 Hu.
  destruct r as [[|a data]| |]; [by apply wlp_unbind, Hnow|by apply Hlater|by apply Hlater|by apply wlp_unbind, Hnow].
Qed.

Lemma cb_Read_Resolver_Result_keeps fd what events w :
  (exists m, watched m (w_net w) /\ m !! fd = Some (CbReadResolverResult, what)) ->
  wlp (cb_Read_Resolver_Result fd events) (fun _ w' => net_ok (w_net w') /\ step (w_net w) (w_net w')) w.
Proof using Type*.
  intros (m & Hm & Hreg). apply wlp_bind, wlp_Conn_GetFromProc.
  - intros Hpos Hno. change (NONE =? NONE) with true. cbv iota.
    apply (wlp_close_event _ m); [apply Hm|by eexists|]. intros io' Ha Hlen. cbn [w_net set_w_net].
    assert (watched (delete fd m) (set_n_io io' (w_net w))) as Hm'.
    { apply watched_delete; [done..|]. intros i c Hc Hs. split; [|by apply (Hno i)]. intros E.
      destruct (wa_sock _ _ Hm i c Hc) as [?|[E' [what' Hw]]]; [done|]. rewrite <- E', E, Hreg in Hw. done. }
    split; [exists (delete fd m); by apply watched_sys|].
    destruct (bounds_io (w_net w) io') as [? ? ?]; [lia|]. split; [by split|done].
  - intros i c Hpos Hi Hs Hp. rewrite (proj2 (Z.eqb_neq _ _)) by (unfold NONE; lia).
    apply wlp_bind, wlp_the_conn. intros c' _ Hc'. rewrite Nat2Z.id, Hi in Hc'. injection Hc' as <-.
    apply (read_answer_keeps i c (use_answer (Z.of_nat i))); [intros s; apply _|by exists m|done|done|lia].
Qed.

End Answer.
