(* ===== verification/FrameLoop.v ===== *)
(** * The event loop in calm states

    The callbacks, the interest of select(2), the dispatch of events and the rounds
    of the loop lead from calm states to calm states, whatever the clients send and
    whatever the system answers. *)

From S2P Require Import Prelude CString Match Hash Checks Lists Messages Ipaddr Io IoSpec World ClientCore.
From S2P Require Import ConnFunc ConnSpec ChannelCore State IrcWrite Channel Client Class Conn Servers Parse Reader System.
From S2P Require Import Login IrcLogin Commands Accept Link EventLoop FrameTables Frame FrameState FrameConn FrameHandlers FrameRun FrameCalm.
From S2P Require Import FrameAccept.

Section Loop.
Context `{Conf} `{IO : ConnIO} `{!ConnIOKeeps IO} `{Sys : System}.
Context (read_lines : string -> option (list string)) (rand : Z).

(** ** Callbacks *)

Lemma wlp_Conn_FromSocket Sock Q w :
  (0 <= Sock -> (forall i c, n_conns (w_net w) !! i = Some c -> cn_sock c <> Sock) -> Q NONE w) ->
  (Sock <= NONE -> Q NONE w) -> (forall i : nat, Q (Z.of_nat i) w) -> wlp (Conn_FromSocket Sock) Q w.
Proof.
  intros HN HNone HS. unfold Conn_FromSocket. destruct (Z.leb_spec Sock NONE); [by apply HNone|]. apply wlp_get_net.
  destruct (lfind _ _) as [[i c]|] eqn:E; [apply HS|]. apply HN; [unfold NONE in *; lia|]. intros i c Hc Hs.
  apply (proj1 (lfind_None _ _)) with (x := (i, c)) in E; [by apply Z.eqb_neq in E|].
  apply elem_of_lookup_imap. by exists i, c.
Qed.

Lemma read_and_write_keeps idx sock what :
  keeps ((if has_bit what IO_WANTREAD then
            r ← syscall (fun k => sys_recv k sock);
            Read_Request (Commands.command read_lines rand) Commands.numeric idx r
          else mret tt);;
         if has_bit what IO_WANTWRITE then _ ← Handle_Write idx; mret tt else mret tt).
Proof. pose proof @quiet_keeps. keep. Qed.

Lemma wlp_cb_clientserver m fd events what w :
  watched m (w_net w) -> m !! fd = Some (CbClientServer, what) -> calm (w_net w) ->
  wlp (cb_clientserver read_lines rand fd events) (fun _ w' => follows (w_net w) (w_net w')) w.
Proof.
  intros Hm Hreg Hw. pose proof (abs_pos _ _ (wa_abs _ _ Hm) _ _ Hreg) as H0.
  apply wlp_bind, wlp_Conn_FromSocket; [|unfold NONE; lia|].
  - intros _ Hno. change (NONE =? NONE) with true. cbv iota.
    apply (wlp_close_event _ m); [apply Hm|by eexists|]. intros io' Ha Hlen. cbn [w_net set_w_net].
    eapply calm_close; [done..| |done|done]. intros i c Hc _. by apply (Hno i).
  - intros i. rewrite (proj2 (Z.eqb_neq _ _)) by (unfold NONE; lia).
    apply wlp_rest; [apply keeps_stable, read_and_write_keeps|by apply follows_refl].
Qed.

(** A registered callback. *)
Lemma wlp_run_callback m cb fd events what w :
  watched m (w_net w) -> m !! fd = Some (cb, what) -> calm (w_net w) ->
  wlp (run_callback read_lines rand cb fd events) (fun _ w' => follows (w_net w) (w_net w')) w.
Proof.
  intros Hm Hreg Hw. pose proof (wa_link _ _ Hm _ _ _ Hreg) as Hout. destruct cb; try done; cbn [run_callback].
  - by apply wlp_rest; [apply _|apply follows_refl].
  - by apply (wlp_cb_clientserver m _ _ what).
  - eapply wlp_mono; [apply cb_Read_Resolver_Result_keeps with (what := what); by exists m|].
    intros [] w' [Hok Hst]. by apply calm_step.
Qed.

(** ** Dispatch *)

(** The element of the array exists. *)
Definition in_array (fd : Z) (n : Net) : Prop := 0 <= fd < Z.of_nat (length (io_events (n_io n))).

Lemma wlp_io_docallback fd what w :
  calm (w_net w) -> in_array fd (w_net w) ->
  wlp (io_docallback (run_callback read_lines rand) fd what) (fun _ w' => follows (w_net w) (w_net w')) w.
Proof.
  intros Hw [H0 Hlt]. apply wlp_bind, wlp_get_net. unfold io_event_get. rewrite (proj2 (Z.ltb_ge _ _)) by done.
  destruct (lookup_lt_is_Some_2 (io_events (n_io (w_net w))) (Z.to_nat fd)) as [e He]; [lia|]. rewrite He.
  destruct (ev_callback e) as [cb|] eqn:Hcb; [|by apply follows_refl].
  destruct (ca_ok _ Hw) as [m Hm]. apply (wlp_run_callback m _ _ _ (ev_what e)); [done| |done].
  apply (ia_map _ _ (wa_abs _ _ Hm)). split; [done|]. rewrite He. destruct e. cbn in *. by subst.
Qed.

Lemma ready_in_array (readers writers : gset Z) fd n :
  (forall fd, fd ∈ readers ∪ writers -> in_array fd n) -> ready_events readers writers fd <> 0 -> in_array fd n.
Proof.
  intros Hin Hne. apply Hin. unfold ready_events in Hne.
  apply elem_of_union. destruct (decide (fd ∈ readers)) as [|Hr]; [by left|]. destruct (decide (fd ∈ writers)) as [|Hw]; [by right|].
  by rewrite !bool_decide_eq_false_2 in Hne.
Qed.

Lemma wlp_dispatch_loop n i fds_ready readers writers w :
  calm (w_net w) -> (forall fd, fd ∈ readers ∪ writers -> in_array fd (w_net w)) ->
  wlp (dispatch_loop (run_callback read_lines rand) n i fds_ready readers writers)
    (fun _ w' => follows (w_net w) (w_net w')) w.
Proof.
  revert i fds_ready w. induction n as [|n IH]; intros i fds_ready w Hw Hin; [done|]. cbn [dispatch_loop].
  apply wlp_bind, wlp_get_net. case_match; [by apply follows_refl|]. cbv zeta. apply wlp_bind.
  assert (wlp (if negb (ready_events readers writers i =? 0)
               then io_docallback (run_callback read_lines rand) i (ready_events readers writers i) else mret tt)
            (fun _ w' => follows (w_net w) (w_net w')) w) as Hone.
  { destruct (Z.eqb_spec (ready_events readers writers i) 0); cbn [negb]; [by apply follows_refl|].
    apply wlp_io_docallback; [done|]. by apply (ready_in_array readers writers). }
  eapply wlp_mono; [exact Hone|]. intros [] w1 Hl. destruct (fds_ready - _ <=? 0); [exact Hl|].
  eapply wlp_mono; [apply IH; [apply Hl|]|intros [] w2 Hl2; by transitivity (w_net w1)].
  intros fd Hfd. destruct (Hin fd Hfd), Hl. unfold in_array. lia.
Qed.

Lemma io_dispatch_select_stable tv : stable (io_dispatch_select (run_callback read_lines rand) tv).
Proof.
  intros w Hw. apply wlp_bind, wlp_get_net, wlp_bind, wlp_quiet; [apply _|]. intros r w1 Hu1.
  apply wlp_bind, wlp_quiet; [apply _|]. intros t w2 Hu2. apply wlp_bind, wlp_mod_tab. set (w3 := set_w_tab _ w2).
  assert (follows (w_net w) (w_net w3)) as Hl3 by (apply calm_unchanged; [done|by transitivity (w_net w1)]).
  destruct r as [r wr| |]; [|exact Hl3|exact Hl3]. cbv zeta. case_match; [exact Hl3|]. apply wlp_bind.
  eapply wlp_mono; [apply wlp_dispatch_loop; [apply Hl3|]|intros [] w4 Hl4; apply wlp_ret; by transitivity (w_net w3)].
  destruct (ca_ok _ Hw) as [m Hm]. intros fd Hfd.
  assert (is_Some (m !! fd)) as [x Hx].
  { apply elem_of_union in Hfd as [Hfd|Hfd]; apply elem_of_intersection in Hfd as [_ Hfd];
      [apply (ia_readers _ _ (wa_abs _ _ Hm)) in Hfd|apply (ia_writers _ _ (wa_abs _ _ Hm)) in Hfd];
      destruct Hfd as (cb & what & Hreg & _); by eexists. }
  pose proof (abs_slot _ _ (wa_abs _ _ Hm) _ _ Hx). pose proof (abs_pos _ _ (wa_abs _ _ Hm) _ _ Hx).
  destruct Hl3 as [_ Hlen]. unfold in_array. lia.
Qed.

(** ** Interest *)

(** Events are added to and removed from descriptors that stay watched. *)
Definition watching (l : list CONNECTION) (n : Net) : Prop :=
  exists m, watched m n /\ forall c, c ∈ l -> NONE < cn_sock c -> is_Some (m !! cn_sock c).

Lemma add_length fd what io b io' :
  io_event_add fd what io = Some (b, io') -> length (io_events io') = length (io_events io).
Proof.
  unfold io_event_add. destruct (io_event_get _ _); [|done]. destruct (negb _); [by intros [= _ <-]|].
  destruct (_ =? _); intros [= _ <-]; cbn; by rewrite ?length_insert.
Qed.

Lemma del_same_length fd what io b io' :
  io_event_del fd what io = Some (b, io') -> length (io_events io') = length (io_events io).
Proof.
  unfold io_event_del. destruct (io_event_get _ _); [|done].
  destruct (negb _); intros [= _ <-]; cbn; by rewrite ?length_insert.
Qed.

Lemma add_keeps_watched fd what io m x :
  some_events what -> io_abs io m -> m !! fd = Some x -> exists io' old, io_event_add fd what io = Some (true, io') /\
    io_abs io' (<[fd := (x.1, old)]> m) /\ length (io_events io') = length (io_events io).
Proof.
  intros Hw Ha Hx. destruct (add_ok io m Ha fd x what Hx Hw) as (io' & E & Ha'). eexists io', _.
  split_and!; [done|exact Ha'|by eapply add_length].
Qed.

Lemma del_keeps_watched fd what io m x :
  some_events what -> io_abs io m -> m !! fd = Some x -> exists io' old, io_event_del fd what io = Some (true, io') /\
    io_abs io' (<[fd := (x.1, old)]> m) /\ length (io_events io') = length (io_events io).
Proof.
  intros Hw Ha Hx. destruct (del_ok io m Ha fd x what Hx Hw) as (io' & E & Ha'). eexists io', _.
  split_and!; [done|exact Ha'|by eapply del_same_length].
Qed.

Lemma wlp_interest (op : Z -> Z -> Io.IO -> option (bool * Io.IO)) c l what w :
  (forall io m x, io_abs io m -> m !! cn_sock c = Some x -> exists io' old, op (cn_sock c) what io = Some (true, io') /\
     io_abs io' (<[cn_sock c := (x.1, old)]> m) /\ length (io_events io') = length (io_events io)) ->
  calm (w_net w) -> watching (c :: l) (w_net w) -> NONE < cn_sock c ->
  wlp (io_op (op (cn_sock c) what)) (fun _ w' => follows (w_net w) (w_net w') /\ watching l (w_net w')) w.
Proof.
  intros Hop Hw (m & Hm & Hl) Hs. destruct (Hl c) as [[cb old0] Hx]; [set_solver|done|].
  destruct (Hop _ _ _ (wa_abs _ _ Hm) Hx) as (io' & old & E & Ha & Hlen).
  assert (watched (<[cn_sock c := (cb, old)]> m) (set_n_io io' (w_net w))) as Hm' by (by apply (watched_alter _ _ _ _ _ old0)).
  unfold wlp, io_op. rewrite E. cbn [w_net set_w_net]. split.
  - apply calm_step; [done|by eexists|]. split; [apply bounds_io; lia|done].
  - eexists. split; [exact Hm'|]. intros d Hd Hds.
    destruct (decide (cn_sock d = cn_sock c)) as [->|]; [by rewrite lookup_insert_eq|].
    rewrite lookup_insert_ne by done. apply Hl; [set_solver|done].
Qed.

Lemma watching_tail c l n : watching (c :: l) n -> watching l n.
Proof. intros (m & Hm & Hl). exists m. split; [done|]. intros d Hd. apply Hl. set_solver. Qed.

Lemma wlp_write_interest_loop l w :
  calm (w_net w) -> watching l (w_net w) ->
  wlp (write_interest_loop l) (fun _ w' => follows (w_net w) (w_net w')) w.
Proof.
  revert w. induction l as [|c l IH]; intros w Hw Hl; [by apply follows_refl|]. cbn [write_interest_loop]. apply wlp_bind.
  destruct (Z.leb_spec (cn_sock c) NONE) as [Hs|Hs]; [by apply wlp_ret, IH, (watching_tail c)|].
  destruct (0 <? strlen (cn_wbuf c)); [|by apply wlp_ret, IH, (watching_tail c)]. apply wlp_bind.
  eapply wlp_mono; [apply (wlp_interest io_event_add c l); [|done..]|].
  { intros io m x. apply add_keeps_watched. by right; left. }
  intros b w1 [Hl1 Hwl]. apply wlp_ret. eapply wlp_mono; [apply IH; [apply Hl1|done]|].
  intros [] w2 Hl2. by transitivity (w_net w1).
Qed.

Lemma wlp_read_interest_loop t l available w :
  calm (w_net w) -> watching l (w_net w) ->
  wlp (read_interest_loop t l available) (fun _ w' => follows (w_net w) (w_net w')) w.
Proof.
  revert available w. induction l as [|c l IH]; intros available w Hw Hl; [by apply follows_refl|]. cbn [read_interest_loop].
  destruct (Conn_IsReadableClient c t) eqn:Hr; cbn [negb]; [|by apply IH, (watching_tail c)].
  unfold Conn_IsReadableClient in Hr. rewrite !andb_true_iff, negb_true_iff in Hr. destruct Hr as [[[Hs%Z.leb_gt _] _] _].
  assert (forall op b, (forall io m x, io_abs io m -> m !! cn_sock c = Some x -> exists io' old, op (cn_sock c) IO_WANTREAD io = Some (true, io') /\
     io_abs io' (<[cn_sock c := (x.1, old)]> m) /\ length (io_events io') = length (io_events io)) ->
    wlp (_ ← io_op (op (cn_sock c) IO_WANTREAD); read_interest_loop t l b) (fun _ w' => follows (w_net w) (w_net w')) w) as Hop.
  { intros op b Hop. apply wlp_bind. eapply wlp_mono; [by apply (wlp_interest op c l)|].
    intros r w1 [Hl1 Hwl]. eapply wlp_mono; [apply IH; [apply Hl1|done]|]. intros v w2 Hl2. by transitivity (w_net w1). }
  case_match; apply Hop; intros io m x; [apply del_keeps_watched|apply add_keeps_watched]; by left.
Qed.

Lemma all_watching n : calm n -> watching (n_conns n) n.
Proof.
  intros [[m Hm] _ _ _]. exists m. split; [done|]. intros c Hc Hs. apply list_elem_of_lookup in Hc as [i Hi].
  destruct (wa_sock _ _ Hm i c Hi) as [E|[-> [what Hx]]]; [lia|by eexists].
Qed.

#[export] Instance Conn_Update_Write_Interest_stable : stable Conn_Update_Write_Interest.
Proof. intros w Hw. by apply wlp_bind, wlp_get_net, wlp_write_interest_loop, all_watching. Qed.

#[export] Instance Conn_Update_Read_Interest_stable t : stable (Conn_Update_Read_Interest t).
Proof. intros w Hw. by apply wlp_bind, wlp_get_net, wlp_read_interest_loop, all_watching. Qed.

(** ** Rounds *)

#[local] Hint Constants Opaque : typeclass_instances.
#[local] Hint Transparent ptr : typeclass_instances.

Instance Resolve_Name_keeps Host : keeps (Resolve_Name Host). Proof. keep_def. Qed.
Instance Conn_Maybe_Start_Server_Link_keeps i t : keeps (Conn_Maybe_Start_Server_Link i t).
Proof. keep_def. Qed.
Instance check_servers_loop_keeps n : forall i t, keeps (check_servers_loop n i t). Proof. keep_fix n. Qed.
Instance Check_Servers_keeps : keeps Check_Servers. Proof. keep_def. Qed.

Lemma Conn_Wait_For_Activity_stable available : stable (Conn_Wait_For_Activity read_lines rand available).
Proof.
  apply stable_bind; [apply io_dispatch_select_stable|]. intros r. apply keeps_stable. keep.
Qed.

Lemma one_round_stable : stable (one_round read_lines rand).
Proof.
  unfold one_round. repeat (apply stable_bind; [first [apply _|apply Conn_Wait_For_Activity_stable|apply keeps_stable; keep]|intros ?]).
  apply keeps_stable. keep.
Qed.

Lemma main_loop_stable rounds : stable (main_loop read_lines rand rounds).
Proof.
  induction rounds as [|rounds IH]; cbn [main_loop]; (apply stable_bind; [apply keeps_stable; keep|]; intros stop).
  - apply keeps_stable. keep.
  - destruct stop; [apply keeps_stable; keep|]. by apply stable_bind; [apply one_round_stable|].
Qed.

Lemma Conn_Handler_stable rounds : stable (Conn_Handler read_lines rand rounds).
Proof.
  unfold Conn_Handler. do 4 (apply stable_bind; [apply keeps_stable; keep|intros ?]). apply main_loop_stable.
Qed.

End Loop.
