(* ===== verification/LoopSpec.v ===== *)
(** * The event loop: what it promises

    The listening sockets are set up in a calm state, and from there the loop stays
    calm; one dispatch calls the callbacks of the ready descriptors in
    ascending order. *)

From S2P Require Import Prelude CString Match Hash Checks Lists Messages Ipaddr Io IoSpec World ClientCore.
From S2P Require Import ConnFunc ConnSpec ChannelCore State IrcWrite Channel Client Class Conn Servers Parse Reader System.
From S2P Require Import Login IrcLogin Commands Accept Link EventLoop FrameTables Frame FrameState FrameConn FrameHandlers FrameRun FrameCalm.
From S2P Require Import FrameAccept FrameLoop.

(** ** The start *)

(** Nothing is watched, and there are no connections. *)
Record fresh_start (n : Net) : Prop := {
  fs_io : io_abs (n_io n) ∅;
  fs_count : n_NumConnections n = 0 }.

Lemma io_abs_unique io m m' : io_abs io m -> io_abs io m' -> m = m'.
Proof.
  intros H H'. apply map_eq. intros fd. destruct (m !! fd) as [[cb what]|] eqn:E.
  - symmetry. by apply (ia_map _ _ H'), (ia_map _ _ H).
  - destruct (m' !! fd) as [[cb what]|] eqn:E'; [|done]. apply (ia_map _ _ H'), (ia_map _ _ H) in E'. congruence.
Qed.

Section Start.
Context `{Conf} `{IO : ConnIO} `{!ConnIOKeeps IO} `{Sys : System}.

(** No descriptor from [fd] on is watched. *)
Definition free_from (fd : Z) (n : Net) : Prop := forall m f, io_abs (n_io n) m -> fd <= f -> m !! f = None.

Lemma Conn_Init_calm w :
  fresh_start (w_net w) -> wlp Conn_Init (fun _ w' => calm (w_net w') /\ free_from 1 (w_net w')) w.
Proof.
  intros [Hio Hcount]. apply wlp_bind, wlp_mod_net, wlp_bind, wlp_Socket2Index. intros w1 Hg Hpos Hlt.
  rewrite (proj2 (Z.leb_gt _ NONE)) by (unfold NONE; lia). apply wlp_mod_net.
  assert (watched ∅ (set_n_conns [] (w_net w))) as H0.
  { split; try done. }
  pose proof (grown_watched _ _ _ H0 Hg) as H1. destruct (gr_conns _ _ Hg) as (k & now & Ek). cbn in Ek. split.
  - split; cbn.
    + exists ∅. by apply (watched_unchanged _ (w_net w1)).
    + intros i. etransitivity; [apply (st_closing _ _ (grown_step _ _ Hg))|done].
    + intros Hmax. rewrite (gr_count _ _ Hg). cbn. lia.
    + intros Hmax a. unfold from_ip. cbn. rewrite Ek.
      replace (List.filter (comes_from a) (replicate k (free_slot now))) with (@nil CONNECTION); [cbn; lia|].
      clear Ek. induction k; [done|]. by cbn.
  - intros m f Hm _. cbn in Hm. rewrite (gr_io _ _ Hg) in Hm. by rewrite (io_abs_unique _ _ _ Hm Hio).
Qed.

(** A new listening socket is fresh. *)
Lemma wlp_NewListener addr port Q w :
  calm (w_net w) ->
  (forall w', follows (w_net w) (w_net w') -> Q (-1) w') ->
  (forall fd w', unchanged (w_net w) (w_net w') -> fresh fd (w_net w') -> Q fd w') ->
  wlp (NewListener addr port) Q w.
Proof.
  intros Hw HN HS. unfold NewListener. destruct (ng_ipaddr_init _ _ _) as [a|].
  2: { apply wlp_bind, wlp_stable; [apply keeps_stable; keep|done|]. intros [] w' _ Hl. by apply HN. }
  assert (forall w', unchanged (w_net w) (w_net w') -> Q (-1) w') as HU by (intros w' Hu; by apply HN, calm_unchanged).
  apply wlp_bind, wlp_new_fd; [intros w' Hu; by apply HU|]. intros fd w1 Hu Hf. cbn [id] in Hf.
  silent Hu Hf. destruct r; cbn [negb]; [|by apply HU].
  silent Hu Hf. destruct r; cbn [negb].
  2: { silent Hu Hf. silent Hu Hf. by apply HU. }
  silent Hu Hf. destruct r; cbn [negb].
  2: { silent Hu Hf. by apply HU. }
  assert (quiet (mod_net (fun n => set_n_My_Listeners (n_My_Listeners n ++ [fd]) n))) as Hq by (by apply quiet_mod_net).
  silent Hu Hf. silent Hu Hf. by apply HS.
Qed.

(** Watching a fresh descriptor for new connections. *)
Lemma wlp_listen fd Q w :
  calm (w_net w) -> fresh fd (w_net w) ->
  (forall b w', follows (w_net w) (w_net w') ->
     (forall f, free_from f (w_net w) -> fd < f -> free_from f (w_net w')) -> Q b w') ->
  wlp (io_op (io_event_create fd IO_WANTREAD CbListen)) Q w.
Proof.
  intros Hw Hf HQ. apply wlp_create; [done|by left|done|apply Hw|by apply HQ; [apply follows_refl|]|].
  intros m io' Hm Hfree Hm' Hlen. apply HQ.
  - apply calm_step; [done|by eexists|]. split; [by apply bounds_io|done].
  - intros f Hff Hlt m' g Ha Hg. rewrite (io_abs_unique _ _ _ Ha (wa_abs _ _ Hm')), lookup_insert_ne by lia.
    by apply (Hff m g (wa_abs _ _ Hm)).
Qed.

Lemma Init_Listeners_stable a addr : stable (Init_Listeners a addr CbListen).
Proof.
  induction a as [|port a IH]; [apply keeps_stable; keep|]. cbn [Init_Listeners]. intros w Hw.
  assert (forall created w', follows (w_net w) (w_net w') ->
    wlp (rest ← Init_Listeners a addr CbListen; mret (created + rest)) (fun _ w2 => follows (w_net w) (w_net w2)) w') as Hrest.
  { intros created w' Hl. apply wlp_rest; [|done]. apply stable_bind; [done|]. intros r. apply keeps_stable. keep. }
  apply wlp_bind, wlp_NewListener; [done|intros w' Hl; change (-1 <? 0) with true; cbv iota; by apply wlp_bind, wlp_ret, Hrest|].
  intros fd w1 Hu Hf. rewrite (proj2 (Z.ltb_ge _ _)) by (destruct Hf; lia).
  pose proof (calm_unchanged _ _ Hw Hu) as Hl. apply wlp_bind, wlp_bind, wlp_listen; [apply Hl|done|].
  intros b w2 Hl2 _. assert (follows (w_net w) (w_net w2)) as Hl' by (by transitivity (w_net w1)).
  destruct b; cbn [negb]; [by apply wlp_ret, Hrest|]. apply wlp_bind, wlp_quiet; [apply _|]. intros [] w3 Hu3.
  apply wlp_ret, Hrest. transitivity (w_net w2); [done|]. apply calm_unchanged; [apply Hl2|done].
Qed.

Lemma listen_on_stable addrs : stable (listen_on addrs).
Proof.
  pose proof Init_Listeners_stable. induction addrs as [|a addrs IH]; [apply keeps_stable; keep|]. cbn [listen_on].
  apply stable_bind; [case_match; [apply keeps_stable; keep|done]|]. intros c.
  apply stable_bind; [done|]. intros r. apply keeps_stable. keep.
Qed.

(** The sockets from systemd(8) are numbered upwards. *)
Lemma wlp_sd_listeners count fd w :
  0 < fd -> calm (w_net w) -> free_from fd (w_net w) ->
  wlp (sd_listeners count fd) (fun _ w' => follows (w_net w) (w_net w')) w.
Proof.
  revert fd w. induction count as [|count IH]; intros fd w Hfd Hw Hfree; [by apply follows_refl|]. cbn [sd_listeners].
  assert (forall created w', follows (w_net w) (w_net w') -> free_from (fd + 1) (w_net w') ->
    wlp (rest ← sd_listeners count (fd + 1); mret (created + rest)) (fun _ w2 => follows (w_net w) (w_net w2)) w') as Hrest.
  { intros created w' Hl Hf. apply wlp_bind. eapply wlp_mono; [apply IH; [lia|apply Hl|done]|].
    intros r w2 Hl2. apply wlp_ret. by transitivity (w_net w'). }
  assert (free_from (fd + 1) (w_net w)) as Hnext by (intros m f Hm Hf; apply (Hfree m f Hm); lia).
  apply wlp_bind, wlp_quiet; [apply _|]. intros addr w1 Hu. apply wlp_bind.
  assert (forall w', unchanged (w_net w) (w_net w') -> free_from (fd + 1) (w_net w')) as HU.
  { intros w' Hu'. unfold free_from. by rewrite (un_io _ _ Hu'). }
  assert (fresh fd (w_net w1)) as Hf.
  { split; [done|]. intros m Hm. rewrite (un_io _ _ Hu) in Hm. by apply (Hfree m fd Hm). }
  assert (wlp (_ ← Init_Socket fd; ok ← io_op (io_event_create fd IO_WANTREAD CbListen);
     if negb (ok : bool) then mret 0
     else _ ← asserting (ng_ipaddr_tostr_r getnameinfo addr); _ ← asserting (ng_ipaddr_getport addr); mret 1)
     (fun created => wlp (rest ← sd_listeners count (fd + 1); mret (created + rest)) (fun _ w2 => follows (w_net w) (w_net w2))) w1)
    as Hlisten.
  { silent Hu Hf. pose proof (calm_unchanged _ _ Hw Hu) as Hl.
    apply wlp_bind, wlp_listen; [apply Hl|done|]. intros b w2' Hl2 Hff.
    assert (follows (w_net w) (w_net w2')) as Hl' by (etransitivity; [exact Hl|exact Hl2]).
    assert (free_from (fd + 1) (w_net w2')) as Hf2 by (apply Hff; [by apply HU|lia]).
    destruct b; cbn [negb]; [|by apply wlp_ret, Hrest].
    apply wlp_bind, wlp_quiet; [apply _|]. intros r2 w3 Hu3. apply wlp_bind, wlp_quiet; [apply _|]. intros r3 w4 Hu4.
    pose proof (unchanged_trans _ _ _ Hu3 Hu4) as Hu'. apply wlp_ret, Hrest.
    - transitivity (w_net w2'); [done|]. apply calm_unchanged; [apply Hl2|done].
    - unfold free_from. by rewrite (un_io _ _ Hu'). }
  destruct addr as [| |]; [|exact Hlisten..].
  silent Hu Hf. apply wlp_ret, Hrest; [by apply calm_unchanged|by apply HU].
Qed.

Lemma wlp_Conn_InitListeners w :
  calm (w_net w) -> free_from 1 (w_net w) -> wlp Conn_InitListeners (fun _ w' => follows (w_net w) (w_net w')) w.
Proof.
  intros Hw Hf. unfold Conn_InitListeners. apply wlp_bind. unfold asserting. destruct Conf_ListenAddress as [l|]; [|done].
  apply wlp_ret. cbv zeta. case_match; [by apply follows_refl|]. case_match.
  - apply wlp_sd_listeners; [done|done|]. intros m f Hm Hfd. apply (Hf m f Hm). unfold SD_LISTEN_FDS_START in Hfd. lia.
  - apply wlp_rest; [apply listen_on_stable|by apply follows_refl].
Qed.

End Start.

(** ** What a calm state looks like *)

Definition opened (c : CONNECTION) : bool := NONE <? cn_sock c.

(** The element of the array for a descriptor. *)
Definition watched_by (fd : Z) (cb : callback) (io : Io.IO) : Prop :=
  exists e, io_event_get fd io = Some e /\ ev_callback e = Some cb.

Definition orderly `{Conf} (n : Net) : Prop :=
  (forall i c, n_conns n !! i = Some c -> opened c = true ->
     cn_sock c = Z.of_nat i /\ watched_by (cn_sock c) CbClientServer (n_io n) /\
     (0 <= Proc_GetPipeFd (cn_proc_stat c) -> watched_by (Proc_GetPipeFd (cn_proc_stat c)) CbReadResolverResult (n_io n))) /\
  n_NumConnections n = Z.of_nat (length (List.filter opened (n_conns n))) /\
  (0 < Conf_MaxConnections -> n_NumConnections n <= Conf_MaxConnections) /\
  (0 < Conf_MaxConnectionsIP -> forall a, from_ip a n <= Conf_MaxConnectionsIP) /\
  (forall fd, fd ∈ io_readers (n_io n) ∪ io_writers (n_io n) ->
     0 <= fd <= io_select_maxfd (n_io n) /\ io_select_maxfd (n_io n) < FD_SETSIZE /\ exists cb, watched_by fd cb (n_io n)).

Lemma calm_orderly `{Conf} n : calm n -> orderly n.
Proof.
  intros [[m Hm] Hcl Hl Hip]. pose proof (wa_abs _ _ Hm) as Ha. split_and!; [|..|done|done|].
  - intros i c Hc Ho%Z.ltb_lt. destruct (wa_sock _ _ Hm i c Hc) as [E|[E [what Hx]]]; [lia|]. split_and!; [done|..].
    + rewrite <- E in Hx. eexists. split; [by apply (abs_get _ _ Ha)|done].
    + intros Hp. destruct (wa_pipe _ _ Hm i c Hc) as [what' Hx']; [unfold NONE in *; lia|done|].
      eexists. split; [by apply (abs_get _ _ Ha)|done].
  - rewrite (wa_count _ _ Hm). do 2 f_equal.
    assert (Forall (fun c => busy c = opened c) (n_conns n)) as Hb.
    { apply Forall_lookup. intros i c Hc. specialize (Hcl i). unfold closing_sock in Hcl. rewrite Hc in Hcl.
      unfold busy, opened. destruct (closing c); [done|]. apply orb_false_r. }
    induction Hb as [|c l Hc Hb IH]; [done|]. cbn. by rewrite Hc, IH.
  - intros fd Hfd.
    assert (exists x, m !! fd = Some x) as [[cb what] Hx].
    { apply elem_of_union in Hfd as [Hfd|Hfd]; [apply (ia_readers _ _ Ha) in Hfd|apply (ia_writers _ _ Ha) in Hfd];
        destruct Hfd as (cb & what & Hx & _); by eexists. }
    pose proof (abs_pos _ _ Ha _ _ Hx). pose proof (ia_max _ _ Ha _ _ Hx). pose proof (ia_range _ _ Ha).
    split_and!; [lia..|]. exists cb. eexists. split; [by apply (abs_get _ _ Ha)|done].
Qed.

(** ** The life of the server *)

Definition run_server `{Conf} `{System} (read_lines : string -> option (list string)) (rand : Z) (depth rounds : nat) : M bool :=
  let IO := conn_io rand depth in
  Conn_Init;; _ ← Conn_InitListeners; Conn_Handler read_lines rand rounds.

Lemma run_server_calm `{Conf} `{System} read_lines rand depth rounds w :
  fresh_start (w_net w) -> wlp (run_server read_lines rand depth rounds) (fun _ w' => calm (w_net w')) w.
Proof.
  intros Hw. apply wlp_bind. eapply wlp_mono; [by apply Conn_Init_calm|]. intros [] w1 [Hw1 Hf1].
  apply wlp_bind. eapply wlp_mono; [by apply wlp_Conn_InitListeners|]. intros k w2 [Hw2 _].
  eapply wlp_mono; [by apply Conn_Handler_stable|]. by intros b w3 [Hw3 _].
Qed.

Lemma run_server_done `{Conf} `{System} read_lines rand depth rounds w b w' :
  fresh_start (w_net w) -> run_server read_lines rand depth rounds w = Done b w' -> calm (w_net w').
Proof.
  intros Hw E. pose proof (run_server_calm read_lines rand depth rounds w Hw) as Hrun. unfold wlp in Hrun.
  by rewrite E in Hrun.
Qed.

(** C2: the server is orderly for ever.  From its start, whatever clients send and
    whatever the system answers, after any number of rounds of the main loop: an open
    connection is in the slot of its socket, its socket has the callback for clients and
    the pipe of its resolver, if it has one, the callback for resolvers; the number of
    connections is right and within the limit, and so is the number of connections from
    every address; select(2) is given only descriptors that are watched, within the
    bound.  No operation of the I/O module is called for a descriptor that it does not
    know.  (The loop may stop with another fault, for which nothing is claimed here.) *)
Theorem server_orderly `{Conf} `{System} read_lines rand depth rounds w :
  fresh_start (w_net w) ->
  match run_server read_lines rand depth rounds w with
  | Done _ w' => orderly (w_net w')
  | Crash f => f <> NoEvent
  end.
Proof.
  intros Hw. pose proof (run_server_calm read_lines rand depth rounds w Hw) as Hrun. unfold wlp in Hrun.
  destruct (run_server _ _ _ _ _) as [b w'|]; [by apply calm_orderly|done].
Qed.

(** C3: the tables are consistent for ever.  From a state where they are, whatever the
    clients and servers send and whatever the system answers, after any number of rounds
    of the main loop: the clients and channels that are linked exist and are linked once,
    every text fits the field of its structure, the hash values belong to the names, a
    client is on a channel at most once and only on channels that exist, no two channels
    have the same name (unless it has been cut off at the greatest length), the lists of
    bans hold no mask twice, and the tables of fixed size have kept it. *)
Theorem tables_consistent `{Conf} `{System} read_lines rand depth rounds w :
  tables_ok (w_tab w) ->
  match run_server read_lines rand depth rounds w with
  | Done _ w' => tables_ok (w_tab w')
  | Crash _ => True
  end.
Proof.
  intros Ht. assert (sound (run_server read_lines rand depth rounds)) as Hs by sound_def.
  destruct (run_server _ _ _ _ _) as [b w'|] eqn:E; [|done]. by apply (Hs w b w').
Qed.

(** ** Dispatch *)

Section Dispatch.
Context `{Conf} `{IO : ConnIO} `{!ConnIOKeeps IO} `{Sys : System}.
Context (read_lines : string -> option (list string)) (rand : Z).
Context (readers writers : gset Z).

Notation what := (ready_events readers writers).
Notation callback := (io_docallback (run_callback read_lines rand)).

Definition is_ready (fd : Z) : bool := negb (what fd =? 0).

Definition ready_list : list Z := List.filter is_ready (seqZ 0 FD_SETSIZE).

(** The callbacks of some descriptors, one after the other. *)
Fixpoint call_each (l : list Z) : M unit :=
  match l with
  | [] => mret tt
  | fd :: l' => callback fd (what fd);; call_each l'
  end.

Fixpoint pending (l : list Z) : Z :=
  match l with [] => 0 | fd :: l' => ready_count readers writers fd + pending l' end.

Lemma ready_count_pos fd : 0 <= ready_count readers writers fd /\ (ready_count readers writers fd <= 0 -> is_ready fd = false).
Proof.
  unfold is_ready, ready_count, ready_events. destruct (bool_decide (fd ∈ readers)), (bool_decide (fd ∈ writers)); cbn; split; lia || done.
Qed.

Lemma pending_pos l : 0 <= pending l.
Proof. induction l as [|fd l IH]; cbn; [lia|]. pose proof (ready_count_pos fd). lia. Qed.

Lemma pending_none l : pending l <= 0 -> List.filter is_ready l = [].
Proof.
  induction l as [|fd l IH]; [done|]. cbn. intros Hp. destruct (ready_count_pos fd) as [H1 H2]. pose proof (pending_pos l).
  rewrite H2 by lia. apply IH. lia.
Qed.

(** Descriptors that are not watched any more are passed over. *)
Lemma call_each_idle l m w :
  io_abs (n_io (w_net w)) m -> (forall fd, fd ∈ l -> in_array fd (w_net w) /\ m !! fd = None) -> call_each l w = Done tt w.
Proof.
  intros Ha. induction l as [|fd l IH]; intros Hl; [done|]. cbn [call_each].
  destruct (Hl fd) as [[H0 Hlt] Hno]; [set_solver|].
  assert (callback fd (what fd) w = Done tt w) as E.
  { unfold io_docallback, mbind, M_bind, get_net. unfold io_event_get. rewrite (proj2 (Z.ltb_ge _ _)) by done.
    destruct (lookup_lt_is_Some_2 (io_events (n_io (w_net w))) (Z.to_nat fd)) as [[[cb|] wt] He]; [lia| |by rewrite He].
    exfalso. assert (m !! fd = Some (cb, wt)) by (by apply (ia_map _ _ Ha)). congruence. }
  unfold mbind at 1, M_bind at 1. rewrite E. apply IH. intros f Hf. apply Hl. set_solver.
Qed.

Lemma dispatch_from n i fds_ready w :
  (Z.to_nat (FD_SETSIZE - i) < n)%nat -> 0 <= i <= FD_SETSIZE -> calm (w_net w) ->
  (forall fd, fd ∈ readers ∪ writers -> in_array fd (w_net w)) ->
  fds_ready = pending (seqZ i (FD_SETSIZE - i)) ->
  dispatch_loop (run_callback read_lines rand) n i fds_ready readers writers w =
    call_each (List.filter is_ready (seqZ i (FD_SETSIZE - i))) w.
Proof.
  revert i fds_ready w. induction n as [|n IH]; intros i fds_ready w Hn Hi Hw Hin Hp; [lia|]. cbn [dispatch_loop].
  unfold mbind at 1, M_bind at 1, get_net. destruct (ca_ok _ Hw) as [m Hm].
  assert (forall fd, is_ready fd = true -> in_array fd (w_net w)) as Hready.
  { intros fd Hfd%negb_true_iff%Z.eqb_neq. by apply (ready_in_array readers writers). }
  destruct (Z.ltb_spec (io_select_maxfd (n_io (w_net w))) i) as [Hmax|Hmax].
  { symmetry. apply (call_each_idle _ m); [apply Hm|]. intros fd Hfd. apply list_elem_of_In, List.filter_In in Hfd as [Hfd Hr].
    apply list_elem_of_In, elem_of_seqZ in Hfd. split; [by apply Hready|].
    destruct (m !! fd) as [x|] eqn:Hx; [|done]. apply (ia_max _ _ (wa_abs _ _ Hm)) in Hx. lia. }
  pose proof (ia_range _ _ (wa_abs _ _ Hm)). rewrite seqZ_cons in Hp |- * by lia.
  replace (Z.pred (FD_SETSIZE - i)) with (FD_SETSIZE - (i + 1)) in * by lia. replace (Z.succ i) with (i + 1) in * by lia.
  cbv zeta. cbn [pending] in Hp. replace (fds_ready - ready_count readers writers i) with (pending (seqZ (i + 1) (FD_SETSIZE - (i + 1)))) by lia.
  assert (forall w', follows (w_net w) (w_net w') ->
    (if pending (seqZ (i + 1) (FD_SETSIZE - (i + 1))) <=? 0 then mret tt
     else dispatch_loop (run_callback read_lines rand) n (i + 1) (pending (seqZ (i + 1) (FD_SETSIZE - (i + 1)))) readers writers) w' =
    call_each (List.filter is_ready (seqZ (i + 1) (FD_SETSIZE - (i + 1)))) w') as Hrest.
  { intros w' [Hw' Hlen]. destruct (Z.leb_spec (pending (seqZ (i + 1) (FD_SETSIZE - (i + 1)))) 0).
    - by rewrite pending_none.
    - apply IH; [lia|lia|done| |done]. intros fd Hfd. destruct (Hin fd Hfd). unfold in_array. lia. }
  cbn [List.filter]. unfold is_ready at 1. destruct (Z.eqb_spec (what i) 0) as [E|E]; cbn [negb].
  - by apply Hrest, follows_refl.
  - cbn [call_each]. unfold mbind, M_bind.
    assert (in_array i (w_net w)) as Hai by (by apply (ready_in_array readers writers)).
    pose proof (wlp_io_docallback read_lines rand i (what i) w Hw Hai) as Hcall. unfold wlp in Hcall.
    destruct (callback i (what i) w) as [[] w'|f]; [by apply Hrest|done].
Qed.

(** The sizes of the sets are the number of ready events. *)
Lemma size_indicator (X : gset Z) (l : list Z) :
  NoDup l -> X ⊆ list_to_set l ->
  Z.of_nat (size X) = foldr (fun fd k => (if bool_decide (fd ∈ X) then 1 else 0) + k) 0 l.
Proof.
  revert X. induction l as [|fd l IH]; intros X Hl HX.
  - assert (X = ∅) as -> by set_solver. by rewrite size_empty.
  - apply list.NoDup_cons in Hl as [Hfd Hl]. cbn [foldr]. destruct (bool_decide_reflect (fd ∈ X)) as [Hin|Hin].
    + assert (X ≡ {[fd]} ∪ X ∖ {[fd]}) as E by (by apply union_difference, singleton_subseteq_l).
      rewrite (set_size_proper _ _ E), size_union, size_singleton by set_solver.
      rewrite Nat2Z.inj_add, (IH (X ∖ {[fd]})) by set_solver. f_equal. clear -Hfd.
      induction l as [|g l IHl]; [done|]. cbn [foldr]. rewrite IHl by set_solver. f_equal.
      by rewrite (bool_decide_ext (g ∈ X ∖ {[fd]}) (g ∈ X)) by set_solver.
    + rewrite (IH X) by set_solver. done.
Qed.

Lemma pending_sizes l :
  NoDup l -> readers ⊆ list_to_set l -> writers ⊆ list_to_set l ->
  pending l = Z.of_nat (size readers + size writers).
Proof.
  intros Hl Hr Hw. rewrite Nat2Z.inj_add, (size_indicator readers l), (size_indicator writers l) by done. clear.
  induction l as [|fd l IH]; [done|]. cbn. rewrite IH. unfold ready_count. lia.
Qed.

(** C5: one dispatch.  In a calm state, the loop over all descriptors up to the largest
    one, with its early end when all ready events have been counted, calls the
    callbacks of the ready descriptors one after the other in ascending order: none is
    lost, none is called twice, although callbacks may close descriptors, lower the
    bound, and register new ones meanwhile. *)
Theorem dispatch_in_order w :
  calm (w_net w) -> readers ⊆ io_readers (n_io (w_net w)) -> writers ⊆ io_writers (n_io (w_net w)) ->
  dispatch_loop (run_callback read_lines rand) (S (Z.to_nat FD_SETSIZE)) 0
      (Z.of_nat (size readers + size writers)) readers writers w =
    call_each ready_list w.
Proof.
  intros Hw Hr Hwr. unfold ready_list. destruct (calm_orderly _ Hw) as (_ & _ & _ & _ & Hfds).
  assert (forall fd, fd ∈ readers ∪ writers -> 0 <= fd < FD_SETSIZE) as Hrange.
  { intros fd Hfd. destruct (Hfds fd) as (? & ? & _); [|lia]. clear -Hfd Hr Hwr. set_solver. }
  assert (forall X, X ⊆ readers ∪ writers -> X ⊆ list_to_set (seqZ 0 FD_SETSIZE)) as Hsub.
  { intros X HX fd Hfd. apply elem_of_list_to_set, elem_of_seqZ. apply HX, Hrange in Hfd. lia. }
  apply dispatch_from; [lia|unfold FD_SETSIZE; lia|done| |].
  - intros fd Hfd. destruct (Hfds fd) as (H0 & _ & cb & e & He & _); [clear -Hfd Hr Hwr; set_solver|]. unfold io_event_get in He.
    rewrite (proj2 (Z.ltb_ge _ _)) in He by lia. apply lookup_lt_Some in He. unfold in_array. lia.
  - symmetry. apply pending_sizes; [apply NoDup_seqZ|apply Hsub; clear; set_solver..].
Qed.

End Dispatch.
