(* ===== verification/MessageSpec.v ===== *)
(** * Private messages and notices: the contracts

    Whom a target of PRIVMSG and NOTICE names, the lines that a list of targets
    causes, and a NOTICE that the server does not survive. *)

From S2P Require Import Prelude CString Match Hash Checks Lists Messages World ClientCore.
From S2P Require Import ConnFunc ConnSpec ChannelCore State IrcWrite Channel ChannelSpec.
From S2P Require Import Quit Client Parse Irc.

(** ** Targets *)

(** A target without the separators of the longer forms, that no mask for
    operators looks like. *)
Definition plain (t : string) : bool :=
  negb (String.eqb t "") && (slen t <? CLIENT_ID_LEN)%nat &&
  negb (has_chr t "!") && negb (has_chr t "@") && negb (has_chr t "%") &&
  negb (has_chr "$#" (hd0 t) && has_chr t ".").

Definition user_of (c : CLIENT) : string := match cl_user c with "" => "~" | u => u end.

Definition person (c : CLIENT) : bool := (cl_type c =? CLIENT_USER) || (cl_type c =? CLIENT_SERVICE).

(** The client that a plain target names: by its ID, or else by its user name. *)
Definition addressee (t : Tables) (name : string) : option nat :=
  match find_client t name with
  | Some a => Some a
  | None => lfind (fun a => match t_clients t !! a with
                            | Some c => person c && strcaseeq name (user_of c)
                            | None => false end) (t_My_Clients t)
  end.

(** Two clients share a channel. *)
Definition acquainted (t : Tables) (a b : nat) : bool :=
  existsb (fun m => is_client (Some a) m && existsb (is_member (Some (cc_channel m)) (Some b)) (t_My_Cl2Chan t))
    (t_My_Cl2Chan t).

Lemma before_nochr c s : has_chr s c = false -> before c s = s.
Proof.
  unfold has_chr. induction s as [|a s IH]; simpl; [done|].
  destruct (a =c c) eqn:E; [done|]. intros Hs. by rewrite IH.
Qed.

Lemma after_nochr c s : has_chr s c = false -> after c s = None.
Proof. unfold has_chr, after. by destruct (strchr s c). Qed.

Lemma split_plain t : plain t = true -> split_target t = Target None t None None.
Proof.
  unfold plain. intros [[[[[Hne Hl]%andb_prop H1]%andb_prop H2]%andb_prop H3]%andb_prop _]%andb_prop.
  apply negb_true_iff in H1, H2, H3. apply Nat.ltb_lt in Hl.
  unfold split_target. assert (strlcpy t COMMAND_LEN = t) as ->.
  { apply str_take_all. unfold COMMAND_LEN, CLIENT_ID_LEN in *. lia. }
  by rewrite !before_nochr, !after_nochr by (rewrite ?before_nochr; done).
Qed.

Section Targets.
Context `{Conf} `{IO : ConnIO} `{!ConnIOSpec IO}.

Lemma wp_Client_User w a c (Q : string -> World -> Prop) :
  t_clients (w_tab w) !! a = Some c -> Q (user_of c) w -> wp (Client_User (Some a)) Q w.
Proof. intros Hc HQ. apply wp_bind. by eapply wp_load_client. Qed.

Lemma wp_matches_plain w a c name (Q : bool -> World -> Prop) :
  t_clients (w_tab w) !! a = Some c -> Q (person c && strcaseeq name (user_of c)) w ->
  wp (matches_target (Target None name None None) (Some a)) Q w.
Proof.
  intros Hc HQ. assert (Ht : w_tab w = w_tab w) by done. unfold matches_target. wp_step. rd.
  unfold person in HQ. rewrite <- negb_orb. destruct (_ || _); cbn [negb andb] in *; [|by wp_step].
  cbn [tg_nick tg_user tg_host tg_server]. wp_step. wp_step. eapply wp_Client_User; [done|]. wp_step.
  destruct (strcaseeq name (user_of c)); by wp_steps.
Qed.

(** Walking over the list of clients with a test that changes nothing. *)
Lemma wp_client_find test f l pre fuel w (Q : ptr -> World -> Prop) :
  t_My_Clients (w_tab w) = pre ++ l -> NoDup (t_My_Clients (w_tab w)) ->
  Forall (fun a => is_Some (t_clients (w_tab w) !! a)) l -> (length l <= fuel)%nat ->
  (forall a c Q', t_clients (w_tab w) !! a = Some c -> Q' (f c) w -> wp (test (Some a)) Q' w) ->
  Q (lfind (fun a => match t_clients (w_tab w) !! a with Some c => f c | None => false end) l) w ->
  wp (client_find fuel test (head l)) Q w.
Proof.
  intros Hl Hnd Hall Hf Ht. revert pre fuel Hl Hf. induction l as [|a l IH]; intros pre fuel Hl Hf HQ.
  { destruct fuel; cbn [client_find head is_null]; by wp_step. }
  destruct fuel as [|fuel]; [cbn in Hf; lia|]. cbn [client_find head is_null lfind] in *.
  apply Forall_cons_1 in Hall as [[c Hc] Hall]. rewrite Hc in HQ.
  wp_step. eapply Ht; [done|]. destruct (f c); [by wp_step|].
  wp_step. unfold Client_Next. wp_steps. rewrite Hl, next_in_app by (by rewrite <- Hl). wp_step.
  apply (IH Hall (pre ++ [a])); [by rewrite <- app_assoc|cbn in Hf; lia|done].
Qed.

Lemma wp_find_target w name (Q : ptr -> World -> Prop) :
  state_ok w -> ids_hashed (w_tab w) -> plain name = true ->
  Q (addressee (w_tab w) name) w -> wp (find_target name) Q w.
Proof.
  intros Hok Hids Hp HQ. pose proof (split_plain _ Hp) as Hsplit. unfold plain in Hp.
  apply andb_prop in Hp as [[[[[Hne Hl]%andb_prop H1]%andb_prop _]%andb_prop _]%andb_prop _].
  pose proof H1 as H1'. apply negb_true_iff in H1'. apply Nat.ltb_lt in Hl.
  unfold find_target. rewrite H1, Hsplit. wp_step.
  assert (before "!" (strlcpy name CLIENT_ID_LEN) = name) as Hb.
  { assert (strlcpy name CLIENT_ID_LEN = name) as -> by (apply str_take_all; lia). by apply before_nochr. }
  unfold wp at 1. rewrite Client_Search_ok; [|apply Hok|done|rewrite Hb; by destruct name].
  rewrite Hb. unfold addressee in HQ. destruct (find_client (w_tab w) name) as [a|]; cbn [is_null]; [by wp_step|].
  wp_step. unfold Client_First. wp_steps.
  eapply (wp_client_find _ _ (t_My_Clients (w_tab w)) []); [done|apply Hok|apply Hok|lia| |exact HQ].
  intros a c Q' Hc HQ'. by eapply wp_matches_plain.
Qed.

Lemma common_channel_ok a b l w (Q : bool -> World -> Prop) :
  Q (existsb (fun m => is_client (Some a) m &&
       existsb (is_member (Some (cc_channel m)) (Some b)) (t_My_Cl2Chan (w_tab w))) l) w ->
  wp (common_channel (Some a) (Some b) l) Q w.
Proof.
  induction l as [|m l IH]; cbn [common_channel existsb]; intros HQ; [by wp_step|].
  destruct (is_client (Some a) m); cbn [andb orb] in HQ; [|by apply IH].
  wp_step. eapply wp_IsMemberOf; [done|]. destruct (existsb _ (t_My_Cl2Chan _)); [by wp_step|by apply IH].
Qed.

Lemma existsb_next_cl2chan Client l g : Client <> NULL ->
  existsb (fun m => is_client Client m && g m) (next_cl2chan Client NULL l) =
  existsb (fun m => is_client Client m && g m) l.
Proof.
  intros Hc. induction l as [|m l IH]; [done|]. cbn [next_cl2chan].
  destruct Client as [a|]; [|done]. cbn [is_null negb andb].
  destruct (is_client (Some a) m) eqn:E; [done|]. cbn [existsb]. by rewrite E.
Qed.

Lemma wp_acquainted w a b (Q : bool -> World -> Prop) :
  Q (acquainted (w_tab w) a b) w ->
  wp (l ← Channel_FirstChannelOf (Some a); common_channel (Some a) (Some b) l) Q w.
Proof.
  intros HQ. wp_step. unfold Channel_FirstChannelOf, Get_First_Cl2Chan, Get_Next_Cl2Chan. wp_steps.
  apply common_channel_ok. by rewrite existsb_next_cl2chan.
Qed.

End Targets.

(** ** What a target gets *)

(** A message of [from] on its way to [tgt]. *)
Definition user_line (t : Tables) (tgt : nat) (from : CLIENT) (buffer : string) : list (Z * string) :=
  match hop t tgt ≫= fun h => t_clients t !! h with
  | Some x => [(cl_conn_id x, message_line x from buffer)]
  | None => []
  end.

(** A private message: refused if the target only talks to registered users
    (mode b) or to members of common channels (mode C), unless the sender is an
    IRC operator; announced as unread if the target is away. *)
Definition private_lines (t : Tables) (from : nat) (cf cs : CLIENT) (tgt : nat) (ct : CLIENT)
    (errors : bool) (command text : string) : list (Z * string) :=
  let user := has_chr (cl_modes cf) in
  let mode := has_chr (cl_modes ct) in
  if mode "b"%char && negb (user "R"%char) && negb (user "o"%char)
  then if errors then error_to cs cf ERR_NONONREG_MSG [FS (id_of ct)] else []
  else if mode "C"%char && negb (user "o"%char) && negb (acquainted t tgt from)
  then if errors then error_to cs cf ERR_NOTONSAMECHANNEL_MSG [FS (id_of ct)] else []
  else (if errors && mode "a"%char
        then error_to cs cf RPL_AWAY_MSG [FS (id_of ct); FS (from_opt "(null)" (cl_away ct))] else [])
       ++ user_line t tgt cf (snprintf BUFFER_LEN "%s %s :%s" [FS command; FS (id_of ct); FS text]).

(** The lines that a target causes, and whether the handler stops at it. *)
Definition target_lines (w : World) (from : nat) (cf cs : CLIENT) (errors : bool)
    (command text name : string) : list (Z * string) * bool :=
  let t := w_tab w in
  let unknown := if errors then error_to cs cf ERR_NOSUCHNICK_MSG [FS name] else [] in
  match addressee t name with
  | Some a =>
      match t_clients t !! a with
      | Some ct => (if person ct then private_lines t from cf cs a ct errors command text else unknown, false)
      | None => ([], false)
      end
  | None =>
      match find_channel t name ≫= fun ch => pair ch <$> t_channels t !! ch with
      | Some (ch, c) => (write_lines w ch c from cf cs command errors text, false)
      | None => (unknown, negb errors)
      end
  end.

(** The lines of a list of targets: each target counts once, and at most 25 are
    served. *)
Fixpoint targets_lines (w : World) (from : nat) (cf cs : CLIENT) (errors : bool)
    (command text : string) (seen targets : list string) : list (Z * string) :=
  match targets with
  | [] => []
  | name :: rest =>
      let '(lines, stop) := if existsb (strcaseeq name) seen then ([], false)
                            else target_lines w from cf cs errors command text name in
      lines ++
      match rest with
      | [] => []
      | next :: _ =>
          if stop then []
          else if (MAX_HNDL_TARGETS <=? S (length seen))%nat
          then [(cl_conn_id cf, message_line cf cs (snprintf BUFFER_LEN ERR_TOOMANYTARGETS_MSG [FS next]))]
          else targets_lines w from cf cs errors command text (name :: seen) rest
      end
  end.

(** The state in which users talk: IDs are hashed, channel lists have no
    one-time entries, users are reachable. *)
Record talk_ok (w : World) : Prop := {
  to_hashed : ids_hashed (w_tab w);
  to_lists : forall ch c, t_channels (w_tab w) !! ch = Some c -> permanent (ch_bans c) /\ permanent (ch_excepts c);
  to_routed : forall a c, t_clients (w_tab w) !! a = Some c -> person c = true -> routed w a }.

(** Comparisons of the type of a user with other types. *)
Ltac user_type :=
  change (CLIENT_USER =? CLIENT_SERVER) with false;
  change (CLIENT_USER =? CLIENT_SERVICE) with false;
  change (CLIENT_USER =? CLIENT_USER) with true; cbn [negb andb orb].

Section Send.
Context `{Conf} `{IO : ConnIO} `{!ConnIOSpec IO}.
Context (from : nat) (cf cs : CLIENT).

(** The sender is a local user. *)
Definition sender_ok (w : World) : Prop :=
  state_ok w /\ t_clients (w_tab w) !! from = Some cf /\ cl_type cf = CLIENT_USER /\
  NONE < cl_conn_id cf /\ t_clients (w_tab w) !! t_This_Server (w_tab w) = Some cs.

Lemma sender_delivered l w w' : delivered l w w' -> sender_ok w -> sender_ok w'.
Proof using.
  intros D (Hok & H1 & H2 & H3 & H4). unfold sender_ok. rewrite (dl_tab _ _ _ D).
  split; [by eapply delivered_state_ok|done].
Qed.

Lemma wp_reply w fmt args (Q : bool -> World -> Prop) :
  sender_ok w -> (forall w', delivered (error_to cs cf fmt args) w w' -> Q true w') ->
  wp (reply_error (Some from) fmt args) Q w.
Proof using Type*.
  intros (Hok & Hf & _ & Hl & Hs) HQ. assert (Ht : w_tab w = w_tab w) by done.
  pose proof (so_clients _ Hok from cf Hf) as Hfok.
  unfold reply_error. wp_step. rd. by eapply wp_error_to.
Qed.

Lemma wp_refuse w (errors : bool) command m fmt args (Q : target_result -> World -> Prop) :
  (forall Q' : bool -> World -> Prop,
     (forall w', delivered (error_to cs cf fmt args) w w' -> Q' true w') -> wp m Q' w) ->
  (forall w', delivered (if errors then error_to cs cf fmt args else []) w w' -> Q (NextTarget command) w') ->
  wp (refuse errors command m) Q w.
Proof using.
  intros Hm HQ. unfold refuse. destruct errors.
  - wp_step. apply Hm. intros w' D. wp_step. by apply HQ.
  - wp_step. apply HQ, delivered_refl.
Qed.

Lemma wp_sender_unprivileged w (Q : bool -> World -> Prop) :
  sender_ok w -> Q (negb (has_chr (cl_modes cf) "o")) w -> wp (unprivileged (Some from)) Q w.
Proof using.
  intros (_ & Hf & Hty & _ & _) HQ. assert (Ht : w_tab w = w_tab w) by done.
  unfold unprivileged. wp_step. wp_step. rd. destruct (has_chr (cl_modes cf) "o"); cbn [negb] in *; [done|].
  repeat first [rd|wp_step|progress rewrite ?Hty; user_type]. done.
Qed.

Lemma wp_user_line w tgt h x fmt args (Q : bool -> World -> Prop) :
  sender_ok w -> hop (w_tab w) tgt = Some h -> t_clients (w_tab w) !! h = Some x -> NONE < cl_conn_id x ->
  (forall w', delivered (user_line (w_tab w) tgt cf (snprintf BUFFER_LEN fmt args)) w w' -> Q true w') ->
  wp (IRC_WriteStrClientPrefix (Some tgt) (Some from) fmt args) Q w.
Proof using Type*.
  intros (Hok & Hf & _) Hh Hx Hc HQ. eapply wp_WriteStrClientPrefix; [done..|]. intros w' D _.
  apply HQ. unfold user_line. rewrite Hh. cbn. by rewrite Hx.
Qed.

(** The three questions of [send_to_user]. *)
Lemma wp_registered_only w tgt ct (Q : bool -> World -> Prop) :
  sender_ok w -> t_clients (w_tab w) !! tgt = Some ct ->
  Q (has_chr (cl_modes ct) "b" && negb (has_chr (cl_modes cf) "R") && negb (has_chr (cl_modes cf) "o")) w ->
  wp (Client_HasMode (Some tgt) "b" <&&> not_ (Client_HasMode (Some from) "R") <&&> unprivileged (Some from)) Q w.
Proof using.
  intros Hs Hct HQ. pose proof Hs as (_ & Hf & _). assert (Ht : w_tab w = w_tab w) by done.
  wp_step. rd. destruct (has_chr (cl_modes ct) "b"); [|done].
  wp_step. wp_step. rd. destruct (has_chr (cl_modes cf) "R"); [done|]. cbn [negb andb] in *.
  by apply wp_sender_unprivileged.
Qed.

Lemma wp_strangers w tgt ct (Q : bool -> World -> Prop) :
  sender_ok w -> t_clients (w_tab w) !! tgt = Some ct ->
  Q (has_chr (cl_modes ct) "C" && negb (has_chr (cl_modes cf) "o") && negb (acquainted (w_tab w) tgt from)) w ->
  wp (Client_HasMode (Some tgt) "C" <&&> unprivileged (Some from) <&&>
      not_ (l ← Channel_FirstChannelOf (Some tgt); common_channel (Some tgt) (Some from) l)) Q w.
Proof using.
  intros Hs Hct HQ. assert (Ht : w_tab w = w_tab w) by done.
  wp_step. rd. destruct (has_chr (cl_modes ct) "C"); [|done].
  wp_step. apply wp_sender_unprivileged; [done|]. destruct (has_chr (cl_modes cf) "o"); [done|].
  cbn [negb andb] in *. wp_step. by apply wp_acquainted.
Qed.

Lemma wp_away w tgt ct (errors : bool) (Q : bool -> World -> Prop) :
  sender_ok w -> t_clients (w_tab w) !! tgt = Some ct ->
  Q (errors && has_chr (cl_modes ct) "a") w ->
  wp (mret errors <&&> (ty ← Client_Type (Some from); mret (negb (ty =? CLIENT_SERVER)))
      <&&> Client_HasMode (Some tgt) "a") Q w.
Proof using.
  intros (_ & Hf & Hty & _) Hct HQ. assert (Ht : w_tab w = w_tab w) by done.
  wp_step. wp_step. destruct errors; [|done]. wp_step. wp_step. rd. wp_step. rewrite Hty. user_type.
  by rd.
Qed.

(** A reply of this server that is not an error. *)
Lemma wp_notify w fmt args (Q : bool -> World -> Prop) :
  sender_ok w -> (forall w', delivered (error_to cs cf fmt args) w w' -> Q true w') ->
  wp (IRC_WriteStrClient (Some from) fmt (FS (id_of cf) :: args)) Q w.
Proof using Type*.
  intros (Hok & Hf & _ & Hl & Hs) HQ. destruct (so_local _ Hok from cf Hf) as [?|(_ & Hh & _)]; [lia|].
  eapply wp_WriteStrClient; [done..|reflexivity|done|]. intros w'. rewrite snprintf_s. intros D _. by apply HQ.
Qed.

Lemma wp_update_idle w (Q : unit -> World -> Prop) :
  sender_ok w -> (forall w', delivered [] w w' -> Q tt w') ->
  wp (if NONE <? cl_conn_id cf then Conn_UpdateIdle (cl_conn_id cf) else mret tt) Q w.
Proof using.
  intros (Hok & Hf & _ & Hl & _) HQ. destruct (Z.ltb_spec NONE (cl_conn_id cf)); [|lia].
  destruct (so_local _ Hok from cf Hf) as [?|((Hi & cn & Hcn & _) & _)]; [lia|].
  unfold Conn_UpdateIdle. wp_steps. eapply wp_upd_conn; [done..|]. apply HQ.
  by eapply delivered_insert_same.
Qed.

Lemma wp_send_to_user w tgt ct errors command name text (Q : target_result -> World -> Prop) :
  sender_ok w -> t_clients (w_tab w) !! tgt = Some ct -> routed w tgt ->
  (forall w', delivered
     (if person ct then private_lines (w_tab w) from cf cs tgt ct errors command text
      else if errors then error_to cs cf ERR_NOSUCHNICK_MSG [FS name] else []) w w' ->
     Q (NextTarget command) w') ->
  wp (send_to_user (Some from) (Some from) (Some tgt) CLIENT_USER errors command name text) Q w.
Proof using Type*.
  intros Hs Hct (h & x & Hh & Hx & Hcx) HQ. pose proof Hs as (Hok & Hf & Hty & Hl & Hcs).
  assert (Ht : w_tab w = w_tab w) by done. pose proof (so_clients _ Hok tgt ct Hct) as Hctok.
  pose proof (so_clients _ Hok from cf Hf) as Hfok.
  unfold send_to_user. wp_step. rd. user_type. unfold person in HQ.
  destruct (_ || _) eqn:Ep; cbn [negb] in HQ |- *.
  2: { rewrite (proj1 (orb_false_elim _ _ Ep)). cbn [negb andb].
       apply (wp_refuse _ _ _ _ ERR_NOSUCHNICK_MSG [FS name]); [|done]. intros Q' H'. by apply wp_reply. }
  rewrite andb_false_r. wp_step. wp_step. unfold private_lines in HQ.
  wp_step. eapply wp_registered_only; [done..|]. destruct (_ && _).
  { apply (wp_refuse _ _ _ _ ERR_NONONREG_MSG [FS (id_of ct)]); [|done]. intros Q' H'. wp_step. rd. by apply wp_reply. }
  wp_step. eapply wp_strangers; [done..|]. destruct (_ && _).
  { apply (wp_refuse _ _ _ _ ERR_NOTONSAMECHANNEL_MSG [FS (id_of ct)]); [|done].
    intros Q' H'. wp_step. rd. by apply wp_reply. }
  wp_step. eapply wp_away; [done..|]. set (away := errors && has_chr (cl_modes ct) "a") in *.
  assert (Haway : forall Q' : bool -> World -> Prop,
    (forall w', delivered (if away then error_to cs cf RPL_AWAY_MSG [FS (id_of ct); FS (from_opt "(null)" (cl_away ct))] else []) w w' -> Q' true w') ->
    wp (if away then
          id ← Client_ID (Some from); tid ← Client_ID (Some tgt); text ← Client_Away (Some tgt);
          IRC_WriteStrClient (Some from) RPL_AWAY_MSG [FS id; FS tid; FS (from_opt "(null)" text)]
        else mret true) Q' w).
  { intros Q' H'. destruct away; [|wp_step; apply H', delivered_refl].
    wp_step. rd. wp_step. rd. wp_step. unfold Client_Away. wp_step. rd. wp_step. by apply wp_notify. }
  wp_step. apply Haway. intros w1 D1. cbn [negb]. pose proof (sender_delivered _ _ _ D1 Hs) as Hs1.
  pose proof (dl_tab _ _ _ D1) as Ht1. wp_step. eapply wp_Client_Conn; [exact Ht1|done|].
  wp_step. apply wp_update_idle; [done|]. intros w2 D2. pose proof (dl_tab _ _ _ D2) as Ht2.
  rewrite Ht1 in Ht2. pose proof (sender_delivered _ _ _ D2 Hs1) as Hs2.
  wp_step. eapply wp_Client_ID; [exact Ht2|done..|].
  wp_step. eapply wp_user_line; rewrite ?Ht2; try done. intros w3 D3. wp_step. apply HQ.
  apply (delivered_trans _ _ _ _ _ D1). by apply (delivered_trans [] _ _ _ _ D2).
Qed.

Lemma talk_ok_delivered l w w' : delivered l w w' -> talk_ok w -> talk_ok w'.
Proof using.
  intros D [H1 H2 H3]. pose proof (dl_tab _ _ _ D) as Ht. split; rewrite ?Ht; try done.
  intros a c Hc Hp. destruct (H3 a c Hc Hp) as (h & x & Hh & Hx & Ho). exists h, x. by rewrite Ht.
Qed.

Lemma target_lines_delivered l w w' errors command text name :
  delivered l w w' ->
  target_lines w' from cf cs errors command text name = target_lines w from cf cs errors command text name.
Proof using.
  intros D. unfold target_lines, write_lines. rewrite (dl_tab _ _ _ D).
  destruct (addressee _ _); [done|]. destruct (find_channel _ _ ≫= _) as [[ch c]|]; [|done].
  by rewrite (channel_lines_delivered _ _ _ _ _ _ _ _ D).
Qed.

Lemma addressee_listed t name a : addressee t name = Some a -> a ∈ t_My_Clients t.
Proof using.
  unfold addressee, find_client. destruct (lfind _ _) as [b|] eqn:E.
  - intros [= <-]. by apply lfind_Some in E as [? _].
  - intros Hf. by apply lfind_Some in Hf as [? _].
Qed.

Lemma wp_send_to_target w errors command text name (Q : target_result -> World -> Prop) :
  sender_ok w -> channels_ok (w_tab w) -> talk_ok w -> plain name = true ->
  let '(lines, stop) := target_lines w from cf cs errors command text name in
  (forall w', delivered lines w w' -> Q (if stop then Return true else NextTarget command) w') ->
  wp (send_to_target (Some from) (Some from) CLIENT_USER errors text command name) Q w.
Proof using Type*.
  intros Hs Hch [Hids Hlists Hrt] Hp. pose proof Hs as (Hok & Hf & Hty & Hl & Hcs).
  assert (Ht : w_tab w = w_tab w) by done.
  destruct (target_lines w from cf cs errors command text name) as [lines stop] eqn:E. intros HQ.
  unfold target_lines in E. unfold send_to_target. wp_step. apply wp_find_target; [done..|].
  destruct (addressee (w_tab w) name) as [a|] eqn:Ea; cbn [is_null negb].
  - pose proof (addressee_listed _ _ _ Ea) as Ha.
    pose proof (so_listed _ Hok) as Hall. rewrite list.Forall_forall in Hall.
    destruct (Hall a Ha) as [ct Hct]. rewrite Hct in E. injection E as <- <-.
    destruct (person ct) eqn:Ep.
    + eapply wp_send_to_user; [done|done|by eapply Hrt|]. by rewrite Ep.
    + unfold send_to_user. wp_step. rd. user_type. unfold person in Ep.
      rewrite Ep, (proj1 (orb_false_elim _ _ Ep)). cbn [negb andb].
      apply (wp_refuse _ _ _ _ ERR_NOSUCHNICK_MSG [FS name]); [|done]. intros Q' H'. by apply wp_reply.
  - user_type. wp_step. apply find_channel_ok; [apply Hok|done|].
    destruct (find_channel (w_tab w) name) as [ch|] eqn:Ef; cbn [is_null negb].
    + apply find_channel_Some in Ef as (_ & c & Hc & _). cbn in E. rewrite Hc in E. injection E as <- <-.
      destruct (Hlists ch c Hc). wp_step. eapply wp_Channel_Write; [done..|]. intros w' D. wp_step. by apply HQ.
    + cbn in E. injection E as <- <-. unfold plain in Hp. apply andb_prop in Hp as [_ Hm%negb_true_iff].
      cbn [andb]. rewrite Hm. destruct errors; cbn [negb] in *; [|wp_step; apply HQ, delivered_refl].
      wp_step. apply wp_reply; [done|]. intros w' D. wp_step. by apply HQ.
Qed.

Lemma targets_lines_delivered l w w' errors command text seen targets :
  delivered l w w' ->
  targets_lines w' from cf cs errors command text seen targets =
  targets_lines w from cf cs errors command text seen targets.
Proof using.
  intros D. revert seen. induction targets as [|name rest IH]; intros seen; [done|].
  cbn [targets_lines]. by rewrite (target_lines_delivered _ _ _ _ _ _ _ D), IH.
Qed.

Lemma wp_send_loop errors command text targets seen w (Q : bool -> World -> Prop) :
  sender_ok w -> channels_ok (w_tab w) -> talk_ok w -> Forall (fun name => plain name = true) targets ->
  (forall w', delivered (targets_lines w from cf cs errors command text seen targets) w w' -> Q true w') ->
  wp (send_loop (Some from) (Some from) CLIENT_USER errors text seen command targets) Q w.
Proof using Type*.
  revert seen w. induction targets as [|name rest IH]; intros seen w Hs Hch Htk Hp HQ; cbn [send_loop].
  { wp_step. apply HQ, delivered_refl. }
  apply Forall_cons_1 in Hp as [Hp Hps]. cbn [targets_lines] in HQ.
  set (r := if existsb (strcaseeq name) seen then ([], false)
            else target_lines w from cf cs errors command text name) in *.
  assert (Hr : forall Q' : target_result -> World -> Prop,
    (forall w', delivered r.1 w w' -> Q' (if r.2 then Return true else NextTarget command) w') ->
    wp (if existsb (strcaseeq name) seen then mret (NextTarget command)
        else send_to_target (Some from) (Some from) CLIENT_USER errors text command name) Q' w).
  { intros Q' H'. unfold r in *. destruct (existsb (strcaseeq name) seen).
    - wp_step. apply H', delivered_refl.
    - pose proof (wp_send_to_target w errors command text name Q' Hs Hch Htk Hp) as Hw.
      destruct (target_lines w from cf cs errors command text name) as [lines stop]. by apply Hw. }
  wp_step. apply Hr. intros w1 D1. clear Hr. destruct r as [lines stop]. cbn [fst snd] in *.
  pose proof (sender_delivered _ _ _ D1 Hs) as Hs1. pose proof (dl_tab _ _ _ D1) as Ht1.
  destruct stop; [wp_step; apply HQ; by destruct rest; rewrite app_nil_r|].
  destruct rest as [|next rest']; [wp_step; apply HQ; by rewrite app_nil_r|]. rewrite <- Ht1 in Hch.
  pose proof Hs1 as (Hok1 & Hf1 & Hty & Hl & Hcs1). wp_step. eapply wp_Client_Conn; [reflexivity|done|].
  destruct (so_local _ Hok1 from cf Hf1) as [?|(Ho & Hh & _)]; [lia|].
  wp_step. apply wp_Conn_SetPenalty; [done|lia|]. intros w2 D2. pose proof (dl_tab _ _ _ D2) as Ht2.
  pose proof (sender_delivered _ _ _ D2 Hs1) as Hs2. pose proof (delivered_trans _ [] _ _ _ D1 D2) as D12.
  rewrite app_nil_r in D12. cbn [length]. destruct (MAX_HNDL_TARGETS <=? _)%nat.
  - pose proof Hs2 as (Hok2 & Hf2 & _ & _ & Hcs2).
    eapply wp_WriteErrClient; [done|by rewrite Ht2|done|done|by eexists|reflexivity|done|].
    intros w3. rewrite snprintf_s. intros D3. apply HQ. by apply (delivered_trans _ _ _ _ _ D12).
  - apply IH; rewrite ?Ht2; try done; [by apply (talk_ok_delivered _ _ _ D12)|].
    intros w3 D3. apply HQ. rewrite (targets_lines_delivered _ _ _ _ _ _ _ _ D12) in D3.
    by apply (delivered_trans _ _ _ _ _ D12).
Qed.

End Send.

(** ** Properties *)

(** C9: private messages and notices.  A local user sends PRIVMSG or NOTICE with a list of
    targets and a text; the targets are plain names (no masks, no user@host forms), the state is
    well formed, the lists of the channels have no one-time entries, every user can
    be reached, and the network accepts what is sent.  Then each of the targets is served once, in
    their order and at most 25 of them: a user gets the text over the connection of
    the next hop, unless modes b or C of the target forbid it, and for a PRIVMSG an away message
    comes back; a channel gets it if the sender may speak there.  PRIVMSG answers an
    unknown target with an error and goes on; NOTICE does not answer it and stops
    there.  If there is another target behind the 25th, both PRIVMSG and NOTICE are answered
    with ERR_TOOMANYTARGETS; this is the only reply to a NOTICE.  No other line is sent,
    and no table changes. *)
Theorem Send_Message_spec `{Conf} `{IO : ConnIO} `{!ConnIOSpec IO} w from cf cs Req (errors : bool) targets text :
  sender_ok from cf cs w -> channels_ok (w_tab w) -> talk_ok w ->
  rq_argv Req = [targets; text] -> hd0 text <> NUL ->
  Forall (fun name => plain name = true) (tokens targets ",") ->
  (if errors then IRC_PRIVMSG (Some from) Req w else IRC_NOTICE (Some from) Req w) =
    Send_Message (Some from) Req CLIENT_USER errors w /\
  exists w', Send_Message (Some from) Req CLIENT_USER errors w = Done true w' /\
    delivered (targets_lines w from cf cs errors (ngt_UpperStr (rq_command Req)) text [] (tokens targets ",")) w w'.
Proof.
  intros Hs Hch Htk Hr Hne Hp. split; [by destruct errors|]. pose proof Hs as (_ & Hf & Hty & _).
  assert (Ht : w_tab w = w_tab w) by done.
  match goal with |- exists w', ?m w = _ /\ delivered ?l _ _ =>
    assert (wp m (fun r w' => r = true /\ delivered l w w') w) as Hw end.
  { unfold Send_Message. wp_step. wp_step.
    assert (Message_Check_Send Req errors = MESSAGE_CHECK_OK) as ->.
    { unfold Message_Check_Send, argc, argv. rewrite Hr. cbn. apply Ascii.eqb_neq in Hne. by rewrite Hne. }
    wp_step. rd. rewrite Hty. user_type. wp_step.
    assert (Hfrom : forall Q : ptr -> World -> Prop, Q (Some from) w ->
      wp (match rq_prefix Req with Some _ => mret (Some from) | None => mret (Some from) end) Q w).
    { intros Q HQ. by destruct (rq_prefix Req); wp_step. }
    apply Hfrom. cbn [is_null]. unfold arg, argv. rewrite Hr. cbn. wp_step. wp_step.
    apply Ascii.eqb_neq in Hne. rewrite Hne. wp_step. wp_step. by apply (wp_send_loop from cf cs). }
  apply wp_done in Hw as (r & w' & Hw & -> & D). by exists w'.
Qed.

(** A NOTICE with fewer than two parameters. *)
Definition short_notice (Req : REQUEST) : bool :=
  strcaseeq (rq_command Req) "NOTICE" && (length (rq_argv Req) <? 2)%nat.

(** C17: a NOTICE without a text crashes the server.  Whatever client of any type
    but server sends NOTICE with fewer than two parameters and no prefix,
    registered or not, the request passes the parser and the checks of its
    parameters, which are skipped because errors are not wanted, and the handler
    then reads the text through a NULL pointer. *)
Theorem NOTICE_without_text `{Conf} `{IO : ConnIO} command numeric w idx cn a c line cmd args :
  command "NOTICE" = IRC_NOTICE -> t_My_Commands (w_tab w) = My_Commands ->
  0 <= idx -> n_conns (w_net w) !! Z.to_nat idx = Some cn -> cn_client cn = Some a ->
  t_clients (w_tab w) !! a = Some c -> cl_type c ∈ client_types -> cl_type c <> CLIENT_SERVER ->
  hd0 (ngt_TrimStr line) <> NUL -> Conf_ScrubCTCP && ScrubCTCP (ngt_TrimStr line) = false ->
  parse_line (ngt_TrimStr line) = Some (Request None cmd args) ->
  short_notice (Request None cmd args) = true ->
  Parse_Request command numeric idx line w = Crash NullDeref.
Proof.
  intros Hcmd Htab Hi Hcn Hcl Hc Hty Hns Hne Hctcp Hp [Heq Hargs%Nat.ltb_lt]%andb_prop. cbn [rq_command rq_argv] in *.
  pose proof (Conn_GetClient_done w idx cn a Hi Hcn Hcl) as Hget.
  pose proof (Client_Type_done w a c Hc) as Htype. pose proof (assert_nonneg_done w idx Hi) as Hidx.
  pose proof (Conn_Options_done w idx cn Hi Hcn) as Hopt.
  set (req := Request None cmd args) in *.
  assert (Hprefix : Validate_Prefix idx req w = Done (req, true, false) w).
  { unfold Validate_Prefix. rewrite (bind_done _ _ _ _ _ Hget), (bind_done _ _ w tt w) by done.
    rewrite (bind_done _ _ _ _ _ Htype), (bind_done _ _ _ _ _ Hopt). cbn [rq_prefix req].
    apply Z.eqb_neq in Hns. by rewrite Hns. }
  assert (Hcommand : Validate_Command idx req w = Done (req, true, false) w).
  { unfold Validate_Command. by rewrite (bind_done _ _ _ _ _ Hidx). }
  unfold Parse_Request. rewrite (bind_done _ _ _ _ _ Hidx).
  apply Ascii.eqb_neq in Hne. rewrite Hne, Hctcp, Hp, (bind_done _ _ _ _ _ Hprefix). cbn [negb].
  rewrite (bind_done _ _ _ _ _ Hcommand). cbn [negb]. rewrite (bind_done _ _ w (req, true, false) w) by done. cbn [negb].
  unfold Handle_Request. rewrite (bind_done _ _ _ _ _ Hidx), (bind_done _ _ _ _ _ Hget).
  rewrite (bind_done _ _ w tt w) by done. rewrite (bind_done _ _ _ _ _ Htype). cbn [rq_command req].
  apply strcaseeq_spec in Heq. pose proof (f_equal slen Heq) as Hlen. rewrite !slen_lower in Hlen.
  rewrite Hlen. change (slen "NOTICE" =? 3)%nat with false. rewrite andb_false_r. cbn [andb]. rewrite (bind_done _ _ w (t_My_Commands (w_tab w)) w) by done.
  rewrite Htab, (find_command_case _ _ _ Heq). cbn [find_command].
  match goal with |- context [match ?f with Some _ => _ | None => _ end] =>
    change f with (Some (CMD "NOTICE" CLIENT_ANY 0 (-1) 0)) end.
  unfold dispatch. change (cmd_type (CMD "NOTICE" CLIENT_ANY 0 (-1) 0)) with CLIENT_ANY.
  assert (Z.land (cl_type c) CLIENT_ANY =? 0 = false) as ->.
  { clear -Hty. apply list_elem_of_In in Hty. simpl in Hty. repeat (destruct Hty as [<-|Hty]; [done|]). done. }
  change (negb (cmd_penalty _ =? 0)) with false. cbn iota. rewrite (bind_done _ _ w tt w) by done.
  assert (0 <= argc req < 2) as Hargc by (unfold argc, req; cbn; lia).
  cbn [cmd_min_argc cmd_max_argc CMD]. rewrite (proj2 (Z.ltb_ge _ _)) by lia. cbn [orb negb andb].
  change (-1 =? -1) with true. cbn [orb negb andb]. unfold run_command.
  rewrite (bind_done _ _ w tt (set_w_net (set_n_WCounter 0 (w_net w)) w)) by done.
  change (cmd_name _) with "NOTICE". rewrite Hcmd.
  match goal with |- (_ ≫= _) ?w' = _ => set (w1 := w') end.
  assert (IRC_NOTICE (Some a) req w1 = Crash NullDeref) as Hcrash; [|unfold mbind at 1, M_bind at 1; by rewrite Hcrash].
  unfold IRC_NOTICE, Send_Message. rewrite (bind_done _ _ w1 tt w1) by done.
  assert (Message_Check_Send req false = MESSAGE_CHECK_OK) as ->.
  { unfold Message_Check_Send, req. by destruct args as [|x [|y l]]; [| |cbn in Hargs; lia]. }
  rewrite (bind_done _ _ _ _ _ (Client_Type_done w1 a c Hc)), (bind_done _ _ w1 (Some a) w1) by done.
  cbn [is_null]. unfold arg, argv, req. by destruct args as [|x [|y l]]; [| |cbn in Hargs; lia].
Qed.
