(* ===== verification/ModeSpec.v ===== *)
(** * User modes: the contracts

    What a user can do to the own modes: every request leads, by steps that are
    allowed, to other modes and changes nothing else; privileges are never gained
    by MODE; and a request with an empty parameter that the server does not
    survive. *)

From stdpp Require Import relations.
From S2P Require Import Prelude CString Match Hash Checks Lists Messages World ClientCore.
From S2P Require Import ConnFunc ConnSpec ChannelCore State ClientSpec IrcWrite Channel ChannelSpec.
From S2P Require Import Quit Client Parse Reader ReaderSpec Irc IrcInfo IrcMode MessageSpec.

(** ** Changing a client *)

Lemma hop_same t t' a :
  (forall b, cl_introducer <$> t_clients t' !! b = cl_introducer <$> t_clients t !! b) ->
  size (t_clients t') = size (t_clients t) -> t_This_Server t' = t_This_Server t ->
  hop t' a = hop t a.
Proof.
  intros Hc Hz Hs. unfold hop. rewrite Hz. generalize (S (size (t_clients t))). intros n.
  revert a. induction n as [|n IH]; intros a; cbn [hop_of]; [done|]. rewrite Hs.
  specialize (Hc a). destruct (t_clients t !! a) as [x|], (t_clients t' !! a) as [y|]; cbn in Hc; try done.
  injection Hc as Hc. change (Some ?x ≫= ?f) with (f x). cbv beta. rewrite Hc.
  destruct (cl_introducer x) as [i|]; [|done]. by destruct (decide _).
Qed.

(** The tables in which client [a] is [c]. *)
Definition with_client (t : Tables) (a : nat) (c : CLIENT) : Tables :=
  set_t_clients (<[a := c]> (t_clients t)) t.

Lemma with_client_hop t a c c' b :
  t_clients t !! a = Some c -> cl_introducer c' = cl_introducer c -> hop (with_client t a c') b = hop t b.
Proof.
  intros Hc Hi. apply hop_same; cbn; [|by apply map_size_insert_Some|done].
  intros x. destruct (decide (a = x)) as [<-|Hne]; [by rewrite lookup_insert_eq, Hc; cbn; rewrite Hi|].
  by rewrite lookup_insert_ne.
Qed.

(** A change of the modes, the flags or the texts of a client keeps a state well formed. *)
Lemma with_client_state_ok `{Conf} w a c c' :
  state_ok w -> t_clients (w_tab w) !! a = Some c -> cl_introducer c' = cl_introducer c ->
  cl_conn_id c' = cl_conn_id c -> client_ok c' = true ->
  state_ok (set_w_tab (with_client (w_tab w) a c') w).
Proof.
  intros [A B C1 C0 C2 C3 C4 C5 C6 C6' C7 C8 C9 C10] Hc Hi Hn Hok.
  assert (Hh : forall b, hop (with_client (w_tab w) a c') b = hop (w_tab w) b) by (intros; by eapply with_client_hop).
  assert (Hsome : forall b, is_Some (t_clients (w_tab w) !! b) -> is_Some (t_clients (with_client (w_tab w) a c') !! b)).
  { intros b Hb. cbn. destruct (decide (a = b)) as [<-|?]; [by rewrite lookup_insert_eq|by rewrite lookup_insert_ne]. }
  assert (Hlook : forall b x, t_clients (with_client (w_tab w) a c') !! b = Some x ->
    exists y, t_clients (w_tab w) !! b = Some y /\ cl_conn_id x = cl_conn_id y /\ client_ok x = true).
  { intros b x. cbn. destruct (decide (a = b)) as [<-|?].
    - rewrite lookup_insert_eq. intros [= <-]. by exists c.
    - rewrite lookup_insert_ne by done. intros Hx. exists x. by split; [|split; [|apply (C2 b)]]. }
  split; cbn [w_tab w_net set_w_tab]; try done.
  - intros i cn Hi'. specialize (B i cn Hi'). unfold conn_ok in *. destruct (cn_client cn); [|done]. by apply Hsome.
  - intros i cn h Hcn Hh'. specialize (C0 i cn h Hcn Hh'). cbn. destruct (decide (a = h)) as [<-|?].
    + rewrite lookup_insert_eq. rewrite Hc in C0. cbn in *. by rewrite Hn.
    + by rewrite lookup_insert_ne.
  - intros b x Hx. by apply Hlook in Hx as (? & _ & _ & ?).
  - intros b x Hx. apply Hlook in Hx as (y & Hy & E & _). unfold local_ok. rewrite E. cbn [w_tab w_net set_w_tab].
    rewrite Hh. apply (C3 b y Hy).
  - eapply Forall_impl; [|exact C5]. cbv beta. apply Hsome.
  - by apply Hsome.
  - by rewrite Hh.
  - eapply Forall_impl; [|exact C9]. intros m [(h & x & H1 & H2 & H3) H4]. split; [|done].
    unfold routed. cbn [w_tab set_w_tab]. rewrite Hh. exists h.
    destruct (decide (a = h)) as [<-|?].
    + exists c'. cbn. rewrite lookup_insert_eq. rewrite Hc in H2. injection H2 as <-. by rewrite Hn.
    + exists x. cbn. by rewrite lookup_insert_ne.
Qed.

(** ** The steps that are allowed *)

(** What a user with the modes [modes] may set and remove. *)
Definition may_set `{Conf} (modes : string) (m : ascii) : bool :=
  str_mem m "bCiIsw" || (m =c "r"%char) || ((m =c "B"%char) && negb (has_chr modes "r"))
  || (str_mem m "cqF" && has_chr modes "o")
  || ((m =c "x"%char) && negb (has_chr modes "r")
      && (negb (hd0 Conf_CloakHostModeX =c NUL) || has_chr modes "o")).

Definition may_remove (modes : string) (m : ascii) : bool :=
  str_mem m "bCiIswcqFo" || (str_mem m "Bx" && negb (has_chr modes "r")).

Definition may_change `{Conf} (set : bool) (modes : string) (m : ascii) : bool :=
  if set then may_set modes m else may_remove modes m.

Definition changed (set : bool) (modes : string) (m : ascii) : string :=
  if set then (mode_add modes m CLIENT_MODE_LEN).2 else (mode_del modes m).2.

(** The modes after all characters of a text have been read: signs switch between
    setting and removing, and what is not allowed is skipped. *)
Fixpoint user_modes `{Conf} (set : bool) (modes text : string) : string :=
  match text with
  | "" => modes
  | String m text' =>
      if is_sign m then user_modes (m =c "+"%char) modes text'
      else user_modes set (if may_change set modes m then changed set modes m else modes) text'
  end.

(** One change of the modes of a user. *)
Inductive mode_change `{Conf} (modes : string) : string -> Prop :=
  | set_mode m : may_set modes m = true -> mode_change modes (mode_add modes m CLIENT_MODE_LEN).2
  | remove_mode m : may_remove modes m = true -> mode_change modes (mode_del modes m).2.

Lemma mode_del_mem modes m x : str_mem x (mode_del modes m).2 = true -> str_mem x modes = true.
Proof.
  induction modes as [|a l IH]; cbn; [done|]. destruct (a =c m); cbn; [intros ->; by rewrite orb_true_r|].
  destruct (mode_del l m) as [r l']. cbn in *. intros [->|H]%orb_prop; [done|]. rewrite IH by done. apply orb_true_r.
Qed.

Lemma mode_del_keep modes m x : (x =c m) = false -> str_mem x (mode_del modes m).2 = str_mem x modes.
Proof.
  intros Hx. induction modes as [|a l IH]; cbn; [done|]. destruct (a =c m) eqn:E; cbn.
  - apply Ascii.eqb_eq in E as ->. by rewrite (Ascii.eqb_sym m x), Hx.
  - destruct (mode_del l m) as [r l']. cbn in *. by rewrite IH.
Qed.

Lemma strlcat_mem x d s n : str_mem x (strlcat d s n) = true -> str_mem x d = true \/ str_mem x s = true.
Proof.
  unfold strlcat. destruct (_ && _); [|by left]. rewrite str_mem_app.
  intros [?|H]%orb_prop; [by left|right]. by apply str_mem_take in H.
Qed.

Lemma strlcat_keep x d s n : str_mem x d = true -> str_mem x (strlcat d s n) = true.
Proof. intros H. unfold strlcat. destruct (_ && _); [|done]. by rewrite str_mem_app, H. Qed.

Lemma mode_add_mem modes m n x :
  str_mem x (mode_add modes m n).2 = true -> str_mem x modes = true \/ x = m.
Proof.
  unfold mode_add. destruct (has_chr modes m); cbn; [by left|].
  intros [?|H]%strlcat_mem; [by left|right]. cbn in H. rewrite orb_false_r in H. by apply Ascii.eqb_eq in H.
Qed.

Lemma mode_add_keep modes m n x : str_mem x modes = true -> str_mem x (mode_add modes m n).2 = true.
Proof. intros H. unfold mode_add. destruct (has_chr modes m); [done|]. by apply strlcat_keep. Qed.

(** The privileges: [o] is the operator's, the others need it or come from a server. *)
Definition no_gain (modes modes' : string) : Prop :=
  (forall x, str_mem x "oaR" = true -> str_mem x modes' = true -> str_mem x modes = true) /\
  (forall x, str_mem x "cqF" = true -> str_mem x modes' = true -> str_mem x modes = true \/ has_chr modes "o" = true) /\
  (has_chr modes "r" = true -> has_chr modes' "r" = true /\ has_chr modes' "B" = has_chr modes "B" /\
     has_chr modes' "x" = has_chr modes "x").

(** Facts about the modes that may be set and removed, by cases on the character. *)
Ltac by_mode m := clear; intros; all_chars m; cbn in *; try done; by rewrite ?orb_false_r in *.

Lemma may_set_never `{Conf} modes m : str_mem m "oaR" = true -> may_set modes m = true -> False.
Proof. unfold may_set. generalize (has_chr modes "r") (has_chr modes "o"). by_mode m. Qed.

Lemma may_set_oper `{Conf} modes m : str_mem m "cqF" = true -> may_set modes m = true -> has_chr modes "o" = true.
Proof. unfold may_set. generalize (has_chr modes "r") (has_chr modes "o"). by_mode m. Qed.

Lemma may_set_restricted `{Conf} modes m :
  has_chr modes "r" = true -> may_set modes m = true -> ("B" =c m)%char = false /\ ("x" =c m)%char = false.
Proof. unfold may_set. intros ->. generalize (has_chr modes "o"). by_mode m. Qed.

Lemma may_remove_restricted modes m :
  has_chr modes "r" = true -> may_remove modes m = true ->
  ("r" =c m)%char = false /\ ("B" =c m)%char = false /\ ("x" =c m)%char = false.
Proof. unfold may_remove. intros ->. by_mode m. Qed.

(** An allowed step gains nothing, whatever the mode. *)
Lemma mode_change_no_gain `{Conf} modes modes' : mode_change modes modes' -> no_gain modes modes'.
Proof.
  assert (Hm : forall s c, c <> NUL -> has_chr s c = str_mem c s) by (intros; by apply strchr_mem).
  intros [m Hs|m Hs]; split.
  - intros x Hx [?|E]%mode_add_mem; [done|]. subst x. by destruct (may_set_never modes m).
  - split; [intros x Hx [?|E]%mode_add_mem; [by left|]; subst x; right; by apply (may_set_oper modes m)|].
    intros Hr. destruct (may_set_restricted modes m Hr Hs) as [HB Hx].
    assert (Hsame : forall c, c <> NUL -> (c =c m) = false -> has_chr (mode_add modes m CLIENT_MODE_LEN).2 c = has_chr modes c).
    { intros c Hc Hcm. rewrite !Hm by done. destruct (str_mem c modes) eqn:E; [by apply mode_add_keep|].
      destruct (str_mem c (mode_add modes m CLIENT_MODE_LEN).2) eqn:E'; [|done].
      apply mode_add_mem in E' as [?|Ec]; [congruence|]. by rewrite Ec, Ascii.eqb_refl in Hcm. }
    rewrite (Hsame "B"%char), (Hsame "x"%char) by done.
    split; [|done]. rewrite Hm in Hr |- * by done. by apply mode_add_keep.
  - intros x _ Hx. by apply mode_del_mem in Hx.
  - split; [intros x _ Hx; left; by apply mode_del_mem in Hx|].
    intros Hr. destruct (may_remove_restricted modes m Hr Hs) as (H1 & H2 & H3).
    assert (Hsame : forall c, c <> NUL -> (c =c m) = false -> has_chr (mode_del modes m).2 c = has_chr modes c)
      by (intros c Hc Hcm; rewrite !Hm by done; by apply mode_del_keep).
    by rewrite !Hsame by done.
Qed.

Lemma no_gain_trans m1 m2 m3 : no_gain m1 m2 -> no_gain m2 m3 -> no_gain m1 m3.
Proof.
  intros (A1 & A2 & A3) (B1 & B2 & B3). split; [naive_solver|]. split.
  - intros x Hx H3. destruct (B2 x Hx H3) as [H2|H2]; [by apply A2|]. right.
    rewrite !strchr_mem in * by done. by apply A1.
  - intros Hr. destruct (A3 Hr) as (Hr2 & <- & <-). by apply B3.
Qed.

Lemma mode_changes_no_gain `{Conf} modes modes' : rtc mode_change modes modes' -> no_gain modes modes'.
Proof.
  induction 1 as [m|m1 m2 m3 H1 _ IH]; [|by eapply no_gain_trans; [apply mode_change_no_gain|]].
  split; [done|]. split; [|done]. intros. by left.
Qed.

(** Turns tests of the mode character into equations. *)
Ltac is_mode :=
  repeat match goal with E : (_ || _) = true |- _ => apply orb_prop in E as [E|E] end;
  match goal with E : (_ =c _) = true |- _ => apply Ascii.eqb_eq in E; subst end.

(** The decision in the order of the handler. *)
Definition mode_verdict `{Conf} (set : bool) (modes : string) (m : ascii) : bool :=
  if has_chr "bCiIsw" m && negb (m =c NUL) then true
  else if m =c "a"%char then false
  else if m =c "B"%char then negb (has_chr modes "r")
  else if (m =c "c"%char) || (m =c "q"%char) || (m =c "F"%char) then negb set || has_chr modes "o"
  else if m =c "o"%char then negb set
  else if m =c "r"%char then set
  else if m =c "R"%char then false
  else if m =c "x"%char then
    negb (has_chr modes "r") && (negb set || (negb (hd0 Conf_CloakHostModeX =c NUL) || has_chr modes "o"))
  else false.

Lemma may_change_cases `{Conf} set modes m : may_change set modes m = mode_verdict set modes m.
Proof.
  unfold may_change, may_set, may_remove, mode_verdict.
  generalize (has_chr modes "r") (has_chr modes "o") (negb (hd0 Conf_CloakHostModeX =c NUL)). clear. intros r o k.
  by destruct set, r, o, k; all_chars m.
Qed.

(** ** A user's own modes *)

Section user_modes.
Context `{Conf} `{IO : ConnIO} `{!ConnIOSpec IO}.
Context (a : nat).

(** [a] is a local user. *)
Definition user_ok (w : World) (c : CLIENT) : Prop :=
  state_ok w /\ t_clients (w_tab w) !! a = Some c /\ cl_type c = CLIENT_USER /\ NONE < cl_conn_id c.

Lemma user_delivered l w w' c : delivered l w w' -> user_ok w c -> user_ok w' c.
Proof using.
  intros D (Hok & H1 & H2 & H3). unfold user_ok. rewrite (dl_tab _ _ _ D).
  split; [by eapply delivered_state_ok|done].
Qed.

(** Nothing happens but that lines are sent to the client [c]. *)
Definition told (c : CLIENT) (w w' : World) : Prop :=
  exists lines, delivered lines w w' /\ Forall (fun l => l.1 = cl_conn_id c) lines.

Lemma told_refl c w : told c w w.
Proof using. exists []. split; [apply delivered_refl|constructor]. Qed.

Lemma told_trans c w1 w2 w3 : told c w1 w2 -> told c w2 w3 -> told c w1 w3.
Proof using.
  intros (l1 & D1 & F1) (l2 & D2 & F2). exists (l1 ++ l2). split; [by eapply delivered_trans|by apply Forall_app_2].
Qed.

Lemma told_tab c w w' : told c w w' -> w_tab w' = w_tab w.
Proof using. intros (l & D & _). apply (dl_tab _ _ _ D). Qed.

Lemma user_told w w' c : told c w w' -> user_ok w c -> user_ok w' c.
Proof using. intros (l & D & _). by eapply user_delivered. Qed.

Lemma told_one c w w' s : delivered [(cl_conn_id c, s)] w w' -> told c w w'.
Proof using. intros D. exists [(cl_conn_id c, s)]. split; [done|]. constructor; [done|constructor]. Qed.

(** Lines to the user. *)
Lemma wp_tell w c fmt args (Q : bool -> World -> Prop) :
  user_ok w c -> (forall w', told c w w' -> Q true w') ->
  wp (IRC_WriteStrClientPrefix (Some a) (Some a) fmt args) Q w.
Proof using Type*.
  intros Hu HQ. pose proof Hu as (Hok & Hc & Hty & Hl).
  destruct (so_local _ Hok a c Hc) as [?|(_ & Hh & _)]; [lia|].
  eapply wp_WriteStrClientPrefix; [done..|]. intros w' D _. apply HQ. by eapply told_one.
Qed.

Lemma wp_tell_text w c fmt args (Q : bool -> World -> Prop) :
  user_ok w c -> (forall w', told c w w' -> Q true w') -> wp (IRC_WriteStrClient (Some a) fmt args) Q w.
Proof using Type*.
  intros Hu HQ. pose proof Hu as (Hok & Hc & Hty & Hl). destruct (so_this _ Hok) as [cs Hcs].
  destruct (so_local _ Hok a c Hc) as [?|(_ & Hh & _)]; [lia|].
  eapply wp_WriteStrClient; [done..|]. intros w' D _. apply HQ. by eapply told_one.
Qed.

Lemma wp_tell_reply w c fmt args (Q : bool -> World -> Prop) :
  user_ok w c -> (forall w', told c w w' -> Q true w') -> wp (reply (Some a) (Some a) fmt args) Q w.
Proof using Type*.
  intros Hu HQ. pose proof Hu as (Hok & Hc & _). assert (Ht : w_tab w = w_tab w) by done.
  pose proof (so_clients _ Hok a c Hc) as Hcok. unfold reply. wp_step. rd. by eapply wp_tell_text.
Qed.

Lemma wp_tell_error w c fmt args (Q : bool -> World -> Prop) :
  user_ok w c -> (forall w', told c w w' -> Q true w') -> wp (reply_error (Some a) fmt args) Q w.
Proof using Type*.
  intros Hu HQ. pose proof Hu as (Hok & Hc & Hty & Hl). destruct (so_this _ Hok) as [cs Hcs].
  assert (Ht : w_tab w = w_tab w) by done. pose proof (so_clients _ Hok a c Hc) as Hcok.
  unfold reply_error. wp_step. rd. eapply wp_error_to; [done..|]. intros w' D. apply HQ. by eapply told_one.
Qed.

(** One character: the tables stay, and a mode that is accepted is an allowed step. *)
Lemma wp_user_char w c set m (Q : bool * ascii * bool -> World -> Prop) :
  user_ok w c ->
  (forall w' x hide, w_tab w' = w_tab w -> user_ok w' c ->
     x = (if may_change set (cl_modes c) m then m else NUL) -> Q (true, x, hide) w') ->
  wp (client_mode_char (Some a) (Some a) (Some a) set m) Q w.
Proof using Type*.
  intros Hu HQ. pose proof Hu as (Hok & Hc & Hty & Hl). assert (Ht : w_tab w = w_tab w) by done.
  unfold client_mode_char. wp_step. rd. rewrite Hty. user_type.
  assert (Hdeny : forall fmt args, may_change set (cl_modes c) m = false ->
    wp (ok ← reply_error (Some a) fmt args; mret (ok, NUL, false)) Q w).
  { intros fmt args Hm. wp_step. apply (wp_tell_error w c); [done|]. intros w' T. wp_step.
    apply HQ; [by eapply told_tab|by eapply user_told|by rewrite Hm]. }
  assert (Hallow : forall hide, may_change set (cl_modes c) m = true -> wp (mret (true, m, hide)) Q w).
  { intros hide Hm. wp_step. apply HQ; [done|done|by rewrite Hm]. }
  pose proof (may_change_cases set (cl_modes c) m) as Hcases. unfold mode_verdict in Hcases.
  destruct (has_chr _ _ && negb _); [by apply Hallow|].
  destruct (m =c "a"%char); [by apply Hdeny|].
  destruct (m =c "B"%char).
  { wp_step. rd. destruct (has_chr (cl_modes c) "r"); [by apply Hdeny|by apply Hallow]. }
  destruct (_ || _ || _).
  { wp_step. wp_step. wp_step. destruct set; cbn [negb orb] in *; [|by apply Hallow].
    rd. destruct (has_chr (cl_modes c) "o"); cbv beta iota; [by apply Hallow|by apply Hdeny]. }
  destruct (m =c "o"%char); [destruct set; [by apply Hdeny|by apply Hallow]|].
  destruct (m =c "r"%char); [destruct set; [by apply Hallow|by apply Hdeny]|].
  destruct (m =c "R"%char); [by apply Hdeny|].
  destruct (m =c "x"%char); [|by apply Hdeny].
  wp_step. rd. destruct (has_chr (cl_modes c) "r"); [by apply Hdeny|].
  wp_step. wp_step. wp_step. rewrite orb_false_r.
  destruct set; cbn [negb orb] in *; [|by apply Hallow].
  destruct (negb (hd0 Conf_CloakHostModeX =c NUL)); cbn [orb] in *; [by apply Hallow|].
  rd. destruct (has_chr (cl_modes c) "o"); cbv beta iota; [by apply Hallow|by apply Hdeny].
Qed.

Lemma wp_HostnameDisplayed w c (Q : option string -> World -> Prop) :
  user_ok w c -> (forall h, Q h w) -> wp (Client_HostnameDisplayed (Some a)) Q w.
Proof using.
  intros (Hok & Hc & _) HQ. assert (Ht : w_tab w = w_tab w) by done.
  pose proof (so_clients _ Hok a c Hc) as Hcok. unfold client_ok in Hcok. apply andb_prop in Hcok as [_ Hx].
  unfold Client_HostnameDisplayed. wp_step. rd. destruct (has_chr (cl_modes c) "x"); cbn [negb orb] in *.
  - wp_step. rd. destruct (cl_cloaked c); [|done]. by wp_step.
  - wp_step. unfold Client_Hostname. wp_step. rd. wp_step. by wp_step.
Qed.

(** What is sent about changed modes leaves the tables alone. *)
Lemma wp_announce_user w c the_modes (ok hidden : bool) (Q : bool -> World -> Prop) :
  user_ok w c -> (forall w', w_tab w' = w_tab w -> user_ok w' c -> Q true w') ->
  wp (announce_client_modes (Some a) (Some a) (Some a) the_modes ok hidden) Q w.
Proof using Type*.
  intros Hu HQ. pose proof Hu as (Hok & Hc & Hty & Hl). assert (Ht : w_tab w = w_tab w) by done.
  pose proof (so_clients _ Hok a c Hc) as Hcok.
  unfold announce_client_modes. wp_step. rd. wp_step. rd. rewrite Hty. user_type. wp_step.
  apply (wp_tell w c); [done|]. intros w1 T1. pose proof (told_tab _ _ _ T1) as E1.
  pose proof (user_told _ _ _ T1 Hu) as (Hok1 & Hc1 & _). wp_step. rd. wp_step.
  eapply wp_WriteStrServersPrefix; [done..|]. intros w2 D2. pose proof (dl_tab _ _ _ D2) as Ht2.
  assert (U2 : user_ok w2 c) by (eapply user_delivered; [done|]; by split).
  pose proof U2 as (Hok2 & Hc2 & _). rewrite E1 in Ht2. rewrite Ht2 in Hc2.
  wp_step. wp_step. wp_step. destruct hidden; cbv beta iota; [|wp_step; wp_step; by apply HQ].
  wp_step. rd. wp_step. rewrite (proj2 (Z.ltb_lt _ _) Hl). wp_step. wp_step. rd. wp_step.
  apply (wp_HostnameDisplayed w2 c); [done|]. intros h. wp_step. apply (wp_tell w2 c); [done|].
  intros w3 T3. pose proof (told_tab _ _ _ T3) as E3. wp_step. wp_step.
  apply HQ; [congruence|by eapply user_told].
Qed.

(** The world in which the user has the modes [ms]. *)
Definition user_world (w : World) (c : CLIENT) (ms : string) : World :=
  set_w_tab (with_client (w_tab w) a (set_cl_modes ms c)) w.

Lemma set_modes_twice c ms ms' : set_cl_modes ms' (set_cl_modes ms c) = set_cl_modes ms' c.
Proof using. done. Qed.

Lemma with_client_twice t c c' : with_client (with_client t a c) a c' = with_client t a c'.
Proof using. unfold with_client. cbn. by rewrite insert_insert_eq. Qed.

Lemma with_client_same t c : t_clients t !! a = Some c -> with_client t a c = t.
Proof using. intros Hc. unfold with_client. rewrite insert_id by done. by destruct t. Qed.

Lemma user_world_ok w c ms :
  user_ok w c -> (is_some (cl_cloaked c) = true \/ has_chr ms "x" = false) ->
  user_ok (user_world w c ms) (set_cl_modes ms c).
Proof using.
  intros (Hok & Hc & Hty & Hl) Hx. split; [|split; [|by split]].
  - eapply with_client_state_ok; [done..|]. pose proof (so_clients _ Hok a c Hc) as Hcok.
    unfold client_ok in *. apply andb_prop in Hcok as [H1 H2].
    cbn [cl_type cl_id cl_modes cl_cloaked set_cl_modes]. apply andb_true_intro. split; [done|].
    by destruct Hx as [->| ->]; [rewrite orb_true_r|].
  - cbn. by rewrite lookup_insert_eq.
Qed.

(** Only the mode x needs a cloaked host name. *)
Lemma cloak_kept c ms m :
  client_ok c = true -> is_some (cl_cloaked c) = true \/ m <> "x"%char ->
  (forall x, str_mem x ms = true -> str_mem x (cl_modes c) = true \/ x = m) ->
  is_some (cl_cloaked c) = true \/ has_chr ms "x" = false.
Proof using.
  intros Hcok Hx Hms. unfold client_ok in Hcok. apply andb_prop in Hcok as [_ Hcx].
  destruct Hx as [?|Hx]; [by left|]. rewrite !strchr_mem in * by done.
  destruct (is_some (cl_cloaked c)); [by left|right]. rewrite orb_false_r in Hcx. apply negb_true_iff in Hcx.
  destruct (str_mem "x" ms) eqn:E; [|done]. apply Hms in E as [?|?]; congruence.
Qed.

Definition join (l : list string) : string := fold_right String.append "" l.

(** The parameters from [i] on. *)
Definition later (Req : REQUEST) (i : nat) : list string := drop i (rq_argv Req).

(** The host name is cloaked already, or the cloak is not asked for. *)
Definition cloak_ready (c : CLIENT) (modes : list string) : Prop :=
  is_some (cl_cloaked c) = true \/ Forall (fun s => str_mem "x" s = false) modes.

Lemma mode_fuel_enough Req n : (list_sum (map slen (later Req n)) + length (rq_argv Req) <= mode_fuel Req)%nat.
Proof using.
  unfold later, mode_fuel. generalize (rq_argv Req). intros l. revert n.
  induction l as [|s l IH]; intros n; [by rewrite drop_nil|].
  unfold list_sum in *. destruct n as [|n]; cbn [drop map foldr length]; [specialize (IH 0%nat)|specialize (IH n)].
  - rewrite drop_0 in IH. lia.
  - lia.
Qed.

Lemma cloak_char c q l :
  cloak_ready c (q :: l) -> hd0 q =c NUL = false -> is_some (cl_cloaked c) = true \/ hd0 q <> "x"%char.
Proof using.
  intros [?|[Hx _]%Forall_cons_1] Hq; [by left|right]. intros E. destruct q as [|c1 q]; [done|].
  cbn in E, Hx. subst c1. by rewrite Ascii.eqb_refl in Hx.
Qed.

(** A mode that is changed by an allowed step. *)
Lemma wp_user_change w c set m (Q : bool -> World -> Prop) :
  user_ok w c -> (is_some (cl_cloaked c) = true \/ m <> "x"%char) ->
  (forall r, user_ok (user_world w c (changed set (cl_modes c) m)) (set_cl_modes (changed set (cl_modes c) m) c) ->
     Q r (user_world w c (changed set (cl_modes c) m))) ->
  wp (if set : bool then Client_ModeAdd (Some a) m else Client_ModeDel (Some a) m) Q w.
Proof using.
  intros Hu Hx HQ. pose proof Hu as (Hok & Hc & _).
  assert (Hcloak : forall ms, (forall x, str_mem x ms = true -> str_mem x (cl_modes c) = true \/ x = m) ->
    is_some (cl_cloaked c) = true \/ has_chr ms "x" = false) by (intros; eapply cloak_kept; [apply (so_clients _ Hok a c Hc)|..]; done).
  assert (Ht : w_tab w = w_tab w) by done. destruct set; unfold changed in HQ.
  - unfold Client_ModeAdd. wp_step. rd. pose proof (mode_add_mem (cl_modes c) m CLIENT_MODE_LEN) as Hmem.
    destruct (mode_add (cl_modes c) m CLIENT_MODE_LEN) as [r ms']. wp_step. unfold store_client. wp_step. wp_step.
    apply HQ, user_world_ok; auto.
  - unfold Client_ModeDel. wp_step. rd. pose proof (fun x => mode_del_mem (cl_modes c) m x) as Hmem.
    destruct (mode_del (cl_modes c) m) as [r ms']. wp_step. unfold store_client. wp_step. wp_step.
    apply HQ, user_world_ok; [done|]. apply Hcloak. auto.
Qed.

(** The character that is read next: the pointer is moved, at the end of a
    parameter to the next one. *)
Definition next_char (Req : REQUEST) (arg : nat) (p : string) : nat * option string :=
  match p with "" => (S arg, argv Req (S arg)) | String _ _ => (arg, Some p) end.

(** What is left behind the pointer [ptr]. *)
Definition left_over (Req : REQUEST) (arg : nat) (ptr : string) : nat :=
  slen ptr + list_sum (map slen (later Req (S arg))).

Lemma next_char_ready c Req arg c0 p :
  cloak_ready c (String c0 p :: later Req (S arg)) ->
  match next_char Req arg p with
  | (_, None) => p = "" /\ later Req (S arg) = []
  | (arg', Some q) =>
      cloak_ready c (q :: later Req (S arg')) /\ S (left_over Req arg' q) = left_over Req arg (String c0 p) /\
      p +:+ join (later Req (S arg)) = q +:+ join (later Req (S arg')) /\
      (p = "" /\ later Req (S arg) = q :: later Req (S arg') \/ q <> "" /\ arg' = arg)
  end.
Proof using.
  unfold cloak_ready, left_over, later, next_char. intros Hx. destruct p as [|c1 p].
  - unfold argv. destruct (rq_argv Req !! S arg) as [q|] eqn:E.
    + rewrite (drop_S _ _ _ E) in *. split; [|by split; [|split; [|left]]].
      destruct Hx as [?|Hx]; [by left|right]. by apply Forall_cons_1 in Hx as [_ Hx].
    + split; [done|]. by apply drop_ge, lookup_ge_None_1.
  - split; [|by split; [|split; [|right]]]. destruct Hx as [?|[Hx1 Hx2]%Forall_cons_1]; [by left|right]. constructor; [|done].
    cbn in Hx1 |- *. by apply orb_false_elim in Hx1 as [_ ?].
Qed.

(** What has not been read yet when [ptr] is at a character. *)
Definition unread (Req : REQUEST) (arg : nat) (ptr : string) : string := str_drop 1 ptr +:+ join (later Req (S arg)).

Lemma wp_user_loop c Req fuel : forall w ms arg ptr the_modes set hidden (Q : bool * string * bool -> World -> Prop),
  user_ok w (set_cl_modes ms c) -> ptr <> "" -> Forall (fun s => s <> "") (later Req (S arg)) ->
  cloak_ready c (ptr :: later Req (S arg)) ->
  (left_over Req arg ptr <= fuel)%nat ->
  (forall the_modes' hidden' w', w_tab w' = with_client (w_tab w) a (set_cl_modes (user_modes set ms (unread Req arg ptr)) c) ->
     user_ok w' (set_cl_modes (user_modes set ms (unread Req arg ptr)) c) ->
     Q (true, the_modes', hidden') w') ->
  wp (client_mode_loop fuel (Some a) (Some a) (Some a) Req arg ptr the_modes set hidden) Q w.
Proof using Type*.
  induction fuel as [|fuel IH]; intros w ms arg ptr the_modes set hidden Q Hu Hp Hne Hx Hf HQ;
    destruct ptr as [|c0 p]; try done; [unfold left_over in Hf; cbn [slen] in Hf; lia|].
  cbn [client_mode_loop advance]. wp_step. wp_step.
  pose proof (next_char_ready c Req arg c0 p Hx) as Hnext.
  change (match p with "" => _ | String _ _ => _ end) with (next_char Req arg p).
  destruct (next_char Req arg p) as [arg' next]. unfold unread in HQ. cbn [str_drop] in HQ.
  destruct next as [q|].
  2: { destruct Hnext as [-> E]. rewrite E in HQ. cbn [user_modes join fold_right String.append] in HQ. wp_step.
       apply HQ; [|done]. destruct Hu as (_ & Hc & _). by rewrite with_client_same. }
  destruct Hnext as (Hx' & Hf' & Htext & Hnext). rewrite Htext in HQ.
  assert (q <> "" /\ Forall (fun s => s <> "") (later Req (S arg'))) as [Hq Hne'].
  { destruct Hnext as [[_ E]|[? ->]]; [|done]. rewrite E in Hne. by apply Forall_cons_1 in Hne. }
  rewrite <- Hf' in Hf. apply le_S_n in Hf.
  assert (q +:+ join (later Req (S arg')) = String (hd0 q) (unread Req arg' q)) as Eq by (by destruct q).
  rewrite Eq in HQ. cbn [user_modes] in HQ. destruct (is_sign (hd0 q)) eqn:Es.
  { unfold set_action. destruct (Bool.eqb set (hd0 q =c "+"%char)) eqn:Eset; [apply eqb_prop in Eset; rewrite <- Eset in HQ|];
      by apply (IH w ms). }
  wp_step. apply (wp_user_char w (set_cl_modes ms c)); [done|]. intros w1 x hide E1 U1 ->.
  cbn [negb cl_modes set_cl_modes]. destruct (may_change set ms (hd0 q)) eqn:Em.
  2: { rewrite Ascii.eqb_refl. apply (IH w1 ms); try done. intros ? ? w' E. rewrite E1 in E. by apply HQ. }
  destruct (hd0 q =c NUL) eqn:Ex.
  { exfalso. apply Ascii.eqb_eq in Ex. rewrite Ex, may_change_cases in Em. by destruct set. }
  wp_step. apply (wp_user_change w1 (set_cl_modes ms c)); [done|by eapply cloak_char|].
  intros r U2. rewrite set_modes_twice in U2. cbn [cl_modes set_cl_modes] in *.
  apply (IH _ (changed set ms (hd0 q))); try done. intros ? ? w' E. unfold user_world in E. cbn [w_tab set_w_tab] in E.
  rewrite with_client_twice, E1 in E. by apply HQ.
Qed.

Lemma may_change_step set modes m : may_change set modes m = true -> mode_change modes (changed set modes m).
Proof using. destruct set; [apply set_mode|apply remove_mode]. Qed.

Lemma user_modes_steps text : forall set modes, rtc mode_change modes (user_modes set modes text).
Proof using.
  induction text as [|m text IH]; intros set modes; cbn [user_modes]; [done|]. destruct (is_sign m); [done|].
  destruct (may_change set modes m) eqn:E; [|done]. eapply rtc_l; [by apply may_change_step|done].
Qed.

(** What follows the requests of the client [a] in the read buffer of its connection. *)
Definition behind (w : World) : string := rest_of (t_clients (w_tab w)) (n_conns (w_net w)) (Some a).

(** The characters that MODE for the client [tgt] reads as modes. *)
Definition modes_read (w : World) (tgt : nat) (Req : REQUEST) : string :=
  match argv Req 1 with
  | Some ptr => if bool_decide (tgt = a) && is_sign (hd0 ptr) then join (later (read_on (behind w) Req) 1) else ""
  | None => ""
  end.

(** The outcome of a MODE command of the user, where [text] has been read. *)
Definition modes_outcome (w : World) (c : CLIENT) (text : string) (w' : World) : Prop :=
  let modes' := user_modes true (cl_modes c) text in
  rtc mode_change (cl_modes c) modes' /\ no_gain (cl_modes c) modes' /\
  w_tab w' = with_client (w_tab w) a (set_cl_modes modes' c) /\ state_ok w'.

Lemma modes_outcome_intro w c text w' :
  w_tab w' = with_client (w_tab w) a (set_cl_modes (user_modes true (cl_modes c) text) c) -> state_ok w' ->
  modes_outcome w c text w'.
Proof using.
  intros Ht Hok. pose proof (user_modes_steps text true (cl_modes c)) as Hs. split; [done|].
  split; [by apply mode_changes_no_gain|done].
Qed.

Lemma modes_unchanged w c w' :
  t_clients (w_tab w) !! a = Some c -> w_tab w' = w_tab w -> state_ok w' -> modes_outcome w c "" w'.
Proof using.
  intros Hc E Hok. apply modes_outcome_intro; [|done]. cbn [user_modes].
  rewrite E, with_client_same; [done|]. by destruct c.
Qed.

(** Finding the target of MODE by its nickname. *)
Lemma MODE_find_nick w c nick tgt Req :
  user_ok w c -> ids_hashed (w_tab w) -> channels_ok (w_tab w) -> rq_prefix Req = None -> argv Req 0 = Some nick ->
  Client_IsValidNick nick = true -> plain nick = true -> find_client (w_tab w) nick = Some tgt ->
  IRC_MODE (Some a) Req w = Client_Mode (Some a) (read_on (behind w) Req) (Some a) (Some tgt) w.
Proof using.
  intros (Hok & Hc & Hty & _) Hids Hch Hpre Harg Hv Hp Hf.
  pose proof (Client_Type_done w a c Hc) as Htype.
  unfold IRC_MODE, get_sender_or_return. rewrite (bind_done _ _ w tt w), (bind_done _ _ w (behind w) w) by done.
  rewrite (bind_done _ _ _ _ _ Htype), Hty by done.
  user_type. rewrite (bind_done _ _ w (Some (t_This_Server (w_tab w))) w) by done.
  rewrite Hpre, (bind_done _ _ w false w) by done. unfold arg. rewrite Harg, (bind_done _ _ w nick w), Hv by done.
  unfold plain in Hp. apply andb_prop in Hp as [[[[[Hne Hl]%andb_prop H1]%andb_prop _]%andb_prop _]%andb_prop _].
  apply negb_true_iff in H1. apply Nat.ltb_lt in Hl.
  assert (before "!" (strlcpy nick CLIENT_ID_LEN) = nick) as Hb.
  { assert (strlcpy nick CLIENT_ID_LEN = nick) as -> by (apply str_take_all; lia). by apply before_nochr. }
  rewrite (bind_done _ _ w (Some tgt) w).
  2: { rewrite Client_Search_ok; [by rewrite Hb, Hf|apply Hok|done|rewrite Hb; by destruct nick]. }
  destruct (Channel_IsValidName nick); [|by rewrite (bind_done _ _ w NULL w)].
  by rewrite (bind_done _ _ _ _ _ (Channel_Search_ok w nick (so_channels _ Hok) Hch)).
Qed.

Lemma argv_read_on b Req i : argv (read_on b Req) i = mode_text b <$> argv Req i.
Proof using. unfold argv. cbn. by rewrite list_lookup_fmap. Qed.

Lemma mode_text_sign b s : is_sign (hd0 (mode_text b s)) = is_sign (hd0 s).
Proof using. by destruct s. Qed.

Lemma mode_texts_nonempty b Req i : Forall (fun s => s <> "") (later (read_on b Req) i).
Proof using.
  unfold later, read_on. cbn [rq_argv]. rewrite <- fmap_drop. apply Forall_fmap, list.Forall_forall. by intros [|].
Qed.

Lemma user_modes_first text modes : is_sign (hd0 text) = true ->
  user_modes true modes text = user_modes (hd0 text =c "+"%char) modes (str_drop 1 text).
Proof using. destruct text as [|m text]; [done|]. cbn [user_modes hd0 str_drop]. by intros ->. Qed.

(** MODE of a local user for a nickname. *)
Lemma MODE_modes w c Req nick tgt :
  user_ok w c -> ids_hashed (w_tab w) -> channels_ok (w_tab w) ->
  rq_prefix Req = None -> argv Req 0 = Some nick -> Client_IsValidNick nick = true -> plain nick = true ->
  find_client (w_tab w) nick = Some tgt -> cloak_ready c (later (read_on (behind w) Req) 1) ->
  exists r w', IRC_MODE (Some a) Req w = Done r w' /\ modes_outcome w c (modes_read w tgt Req) w'.
Proof using Type*.
  intros Hu Hids Hch Hpre Harg Hv Hp Hf Hx. pose proof Hu as (Hok & Hc & Hty & Hl).
  assert (Ht : w_tab w = w_tab w) by done. rewrite (MODE_find_nick w c nick tgt) by done.
  apply wp_done. unfold Client_Mode. wp_step. rd. rewrite Hty. user_type.
  assert (Hsame : forall w', told c w w' -> modes_outcome w c "" w').
  { intros w' T. apply modes_unchanged; [done|by eapply told_tab|by apply (user_told _ _ _ T)]. }
  unfold ptr_eqb. rewrite argv_read_on. case_bool_decide as E; cbn [negb andb].
  2: { assert (modes_read w tgt Req = "") as ->; [|by apply (wp_tell_error w c)].
       unfold modes_read. rewrite bool_decide_eq_false_2 by congruence. by destruct (argv Req 1). }
  injection E as ->. unfold modes_read. rewrite bool_decide_eq_true_2 by done. set (b := behind w) in *.
  destruct (argv Req 1) as [ptr|] eqn:E1; cbn [fmap option_fmap option_map].
  2: { unfold Client_Modes. wp_step. wp_step. rd. wp_step. by apply (wp_tell_reply w c). }
  rewrite mode_text_sign. destruct (is_sign (hd0 ptr)) eqn:Es; cbn [negb andb]; [|by apply (wp_tell_error w c)].
  assert (mode_text b ptr = ptr) as Ep by (by destruct ptr). rewrite Ep.
  assert (rq_argv (read_on b Req) !! 1%nat = Some ptr) as E2 
    by (pose proof (argv_read_on b Req 1) as E2; rewrite E1 in E2; cbn [fmap option_fmap option_map] in E2; by rewrite Ep in E2).
  wp_step. unfold later in Hx |- *. rewrite (drop_S _ _ _ E2) in Hx |- *.
  eapply (wp_user_loop c (read_on b Req) _ w (cl_modes c)); try done.
  - by destruct c.
  - by destruct ptr.
  - apply mode_texts_nonempty.
  - change (left_over (read_on b Req) 1 ptr) with (list_sum (map slen (ptr :: drop 2 (rq_argv (read_on b Req))))).
    rewrite <- (drop_S _ _ _ E2). pose proof (mode_fuel_enough (read_on b Req) 1). unfold later in *. lia.
  - intros the_modes hidden w1 E3 U1.
    assert (unread (read_on b Req) 1 ptr = str_drop 1 (join (ptr :: drop 2 (rq_argv (read_on b Req))))) as Eun
      by (by destruct ptr).
    assert (hd0 (join (ptr :: drop 2 (rq_argv (read_on b Req)))) = hd0 ptr) as Ehd by (by destruct ptr).
    rewrite Eun, <- Ehd, <- user_modes_first in E3, U1 by (by rewrite Ehd).
    assert (Ho : forall w', w_tab w' = w_tab w1 -> user_ok w' (set_cl_modes (user_modes true (cl_modes c)
      (join (ptr :: drop 2 (rq_argv (read_on b Req))))) c) -> modes_outcome w c (join (ptr :: drop 2 (rq_argv (read_on b Req)))) w').
    { intros w' E' (Hok' & _). apply modes_outcome_intro; [congruence|done]. }
    destruct (1 <? slen the_modes)%nat; [|wp_step; by apply Ho].
    eapply (wp_announce_user w1); [exact U1|exact Ho].
Qed.

End user_modes.


(** ** Reading behind a request *)

Lemma args_ok_nonempty l : args_ok l = true -> Forall (fun s => s <> "") (removelast l).
Proof.
  induction l as [|x [|y l] IH]; [constructor|constructor|]. cbn [args_ok]. intros [Hx Hl]%andb_prop.
  change (removelast (x :: y :: l)) with (x :: removelast (y :: l)). constructor; [|by apply IH].
  intros ->. done.
Qed.

Lemma parse_line_args line Req :
  hd0 line <> " "%char -> parse_line line = Some Req -> rq_prefix Req = None ->
  Forall (fun s => s <> "") (removelast (rq_argv Req)).
Proof.
  unfold parse_line. intros Hh. destruct (hd0 line =c ":"%char).
  - destruct (next_word line) as [word [start|]]; [|done]. intros [= <-]. unfold parse_command. by destruct (next_word start).
  - intros [= <-] _. destruct (parse_command_wf None line Hh) as (_ & _ & Ha & _). by apply args_ok_nonempty.
Qed.

(** A line without line ends and terminators. *)
Definition plain_line (s : string) : bool := str_forall (fun a => negb (is_eol a) && negb (a =c NUL)) s.

Lemma plain_line_cons a s : plain_line (String a s) = true -> is_eol a = false /\ (a =c NUL) = false /\ plain_line s = true.
Proof. cbn. intros [[H1%negb_true_iff H2%negb_true_iff]%andb_prop H3]%andb_prop. done. Qed.

Lemma first_line_plain line rest :
  plain_line line = true -> first_line (line +:+ String CR (String LF rest)) = Some (slen line, 2%nat).
Proof.
  induction line as [|a line IH]; [done|]. intros (H1 & _ & H3)%plain_line_cons.
  cbn [String.append first_line slen]. by rewrite H1, IH.
Qed.

Lemma plain_line_nul line s : plain_line line = true -> str_mem NUL (line +:+ s) = str_mem NUL s.
Proof.
  induction line as [|a line IH]; [done|]. intros (_ & H2 & H3)%plain_line_cons. cbn [String.append str_mem].
  by rewrite H2, IH.
Qed.

Lemma nul_at_end line a s : nul_at (slen line) (line +:+ String a s) = line +:+ String NUL s.
Proof. induction line as [|x line IH]; [done|]. cbn. f_equal. exact IH. Qed.

Lemma str_drop_end line a s : str_drop (S (slen line)) (line +:+ String a s) = s.
Proof. induction line as [|x line IH]; [done|]. exact IH. Qed.

(** The rest of a buffer whose first line has no white space at its ends. *)
Lemma text_behind_line line rest :
  plain_line line = true -> str_mem NUL rest = false -> ngt_TrimStr line = line ->
  text_behind (line +:+ String CR (String LF rest)) = String LF rest.
Proof.
  intros Hl Hr Ht. unfold text_behind. rewrite find_eol_first by (by rewrite plain_line_nul).
  rewrite first_line_plain by done. rewrite str_take_app_le, str_take_all, Ht by lia.
  assert (slen (trim_start line) = slen line) as ->.
  { apply Nat.le_antisymm.
    - destruct (trim_start_spec line) as (l & E & _). apply (f_equal slen) in E. rewrite slen_app in E. lia.
    - destruct (trim_end_spec (trim_start line)) as (r & E & _). rewrite <- ngt_TrimStr_unfold, Ht in E.
      apply (f_equal slen) in E. rewrite slen_app in E. lia. }
  rewrite Nat.sub_diag, Nat.add_0_l, !nul_at_end, str_drop_end. by apply before_nomem.
Qed.

Lemma join_app l1 l2 : join (l1 ++ l2) = join l1 +:+ join l2.
Proof. unfold join. induction l1 as [|x l IH]; [done|]. cbn. by rewrite IH, str_app_assoc. Qed.

(** C14: an empty last parameter lets MODE read on in the buffer.  In a well-formed state
    where the network accepts what is sent, a local user (whose host name has been cloaked before, unless there is
    no x in what is read) sends, as the first line in the read buffer, MODE for the own nickname with mode
    strings of which the last one is empty (the line ends in a colon).  The handler takes
    the terminator of the empty parameter for a mode, moves the pointer past it, and
    reads everything that has been received behind this line as modes too: the
    modes of the user are those that result from the mode strings, the terminator,
    the line end and the rest of the buffer; other requests in there, which are still to be
    handled, change modes. *)
Theorem MODE_empty_parameter `{Conf} `{IO : ConnIO} `{!ConnIOSpec IO} a w c cn line rest Req nick ptr more :
  user_ok a w c -> ids_hashed (w_tab w) -> channels_ok (w_tab w) ->
  n_conns (w_net w) !! Z.to_nat (cl_conn_id c) = Some cn -> cn_rbuf cn = line +:+ String CR (String LF rest) ->
  plain_line line = true -> str_mem NUL rest = false -> ngt_TrimStr line = line ->
  parse_line line = Some Req -> rq_prefix Req = None -> rq_argv Req = nick :: ptr :: more ++ [""] ->
  Client_IsValidNick nick = true -> plain nick = true -> find_client (w_tab w) nick = Some a ->
  is_sign (hd0 ptr) = true -> cloak_ready c (ptr :: more ++ [rest]) ->
  exists r w', IRC_MODE (Some a) Req w = Done r w' /\
    w_tab w' = with_client (w_tab w) a
      (set_cl_modes (user_modes true (cl_modes c) (join (ptr :: more) +:+ String NUL (String LF rest))) c).
Proof.
  intros Hu Hids Hch Hcn Hbuf Hl Hr Ht Hparse Hpre Hargv Hv Hp Hf Hs Hx. pose proof Hu as (_ & Hc & _ & Hid).
  assert (behind a w = String LF rest) as Hb.
  { unfold behind, rest_of. cbn. rewrite Hc. cbn. destruct (Z.ltb_spec (cl_conn_id c) 0); [unfold NONE in *; lia|].
    rewrite Hcn. cbn. rewrite Hbuf. by apply text_behind_line. }
  assert (hd0 line <> " "%char) as Hh.
  { destruct (ngt_TrimStr_spec line) as (_ & _ & _ & _ & _ & Hh). rewrite Ht in Hh.
    destruct Hh as [->|[Hh _]]; [done|]. intros E. by rewrite E in Hh. }
  pose proof (parse_line_args line Req Hh Hparse Hpre) as Hne. rewrite Hargv in Hne.
  change (nick :: ptr :: more ++ [""]) with ((nick :: ptr :: more) ++ [""]) in Hne. rewrite removelast_last in Hne.
  assert (later (read_on (behind a w) Req) 1 = (ptr :: more) ++ [String NUL (String LF rest)]) as Hlater.
  { unfold later, read_on. cbn [rq_argv]. rewrite Hb, Hargv. cbn [map drop]. rewrite map_app. cbn [map mode_text].
    apply Forall_cons_1 in Hne as [_ Hne]. rewrite <- app_comm_cons. f_equal; [by destruct ptr|]. f_equal.
    apply Forall_cons_1 in Hne as [_ Hne]. clear - Hne. induction Hne as [|x l Hx _ IH]; [done|]. cbn. rewrite IH. by destruct x. }
  destruct (MODE_modes a w c Req nick a) as (r & w' & Hrun & _ & _ & Htab & _); try done.
  - unfold argv. by rewrite Hargv.
  - rewrite Hlater. destruct Hx as [?|Hx]; [by left|right]. change (ptr :: more ++ [rest]) with ((ptr :: more) ++ [rest]) in Hx.
    apply Forall_app in Hx as [H1 H2]. apply Forall_app. split; [done|]. by inversion H2; constructor.
  - exists r, w'. split; [done|]. rewrite Htab. unfold modes_read, argv. rewrite Hargv. cbn [lookup list_lookup].
    rewrite bool_decide_eq_true_2, Hs, Hlater, join_app by done. cbn [andb join fold_right String.append].
    by rewrite ?str_app_nil_r.
Qed.
