(* ===== verification/ChanModeSpec.v ===== *)
(** * Channel modes: the contract

    MODE for a channel, sent by a user without privileges in it, changes nothing
    at all and tells nobody but the sender. *)

From stdpp Require Import relations.
From S2P Require Import Prelude CString Match Hash Checks Lists Messages World ClientCore.
From S2P Require Import ConnFunc ConnSpec ChannelCore State ClientSpec IrcWrite Channel ChannelSpec.
From S2P Require Import Quit Client Parse Irc IrcInfo IrcMode MessageSpec ModeSpec.

(** No privileges at all. *)
Definition no_priv : PRIV := Priv false false false false false false.

(** The member [a] of the channel [ch] is not owner, admin, operator or half operator. *)
Definition member_powerless (t : Tables) (ch a : nat) : bool :=
  negb (has_chr (member_modes t ch a) "q" || has_chr (member_modes t ch a) "a" ||
        has_chr (member_modes t ch a) "o" || has_chr (member_modes t ch a) "h").

Section powerless.
Context `{Conf} `{IO : ConnIO} `{!ConnIOSpec IO}.
Context (a ch : nat) (c : CLIENT) (chan : CHANNEL) (Req : REQUEST).

(** The situation, which lasts while only lines are sent to the user. *)
Definition in_channel (w : World) : Prop :=
  user_ok a w c /\ t_channels (w_tab w) !! ch = Some chan.

Lemma in_channel_told w w' : told c w w' -> in_channel w -> in_channel w'.
Proof using. intros T [Hu Hch]. split; [by eapply user_told|by rewrite (told_tab _ _ _ T)]. Qed.

(** An operation that only tells the user something. *)
Definition tells (m : M bool) : Prop :=
  forall w (Q : bool -> World -> Prop), in_channel w -> (forall w', told c w w' -> Q true w') -> wp m Q w.

Lemma tells_error fmt args : tells (reply_error (Some a) fmt args).
Proof using Type*. intros w Q [Hu _] HQ. by apply (wp_tell_error a w c). Qed.

Lemma tells_chan_error fmt : tells (chan_error (Some a) (Some ch) fmt).
Proof using Type*.
  intros w Q [Hu Hch] HQ. assert (Ht : w_tab w = w_tab w) by done. unfold chan_error. wp_step. rd.
  by apply (wp_tell_error a w c).
Qed.

Lemma tells_elems fmt l : tells (show_elems (Some a) (Some ch) fmt l).
Proof using Type*.
  induction l as [|e l IH]; intros w Q Hi HQ; [apply HQ, told_refl|].
  pose proof Hi as [(Hok & Hc & Hu) Hch]. assert (Ht : w_tab w = w_tab w) by done.
  pose proof (so_clients _ Hok a c Hc) as Hcok. cbn [show_elems]. wp_step. rd. wp_step. rd. wp_step.
  apply (wp_tell_text a w c); [by split|]. intros w1 T1. apply IH; [by eapply in_channel_told|].
  intros w2 T2. by eapply HQ, told_trans.
Qed.

Lemma tells_list l fmt fmt_end : tells (ShowChannelList l (Some a) (Some ch) fmt fmt_end).
Proof using Type*.
  intros w Q Hi HQ. unfold ShowChannelList. wp_step. wp_step. wp_step. wp_step. wp_step.
  apply tells_elems; [done|]. intros w1 T1. pose proof (in_channel_told _ _ T1 Hi) as Hi1.
  pose proof Hi1 as [(Hok & Hc & Hu) Hch]. assert (Ht : w_tab w1 = w_tab w1) by done.
  pose proof (so_clients _ Hok a c Hc) as Hcok. cbn [negb]. wp_step. rd. wp_step. rd.
  apply (wp_tell_text a w1 c); [by split|]. intros w2 T2. by eapply HQ, told_trans.
Qed.

Lemma tells_show get fmt fmt_end :
  tells (h ← (x ← the_channel (Some ch); mret (get x)); ShowChannelList h (Some a) (Some ch) fmt fmt_end).
Proof using Type*.
  intros w Q Hi HQ. pose proof Hi as [_ Hch]. assert (Ht : w_tab w = w_tab w) by done.
  wp_step. wp_step. rd. wp_step. by apply tells_list.
Qed.

(** One character: only lines to the user, no mode to change, and the position of
    the next argument stays or moves by one. *)
Lemma wp_powerless_char w set m arg_arg count (Q : mode_step -> World -> Prop) :
  in_channel w -> (forall i, arg_arg = Some i -> (i < length (rq_argv Req))%nat) ->
  (forall w' leave arg' count', told c w w' -> arg' = arg_arg \/ arg' = S <$> arg_arg ->
     Q (ModeStep true leave NUL "" NULL arg' count') w') ->
  wp (channel_mode_char (Some a) (Some a) (Some ch) Req no_priv set m arg_arg count) Q w.
Proof using Type*.
  intros Hi Harg HQ. pose proof Hi as [(Hok & Hc & Hty & _) Hch]. assert (Ht : w_tab w = w_tab w) by done.
  assert (Hfail : forall leave error arg' count', tells error -> arg' = arg_arg \/ arg' = S <$> arg_arg ->
    wp (fail_with leave error arg' count') Q w).
  { intros leave error arg' count' He Ha. unfold fail_with. wp_step. apply He; [done|]. intros w' T. wp_step.
    by apply HQ. }
  assert (Hstop : forall count', wp (mret (ModeStep true true NUL "" NULL arg_arg count')) Q w).
  { intros count'. wp_step. apply HQ; [apply told_refl|by left]. }
  assert (Hbad : forall log error count', tells error -> wp (bad_argument (Some a) (Some ch) no_priv arg_arg log error count') Q w).
  { intros log error count' He. unfold bad_argument. cbn [is_machine no_priv]. apply Hfail; [done|by left]. }
  assert (Hlimit : forall k : bool -> M mode_step, (forall b, wp (k b) Q w) ->
    wp (limit ← Mode_Limit_Reached (Some a) count; k limit) Q w).
  { intros k Hk. unfold Mode_Limit_Reached. wp_step. wp_step. rd. wp_step. apply Hk. }
  assert (Hgive : forall i (k : string -> M mode_step), arg_arg = Some i -> (forall s, wp (k s) Q w) ->
    wp (s ← arg Req i; k s) Q w).
  { intros i k E Hk. apply Harg in E. unfold arg, argv.
    destruct (rq_argv Req !! i) as [s|] eqn:Es; [|by apply lookup_ge_None in Es; lia]. wp_step. wp_step. apply Hk. }
  assert (Hshow : forall m, tells m -> wp (_ ← m; change NUL "" NULL arg_arg (count + 1)) Q w).
  { intros m' Hm'. wp_step. apply Hm'; [done|]. intros w1 T. unfold change. wp_step. apply HQ; [done|by left]. }
  assert (Herr : forall fmt args, tells (reply_error (Some a) fmt args)) by apply tells_error.
  assert (Hchan : forall fmt, tells (chan_error (Some a) (Some ch) fmt)) by apply tells_chan_error.
  assert (Hinv : forall x, tells (invalid_param (Some a) (Some ch) x)).
  { intros x w' Q' Hi' HQ'. pose proof Hi' as [_ Hch']. assert (Ht' : w_tab w' = w_tab w') by done.
    unfold invalid_param. wp_step. rd. by apply Herr. }
  unfold channel_mode_char. cbv zeta.
  repeat match goal with |- wp (if ?b then _ else _) _ _ => destruct b end;
    unfold plain_mode, mode_key, mode_limit, mode_oper, mode_member, mode_list, unknown_mode;
    cbn [no_priv halfop_or_more op_or_more powerful is_oper is_machine is_owner is_admin is_op is_halfop orb].
  all: repeat first
    [ apply Hstop | apply Hlimit; intros [] | apply Hbad; [apply Hinv || apply Herr]
    | apply Hfail; [apply Herr || apply Hchan | by (left + right)]
    | eapply Hgive; [reflexivity|intros ?] | apply Hshow, tells_show
    | match goal with
      | |- wp (if ?b then _ else _) _ _ => destruct b
      | |- wp (match ?x with Some _ => _ | None => _ end) _ _ => destruct x
      | |- wp (_ ← (if ?b then _ else _); _) _ _ => destruct b
      end ].
  wp_step. rd. rewrite Hty. user_type. wp_step. rd. apply Hfail; [apply Herr|by left].
Qed.

(** ** The loop *)

Context (behind_text : string).

Notation texts := (read_on behind_text Req).

Lemma mode_text_nonempty x : mode_text behind_text x <> "".
Proof using. by destruct x. Qed.

Lemma length_texts : length (rq_argv texts) = length (rq_argv Req).
Proof using. apply length_map. Qed.

(** The characters in the parameters from an argument on. *)
Definition rest (arg_arg : option nat) : nat :=
  match arg_arg with Some i => list_sum (map slen (later texts i)) | None => 0 end.

Lemma rest_ge i : (length (rq_argv Req) <= i)%nat -> rest (Some i) = 0%nat.
Proof using. intros Hi. unfold rest, later. by rewrite drop_ge by (by rewrite length_texts). Qed.

Lemma rest_split i s : argv Req i = Some s -> rest (Some i) = (slen (mode_text behind_text s) + rest (Some (S i)))%nat.
Proof using.
  intros E. assert (argv texts i = Some (mode_text behind_text s)) as E' by (by rewrite argv_read_on, E).
  unfold rest, later. by rewrite (drop_S _ _ _ E').
Qed.

Lemma rest_succ arg_arg : (rest (S <$> arg_arg) <= rest arg_arg)%nat.
Proof using.
  destruct arg_arg as [i|]; [|done]. cbn [fmap option_fmap option_map].
  destruct (argv Req i) as [s|] eqn:E; [rewrite (rest_split _ _ E); lia|].
  apply lookup_ge_None in E. rewrite rest_ge; lia.
Qed.

Lemma rest_behind i : rest (arg_behind Req i) = rest (Some (S i)).
Proof using.
  unfold arg_behind. destruct (Nat.ltb_spec (S i) (length (rq_argv Req))); [done|]. by rewrite rest_ge.
Qed.

(** Arguments are behind the first mode string. *)
Definition args_behind (arg_arg : option nat) : Prop := forall i, arg_arg = Some i -> (2 <= i)%nat.

Lemma args_behind_behind i : (1 <= i)%nat -> args_behind (arg_behind Req i).
Proof using. unfold args_behind, arg_behind. intros Hi j. destruct (_ <? _)%nat; [intros [= <-]; lia|done]. Qed.

(** The result string is a sign: nothing has changed. *)
Definition only_sign (r : mode_result) : Prop := exists s, mr_modes r = String s "" /\ is_sign s = true.

Lemma wp_member_priv w (Q : PRIV -> World -> Prop) :
  existsb (is_member (Some ch) (Some a)) (t_My_Cl2Chan (w_tab w)) = true ->
  member_powerless (w_tab w) ch a = true -> Q no_priv w -> wp (member_priv (Some ch) (Some a) no_priv) Q w.
Proof using.
  intros Hm Hp HQ. unfold member_powerless in Hp. apply negb_true_iff in Hp.
  apply orb_false_elim in Hp as [[[H1 H2]%orb_false_elim H3]%orb_false_elim H4].
  unfold member_priv. cbn [no_priv powerful is_oper is_machine orb].
  wp_step. user_mode. wp_step. user_mode. wp_step. user_mode. wp_step. user_mode. wp_step.
  by rewrite H1, H2, H3, H4.
Qed.

(** The mode string that is read next. *)
Definition next_mode (p : string) (arg_arg : option nat) : option (string * option nat) :=
  match p with
  | "" => (fun x => (x.1.2, x.2)) <$> next_mode_string behind_text Req arg_arg
  | _ => Some (p, arg_arg)
  end.

Lemma next_ready fuel p arg_arg :
  args_behind arg_arg -> (slen p + rest arg_arg <= fuel)%nat ->
  match next_mode p arg_arg with
  | None => True
  | Some (q, arg') => q <> "" /\ args_behind arg' /\ (slen q + rest arg' <= fuel)%nat
  end.
Proof using.
  intros Hb Hf. destruct p as [|c0 p]; [|done]. cbn [next_mode]. unfold next_mode_string.
  destruct arg_arg as [i|]; [|done]. destruct (argv Req i) as [s|] eqn:E; [|done].
  cbn [fmap option_fmap option_map fst snd]. specialize (Hb i eq_refl).
  split; [apply mode_text_nonempty|]. split; [apply args_behind_behind; lia|].
  rewrite rest_behind. rewrite (rest_split _ _ E) in Hf. cbn [slen] in Hf. lia.
Qed.

Lemma only_sign_action r m tm set :
  only_sign r -> is_sign m = true -> set_action (mr_modes r) (mr_set r) m = (tm, set) ->
  only_sign (ModeResult set tm (mr_args r)).
Proof using.
  intros (x & E & Hx) Hm. unfold set_action. destruct (Bool.eqb _ _); [intros [= <- <-]; by exists x|].
  rewrite E. change (last_chr (String x "")) with x. rewrite Hx. intros [= <- <-]. by exists m.
Qed.

Lemma wp_powerless_loop fuel : forall w skip ptr arg_arg count r (Q : bool * mode_result -> World -> Prop),
  in_channel w -> existsb (is_member (Some ch) (Some a)) (t_My_Cl2Chan (w_tab w)) = true ->
  member_powerless (w_tab w) ch a = true -> (skip = true \/ ptr <> "") -> args_behind arg_arg -> only_sign r ->
  (slen ptr + (if skip : bool then 1 else 0) + rest arg_arg <= fuel)%nat ->
  (forall r' w', only_sign r' -> told c w w' -> Q (true, r') w') ->
  wp (channel_mode_loop fuel (Some a) (Some a) (Some ch) behind_text Req skip ptr arg_arg count no_priv r) Q w.
Proof using Type*.
  induction fuel as [|fuel IH]; intros w skip ptr arg_arg count r Q Hi Hm Hp Hptr Hb Hr Hf HQ.
  { destruct Hptr as [->|Hptr]; [lia|]. destruct ptr; [done|]. cbn [slen] in Hf. lia. }
  cbn [channel_mode_loop]. wp_step.
  assert (Hpos : forall k : string -> M (bool * mode_result), (forall p, (slen p + rest arg_arg <= fuel)%nat -> wp (k p) Q w) ->
    wp (if skip : bool then mret ptr else advance ptr) (fun p => wp (k p) Q) w).
  { intros k Hk. destruct skip; [wp_step; apply Hk; lia|]. destruct Hptr as [?|Hptr]; [done|].
    destruct ptr as [|c0 p]; [done|]. cbn [advance]. wp_step. apply Hk. cbn [slen] in Hf. lia. }
  apply Hpos. clear Hpos Hptr Hf skip ptr. intros p Hf.
  pose proof (next_ready fuel p arg_arg Hb Hf) as Hnext.
  change (match p with "" => _ | String _ _ => Some (p, arg_arg) end) with (next_mode p arg_arg).
  destruct (next_mode p arg_arg) as [[q arg']|]; [|wp_step; apply HQ; [done|apply told_refl]].
  destruct Hnext as (Hq & Hb' & Hf'). destruct (is_sign (hd0 q)) eqn:Es.
  { destruct (set_action _ _ _) as [tm set'] eqn:Ea. apply (IH w); auto; [by eapply only_sign_action|lia]. }
  set (arg1 := match arg' with Some i => _ | None => None end).
  assert (args_behind arg1 /\ rest arg1 = rest arg' /\ (forall i, arg1 = Some i -> (i < length (rq_argv Req))%nat)) as (Hb1 & Hr1 & Hl1).
  { unfold arg1. destruct arg' as [i|]; [|by split; [|split]].
    destruct (Nat.leb_spec (length (rq_argv Req)) i); [by rewrite rest_ge|]. split; [done|]. split; [done|]. congruence. }
  clearbody arg1. wp_step. apply wp_member_priv; [done..|]. wp_step. apply wp_powerless_char; [done..|].
  intros w1 leave arg2 count2 T1 Ha2. cbn [ms_exit ms_connected ms_x negb]. rewrite orb_false_r.
  destruct leave; [wp_step; by apply HQ|]. rewrite Ascii.eqb_refl. cbn [ms_arg ms_count].
  pose proof (told_tab _ _ _ T1) as E1. apply IH; rewrite ?E1; auto.
  - by eapply in_channel_told.
  - destruct Ha2 as [->| ->]; [done|]. intros i. destruct arg1 as [j|]; [|done]. intros [= <-]. specialize (Hb1 j eq_refl). lia.
  - pose proof (rest_succ arg1). destruct Ha2 as [->| ->]; lia.
  - intros r' w' Hr' T2. apply HQ; [done|by eapply told_trans].
Qed.

(** The modes, the limit and the key. *)
Lemma wp_mode_args modes : forall w the_args (Q : string -> World -> Prop),
  in_channel w -> (forall s, Q s w) -> wp (mode_args (Some ch) modes the_args) Q w.
Proof using.
  induction modes as [|m modes IH]; intros w the_args Q Hi HQ; [apply HQ|].
  pose proof Hi as [_ Hch]. assert (Ht : w_tab w = w_tab w) by done. cbn [mode_args]. wp_step.
  destruct (m =c "l"%char); [|destruct (m =c "k"%char)];
    unfold Channel_MaxUsers, Channel_Key; repeat (wp_step || rd); by apply IH.
Qed.

Lemma wp_sent m k w (Q : bool -> World -> Prop) :
  tells m -> in_channel w -> (forall w1, told c w w1 -> in_channel w1 -> wp k Q w1) -> wp (m ;! k) Q w.
Proof using.
  intros Hm Hi Hk. unfold write_ok. wp_step. apply Hm; [done|]. intros w1 T. apply Hk; [done|by eapply in_channel_told].
Qed.

Lemma tells_reply fmt args : tells (reply (Some a) (Some a) fmt args).
Proof using Type*. intros w Q [Hu _] HQ. by apply (wp_tell_reply a w c). Qed.

Lemma tells_answer : tells (Channel_Mode_Answer_Request (Some a) (Some ch)).
Proof using Type*.
  intros w Q Hi HQ. pose proof Hi as [Hu Hch]. assert (Ht : w_tab w = w_tab w) by done.
  unfold Channel_Mode_Answer_Request. wp_step. eapply wp_IsMemberOf; [done|]. unfold Channel_Modes. wp_step. wp_step. rd.
  wp_step. wp_step. rd. apply wp_sent; [|done|].
  { intros w1 Q1 Hi1 HQ1. destruct (existsb _ _); cbn [negb]; [|by apply tells_reply].
    cbv zeta. wp_step. apply wp_mode_args; [done|]. intros s. by apply tells_reply. }
  intros w1 T1 Hi1. pose proof Hi1 as [_ Hch1]. assert (Ht1 : w_tab w1 = w_tab w1) by done.
  unfold Channel_CreationTime. wp_step. wp_step. rd. wp_step. wp_step. rd.
  apply wp_sent; [apply tells_reply|done|]. intros w2 T2 _. wp_step. by eapply HQ, told_trans.
Qed.

Lemma tells_Channel_Mode w (Q : bool -> World -> Prop) :
  in_channel w -> (has_chr (cl_modes c) "o" && Conf_OperCanMode) = false ->
  (existsb (is_member (Some ch) (Some a)) (t_My_Cl2Chan (w_tab w)) = true -> member_powerless (w_tab w) ch a = true) ->
  (forall w', told c w w' -> Q true w') -> wp (Channel_Mode (Some a) behind_text Req (Some a) (Some ch)) Q w.
Proof using Type*.
  intros Hi Ho Hp HQ. pose proof Hi as [(Hok & Hc & Hty & Hl) Hch]. assert (Ht : w_tab w = w_tab w) by done.
  unfold Channel_Mode, Channel_IsModeless. wp_step. wp_step. rd. wp_step.
  destruct (hd0 (ch_name chan) =c "+"%char). { wp_step. rd. by apply tells_error. }
  destruct (argv Req 1) as [ptr|] eqn:E1; [|by apply tells_answer].
  wp_step. wp_step. rd.
  assert (Hrest : forall oper : bool, oper = false -> wp (
    ty ← Client_Type (Some a);
    let machine := (ty =? CLIENT_SERVER) || (ty =? CLIENT_SERVICE) in
    member ← Channel_IsMemberOf (Some ch) (Some a);
    if negb member && negb oper && negb machine then chan_error (Some a) (Some ch) ERR_NOTONCHANNEL_MSG
    else
      let set := negb (hd0 ptr =c "-"%char) in
      r ← channel_mode_loop (mode_fuel texts) (Some a) (Some a) (Some ch) behind_text Req (negb (is_sign (hd0 ptr)))
            ptr (arg_behind Req 1) 0 (Priv oper machine false false false false)
            (ModeResult set (String (sign set) "") "");
      let '(connected, r) := r in
      if (1 <? slen (mr_modes r))%nat then announce_channel_modes (Some a) (Some a) (Some ch) connected r
      else mret connected) Q w).
  { intros oper ->. wp_step. rd. rewrite Hty. user_type. cbv zeta. wp_step. eapply wp_IsMemberOf; [done|].
    destruct (existsb _ _) eqn:Em; cbn [negb andb]; [|by apply tells_chan_error].
    wp_step. fold no_priv. eapply wp_powerless_loop; eauto.
    - destruct (is_sign (hd0 ptr)) eqn:Es; [right; by destruct ptr|by left].
    - by apply args_behind_behind.
    - exists (sign (negb (hd0 ptr =c "-"%char))). split; [done|]. by destruct (hd0 ptr =c "-"%char).
    - rewrite rest_behind. pose proof (mode_fuel_enough texts 1) as Hf. change (list_sum _) with (rest (Some 1%nat)) in Hf.
      rewrite (rest_split _ _ E1), length_texts in Hf. apply lookup_lt_Some in E1.
      assert (slen ptr <= slen (mode_text behind_text ptr))%nat by (destruct ptr; cbn; lia). destruct (negb _); lia.
    - intros r w' (x & -> & _) T. cbn [slen Nat.ltb Nat.leb]. wp_step. by apply HQ. }
  destruct (has_chr (cl_modes c) "o"); cbn [andb] in Ho; [wp_step; rewrite Ho|]; by apply Hrest.
Qed.

End powerless.

(** A name of a channel is not a nickname. *)
Lemma channel_not_nick `{Conf} name : Channel_IsValidName name = true -> name <> "" -> Client_IsValidNick name = false.
Proof.
  unfold Channel_IsValidName, Client_IsValidNick. destruct name as [|x s]; [done|]. intros Hv _. cbn [hd0] in *.
  destruct (has_chr "#&+" x) eqn:Hx; [|done]. clear Hv.
  destruct (has_chr goodchars x) eqn:Hg; [done|]. destruct (_ <=? _)%nat; [done|].
  rewrite strchr_mem in Hx by (intros ->; done). cbn [str_mem] in Hx.
  repeat apply orb_prop in Hx as [Hx|Hx]; try done; apply Ascii.eqb_eq in Hx as <-; reflexivity.
Qed.

(** C12: who has no privileges in a channel changes nothing by MODE.  A local user
    who is not a member of the channel, or a member without the modes q, a, o and
    h there, and who is no operator with rights in channels, sends MODE for the
    channel with whatever mode strings and arguments: the command comes to an end,
    nothing in the tables changes, neither modes nor key, limit, lists or privileges
    of members, and only the sender gets lines. *)
Theorem channel_modes_safe `{Conf} `{IO : ConnIO} `{!ConnIOSpec IO} a ch c chan w Req name :
  user_ok a w c -> t_channels (w_tab w) !! ch = Some chan -> channels_ok (w_tab w) ->
  rq_prefix Req = None -> argv Req 0 = Some name -> Channel_IsValidName name = true -> name <> "" ->
  find_channel (w_tab w) name = Some ch ->
  (has_chr (cl_modes c) "o" && Conf_OperCanMode) = false ->
  (existsb (is_member (Some ch) (Some a)) (t_My_Cl2Chan (w_tab w)) = true -> member_powerless (w_tab w) ch a = true) ->
  exists w', IRC_MODE (Some a) Req w = Done true w' /\ told c w w'.
Proof.
  intros Hu Hch Hchs Hpre Harg Hv Hn Hf Ho Hp. pose proof Hu as (Hok & Hc & Hty & _).
  assert (IRC_MODE (Some a) Req w = Channel_Mode (Some a) (behind a w) Req (Some a) (Some ch) w) as ->.
  { unfold IRC_MODE, get_sender_or_return.
    rewrite (bind_done _ _ w tt w), (bind_done _ _ w (behind a w) w) by done.
    rewrite (bind_done _ _ _ _ _ (Client_Type_done w a c Hc)), Hty by done. user_type.
    rewrite (bind_done _ _ w (Some (t_This_Server (w_tab w))) w) by done.
    rewrite Hpre, (bind_done _ _ w false w) by done. unfold arg. rewrite Harg, (bind_done _ _ w name w) by done.
    rewrite (channel_not_nick _ Hv Hn), Hv, (bind_done _ _ w NULL w) by done.
    by rewrite (bind_done _ _ _ _ _ (Channel_Search_ok w name (so_channels _ Hok) Hchs)), Hf. }
  assert (wp (Channel_Mode (Some a) (behind a w) Req (Some a) (Some ch)) (fun r w' => r = true /\ told c w w') w) as Hw.
  { apply (tells_Channel_Mode a ch c chan); by split || auto. }
  apply wp_done in Hw as (r & w' & -> & -> & T). by exists w'.
Qed.
