(* ===== verification/OperSpec.v ===== *)
(** * Operators: the contracts

    Log messages only send lines; OPER gives the operator mode exactly to those
    who show the name, the password and the host mask of an operator; and what
    only operators may do is refused to everybody else. *)

From S2P Require Import Prelude CString Match Hash Checks Lists Messages World ClientCore.
From S2P Require Import ConnFunc ConnSpec ChannelCore State ClientSpec IrcWrite Channel ChannelSpec.
From S2P Require Import Quit Client Parse Irc IrcInfo IrcOp IrcOper MessageSpec ModeSpec.

Section Log.
Context `{Conf} `{IO : ConnIO} `{!ConnIOSpec IO}.

(** The notice that a log message is for the client [a]. *)
Definition notice_line (t : Tables) (cs : CLIENT) (UserMode : ascii) (msg : string) (a : nat) : list (Z * string) :=
  match t_clients t !! a with
  | Some c =>
      if (NONE <? cl_conn_id c) && has_chr (cl_modes c) UserMode
      then [(cl_conn_id c, message_line c cs (snprintf BUFFER_LEN "%s"
              [FS (snprintf BUFFER_LEN "NOTICE %s :%s%s" [FS (id_of c); FS ""; FS msg])]))]
      else []
  | None => []
  end.

Lemma wp_ServerNotice w UserMode Format args (Q : unit -> World -> Prop) :
  state_ok w -> (forall l w', delivered l w w' -> Q tt w') -> wp (Log_ServerNotice UserMode Format args) Q w.
Proof using Type*.
  intros Hok HQ. destruct (so_this _ Hok) as [cs Hcs]. unfold Log_ServerNotice.
  set (msg := snprintf MAX_LOG_MSG_LEN Format args).
  eapply (for_each_client_ok _ (notice_line (w_tab w) cs UserMode msg)); [|done|intros w' D; by eapply HQ].
  intros a w1 Hok1 Ht Ha. destruct (listed_lookup w a Hok Ha) as [c Hc]. rewrite <- Ht in Hc, Hcs.
  pose proof (so_clients _ Hok1 a c Hc) as Hcok. assert (Ht1 : w_tab w1 = w_tab w1) by done.
  unfold notice_line. rewrite <- Ht, Hc. wp_step. rd. wp_step. wp_step. wp_step.
  destruct (Z.ltb_spec NONE (cl_conn_id c)) as [Hl|]; cbn [andb]; [|wp_step; apply delivered_refl].
  rd. destruct (has_chr (cl_modes c) UserMode); cbv beta iota; [|wp_step; apply delivered_refl].
  destruct (so_local _ Hok1 a c Hc) as [?|(_ & Hh & _)]; [lia|].
  wp_step. rd. wp_step. eapply wp_WriteStrClient; [done..|reflexivity|done|]. intros w2 D _. by wp_step.
Qed.

Lemma wp_LogServer w msg (Q : unit -> World -> Prop) :
  state_ok w -> channels_ok (w_tab w) -> (forall l w', delivered l w w' -> Q tt w') -> wp (Channel_LogServer msg) Q w.
Proof using Type*.
  intros Hok Hch HQ. destruct (so_this _ Hok) as [cs Hcs]. assert (Ht : w_tab w = w_tab w) by done.
  unfold Channel_LogServer. wp_step. apply find_channel_ok; [apply Hok|done|].
  destruct (find_channel (w_tab w) "&SERVER") as [sc|] eqn:Ef; cbn [is_null]; [|wp_step; eapply HQ, delivered_refl].
  apply find_channel_Some in Ef as (_ & c & Hc & _). wp_step. rd. wp_step.
  unfold Channel_Write, Can_Send_To_Channel. wp_step. wp_step. rd. unfold ptr_eqb.
  rewrite (bool_decide_eq_true_2 _ eq_refl). wp_step. cbn [negb]. wp_step. rd.
  assert (Hidle : forall Q' : unit -> World -> Prop, (forall w', delivered [] w w' -> Q' tt w') ->
    wp (if NONE <? cl_conn_id cs then Conn_UpdateIdle (cl_conn_id cs) else mret tt) Q' w).
  { intros Q' HQ'. destruct (Z.ltb_spec NONE (cl_conn_id cs)); [|wp_step; apply HQ', delivered_refl].
    destruct (so_local _ Hok _ cs Hcs) as [?|((Hi & cn & Hcn & _) & _)]; [lia|].
    unfold Conn_UpdateIdle. wp_steps. eapply wp_upd_conn; [done..|]. apply HQ'. by eapply delivered_insert_same. }
  wp_step. apply Hidle. intros w1 D1. pose proof (dl_tab _ _ _ D1) as Ht1.
  wp_step. rd. wp_step. eapply wp_WriteStrChannelPrefix; [by eapply delivered_state_ok|done|done|by rewrite Ht1|].
  intros w2 D2. wp_step. wp_step. eapply HQ, (delivered_trans _ _ _ _ _ D1 D2).
Qed.

(** Log messages change nothing in the tables. *)
Lemma wp_Log w snotice Format args (Q : unit -> World -> Prop) :
  state_ok w -> channels_ok (w_tab w) -> (forall l w', delivered l w w' -> Q tt w') -> wp (Log snotice Format args) Q w.
Proof using Type*.
  intros Hok Hch HQ. unfold Log. cbv zeta. destruct snotice; [|wp_step; eapply HQ, delivered_refl].
  wp_step. apply wp_ServerNotice; [done|]. intros l1 w1 D1.
  apply wp_LogServer; [by eapply delivered_state_ok|by rewrite (dl_tab _ _ _ D1)|].
  intros l2 w2 D2. eapply HQ, (delivered_trans _ _ _ _ _ D1 D2).
Qed.

End Log.

(** ** OPER *)

(** The name, the password and the host mask are those of an operator. *)
Definition oper_granted `{Conf} (c : CLIENT) (name pwd : string) : bool :=
  match lfind (fun op => String.eqb (co_name op) name) Conf_Opers with
  | Some op => String.eqb (co_pwd op) pwd && match co_mask op with Some m => Match m (mask c) | None => true end
  | None => false
  end.

Section Oper.
Context `{Conf} `{IO : ConnIO} `{!ConnIOSpec IO}.
Context (a : nat) (c : CLIENT).

(** The situation of a local user, which lasts while only lines are sent. *)
Definition user_here (w : World) : Prop := user_ok a w c /\ channels_ok (w_tab w).

Lemma user_here_delivered l w w' : delivered l w w' -> user_here w -> user_here w'.
Proof using. intros D [Hu Hch]. split; [by eapply user_delivered|by rewrite (dl_tab _ _ _ D)]. Qed.

(** An operation that only sends lines, and succeeds. *)
Definition only_sends (m : M bool) : Prop :=
  forall w (Q : bool -> World -> Prop), user_here w -> (forall l w', delivered l w w' -> Q true w') -> wp m Q w.

Lemma wp_log_here w snotice fmt args (Q : unit -> World -> Prop) :
  user_here w -> (forall l w', delivered l w w' -> user_here w' -> Q tt w') -> wp (Log snotice fmt args) Q w.
Proof using Type*.
  intros Hu HQ. pose proof Hu as [[Hok _] Hch]. apply wp_Log; [done..|]. intros l w' D.
  apply (HQ l); [done|by eapply user_here_delivered].
Qed.

Lemma sends_reply fmt args : only_sends (reply (Some a) (Some a) fmt args).
Proof using Type*.
  intros w Q [Hu _] HQ. apply (wp_tell_reply a w c); [done|]. intros w' (l & D & _). by eapply HQ.
Qed.

Lemma sends_error fmt args : only_sends (reply_error (Some a) fmt args).
Proof using Type*.
  intros w Q [Hu _] HQ. apply (wp_tell_error a w c); [done|]. intros w' (l & D & _). by eapply HQ.
Qed.

Lemma sends_bad_pass token msg : only_sends (Bad_OperPass (Some a) token msg).
Proof using Type*.
  intros w Q Hu HQ. pose proof Hu as [(Hok & Hc & _) _]. assert (Ht : w_tab w = w_tab w) by done.
  unfold Bad_OperPass. wp_step. rd. wp_step. apply wp_log_here; [done|]. intros l1 w1 D1 Hu1.
  pose proof Hu1 as [(Hok1 & Hc1 & _) _]. wp_step. eapply wp_SetPenalty; [done|done|lia|]. intros w2 D2.
  apply sends_reply; [by eapply user_here_delivered|]. intros l3 w3 D3.
  eapply HQ, (delivered_trans _ _ _ _ _ D1), (delivered_trans _ _ _ _ _ D2), D3.
Qed.

(** What only operators may do, for a local user without prefix. *)
Lemma wp_operator_only w Req k (Q : bool -> World -> Prop) :
  user_here w -> rq_prefix Req = None ->
  (if has_chr (cl_modes c) "o" then wp (k (Some a)) Q w else forall l w', delivered l w w' -> Q true w') ->
  wp (operator_only (Some a) Req k) Q w.
Proof using Type*.
  intros Hu Hpre HQ. pose proof Hu as [(Hok & Hc & Hty & Hl) _]. assert (Ht : w_tab w = w_tab w) by done.
  unfold operator_only, Op_Check. wp_step. wp_step. wp_step. wp_step. rd. rewrite Hpre. wp_step. wp_step.
  cbn [is_null]. wp_step. rd. rewrite Hty. user_type. wp_step. rd.
  destruct (has_chr (cl_modes c) "o"); cbn [negb].
  - wp_step. rd. rewrite (proj2 (Z.leb_gt _ _) Hl). cbn [andb]. wp_step. exact HQ.
  - wp_step. cbn [is_null]. unfold Op_NoPrivileges. rewrite Hpre. wp_step. wp_step. cbn [is_null negb].
    wp_step. rd. wp_step. apply wp_log_here; [done|]. intros l1 w1 D1 Hu1.
    apply sends_error; [done|]. intros l2 w2 D2. eapply HQ, (delivered_trans _ _ _ _ _ D1 D2).
Qed.

End Oper.

Lemma with_client_channels_ok t a c : channels_ok t -> channels_ok (with_client t a c).
Proof. intros [A B C D]. by split. Qed.

(** The user with the operator mode. *)
Definition as_oper (c : CLIENT) : CLIENT := set_cl_modes (mode_add (cl_modes c) "o" CLIENT_MODE_LEN).2 c.

(** C13: operators.  OPER with a name and a password, sent by a local user, always
    comes to an end.  The user has the operator mode afterwards if the first
    operator of that name in the configuration has the password and, if a host
    mask is configured, the mask matches the user, while the mode string has room;
    otherwise the modes stay as they are.  Nothing else changes in the tables. *)
Theorem OPER_spec `{Conf} `{IO : ConnIO} `{!ConnIOSpec IO} a c w name pwd Req :
  user_here a c w -> argv Req 0 = Some name -> argv Req 1 = Some pwd ->
  exists w', IRC_OPER (Some a) Req w = Done true w' /\ state_ok w' /\
    w_tab w' = with_client (w_tab w) a (if oper_granted c name pwd then as_oper c else c).
Proof.
  intros Hu E0 E1. pose proof Hu as [(Hok & Hc & Hty & Hl) Hch]. assert (Ht : w_tab w = w_tab w) by done.
  set (Q := fun (r : bool) w' => r = true /\ state_ok w' /\
    w_tab w' = with_client (w_tab w) a (if oper_granted c name pwd then as_oper c else c)).
  assert (wp (IRC_OPER (Some a) Req) Q w) as Hw; [|apply wp_done in Hw as (r & w' & -> & -> & D); by exists w'].
  unfold IRC_OPER, arg. rewrite E0, E1. wp_step. wp_step. wp_step. wp_step.
  assert (Hbad : oper_granted c name pwd = false -> forall token msg, wp (Bad_OperPass (Some a) token msg) Q w).
  { intros E token msg. apply (sends_bad_pass a c); [done|]. intros l w' D. split; [done|].
    split; [by eapply delivered_state_ok|]. rewrite E, with_client_same by done. apply (dl_tab _ _ _ D). }
  assert (Hend : forall w1 c1 fmt1 args1 fmt2 args2, user_here a c1 w1 ->
    w_tab w1 = with_client (w_tab w) a (if oper_granted c name pwd then as_oper c else c) ->
    wp (mask ← Client_Mask (Some a); Log true fmt1 (args1 mask);; reply (Some a) (Some a) fmt2 args2) Q w1).
  { intros w1 c1 fmt1 args1 fmt2 args2 Hu1 Ht1. pose proof Hu1 as [(_ & Hc1 & _) _].
    assert (Ht1' : w_tab w1 = w_tab w1) by done. wp_step. rd. wp_step. apply (wp_log_here a c1); [done|].
    intros l2 w2 D2 Hu2. apply (sends_reply a c1); [done|]. intros l3 w3 D3. split; [done|].
    split; [eapply delivered_state_ok; [done|apply Hu2]|]. by rewrite (dl_tab _ _ _ D3), (dl_tab _ _ _ D2). }
  unfold oper_granted in *. destruct (lfind _ _) as [op|]; [|by apply Hbad]. wp_step. wp_step.
  destruct (String.eqb (co_pwd op) pwd); cbn [negb andb] in *; [|by apply Hbad]. wp_step.
  assert (Hmask : forall Q' : option string -> World -> Prop,
    ((forall m, match co_mask op with Some m => Match m (mask c) | None => true end = false -> Q' (Some m) w) /\
     (match co_mask op with Some m => Match m (mask c) | None => true end = true -> Q' None w)) ->
    wp (oper_mask (Some a) op) Q' w).
  { intros Q' [H1 H2]. unfold oper_mask. destruct (co_mask op) as [m|]; [|wp_step; by apply H2].
    wp_step. rd. wp_step. destruct (Match m (mask c)); [by apply H2|by apply H1]. }
  apply Hmask. split; [intros m Hm; by apply Hbad|]. intros Hm. rewrite Hm in *. clear Hbad Hmask.
  wp_step. rd. unfold as_oper, mode_add in Hend. unfold Q, as_oper, mode_add in *. clear Q.
  destruct (has_chr (cl_modes c) "o") eqn:Eo.
  - apply wp_bind. wp_step. cbn [negb]. eapply (Hend w c); [done|]. by destruct c; rewrite with_client_same.
  - set (c1 := set_cl_modes (strlcat (cl_modes c) "o" CLIENT_MODE_LEN) c) in *.
    apply wp_bind. wp_step. unfold Client_ModeAdd. wp_step. rd. unfold mode_add. rewrite Eo. wp_step.
    unfold store_client. wp_step. wp_step. fold (with_client (w_tab w) a c1).
    set (w1 := set_w_tab (with_client (w_tab w) a c1) w).
    assert (user_here a c1 w1) as Hu1.
    { split; [|by apply with_client_channels_ok]. apply user_world_ok; [by split|].
      eapply (cloak_kept c _ "o"); [apply (so_clients _ Hok a c Hc)|by right|].
      intros x. pose proof (mode_add_mem (cl_modes c) "o" CLIENT_MODE_LEN x) as Hx. unfold mode_add in Hx.
      by rewrite Eo in Hx. }
    unfold write_ok. wp_step. apply (sends_reply a c1); [done|]. intros l2 w2 D2. cbn [negb].
    pose proof (user_here_delivered a c1 _ _ _ D2 Hu1) as Hu2. pose proof Hu2 as [(Hok2 & Hc2 & _) _].
    assert (Ht2 : w_tab w2 = w_tab w2) by done. pose proof (so_clients _ Hok2 a c1 Hc2) as Hcok2.
    wp_step. rd. wp_step. eapply wp_WriteStrServersPrefix; [done..|]. intros w3 D3. wp_step.
    eapply (Hend w3 c1); [by eapply user_here_delivered|].
    by rewrite (dl_tab _ _ _ D3), (dl_tab _ _ _ D2).
Qed.

(** C15: what only operators may do.  DIE without a message, RESTART and REHASH,
    sent by a local user, always come to an end.  Without the operator mode they
    only send lines: the refusal and log messages.  With it, DIE asks the server to
    stop and RESTART to start again, and nothing else changes; and so does REHASH
    ask the server to stop: where SIGHUP is an alias of SIGBREAK, as in this
    configuration, the signal handler does not know it from a request to stop, and
    the configuration is not read again. *)
Theorem operator_commands `{Conf} `{IO : ConnIO} `{!ConnIOSpec IO} a c w command set_signal Req :
  user_here a c w -> rq_prefix Req = None -> rq_argv Req = [] ->
  In (command, set_signal) [(IRC_DIE, set_t_SignalQuit); (IRC_RESTART, set_t_SignalRestart); (IRC_REHASH, set_t_SignalQuit)] ->
  exists w', command (Some a) Req w = Done true w' /\
    w_tab w' = (if has_chr (cl_modes c) "o" then set_signal true (w_tab w) else w_tab w).
Proof.
  intros Hu Hpre Harg Hin. pose proof Hu as [(Hok & Hc & Hty & Hl) Hch]. assert (Ht : w_tab w = w_tab w) by done.
  set (Q := fun (r : bool) w' => r = true /\
    w_tab w' = (if has_chr (cl_modes c) "o" then set_signal true (w_tab w) else w_tab w)).
  assert (wp (command (Some a) Req) Q w) as Hw; [|apply wp_done in Hw as (r & w' & -> & -> & D); by exists w'].
  assert (Hrefuse : has_chr (cl_modes c) "o" = false -> forall l w', delivered l w w' -> Q true w').
  { intros Eo l w' D. split; [done|]. rewrite Eo. apply (dl_tab _ _ _ D). }
  assert (Hdone : has_chr (cl_modes c) "o" = true -> forall w', w_tab w' = set_signal true (w_tab w) -> Q true w')
    by (intros Eo w' E; split; [done|]; by rewrite Eo).
  assert (Hlog : forall fmt (args : string -> list farg) k, (forall l w', delivered l w w' -> user_here a c w' -> wp k Q w') ->
    wp (mask ← Client_Mask (Some a); Log true fmt (args mask);; k) Q w).
  { intros fmt args k Hk. wp_step. rd. wp_step. apply (wp_log_here a c); [done|]. intros l w' D Hu'. by eapply Hk. }
  clearbody Q. simpl in Hin. destruct Hin as [[= <- <-]|[[= <- <-]|[[= <- <-]|[]]]].
  - unfold IRC_DIE. apply (wp_operator_only a c); [done..|]. destruct (has_chr (cl_modes c) "o"); [|by apply Hrefuse].
    unfold argv. rewrite Harg. cbn [lookup list_lookup]. wp_step. wp_step. apply Hlog. intros l w' D _.
    wp_step. wp_step. wp_step. apply Hdone; [done|]. cbn. by rewrite (dl_tab _ _ _ D).
  - unfold IRC_RESTART. apply (wp_operator_only a c); [done..|]. destruct (has_chr (cl_modes c) "o"); [|by apply Hrefuse].
    apply Hlog. intros l w' D _. wp_step. wp_step. wp_step. apply Hdone; [done|]. cbn. by rewrite (dl_tab _ _ _ D).
  - unfold IRC_REHASH. apply (wp_operator_only a c); [done..|]. destruct (has_chr (cl_modes c) "o"); [|by apply Hrefuse].
    apply Hlog. intros l w1 D1 Hu1. wp_step. apply (sends_reply a c); [done|]. intros l2 w2 D2.
    change (Signal_Handler SIGHUP) with (mod_tab (set_t_SignalQuit true)). wp_step. wp_step. wp_step. apply Hdone; [done|]. cbn.
    by rewrite (dl_tab _ _ _ D2), (dl_tab _ _ _ D1).
Qed.
