(* ===== verification/PredefSpec.v ===== *)
(** * Predefined channels: the second reading

    When the configuration is read again, the channels that are still there get
    their key files; for one that has disappeared the mode lines are used that were
    freed after the first time. *)

From S2P Require Import Prelude CString Match Hash Checks Lists Messages World ClientCore.
From S2P Require Import ConnFunc ConnSpec ChannelCore State IrcWrite Channel ChannelSpec Client Conn.
From S2P Require Import Irc IrcChannel IrcMode ModeSpec OperSpec Predef.

(** ** Key files *)

(** The channels are the same but for their key files, and nothing else has changed. *)
Record rekeyed (t t' : Tables) : Prop := {
  rk_list : t_My_Channels t' = t_My_Channels t;
  rk_channels : forall a, set_ch_keyfile None <$> t_channels t' !! a = set_ch_keyfile None <$> t_channels t !! a;
  rk_clients : t_clients t' = t_clients t;
  rk_members : t_My_Cl2Chan t' = t_My_Cl2Chan t;
  rk_this : t_This_Server t' = t_This_Server t }.

Lemma rekeyed_refl t : rekeyed t t.
Proof. by split. Qed.

Lemma rekeyed_trans t1 t2 t3 : rekeyed t1 t2 -> rekeyed t2 t3 -> rekeyed t1 t3.
Proof. intros [] []. split; intros; congruence. Qed.

Lemma rekeyed_find t t' name : rekeyed t t' -> find_channel t' name = find_channel t name.
Proof.
  intros [Hl Hc _ _ _]. unfold find_channel. rewrite Hl. apply lfind_ext. intros a _.
  specialize (Hc a). destruct (t_channels t' !! a) as [c'|], (t_channels t !! a) as [c|]; try done.
  apply (f_equal (fmap ch_name)) in Hc. cbn in Hc. injection Hc as Hn. by rewrite Hn.
Qed.

Section Predef.
Context `{Conf} `{IO : ConnIO} `{!ConnIOSpec IO}.

(** The state after a key file has been set. *)
Definition keyed (t : Tables) (ch : nat) (c : CHANNEL) (v : option string) : Tables :=
  set_t_channels (<[ch := set_ch_keyfile v c]> (t_channels t)) t.

Lemma keyed_rekeyed t ch c v : t_channels t !! ch = Some c -> rekeyed t (keyed t ch c v).
Proof.
  intros Hc. split; try done. intros a. cbn. destruct (decide (a = ch)) as [->|Hne].
  - by rewrite lookup_insert_eq, Hc.
  - by rewrite lookup_insert_ne.
Qed.

Lemma keyed_ok w ch c v :
  state_ok w -> channels_ok (w_tab w) -> t_channels (w_tab w) !! ch = Some c ->
  state_ok (set_w_tab (keyed (w_tab w) ch c v) w) /\ channels_ok (keyed (w_tab w) ch c v).
Proof.
  intros Hok Hch Hc. pose proof (keyed_rekeyed _ _ _ v Hc) as Hr.
  assert (forall a x, t_channels (keyed (w_tab w) ch c v) !! a = Some x ->
    exists y, t_channels (w_tab w) !! a = Some y /\ ch_name y = ch_name x /\ ch_hash y = ch_hash x /\ ch_modes y = ch_modes x)
    as Hback.
  { intros a x Hx. pose proof (rk_channels _ _ Hr a) as Ha. rewrite Hx in Ha.
    destruct (t_channels (w_tab w) !! a) as [y|]; [|done]. exists y. split; [done|]. cbn in Ha. by injection Ha. }
  split.
  - apply state_ok_channels; try done; try apply Hok. eapply Forall_impl; [|apply Hok]. intros a [x Hx]. cbn.
    destruct (decide (a = ch)) as [->|Hne]; [by rewrite lookup_insert_eq|by rewrite lookup_insert_ne].
  - destruct Hch as [K1 K2 K3 K4]. split.
    + intros a x (y & Hy & Hn & Hh & _)%Hback. rewrite <- Hn, <- Hh. by apply (K1 a).
    + intros a b x y Ha Hb (x' & Hx & Hnx & _)%Hback (y' & Hy & Hny & _)%Hback He.
      rewrite <- Hnx, <- Hny in He. by apply (K2 a b x' y').
    + intros a x Ha (y & Hy & _ & _ & Hm)%Hback. rewrite <- Hm. by apply (K3 a).
    + intros a [x (y & Hy & _)%Hback]. by apply K4.
Qed.

(** Setting a key file changes only the key file, and may send messages. *)
Lemma wp_Set_KeyFile w ch c KeyFile (Q : unit -> World -> Prop) :
  state_ok w -> channels_ok (w_tab w) -> t_channels (w_tab w) !! ch = Some c ->
  (forall w', state_ok w' -> channels_ok (w_tab w') -> rekeyed (w_tab w) (w_tab w') -> Q tt w') ->
  wp (Set_KeyFile (Some ch) KeyFile) Q w.
Proof using Type*.
  intros Hok Hch Hc HQ. unfold Set_KeyFile. wp_step. eapply wp_load_channel; [exact Hc|]. cbv beta zeta.
  apply wp_bind. set (Mid := fun (_ : unit) w1 => state_ok w1 /\ channels_ok (w_tab w1) /\ rekeyed (w_tab w) (w_tab w1) /\
    exists c1, t_channels (w_tab w1) !! ch = Some c1).
  apply (wp_mono _ Mid).
  { destruct (slen KeyFile <? _)%nat; [|wp_step; split_and!; [done..|apply rekeyed_refl|by exists c]].
    unfold upd_channel. wp_step. eapply wp_load_channel; [exact Hc|]. unfold store_channel. wp_steps.
    destruct (keyed_ok w ch c None Hok Hch Hc). split_and!; [done..|by apply keyed_rekeyed|].
    cbn. rewrite lookup_insert_eq. by eexists. }
  intros [] w1 (Hok1 & Hch1 & Hr1 & c1 & Hc1). destruct (slen KeyFile <? 1)%nat; [wp_step; by apply HQ|].
  unfold upd_channel at 1. wp_step. wp_step. eapply wp_load_channel; [exact Hc1|]. unfold store_channel. wp_step.
  destruct (keyed_ok w1 ch c1 (Some KeyFile) Hok1 Hch1 Hc1) as [Hok2 Hch2].
  wp_step. eapply wp_load_channel; [cbn; apply lookup_insert_eq|]. cbv beta. apply wp_Log; [done..|].
  intros l w' D. apply HQ.
  - by eapply delivered_state_ok.
  - by rewrite (dl_tab _ _ _ D).
  - rewrite (dl_tab _ _ _ D). eapply rekeyed_trans; [exact Hr1|]. by apply keyed_rekeyed.
Qed.

(** A configured channel whose name can be used. *)
Definition usable (p : PREDEF) : Prop :=
  (hd0 (cc_name (pd_chan p)) =c NUL) = false /\ Channel_IsValidName (cc_name (pd_chan p)) = true.

(** One whose mode lines have been evaluated. *)
Definition evaluated (p : PREDEF) : Prop :=
  usable p /\ pd_freed p = true /\ cc_modes_lines (pd_chan p) <> [].

(** Its channel is there. *)
Definition still_there (t : Tables) (p : PREDEF) : bool :=
  if find_channel t (cc_name (pd_chan p)) then true else false.

Lemma init_existing w p (Q : PREDEF -> World -> Prop) :
  state_ok w -> channels_ok (w_tab w) -> usable p -> still_there (w_tab w) p = true ->
  (forall w', state_ok w' -> channels_ok (w_tab w') -> rekeyed (w_tab w) (w_tab w') -> Q p w') ->
  wp (init_predefined p) Q w.
Proof using Type*.
  intros Hok Hch (Hn & Hv) Hf HQ. unfold init_predefined. cbv zeta. rewrite Hn, Hv. cbn [negb].
  wp_step. apply find_channel_ok; [apply Hok|done|]. unfold still_there in Hf.
  destruct (find_channel (w_tab w) _) as [ch|] eqn:Ef; [|done]. cbn [is_null negb].
  apply find_channel_Some in Ef as (_ & c & Hc & _).
  wp_step. unfold Log. cbv zeta. wp_step. wp_step. eapply wp_Set_KeyFile; [done..|].
  intros w' Hok' Hch' Hr. wp_step. by apply HQ.
Qed.

Lemma bind_crash_now {A B} (m : M A) (k : A -> M B) f w : m w = Crash f -> (m ≫= k) w = Crash f.
Proof. unfold mbind, M_bind. by intros ->. Qed.

(** Creating a channel, up to its modes. *)
Lemma init_missing w p :
  state_ok w -> channels_ok (w_tab w) -> evaluated p -> still_there (w_tab w) p = false ->
  init_predefined p w = Crash UseAfterFree.
Proof using Type*.
  intros Hok Hch ((Hn & Hv) & Hfr & Hm) Hf. unfold init_predefined. cbv zeta. rewrite Hn, Hv. cbn [negb].
  apply bind_crash. apply find_channel_ok; [apply Hok|done|]. unfold still_there in Hf.
  destruct (find_channel (w_tab w) _) as [ch|]; [done|]. cbn [is_null negb]. set (name := cc_name (pd_chan p)) in *.
  apply bind_crash. apply Channel_Create_ok; [done|]. set (w1 := set_w_tab _ w).
  destruct (so_this _ Hok) as [cs Hcs].
  pose proof (so_clients _ Hok _ _ Hcs) as Hcsok.
  set (Keep := fun w' : World => is_Some (t_channels (w_tab w') !! t_fresh (w_tab w)) /\
    t_clients (w_tab w') = t_clients (w_tab w) /\ t_This_Server (w_tab w') = t_This_Server (w_tab w)).
  assert (Keep w1) as HK1 by (split; [cbn; rewrite lookup_insert_eq; by eexists|done]).
  assert (forall w' f, Keep w' -> forall Q : unit -> World -> Prop, (forall w2, Keep w2 -> Q tt w2) ->
    wp (upd_channel (Some (t_fresh (w_tab w))) f) Q w') as Hupd.
  { intros w' f ([c Hc] & H2 & H3) Q HQ. unfold upd_channel. wp_step. eapply wp_load_channel; [exact Hc|].
    unfold store_channel. wp_step. apply HQ. split; [cbn; rewrite lookup_insert_eq; by eexists|done]. }
  apply bind_crash. apply (wp_mono _ (fun _ => Keep)).
  { destruct HK1 as ([c Hc] & H2 & H3). unfold Channel_ModeAdd. wp_step. eapply wp_load_channel; [exact Hc|].
    cbv beta. destruct (mode_add _ _ _) as [r m]. unfold store_channel. wp_step. wp_step. wp_step.
    split; [cbn; rewrite lookup_insert_eq; by eexists|done]. }
  intros _ w2 HK2. apply bind_crash. apply (wp_mono _ (fun _ => Keep)).
  { destruct (negb _); [|by wp_step]. unfold Channel_SetTopic. wp_step.
    pose proof HK2 as ([c Hc] & _). eapply wp_load_channel; [exact Hc|]. cbv beta zeta.
    wp_step. apply (wp_mono _ (fun _ => Keep)); [destruct (_ <? _)%nat; [by apply Hupd|by wp_step]|].
    intros _ w3 HK3. wp_step. apply (wp_mono _ (fun _ => Keep)); [destruct (_ <=? _)%nat; [by wp_step|by apply Hupd]|].
    intros _ w4 HK4. wp_step. wp_step. wp_step. apply Hupd; [done|]. intros w5 HK5. cbn [is_null].
    wp_step. wp_step. by apply Hupd. }
  intros _ w3 (_ & H2 & H3). apply bind_crash_now. unfold eval_modes.
  destruct (cc_modes_lines (pd_chan p)); [done|]. rewrite <- H2, <- H3 in Hcs.
  assert (w_tab w3 = w_tab w3) as Ht by done.
  apply bind_crash. rd. apply bind_crash. rd. by rewrite Hfr.
Qed.

Lemma init_all_existing t l : Forall usable l -> forall w,
  state_ok w -> channels_ok (w_tab w) -> rekeyed t (w_tab w) -> forallb (still_there t) l = true ->
  wp (init_all_predefined l) (fun r w' => r = l /\ state_ok w' /\ channels_ok (w_tab w') /\ rekeyed t (w_tab w')) w.
Proof using Type*.
  induction 1 as [|p l Hp Hl IH]; intros w Hok Hch Hr Hst; [by split_and!|].
  cbn [forallb] in Hst. apply andb_prop in Hst as [Hst Hst'].
  assert (still_there (w_tab w) p = true) as Hst1 by (unfold still_there in *; by rewrite (rekeyed_find _ _ _ Hr)).
  cbn [init_all_predefined]. wp_step. eapply init_existing; [done..|]. intros w2 Hok2 Hch2 Hr2.
  wp_step. eapply wp_mono; [apply IH; [done..|by eapply rekeyed_trans|done]|].
  intros ? w3 (-> & ?). by wp_step.
Qed.

Lemma init_all_missing t l l' : Forall evaluated l -> forall w,
  state_ok w -> channels_ok (w_tab w) -> rekeyed t (w_tab w) -> forallb (still_there t) l = false ->
  init_all_predefined (l ++ l') w = Crash UseAfterFree.
Proof using Type*.
  induction 1 as [|p l Hp Hl IH]; intros w Hok Hch Hr Hst; [done|].
  assert (still_there (w_tab w) p = still_there t p) as Hp1.
  { unfold still_there. by rewrite (rekeyed_find _ _ _ Hr). }
  cbn [forallb] in Hst. cbn [app init_all_predefined]. destruct (still_there t p) eqn:Hp2; cbn [andb] in Hst.
  2: { apply bind_crash_now. by apply init_missing. }
  apply bind_crash. eapply init_existing; [done|done|apply Hp|done|]. intros w2 Hok2 Hch2 Hr2.
  apply bind_crash_now. apply IH; [done..|by eapply rekeyed_trans|done].
Qed.

(** C27: reading the configuration again.  The array of predefined channels still has
    the entries [old] of the last reading, whose mode lines have been freed; the
    entries [new] follow them.  If a channel of [old] has disappeared, it is created
    anew and its freed mode lines are read, whatever the new configuration says.
    If all channels exist, only key files are set and the array stays. *)
Theorem predefined_again w old new :
  state_ok w -> channels_ok (w_tab w) -> is_Some (find_channel (w_tab w) "&SERVER") ->
  Forall evaluated old -> Forall usable new ->
  (forallb (still_there (w_tab w)) old = false -> Channel_InitPredefined (old ++ new) w = Crash UseAfterFree) /\
  (forallb (still_there (w_tab w)) (old ++ new) = true ->
   exists w', Channel_InitPredefined (old ++ new) w = Done (old ++ new) w' /\ state_ok w' /\ channels_ok (w_tab w') /\
     rekeyed (w_tab w) (w_tab w')).
Proof using Type*.
  intros Hok Hch Hs Hl Hn. split; intros Hst.
  - apply bind_crash_now. by apply (init_all_missing (w_tab w)).
  - assert (Forall usable (old ++ new)) as Hall.
    { apply Forall_app. split; [|done]. eapply Forall_impl; [|exact Hl]. by intros p []. }
    pose proof (init_all_existing (w_tab w) _ Hall w Hok Hch (rekeyed_refl _) Hst) as Hrun.
    apply wp_done in Hrun as (r & w1 & Hw & -> & Hok1 & Hch1 & Hr). exists w1. split_and!; [|done..].
    unfold Channel_InitPredefined. rewrite (bind_done _ _ _ _ _ Hw). unfold init_server_channel.
    assert (Channel_Search "&SERVER" w1 = Done (find_channel (w_tab w1) "&SERVER") w1) as Hsearch
      by (apply Channel_Search_ok; [apply Hok1|done]).
    unfold mbind, M_bind. rewrite Hsearch, (rekeyed_find _ _ _ Hr). by destruct Hs as [? ->].
Qed.

End Predef.
