(* ===== verification/ConfVars.v ===== *)
(** * The configuration variables (src/server/core/config/conf.h)

    The variables that the configuration file sets, grouped by its sections, and
    the static variables of conf.c. *)

From S2P Require Import Prelude CString Hash Lists World.

(** What the section Global sets, with the texts that are read from files. *)
Record GLOBALS := Globals {
  g_ServerName : string;
  g_ServerAdmin1 : string;
  g_ServerAdmin2 : string;
  g_ServerAdminMail : string;
  g_ServerInfo : string;
  g_Network : string;
  g_ListenAddress : option string;
  g_ListenPorts : list Z;
  g_Motd : list string;
  g_Using_MotdFile : bool;
  g_Helptext : list string;
  g_MotdFile : string;
  g_HelpFile : string;
  g_ServerPwd : string;
  g_PidFile : string;
  g_UID : Z;
  g_GID : Z }.

Definition set_g_ServerName (v : string) (x : GLOBALS) : GLOBALS :=
  Globals v (g_ServerAdmin1 x) (g_ServerAdmin2 x) (g_ServerAdminMail x) (g_ServerInfo x)
    (g_Network x) (g_ListenAddress x) (g_ListenPorts x) (g_Motd x) (g_Using_MotdFile x)
    (g_Helptext x) (g_MotdFile x) (g_HelpFile x) (g_ServerPwd x) (g_PidFile x) (g_UID x)
    (g_GID x).
Definition set_g_ServerAdmin1 (v : string) (x : GLOBALS) : GLOBALS :=
  Globals (g_ServerName x) v (g_ServerAdmin2 x) (g_ServerAdminMail x) (g_ServerInfo x)
    (g_Network x) (g_ListenAddress x) (g_ListenPorts x) (g_Motd x) (g_Using_MotdFile x)
    (g_Helptext x) (g_MotdFile x) (g_HelpFile x) (g_ServerPwd x) (g_PidFile x) (g_UID x)
    (g_GID x).
Definition set_g_ServerAdmin2 (v : string) (x : GLOBALS) : GLOBALS :=
  Globals (g_ServerName x) (g_ServerAdmin1 x) v (g_ServerAdminMail x) (g_ServerInfo x)
    (g_Network x) (g_ListenAddress x) (g_ListenPorts x) (g_Motd x) (g_Using_MotdFile x)
    (g_Helptext x) (g_MotdFile x) (g_HelpFile x) (g_ServerPwd x) (g_PidFile x) (g_UID x)
    (g_GID x).
Definition set_g_ServerAdminMail (v : string) (x : GLOBALS) : GLOBALS :=
  Globals (g_ServerName x) (g_ServerAdmin1 x) (g_ServerAdmin2 x) v (g_ServerInfo x)
    (g_Network x) (g_ListenAddress x) (g_ListenPorts x) (g_Motd x) (g_Using_MotdFile x)
    (g_Helptext x) (g_MotdFile x) (g_HelpFile x) (g_ServerPwd x) (g_PidFile x) (g_UID x)
    (g_GID x).
Definition set_g_ServerInfo (v : string) (x : GLOBALS) : GLOBALS :=
  Globals (g_ServerName x) (g_ServerAdmin1 x) (g_ServerAdmin2 x) (g_ServerAdminMail x) v
    (g_Network x) (g_ListenAddress x) (g_ListenPorts x) (g_Motd x) (g_Using_MotdFile x)
    (g_Helptext x) (g_MotdFile x) (g_HelpFile x) (g_ServerPwd x) (g_PidFile x) (g_UID x)
    (g_GID x).
Definition set_g_Network (v : string) (x : GLOBALS) : GLOBALS :=
  Globals (g_ServerName x) (g_ServerAdmin1 x) (g_ServerAdmin2 x) (g_ServerAdminMail x)
    (g_ServerInfo x) v (g_ListenAddress x) (g_ListenPorts x) (g_Motd x) (g_Using_MotdFile x)
    (g_Helptext x) (g_MotdFile x) (g_HelpFile x) (g_ServerPwd x) (g_PidFile x) (g_UID x)
    (g_GID x).
Definition set_g_ListenAddress (v : option string) (x : GLOBALS) : GLOBALS :=
  Globals (g_ServerName x) (g_ServerAdmin1 x) (g_ServerAdmin2 x) (g_ServerAdminMail x)
    (g_ServerInfo x) (g_Network x) v (g_ListenPorts x) (g_Motd x) (g_Using_MotdFile x)
    (g_Helptext x) (g_MotdFile x) (g_HelpFile x) (g_ServerPwd x) (g_PidFile x) (g_UID x)
    (g_GID x).
Definition set_g_ListenPorts (v : list Z) (x : GLOBALS) : GLOBALS :=
  Globals (g_ServerName x) (g_ServerAdmin1 x) (g_ServerAdmin2 x) (g_ServerAdminMail x)
    (g_ServerInfo x) (g_Network x) (g_ListenAddress x) v (g_Motd x) (g_Using_MotdFile x)
    (g_Helptext x) (g_MotdFile x) (g_HelpFile x) (g_ServerPwd x) (g_PidFile x) (g_UID x)
    (g_GID x).
Definition set_g_Motd (v : list string) (x : GLOBALS) : GLOBALS :=
  Globals (g_ServerName x) (g_ServerAdmin1 x) (g_ServerAdmin2 x) (g_ServerAdminMail x)
    (g_ServerInfo x) (g_Network x) (g_ListenAddress x) (g_ListenPorts x) v (g_Using_MotdFile
    x) (g_Helptext x) (g_MotdFile x) (g_HelpFile x) (g_ServerPwd x) (g_PidFile x) (g_UID x)
    (g_GID x).
Definition set_g_Using_MotdFile (v : bool) (x : GLOBALS) : GLOBALS :=
  Globals (g_ServerName x) (g_ServerAdmin1 x) (g_ServerAdmin2 x) (g_ServerAdminMail x)
    (g_ServerInfo x) (g_Network x) (g_ListenAddress x) (g_ListenPorts x) (g_Motd x) v
    (g_Helptext x) (g_MotdFile x) (g_HelpFile x) (g_ServerPwd x) (g_PidFile x) (g_UID x)
    (g_GID x).
Definition set_g_Helptext (v : list string) (x : GLOBALS) : GLOBALS :=
  Globals (g_ServerName x) (g_ServerAdmin1 x) (g_ServerAdmin2 x) (g_ServerAdminMail x)
    (g_ServerInfo x) (g_Network x) (g_ListenAddress x) (g_ListenPorts x) (g_Motd x)
    (g_Using_MotdFile x) v (g_MotdFile x) (g_HelpFile x) (g_ServerPwd x) (g_PidFile x)
    (g_UID x) (g_GID x).
Definition set_g_MotdFile (v : string) (x : GLOBALS) : GLOBALS :=
  Globals (g_ServerName x) (g_ServerAdmin1 x) (g_ServerAdmin2 x) (g_ServerAdminMail x)
    (g_ServerInfo x) (g_Network x) (g_ListenAddress x) (g_ListenPorts x) (g_Motd x)
    (g_Using_MotdFile x) (g_Helptext x) v (g_HelpFile x) (g_ServerPwd x) (g_PidFile x)
    (g_UID x) (g_GID x).
Definition set_g_HelpFile (v : string) (x : GLOBALS) : GLOBALS :=
  Globals (g_ServerName x) (g_ServerAdmin1 x) (g_ServerAdmin2 x) (g_ServerAdminMail x)
    (g_ServerInfo x) (g_Network x) (g_ListenAddress x) (g_ListenPorts x) (g_Motd x)
    (g_Using_MotdFile x) (g_Helptext x) (g_MotdFile x) v (g_ServerPwd x) (g_PidFile x)
    (g_UID x) (g_GID x).
Definition set_g_ServerPwd (v : string) (x : GLOBALS) : GLOBALS :=
  Globals (g_ServerName x) (g_ServerAdmin1 x) (g_ServerAdmin2 x) (g_ServerAdminMail x)
    (g_ServerInfo x) (g_Network x) (g_ListenAddress x) (g_ListenPorts x) (g_Motd x)
    (g_Using_MotdFile x) (g_Helptext x) (g_MotdFile x) (g_HelpFile x) v (g_PidFile x) (g_UID
    x) (g_GID x).
Definition set_g_PidFile (v : string) (x : GLOBALS) : GLOBALS :=
  Globals (g_ServerName x) (g_ServerAdmin1 x) (g_ServerAdmin2 x) (g_ServerAdminMail x)
    (g_ServerInfo x) (g_Network x) (g_ListenAddress x) (g_ListenPorts x) (g_Motd x)
    (g_Using_MotdFile x) (g_Helptext x) (g_MotdFile x) (g_HelpFile x) (g_ServerPwd x) v
    (g_UID x) (g_GID x).
Definition set_g_UID (v : Z) (x : GLOBALS) : GLOBALS :=
  Globals (g_ServerName x) (g_ServerAdmin1 x) (g_ServerAdmin2 x) (g_ServerAdminMail x)
    (g_ServerInfo x) (g_Network x) (g_ListenAddress x) (g_ListenPorts x) (g_Motd x)
    (g_Using_MotdFile x) (g_Helptext x) (g_MotdFile x) (g_HelpFile x) (g_ServerPwd x)
    (g_PidFile x) v (g_GID x).
Definition set_g_GID (v : Z) (x : GLOBALS) : GLOBALS :=
  Globals (g_ServerName x) (g_ServerAdmin1 x) (g_ServerAdmin2 x) (g_ServerAdminMail x)
    (g_ServerInfo x) (g_Network x) (g_ListenAddress x) (g_ListenPorts x) (g_Motd x)
    (g_Using_MotdFile x) (g_Helptext x) (g_MotdFile x) (g_HelpFile x) (g_ServerPwd x)
    (g_PidFile x) (g_UID x) v.

(** The section Limits. *)
Record LIMITS := Limits {
  l_ConnectRetry : Z;
  l_IdleTimeout : Z;
  l_MaxConnections : Z;
  l_MaxConnectionsIP : Z;
  l_MaxJoins : Z;
  l_MaxNickLength : Z;
  l_MaxListSize : Z;
  l_MaxPenaltyTime : Z;
  l_PingTimeout : Z;
  l_PongTimeout : Z }.

Definition set_l_ConnectRetry (v : Z) (x : LIMITS) : LIMITS :=
  Limits v (l_IdleTimeout x) (l_MaxConnections x) (l_MaxConnectionsIP x) (l_MaxJoins x)
    (l_MaxNickLength x) (l_MaxListSize x) (l_MaxPenaltyTime x) (l_PingTimeout x)
    (l_PongTimeout x).
Definition set_l_IdleTimeout (v : Z) (x : LIMITS) : LIMITS :=
  Limits (l_ConnectRetry x) v (l_MaxConnections x) (l_MaxConnectionsIP x) (l_MaxJoins x)
    (l_MaxNickLength x) (l_MaxListSize x) (l_MaxPenaltyTime x) (l_PingTimeout x)
    (l_PongTimeout x).
Definition set_l_MaxConnections (v : Z) (x : LIMITS) : LIMITS :=
  Limits (l_ConnectRetry x) (l_IdleTimeout x) v (l_MaxConnectionsIP x) (l_MaxJoins x)
    (l_MaxNickLength x) (l_MaxListSize x) (l_MaxPenaltyTime x) (l_PingTimeout x)
    (l_PongTimeout x).
Definition set_l_MaxConnectionsIP (v : Z) (x : LIMITS) : LIMITS :=
  Limits (l_ConnectRetry x) (l_IdleTimeout x) (l_MaxConnections x) v (l_MaxJoins x)
    (l_MaxNickLength x) (l_MaxListSize x) (l_MaxPenaltyTime x) (l_PingTimeout x)
    (l_PongTimeout x).
Definition set_l_MaxJoins (v : Z) (x : LIMITS) : LIMITS :=
  Limits (l_ConnectRetry x) (l_IdleTimeout x) (l_MaxConnections x) (l_MaxConnectionsIP x) v
    (l_MaxNickLength x) (l_MaxListSize x) (l_MaxPenaltyTime x) (l_PingTimeout x)
    (l_PongTimeout x).
Definition set_l_MaxNickLength (v : Z) (x : LIMITS) : LIMITS :=
  Limits (l_ConnectRetry x) (l_IdleTimeout x) (l_MaxConnections x) (l_MaxConnectionsIP x)
    (l_MaxJoins x) v (l_MaxListSize x) (l_MaxPenaltyTime x) (l_PingTimeout x) (l_PongTimeout
    x).
Definition set_l_MaxListSize (v : Z) (x : LIMITS) : LIMITS :=
  Limits (l_ConnectRetry x) (l_IdleTimeout x) (l_MaxConnections x) (l_MaxConnectionsIP x)
    (l_MaxJoins x) (l_MaxNickLength x) v (l_MaxPenaltyTime x) (l_PingTimeout x)
    (l_PongTimeout x).
Definition set_l_MaxPenaltyTime (v : Z) (x : LIMITS) : LIMITS :=
  Limits (l_ConnectRetry x) (l_IdleTimeout x) (l_MaxConnections x) (l_MaxConnectionsIP x)
    (l_MaxJoins x) (l_MaxNickLength x) (l_MaxListSize x) v (l_PingTimeout x) (l_PongTimeout
    x).
Definition set_l_PingTimeout (v : Z) (x : LIMITS) : LIMITS :=
  Limits (l_ConnectRetry x) (l_IdleTimeout x) (l_MaxConnections x) (l_MaxConnectionsIP x)
    (l_MaxJoins x) (l_MaxNickLength x) (l_MaxListSize x) (l_MaxPenaltyTime x) v
    (l_PongTimeout x).
Definition set_l_PongTimeout (v : Z) (x : LIMITS) : LIMITS :=
  Limits (l_ConnectRetry x) (l_IdleTimeout x) (l_MaxConnections x) (l_MaxConnectionsIP x)
    (l_MaxJoins x) (l_MaxNickLength x) (l_MaxListSize x) (l_MaxPenaltyTime x) (l_PingTimeout
    x) v.

(** The section Options. *)
Record OPTIONS := Options {
  o_AllowedChannelTypes : string;
  o_AllowRemoteOper : bool;
  o_AuthPing : bool;
  o_Chroot : string;
  o_CloakHost : string;
  o_CloakHostModeX : string;
  o_CloakHostSalt : string;
  o_CloakUserToNick : bool;
  o_ConnectIPv4 : bool;
  o_ConnectIPv6 : bool;
  o_DefaultChannelModes : string;
  o_DefaultUserModes : string;
  o_DNS : bool;
  o_Ident : bool;
  o_IncludeDir : string;
  o_MorePrivacy : bool;
  o_NoticeBeforeRegistration : bool;
  o_OperCanMode : bool;
  o_OperChanPAutoOp : bool;
  o_OperServerMode : bool;
  o_PAM : bool;
  o_PAMIsOptional : bool;
  o_PAMServiceName : string;
  o_ScrubCTCP : bool;
  o_WebircPwd : string }.

Definition set_o_AllowedChannelTypes (v : string) (x : OPTIONS) : OPTIONS :=
  Options v (o_AllowRemoteOper x) (o_AuthPing x) (o_Chroot x) (o_CloakHost x)
    (o_CloakHostModeX x) (o_CloakHostSalt x) (o_CloakUserToNick x) (o_ConnectIPv4 x)
    (o_ConnectIPv6 x) (o_DefaultChannelModes x) (o_DefaultUserModes x) (o_DNS x) (o_Ident x)
    (o_IncludeDir x) (o_MorePrivacy x) (o_NoticeBeforeRegistration x) (o_OperCanMode x)
    (o_OperChanPAutoOp x) (o_OperServerMode x) (o_PAM x) (o_PAMIsOptional x)
    (o_PAMServiceName x) (o_ScrubCTCP x) (o_WebircPwd x).
Definition set_o_AllowRemoteOper (v : bool) (x : OPTIONS) : OPTIONS :=
  Options (o_AllowedChannelTypes x) v (o_AuthPing x) (o_Chroot x) (o_CloakHost x)
    (o_CloakHostModeX x) (o_CloakHostSalt x) (o_CloakUserToNick x) (o_ConnectIPv4 x)
    (o_ConnectIPv6 x) (o_DefaultChannelModes x) (o_DefaultUserModes x) (o_DNS x) (o_Ident x)
    (o_IncludeDir x) (o_MorePrivacy x) (o_NoticeBeforeRegistration x) (o_OperCanMode x)
    (o_OperChanPAutoOp x) (o_OperServerMode x) (o_PAM x) (o_PAMIsOptional x)
    (o_PAMServiceName x) (o_ScrubCTCP x) (o_WebircPwd x).
Definition set_o_AuthPing (v : bool) (x : OPTIONS) : OPTIONS :=
  Options (o_AllowedChannelTypes x) (o_AllowRemoteOper x) v (o_Chroot x) (o_CloakHost x)
    (o_CloakHostModeX x) (o_CloakHostSalt x) (o_CloakUserToNick x) (o_ConnectIPv4 x)
    (o_ConnectIPv6 x) (o_DefaultChannelModes x) (o_DefaultUserModes x) (o_DNS x) (o_Ident x)
    (o_IncludeDir x) (o_MorePrivacy x) (o_NoticeBeforeRegistration x) (o_OperCanMode x)
    (o_OperChanPAutoOp x) (o_OperServerMode x) (o_PAM x) (o_PAMIsOptional x)
    (o_PAMServiceName x) (o_ScrubCTCP x) (o_WebircPwd x).
Definition set_o_Chroot (v : string) (x : OPTIONS) : OPTIONS :=
  Options (o_AllowedChannelTypes x) (o_AllowRemoteOper x) (o_AuthPing x) v (o_CloakHost x)
    (o_CloakHostModeX x) (o_CloakHostSalt x) (o_CloakUserToNick x) (o_ConnectIPv4 x)
    (o_ConnectIPv6 x) (o_DefaultChannelModes x) (o_DefaultUserModes x) (o_DNS x) (o_Ident x)
    (o_IncludeDir x) (o_MorePrivacy x) (o_NoticeBeforeRegistration x) (o_OperCanMode x)
    (o_OperChanPAutoOp x) (o_OperServerMode x) (o_PAM x) (o_PAMIsOptional x)
    (o_PAMServiceName x) (o_ScrubCTCP x) (o_WebircPwd x).
Definition set_o_CloakHost (v : string) (x : OPTIONS) : OPTIONS :=
  Options (o_AllowedChannelTypes x) (o_AllowRemoteOper x) (o_AuthPing x) (o_Chroot x) v
    (o_CloakHostModeX x) (o_CloakHostSalt x) (o_CloakUserToNick x) (o_ConnectIPv4 x)
    (o_ConnectIPv6 x) (o_DefaultChannelModes x) (o_DefaultUserModes x) (o_DNS x) (o_Ident x)
    (o_IncludeDir x) (o_MorePrivacy x) (o_NoticeBeforeRegistration x) (o_OperCanMode x)
    (o_OperChanPAutoOp x) (o_OperServerMode x) (o_PAM x) (o_PAMIsOptional x)
    (o_PAMServiceName x) (o_ScrubCTCP x) (o_WebircPwd x).
Definition set_o_CloakHostModeX (v : string) (x : OPTIONS) : OPTIONS :=
  Options (o_AllowedChannelTypes x) (o_AllowRemoteOper x) (o_AuthPing x) (o_Chroot x)
    (o_CloakHost x) v (o_CloakHostSalt x) (o_CloakUserToNick x) (o_ConnectIPv4 x)
    (o_ConnectIPv6 x) (o_DefaultChannelModes x) (o_DefaultUserModes x) (o_DNS x) (o_Ident x)
    (o_IncludeDir x) (o_MorePrivacy x) (o_NoticeBeforeRegistration x) (o_OperCanMode x)
    (o_OperChanPAutoOp x) (o_OperServerMode x) (o_PAM x) (o_PAMIsOptional x)
    (o_PAMServiceName x) (o_ScrubCTCP x) (o_WebircPwd x).
Definition set_o_CloakHostSalt (v : string) (x : OPTIONS) : OPTIONS :=
  Options (o_AllowedChannelTypes x) (o_AllowRemoteOper x) (o_AuthPing x) (o_Chroot x)
    (o_CloakHost x) (o_CloakHostModeX x) v (o_CloakUserToNick x) (o_ConnectIPv4 x)
    (o_ConnectIPv6 x) (o_DefaultChannelModes x) (o_DefaultUserModes x) (o_DNS x) (o_Ident x)
    (o_IncludeDir x) (o_MorePrivacy x) (o_NoticeBeforeRegistration x) (o_OperCanMode x)
    (o_OperChanPAutoOp x) (o_OperServerMode x) (o_PAM x) (o_PAMIsOptional x)
    (o_PAMServiceName x) (o_ScrubCTCP x) (o_WebircPwd x).
Definition set_o_CloakUserToNick (v : bool) (x : OPTIONS) : OPTIONS :=
  Options (o_AllowedChannelTypes x) (o_AllowRemoteOper x) (o_AuthPing x) (o_Chroot x)
    (o_CloakHost x) (o_CloakHostModeX x) (o_CloakHostSalt x) v (o_ConnectIPv4 x)
    (o_ConnectIPv6 x) (o_DefaultChannelModes x) (o_DefaultUserModes x) (o_DNS x) (o_Ident x)
    (o_IncludeDir x) (o_MorePrivacy x) (o_NoticeBeforeRegistration x) (o_OperCanMode x)
    (o_OperChanPAutoOp x) (o_OperServerMode x) (o_PAM x) (o_PAMIsOptional x)
    (o_PAMServiceName x) (o_ScrubCTCP x) (o_WebircPwd x).
Definition set_o_ConnectIPv4 (v : bool) (x : OPTIONS) : OPTIONS :=
  Options (o_AllowedChannelTypes x) (o_AllowRemoteOper x) (o_AuthPing x) (o_Chroot x)
    (o_CloakHost x) (o_CloakHostModeX x) (o_CloakHostSalt x) (o_CloakUserToNick x) v
    (o_ConnectIPv6 x) (o_DefaultChannelModes x) (o_DefaultUserModes x) (o_DNS x) (o_Ident x)
    (o_IncludeDir x) (o_MorePrivacy x) (o_NoticeBeforeRegistration x) (o_OperCanMode x)
    (o_OperChanPAutoOp x) (o_OperServerMode x) (o_PAM x) (o_PAMIsOptional x)
    (o_PAMServiceName x) (o_ScrubCTCP x) (o_WebircPwd x).
Definition set_o_ConnectIPv6 (v : bool) (x : OPTIONS) : OPTIONS :=
  Options (o_AllowedChannelTypes x) (o_AllowRemoteOper x) (o_AuthPing x) (o_Chroot x)
    (o_CloakHost x) (o_CloakHostModeX x) (o_CloakHostSalt x) (o_CloakUserToNick x)
    (o_ConnectIPv4 x) v (o_DefaultChannelModes x) (o_DefaultUserModes x) (o_DNS x) (o_Ident
    x) (o_IncludeDir x) (o_MorePrivacy x) (o_NoticeBeforeRegistration x) (o_OperCanMode x)
    (o_OperChanPAutoOp x) (o_OperServerMode x) (o_PAM x) (o_PAMIsOptional x)
    (o_PAMServiceName x) (o_ScrubCTCP x) (o_WebircPwd x).
Definition set_o_DefaultChannelModes (v : string) (x : OPTIONS) : OPTIONS :=
  Options (o_AllowedChannelTypes x) (o_AllowRemoteOper x) (o_AuthPing x) (o_Chroot x)
    (o_CloakHost x) (o_CloakHostModeX x) (o_CloakHostSalt x) (o_CloakUserToNick x)
    (o_ConnectIPv4 x) (o_ConnectIPv6 x) v (o_DefaultUserModes x) (o_DNS x) (o_Ident x)
    (o_IncludeDir x) (o_MorePrivacy x) (o_NoticeBeforeRegistration x) (o_OperCanMode x)
    (o_OperChanPAutoOp x) (o_OperServerMode x) (o_PAM x) (o_PAMIsOptional x)
    (o_PAMServiceName x) (o_ScrubCTCP x) (o_WebircPwd x).
Definition set_o_DefaultUserModes (v : string) (x : OPTIONS) : OPTIONS :=
  Options (o_AllowedChannelTypes x) (o_AllowRemoteOper x) (o_AuthPing x) (o_Chroot x)
    (o_CloakHost x) (o_CloakHostModeX x) (o_CloakHostSalt x) (o_CloakUserToNick x)
    (o_ConnectIPv4 x) (o_ConnectIPv6 x) (o_DefaultChannelModes x) v (o_DNS x) (o_Ident x)
    (o_IncludeDir x) (o_MorePrivacy x) (o_NoticeBeforeRegistration x) (o_OperCanMode x)
    (o_OperChanPAutoOp x) (o_OperServerMode x) (o_PAM x) (o_PAMIsOptional x)
    (o_PAMServiceName x) (o_ScrubCTCP x) (o_WebircPwd x).
Definition set_o_DNS (v : bool) (x : OPTIONS) : OPTIONS :=
  Options (o_AllowedChannelTypes x) (o_AllowRemoteOper x) (o_AuthPing x) (o_Chroot x)
    (o_CloakHost x) (o_CloakHostModeX x) (o_CloakHostSalt x) (o_CloakUserToNick x)
    (o_ConnectIPv4 x) (o_ConnectIPv6 x) (o_DefaultChannelModes x) (o_DefaultUserModes x) v
    (o_Ident x) (o_IncludeDir x) (o_MorePrivacy x) (o_NoticeBeforeRegistration x)
    (o_OperCanMode x) (o_OperChanPAutoOp x) (o_OperServerMode x) (o_PAM x) (o_PAMIsOptional
    x) (o_PAMServiceName x) (o_ScrubCTCP x) (o_WebircPwd x).
Definition set_o_Ident (v : bool) (x : OPTIONS) : OPTIONS :=
  Options (o_AllowedChannelTypes x) (o_AllowRemoteOper x) (o_AuthPing x) (o_Chroot x)
    (o_CloakHost x) (o_CloakHostModeX x) (o_CloakHostSalt x) (o_CloakUserToNick x)
    (o_ConnectIPv4 x) (o_ConnectIPv6 x) (o_DefaultChannelModes x) (o_DefaultUserModes x)
    (o_DNS x) v (o_IncludeDir x) (o_MorePrivacy x) (o_NoticeBeforeRegistration x)
    (o_OperCanMode x) (o_OperChanPAutoOp x) (o_OperServerMode x) (o_PAM x) (o_PAMIsOptional
    x) (o_PAMServiceName x) (o_ScrubCTCP x) (o_WebircPwd x).
Definition set_o_IncludeDir (v : string) (x : OPTIONS) : OPTIONS :=
  Options (o_AllowedChannelTypes x) (o_AllowRemoteOper x) (o_AuthPing x) (o_Chroot x)
    (o_CloakHost x) (o_CloakHostModeX x) (o_CloakHostSalt x) (o_CloakUserToNick x)
    (o_ConnectIPv4 x) (o_ConnectIPv6 x) (o_DefaultChannelModes x) (o_DefaultUserModes x)
    (o_DNS x) (o_Ident x) v (o_MorePrivacy x) (o_NoticeBeforeRegistration x) (o_OperCanMode
    x) (o_OperChanPAutoOp x) (o_OperServerMode x) (o_PAM x) (o_PAMIsOptional x)
    (o_PAMServiceName x) (o_ScrubCTCP x) (o_WebircPwd x).
Definition set_o_MorePrivacy (v : bool) (x : OPTIONS) : OPTIONS :=
  Options (o_AllowedChannelTypes x) (o_AllowRemoteOper x) (o_AuthPing x) (o_Chroot x)
    (o_CloakHost x) (o_CloakHostModeX x) (o_CloakHostSalt x) (o_CloakUserToNick x)
    (o_ConnectIPv4 x) (o_ConnectIPv6 x) (o_DefaultChannelModes x) (o_DefaultUserModes x)
    (o_DNS x) (o_Ident x) (o_IncludeDir x) v (o_NoticeBeforeRegistration x) (o_OperCanMode
    x) (o_OperChanPAutoOp x) (o_OperServerMode x) (o_PAM x) (o_PAMIsOptional x)
    (o_PAMServiceName x) (o_ScrubCTCP x) (o_WebircPwd x).
Definition set_o_NoticeBeforeRegistration (v : bool) (x : OPTIONS) : OPTIONS :=
  Options (o_AllowedChannelTypes x) (o_AllowRemoteOper x) (o_AuthPing x) (o_Chroot x)
    (o_CloakHost x) (o_CloakHostModeX x) (o_CloakHostSalt x) (o_CloakUserToNick x)
    (o_ConnectIPv4 x) (o_ConnectIPv6 x) (o_DefaultChannelModes x) (o_DefaultUserModes x)
    (o_DNS x) (o_Ident x) (o_IncludeDir x) (o_MorePrivacy x) v (o_OperCanMode x)
    (o_OperChanPAutoOp x) (o_OperServerMode x) (o_PAM x) (o_PAMIsOptional x)
    (o_PAMServiceName x) (o_ScrubCTCP x) (o_WebircPwd x).
Definition set_o_OperCanMode (v : bool) (x : OPTIONS) : OPTIONS :=
  Options (o_AllowedChannelTypes x) (o_AllowRemoteOper x) (o_AuthPing x) (o_Chroot x)
    (o_CloakHost x) (o_CloakHostModeX x) (o_CloakHostSalt x) (o_CloakUserToNick x)
    (o_ConnectIPv4 x) (o_ConnectIPv6 x) (o_DefaultChannelModes x) (o_DefaultUserModes x)
    (o_DNS x) (o_Ident x) (o_IncludeDir x) (o_MorePrivacy x) (o_NoticeBeforeRegistration x)
    v (o_OperChanPAutoOp x) (o_OperServerMode x) (o_PAM x) (o_PAMIsOptional x)
    (o_PAMServiceName x) (o_ScrubCTCP x) (o_WebircPwd x).
Definition set_o_OperChanPAutoOp (v : bool) (x : OPTIONS) : OPTIONS :=
  Options (o_AllowedChannelTypes x) (o_AllowRemoteOper x) (o_AuthPing x) (o_Chroot x)
    (o_CloakHost x) (o_CloakHostModeX x) (o_CloakHostSalt x) (o_CloakUserToNick x)
    (o_ConnectIPv4 x) (o_ConnectIPv6 x) (o_DefaultChannelModes x) (o_DefaultUserModes x)
    (o_DNS x) (o_Ident x) (o_IncludeDir x) (o_MorePrivacy x) (o_NoticeBeforeRegistration x)
    (o_OperCanMode x) v (o_OperServerMode x) (o_PAM x) (o_PAMIsOptional x) (o_PAMServiceName
    x) (o_ScrubCTCP x) (o_WebircPwd x).
Definition set_o_OperServerMode (v : bool) (x : OPTIONS) : OPTIONS :=
  Options (o_AllowedChannelTypes x) (o_AllowRemoteOper x) (o_AuthPing x) (o_Chroot x)
    (o_CloakHost x) (o_CloakHostModeX x) (o_CloakHostSalt x) (o_CloakUserToNick x)
    (o_ConnectIPv4 x) (o_ConnectIPv6 x) (o_DefaultChannelModes x) (o_DefaultUserModes x)
    (o_DNS x) (o_Ident x) (o_IncludeDir x) (o_MorePrivacy x) (o_NoticeBeforeRegistration x)
    (o_OperCanMode x) (o_OperChanPAutoOp x) v (o_PAM x) (o_PAMIsOptional x)
    (o_PAMServiceName x) (o_ScrubCTCP x) (o_WebircPwd x).
Definition set_o_PAM (v : bool) (x : OPTIONS) : OPTIONS :=
  Options (o_AllowedChannelTypes x) (o_AllowRemoteOper x) (o_AuthPing x) (o_Chroot x)
    (o_CloakHost x) (o_CloakHostModeX x) (o_CloakHostSalt x) (o_CloakUserToNick x)
    (o_ConnectIPv4 x) (o_ConnectIPv6 x) (o_DefaultChannelModes x) (o_DefaultUserModes x)
    (o_DNS x) (o_Ident x) (o_IncludeDir x) (o_MorePrivacy x) (o_NoticeBeforeRegistration x)
    (o_OperCanMode x) (o_OperChanPAutoOp x) (o_OperServerMode x) v (o_PAMIsOptional x)
    (o_PAMServiceName x) (o_ScrubCTCP x) (o_WebircPwd x).
Definition set_o_PAMIsOptional (v : bool) (x : OPTIONS) : OPTIONS :=
  Options (o_AllowedChannelTypes x) (o_AllowRemoteOper x) (o_AuthPing x) (o_Chroot x)
    (o_CloakHost x) (o_CloakHostModeX x) (o_CloakHostSalt x) (o_CloakUserToNick x)
    (o_ConnectIPv4 x) (o_ConnectIPv6 x) (o_DefaultChannelModes x) (o_DefaultUserModes x)
    (o_DNS x) (o_Ident x) (o_IncludeDir x) (o_MorePrivacy x) (o_NoticeBeforeRegistration x)
    (o_OperCanMode x) (o_OperChanPAutoOp x) (o_OperServerMode x) (o_PAM x) v
    (o_PAMServiceName x) (o_ScrubCTCP x) (o_WebircPwd x).
Definition set_o_PAMServiceName (v : string) (x : OPTIONS) : OPTIONS :=
  Options (o_AllowedChannelTypes x) (o_AllowRemoteOper x) (o_AuthPing x) (o_Chroot x)
    (o_CloakHost x) (o_CloakHostModeX x) (o_CloakHostSalt x) (o_CloakUserToNick x)
    (o_ConnectIPv4 x) (o_ConnectIPv6 x) (o_DefaultChannelModes x) (o_DefaultUserModes x)
    (o_DNS x) (o_Ident x) (o_IncludeDir x) (o_MorePrivacy x) (o_NoticeBeforeRegistration x)
    (o_OperCanMode x) (o_OperChanPAutoOp x) (o_OperServerMode x) (o_PAM x) (o_PAMIsOptional
    x) v (o_ScrubCTCP x) (o_WebircPwd x).
Definition set_o_ScrubCTCP (v : bool) (x : OPTIONS) : OPTIONS :=
  Options (o_AllowedChannelTypes x) (o_AllowRemoteOper x) (o_AuthPing x) (o_Chroot x)
    (o_CloakHost x) (o_CloakHostModeX x) (o_CloakHostSalt x) (o_CloakUserToNick x)
    (o_ConnectIPv4 x) (o_ConnectIPv6 x) (o_DefaultChannelModes x) (o_DefaultUserModes x)
    (o_DNS x) (o_Ident x) (o_IncludeDir x) (o_MorePrivacy x) (o_NoticeBeforeRegistration x)
    (o_OperCanMode x) (o_OperChanPAutoOp x) (o_OperServerMode x) (o_PAM x) (o_PAMIsOptional
    x) (o_PAMServiceName x) v (o_WebircPwd x).
Definition set_o_WebircPwd (v : string) (x : OPTIONS) : OPTIONS :=
  Options (o_AllowedChannelTypes x) (o_AllowRemoteOper x) (o_AuthPing x) (o_Chroot x)
    (o_CloakHost x) (o_CloakHostModeX x) (o_CloakHostSalt x) (o_CloakUserToNick x)
    (o_ConnectIPv4 x) (o_ConnectIPv6 x) (o_DefaultChannelModes x) (o_DefaultUserModes x)
    (o_DNS x) (o_Ident x) (o_IncludeDir x) (o_MorePrivacy x) (o_NoticeBeforeRegistration x)
    (o_OperCanMode x) (o_OperChanPAutoOp x) (o_OperServerMode x) (o_PAM x) (o_PAMIsOptional
    x) (o_PAMServiceName x) (o_ScrubCTCP x) v.

(** All variables; [c_messages] are the messages of the configuration, with their levels. *)
Record CONFIG := Config {
  c_global : GLOBALS;
  c_limits : LIMITS;
  c_options : OPTIONS;
  c_Opers : list CONF_OPER;
  c_Channels : list CONF_CHANNEL;
  c_Server : list CONF_SERVER;
  c_New_Server : CONF_SERVER;
  c_New_Server_Idx : Z;
  c_messages : list (Z * string) }.

Definition set_c_global (v : GLOBALS) (x : CONFIG) : CONFIG :=
  Config v (c_limits x) (c_options x) (c_Opers x) (c_Channels x) (c_Server x) (c_New_Server
    x) (c_New_Server_Idx x) (c_messages x).
Definition set_c_limits (v : LIMITS) (x : CONFIG) : CONFIG :=
  Config (c_global x) v (c_options x) (c_Opers x) (c_Channels x) (c_Server x) (c_New_Server
    x) (c_New_Server_Idx x) (c_messages x).
Definition set_c_options (v : OPTIONS) (x : CONFIG) : CONFIG :=
  Config (c_global x) (c_limits x) v (c_Opers x) (c_Channels x) (c_Server x) (c_New_Server
    x) (c_New_Server_Idx x) (c_messages x).
Definition set_c_Opers (v : list CONF_OPER) (x : CONFIG) : CONFIG :=
  Config (c_global x) (c_limits x) (c_options x) v (c_Channels x) (c_Server x) (c_New_Server
    x) (c_New_Server_Idx x) (c_messages x).
Definition set_c_Channels (v : list CONF_CHANNEL) (x : CONFIG) : CONFIG :=
  Config (c_global x) (c_limits x) (c_options x) (c_Opers x) v (c_Server x) (c_New_Server x)
    (c_New_Server_Idx x) (c_messages x).
Definition set_c_Server (v : list CONF_SERVER) (x : CONFIG) : CONFIG :=
  Config (c_global x) (c_limits x) (c_options x) (c_Opers x) (c_Channels x) v (c_New_Server
    x) (c_New_Server_Idx x) (c_messages x).
Definition set_c_New_Server (v : CONF_SERVER) (x : CONFIG) : CONFIG :=
  Config (c_global x) (c_limits x) (c_options x) (c_Opers x) (c_Channels x) (c_Server x) v
    (c_New_Server_Idx x) (c_messages x).
Definition set_c_New_Server_Idx (v : Z) (x : CONFIG) : CONFIG :=
  Config (c_global x) (c_limits x) (c_options x) (c_Opers x) (c_Channels x) (c_Server x)
    (c_New_Server x) v (c_messages x).
Definition set_c_messages (v : list (Z * string)) (x : CONFIG) : CONFIG :=
  Config (c_global x) (c_limits x) (c_options x) (c_Opers x) (c_Channels x) (c_Server x)
    (c_New_Server x) (c_New_Server_Idx x) v.

(** Operators and channels. *)
Definition set_co_name (v : string) (x : CONF_OPER) : CONF_OPER :=
  ConfOper v (co_pwd x) (co_mask x).
Definition set_co_pwd (v : string) (x : CONF_OPER) : CONF_OPER :=
  ConfOper (co_name x) v (co_mask x).
Definition set_co_mask (v : option string) (x : CONF_OPER) : CONF_OPER :=
  ConfOper (co_name x) (co_pwd x) v.

Definition set_cc_name (v : string) (x : CONF_CHANNEL) : CONF_CHANNEL :=
  ConfChannel v (cc_modes_lines x) (cc_key x) (cc_topic x) (cc_keyfile x) (cc_autojoin x)
    (cc_maxusers x).
Definition set_cc_modes_lines (v : list string) (x : CONF_CHANNEL) : CONF_CHANNEL :=
  ConfChannel (cc_name x) v (cc_key x) (cc_topic x) (cc_keyfile x) (cc_autojoin x)
    (cc_maxusers x).
Definition set_cc_key (v : string) (x : CONF_CHANNEL) : CONF_CHANNEL :=
  ConfChannel (cc_name x) (cc_modes_lines x) v (cc_topic x) (cc_keyfile x) (cc_autojoin x)
    (cc_maxusers x).
Definition set_cc_topic (v : string) (x : CONF_CHANNEL) : CONF_CHANNEL :=
  ConfChannel (cc_name x) (cc_modes_lines x) (cc_key x) v (cc_keyfile x) (cc_autojoin x)
    (cc_maxusers x).
Definition set_cc_keyfile (v : string) (x : CONF_CHANNEL) : CONF_CHANNEL :=
  ConfChannel (cc_name x) (cc_modes_lines x) (cc_key x) (cc_topic x) v (cc_autojoin x)
    (cc_maxusers x).
Definition set_cc_autojoin (v : bool) (x : CONF_CHANNEL) : CONF_CHANNEL :=
  ConfChannel (cc_name x) (cc_modes_lines x) (cc_key x) (cc_topic x) (cc_keyfile x) v
    (cc_maxusers x).
Definition set_cc_maxusers (v : Z) (x : CONF_CHANNEL) : CONF_CHANNEL :=
  ConfChannel (cc_name x) (cc_modes_lines x) (cc_key x) (cc_topic x) (cc_keyfile x)
    (cc_autojoin x) v.

(** Assignments to the variables of a section. *)
Definition in_global (f : GLOBALS -> GLOBALS) (s : CONFIG) : CONFIG := set_c_global (f (c_global s)) s.
Definition in_limits (f : LIMITS -> LIMITS) (s : CONFIG) : CONFIG := set_c_limits (f (c_limits s)) s.
Definition in_options (f : OPTIONS -> OPTIONS) (s : CONFIG) : CONFIG := set_c_options (f (c_options s)) s.
