(* ===== verification/ConfFile.v ===== *)
(** * The configuration file (src/server/core/config/conf.c)

    Reading, validating and printing the configuration.  An operation is a
    function on the variables; it ends normally, by [exit(1)], or in a fault.  Log
    messages are collected.  The contents of files and directories, the users,
    groups and addresses that the system knows, its name, and the random salt are
    arguments. *)

From S2P Require Import Prelude CString Match Hash Lists Messages World ClientCore Ipaddr.
From S2P Require Import ChannelCore IrcWrite Channel Client Conn Servers Reader IrcInfo Login IrcLogin IrcServer ConfVars.

(** ** Operations *)

Inductive conf_result (A : Type) :=
  | Ok (a : A) (s : CONFIG)
  | Exit (s : CONFIG)
  | Fault (f : fault).
Arguments Ok {A} a s.
Arguments Exit {A} s.
Arguments Fault {A} f.

Definition CM (A : Type) : Type := CONFIG -> conf_result A.

#[export] Instance CM_ret : MRet CM := fun A a s => Ok a s.
#[export] Instance CM_bind : MBind CM := fun A B k m s =>
  match m s with Ok a s' => k a s' | Exit s' => Exit s' | Fault f => Fault f end.

Definition get_conf {A} (f : CONFIG -> A) : CM A := fun s => Ok (f s) s.
Definition put_conf (f : CONFIG -> CONFIG) : CM unit := fun s => Ok tt (f s).
Definition exit_1 {A} : CM A := fun s => Exit s.
Definition fault_ {A} (f : fault) : CM A := fun _ => Fault f.
Definition ensure (b : bool) : CM unit := if b then mret tt else fault_ AssertFailed.

(** ** Messages *)

Definition LOG_ALERT : Z := 1.
Definition LOG_ERR : Z := 3.
Definition LOG_WARNING : Z := 4.
Definition LOG_INFO : Z := 6.

Definition Config_Error (Level : Z) (Format : string) (args : list farg) : CM unit :=
  put_conf (fun s => set_c_messages (c_messages s ++ [(Level, snprintf MAX_LOG_MSG_LEN Format args)]) s).

Definition Config_Error_TooLong (File : string) (Line : Z) (Item : string) : CM unit :=
  Config_Error LOG_WARNING (dq "%s, line %d: Value of `%s` too long!") [FS File; FZ Line; FS Item].

Definition Config_Error_Section (File : string) (Line : Z) (Item Section_ : string) : CM unit :=
  Config_Error LOG_ERR (dq "%s, line %d (section `%s`): Unknown variable `%s`!")
    [FS File; FZ Line; FS Section_; FS Item].

Definition Config_Error_NaN (File : string) (Line : Z) (Item : string) : CM unit :=
  Config_Error LOG_WARNING (dq "%s, line %d: Value of `%s` is not a number!") [FS File; FZ Line; FS Item].

(** ** Values *)

Definition FNAME_LEN : nat := 256.
Definition MAX_PAM_SERVICE_NAME_LEN : nat := 64.
Definition RANDOM_SALT_LEN : nat := 32.
Definition LINE_LEN : nat := 1024.

Definition Check_ArgIsTrue (Arg : string) : bool :=
  strcaseeq Arg "yes" || strcaseeq Arg "true" || negb (atoi Arg =? 0).

Section values.
Context (File : string) (Line : Z).

(** A text is copied to a field of [size] bytes. *)
Definition copy_text (set : string -> CONFIG -> CONFIG) (size : nat) (Var Arg : string) : CM unit :=
  put_conf (set (strlcpy Arg size));;
  if (size <=? slen Arg)%nat then Config_Error_TooLong File Line Var else mret tt.

(** A number; 0 must be written as such. *)
Definition set_number (set : Z -> CONFIG -> CONFIG) (n : Z) (Var Arg : string) : CM unit :=
  put_conf (set n);;
  if (n =? 0) && negb (String.eqb Arg "0") then Config_Error_NaN File Line Var else mret tt.

(** A number with a lower limit. *)
Definition set_at_least (set : Z -> CONFIG -> CONFIG) (low : Z) (Format Arg : string) : CM unit :=
  put_conf (set (atoi Arg));;
  if atoi Arg <? low then
    Config_Error LOG_WARNING Format [FS File; FZ Line];; put_conf (set low)
  else mret tt.

Definition Handle_MaxNickLength (Arg : string) : CM Z :=
  let new := u32 (atoi Arg + 1) in
  if Z.of_nat CLIENT_NICK_LEN <? new then
    Config_Error LOG_WARNING (dq "%s, line %d: Value of `MaxNickLength` exceeds %u!")
      [FS File; FZ Line; FZ (Z.of_nat CLIENT_NICK_LEN - 1)];;
    mret (Z.of_nat CLIENT_NICK_LEN)
  else if new <? 2 then
    Config_Error LOG_WARNING (dq "%s, line %d: Value of `MaxNickLength` must be at least 1!")
      [FS File; FZ Line];;
    mret 2
  else mret new.

(** The loops that collect the characters of a value that are valid, without
    repetitions, in a field of [size] bytes. *)
Fixpoint collect (valid : string) (size : nat) (Format : string) (cur p : string) : CM string :=
  match p with
  | "" => mret cur
  | String c p' =>
      if has_chr cur c then collect valid size Format cur p'
      else if has_chr valid c then
        ensure (slen cur + 1 <? size)%nat;; collect valid size Format (cur +:+ String c "") p'
      else Config_Error LOG_WARNING Format [FS File; FZ Line; FC c];; collect valid size Format cur p'
  end.

Definition port_ok (port : Z) : bool := (0 <? port) && (port <? 0xFFFF).

Fixpoint parse_ports (ptrs : list string) (ports : list Z) : CM (list Z) :=
  match ptrs with
  | [] => mret ports
  | ptr :: rest =>
      let port := atoi (ngt_TrimStr ptr) in
      if port_ok port then parse_ports rest (ports ++ [port])
      else
        Config_Error LOG_ERR (dq "%s, line %d (section `Global`): Illegal port number %ld!")
          [FS File; FZ Line; FZ port];;
        parse_ports rest ports
  end.

Definition ports_parse (Arg : string) : CM (list Z) := parse_ports (tokens Arg ",") [].

(** ** Sections *)

Context (getaddrinfo : string -> string -> option ng_ipaddr_t) (getgrnam getpwnam : string -> option Z).

(** The test [strcasecmp(Var, name) == 0]. *)
Notation "'case' Var 'is' name 'then' a 'else' b" := (if strcaseeq Var name then a else b)
  (at level 200, Var at level 9, name at level 9, a at level 200, b at level 200, only parsing).

(** A user or a group, by name or number. *)
Definition set_owner (find : string -> option Z) (set : Z -> CONFIG -> CONFIG) (Format Var Arg : string) : CM unit :=
  match find Arg with
  | Some id => put_conf (set id)
  | None =>
      put_conf (set (u32 (atoi Arg)));;
      if (u32 (atoi Arg) =? 0) && negb (String.eqb Arg "0")
      then Config_Error LOG_WARNING Format [FS File; FZ Line; FS Var] else mret tt
  end.

Definition global_text (set : string -> GLOBALS -> GLOBALS) (size : nat) (Var Arg : string) : CM unit :=
  copy_text (fun v => in_global (set v)) size Var Arg.

Definition Handle_GLOBAL (Var Arg : string) : CM unit :=
  ensure (0 <? Line);;
  case Var is "Name" then global_text set_g_ServerName CLIENT_ID_LEN Var Arg else
  case Var is "AdminInfo1" then global_text set_g_ServerAdmin1 CLIENT_INFO_LEN Var Arg else
  case Var is "AdminInfo2" then global_text set_g_ServerAdmin2 CLIENT_INFO_LEN Var Arg else
  case Var is "AdminEMail" then global_text set_g_ServerAdminMail CLIENT_INFO_LEN Var Arg else
  case Var is "Info" then global_text set_g_ServerInfo CLIENT_INFO_LEN Var Arg else
  case Var is "HelpFile" then global_text set_g_HelpFile FNAME_LEN Var Arg else
  case Var is "Listen" then put_conf (in_global (set_g_ListenAddress (Some Arg))) else
  case Var is "MotdFile" then global_text set_g_MotdFile FNAME_LEN Var Arg else
  case Var is "MotdPhrase" then
    (if (slen Arg =? 0)%nat then mret tt
     else if (127 <=? slen Arg)%nat then Config_Error_TooLong File Line Var
     else
       put_conf (in_global (set_g_Motd [Arg]));;
       put_conf (in_global (set_g_Using_MotdFile false))) else
  case Var is "Network" then
    (global_text set_g_Network CLIENT_INFO_LEN Var Arg;;
     net ← get_conf (fun s => g_Network (c_global s));
     if has_chr net " " then
       Config_Error LOG_WARNING (dq "%s, line %d: `Network` can't contain spaces!") [FS File; FZ Line];;
       put_conf (in_global (set_g_Network (before " " net)))
     else mret tt) else
  case Var is "Password" then global_text set_g_ServerPwd CLIENT_PASS_LEN Var Arg else
  case Var is "PidFile" then global_text set_g_PidFile FNAME_LEN Var Arg else
  case Var is "Ports" then
    (ports ← ports_parse Arg; put_conf (in_global (set_g_ListenPorts ports))) else
  case Var is "ServerGID" then
    set_owner getgrnam (fun v => in_global (set_g_GID v))
      (dq "%s, line %d: Value of `%s` is not a valid group name or ID!") Var Arg else
  case Var is "ServerUID" then
    set_owner getpwnam (fun v => in_global (set_g_UID v))
      (dq "%s, line %d: Value of `%s` is not a valid user name or ID!") Var Arg
  else Config_Error_Section File Line Var "Global".

Definition limit_number (set : Z -> LIMITS -> LIMITS) (Var Arg : string) : CM unit :=
  set_number (fun v => in_limits (set v)) (atoi Arg) Var Arg.

Definition limit_seconds (set : Z -> LIMITS -> LIMITS) (Format Arg : string) : CM unit :=
  set_at_least (fun v => in_limits (set v)) 5 Format Arg.

Definition Handle_LIMITS (Var Arg : string) : CM unit :=
  ensure (0 <? Line);;
  case Var is "ConnectRetry" then
    limit_seconds set_l_ConnectRetry (dq "%s, line %d: Value of `ConnectRetry` too low!") Arg else
  case Var is "IdleTimeout" then limit_number set_l_IdleTimeout Var Arg else
  case Var is "MaxConnections" then limit_number set_l_MaxConnections Var Arg else
  case Var is "MaxConnectionsIP" then limit_number set_l_MaxConnectionsIP Var Arg else
  case Var is "MaxJoins" then limit_number set_l_MaxJoins Var Arg else
  case Var is "MaxNickLength" then
    (n ← Handle_MaxNickLength Arg; put_conf (in_limits (set_l_MaxNickLength n))) else
  case Var is "MaxListSize" then limit_number set_l_MaxListSize Var Arg else
  case Var is "MaxPenaltyTime" then
    put_conf (in_limits (set_l_MaxPenaltyTime (if atol Arg <? -1 then -1 else atol Arg))) else
  case Var is "PingTimeout" then
    limit_seconds set_l_PingTimeout (dq "%s, line %d: Value of `PingTimeout` too low!") Arg else
  case Var is "PongTimeout" then
    limit_seconds set_l_PongTimeout (dq "%s, line %d: Value of `PongTimeout` too low!") Arg
  else Config_Error_Section File Line Var "Limits".

Definition option_text (set : string -> OPTIONS -> OPTIONS) (size : nat) (Var Arg : string) : CM unit :=
  copy_text (fun v => in_options (set v)) size Var Arg.

Definition option_flag (set : bool -> OPTIONS -> OPTIONS) (Arg : string) : CM unit :=
  put_conf (in_options (set (Check_ArgIsTrue Arg))).

Definition option_set (set : string -> OPTIONS -> OPTIONS) (valid : string) (size : nat) (Format Arg : string) : CM unit :=
  v ← collect valid size Format "" Arg; put_conf (in_options (set v)).

(** The warnings about features that are not compiled in: identd and PAM. *)
Definition WarnIdent : CM unit :=
  on ← get_conf (fun s => o_Ident (c_options s));
  if (on : bool) then
    Config_Error LOG_WARNING (dq "%s: line %d: `Ident = yes`, but ngircd was built without IDENT support!")
      [FS File; FZ Line]
  else mret tt.

Definition WarnPAM : CM unit :=
  on ← get_conf (fun s => o_PAM (c_options s));
  if (on : bool) then
    Config_Error LOG_WARNING (dq "%s: line %d: `PAM = yes`, but ngircd was built without PAM support!")
      [FS File; FZ Line]
  else mret tt.

Definition Handle_OPTIONS (Var Arg : string) : CM unit :=
  ensure (0 <? Line);;
  case Var is "AllowedChannelTypes" then
    option_set set_o_AllowedChannelTypes CHANTYPES 8
      (dq "%s, line %d: Unknown channel prefix `%c` in `AllowedChannelTypes`!") Arg else
  case Var is "AllowRemoteOper" then option_flag set_o_AllowRemoteOper Arg else
  case Var is "ChrootDir" then option_text set_o_Chroot FNAME_LEN Var Arg else
  case Var is "CloakHost" then option_text set_o_CloakHost CLIENT_ID_LEN Var Arg else
  case Var is "CloakHostModeX" then option_text set_o_CloakHostModeX CLIENT_ID_LEN Var Arg else
  case Var is "CloakHostSalt" then option_text set_o_CloakHostSalt CLIENT_ID_LEN Var Arg else
  case Var is "CloakUserToNick" then option_flag set_o_CloakUserToNick Arg else
  case Var is "ConnectIPv6" then option_flag set_o_ConnectIPv6 Arg else
  case Var is "ConnectIPv4" then option_flag set_o_ConnectIPv4 Arg else
  case Var is "DefaultChannelModes" then
    option_set set_o_DefaultChannelModes CHANMODES CHANNEL_MODE_LEN
      (dq "%s, line %d: Unknown channel mode `%c` in `DefaultChannelModes`!") Arg else
  case Var is "DefaultUserModes" then
    option_set set_o_DefaultUserModes USERMODES CLIENT_MODE_LEN
      (dq "%s, line %d: Unknown user mode `%c` in `DefaultUserModes`!") Arg else
  case Var is "DNS" then option_flag set_o_DNS Arg else
  case Var is "Ident" then (option_flag set_o_Ident Arg;; WarnIdent) else
  case Var is "IncludeDir" then
    (dir ← get_conf (fun s => o_IncludeDir (c_options s));
     if negb (hd0 dir =c NUL) then
       Config_Error LOG_ERR (dq "%s, line %d: Can't overwrite value of `IncludeDir` variable!") [FS File; FZ Line]
     else option_text set_o_IncludeDir FNAME_LEN Var Arg) else
  case Var is "MorePrivacy" then option_flag set_o_MorePrivacy Arg else
  case Var is "NoticeBeforeRegistration" then option_flag set_o_NoticeBeforeRegistration Arg else
  case Var is "OperCanUseMode" then option_flag set_o_OperCanMode Arg else
  case Var is "OperChanPAutoOp" then option_flag set_o_OperChanPAutoOp Arg else
  case Var is "OperServerMode" then option_flag set_o_OperServerMode Arg else
  case Var is "PAM" then (option_flag set_o_PAM Arg;; WarnPAM) else
  case Var is "PAMIsOptional" then option_flag set_o_PAMIsOptional Arg else
  case Var is "PAMServiceName" then option_text set_o_PAMServiceName MAX_PAM_SERVICE_NAME_LEN Var Arg else
  case Var is "RequireAuthPing" then option_flag set_o_AuthPing Arg else
  case Var is "ScrubCTCP" then option_flag set_o_ScrubCTCP Arg else
  case Var is "WebircPassword" then option_text set_o_WebircPwd CLIENT_PASS_LEN Var Arg
  else Config_Error_Section File Line Var "Options".

(** Changes the last element of a list. *)
Fixpoint upd_last {A} (f : A -> A) (l : list A) : list A :=
  match l with
  | [] => []
  | [x] => [f x]
  | x :: l' => x :: upd_last f l'
  end.

Definition in_oper (f : CONF_OPER -> CONF_OPER) (s : CONFIG) : CONFIG := set_c_Opers (upd_last f (c_Opers s)) s.

Definition Handle_OPERATOR (Var Arg : string) : CM unit :=
  ensure (0 <? Line);;
  opers ← get_conf c_Opers;
  match opers with
  | [] => mret tt
  | _ =>
      case Var is "Name" then copy_text (fun v => in_oper (set_co_name v)) CLIENT_PASS_LEN Var Arg else
      case Var is "Password" then copy_text (fun v => in_oper (set_co_pwd v)) CLIENT_PASS_LEN Var Arg else
      case Var is "Mask" then put_conf (in_oper (set_co_mask (Some Arg)))
      else Config_Error_Section File Line Var "Operator"
  end.

Definition in_server (f : CONF_SERVER -> CONF_SERVER) (s : CONFIG) : CONFIG :=
  set_c_New_Server (f (c_New_Server s)) s.

Definition server_text (set : string -> CONF_SERVER -> CONF_SERVER) (size : nat) (Var Arg : string) : CM unit :=
  copy_text (fun v => in_server (set v)) size Var Arg.

Definition Handle_SERVER (Var Arg : string) : CM unit :=
  ensure (0 <? Line);;
  idx ← get_conf c_New_Server_Idx;
  if idx <=? NONE then mret tt else
  case Var is "Host" then server_text set_sv_host HOST_LEN Var Arg else
  case Var is "Name" then server_text set_sv_name CLIENT_ID_LEN Var Arg else
  case Var is "Bind" then
    match ng_ipaddr_init getaddrinfo Arg 0 with
    | Some addr => put_conf (in_server (set_sv_bind_addr addr))
    | None =>
        Config_Error LOG_ERR (dq "%s, line %d (section `Server`): Can't parse IP address `%s`")
          [FS File; FZ Line; FS Arg]
    end else
  case Var is "MyPassword" then
    ((if hd0 Arg =c ":"%char then
        Config_Error LOG_ERR (dq "%s, line %d (section `Server`): MyPassword must not start with ':'!")
          [FS File; FZ Line]
      else mret tt);;
     server_text set_sv_pwd_in CLIENT_PASS_LEN Var Arg) else
  case Var is "PeerPassword" then server_text set_sv_pwd_out CLIENT_PASS_LEN Var Arg else
  case Var is "Port" then
    (let port := atol Arg in
     if (0 <=? port) && (port <? 0xFFFF) then put_conf (in_server (set_sv_port port))
     else Config_Error LOG_ERR (dq "%s, line %d (section `Server`): Illegal port number %ld!")
            [FS File; FZ Line; FZ port]) else
  case Var is "Group" then set_number (fun v => in_server (set_sv_group v)) (atoi Arg) Var Arg else
  case Var is "Passive" then
    (if Check_ArgIsTrue Arg
     then put_conf (in_server (fun s => set_sv_flags (Z.lor (sv_flags s) CONF_SFLAG_DISABLED) s))
     else mret tt) else
  case Var is "ServiceMask" then
    (put_conf (in_server (set_sv_svs_mask (strlcpy (ngt_LowerStr Arg) CLIENT_ID_LEN)));;
     if (CLIENT_ID_LEN <=? slen Arg)%nat then Config_Error_TooLong File Line Var else mret tt)
  else Config_Error_Section File Line Var "Server".

(** The name of a channel, and whether it fits. *)
Definition Handle_Channelname (name : string) : bool * string :=
  if Channel_IsValidName name then ((slen name <? CHANNEL_NAME_LEN)%nat, strlcpy name CHANNEL_NAME_LEN)
  else ((slen name <? CHANNEL_NAME_LEN - 1)%nat, String "#" (strlcpy name (CHANNEL_NAME_LEN - 1))).

Definition in_chan (f : CONF_CHANNEL -> CONF_CHANNEL) (s : CONFIG) : CONFIG :=
  set_c_Channels (upd_last f (c_Channels s)) s.

Definition channel_text (set : string -> CONF_CHANNEL -> CONF_CHANNEL) (size : nat) (Var Arg : string) : CM unit :=
  copy_text (fun v => in_chan (set v)) size Var Arg.

(** The elements of the array [modes], and its size in bytes. *)
Definition MODES_NUM : nat := 512.
Definition MODES_SIZE : nat := 8 * MODES_NUM.

Definition deprecated (Var Instead : string) : CM unit :=
  Config_Error LOG_WARNING (dq "%s, line %d (section `Channel`): `%s` is deprecated here, use `" +:+ Instead +:+ dq "`!")
    [FS File; FZ Line; FS Var].

Definition add_mode_line (chan : CONF_CHANNEL) (Var Arg : string) : CM unit :=
  let modes_num := length (cc_modes_lines chan) in
  if (MODES_SIZE <=? modes_num)%nat then Config_Error LOG_ERR "Too many Modes, option ignored." []
  else if (MODES_NUM <=? modes_num)%nat then fault_ OutOfBounds
  else
    put_conf (in_chan (fun c => set_cc_modes_lines (cc_modes_lines c ++ [strndup Arg COMMAND_LEN]) c));;
    if (COMMAND_LEN <=? slen Arg)%nat then Config_Error_TooLong File Line Var else mret tt.

Definition Handle_CHANNEL (Var Arg : string) : CM unit :=
  ensure (0 <? Line);;
  chans ← get_conf c_Channels;
  match list.last chans with
  | None => mret tt
  | Some chan =>
      case Var is "Name" then
        (put_conf (in_chan (set_cc_name (Handle_Channelname Arg).2));;
         if (Handle_Channelname Arg).1 then mret tt else Config_Error_TooLong File Line Var) else
      case Var is "Modes" then add_mode_line chan Var Arg else
      case Var is "Topic" then channel_text set_cc_topic COMMAND_LEN Var Arg else
      case Var is "Autojoin" then put_conf (in_chan (set_cc_autojoin (Check_ArgIsTrue Arg))) else
      case Var is "Key" then
        (channel_text set_cc_key CLIENT_PASS_LEN Var Arg;; deprecated Var "Modes = +k <key>") else
      case Var is "MaxUsers" then
        (set_number (fun v => in_chan (set_cc_maxusers v)) (u32 (atol Arg)) Var Arg;;
         deprecated Var "Modes = +l <limit>") else
      case Var is "KeyFile" then channel_text set_cc_keyfile 512 Var Arg
      else Config_Error_Section File Line Var "Channel"
  end.

(** ** Files *)

(** The section that a file has reached. *)
Definition dispatch_section (section Var Arg : string) : CM unit :=
  if strcaseeq section "[GLOBAL]" then Handle_GLOBAL Var Arg
  else if strcaseeq section "[LIMITS]" then Handle_LIMITS Var Arg
  else if strcaseeq section "[OPTIONS]" then Handle_OPTIONS Var Arg
  else if strcaseeq section "[OPERATOR]" then Handle_OPERATOR Var Arg
  else if strcaseeq section "[SERVER]" then Handle_SERVER Var Arg
  else if strcaseeq section "[CHANNEL]" then Handle_CHANNEL Var Arg
  else Config_Error LOG_ERR (dq "%s, line %d: Variable `%s` outside section!") [FS File; FZ Line; FS Var].

(** Stores the server that has been read. *)
Definition store_new_server : CM unit :=
  name ← get_conf (fun s => sv_name (c_New_Server s));
  if hd0 name =c NUL then mret tt
  else
    idx ← get_conf c_New_Server_Idx;
    ensure (NONE <? idx);;
    put_conf (fun s => set_c_Server (<[Z.to_nat idx := c_New_Server s]> (c_Server s)) s).

Context `{Conf} (now : Z).

(** The index of the first unused server, or NONE. *)
Fixpoint unused_server (i : Z) (l : list CONF_SERVER) : Z :=
  match l with
  | [] => NONE
  | s :: l' => if hd0 (sv_name s) =c NUL then i else unused_server (i + 1) l'
  end.

Definition new_server_section : CM unit :=
  store_new_server;;
  retry ← get_conf (fun s => l_ConnectRetry (c_limits s));
  put_conf (set_c_New_Server (server_struct retry now));;
  servers ← get_conf c_Server;
  let i := unused_server 0 servers in
  (if i =? NONE then Config_Error LOG_ERR "Too many servers configured." [] else mret tt);;
  put_conf (set_c_New_Server_Idx i).

Definition is_header (str : string) : bool := (hd0 str =c "["%char) && (last_chr str =c "]"%char).

(** The beginning of a section: what the variable [section] is afterwards. *)
Definition begin_section (str : string) : CM string :=
  let section := strlcpy str LINE_LEN in
  if strcaseeq section "[GLOBAL]" || strcaseeq section "[LIMITS]" || strcaseeq section "[OPTIONS]" then mret section
  else if strcaseeq section "[SERVER]" then new_server_section;; mret section
  else if strcaseeq section "[CHANNEL]" then
    put_conf (fun s => set_c_Channels (c_Channels s ++ [ConfChannel "" [] "" "" "" false 0]) s);; mret section
  else if strcaseeq section "[OPERATOR]" then
    put_conf (fun s => set_c_Opers (c_Opers s ++ [ConfOper "" "" None]) s);; mret section
  else
    Config_Error LOG_ERR (dq "%s, line %d: Unknown section `%s`!") [FS File; FZ Line; FS section];;
    mret (String "001" (str_drop 1 section)).

(** One line of a file, for the variable [section]. *)
Definition config_line (section line : string) : CM string :=
  let str := ngt_TrimStr line in
  if (hd0 str =c ";"%char) || (hd0 str =c "#"%char) || (hd0 str =c NUL) then mret section
  else if (LINE_LEN - 1 <=? slen str)%nat then
    Config_Error LOG_WARNING "%s, line %d too long!" [FS File; FZ Line];; mret section
  else if is_header str then begin_section str
  else if hd0 section =c "001"%char then mret section
  else match after "=" str with
       | None => Config_Error LOG_ERR "%s, line %d: Syntax error!" [FS File; FZ Line];; mret section
       | Some arg => dispatch_section section (ngt_TrimStr (before "=" str)) (ngt_TrimStr arg);; mret section
       end.

End values.

(** The lines that [fgets] reads with a buffer of [size] bytes: to the end of the
    line, at most [size - 1] characters. *)
Fixpoint fgets_lines (size room : nat) (cur s : string) : list string :=
  match s with
  | "" => match cur with "" => [] | _ => [cur] end
  | String c s' =>
      let cur' := cur +:+ String c "" in
      if (c =c LF) || (room <=? 1)%nat then cur' :: fgets_lines size (size - 1) "" s'
      else fgets_lines size (room - 1) cur' s'
  end.

Definition fgets (size : nat) (content : string) : list string :=
  map (before NUL) (fgets_lines size (size - 1) "" content).

Section files.
Context `{Conf} (getaddrinfo : string -> string -> option ng_ipaddr_t) (getgrnam getpwnam : string -> option Z).
Context (now : Z) (fopen : string -> option string) (opendir : string -> option (list string)).
Context (strerror : string -> string).

Fixpoint config_lines (File : string) (line : Z) (section : string) (lines : list string) : CM unit :=
  match lines with
  | [] => mret tt
  | l :: rest =>
      section ← config_line File line getaddrinfo getgrnam getpwnam now section l;
      config_lines File (line + 1) section rest
  end.

Definition Read_Config_File (File content : string) : CM unit :=
  config_lines File 1 "" (fgets LINE_LEN content).

(** ** Defaults *)

Definition SYSCONFDIR : string := ".".
Definition DOCDIR : string := ".".
Definition CONFIG_FILE : string := "/ngircd.conf".
Definition CONFIG_DIR : string := "/ngircd.conf.d".
Definition MOTD_FILE : string := "/ngircd.motd".
Definition HELP_FILE : string := "/Commands.txt".
Definition DEFAULT_LISTEN_ADDRSTR : string := "::,0.0.0.0".

Definition path (dir name : string) : string := strlcat (strlcpy dir FNAME_LEN) name FNAME_LEN.

Definition default_global (s : GLOBALS) : GLOBALS :=
  Globals "" "" "" "" (snprintf CLIENT_INFO_LEN "%s %s" [FS PACKAGE_NAME; FS PACKAGE_VERSION]) ""
    None [] [] (g_Using_MotdFile s) [] (path SYSCONFDIR MOTD_FILE) (path DOCDIR HELP_FILE) "" "" 0 0.

Definition default_limits : LIMITS :=
  Limits 60 0 0 5 10 (Z.of_nat CLIENT_NICK_LEN_DEFAULT) 100 (-1) 120 20.

(** The password for WEBIRC is not among the variables that are set. *)
Definition default_options (salt : string) (s : OPTIONS) : OPTIONS :=
  Options CHANTYPES false false "" "" "" (strlcpy salt CLIENT_ID_LEN) false true true "" "" true false
    "" false false false true false false false "ngircd" false (o_WebircPwd s).

Definition MAX_SERVERS_nat : nat := Z.to_nat MAX_SERVERS.

Definition Set_Defaults (salt : string) (InitServers : bool) : CM unit :=
  put_conf (in_global default_global);;
  put_conf (set_c_limits default_limits);;
  put_conf (in_options (default_options salt));;
  if InitServers then
    put_conf (set_c_Server (replicate MAX_SERVERS_nat (server_struct (l_ConnectRetry default_limits) now)))
  else mret tt.

(** ** Reading *)

Definition Read_TextFile (Filename Name : string) : CM (option (list string)) :=
  if hd0 Filename =c NUL then mret None
  else match fopen Filename with
       | None =>
           Config_Error LOG_ERR (dq "Can't read %s file `%s`: %s") [FS Name; FS Filename; FS (strerror Filename)];;
           mret None
       | Some content => mret (Some (map (fun l => ngt_TrimLastChr l LF) (fgets COMMAND_LEN content)))
       end.

(** The server [i] when the configuration is read again: unused ones are cleared,
    the others are to be deleted after the connection has been closed; if this is
    so already, duplicates are deleted. *)
Definition clean_server (retry : Z) (i : nat) (l : list CONF_SERVER) : list CONF_SERVER :=
  match l !! i with
  | None => l
  | Some s =>
      if sv_conn_id s =? NONE then <[i := server_struct retry now]> l
      else if negb (Z.land (sv_flags s) CONF_SFLAG_ONCE =? 0) then
        imap (fun n x => if negb (n =? i)%nat && (sv_conn_id s =? sv_conn_id x) then server_struct retry now else x) l
      else <[i := set_sv_flags (Z.lor (sv_flags s) CONF_SFLAG_ONCE) s]> l
  end.

Definition clean_servers (retry : Z) (l : list CONF_SERVER) : list CONF_SERVER :=
  fold_left (fun l i => clean_server retry i l) (seq 0 (length l)) l.

(** The suffix of a name in the directory. *)
Fixpoint from_last_dot (s : string) : option string :=
  match s with
  | "" => None
  | String c s' =>
      match from_last_dot s' with
      | Some t => Some t
      | None => if c =c "."%char then Some s else None
      end
  end.

Fixpoint include_files (TestOnly : bool) (dir : string) (names : list string) : CM unit :=
  match names with
  | [] => mret tt
  | name :: rest =>
      (if match from_last_dot name with Some t => strcaseeq t ".conf" | None => false end then
         let file := snprintf FNAME_LEN "%s/%s" [FS dir; FS name] in
         (if TestOnly then Config_Error LOG_INFO (dq "Reading configuration from `%s` ...") [FS file] else mret tt);;
         match fopen file with
         | Some content => Read_Config_File file content
         | None => Config_Error LOG_ALERT (dq "Can't read configuration `%s`: %s") [FS file; FS (strerror file)]
         end
       else mret tt);;
      include_files TestOnly dir rest
  end.

(** The directory with further files. *)
Definition include_dir (explicit : bool) : CM (option (list string)) :=
  dir ← get_conf (fun s => o_IncludeDir (c_options s));
  if negb (hd0 dir =c NUL) then
    match opendir dir with
    | Some names => mret (Some names)
    | None =>
        Config_Error LOG_ALERT (dq "Can't open include directory `%s`: %s") [FS dir; FS (strerror dir)];;
        mret None
    end
  else if negb explicit then
    put_conf (in_options (set_o_IncludeDir (path SYSCONFDIR CONFIG_DIR)));;
    mret (opendir (path SYSCONFDIR CONFIG_DIR))
  else mret None.

(** [ConfFile] is the file named on the command line, or empty. *)
Definition Read_Config (ConfFile salt : string) (TestOnly IsStarting : bool) : CM bool :=
  let explicit := negb (hd0 ConfFile =c NUL) in
  let file := if explicit then ConfFile else path SYSCONFDIR CONFIG_FILE in
  Config_Error LOG_INFO (dq "Using %s configuration file `%s` ...")
    [FS (if explicit then "specified" else "default"); FS file];;
  let fd := fopen file in
  match fd with
  | Some _ => mret tt
  | None =>
      (if explicit then
         Config_Error LOG_ALERT (dq "Can't read specified configuration file `%s`: %s") [FS file; FS (strerror file)];;
         if IsStarting then Config_Error LOG_ALERT "%s exiting due to fatal errors!" [FS PACKAGE_NAME];; exit_1
         else mret tt
       else mret tt);;
      Config_Error LOG_WARNING (dq "Can't read default configuration file `%s`: %s - Ignored.")
        [FS file; FS (strerror file)]
  end;;
  put_conf (set_c_Opers []);;
  Set_Defaults salt IsStarting;;
  (if TestOnly && is_some fd then Config_Error LOG_INFO (dq "Reading configuration from `%s` ...") [FS file]
   else mret tt);;
  let retry := l_ConnectRetry default_limits in
  put_conf (fun s => set_c_Server (clean_servers retry (c_Server s)) s);;
  put_conf (set_c_New_Server (server_struct retry now));;
  put_conf (set_c_New_Server_Idx NONE);;
  match fd with Some content => Read_Config_File file content | None => mret tt end;;
  names ← include_dir explicit;
  dir ← get_conf (fun s => o_IncludeDir (c_options s));
  match names with Some names => include_files TestOnly dir names | None => mret tt end;;
  store_new_server;;
  put_conf (in_global (fun g => match g_ListenPorts g with [] => set_g_ListenPorts [6667] g | _ => g end));;
  put_conf (in_global (fun g => match g_ListenAddress g with
                                | None => set_g_ListenAddress (Some DEFAULT_LISTEN_ADDRSTR) g | _ => g end));;
  motd ← get_conf (fun s => g_Motd (c_global s));
  motdfile ← get_conf (fun s => g_MotdFile (c_global s));
  match motd with
  | [] =>
      t ← Read_TextFile motdfile "MOTD";
      match t with
      | Some lines => put_conf (in_global (set_g_Motd lines));; put_conf (in_global (set_g_Using_MotdFile true))
      | None => mret tt
      end
  | _ => mret tt
  end;;
  helpfile ← get_conf (fun s => g_HelpFile (c_global s));
  t ← Read_TextFile helpfile "help text";
  match t with Some lines => put_conf (in_global (set_g_Helptext lines)) | None => mret tt end;;
  help ← get_conf (fun s => g_Helptext (c_global s));
  match help with
  | [] => Config_Error LOG_WARNING "No help text available, HELP command will be of limited use." []
  | _ => mret tt
  end;;
  mret true.

(** ** Validation *)

Definition alnum (c : ascii) : bool :=
  let n := char_val c in
  ((97 <=? n) && (n <=? 122)) || ((65 <=? n) && (n <=? 90)) || ((48 <=? n) && (n <=? 57)).

(** The characters of a server name. *)
Definition valid_server_name (name : string) : bool :=
  match name with
  | "" => false
  | String c s => alnum c && str_forall (fun c => alnum c || (c =c "."%char) || (c =c "-"%char)) s
  end.

Context (gethostname : string) (gethostbyname : string -> option string).

(** The name of the host for a server without a configured name. *)
Definition host_name (DNS : bool) : string :=
  let name := strlcpy gethostname CLIENT_ID_LEN in
  let name := if DNS then match gethostbyname name with Some h => strlcpy h CLIENT_ID_LEN | None => name end
              else name in
  if negb (has_chr name ".") then strlcat name ".host" CLIENT_ID_LEN else name.

Definition Validate_Config (ConfFile : string) (Configtest Rehash : bool) : CM bool :=
  (if negb (hd0 ConfFile =c NUL) && negb (hd0 ConfFile =c "/"%char) then
     Config_Error LOG_WARNING
       (dq "Not specifying a full path name to `%s` can cause problems when rehashing the server!") [FS ConfFile]
   else mret tt);;
  s ← get_conf id;
  (if hd0 (g_ServerName (c_global s)) =c NUL then
     let name := host_name (o_DNS (c_options s)) in
     put_conf (in_global (set_g_ServerName name));;
     Config_Error LOG_WARNING (dq "No server name configured, using host name `%s`.") [FS name]
   else mret tt);;
  put_conf (in_global (fun g => if valid_server_name (g_ServerName g) then g else set_g_ServerName "" g));;
  s ← get_conf id;
  let name := g_ServerName (c_global s) in
  config_valid ← (if (hd0 name =c NUL) || negb (has_chr name ".") then
    Config_Error LOG_ALERT "No (valid) server name configured (section 'Global': 'Name')!" [];;
    (if negb Configtest && negb Rehash then
       Config_Error LOG_ALERT "%s exiting due to fatal errors!" [FS PACKAGE_NAME];; exit_1
     else mret tt);;
    mret false
  else mret true);
  (if (hd0 (g_ServerAdmin1 (c_global s)) =c NUL) && (hd0 (g_ServerAdmin2 (c_global s)) =c NUL)
      && (hd0 (g_ServerAdminMail (c_global s)) =c NUL) then
     Config_Error LOG_WARNING "No administrative information configured but required by RFC!" []
   else mret tt);;
  (if negb (l_MaxPenaltyTime (c_limits s) =? -1) then
     Config_Error LOG_WARNING
       "Maximum penalty increase ('MaxPenaltyTime') is set to %ld, this is not recommended!"
       [FZ (l_MaxPenaltyTime (c_limits s))]
   else mret tt);;
  mret (config_valid : bool).

Definition Load_And_Validate_Config (ConfFile salt : string) (TestOnly IsStarting Rehash : bool) : CM bool :=
  ok ← Read_Config ConfFile salt TestOnly IsStarting;
  if negb (ok : bool) then mret false else Validate_Config ConfFile TestOnly Rehash.

Definition Conf_Init (ConfFile salt : string) : CM unit :=
  _ ← Load_And_Validate_Config ConfFile salt false true false; mret tt.

End files.

(** ** Printing *)

Definition yesno_to_str (boolean_value : bool) : string := if boolean_value then "yes" else "no".

Fixpoint comma_separated (l : list Z) : string :=
  match l with
  | [] => ""
  | [p] => print_base 10 p
  | p :: l' => print_base 10 p +:+ ", " +:+ comma_separated l'
  end.

(** The output as lines. *)
Definition entry (name value : string) : string := "  " +:+ name +:+ " = " +:+ value.
Definition entry_n (name : string) (value : Z) : string := entry name (print_base 10 value).
Definition entry_b (name : string) (value : bool) : string := entry name (yesno_to_str value).

Definition ports_puts (a : list Z) : string := "  Ports = " +:+ comma_separated a.

Definition oper_lines (op : CONF_OPER) : list string :=
  if hd0 (co_name op) =c NUL then []
  else ["[OPERATOR]"; entry "Name" (co_name op); entry "Password" (co_pwd op);
        entry "Mask" (from_opt "" (co_mask op)); ""].

Definition opers_puts (opers : list CONF_OPER) : list string := concat (map oper_lines opers).

Definition conf_server_lines (s : CONF_SERVER) : list string :=
  if hd0 (sv_name s) =c NUL then []
  else ["[SERVER]"; entry "Name" (sv_name s); entry "Host" (sv_host s); entry_n "Port" (sv_port s);
        entry "MyPassword" (sv_pwd_in s); entry "PeerPassword" (sv_pwd_out s);
        entry "ServiceMask" (sv_svs_mask s); entry_n "Group" (sv_group s);
        entry_b "Passive" (negb (Z.land (sv_flags s) CONF_SFLAG_DISABLED =? 0)); ""].

Definition conf_channel_lines (c : CONF_CHANNEL) : list string :=
  if hd0 (cc_name c) =c NUL then []
  else ["[CHANNEL]"; entry "Name" (cc_name c)] ++ map (entry "Modes") (cc_modes_lines c) ++
       [entry "Key" (cc_key c); entry_n "MaxUsers" (cc_maxusers c); entry "Topic" (cc_topic c);
        entry_b "Autojoin" (cc_autojoin c); entry "KeyFile" (cc_keyfile c); ""].

Section dump.
Context (getgrgid getpwuid : Z -> option string).

(** The group or user by name, or else by number. *)
Definition entry_id (name : string) (find : Z -> option string) (id : Z) : string :=
  match find id with Some n => entry name n | None => entry_n name id end.

Definition global_lines (g : GLOBALS) (PAM : bool) : list string :=
  ["[GLOBAL]"; entry "Name" (g_ServerName g); entry "AdminInfo1" (g_ServerAdmin1 g);
   entry "AdminInfo2" (g_ServerAdmin2 g); entry "AdminEMail" (g_ServerAdminMail g);
   entry "HelpFile" (g_HelpFile g); entry "Info" (g_ServerInfo g);
   entry "Listen" (from_opt "(null)" (g_ListenAddress g))] ++
  (if g_Using_MotdFile g then [entry "MotdFile" (g_MotdFile g); "  MotdPhrase ="]
   else ["  MotdFile = "; entry "MotdPhrase" (default "" (head (g_Motd g)))]) ++
  [entry "Network" (g_Network g)] ++
  (if PAM then [] else [entry "Password" (g_ServerPwd g)]) ++
  [entry "PidFile" (g_PidFile g); ports_puts (g_ListenPorts g);
   entry_id "ServerGID" getgrgid (g_GID g); entry_id "ServerUID" getpwuid (g_UID g); ""].

Definition limit_lines (l : LIMITS) : list string :=
  ["[LIMITS]"; entry_n "ConnectRetry" (l_ConnectRetry l); entry_n "IdleTimeout" (l_IdleTimeout l);
   entry_n "MaxConnections" (l_MaxConnections l); entry_n "MaxConnectionsIP" (l_MaxConnectionsIP l);
   entry_n "MaxJoins" (if 0 <? l_MaxJoins l then l_MaxJoins l else -1);
   entry_n "MaxNickLength" (u32 (l_MaxNickLength l - 1)); entry_n "MaxPenaltyTime" (l_MaxPenaltyTime l);
   entry_n "MaxListSize" (l_MaxListSize l); entry_n "PingTimeout" (l_PingTimeout l);
   entry_n "PongTimeout" (l_PongTimeout l); ""].

(** The two entries for the versions of the protocol show each other's value. *)
Definition option_lines (o : OPTIONS) : list string :=
  ["[OPTIONS]"; entry "AllowedChannelTypes" (o_AllowedChannelTypes o);
   entry_b "AllowRemoteOper" (o_AllowRemoteOper o); entry "ChrootDir" (o_Chroot o);
   entry "CloakHost" (o_CloakHost o); entry "CloakHostModeX" (o_CloakHostModeX o);
   entry "CloakHostSalt" (o_CloakHostSalt o); entry_b "CloakUserToNick" (o_CloakUserToNick o);
   entry_b "ConnectIPv4" (o_ConnectIPv6 o); entry_b "ConnectIPv6" (o_ConnectIPv4 o);
   entry "DefaultChannelModes" (o_DefaultChannelModes o); entry "DefaultUserModes" (o_DefaultUserModes o);
   entry_b "DNS" (o_DNS o); entry "IncludeDir" (o_IncludeDir o); entry_b "MorePrivacy" (o_MorePrivacy o);
   entry_b "NoticeBeforeRegistration" (o_NoticeBeforeRegistration o);
   entry_b "OperCanUseMode" (o_OperCanMode o); entry_b "OperChanPAutoOp" (o_OperChanPAutoOp o);
   entry_b "OperServerMode" (o_OperServerMode o); entry_b "RequireAuthPing" (o_AuthPing o);
   entry_b "ScrubCTCP" (o_ScrubCTCP o); entry "WebircPassword" (o_WebircPwd o); ""].

Definition Dump_Config (s : CONFIG) : list string :=
  global_lines (c_global s) (o_PAM (c_options s)) ++ limit_lines (c_limits s) ++ option_lines (c_options s) ++
  opers_puts (c_Opers s) ++ concat (map conf_server_lines (c_Server s)) ++ concat (map conf_channel_lines (c_Channels s)).

End dump.

(** What is written to the terminal: each line with its end. *)
Definition print_lines (l : list string) : string := String.concat "" (map (fun s => s +:+ String LF "") l).

(** ** The settings of the server *)

(** The settings that the rest of the program reads; what the configuration does
    not determine is taken from [base]. *)
Definition conf_of (base : Conf) (s : CONFIG) : Conf :=
  let g := c_global s in
  let l := c_limits s in
  let o := c_options s in
  {| Conf_ServerName := g_ServerName g; Conf_ServerInfo := g_ServerInfo g;
     Conf_MaxNickLength := Z.to_nat (l_MaxNickLength l); Conf_MorePrivacy := o_MorePrivacy o;
     Conf_OperCanMode := o_OperCanMode o; Conf_CloakHost := o_CloakHost o;
     Conf_CloakHostModeX := o_CloakHostModeX o; Conf_CloakHostSalt := o_CloakHostSalt o;
     Conf_CloakUserToNick := o_CloakUserToNick o; Conf_MaxPenaltyTime := l_MaxPenaltyTime l;
     Conf_ConnectRetry := l_ConnectRetry l; Conf_MaxJoins := l_MaxJoins l;
     Conf_OperServerMode := o_OperServerMode o; Conf_AllowedChannelTypes := o_AllowedChannelTypes o;
     NGIRCd_Passive := NGIRCd_Passive; Conf_ScrubCTCP := o_ScrubCTCP o;
     Conf_AllowRemoteOper := o_AllowRemoteOper o; Conf_Helptext := g_Helptext g;
     PACKAGE_NAME := PACKAGE_NAME; PACKAGE_VERSION := PACKAGE_VERSION; NGIRCd_DebugLevel := NGIRCd_DebugLevel;
     NGIRCd_ProtoID := NGIRCd_ProtoID; Conf_PingTimeout := l_PingTimeout l; Conf_PongTimeout := l_PongTimeout l;
     Conf_DNS := o_DNS o; Conf_NoticeBeforeRegistration := o_NoticeBeforeRegistration o;
     Conf_ServerAdmin1 := g_ServerAdmin1 g; Conf_ServerAdmin2 := g_ServerAdmin2 g;
     Conf_ServerAdminMail := g_ServerAdminMail g; Conf_Motd := g_Motd g; Conf_Network := g_Network g;
     Conf_MaxListSize := l_MaxListSize l; Conf_OperChanPAutoOp := o_OperChanPAutoOp o;
     Conf_DefaultChannelModes := o_DefaultChannelModes o; NGIRCd_Version := NGIRCd_Version;
     NGIRCd_VersionAddition := NGIRCd_VersionAddition; NGIRCd_Start := NGIRCd_Start;
     NGIRCd_StartStr := NGIRCd_StartStr; BUILD_DATE := BUILD_DATE; BUILD_TIME := BUILD_TIME;
     strftime_local := strftime_local; Conf_AuthPing := o_AuthPing o; Conf_ServerPwd := g_ServerPwd g;
     Conf_DefaultUserModes := o_DefaultUserModes o; Conf_WebircPwd := o_WebircPwd o;
     Conf_Channels := c_Channels s; Conf_Opers := c_Opers s; HOST_CPU := HOST_CPU; HOST_VENDOR := HOST_VENDOR;
     HOST_OS := HOST_OS;
     Conf_MaxConnections := l_MaxConnections l; Conf_MaxConnectionsIP := l_MaxConnectionsIP l;
     Conf_IdleTimeout := l_IdleTimeout l; Conf_ListenAddress := g_ListenAddress g;
     Conf_ListenPorts := g_ListenPorts g; getnameinfo := getnameinfo |}.
