(* ===== verification/ConfSpec.v ===== *)
(** * The configuration file: the contracts

    Whatever a configuration file contains, the variables keep their bounds;
    where reading faults, and what is read back from a printed configuration. *)

From S2P Require Import Prelude CString Match Hash Lists Messages World ClientCore Ipaddr.
From S2P Require Import ChannelCore IrcWrite Channel Client Conn Servers Reader IrcInfo Login IrcLogin IrcServer.
From S2P Require Import ConfVars ConfFile.

(** ** Bounds *)

Notation fits n s := (slen s < n)%nat.

(** A set of characters. *)
Definition char_set (valid : string) (size : nat) (s : string) : Prop :=
  (forall c, str_mem c s = true -> has_chr valid c = true) /\ str_nodup s = true /\ fits size s.

Record global_ok (g : GLOBALS) : Prop := {
  gok_name : fits CLIENT_ID_LEN (g_ServerName g);
  gok_admin1 : fits CLIENT_INFO_LEN (g_ServerAdmin1 g);
  gok_admin2 : fits CLIENT_INFO_LEN (g_ServerAdmin2 g);
  gok_mail : fits CLIENT_INFO_LEN (g_ServerAdminMail g);
  gok_info : fits CLIENT_INFO_LEN (g_ServerInfo g);
  gok_network : fits CLIENT_INFO_LEN (g_Network g);
  gok_spaces : str_mem " " (g_Network g) = false;
  gok_motdfile : fits FNAME_LEN (g_MotdFile g);
  gok_helpfile : fits FNAME_LEN (g_HelpFile g);
  gok_pidfile : fits FNAME_LEN (g_PidFile g);
  gok_pwd : fits CLIENT_PASS_LEN (g_ServerPwd g);
  gok_ports : Forall (fun p => 0 < p < 65535) (g_ListenPorts g) }.

Record limits_ok (l : LIMITS) : Prop := {
  lok_retry : 5 <= l_ConnectRetry l;
  lok_nick : 2 <= l_MaxNickLength l <= 32;
  lok_penalty : -1 <= l_MaxPenaltyTime l;
  lok_ping : 5 <= l_PingTimeout l;
  lok_pong : 5 <= l_PongTimeout l }.

Record options_ok (o : OPTIONS) : Prop := {
  ook_types : char_set CHANTYPES 8 (o_AllowedChannelTypes o);
  ook_chroot : fits FNAME_LEN (o_Chroot o);
  ook_cloak : fits CLIENT_ID_LEN (o_CloakHost o);
  ook_cloakx : fits CLIENT_ID_LEN (o_CloakHostModeX o);
  ook_salt : fits CLIENT_ID_LEN (o_CloakHostSalt o);
  ook_cmodes : char_set CHANMODES CHANNEL_MODE_LEN (o_DefaultChannelModes o);
  ook_umodes : char_set USERMODES CLIENT_MODE_LEN (o_DefaultUserModes o);
  ook_include : fits FNAME_LEN (o_IncludeDir o);
  ook_pam : fits MAX_PAM_SERVICE_NAME_LEN (o_PAMServiceName o);
  ook_webirc : fits CLIENT_PASS_LEN (o_WebircPwd o) }.

Definition oper_ok (op : CONF_OPER) : Prop := fits CLIENT_PASS_LEN (co_name op) /\ fits CLIENT_PASS_LEN (co_pwd op).

Record channel_ok (c : CONF_CHANNEL) : Prop := {
  cok_name : fits CHANNEL_NAME_LEN (cc_name c);
  cok_modes : (length (cc_modes_lines c) <= MODES_NUM)%nat;
  cok_lines : Forall (fun m => (slen m <= COMMAND_LEN)%nat) (cc_modes_lines c);
  cok_key : fits CLIENT_PASS_LEN (cc_key c);
  cok_topic : fits COMMAND_LEN (cc_topic c);
  cok_keyfile : fits 512 (cc_keyfile c);
  cok_users : 0 <= cc_maxusers c < 2 ^ 32 }.

Record server_ok (s : CONF_SERVER) : Prop := {
  sok_name : fits CLIENT_ID_LEN (sv_name s);
  sok_host : fits HOST_LEN (sv_host s);
  sok_in : fits CLIENT_PASS_LEN (sv_pwd_in s);
  sok_out : fits CLIENT_PASS_LEN (sv_pwd_out s);
  sok_mask : fits CLIENT_ID_LEN (sv_svs_mask s);
  sok_port : 0 <= sv_port s < 65535 }.

(** All variables are within their bounds; a server that is being read has a place. *)
Record conf_ok (s : CONFIG) : Prop := {
  cf_global : global_ok (c_global s);
  cf_limits : limits_ok (c_limits s);
  cf_options : options_ok (c_options s);
  cf_opers : Forall oper_ok (c_Opers s);
  cf_channels : Forall channel_ok (c_Channels s);
  cf_servers : Forall server_ok (c_Server s);
  cf_new : server_ok (c_New_Server s);
  cf_length : length (c_Server s) = MAX_SERVERS_nat;
  cf_idx : -1 <= c_New_Server_Idx s < MAX_SERVERS;
  cf_place : sv_name (c_New_Server s) <> "" -> 0 <= c_New_Server_Idx s }.

(** ** Operations that keep the bounds *)

(** The faults that a file can cause. *)
Definition expected (f : fault) : Prop := f = AssertFailed \/ f = OutOfBounds.

(** [m] keeps the bounds, faults as expected, and calls [exit] only if [E]. *)
Definition keeps (E : Prop) {A} (m : CM A) : Prop :=
  forall s, conf_ok s -> match m s with Ok _ s' => conf_ok s' | Exit _ => E | Fault f => expected f end.

Section keeps.
Context {E : Prop}.

Lemma keeps_ret {A} (a : A) : keeps E (mret a).
Proof. by intros s Hs. Qed.

Lemma keeps_bind {A B} (m : CM A) (k : A -> CM B) : keeps E m -> (forall a, keeps E (k a)) -> keeps E (m ≫= k).
Proof.
  intros Hm Hk s Hs. unfold mbind, CM_bind. specialize (Hm s Hs). destruct (m s) as [a s'| |]; [|done|done].
  by apply Hk.
Qed.

(** Reading a variable, with what is known about it. *)
Lemma keeps_get {A B} (f : CONFIG -> A) (k : A -> CM B) :
  (forall s, conf_ok s -> match k (f s) s with Ok _ s' => conf_ok s' | Exit _ => E | Fault e => expected e end) ->
  keeps E (get_conf f ≫= k).
Proof. intros Hk s Hs. by apply Hk. Qed.

Lemma keeps_read {A B} (f : CONFIG -> A) (k : A -> CM B) :
  (forall a, keeps E (k a)) -> keeps E (get_conf f ≫= k).
Proof. intros Hk. apply keeps_bind; [|done]. by intros s Hs. Qed.

Lemma keeps_put f : (forall s, conf_ok s -> conf_ok (f s)) -> keeps E (put_conf f).
Proof. intros Hf s Hs. by apply Hf. Qed.

Lemma keeps_error Level Format args : keeps E (Config_Error Level Format args).
Proof. apply keeps_put. intros s []. by split. Qed.

Lemma keeps_ensure b : keeps E (ensure b).
Proof. intros s Hs. destruct b; [done|by left]. Qed.

Lemma keeps_if {A} (b : bool) (m1 m2 : CM A) : keeps E m1 -> keeps E m2 -> keeps E (if b then m1 else m2).
Proof. by destruct b. Qed.

Lemma keeps_case {A} (b : bool) (m1 m2 : CM A) :
  (b = true -> keeps E m1) -> keeps E m2 -> keeps E (if b then m1 else m2).
Proof. destruct b; auto. Qed.

Lemma keeps_too_long {A} File Line Item (m : CM A) :
  keeps E m -> keeps E (Config_Error_TooLong File Line Item;; m).
Proof. intros Hm. apply keeps_bind; [apply keeps_error|done]. Qed.

Lemma keeps_copy File Line set size Var Arg :
  (0 < size)%nat -> (forall v s, fits size v -> conf_ok s -> conf_ok (set v s)) ->
  keeps E (copy_text File Line set size Var Arg).
Proof.
  intros Hn Hset. apply keeps_bind.
  - apply keeps_put. intros s. apply Hset. by apply strlcpy_bound.
  - intros _. apply keeps_if; [apply keeps_error|apply keeps_ret].
Qed.

Lemma keeps_number File Line set n Var Arg :
  (forall s, conf_ok s -> conf_ok (set n s)) -> keeps E (set_number File Line set n Var Arg).
Proof.
  intros Hset. apply keeps_bind; [by apply keeps_put|].
  intros _. apply keeps_if; [apply keeps_error|apply keeps_ret].
Qed.

End keeps.

Create HintDb conf discriminated.
#[export] Hint Resolve keeps_ret keeps_error keeps_ensure keeps_if : conf.

(** The bounds of one section, after one of its variables has been set. *)
Ltac field_ok :=
  intros;
  match goal with H : conf_ok _ |- _ => destruct H end;
  split; cbn; try done;
  try match goal with
      | H : global_ok _ |- global_ok _ => destruct H
      | H : limits_ok _ |- limits_ok _ => destruct H
      | H : options_ok _ |- options_ok _ => destruct H
      end; try split; cbn; try done; try lia.

Ltac conf_if := repeat match goal with |- keeps _ (if _ then _ else _) => apply keeps_if end.

(** One step of a handler. *)
Ltac conf_step :=
  match goal with
  | |- keeps _ (if _ then _ else _) => apply keeps_if
  | |- keeps _ (mret _) => apply keeps_ret
  | |- keeps _ (Config_Error _ _ _) => apply keeps_error
  | |- keeps _ (Config_Error_TooLong _ _ _) => apply keeps_error
  | |- keeps _ (Config_Error_Section _ _ _ _) => apply keeps_error
  | |- keeps _ (ensure _) => apply keeps_ensure
  | |- keeps _ (put_conf _) => apply keeps_put; field_ok
  | |- keeps _ (copy_text _ _ _ _ _ _) => apply keeps_copy; [by apply Nat.ltb_lt|field_ok]
  | |- keeps _ (set_number _ _ _ _ _ _) => apply keeps_number; field_ok
  | |- keeps _ (global_text _ _ _ _ _ _) => unfold global_text
  | |- keeps _ (option_text _ _ _ _ _ _) => unfold option_text
  | |- keeps _ (option_flag _ _) => unfold option_flag
  | |- keeps _ (limit_number _ _ _ _ _) => unfold limit_number
  | |- keeps _ (get_conf _ ≫= _) => apply keeps_read; intros ?
  | |- keeps _ (_ ≫= _) => apply keeps_bind; [|intros ?]
  end.

(** ** Values *)

(** [m] keeps the bounds and its result has the property [P]. *)
Definition gives (E : Prop) {A} (P : A -> Prop) (m : CM A) : Prop :=
  forall s, conf_ok s ->
  match m s with Ok a s' => conf_ok s' /\ P a | Exit _ => E | Fault f => expected f end.

Lemma gives_bind {E A B} (P : A -> Prop) (m : CM A) (k : A -> CM B) :
  gives E P m -> (forall a, P a -> keeps E (k a)) -> keeps E (m ≫= k).
Proof.
  intros Hm Hk s Hs. unfold mbind, CM_bind. specialize (Hm s Hs). destruct (m s) as [a s'| |]; [|done|done].
  destruct Hm. by apply Hk.
Qed.

Lemma gives_keeps {E A B} (P : A -> Prop) (m : CM B) (k : B -> CM A) :
  keeps E m -> (forall b, gives E P (k b)) -> gives E P (m ≫= k).
Proof.
  intros Hm Hk s Hs. unfold mbind, CM_bind. specialize (Hm s Hs). destruct (m s) as [b s'| |]; [|done|done].
  by apply Hk.
Qed.

Lemma gives_ret {E A} (P : A -> Prop) (a : A) : P a -> gives E P (mret a).
Proof. by intros Ha s Hs. Qed.

Lemma gives_if {E A} (P : A -> Prop) (b : bool) (m1 m2 : CM A) :
  (b = true -> gives E P m1) -> (b = false -> gives E P m2) -> gives E P (if b then m1 else m2).
Proof. destruct b; auto. Qed.

Lemma char_set_empty valid size : (0 < size)%nat -> char_set valid size "".
Proof. intros Hn. repeat split; [done|exact Hn]. Qed.

Lemma char_set_add valid size cur c :
  char_set valid size cur -> has_chr cur c = false -> has_chr valid c = true -> (slen cur + 1 < size)%nat ->
  char_set valid size (cur +:+ String c "").
Proof.
  intros (Hv & Hn & Hf) Hc Hvc Hs. unfold char_set.
  assert (c <> NUL) as Hc0 by (intros ->; by rewrite has_chr_NUL in Hc).
  rewrite strchr_mem in Hc by done. repeat split.
  - intros a. rewrite str_mem_app. intros [Ha|Ha]%orb_prop; [by apply Hv|].
    simpl in Ha. rewrite orb_false_r in Ha. apply Ascii.eqb_eq in Ha as <-. exact Hvc.
  - apply str_nodup_app. split; [done|]. split; [done|].
    intros a Ha. simpl. rewrite orb_false_r. apply not_true_is_false.
    intros Hx%Ascii.eqb_eq. congruence.
  - rewrite slen_app. simpl. lia.
Qed.

Lemma gives_collect {E} File Line valid size Format p : forall cur,
  char_set valid size cur -> gives E (char_set valid size) (collect File Line valid size Format cur p).
Proof.
  induction p as [|c p IH]; intros cur Hcur; cbn [collect]; [by apply gives_ret|].
  apply gives_if; [intros _; by apply IH|intros Hc]. apply gives_if; intros Hv.
  - intros s Hs. unfold mbind, CM_bind, ensure.
    destruct (Nat.ltb_spec (slen cur + 1) size); [|by left]. apply IH; [|done]. by apply char_set_add.
  - apply gives_keeps; [apply keeps_error|]. intros _. by apply IH.
Qed.

Lemma gives_ports {E} File Line l : forall ports,
  Forall (fun p => 0 < p < 65535) ports ->
  gives E (Forall (fun p => 0 < p < 65535)) (parse_ports File Line l ports).
Proof.
  induction l as [|x l IH]; intros ports Hp; cbn [parse_ports]; [by apply gives_ret|].
  apply gives_if; intros Hx.
  - apply IH. apply Forall_app. split; [done|]. apply Forall_singleton. unfold port_ok in Hx. lia.
  - apply gives_keeps; [apply keeps_error|]. intros _. by apply IH.
Qed.

Lemma gives_nick_length {E} File Line Arg : gives E (fun n => 2 <= n <= 32) (Handle_MaxNickLength File Line Arg).
Proof.
  unfold Handle_MaxNickLength.
  apply gives_if; intros H1; [apply gives_keeps; [apply keeps_error|intros _; by apply gives_ret]|].
  apply gives_if; intros H2; [apply gives_keeps; [apply keeps_error|intros _; by apply gives_ret]|].
  apply gives_ret. change (Z.of_nat CLIENT_NICK_LEN) with 32 in H1. lia.
Qed.

Lemma slen_before c s : (slen (before c s) <= slen s)%nat.
Proof. induction s as [|a s IH]; simpl; [done|]. destruct (a =c c); simpl; lia. Qed.

(** ** The sections *)

Ltac record_ok :=
  intros; match goal with H : channel_ok _ |- _ => destruct H | H : server_ok _ |- _ => destruct H end;
  split; cbn; try done.

Section sections.
Context {E : Prop} (File : string) (Line : Z).
Context (getaddrinfo : string -> string -> option ng_ipaddr_t) (getgrnam getpwnam : string -> option Z).

Lemma keeps_set_owner find set Format Var Arg :
  (forall n s, conf_ok s -> conf_ok (set n s)) -> keeps E (set_owner File Line find set Format Var Arg).
Proof.
  intros Hset. unfold set_owner. destruct (find Arg); [by apply keeps_put; auto|].
  apply keeps_bind; [by apply keeps_put; auto|]. intros _. repeat conf_step.
Qed.

(** The name of the network: the text before the first space. *)
Lemma keeps_network Var Arg :
  keeps E (global_text File Line set_g_Network CLIENT_INFO_LEN Var Arg;;
           net ← get_conf (fun s => g_Network (c_global s));
           if has_chr net " " then
             Config_Error LOG_WARNING (dq "%s, line %d: `Network` can't contain spaces!") [FS File; FZ Line];;
             put_conf (in_global (set_g_Network (before " " net)))
           else mret tt).
Proof.
  intros s Hs. unfold global_text, copy_text, mbind, CM_bind, put_conf, get_conf.
  assert (fits CLIENT_INFO_LEN (strlcpy Arg CLIENT_INFO_LEN)) as Hfit by (apply strlcpy_bound; by apply Nat.ltb_lt).
  generalize (strlcpy Arg CLIENT_INFO_LEN) Hfit. intros v Hv.
  pose proof (slen_before " " v) as Hb. pose proof (before_not_mem " " v) as Hm.
  assert (fits CLIENT_INFO_LEN (before " " v)) by (apply (Nat.le_lt_trans _ _ _ Hb Hv)).
  destruct (CLIENT_INFO_LEN <=? slen Arg)%nat; cbn -[before has_chr snprintf];
    (destruct (has_chr v " ") eqn:Hsp; [|rewrite strchr_mem in Hsp by done]); field_ok.
Qed.

Lemma keeps_GLOBAL Var Arg : keeps E (Handle_GLOBAL File Line getgrnam getpwnam Var Arg).
Proof.
  unfold Handle_GLOBAL.
  repeat (apply keeps_network || (apply (gives_bind _ _ _ (gives_ports _ _ _ _ (Forall_nil_2 _))); intros ??) || conf_step).
  - apply keeps_set_owner. field_ok.
  - apply keeps_set_owner. field_ok.
Qed.

Lemma keeps_seconds set Format Arg :
  (forall n s, 5 <= n -> conf_ok s -> conf_ok (in_limits (set n) s)) ->
  (forall n m l, set n (set m l) = set n l) ->
  keeps E (limit_seconds File Line set Format Arg).
Proof.
  intros Hset Hsame s Hs. unfold limit_seconds, set_at_least, mbind, CM_bind, put_conf, Config_Error.
  destruct (Z.ltb_spec (atoi Arg) 5); [|by apply Hset].
  cbn -[snprintf]. unfold in_limits. cbn -[snprintf]. rewrite Hsame.
  specialize (Hset 5 s ltac:(lia) Hs). destruct Hset. by split.
Qed.

Lemma keeps_LIMITS Var Arg : keeps E (Handle_LIMITS File Line Var Arg).
Proof.
  unfold Handle_LIMITS.
  repeat ((apply (gives_bind _ _ _ (gives_nick_length _ _ _)); intros ??) || conf_step).
  all: try (apply keeps_seconds; [field_ok|done]).
  destruct (Z.ltb_spec (atol Arg) (-1)); lia.
Qed.

Lemma keeps_option_set set valid size Format Arg :
  (0 < size)%nat -> (forall v s, char_set valid size v -> conf_ok s -> conf_ok (in_options (set v) s)) ->
  keeps E (option_set File Line set valid size Format Arg).
Proof.
  intros Hn Hset. apply (gives_bind (char_set valid size)); [by apply gives_collect, char_set_empty|].
  intros v Hv. apply keeps_put. auto.
Qed.

Lemma keeps_OPTIONS Var Arg : keeps E (Handle_OPTIONS File Line Var Arg).
Proof.
  unfold Handle_OPTIONS, WarnIdent, WarnPAM. repeat conf_step.
  all: apply keeps_option_set; [by apply Nat.ltb_lt|field_ok].
Qed.

Lemma Forall_upd_last {A} (P : A -> Prop) f l :
  (forall x, list.last l = Some x -> P x -> P (f x)) -> Forall P l -> Forall P (upd_last f l).
Proof.
  induction l as [|x [|y l] IH]; intros Hf Hl; cbn [upd_last]; [constructor| |];
    apply list.Forall_cons in Hl as [Hx Hl].
  - constructor; [by apply Hf|constructor].
  - constructor; [done|]. by apply IH.
Qed.

(** A change of the operator, channel or server that is being read. *)
Lemma in_oper_ok f s : (forall x, oper_ok x -> oper_ok (f x)) -> conf_ok s -> conf_ok (in_oper f s).
Proof. intros Hf []. split; cbn; try done. apply Forall_upd_last; auto. Qed.

Lemma in_chan_ok f s : (forall x, channel_ok x -> channel_ok (f x)) -> conf_ok s -> conf_ok (in_chan f s).
Proof. intros Hf []. split; cbn; try done. apply Forall_upd_last; auto. Qed.

Lemma keeps_OPERATOR Var Arg : keeps E (Handle_OPERATOR File Line Var Arg).
Proof.
  unfold Handle_OPERATOR. conf_step; [conf_step|]. conf_step. destruct a0; [conf_step|].
  repeat apply keeps_if; try apply keeps_error.
  - apply keeps_copy; [by apply Nat.ltb_lt|]. intros v s Hv. apply in_oper_ok. by intros x [].
  - apply keeps_copy; [by apply Nat.ltb_lt|]. intros v s Hv. apply in_oper_ok. by intros x [].
  - apply keeps_put. intros s. apply in_oper_ok. by intros x [].
Qed.

Lemma in_server_ok f s :
  (forall x, server_ok x -> server_ok (f x)) -> (forall x, sv_name (f x) = sv_name x) ->
  conf_ok s -> conf_ok (in_server f s).
Proof. intros Hf Hn []. split; cbn; auto. by rewrite Hn. Qed.

Lemma slen_lower_str s : slen (ngt_LowerStr s) = slen s.
Proof. apply slen_map. Qed.

Lemma keeps_in_server f :
  (forall x, sv_name (f x) = sv_name x) -> (forall x, server_ok x -> server_ok (f x)) ->
  keeps E (put_conf (in_server f)).
Proof. intros Hn Hf. apply keeps_put. intros s. by apply in_server_ok. Qed.

Lemma keeps_server_text set size Var Arg :
  (0 < size)%nat -> (forall v x, sv_name (set v x) = sv_name x) ->
  (forall v x, fits size v -> server_ok x -> server_ok (set v x)) ->
  keeps E (server_text File Line set size Var Arg).
Proof. intros Hn Hname Hset. apply keeps_copy; [done|]. intros v s Hv. apply in_server_ok; auto. Qed.

(** What follows a change after which the bounds hold. *)
Lemma keeps_tail {A} f (k : unit -> CM A) s :
  conf_ok (f s) -> keeps E (k tt) ->
  match (put_conf f ≫= k) s with Ok _ s' => conf_ok s' | Exit _ => E | Fault e => expected e end.
Proof. intros Hf Hk. by apply Hk. Qed.

Lemma keeps_SERVER Var Arg : keeps E (Handle_SERVER File Line getaddrinfo Var Arg).
Proof.
  unfold Handle_SERVER. conf_step; [conf_step|]. apply keeps_get. intros s Hs.
  destruct (Z.leb_spec (c_New_Server_Idx s) NONE) as [|Hi]; [done|].
  destruct (strcaseeq Var "Host"); [revert s Hs Hi|].
  { intros s Hs _. revert s Hs. apply keeps_server_text; [by apply Nat.ltb_lt|done|record_ok]. }
  destruct (strcaseeq Var "Name").
  { apply keeps_tail; [|apply keeps_if; [apply keeps_error|apply keeps_ret]].
    assert (0 <= c_New_Server_Idx s) by (unfold NONE in Hi; lia). clear Hi.
    destruct Hs as [? ? ? ? ? ? []]. split; cbn -[strlcpy CLIENT_ID_LEN]; try done.
    split; cbn -[strlcpy CLIENT_ID_LEN]; try done. apply strlcpy_bound. by apply Nat.ltb_lt. }
  clear Hi. revert s Hs. repeat (apply keeps_case; [intros Hcase|]).
  - destruct (ng_ipaddr_init getaddrinfo Arg 0); [|apply keeps_error].
    apply keeps_in_server; [done|record_ok].
  - apply keeps_bind; [repeat conf_step|]. intros _. apply keeps_server_text; [by apply Nat.ltb_lt|done|record_ok].
  - apply keeps_server_text; [by apply Nat.ltb_lt|done|record_ok].
  - apply keeps_case; [intros Hp|apply keeps_error].
    apply keeps_in_server; [done|record_ok]. lia.
  - apply keeps_number. intros s. apply in_server_ok; [record_ok|done].
  - apply keeps_if; [|apply keeps_ret]. apply keeps_in_server; [done|record_ok].
  - apply keeps_bind; [|intros _; apply keeps_if; [apply keeps_error|apply keeps_ret]].
    apply keeps_in_server; [done|]. intros x []. split; cbn -[strlcpy CLIENT_ID_LEN]; try done.
    apply strlcpy_bound. by apply Nat.ltb_lt.
  - apply keeps_error.
Qed.

Lemma Handle_Channelname_fits name : fits CHANNEL_NAME_LEN (Handle_Channelname name).2.
Proof.
  unfold Handle_Channelname. destruct (Channel_IsValidName name); cbn [snd].
  - apply strlcpy_bound. by apply Nat.ltb_lt.
  - cbn [slen]. pose proof (strlcpy_bound name (CHANNEL_NAME_LEN - 1)) as Hb.
    unfold CHANNEL_NAME_LEN in *. lia.
Qed.

Lemma add_mode_line_ok chan Var Arg s :
  conf_ok s -> list.last (c_Channels s) = Some chan ->
  match add_mode_line File Line chan Var Arg s with
  | Ok _ s' => conf_ok s' | Exit _ => E | Fault f => expected f end.
Proof.
  intros Hs Hlast. unfold add_mode_line.
  destruct (MODES_SIZE <=? _)%nat; [by apply keeps_error|].
  destruct (Nat.leb_spec MODES_NUM (length (cc_modes_lines chan))); [by right|].
  match goal with |- context [put_conf ?f ≫= ?k] => assert (conf_ok (f s)) as Hf end.
  { destruct Hs. split; cbn -[strndup COMMAND_LEN]; try done. apply Forall_upd_last; [|done].
    intros x Hx []. rewrite Hlast in Hx. injection Hx as <-. split; cbn -[strndup COMMAND_LEN]; try done.
    - rewrite length_app. simpl. lia.
    - apply Forall_app. split; [done|]. apply Forall_singleton, strndup_bound. }
  apply keeps_tail; [done|]. apply keeps_if; [apply keeps_error|apply keeps_ret].
Qed.

Lemma keeps_in_chan f : (forall x, channel_ok x -> channel_ok (f x)) -> keeps E (put_conf (in_chan f)).
Proof. intros Hf. apply keeps_put. intros s. by apply in_chan_ok. Qed.

Lemma keeps_channel_text set size Var Arg :
  (0 < size)%nat -> (forall v x, fits size v -> channel_ok x -> channel_ok (set v x)) ->
  keeps E (channel_text File Line set size Var Arg).
Proof. intros Hn Hset. apply keeps_copy; [done|]. intros v s Hv. apply in_chan_ok. auto. Qed.

Lemma keeps_CHANNEL Var Arg : keeps E (Handle_CHANNEL File Line Var Arg).
Proof.
  unfold Handle_CHANNEL. conf_step; [conf_step|]. apply keeps_get. intros s Hs.
  destruct (list.last (c_Channels s)) as [chan|] eqn:Hlast; [|done].
  destruct (strcaseeq Var "Name").
  { revert s Hs Hlast. intros s Hs _. revert s Hs. apply keeps_bind.
    - apply keeps_in_chan. intros x []. split; cbn -[Handle_Channelname CHANNEL_NAME_LEN]; try done.
      apply Handle_Channelname_fits.
    - intros _. repeat conf_step. }
  destruct (strcaseeq Var "Modes"); [by apply add_mode_line_ok|].
  clear Hlast. revert s Hs. repeat apply keeps_if.
  - apply keeps_channel_text; [by apply Nat.ltb_lt|]. record_ok.
  - apply keeps_in_chan. record_ok.
  - apply keeps_bind; [|intros _; apply keeps_error].
    apply keeps_channel_text; [by apply Nat.ltb_lt|]. record_ok.
  - apply keeps_bind; [|intros _; apply keeps_error].
    apply keeps_number. intros s. apply in_chan_ok. record_ok. apply u32_range.
  - apply keeps_channel_text; [by apply Nat.ltb_lt|]. record_ok.
  - apply keeps_error.
Qed.

Lemma keeps_dispatch section Var Arg :
  keeps E (dispatch_section File Line getaddrinfo getgrnam getpwnam section Var Arg).
Proof.
  unfold dispatch_section. repeat apply keeps_if;
    auto using keeps_GLOBAL, keeps_LIMITS, keeps_OPTIONS, keeps_OPERATOR, keeps_SERVER, keeps_CHANNEL, @keeps_error.
Qed.

Lemma hd0_nonempty s : hd0 s =c NUL = false -> s <> "".
Proof. by intros H ->. Qed.

(** A server that has been read has a place. *)
Lemma keeps_store : keeps E store_new_server.
Proof.
  apply keeps_get. intros s Hs. destruct (hd0 (sv_name (c_New_Server s)) =c NUL) eqn:Hn; [done|].
  apply hd0_nonempty in Hn. destruct Hs. specialize (cf_place0 Hn).
  unfold mbind, CM_bind, get_conf, ensure. destruct (Z.ltb_spec NONE (c_New_Server_Idx s)); [|by left].
  split; cbn; try done; [by apply Forall_insert|]. by rewrite length_insert.
Qed.

Context `{Conf} (now : Z).

Lemma server_struct_ok retry : server_ok (server_struct retry now).
Proof. split; cbn; try lia; by apply Nat.ltb_lt. Qed.

Lemma unused_server_range l : forall i, 0 <= i ->
  unused_server i l = NONE \/ i <= unused_server i l < i + Z.of_nat (length l).
Proof.
  induction l as [|s l IH]; intros i Hi; cbn [unused_server length]; [by left|].
  destruct (hd0 (sv_name s) =c NUL); [right; lia|]. destruct (IH (i + 1)); [lia|by left|right; lia].
Qed.

Lemma keeps_new_server_section : keeps E (new_server_section now).
Proof.
  unfold new_server_section. apply keeps_bind; [apply keeps_store|intros _].
  apply keeps_read. intros retry s Hs.
  pose proof (cf_length s Hs) as Hlen. unfold MAX_SERVERS_nat, MAX_SERVERS in Hlen.
  destruct (unused_server_range (c_Server s) 0 ltac:(lia)) as [Hu|Hu];
    unfold mbind, CM_bind, put_conf, get_conf, Config_Error; cbn -[snprintf server_struct]; rewrite ?Hu;
    [|replace (unused_server 0 (c_Server s) =? NONE) with false by (unfold NONE; lia)];
    cbn -[snprintf server_struct]; destruct Hs; split; cbn -[server_struct]; try done;
    try apply server_struct_ok; unfold NONE, MAX_SERVERS in *; lia.
Qed.

Lemma keeps_begin_section str : keeps E (begin_section File Line now str).
Proof.
  unfold begin_section. repeat apply keeps_if; try apply keeps_ret.
  - apply keeps_bind; [apply keeps_new_server_section|]. intros _. apply keeps_ret.
  - apply keeps_bind; [|intros _; apply keeps_ret]. apply keeps_put. intros s []. split; cbn; try done.
    apply Forall_app. split; [done|]. apply Forall_singleton.
    split; cbn; try lia; try constructor; by apply Nat.ltb_lt.
  - apply keeps_bind; [|intros _; apply keeps_ret]. apply keeps_put. intros s []. split; cbn; try done.
    apply Forall_app. split; [done|]. apply Forall_singleton. split; by apply Nat.ltb_lt.
  - apply keeps_bind; [apply keeps_error|]. intros _. apply keeps_ret.
Qed.

Lemma keeps_config_line section line :
  keeps E (config_line File Line getaddrinfo getgrnam getpwnam now section line).
Proof.
  unfold config_line. conf_if; try apply keeps_ret.
  - repeat conf_step.
  - apply keeps_begin_section.
  - destruct (after "=" _); [|repeat conf_step].
    apply keeps_bind; [apply keeps_dispatch|]. intros _. apply keeps_ret.
Qed.

End sections.

(** ** Files *)

Section files.
Context {E : Prop} `{Conf} (getaddrinfo : string -> string -> option ng_ipaddr_t).
Context (getgrnam getpwnam : string -> option Z) (now : Z).

Lemma keeps_Read_Config_File File content :
  keeps E (Read_Config_File getaddrinfo getgrnam getpwnam now File content).
Proof.
  unfold Read_Config_File. generalize 1 as line, "" as section.
  induction (fgets LINE_LEN content) as [|l ls IH]; intros line section; [apply keeps_ret|].
  cbn [config_lines]. apply keeps_bind; [apply keeps_config_line|]. intros section'. apply IH.
Qed.


Context (fopen : string -> option string) (opendir : string -> option (list string)) (strerror : string -> string).

(** What holds of the variables that [Set_Defaults] does not set; in particular
    when the program starts, and all variables are zero. *)
Record static_ok (s : CONFIG) : Prop := {
  st_webirc : fits CLIENT_PASS_LEN (o_WebircPwd (c_options s));
  st_channels : Forall channel_ok (c_Channels s);
  st_servers : Forall server_ok (c_Server s);
  st_length : length (c_Server s) = MAX_SERVERS_nat;
  st_new : server_ok (c_New_Server s);
  st_idx : -1 <= c_New_Server_Idx s < MAX_SERVERS;
  st_place : sv_name (c_New_Server s) <> "" -> 0 <= c_New_Server_Idx s }.

Lemma conf_ok_static s : conf_ok s -> static_ok s.
Proof. intros [? ? [] ? ? ? ? ? ? ?]. by split. Qed.

Lemma path_fits dir name : fits FNAME_LEN (path dir name).
Proof. apply strlcat_bound, strlcpy_bound. by apply Nat.ltb_lt. Qed.

Lemma default_global_ok g : global_ok (default_global g).
Proof.
  split; cbn -[snprintf path CLIENT_INFO_LEN FNAME_LEN]; try done; try apply path_fits;
    try apply Forall_nil_2; try (by apply Nat.ltb_lt). apply snprintf_bound. by apply Nat.ltb_lt.
Qed.

Lemma default_options_ok salt o : fits CLIENT_PASS_LEN (o_WebircPwd o) -> options_ok (default_options salt o).
Proof.
  intros Ho. split; cbn -[strlcpy CLIENT_ID_LEN char_set FNAME_LEN MAX_PAM_SERVICE_NAME_LEN];
    try (apply char_set_empty); try (by apply Nat.ltb_lt); try done.
  - split; [|split; [done|by apply Nat.ltb_lt]]. intros c Hc.
    destruct (decide (c = NUL)) as [->|]; [apply has_chr_NUL|by rewrite strchr_mem].
  - apply strlcpy_bound. by apply Nat.ltb_lt.
Qed.

Lemma Set_Defaults_ok salt init s : static_ok s ->
  match (put_conf (set_c_Opers []);; Set_Defaults now salt init) s with
  | Ok _ s' => conf_ok s' | _ => False end.
Proof.
  intros []. destruct init; unfold Set_Defaults, mbind, CM_bind, put_conf;
    split; cbn -[default_global default_options server_struct replicate MAX_SERVERS_nat]; try done;
    try apply default_global_ok; try (by apply default_options_ok); try (split; cbn; lia).
  apply Forall_replicate, server_struct_ok.
Qed.

Lemma clean_server_ok retry i l : Forall server_ok l ->
  Forall server_ok (clean_server now retry i l) /\ length (clean_server now retry i l) = length l.
Proof.
  intros Hl. unfold clean_server. destruct (l !! i) as [x|] eqn:Hx; [|done].
  assert (server_ok x) as Hok by (rewrite Forall_lookup in Hl; by apply (Hl i)).
  destruct (sv_conn_id x =? NONE); [|destruct (negb _)].
  - split; [apply Forall_insert, server_struct_ok; done|by rewrite length_insert].
  - split; [|by rewrite length_imap]. apply Forall_lookup. intros n y.
    rewrite list_lookup_imap. destruct (l !! n) as [z|] eqn:Hz; [|done]. intros [= <-].
    destruct (negb _ && _); [apply server_struct_ok|]. rewrite Forall_lookup in Hl. by apply (Hl n).
  - split; [|by rewrite length_insert]. apply Forall_insert; [done|]. by destruct Hok; split.
Qed.

Lemma clean_servers_ok retry l : Forall server_ok l ->
  Forall server_ok (clean_servers now retry l) /\ length (clean_servers now retry l) = length l.
Proof.
  unfold clean_servers. generalize (seq 0 (length l)) as idx. intros idx. revert l.
  induction idx as [|i idx IH]; intros l Hl; [done|]. cbn [fold_left].
  destruct (clean_server_ok retry i l Hl) as [H1 <-]. by apply IH.
Qed.

Lemma keeps_include_files TestOnly dir names :
  keeps E (include_files getaddrinfo getgrnam getpwnam now fopen strerror TestOnly dir names).
Proof.
  induction names as [|n names IH]; [apply keeps_ret|]. cbn [include_files].
  apply keeps_bind; [|intros _; exact IH]. apply keeps_if; [|apply keeps_ret].
  apply keeps_bind; [repeat conf_step|intros _].
  destruct (fopen _); [apply keeps_Read_Config_File|apply keeps_error].
Qed.

Lemma keeps_include_dir explicit : keeps E (include_dir opendir strerror explicit).
Proof.
  unfold include_dir. conf_step. apply keeps_if; [destruct (opendir a); repeat conf_step|].
  apply keeps_if; [|apply keeps_ret]. apply keeps_bind; [|intros _; apply keeps_ret].
  apply keeps_put. intros s []. split; cbn -[path]; try done. destruct cf_options0; split; cbn -[path]; try done.
  apply path_fits.
Qed.

Lemma keeps_Read_TextFile Filename Name : keeps E (Read_TextFile fopen strerror Filename Name).
Proof. unfold Read_TextFile. apply keeps_if; [apply keeps_ret|]. destruct (fopen Filename); repeat conf_step. Qed.


End files.

(** ** The whole configuration *)

Section reading.
Context `{Conf} (getaddrinfo : string -> string -> option ng_ipaddr_t).
Context (getgrnam getpwnam : string -> option Z) (now : Z).
Context (fopen : string -> option string) (opendir : string -> option (list string)) (strerror : string -> string).

(** [m] leads from [P] to [Q], or to an exit in a state in which [E] holds. *)
Definition leads (E : CONFIG -> Prop) (P : CONFIG -> Prop) {A} (Q : A -> CONFIG -> Prop) (m : CM A) : Prop :=
  forall s, P s -> match m s with Ok a s' => Q a s' | Exit s' => E s' | Fault f => expected f end.

Lemma leads_bind (F : CONFIG -> Prop) (P : CONFIG -> Prop) {A B} (Q : A -> CONFIG -> Prop) (R : B -> CONFIG -> Prop)
  (m : CM A) (k : A -> CM B) :
  leads F P Q m -> (forall a, leads F (Q a) R (k a)) -> leads F P R (m ≫= k).
Proof.
  intros Hm Hk s Hs. unfold mbind, CM_bind. specialize (Hm s Hs). destruct (m s) as [a s'| |]; [|done|done].
  by apply Hk.
Qed.

Lemma leads_message F Level Format args : leads F static_ok (fun _ => static_ok) (Config_Error Level Format args).
Proof. intros s []. by split. Qed.

Lemma leads_defaults (F : Prop) salt init {A} (k : unit -> CM A) :
  (forall a, keeps F (k a)) ->
  leads (fun _ => F) static_ok (fun _ => conf_ok) (put_conf (set_c_Opers []);; Set_Defaults now salt init ≫= k).
Proof.
  intros Hk s Hs. pose proof (Set_Defaults_ok now salt init s Hs) as Hd. unfold mbind, CM_bind, put_conf in *.
  destruct (Set_Defaults now salt init _) as [a s'| |]; [|done|done]. by apply Hk.
Qed.

Lemma keeps_clean_servers (P : Prop) retry :
  keeps P (put_conf (fun s => set_c_Server (clean_servers now retry (c_Server s)) s)).
Proof.
  apply keeps_put. intros s []. destruct (clean_servers_ok now retry (c_Server s)); [done|].
  split; cbn -[clean_servers]; try done. congruence.
Qed.

Lemma keeps_no_server (P : Prop) {A} (k : unit -> CM A) retry :
  (forall a, keeps P (k a)) ->
  keeps P (put_conf (set_c_New_Server (server_struct retry now));; put_conf (set_c_New_Server_Idx NONE) ≫= k).
Proof.
  intros Hk s Hs. apply Hk. destruct Hs. split; cbn -[server_struct]; try done. apply server_struct_ok.
Qed.

(** The defaults for where to listen. *)
Lemma keeps_listen (P : Prop) f : (forall g, global_ok g -> global_ok (f g)) -> keeps P (put_conf (in_global f)).
Proof. intros Hf. apply keeps_put. intros s []. split; cbn; auto. Qed.

(** Reading the files: the process exits only if it is starting, and the file that
    the user has named cannot be read. *)
Lemma Read_Config_ok (ConfFile salt : string) (TestOnly IsStarting : bool) s :
  static_ok s ->
  match Read_Config getaddrinfo getgrnam getpwnam now fopen opendir strerror ConfFile salt TestOnly IsStarting s with
  | Ok _ s' => conf_ok s'
  | Exit _ => IsStarting = true /\ ConfFile <> "" /\ fopen ConfFile = None
  | Fault f => expected f
  end.
Proof.
  intros Hs. unfold Read_Config. set (E' := IsStarting = true /\ _). revert s Hs.
  apply (leads_bind (fun _ => E') static_ok (fun _ => static_ok) (fun _ => conf_ok)); [apply leads_message|intros _].
  cbv zeta. apply (leads_bind (fun _ => E') static_ok (fun _ => static_ok) (fun _ => conf_ok)); [|intros _].
  { destruct (negb (hd0 ConfFile =c NUL)) eqn:He;
      match goal with |- leads _ _ _ (match ?f with _ => _ end) => destruct f eqn:Hfd end; try (by intros ?).
    - apply (leads_bind (fun _ => E') static_ok (fun _ => static_ok) (fun _ => static_ok)); [|intros _; apply leads_message].
      apply (leads_bind (fun _ => E') static_ok (fun _ => static_ok) (fun _ => static_ok)); [apply leads_message|intros _].
      destruct IsStarting; [|by intros ?]. intros s _. split; [done|]. split; [|done].
      apply negb_true_iff in He. by apply hd0_nonempty.
    - apply (leads_bind (fun _ => E') static_ok (fun _ => static_ok) (fun _ => static_ok)); [by intros ?|intros _; apply leads_message]. }
  apply leads_defaults. intros _. apply keeps_bind; [repeat conf_step|intros _].
  apply keeps_bind; [apply keeps_clean_servers|intros _]. apply keeps_no_server. intros _.
  apply keeps_bind; [case_match; [apply keeps_Read_Config_File|apply keeps_ret]|intros _].
  apply keeps_bind; [apply keeps_include_dir|intros names]. apply keeps_read. intros dir.
  apply keeps_bind; [destruct names; [apply keeps_include_files|apply keeps_ret]|intros _].
  apply keeps_bind; [apply keeps_store|intros _].
  apply keeps_bind; [apply keeps_listen; intros g Hg; destruct (g_ListenPorts g); [|done]|intros _].
  { destruct Hg. split; cbn; try done. by apply Forall_singleton. }
  apply keeps_bind; [apply keeps_listen; intros g Hg; destruct (g_ListenAddress g); [done|]|intros _].
  { by destruct Hg; split. }
  apply keeps_read. intros motd. apply keeps_read. intros motdfile.
  apply keeps_bind; [destruct motd; [|apply keeps_ret]|intros _].
  { apply keeps_bind; [apply keeps_Read_TextFile|]. intros [t|]; repeat conf_step. }
  apply keeps_read. intros helpfile. apply keeps_bind; [apply keeps_Read_TextFile|intros t].
  apply keeps_bind; [destruct t; repeat conf_step|intros _]. apply keeps_read. intros help.
  apply keeps_bind; [destruct help; repeat conf_step|intros _]. apply keeps_ret.
Qed.

Lemma host_name_fits gethostname gethostbyname DNS : fits CLIENT_ID_LEN (host_name gethostname gethostbyname DNS).
Proof.
  unfold host_name.
  match goal with |- context [has_chr ?n "."] => assert (fits CLIENT_ID_LEN n) as Hn end.
  { destruct DNS; [destruct (gethostbyname _)|]; apply strlcpy_bound; by apply Nat.ltb_lt. }
  destruct (negb _); [by apply strlcat_bound|exact Hn].
Qed.

(** The name of the server is usable, or has been cleared. *)
Definition name_checked (s : CONFIG) : Prop :=
  conf_ok s /\ (g_ServerName (c_global s) = "" \/ valid_server_name (g_ServerName (c_global s)) = true).

(** The server has a name with a dot. *)
Definition usable_name (s : CONFIG) : bool :=
  valid_server_name (g_ServerName (c_global s)) && has_chr (g_ServerName (c_global s)) ".".

(** The result of the validation. *)
Definition validated (valid : bool) (s : CONFIG) : Prop := conf_ok s /\ valid = usable_name s.

Lemma leads_note (F : CONFIG -> Prop) (P : CONFIG -> Prop) {B} (R : B -> CONFIG -> Prop) (b : bool) Level Format args (k : unit -> CM B) :
  (forall s m, P s -> P (set_c_messages m s)) -> (forall a, leads F P R (k a)) ->
  leads F P R ((if b then Config_Error Level Format args else mret tt) ≫= k).
Proof. intros Hm Hk s Hs. destruct b; apply Hk; [by apply Hm|done]. Qed.

Lemma conf_ok_message s m : conf_ok s -> conf_ok (set_c_messages m s).
Proof. intros []. by split. Qed.

Lemma conf_ok_name s v : fits CLIENT_ID_LEN v -> conf_ok s -> conf_ok (in_global (set_g_ServerName v) s).
Proof. intros Hv Hs. field_ok. Qed.

(** The check of the name, and whether the process goes on without one. *)
Lemma leads_name_check (F : CONFIG -> Prop) (b : bool) name :
  (b = true -> forall s, usable_name s = false -> F s) ->
  leads F (fun s => name_checked s /\ g_ServerName (c_global s) = name) validated
    (if (hd0 name =c NUL) || negb (has_chr name ".") then
       Config_Error LOG_ALERT "No (valid) server name configured (section 'Global': 'Name')!" [];;
       (if b then
          Config_Error LOG_ALERT "%s exiting due to fatal errors!" [FS PACKAGE_NAME];; exit_1
        else mret tt);;
       mret false
     else mret true).
Proof.
  intros HF s ((Hs & Hn) & <-). destruct ((hd0 _ =c NUL) || _) eqn:Hc.
  - assert (usable_name s = false) as Hu.
    { unfold usable_name. apply orb_prop in Hc as [Hc%Ascii.eqb_eq|Hc%negb_true_iff]; [|by rewrite Hc, andb_false_r].
      destruct Hn as [->|Hv]; [done|]. destruct (g_ServerName (c_global s)) as [|c n]; [done|].
      cbn in Hc. by subst c. }
    destruct b; [by apply HF|]. split; [by apply conf_ok_message|done].
  - split; [done|]. unfold usable_name. apply orb_false_elim in Hc as [Hc Hd%negb_false_iff]. rewrite Hd, andb_true_r.
    destruct Hn as [Hn|Hv]; [|by rewrite Hv]. by rewrite Hn in Hc.
Qed.

Lemma Validate_Config_ok gethostname gethostbyname ConfFile (Configtest Rehash : bool) :
  leads (fun s => Configtest = false /\ Rehash = false /\ usable_name s = false) conf_ok validated
    (Validate_Config gethostname gethostbyname ConfFile Configtest Rehash).
Proof.
  unfold Validate_Config. set (E' := fun s => Configtest = false /\ _).
  apply leads_note; [intros; by apply conf_ok_message|intros _].
  apply (leads_bind E' conf_ok (fun _ => conf_ok)); [by intros s Hs|intros s0].
  apply (leads_bind E' conf_ok (fun _ => conf_ok)); [|intros _].
  { intros s Hs. destruct (hd0 _ =c NUL); [|done].
    apply conf_ok_message, conf_ok_name; [apply host_name_fits|done]. }
  apply (leads_bind E' conf_ok (fun _ => name_checked)); [|intros _].
  { intros s Hs. unfold put_conf, in_global. destruct (valid_server_name (g_ServerName (c_global s))) eqn:Hv.
    - split; [destruct Hs; by split|by right].
    - split; [|by left]. apply (conf_ok_name s ""); [by apply Nat.ltb_lt|done]. }
  apply (leads_bind E' name_checked
    (fun s1 s => name_checked s /\ g_ServerName (c_global s) = g_ServerName (c_global s1))); [by intros s Hs|intros s1].
  cbv zeta. apply (leads_bind E' _ validated); [|intros valid].
  { apply leads_name_check. intros [?%negb_true_iff ?%negb_true_iff]%andb_prop s Hu. by split. }
  assert (forall s m, validated valid s -> validated valid (set_c_messages m s)) as Hm.
  { intros s m [Hs Hv]. split; [by apply conf_ok_message|done]. }
  apply leads_note; [done|intros _]. apply leads_note; [done|intros _]. by intros s Hs.
Qed.

(** [Read_Config] does not report a failure. *)
Definition returns_true (m : CM bool) : Prop := forall s, match m s with Ok b _ => b = true | _ => True end.

Lemma returns_true_bind {A} (m : CM A) k : (forall a, returns_true (k a)) -> returns_true (m ≫= k).
Proof. intros Hk s. unfold mbind, CM_bind. destruct (m s); [apply Hk|done|done]. Qed.

Lemma Read_Config_true ConfFile salt TestOnly IsStarting :
  returns_true (Read_Config getaddrinfo getgrnam getpwnam now fopen opendir strerror ConfFile salt TestOnly IsStarting).
Proof. unfold Read_Config. cbv zeta. repeat (apply returns_true_bind; intros ?). by intros s. Qed.

Lemma Load_And_Validate_Config_ok gethostname gethostbyname (ConfFile salt : string)
  (TestOnly IsStarting Rehash : bool) :
  leads (fun s => (IsStarting = true /\ ConfFile <> "" /\ fopen ConfFile = None) \/
                  (TestOnly = false /\ Rehash = false /\ usable_name s = false))
    static_ok validated
    (Load_And_Validate_Config getaddrinfo getgrnam getpwnam now fopen opendir strerror gethostname gethostbyname
       ConfFile salt TestOnly IsStarting Rehash).
Proof.
  set (E := fun s => _ \/ _). apply (leads_bind E static_ok (fun (ok : bool) s => ok = true /\ conf_ok s) validated).
  - intros s Hs. pose proof (Read_Config_ok ConfFile salt TestOnly IsStarting s Hs) as Hr.
    pose proof (Read_Config_true ConfFile salt TestOnly IsStarting s) as Ht.
    destruct (Read_Config _ _ _ _ _ _ _ _ _ _ _ s); [done|by left|done].
  - intros ok s [-> Hs]. cbn [negb].
    pose proof (Validate_Config_ok gethostname gethostbyname ConfFile TestOnly Rehash s Hs) as Hv.
    destruct (Validate_Config _ _ _ _ _ s); [done|by right|done].
Qed.

(** C21: reading and validating the configuration.  Whatever the files contain, the
    variables keep their bounds: all texts fit their fields, the length of nicknames is
    between 1 and 31, times, ports and indices are in range, a set of modes or
    prefixes has valid characters only, each of them once.  The result tells whether the
    server has a valid name with a dot.  The process exits only when it starts with a
    named file that it cannot read, or, neither testing nor rehashing, when the server has no
    valid name with a dot; the only other ends are an assertion and an access beyond an array. *)
Theorem configuration_safe gethostname gethostbyname (ConfFile salt : string)
  (TestOnly IsStarting Rehash : bool) s :
  static_ok s ->
  match Load_And_Validate_Config getaddrinfo getgrnam getpwnam now fopen opendir strerror gethostname gethostbyname
          ConfFile salt TestOnly IsStarting Rehash s with
  | Ok valid s' => conf_ok s' /\ valid = usable_name s'
  | Exit s' => (IsStarting = true /\ ConfFile <> "" /\ fopen ConfFile = None) \/
      (TestOnly = false /\ Rehash = false /\ usable_name s' = false)
  | Fault f => f = AssertFailed \/ f = OutOfBounds
  end.
Proof. intros Hs. by apply Load_And_Validate_Config_ok. Qed.

End reading.

(** ** Sets of characters *)

(** The valid characters of a text, each where it occurs first. *)
Fixpoint distinct (valid p : string) : string :=
  match p with
  | "" => ""
  | String c p' =>
      if has_chr valid c && negb (c =c NUL) then String c (str_filter (fun a => negb (a =c c)) (distinct valid p'))
      else distinct valid p'
  end.

(** The messages about the others. *)
Fixpoint unknown_messages (File : string) (Line : Z) (valid Format p : string) : list (Z * string) :=
  match p with
  | "" => []
  | String c p' =>
      (if has_chr valid c then []
       else [(LOG_WARNING, snprintf MAX_LOG_MSG_LEN Format [FS File; FZ Line; FC c])]) ++
      unknown_messages File Line valid Format p'
  end.

Lemma str_filter_filter P Q s : str_filter P (str_filter Q s) = str_filter (fun c => Q c && P c) s.
Proof.
  induction s as [|c s IH]; simpl; [done|]. destruct (Q c); simpl; [|done]. by rewrite IH.
Qed.

Lemma str_filter_ext P Q s : (forall c, P c = Q c) -> str_filter P s = str_filter Q s.
Proof. intros HPQ. induction s as [|c s IH]; simpl; [done|]. by rewrite HPQ, IH. Qed.

(** The characters that are not yet in [cur]. *)
Definition new_chars (cur s : string) : string := str_filter (fun c => negb (has_chr cur c)) s.

Lemma has_chr_app cur c a : c <> NUL -> has_chr (cur +:+ String c "") a = has_chr cur a || (a =c c).
Proof.
  intros Hc. destruct (decide (a = NUL)) as [->|Ha]; [by rewrite !has_chr_NUL|].
  rewrite !strchr_mem, str_mem_app by done. cbn [str_mem]. rewrite orb_false_r. f_equal. apply Ascii.eqb_sym.
Qed.

Lemma new_chars_add cur c s : c <> NUL ->
  new_chars cur (str_filter (fun a => negb (a =c c)) s) = new_chars (cur +:+ String c "") s.
Proof.
  intros Hc. unfold new_chars. rewrite str_filter_filter. apply str_filter_ext. intros a.
  rewrite has_chr_app, negb_orb by done. apply andb_comm.
Qed.

Lemma new_chars_old cur c s : has_chr cur c = true ->
  new_chars cur (str_filter (fun a => negb (a =c c)) s) = new_chars cur s.
Proof.
  intros Hc. unfold new_chars. rewrite str_filter_filter. apply str_filter_ext. intros a.
  destruct (a =c c) eqn:Ha; [|done]. apply Ascii.eqb_eq in Ha as ->. by rewrite Hc.
Qed.

Lemma collect_spec File Line valid size Format p : forall cur s,
  (slen cur < size)%nat -> (forall c, has_chr cur c = true -> has_chr valid c = true) ->
  match collect File Line valid size Format cur p s with
  | Ok v s' => v = cur +:+ new_chars cur (distinct valid p) /\ fits size v /\
      s' = set_c_messages (c_messages s ++ unknown_messages File Line valid Format p) s
  | Exit _ => False
  | Fault f => f = AssertFailed /\ (size <= slen (cur +:+ new_chars cur (distinct valid p)))%nat
  end.
Proof.
  induction p as [|c p IH]; intros cur s Hcur Hsub; cbn [collect distinct unknown_messages].
  { unfold new_chars. cbn [str_filter]. rewrite app_nil_r, str_app_nil_r. by destruct s. }
  destruct (has_chr cur c) eqn:Hc.
  - specialize (IH cur s Hcur Hsub). rewrite (Hsub c Hc). cbn [app].
    destruct (c =c NUL) eqn:HN; cbn [andb negb]; [exact IH|].
    replace (new_chars cur (String c _)) with (new_chars cur (distinct valid p)); [exact IH|].
    unfold new_chars at 2. cbn [str_filter]. rewrite Hc. symmetry. by apply new_chars_old.
  - assert (c <> NUL) as HN by (intros ->; by rewrite has_chr_NUL in Hc).
    destruct (has_chr valid c) eqn:Hv.
    + replace (c =c NUL) with false by (symmetry; by apply Ascii.eqb_neq). cbn [andb negb app].
      assert (new_chars cur (String c (str_filter (fun a => negb (a =c c)) (distinct valid p))) =
              String c (new_chars (cur +:+ String c "") (distinct valid p))) as ->.
      { rewrite <- new_chars_add by done. unfold new_chars at 1. cbn [str_filter]. by rewrite Hc. }
      unfold mbind, CM_bind, ensure. destruct (Nat.ltb_spec (slen cur + 1) size).
      2: { split; [done|]. rewrite slen_app. cbn [slen]. lia. }
      change (String c (new_chars (cur +:+ String c "") (distinct valid p)))
        with (String c "" +:+ new_chars (cur +:+ String c "") (distinct valid p)).
      rewrite str_app_assoc.
      apply IH; [rewrite slen_app; cbn; lia|]. intros a. rewrite has_chr_app by done.
      intros [Ha|Ha%Ascii.eqb_eq]%orb_prop; [auto|by subst a].
    + cbn [andb]. unfold mbind, CM_bind, Config_Error, put_conf.
      specialize (IH cur (set_c_messages (c_messages s ++ [(LOG_WARNING, snprintf MAX_LOG_MSG_LEN Format [FS File; FZ Line; FC c])]) s) Hcur Hsub).
      destruct (collect _ _ _ _ _ _ _ _) as [v s'| |]; [|done|done]. destruct IH as (-> & Hf & ->).
      split; [done|]. split; [done|]. destruct s. cbn. by rewrite <- app_assoc.
Qed.

Lemma str_mem_filter P s c : str_mem c (str_filter P s) = str_mem c s && P c.
Proof.
  induction s as [|a s IH]; simpl; [done|]. destruct (Ascii.eqb_spec a c) as [->|Hne].
  - destruct (P c); simpl; [by rewrite Ascii.eqb_refl|]. by rewrite IH, andb_false_r.
  - destruct (P a); simpl; [|done]. by rewrite (proj2 (Ascii.eqb_neq _ _) Hne).
Qed.

Lemma str_nodup_filter P s : str_nodup s = true -> str_nodup (str_filter P s) = true.
Proof.
  induction s as [|a s IH]; simpl; [done|]. intros [Ha Hs]%andb_prop. destruct (P a); simpl; [|auto].
  rewrite str_mem_filter. apply negb_true_iff in Ha. by rewrite Ha, IH.
Qed.

Lemma distinct_valid valid p c : str_mem c (distinct valid p) = true -> str_mem c valid = true.
Proof.
  induction p as [|a p IH]; simpl; [done|].
  destruct (has_chr valid a && negb (a =c NUL)) eqn:Ha; [|done]. simpl.
  intros [Hc%Ascii.eqb_eq|Hc]%orb_prop.
  - subst a. apply andb_prop in Ha as [Hv Hn%negb_true_iff%Ascii.eqb_neq]. by rewrite <- strchr_mem.
  - rewrite str_mem_filter in Hc. apply andb_prop in Hc as [Hc _]. auto.
Qed.

Lemma distinct_nodup valid p : str_nodup (distinct valid p) = true.
Proof.
  induction p as [|a p IH]; simpl; [done|]. destruct (has_chr valid a && _); [|done]. simpl.
  by rewrite str_mem_filter, Ascii.eqb_refl, andb_false_r, str_nodup_filter.
Qed.

Lemma slen_filter_out c s : str_mem c s = true -> (slen (str_filter (fun a => negb (a =c c)) s) < slen s)%nat.
Proof.
  assert (forall P s, slen (str_filter P s) <= slen s)%nat as Hle.
  { intros P t. induction t as [|a t IH]; simpl; [lia|]. destruct (P a); simpl; lia. }
  induction s as [|a s IH]; simpl; [done|]. destruct (a =c c) eqn:Ha; simpl.
  - intros _. specialize (Hle (fun a => negb (a =c c)) s). lia.
  - intros Hc. specialize (IH Hc). lia.
Qed.

Lemma slen_subset s : forall valid,
  str_nodup s = true -> (forall c, str_mem c s = true -> str_mem c valid = true) -> (slen s <= slen valid)%nat.
Proof.
  induction s as [|a s IH]; intros valid Hn Hs; simpl; [lia|]. apply andb_prop in Hn as [Ha Hn].
  assert (str_mem a valid = true) as Hav by (apply Hs; simpl; by rewrite Ascii.eqb_refl).
  pose proof (slen_filter_out a valid Hav). enough (slen s <= slen (str_filter (fun c => negb (c =c a)) valid))%nat by lia.
  apply IH; [done|]. intros c Hc. rewrite str_mem_filter, Hs by (simpl; by rewrite Hc, orb_true_r).
  destruct (c =c a) eqn:E; [|done]. apply Ascii.eqb_eq in E as ->. by rewrite Hc in Ha.
Qed.

Lemma new_chars_none s : str_mem NUL s = false -> new_chars "" s = s.
Proof.
  intros Hs. apply str_filter_all. induction s as [|a s IH]; simpl in *; [done|].
  apply orb_false_elim in Hs as [Ha Hs]. unfold has_chr. cbn [strchr]. rewrite Ha. simpl. auto.
Qed.

(** The setting of a variable that is a set of characters. *)
Lemma option_set_spec File Line set valid size Format Arg s :
  (0 < size)%nat -> str_mem NUL valid = false ->
  match option_set File Line set valid size Format Arg s with
  | Ok _ s' => fits size (distinct valid Arg) /\
      s' = in_options (set (distinct valid Arg))
             (set_c_messages (c_messages s ++ unknown_messages File Line valid Format Arg) s)
  | Exit _ => False
  | Fault f => f = AssertFailed /\ (size <= slen (distinct valid Arg))%nat
  end.
Proof.
  intros Hn HN. unfold option_set, mbind, CM_bind.
  pose proof (collect_spec File Line valid size Format Arg "" s Hn) as Hc.
  assert (str_mem NUL (distinct valid Arg) = false) as HD.
  { apply not_true_is_false. intros Hd%distinct_valid. congruence. }
  rewrite (new_chars_none _ HD) in Hc.
  assert (forall c, has_chr "" c = true -> has_chr valid c = true) as Hs.
  { intros c. unfold has_chr. cbn [strchr]. destruct (c =c NUL) eqn:E; [|done].
    apply Ascii.eqb_eq in E as ->. intros _. apply has_chr_NUL. }
  specialize (Hc Hs). destruct (collect _ _ _ _ _ _ _ s) as [v s'| |]; [|done|exact Hc].
  by destruct Hc as (-> & Hf & ->).
Qed.

(** Selects the branch of a handler for a variable. *)
Ltac select_var H :=
  repeat match goal with
  | |- context [strcaseeq ?v ?x] =>
      match type of H with strcaseeq v ?y = true =>
        let b := eval vm_compute in (strcaseeq y x) in
        replace (strcaseeq v x) with b by (rewrite (strcaseeq_left v y x H); reflexivity); cbv iota
      end
  end.

(** A set of characters in the options, with the messages about its value. *)
Definition option_changed (File : string) (Line : Z) (set : string -> OPTIONS -> OPTIONS) (valid Format Arg : string)
  (s : CONFIG) : CONFIG :=
  in_options (set (distinct valid Arg))
    (set_c_messages (c_messages s ++ unknown_messages File Line valid Format Arg) s).

(** C22: the variables that are sets of modes or prefixes.  A value is reduced to its
    valid characters, each where it occurs first, with a message for every invalid one.
    There are 15 user modes and 3 prefixes, for which there is always room.  But there
    are 23 channel modes, and the field has room for 20: an assertion fails exactly
    when the value has more than 20 different ones. *)
Theorem mode_settings File Line Var Arg s :
  0 < Line ->
  (strcaseeq Var "DefaultChannelModes" = true ->
   Handle_OPTIONS File Line Var Arg s =
     if (slen (distinct CHANMODES Arg) <=? 20)%nat then
       Ok tt (option_changed File Line set_o_DefaultChannelModes CHANMODES
                (dq "%s, line %d: Unknown channel mode `%c` in `DefaultChannelModes`!") Arg s)
     else Fault AssertFailed) /\
  (strcaseeq Var "DefaultUserModes" = true ->
   Handle_OPTIONS File Line Var Arg s =
     Ok tt (option_changed File Line set_o_DefaultUserModes USERMODES
              (dq "%s, line %d: Unknown user mode `%c` in `DefaultUserModes`!") Arg s)) /\
  (strcaseeq Var "AllowedChannelTypes" = true ->
   Handle_OPTIONS File Line Var Arg s =
     Ok tt (option_changed File Line set_o_AllowedChannelTypes CHANTYPES
              (dq "%s, line %d: Unknown channel prefix `%c` in `AllowedChannelTypes`!") Arg s)).
Proof.
  intros Hl. unfold Handle_OPTIONS. rewrite (proj2 (Z.ltb_lt 0 Line) Hl).
  assert (forall set valid size Format, (0 < size)%nat -> str_mem NUL valid = false ->
    option_set File Line set valid size Format Arg s =
      if (slen (distinct valid Arg) <? size)%nat
      then Ok tt (option_changed File Line set valid Format Arg s) else Fault AssertFailed) as Hset.
  { intros set valid size Format Hs Hv. pose proof (option_set_spec File Line set valid size Format Arg s Hs Hv) as Ho.
    destruct (option_set _ _ _ _ _ _ _ s) as [[] s'| |f]; [|done|].
    - destruct Ho as [Hf ->]. by rewrite (proj2 (Nat.ltb_lt _ _) Hf).
    - destruct Ho as [-> Hf]. by rewrite (proj2 (Nat.ltb_ge _ _) Hf). }
  assert (forall valid size, (slen valid < size)%nat -> (slen (distinct valid Arg) <? size)%nat = true) as Hfit.
  { intros valid size Hs. apply Nat.ltb_lt.
    pose proof (slen_subset _ valid (distinct_nodup valid Arg) (distinct_valid valid Arg)). lia. }
  split; [|split]; intros HV; cbn [ensure]; select_var HV; unfold mbind at 1, CM_bind at 1; cbn [mret CM_ret].
  - rewrite Hset; [done|by apply Nat.ltb_lt|done].
  - rewrite Hset, Hfit; [done|by apply Nat.ltb_lt|by apply Nat.ltb_lt|done].
  - rewrite Hset, Hfit; [done|by apply Nat.ltb_lt|by apply Nat.ltb_lt|done].
Qed.

(** ** Modes of predefined channels *)

(** C23: the mode lines of a predefined channel.  The array has room for 512 lines, but
    the test is against its size in bytes: the first 512 lines are
    stored, each cut to 513 characters; one more is written behind the array, and the
    message about too many lines is never sent. *)
Theorem channel_mode_lines File Line Var Arg s chan :
  0 < Line -> strcaseeq Var "Modes" = true -> list.last (c_Channels s) = Some chan ->
  (length (cc_modes_lines chan) <= MODES_NUM)%nat ->
  Handle_CHANNEL File Line Var Arg s =
    if (length (cc_modes_lines chan) =? MODES_NUM)%nat then Fault OutOfBounds
    else (if (COMMAND_LEN <=? slen Arg)%nat then Config_Error_TooLong File Line Var else mret tt)
           (in_chan (fun c => set_cc_modes_lines (cc_modes_lines c ++ [str_take COMMAND_LEN Arg]) c) s).
Proof.
  intros Hl HV Hlast. set (n := length (cc_modes_lines chan)). intros Hn. unfold Handle_CHANNEL. rewrite (proj2 (Z.ltb_lt 0 Line) Hl). cbn [ensure].
  unfold mbind at 1, CM_bind at 1. cbn [mret CM_ret]. unfold mbind at 1, CM_bind at 1, get_conf at 1. rewrite Hlast.
  select_var HV. unfold add_mode_line. fold n.
  assert ((MODES_SIZE <=? n)%nat = false) as ->.
  { apply Nat.leb_gt. unfold MODES_SIZE, MODES_NUM in *. lia. }
  destruct (Nat.eqb_spec n MODES_NUM) as [Heq|Hne].
  - by rewrite (proj2 (Nat.leb_le _ _)) by lia.
  - rewrite (proj2 (Nat.leb_gt _ _)) by lia.
    assert (strndup Arg COMMAND_LEN = str_take COMMAND_LEN Arg) as ->; [|done].
    unfold strndup, strlcpy. destruct (Nat.ltb_spec COMMAND_LEN (slen Arg)).
    + by replace (S COMMAND_LEN - 1)%nat with COMMAND_LEN by lia.
    + replace (S (slen Arg) - 1)%nat with (slen Arg) by lia. by rewrite !str_take_all by lia.
Qed.
