(* ===== verification/Rehash.v ===== *)
(** * Reading the configuration again (src/state/process/sighandlers.c, conf.c)

    What the signal SIGHUP does on Unix: the configuration is read and validated,
    the name of the server and the length of nicknames are restored, the
    listeners are opened again and the predefined channels are created.  And the
    test of the configuration. *)

From S2P Require Import Prelude CString Match Hash Checks Lists Messages World ClientCore Ipaddr.
From S2P Require Import ConnFunc ConnSpec ChannelCore State IrcWrite Channel Client Conn Servers Parse Reader.
From S2P Require Import IrcInfo Login IrcLogin IrcServer OperSpec Predef ConfVars ConfFile ConfSpec System Accept.

(** The settings, which of the mode lines have been freed, and the rest. *)
Record SERVER_STATE := ServerState {
  ss_conf : CONFIG;
  ss_freed : list bool;
  ss_world : World }.

Inductive rehash_result :=
  | Rehashed (s : SERVER_STATE)
  | RehashExit
  | RehashFault (f : fault).

(** The predefined channels; those that have just been read are new. *)
Fixpoint with_flags (l : list CONF_CHANNEL) (freed : list bool) : list PREDEF :=
  match l, freed with
  | [], _ => []
  | c :: l', [] => Predef c false :: with_flags l' []
  | c :: l', f :: freed' => Predef c f :: with_flags l' freed'
  end.

(** The name and the nickname length cannot be changed while the server runs. *)
Definition recover_settings (old_name : string) (old_nicklen : Z) (s : CONFIG) : CONFIG :=
  let s := if String.eqb old_name (g_ServerName (c_global s)) then s
           else in_global (set_g_ServerName (strlcpy old_name CLIENT_ID_LEN)) s in
  if old_nicklen =? l_MaxNickLength (c_limits s) then s else in_limits (set_l_MaxNickLength old_nicklen) s.

Section Rehash.
Context (base : Conf) (io : Conf -> ConnIO) `{System} (getgrnam getpwnam : string -> option Z).
Context (fopen : string -> option string) (opendir : string -> option (list string)) (strerror : string -> string).
Context (gethostname : string) (gethostbyname : string -> option string).
Context (ConfFile salt : string).

(** Runs a command under the current settings; the table of servers is shared. *)
Definition run {A} (m : Conf -> ConnIO -> M A) (s : SERVER_STATE)
  (k : A -> SERVER_STATE -> rehash_result) : rehash_result :=
  let C := conf_of base (ss_conf s) in
  match m C (io C) (ss_world s) with
  | Done a w => k a (ServerState (set_c_Server (t_Conf_Server (w_tab w)) (ss_conf s)) (ss_freed s) w)
  | Crash f => RehashFault f
  end.

Definition load (s : SERVER_STATE) (k : bool -> SERVER_STATE -> rehash_result) : rehash_result :=
  match Load_And_Validate_Config (H := base) sys_getaddrinfo getgrnam getpwnam (t_now (w_tab (ss_world s))) fopen opendir
          strerror gethostname gethostbyname ConfFile salt false false true (ss_conf s) with
  | Ok ok c =>
      k ok (ServerState c (ss_freed s)
              (set_w_tab (set_t_Conf_Server (c_Server c) (w_tab (ss_world s))) (ss_world s)))
  | Exit _ => RehashExit
  | Fault f => RehashFault f
  end.

(** The result tells whether the configuration is in use. *)
Definition Conf_Rehash (s : SERVER_STATE) (k : bool -> SERVER_STATE -> rehash_result) : rehash_result :=
  load s (fun ok s =>
  if ok then
    run (fun C _ => this ← Client_ThisServer; Client_SetInfo this Conf_ServerInfo) s (fun _ s => k true s)
  else k false s).

Definition in_settings (f : CONFIG -> CONFIG) (s : SERVER_STATE) : SERVER_STATE :=
  ServerState (f (ss_conf s)) (ss_freed s) (ss_world s).

Definition Rehash (s : SERVER_STATE) : rehash_result :=
  run (fun C I => Log true "Re-reading configuration NOW!" []) s (fun _ s =>
  let old_name := strlcpy (g_ServerName (c_global (ss_conf s))) CLIENT_ID_LEN in
  let old_nicklen := l_MaxNickLength (c_limits (ss_conf s)) in
  Conf_Rehash s (fun ok s =>
  if negb ok then Rehashed s
  else
    run (fun _ _ => Conn_ExitListeners) s (fun _ s =>
    run (fun C I => Channel_InitPredefined (with_flags (c_Channels (ss_conf s)) (ss_freed s)))
      (in_settings (recover_settings old_name old_nicklen) s) (fun l s =>
    run (fun C I => _ ← Conn_InitListeners; Conn_SyncServerStruct;;
                    Log true "Re-reading of configuration done." [])
      (ServerState (ss_conf s) (map pd_freed l) (ss_world s)) (fun _ s => Rehashed s))))).

End Rehash.

(** The test of the configuration, without the terminal: the exit code and what is
    printed if there is no error. *)
Definition Conf_Test `{Conf} (getaddrinfo : string -> string -> option ng_ipaddr_t)
  (getgrnam getpwnam : string -> option Z) (getgrgid getpwuid : Z -> option string) (now : Z)
  (fopen : string -> option string) (opendir : string -> option (list string)) (strerror : string -> string)
  (gethostname : string) (gethostbyname : string -> option string) (ConfFile salt : string) : CM (Z * list string) :=
  ok ← Load_And_Validate_Config getaddrinfo getgrnam getpwnam now fopen opendir strerror gethostname gethostbyname
         ConfFile salt true true false;
  if negb (ok : bool) then mret (1, [])
  else
    s ← get_conf id;
    mret (0, "Ok, dump of your server configuration follows:" :: "" :: Dump_Config getgrgid getpwuid s).

(** ** A configuration that is not accepted *)

Lemma sync_servers (w : World) (c : CONFIG) :
  t_Conf_Server (w_tab w) = c_Server c -> set_c_Server (t_Conf_Server (w_tab w)) c = c.
Proof. intros ->. by destruct c. Qed.

(** C28: a new configuration that is not accepted.  When the configuration is read
    again and the validation fails, the server goes on with the new settings, and
    with a server name that is not both valid and dotted: the settings have already been
    replaced, and name and nickname length are restored only after a
    successful validation. *)
Theorem rehash_invalid (base : Conf) (io : Conf -> ConnIO) `{System} getgrnam getpwnam fopen opendir strerror
  gethostname gethostbyname ConfFile salt (s : SERVER_STATE) (c : CONFIG) :
  let C := conf_of base (ss_conf s) in
  ConnIOSpec (io C) -> state_ok (ss_world s) -> channels_ok (w_tab (ss_world s)) ->
  conf_ok (ss_conf s) -> t_Conf_Server (w_tab (ss_world s)) = c_Server (ss_conf s) ->
  Load_And_Validate_Config (H := base) sys_getaddrinfo getgrnam getpwnam (t_now (w_tab (ss_world s))) fopen opendir
    strerror gethostname gethostbyname ConfFile salt false false true (ss_conf s) = Ok false c ->
  exists w',
    Rehash base io getgrnam getpwnam fopen opendir strerror gethostname gethostbyname ConfFile salt s = Rehashed (ServerState c (ss_freed s) w') /\
    valid_server_name (g_ServerName (c_global c)) && has_chr (g_ServerName (c_global c)) "." = false.
Proof.
  intros C HIO Hok Hch Hconf Hshared Hload.
  assert (wp (Log true "Re-reading configuration NOW!" []) (fun _ w' => w_tab w' = w_tab (ss_world s)) (ss_world s)) as Hlog.
  { apply wp_Log; [done..|]. intros l w' D. apply D. }
  apply wp_done in Hlog as ([] & w1 & Hlog & Ht).
  exists (set_w_tab (set_t_Conf_Server (c_Server c) (w_tab w1)) w1). split.
  - unfold Rehash, run. fold C. rewrite Hlog. cbn [ss_conf ss_freed ss_world].
    rewrite (sync_servers w1) by (by rewrite Ht). unfold Conf_Rehash, load. cbn [ss_conf ss_freed ss_world].
    by rewrite Ht, Hload.
  - pose proof (Load_And_Validate_Config_ok (H := base) sys_getaddrinfo getgrnam getpwnam (t_now (w_tab (ss_world s)))
      fopen opendir strerror gethostname gethostbyname ConfFile salt false false true _ (conf_ok_static _ Hconf)) as Hv.
    rewrite Hload in Hv. symmetry. apply Hv.
Qed.
