(* ===== verification/ConfPrint.v ===== *)
(** * The configuration file: what is printed is read back

    Lines are read as they are printed, an entry reaches the handler of its section,
    and the operators that [Dump_Config] prints are the operators that are read. *)

From S2P Require Import Prelude CString Match Hash Lists Messages World ClientCore Ipaddr.
From S2P Require Import ChannelCore IrcWrite Channel Client Conn Servers Reader IrcInfo Login IrcLogin IrcServer.
From S2P Require Import ConfVars ConfFile ConfSpec.

(** ** Lines *)

Lemma print_lines_cons x l : print_lines (x :: l) = x +:+ String LF (print_lines l).
Proof.
  unfold print_lines. cbn [map]. destruct l as [|y l]; cbn [map String.concat].
  - done.
  - by rewrite <- !str_app_assoc.
Qed.

(** A line that [fgets] reads at once. *)
Definition short_line (s : string) : bool :=
  negb (str_mem LF s) && negb (str_mem NUL s) && (slen s <? LINE_LEN - 1)%nat.

Lemma fgets_line size s : forall room cur rest,
  str_mem LF s = false -> (slen s < room)%nat ->
  fgets_lines size room cur (s +:+ String LF rest) =
    (cur +:+ s +:+ String LF "") :: fgets_lines size (size - 1) "" rest.
Proof.
  induction s as [|c s IH]; intros room cur rest Hm Hs; [done|].
  cbn [str_mem] in Hm. apply orb_false_elim in Hm as [Hc Hm]. cbn [slen] in Hs.
  cbn [String.append fgets_lines]. rewrite Hc.
  replace (room <=? 1)%nat with false by (symmetry; apply Nat.leb_gt; lia). cbn [orb].
  rewrite IH by (done || lia). by rewrite <- str_app_assoc.
Qed.

Lemma fgets_print l : forallb short_line l = true ->
  fgets LINE_LEN (print_lines l) = map (fun s => s +:+ String LF "") l.
Proof.
  unfold fgets. induction l as [|x l IH]; [done|]. cbn [forallb]. intros [Hx Hl]%andb_prop.
  apply andb_prop in Hx as [[Hlf%negb_true_iff Hnul%negb_true_iff]%andb_prop Hs%Nat.ltb_lt].
  rewrite print_lines_cons, fgets_line by done. cbn [map]. rewrite IH by done. f_equal.
  apply before_nomem. by rewrite str_mem_app, Hnul.
Qed.

(** ** Entries *)

(** No white space at the ends. *)
Definition trimmed (s : string) : bool := negb (is_ws (hd0 s)) && negb (is_ws (last0 s)).

Lemma trim_start_id s : is_ws (hd0 s) = false -> trim_start s = s.
Proof. destruct s as [|c s]; [done|]. simpl. by intros ->. Qed.

Lemma trim_end_id s : is_ws (last0 s) = false -> trim_end s = s.
Proof.
  induction s as [|c s IH]; [done|]. destruct s as [|d s]; [simpl; by intros ->|].
  intros Hl. cbn [trim_end]. cbn [trim_end] in IH. by rewrite (IH Hl).
Qed.

Lemma trim_end_ws s w : str_forall is_ws w = true -> trim_end (s +:+ w) = trim_end s.
Proof.
  intros Hw. induction s as [|c s IH]; [|simpl; by rewrite IH].
  induction w as [|c w IH]; [done|]. apply andb_prop in Hw as [Hc Hw]. simpl. simpl in IH.
  by rewrite IH, Hc.
Qed.

Lemma last0_app s t : t <> "" -> last0 (s +:+ t) = last0 t.
Proof.
  intros Ht. induction s as [|c s IH]; [done|]. rewrite <- IH. cbn [String.append last0].
  destruct s, t; done.
Qed.

Lemma trimmed_TrimStr s : trimmed s = true -> ngt_TrimStr s = s.
Proof.
  intros [H1%negb_true_iff H2%negb_true_iff]%andb_prop. rewrite ngt_TrimStr_unfold, trim_start_id by done.
  by apply trim_end_id.
Qed.

(** The name of a variable: with it a line is neither empty, nor a comment or the
    beginning of a section. *)
Definition var_name (s : string) : bool :=
  trimmed s && negb (str_mem "=" s) && negb (str_mem (hd0 s) (String NUL ";#[")).

Lemma var_name_spec s : var_name s = true ->
  s <> "" /\ is_ws (hd0 s) = false /\ ngt_TrimStr (s +:+ " ") = s /\ str_mem "=" s = false /\
  (hd0 s =c ";"%char) = false /\ (hd0 s =c "#"%char) = false /\ (hd0 s =c NUL) = false /\ (hd0 s =c "["%char) = false.
Proof.
  intros [[Ht He%negb_true_iff]%andb_prop Hh%negb_true_iff]%andb_prop.
  assert (s <> "") as Hne by (by intros ->).
  pose proof Ht as [H1%negb_true_iff H2%negb_true_iff]%andb_prop. cbn [str_mem] in Hh.
  repeat (apply orb_false_elim in Hh as [? Hh]). rewrite (Ascii.eqb_sym (hd0 s)), (Ascii.eqb_sym (hd0 s) "#"),
    (Ascii.eqb_sym (hd0 s) NUL), (Ascii.eqb_sym (hd0 s) "["). split_and!; try done.
  rewrite ngt_TrimStr_unfold, trim_start_id by (by destruct s).
  rewrite trim_end_ws by done. by apply trim_end_id.
Qed.

(** The line as it is after trimming. *)
Definition trimmed_entry (name value : string) : string :=
  name +:+ match value with "" => " =" | _ => " = " +:+ value end.

Lemma trim_entry name value : var_name name = true -> trimmed value = true ->
  ngt_TrimStr (entry name value +:+ String LF "") = trimmed_entry name value.
Proof.
  intros (Hne & Hws & _)%var_name_spec [_ Hv%negb_true_iff]%andb_prop.
  rewrite ngt_TrimStr_unfold. unfold entry, trimmed_entry.
  change (trim_start _) with (trim_start ((name +:+ " = " +:+ value) +:+ String LF "")).
  rewrite trim_start_id by (by destruct name). rewrite trim_end_ws by done.
  destruct value as [|c v].
  - replace (name +:+ " = " +:+ "") with ((name +:+ " =") +:+ " ") by (by rewrite <- str_app_assoc).
    rewrite trim_end_ws by done. apply trim_end_id. by rewrite last0_app.
  - apply trim_end_id. by rewrite !last0_app.
Qed.

Lemma hd0_app s t : s <> "" -> hd0 (s +:+ t) = hd0 s.
Proof. by destruct s. Qed.

Lemma before_past c s t : str_mem c s = false -> before c (s +:+ t) = s +:+ before c t.
Proof.
  induction s as [|a s IH]; [done|]. cbn [str_mem String.append before]. intros [Ha Hs]%orb_false_elim.
  by rewrite Ha, IH.
Qed.

Lemma after_past c s t : str_mem c s = false -> after c (s +:+ t) = after c t.
Proof.
  unfold after. induction s as [|a s IH]; [done|]. cbn [str_mem String.append strchr].
  intros [Ha Hs]%orb_false_elim. rewrite Ha. by apply IH.
Qed.

Section lines.
Context `{Conf} (getaddrinfo : string -> string -> option ng_ipaddr_t).
Context (getgrnam getpwnam : string -> option Z) (now : Z).

(** An entry reaches the handler of its section. *)
Lemma read_entry File Line section name value s :
  var_name name = true -> trimmed value = true -> (slen (entry name value) < LINE_LEN - 1)%nat ->
  (hd0 section =c "001"%char) = false ->
  config_line File Line getaddrinfo getgrnam getpwnam now section (entry name value +:+ String LF "") s =
    (dispatch_section File Line getaddrinfo getgrnam getpwnam section name value;; mret section) s.
Proof.
  intros Hname Hv Hlen Hsec. unfold config_line. rewrite trim_entry by done.
  pose proof (var_name_spec name Hname) as (Hne & Hws & Htrim & Heq & H1 & H2 & H3 & H4).
  unfold is_header, trimmed_entry. rewrite hd0_app by done. rewrite H1, H2, H3, H4. cbn [orb andb].
  assert (slen (name +:+ match value with "" => " =" | _ => " = " +:+ value end) < LINE_LEN - 1)%nat as Hl.
  { unfold entry in Hlen. rewrite !slen_app in Hlen. rewrite slen_app.
    destruct value; rewrite ?slen_app; cbn [slen] in *; lia. }
  rewrite (proj2 (Nat.leb_gt _ _) Hl), Hsec. rewrite after_past, before_past by done.
  destruct value as [|c v]; cbn [before after String.append]; cbn [Ascii.eqb]; cbn; rewrite Htrim.
  - done.
  - rewrite ngt_TrimStr_unfold.
    change (trim_start (String " " (String c v))) with (trim_start (String c v)).
    rewrite <- ngt_TrimStr_unfold. by rewrite trimmed_TrimStr.
Qed.

Lemma read_empty File Line section s :
  config_line File Line getaddrinfo getgrnam getpwnam now section (String LF "") s = Ok section s.
Proof. done. Qed.

Lemma read_operator File Line section s :
  config_line File Line getaddrinfo getgrnam getpwnam now section ("[OPERATOR]" +:+ String LF "") s =
    Ok "[OPERATOR]" (set_c_Opers (c_Opers s ++ [ConfOper "" "" None]) s).
Proof. done. Qed.

(** ** Operators *)

Lemma upd_last_app {A} (f : A -> A) l x : upd_last f (l ++ [x]) = l ++ [f x].
Proof.
  induction l as [|y l IH]; [done|]. cbn [app]. destruct (l ++ [x]) as [|z l'] eqn:E; [by destruct l|].
  rewrite <- IH. by destruct l'.
Qed.

(** An operator whose texts fit, and that is printed without loss. *)
Definition printable (op : CONF_OPER) : bool :=
  let text v := trimmed v && negb (str_mem LF v) && negb (str_mem NUL v) in
  text (co_name op) && text (co_pwd op) && text (from_opt "" (co_mask op)) &&
  (slen (co_name op) <? CLIENT_PASS_LEN)%nat && (slen (co_pwd op) <? CLIENT_PASS_LEN)%nat &&
  (slen (from_opt "" (co_mask op)) <? 1000)%nat.

(** What is read back: an operator without a mask has an empty one. *)
Definition read_back (op : CONF_OPER) : CONF_OPER :=
  ConfOper (co_name op) (co_pwd op) (Some (from_opt "" (co_mask op))).

Lemma read_operator_entry File Line name value f l op s :
  0 < Line -> var_name name = true -> trimmed value = true ->
  (slen (entry name value) < LINE_LEN - 1)%nat ->
  Handle_OPERATOR File Line name value (set_c_Opers (l ++ [op]) s) = Ok tt (in_oper f (set_c_Opers (l ++ [op]) s)) ->
  config_line File Line getaddrinfo getgrnam getpwnam now "[OPERATOR]" (entry name value +:+ String LF "")
    (set_c_Opers (l ++ [op]) s) = Ok "[OPERATOR]" (set_c_Opers (l ++ [f op]) s).
Proof.
  intros HL Hname Hv Hlen Hh. rewrite read_entry by done. unfold mbind, CM_bind.
  change (dispatch_section _ _ _ _ _ _ name value) with (Handle_OPERATOR File Line name value).
  rewrite Hh. unfold in_oper. cbn [c_Opers set_c_Opers]. by rewrite upd_last_app.
Qed.

Lemma slen_entry name value : slen (entry name value) = (slen name + slen value + 5)%nat.
Proof. unfold entry. rewrite !slen_app. cbn [slen]. lia. Qed.

Lemma short_entry name value :
  negb (str_mem LF name) && negb (str_mem NUL name) = true ->
  negb (str_mem LF value) = true -> negb (str_mem NUL value) = true -> (slen name + slen value < 1018)%nat ->
  short_line (entry name value) = true.
Proof.
  intros [H1%negb_true_iff H2%negb_true_iff]%andb_prop H3%negb_true_iff H4%negb_true_iff Hl.
  unfold short_line. rewrite slen_entry. unfold entry. rewrite !str_mem_app, H1, H2, H3, H4. cbn [str_mem orb].
  apply andb_true_intro. split; [done|]. apply Nat.ltb_lt. unfold LINE_LEN. lia.
Qed.

Lemma printable_spec op : printable op = true ->
  trimmed (co_name op) = true /\ trimmed (co_pwd op) = true /\ trimmed (from_opt "" (co_mask op)) = true /\
  (slen (co_name op) < CLIENT_PASS_LEN)%nat /\ (slen (co_pwd op) < CLIENT_PASS_LEN)%nat /\
  (slen (from_opt "" (co_mask op)) < 1000)%nat /\ forallb short_line (oper_lines op) = true.
Proof.
  unfold printable. cbv zeta. intros H0.
  repeat match type of H0 with _ && _ = true => apply andb_prop in H0 as [H0 ?] end.
  repeat match goal with H : _ && _ = true |- _ => apply andb_prop in H as [H ?] end.
  repeat match goal with H : (_ <? _)%nat = true |- _ => apply Nat.ltb_lt in H end.
  split_and!; try done. unfold oper_lines. destruct (hd0 (co_name op) =c NUL); [done|].
  unfold CLIENT_PASS_LEN in *. cbn [forallb]. rewrite !short_entry by (done || (cbn [slen]; lia)). done.
Qed.

Lemma CM_ok {A B} (m : CM A) (k : A -> CM B) s a s' : m s = Ok a s' -> (m ≫= k) s = k a s'.
Proof. intros Hm. unfold mbind, CM_bind. by rewrite Hm. Qed.

(** The variables of an operator. *)
Lemma handle_operator_spec File Line l op s :
  0 < Line ->
  let s := set_c_Opers (l ++ [op]) s in
  (forall v, (slen v < CLIENT_PASS_LEN)%nat ->
     Handle_OPERATOR File Line "Name" v s = Ok tt (in_oper (set_co_name v) s)) /\
  (forall v, (slen v < CLIENT_PASS_LEN)%nat ->
     Handle_OPERATOR File Line "Password" v s = Ok tt (in_oper (set_co_pwd v) s)) /\
  (forall v, Handle_OPERATOR File Line "Mask" v s = Ok tt (in_oper (set_co_mask (Some v)) s)).
Proof.
  intros HL t.
  assert (forall m : CM unit, (ensure (0 <? Line);; opers ← get_conf c_Opers;
            match opers with [] => mret tt | _ => m end) t = m t) as Hm.
  { intros m. rewrite (proj2 (Z.ltb_lt _ _) HL). unfold mbind, CM_bind, get_conf. cbn [ensure mret CM_ret].
    subst t. cbn [c_Opers set_c_Opers]. by destruct l. }
  assert (forall set Var v, (slen v < CLIENT_PASS_LEN)%nat ->
    copy_text File Line set CLIENT_PASS_LEN Var v t = Ok tt (set v t)) as Hc.
  { intros set Var v Hv. unfold copy_text, mbind, CM_bind, put_conf.
    by rewrite strlcpy_fits, (proj2 (Nat.leb_gt _ _) Hv). }
  split_and!; intros v; unfold Handle_OPERATOR; rewrite Hm.
  - exact (Hc (fun v => in_oper (set_co_name v)) "Name" v).
  - exact (Hc (fun v => in_oper (set_co_pwd v)) "Password" v).
  - done.
Qed.

(** One line of an operator. *)
Lemma operator_step File line name value f rest l op s :
  0 < line -> var_name name = true -> trimmed value = true -> (slen name + slen value < 1018)%nat ->
  Handle_OPERATOR File line name value (set_c_Opers (l ++ [op]) s) = Ok tt (in_oper f (set_c_Opers (l ++ [op]) s)) ->
  config_lines getaddrinfo getgrnam getpwnam now File line "[OPERATOR]"
    ((entry name value +:+ String LF "") :: rest) (set_c_Opers (l ++ [op]) s) =
  config_lines getaddrinfo getgrnam getpwnam now File (line + 1) "[OPERATOR]" rest (set_c_Opers (l ++ [f op]) s).
Proof.
  intros HL Hname Hv Hlen Hh. cbn [config_lines].
  assert (slen (entry name value) < LINE_LEN - 1)%nat as Hl by (rewrite slen_entry; unfold LINE_LEN; lia).
  by rewrite (CM_ok _ _ _ _ _ (read_operator_entry File line name value f l op s HL Hname Hv Hl Hh)).
Qed.

(** The lines of an operator. *)
Lemma read_oper_lines File op section line rest s :
  0 < line -> printable op = true -> (hd0 (co_name op) =c NUL) = false ->
  config_lines getaddrinfo getgrnam getpwnam now File line section
    (map (fun x => x +:+ String LF "") (oper_lines op) ++ rest) s =
  config_lines getaddrinfo getgrnam getpwnam now File (line + 5) "[OPERATOR]" rest
    (set_c_Opers (c_Opers s ++ [read_back op]) s).
Proof.
  intros HL (Tn & Tp & Tm & Ln & Lp & Lm & _)%printable_spec Hn. unfold oper_lines. rewrite Hn. cbn [map app].
  pose proof Ln as Ln'. pose proof Lp as Lp'. unfold CLIENT_PASS_LEN in Ln', Lp'.
  transitivity (config_lines getaddrinfo getgrnam getpwnam now File (line + 1) "[OPERATOR]"
    (map (fun x => x +:+ String LF "") [entry "Name" (co_name op); entry "Password" (co_pwd op);
      entry "Mask" (from_opt "" (co_mask op)); ""] ++ rest) (set_c_Opers (c_Opers s ++ [ConfOper "" "" None]) s)).
  { cbn [config_lines map app]. by rewrite (CM_ok _ _ _ _ _ (read_operator File line section s)). }
  cbn [map app].
  assert (0 < line + 1 /\ 0 < line + 1 + 1 /\ 0 < line + 1 + 1 + 1) as (H1 & H2 & H3) by lia.
  rewrite (operator_step File _ "Name" (co_name op) (set_co_name (co_name op)));
    [|exact H1|reflexivity|exact Tn|cbn [slen]; lia|exact (proj1 (handle_operator_spec _ _ _ _ _ H1) _ Ln)].
  rewrite (operator_step File _ "Password" (co_pwd op) (set_co_pwd (co_pwd op)));
    [|exact H2|reflexivity|exact Tp|cbn [slen]; lia|exact (proj1 (proj2 (handle_operator_spec _ _ _ _ _ H2)) _ Lp)].
  rewrite (operator_step File _ "Mask" (from_opt "" (co_mask op)) (set_co_mask (Some (from_opt "" (co_mask op)))));
    [|exact H3|reflexivity|exact Tm|cbn [slen]; lia|exact (proj2 (proj2 (handle_operator_spec _ _ _ _ _ H3)) _)].
  replace (line + 5) with (line + 1 + 1 + 1 + 1 + 1) by lia. cbn [config_lines].
  by rewrite (CM_ok _ _ _ _ _ (read_empty File _ _ _)).
Qed.

(** The lines of all operators, after which [rest] follows. *)
Lemma read_opers_lines File opers : forall section line s,
  0 < line -> forallb printable opers = true ->
  config_lines getaddrinfo getgrnam getpwnam now File line section
    (map (fun x => x +:+ String LF "") (opers_puts opers)) s =
  Ok tt (set_c_Opers (c_Opers s ++ map read_back (filter (fun op => hd0 (co_name op) =c NUL = false) opers)) s).
Proof.
  induction opers as [|op opers IH]; intros section line s HL Hp.
  { cbn. rewrite app_nil_r. by destruct s. }
  cbn [forallb] in Hp. apply andb_prop in Hp as [Hop Hp]. unfold opers_puts. cbn [map concat]. rewrite map_app.
  rewrite filter_cons. destruct (decide _) as [Hn|Hn].
  - rewrite read_oper_lines, IH by (done || lia). cbn [c_Opers set_c_Opers map]. by rewrite <- app_assoc.
  - assert ((hd0 (co_name op) =c NUL) = true) as Ht by (by destruct (hd0 _ =c NUL)).
    unfold oper_lines at 1. rewrite Ht. cbn [map app]. by apply IH.
Qed.

Lemma opers_short opers : forallb printable opers = true -> forallb short_line (opers_puts opers) = true.
Proof.
  induction opers as [|op opers IH]; [done|]. cbn [forallb]. intros [Hop Hp]%andb_prop.
  unfold opers_puts. cbn [map concat]. rewrite forallb_app.
  apply printable_spec in Hop as (_ & _ & _ & _ & _ & _ & ->). by apply IH.
Qed.

(** C24: the operators that are printed are read back.  A file that consists of what
    [opers_puts] prints for some operators, whose texts fit and have neither white space at
    the ends nor line ends, is read without a message; it adds these operators, in
    order and with their names and passwords, and changes nothing else.  Those
    without a name are not printed, and an operator without a mask comes back with
    an empty mask, which is not the same. *)
Theorem operators_roundtrip File opers s :
  forallb printable opers = true ->
  Read_Config_File getaddrinfo getgrnam getpwnam now File (print_lines (opers_puts opers)) s =
  Ok tt (set_c_Opers (c_Opers s ++ map read_back (filter (fun op => hd0 (co_name op) =c NUL = false) opers)) s).
Proof.
  intros Hp. unfold Read_Config_File. rewrite fgets_print by (by apply opers_short). by apply read_opers_lines.
Qed.

End lines.
