(* ===== verification/Process.v ===== *)
(** * The process and its transport module (src/net/transport/net_transport.c)

    What runs between the start of the program and its end: the tables and the network,
    the settings, and the global variables NGIRCd_* of server/core/misc/ngircd.h.  An
    operation of the process returns, ends the process, is still running when the
    rounds that it has been given are over, or faults. *)

From S2P Require Import Prelude CString Match Hash Checks Lists Messages Ipaddr Io World ClientCore.
From S2P Require Import ConnFunc ConnSpec ChannelCore State IrcWrite Channel Client Conn Servers Parse Reader.
From S2P Require Import Login Predef ConfVars ConfFile System Accept EventLoop Rehash IrcInfo.

(** ** Operations *)

Inductive outcome (S A : Type) :=
  | Return (a : A) (s : S)
  | Exited (code : Z) (s : S)
  | Running (s : S)
  | Faulted (f : fault).
Arguments Return {S A} a s.
Arguments Exited {S A} code s.
Arguments Running {S A} s.
Arguments Faulted {S A} f.

Definition Proc (S A : Type) : Type := S -> outcome S A.

#[export] Instance Proc_ret S : MRet (Proc S) := fun A a s => Return a s.
#[export] Instance Proc_bind S : MBind (Proc S) := fun A B k m s =>
  match m s with
  | Return a s' => k a s'
  | Exited c s' => Exited c s'
  | Running s' => Running s'
  | Faulted f => Faulted f
  end.

Definition exit_process {S A} (code : Z) : Proc S A := fun s => Exited code s.
Definition gets {S A} (f : S -> A) : Proc S A := fun s => Return (f s) s.
Definition puts {S} (f : S -> S) : Proc S unit := fun s => Return tt (f s).

(** ** State *)

Record NGIRCD := Ngircd {
  ng_ConfFile : string;
  ng_Passive : bool;
  ng_Debug : bool;
  ng_DebugLevel : string;
  ng_Version : string;
  ng_VersionAddition : string;
  ng_ProtoID : string;
  ng_Start : Z;
  ng_StartStr : string }.

Definition set_ng_ConfFile (v : string) (x : NGIRCD) : NGIRCD :=
  Ngircd v (ng_Passive x) (ng_Debug x) (ng_DebugLevel x) (ng_Version x) (ng_VersionAddition x) (ng_ProtoID x)
    (ng_Start x) (ng_StartStr x).
Definition set_ng_Passive (v : bool) (x : NGIRCD) : NGIRCD :=
  Ngircd (ng_ConfFile x) v (ng_Debug x) (ng_DebugLevel x) (ng_Version x) (ng_VersionAddition x) (ng_ProtoID x)
    (ng_Start x) (ng_StartStr x).
Definition set_ng_Debug (v : bool) (x : NGIRCD) : NGIRCD :=
  Ngircd (ng_ConfFile x) (ng_Passive x) v (ng_DebugLevel x) (ng_Version x) (ng_VersionAddition x) (ng_ProtoID x)
    (ng_Start x) (ng_StartStr x).
Definition set_ng_DebugLevel (v : string) (x : NGIRCD) : NGIRCD :=
  Ngircd (ng_ConfFile x) (ng_Passive x) (ng_Debug x) v (ng_Version x) (ng_VersionAddition x) (ng_ProtoID x)
    (ng_Start x) (ng_StartStr x).
Definition set_ng_version (v addition : string) (x : NGIRCD) : NGIRCD :=
  Ngircd (ng_ConfFile x) (ng_Passive x) (ng_Debug x) (ng_DebugLevel x) v addition (ng_ProtoID x)
    (ng_Start x) (ng_StartStr x).
Definition set_ng_ProtoID (v : string) (x : NGIRCD) : NGIRCD :=
  Ngircd (ng_ConfFile x) (ng_Passive x) (ng_Debug x) (ng_DebugLevel x) (ng_Version x) (ng_VersionAddition x) v
    (ng_Start x) (ng_StartStr x).
Definition set_ng_start (t : Z) (text : string) (x : NGIRCD) : NGIRCD :=
  Ngircd (ng_ConfFile x) (ng_Passive x) (ng_Debug x) (ng_DebugLevel x) (ng_Version x) (ng_VersionAddition x)
    (ng_ProtoID x) t text.

(** What the server and its modules keep. *)
Record LIFE := Life { lf_server : SERVER_STATE; lf_ngircd : NGIRCD }.

Definition in_ngircd (f : NGIRCD -> NGIRCD) (l : LIFE) : LIFE := Life (lf_server l) (f (lf_ngircd l)).
Definition in_server (f : SERVER_STATE -> SERVER_STATE) (l : LIFE) : LIFE := Life (f (lf_server l)) (lf_ngircd l).

Definition life_world (l : LIFE) : World := ss_world (lf_server l).
Definition life_tab (l : LIFE) : Tables := w_tab (life_world l).
Definition life_net (l : LIFE) : Net := w_net (life_world l).

(** The table of servers is shared between the settings and the tables. *)
Definition put_world (w : World) (s : SERVER_STATE) : SERVER_STATE :=
  ServerState (set_c_Server (t_Conf_Server (w_tab w)) (ss_conf s)) (ss_freed s) w.

(** The settings [C], with the global variables of the process. *)
Definition with_ngircd (g : NGIRCD) (C : Conf) : Conf :=
  {| Conf_ServerName := Conf_ServerName; Conf_ServerInfo := Conf_ServerInfo; Conf_MaxNickLength := Conf_MaxNickLength;
     Conf_MorePrivacy := Conf_MorePrivacy; Conf_OperCanMode := Conf_OperCanMode; Conf_CloakHost := Conf_CloakHost;
     Conf_CloakHostModeX := Conf_CloakHostModeX; Conf_CloakHostSalt := Conf_CloakHostSalt;
     Conf_CloakUserToNick := Conf_CloakUserToNick; Conf_MaxPenaltyTime := Conf_MaxPenaltyTime;
     Conf_ConnectRetry := Conf_ConnectRetry; Conf_MaxJoins := Conf_MaxJoins; Conf_OperServerMode := Conf_OperServerMode;
     Conf_AllowedChannelTypes := Conf_AllowedChannelTypes; NGIRCd_Passive := ng_Passive g; Conf_ScrubCTCP := Conf_ScrubCTCP;
     Conf_AllowRemoteOper := Conf_AllowRemoteOper; Conf_Helptext := Conf_Helptext; PACKAGE_NAME := PACKAGE_NAME;
     PACKAGE_VERSION := PACKAGE_VERSION; NGIRCd_DebugLevel := ng_DebugLevel g; NGIRCd_ProtoID := ng_ProtoID g;
     Conf_PingTimeout := Conf_PingTimeout; Conf_PongTimeout := Conf_PongTimeout; Conf_DNS := Conf_DNS;
     Conf_NoticeBeforeRegistration := Conf_NoticeBeforeRegistration; Conf_ServerAdmin1 := Conf_ServerAdmin1;
     Conf_ServerAdmin2 := Conf_ServerAdmin2; Conf_ServerAdminMail := Conf_ServerAdminMail; Conf_Motd := Conf_Motd;
     Conf_Network := Conf_Network; Conf_MaxListSize := Conf_MaxListSize; Conf_OperChanPAutoOp := Conf_OperChanPAutoOp;
     Conf_DefaultChannelModes := Conf_DefaultChannelModes; NGIRCd_Version := ng_Version g;
     NGIRCd_VersionAddition := ng_VersionAddition g; NGIRCd_Start := ng_Start g; NGIRCd_StartStr := ng_StartStr g;
     BUILD_DATE := BUILD_DATE; BUILD_TIME := BUILD_TIME; strftime_local := strftime_local; Conf_AuthPing := Conf_AuthPing;
     Conf_ServerPwd := Conf_ServerPwd; Conf_DefaultUserModes := Conf_DefaultUserModes; Conf_WebircPwd := Conf_WebircPwd;
     Conf_Channels := Conf_Channels; Conf_Opers := Conf_Opers; HOST_CPU := HOST_CPU; HOST_VENDOR := HOST_VENDOR;
     HOST_OS := HOST_OS; Conf_MaxConnections := Conf_MaxConnections; Conf_MaxConnectionsIP := Conf_MaxConnectionsIP;
     Conf_IdleTimeout := Conf_IdleTimeout; Conf_ListenAddress := Conf_ListenAddress; Conf_ListenPorts := Conf_ListenPorts;
     getnameinfo := getnameinfo |}.

(** ** The status of a module (core/runtime/core_runtime.h) *)

Inductive core_status :=
  | CORE_STATUS_OK
  | CORE_STATUS_INVALID_ARGUMENT
  | CORE_STATUS_OUT_OF_MEMORY
  | CORE_STATUS_NOT_FOUND
  | CORE_STATUS_UNSUPPORTED
  | CORE_STATUS_IO_ERROR
  | CORE_STATUS_INTERNAL_ERROR.

#[export] Instance core_status_eq_dec : EqDecision core_status.
Proof. solve_decision. Defined.

Definition failed (s : core_status) : bool := negb (bool_decide (s = CORE_STATUS_OK)).
Definition status_of (b : bool) : core_status := if b then CORE_STATUS_OK else CORE_STATUS_INTERNAL_ERROR.

(** ** The transport module *)

Section Transport.
Context (base : Conf) `{System} (read_lines : string -> option (list string)) (rand : Z) (depth rounds : nat).

Definition life_conf (l : LIFE) : Conf := with_ngircd (lf_ngircd l) (conf_of base (ss_conf (lf_server l))).

(** Runs an operation of the server under the settings of the process. *)
Definition live {A} (m : forall C : Conf, ConnIO -> M A) : Proc LIFE A := fun l =>
  let C := life_conf l in
  match m C (conn_io rand depth) (life_world l) with
  | Done a w => Return a (in_server (put_world w) l)
  | Crash f => Faulted f
  end.

(** The library may lower the number of connections. *)
Definition net_transport_init (connection_capacity : Z) : Proc LIFE core_status := fun l =>
  let s := lf_server l in
  let limits := c_limits (ss_conf s) in
  let '(io, maxconn) := io_library_init connection_capacity (l_MaxConnections limits) (n_io (life_net l)) in
  let s := ServerState (in_limits (set_l_MaxConnections maxconn) (ss_conf s)) (ss_freed s)
             (set_w_net (set_n_io io (life_net l)) (ss_world s)) in
  Return CORE_STATUS_OK (Life s (lf_ngircd l)).

Definition net_transport_init_connections : Proc LIFE core_status :=
  live (fun C I => Conn_Init);; mret CORE_STATUS_OK.

Definition net_transport_init_listeners : Proc LIFE core_status :=
  created ← live (fun C I => Conn_InitListeners); mret (status_of (0 <? created)).

Definition net_transport_shutdown_listeners : Proc LIFE core_status :=
  live (fun C I => Conn_ExitListeners);; mret CORE_STATUS_OK.

(** [Conn_Handler] returns when the server is to stop. *)
Definition net_transport_run : Proc LIFE core_status :=
  ended ← live (fun C I => Conn_Handler read_lines rand rounds);
  if (ended : bool) then mret CORE_STATUS_OK else fun l => Running l.

Definition net_transport_close_all_sockets (except_of : Z) : Proc LIFE core_status :=
  live (fun C I => Conn_CloseAllSockets except_of);; mret CORE_STATUS_OK.

Definition net_transport_shutdown_connections : Proc LIFE core_status :=
  live (fun C I => Conn_Exit);; mret CORE_STATUS_OK.

Definition net_transport_shutdown : Proc LIFE core_status :=
  live (fun C I => mod_net (fun n => set_n_io (io_library_shutdown (n_io n)) n));; mret CORE_STATUS_OK.

End Transport.

(** The other operations of the table are those of conn.c.  Connections are numbers of
    32 bits without sign there, and of type int in conn.c. *)
Definition uint32 (z : Z) : Z := z mod 2 ^ 32.
Definition CONN_ID_of (z : Z) : Z := (z + 2 ^ 31) mod 2 ^ 32 - 2 ^ 31.

Section Wrappers.
Context `{Conf} `{ConnIO} `{System}.

Definition net_transport_close_connection (connection_id : Z) (log_msg fwd_msg : option string) (inform_client : Z) : M core_status :=
  Conn_Close (CONN_ID_of connection_id) log_msg fwd_msg (negb (inform_client =? 0));; mret CORE_STATUS_OK.

Definition net_transport_start_login (connection_id : Z) : M core_status :=
  Conn_StartLogin (CONN_ID_of connection_id);; mret CORE_STATUS_OK.

Definition net_transport_get_password (connection_id : Z) : M string := Conn_Password (CONN_ID_of connection_id).
Definition net_transport_set_password (connection_id : Z) (password : string) : M core_status :=
  Conn_SetPassword (CONN_ID_of connection_id) password;; mret CORE_STATUS_OK.
Definition net_transport_get_from_proc (fd : Z) : M Z := idx ← Conn_GetFromProc fd; mret (uint32 idx).
Definition net_transport_get_client (connection_id : Z) : M ptr := Conn_GetClient (CONN_ID_of connection_id).
Definition net_transport_get_proc_stat (connection_id : Z) : M PROC_STAT := Conn_GetProcStat (CONN_ID_of connection_id).
Definition net_transport_uses_ssl (connection_id : Z) : Z := if Conn_UsesSSL (CONN_ID_of connection_id) then 1 else 0.
Definition net_transport_get_auth_ping (connection_id : Z) : M Z := Conn_GetAuthPing (CONN_ID_of connection_id).
Definition net_transport_set_auth_ping (connection_id id : Z) : M unit := Conn_SetAuthPing (CONN_ID_of connection_id) id.
Definition net_transport_count : M Z := n ← Conn_Count; mret (uint32 n).
Definition net_transport_count_max : M Z := n ← Conn_CountMax; mret (uint32 n).
Definition net_transport_count_accepted : M Z := n ← Conn_CountAccepted; mret (uint32 n).
End Wrappers.

(** A number of a connection, or none, survives the way through the table. *)
Lemma CONN_ID_uint32 idx : NONE <= idx < 2 ^ 31 -> CONN_ID_of (uint32 idx) = idx.
Proof.
  unfold CONN_ID_of, uint32, NONE. intros Hi. rewrite Zplus_mod_idemp_l, Z.mod_small by lia. lia.
Qed.
