(* ===== verification/Host.v ===== *)
(** * Modules (src/app/host/host.c, include/core/runtime/, include/app/)

    The server is put together from modules, each a library with one table of functions.
    The host loads them and checks the tables.  The libraries that the
    loader finds are an argument. *)

From S2P Require Import Prelude CString Process.

(** ** Tables *)

(** What get_bootstrap fills in, as far as it is read. *)
Record config_bootstrap := ConfigBootstrap { cb_oper_can_mode : Z; cb_pid_file : option string }.

(** A function that is NULL is [None] or [false]. *)
Record config_api := ConfigApi {
  ca_api_major : Z;
  ca_init : option core_status;
  ca_test : option Z;
  ca_get_bootstrap : option (core_status * config_bootstrap) }.

Record logging_api := LoggingApi {
  la_api_major : Z;
  la_init : option (Z -> core_status);
  la_shutdown : bool;
  la_reinit : bool;
  la_log_message : bool;
  la_debug_message : bool;
  la_fatal_message : bool }.

Record net_transport_api := NetTransportApi {
  nt_api_major : Z;
  nt_init : option (Z -> Proc LIFE core_status);
  nt_init_connections : option (Proc LIFE core_status);
  nt_init_listeners : option (Proc LIFE core_status);
  nt_shutdown_listeners : option (Proc LIFE core_status);
  nt_run : option (Proc LIFE core_status);
  nt_close_all_sockets : option (Z -> Proc LIFE core_status);
  nt_shutdown_connections : option (Proc LIFE core_status);
  nt_shutdown : option (Proc LIFE core_status) }.

(** A pointer to some table; every table begins with its version. *)
Inductive module_table :=
  | LoggingTable (a : logging_api)
  | ConfigTable (a : config_api)
  | TransportTable (a : net_transport_api)
  | OtherTable (api_major : Z).

Definition api_major (t : module_table) : Z :=
  match t with
  | LoggingTable a => la_api_major a
  | ConfigTable a => ca_api_major a
  | TransportTable a => nt_api_major a
  | OtherTable v => v
  end.

Record core_module_api := CoreModuleApi {
  cm_api_major : Z;
  cm_module_kind : option Z;      (* metadata->module_kind *)
  cm_api : option module_table }.

(** A library: the function [module_get_api_v1], if there is one, and its result. *)
Notation dll := (option (option core_module_api)).

Definition CORE_MODULE_KIND_LOGGING : Z := 2.
Definition CORE_MODULE_KIND_CONFIG : Z := 3.
Definition CORE_MODULE_KIND_PLATFORM : Z := 4.
Definition CORE_MODULE_KIND_NET_TRANSPORT : Z := 5.
Definition CORE_MODULE_KIND_RESOLVER : Z := 6.
Definition CORE_MODULE_KIND_SERVER_APP : Z := 7.
Definition CORE_MODULE_KIND_IRC_PROTOCOL : Z := 8.
Definition CORE_MODULE_KIND_CLIENT_STATE : Z := 9.
Definition CORE_MODULE_KIND_CHANNEL_STATE : Z := 10.
Definition CORE_MODULE_KIND_COMMAND_HANDLERS : Z := 11.

Record host_module_set := HostModuleSet {
  hm_core_runtime : option core_module_api;   (* never filled *)
  hm_logging : option module_table;
  hm_config : option module_table;
  hm_platform : option module_table;
  hm_net_transport : option module_table;
  hm_resolver : option module_table;
  hm_irc_protocol : option module_table;
  hm_client_state : option module_table;
  hm_channel_state : option module_table;
  hm_command_handlers : option module_table;
  hm_server_app : option module_table }.

Definition no_modules : host_module_set := HostModuleSet None None None None None None None None None None None.

(** The fields in the order in which they are filled. *)
Definition module_fields (s : host_module_set) : list (option module_table) :=
  [hm_logging s; hm_config s; hm_platform s; hm_net_transport s; hm_resolver s; hm_irc_protocol s; hm_client_state s;
   hm_channel_state s; hm_command_handlers s; hm_server_app s].

(** The field at an offset; [o] counts pointers. *)
Definition put_module (o : nat) (v : option module_table) (s : host_module_set) : host_module_set :=
  match <[o := v]> (module_fields s) with
  | [a; b; c; d; e; f; g; h; i; j] => HostModuleSet (hm_core_runtime s) a b c d e f g h i j
  | _ => s
  end.

Record module_entry := ModuleEntry { me_name : string; me_kind : Z }.

Definition modules : list module_entry :=
  [ModuleEntry "logging.dll" CORE_MODULE_KIND_LOGGING;
   ModuleEntry "config.dll" CORE_MODULE_KIND_CONFIG;
   ModuleEntry "platform.dll" CORE_MODULE_KIND_PLATFORM;
   ModuleEntry "net_transport.dll" CORE_MODULE_KIND_NET_TRANSPORT;
   ModuleEntry "resolver.dll" CORE_MODULE_KIND_RESOLVER;
   ModuleEntry "irc_protocol.dll" CORE_MODULE_KIND_IRC_PROTOCOL;
   ModuleEntry "client_state.dll" CORE_MODULE_KIND_CLIENT_STATE;
   ModuleEntry "channel_state.dll" CORE_MODULE_KIND_CHANNEL_STATE;
   ModuleEntry "command_handlers.dll" CORE_MODULE_KIND_COMMAND_HANDLERS;
   ModuleEntry "server_app.dll" CORE_MODULE_KIND_SERVER_APP].

(** ** Loading *)

Definition MAX_PATH : nat := 260.
Definition CORE_RUNTIME_MODULE_GET_API_V1 : string := "module_get_api_v1".

Section Load.
Context (LoadLibraryA : string -> option dll) (GetLastError : Z).
Context (dll_dir : option string) (errbuf_size : option nat).   (* no buffer: [None] *)

(** Writes to the buffer for the message, if there is one. *)
Definition report (fmt : string) (args : list farg) (errbuf : string) : string :=
  match errbuf_size with
  | Some (S n) => snprintf (S n) fmt args
  | _ => errbuf
  end.

Definition dll_path (dll_name : string) : string :=
  match dll_dir with
  | Some (String _ _ as dir) => snprintf MAX_PATH "%s\%s" [FS dir; FS dll_name]
  | _ => str_take (MAX_PATH - 1) dll_name
  end.

Definition load_dll (dll_name : string) (errbuf : string) : option dll * string :=
  let path := dll_path dll_name in
  match LoadLibraryA path with
  | Some h => (Some h, errbuf)
  | None => (None, report (dq "host_load_modules: LoadLibraryA(`%s`) failed (error %lu)") [FS path; FZ GetLastError] errbuf)
  end.

Definition resolve_module_fn (h : dll) (dll_name : string) (errbuf : string) : dll * string :=
  match h with
  | Some get => (Some get, errbuf)
  | None => (None, report (dq "host_load_modules: GetProcAddress(`%s`, `%s`) failed (error %lu)")
                     [FS dll_name; FS CORE_RUNTIME_MODULE_GET_API_V1; FZ GetLastError] errbuf)
  end.

Definition validate_and_extract (mod_api : option core_module_api) (expected_kind : Z) (dll_name errbuf : string) :
    core_status * option module_table * string :=
  match mod_api with
  | None =>
      (CORE_STATUS_INTERNAL_ERROR, None, report "host_load_modules: %s module_get_api_v1 returned NULL" [FS dll_name] errbuf)
  | Some api =>
      if negb (cm_api_major api =? 1) then
        (CORE_STATUS_UNSUPPORTED, None,
         report "host_load_modules: %s api_major=%u (expected 1)" [FS dll_name; FZ (cm_api_major api)] errbuf)
      else if match cm_module_kind api with Some kind => negb (kind =? expected_kind) | None => false end then
        (CORE_STATUS_UNSUPPORTED, None,
         report "host_load_modules: %s module_kind=%u (expected %u)"
           [FS dll_name; FZ (default 0 (cm_module_kind api)); FZ expected_kind] errbuf)
      else
        match cm_api api with
        | None => (CORE_STATUS_INTERNAL_ERROR, None,
                   report "host_load_modules: %s module_get_api_v1()->api is NULL" [FS dll_name] errbuf)
        | Some t => (CORE_STATUS_OK, Some t, errbuf)
        end
  end.

(** The loop over the modules, from the one with number [i] on. *)
Fixpoint load_loop (l : list module_entry) (i : nat) (out : host_module_set) (errbuf : string) :
    core_status * host_module_set * string :=
  match l with
  | [] => (CORE_STATUS_OK, out, errbuf)
  | m :: l' =>
      let '(h, errbuf) := load_dll (me_name m) errbuf in
      match h with
      | None => (CORE_STATUS_NOT_FOUND, out, errbuf)
      | Some h =>
          let '(get_api, errbuf) := resolve_module_fn h (me_name m) errbuf in
          match get_api with
          | None => (CORE_STATUS_NOT_FOUND, out, errbuf)
          | Some mod_api =>
              let '(st, typed_api, errbuf) := validate_and_extract mod_api (me_kind m) (me_name m) errbuf in
              if failed st then (st, out, errbuf)
              else load_loop l' (S i) (put_module i typed_api out) errbuf
          end
      end
  end.

Definition host_load_modules (errbuf : string) : core_status * host_module_set * string :=
  load_loop modules 0 no_modules errbuf.

End Load.

(** ** Wiring *)

Definition host_wire_modules (modules : option host_module_set) : core_status :=
  match modules with
  | None => CORE_STATUS_INVALID_ARGUMENT
  | Some s =>
      if existsb (fun m => negb (is_some m)) (module_fields s) then CORE_STATUS_INVALID_ARGUMENT
      else if existsb (fun m => match m with Some t => negb (api_major t =? 1) | None => false end) (module_fields s)
      then CORE_STATUS_UNSUPPORTED
      else CORE_STATUS_OK
  end.

(** ** The managed modules (src/app/config/Config.cs, src/app/logging/Logging.cs) *)

(** The configuration module reads no file: it answers with constants. *)
Definition managed_config : config_api :=
  ConfigApi 1 (Some CORE_STATUS_OK) (Some 0)
    (Some (CORE_STATUS_OK, ConfigBootstrap 0 (Some "C:/develop/ngircd/runtime/ngircd.pid"))).

Definition managed_logging : logging_api := LoggingApi 1 (Some (fun _ => CORE_STATUS_OK)) true true true true true.
