(* ===== verification/HostSpec.v ===== *)
(** * Loading modules: what it promises

    Which tables the set of modules holds when the loader stops, with which status,
    and which sets the wiring accepts. *)

From S2P Require Import Prelude CString Process Host.

Section Load.
Context (LoadLibraryA : string -> option dll) (GetLastError : Z) (dll_dir : option string) (size : option nat).

(** The table that a library gives for a module, if it is usable. *)
Definition usable (m : module_entry) : option module_table :=
  match LoadLibraryA (dll_path dll_dir (me_name m)) with
  | Some (Some (Some a)) =>
      if negb (cm_api_major a =? 1) then None
      else if match cm_module_kind a with Some kind => negb (kind =? me_kind m) | None => false end then None
      else cm_api a
  | _ => None
  end.

(** The status for a module that is not usable. *)
Definition refusal (m : module_entry) : core_status :=
  match LoadLibraryA (dll_path dll_dir (me_name m)) with
  | Some (Some (Some a)) =>
      if negb (cm_api_major a =? 1) || match cm_module_kind a with Some kind => negb (kind =? me_kind m) | None => false end
      then CORE_STATUS_UNSUPPORTED else CORE_STATUS_INTERNAL_ERROR
  | Some (Some None) => CORE_STATUS_INTERNAL_ERROR
  | _ => CORE_STATUS_NOT_FOUND
  end.

Lemma fields_put o v s : module_fields (put_module o v s) = <[o := v]> (module_fields s).
Proof. destruct s. do 10 (destruct o as [|o]; [done|]). done. Qed.

(** One round of the loop. *)
Lemma load_loop_step m l i out errbuf :
  (exists t, usable m = Some t /\
     load_loop LoadLibraryA GetLastError dll_dir size (m :: l) i out errbuf =
     load_loop LoadLibraryA GetLastError dll_dir size l (S i) (put_module i (Some t) out) errbuf) \/
  (usable m = None /\ refusal m <> CORE_STATUS_OK /\ exists text,
     load_loop LoadLibraryA GetLastError dll_dir size (m :: l) i out errbuf = (refusal m, out, text)).
Proof.
  cbn [load_loop]. unfold usable, refusal, load_dll, resolve_module_fn, validate_and_extract.
  destruct (LoadLibraryA _) as [[[a|]|]|]; [|right; split; [done|]; split; [done|]; by eexists..].
  destruct (negb (cm_api_major a =? 1)); [right; split; [done|]; split; [done|]; by eexists|].
  destruct (match cm_module_kind a with Some _ => _ | None => _ end);
    [right; split; [done|]; split; [done|]; by eexists|].
  destruct (cm_api a) as [t|]; [left; by exists t|right; split; [done|]; split; [done|]; by eexists].
Qed.

(** The modules from number [i] on: those before the first one that is not usable are entered. *)
Lemma load_loop_ok l i out errbuf :
  let r := load_loop LoadLibraryA GetLastError dll_dir size l i out errbuf in
  exists n, (n <= length l)%nat /\
    module_fields r.1.2 = list_inserts i (map usable (take n l)) (module_fields out) /\
    Forall (fun m => is_Some (usable m)) (take n l) /\
    match l !! n with
    | None => r.1.1 = CORE_STATUS_OK /\ r.2 = errbuf
    | Some m => usable m = None /\ r.1.1 = refusal m /\ refusal m <> CORE_STATUS_OK
    end.
Proof.
  cbv zeta. revert i out errbuf. induction l as [|m l IH]; intros i out errbuf.
  { exists 0%nat. by repeat split. }
  destruct (load_loop_step m l i out errbuf) as [(t & Ht & ->)|(Hn & Hr & text & ->)].
  - destruct (IH (S i) (put_module i (Some t) out) errbuf) as (n & Hle & Hf & Hu & Hend). exists (S n).
    split; [cbn; lia|]. split; [|split; [constructor; [by eexists|done]|done]].
    rewrite Hf, fields_put. cbn. rewrite Ht. symmetry. apply list_insert_inserts_lt. lia.
  - exists 0%nat. by repeat split; [cbn; lia|..].
Qed.

Lemma inserts_front {A} (l : list A) (x : A) n :
  (length l <= n)%nat -> list_inserts 0 l (replicate n x) = l ++ replicate (n - length l) x.
Proof.
  intros Hl. apply list_eq. intros i. destruct (decide (i < length l)%nat).
  - rewrite list_lookup_inserts by (rewrite ?length_replicate; lia). by rewrite lookup_app_l, Nat.sub_0_r.
  - rewrite list_lookup_inserts_ge, lookup_app_r by lia. destruct (decide (i < n)%nat).
    + by rewrite !lookup_replicate_2 by lia.
    + rewrite (lookup_ge_None_2 (replicate n x)), (lookup_ge_None_2 (replicate _ x)) by (rewrite length_replicate; lia). done.
Qed.

Lemma wire_ok out l :
  module_fields out = map Some l ->
  host_wire_modules (Some out) = CORE_STATUS_OK <-> Forall (fun t => api_major t = 1) l.
Proof.
  intros Hf. unfold host_wire_modules. rewrite Hf.
  assert (existsb (fun m : option module_table => negb (is_some m)) (map Some l) = false) as ->
    by (clear Hf; induction l; [done|by cbn]).
  clear Hf. induction l as [|t l IH]; [by split|]. cbn. destruct (Z.eqb_spec (api_major t) 1); cbn.
  - rewrite IH, list.Forall_cons. tauto.
  - split; [done|]. by intros [? _]%list.Forall_cons.
Qed.

Lemma wire_incomplete out : None ∈ module_fields out -> host_wire_modules (Some out) = CORE_STATUS_INVALID_ARGUMENT.
Proof.
  intros Hn. unfold host_wire_modules.
  assert (existsb (fun m : option module_table => negb (is_some m)) (module_fields out) = true) as ->; [|done].
  apply existsb_exists. exists None. split; [by apply list_elem_of_In|done].
Qed.

(** C26: loading the modules.  The libraries are taken in their order until one is missing,
    has no table, or has one of another version or kind.  The tables of those before are in
    the set, the other fields are NULL: all of them are filled exactly if the status is OK, and
    the set is not cleared when loading fails.  A complete set is accepted by the wiring
    exactly if all tables have version 1, an incomplete one never. *)
Theorem host_load_modules_spec errbuf :
  exists n st out text,
    host_load_modules LoadLibraryA GetLastError dll_dir size errbuf = (st, out, text) /\
    exists l, map usable (take n modules) = map Some l /\
      module_fields out = map Some l ++ replicate (10 - n) None /\
      match modules !! n with
      | None => n = 10%nat /\ st = CORE_STATUS_OK /\ text = errbuf /\
          (host_wire_modules (Some out) = CORE_STATUS_OK <-> Forall (fun t => api_major t = 1) l)
      | Some m => usable m = None /\ st = refusal m /\ st <> CORE_STATUS_OK /\
          host_wire_modules (Some out) = CORE_STATUS_INVALID_ARGUMENT
      end.
Proof.
  unfold host_load_modules. destruct (load_loop_ok modules 0 no_modules errbuf) as (n & Hle & Hf & Hu & Hend).
  destruct (load_loop _ _ _ _ _ _ _ _) as [[st out] text]. cbn [fst snd] in *. exists n, st, out, text. split; [done|].
  assert (exists l, map usable (take n modules) = map Some l) as [l Hl].
  { clear -Hu. induction Hu as [|m ms [t Ht] _ [l IH]]; [by exists []|]. exists (t :: l). cbn. by rewrite Ht, IH. }
  exists l. split; [done|]. change (length modules) with 10%nat in Hle.
  assert (length (map usable (take n modules)) = n) as Hlen by (rewrite length_map, length_take; cbn; lia).
  change (module_fields no_modules) with (replicate 10 (@None module_table)) in Hf.
  rewrite inserts_front, Hlen, Hl in Hf by lia. split; [done|]. destruct (modules !! n) as [m|] eqn:Em.
  - destruct Hend as (H1 & H2 & H3). split_and!; [done|done|by rewrite H2|]. apply wire_incomplete. rewrite Hf.
    apply lookup_lt_Some in Em. change (length modules) with 10%nat in Em. apply elem_of_app. right.
    apply elem_of_replicate. split; [done|lia].
  - destruct Hend as [H1 H2]. apply lookup_ge_None in Em. change (length modules) with 10%nat in Em.
    assert (n = 10%nat) as -> by lia. split_and!; [done..|]. apply wire_ok. rewrite Hf. by rewrite app_nil_r.
Qed.

(** A table in the set comes from one of the libraries. *)
Lemma loaded_table errbuf st out text t :
  host_load_modules LoadLibraryA GetLastError dll_dir size errbuf = (st, out, text) -> Some t ∈ module_fields out ->
  exists path a, LoadLibraryA path = Some (Some (Some a)) /\ cm_api a = Some t.
Proof.
  unfold host_load_modules. intros E Hin. destruct (load_loop_ok modules 0 no_modules errbuf) as (n & Hle & Hf & _).
  rewrite E in Hf. cbn [fst snd] in Hf. change (length modules) with 10%nat in Hle.
  change (module_fields no_modules) with (replicate 10 (@None module_table)) in Hf.
  rewrite inserts_front in Hf by (rewrite length_map, length_take; cbn; lia). rewrite Hf in Hin.
  apply elem_of_app in Hin as [Hin|[? _]%elem_of_replicate]; [|done].
  apply list_elem_of_fmap in Hin as (m & Hm & _). unfold usable in Hm.
  destruct (LoadLibraryA _) as [[[a|]|]|] eqn:El; try done. exists (dll_path dll_dir (me_name m)), a. split; [done|].
  by repeat case_match.
Qed.

End Load.
