(* ===== verification/ServerApp.v ===== *)
(** * The program (src/app/server_app/server_app.c, server/platform/ngircd.c,
      legacy_impl/server_runtime/ngircd_daemon.c, platform/windows/src/win32_main.c)

    From the command line to the end of the process: the options, the modules, and
    the lives of the server, one after the other when it is restarted.  Messages that are only
    logged are left out.  What the system answers and the module configuration are arguments;
    of the files, only the existence of that for the process number matters. *)

From S2P Require Import Prelude CString Match Hash Checks Lists Messages Ipaddr Io World ClientCore.
From S2P Require Import ConnFunc ConnSpec ChannelCore State IrcWrite Channel Class Client Conn Servers Parse Reader.
From S2P Require Import IrcLogin Login Predef ConfVars ConfFile System Startup Accept EventLoop Rehash Process Host.

(** ** State *)

(** The pointers of server_app.c, the flag of NGIRCd_Init, the seed of the random
    numbers, and the files that exist. *)
Record PROCESS := MkProcess {
  pr_life : LIFE;
  pr_config : option module_table;
  pr_logging : option module_table;
  pr_transport : option module_table;
  pr_initialized : bool;
  pr_seed : Z;
  pr_files : gset string }.

Definition set_pr_life (v : LIFE) (x : PROCESS) : PROCESS :=
  MkProcess v (pr_config x) (pr_logging x) (pr_transport x) (pr_initialized x) (pr_seed x) (pr_files x).
Definition set_pr_modules (config logging transport : option module_table) (x : PROCESS) : PROCESS :=
  MkProcess (pr_life x) config logging transport (pr_initialized x) (pr_seed x) (pr_files x).
Definition set_pr_initialized (v : bool) (x : PROCESS) : PROCESS :=
  MkProcess (pr_life x) (pr_config x) (pr_logging x) (pr_transport x) v (pr_seed x) (pr_files x).
Definition set_pr_seed (v : Z) (x : PROCESS) : PROCESS :=
  MkProcess (pr_life x) (pr_config x) (pr_logging x) (pr_transport x) (pr_initialized x) v (pr_files x).
Definition set_pr_files (v : gset string) (x : PROCESS) : PROCESS :=
  MkProcess (pr_life x) (pr_config x) (pr_logging x) (pr_transport x) (pr_initialized x) (pr_seed x) v.

(** An operation on a part of the process. *)
Definition in_life {A} (m : Proc LIFE A) : Proc PROCESS A := fun p =>
  match m (pr_life p) with
  | Return a l => Return a (set_pr_life l p)
  | Exited c l => Exited c (set_pr_life l p)
  | Running l => Running (set_pr_life l p)
  | Faulted f => Faulted f
  end.

(** What the system answers to the calls of these files. *)
Class OS := {
  os_chdir : string -> bool;
  os_chroot : string -> bool;
  os_fork : Z;
  os_creatable : string -> bool;                 (* whether a file that does not exist can be made *)
  os_seed : string -> option (bool * Z);         (* open and read: complete, and what is in the buffer *)
  os_random : Z;                                 (* rand() ^ getpid() ^ time(NULL) *)
  os_gethostname : string;
  os_gethostbyname : string -> option string;
  os_getgrnam : string -> option Z;
  os_getpwnam : string -> option Z;
  os_fopen : string -> option string;
  os_opendir : string -> option (list string);
  os_strerror : string -> string;
  os_salt : string }.

(** ** Version (server/platform/ngircd.c) *)

Definition VERSION_LEN : nat := 126.

Definition add_feature (name s : string) : string :=
  strlcat (if negb (hd0 s =c NUL) then strlcat s "+" VERSION_LEN else s) name VERSION_LEN.

Definition Fill_Version `{Conf} (g : NGIRCD) : NGIRCD :=
  let s := add_feature "IRCPLUS" (add_feature "IPv6" "") in
  let s := if negb (hd0 s =c NUL) then strlcat s "-" VERSION_LEN else s in
  let s := strlcat (strlcat s HOST_CPU VERSION_LEN) "/" VERSION_LEN in
  let s := strlcat (strlcat s HOST_VENDOR VERSION_LEN) "/" VERSION_LEN in
  let s := strlcat s HOST_OS VERSION_LEN in
  set_ng_version (snprintf VERSION_LEN "%s %s-%s" [FS PACKAGE_NAME; FS PACKAGE_VERSION; FS s]) s g.

(** ** Options (server/platform/ngircd.c, win32_main.c) *)

Record options := MkOptions {
  op_ConfFile : string;
  op_Debug : bool;
  op_Passive : bool;
  op_NoDaemon : bool;
  op_NoSyslog : bool;
  op_configtest : bool }.

Definition set_ConfFile (v : string) (o : options) : options :=
  MkOptions (strlcpy v FNAME_LEN) (op_Debug o) (op_Passive o) (op_NoDaemon o) (op_NoSyslog o) (op_configtest o).
Definition set_Debug (o : options) : options :=
  MkOptions (op_ConfFile o) true (op_Passive o) (op_NoDaemon o) (op_NoSyslog o) (op_configtest o).
Definition set_Passive (o : options) : options :=
  MkOptions (op_ConfFile o) (op_Debug o) true (op_NoDaemon o) (op_NoSyslog o) (op_configtest o).
Definition set_NoDaemon (o : options) : options :=
  MkOptions (op_ConfFile o) (op_Debug o) (op_Passive o) true true (op_configtest o).
Definition set_configtest (o : options) : options :=
  MkOptions (op_ConfFile o) (op_Debug o) (op_Passive o) (op_NoDaemon o) (op_NoSyslog o) true.

(** An option ends the process, or is taken, perhaps together with the next argument. *)
Inductive option_result :=
  | OptExit (code : Z)
  | OptDone (o : options) (next_used : bool).

(** Behind --config the comparisons go on with the name of the file. *)
Definition long_option (arg : string) (next : option string) (o : options) : option_result :=
  let '(arg, o, used) :=
    match next with
    | Some file => if String.eqb arg "--config" then (file, set_ConfFile file o, true) else (arg, o, false)
    | None => (arg, o, false)
    end in
  if String.eqb arg "--configtest" then OptDone (set_configtest o) used
  else if String.eqb arg "--debug" then OptDone (set_Debug o) used
  else if String.eqb arg "--help" then OptExit 0
  else if String.eqb arg "--nodaemon" then OptDone (set_NoDaemon o) used
  else if String.eqb arg "--passive" then OptDone (set_Passive o) used
  else if String.eqb arg "--version" then OptExit 0
  else if used then OptDone o used else OptExit 2.

(** The characters behind the first one; [ok] tells whether there was one. *)
Fixpoint short_options (s : string) (next : option string) (ok : bool) (o : options) : option_result :=
  match s with
  | "" => if ok then OptDone o false else OptExit 2
  | String c s' =>
      if c =c "d"%char then short_options s' next true (set_Debug o)
      else if c =c "f"%char then
        match s', next with
        | "", Some file => OptDone (set_ConfFile file o) true
        | _, _ => OptExit 2
        end
      else if c =c "h"%char then OptExit 1
      else if c =c "n"%char then short_options s' next true (set_NoDaemon o)
      else if c =c "p"%char then short_options s' next true (set_Passive o)
      else if c =c "t"%char then short_options s' next true (set_configtest o)
      else if c =c "V"%char then OptExit 1
      else OptExit 2
  end.

Definition one_option (arg : string) (next : option string) (o : options) : option_result :=
  match arg with
  | String "-" (String "-" _) => long_option arg next o
  | String "-" s => short_options s next false o
  | _ => OptExit 2
  end.

(** The arguments behind the name of the program: an exit code, or the options. *)
Fixpoint parse_options (argv : list string) (o : options) : Z + options :=
  match argv with
  | [] => inr o
  | arg :: argv' =>
      match argv' with
      | [] =>
          match one_option arg None o with
          | OptExit code => inl code
          | OptDone o _ => inr o
          end
      | next :: rest =>
          match one_option arg (Some next) o with
          | OptExit code => inl code
          | OptDone o true => parse_options rest o
          | OptDone o false => parse_options argv' o
          end
      end
  end.

(** On Windows the server never becomes a daemon. *)
Definition win32_arguments (argv : list string) : list string :=
  if existsb (fun a => String.eqb a "--nodaemon" || String.eqb a "-n") argv then argv else argv ++ ["--nodaemon"].

(** ** The daemon (ngircd_daemon.c) *)

Section Program.
Context (base : Conf) `{System} `{OS} (read_lines : string -> option (list string)) (rand : Z) (depth rounds : nat).

#[local] Notation live := (live base rand depth).

Definition get_ss : Proc PROCESS SERVER_STATE := gets (fun p => lf_server (pr_life p)).

(** Without users and groups, without TLS. *)
Definition NGIRCd_Init (NoDaemon : bool) : Proc PROCESS bool :=
  initialized ← gets pr_initialized;
  if (initialized : bool) then mret true
  else
    s ← get_ss;
    let chroot_dir := o_Chroot (c_options (ss_conf s)) in
    if negb (hd0 chroot_dir =c NUL) && negb (os_chdir chroot_dir) then mret false
    else if negb (hd0 chroot_dir =c NUL) && negb (os_chroot chroot_dir) then mret false
    else
      puts (set_pr_initialized true);;
      if negb NoDaemon then
        if 0 <? os_fork then exit_process 0
        else if os_fork <? 0 then exit_process 1
        else mret true
      else mret true.

(** strftime leaves the buffer undefined when the text does not fit; here it is cut. *)
Definition ngircd_set_start_time : Proc PROCESS unit :=
  puts (fun p =>
    let t := t_now (life_tab (pr_life p)) in
    set_pr_life (in_ngircd (set_ng_start t (strlcpy (strftime_local "%a %b %d %Y at %H:%M:%S (%Z)" t) 64))
      (pr_life p)) p).

(** ** The modules of the server (server_app.c) *)

(** Using a table as one that it is not reads behind its end. *)
Definition config_of (t : option module_table) : Proc PROCESS (option config_api) :=
  match t with
  | None => mret None
  | Some (ConfigTable a) => mret (Some a)
  | Some _ => fun _ => Faulted OutOfBounds
  end.

Definition logging_of (t : option module_table) : Proc PROCESS (option logging_api) :=
  match t with
  | None => mret None
  | Some (LoggingTable a) => mret (Some a)
  | Some _ => fun _ => Faulted OutOfBounds
  end.

Definition transport_of (t : option module_table) : Proc PROCESS (option net_transport_api) :=
  match t with
  | None => mret None
  | Some (TransportTable a) => mret (Some a)
  | Some _ => fun _ => Faulted OutOfBounds
  end.

Definition s_config_api : Proc PROCESS (option config_api) := t ← gets pr_config; config_of t.
Definition s_logging_api : Proc PROCESS (option logging_api) := t ← gets pr_logging; logging_of t.
Definition s_transport_api : Proc PROCESS (option net_transport_api) := t ← gets pr_transport; transport_of t.

Definition server_app_create (modules : option host_module_set) : Proc PROCESS core_status :=
  match modules with
  | None => mret CORE_STATUS_INVALID_ARGUMENT
  | Some m =>
      if negb (is_some (hm_config m)) || negb (is_some (hm_logging m)) || negb (is_some (hm_net_transport m))
      then mret CORE_STATUS_INVALID_ARGUMENT
      else puts (set_pr_modules (hm_config m) (hm_logging m) (hm_net_transport m));; mret CORE_STATUS_OK
  end.

Definition server_app_start : core_status := CORE_STATUS_OK.
Definition server_app_stop : core_status := CORE_STATUS_OK.

Definition server_app_get_bootstrap : Proc PROCESS (core_status * option config_bootstrap) :=
  c ← s_config_api;
  match c with
  | Some a => match ca_get_bootstrap a with
              | Some (st, b) => mret (st, Some b)
              | None => mret (CORE_STATUS_INTERNAL_ERROR, None)
              end
  | None => mret (CORE_STATUS_INTERNAL_ERROR, None)
  end.

(** The variable [bootstrap], if it has been filled in. *)
Definition with_bootstrap (k : config_bootstrap -> Proc PROCESS core_status) : Proc PROCESS core_status :=
  r ← server_app_get_bootstrap;
  match r with
  | (CORE_STATUS_OK, Some b) => k b
  | _ => mret CORE_STATUS_INTERNAL_ERROR
  end.

Definition server_app_init_runtime : Proc PROCESS core_status := ngircd_set_start_time;; mret CORE_STATUS_OK.

Definition server_app_random_init_kern (file : string) : Proc PROCESS core_status :=
  match os_seed file with
  | Some (complete, seed) => puts (set_pr_seed seed);; mret (status_of complete)
  | None => mret CORE_STATUS_INTERNAL_ERROR
  end.

Definition server_app_init_random : Proc PROCESS core_status :=
  st ← server_app_random_init_kern "/dev/urandom";
  if negb (failed st) then mret CORE_STATUS_OK
  else
    st ← server_app_random_init_kern "/dev/random";
    if negb (failed st) then mret CORE_STATUS_OK
    else
      st ← server_app_random_init_kern "/dev/arandom";
      if negb (failed st) then mret CORE_STATUS_OK
      else puts (set_pr_seed os_random);; mret CORE_STATUS_OK.

(** [Conf_Init] of conf.c. *)
Definition init_conf : Proc LIFE unit := fun l =>
  let s := lf_server l in
  let put c := Life (ServerState c (ss_freed s) (set_w_tab (set_t_Conf_Server (c_Server c) (life_tab l)) (ss_world s)))
                 (lf_ngircd l) in
  match Conf_Init (H := base) sys_getaddrinfo os_getgrnam os_getpwnam (t_now (life_tab l)) os_fopen os_opendir
          os_strerror os_gethostname os_gethostbyname (ng_ConfFile (lf_ngircd l)) os_salt (ss_conf s) with
  | Ok _ c => Return tt (put c)
  | Exit c => Exited 1 (put c)
  | Fault f => Faulted f
  end.

Definition server_app_init_preloop (syslog_mode : Z) : Proc PROCESS core_status :=
  in_life init_conf;;
  c ← s_config_api;
  match c with
  | Some a =>
      match ca_init a with
      | Some CORE_STATUS_OK =>
          l ← s_logging_api;
          match l with
          | Some b =>
              match la_init b with
              | Some init => if negb (la_reinit b) then mret CORE_STATUS_INTERNAL_ERROR
                             else if failed (init syslog_mode) then mret CORE_STATUS_INTERNAL_ERROR
                             else mret CORE_STATUS_OK
              | None => mret CORE_STATUS_INTERNAL_ERROR
              end
          | None => mret CORE_STATUS_INTERNAL_ERROR
          end
      | _ => mret CORE_STATUS_INTERNAL_ERROR
      end
  | None => mret CORE_STATUS_INTERNAL_ERROR
  end.

Definition server_app_init_runtime_loop : Proc PROCESS core_status :=
  t ← s_transport_api;
  match t with
  | Some a =>
      match nt_init a, nt_init_connections a with
      | Some init, Some init_connections =>
          st ← in_life (init CONNECTION_POOL);
          if failed st then mret CORE_STATUS_INTERNAL_ERROR
          else if negb Signals_Init then mret CORE_STATUS_INTERNAL_ERROR
          else
            in_life (live (fun C I => Channel_Init));;
            in_life (live (fun C I => Class_Init));;
            in_life (live (fun C I => Client_Init os_gethostname os_gethostbyname));;
            st ← in_life init_connections;
            mret (status_of (negb (failed st)))
      | _, _ => mret CORE_STATUS_INTERNAL_ERROR
      end
  | None => mret CORE_STATUS_INTERNAL_ERROR
  end.

Definition PROTOVER : string := "0210".
Definition IRCPLUSFLAGS : string := "CHLMSX".

(** The buffer is NGIRCd_ProtoID. *)
Definition server_app_build_proto_id (buffer_size : nat) : Proc PROCESS core_status :=
  match buffer_size with
  | O => mret CORE_STATUS_INVALID_ARGUMENT
  | _ =>
      with_bootstrap (fun bootstrap =>
        let buffer := snprintf buffer_size "%s%s %s|%s:%s"
          [FS PROTOVER; FS PROTOIRCPLUS; FS (PACKAGE_NAME (Conf := base)); FS (PACKAGE_VERSION (Conf := base)); FS IRCPLUSFLAGS] in
        let buffer := if negb (cb_oper_can_mode bootstrap =? 0) then strlcat buffer "o" buffer_size else buffer in
        let buffer := strlcat buffer " P" buffer_size in
        puts (fun p => set_pr_life (in_ngircd (set_ng_ProtoID buffer) (pr_life p)) p);;
        mret CORE_STATUS_OK)
  end.

Definition server_app_init_listeners : Proc PROCESS core_status :=
  t ← s_transport_api;
  match t with
  | Some a => match nt_init_listeners a with
              | Some init => in_life init
              | None => mret CORE_STATUS_INTERNAL_ERROR
              end
  | None => mret CORE_STATUS_INTERNAL_ERROR
  end.

Definition init_predefined_channels : Proc LIFE unit := fun l =>
  (preds ← live (fun C I => Channel_InitPredefined
      (with_flags (c_Channels (ss_conf (lf_server l))) (ss_freed (lf_server l))));
   puts (in_server (fun s => ServerState (ss_conf s) (map pd_freed preds) (ss_world s)))) l.

Definition server_app_init_predefined_channels : Proc PROCESS core_status :=
  in_life init_predefined_channels;; mret CORE_STATUS_OK.

(** open(2) with O_CREAT and O_EXCL.  What is written, and whether that succeeds, is
    only logged. *)
Definition server_app_create_pidfile : Proc PROCESS core_status :=
  with_bootstrap (fun bootstrap =>
    match cb_pid_file bootstrap with
    | None | Some "" => mret CORE_STATUS_OK
    | Some pidfile =>
        files ← gets pr_files;
        if bool_decide (pidfile ∈ (files : gset string)) || negb (os_creatable pidfile) then mret CORE_STATUS_INTERNAL_ERROR
        else puts (fun p => set_pr_files ({[pidfile]} ∪ pr_files p) p);; mret CORE_STATUS_OK
    end).

Definition server_app_delete_pidfile : Proc PROCESS core_status :=
  with_bootstrap (fun bootstrap =>
    match cb_pid_file bootstrap with
    | None | Some "" => mret CORE_STATUS_OK
    | Some pidfile => puts (fun p => set_pr_files (pr_files p ∖ {[pidfile]}) p);; mret CORE_STATUS_OK
    end).

Definition server_app_run_loop : Proc PROCESS core_status :=
  t ← s_transport_api;
  match t with
  | Some a => match nt_run a with
              | Some run => in_life run
              | None => mret CORE_STATUS_INTERNAL_ERROR
              end
  | None => mret CORE_STATUS_INTERNAL_ERROR
  end.

(** Calls a function of the table, if it is there. *)
Definition if_there (f : net_transport_api -> option (Proc LIFE core_status)) : Proc PROCESS unit :=
  t ← s_transport_api;
  match t with
  | Some a => match f a with Some m => _ ← in_life m; mret tt | None => mret tt end
  | None => mret tt
  end.

Definition server_app_shutdown_runtime : Proc PROCESS core_status :=
  if_there (fun a => (fun close_all => close_all (-1)) <$> nt_close_all_sockets a);;
  if_there nt_shutdown_listeners;;
  if_there nt_shutdown_connections;;
  in_life (live (fun C I => Client_Exit));;
  in_life (live (fun C I => Channel_Exit));;
  in_life (live (fun C I => Class_Exit));;
  mret CORE_STATUS_OK.

Definition server_app_shutdown_runtime_loop : Proc PROCESS core_status :=
  if_there nt_shutdown;; mret CORE_STATUS_OK.

Definition server_app_init_daemon (nodaemon : bool) : Proc PROCESS core_status :=
  ok ← NGIRCd_Init nodaemon; mret (status_of ok).

(** ** The main program (server/platform/ngircd.c) *)

(** A step that has to succeed. *)
Definition must (m : Proc PROCESS core_status) : Proc PROCESS unit :=
  st ← m; if failed st then exit_process 1 else mret tt.

Definition set_signals (quit restart : bool) : Proc PROCESS unit :=
  puts (fun p =>
    let s := lf_server (pr_life p) in
    let t := set_t_SignalRestart restart (set_t_SignalQuit quit (w_tab (ss_world s))) in
    set_pr_life (in_server (fun s => ServerState (ss_conf s) (ss_freed s) (set_w_tab t (ss_world s))) (pr_life p)) p).

(** From its start to the moment before the main loop. *)
Definition start_life (NoDaemon NoSyslog : bool) : Proc PROCESS unit :=
  set_signals false false;;
  must server_app_init_runtime;;
  must server_app_init_random;;
  must (server_app_init_preloop (if NoSyslog then 0 else 1));;
  must (server_app_init_daemon NoDaemon);;
  must server_app_init_runtime_loop;;
  must (server_app_build_proto_id COMMAND_LEN);;
  must server_app_init_predefined_channels;;
  st ← server_app_init_listeners;
  (if failed st then _ ← server_app_delete_pidfile; exit_process 1 else mret tt);;
  must server_app_create_pidfile.

(** What is only logged when it fails. *)
Definition end_life : Proc PROCESS unit :=
  _ ← server_app_shutdown_runtime;
  _ ← server_app_shutdown_runtime_loop;
  mret tt.

Definition one_life (NoDaemon NoSyslog : bool) : Proc PROCESS unit :=
  start_life NoDaemon NoSyslog;;
  _ ← server_app_run_loop;
  end_life.

(** More lives than were asked for. *)
Definition out_of_lives : Proc PROCESS unit := fun _ => Faulted OutOfFuel.

(** At most [n] lives. *)
Fixpoint lives (n : nat) (NoDaemon NoSyslog : bool) : Proc PROCESS unit :=
  quit ← gets (fun p => t_SignalQuit (life_tab (pr_life p)));
  if (quit : bool) then mret tt
  else match n with
       | O => out_of_lives
       | S n' => one_life NoDaemon NoSyslog;; lives n' NoDaemon NoSyslog
       end.

Definition apply_options (o : options) (g : NGIRCD) : NGIRCD :=
  set_ng_DebugLevel (if op_Debug o then "1" else "")
    (set_ng_Debug (op_Debug o) (set_ng_Passive (op_Passive o) (set_ng_ConfFile (op_ConfFile o) g))).

(** [argv] without the name of the program.  The result is the exit code. *)
Definition main (LoadLibraryA : string -> option dll) (GetLastError : Z) (n : nat) (argv : list string) : Proc PROCESS Z :=
  set_signals false false;;
  puts (fun p => set_pr_life (in_ngircd (Fill_Version (H := base)) (pr_life p)) p);;
  let '(st, module_set, _) := host_load_modules LoadLibraryA GetLastError None (Some 256%nat) "" in
  if failed st then exit_process 1
  else if failed (host_wire_modules (Some module_set)) then exit_process 1
  else
    g ← gets (fun p => lf_ngircd (pr_life p));
    match parse_options argv (MkOptions (ng_ConfFile g) false false false false false) with
    | inl code => exit_process code
    | inr o =>
        puts (fun p => set_pr_life (in_ngircd (apply_options o) (pr_life p)) p);;
        if op_configtest o then
          c ← config_of (hm_config module_set);
          exit_process (default 1 (c ≫= ca_test))
        else
          st ← server_app_create (Some module_set);
          if failed st || failed server_app_start then exit_process 1
          else
            lives n (op_NoDaemon o) (op_NoSyslog o);;
            _ ← server_app_delete_pidfile;
            mret 0
    end.

(** The function [main] of win32_main.c, when Winsock has started. *)
Definition win32_main (LoadLibraryA : string -> option dll) (GetLastError : Z) (n : nat) (argv : list string) : Proc PROCESS Z :=
  main LoadLibraryA GetLastError n (win32_arguments argv).

(** The table of the transport module. *)
Definition NetTransportApi : net_transport_api := {|
  nt_api_major := 1;
  nt_init := Some net_transport_init;
  nt_init_connections := Some (net_transport_init_connections base rand depth);
  nt_init_listeners := Some (net_transport_init_listeners base rand depth);
  nt_shutdown_listeners := Some (net_transport_shutdown_listeners base rand depth);
  nt_run := Some (net_transport_run base read_lines rand depth rounds);
  nt_close_all_sockets := Some (net_transport_close_all_sockets base rand depth);
  nt_shutdown_connections := Some (net_transport_shutdown_connections base rand depth);
  nt_shutdown := Some (net_transport_shutdown base rand depth) |}.

End Program.
