(* ===== verification/LifeSpec.v ===== *)
(** * The life of the server: what it promises

    The start makes consistent tables and a calm network, whatever the configuration
    says; the main loop keeps them.  A server that is restarted does not come
    back, because the file with its process number is still there. *)

From S2P Require Import Prelude CString Match Hash Checks Lists Messages Ipaddr Io IoSpec World ClientCore.
From S2P Require Import ConnFunc ConnSpec ChannelCore State IrcWrite Channel Class Client Conn Servers Parse Reader.
From S2P Require Import Login Predef ConfVars ConfFile ConfSpec System Startup Accept EventLoop.
From S2P Require Import FrameTables Frame FrameState FrameConn FrameHandlers FrameRun FrameCalm FrameAccept FrameLoop LoopSpec.
From S2P Require Import Rehash Process Host HostSpec ServerApp.

(** ** The client of the server *)

Section Init.
Context `{Conf} `{ConnIO}.

(** A world with one client. *)
Definition alone (T : Tables) (N : Net) (a : nat) (c : CLIENT) : World := MkWorld (set_t_clients {[a := c]} T) N.

Lemma wp_upd_alone T N a c f (Q : unit -> World -> Prop) :
  client_wf c -> (forall d, client_wf d -> client_wf (f d)) ->
  (forall d, client_wf d -> Q tt (alone T N a d)) -> wp (upd_client (Some a) f) Q (alone T N a c).
Proof.
  intros Hc Hf HQ. apply (wp_upd_client a c); [apply lookup_insert_eq|].
  replace (set_w_tab _ _) with (alone T N a (f c)); [by apply HQ, Hf|].
  unfold alone, set_w_tab, set_t_clients. cbn. by rewrite insert_singleton_eq.
Qed.

(** The tables after [Client_Init]. *)
Definition with_server (c : CLIENT) (t : Tables) : Tables :=
  set_t_My_Whowas (replicate (Z.to_nat MAX_WHOWAS) no_whowas) (set_t_My_Clients [t_fresh t]
    (set_t_clients {[t_fresh t := c]} (set_t_This_Server (t_fresh t) (set_t_fresh (S (t_fresh t)) t)))).

Lemma Client_Init_ok hostname byname w :
  t_clients (w_tab w) = ∅ ->
  wp (Client_Init hostname byname)
    (fun _ w' => exists c, client_wf c /\ w' = MkWorld (with_server c (w_tab w)) (w_net w)) w.
Proof.
  intros Hw. destruct w as [T N]. cbn [w_tab w_net] in *. unfold Client_Init, New_Client_Struct.
  do 2 apply wp_bind. apply wp_malloc. apply wp_bind, wp_mod_tab, wp_ret. apply wp_bind, wp_mod_tab.
  cbn [w_tab w_net].
  set (a := t_fresh T). set (T1 := set_t_This_Server a (set_t_fresh (S a) T)).
  set (c0 := Client 0 "" 0 CLIENT_UNKNOWN NONE NULL NULL "" None None "" "" "" (-1) (-1) (-1) None "" None 0).
  assert (client_wf c0) as Hwf by (split; cbn; try done; try (by right); auto with fits).
  replace (set_w_tab _ _) with (alone T1 N a c0).
  2: { unfold alone, T1, set_w_tab, set_t_This_Server, set_t_clients, set_t_fresh. cbn. fold a. by rewrite Hw. }
  apply wp_bind, wp_upd_alone; [done|client_fits|]. intros c1 H1.
  apply wp_bind, wp_upd_alone; [done|client_fits|]. intros c2 H2. apply wp_bind.
  assert (forall c, client_wf c ->
    wp (Client_SetID (Some a) Conf_ServerName;; Client_SetInfo (Some a) Conf_ServerInfo;;
        mod_tab (set_t_My_Clients [a]);; mod_tab (set_t_My_Whowas (replicate (Z.to_nat MAX_WHOWAS) no_whowas)))
      (fun _ w' => exists c, client_wf c /\ w' = MkWorld (with_server c T) N) (alone T1 N a c)) as Hrest.
  { intros c Hc. apply wp_bind, wp_upd_alone; [done|by apply set_id_wf|].
    intros c3 H3. apply wp_bind, wp_upd_alone; [done|client_fits|]. intros c4 H4.
    apply wp_bind, wp_mod_tab, wp_mod_tab. by exists c4. }
  destruct Conf_DNS; [|by apply wp_ret, Hrest].
  apply wp_bind, (wp_load_client _ a c2); [apply lookup_insert_eq|].
  destruct (byname _); [|by apply wp_ret, Hrest]. apply wp_upd_alone; [done|client_fits|done].
Qed.

End Init.

(** ** The operations of the process *)

(** What lasts until the process ends. *)
Record later (p p' : PROCESS) : Prop := {
  lt_config : pr_config p' = pr_config p;
  lt_transport : pr_transport p' = pr_transport p;
  lt_initialized : pr_initialized p = true -> pr_initialized p' = true;
  lt_files : pr_files p ⊆ pr_files p' }.

#[export] Instance later_refl : Reflexive later.
Proof. by split. Qed.
#[export] Instance later_trans : Transitive later.
Proof. intros p1 p2 p3 [A1 A2 A3 A4] [B1 B2 B3 B4]. split; [congruence|congruence|auto|set_solver]. Qed.

Lemma Proc_bind_inv {S A B} (m : Proc S A) (k : A -> Proc S B) s b s' :
  (m ≫= k) s = Return b s' -> exists a s1, m s = Return a s1 /\ k a s1 = Return b s'.
Proof. unfold mbind, Proc_bind. destruct (m s) as [a s1| | |]; [|done..]. intros E. by exists a, s1. Qed.

Class lasting {A} (m : Proc PROCESS A) : Prop := lasting_run : forall p a p', m p = Return a p' -> later p p'.

#[export] Instance lasting_bind {A B} (m : Proc PROCESS A) (k : A -> Proc PROCESS B) :
  lasting m -> (forall a, lasting (k a)) -> lasting (m ≫= k).
Proof.
  intros Hm Hk p b p' (a & p1 & E1 & E2)%Proc_bind_inv. transitivity p1; [by eapply Hm|by eapply Hk].
Qed.
#[export] Instance lasting_ret {A} (a : A) : lasting (mret a).
Proof. by intros p b p' [= _ ->]. Qed.
#[export] Instance lasting_exit {A} c : lasting (exit_process c : Proc PROCESS A).
Proof. by intros p b p'. Qed.
#[export] Instance lasting_gets {A} (f : PROCESS -> A) : lasting (gets f).
Proof. by intros p b p' [= _ ->]. Qed.
#[export] Instance lasting_in_life {A} (m : Proc LIFE A) : lasting (in_life m).
Proof. intros p a p'. unfold in_life. destruct (m _); [|done..]. by intros [= <- <-]. Qed.
Lemma lasting_puts f : (forall p, later p (f p)) -> lasting (puts f).
Proof. by intros Hf p [] p' [= <-]. Qed.
Lemma lasting_faults {A} f : lasting ((fun _ => Faulted f) : Proc PROCESS A).
Proof. by intros p a p'. Qed.

(** The table of the transport module, if it is one, is that of this program. *)
Definition our_transport (api : net_transport_api) (p : PROCESS) : Prop :=
  forall a, pr_transport p = Some (TransportTable a) -> a = api.

Lemma our_transport_later api p p' : later p p' -> our_transport api p -> our_transport api p'.
Proof. intros Hl Hp a Ha. apply Hp. by rewrite <- (lt_transport _ _ Hl). Qed.

(** A process with this table that is past NGIRCd_Init ends in such an operation only with
    the code 1, and does not stay there. *)
Definition settled (api : net_transport_api) (p : PROCESS) : Prop := pr_initialized p = true /\ our_transport api p.

Class quits (api : net_transport_api) {A} (m : Proc PROCESS A) : Prop := quits_run : forall p, settled api p ->
  match m p with Exited c _ => c = 1 | Running _ => False | _ => True end.

#[export] Instance quits_bind api {A B} (m : Proc PROCESS A) (k : A -> Proc PROCESS B) :
  quits api m -> lasting m -> (forall a, quits api (k a)) -> quits api (m ≫= k).
Proof.
  intros Hm Hl Hk p Hp. specialize (Hm p Hp). unfold mbind, Proc_bind. destruct (m p) as [a p1| | |] eqn:E; [|done..].
  apply Hk. pose proof (Hl _ _ _ E) as Hlater. destruct Hp as [Hi Ht].
  split; [by apply (lt_initialized _ _ Hlater)|by apply (our_transport_later _ p)].
Qed.
#[export] Instance quits_ret api {A} (a : A) : quits api (mret a).
Proof. by intros p Hp. Qed.
#[export] Instance quits_exit api {A} : quits api (exit_process 1 : Proc PROCESS A).
Proof. by intros p Hp. Qed.
#[export] Instance quits_gets api {A} (f : PROCESS -> A) : quits api (gets f).
Proof. by intros p Hp. Qed.
#[export] Instance quits_puts api f : quits api (puts f).
Proof. by intros p Hp. Qed.

(** Operations on the server that return or fault. *)
Class returns {A} (m : Proc LIFE A) : Prop := returns_run : forall l,
  match m l with Exited c _ => c = 1 | Running _ => False | _ => True end.

#[export] Instance returns_bind {A B} (m : Proc LIFE A) (k : A -> Proc LIFE B) :
  returns m -> (forall a, returns (k a)) -> returns (m ≫= k).
Proof.
  intros Hm Hk l. specialize (Hm l). unfold mbind, Proc_bind. destruct (m l) as [a l1| | |]; [|done..]. apply Hk.
Qed.
#[export] Instance returns_ret {A} (a : A) : returns (mret a).
Proof. by intros l. Qed.
#[export] Instance returns_live base `{System} rand depth {A} (m : forall C : Conf, ConnIO -> M A) :
  returns (live base rand depth m).
Proof. intros l. unfold live. by destruct (m _ _ _). Qed.
#[export] Instance quits_in_life api {A} (m : Proc LIFE A) : returns m -> quits api (in_life m).
Proof. intros Hm p Hp. specialize (Hm (pr_life p)). unfold in_life. by destruct (m _). Qed.

Lemma exit_lasting {A B} (m : Proc PROCESS A) : lasting (_ ← m; exit_process 1 : Proc PROCESS B).
Proof. intros p a p' (b & p1 & _ & E)%Proc_bind_inv. done. Qed.

Lemma with_bootstrap_lasting k : (forall b, lasting (k b)) -> lasting (with_bootstrap k).
Proof.
  intros Hk. unfold with_bootstrap, server_app_get_bootstrap, s_config_api, config_of.
  repeat (apply lasting_bind; [|intros []] || apply _ || apply Hk || apply lasting_faults || case_match).
Qed.

Ltac lasting_step :=
  lazymatch goal with
  | |- forall _, _ => intro
  | |- lasting (mbind _ _) => first [apply exit_lasting|apply lasting_bind]
  | |- lasting (puts _) => apply lasting_puts; intros []; split; cbn; set_solver
  | |- lasting (fun _ => Faulted _) => apply lasting_faults
  | |- lasting (match ?x with _ => _ end) => destruct x
  | |- lasting (with_bootstrap _) => apply with_bootstrap_lasting
  | |- lasting _ => apply _
  end.
Ltac lasts := repeat lasting_step.

Ltac quits_step :=
  lazymatch goal with
  | |- forall _, _ => intro
  | |- lasting _ => lasts
  | |- quits _ (mbind _ _) => apply quits_bind
  | |- quits _ (match ?x with _ => _ end) => destruct x
  | |- quits _ _ => apply _
  end.
Ltac quit_now := repeat quits_step.

Section Program.
Context (base : Conf) `{System} `{OS} (read_lines : string -> option (list string)) (rand : Z) (depth rounds : nat).

#[local] Notation api := (NetTransportApi base read_lines rand depth rounds).
#[local] Notation life_conf := (life_conf base).

#[export] Instance NGIRCd_Init_lasting NoDaemon : lasting (NGIRCd_Init NoDaemon).
Proof. unfold NGIRCd_Init, get_ss. lasts. Qed.
#[export] Instance s_config_api_lasting : lasting s_config_api.
Proof. unfold s_config_api, config_of. lasts. Qed.
#[export] Instance s_logging_api_lasting : lasting s_logging_api.
Proof. unfold s_logging_api, logging_of. lasts. Qed.
#[export] Instance s_transport_api_lasting : lasting s_transport_api.
Proof. unfold s_transport_api, transport_of. lasts. Qed.
#[export] Instance init_random_lasting : lasting server_app_init_random.
Proof. unfold server_app_init_random, server_app_random_init_kern. lasts. Qed.
#[export] Instance init_runtime_lasting : lasting (server_app_init_runtime base).
Proof. unfold server_app_init_runtime, ngircd_set_start_time. lasts. Qed.
#[export] Instance init_preloop_lasting syslog : lasting (server_app_init_preloop base syslog).
Proof. unfold server_app_init_preloop. lasts. Qed.
#[export] Instance init_runtime_loop_lasting : lasting (server_app_init_runtime_loop base rand depth).
Proof. unfold server_app_init_runtime_loop. lasts. Qed.
#[export] Instance build_proto_id_lasting size : lasting (server_app_build_proto_id base size).
Proof. unfold server_app_build_proto_id. lasts. Qed.
#[export] Instance init_listeners_lasting : lasting server_app_init_listeners.
Proof. unfold server_app_init_listeners. lasts. Qed.
#[export] Instance create_pidfile_lasting : lasting server_app_create_pidfile.
Proof. unfold server_app_create_pidfile. lasts. Qed.
#[export] Instance run_loop_lasting : lasting server_app_run_loop.
Proof. unfold server_app_run_loop. lasts. Qed.
#[export] Instance if_there_lasting f : lasting (if_there f).
Proof. unfold if_there. lasts. Qed.
#[export] Instance must_lasting m : lasting m -> lasting (must m).
Proof. intros Hm. unfold must. lasts. Qed.
#[export] Instance set_signals_lasting quit restart : lasting (set_signals quit restart).
Proof. unfold set_signals. lasts. Qed.
#[export] Instance init_daemon_lasting nd : lasting (server_app_init_daemon nd).
Proof. unfold server_app_init_daemon. lasts. Qed.
#[export] Instance end_life_lasting : lasting (end_life base rand depth).
Proof. unfold end_life, server_app_shutdown_runtime, server_app_shutdown_runtime_loop. lasts. Qed.

Lemma quits_transport {A} (k : option net_transport_api -> Proc PROCESS A) :
  quits api (k (Some api)) -> quits api (k None) -> quits api (s_transport_api ≫= k).
Proof.
  intros Hk Hn p [Hi Ht]. unfold s_transport_api, transport_of, mbind, Proc_bind, gets.
  destruct (pr_transport p) as [[| |a|]|] eqn:E; try done; [|by apply (Hn p)]. rewrite (Ht a E). by apply (Hk p).
Qed.
Lemma quits_fault {A} f : quits api ((fun _ => Faulted f) : Proc PROCESS A).
Proof. by intros p Hp. Qed.
#[export] Instance s_config_quits : quits api s_config_api.
Proof. unfold s_config_api, config_of. quit_now; apply quits_fault. Qed.
#[export] Instance s_logging_quits : quits api s_logging_api.
Proof. unfold s_logging_api, logging_of. quit_now; apply quits_fault. Qed.
Lemma with_bootstrap_quits k : (forall b, quits api (k b)) -> quits api (with_bootstrap k).
Proof. intros Hk. unfold with_bootstrap, server_app_get_bootstrap. quit_now; apply Hk. Qed.
Lemma must_quits m : quits api m -> lasting m -> quits api (must m).
Proof. intros Hm Hl. unfold must. quit_now. Qed.

#[export] Instance init_conf_returns : returns (init_conf base).
Proof. intros l. unfold init_conf. cbv zeta. by destruct (Conf_Init _ _ _ _ _ _ _ _ _ _ _ _). Qed.
#[export] Instance predefined_returns : returns (init_predefined_channels base rand depth).
Proof.
  intros l. unfold init_predefined_channels, mbind, Proc_bind. pose proof (returns_live base rand depth
    (fun C I => Channel_InitPredefined (with_flags (c_Channels (ss_conf (lf_server l))) (ss_freed (lf_server l)))) l) as Hl.
  by destruct (live _ _ _ _ _).
Qed.
#[export] Instance init_returns n : returns (net_transport_init n).
Proof. intros l. unfold net_transport_init. by destruct (io_library_init _ _ _). Qed.
#[export] Instance init_connections_returns : returns (net_transport_init_connections base rand depth).
Proof. apply _. Qed.
#[export] Instance init_listeners_returns : returns (net_transport_init_listeners base rand depth).
Proof. apply _. Qed.

#[export] Instance init_runtime_quits : quits api (server_app_init_runtime base).
Proof. unfold server_app_init_runtime, ngircd_set_start_time. quit_now. Qed.
#[export] Instance init_random_quits : quits api server_app_init_random.
Proof. unfold server_app_init_random, server_app_random_init_kern. quit_now. Qed.
#[export] Instance init_preloop_quits syslog : quits api (server_app_init_preloop base syslog).
Proof. unfold server_app_init_preloop. quit_now. Qed.
#[export] Instance init_daemon_quits nd : quits api (server_app_init_daemon nd).
Proof.
  intros p [Hi Ht]. unfold server_app_init_daemon, NGIRCd_Init, mbind, Proc_bind, gets. by rewrite Hi.
Qed.
#[export] Instance init_runtime_loop_quits : quits api (server_app_init_runtime_loop base rand depth).
Proof. unfold server_app_init_runtime_loop. apply quits_transport; [cbn [NetTransportApi nt_init nt_init_connections]|]; quit_now. Qed.
#[export] Instance build_proto_id_quits size : quits api (server_app_build_proto_id base size).
Proof. unfold server_app_build_proto_id. destruct size; [apply _|]. apply with_bootstrap_quits. quit_now. Qed.
#[export] Instance init_predefined_quits : quits api (server_app_init_predefined_channels base rand depth).
Proof. unfold server_app_init_predefined_channels. quit_now. Qed.
#[export] Instance init_listeners_quits : quits api server_app_init_listeners.
Proof. unfold server_app_init_listeners. apply quits_transport; [cbn [NetTransportApi nt_init_listeners]|]; quit_now. Qed.
#[export] Instance create_pidfile_quits : quits api server_app_create_pidfile.
Proof. unfold server_app_create_pidfile. apply with_bootstrap_quits. quit_now. Qed.
(** An operation behind which the process ends. *)
Lemma quits_then_exit {A B} (m : Proc PROCESS A) : quits api m -> quits api (_ ← m; exit_process 1 : Proc PROCESS B).
Proof. intros Hm p Hp. specialize (Hm p Hp). unfold mbind, Proc_bind. by destruct (m p). Qed.

Lemma delete_pidfile_quits : quits api server_app_delete_pidfile.
Proof.
  unfold server_app_delete_pidfile. apply with_bootstrap_quits. intros b. repeat case_match; try apply _; by intros p Hp.
Qed.

(** In a process that is settled the start of a life ends well, or the process does. *)
Lemma start_quits NoDaemon NoSyslog : quits api (start_life base rand depth NoDaemon NoSyslog).
Proof.
  pose proof (quits_then_exit (B := unit) _ delete_pidfile_quits).
  unfold start_life, must. repeat (eassumption || quits_step).
Qed.

Lemma if_there_quits f m : f api = Some m -> returns m -> quits api (if_there f).
Proof. intros Hf Hm. unfold if_there. apply quits_transport; [rewrite Hf|]; quit_now. Qed.

Lemma end_quits : quits api (end_life base rand depth).
Proof.
  unfold end_life, server_app_shutdown_runtime, server_app_shutdown_runtime_loop.
  repeat ((eapply if_there_quits; [reflexivity|apply _]) || quits_step).
Qed.

(** ** Restarting *)

(** The file for the process number that the configuration module names. *)
Definition pid_file (p : PROCESS) : option string :=
  match pr_config p with
  | Some (ConfigTable a) =>
      match ca_get_bootstrap a with
      | Some (CORE_STATUS_OK, b) =>
          match cb_pid_file b with
          | Some "" => None
          | f => f
          end
      | _ => None
      end
  | _ => None
  end.

Lemma later_pid_file p p' : later p p' -> pid_file p' = pid_file p.
Proof. intros Hl. unfold pid_file. by rewrite (lt_config _ _ Hl). Qed.

(** What the configuration module answers, if there is a file. *)
Lemma with_bootstrap_file p f :
  pid_file p = Some f -> f <> "" /\ exists b, cb_pid_file b = Some f /\ forall k, with_bootstrap k p = k b p.
Proof.
  unfold pid_file, with_bootstrap, server_app_get_bootstrap, s_config_api, mbind, Proc_bind, gets. intros Hf.
  destruct (pr_config p) as [[|a| |]|] eqn:Ec; try done. cbn.
  destruct (ca_get_bootstrap a) as [[[] b]|]; try done. destruct (cb_pid_file b) as [[|c s]|] eqn:Eb; try done.
  injection Hf as <-. split; [done|]. by exists b.
Qed.

Lemma create_pidfile_exists p f :
  pid_file p = Some f -> f ∈ pr_files p -> server_app_create_pidfile p = Return CORE_STATUS_INTERNAL_ERROR p.
Proof.
  intros Hf Hin. unfold server_app_create_pidfile. destruct (with_bootstrap_file p f Hf) as (Hne & b & Hb & Hk). rewrite Hk.
  rewrite Hb. destruct f as [|c s]; [done|]. unfold mbind, Proc_bind, gets. by rewrite bool_decide_true.
Qed.

Lemma create_pidfile_done p p' f :
  pid_file p = Some f -> server_app_create_pidfile p = Return CORE_STATUS_OK p' -> f ∈ pr_files p'.
Proof.
  intros Hf. unfold server_app_create_pidfile. destruct (with_bootstrap_file p f Hf) as (Hne & b & Hb & Hk). rewrite Hk.
  rewrite Hb. destruct f as [|c s]; [done|]. unfold mbind, Proc_bind, gets. destruct (_ || _); [done|].
  intros [= <-]. cbn. set_solver.
Qed.

Lemma must_inv m p p' : must m p = Return tt p' -> m p = Return CORE_STATUS_OK p'.
Proof.
  unfold must, mbind, Proc_bind, failed. destruct (m p) as [st p1| | |]; [|done..].
  destruct (bool_decide_reflect (st = CORE_STATUS_OK)) as [->|]; [|done]. by intros [= ->].
Qed.

Lemma init_daemon_done nd p p' : server_app_init_daemon nd p = Return CORE_STATUS_OK p' -> pr_initialized p' = true.
Proof.
  unfold server_app_init_daemon, NGIRCd_Init, get_ss, mbind, Proc_bind, gets, puts.
  destruct (pr_initialized p) eqn:Ei; [by intros [= <-]|].
  repeat (destruct (_ && _); [done|]). destruct (negb nd); [|by intros [= <-]].
  destruct (0 <? _); [done|]. destruct (_ <? 0); [done|]. by intros [= <-].
Qed.

Ltac follow_later :=
  repeat match goal with H : later ?p ?q |- later ?p _ => first [exact H|transitivity q; [exact H|clear H]] end.

(** What the start of a life leaves behind. *)
Lemma start_returns NoDaemon NoSyslog p p' :
  start_life base rand depth NoDaemon NoSyslog p = Return tt p' ->
  later p p' /\ pr_initialized p' = true /\
  forall f, pid_file p = Some f -> f ∉ pr_files p /\ f ∈ pr_files p'.
Proof.
  intros E. unfold start_life in E.
  apply Proc_bind_inv in E as ([] & p1 & E1 & E). apply set_signals_lasting in E1.
  apply Proc_bind_inv in E as ([] & p2 & E2 & E). apply must_lasting in E2; [|apply _].
  apply Proc_bind_inv in E as ([] & p3 & E3 & E). apply must_lasting in E3; [|apply _].
  apply Proc_bind_inv in E as ([] & p4 & E4 & E). apply must_lasting in E4; [|apply _].
  apply Proc_bind_inv in E as ([] & p5 & E5 & E). pose proof (init_daemon_done _ _ _ (must_inv _ _ _ E5)) as Hi.
  apply must_lasting in E5; [|apply _].
  apply Proc_bind_inv in E as ([] & p6 & E6 & E). apply must_lasting in E6; [|apply _].
  apply Proc_bind_inv in E as ([] & p7 & E7 & E). apply must_lasting in E7; [|apply _].
  apply Proc_bind_inv in E as ([] & p8 & E8 & E).
  assert (later p7 p8) as H8 by (revert E8; apply must_lasting; unfold server_app_init_predefined_channels; lasts).
  apply Proc_bind_inv in E as (st & p9 & E9 & E). apply init_listeners_lasting in E9.
  apply Proc_bind_inv in E as ([] & p10 & E10 & E).
  assert (later p9 p10) as H10.
  { destruct (failed st); [by apply exit_lasting in E10|by injection E10 as ->]. }
  apply must_inv in E. pose proof (create_pidfile_lasting _ _ _ E) as H11.
  assert (later p p10) as Hl by follow_later.
  assert (later p5 p') as Hl5 by follow_later.
  split; [by transitivity p10|]. split; [by apply (lt_initialized _ _ Hl5)|]. intros f Hf.
  rewrite <- (later_pid_file _ _ Hl) in Hf. split; [|by eapply create_pidfile_done].
  intros Hin%(lt_files _ _ Hl). by rewrite (create_pidfile_exists p10 f) in E.
Qed.

(** A life that has ended. *)
Lemma life_returns NoDaemon NoSyslog p p' :
  one_life base rand depth NoDaemon NoSyslog p = Return tt p' ->
  later p p' /\ pr_initialized p' = true /\ forall f, pid_file p = Some f -> f ∈ pr_files p'.
Proof.
  intros ([] & p1 & (Hl & Hi & Hf)%start_returns & E)%Proc_bind_inv.
  apply Proc_bind_inv in E as (st & p2 & E2%run_loop_lasting & E%end_life_lasting).
  assert (later p1 p') as Hl' by (by transitivity p2).
  split; [by transitivity p1|]. split; [by apply (lt_initialized _ _ Hl')|].
  intros f Hpid. apply (lt_files _ _ Hl'). by apply Hf.
Qed.

(** The next life does not begin. *)
Lemma no_next_life NoDaemon NoSyslog p f n :
  settled api p -> pid_file p = Some f -> f ∈ pr_files p -> t_SignalQuit (life_tab (pr_life p)) = false ->
  match lives base rand depth n NoDaemon NoSyslog p with
  | Exited code _ => code = 1
  | Faulted _ => True
  | Return _ _ | Running _ => False
  end.
Proof.
  intros Hp Hf Hin Hq. destruct n as [|n]; cbn [lives]; unfold mbind at 1, Proc_bind at 1, gets; rewrite Hq; [done|].
  unfold one_life, mbind, Proc_bind. pose proof (start_quits NoDaemon NoSyslog p Hp) as Hs.
  destruct (start_life _ _ _ _ _ p) as [[] p'|code p'|p'|fl] eqn:E; [|done..].
  apply start_returns in E as (_ & _ & Hc). by destruct (Hc f Hf).
Qed.

(** C25: restarting ends the server.  When the main loop has stopped because of RESTART
    and everything is shut down, the program starts the next life; but the file with
    the process number, which the configuration module names, is removed only at the end of the
    program and cannot be created again.  So the next life never reaches its main loop:
    the process exits with the code 1, if it does not crash before. *)
Theorem restart_ends NoDaemon NoSyslog p p' f n :
  our_transport api p -> pid_file p = Some f ->
  one_life base rand depth NoDaemon NoSyslog p = Return tt p' ->
  t_SignalQuit (life_tab (pr_life p')) = false ->
  match lives base rand depth (S n) NoDaemon NoSyslog p' with
  | Exited code _ => code = 1
  | Faulted _ => True
  | Return _ _ | Running _ => False
  end.
Proof.
  intros Ht Hf (Hl & Hi & Hfile)%life_returns Hq.
  apply no_next_life with f; [|by rewrite (later_pid_file _ _ Hl)|by apply Hfile|done].
  split; [done|]. by apply (our_transport_later _ p).
Qed.

(** ** The first life *)

(** [m] faults, ends the process, or returns so that [Q] holds. *)
Definition ends {S A} (m : Proc S A) (Q : A -> S -> Prop) (s : S) : Prop :=
  match m s with Return a s' => Q a s' | Running _ => False | _ => True end.

Lemma ends_bind {S A B} (m : Proc S A) (k : A -> Proc S B) Q s :
  ends m (fun a => ends (k a) Q) s -> ends (m ≫= k) Q s.
Proof. unfold ends, mbind, Proc_bind. by destruct (m s). Qed.
Lemma ends_mono {S A} (m : Proc S A) (P Q : A -> S -> Prop) s :
  ends m P s -> (forall a s', P a s' -> Q a s') -> ends m Q s.
Proof. unfold ends. destruct (m s); auto. Qed.
Lemma ends_ret {S A} (a : A) (Q : A -> S -> Prop) s : Q a s -> ends (mret a) Q s.
Proof. done. Qed.
Lemma ends_in_life {A} (m : Proc LIFE A) Q p :
  ends m (fun a l => Q a (set_pr_life l p)) (pr_life p) -> ends (in_life m) Q p.
Proof. unfold ends, in_life. by destruct (m _). Qed.
Lemma ends_must m Q p : ends m (fun st p' => st = CORE_STATUS_OK -> Q tt p') p -> ends (must m) Q p.
Proof.
  intros Hm. apply ends_bind. eapply ends_mono; [exact Hm|]. intros st p' Hst. unfold failed.
  destruct (bool_decide_reflect (st = CORE_STATUS_OK)); [by apply Hst|done].
Qed.
Lemma ends_live {A} (m : forall C : Conf, ConnIO -> M A) Q l :
  (forall a w, m (life_conf l) (@conn_io (life_conf l) rand depth) (life_world l) = Done a w ->
     Q a (in_server (put_world w) l)) -> ends (live base rand depth m) Q l.
Proof. unfold ends, live. intros HQ. destruct (m _ _ _); [by apply HQ|done]. Qed.

(** Before the modules are initialised. *)
Record unborn (l : LIFE) : Prop := {
  ub_io : n_io (life_net l) = MkIO [] ∅ ∅ 0 false;
  ub_count : n_NumConnections (life_net l) = 0;
  ub_clients : t_clients (life_tab l) = ∅;
  ub_channels : t_channels (life_tab l) = ∅;
  ub_last : -1 <= t_Last_Whowas (life_tab l) < MAX_WHOWAS }.

Definition new_life (l : LIFE) : Prop := unborn l /\ static_ok (ss_conf (lf_server l)).

(** The configuration has been read. *)
Definition configured (l : LIFE) : Prop :=
  unborn l /\ length (t_Conf_Server (life_tab l)) = Z.to_nat MAX_SERVERS.

(** The modules are initialised. *)
Definition born (l : LIFE) : Prop := calm (H := life_conf l) (life_net l) /\ tables_ok (life_tab l).

Lemma calm_conf (C D : Conf) n :
  Conf_MaxConnections (Conf := D) = Conf_MaxConnections (Conf := C) ->
  Conf_MaxConnectionsIP (Conf := D) = Conf_MaxConnectionsIP (Conf := C) -> calm (H := C) n -> calm (H := D) n.
Proof. intros E1 E2 [H1 H2 H3 H4]. split; [done..| |]; rewrite ?E1, ?E2; done. Qed.

(** An operation that keeps both invariants. *)
Lemma live_born {A} (m : forall C : Conf, ConnIO -> M A) l :
  (forall C (I : ConnIO), ConnIOKeeps I -> stable (m C I)) -> (forall C (I : ConnIO), ConnIOKeeps I -> sound (m C I)) ->
  born l -> ends (live base rand depth m) (fun _ l' => born l') l.
Proof.
  intros Hst Hs [Hc Ht]. apply ends_live. intros a w E. split.
  - pose proof (Hst (life_conf l) (@conn_io (life_conf l) rand depth) _ (life_world l) Hc) as Hw. unfold wlp in Hw.
    rewrite E in Hw. by apply (calm_conf (life_conf l)), Hw.
  - by apply (Hs (life_conf l) (@conn_io (life_conf l) rand depth) _ (life_world l) a w E).
Qed.

(** *** The initialisation of the modules *)

Lemma with_server_ok c t :
  client_wf c -> t_channels t = ∅ -> t_My_Channels t = [] -> t_My_Cl2Chan t = [] ->
  t_My_Classes t = replicate CLASS_COUNT [] -> -1 <= t_Last_Whowas t < MAX_WHOWAS ->
  length (t_Conf_Server t) = Z.to_nat MAX_SERVERS -> tables_ok (with_server c t).
Proof.
  intros Hc Hch Hl Hm Hcl Hw Hs. unfold with_server.
  split; cbn [set_t_My_Whowas set_t_My_Clients set_t_clients set_t_This_Server set_t_fresh t_clients t_My_Clients t_channels
    t_My_Channels t_My_Cl2Chan t_fresh t_My_Classes t_My_Whowas t_Last_Whowas t_Conf_Server]; rewrite ?Hch, ?Hl, ?Hm, ?Hcl.
  - intros a d [<- <-]%lookup_singleton_Some. split; [done|lia].
  - intros a d. by rewrite lookup_empty.
  - by apply NoDup_singleton.
  - intros a ->%list_elem_of_singleton. rewrite lookup_singleton_eq. by eexists.
  - by apply list.NoDup_nil.
  - by intros a ?%elem_of_nil.
  - by intros m ?%elem_of_nil.
  - by apply list.NoDup_nil.
  - intros a b x y Ha. cbn in Ha. rewrite Hl in Ha. by apply elem_of_nil in Ha.
  - apply length_replicate.
  - by intros h [-> _]%elem_of_replicate.
  - apply length_replicate.
  - intros x [-> _]%elem_of_replicate. split_and!; by apply Nat.ltb_lt.
  - done.
  - done.
Qed.

(** The tables between the first modules and the client of the server. *)
Record cleared (t : Tables) : Prop := {
  cr_clients : t_clients t = ∅;
  cr_channels : t_channels t = ∅;
  cr_My_Channels : t_My_Channels t = [];
  cr_members : t_My_Cl2Chan t = [];
  cr_classes : t_My_Classes t = replicate CLASS_COUNT [];
  cr_last : -1 <= t_Last_Whowas t < MAX_WHOWAS;
  cr_servers : length (t_Conf_Server t) = Z.to_nat MAX_SERVERS }.

Lemma Client_Init_born l :
  cleared (life_tab l) -> fresh_start (life_net l) ->
  ends (live base rand depth (fun C I => Client_Init os_gethostname os_gethostbyname))
    (fun _ l' => tables_ok (life_tab l') /\ fresh_start (life_net l')) l.
Proof.
  intros [] Hn. apply ends_live. intros [] w E.
  pose proof (Client_Init_ok (H := life_conf l) os_gethostname os_gethostbyname
    (life_world l) cr_clients0) as Hw.
  unfold wp in Hw. rewrite E in Hw. destruct Hw as (c & Hc & ->). split; [|exact Hn]. by apply with_server_ok.
Qed.

Lemma Conn_Init_born l :
  tables_ok (life_tab l) -> fresh_start (life_net l) ->
  ends (live base rand depth (fun C I => Conn_Init)) (fun _ l' => born l') l.
Proof.
  intros Ht Hn. apply ends_live. intros [] w E. split.
  - pose proof (Conn_Init_calm (H := life_conf l) (life_world l) Hn) as Hw.
    unfold wlp in Hw. rewrite E in Hw. by apply (calm_conf (life_conf l)), Hw.
  - by apply (Conn_Init_sound (life_world l) tt w E).
Qed.

Lemma ends_transport {A} (k : option net_transport_api -> Proc PROCESS A) Q p :
  our_transport api p -> ends (k (Some api)) Q p -> ends (k None) Q p -> ends (s_transport_api ≫= k) Q p.
Proof.
  intros Hp H1 H2. unfold s_transport_api, transport_of. apply ends_bind, ends_bind. unfold ends at 1, gets.
  destruct (pr_transport p) as [[| |a|]|] eqn:E; try done. by rewrite (Hp a E).
Qed.

Lemma net_transport_init_fresh Q l :
  unborn l -> (forall l', fresh_start (life_net l') -> life_tab l' = life_tab l -> Q CORE_STATUS_OK l') ->
  ends (net_transport_init CONNECTION_POOL) Q l.
Proof.
  intros [Hio Hcount _ _ _] HQ. unfold ends, net_transport_init. rewrite Hio. apply HQ; [|done]. split; [|exact Hcount].
  apply (nothing_registered (S (Z.to_nat CONNECTION_POOL))).
Qed.

Lemma init_runtime_loop_born p :
  our_transport api p -> configured (pr_life p) ->
  ends (server_app_init_runtime_loop base rand depth) (fun st p' => st = CORE_STATUS_OK -> born (pr_life p')) p.
Proof.
  intros Hp [Hu Hlen]. unfold server_app_init_runtime_loop. apply ends_transport; [done| |by apply ends_ret].
  cbn [NetTransportApi nt_init nt_init_connections].
  apply ends_bind, ends_in_life, net_transport_init_fresh; [done|]. intros l Hn Ht. cbn.
  apply ends_bind, ends_in_life, ends_live. intros [] w1 [= <-].
  apply ends_bind, ends_in_life, ends_live. intros [] w2 [= <-].
  apply ends_bind, ends_in_life. eapply ends_mono.
  { apply Client_Init_born; [|exact Hn]. destruct Hu as [_ _ H1 H2 H3]. rewrite <- Ht in H1, H2, H3, Hlen. by split. }
  intros [] l3 [Ht3 Hn3]. apply ends_bind, ends_in_life, ends_bind.
  eapply ends_mono; [by apply Conn_Init_born|]. intros [] l4 H4. apply ends_ret. intros _. exact H4.
Qed.

(** *** From the start to the main loop *)

(** Operations that leave the server alone. *)
Class still {A} (m : Proc PROCESS A) : Prop :=
  still_run : forall p, ends m (fun _ p' => lf_server (pr_life p') = lf_server (pr_life p)) p.

#[local] Instance still_bind {A B} (m : Proc PROCESS A) (k : A -> Proc PROCESS B) :
  still m -> (forall a, still (k a)) -> still (m ≫= k).
Proof.
  intros Hm Hk p. apply ends_bind. apply (ends_mono _ _ _ _ (Hm p)). intros a p1 <-. apply Hk.
Qed.
#[local] Instance still_ret {A} (a : A) : still (mret a).
Proof. intros p. by apply ends_ret. Qed.
#[local] Instance still_exit {A} c : still (exit_process c : Proc PROCESS A).
Proof. by intros p. Qed.
#[local] Instance still_gets {A} (f : PROCESS -> A) : still (gets f).
Proof. by intros p. Qed.
Lemma still_puts f : (forall p, lf_server (pr_life (f p)) = lf_server (pr_life p)) -> still (puts f).
Proof. intros Hf p. apply Hf. Qed.
Lemma still_fault {A} f : still ((fun _ => Faulted f) : Proc PROCESS A).
Proof. by intros p. Qed.

Ltac still_step :=
  lazymatch goal with
  | |- forall _, _ => intro
  | |- still (mbind _ _) => apply still_bind
  | |- still (puts _) => apply still_puts; by intros []
  | |- still (fun _ => Faulted _) => apply still_fault
  | |- still (match ?x with _ => _ end) => destruct x
  | |- still _ => apply _
  end.
Ltac stills := repeat still_step.

#[local] Instance s_config_still : still s_config_api.
Proof. unfold s_config_api, config_of. stills. Qed.
#[local] Instance s_logging_still : still s_logging_api.
Proof. unfold s_logging_api, logging_of. stills. Qed.
Lemma with_bootstrap_still k : (forall b, still (k b)) -> still (with_bootstrap k).
Proof. intros Hk. unfold with_bootstrap, server_app_get_bootstrap. stills; apply Hk. Qed.
#[local] Instance init_runtime_still : still (server_app_init_runtime base).
Proof. unfold server_app_init_runtime, ngircd_set_start_time. stills. Qed.
#[local] Instance init_random_still : still server_app_init_random.
Proof. unfold server_app_init_random, server_app_random_init_kern. stills. Qed.
#[local] Instance init_daemon_still nd : still (server_app_init_daemon nd).
Proof. unfold server_app_init_daemon, NGIRCd_Init, get_ss. stills. Qed.
#[local] Instance build_proto_id_still size : still (server_app_build_proto_id base size).
Proof. unfold server_app_build_proto_id. destruct size; [apply _|]. apply with_bootstrap_still. stills. Qed.
#[local] Instance create_pidfile_still : still server_app_create_pidfile.
Proof. unfold server_app_create_pidfile. apply with_bootstrap_still. stills. Qed.

(** Properties of the server that survive such an operation. *)
Lemma ends_still (P : LIFE -> Prop) {A} (m : Proc PROCESS A) p :
  still m -> (forall l l', lf_server l' = lf_server l -> P l -> P l') -> P (pr_life p) -> ends m (fun _ p' => P (pr_life p')) p.
Proof. intros Hm HP Hp. apply (ends_mono _ _ _ _ (Hm p)). intros a p' E. by apply (HP (pr_life p)). Qed.

Lemma new_life_server l l' : lf_server l' = lf_server l -> new_life l -> new_life l'.
Proof. intros E [[] Hs]. unfold new_life. rewrite E. split; [|done]. split; unfold life_net, life_tab, life_world in *; by rewrite E. Qed.
Lemma configured_server l l' : lf_server l' = lf_server l -> configured l -> configured l'.
Proof. intros E [[] Hs]. unfold configured, life_tab, life_world. rewrite E. split; [|done]. split; unfold life_net, life_tab, life_world in *; by rewrite E. Qed.
Lemma born_server l l' : lf_server l' = lf_server l -> born l -> born l'.
Proof.
  intros E [Hc Ht]. unfold born, life_tab, life_net, life_world in *. rewrite E. split; [|done].
  by apply (calm_conf (life_conf l)); [cbn; rewrite E..|].
Qed.

#[local] Instance delete_pidfile_still : still server_app_delete_pidfile.
Proof. unfold server_app_delete_pidfile. apply with_bootstrap_still. stills. Qed.

Lemma init_conf_configured l : new_life l -> ends (init_conf base) (fun _ l' => configured l') l.
Proof.
  intros [[Hio Hcount Hcl Hch Hlast] Hs]. unfold ends, init_conf, Conf_Init, mbind, CM_bind. cbv zeta.
  pose proof (Load_And_Validate_Config_ok (H := base) sys_getaddrinfo os_getgrnam os_getpwnam (t_now (life_tab l)) os_fopen
    os_opendir os_strerror os_gethostname os_gethostbyname (ng_ConfFile (lf_ngircd l)) os_salt false true false
    (ss_conf (lf_server l)) Hs) as Hload.
  destruct (Load_And_Validate_Config _ _ _ _ _ _ _ _ _ _ _ _ _ _ _) as [ok c| |]; [|done..].
  destruct Hload as [Hok _]. split; [by split|]. exact (cf_length _ Hok).
Qed.

Lemma init_preloop_configured syslog p :
  new_life (pr_life p) -> ends (server_app_init_preloop base syslog) (fun _ p' => configured (pr_life p')) p.
Proof.
  intros Hp. unfold server_app_init_preloop. apply ends_bind, ends_in_life. eapply ends_mono; [by apply init_conf_configured|].
  intros [] l Hl. apply (ends_still configured); [stills|apply configured_server|done].
Qed.

Lemma init_predefined_born l : born l -> ends (init_predefined_channels base rand depth) (fun _ l' => born l') l.
Proof.
  intros Hl. unfold init_predefined_channels. apply ends_bind. eapply ends_mono.
  { apply live_born; [intros C I HI; apply keeps_stable; apply _|intros C I HI; apply _|done]. }
  intros preds l' [Hc Ht]. split; [|exact Ht]. by apply (calm_conf (life_conf l')).
Qed.

(** There are no sockets from a service manager. *)
Lemma Conn_InitListeners_stable `{Conf} `{IO : ConnIO} `{!ConnIOKeeps IO} : my_sd_listen_fds <= 0 -> stable Conn_InitListeners.
Proof.
  intros Hsd w Hw. unfold Conn_InitListeners. apply wlp_bind. unfold asserting. destruct Conf_ListenAddress as [a|]; [|done].
  apply wlp_ret. cbv zeta. case_match; [by apply follows_refl|]. rewrite (proj2 (Z.ltb_ge _ _)) by done.
  by apply listen_on_stable.
Qed.

Lemma ends_lasting {A} (m : Proc PROCESS A) Q p :
  lasting m -> ends m Q p -> ends m (fun a p' => later p p' /\ Q a p') p.
Proof. intros Hl. unfold ends. destruct (m p) eqn:E; [|done..]. intros HQ. split; [by eapply Hl|done]. Qed.

Lemma init_listeners_born p :
  our_transport api p -> my_sd_listen_fds <= 0 -> born (pr_life p) ->
  ends server_app_init_listeners (fun _ p' => born (pr_life p')) p.
Proof.
  intros Hp Hsd Hb. unfold server_app_init_listeners. apply ends_transport; [done| |by apply ends_ret].
  cbn [NetTransportApi nt_init_listeners]. apply ends_in_life. unfold net_transport_init_listeners. apply ends_bind.
  eapply ends_mono; [apply live_born; [intros; by apply Conn_InitListeners_stable|intros; apply _|done]|].
  intros created l Hl. by apply ends_ret.
Qed.

(** The steps of a life whose modules are those of the program. *)
Lemma must_step (P Q : LIFE -> Prop) m p :
  lasting m -> our_transport api p -> ends m (fun st p' => st = CORE_STATUS_OK -> Q (pr_life p')) p ->
  ends (must m) (fun _ p' => our_transport api p' /\ Q (pr_life p')) p.
Proof.
  intros Hl Hp Hm. apply ends_must. eapply ends_mono; [by apply ends_lasting|].
  intros st p' [Hlater HQ] Hst. split; [by apply (our_transport_later _ p)|by apply HQ].
Qed.

Lemma still_step (P : LIFE -> Prop) m p :
  still m -> lasting m -> (forall l l', lf_server l' = lf_server l -> P l -> P l') -> our_transport api p /\ P (pr_life p) ->
  ends (must m) (fun _ p' => our_transport api p' /\ P (pr_life p')) p.
Proof.
  intros Hs Hl HP [Hp HPp]. apply (must_step P P); [done..|]. eapply ends_mono; [by apply (ends_still P)|]. by intros st p' ? _.
Qed.

Lemma start_born NoDaemon NoSyslog p :
  our_transport api p -> my_sd_listen_fds <= 0 -> new_life (pr_life p) ->
  ends (start_life base rand depth NoDaemon NoSyslog) (fun _ p' => our_transport api p' /\ born (pr_life p')) p.
Proof.
  intros Hp Hsd Hn. unfold start_life. apply ends_bind. unfold set_signals at 1, puts at 1, ends at 1.
  set (p1 := set_pr_life _ _).
  assert (our_transport api p1 /\ new_life (pr_life p1)) as H1 by (split; [done|]; destruct Hn as [[] ?]; split; [by split|done]).
  clearbody p1.
  apply ends_bind. eapply ends_mono; [apply (still_step new_life); [apply _..|apply new_life_server|done]|]. intros [] p2 H2.
  apply ends_bind. eapply ends_mono; [apply (still_step new_life); [apply _..|apply new_life_server|done]|]. intros [] p3 [Ht3 H3].
  apply ends_bind. eapply ends_mono.
  { apply (must_step new_life configured); [apply _|done|]. eapply ends_mono; [by apply init_preloop_configured|]. by intros. }
  intros [] p4 H4.
  apply ends_bind. eapply ends_mono; [apply (still_step configured); [apply _..|apply configured_server|done]|]. intros [] p5 [Ht5 H5].
  apply ends_bind. eapply ends_mono; [by apply (must_step configured born), init_runtime_loop_born; [apply _|..]|]. intros [] p6 H6.
  apply ends_bind. eapply ends_mono; [apply (still_step born); [apply _..|apply born_server|done]|]. intros [] p7 [Ht7 H7].
  apply ends_bind. eapply ends_mono.
  { apply (must_step born born); [unfold server_app_init_predefined_channels; lasts|done|].
    unfold server_app_init_predefined_channels. apply ends_bind, ends_in_life. eapply ends_mono; [by apply init_predefined_born|].
    intros [] l Hl. by apply ends_ret. }
  intros [] p8 [Ht8 H8].
  apply ends_bind. eapply ends_mono; [apply ends_lasting; [apply _|by apply init_listeners_born]|]. intros st p9 [Hl9 H9].
  pose proof (our_transport_later _ _ _ Hl9 Ht8) as Ht9. apply ends_bind. destruct (failed st).
  - apply ends_bind. eapply ends_mono; [apply delete_pidfile_still|done].
  - apply ends_ret. by apply (still_step born); [apply _..|apply born_server|].
Qed.

(** What is known of a process that is in its main loop. *)
Definition in_order (l : LIFE) : Prop := orderly (H := life_conf l) (life_net l) /\ tables_ok (life_tab l).

Lemma run_loop_in_order p :
  our_transport api p -> born (pr_life p) ->
  match server_app_run_loop p with Running p' => in_order (pr_life p') | _ => True end.
Proof.
  intros Hp [Hc Ht]. unfold server_app_run_loop, s_transport_api, transport_of, mbind, Proc_bind, gets.
  destruct (pr_transport p) as [[| |a|]|] eqn:E; try done. rewrite (Hp a E). cbn [mret Proc_ret NetTransportApi nt_run].
  unfold in_life, net_transport_run, mbind, Proc_bind, live.
  destruct (Conn_Handler _ _ _ _) as [ended w|] eqn:Er; [|done]. destruct ended; [done|]. cbn [pr_life set_pr_life]. split.
  - pose proof (Conn_Handler_stable (H := life_conf (pr_life p)) (IO := @conn_io (life_conf (pr_life p)) rand depth)
      read_lines rand rounds (life_world (pr_life p)) Hc) as Hw.
    unfold wlp in Hw. rewrite Er in Hw. apply (calm_orderly (H := life_conf _)).
    apply (calm_conf (life_conf (pr_life p))); [done..|apply Hw].
  - by apply (Conn_Handler_sound (H := life_conf (pr_life p)) (IO := @conn_io (life_conf (pr_life p)) rand depth)
      read_lines rand rounds (life_world (pr_life p)) false w Er).
Qed.

(** *** The whole program *)

(** The configuration module names a file for the process number, if it answers. *)
Definition names_file (t : module_table) : Prop :=
  match t with
  | ConfigTable a => forall b, ca_get_bootstrap a = Some (CORE_STATUS_OK, b) ->
      exists f, cb_pid_file b = Some f /\ f <> ""
  | _ => True
  end.

Lemma create_pidfile_named p p' :
  (forall t, pr_config p = Some t -> names_file t) -> server_app_create_pidfile p = Return CORE_STATUS_OK p' ->
  exists f, pid_file p = Some f.
Proof.
  unfold server_app_create_pidfile, with_bootstrap, server_app_get_bootstrap, s_config_api, pid_file, mbind, Proc_bind, gets.
  intros Hn. destruct (pr_config p) as [[|a| |]|]; try done. specialize (Hn _ eq_refl). cbn in Hn |- *.
  destruct (ca_get_bootstrap a) as [[[] b]|]; try done. destruct (Hn b eq_refl) as (f & -> & Hne). intros _.
  exists f. by destruct f.
Qed.

Lemma start_named NoDaemon NoSyslog p p' :
  (forall t, pr_config p = Some t -> names_file t) -> start_life base rand depth NoDaemon NoSyslog p = Return tt p' ->
  exists f, pid_file p = Some f.
Proof.
  intros Hn E. pose proof (start_returns _ _ _ _ E) as [Hl _]. unfold start_life in E.
  do 8 apply Proc_bind_inv in E as ([] & ? & ? & E).
  apply Proc_bind_inv in E as (st & p9 & _ & E). apply Proc_bind_inv in E as ([] & p10 & _ & E%must_inv).
  pose proof (create_pidfile_lasting _ _ _ E) as Hl'. pose proof (lt_config _ _ Hl). pose proof (lt_config _ _ Hl').
  destruct (create_pidfile_named p10 p') as [f Hf]; [|done|].
  - intros t Ht. apply Hn. congruence.
  - exists f. unfold pid_file in *. by replace (pr_config p) with (pr_config p10) by congruence.
Qed.

Lemma lives_in_order NoDaemon NoSyslog n p :
  our_transport api p -> (forall t, pr_config p = Some t -> names_file t) -> my_sd_listen_fds <= 0 -> new_life (pr_life p) ->
  match lives base rand depth n NoDaemon NoSyslog p with Running p' => in_order (pr_life p') | _ => True end.
Proof.
  intros Hp Hc Hsd Hn. destruct n as [|n]; cbn [lives]; unfold mbind at 1, Proc_bind at 1, gets; [by destruct (t_SignalQuit _)|].
  destruct (t_SignalQuit _); [done|]. unfold mbind at 1, Proc_bind at 1.
  destruct (one_life _ _ _ _ _ p) as [[] p'| |p'|] eqn:E; [|done| |done].
  - pose proof (life_returns _ _ _ _ E) as (Hl & Hi & Hf).
    apply Proc_bind_inv in E as ([] & p1 & E1 & _). destruct (start_named _ _ _ _ Hc E1) as [f Hfile].
    destruct (t_SignalQuit (life_tab (pr_life p'))) eqn:Eq.
    + destruct n; cbn [lives]; unfold mbind, Proc_bind, gets; by rewrite Eq.
    + pose proof (no_next_life NoDaemon NoSyslog p' f n) as Hnext. destruct (lives _ _ _ _ _ _ p'); [done..| |done].
      destruct Hnext; [|by rewrite (later_pid_file _ _ Hl)|by apply Hf|done].
      split; [done|by apply (our_transport_later _ p)].
  - unfold one_life, mbind, Proc_bind in E. pose proof (start_born NoDaemon NoSyslog p Hp Hsd Hn) as Hs. unfold ends in Hs.
    destruct (start_life _ _ _ _ _ p) as [[] p1| | |] eqn:E1; [|done..]. destruct Hs as [Ht Hb].
    pose proof (run_loop_in_order p1 Ht Hb) as Hr. destruct (server_app_run_loop p1) as [st p2| |p2|] eqn:E2; [|done| |done].
    + exfalso. pose proof (start_returns _ _ _ _ E1) as (_ & Hi & _). pose proof (run_loop_lasting _ _ _ E2) as Hl.
      assert (settled api p2) as Hset by (split; [by apply (lt_initialized _ _ Hl)|by apply (our_transport_later _ p1)]).
      pose proof (end_quits p2 Hset) as He. by rewrite E in He.
    + by injection E as <-.
Qed.

(** If [m] is still running, then so that [P] holds. *)
Definition while_running {A} (P : PROCESS -> Prop) (m : Proc PROCESS A) (p : PROCESS) : Prop :=
  match m p with Running p' => P p' | _ => True end.

Lemma running_bind {A B} P (Q : A -> PROCESS -> Prop) (m : Proc PROCESS A) (k : A -> Proc PROCESS B) p :
  ends m Q p -> (forall a p', Q a p' -> while_running P (k a) p') -> while_running P (m ≫= k) p.
Proof. unfold while_running, ends, mbind, Proc_bind. intros Hm Hk. destruct (m p); [by apply Hk|done..]. Qed.

Lemma running_then_ends {A B} P (m : Proc PROCESS A) (k : A -> Proc PROCESS B) p :
  while_running P m p -> (forall a p', ends (k a) (fun _ _ => True) p') -> while_running P (m ≫= k) p.
Proof.
  unfold while_running, ends, mbind, Proc_bind. intros Hm Hk. destruct (m p) as [a p'| | |]; [|done..].
  specialize (Hk a p'). by destruct (k a p').
Qed.

Lemma ends_puts (Q : unit -> PROCESS -> Prop) f p : Q tt (f p) -> ends (puts f) Q p.
Proof. done. Qed.

(** The libraries that the loader finds: the transport module is the one of this program. *)
Definition our_libraries (LoadLibraryA : string -> option dll) : Prop :=
  forall path a t, LoadLibraryA path = Some (Some (Some a)) -> cm_api a = Some t ->
    names_file t /\ forall nt, t = TransportTable nt -> nt = api.

Lemma new_life_signals quit restart p : new_life (pr_life p) -> ends (set_signals quit restart) (fun _ p' => new_life (pr_life p')) p.
Proof. intros [[] Hs]. apply ends_puts. split; [by split|done]. Qed.

(** The lives of a server whose modules have been accepted. *)
Lemma created_in_order n NoDaemon NoSyslog out p :
  (forall t, Some t ∈ module_fields out -> names_file t /\ forall nt, t = TransportTable nt -> nt = api) ->
  my_sd_listen_fds <= 0 -> new_life (pr_life p) ->
  while_running (fun p' => in_order (pr_life p')) (lives base rand depth n NoDaemon NoSyslog)
    (set_pr_modules (hm_config out) (hm_logging out) (hm_net_transport out) p).
Proof.
  intros Hout Hsd Hn. apply lives_in_order; [| |done|done].
  - intros a Ha. cbn in Ha. apply (Hout (TransportTable a)); [|done]. rewrite <- Ha. destruct out; cbn. set_solver.
  - intros t Ht. cbn in Ht. apply (Hout t). rewrite <- Ht. destruct out; cbn. set_solver.
Qed.

Lemma main_in_order LoadLibraryA GetLastError n argv p :
  our_libraries LoadLibraryA -> my_sd_listen_fds <= 0 -> new_life (pr_life p) ->
  while_running (fun p' => in_order (pr_life p')) (main base rand depth LoadLibraryA GetLastError n argv) p.
Proof.
  intros Hlib Hsd Hn. unfold main.
  eapply running_bind; [by apply new_life_signals|]. intros [] p1 H1.
  eapply running_bind; [apply (ends_still new_life); [by apply still_puts|apply new_life_server|done]|]. intros [] p2 H2.
  destruct (host_load_modules _ _ _ _ _) as [[st out] text] eqn:Eload. destruct (failed st); [done|].
  destruct (failed _); [done|]. eapply running_bind; [apply (ends_still new_life); [apply _|apply new_life_server|done]|].
  intros g p3 H3. destruct (parse_options _ _) as [code|o]; [done|].
  eapply running_bind; [apply (ends_still new_life); [by apply still_puts|apply new_life_server|done]|]. intros [] p4 H4.
  destruct (op_configtest o).
  { apply running_bind with (Q := fun _ _ => True); [|by intros]. unfold config_of. by destruct (hm_config out) as [[]|]. }
  assert (forall t, Some t ∈ module_fields out -> names_file t /\ forall nt, t = TransportTable nt -> nt = api) as Hout.
  { intros t Ht. destruct (loaded_table _ _ _ _ _ _ _ _ _ Eload Ht) as (path & a & Hl & Ha). by apply (Hlib path a). }
  apply running_bind with (Q := fun st p5 => failed st = true \/
    p5 = set_pr_modules (hm_config out) (hm_logging out) (hm_net_transport out) p4).
  { unfold server_app_create. destruct (_ || _); [by left|by right]. }
  intros st' p5 Hst. destruct Hst as [->| ->]; [done|]. destruct (_ || _); [done|].
  apply running_then_ends; [by apply created_in_order|]. intros [] p6. apply ends_bind.
  eapply ends_mono; [apply delete_pidfile_still|done].
Qed.

(** C1: the whole program.  Whatever the command line and the configuration say, whatever clients
    and servers send and whatever the system answers, from the first statement of
    main on: whenever the program is in its main loop, every connection has its slot
    and its descriptor, the numbers are right and within the limits, and the tables are consistent
    (as in the theorems on the event loop).  The transport module is the one of
    this program; the configuration module names a file for the process number, so that
    there is only one life; and no listening sockets come from a service manager. *)
Theorem program_in_order LoadLibraryA GetLastError n argv p :
  our_libraries LoadLibraryA -> my_sd_listen_fds <= 0 -> new_life (pr_life p) ->
  match win32_main base rand depth LoadLibraryA GetLastError n argv p with
  | Running p' => orderly (H := life_conf (pr_life p')) (life_net (pr_life p')) /\ tables_ok (life_tab (pr_life p'))
  | _ => True
  end.
Proof. apply main_in_order. Qed.

End Program.
