(* ===== verification/Sample.v ===== *)
(** * A small network

    A server with two local users, a linked server with a user behind it, and
    two channels: a well-formed state, at which the theorems about stateful
    operations are applied.  Every hypothesis of those theorems holds here. *)

From S2P Require Import Prelude CString Match Hash Checks Lists Messages Ipaddr Io World ClientCore.
From S2P Require Import ConnFunc ConnSpec ChannelCore State ClientSpec IrcWrite Channel.
From S2P Require Import ChannelSpec Quit Client Conn Parse Reader ReaderSpec Irc MessageSpec.
From S2P Require Import System IrcMode ModeSpec ChanModeSpec IrcOper OperSpec.

#[export] Instance sample_conf : Conf := {|
  Conf_ServerName := "irc.test";
  Conf_ServerInfo := "Test server";
  Conf_MaxNickLength := 10;
  Conf_MorePrivacy := false;
  Conf_OperCanMode := true;
  Conf_CloakHost := "";
  Conf_CloakHostModeX := "";
  Conf_CloakHostSalt := "salt";
  Conf_CloakUserToNick := false;
  Conf_MaxPenaltyTime := -1;
  Conf_ConnectRetry := 60;
  Conf_MaxJoins := 10;
  Conf_OperServerMode := false;
  Conf_AllowedChannelTypes := "#&+";
  Conf_Opers := [ConfOper "root" "secret" (Some "*!*@host.*")];
  NGIRCd_Passive := false;
  Conf_ScrubCTCP := false;
  Conf_AllowRemoteOper := false;
  Conf_Helptext := [];
  PACKAGE_NAME := "ngIRCd";
  PACKAGE_VERSION := "27";
  NGIRCd_DebugLevel := "";
  NGIRCd_ProtoID := "0210-IRC+ ngIRCd";
  Conf_PingTimeout := 120;
  Conf_PongTimeout := 20;
  Conf_DNS := true;
  Conf_NoticeBeforeRegistration := false;
  Conf_ServerAdmin1 := "";
  Conf_ServerAdmin2 := "";
  Conf_ServerAdminMail := "";
  Conf_Motd := ["Welcome"];
  Conf_Network := "";
  Conf_MaxListSize := 0;
  Conf_OperChanPAutoOp := true;
  Conf_DefaultChannelModes := "";
  NGIRCd_Version := "ngIRCd 27";
  NGIRCd_VersionAddition := "";
  NGIRCd_Start := 500;
  NGIRCd_StartStr := "Thu Jan 01 1970";
  BUILD_DATE := "Jan  1 2024";
  BUILD_TIME := "00:00:00";
  strftime_local := fun _ _ => "Thu";
  Conf_AuthPing := false;
  Conf_ServerPwd := "";
  Conf_DefaultUserModes := "";
  Conf_WebircPwd := "";
  Conf_Channels := [];
  HOST_CPU := "x86_64";
  HOST_VENDOR := "pc";
  HOST_OS := "linux";
  Conf_MaxConnections := 100;
  Conf_MaxConnectionsIP := 5;
  Conf_IdleTimeout := 0;
  Conf_ListenAddress := Some "0.0.0.0";
  Conf_ListenPorts := [6667];
  getnameinfo := fun a _ => match a with AF_INET x _ => Some (sprintf "10.0.0.%d" [FZ x]) | _ => None end |}.

(** The answers of a system with one peer.  Every watched descriptor is ready at every call; 4 is the listening socket, 5 the
    peer, 6 the end of the pipe of its resolver that is read. *)
#[export] Instance sample_system : System := {|
  sys_accept := fun _ sock => if sock =? 4 then Some (5, AF_INET 1 4000) else Some (6, loopback);
  sys_socket := fun k => if (k <? 6)%nat then Some 4 else Some (10 + Z.of_nat k);
  sys_setnonblock := fun _ _ => true;
  sys_bind := fun _ _ _ => true;
  sys_listen := fun _ _ => true;
  sys_connect := fun _ _ _ => true;
  sys_so_error := fun _ _ => Some 0;
  sys_getsockname := fun _ _ => Some loopback;
  sys_pipe_send := fun _ _ _ => true;
  sys_recv := fun k fd =>
    if fd =? 6 then Received (String LF "")
    else if (k <? 24)%nat then Received ("NICK dave" +:+ String LF ("USER dave 0 * :Dave" +:+ String LF ""))
    else RecvAgain;
  sys_read_addrs := fun _ _ => [];
  sys_select := fun _ r w _ _ => Ready r w;
  sys_clock := fun k => 2000 + Z.of_nat k;
  sys_getaddrinfo := fun _ port => Some (AF_INET 0 6667);
  sys_getenv := fun _ => None |}.

#[export] Instance sample_io : ConnIO := conn_io 7 3.
#[export] Instance sample_io_spec : ConnIOSpec sample_io := conn_io_spec 7 2.

Definition mk_client (id : string) (type conn : Z) (introducer : ptr) (user modes : string) : CLIENT :=
  Client 1000 id (Hash id) type conn introducer NULL "host.test" None None user "Info" modes 0 0 1
    None "" None 0.

Definition irc_test := mk_client "irc.test" CLIENT_SERVER NONE (Some 0%nat) "" "".
Definition alice := mk_client "alice" CLIENT_USER 0 (Some 0%nat) "~alice" "".
Definition bob := mk_client "Bob" CLIENT_USER 1 (Some 0%nat) "~bob" "i".
Definition hub_test := mk_client "hub.test" CLIENT_SERVER 2 (Some 0%nat) "" "".
Definition carol := mk_client "carol" CLIENT_USER NONE (Some 3%nat) "~carol" "".

Definition chat := Channel "#Chat" (Hash "#Chat") "n" None 1000 0 "" "" 0
  [ListElem "evil!*@*" None 1000 false] [] [] None.
Definition local := Channel "&SERVER" (Hash "&SERVER") "mnPt" None 1000 0 "" "" 0 [] [] [] None.

Definition mk_conn (sock : Z) (client : ptr) : CONNECTION :=
  set_cn_client client (set_cn_sock sock (free_slot 1000)).

(** What the second user has sent: a request whose last parameter is empty, and
    another one behind it. *)
Definition sample_line : string := "MODE Bob +w :".

Definition sample_mode : string := sample_line +:+ String CR (String LF ("WHO s" +:+ String CR (String LF ""))).

(** The three connections are watched. *)
Definition sample_events : IO :=
  MkIO [IoEvent (Some CbClientServer) 1; IoEvent (Some CbClientServer) 1; IoEvent (Some CbClientServer) 1]
    {[0; 1; 2]} ∅ 2 true.

Definition sample : World := MkWorld
  (MkTables
     {[0%nat := irc_test; 1%nat := alice; 2%nat := bob; 3%nat := hub_test; 4%nat := carol]}
     [4; 3; 2; 1; 0]%nat 0
     {[10%nat := chat; 11%nat := local]} [11; 10]%nat
     [Cl2Chan 4 10 "v"; Cl2Chan 2 10 ""; Cl2Chan 1 10 "o"]%nat
     20 (replicate 64 (Whowas 0 "" "" "" "" "")) (-1) 3 2 [] [[]; []] 2000 My_Commands false false)
  (MkNet [mk_conn 0 (Some 1%nat); set_cn_rbuf sample_mode (mk_conn 1 (Some 2%nat)); mk_conn 2 (Some 3%nat); free_slot 1000]
     3 0 0 (fun _ s => Sent (strlen s)) 0 3 3 sample_events [] []).

(** Case analysis on the entries of a finite map or list. *)
Ltac map_cases H :=
  repeat first [ apply lookup_insert_Some in H as [[<- <-]|[_ H]]
               | apply lookup_singleton_Some in H as [<- <-]
               | by apply lookup_empty_Some in H ].

Ltac list_cases i H := repeat (destruct i as [|i]; [injection H as <-|]); try done.

Lemma sample_clients a c : t_clients (w_tab sample) !! a = Some c ->
  In (a, c) [(0, irc_test); (1, alice); (2, bob); (3, hub_test); (4, carol)]%nat.
Proof. intros H. cbn [sample w_tab t_clients] in H. map_cases H; simpl; tauto. Qed.

Ltac sample_cases H :=
  apply sample_clients in H; simpl in H;
  destruct H as [[= <- <-]|[[= <- <-]|[[= <- <-]|[[= <- <-]|[[= <- <-]|[]]]]]].

Lemma sample_ok : state_ok sample.
Proof.
  split.
  - done.
  - intros i c Hc. list_cases i Hc; vm_compute; by eexists.
  - intros i c Hc. list_cases i Hc;
      first [by left|right; split; [reflexivity|by apply Nat.ltb_lt]].
  - intros i c h Hc Hh. list_cases i Hc; by injection Hh as <-.
  - intros a c Hc. sample_cases Hc; reflexivity.
  - intros a c Hc. sample_cases Hc; unfold local_ok, conn_open.
    all: first [by left|right; split; [split; [done|eexists; split_and!; [done..|by apply Nat.ltb_lt]]|done]].
  - apply (bool_decide_eq_true_1 (NoDup _)). reflexivity.
  - apply (bool_decide_eq_true_1 (Forall _ _)). vm_compute. reflexivity.
  - by eexists.
  - reflexivity.
  - repeat constructor; by eexists.
  - apply (bool_decide_eq_true_1 (NoDup _)). reflexivity.
  - repeat constructor; cbn; try set_solver.
    all: eexists _, _; split; [vm_compute; reflexivity|split; [vm_compute; reflexivity|done]].
  - apply (bool_decide_eq_true_1 (NoDup _)). reflexivity.
Qed.

Lemma sample_channels_ok : channels_ok (w_tab sample).
Proof.
  split.
  - intros a c Hc. cbn [sample w_tab t_channels] in Hc. map_cases Hc; reflexivity.
  - intros a b c d _ _ Hc Hd. cbn [sample w_tab t_channels] in Hc, Hd.
    map_cases Hc; map_cases Hd; try done; intros E; vm_compute in E; discriminate.
  - intros a c _ Hc. cbn [sample w_tab t_channels] in Hc. map_cases Hc; [by right|by left].
  - intros a [c Hc]. cbn [sample w_tab t_channels] in Hc. map_cases Hc; cbn; lia.
Qed.

Lemma sample_bob : t_clients (w_tab sample) !! 2%nat = Some bob.
Proof. reflexivity. Qed.

Lemma sample_routed a : In a [1; 2; 3; 4]%nat -> routed sample a.
Proof.
  intros H. simpl in H. destruct H as [<-|[<-|[<-|[<-|[]]]]];
    (eexists _, _; split; [vm_compute; reflexivity|split; [vm_compute; reflexivity|done]]).
Qed.

(** ** The theorems at this state *)

Lemma Channel_Search_spec_witness :
  exists r, Channel_Search "#CHAT" sample = Done r sample /\ (r = Some 10%nat <-> 10%nat ∈ [11; 10]%nat /\
    exists c, t_channels (w_tab sample) !! 10%nat = Some c /\ case_eq "#CHAT" (ch_name c)).
Proof.
  destruct (Channel_Search_spec sample "#CHAT") as (r & Hr & Hs).
  - exact (so_channels _ sample_ok).
  - exact sample_channels_ok.
  - exists r. split; [exact Hr|exact (Hs 10%nat)].
Defined.

Lemma IRC_WriteStrChannelPrefix_spec_witness :
  wp (IRC_WriteStrChannelPrefix (Some 2%nat) (Some 10%nat) (Some 2%nat) true "PRIVMSG %s :Hi" [FS "#Chat"])
    (fun _ w' => state_ok w') sample.
Proof.
  eapply wp_mono.
  - apply (IRC_WriteStrChannelPrefix_spec sample (Some 2%nat) (Some 10%nat) 2%nat bob);
      [exact sample_ok|discriminate|discriminate|reflexivity].
  - intros u w' (_ & H & _). exact H.
Defined.

Lemma Channel_Join_spec_witness :
  exists r w', Channel_Join (Some 2%nat) "#new" sample = Done r w' /\ state_ok w' /\ channels_ok (w_tab w').
Proof.
  destruct (Channel_Join_spec sample 2%nat "#new") as (r & ch & w' & Hj & H1 & H2 & _).
  - exact sample_ok.
  - exact sample_channels_ok.
  - apply sample_routed. simpl. tauto.
  - reflexivity.
  - exists r, w'. split; [exact Hj|]. split; [exact H1|exact H2].
Defined.

Lemma Channel_Part_spec_witness :
  exists w', Channel_Part (Some 2%nat) (Some 2%nat) "#chat" "bye" sample = Done true w' /\
    existsb (is_member (Some 10%nat) (Some 2%nat)) (t_My_Cl2Chan (w_tab w')) = false.
Proof.
  destruct (Channel_Part_spec sample 2%nat bob 2%nat bob 10%nat chat "#chat" "bye")
    as (w1 & w2 & w' & Hp & _ & _ & _ & _ & _ & Hm);
    [exact sample_ok|exact sample_channels_ok|reflexivity..|].
  exists w'. split; [exact Hp|exact Hm].
Defined.

Lemma Channel_Kick_spec_witness :
  wp (Channel_Kick (Some 1%nat) (Some 2%nat) (Some 1%nat) "#chat" "out") (fun _ w' =>
    existsb (is_member (Some 10%nat) (Some 2%nat)) (t_My_Cl2Chan (w_tab w')) = false) sample.
Proof.
  eapply wp_mono.
  - apply (Channel_Kick_spec sample 1%nat alice 2%nat bob irc_test "#chat" "out");
      [exact sample_ok|exact sample_channels_ok|reflexivity..].
  - intros u w'. replace (kick_reply _ _ _ _ _ _) with (@None (string * list farg)) by (vm_compute; reflexivity).
    intros (ch & c & w1 & w2 & Hf & _ & _ & _ & _ & _ & _ & Hm).
    replace (find_channel (w_tab sample) "#chat") with (Some 10%nat) in Hf by (vm_compute; reflexivity).
    injection Hf as <-. exact Hm.
Defined.

Lemma Can_Send_To_Channel_spec_witness :
  Can_Send_To_Channel (Some 10%nat) (Some 2%nat) sample = Done true sample.
Proof.
  rewrite (Can_Send_To_Channel_spec sample 10%nat chat 2%nat bob);
    [reflexivity|reflexivity|reflexivity|reflexivity|by repeat constructor|by constructor].
Defined.

Lemma Channel_Write_spec_witness :
  exists w', Channel_Write (Some 10%nat) (Some 2%nat) (Some 2%nat) "PRIVMSG" true "Hi" sample = Done true w'.
Proof.
  destruct (Channel_Write_spec sample 10%nat chat 2%nat bob irc_test "PRIVMSG" true "Hi") as (w' & Hw & _);
    [exact sample_ok|reflexivity|reflexivity|reflexivity|reflexivity|by repeat constructor|by constructor|].
  exists w'. exact Hw.
Defined.

Lemma Client_Mode_spec_witness :
  exists added deleted, Client_ModeAdd (Some 2%nat) "o" sample = Done true (with_modes sample 2 bob added) /\
    Client_ModeDel (Some 2%nat) "o" (with_modes sample 2 bob added) = Done true (with_modes sample 2 bob deleted) /\
    deleted = "i".
Proof.
  destruct (Client_Mode_spec sample 2%nat bob "o") as (added & deleted & Ha & _ & _ & Hd & _ & _ & He);
    [reflexivity|discriminate|reflexivity|by apply Nat.ltb_lt|].
  exists added, deleted. split; [exact Ha|]. split; [exact Hd|]. apply He. reflexivity.
Defined.

Lemma Client_IsValidNick_spec_witness :
  no_nul "al_ice;1" = true /\ (Client_IsValidNick "al_ice;1" = true -> (slen "al_ice;1" < 10)%nat).
Proof.
  split; [reflexivity|]. intros H.
  destruct (proj1 (Client_IsValidNick_spec "al_ice;1" eq_refl) H) as [Hl _]. exact Hl.
Defined.

Lemma Client_NextHop_spec_witness :
  Client_NextHop (Some 4%nat) sample = Done (Some 3%nat) sample.
Proof.
  apply Client_NextHop_spec.
  apply (reached_behind _ 4%nat carol 3%nat); [reflexivity|reflexivity|discriminate|discriminate|].
  apply (reached_here _ 3%nat hub_test); [reflexivity|]. right. right. reflexivity.
Defined.

Lemma Conn_WriteStr_spec_witness :
  exists w', @Conn_WriteStr (conn_io 7 3) 0 "PING :%s" [FS "irc.test"] sample = Done true w'.
Proof.
  destruct (Conn_WriteStr_spec 7 2 sample 0 "PING :%s" [FS "irc.test"]) as (text & w' & Hw & _).
  - exact (so_accepts _ sample_ok).
  - exact (so_conns _ sample_ok).
  - split; [lia|]. eexists. split; [reflexivity|]. split; [reflexivity|by apply Nat.ltb_lt].
  - exists w'. exact Hw.
Defined.

(** The same network with output waiting for the first user, of which send(2)
    takes the first three bytes. *)
Definition sample_partial : World :=
  set_w_net (set_n_send (fun _ _ => Sent 3)
    (set_n_conns (<[0%nat := set_cn_wbuf "PING :x" (mk_conn 0 (Some 1%nat))]> (n_conns (w_net sample)))
       (w_net sample))) sample.

Lemma Handle_Write_spec_witness :
  exists c', (exists w', Handle_Write 0 sample_partial = Done true w') /\ stream c' = "PING :x".
Proof.
  pose proof (Handle_Write_spec sample_partial 0 (set_cn_wbuf "PING :x" (mk_conn 0 (Some 1%nat)))
    ltac:(lia) eq_refl eq_refl ltac:(discriminate)) as H.
  destruct H as (c' & Hw & _ & Hs & _); [vm_compute; split; discriminate|].
  exists c'. split; [eexists; exact Hw|]. rewrite Hs. reflexivity.
Defined.

Lemma Channel_Quit_spec_witness :
  exists w', Channel_Quit (Some 2%nat) "bye" sample = Done tt w' /\
    t_My_Cl2Chan (w_tab w') = [Cl2Chan 4 10 "v"; Cl2Chan 1 10 "o"]%nat.
Proof.
  destruct (Channel_Quit_spec sample 2%nat bob "bye") as (w' & Hq & _ & _ & _ & _ & _ & Hm);
    [exact sample_ok|exact sample_channels_ok|reflexivity|].
  exists w'. split; [exact Hq|exact Hm].
Defined.

(** A server may not speak for a client that is not behind it. *)
Lemma Validate_Prefix_spec_witness :
  let Req := Request (Some "alice") "PRIVMSG" ["#Chat"; "hi"] in
  Validate_Prefix 2 Req sample = Done (Req, false, false) sample.
Proof.
  apply (Validate_Prefix_spec sample 2 (mk_conn 2 (Some 3%nat)) 3%nat hub_test
    (Request (Some "alice") "PRIVMSG" ["#Chat"; "hi"]) "alice").
  - exact sample_ok.
  - intros a c Hc _. sample_cases Hc; reflexivity.
  - intros x Hx. cbn [sample w_tab t_My_Clients] in Hx. apply list_elem_of_In in Hx. simpl in Hx.
    repeat (destruct Hx as [<-|Hx]; [by eexists|]). destruct Hx.
  - discriminate.
  - reflexivity.
  - reflexivity.
  - reflexivity.
  - reflexivity.
  - right. left. reflexivity.
  - reflexivity.
  - discriminate.
Defined.

Lemma Handle_Request_spec_witness :
  exists w', Handle_Request (fun _ _ _ => mret true) (fun _ _ _ => mret true) 0
      (Request None "NJOIN" ["#Chat"; "alice"]) sample = Done true w' /\
    delivered (error_to irc_test alice ERR_NOTREGISTEREDSERVER_MSG []) sample w'.
Proof.
  apply (Handle_Request_spec (fun _ _ _ => mret true) (fun _ _ _ => mret true) sample 0
    (mk_conn 0 (Some 1%nat)) 1%nat alice irc_test (Request None "NJOIN" ["#Chat"; "alice"])).
  - exact sample_ok.
  - apply (bool_decide_eq_true_1 (Forall _ _)). vm_compute. reflexivity.
  - discriminate.
  - reflexivity.
  - reflexivity.
  - reflexivity.
  - reflexivity.
  - reflexivity.
  - reflexivity.
Defined.

Lemma sample_sender : sender_ok 2 bob irc_test sample.
Proof. split; [exact sample_ok|]. split; [reflexivity|]. split; [reflexivity|]. split; reflexivity. Qed.

Lemma sample_talk : talk_ok sample.
Proof.
  split.
  - intros a c Hc _. sample_cases Hc; reflexivity.
  - intros a c Hc. cbn [sample w_tab t_channels] in Hc. map_cases Hc; split; by repeat constructor.
  - intros a c Hc Hp. sample_cases Hc; vm_compute in Hp; try discriminate Hp; apply sample_routed; simpl; tauto.
Qed.

(** A private message, the same target again, and a message to a channel. *)
Lemma Send_Message_spec_witness :
  let Req := Request None "PrivMsg" ["CAROL,carol,#chat"; "Hi"] in
  exists w', Send_Message (Some 2%nat) Req CLIENT_USER true sample = Done true w' /\
    delivered (targets_lines sample 2 bob irc_test true "PRIVMSG" "Hi" [] ["CAROL"; "carol"; "#chat"]) sample w'.
Proof.
  destruct (Send_Message_spec sample 2 bob irc_test (Request None "PrivMsg" ["CAROL,carol,#chat"; "Hi"])
    true "CAROL,carol,#chat" "Hi") as (_ & w' & Hw & D);
    [exact sample_sender|exact sample_channels_ok|exact sample_talk|reflexivity|discriminate| |].
  - apply (bool_decide_eq_true_1 (Forall _ _)). vm_compute. reflexivity.
  - exists w'. split; [exact Hw|exact D].
Defined.

Lemma NOTICE_without_text_witness :
  Parse_Request (fun _ => IRC_NOTICE) (fun _ _ _ => mret true) 0 "notice bob" sample = Crash NullDeref.
Proof.
  apply (NOTICE_without_text (fun _ => IRC_NOTICE) (fun _ _ _ => mret true) sample 0
    (mk_conn 0 (Some 1%nat)) 1 alice "notice bob" "notice" ["bob"]);
    first [reflexivity|discriminate|apply le_n|apply (bool_decide_eq_true_1 (_ ∈ _)); vm_compute; reflexivity].
Defined.

(** The same network with two requests and the beginning of a third one in the
    read buffer of the first user, after an empty line. *)
Definition crlf (s : string) : string := s +:+ String CR (String LF "").

Definition sample_input : string := crlf "" +:+ crlf "PING a" +:+ String LF "PING b" +:+ crlf "" +:+ "PI".

Definition sample_reading : World :=
  set_w_net (set_n_conns (<[0%nat := set_cn_rbuf sample_input (mk_conn 0 (Some 1%nat))]>
    (n_conns (w_net sample))) (w_net sample)) sample.

Definition sample_command : string -> ptr -> REQUEST -> M bool := fun _ _ _ => mret true.

Definition sample_numeric : Z -> ptr -> REQUEST -> M bool := fun _ _ _ => mret true.

(** Reading a known buffer line by line. *)
Ltac read_lines n :=
  repeat (destruct n as [|n]; [exact I|];
    cbn [undisturbed]; repeat (cbv zeta beta; match goal with
    | |- context [String.eqb ?a ?b] => let r := eval vm_compute in (String.eqb a b) in change (String.eqb a b) with r; cbn iota
    end);
    intros w2 E; vm_compute in E;
    first [injection E as <-; split; [eexists; split; reflexivity|]; clear; intros w2 E; vm_compute in E; injection E as <-
          |injection E as <-]; clear);
  destruct n; exact I.

Lemma sample_undisturbed n :
  undisturbed sample_command sample_numeric n 0 (segs sample_input).1 sample_input sample_reading.
Proof.
  replace (segs sample_input).1 with [("", 2); ("PING a", 8); ("", 1); ("PING b", 8)]%nat by (vm_compute; reflexivity).
  unfold sample_reading. read_lines n.
Qed.

Lemma reading_spec_witness :
  process_loop sample_command sample_numeric 3 0 1000 0 sample_reading =
    feed sample_command sample_numeric 3 0 1000 0 [("", 2); ("PING a", 8); ("", 1); ("PING b", 8)]%nat sample_reading /\
  frames "" sample_input = (["PING a"; "PING b"], "PI").
Proof.
  destruct (reading_spec sample_command sample_numeric 0 1000 3 0 sample_input "" "" sample_reading) as (H1 & H2 & _);
    [lia|by eexists|reflexivity|apply sample_undisturbed|].
  split; [exact H1|exact H2].
Defined.

(** Two rounds with room for three lines each read everything but the unfinished
    last line. *)
Definition sample_round (starttime : Z) (w : World) : World :=
  match process_loop sample_command sample_numeric 3 0 starttime 0 w with
  | Done _ w' => w'
  | _ => w
  end.

Definition sample_half : World := sample_round 1000 sample_reading.

Lemma sample_undisturbed_half n :
  undisturbed sample_command sample_numeric n 0 (segs (crlf "PING b" +:+ "PI")).1 (crlf "PING b" +:+ "PI") sample_half.
Proof.
  replace (segs (crlf "PING b" +:+ "PI")).1 with [("PING b", 8)]%nat by (vm_compute; reflexivity).
  read_lines n.
Qed.

Lemma sample_rounds :
  rounds sample_command sample_numeric 0 3 2 sample_reading (sample_round 1001 sample_half).
Proof.
  apply (rounds_more _ _ 0 3 1 1000 0 sample_input 11 sample_reading sample_half sample_half);
    [by eexists|apply sample_undisturbed|vm_compute; reflexivity|done|].
  apply (rounds_more _ _ 0 3 0 1001 0 (crlf "PING b" +:+ "PI") 8 sample_half
    (sample_round 1001 sample_half) (sample_round 1001 sample_half));
    [eexists; split; vm_compute; reflexivity|apply sample_undisturbed_half|vm_compute; reflexivity|done|constructor].
Qed.

Lemma reading_progress_witness :
  exists rest, rbuf_is (sample_round 1001 sample_half) 0 rest /\ segs rest = ([], "PI").
Proof.
  destruct (reading_progress sample_command sample_numeric 0 3 2 sample_input sample_reading (sample_round 1001 sample_half))
    as (_ & rest & Hr & E & _); [lia|by eexists|reflexivity|exact sample_rounds|].
  exists rest. split; [exact Hr|]. rewrite E. vm_compute. reflexivity.
Defined.

(** ** Modes and operators *)

Lemma sample_user : user_ok 2 sample bob.
Proof. split; [exact sample_ok|]. split; [reflexivity|]. split; reflexivity. Qed.


(** The [s] of the request behind this one becomes a mode. *)
Lemma MODE_empty_parameter_witness :
  exists r w', IRC_MODE (Some 2%nat) (Request None "MODE" ["Bob"; "+w"; ""]) sample = Done r w' /\
    t_clients (w_tab w') !! 2%nat = Some (set_cl_modes "iws" bob).
Proof.
  destruct (MODE_empty_parameter 2 sample bob (set_cn_rbuf sample_mode (mk_conn 1 (Some 2%nat))) sample_line
    ("WHO s" +:+ String CR (String LF "")) (Request None "MODE" ["Bob"; "+w"; ""]) "Bob" "+w" []) as (r & w' & Hr & Ht);
    [exact sample_user|exact (to_hashed _ sample_talk)|exact sample_channels_ok|reflexivity..| |].
  - right. apply (bool_decide_eq_true_1 (Forall _ _)). vm_compute. reflexivity.
  - exists r, w'. split; [exact Hr|]. rewrite Ht. vm_compute. reflexivity.
Defined.

Lemma channel_modes_safe_witness :
  exists w', IRC_MODE (Some 2%nat) (Request None "MODE" ["#chat"; "+tko"; "key"; "Bob"; "b"]) sample = Done true w' /\
    told bob sample w'.
Proof.
  apply (channel_modes_safe 2 10 bob chat sample (Request None "MODE" ["#chat"; "+tko"; "key"; "Bob"; "b"]) "#chat");
    [exact sample_user|reflexivity|exact sample_channels_ok|reflexivity|reflexivity|reflexivity|discriminate|
     reflexivity|reflexivity|intros _; reflexivity].
Defined.

Lemma OPER_spec_witness :
  exists w', IRC_OPER (Some 2%nat) (Request None "OPER" ["root"; "secret"]) sample = Done true w' /\
    t_clients (w_tab w') !! 2%nat = Some (set_cl_modes "io" bob).
Proof.
  destruct (OPER_spec 2 bob sample "root" "secret" (Request None "OPER" ["root"; "secret"])) as (w' & Hw & _ & Ht);
    [split; [exact sample_user|exact sample_channels_ok]|reflexivity|reflexivity|].
  exists w'. split; [exact Hw|]. rewrite Ht. vm_compute. reflexivity.
Defined.

(** The same network in which the user is an operator. *)
Definition sample_oper : World := user_world 2 sample bob "io".

Lemma operator_commands_witness :
  exists w', IRC_REHASH (Some 2%nat) (Request None "REHASH" []) sample_oper = Done true w' /\
    t_SignalQuit (w_tab w') = true.
Proof.
  destruct (operator_commands 2 (set_cl_modes "io" bob) sample_oper IRC_REHASH set_t_SignalQuit (Request None "REHASH" []))
    as (w' & Hw & Ht).
  - split; [|exact (with_client_channels_ok _ _ _ sample_channels_ok)].
    apply user_world_ok; [exact sample_user|right; reflexivity].
  - reflexivity.
  - reflexivity.
  - simpl. tauto.
  - exists w'. split; [exact Hw|]. rewrite Ht. reflexivity.
Defined.
