(* ===== verification/SampleConf.v ===== *)
(** * A small configuration

    The variables before the program starts, and a configuration file: the theorems
    on the configuration, applied to them and to the network of [Sample]. *)

From S2P Require Import Prelude CString Match Hash Checks Lists Messages World ClientCore.
From S2P Require Import ConnFunc ConnSpec ChannelCore State ClientSpec IrcWrite Channel Client Conn.
From S2P Require Import Ipaddr Io Servers System Login Predef PredefSpec ConfVars ConfFile ConfSpec ConfPrint Rehash Sample.

(** The variables when the program starts: all zero. *)
Definition zero_server : CONF_SERVER := ConfServer "" 0 0 0 0 "" "" 0 "" "" AF_UNSPEC (AF_UNSPEC, AF_UNSPEC) (ProcStat 0 0).

Definition zero_config : CONFIG :=
  Config (Globals "" "" "" "" "" "" None [] [] false [] "" "" "" "" 0 0) (Limits 0 0 0 0 0 0 0 0 0 0)
    (Options "" false false "" "" "" "" false false false "" "" false false "" false false false false false
       false false "" false "")
    [] [] (replicate MAX_SERVERS_nat zero_server) zero_server 0 [].

Lemma zero_static_ok : static_ok zero_config.
Proof.
  assert (server_ok zero_server) as Hz by (split; cbn; try lia; by apply Nat.ltb_lt).
  split; [by apply Nat.ltb_lt|constructor|by apply Forall_replicate|reflexivity|exact Hz| |by intros []].
  unfold MAX_SERVERS. cbn. lia.
Qed.

(** A file with a name, a server and an operator. *)
Definition sample_file : string := print_lines
  ["[Global]"; "  Name = irc.test"; "  Network = Some Net"; "[Limits]"; "MaxNickLength = 99"; "[Server]"; "Name = hub.test";
   "Port = 6667"; "[Operator]"; "Name = root"; "Password = secret"].

Definition sample_open (name : string) : option string :=
  if String.eqb name "/etc/ngircd.conf" then Some sample_file else None.

(** Starting with this file. *)
#[local] Notation load_sample := (Load_And_Validate_Config (fun _ _ => None) (fun _ => None) (fun _ => None) 1000
  sample_open (fun _ => None) (fun _ => "No such file") "host" (fun _ => None) "/etc/ngircd.conf" "salt"
  false true false zero_config).

Definition named (r : conf_result bool) (name : string) : bool :=
  match r with Ok true s => String.eqb (g_ServerName (c_global s)) name | _ => false end.

Lemma named_ok (r : conf_result bool) name (E : CONFIG -> Prop) (F : fault -> Prop) (V : bool -> CONFIG -> Prop) :
  match r with Ok valid s => conf_ok s /\ V valid s | Exit s => E s | Fault f => F f end ->
  named r name = true ->
  match r with Ok true s => conf_ok s /\ g_ServerName (c_global s) = name | _ => False end.
Proof.
  destruct r as [[] s| |]; [|done..]. intros [Hs _] Hn. split; [done|]. by apply String.eqb_eq.
Qed.

Lemma sample_named : named load_sample "irc.test" = true.
Proof. vm_compute. reflexivity. Qed.

Lemma configuration_safe_witness :
  exists r, r = load_sample /\
  match r with Ok true s => conf_ok s /\ g_ServerName (c_global s) = "irc.test" | _ => False end.
Proof.
  pose proof sample_named as Hn.
  pose proof (configuration_safe (fun _ _ => None) (fun _ => None) (fun _ => None) 1000 sample_open (fun _ => None)
    (fun _ => "No such file") "host" (fun _ => None) "/etc/ngircd.conf" "salt" false true false
    zero_config zero_static_ok) as Hc.
  exists load_sample. split; [reflexivity|]. revert Hn Hc. generalize load_sample.
  intros r Hn Hc. exact (named_ok r _ _ _ _ Hc Hn).
Defined.

(** All channel modes together are too many. *)
Lemma mode_settings_witness :
  0 < 7 /\ Handle_OPTIONS "ngircd.conf" 7 "DefaultChannelModes" CHANMODES zero_config = Fault AssertFailed.
Proof.
  assert (0 < 7) as H by lia. split; [exact H|].
  rewrite (proj1 (mode_settings "ngircd.conf" 7 "DefaultChannelModes" CHANMODES zero_config H) eq_refl).
  vm_compute. reflexivity.
Defined.

(** A channel with 512 mode lines, and one more. *)
Definition full_channel : CONF_CHANNEL := ConfChannel "#c" (replicate MODES_NUM "+n") "" "" "" false 0.
Definition full_config : CONFIG := set_c_Channels [full_channel] zero_config.

Lemma channel_mode_lines_witness :
  list.last (c_Channels full_config) = Some full_channel /\
  Handle_CHANNEL "ngircd.conf" 600 "Modes" "+t" full_config = Fault OutOfBounds.
Proof.
  split; [reflexivity|].
  rewrite (channel_mode_lines "ngircd.conf" 600 "Modes" "+t" full_config full_channel); [reflexivity|lia|reflexivity|reflexivity|].
  apply Nat.leb_le. vm_compute. reflexivity.
Defined.

Lemma operators_roundtrip_witness :
  let opers := [ConfOper "root" "secret" (Some "*!*@host.*"); ConfOper "" "x" None; ConfOper "joe" "a=b" None] in
  exists s, Read_Config_File (fun _ _ => None) (fun _ => None) (fun _ => None) 1000 "ngircd.conf"
    (print_lines (opers_puts opers)) zero_config = Ok tt s /\
  c_Opers s = [ConfOper "root" "secret" (Some "*!*@host.*"); ConfOper "joe" "a=b" (Some "")].
Proof.
  intros opers.
  pose proof (operators_roundtrip (fun _ _ => None) (fun _ => None) (fun _ => None) 1000 "ngircd.conf" opers zero_config eq_refl) as Ho.
  eexists. split; [exact Ho|]. vm_compute. reflexivity.
Defined.

(** ** Reading the configuration again *)

(** A configured channel; [freed]: its mode lines have been freed. *)
Definition channel_entry (freed : bool) (name : string) : PREDEF :=
  Predef (ConfChannel name ["+n"] "" "" "" false 0) freed.

Lemma channel_entry_usable freed name :
  (hd0 name =c NUL) = false -> Channel_IsValidName name = true -> usable (channel_entry freed name).
Proof. by split. Qed.

(** The file is read again with one more channel; one of the old ones is gone. *)
Lemma predefined_again_witness :
  (exists w', Channel_InitPredefined [channel_entry true "#chat"; channel_entry false "#chat"] sample =
     Done [channel_entry true "#chat"; channel_entry false "#chat"] w' /\ state_ok w') /\
  Channel_InitPredefined [channel_entry true "#gone"; channel_entry false "#chat"] sample = Crash UseAfterFree.
Proof.
  assert (is_Some (find_channel (w_tab sample) "&SERVER")) as Hs by by eexists.
  assert (Forall usable [channel_entry false "#chat"]) as Hn by (constructor; [by apply channel_entry_usable|constructor]).
  assert (forall name, (hd0 name =c NUL) = false -> Channel_IsValidName name = true -> Forall evaluated [channel_entry true name])
    as He by (intros name H1 H2; constructor; [split; [by apply channel_entry_usable|by split]|constructor]).
  split.
  - destruct (predefined_again sample _ _ sample_ok sample_channels_ok Hs (He "#chat" eq_refl eq_refl) Hn)
      as [_ (w' & Hw & Hok & _)]; [reflexivity|]. exists w'. split; [exact Hw|exact Hok].
  - apply (predefined_again sample [channel_entry true "#gone"] [channel_entry false "#chat"] sample_ok sample_channels_ok Hs
      (He "#gone" eq_refl eq_refl) Hn). reflexivity.
Defined.

(** Of the settings, the invariant depends only on the length of nicknames. *)
Lemma state_ok_conf (C1 C2 : Conf) w :
  @Conf_MaxNickLength C1 = @Conf_MaxNickLength C2 -> state_ok (H := C1) w -> state_ok (H := C2) w.
Proof.
  intros E []. split; try assumption. intros a c Hc. specialize (so_clients a c Hc).
  unfold client_ok in *. by rewrite <- E.
Qed.

(** A server that runs with the default settings and a name. *)
Definition defaults : CONFIG :=
  Config (default_global (c_global zero_config)) default_limits (default_options "salt" (c_options zero_config)) [] []
    (replicate MAX_SERVERS_nat (server_struct 60 1000)) zero_server 0 [].

Definition running : CONFIG := in_global (set_g_ServerName "irc.test") defaults.

Lemma running_ok : conf_ok running.
Proof.
  pose proof (Set_Defaults_ok 1000 "salt" true zero_config zero_static_ok) as Hd.
  assert ((put_conf (set_c_Opers []);; Set_Defaults 1000 "salt" true) zero_config = Ok tt defaults) as He by reflexivity.
  rewrite He in Hd. apply conf_ok_name; [by apply Nat.ltb_lt|exact Hd].
Qed.

Definition sample_running : World :=
  set_w_tab (set_t_Conf_Server (c_Server running) (w_tab sample)) sample.

(** A file with a name that has a space. *)
Definition bad_open (name : string) : option string :=
  if String.eqb name "/etc/ngircd.conf" then Some (print_lines ["[GLOBAL]"; "Name = bad name"]) else None.

#[local] Notation load_bad := (Load_And_Validate_Config (H := sample_conf) sys_getaddrinfo (fun _ => None) (fun _ => None)
  2000 bad_open (fun _ => None) (fun _ => "No such file") "host" (fun _ => None) "/etc/ngircd.conf" "salt"
  false false true running).

Definition refused (r : conf_result bool) : bool := match r with Ok false _ => true | _ => false end.

Lemma load_refused : refused load_bad = true.
Proof. vm_compute. reflexivity. Qed.

Lemma refused_case r : refused r = true -> exists c, r = Ok false c.
Proof. destruct r as [[] c| |]; try done. by exists c. Qed.

Lemma rehash_invalid_witness :
  exists c w', load_bad = Ok false c /\
    Rehash sample_conf (fun C => @conn_io C 7 3) (fun _ => None) (fun _ => None) bad_open (fun _ => None)
      (fun _ => "No such file") "host" (fun _ => None) "/etc/ngircd.conf" "salt"
      (ServerState running [] sample_running) = Rehashed (ServerState c [] w') /\
    valid_server_name (g_ServerName (c_global c)) && has_chr (g_ServerName (c_global c)) "." = false.
Proof.
  destruct (refused_case _ load_refused) as [c Hc]. exists c.
  destruct (rehash_invalid sample_conf (fun C => @conn_io C 7 3) (fun _ => None) (fun _ => None) bad_open
    (fun _ => None) (fun _ => "No such file") "host" (fun _ => None) "/etc/ngircd.conf" "salt"
    (ServerState running [] sample_running) c) as (w' & Hw & Hn).
  - apply conn_io_spec.
  - apply (state_ok_conf sample_conf); [reflexivity|].
    apply (state_ok_channels sample); try reflexivity; apply sample_ok.
  - destruct sample_channels_ok; by split.
  - exact running_ok.
  - reflexivity.
  - exact Hc.
  - exists w'. split; [exact Hc|]. split; [exact Hw|exact Hn].
Defined.
