(* ===== verification/SampleLoop.v ===== *)
(** * A server that runs

    Answers of a system with one peer, and the state at the start: the theorems about
    the event loop are applied to them.  The peer connects, its address is looked up, it sends NICK and USER, and it is
    greeted. *)

From S2P Require Import Prelude CString Match Hash Checks Lists Messages Ipaddr Io IoSpec World ClientCore.
From S2P Require Import ConnFunc ConnSpec ChannelCore State ClientSpec IrcWrite Channel Class Client Conn Servers Parse.
From S2P Require Import Reader System Login IrcLogin IrcServer Commands Accept Link EventLoop FrameTables Dangling Frame FrameState FrameConn.
From S2P Require Import FrameHandlers FrameRun FrameCalm FrameAccept FrameLoop LoopSpec Sample.

Definition boot : World := MkWorld
  (MkTables {[0%nat := irc_test]} [0]%nat 0 {[11%nat := local]} [11]%nat [] 20
     (replicate 64 (Whowas 0 "" "" "" "" "")) (-1) 0 0 (replicate 64 (Init_Server_Struct 1000)) [[]; []] 2000 My_Commands
     false false)
  (MkNet [] 0 0 0 (fun _ s => Sent (strlen s)) 0 0 0 (MkIO (replicate 10 no_event) ∅ ∅ 0 true) [] []).

Definition no_files (file : string) : option (list string) := None.

(** After some rounds: the number of connections, the first line that the peer has got,
    and what is watched. *)
Definition session (rounds : nat) : option (Z * string * list Z) :=
  match run_server no_files 7 3 rounds boot with
  | Done _ w =>
      let n := w_net w in
      (fun c => (n_NumConnections n, before CR (cn_sent c), elements (io_readers (n_io n)))) <$> n_conns n !! 5%nat
  | Crash _ => None
  end.

Example session_waits : session 1 = Some (1, "", [5; 6; 4]).
Proof. vm_compute. reflexivity. Qed.

Example session_greets :
  session 3 = Some (1, ":irc.test 001 dave :Welcome to the Internet Relay Network dave!~dave@10.0.0.1", [5; 4]).
Proof. vm_compute. reflexivity. Qed.

(** ** Witnesses *)

Lemma no_events_abs : io_abs (MkIO (replicate 10 no_event) ∅ ∅ 0 true) ∅.
Proof. apply nothing_registered. Qed.

Lemma boot_fresh : fresh_start (w_net boot).
Proof. split; [apply no_events_abs|done]. Qed.

Lemma io_refines_witness :
  io_abs (MkIO (replicate 10 no_event) ∅ ∅ 0 true) ∅ /\ allowed (Create 5 1 CbListen) ∅ /\
  exists io', run_cmd (Create 5 1 CbListen) (MkIO (replicate 10 no_event) ∅ ∅ 0 true) = Some io' /\
    5 ∈ io_readers io'.
Proof.
  assert (allowed (Create 5 1 CbListen) ∅) as Hc.
  { split; [by rewrite lookup_empty|]. split; [unfold FD_SETSIZE; lia|by left]. }
  split; [apply no_events_abs|]. split; [done|].
  destruct (io_refines _ ∅ (Create 5 1 CbListen) no_events_abs Hc) as (io' & Hrun & _ & Hr & _).
  exists io'. split; [done|]. apply Hr. exists CbListen, 1. split; [reflexivity|done].
Defined.

Lemma server_orderly_witness :
  fresh_start (w_net boot) /\
  match run_server no_files 7 3 2 boot with Done _ w => orderly (w_net w) | Crash f => f <> NoEvent end.
Proof. split; [apply boot_fresh|]. apply (server_orderly no_files 7 3 2 boot), boot_fresh. Defined.

(** The tables at the start: the client of the server, and the channel for log messages. *)
Lemma boot_tables : tables_ok (w_tab boot).
Proof.
  split; cbn [w_tab boot t_clients t_My_Clients t_channels t_My_Channels t_My_Cl2Chan t_fresh t_My_Classes t_My_Whowas
    t_Last_Whowas t_Conf_Server].
  - intros a c [<- <-]%lookup_singleton_Some. split; [|lia]. split; try (by apply Nat.ltb_lt); try done. by left; vm_compute.
  - intros a c [<- <-]%lookup_singleton_Some. split; [|lia]. split; try (by apply Nat.ltb_lt); try done.
    by intros e ?%elem_of_nil.
  - by apply NoDup_singleton.
  - intros a ->%list_elem_of_singleton. by eexists.
  - by apply NoDup_singleton.
  - intros a ->%list_elem_of_singleton. by eexists.
  - by intros m ?%elem_of_nil.
  - by apply list.NoDup_nil.
  - intros a b c d ->%list_elem_of_singleton ->%list_elem_of_singleton. by left.
  - done.
  - intros h Hh. repeat (apply elem_of_cons in Hh as [->|Hh]; [done|]). by apply elem_of_nil in Hh.
  - done.
  - intros x [-> _]%elem_of_replicate. split_and!; by apply Nat.ltb_lt.
  - done.
  - done.
Qed.

Lemma tables_consistent_witness :
  tables_ok (w_tab boot) /\
  match run_server no_files 7 3 3 boot with Done _ w => tables_ok (w_tab w) | Crash _ => True end.
Proof. split; [apply boot_tables|]. apply (tables_consistent no_files 7 3 3 boot), boot_tables. Defined.

(** ** A client that registers *)

(** The sample state with somebody who has sent a nickname on the fourth connection. *)
Definition dave : CLIENT := mk_client "dave" CLIENT_GOTNICK 3 (Some 0%nat) "" "".
Definition pending : World := MkWorld
  (MkTables (<[20%nat := dave]> (t_clients (w_tab sample))) [20; 4; 3; 2; 1; 0]%nat 0
     (t_channels (w_tab sample)) (t_My_Channels (w_tab sample)) (t_My_Cl2Chan (w_tab sample))
     21 (replicate 64 (Whowas 0 "" "" "" "" "")) (-1) 3 2 (replicate 64 (Init_Server_Struct 1000)) [[]; []] 2000 My_Commands
     false false)
  (set_n_conns [mk_conn 0 (Some 1%nat); mk_conn 1 (Some 2%nat); mk_conn 2 (Some 3%nat); mk_conn 3 (Some 20%nat)]
     (w_net sample)).

Lemma pending_tables : tables_ok (w_tab pending).
Proof.
  split; cbn [w_tab pending sample t_clients t_My_Clients t_channels t_My_Channels t_My_Cl2Chan t_fresh t_My_Classes t_My_Whowas
    t_Last_Whowas t_Conf_Server].
  - intros a c Hc. map_cases Hc; (split; [|lia]); (split; try (by apply Nat.ltb_lt); try done; by left; vm_compute).
  - intros a c Hc. map_cases Hc; (split; [|lia]); (split; try (by apply Nat.ltb_lt); try done).
    all: by intros e ?%elem_of_nil.
  - apply (bool_decide_eq_true_1 (NoDup _)). reflexivity.
  - intros a Ha. repeat (apply elem_of_cons in Ha as [->|Ha]; [by eexists|]). by apply elem_of_nil in Ha.
  - apply (bool_decide_eq_true_1 (NoDup _)). reflexivity.
  - intros a Ha. repeat (apply elem_of_cons in Ha as [->|Ha]; [by eexists|]). by apply elem_of_nil in Ha.
  - intros m Hm. repeat (apply elem_of_cons in Hm as [->|Hm]; [split; [set_solver|by apply Nat.ltb_lt]|]). by apply elem_of_nil in Hm.
  - apply (bool_decide_eq_true_1 (NoDup _)). reflexivity.
  - intros a b c d _ _ Hc Hd. cbn [t_channels] in Hc, Hd. map_cases Hc; map_cases Hd; try (by left); intros E; vm_compute in E; discriminate.
  - done.
  - intros h Hh. repeat (apply elem_of_cons in Hh as [->|Hh]; [done|]). by apply elem_of_nil in Hh.
  - done.
  - intros x [-> _]%elem_of_replicate. split_and!; by apply Nat.ltb_lt.
  - done.
  - done.
Qed.

(** The server at the other end joins the client to a channel. *)
Definition njoin_dave : M bool := IRC_NJOIN (Some 3%nat) (Request None "NJOIN" ["#Chat"; "dave"]).

Lemma pending_joins : exists r w c, njoin_dave pending = Done r w /\ t_clients (w_tab w) !! 20%nat = Some c /\
  registered c = false /\ 20%nat ∈ t_My_Clients (w_tab w) /\ Cl2Chan 20 10 "" ∈ t_My_Cl2Chan (w_tab w).
Proof.
  eexists _, _, _. split; [vm_compute; reflexivity|]. split; [vm_compute; reflexivity|]. split; [reflexivity|].
  split; [by left|]. by left.
Qed.

Lemma dangling_members_witness :
  exists r w w', njoin_dave pending = Done r w /\ Client_Destroy (Some 20%nat) None (Some "bye") true w = Done tt w' /\
  stops (fun _ => True) (IRC_WriteStrChannelPrefix (Some 1%nat) (Some 10%nat) (Some 1%nat) false "PART %s" [FS "#Chat"]) w'.
Proof.
  destruct pending_joins as (r & w & c & E & Hc & Hr & Ha & Hm).
  assert (sound njoin_dave) as Hs by (apply keeps_sound, _).
  destruct (dangling_members 20 c w None (Some "bye") true (Cl2Chan 20 10 "")) as (w' & Hd & _ & _ & Hw);
    [by apply (Hs _ _ _ E), pending_tables|exact Ha|exact Hc|exact Hr|exact Hm|reflexivity|].
  exists r, w, w'. split; [exact E|]. split; [exact Hd|]. destruct (Hw 1%nat 1%nat false "PART %s" [FS "#Chat"]) as (f & Ef & _).
  exists f. split; [exact Ef|exact I].
Defined.

(** After a round, the listening socket, the peer and the pipe of its resolver are ready. *)
Definition three_ready (o : outcome bool) : Prop :=
  match o with
  | Done _ w => ready_list (io_readers (n_io (w_net w))) (io_writers (n_io (w_net w))) = [4; 5; 6]
  | Crash _ => False
  end.

Lemma round_ready : three_ready (run_server no_files 7 3 1 boot).
Proof. vm_compute. reflexivity. Qed.

(** A state after that round. *)
Lemma round_state : exists b w, run_server no_files 7 3 1 boot = Done b w /\
  ready_list (io_readers (n_io (w_net w))) (io_writers (n_io (w_net w))) = [4; 5; 6].
Proof. pose proof round_ready as Hr. destruct (run_server no_files 7 3 1 boot) as [b w|]; [by exists b, w|done]. Qed.

Lemma dispatch_in_order_witness :
  exists w, let io := n_io (w_net w) in
    calm (w_net w) /\
    dispatch_loop (run_callback no_files 7) (S (Z.to_nat FD_SETSIZE)) 0
        (Z.of_nat (size (io_readers io) + size (io_writers io))) (io_readers io) (io_writers io) w =
      call_each no_files 7 (io_readers io) (io_writers io) [4; 5; 6] w.
Proof.
  destruct round_state as (b & w & E & Hr).
  pose proof (run_server_done no_files 7 3 1 boot b w boot_fresh E) as Hc. exists w. split; [exact Hc|].
  cbv zeta. rewrite <- Hr. apply (dispatch_in_order no_files 7 _ _ w Hc); reflexivity.
Defined.
