(* ===== verification/SampleLife.v ===== *)
(** * A program that runs

    The program from its first statement on, with the modules of the repository and the
    system of [SampleLoop]: a client logs in, becomes operator and restarts the server. *)

From S2P Require Import Prelude CString Match Hash Checks Lists Messages Ipaddr Io IoSpec World ClientCore.
From S2P Require Import ConnFunc ConnSpec ChannelCore State IrcWrite Channel Client Conn Servers Parse Reader.
From S2P Require Import Login Predef ConfVars ConfFile ConfSpec System Startup Accept EventLoop Commands FrameTables FrameCalm LoopSpec.
From S2P Require Import Rehash Process Host HostSpec ServerApp LifeSpec Sample SampleConf SampleLoop.

(** A configuration with a name and an operator. *)
Definition life_file : string := print_lines
  ["[Global]"; "  Name = irc.test"; "  Info = A server"; "[Operator]"; "Name = root"; "Password = secret"].

Definition sample_os : OS := {|
  os_chdir _ := false; os_chroot _ := false; os_fork := 0; os_creatable _ := true;
  os_seed _ := Some (true, 17); os_random := 5; os_gethostname := "host"; os_gethostbyname _ := None;
  os_getgrnam _ := None; os_getpwnam _ := None;
  os_fopen name := if String.eqb name "/etc/ngircd.conf" then Some life_file else None;
  os_opendir _ := None; os_strerror _ := "No such file"; os_salt := "salt" |}.
#[local] Existing Instance sample_os.

(** What the client sends. *)
Definition restart_session : string :=
  String.concat (String LF "") ["NICK dave"; "USER dave 0 * :Dave"; "OPER root secret"; "RESTART"; ""].

(** The sample system, with this client and without IPv6. *)
#[local] Instance restart_system : System := {|
  sys_accept := @sys_accept sample_system; sys_socket := fun k => if (k <? 12)%nat then Some 4 else Some (10 + Z.of_nat k);
  sys_setnonblock := @sys_setnonblock sample_system; sys_bind := @sys_bind sample_system;
  sys_listen := @sys_listen sample_system; sys_connect := @sys_connect sample_system;
  sys_so_error := @sys_so_error sample_system; sys_getsockname := @sys_getsockname sample_system;
  sys_pipe_send := @sys_pipe_send sample_system;
  sys_recv := fun k fd =>
    if fd =? 6 then Received (String LF "")
    else if (k <? 34)%nat then Received restart_session else RecvAgain;
  sys_read_addrs := @sys_read_addrs sample_system; sys_select := @sys_select sample_system;
  sys_clock := fun k => 2000 + 10 * Z.of_nat k;
  sys_getaddrinfo := fun a p => if String.eqb a "::" then None else Some (AF_INET 0 6667);
  sys_getenv := @sys_getenv sample_system |}.

(** The process before its first statement. *)
Definition zero_world : World := MkWorld
  (MkTables ∅ [] 0 ∅ [] [] 1 [] (-1) 0 0 (replicate MAX_SERVERS_nat zero_server) [] 1000 My_Commands false false)
  (MkNet [] 0 0 0 (fun _ s => Sent (strlen s)) 0 0 0 (MkIO [] ∅ ∅ 0 false) [] []).

Definition zero_process : PROCESS :=
  MkProcess (Life (ServerState zero_config [] zero_world) (Ngircd "" false false "" "" "" "" 0 "")) None None None false 0 ∅.

(** The libraries. *)
Definition sample_library (rounds : nat) (path : string) : option dll :=
  let lib kind t := Some (Some (Some (CoreModuleApi 1 (Some kind) (Some t)))) in
  if String.eqb path "logging.dll" then lib CORE_MODULE_KIND_LOGGING (LoggingTable managed_logging)
  else if String.eqb path "config.dll" then lib CORE_MODULE_KIND_CONFIG (ConfigTable managed_config)
  else if String.eqb path "net_transport.dll" then
    lib CORE_MODULE_KIND_NET_TRANSPORT (TransportTable (NetTransportApi sample_conf no_files 7 3 rounds))
  else match List.find (fun m => String.eqb (me_name m) path) modules with
       | Some m => lib (me_kind m) (OtherTable 1)
       | None => None
       end.

Definition run_program (rounds lives : nat) : outcome PROCESS Z :=
  win32_main sample_conf 7 3 (sample_library rounds) 0 lives ["-f"; "/etc/ngircd.conf"] zero_process.

(** How it stands: the number of connections, and the files. *)
Definition status (o : outcome PROCESS Z) : string * Z * list string :=
  let facts p := (n_NumConnections (life_net (pr_life p)), elements (pr_files p)) in
  match o with
  | Return c p => ("returned", fst (facts p), snd (facts p))
  | Exited c p => (sprintf "exited with %d" [FZ c], fst (facts p), snd (facts p))
  | Running p => ("running", fst (facts p), snd (facts p))
  | Faulted _ => ("faulted", 0, [])
  end.

Example program_serves : status (run_program 1 2) = ("running", 1, ["C:/develop/ngircd/runtime/ngircd.pid"]).
Proof. vm_compute. reflexivity. Qed.

(** After RESTART the program ends, and its file stays behind. *)
Example program_restarts : status (run_program 9 2) = ("exited with 1", 0, ["C:/develop/ngircd/runtime/ngircd.pid"]).
Proof. vm_compute. reflexivity. Qed.

(** ** Options *)

Example options_help : parse_options ["--config"; "--help"] (MkOptions "" false false false false false) = inl 0.
Proof. reflexivity. Qed.

Example options_file :
  parse_options ["-ndf"; "x.conf"; "--passive"] (MkOptions "" false false false false false) =
  inr (MkOptions "x.conf" true true true true false).
Proof. reflexivity. Qed.

(** ** Witnesses *)

Lemma zero_new_life : new_life (pr_life zero_process).
Proof. split; [|apply zero_static_ok]. by split. Qed.

Lemma sample_libraries rounds : our_libraries sample_conf no_files 7 3 rounds (sample_library rounds).
Proof.
  intros path a t Hl Ha. unfold sample_library in Hl.
  destruct (String.eqb path "logging.dll"); [injection Hl as <-; injection Ha as <-; by split|].
  destruct (String.eqb path "config.dll").
  { injection Hl as <-; injection Ha as <-. split; [|done]. intros b [= <-]. by eexists. }
  destruct (String.eqb path "net_transport.dll"); [injection Hl as <-; injection Ha as <-; split; [done|by intros nt [= <-]]|].
  destruct (List.find _ _); [|done]. injection Hl as <-. injection Ha as <-. by split.
Qed.

Lemma program_in_order_witness :
  our_libraries sample_conf no_files 7 3 1 (sample_library 1) /\ my_sd_listen_fds <= 0 /\ new_life (pr_life zero_process) /\
  match win32_main sample_conf 7 3 (sample_library 1) 0 2 ["-f"; "/etc/ngircd.conf"] zero_process with
  | Running p => orderly (H := life_conf sample_conf (pr_life p)) (life_net (pr_life p)) /\ tables_ok (life_tab (pr_life p))
  | _ => True
  end.
Proof.
  split; [apply sample_libraries|]. split; [exact (Z.le_refl 0)|]. split; [apply zero_new_life|].
  apply (program_in_order sample_conf no_files 7 3 1 (sample_library 1) 0 2 ["-f"; "/etc/ngircd.conf"] zero_process);
    [apply sample_libraries|exact (Z.le_refl 0)|apply zero_new_life].
Defined.

(** The process before its first life. *)
Definition started_process : PROCESS :=
  MkProcess (Life (ServerState zero_config [] zero_world)
      (Ngircd "/etc/ngircd.conf" false false "" "" "" "" 0 ""))
    (Some (ConfigTable managed_config)) (Some (LoggingTable managed_logging))
    (Some (TransportTable (NetTransportApi sample_conf no_files 7 3 9))) false 0 ∅.

Definition restarts (o : outcome PROCESS unit) : bool :=
  match o with Return _ p => negb (t_SignalQuit (life_tab (pr_life p))) | _ => false end.

Lemma life_restarts : restarts (one_life sample_conf 7 3 true true started_process) = true.
Proof. vm_compute. reflexivity. Qed.

Lemma restart_case : exists p, one_life sample_conf 7 3 true true started_process = Return tt p /\
  t_SignalQuit (life_tab (pr_life p)) = false.
Proof.
  pose proof life_restarts as Hr. destruct (one_life _ _ _ _ _ _) as [[] p| | |]; [|done..]. exists p. split; [done|].
  by apply negb_true_iff in Hr.
Qed.

Lemma restart_ends_witness :
  exists p, one_life sample_conf 7 3 true true started_process = Return tt p /\
    match lives sample_conf 7 3 2 true true p with
    | Exited code _ => code = 1 | Faulted _ => True | Return _ _ | Running _ => False
    end.
Proof.
  destruct restart_case as (p & E & Hq). exists p. split; [exact E|].
  apply (restart_ends sample_conf no_files 7 3 9 true true started_process p "C:/develop/ngircd/runtime/ngircd.pid" 1).
  - intros a Ha. by injection Ha as <-.
  - reflexivity.
  - exact E.
  - exact Hq.
Defined.
